(* ===== verification/_CoqProject ===== *)
-Q . S2P
Prelude.v
RingBuffer.v
Checksum.v
Nmea.v
CommTypes.v
CommRx.v
CommTx.v
CommMessages.v
CommFrames.v
CommStep.v
CommParse.v
CommStream.v
CommBuffer.v
CommLocal.v
CommReads.v
CommProps.v
CommTxProps.v
CommExamples.v
Witnesses.v
DataIds.v
ComManager.v
ComManagerProps.v
ComExamples.v
LinkedList.v
SerialPort.v
SerialProps.v
Printf.v
IsbBootloader.v
IsbProps.v
IsbUpload.v
IsbVerify.v
IsbExamples.v
SambaBootloader.v
SambaProps.v
SambaImage.v
Layouts.v
DataSets.v
Satellite.v
DataSetsProps.v
ImxDefaults.v
Ihex.v
IhexProps.v
LibWitnesses.v
NmeaText.v
NmeaInfo.v
NmeaAsce.v
NmeaGsv.v
NmeaGsvRoundtrip.v
NmeaExamples.v
Md5.v
Md5Props.v
Utilities.v
FirmwareTypes.v
FirmwareUpdate.v
FirmwareUpdater.v
FirmwarePackage.v
FirmwareCommands.v
FirmwareChunks.v
FirmwareMessages.v
FirmwareProps.v
FirmwareIntegrity.v
FirmwareTransfer.v
FirmwareRequest.v
FirmwareNetwork.v
FirmwarePackageProps.v
FirmwareCommandsProps.v
FirmwareStepProps.v
FirmwareWitnesses.v
FirmwareCommandsExamples.v
LogFile.v
LogStats.v
DataChunk.v
DeviceLog.v
DeviceLogRaw.v
DeviceLogSerial.v
DataChunkProps.v
DeviceLogProps.v
DeviceLogSerialProps.v
DeviceLogRawProps.v
DeviceLogExamples.v
