(* ===== verification/Prelude.v ===== *)
(** * The Inertial Sense SDK core: a verification development

    The development models the core of the SDK under src/src: the packet interface
    every other part talks through, the manager that schedules and answers packets on
    several ports, the protocols that update the firmware of a device, the logs of what a
    device sends, the NMEA sentences of integers, and the small libraries they stand on.
    This file is the prelude; the description of the whole
    comes first.

    ** The program

    Bytes from a device arrive at a port and are put into the receive buffer of a
    communications instance ([is_comm_instance_t], ISComm.c).  The instance recognises
    packets of six protocols in the stream (ISB, NMEA, u-blox, RTCM3, SPARTN, Sony)
    by one state machine for each protocol and hands every complete packet with a
    correct checksum to a callback.  In the other direction it encodes data sets and
    commands as ISB packets.  The communications manager (com_manager.c) owns one
    instance per port, a table of registered data sets and a table of broadcast
    slots: it copies received data into registered structures, answers requests, and
    repeats the answers periodically.  Around them: a byte ring buffer
    (ring_buffer.c), checksums (ISComm.c, data_sets.c, bootloaderShared.c), the front
    end of a serial port over the functions of a platform (serialPort.c), a linked list
    (linked_list.c), the tables and conversions of the data sets (data_sets.c,
    data_sets.h), the default I/O configuration of the carrier boards
    (imx_defaults.c), and the reader of firmware images (ihex.c).

    A firmware image reaches a device by the protocol of protocol/FirmwareUpdate.cpp:
    a host requests an update with the size and the MD5 digest (util/md5.cpp) of the
    image, the device answers and receives the image in numbered chunks, asks for the
    chunk it needs when another arrives, and compares the digest at the end.  The host
    is the updater of the SDK (ISFirmwareUpdater.cpp), which reads the image from a
    file and sends messages as a data set through the communications manager.  It is driven
    by a queue of commands, those of a script or of a package, which its periodic step
    runs one after the other.  Devices with the older bootloader get the lines of a hex
    file as text records over the serial port (ISBootloaderISB.cpp), which reads them back
    to verify them.  That bootloader itself is written through the monitor in the ROM of the
    processor, by text commands and pages sent by XMODEM (ISBootloaderSAMBA.cpp).

    A log (DeviceLog.cpp, DeviceLogRaw.cpp, DeviceLogSerial.cpp) collects what a device
    sends in chunks (DataChunk.cpp), which it writes to files of a limited size, and reads
    the files back as the data sets.  Messages that are text (protocol_nmea.cpp) are
    sentences of fields with a checksum; the integer ones are the information about the
    device, the streams that are enabled, and the satellites in view.

    ** Conventions

    A value of a C integer type is a [Z]; an assignment that may wrap applies [u8],
    [u16], [u32], [s16] or [s32], written where the C code converts.  A pointer is an
    address or an index, 0 is NULL; memory that is addressed is a [region], a base
    address and its cells.  A function whose C code would read or write outside its
    objects, or divide by zero, has the result [None]: a theorem that a run is [Some]
    states that the code stays inside its memory.  Functions outside of src/ (ports,
    callbacks, the platform's serial functions, [malloc], uninitialised stack values)
    are parameters: arguments, or members of a class such as [cm_functions].  Loops
    that the data does not bound carry fuel, and the fuel is shown to be enough by the
    theorem that the function returns.

    ** Files

    - Prelude.v: integers of fixed width, lists indexed by [Z], regions of memory,
      little-endian words, the tactics and the rewriting databases [lenZ] and the
      hints the files share.
    - RingBuffer.v: ring_buffer.c on its storage; refinement to a bounded queue.
    - Checksum.v: CRC-24Q, CRC-4, Fletcher, XOR, the bit reader, the bootloader's
      hash; reference definitions; the class through which the parser and the
      encoder use a packet checksum.
    - Nmea.v: sentence identifiers of data_sets.c in both directions.
    - CommTypes.v, CommRx.v, CommTx.v, CommMessages.v: the data, the receive side,
      the transmit side and the dispatch loops of ISComm.c and ISComm.h.
    - CommFrames.v: what a complete packet of each protocol is, independent of the
      parser, and what the parser knows in each of its states.  CommStep.v: one byte.
      CommParse.v: the scan loop.  CommStream.v: runs of packets.  CommBuffer.v: moving
      and appending bytes.  CommLocal.v: a packet of which only a part has arrived.
      CommReads.v: a stream that arrives in any pieces.  CommProps.v, CommTxProps.v: the
      theorems.
    - DataIds.v, ComManager.v, ComManagerProps.v: the manager of com_manager.c over
      the instances of CommRx.v and CommTx.v, its invariant and theorems.
    - LinkedList.v: linked_list.c and its refinement to sequences.
    - SerialPort.v, SerialProps.v: serialPort.c.
    - Printf.v: [snprintf], [atoi] and [sscanf] of the C library, for the conversions the
      sources use.
    - IsbBootloader.v: ISBootloaderISB.cpp and its header.  IsbProps.v: records and their
      answers.  IsbUpload.v: what a hex file means, and its upload.  IsbVerify.v: the
      verification.
    - SambaBootloader.v: ISBootloaderSAMBA.cpp and its header.  SambaProps.v: its checksum,
      what the monitor does with what it is sent, as a step relation, and the rules for
      functions on a port with a monitor.  SambaImage.v: a whole image, and runs.
    - NmeaText.v: fields of sentences and the checksum.  NmeaInfo.v: the sentence INFO.
      NmeaAsce.v: the sentence ASCE and the filters of satellite signals.  NmeaGsv.v: the
      sentences GSV and the identifiers of signals, and the arrays they are read into;
      NmeaGsvRoundtrip.v: what is printed and read.
    - Layouts.v: the packed structures of data_sets.h.  DataSets.v, DataSetsProps.v:
      byte order conversion with its tables, stream bits, profiler.  Satellite.v:
      satellite numbers, for any choice of the constellations that
      rtk_defines.h compiles in.
    - ImxDefaults.v: imx_defaults.c, and its properties.
    - Ihex.v, IhexProps.v: ihex.c, with the parts of [sscanf] and [fgets] it uses.
    - Md5.v, Md5Props.v: util/md5.cpp and the digest it computes, defined on the padded
      message.
    - FirmwareTypes.v, FirmwareUpdate.v: the messages and both sides of
      protocol/FirmwareUpdate.cpp; what a derived class implements is a class of
      functions.  FirmwareUpdater.v: ISFirmwareUpdater.cpp, an instance of the host's.
      FirmwareChunks.v: the number of chunks, computed in single precision.
      FirmwareMessages.v: members of messages.  FirmwareProps.v: what a device keeps
      while it answers.  FirmwareIntegrity.v: the device and any messages.
      FirmwareTransfer.v, FirmwareRequest.v: what the updater sends.
      FirmwareNetwork.v: both sides and a network between them.
    - Utilities.v: text functions of ISUtilities.cpp and ISFileManager.cpp.
      FirmwarePackage.v, FirmwareCommands.v: the packages, the commands and the periodic
      step of the updater.  FirmwarePackageProps.v, FirmwareCommandsProps.v,
      FirmwareStepProps.v: their theorems.
    - LogFile.v: files on a disk of a given capacity.  LogStats.v: the counters of messages.
      DataChunk.v, DeviceLog.v, DeviceLogRaw.v, DeviceLogSerial.v: chunks, the files of a
      log, and the two kinds of logs; DataChunkProps.v, DeviceLogProps.v,
      DeviceLogRawProps.v, DeviceLogSerialProps.v: their theorems.
    - CommExamples.v, ComExamples.v, Witnesses.v, LibWitnesses.v, IsbExamples.v, NmeaExamples.v, FirmwareWitnesses.v,
      FirmwareCommandsExamples.v, DeviceLogExamples.v: concrete runs, among them those that deviate from what the code means to do, and
      every theorem with hypotheses applied to a concrete input.

    ** Theorems

    The comment of each theorem gives its conditions; what follows is shorter.

    - On every buffer without oversized ISB headers and without GET headers that are too
      short, the parser returns and keeps the invariant [comm_ok] ([parse_total]); what it
      reports is a packet, as far as the code checks it ([parse_sound]); a well-formed packet it stands on is reported
      ([parse_complete]); on a run of packets the dispatch loop calls every callback in
      order ([parse_messages_stream]), however the stream is cut into reads and moved in
      the receive buffer, when no packet is longer than what is kept of a full one
      ([stream_delivered]), and under the same condition on headers it ends
      ([parse_messages_total]) and bytes fed one at a time never leave the buffer
      ([parse_bytes_safe]; [is_comm_free_spec] for the room that is made).  Errors are counted once
      ([parse_error_accounting]).
    - What is encoded is parsed back ([isb_roundtrip], [get_data_roundtrip]), the two
      encoders agree ([encoders_agree]), and copies between packets and structures move
      the range they name ([copy_struct_roundtrip]).
    - The transmit step of the manager stops at the first slot whose port has no room, and
      without a limit follows an abstract schedule for any number of
      steps ([broadcast_schedule]); requests, stop commands and received data do what
      their packets say and touch nothing else ([get_data_request_spec],
      [stop_broadcasts_spec], [processIsb_data_spec]); initialisation establishes the
      state the others start from ([comManagerInitInstance_spec]).
    - Until it has received the image, a device never fails, whatever complete messages other
      than requests follow the first request, writes the chunks in order, and accepts the image only with the right digest
      ([device_integrity]).  With the updater on the other side of a network that loses,
      repeats and reorders the messages of the updater, it has the beginning of the image of the file or
      accepts exactly that image ([transfer_safe], over the reachable states of a step
      relation); without losses it accepts it ([transfer_completes]); and the start of an
      update leads to the state in which the transfer begins ([update_starts]).  The
      functions of the flash memory and of the port are classes with their laws
      ([flash_device], [logged_platform]).
    - The script of the updater: no command is run twice but a waitfor ([script_progress]),
      an upload that is not answered ends ([unanswered_upload_ends]), the size of chunks is
      reduced when a device refuses it ([chunk_size_renegotiated]), the images and targets of
      a manifest are checked before its commands are added ([package_commands_checked]), and
      the commands for an image are read as they were written, for names without a comma
      and an equals sign ([image_commands_run]).
    - The bootloader: a device that answers gets exactly the pages that the hex file
      describes, with the gaps filled ([image_uploaded]); a verification that ends well has
      read digits for all of the pages, with the sum of the upload ([verify_image_sound]).
    - Through a monitor that behaves as its relation says, with stray bytes and garbled blocks
      up to a limit, the file of a bootloader ends up in the flash memory whole, and the
      verification that follows succeeds ([samba_image_written]); the checksum of the blocks
      is the one of XMODEM ([crc16_xmodem]).
    - Chunks keep their bounds and the complement of their size ([chunk_invariant]) and are
      read from a file as they were written ([chunk_file_roundtrip]); the data sets of a
      stream come back from a raw log, and those saved from a serial log, over all files
      ([raw_log_roundtrip], [serial_log_roundtrip]).
    - Sentences are read as they were printed, within the limits that their comments give: the
      device information ([info_roundtrip]), the
      enabled streams ([asce_roundtrip]), and all the signals of a group with their
      satellites, over several sentences ([gsv_roundtrip]).  Reading satellites stays inside
      of the arrays for any text ([parse_gsv_safe]).
    - MD5 by pieces is the digest of the whole ([md5_incremental]), the older digest
      agrees on data in one piece ([altMD5_one_piece]), and its text is read back
      ([md5_text_roundtrip]).
    - The ring buffer refines a bounded queue, the linked list a sequence (no node is inserted twice); the
      table-driven checksums equal their polynomials and detect single changes; the
      HEX reader, the serial lines and the NMEA talkers are inverted by their printers;
      the byte order tables list exactly the doubles of the structures they belong to;
      the I/O configuration keeps unmanaged bits and is idempotent; satellite numbers
      are a bijection.

    ** Bounds and fuel

    - The scan loop of the parser leaves each start position at most once and scans at
      most the bytes behind it; its fuel ([parse_fuel]) is quadratic in the number of
      buffered bytes.  The dispatch loop ([messages_fuel]) takes two results for each unparsed byte and three more.
    - [flip_words], [load_loop], [parse_bytes], [find_dollar]: one turn for each byte,
      line or character they go through; running out is [None], which the theorems
      about them exclude.
    - [transform_loop] takes one turn for each byte of its input, [read_loop] one for each
      byte of the file: [md5_update_ok] and [file_details_ok] show that they return.
    - Buffers of chunks are below 2^30 bytes, and a log has fewer than 9998 files, because
      the numbers in their names repeat.  Reading a log takes one turn for each byte of its
      files and two more ([read_fuel]), and for each file in the loop over chunks.
    - The loops of the bootloader over a hex file and over the blocks that fill a page have a
      turn for each byte of the file ([hex_loop]) and for each block ([fill_loop]).  The
      loop of the verification is not bounded by the code; its fuel is a parameter, and
      [silent_never_verified] is a device for which no fuel is enough.
    - A line of a hex file with its gap has 255 bytes at most in [image_uploaded]; longer
      gaps leave the buffer ([padding_overflows]).
    - [wait_ping], [send_blocks] and [drain_port] are not bounded by the code either; with at
      most [noise] stray bytes and garbled blocks for each page, [noise] + 4 turns are enough,
      and [rejected_forever] is a device for which none are.
    - In NmeaGsv.v, [print_sats], [find_sat] and [gsv_messages] have a turn for each signal,
      satellite and message that the counts allow.
    - Images are below 2^24 bytes in the theorems about a transfer, where the number of
      chunks is exact; [total_chunks_rounded] is an example above.
    - ISB packets are bounded by MAX_MSG_LENGTH_ISB, which the parser checks on a
      16-bit sum; the hypothesis [headers_ok] of the termination theorem excludes the
      sizes that wrap, and an example shows that it is needed.

    ** Not modelled

    - miniz.c, the printf library, tinyxml, yaml-cpp, libusb: third-party code.  The YAML
      documents and zip archives of packages are a class of functions with their laws.
    - serialPortPlatform.c, the bootloader applications, rtos.c: operating system
      and hardware access.  In com_manager.c, [findAsciiMessage] and
      [asciiMessageCompare] (a search over a caller's table by the C library) and the
      accessor of the global instance.
    - ISMatrix.c, ISPose.c, ISEarth.c, ISPolynomial.c: floating-point numerics.
    - The sentences of floating-point values in protocol_nmea.cpp, printed and read: they
      depend on the text of doubles in the C library and on the trigonometry of positions.
    - The other bootloader classes: DFU devices (USB transfers), STM32 and Sony chips, the
      application that is asked to restart (ISBootloaderAPP.cpp), and the choice among the
      classes with their threads (ISBootloaderBase.cpp, ISBootloaderThread.cpp); the texts
      and callbacks that report progress.
    - The front end of the logger, with its directories and threads, the logs as CSV, JSON
      and KML, and the statistics as text; directory listings, clocks and the time stamps of
      data sets are parameters.
    - The C++ layers (InertialSense.cpp, ISDataMappings.cpp, the command line tool, the ROS
      nodes, the displays).

    ** Plan

    What could follow are the data mappings with the logs that print them, and the
    sentences of positions once the text of doubles has a model. *)

From Stdlib Require Export ZArith Lia Bool.
From Stdlib Require Import Ascii String.
From stdpp Require Export base list numbers option.

#[global] Open Scope Z_scope.

(** ** Fixed-width integers *)

(** Values of the C types [uint8_t], [uint16_t], [uint32_t], [int16_t] and
    [int32_t] are integers; assigning to a variable of the type wraps. *)
Definition u8 (x : Z) : Z := x mod 256.
Definition u16 (x : Z) : Z := x mod 65536.
Definition u32 (x : Z) : Z := x mod 4294967296.
Definition s16 (x : Z) : Z := (x + 32768) mod 65536 - 32768.
Definition s32 (x : Z) : Z := (x + 2147483648) mod 4294967296 - 2147483648.

(** A [uint8_t] value. *)
Definition byte (x : Z) : Prop := 0 <= x < 256.

#[export] Instance byte_dec x : Decision (byte x).
Proof. unfold byte. apply _. Defined.

(** Little-endian words, the layout of every packed structure on the wire. *)
Definition le16 (lo hi : Z) : Z := lo + 256 * hi.
Definition lo8 (x : Z) : Z := x mod 256.
Definition hi8 (x : Z) : Z := (x / 256) mod 256.
Definition le16_bytes (x : Z) : list Z := [lo8 x; hi8 x].
Definition le32_bytes (x : Z) : list Z :=
  [x mod 256; (x / 256) mod 256; (x / 65536) mod 256; (x / 16777216) mod 256].

(** [lia] with the division equations, for the wrap-arounds. *)
Ltac zlia := Z.div_mod_to_equations; lia.

Create HintDb isdb.
Create Rewrite HintDb lenZ.
Create Rewrite HintDb nthZ.

(** ** Lists indexed by integers *)

Definition lenZ {A} (l : list A) : Z := Z.of_nat (length l).
Definition nthZ {A} (l : list A) (i : Z) : option A :=
  if 0 <=? i then l !! Z.to_nat i else None.
Definition takeZ {A} (n : Z) (l : list A) : list A := take (Z.to_nat n) l.
Definition dropZ {A} (n : Z) (l : list A) : list A := drop (Z.to_nat n) l.
(** The [n] elements from offset [o] on. *)
Definition subZ {A} (o n : Z) (l : list A) : list A := takeZ n (dropZ o l).
(** [l] with the elements from offset [o] on replaced by [bs]. *)
Definition updZ {A} (o : Z) (bs l : list A) : list A :=
  takeZ o l ++ bs ++ dropZ (o + lenZ bs) l.

Section ListZ.
Context {A : Type}.
Implicit Types l k : list A.

Lemma lenZ_nonneg l : 0 <= lenZ l.
Proof. unfold lenZ. lia. Qed.

Lemma lenZ_nil : lenZ (@nil A) = 0.
Proof. done. Qed.

Lemma lenZ_cons x l : lenZ (x :: l) = 1 + lenZ l.
Proof. unfold lenZ. cbn [length]. lia. Qed.

Lemma lenZ_app l k : lenZ (l ++ k) = lenZ l + lenZ k.
Proof. unfold lenZ. rewrite length_app. lia. Qed.

Lemma lenZ_takeZ n l : lenZ (takeZ n l) = Z.max 0 (Z.min n (lenZ l)).
Proof. unfold lenZ, takeZ. rewrite length_take. lia. Qed.

Lemma lenZ_dropZ n l : lenZ (dropZ n l) = Z.max 0 (lenZ l - Z.max 0 n).
Proof. unfold lenZ, dropZ. rewrite length_drop. lia. Qed.

Lemma lenZ_subZ o n l :
  lenZ (subZ o n l) = Z.max 0 (Z.min n (Z.max 0 (lenZ l - Z.max 0 o))).
Proof. unfold subZ. rewrite lenZ_takeZ, lenZ_dropZ. done. Qed.

Lemma nthZ_out l i : i < 0 \/ lenZ l <= i -> nthZ l i = None.
Proof.
  unfold nthZ, lenZ. intros H. destruct (Z.leb_spec 0 i); [|done].
  apply lookup_ge_None. lia.
Qed.

Lemma nthZ_Some l i : 0 <= i < lenZ l -> is_Some (nthZ l i).
Proof.
  unfold nthZ, lenZ. intros H. destruct (Z.leb_spec 0 i); [|lia].
  apply lookup_lt_is_Some. lia.
Qed.

Lemma nthZ_Some_range l i x : nthZ l i = Some x -> 0 <= i < lenZ l.
Proof.
  unfold nthZ, lenZ. intros H. destruct (Z.leb_spec 0 i); [|done].
  apply lookup_lt_Some in H. lia.
Qed.

Lemma nthZ_ext l k :
  lenZ l = lenZ k ->
  (forall i, 0 <= i < lenZ l -> nthZ l i = nthZ k i) -> l = k.
Proof.
  intros Hlen H. apply list_eq. intros i.
  destruct (decide (i < length l)%nat) as [Hi|Hi].
  - specialize (H (Z.of_nat i)). unfold nthZ, lenZ in *.
    destruct (Z.leb_spec 0 (Z.of_nat i)); [|lia].
    rewrite !Nat2Z.id in H. apply H. lia.
  - unfold lenZ in *. rewrite !lookup_ge_None_2; [done|lia..].
Qed.

Lemma nthZ_nil i : nthZ (@nil A) i = None.
Proof. apply nthZ_out. rewrite lenZ_nil. lia. Qed.

Lemma nthZ_cons x l i :
  nthZ (x :: l) i =
    if i =? 0 then Some x else if 0 <? i then nthZ l (i - 1) else None.
Proof.
  unfold nthZ. destruct (Z.eqb_spec i 0) as [->|]; [done|].
  destruct (Z.ltb_spec 0 i).
  - destruct (Z.leb_spec 0 i); [|lia]. destruct (Z.leb_spec 0 (i - 1)); [|lia].
    replace (Z.to_nat i) with (S (Z.to_nat (i - 1))) by lia. done.
  - destruct (Z.leb_spec 0 i); [lia|done].
Qed.

Lemma nthZ_app l k i :
  nthZ (l ++ k) i = if i <? lenZ l then nthZ l i else nthZ k (i - lenZ l).
Proof.
  unfold nthZ, lenZ.
  destruct (Z.ltb_spec i (Z.of_nat (length l))); destruct (Z.leb_spec 0 i);
    destruct (Z.leb_spec 0 (i - Z.of_nat (length l))); try done; try lia.
  - apply lookup_app_l. lia.
  - rewrite lookup_app_r by lia. f_equal. lia.
Qed.

Lemma nthZ_takeZ n l i :
  nthZ (takeZ n l) i = if i <? n then nthZ l i else None.
Proof.
  unfold nthZ, takeZ. destruct (Z.leb_spec 0 i); [|by destruct (i <? n)].
  destruct (Z.ltb_spec i n).
  - apply lookup_take_lt. lia.
  - apply lookup_take_ge. lia.
Qed.

Lemma nthZ_dropZ n l i :
  nthZ (dropZ n l) i = if 0 <=? i then nthZ l (Z.max 0 n + i) else None.
Proof.
  unfold nthZ, dropZ. destruct (Z.leb_spec 0 i); [|done].
  destruct (Z.leb_spec 0 (Z.max 0 n + i)); [|lia].
  rewrite lookup_drop. f_equal. lia.
Qed.

Lemma nthZ_subZ o n l i :
  nthZ (subZ o n l) i =
    if (0 <=? i) && (i <? n) then nthZ l (Z.max 0 o + i) else None.
Proof.
  unfold subZ. rewrite nthZ_takeZ, nthZ_dropZ.
  destruct (i <? n), (0 <=? i); done.
Qed.

Lemma lenZ_updZ o bs l :
  0 <= o -> o + lenZ bs <= lenZ l -> lenZ (updZ o bs l) = lenZ l.
Proof.
  intros. unfold updZ. pose proof (lenZ_nonneg bs).
  rewrite !lenZ_app, lenZ_takeZ, lenZ_dropZ. lia.
Qed.

Lemma nthZ_updZ o bs l i :
  0 <= o -> o + lenZ bs <= lenZ l ->
  nthZ (updZ o bs l) i =
    if (o <=? i) && (i <? o + lenZ bs) then nthZ bs (i - o) else nthZ l i.
Proof.
  intros. unfold updZ. pose proof (lenZ_nonneg bs).
  rewrite nthZ_app, lenZ_takeZ, nthZ_app, nthZ_takeZ, nthZ_dropZ.
  replace (Z.max 0 (Z.min o (lenZ l))) with o by lia.
  destruct (Z.ltb_spec i o), (Z.leb_spec o i); try lia; cbn [andb].
  - done.
  - destruct (Z.ltb_spec (i - o) (lenZ bs)), (Z.ltb_spec i (o + lenZ bs)); try lia.
    + done.
    + destruct (Z.leb_spec 0 (i - o - lenZ bs)); [|lia]. f_equal. lia.
Qed.

Lemma takeZ_all n l : lenZ l <= n -> takeZ n l = l.
Proof. unfold lenZ, takeZ. intros. apply take_ge. lia. Qed.

Lemma takeZ_nil n : takeZ n (@nil A) = [].
Proof. apply take_nil. Qed.

Lemma takeZ_0 l : takeZ 0 l = [].
Proof. done. Qed.

Lemma dropZ_0 l : dropZ 0 l = l.
Proof. done. Qed.

Lemma dropZ_nonpos n l : n <= 0 -> dropZ n l = l.
Proof. unfold dropZ. intros. by rewrite Z2Nat.nonpos. Qed.

Lemma takeZ_dropZ n l : takeZ n l ++ dropZ n l = l.
Proof. apply take_drop. Qed.

Lemma lenZ_0_nil l : lenZ l = 0 -> l = [].
Proof. unfold lenZ. destruct l; [done|cbn; lia]. Qed.
End ListZ.

#[export] Hint Rewrite @lenZ_nil @lenZ_cons @lenZ_app @lenZ_takeZ @lenZ_dropZ
  @lenZ_subZ : lenZ.
#[export] Hint Rewrite @lenZ_updZ using (autorewrite with lenZ; lia) : lenZ.
#[export] Hint Rewrite @nthZ_nil @nthZ_cons @nthZ_app @nthZ_takeZ @nthZ_dropZ
  @nthZ_subZ : nthZ.
#[export] Hint Rewrite @nthZ_updZ using (autorewrite with lenZ; lia) : nthZ.

(** Case analysis on every integer comparison of the goal, innermost first. *)
Ltac no_if t := lazymatch t with context [if _ then _ else _] => fail | _ => idtac end.
Ltac split_cmp :=
  repeat (match goal with
  | |- context [ ?a <? ?b ] => no_if a; no_if b; destruct (Z.ltb_spec a b)
  | |- context [ ?a <=? ?b ] => no_if a; no_if b; destruct (Z.leb_spec a b)
  | |- context [ ?a =? ?b ] => no_if a; no_if b; destruct (Z.eqb_spec a b)
  end; try (exfalso; lia); cbn [andb orb negb]).

(** Resolve the [Z.max] and [Z.min] the length lemmas leave behind. *)
Ltac simpl_max :=
  repeat match goal with
  | |- context [ Z.max ?a ?b ] =>
      first [ rewrite (Z.max_l a b) by lia | rewrite (Z.max_r a b) by lia ]
  | |- context [ Z.min ?a ?b ] =>
      first [ rewrite (Z.min_l a b) by lia | rewrite (Z.min_r a b) by lia ]
  end.

(** Close an equation between two reads of lists at computed positions. *)
Ltac nth_done :=
  first
  [ done | lia | f_equal; lia
  | rewrite nthZ_out by (autorewrite with lenZ; lia); done
  | symmetry; rewrite nthZ_out by (autorewrite with lenZ; lia); done
  | rewrite !nthZ_out by (autorewrite with lenZ; lia); done ].

(** An equation that holds up to integer arithmetic in its arguments. *)
Ltac eq_lia := first [ reflexivity | lia | progress f_equal; eq_lia ].

(** Prove an equality of lists built from [++], [takeZ], [dropZ], [subZ] and
    [updZ] element by element. *)
Ltac nth_ext :=
  autorewrite with nthZ; autorewrite with lenZ; simpl_max; split_cmp;
  simpl_max; try nth_done.
Ltac list_ext :=
  apply nthZ_ext;
  [ autorewrite with lenZ; try lia
  | let i := fresh "i" in let Hi := fresh "Hi" in
    intros i Hi; autorewrite with lenZ in Hi; nth_ext ].

(** ** Byte regions *)

(** A [region] is a block of memory of known extent: the object a buffer
    pointer points into.  A read or write outside it is undefined behaviour of
    the C program and has no result here. *)
Record region := Region { base : Z; cells : list Z }.

Definition load (m : region) (a : Z) : option Z := nthZ (cells m) (a - base m).

Definition load16 (m : region) (a : Z) : option Z :=
  lo ← load m a; hi ← load m (a + 1); Some (le16 lo hi).

(** [memcpy] from the region: [n] bytes at address [a].  A negative [n] is
    converted to a huge [size_t]. *)
Definition load_range (m : region) (a n : Z) : option (list Z) :=
  if n =? 0 then Some [] else
  if (0 <? n) && (base m <=? a) && (a + n <=? base m + lenZ (cells m))
  then Some (subZ (a - base m) n (cells m)) else None.

(** [memcpy] into the region. *)
Definition store_range (m : region) (a : Z) (bs : list Z) : option region :=
  if lenZ bs =? 0 then Some m else
  if (base m <=? a) && (a + lenZ bs <=? base m + lenZ (cells m))
  then Some (Region (base m) (updZ (a - base m) bs (cells m))) else None.

Definition store (m : region) (a v : Z) : option region := store_range m a [v].

(** The first [n] bytes of a caller's buffer. *)
Definition take_exact (n : Z) (l : list Z) : option (list Z) :=
  if (0 <=? n) && (n <=? lenZ l) then Some (takeZ n l) else None.

Section Region.
Implicit Types m : region.

Lemma load_range_ok m a n :
  0 <= n -> base m <= a -> a + n <= base m + lenZ (cells m) ->
  load_range m a n = Some (subZ (a - base m) n (cells m)).
Proof.
  intros. unfold load_range. split_cmp; try lia; try done. subst. done.
Qed.

Lemma load_ok m a :
  base m <= a < base m + lenZ (cells m) -> is_Some (load m a).
Proof. intros. apply nthZ_Some. lia. Qed.

Lemma store_range_ok m a bs :
  base m <= a -> a + lenZ bs <= base m + lenZ (cells m) ->
  store_range m a bs = Some (Region (base m) (updZ (a - base m) bs (cells m))).
Proof.
  intros. unfold store_range. split_cmp; try lia; try done.
  f_equal. destruct m as [b c]; cbn in *. f_equal.
  assert (bs = []) as -> by (by apply lenZ_0_nil).
  list_ext.
Qed.

Lemma take_exact_ok n (l : list Z) :
  0 <= n <= lenZ l -> take_exact n l = Some (takeZ n l).
Proof. intros. unfold take_exact. split_cmp; try lia; done. Qed.
End Region.

#[global] Arguments load : simpl never.
#[global] Arguments load16 : simpl never.
#[global] Arguments load_range : simpl never.
#[global] Arguments store_range : simpl never.
#[global] Arguments store : simpl never.
#[global] Arguments take_exact : simpl never.
#[global] Arguments lenZ : simpl never.
#[global] Arguments nthZ : simpl never.
#[global] Arguments takeZ : simpl never.
#[global] Arguments dropZ : simpl never.
#[global] Arguments subZ : simpl never.
#[global] Arguments updZ : simpl never.
#[global] Arguments u8 : simpl never.
#[global] Arguments u16 : simpl never.
#[global] Arguments u32 : simpl never.
#[global] Arguments s16 : simpl never.
#[global] Arguments s32 : simpl never.

(** The bytes [l] are in memory at address [a]. *)
Definition bytes_at (m : region) (a : Z) (l : list Z) : Prop :=
  forall k, 0 <= k < lenZ l -> load m (a + k) = nthZ l k.

Section BytesAt.
Context (m : region) (a : Z) (l : list Z).

Lemma bytes_at_bounds :
  bytes_at m a l -> 0 < lenZ l ->
  base m <= a /\ a + lenZ l <= base m + lenZ (cells m).
Proof.
  intros H Hl. pose proof (H 0 ltac:(lia)) as H0.
  pose proof (H (lenZ l - 1) ltac:(lia)) as H1.
  destruct (nthZ_Some l 0 ltac:(lia)) as [x Hx].
  destruct (nthZ_Some l (lenZ l - 1) ltac:(lia)) as [y Hy].
  rewrite Hx in H0. rewrite Hy in H1. unfold load in *.
  apply nthZ_Some_range in H0, H1. lia.
Qed.

Lemma bytes_at_range k n :
  bytes_at m a l -> 0 <= k -> 0 <= n -> k + n <= lenZ l ->
  load_range m (a + k) n = Some (subZ k n l).
Proof.
  intros H Hk Hn Hkn. destruct (decide (n = 0)) as [->|]; [done|].
  destruct (bytes_at_bounds H ltac:(lia)). rewrite load_range_ok by lia. f_equal.
  apply nthZ_ext; [autorewrite with lenZ; lia|]. intros i Hi.
  autorewrite with lenZ in Hi. autorewrite with nthZ. split_cmp. simpl_max.
  specialize (H (k + i) ltac:(lia)). unfold load in H. rewrite <- H. f_equal. lia.
Qed.
End BytesAt.

Lemma bytes_at_intro b pre l post :
  bytes_at (Region b (pre ++ l ++ post)) (b + lenZ pre) l.
Proof. intros k Hk. unfold load. cbn. pose proof (lenZ_nonneg pre). nth_ext. Qed.

Lemma nthZ_middle {A} (pre post : list A) x : nthZ (pre ++ x :: post) (lenZ pre) = Some x.
Proof.
  pose proof (lenZ_nonneg pre). rewrite nthZ_app. split_cmp; try lia. by rewrite Z.sub_diag.
Qed.

Lemma nthZ_map {A B} (g : A -> B) l i : nthZ (map g l) i = g <$> nthZ l i.
Proof. unfold nthZ. destruct (0 <=? i); [apply list_lookup_fmap|done]. Qed.

Lemma lenZ_map {A B} (g : A -> B) l : lenZ (map g l) = lenZ l.
Proof. unfold lenZ. by rewrite length_map. Qed.

Lemma updZ_cons {A} idx (x : A) l (buf : list A) :
  0 <= idx -> idx + 1 + lenZ l <= lenZ buf ->
  updZ (idx + 1) l (updZ idx [x] buf) = updZ idx (x :: l) buf.
Proof.
  intros Hi Hl. pose proof (lenZ_nonneg l). assert (lenZ [x] = 1) as H1 by done.
  assert (lenZ (updZ idx [x] buf) = lenZ buf) as Hu by (apply lenZ_updZ; lia).
  assert (lenZ (x :: l) = 1 + lenZ l) as H2 by (rewrite lenZ_cons; lia).
  apply nthZ_ext; [rewrite !lenZ_updZ; lia|]. intros i Hi'.
  rewrite !nthZ_updZ, !nthZ_cons; try lia. rewrite H1, H2. split_cmp; try lia; try done; f_equal; lia.
Qed.

Lemma updZ_nil {A} idx (buf : list A) : 0 <= idx <= lenZ buf -> updZ idx [] buf = buf.
Proof.
  intros Hi. unfold updZ. change (lenZ []) with 0. rewrite Z.add_0_r. cbn [app]. apply takeZ_dropZ.
Qed.

(** ** Character strings *)

(** The bytes of a C string literal, without the terminating zero. *)
Definition chars (s : string) : list Z :=
  map (fun c => Z.of_nat (nat_of_ascii c)) (list_ascii_of_string s).
#[global] Arguments chars s%_string_scope.

(** ** Partial computations *)

(** Inversion of a successful sequence of partial steps. *)
Ltac inv_some :=
  repeat match goal with
  | H : Some _ = Some _ |- _ => injection H as H; subst
  | H : None = Some _ |- _ => discriminate H
  | H : mbind _ _ = Some _ |- _ =>
      apply bind_Some in H; destruct H as [? [? H]]
  | H : is_Some _ |- _ => destruct H
  | H : (_, _) = (_, _) |- _ => injection H as H; subst
  end.

(** Decide a statement about concrete data. *)
Ltac decided := apply (bool_decide_unpack _); vm_compute; exact I.

Lemma takeZ_app_len {A} (l k : list A) : takeZ (lenZ l) (l ++ k) = l.
Proof. unfold takeZ, lenZ. rewrite Nat2Z.id. apply take_app_length. Qed.

Lemma dropZ_app_len {A} (l k : list A) : dropZ (lenZ l) (l ++ k) = k.
Proof. unfold dropZ, lenZ. rewrite Nat2Z.id. apply drop_app_length. Qed.

Lemma updZ_middle {A} (pre l l' post : list A) :
  lenZ l' = lenZ l -> updZ (lenZ pre) l' (pre ++ l ++ post) = pre ++ l' ++ post.
Proof.
  intros Hl. unfold updZ. rewrite Hl. f_equal; [|f_equal].
  - unfold takeZ, lenZ. rewrite Nat2Z.id. apply take_app_length.
  - unfold dropZ, lenZ. rewrite app_assoc, <- Nat2Z.inj_add, Nat2Z.id, <- length_app.
    apply drop_app_length.
Qed.

(** ** Bit fields *)

(** A word over disjoint bit ranges is a sum. *)
Lemma lor_shiftl a b n : 0 <= n -> 0 <= a < 2 ^ n -> Z.lor a (Z.shiftl b n) = a + b * 2 ^ n.
Proof.
  intros Hn Ha.
  assert (Z.land a (Z.shiftl b n) = 0) as Hand.
  { apply Z.bits_inj'. intros i Hi. rewrite Z.land_spec, Z.bits_0.
    destruct (Z.ltb_spec i n); [rewrite Z.shiftl_spec_low by lia; apply andb_false_r|].
    destruct (Z.eq_dec a 0) as [->|]; [by rewrite Z.bits_0|].
    rewrite Z.bits_above_log2; [done|lia|]. apply Z.log2_lt_pow2; [lia|].
    apply Z.lt_le_trans with (2 ^ n); [lia|]. apply Z.pow_le_mono_r; lia. }
  rewrite <- Z.lxor_lor, <- Z.add_nocarry_lxor by done. by rewrite Z.shiftl_mul_pow2.
Qed.

Lemma lor_le32 b0 b1 b2 b3 : byte b0 -> byte b1 -> byte b2 ->
  Z.lor (Z.lor (Z.lor b0 (Z.shiftl b1 8)) (Z.shiftl b2 16)) (Z.shiftl b3 24) =
  b0 + 256 * b1 + 65536 * b2 + 16777216 * b3.
Proof.
  unfold byte. intros. rewrite (lor_shiftl b0 b1 8) by lia. change (2 ^ 8) with 256.
  rewrite (lor_shiftl _ b2 16) by (change (2 ^ 16) with 65536; lia). change (2 ^ 16) with 65536.
  rewrite (lor_shiftl _ b3 24) by (change (2 ^ 24) with 16777216; lia). change (2 ^ 24) with 16777216. lia.
Qed.
