(* ===== verification/RingBuffer.v ===== *)
(** * Byte ring buffer (src/src/ring_buffer.c, ring_buffer.h)

    The state is the C structure (its pointers are addresses) together with the
    [region] the pointers point into.  An operation that copies bytes out returns
    the bytes it copies; [None] is undefined behaviour: an access outside the
    storage, or a loop that does not end within its fuel. *)

From S2P Require Import Prelude.

Record ring_buf_t := RingBuf {
  startPtr : Z;      (* buffer start *)
  endPtr : Z;        (* one past the buffer end *)
  rdPtr : Z;         (* read pointer *)
  wrPtr : Z;         (* write pointer *)
  bufSize : Z;       (* byte size of the buffer *)
  wordByteSize : Z   (* byte size of one element *)
}.

Definition set_rdPtr (p : Z) (rb : ring_buf_t) : ring_buf_t :=
  RingBuf (startPtr rb) (endPtr rb) p (wrPtr rb) (bufSize rb) (wordByteSize rb).
Definition set_wrPtr (p : Z) (rb : ring_buf_t) : ring_buf_t :=
  RingBuf (startPtr rb) (endPtr rb) (rdPtr rb) p (bufSize rb) (wordByteSize rb).

Module Ring.

Definition ringBufInit (buf bufSize wordByteSize : Z) : ring_buf_t :=
  {| startPtr := buf; endPtr := buf + bufSize; rdPtr := buf; wrPtr := buf;
     bufSize := bufSize; wordByteSize := wordByteSize |}.

Definition ringBufUsed (rbuf : ring_buf_t) : Z :=
  let bytesUsed := wrPtr rbuf - rdPtr rbuf in
  if bytesUsed <? 0 then bytesUsed + bufSize rbuf else bytesUsed.

Definition ringBufFree (rbuf : ring_buf_t) : Z :=
  bufSize rbuf - wordByteSize rbuf - ringBufUsed rbuf.

(** The copy loop of [ringBufWrite].  The source pointer [buf] is the same in
    every iteration, as in the code. *)
Fixpoint ringBufWrite_loop (fuel : nat) (rb : ring_buf_t) (mem : region)
    (buf : list Z) (numBytes : Z) : option (ring_buf_t * region) :=
  match fuel with
  | O => None
  | S fuel =>
    if 0 <? numBytes then
      let bytesToEnd := endPtr rb - wrPtr rb in
      if bytesToEnd <=? numBytes then
        src ← take_exact bytesToEnd buf;
        mem' ← store_range mem (wrPtr rb) src;
        ringBufWrite_loop fuel (set_wrPtr (startPtr rb) rb) mem' buf
          (numBytes - bytesToEnd)
      else
        src ← take_exact numBytes buf;
        mem' ← store_range mem (wrPtr rb) src;
        ringBufWrite_loop fuel (set_wrPtr (wrPtr rb + numBytes) rb) mem' buf 0
    else Some (rb, mem)
  end.

(** Returns the new state and storage and the overflow flag.  Each iteration
    copies at least one byte, so [numBytes + 1] iterations are enough. *)
Definition ringBufWrite (rb : ring_buf_t) (mem : region) (buf : list Z)
    (numBytes : Z) : option (ring_buf_t * region * bool) :=
  if numBytes <=? 0 then Some (rb, mem, false) else
  let overflow := ringBufFree rb <? numBytes in
  '(rb, mem) ← ringBufWrite_loop (Z.to_nat numBytes + 1) rb mem buf numBytes;
  if overflow : bool then
    let rb := set_rdPtr (wrPtr rb + wordByteSize rb) rb in
    let rb := if endPtr rb <=? rdPtr rb then set_rdPtr (startPtr rb) rb else rb in
    Some (rb, mem, overflow)
  else Some (rb, mem, overflow).

(** Returns the new state, the bytes copied to the caller's buffer and their
    number. *)
Definition ringBufRead (rbuf : ring_buf_t) (mem : region) (len : Z)
    : option (ring_buf_t * list Z * Z) :=
  let used := ringBufUsed rbuf in
  if used <=? 0 then Some (rbuf, [], 0) else
  let bytesToRead := if len <? used then len else used in
  if (wrPtr rbuf <? rdPtr rbuf) && (endPtr rbuf - rdPtr rbuf <? bytesToRead) then
    let bytesRead1 := endPtr rbuf - rdPtr rbuf in
    let bytesRead2 := bytesToRead - bytesRead1 in
    out1 ← load_range mem (rdPtr rbuf) bytesRead1;
    out2 ← load_range mem (startPtr rbuf) bytesRead2;
    Some (set_rdPtr (startPtr rbuf + bytesRead2) rbuf, out1 ++ out2, bytesToRead)
  else
    out ← load_range mem (rdPtr rbuf) bytesToRead;
    let rbuf := set_rdPtr (rdPtr rbuf + bytesToRead) rbuf in
    let rbuf := if endPtr rbuf <=? rdPtr rbuf
                then set_rdPtr (startPtr rbuf) rbuf else rbuf in
    Some (rbuf, out, bytesToRead).

(** Returns the bytes copied and their number. *)
Definition ringBufPeek (rbuf : ring_buf_t) (mem : region) (len offset : Z)
    : option (list Z * Z) :=
  let bytesUsed := ringBufUsed rbuf in
  if bytesUsed <=? 0 then Some ([], 0) else
  if bytesUsed <=? offset then Some ([], 0) else
  let bytesToRead := if len <? bytesUsed then len else bytesUsed in
  let rdp := rdPtr rbuf + offset in
  let rdp := if endPtr rbuf <=? rdp then rdp - bufSize rbuf else rdp in
  if (wrPtr rbuf <? rdp) && (endPtr rbuf - rdp <? bytesToRead) then
    let bytesRead1 := endPtr rbuf - rdp in
    let bytesRead2 := bytesToRead - bytesRead1 in
    out1 ← load_range mem rdp bytesRead1;
    out2 ← load_range mem (startPtr rbuf) bytesRead2;
    Some (out1 ++ out2, bytesToRead)
  else
    out ← load_range mem rdp bytesToRead;
    Some (out, bytesToRead).

Fixpoint ringfindChar2_loop (fuel : nat) (mem : region) (bufPtr endPtr c1 c2 : Z)
    : option Z :=
  match fuel with
  | O => Some 0
  | S fuel =>
    if bufPtr <? endPtr then
      x ← load mem bufPtr;
      if (x =? c1) || (x =? c2) then Some (bufPtr + 1)
      else ringfindChar2_loop fuel mem (bufPtr + 1) endPtr c1 c2
    else Some 0
  end.

(** A pointer one past the first of the two characters, 0 (NULL) when there is
    none.  The loop runs once per byte between the two pointers. *)
Definition ringfindChar2 (mem : region) (bufPtr endPtr c1 c2 : Z) : option Z :=
  ringfindChar2_loop (Z.to_nat (endPtr - bufPtr)) mem bufPtr endPtr c1 c2.

Fixpoint ringfindChar_loop (fuel : nat) (mem : region) (bufPtr endPtr c : Z)
    : option Z :=
  match fuel with
  | O => Some 0
  | S fuel =>
    if bufPtr <? endPtr then
      x ← load mem bufPtr;
      if x =? c then Some (bufPtr + 1)
      else ringfindChar_loop fuel mem (bufPtr + 1) endPtr c
    else Some 0
  end.

Definition ringfindChar (mem : region) (bufPtr endPtr c : Z) : option Z :=
  ringfindChar_loop (Z.to_nat (endPtr - bufPtr)) mem bufPtr endPtr c.

(** The common tail of [ringBufReadToChar2]: the character was found without
    wrapping. *)
Definition ringBufReadToChar2_found (rbuf : ring_buf_t) (mem : region) (fndPtr : Z)
    : option (ring_buf_t * list Z * Z) :=
  let bytesToRead := fndPtr - rdPtr rbuf in
  out ← load_range mem (rdPtr rbuf) bytesToRead;
  let rbuf := set_rdPtr (rdPtr rbuf + bytesToRead) rbuf in
  let rbuf := if endPtr rbuf <=? rdPtr rbuf
              then set_rdPtr (startPtr rbuf) rbuf else rbuf in
  Some (rbuf, out, bytesToRead).

Definition ringBufReadToChar2 (rbuf : ring_buf_t) (mem : region) (len c1 c2 : Z)
    : option (ring_buf_t * list Z * Z) :=
  let used := ringBufUsed rbuf in
  if used <=? 0 then Some (rbuf, [], 0) else
  let bytesToRead := if len <? used then len else used in
  if (wrPtr rbuf <? rdPtr rbuf) && (endPtr rbuf - rdPtr rbuf <? bytesToRead) then
    fndPtr ← ringfindChar2 mem (rdPtr rbuf) (endPtr rbuf) c1 c2;
    if fndPtr <=? 0 then
      let bytesRead1 := endPtr rbuf - rdPtr rbuf in
      let bytesRead2 := bytesToRead - bytesRead1 in
      fndPtr ← ringfindChar2 mem (startPtr rbuf) (startPtr rbuf + bytesRead2) c1 c2;
      if fndPtr <=? 0 then Some (rbuf, [], 0)
      else
        let bytesRead2 := fndPtr - startPtr rbuf in
        out1 ← load_range mem (rdPtr rbuf) bytesRead1;
        out2 ← load_range mem (startPtr rbuf) bytesRead2;
        Some (set_rdPtr (startPtr rbuf + bytesRead2) rbuf, out1 ++ out2,
              bytesRead1 + bytesRead2)
    else ringBufReadToChar2_found rbuf mem fndPtr
  else
    fndPtr ← ringfindChar2 mem (rdPtr rbuf) (rdPtr rbuf + bytesToRead) c1 c2;
    if fndPtr <=? 0 then Some (rbuf, [], 0)
    else ringBufReadToChar2_found rbuf mem fndPtr.

Definition ringBufReadToChar (rbuf : ring_buf_t) (mem : region) (len c : Z)
    : option (ring_buf_t * list Z * Z) :=
  ringBufReadToChar2 rbuf mem len c c.

(** [strncmp(s1, s2, n) == 0], with [s1] in the region and [s2] the caller's
    string.  The comparison stops at a common terminating zero. *)
Fixpoint strncmp_eq (n : nat) (mem : region) (a : Z) (str : list Z) : option bool :=
  match n with
  | O => Some true
  | S n =>
    x ← load mem a;
    y ← nthZ str 0;
    if negb (x =? y) then Some false
    else if x =? 0 then Some true
    else strncmp_eq n mem (a + 1) (dropZ 1 str)
  end.

(** [strncmp] with an [int] length: a negative one is a huge [size_t]. *)
Definition strncmp (mem : region) (a : Z) (str : list Z) (n : Z) : option bool :=
  if n <? 0 then None else strncmp_eq (Z.to_nat n) mem a str.

(** The comparison of two places of the region, for at least one byte. *)
Fixpoint strncmp_mem (n : nat) (mem : region) (a b : Z) : option bool :=
  match n with
  | O => Some true
  | S n =>
    x ← load mem a;
    y ← load mem b;
    if negb (x =? y) then Some false
    else if x =? 0 then Some true
    else strncmp_mem n mem (a + 1) (b + 1)
  end.

Fixpoint ringBufFind_loop (fuel : nat) (rbuf : ring_buf_t) (mem : region)
    (str : list Z) (len : Z) (buf i used : Z) : option Z :=
  match fuel with
  | O => Some (-1)
  | S fuel =>
    if i <? used then
      found ←
        (if endPtr rbuf <=? buf + len then
           let len1 := buf + len - endPtr rbuf in
           let len2 := len - len1 in
           c1 ← strncmp mem buf str len1;
           if c1 : bool then strncmp_mem (Z.to_nat len2) mem buf (startPtr rbuf) else Some false
         else strncmp mem buf str len);
      if found : bool then Some i
      else
        let buf := buf + 1 in
        let buf := if endPtr rbuf <=? buf then startPtr rbuf else buf in
        ringBufFind_loop fuel rbuf mem str len buf (i + 1) used
    else Some (-1)
  end.

Definition ringBufFind (rbuf : ring_buf_t) (mem : region) (str : list Z) (len : Z)
    : option Z :=
  let used := ringBufUsed rbuf in
  ringBufFind_loop (Z.to_nat used) rbuf mem str len (rdPtr rbuf) 0 used.

Definition ringBufRemove (rbuf : ring_buf_t) (len : Z) : ring_buf_t * Z :=
  let bytesToRemove := ringBufUsed rbuf in
  if bytesToRemove <=? 0 then (rbuf, 0) else
  if bytesToRemove <=? len then (set_rdPtr (wrPtr rbuf) rbuf, bytesToRemove)
  else
    let rbuf := set_rdPtr (rdPtr rbuf + len) rbuf in
    let rbuf := if endPtr rbuf <=? rdPtr rbuf
                then set_rdPtr (rdPtr rbuf - bufSize rbuf) rbuf else rbuf in
    (rbuf, len).

Definition ringBufClear (rbuf : ring_buf_t) : ring_buf_t * Z :=
  (set_rdPtr (startPtr rbuf) (set_wrPtr (startPtr rbuf) rbuf), ringBufUsed rbuf).

Definition ringBufEmpty (rbuf : ring_buf_t) : bool := ringBufUsed rbuf =? 0.

End Ring.
Export Ring.

(** ** Abstract state: the queued bytes, oldest first *)

Definition ring_contents (rb : ring_buf_t) (mem : region) : list Z :=
  let rd := rdPtr rb - startPtr rb in
  let wr := wrPtr rb - startPtr rb in
  if rd <=? wr then subZ rd (wr - rd) (cells mem)
  else dropZ rd (cells mem) ++ takeZ wr (cells mem).

(** What the operations preserve. *)
Record ring_wf (rb : ring_buf_t) (mem : region) : Prop := {
  rwf_start : 0 < startPtr rb;
  rwf_base : base mem = startPtr rb;
  rwf_cells : lenZ (cells mem) = bufSize rb;
  rwf_end : endPtr rb = startPtr rb + bufSize rb;
  rwf_rd : startPtr rb <= rdPtr rb < endPtr rb;
  rwf_wr : startPtr rb <= wrPtr rb < endPtr rb;
  rwf_word : 0 < wordByteSize rb <= bufSize rb
}.

(** The bytes one [ringBufWrite] appends: a write that reaches the end of the
    storage starts its source over. *)
Definition ring_stream (rb : ring_buf_t) (buf : list Z) (n : Z) : list Z :=
  let k := endPtr rb - wrPtr rb in
  if k <=? n then takeZ k buf ++ takeZ (n - k) buf else takeZ n buf.
#[global] Arguments ring_contents : simpl never.
#[global] Arguments ring_stream : simpl never.

(** The length of the shortest prefix that ends in one of the two characters. *)
Fixpoint prefix_to (c1 c2 : Z) (l : list Z) : option Z :=
  match l with
  | [] => None
  | x :: l =>
    if (x =? c1) || (x =? c2) then Some 1
    else n ← prefix_to c1 c2 l; Some (n + 1)
  end.

(** ** Abstract specification: a bounded queue of fixed-size words

    A push onto a full queue drops the oldest word. *)
Definition bq_push (cap : Z) (q w : list Z) : list Z :=
  if cap <? lenZ q + lenZ w then dropZ (lenZ w) (q ++ w) else q ++ w.

Inductive ring_op := Push (w : list Z) | Pop.

(** The outputs of a run: the overflow flag of a push and the word of a pop. *)
Inductive ring_out := OPush (overflow : bool) | OPop (w : list Z).

Fixpoint bq_run (cap word : Z) (ops : list ring_op) (q : list Z)
    : list ring_out * list Z :=
  match ops with
  | [] => ([], q)
  | Push w :: ops =>
    let '(outs, q') := bq_run cap word ops (bq_push cap q w) in
    (OPush (cap <? lenZ q + lenZ w) :: outs, q')
  | Pop :: ops =>
    let '(outs, q') := bq_run cap word ops (dropZ word q) in
    (OPop (takeZ word q) :: outs, q')
  end.

Fixpoint ring_run (ops : list ring_op) (rb : ring_buf_t) (mem : region)
    : option (list ring_out * ring_buf_t * region) :=
  match ops with
  | [] => Some ([], rb, mem)
  | Push w :: ops =>
    '(rb, mem, ovf) ← ringBufWrite rb mem w (lenZ w);
    '(outs, rb, mem) ← ring_run ops rb mem;
    Some (OPush ovf :: outs, rb, mem)
  | Pop :: ops =>
    '(rb, out, _) ← ringBufRead rb mem (wordByteSize rb);
    '(outs, rb, mem) ← ring_run ops rb mem;
    Some (OPop out :: outs, rb, mem)
  end.

(** Every pointer is a whole number of words into the storage. *)
Definition ring_aligned (rb : ring_buf_t) : Prop :=
  (wordByteSize rb | bufSize rb) /\
  (wordByteSize rb | rdPtr rb - startPtr rb) /\
  (wordByteSize rb | wrPtr rb - startPtr rb).

Definition word_op (word : Z) (op : ring_op) : Prop :=
  match op with Push w => lenZ w = word | Pop => True end.

(** ** Lemmas *)

Ltac ring_destruct :=
  repeat match goal with
  | H : ring_wf ?rb ?mem |- _ =>
      is_var rb; is_var mem;
      destruct rb as [st en rd wr sz wd], mem as [bs cs]; destruct H; cbn in *; subst bs en sz
  end; unfold set_rdPtr, set_wrPtr in *; cbn in *.

(** Prove [ring_wf] of an explicit state. *)
Ltac ring_wf_tac :=
  split; cbn in *; autorewrite with lenZ; try lia; try done.

Lemma ringBufUsed_range rb mem :
  ring_wf rb mem -> 0 <= ringBufUsed rb < bufSize rb.
Proof. intros. ring_destruct. unfold ringBufUsed; cbn. split_cmp; lia. Qed.

Lemma ring_contents_len rb mem :
  ring_wf rb mem -> lenZ (ring_contents rb mem) = ringBufUsed rb.
Proof.
  intros. ring_destruct. unfold ring_contents, ringBufUsed; cbn.
  split_cmp; autorewrite with lenZ; lia.
Qed.

(** The storage cell of the [i]-th queued byte. *)
Lemma ring_contents_nth rb mem i :
  ring_wf rb mem ->
  nthZ (ring_contents rb mem) i =
    if (0 <=? i) && (i <? ringBufUsed rb) then
      let a := rdPtr rb - startPtr rb + i in
      nthZ (cells mem) (if a <? bufSize rb then a else a - bufSize rb)
    else None.
Proof.
  intros. ring_destruct. unfold ring_contents, ringBufUsed; cbn.
  split_cmp; cbn; nth_ext.
Qed.

(** Two queues with equal lengths and bytes have equal contents. *)
Ltac ring_nth :=
  repeat rewrite ring_contents_nth by done; nth_ext.

(** The write loop with the whole source available: at most one wrap when the
    bytes fit in the storage. *)
Lemma ringBufWrite_loop_spec rb mem buf n fuel :
  ring_wf rb mem -> 0 < n < bufSize rb -> n <= lenZ buf -> (Z.to_nat n < fuel)%nat ->
  exists rb' mem',
    ringBufWrite_loop fuel rb mem buf n = Some (rb', mem') /\
    rb' = set_wrPtr (let w := wrPtr rb + n in
                     if endPtr rb <=? w then w - bufSize rb else w) rb /\
    ring_wf rb' mem' /\
    (forall i, nthZ (cells mem') i =
      let k := i - (wrPtr rb - startPtr rb) in
      let j := if k <? 0 then k + bufSize rb else k in
      if (0 <=? i) && (i <? bufSize rb) && (j <? n)
      then nthZ (ring_stream rb buf n) j else nthZ (cells mem) i).
Proof.
  intros Hwf Hn Hbuf Hfuel. destruct fuel as [|[|[|fuel]]]; try lia;
    ring_destruct; unfold ring_stream; cbn; split_cmp; try lia;
    repeat (rewrite take_exact_ok by lia; cbn);
    repeat (rewrite store_range_ok by (cbn; autorewrite with lenZ; lia); cbn);
    (eexists _, _; split; [done|]; split; [f_equal; lia|]; split; [ring_wf_tac|]);
    intros i; cbn; nth_ext.
Qed.

Lemma ring_stream_len rb mem buf n :
  ring_wf rb mem -> 0 <= n <= lenZ buf -> lenZ (ring_stream rb buf n) = n.
Proof.
  intros ? Hn. ring_destruct. unfold ring_stream; cbn.
  split_cmp; autorewrite with lenZ; lia.
Qed.

(** A write that stays below the end of the storage appends its source. *)
Lemma ring_stream_straight rb mem buf n :
  ring_wf rb mem -> n <= endPtr rb - wrPtr rb -> ring_stream rb buf n = takeZ n buf.
Proof.
  intros ? Hn. ring_destruct. unfold ring_stream; cbn. split_cmp; [|done].
  replace (n - (st + lenZ cs - wr)) with 0 by lia.
  rewrite takeZ_0, app_nil_r. f_equal. lia.
Qed.

(** After the copy loop, wherever the read pointer is put: what is queued is a
    suffix of the old queue followed by the appended bytes. *)
Lemma ring_suffix rb mem rb2 mem2 n str :
  ring_wf rb mem -> ring_wf rb2 mem2 ->
  startPtr rb2 = startPtr rb -> bufSize rb2 = bufSize rb ->
  0 < n < bufSize rb -> lenZ str = n ->
  wrPtr rb2 = (if endPtr rb <=? wrPtr rb + n then wrPtr rb + n - bufSize rb
               else wrPtr rb + n) ->
  ringBufUsed rb2 <= ringBufUsed rb + n ->
  (forall i, nthZ (cells mem2) i =
    let k := i - (wrPtr rb - startPtr rb) in
    let j := if k <? 0 then k + bufSize rb else k in
    if (0 <=? i) && (i <? bufSize rb) && (j <? n)
    then nthZ str j else nthZ (cells mem) i) ->
  ring_contents rb2 mem2 =
    dropZ (ringBufUsed rb + n - ringBufUsed rb2) (ring_contents rb mem ++ str).
Proof.
  intros Hwf Hwf2 Est Esz Hn Hs Ew Hd Hc.
  pose proof (ring_contents_len _ _ Hwf) as Hl.
  pose proof (fun i => ring_contents_nth _ _ i Hwf) as Hnth.
  apply nthZ_ext.
  - rewrite ring_contents_len by done. autorewrite with lenZ. rewrite Hl, Hs.
    pose proof (ringBufUsed_range _ _ Hwf2). lia.
  - intros i Hi. rewrite ring_contents_len in Hi by done.
    rewrite ring_contents_nth by done. autorewrite with nthZ.
    rewrite Hnth, Hl. cbn zeta. rewrite Hc. clear Hc Hnth Hl.
    destruct rb2 as [st2 en2 rd2 wr2 sz2 wd2], mem2 as [bs2 cs2].
    destruct Hwf2; cbn in *. subst st2 sz2 en2 bs2. ring_destruct.
    unfold ringBufUsed in *; cbn in *.
    revert Hi Hd Ew. split_cmp; intros; try nth_done; simpl_max; split_cmp; try nth_done.
Qed.

Lemma ringBufWrite_gen rb mem buf n :
  ring_wf rb mem -> 0 < n < bufSize rb -> n <= lenZ buf ->
  exists rb' mem',
    ringBufWrite rb mem buf n = Some (rb', mem', ringBufFree rb <? n) /\
    ring_wf rb' mem' /\
    rb' = (let w := if endPtr rb <=? wrPtr rb + n then wrPtr rb + n - bufSize rb
                    else wrPtr rb + n in
           let r := if ringBufFree rb <? n
             then (if endPtr rb <=? w + wordByteSize rb then startPtr rb
                   else w + wordByteSize rb) else rdPtr rb in
           set_rdPtr r (set_wrPtr w rb)) /\
    let all := ring_contents rb mem ++ ring_stream rb buf n in
    (n <= ringBufFree rb -> ring_contents rb' mem' = all) /\
    (ringBufFree rb < n -> wrPtr rb' + wordByteSize rb <= endPtr rb ->
     ring_contents rb' mem' =
       dropZ (lenZ all - (bufSize rb - wordByteSize rb)) all).
Proof.
  intros Hwf Hn Hbuf.
  destruct (ringBufWrite_loop_spec rb mem buf n (Z.to_nat n + 1))
    as (rb1 & mem1 & E & Hrb1 & Hwf1 & Hc); try done; try lia.
  pose proof (ring_stream_len _ _ buf n Hwf ltac:(lia)) as Hs.
  pose proof (ringBufUsed_range _ _ Hwf) as Hu.
  unfold ringBufWrite. rewrite E. clear E.
  destruct (Z.leb_spec n 0); [lia|]. cbn [mbind option_bind].
  set (rb2 := let w := if endPtr rb <=? wrPtr rb + n then wrPtr rb + n - bufSize rb
                    else wrPtr rb + n in
           let r := if ringBufFree rb <? n
             then (if endPtr rb <=? w + wordByteSize rb then startPtr rb
                   else w + wordByteSize rb) else rdPtr rb in
           set_rdPtr r (set_wrPtr w rb)).
  exists rb2, mem1. split.
  { subst rb1 rb2. destruct rb; unfold set_rdPtr, set_wrPtr; cbn -[ringBufFree].
    destruct (Z.ltb_spec (ringBufFree (RingBuf startPtr0 endPtr0 rdPtr0 wrPtr0 bufSize0 wordByteSize0)) n); [|done].
    cbn. split_cmp; done. }
  assert (ring_wf rb2 mem1) as Hwf2.
  { subst rb1 rb2. destruct Hwf, Hwf1. unfold ringBufFree, ringBufUsed in *.
    destruct rb, mem, mem1. cbn in *. split; cbn; split_cmp; lia. }
  split; [done|]. split; [done|].
  subst rb1. clear Hwf1. cbn zeta.
  rewrite lenZ_app, ring_contents_len, (ring_stream_len _ mem) by (done || lia).
  unfold ringBufFree in *.
  split; intros Hle; [|intros Hw];
    rewrite (ring_suffix rb mem rb2 mem1 n (ring_stream rb buf n));
    try done; try (rewrite (ring_stream_len _ mem) by (done || lia); done);
    subst rb2; clear Hc; ring_destruct; unfold ringBufUsed in *; cbn in *;
    revert Hle Hu; try revert Hw; split_cmp; intros;
    first [lia | apply dropZ_nonpos; lia | f_equal; lia].
Qed.

(** Reading storage cells in place of queued bytes. *)
Lemma ring_take rb mem len :
  ring_wf rb mem -> 0 <= len ->
  let n := if len <? ringBufUsed rb then len else ringBufUsed rb in
  let r := rdPtr rb - startPtr rb in
  takeZ len (ring_contents rb mem) =
    if n <=? bufSize rb - r then subZ r n (cells mem)
    else subZ r (bufSize rb - r) (cells mem) ++ subZ 0 (n - (bufSize rb - r)) (cells mem).
Proof.
  intros Hwf Hlen. cbn zeta.
  pose proof (ringBufUsed_range _ _ Hwf). pose proof (ring_contents_len _ _ Hwf) as Hl.
  apply nthZ_ext.
  - rewrite lenZ_takeZ, Hl. ring_destruct. split_cmp; autorewrite with lenZ; lia.
  - intros i Hi. rewrite lenZ_takeZ, Hl in Hi. rewrite nthZ_takeZ, ring_contents_nth by done.
    ring_destruct. split_cmp; nth_ext.
Qed.

(** Advancing the read pointer removes bytes from the front. *)
Lemma ring_advance rb mem n r :
  ring_wf rb mem -> 0 <= n <= ringBufUsed rb ->
  r = (if endPtr rb <=? rdPtr rb + n then rdPtr rb + n - bufSize rb else rdPtr rb + n) ->
  ring_wf (set_rdPtr r rb) mem /\
  ring_contents (set_rdPtr r rb) mem = dropZ n (ring_contents rb mem).
Proof.
  intros Hwf Hn Hr.
  assert (ring_wf (set_rdPtr r rb) mem) as Hwf2.
  { ring_destruct. unfold ringBufUsed in *; cbn in *. revert Hr Hn.
    split_cmp; intros; split; cbn in *; lia. }
  split; [done|]. pose proof (ring_contents_len _ _ Hwf) as Hl. apply nthZ_ext.
  - rewrite ring_contents_len, lenZ_dropZ, Hl by done. clear Hl Hwf2.
    ring_destruct. unfold ringBufUsed in *; cbn in *. revert Hr Hn.
    split_cmp; intros; lia.
  - intros i Hi. rewrite ring_contents_len in Hi by done. clear Hl.
    rewrite nthZ_dropZ, !ring_contents_nth by done. clear Hwf2.
    ring_destruct. unfold ringBufUsed in *; cbn in *. revert Hr Hi Hn.
    split_cmp; intros; subst; nth_ext.
Qed.

(** The two-segment copy of [ringBufRead], [ringBufPeek] and
    [ringBufReadToChar2]. *)
Lemma ring_load_segment rb mem a n :
  ring_wf rb mem -> startPtr rb <= a -> 0 <= n -> a + n <= endPtr rb ->
  load_range mem a n = Some (subZ (a - startPtr rb) n (cells mem)).
Proof.
  intros. ring_destruct. rewrite load_range_ok; cbn; [done|lia..].
Qed.

(** Take the two comparisons of a read function's wrap test, and load. *)
Ltac ring_read Hwf :=
  unfold set_rdPtr;
  cbn [startPtr endPtr rdPtr wrPtr bufSize wordByteSize]; split_cmp;
  repeat (rewrite (ring_load_segment _ _ _ _ Hwf) by lia);
  cbn [mbind option_bind].

Lemma ringBufRead_gen rb mem len :
  ring_wf rb mem -> 0 <= len ->
  let n := Z.min len (ringBufUsed rb) in
  exists r, ringBufRead rb mem len =
      Some (set_rdPtr r rb, takeZ len (ring_contents rb mem), n) /\
    (r = if endPtr rb <=? rdPtr rb + n then rdPtr rb + n - bufSize rb else rdPtr rb + n).
Proof.
  intros Hwf Hlen. cbn zeta. rewrite (ring_take _ _ _ Hwf Hlen).
  pose proof (ringBufUsed_range _ _ Hwf) as Hu. unfold ringBufRead.
  pose proof Hwf as Hwf'. destruct Hwf'.
  destruct (Z.leb_spec (ringBufUsed rb) 0).
  { assert (Z.min len (ringBufUsed rb) = 0) as -> by lia.
    exists (rdPtr rb). split; [|split_cmp; lia].
    destruct rb; unfold set_rdPtr; cbn in *.
    split_cmp; do 3 f_equal; list_ext. }
  remember (if len <? ringBufUsed rb then len else ringBufUsed rb) as n eqn:En.
  assert (Z.min len (ringBufUsed rb) = n) as -> by (subst; split_cmp; lia).
  assert (0 <= n <= ringBufUsed rb) as Hn by (subst; split_cmp; lia).
  clear En Hlen. eexists. split; [|done].
  assert (wrPtr rb < rdPtr rb \/ rdPtr rb + n <= wrPtr rb) as Hcase.
  { clear Hu H. unfold ringBufUsed in Hn. revert Hn. split_cmp; intros; lia. }
  ring_read Hwf; eq_lia.
Qed.

(** *** Searching *)

Lemma ringfindChar2_loop_spec mem a n c1 c2 :
  0 < base mem -> base mem <= a -> a + Z.of_nat n <= base mem + lenZ (cells mem) ->
  ringfindChar2_loop n mem a (a + Z.of_nat n) c1 c2 =
    Some (match prefix_to c1 c2 (subZ (a - base mem) (Z.of_nat n) (cells mem)) with
          | Some k => a + k
          | None => 0
          end).
Proof.
  intros Hb. revert a. induction n as [|n IH]; intros a Ha Hn.
  { cbn. done. }
  cbn [ringfindChar2_loop]. destruct (Z.ltb_spec a (a + Z.of_nat (S n))); [|lia].
  destruct (load_ok mem a) as [x Hx]; [lia|]. rewrite Hx. cbn [mbind option_bind].
  assert (subZ (a - base mem) (Z.of_nat (S n)) (cells mem) =
          x :: subZ (a + 1 - base mem) (Z.of_nat n) (cells mem)) as ->.
  { list_ext. subst. unfold load in Hx. rewrite <- Hx. f_equal. lia. }
  cbn [prefix_to]. destruct ((x =? c1) || (x =? c2)); [done|].
  replace (a + Z.of_nat (S n)) with (a + 1 + Z.of_nat n) by lia.
  rewrite IH by lia. f_equal.
  destruct (prefix_to _ _ _); cbn; lia.
Qed.

Lemma prefix_to_range c1 c2 l k : prefix_to c1 c2 l = Some k -> 0 < k <= lenZ l.
Proof.
  revert k. induction l as [|x l IH]; intros k; cbn; [done|].
  pose proof (lenZ_nonneg l). rewrite lenZ_cons. destruct (_ || _).
  - intros [= <-]. lia.
  - destruct (prefix_to c1 c2 l); cbn; [|done]. intros [= <-].
    specialize (IH _ eq_refl). lia.
Qed.

Lemma prefix_to_app c1 c2 l l' :
  prefix_to c1 c2 (l ++ l') =
    match prefix_to c1 c2 l with
    | Some k => Some k
    | None => k ← prefix_to c1 c2 l'; Some (k + lenZ l)
    end.
Proof.
  induction l as [|x l IH]; cbn.
  - destruct (prefix_to _ _ l'); cbn; [|done]. f_equal. rewrite lenZ_nil. lia.
  - destruct (_ || _); [done|]. rewrite IH. destruct (prefix_to _ _ l); cbn; [done|].
    destruct (prefix_to _ _ l'); cbn; [|done]. f_equal. rewrite lenZ_cons. lia.
Qed.

Lemma ringfindChar2_spec rb mem a b c1 c2 :
  ring_wf rb mem -> startPtr rb <= a -> a <= b -> b <= endPtr rb ->
  ringfindChar2 mem a b c1 c2 =
    Some (match prefix_to c1 c2 (subZ (a - startPtr rb) (b - a) (cells mem)) with
          | Some k => a + k
          | None => 0
          end).
Proof.
  intros Hwf Ha Hab Hb. destruct Hwf. unfold ringfindChar2.
  pose proof (ringfindChar2_loop_spec mem a (Z.to_nat (b - a)) c1 c2) as H.
  rewrite Z2Nat.id in H by lia. replace (a + (b - a)) with b in H by lia.
  rewrite H by lia. rewrite rwf_base0. done.
Qed.

(** What [ringBufReadToChar2] promises, on the queue. *)
Lemma ringBufReadToChar2_gen rb mem len c1 c2 :
  ring_wf rb mem -> 0 <= len ->
  match prefix_to c1 c2 (takeZ len (ring_contents rb mem)) with
  | None => ringBufReadToChar2 rb mem len c1 c2 = Some (rb, [], 0)
  | Some k =>
      exists r, ringBufReadToChar2 rb mem len c1 c2 =
          Some (set_rdPtr r rb, takeZ k (ring_contents rb mem), k) /\
        (r = if endPtr rb <=? rdPtr rb + k then rdPtr rb + k - bufSize rb
             else rdPtr rb + k)
  end.
Proof.
  intros Hwf Hlen. pose proof (ringBufUsed_range _ _ Hwf) as Hu.
  pose proof Hwf as Hwf'. destruct Hwf'. unfold ringBufReadToChar2.
  destruct (Z.leb_spec (ringBufUsed rb) 0).
  { rewrite (lenZ_0_nil (ring_contents rb mem)) by (rewrite (ring_contents_len _ _ Hwf); lia).
    rewrite takeZ_nil. done. }
  pose proof (fun k => ring_take rb mem k Hwf) as Ht. cbn zeta in Ht.
  rewrite (Ht len Hlen).
  remember (if len <? ringBufUsed rb then len else ringBufUsed rb) as n eqn:En.
  assert (0 <= n <= ringBufUsed rb) as Hn by (subst; split_cmp; lia).
  clear En Hlen.
  assert (wrPtr rb < rdPtr rb \/ rdPtr rb + n <= wrPtr rb) as Hcase.
  { clear Hu H Ht. unfold ringBufUsed in Hn. revert Hn. split_cmp; intros; lia. }
  set (e := endPtr rb - rdPtr rb).
  destruct (Z.leb_spec n (bufSize rb - (rdPtr rb - startPtr rb))).
  - (* the searched bytes do not wrap *)
    assert ((wrPtr rb <? rdPtr rb) && (e <? n) = false) as -> by (split_cmp; lia).
    rewrite (ringfindChar2_spec rb) by (done || lia). cbn [mbind option_bind].
    replace (rdPtr rb + n - rdPtr rb) with n by lia.
    destruct (prefix_to _ _ _) as [k|] eqn:Hk; [|by destruct rb].
    apply prefix_to_range in Hk. revert Hk. autorewrite with lenZ. intros Hk.
    destruct (Z.leb_spec (rdPtr rb + k) 0); [lia|].
    eexists. split; [|done]. unfold ringBufReadToChar2_found. rewrite (Ht k) by lia.
    clear Ht. ring_read Hwf; eq_lia.
  - assert ((wrPtr rb <? rdPtr rb) && (e <? n) = true) as -> by (split_cmp; lia).
    rewrite (ringfindChar2_spec rb mem (rdPtr rb) (endPtr rb)) by (done || lia). cbn [mbind option_bind].
    replace (endPtr rb - rdPtr rb) with (bufSize rb - (rdPtr rb - startPtr rb)) by lia.
    rewrite prefix_to_app.
    destruct (prefix_to _ _ (subZ (rdPtr rb - startPtr rb) _ _)) as [k|] eqn:Hk.
    + apply prefix_to_range in Hk. revert Hk. autorewrite with lenZ. intros Hk.
      destruct (Z.leb_spec (rdPtr rb + k) 0); [lia|].
      eexists. split; [|done]. unfold ringBufReadToChar2_found. rewrite (Ht k) by lia.
      clear Ht. ring_read Hwf; eq_lia.
    + cbn. rewrite (ringfindChar2_spec rb) by (done || lia). cbn [mbind option_bind].
      rewrite Z.sub_diag.
      replace (startPtr rb + (n - e) - startPtr rb)
        with (n - (bufSize rb - (rdPtr rb - startPtr rb))) by lia.
      destruct (prefix_to _ _ (subZ 0 _ _)) as [k|] eqn:Hk2; [|by destruct rb].
      apply prefix_to_range in Hk2. revert Hk2. autorewrite with lenZ. intros Hk2.
      destruct (Z.leb_spec (startPtr rb + k) 0); [lia|]. cbn [mbind option_bind].
      eexists. split; [|done]. autorewrite with lenZ. rewrite (Ht (k + _)) by lia.
      clear Ht. ring_read Hwf; eq_lia.
Qed.

(** *** Writes of any length *)

Lemma ringBufWrite_loop_total fuel rb mem buf n :
  ring_wf rb mem -> n <= lenZ buf -> (Z.to_nat n < fuel)%nat ->
  exists rb' mem', ringBufWrite_loop fuel rb mem buf n = Some (rb', mem') /\
    ring_wf rb' mem' /\ rdPtr rb' = rdPtr rb /\ startPtr rb' = startPtr rb /\
    bufSize rb' = bufSize rb.
Proof.
  revert rb mem n. induction fuel as [|fuel IH]; intros rb mem n Hwf Hbuf Hfuel; [lia|].
  cbn [ringBufWrite_loop]. destruct (Z.ltb_spec 0 n); [|eauto 10].
  pose proof Hwf as Hwf'. destruct Hwf'.
  destruct (Z.leb_spec (endPtr rb - wrPtr rb) n).
  all: rewrite take_exact_ok by lia; cbn [mbind option_bind];
    rewrite store_range_ok by (autorewrite with lenZ; lia); cbn [mbind option_bind].
  - destruct (IH (set_wrPtr (startPtr rb) rb)
      (Region (base mem) (updZ (wrPtr rb - base mem) (takeZ (endPtr rb - wrPtr rb) buf)
        (cells mem))) (n - (endPtr rb - wrPtr rb)))
      as (rb' & mem' & E & H'); [ring_wf_tac|lia|lia|].
    exists rb', mem'. split; [exact E|exact H'].
  - destruct (IH (set_wrPtr (wrPtr rb + n) rb)
      (Region (base mem) (updZ (wrPtr rb - base mem) (takeZ n buf) (cells mem))) 0)
      as (rb' & mem' & E & H'); [ring_wf_tac|lia|lia|].
    exists rb', mem'. split; [exact E|exact H'].
Qed.

(** *** Word-wise use *)

Lemma divide_lt_le w a b : 0 < w -> (w | a) -> (w | b) -> a < b -> a + w <= b.
Proof. 
  intros Hw [k ->] [j ->] Hlt. apply Z.mul_lt_mono_pos_r in Hlt; [|done].
  replace (k * w + w) with ((k + 1) * w) by lia. apply Z.mul_le_mono_nonneg_r; lia.
Qed.

Lemma ring_used_aligned rb mem :
  ring_wf rb mem -> ring_aligned rb -> (wordByteSize rb | ringBufUsed rb).
Proof.
  intros Hwf (Hs & Hr & Hw).
  assert (wordByteSize rb | wrPtr rb - rdPtr rb).
  { replace (wrPtr rb - rdPtr rb)
      with (wrPtr rb - startPtr rb - (rdPtr rb - startPtr rb)) by lia.
    by apply Z.divide_sub_r. }
  unfold ringBufUsed. split_cmp; [by apply Z.divide_add_r|done].
Qed.

Lemma ring_push_refines rb mem w :
  ring_wf rb mem -> ring_aligned rb -> wordByteSize rb < bufSize rb ->
  lenZ w = wordByteSize rb ->
  exists rb' mem',
    ringBufWrite rb mem w (lenZ w) =
      Some (rb', mem', bufSize rb - wordByteSize rb <?
                       lenZ (ring_contents rb mem) + lenZ w) /\
    ring_wf rb' mem' /\ ring_aligned rb' /\
    bufSize rb' = bufSize rb /\ wordByteSize rb' = wordByteSize rb /\
    ring_contents rb' mem' =
      bq_push (bufSize rb - wordByteSize rb) (ring_contents rb mem) w.
Proof.
  intros Hwf Hal Hlt Hw. pose proof Hwf as Hwf2. destruct Hwf2.
  pose proof (ring_used_aligned _ _ Hwf Hal) as Hua. destruct Hal as (Hs & Hr & Hwr).
  pose proof (ringBufUsed_range _ _ Hwf) as Hu.
  pose proof (divide_lt_le (wordByteSize rb) (ringBufUsed rb) (bufSize rb)
    ltac:(lia) Hua Hs ltac:(lia)) as Hu2.
  pose proof (divide_lt_le (wordByteSize rb) (wrPtr rb - startPtr rb) (bufSize rb)
    ltac:(lia) Hwr Hs ltac:(lia)) as Hw2.
  destruct (ringBufWrite_gen rb mem w (lenZ w) Hwf)
    as (rb' & mem' & E & Hwf' & Erb & Hno & Hov); [lia|lia|].
  rewrite (ring_stream_straight _ _ _ _ Hwf), takeZ_all in * by lia.
  exists rb', mem'. rewrite (ring_contents_len _ _ Hwf). split.
  { rewrite E. unfold ringBufFree. do 2 f_equal. split_cmp; (done || lia). }
  assert (ring_aligned rb') as Hal'.
  { subst rb'. clear E Hwf' Hno Hov. unfold ring_aligned, set_rdPtr, set_wrPtr; cbn.
    split_cmp; cbn; (split; [done|]; split); try done.
    all: destruct Hwr as [kw Hkw], Hs as [ks Hks].
    all: first [ exists 0; lia | exists (kw + 1); lia | exists (kw + 2); lia
      | exists (kw + 1 - ks); lia | exists (kw + 2 - ks); lia ]. }
  split; [done|]. split; [done|]. split; [by subst rb'|]. split; [by subst rb'|].
  assert (wrPtr rb' + wordByteSize rb <= endPtr rb) as Hend.
  { assert (wordByteSize rb' = wordByteSize rb /\ endPtr rb' = endPtr rb /\
      startPtr rb' = startPtr rb /\ bufSize rb' = bufSize rb) as (Ew & Ee & Est & Eb)
      by (by subst rb').
    destruct Hal' as (_ & _ & Hw3). rewrite Ew, Est in Hw3.
    destruct Hwf'. pose proof (divide_lt_le (wordByteSize rb) (wrPtr rb' - startPtr rb) (bufSize rb)
      ltac:(lia) Hw3 Hs ltac:(lia)). lia. }
  unfold bq_push, ringBufFree in *. rewrite (ring_contents_len _ _ Hwf).
  split_cmp; [|apply Hno; lia].
  rewrite Hov by lia. f_equal. autorewrite with lenZ.
  rewrite (ring_contents_len _ _ Hwf).
  assert (ringBufUsed rb = bufSize rb - wordByteSize rb); [|lia].
  destruct (decide (ringBufUsed rb = bufSize rb - wordByteSize rb)) as [|Hne]; [done|].
  pose proof (divide_lt_le (wordByteSize rb) (ringBufUsed rb) (bufSize rb - wordByteSize rb)
    ltac:(lia) Hua ltac:(by apply Z.divide_sub_r) ltac:(lia)). lia.
Qed.

(** ** Properties *)

(** [ringBufWrite] terminates without touching memory outside the storage for
    every length the caller's buffer holds, and leaves a well-formed ring. *)
Theorem ringBufWrite_safe rb mem buf n :
  ring_wf rb mem -> n <= lenZ buf ->
  exists rb' mem' ovf, ringBufWrite rb mem buf n = Some (rb', mem', ovf) /\
    ring_wf rb' mem' /\ ovf = (0 <? n) && (ringBufFree rb <? n).
Proof.
  intros Hwf Hbuf. unfold ringBufWrite. destruct (Z.leb_spec n 0).
  { exists rb, mem, false. split_cmp; try lia; done. }
  destruct (ringBufWrite_loop_total (Z.to_nat n + 1) rb mem buf n)
    as (rb' & mem' & -> & Hwf' & Hrd & Hst & Hsz); [done..|lia|].
  cbn [mbind option_bind]. pose proof Hwf' as Hwf2. destruct Hwf2.
  assert ((0 <? n) = true) as -> by (split_cmp; lia). cbn [andb].
  destruct (ringBufFree rb <? n); [|eauto 10].
  eexists _, _, _. split; [done|]. split; [|done].
  split_cmp; cbn in *; split; cbn; try done; lia.
Qed.

(** a write of [n] bytes that fit appends them to the queue (starting the
    source over where the storage ends, see [ring_stream]); a write that does not
    fit reports overflow and leaves exactly the newest [bufSize - wordByteSize]
    bytes. *)
Theorem ringBufWrite_spec rb mem buf n :
  ring_wf rb mem -> 0 < n < bufSize rb -> n <= lenZ buf ->
  exists rb' mem',
    ringBufWrite rb mem buf n = Some (rb', mem', ringBufFree rb <? n) /\
    ring_wf rb' mem' /\
    let all := ring_contents rb mem ++ ring_stream rb buf n in
    (n <= ringBufFree rb -> ring_contents rb' mem' = all) /\
    (ringBufFree rb < n -> wrPtr rb' + wordByteSize rb <= endPtr rb ->
     ring_contents rb' mem' =
       dropZ (lenZ all - (bufSize rb - wordByteSize rb)) all).
Proof.
  intros Hwf Hn Hbuf.
  destruct (ringBufWrite_gen rb mem buf n Hwf Hn Hbuf)
    as (rb' & mem' & E & Hwf' & _ & H). exists rb', mem'. eauto.
Qed.

Lemma ring_pop_refines rb mem :
  ring_wf rb mem -> ring_aligned rb ->
  exists rb' n,
    ringBufRead rb mem (wordByteSize rb) =
      Some (rb', takeZ (wordByteSize rb) (ring_contents rb mem), n) /\
    ring_wf rb' mem /\ ring_aligned rb' /\
    bufSize rb' = bufSize rb /\ wordByteSize rb' = wordByteSize rb /\
    ring_contents rb' mem = dropZ (wordByteSize rb) (ring_contents rb mem).
Proof.
  intros Hwf Hal. pose proof Hwf as Hwf2. destruct Hwf2.
  pose proof (ring_used_aligned _ _ Hwf Hal) as Hua.
  pose proof (ringBufUsed_range _ _ Hwf) as Hu.
  destruct (ringBufRead_gen rb mem (wordByteSize rb) Hwf) as (r & E & Hr); [lia|].
  destruct (ring_advance rb mem (Z.min (wordByteSize rb) (ringBufUsed rb)) r Hwf)
    as [Hwf' Hc]; [lia|done|].
  eexists _, _. split; [exact E|]. split; [done|].
  assert (wordByteSize rb <= ringBufUsed rb \/ ringBufUsed rb = 0) as Hcase.
  { destruct (decide (ringBufUsed rb = 0)); [by right|left].
    apply Z.divide_pos_le; [lia|done]. }
  split.
  - clear E Hc. destruct Hal as (Hs & Hrd & Hw). unfold ring_aligned, set_rdPtr; cbn.
    split; [done|]. split; [|done]. subst r.
    destruct Hrd as [kr Hkr], Hs as [ks Hks].
    destruct Hcase as [Hc|Hc]; [rewrite Z.min_l by lia|rewrite Hc, Z.min_r by lia];
      split_cmp; first [ exists kr; lia | exists (kr + 1); lia | exists (kr + 1 - ks); lia ].
  - split; [done|]. split; [done|]. rewrite Hc.
    destruct Hcase as [Hc'|Hc']; [by rewrite Z.min_l by lia|].
    rewrite (lenZ_0_nil (ring_contents rb mem)) by (rewrite (ring_contents_len _ _ Hwf); lia).
    unfold dropZ. by rewrite !drop_nil.
Qed.

Lemma ring_run_refines ops rb mem :
  ring_wf rb mem -> ring_aligned rb -> wordByteSize rb < bufSize rb ->
  Forall (word_op (wordByteSize rb)) ops ->
  exists rb' mem',
    ring_run ops rb mem =
      Some (fst (bq_run (bufSize rb - wordByteSize rb) (wordByteSize rb) ops
                   (ring_contents rb mem)), rb', mem') /\
    ring_wf rb' mem' /\
    ring_contents rb' mem' =
      snd (bq_run (bufSize rb - wordByteSize rb) (wordByteSize rb) ops
             (ring_contents rb mem)).
Proof.
  revert rb mem. induction ops as [|op ops IH]; intros rb mem Hwf Hal Hlt Hops.
  { exists rb, mem. done. }
  apply Forall_cons_iff in Hops as [Hop Hops]. destruct op as [w|]; cbn [ring_run bq_run].
  - destruct (ring_push_refines rb mem w Hwf Hal Hlt Hop)
      as (rb1 & mem1 & -> & Hwf1 & Hal1 & Es & Ew & Hc).
    cbn [mbind option_bind]. rewrite <- Ew in Hops.
    destruct (IH rb1 mem1 Hwf1 Hal1 ltac:(lia) Hops) as (rb' & mem' & -> & Hwf' & Hc').
    rewrite Hc, Es, Ew in *. cbn [mbind option_bind].
    destruct (bq_run _ _ ops _) as [outs q']. eauto.
  - destruct (ring_pop_refines rb mem Hwf Hal)
      as (rb1 & n & -> & Hwf1 & Hal1 & Es & Ew & Hc).
    cbn [mbind option_bind]. rewrite <- Ew in Hops.
    destruct (IH rb1 mem Hwf1 Hal1 ltac:(lia) Hops) as (rb' & mem' & -> & Hwf' & Hc').
    rewrite Hc, Es, Ew in *. cbn [mbind option_bind].
    destruct (bq_run _ _ ops _) as [outs q']. eauto.
Qed.

Lemma ringBufInit_wf p cs word :
  0 < p -> 0 < word <= lenZ cs ->
  ring_wf (ringBufInit p (lenZ cs) word) (Region p cs) /\
  ring_contents (ringBufInit p (lenZ cs) word) (Region p cs) = [].
Proof.
  intros Hp Hw. split; [split; cbn; lia|].
  unfold ring_contents; cbn. rewrite Z.sub_diag. done.
Qed.

(** C33: refinement.  Used word by word, a freshly initialised ring of a whole
    number of words produces, for every sequence of writes and reads, exactly the
    outputs of the bounded queue that holds one word less than the storage. *)
Theorem ring_refines_bounded_queue p cs word ops :
  0 < p -> 0 < word < lenZ cs -> (word | lenZ cs) -> Forall (word_op word) ops ->
  exists rb' mem',
    ring_run ops (ringBufInit p (lenZ cs) word) (Region p cs) =
      Some (fst (bq_run (lenZ cs - word) word ops []), rb', mem') /\
    ring_contents rb' mem' = snd (bq_run (lenZ cs - word) word ops []).
Proof.
  intros Hp Hw Hdiv Hops.
  destruct (ringBufInit_wf p cs word) as [Hwf Hc]; [done|lia|].
  destruct (ring_run_refines ops _ _ Hwf) as (rb' & mem' & E & _ & Hc').
  - unfold ring_aligned; cbn. rewrite Z.sub_diag. auto using Z.divide_0_r.
  - cbn. lia.
  - done.
  - rewrite Hc in *. eauto.
Qed.

(** [ringBufRead] returns the [min len used] oldest bytes, in order, and
    removes exactly them. *)
Theorem ringBufRead_spec rb mem len :
  ring_wf rb mem -> 0 <= len ->
  exists rb', ringBufRead rb mem len =
      Some (rb', takeZ len (ring_contents rb mem), Z.min len (ringBufUsed rb)) /\
    ring_wf rb' mem /\
    ring_contents rb' mem =
      dropZ (Z.min len (ringBufUsed rb)) (ring_contents rb mem).
Proof.
  intros Hwf Hlen. pose proof (ringBufUsed_range _ _ Hwf).
  destruct (ringBufRead_gen rb mem len Hwf Hlen) as (r & E & Hr).
  destruct (ring_advance rb mem (Z.min len (ringBufUsed rb)) r Hwf) as [? ?];
    [lia|done|eauto].
Qed.

(** [ringBufReadToChar2] removes and returns the shortest prefix, within the
    first [len] queued bytes, that ends in one of the two characters; when there
    is none it changes nothing and returns 0. *)
Theorem ringBufReadToChar2_spec rb mem len c1 c2 :
  ring_wf rb mem -> 0 <= len ->
  exists rb' out n, ringBufReadToChar2 rb mem len c1 c2 = Some (rb', out, n) /\
    ring_wf rb' mem /\
    match prefix_to c1 c2 (takeZ len (ring_contents rb mem)) with
    | None => rb' = rb /\ out = [] /\ n = 0
    | Some k => n = k /\ out = takeZ k (ring_contents rb mem) /\
        ring_contents rb' mem = dropZ k (ring_contents rb mem)
    end.
Proof.
  intros Hwf Hlen. pose proof (ringBufReadToChar2_gen rb mem len c1 c2 Hwf Hlen) as H.
  destruct (prefix_to _ _ _) as [k|] eqn:Hk; [|by eauto 10].
  destruct H as (r & E & Hr). apply prefix_to_range in Hk. rewrite lenZ_takeZ in Hk.
  pose proof (ring_contents_len _ _ Hwf).
  destruct (ring_advance rb mem k r Hwf) as [? ?]; [lia|done|eauto 10].
Qed.

(** a peek inside the queued bytes returns them and changes nothing. *)
Theorem ringBufPeek_spec rb mem len offset :
  ring_wf rb mem -> 0 <= len -> 0 <= offset < ringBufUsed rb ->
  offset + len <= ringBufUsed rb ->
  ringBufPeek rb mem len offset =
    Some (takeZ len (dropZ offset (ring_contents rb mem)), len).
Proof.
  intros Hwf Hlen Ho Hol. pose proof (ringBufUsed_range _ _ Hwf) as Hu.
  set (r := if endPtr rb <=? rdPtr rb + offset then rdPtr rb + offset - bufSize rb
            else rdPtr rb + offset).
  destruct (ring_advance rb mem offset r Hwf ltac:(lia) eq_refl) as [Hwf2 <-].
  rewrite (ring_take _ _ _ Hwf2 Hlen). pose proof Hwf2 as Hwf3. destruct Hwf3.
  pose proof (ringBufUsed_range _ _ Hwf2) as Hu2.
  assert (ringBufUsed (set_rdPtr r rb) = ringBufUsed rb - offset) as Eu.
  { rewrite <- (ring_contents_len _ _ Hwf2).
    destruct (ring_advance rb mem offset r Hwf ltac:(lia) eq_refl) as [_ ->].
    rewrite lenZ_dropZ, (ring_contents_len _ _ Hwf). lia. }
  assert ((if len <? ringBufUsed (set_rdPtr r rb) then len
           else ringBufUsed (set_rdPtr r rb)) = len) as -> by (split_cmp; lia).
  unfold set_rdPtr in *; cbn in *. unfold ringBufPeek. fold r.
  assert ((if len <? ringBufUsed rb then len else ringBufUsed rb) = len) as ->
    by (split_cmp; lia).
  assert (wrPtr rb < r \/ r + len <= wrPtr rb) as Hcase.
  { clear Hu Hu2 Ho. unfold ringBufUsed in Hol, Eu. cbn in Eu.
    revert Hol Eu. split_cmp; intros; lia. }
  fold r. ring_read Hwf; eq_lia.
Qed.

Lemma strncmp_eq_defined n mem a str :
  base mem <= a -> a + Z.of_nat n <= base mem + lenZ (cells mem) ->
  Z.of_nat n <= lenZ str -> is_Some (strncmp_eq n mem a str).
Proof.
  revert a str. induction n as [|n IH]; intros a str Ha Hb Hs; cbn [strncmp_eq]; [done|].
  destruct (load_ok mem a) as [x ->]; [lia|]. cbn [mbind option_bind].
  destruct (nthZ_Some str 0) as [y ->]; [lia|]. cbn [mbind option_bind].
  destruct (negb (x =? y)); [done|]. destruct (x =? 0); [done|].
  apply IH; autorewrite with lenZ; lia.
Qed.

Lemma ringBufFind_loop_spec fuel rb mem str len i used :
  ring_wf rb mem -> 0 <= i -> i + Z.of_nat fuel = used ->
  rdPtr rb + used + len <= endPtr rb -> 0 < len <= lenZ str ->
  exists r, ringBufFind_loop fuel rb mem str len (rdPtr rb + i) i used = Some r /\
    ((r = -1 /\ forall j, i <= j < used -> strncmp mem (rdPtr rb + j) str len = Some false)
     \/ (i <= r < used /\ strncmp mem (rdPtr rb + r) str len = Some true /\
         forall j, i <= j < r -> strncmp mem (rdPtr rb + j) str len = Some false)).
Proof.
  intros Hwf. pose proof Hwf as Hwf2. destruct Hwf2.
  revert i. induction fuel as [|fuel IH]; intros i Hi Hused Hend Hlen.
  { exists (-1). split; [done|]. left. split; [done|]. lia. }
  cbn [ringBufFind_loop]. split_cmp; cbn [mbind option_bind].
  assert (is_Some (strncmp mem (rdPtr rb + i) str len)) as [b Hb].
  { unfold strncmp. split_cmp. apply strncmp_eq_defined; lia. }
  rewrite Hb. cbn [mbind option_bind]. destruct b.
  { exists i. split; [done|]. right. split; [lia|]. split; [done|]. lia. }
  destruct (IH (i + 1)) as (r & Hr & H'); [lia..|].
  exists r. replace (rdPtr rb + i + 1) with (rdPtr rb + (i + 1)) by lia.
  split; [done|].
  assert (forall P : Z -> Prop, P i -> forall k, (forall j, i + 1 <= j < k -> P j) ->
    forall j, i <= j < k -> P j) as Hext.
  { intros P Pi k Hk j Hj. destruct (decide (j = i)) as [->|]; [done|]. apply Hk. lia. }
  destruct H' as [[-> Hall]|(Hrange & Ht & Hall)]; [left|right].
  - split; [done|]. by apply Hext.
  - split; [lia|]. split; [done|]. by apply Hext.
Qed.

(** as long as neither the queued bytes nor the compared ones reach the end of
    the storage, [ringBufFind] returns the index of the first queued position where
    [strncmp] matches, -1 when there is none. *)
Theorem ringBufFind_spec rb mem str len :
  ring_wf rb mem -> 0 < len <= lenZ str -> rdPtr rb + ringBufUsed rb + len <= endPtr rb ->
  exists r, ringBufFind rb mem str len = Some r /\
    ((r = -1 /\ forall j, 0 <= j < ringBufUsed rb ->
        strncmp mem (rdPtr rb + j) str len = Some false)
     \/ (0 <= r < ringBufUsed rb /\ strncmp mem (rdPtr rb + r) str len = Some true /\
         forall j, 0 <= j < r -> strncmp mem (rdPtr rb + j) str len = Some false)).
Proof.
  intros Hwf Hlen Hend. pose proof (ringBufUsed_range _ _ Hwf).
  destruct (ringBufFind_loop_spec (Z.to_nat (ringBufUsed rb)) rb mem str len 0
    (ringBufUsed rb) Hwf) as (r & E & H'); [lia..|].
  rewrite Z.add_0_r in E. exists r. split; [exact E|exact H'].
Qed.

(** [ringBufRemove] drops bytes from the front, [ringBufClear] all of them. *)
Lemma ringBufRemove_spec rb mem len :
  ring_wf rb mem -> 0 <= len ->
  let '(rb', n) := ringBufRemove rb len in
  n = Z.min len (ringBufUsed rb) /\ ring_wf rb' mem /\
  ring_contents rb' mem = dropZ n (ring_contents rb mem).
Proof.
  intros Hwf Hlen. pose proof (ringBufUsed_range _ _ Hwf) as Hu.
  pose proof Hwf as Hwf2. destruct Hwf2. unfold ringBufRemove.
  destruct (Z.leb_spec (ringBufUsed rb) 0).
  { split; [lia|]. split; [done|]. by rewrite dropZ_0. }
  destruct (Z.leb_spec (ringBufUsed rb) len).
  - split; [lia|]. apply ring_advance; [done|lia|].
    clear Hu. unfold ringBufUsed in *. split_cmp; lia.
  - split; [lia|].
    destruct (ring_advance rb mem len _ Hwf ltac:(lia) eq_refl) as [H1 H2].
    unfold set_rdPtr in *; cbn in *. destruct (endPtr rb <=? rdPtr rb + len); done.
Qed.

Lemma ringBufClear_spec rb mem :
  ring_wf rb mem ->
  ring_wf (fst (ringBufClear rb)) mem /\ ring_contents (fst (ringBufClear rb)) mem = [] /\
  snd (ringBufClear rb) = lenZ (ring_contents rb mem).
Proof.
  intros Hwf. rewrite (ring_contents_len _ _ Hwf). unfold ringBufClear.
  split; [ring_destruct; ring_wf_tac|]. split; [|done].
  unfold ring_contents; cbn. rewrite Z.sub_diag. done.
Qed.

(** ** Deviations from the documented behaviour *)

(** A write that reaches the end of the storage copies its source from the
    beginning again: the byte after the wrap is the first byte of [buf], not byte
    [endPtr - wrPtr]. *)
Theorem ringBufWrite_wrap_restarts rb mem buf n :
  ring_wf rb mem -> endPtr rb - wrPtr rb < n <= ringBufFree rb -> n <= lenZ buf ->
  nthZ (ring_stream rb buf n) (endPtr rb - wrPtr rb) = nthZ buf 0.
Proof.
  intros Hwf Hn Hb. ring_destruct. unfold ring_stream; cbn. split_cmp. nth_ext.
Qed.

(** Storage of 8 bytes, read and write pointer at offset 6. *)
Example ringBufWrite_wrap_example :
  let rb := RingBuf 100 108 106 106 8 1 in
  let mem := Region 100 (replicate 8 0) in
  option_map (fun s => ring_contents (fst (fst s)) (snd (fst s)))
    (ringBufWrite rb mem [1; 2; 3; 4] 4) = Some [1; 2; 1; 2].
Proof. reflexivity. Qed.

(** A peek whose [offset + len] exceeds the queue still reports [len] bytes: the
    last ones were never written. *)
Example ringBufPeek_overread_example :
  ringBufPeek (RingBuf 100 108 100 103 8 1) (Region 100 [1; 2; 3; 77; 78; 79; 80; 81]) 3 2
  = Some ([3; 77; 78], 3).
Proof. reflexivity. Qed.

(** Across the wrap [ringBufFind] compares the wrong lengths, and then the storage with
    itself: "AB" then "C" is queued, and "BC" is not found; "X" is found in a queue that
    holds "A" alone. *)
Example ringBufFind_wrap_example :
  let rb := RingBuf 100 104 102 101 4 1 in
  let mem := Region 100 [67; 0; 65; 66] in
  ring_contents rb mem = [65; 66; 67] /\ ringBufFind rb mem [66; 67] 2 = Some (-1) /\
  let rb := RingBuf 100 102 101 100 2 1 in
  let mem := Region 100 [65; 65] in
  ring_contents rb mem = [65] /\ ringBufFind rb mem [88] 1 = Some 0.
Proof. vm_compute. done. Qed.
