(* ===== verification/Checksum.v ===== *)
(** * Checksums (src/src/ISComm.c, src/src/data_sets.c,
    src/hw-libs/bootloader/bootloaderShared.c)

    The CRC, Fletcher and XOR routines over a list of bytes, their reference
    definitions, and the class that the packet code relies on. *)

From S2P Require Import Prelude.

Module Checksum.

(** ** CRC-24Q *)

Definition TABLE_CRC24Q : list Z :=
  [ 0x000000; 0x864CFB; 0x8AD50D; 0x0C99F6; 0x93E6E1; 0x15AA1A; 0x1933EC; 0x9F7F17;
    0xA18139; 0x27CDC2; 0x2B5434; 0xAD18CF; 0x3267D8; 0xB42B23; 0xB8B2D5; 0x3EFE2E;
    0xC54E89; 0x430272; 0x4F9B84; 0xC9D77F; 0x56A868; 0xD0E493; 0xDC7D65; 0x5A319E;
    0x64CFB0; 0xE2834B; 0xEE1ABD; 0x685646; 0xF72951; 0x7165AA; 0x7DFC5C; 0xFBB0A7;
    0x0CD1E9; 0x8A9D12; 0x8604E4; 0x00481F; 0x9F3708; 0x197BF3; 0x15E205; 0x93AEFE;
    0xAD50D0; 0x2B1C2B; 0x2785DD; 0xA1C926; 0x3EB631; 0xB8FACA; 0xB4633C; 0x322FC7;
    0xC99F60; 0x4FD39B; 0x434A6D; 0xC50696; 0x5A7981; 0xDC357A; 0xD0AC8C; 0x56E077;
    0x681E59; 0xEE52A2; 0xE2CB54; 0x6487AF; 0xFBF8B8; 0x7DB443; 0x712DB5; 0xF7614E;
    0x19A3D2; 0x9FEF29; 0x9376DF; 0x153A24; 0x8A4533; 0x0C09C8; 0x00903E; 0x86DCC5;
    0xB822EB; 0x3E6E10; 0x32F7E6; 0xB4BB1D; 0x2BC40A; 0xAD88F1; 0xA11107; 0x275DFC;
    0xDCED5B; 0x5AA1A0; 0x563856; 0xD074AD; 0x4F0BBA; 0xC94741; 0xC5DEB7; 0x43924C;
    0x7D6C62; 0xFB2099; 0xF7B96F; 0x71F594; 0xEE8A83; 0x68C678; 0x645F8E; 0xE21375;
    0x15723B; 0x933EC0; 0x9FA736; 0x19EBCD; 0x8694DA; 0x00D821; 0x0C41D7; 0x8A0D2C;
    0xB4F302; 0x32BFF9; 0x3E260F; 0xB86AF4; 0x2715E3; 0xA15918; 0xADC0EE; 0x2B8C15;
    0xD03CB2; 0x567049; 0x5AE9BF; 0xDCA544; 0x43DA53; 0xC596A8; 0xC90F5E; 0x4F43A5;
    0x71BD8B; 0xF7F170; 0xFB6886; 0x7D247D; 0xE25B6A; 0x641791; 0x688E67; 0xEEC29C;
    0x3347A4; 0xB50B5F; 0xB992A9; 0x3FDE52; 0xA0A145; 0x26EDBE; 0x2A7448; 0xAC38B3;
    0x92C69D; 0x148A66; 0x181390; 0x9E5F6B; 0x01207C; 0x876C87; 0x8BF571; 0x0DB98A;
    0xF6092D; 0x7045D6; 0x7CDC20; 0xFA90DB; 0x65EFCC; 0xE3A337; 0xEF3AC1; 0x69763A;
    0x578814; 0xD1C4EF; 0xDD5D19; 0x5B11E2; 0xC46EF5; 0x42220E; 0x4EBBF8; 0xC8F703;
    0x3F964D; 0xB9DAB6; 0xB54340; 0x330FBB; 0xAC70AC; 0x2A3C57; 0x26A5A1; 0xA0E95A;
    0x9E1774; 0x185B8F; 0x14C279; 0x928E82; 0x0DF195; 0x8BBD6E; 0x872498; 0x016863;
    0xFAD8C4; 0x7C943F; 0x700DC9; 0xF64132; 0x693E25; 0xEF72DE; 0xE3EB28; 0x65A7D3;
    0x5B59FD; 0xDD1506; 0xD18CF0; 0x57C00B; 0xC8BF1C; 0x4EF3E7; 0x426A11; 0xC426EA;
    0x2AE476; 0xACA88D; 0xA0317B; 0x267D80; 0xB90297; 0x3F4E6C; 0x33D79A; 0xB59B61;
    0x8B654F; 0x0D29B4; 0x01B042; 0x87FCB9; 0x1883AE; 0x9ECF55; 0x9256A3; 0x141A58;
    0xEFAAFF; 0x69E604; 0x657FF2; 0xE33309; 0x7C4C1E; 0xFA00E5; 0xF69913; 0x70D5E8;
    0x4E2BC6; 0xC8673D; 0xC4FECB; 0x42B230; 0xDDCD27; 0x5B81DC; 0x57182A; 0xD154D1;
    0x26359F; 0xA07964; 0xACE092; 0x2AAC69; 0xB5D37E; 0x339F85; 0x3F0673; 0xB94A88;
    0x87B4A6; 0x01F85D; 0x0D61AB; 0x8B2D50; 0x145247; 0x921EBC; 0x9E874A; 0x18CBB1;
    0xE37B16; 0x6537ED; 0x69AE1B; 0xEFE2E0; 0x709DF7; 0xF6D10C; 0xFA48FA; 0x7C0401;
    0x42FA2F; 0xC4B6D4; 0xC82F22; 0x4E63D9; 0xD11CCE; 0x575035; 0x5BC9C3; 0xDD8538 ].

Definition crc24_step (crc b : Z) : Z :=
  Z.lxor (Z.land (Z.shiftl crc 8) 0xFFFFFF)
    (default 0 (nthZ TABLE_CRC24Q (Z.lxor (Z.shiftr crc 16) b))).

Definition calculate24BitCRCQ (buffer : list Z) : Z := fold_left crc24_step buffer 0.

(** ** CRC-4 of the SPARTN header *)

Definition u8CRC_4_TABLE : list Z :=
  [ 0x0; 0xB; 0x5; 0xE; 0xA; 0x1; 0xF; 0x4; 0x7; 0xC; 0x2; 0x9; 0xD; 0x6; 0x8; 0x3;
    0xE; 0x5; 0xB; 0x0; 0x4; 0xF; 0x1; 0xA; 0x9; 0x2; 0xC; 0x7; 0x3; 0x8; 0x6; 0xD;
    0xF; 0x4; 0xA; 0x1; 0x5; 0xE; 0x0; 0xB; 0x8; 0x3; 0xD; 0x6; 0x2; 0x9; 0x7; 0xC;
    0x1; 0xA; 0x4; 0xF; 0xB; 0x0; 0xE; 0x5; 0x6; 0xD; 0x3; 0x8; 0xC; 0x7; 0x9; 0x2;
    0xD; 0x6; 0x8; 0x3; 0x7; 0xC; 0x2; 0x9; 0xA; 0x1; 0xF; 0x4; 0x0; 0xB; 0x5; 0xE;
    0x3; 0x8; 0x6; 0xD; 0x9; 0x2; 0xC; 0x7; 0x4; 0xF; 0x1; 0xA; 0xE; 0x5; 0xB; 0x0;
    0x2; 0x9; 0x7; 0xC; 0x8; 0x3; 0xD; 0x6; 0x5; 0xE; 0x0; 0xB; 0xF; 0x4; 0xA; 0x1;
    0xC; 0x7; 0x9; 0x2; 0x6; 0xD; 0x3; 0x8; 0xB; 0x0; 0xE; 0x5; 0x1; 0xA; 0x4; 0xF;
    0x9; 0x2; 0xC; 0x7; 0x3; 0x8; 0x6; 0xD; 0xE; 0x5; 0xB; 0x0; 0x4; 0xF; 0x1; 0xA;
    0x7; 0xC; 0x2; 0x9; 0xD; 0x6; 0x8; 0x3; 0x0; 0xB; 0x5; 0xE; 0xA; 0x1; 0xF; 0x4;
    0x6; 0xD; 0x3; 0x8; 0xC; 0x7; 0x9; 0x2; 0x1; 0xA; 0x4; 0xF; 0xB; 0x0; 0xE; 0x5;
    0x8; 0x3; 0xD; 0x6; 0x2; 0x9; 0x7; 0xC; 0xF; 0x4; 0xA; 0x1; 0x5; 0xE; 0x0; 0xB;
    0x4; 0xF; 0x1; 0xA; 0xE; 0x5; 0xB; 0x0; 0x3; 0x8; 0x6; 0xD; 0x9; 0x2; 0xC; 0x7;
    0xA; 0x1; 0xF; 0x4; 0x0; 0xB; 0x5; 0xE; 0xD; 0x6; 0x8; 0x3; 0x7; 0xC; 0x2; 0x9;
    0xB; 0x0; 0xE; 0x5; 0x1; 0xA; 0x4; 0xF; 0xC; 0x7; 0x9; 0x2; 0x6; 0xD; 0x3; 0x8;
    0x5; 0xE; 0x0; 0xB; 0xF; 0x4; 0xA; 0x1; 0x2; 0x9; 0x7; 0xC; 0x8; 0x3; 0xD; 0x6 ].

Definition crc4_step (remainder b : Z) : Z :=
  default 0 (nthZ u8CRC_4_TABLE (Z.lxor b remainder)).

Definition computeCrc4Ccitt (buf : list Z) : Z :=
  Z.land (fold_left crc4_step buf 0) 0x0F.

(** ** 16-bit checksums: low byte [a], high byte [b] of the union [checksum16_u] *)

Record checksum16_u := Ck16 { ck_a : Z; ck_b : Z }.

Definition ck16_of (ck : Z) : checksum16_u := Ck16 (lo8 ck) (hi8 ck).
Definition ck16_to (c : checksum16_u) : Z := le16 (ck_a c) (ck_b c).

Definition fletcher16_step (c : checksum16_u) (x : Z) : checksum16_u :=
  let a := u8 (ck_a c + x) in Ck16 a (u8 (ck_b c + a)).

Definition is_comm_fletcher16 (cksum_init : Z) (data : list Z) : Z :=
  ck16_to (fold_left fletcher16_step data (ck16_of cksum_init)).

Definition xor16_step (c : checksum16_u) (x : Z) : checksum16_u :=
  let a := Z.lxor (ck_a c) x in Ck16 a (Z.lxor (ck_b c) a).

Definition is_comm_xor16 (cksum_init : Z) (data : list Z) : Z :=
  ck16_to (fold_left xor16_step data (ck16_of cksum_init)).

(** The macro [is_comm_isb_checksum16] names the one the packet format uses. *)
Definition is_comm_isb_checksum16 : Z -> list Z -> Z := is_comm_fletcher16.

(** ** Big-endian bit fields *)

(** The bit at position [i] of the bytes from address [buffer] on. *)
Definition buf_bit (m : region) (buffer i : Z) : option Z :=
  x ← load m (buffer + i / 8); Some (Z.land (Z.shiftr x (7 - i mod 8)) 1).

Fixpoint getBits_loop (n : nat) (m : region) (buffer i bits : Z) : option Z :=
  match n with
  | O => Some bits
  | S n =>
    b ← buf_bit m buffer i;
    getBits_loop n m buffer (i + 1) (u32 (Z.shiftl bits 1 + b))
  end.

Definition getBitsAsUInt32 (m : region) (buffer pos len : Z) : option Z :=
  getBits_loop (Z.to_nat len) m buffer pos 0.

Definition messageStatsGetbitu (m : region) (buff pos len : Z) : option Z :=
  getBits_loop (Z.to_nat len) m buff pos 0.

(** ** XOR of 32-bit words (flash structures) *)

Definition le32 (a b c d : Z) : Z := a + 256 * b + 65536 * c + 16777216 * d.

Fixpoint words32 (data : list Z) : list Z :=
  match data with
  | a :: b :: c :: d :: data => le32 a b c d :: words32 data
  | _ => []
  end.

(** [data] holds the bytes from the pointer on, [count] the size argument. *)
Definition checksum32 (data : list Z) (count : Z) : option Z :=
  if (count <? 1) || negb (Z.rem count 4 =? 0) then Some 0
  else bytes ← take_exact count data; Some (fold_left Z.lxor (words32 bytes) 0).

Definition serialNumChecksum32 (data : list Z) (size : Z) : option Z :=
  checksum32 (dropZ 4 data) (size - 4).

Definition flashChecksum32 (data : list Z) (size : Z) : option Z :=
  checksum32 (dropZ 8 data) (size - 8).

(** ** Bootloader hash *)

Definition BOOTLOADER_HASH_MIXER : Z := 0x5bd1e995.
Definition BOOTLOADER_HASH_SHIFTER : Z := 24.

Definition hash_step (hashCode value : Z) : Z :=
  let value := u32 (value * BOOTLOADER_HASH_MIXER) in
  let value := Z.lxor value (Z.shiftr value BOOTLOADER_HASH_SHIFTER) in
  let value := u32 (value * BOOTLOADER_HASH_MIXER) in
  let hashCode := u32 (hashCode * BOOTLOADER_HASH_MIXER) in
  Z.lxor hashCode value.

(** [words] are the 32-bit words between [start] and [end]. *)
Definition calculateBootloaderHashCode (hashCode : Z) (words : list Z) : Z :=
  fold_left hash_step words hashCode.

End Checksum.
Export Checksum.

(** ** Reference definitions *)

(** One step of the CRC-24Q shift register, polynomial 0x1864CFB. *)
Definition crc24_shift (r : Z) : Z :=
  if Z.testbit r 23 then Z.lxor (Z.shiftl r 1) 0x1864CFB else Z.shiftl r 1.

Definition crc24_byte (crc b : Z) : Z :=
  Nat.iter 8 crc24_shift (Z.lxor crc (Z.shiftl b 16)).

Definition crc24_ref (msg : list Z) : Z := fold_left crc24_byte msg 0.

(** One step of the reflected CRC-4 shift register, polynomial 9. *)
Definition crc4_shift (r : Z) : Z :=
  if Z.testbit r 0 then Z.lxor (Z.shiftr r 1) 9 else Z.shiftr r 1.

Definition crc4_ref (msg : list Z) : Z :=
  fold_left (fun crc b => Nat.iter 8 crc4_shift (Z.lxor b crc)) msg 0.

(** ** What the packet code relies on *)

Class Checksum16 (ck : Z -> list Z -> Z) : Prop := {
  ck16_app s xs ys : Forall byte xs -> ck s (xs ++ ys) = ck (ck s xs) ys;
  ck16_range s xs : Forall byte xs -> 0 <= ck s xs < 65536
}.

(** ** Bits of integers *)

(** Equality of integers bit by bit, up to [xor] of the bits. *)
Ltac zbits :=
  apply Z.bits_inj'; let i := fresh "i" in let Hi := fresh "Hi" in intros i Hi;
  rewrite ?Z.lxor_spec, ?Z.land_spec, ?Z.shiftl_spec, ?Z.shiftr_spec, ?Z.lxor_spec
    by lia;
  repeat match goal with |- context [Z.testbit ?x ?j] => destruct (Z.testbit x j) end;
  try done.

Lemma lxor_bound n x y :
  0 <= n -> 0 <= x < 2 ^ n -> 0 <= y < 2 ^ n -> 0 <= Z.lxor x y < 2 ^ n.
Proof.
  intros Hn Hx Hy. split; [apply Z.lxor_nonneg; lia|].
  destruct (decide (Z.lxor x y = 0)) as [->|Hne]; [lia|].
  assert (0 <= Z.lxor x y) by (apply Z.lxor_nonneg; lia).
  apply Z.log2_lt_pow2; [lia|].
  assert (forall z, 0 <= z < 2 ^ n -> z = 0 \/ Z.log2 z < n) as Hl.
  { intros z Hz. destruct (decide (z = 0)); [by left|right]. apply Z.log2_lt_pow2; lia. }
  pose proof (Z.log2_lxor x y ltac:(lia) ltac:(lia)).
  assert (n <> 0) by (intros ->; destruct Hx, Hy; cbn in *; assert (x = 0) by lia;
    assert (y = 0) by lia; subst; done).
  destruct (Hl x Hx) as [->|], (Hl y Hy) as [->|]; cbn [Z.log2] in *; lia.
Qed.

Lemma lxor_mod n x y :
  0 <= n -> Z.lxor x y mod 2 ^ n = Z.lxor (x mod 2 ^ n) (y mod 2 ^ n).
Proof. intros. rewrite <- !Z.land_ones by lia. zbits. Qed.

Lemma lxor_cancel_r x y z : Z.lxor x z = Z.lxor y z -> x = y.
Proof.
  intros H. apply (f_equal (fun w => Z.lxor w z)) in H.
  by rewrite !Z.lxor_assoc, !Z.lxor_nilpotent, !Z.lxor_0_r in H.
Qed.

Lemma lxor_cancel_l x y z : Z.lxor z x = Z.lxor z y -> x = y.
Proof. rewrite !(Z.lxor_comm z). apply lxor_cancel_r. Qed.

(** A fold whose step is injective in the state and in the element tells two
    messages that differ in one element apart. *)
Lemma fold_left_single {A B} (step : A -> B -> A) (P : A -> Prop) (Q : B -> Prop)
    pre post x y s :
  (forall s b, P s -> Q b -> P (step s b)) ->
  (forall s1 s2 b, P s1 -> P s2 -> Q b -> step s1 b = step s2 b -> s1 = s2) ->
  (forall s b1 b2, P s -> Q b1 -> Q b2 -> step s b1 = step s b2 -> b1 = b2) ->
  P s -> Forall Q (pre ++ x :: post) -> Q y ->
  fold_left step (pre ++ x :: post) s = fold_left step (pre ++ y :: post) s -> x = y.
Proof.
  intros Hpres Hst Hel Hs Hall Hy. rewrite !fold_left_app. cbn [fold_left].
  apply Forall_app in Hall as [Hpre Hall]. apply Forall_cons_iff in Hall as [Hx Hpost].
  assert (P (fold_left step pre s)) as Hs1.
  { clear -Hs Hpre Hpres. revert s Hs. induction Hpre; cbn; auto. }
  revert Hs1. generalize (fold_left step pre s) as t. intros t Ht Heq.
  apply (Hel t); try done.
  assert (P (step t x)) as Hx1 by auto. assert (P (step t y)) as Hy1 by auto.
  revert Heq Hx1 Hy1. generalize (step t x) (step t y). clear -Hpost Hst Hpres.
  induction Hpost as [|z post Hz Hpost IH]; intros a b Heq Ha Hb; [done|].
  cbn in Heq. apply (Hst _ _ z); eauto.
Qed.

(** A statement about the integers below a bound, decided by computation. *)
Lemma forall_below (f : Z -> bool) n :
  forallb f (map Z.of_nat (seq 0 n)) = true -> forall i, 0 <= i < Z.of_nat n -> f i = true.
Proof.
  intros H i Hi. rewrite forallb_forall in H. apply H.
  apply in_map_iff. exists (Z.to_nat i). split; [lia|]. apply in_seq. lia.
Qed.

(** ** CRC-24Q against its shift register *)

Lemma crc24_shift_lxor x y :
  crc24_shift (Z.lxor x y) = Z.lxor (crc24_shift x) (crc24_shift y).
Proof.
  unfold crc24_shift. rewrite Z.lxor_spec, Z.shiftl_lxor.
  destruct (Z.testbit x 23), (Z.testbit y 23); cbn [xorb]; zbits.
Qed.

Lemma crc24_iter_lxor n x y :
  Nat.iter n crc24_shift (Z.lxor x y) =
    Z.lxor (Nat.iter n crc24_shift x) (Nat.iter n crc24_shift y).
Proof.
  induction n as [|n IH]; [done|]. by rewrite !Nat.iter_succ, IH, crc24_shift_lxor.
Qed.

Lemma crc24_iter_small n x :
  (n <= 23)%nat -> 0 <= x < 2 ^ (24 - Z.of_nat n) ->
  Nat.iter n crc24_shift x = Z.shiftl x (Z.of_nat n).
Proof.
  induction n as [|n IH]; intros Hn Hx; [cbn; by rewrite Z.shiftl_0_r|].
  rewrite Nat.iter_succ, IH.
  2: lia.
  2: { split; [lia|]. eapply Z.lt_le_trans; [apply Hx|]. apply Z.pow_le_mono_r; lia. }
  unfold crc24_shift. rewrite Z.shiftl_spec by lia.
  rewrite (Z.bits_above_log2 x).
  - rewrite Z.shiftl_shiftl by lia. f_equal. lia.
  - lia.
  - destruct (decide (x = 0)) as [->|]; [cbn; lia|].
    apply Z.log2_lt_pow2; [lia|]. replace (23 - Z.of_nat n) with (24 - Z.of_nat (S n)) by lia.
    lia.
Qed.

Lemma crc24_table_ok i :
  0 <= i < 256 ->
  nthZ TABLE_CRC24Q i = Some (Nat.iter 8 crc24_shift (Z.shiftl i 16)).
Proof.
  intros Hi.
  assert ((match nthZ TABLE_CRC24Q i with
           | Some v => v =? Nat.iter 8 crc24_shift (Z.shiftl i 16)
           | None => false end) = true) as H.
  { apply (forall_below (fun i => match nthZ TABLE_CRC24Q i with
           | Some v => v =? Nat.iter 8 crc24_shift (Z.shiftl i 16)
           | None => false end) 256); [vm_compute; reflexivity|lia]. }
  destruct (nthZ _ _) as [v|]; [|done]. by apply Z.eqb_eq in H as ->.
Qed.

(** A 24-bit register split into its top byte and the rest. *)
Lemma crc24_split crc :
  0 <= crc < 2 ^ 24 ->
  0 <= Z.shiftr crc 16 < 256 /\ 0 <= crc mod 65536 < 2 ^ 16 /\
  crc = Z.lxor (Z.shiftl (Z.shiftr crc 16) 16) (crc mod 65536).
Proof.
  intros H. rewrite Z.shiftr_div_pow2 by lia. change (2 ^ 16) with 65536.
  change (2 ^ 24) with 16777216 in H. split; [zlia|]. split; [zlia|].
  rewrite <- Z.add_nocarry_lxor.
  - rewrite Z.shiftl_mul_pow2 by lia. change (2 ^ 16) with 65536. zlia.
  - change 65536 with (2 ^ 16). rewrite <- Z.land_ones by lia.
    apply Z.bits_inj'. intros i Hi.
    rewrite !Z.land_spec, Z.bits_0. destruct (Z.ltb_spec i 16).
    + rewrite Z.shiftl_spec_low by lia. done.
    + rewrite Z.ones_spec_high by lia. by rewrite !andb_false_r.
Qed.

Lemma crc24_mask crc :
  0 <= crc < 2 ^ 24 -> Z.land (Z.shiftl crc 8) 0xFFFFFF = Z.shiftl (crc mod 65536) 8.
Proof.
  intros H. change 0xFFFFFF with (Z.ones 24). rewrite Z.land_ones by lia.
  rewrite !Z.shiftl_mul_pow2 by lia. change (2 ^ 24) with (65536 * 2 ^ 8).
  rewrite Z.mul_mod_distr_r by lia. done.
Qed.

Lemma crc24_step_ref crc b :
  0 <= crc < 2 ^ 24 -> byte b -> crc24_step crc b = crc24_byte crc b.
Proof.
  intros Hc Hb. destruct (crc24_split crc Hc) as (Hhi & Hlo & Ec).
  unfold crc24_step, crc24_byte. rewrite crc24_mask by done.
  assert (0 <= Z.lxor (Z.shiftr crc 16) b < 256) as Hidx
    by (apply (lxor_bound 8); unfold byte in *; lia).
  rewrite crc24_table_ok by done. cbn [default].
  replace (Z.lxor crc (Z.shiftl b 16)) with
    (Z.lxor (Z.shiftl (Z.lxor (Z.shiftr crc 16) b) 16) (crc mod 65536)).
  2: { rewrite Z.shiftl_lxor, Z.lxor_assoc, (Z.lxor_comm (Z.shiftl b 16)),
         <- Z.lxor_assoc, <- Ec. done. }
  rewrite crc24_iter_lxor, (crc24_iter_small 8 (crc mod 65536)) by (cbn; lia).
  rewrite Z.lxor_comm. done.
Qed.

Lemma crc24_step_range crc b :
  0 <= crc < 2 ^ 24 -> byte b -> 0 <= crc24_step crc b < 2 ^ 24.
Proof.
  intros Hc Hb. unfold crc24_step. rewrite crc24_mask by done.
  apply lxor_bound; [lia| |].
  - rewrite Z.shiftl_mul_pow2 by lia. change (2 ^ 24) with 16777216 in *.
    change (2 ^ 8) with 256. zlia.
  - assert (0 <= Z.lxor (Z.shiftr crc 16) b < 256) as Hidx.
    { destruct (crc24_split crc Hc). apply (lxor_bound 8); unfold byte in *; lia. }
    assert (forall i, 0 <= i < Z.of_nat 256 ->
      (match nthZ TABLE_CRC24Q i with
       | Some v => (0 <=? v) && (v <? 2 ^ 24) | None => false end) = true) as H.
    { apply (forall_below (fun i => match nthZ TABLE_CRC24Q i with
       | Some v => (0 <=? v) && (v <? 2 ^ 24) | None => false end)).
      vm_compute; reflexivity. }
    specialize (H _ Hidx). destruct (nthZ _ _); [|done].
    apply andb_true_iff in H as [H1 H2]. apply Z.leb_le in H1. apply Z.ltb_lt in H2.
    done.
Qed.

Lemma crc24_fold_ref msg crc :
  0 <= crc < 2 ^ 24 -> Forall byte msg ->
  fold_left crc24_step msg crc = fold_left crc24_byte msg crc /\
  0 <= fold_left crc24_step msg crc < 2 ^ 24.
Proof.
  revert crc. induction msg as [|b msg IH]; intros crc Hc Hall; [done|].
  apply Forall_cons_iff in Hall as [Hb Hall]. cbn [fold_left].
  rewrite <- crc24_step_ref by done. apply IH; [|done]. by apply crc24_step_range.
Qed.

(** The low bytes of the table entries are all different. *)
Lemma crc24_table_low i j v w :
  0 <= i < 256 -> 0 <= j < 256 ->
  nthZ TABLE_CRC24Q i = Some v -> nthZ TABLE_CRC24Q j = Some w ->
  v mod 256 = w mod 256 -> i = j.
Proof.
  intros Hi Hj Hv Hw E.
  assert (NoDup (map (fun v => v mod 256) TABLE_CRC24Q)) as Hnd.
  { apply (bool_decide_unpack _). vm_compute. exact I. }
  unfold nthZ in Hv, Hw. destruct (Z.leb_spec 0 i), (Z.leb_spec 0 j); try lia.
  assert (Z.to_nat i = Z.to_nat j); [|lia].
  eapply (NoDup_lookup _ _ _ (v mod 256)); [exact Hnd| |].
  - rewrite list_lookup_fmap, Hv. done.
  - rewrite list_lookup_fmap, Hw, E. done.
Qed.

Lemma crc24_step_eq c1 c2 x y :
  0 <= c1 < 2 ^ 24 -> 0 <= c2 < 2 ^ 24 -> byte x -> byte y ->
  crc24_step c1 x = crc24_step c2 y ->
  Z.lxor (Z.shiftr c1 16) x = Z.lxor (Z.shiftr c2 16) y /\ c1 mod 65536 = c2 mod 65536.
Proof.
  intros H1 H2 Hx Hy. unfold crc24_step. rewrite !crc24_mask by done.
  destruct (crc24_split c1 H1) as (Hh1 & Hl1 & _), (crc24_split c2 H2) as (Hh2 & Hl2 & _).
  assert (0 <= Z.lxor (Z.shiftr c1 16) x < 256) as Hi1
    by (apply (lxor_bound 8); unfold byte in *; lia).
  assert (0 <= Z.lxor (Z.shiftr c2 16) y < 256) as Hi2
    by (apply (lxor_bound 8); unfold byte in *; lia).
  destruct (nthZ_Some TABLE_CRC24Q _ Hi1) as [v Hv].
  destruct (nthZ_Some TABLE_CRC24Q _ Hi2) as [w Hw].
  rewrite Hv, Hw. cbn [default]. intros E.
  assert (v mod 256 = w mod 256) as El.
  { apply (f_equal (fun z => z mod 2 ^ 8)) in E.
    rewrite !lxor_mod, !Z.shiftl_mul_pow2, !Z.mod_mul, !Z.lxor_0_l in E by lia.
    done. }
  pose proof (crc24_table_low _ _ v w Hi1 Hi2 Hv Hw El) as Eidx.
  split; [done|]. rewrite Eidx in Hv. rewrite Hv in Hw. injection Hw as ->.
  apply lxor_cancel_r in E. rewrite !Z.shiftl_mul_pow2 in E by lia. lia.
Qed.

Lemma crc24_state_inj c1 c2 b :
  0 <= c1 < 2 ^ 24 -> 0 <= c2 < 2 ^ 24 -> byte b ->
  crc24_step c1 b = crc24_step c2 b -> c1 = c2.
Proof.
  intros H1 H2 Hb E. apply crc24_step_eq in E as [Eh El]; try done.
  apply lxor_cancel_r in Eh.
  destruct (crc24_split c1 H1) as (_ & _ & E1), (crc24_split c2 H2) as (_ & _ & E2).
  rewrite E1, E2, Eh, El. done.
Qed.

Lemma crc24_byte_inj c x y :
  0 <= c < 2 ^ 24 -> byte x -> byte y -> crc24_step c x = crc24_step c y -> x = y.
Proof.
  intros Hc Hx Hy E. apply crc24_step_eq in E as [Eh _]; try done.
  by apply lxor_cancel_l in Eh.
Qed.

(** ** CRC-4 *)

Lemma crc4_step_ref r b :
  0 <= r < 16 -> byte b ->
  crc4_step r b = Nat.iter 8 crc4_shift (Z.lxor b r) /\ 0 <= crc4_step r b < 16.
Proof.
  intros Hr Hb. unfold crc4_step.
  assert (0 <= Z.lxor b r < 256) as Hi by (apply (lxor_bound 8); unfold byte in *; lia).
  assert (forall i, 0 <= i < Z.of_nat 256 ->
    (match nthZ u8CRC_4_TABLE i with
     | Some v => (v =? Nat.iter 8 crc4_shift i) && (0 <=? v) && (v <? 16)
     | None => false end) = true) as H.
  { apply (forall_below (fun i => match nthZ u8CRC_4_TABLE i with
     | Some v => (v =? Nat.iter 8 crc4_shift i) && (0 <=? v) && (v <? 16)
     | None => false end)). vm_compute; reflexivity. }
  specialize (H _ Hi). destruct (nthZ _ _) as [v|]; [|done]. cbn [default].
  rewrite !andb_true_iff, Z.eqb_eq, Z.leb_le, Z.ltb_lt in H. tauto.
Qed.

Lemma crc4_fold_ref msg r :
  0 <= r < 16 -> Forall byte msg ->
  fold_left crc4_step msg r =
    fold_left (fun crc b => Nat.iter 8 crc4_shift (Z.lxor b crc)) msg r /\
  0 <= fold_left crc4_step msg r < 16.
Proof.
  revert r. induction msg as [|b msg IH]; intros r Hr Hall; [done|].
  apply Forall_cons_iff in Hall as [Hb Hall]. cbn [fold_left].
  destruct (crc4_step_ref r b Hr Hb) as [E Hr']. rewrite <- E. by apply IH.
Qed.

(** ** 16-bit checksums *)

Definition ck16_ok (c : checksum16_u) : Prop := byte (ck_a c) /\ byte (ck_b c).

Lemma ck16_of_ok s : ck16_ok (ck16_of s).
Proof. split; unfold byte, ck16_of, lo8, hi8; cbn; zlia. Qed.

Lemma ck16_of_to c : ck16_ok c -> ck16_of (ck16_to c) = c.
Proof.
  destruct c as [a b]. intros [Ha Hb]. unfold byte in *. cbn in *.
  unfold ck16_of, ck16_to, le16, lo8, hi8. cbn. f_equal; zlia.
Qed.

Lemma ck16_to_range c : ck16_ok c -> 0 <= ck16_to c < 65536.
Proof. destruct c. intros [Ha Hb]. unfold byte, ck16_to, le16 in *. cbn in *. lia. Qed.

Lemma fletcher16_step_ok c x : ck16_ok (fletcher16_step c x).
Proof. split; unfold byte, fletcher16_step, u8; cbn; zlia. Qed.

Lemma fletcher16_fold_ok xs c : ck16_ok c -> ck16_ok (fold_left fletcher16_step xs c).
Proof. revert c. induction xs; cbn; auto using fletcher16_step_ok. Qed.

Lemma xor16_fold_ok xs c :
  ck16_ok c -> Forall byte xs -> ck16_ok (fold_left xor16_step xs c).
Proof.
  intros Hc Hall. revert c Hc. induction Hall as [|x xs Hx Hall IH]; intros c Hc; [done|].
  cbn. apply IH. destruct Hc as [Ha Hb]. unfold ck16_ok, byte, xor16_step in *. cbn.
  change 256 with (2 ^ 8) in *.
  assert (0 <= Z.lxor (ck_a c) x < 2 ^ 8) by (apply lxor_bound; lia).
  split; [done|]. apply lxor_bound; lia.
Qed.

#[export] Instance fletcher16_checksum : Checksum16 is_comm_fletcher16.
Proof.
  split.
  - intros s xs ys _. unfold is_comm_fletcher16. rewrite fold_left_app, ck16_of_to; [done|].
    apply fletcher16_fold_ok, ck16_of_ok.
  - intros s xs _. apply ck16_to_range, fletcher16_fold_ok, ck16_of_ok.
Qed.

#[export] Instance xor16_checksum : Checksum16 is_comm_xor16.
Proof.
  split.
  - intros s xs ys Hxs. unfold is_comm_xor16. rewrite fold_left_app, ck16_of_to; [done|].
    by apply xor16_fold_ok; [apply ck16_of_ok|].
  - intros s xs Hxs. apply ck16_to_range, xor16_fold_ok; [apply ck16_of_ok|done].
Qed.

#[export] Instance isb_checksum : Checksum16 is_comm_isb_checksum16.
Proof. apply fletcher16_checksum. Qed.

(** Sum and weighted sum of a list of bytes. *)
Fixpoint sumZ (l : list Z) : Z := match l with [] => 0 | x :: l => x + sumZ l end.
Fixpoint wsumZ (l : list Z) : Z :=
  match l with [] => 0 | x :: l => lenZ (x :: l) * x + wsumZ l end.

Lemma fletcher16_fold_sums xs c :
  ck16_ok c ->
  fold_left fletcher16_step xs c =
    Ck16 ((ck_a c + sumZ xs) mod 256) ((ck_b c + lenZ xs * ck_a c + wsumZ xs) mod 256).
Proof.
  revert c. induction xs as [|x xs IH]; intros [a b] [Ha Hb]; unfold byte in *; cbn in *.
  - change (lenZ []) with 0. f_equal; zlia.
  - rewrite IH by apply fletcher16_step_ok. unfold fletcher16_step, u8. cbn.
    rewrite lenZ_cons. f_equal.
    + rewrite Zplus_mod_idemp_l. f_equal. lia.
    + rewrite (Z.mod_eq (b + _)), (Z.mod_eq (a + x)) by lia.
      set (qa := (a + x) / 256). set (qb := (b + _) / 256).
      rewrite <- (Z_mod_plus_full _ (qa + qb + lenZ xs * qa) 256). f_equal. lia.
Qed.

Lemma fletcher16_sums xs :
  is_comm_fletcher16 0 xs = sumZ xs mod 256 + 256 * (wsumZ xs mod 256).
Proof.
  unfold is_comm_fletcher16. rewrite fletcher16_fold_sums by apply ck16_of_ok.
  unfold ck16_to, le16. cbn. rewrite Z.mul_0_r. done.
Qed.

Lemma sumZ_app xs ys : sumZ (xs ++ ys) = sumZ xs + sumZ ys.
Proof. induction xs; cbn; lia. Qed.

Lemma wsumZ_app xs ys : wsumZ (xs ++ ys) = wsumZ xs + lenZ ys * sumZ xs + wsumZ ys.
Proof. induction xs; cbn; [lia|]. rewrite !lenZ_cons, lenZ_app. lia. Qed.

(** ** Words of a structure *)

Lemma words32_app xs ys :
  (4 | lenZ xs) -> words32 (xs ++ ys) = words32 xs ++ words32 ys.
Proof.
  intros [k Hk]. assert (exists n, length xs = (4 * n)%nat) as [n Hn].
  { exists (Z.to_nat k). unfold lenZ in Hk. lia. }
  clear k Hk. revert xs Hn. induction n as [|n IH]; intros xs Hn.
  { destruct xs; [done|cbn in Hn; lia]. }
  destruct xs as [|a [|b [|c [|d xs]]]]; cbn in Hn; try lia.
  cbn. f_equal. apply IH. lia.
Qed.

Lemma words32_le32_bytes x : 0 <= x < 2 ^ 32 -> words32 (le32_bytes x) = [x].
Proof.
  intros Hx. change (2 ^ 32) with 4294967296 in Hx.
  cbn. unfold le32. f_equal. zlia.
Qed.

Lemma fold_lxor_acc l x : fold_left Z.lxor l x = Z.lxor x (fold_left Z.lxor l 0).
Proof.
  revert x. induction l as [|y l IH]; intros x; cbn [fold_left];
    [by rewrite Z.lxor_0_r|].
  rewrite IH, (IH (Z.lxor 0 y)), Z.lxor_0_l, Z.lxor_assoc. done.
Qed.

Lemma words32_range data : Forall byte data -> Forall (fun w => 0 <= w < 2 ^ 32) (words32 data).
Proof.
  assert (forall n data, (length data <= n)%nat -> Forall byte data ->
    Forall (fun w => 0 <= w < 2 ^ 32) (words32 data)) as H; [|eauto].
  clear data. induction n as [|n IH]; intros data Hn Hall.
  { destruct data; [constructor|cbn in Hn; lia]. }
  destruct data as [|a [|b [|c [|d data]]]]; try constructor.
  - repeat (apply Forall_cons_iff in Hall as [? Hall]). unfold byte, le32 in *.
    change (2 ^ 32) with 4294967296. lia.
  - apply IH; [cbn in Hn; lia|]. by do 4 (apply Forall_cons_iff in Hall as [? Hall]).
Qed.

Lemma fold_lxor_range l x :
  0 <= x < 2 ^ 32 -> Forall (fun w => 0 <= w < 2 ^ 32) l ->
  0 <= fold_left Z.lxor l x < 2 ^ 32.
Proof.
  intros Hx Hall. revert x Hx. induction Hall as [|y l Hy Hall IH]; intros x Hx; [done|].
  cbn. apply IH. apply lxor_bound; [lia|done|done].
Qed.

Lemma checksum32_words data :
  0 < lenZ data -> (4 | lenZ data) ->
  checksum32 data (lenZ data) = Some (fold_left Z.lxor (words32 data) 0).
Proof.
  intros Hl Hd. unfold checksum32.
  assert (Z.rem (lenZ data) 4 = 0) as -> by (apply Z.rem_divide; [lia|done]).
  destruct (Z.ltb_spec (lenZ data) 1); [lia|]. cbn [orb negb Z.eqb].
  rewrite take_exact_ok by lia. cbn. rewrite takeZ_all by lia. done.
Qed.

(** ** The bootloader hash *)

(** Multiplication by the odd mixer is invertible modulo 2^32. *)
Lemma mixer_inj x y :
  0 <= x < 4294967296 -> 0 <= y < 4294967296 ->
  u32 (x * BOOTLOADER_HASH_MIXER) = u32 (y * BOOTLOADER_HASH_MIXER) -> x = y.
Proof.
  intros Hx Hy E. apply (f_equal (fun z => (z * 0xe59b19bd) mod 4294967296)) in E.
  unfold u32 in E. rewrite !Zmult_mod_idemp_l, <- !Z.mul_assoc in E.
  rewrite <- (Zmult_mod_idemp_r (_ * _) x), <- (Zmult_mod_idemp_r (_ * _) y) in E.
  change ((BOOTLOADER_HASH_MIXER * 0xe59b19bd) mod 4294967296) with 1 in E.
  rewrite !Z.mul_1_r, !Z.mod_small in E by lia. done.
Qed.

Lemma xorshift24_inj x y :
  0 <= x < 4294967296 -> 0 <= y < 4294967296 ->
  Z.lxor x (Z.shiftr x 24) = Z.lxor y (Z.shiftr y 24) -> x = y.
Proof.
  intros Hx Hy E.
  assert (forall z, 0 <= z < 4294967296 ->
    z = Z.lxor (Z.lxor z (Z.shiftr z 24)) (Z.shiftr (Z.lxor z (Z.shiftr z 24)) 24)) as H.
  { intros z Hz. rewrite Z.shiftr_lxor, Z.shiftr_shiftr by lia.
    assert (Z.shiftr z (24 + 24) = 0) as ->.
    { rewrite Z.shiftr_div_pow2 by lia. apply Z.div_small. cbn. lia. }
    rewrite Z.lxor_0_r, Z.lxor_assoc, Z.lxor_nilpotent, Z.lxor_0_r. done. }
  rewrite (H x Hx), (H y Hy), E. done.
Qed.

Definition u32_ok (x : Z) : Prop := 0 <= x < 4294967296.

Lemma u32_range x : u32_ok (u32 x).
Proof. unfold u32_ok, u32. zlia. Qed.

Lemma xorshift24_range x : u32_ok x -> u32_ok (Z.lxor x (Z.shiftr x 24)).
Proof.
  unfold u32_ok. intros Hx. apply (lxor_bound 32); [lia|done|].
  rewrite Z.shiftr_div_pow2 by lia. change (2 ^ 24) with 16777216.
  change (2 ^ 32) with 4294967296. zlia.
Qed.

Lemma hash_step_range h v : u32_ok (hash_step h v).
Proof.
  apply (lxor_bound 32); [lia| |]; apply u32_range.
Qed.

Lemma hash_state_inj h1 h2 v :
  u32_ok h1 -> u32_ok h2 -> hash_step h1 v = hash_step h2 v -> h1 = h2.
Proof. intros H1 H2 E. apply lxor_cancel_r in E. by apply mixer_inj. Qed.

Lemma hash_word_inj h v w :
  u32_ok v -> u32_ok w -> hash_step h v = hash_step h w -> v = w.
Proof.
  intros Hv Hw E. apply lxor_cancel_l in E.
  apply mixer_inj in E; [|apply xorshift24_range, u32_range..].
  apply xorshift24_inj in E; [|apply u32_range..]. by apply mixer_inj in E.
Qed.

(** ** Bit fields *)

(** The big-endian number in a list of bits. *)
Definition bits_be (bits : list Z) : Z := fold_left (fun acc b => 2 * acc + b) bits 0.

Lemma buf_bit_spec m buffer i :
  base m <= buffer + i / 8 < base m + lenZ (cells m) ->
  exists x, load m (buffer + i / 8) = Some x /\
    buf_bit m buffer i = Some (Z.b2z (Z.testbit x (7 - i mod 8))).
Proof.
  intros H. destruct (load_ok m (buffer + i / 8) H) as [x Hx]. exists x. split; [done|].
  unfold buf_bit. rewrite Hx. cbn [mbind option_bind]. f_equal.
  change 1 with (Z.ones 1). rewrite Z.land_ones by lia. change (2 ^ 1) with 2.
  rewrite Z.testbit_spec' by (pose proof (Z.mod_pos_bound i 8); lia).
  rewrite Z.shiftr_div_pow2 by (pose proof (Z.mod_pos_bound i 8); lia). done.
Qed.

Lemma getBits_loop_spec n m buffer i acc bits :
  length bits = n ->
  (forall k b, nthZ bits k = Some b -> buf_bit m buffer (i + k) = Some b /\ 0 <= b <= 1) ->
  0 <= acc -> (acc + 1) * 2 ^ Z.of_nat n <= 2 ^ 32 ->
  getBits_loop n m buffer i acc =
    Some (fold_left (fun acc b => 2 * acc + b) bits acc).
Proof.
  revert i acc bits. induction n as [|n IH]; intros i acc bits Hlen Hb Ha Hmax.
  { destruct bits; [done|done]. }
  destruct bits as [|b bits]; [done|]. cbn [getBits_loop fold_left].
  destruct (Hb 0 b) as [H1 H2]; [by rewrite nthZ_cons|].
  rewrite Z.add_0_r in H1. rewrite H1. cbn [mbind option_bind].
  rewrite Nat2Z.inj_succ, Z.pow_succ_r in Hmax by lia.
  assert (0 < 2 ^ Z.of_nat n) by (apply Z.pow_pos_nonneg; lia).
  change (2 ^ 32) with 4294967296 in *.
  assert (u32 (Z.shiftl acc 1 + b) = 2 * acc + b) as ->.
  { unfold u32. rewrite Z.shiftl_mul_pow2 by lia. change (2 ^ 1) with 2.
    rewrite Z.mod_small; [lia|]. nia. }
  apply IH; [by injection Hlen| |lia|].
  - intros k b' Hk. replace (i + 1 + k) with (i + (k + 1)) by lia. apply Hb.
    pose proof (nthZ_Some_range _ _ _ Hk). rewrite nthZ_cons. split_cmp.
    replace (k + 1 - 1) with k by lia. done.
  - change (2 ^ 32) with 4294967296. nia.
Qed.

(** ** Properties *)

(** C40: the table-driven CRC-24Q equals the shift register of its polynomial on
    every message. *)
Theorem calculate24BitCRCQ_equiv msg :
  Forall byte msg ->
  calculate24BitCRCQ msg = crc24_ref msg /\ 0 <= calculate24BitCRCQ msg < 2 ^ 24.
Proof. intros H. apply crc24_fold_ref; [lia|done]. Qed.

(** the table-driven CRC-4 equals the reflected shift register of polynomial 9
    on every message. *)
Theorem computeCrc4Ccitt_equiv msg :
  Forall byte msg ->
  computeCrc4Ccitt msg = crc4_ref msg /\ 0 <= computeCrc4Ccitt msg < 16.
Proof.
  intros H. destruct (crc4_fold_ref msg 0 ltac:(lia) H) as [E Hr].
  unfold computeCrc4Ccitt, crc4_ref. change 15 with (Z.ones 4).
  rewrite Z.land_ones, Z.mod_small by (change (2 ^ 4) with 16; lia). done.
Qed.

(** replacing one byte of a message by a different one changes its CRC-24Q
    and, from any start value, its Fletcher checksum. *)
Theorem checksums_detect_single pre post x y :
  Forall byte (pre ++ x :: post) -> byte y -> x <> y ->
  calculate24BitCRCQ (pre ++ x :: post) <> calculate24BitCRCQ (pre ++ y :: post) /\
  (forall s, is_comm_isb_checksum16 s (pre ++ x :: post) <>
             is_comm_isb_checksum16 s (pre ++ y :: post)).
Proof.
  intros Hall Hy Hne. split.
  - intros E. apply Hne. unfold calculate24BitCRCQ in E.
    apply (fold_left_single crc24_step (fun c => 0 <= c < 2 ^ 24) byte pre post x y 0);
      try done; eauto using crc24_step_range, crc24_state_inj, crc24_byte_inj.
  - intros s E. apply Hne.
    assert (fold_left fletcher16_step (pre ++ x :: post) (ck16_of s) =
            fold_left fletcher16_step (pre ++ y :: post) (ck16_of s)) as E'.
    { rewrite <- (ck16_of_to (fold_left _ (pre ++ x :: post) _)),
        <- (ck16_of_to (fold_left _ (pre ++ y :: post) _))
        by (apply fletcher16_fold_ok, ck16_of_ok). by f_equal. }
    rewrite !fletcher16_fold_sums in E' by apply ck16_of_ok.
    injection E' as E1 _. rewrite !sumZ_app in E1. cbn [sumZ] in E1.
    apply Forall_app in Hall as [_ Hall]. apply Forall_cons_iff in Hall as [Hx _].
    unfold byte in *. zlia.
Qed.

(** the Fletcher checksum is the byte sum and the position-weighted byte sum,
    both modulo 256; exchanging two different neighbouring bytes changes it. *)
Theorem fletcher16_functional xs :
  is_comm_fletcher16 0 xs = sumZ xs mod 256 + 256 * (wsumZ xs mod 256) /\
  (forall pre post x y, xs = pre ++ x :: y :: post -> byte x -> byte y -> x <> y ->
   is_comm_fletcher16 0 xs <> is_comm_fletcher16 0 (pre ++ y :: x :: post)).
Proof.
  split; [apply fletcher16_sums|]. intros pre post x y -> Hx Hy Hne.
  rewrite !fletcher16_sums, !wsumZ_app, !sumZ_app. cbn [sumZ wsumZ].
  rewrite !lenZ_cons. unfold byte in *. zlia.
Qed.

(** appending its XOR checksum to a structure of whole words makes the
    checksum of the result zero. *)
Theorem checksum32_self_check data ck :
  Forall byte data -> 0 < lenZ data -> (4 | lenZ data) ->
  checksum32 data (lenZ data) = Some ck ->
  checksum32 (data ++ le32_bytes ck) (lenZ data + 4) = Some 0.
Proof.
  intros Hb Hl Hd Hck. rewrite checksum32_words in Hck by done. injection Hck as <-.
  set (ck := fold_left Z.lxor (words32 data) 0).
  assert (lenZ data + 4 = lenZ (data ++ le32_bytes ck)) as -> by (by rewrite lenZ_app).
  rewrite checksum32_words.
  - rewrite words32_app, fold_left_app by done. fold ck.
    rewrite words32_le32_bytes by (apply fold_lxor_range; [lia|by apply words32_range]).
    cbn. by rewrite Z.lxor_nilpotent.
  - rewrite lenZ_app. pose proof (lenZ_nonneg (le32_bytes ck)). lia.
  - rewrite lenZ_app. apply Z.divide_add_r; [done|]. exists 1. done.
Qed.

(** replacing one word of a firmware image by a different one changes its
    bootloader hash, whatever the start value. *)
Theorem bootloader_hash_detects_single pre post v w h :
  Forall u32_ok (pre ++ v :: post) -> u32_ok w -> u32_ok h -> v <> w ->
  calculateBootloaderHashCode h (pre ++ v :: post) <>
  calculateBootloaderHashCode h (pre ++ w :: post).
Proof.
  intros Hall Hw Hh Hne E. apply Hne.
  apply (fold_left_single hash_step u32_ok u32_ok pre post v w h).
  - intros. apply hash_step_range.
  - intros s1 s2 b H1 H2 _. by apply hash_state_inj.
  - intros s b1 b2 _ H1 H2. by apply hash_word_inj.
  - exact Hh.
  - exact Hall.
  - exact Hw.
  - exact E.
Qed.

(** the bit-field reader returns the big-endian number of the [len <= 32] bits
    from position [pos] on. *)
Theorem getBitsAsUInt32_spec m buffer pos bits :
  lenZ bits <= 32 ->
  (forall k b, nthZ bits k = Some b -> buf_bit m buffer (pos + k) = Some b) ->
  getBitsAsUInt32 m buffer pos (lenZ bits) = Some (bits_be bits).
Proof.
  intros Hlen Hb. unfold getBitsAsUInt32, bits_be, lenZ in *.
  apply getBits_loop_spec; [lia| |lia|].
  - intros k b Hk. specialize (Hb k b Hk). split; [done|].
    unfold buf_bit in Hb. destruct (load m _) as [x|]; [|done]. cbn in Hb.
    injection Hb as <-.
    assert (forall y, 0 <= Z.land y 1 <= 1) as Hl; [|apply Hl].
    intros y. change (Z.land y 1) with (Z.land y (Z.ones 1)).
    rewrite Z.land_ones by lia. change (2 ^ 1) with 2. zlia.
  - rewrite Z.mul_1_l. apply Z.pow_le_mono_r; lia.
Qed.
