(* ===== verification/Nmea.v ===== *)
(** * NMEA message identifiers (src/src/data_sets.c, data_sets.h)

    The identifiers of the NMEA sentences the device knows, the decoder that
    recognises the sentence in a buffer, and the table from identifiers to
    talker strings.  A message is a block of a [region] at an address; reading
    outside the region has no result. *)

From S2P Require Import Prelude.
From Stdlib Require Import String.

Module Nmea.

(** ** Message identifiers ([eNmeaMsgId]) *)

Definition NMEA_MSG_ID_PIMU : Z := 1.
Definition NMEA_MSG_ID_PPIMU : Z := 2.
Definition NMEA_MSG_ID_PRIMU : Z := 3.
Definition NMEA_MSG_ID_PINS1 : Z := 4.
Definition NMEA_MSG_ID_PINS2 : Z := 5.
Definition NMEA_MSG_ID_PGPSP : Z := 6.
Definition NMEA_MSG_ID_GNGGA : Z := 7.
Definition NMEA_MSG_ID_GNGLL : Z := 8.
Definition NMEA_MSG_ID_GNGSA : Z := 9.
Definition NMEA_MSG_ID_GNRMC : Z := 10.
Definition NMEA_MSG_ID_GNZDA : Z := 11.
Definition NMEA_MSG_ID_PASHR : Z := 12.
Definition NMEA_MSG_ID_PSTRB : Z := 13.
Definition NMEA_MSG_ID_INFO : Z := 14.
Definition NMEA_MSG_ID_GNGSV : Z := 15.
Definition NMEA_MSG_ID_GNVTG : Z := 16.
Definition NMEA_MSG_ID_INTEL : Z := 17.
Definition NMEA_MSG_ID_COUNT : Z := 18.
Definition NMEA_MSG_ID_ASCE : Z := 19.
Definition NMEA_MSG_ID_BLEN : Z := 20.
Definition NMEA_MSG_ID_EBLE : Z := 21.
Definition NMEA_MSG_ID_NELB : Z := 22.
Definition NMEA_MSG_ID_PERS : Z := 23.
Definition NMEA_MSG_ID_SRST : Z := 24.
Definition NMEA_MSG_ID_STPB : Z := 25.
Definition NMEA_MSG_ID_STPC : Z := 26.
Definition NMEA_MSG_ID_GNGSV_START : Z := NMEA_MSG_ID_GNGSV * 256.

(** Frequency bits and constellation offsets ([eSatSvGnssId] shifted by 4). *)
Definition NMEA_GNGSV_FREQ_BAND1_BIT : Z := 1.
Definition NMEA_GNGSV_FREQ_BAND2_BIT : Z := 2.
Definition NMEA_GNGSV_FREQ_BAND3_BIT : Z := 4.
Definition NMEA_GNGSV_FREQ_5_BIT : Z := 8.
Definition NMEA_GNGSV_GPS_OFFSET : Z := Z.shiftl 1 4.
Definition NMEA_GNGSV_GAL_OFFSET : Z := Z.shiftl 3 4.
Definition NMEA_GNGSV_BEI_OFFSET : Z := Z.shiftl 4 4.
Definition NMEA_GNGSV_QZS_OFFSET : Z := Z.shiftl 5 4.
Definition NMEA_GNGSV_GLO_OFFSET : Z := Z.shiftl 6 4.

(** ** Recognising a sentence *)

(** The frequency loop of [decodeGSV]: [i] runs up to [aSize]. *)
Fixpoint decodeGSV_loop (n : nat) (m : region) (a i aSize msgNum : Z) : option Z :=
  match n with
  | O => Some msgNum
  | S n =>
    if i <? aSize then
      x ← load m (a + i);
      if x =? 0x5F then decodeGSV_loop n m a (i + 1) aSize msgNum
      else if x =? 0x31 then
        decodeGSV_loop n m a (i + 1) aSize (Z.lor msgNum NMEA_GNGSV_FREQ_BAND1_BIT)
      else if x =? 0x32 then
        decodeGSV_loop n m a (i + 1) aSize (Z.lor msgNum NMEA_GNGSV_FREQ_BAND2_BIT)
      else if x =? 0x33 then
        decodeGSV_loop n m a (i + 1) aSize (Z.lor msgNum NMEA_GNGSV_FREQ_BAND3_BIT)
      else if x =? 0x35 then
        decodeGSV_loop n m a (i + 1) aSize (Z.lor msgNum NMEA_GNGSV_FREQ_5_BIT)
      else Some msgNum
    else Some msgNum
  end.

(** The first message number of the constellation named by the second letter. *)
Definition decodeGSV_constellation (x : Z) : option Z :=
  if (x =? 0x78) || (x =? 0x58) || (x =? 0x4E) then Some NMEA_MSG_ID_GNGSV_START
  else if x =? 0x50 then Some (NMEA_MSG_ID_GNGSV_START + NMEA_GNGSV_GPS_OFFSET)
  else if x =? 0x41 then Some (NMEA_MSG_ID_GNGSV_START + NMEA_GNGSV_GAL_OFFSET)
  else if x =? 0x42 then Some (NMEA_MSG_ID_GNGSV_START + NMEA_GNGSV_BEI_OFFSET)
  else if x =? 0x51 then Some (NMEA_MSG_ID_GNGSV_START + NMEA_GNGSV_QZS_OFFSET)
  else if x =? 0x4C then Some (NMEA_MSG_ID_GNGSV_START + NMEA_GNGSV_GLO_OFFSET)
  else None.

Definition decodeGSV (m : region) (a aSize : Z) : option Z :=
  if (aSize <? 6) || (a =? 0) then Some (-2) else
  a1 ← load m (a + 1);
  match decodeGSV_constellation a1 with
  | None => Some (-3)
  | Some msgNum =>
    a5 ← load m (a + 5);
    if (a5 =? 0x2C) || (a5 =? 0x2A) then
      Some (Z.lor msgNum
        (Z.lor (Z.lor (Z.lor NMEA_GNGSV_FREQ_BAND1_BIT NMEA_GNGSV_FREQ_BAND2_BIT)
           NMEA_GNGSV_FREQ_BAND3_BIT) NMEA_GNGSV_FREQ_5_BIT))
    else decodeGSV_loop (Z.to_nat (aSize - 5)) m a 5 aSize msgNum
  end.

(** The macro [UINT32_MATCH]: the four bytes at [a] are those of the literal. *)
Definition UINT32_MATCH (m : region) (a : Z) (s : string) : option bool :=
  l ← load_range m a 4; Some (bool_decide (l = chars s)).

(** A chain of [if]/[else if] matches at one address; [None] when none does. *)
Fixpoint match_chain {A} (m : region) (a : Z) (alts : list (string * A))
    : option (option A) :=
  match alts with
  | [] => Some None
  | (s, r) :: alts =>
    b ← UINT32_MATCH m a s;
    if b : bool then Some (Some r) else match_chain m a alts
  end.

Inductive nmea_alt := AltId (id : Z) | AltGSV | AltPINS.

(** The chain of each first letter, with the distance of the match from the
    talker. *)
Definition nmea_alts (letter : Z) : Z * list (string * nmea_alt) :=
  if letter =? 0x41 then (0, [("ASCE"%string, AltId NMEA_MSG_ID_ASCE)])
  else if letter =? 0x42 then (0, [("BLEN"%string, AltId NMEA_MSG_ID_BLEN)])
  else if letter =? 0x45 then (0, [("EBLE"%string, AltId NMEA_MSG_ID_EBLE)])
  else if letter =? 0x47 then
    (2, [("GGA,"%string, AltId NMEA_MSG_ID_GNGGA); ("GLL,"%string, AltId NMEA_MSG_ID_GNGLL);
         ("GSA,"%string, AltId NMEA_MSG_ID_GNGSA); ("GSV,"%string, AltGSV);
         ("GSV_"%string, AltGSV); ("RMC,"%string, AltId NMEA_MSG_ID_GNRMC);
         ("VTG,"%string, AltId NMEA_MSG_ID_GNVTG); ("ZDA,"%string, AltId NMEA_MSG_ID_GNZDA)])
  else if letter =? 0x49 then
    (0, [("INFO"%string, AltId NMEA_MSG_ID_INFO); ("INTE"%string, AltId NMEA_MSG_ID_INTEL)])
  else if letter =? 0x50 then
    (0, [("PIMU"%string, AltId NMEA_MSG_ID_PIMU); ("PINS"%string, AltPINS);
         ("PERS"%string, AltId NMEA_MSG_ID_PERS); ("PGPS"%string, AltId NMEA_MSG_ID_PGPSP);
         ("PPIM"%string, AltId NMEA_MSG_ID_PPIMU); ("PRIM"%string, AltId NMEA_MSG_ID_PRIMU);
         ("PASH"%string, AltId NMEA_MSG_ID_PASHR)])
  else if letter =? 0x53 then
    (0, [("STPB"%string, AltId NMEA_MSG_ID_STPB); ("STPC"%string, AltId NMEA_MSG_ID_STPC);
         ("SRST"%string, AltId NMEA_MSG_ID_SRST)])
  else (0, []).

Definition getNmeaMsgId (m : region) (msg msgSize : Z) : option Z :=
  if msgSize <? 5 then Some (-2) else
  let talker := msg + 1 in
  letter ← load m talker;
  let '(d, alts) := nmea_alts letter in
  alt ← match_chain m (talker + d) alts;
  match alt with
  | None => Some (-1)
  | Some (AltId id) => Some id
  | Some AltGSV => decodeGSV m talker (msgSize - 1)
  | Some AltPINS =>
    x ← load m (msg + 5);
    Some (if x =? 0x31 then NMEA_MSG_ID_PINS1 else NMEA_MSG_ID_PINS2)
  end.

(** ** Talker strings *)

Definition nmea_talker (msgId : Z) : option string :=
  if msgId =? NMEA_MSG_ID_PIMU then Some "PIMU"%string
  else if msgId =? NMEA_MSG_ID_PPIMU then Some "PPIMU"%string
  else if msgId =? NMEA_MSG_ID_PRIMU then Some "PRIMU"%string
  else if msgId =? NMEA_MSG_ID_PINS1 then Some "PINS1"%string
  else if msgId =? NMEA_MSG_ID_PINS2 then Some "PINS2"%string
  else if msgId =? NMEA_MSG_ID_PGPSP then Some "PGPSP"%string
  else if msgId =? NMEA_MSG_ID_GNGGA then Some "GNGGA"%string
  else if msgId =? NMEA_MSG_ID_GNGLL then Some "GNGLL"%string
  else if msgId =? NMEA_MSG_ID_GNGSA then Some "GNGSA"%string
  else if msgId =? NMEA_MSG_ID_GNRMC then Some "GNRMC"%string
  else if msgId =? NMEA_MSG_ID_GNZDA then Some "GNZDA"%string
  else if msgId =? NMEA_MSG_ID_PASHR then Some "PASHR"%string
  else if msgId =? NMEA_MSG_ID_PSTRB then Some "PSTRB"%string
  else if msgId =? NMEA_MSG_ID_INFO then Some "INFO"%string
  else if msgId =? NMEA_MSG_ID_GNGSV then Some "GNGSV"%string
  else if msgId =? NMEA_MSG_ID_GNVTG then Some "GNVTG"%string
  else if msgId =? NMEA_MSG_ID_INTEL then Some "INTEL"%string
  else if msgId =? NMEA_MSG_ID_ASCE then Some "ASCE"%string
  else if msgId =? NMEA_MSG_ID_BLEN then Some "BLEN"%string
  else if msgId =? NMEA_MSG_ID_EBLE then Some "EBLE"%string
  else if msgId =? NMEA_MSG_ID_NELB then Some "NELB"%string
  else if msgId =? NMEA_MSG_ID_PERS then Some "PERS"%string
  else if msgId =? NMEA_MSG_ID_SRST then Some "SRST"%string
  else if msgId =? NMEA_MSG_ID_STPB then Some "STPB"%string
  else if msgId =? NMEA_MSG_ID_STPC then Some "STPC"%string
  else None.

(** Writes the talker and a terminating zero at [buf]; returns 0, or -1 with the
    buffer untouched. *)
Definition nmeaMsgIdToTalker (m : region) (msgId buf bufSize : Z) : option (region * Z) :=
  if bufSize <? 5 then Some (m, -1) else
  match nmea_talker msgId with
  | None => Some (m, -1)
  | Some s =>
    m ← store_range m buf (chars s);
    m ← store m (buf + lenZ (chars s)) 0;
    Some (m, 0)
  end.

End Nmea.
Export Nmea.

(** ** The decoder only depends on the bytes of the sentence *)

Section Embed.
Context (m : region) (msg : Z) (l : list Z) (Hm : bytes_at m msg l).

Lemma load_embed k x : load (Region 0 l) k = Some x -> load m (msg + k) = Some x.
Proof.
  unfold load at 1. cbn. rewrite Z.sub_0_r. intros H.
  rewrite Hm; [done|by apply nthZ_Some_range in H].
Qed.

(** Replay a read of the sentence in the memory that holds it. *)
Ltac replay :=
  rewrite <- ?Z.add_assoc;
  match goal with
  | H : load (Region 0 l) _ = Some _ |- _ => rewrite (load_embed _ _ H); clear H
  end; cbn [mbind option_bind].

Lemma load_range_embed k n r :
  load_range (Region 0 l) k n = Some r -> load_range m (msg + k) n = Some r.
Proof.
  unfold load_range at 1. cbn. destruct (Z.eqb_spec n 0) as [->|]; [done|].
  split_cmp; try done. intros [= <-]. rewrite Z.sub_0_r. apply bytes_at_range; [done|lia..].
Qed.

Lemma match_chain_embed {A} k (alts : list (string * A)) r :
  match_chain (Region 0 l) k alts = Some r -> match_chain m (msg + k) alts = Some r.
Proof.
  induction alts as [|[s a] alts IH]; [done|]. cbn [match_chain]. unfold UINT32_MATCH.
  intros H. inv_some. erewrite load_range_embed by eassumption. cbn.
  revert H. destruct (bool_decide _); [done|]. apply IH.
Qed.

Lemma decodeGSV_loop_embed n k i aSize num r :
  decodeGSV_loop n (Region 0 l) k i aSize num = Some r ->
  decodeGSV_loop n m (msg + k) i aSize num = Some r.
Proof.
  revert i num. induction n as [|n IH]; intros i num; [done|]. cbn [decodeGSV_loop].
  destruct (i <? aSize); [|done]. intros H. inv_some.
  replay. revert H.
  repeat match goal with |- context [if ?b then _ else _] => destruct b end; auto.
Qed.

Lemma decodeGSV_embed k aSize r :
  0 < k -> 0 <= msg ->
  decodeGSV (Region 0 l) k aSize = Some r -> decodeGSV m (msg + k) aSize = Some r.
Proof.
  intros Hk Hmsg. unfold decodeGSV.
  rewrite (proj2 (Z.eqb_neq k 0)), (proj2 (Z.eqb_neq (msg + k) 0)) by lia.
  destruct (_ || _); [done|]. intros H. inv_some.
  replay.
  revert H. destruct (decodeGSV_constellation _); [|done]. intros H. inv_some.
  replay.
  revert H. destruct (_ || _); [done|]. by apply decodeGSV_loop_embed.
Qed.

Lemma getNmeaMsgId_embed n r :
  0 <= msg ->
  getNmeaMsgId (Region 0 l) 0 n = Some r -> getNmeaMsgId m msg n = Some r.
Proof.
  intros Hmsg. unfold getNmeaMsgId. change (0 + 1) with 1. change (0 + 5) with 5.
  destruct (n <? 5); [done|]. intros H. inv_some.
  replay.
  revert H. destruct (nmea_alts _) as [d alts]. intros H. inv_some.
  rewrite <- ?Z.add_assoc. erewrite match_chain_embed by eassumption. cbn [mbind option_bind].
  revert H. match goal with |- context [match ?a with Some _ => _ | None => _ end] =>
    destruct a as [[id| |]|] end; [done| |intros H|done].
  - by apply decodeGSV_embed.
  - inv_some. by replay.
Qed.
End Embed.

(** What the decoder answers to the talker of an identifier. *)
Definition nmea_decoded (id : Z) : Z :=
  if (id =? NMEA_MSG_ID_PSTRB) || (id =? NMEA_MSG_ID_NELB) then -1
  else if id =? NMEA_MSG_ID_GNGSV then Z.lor NMEA_MSG_ID_GNGSV_START 15
  else id.

(** Case analysis over the table of talkers. *)
Ltac talker_cases H :=
  lazymatch type of H with
  | nmea_talker _ = _ => unfold nmea_talker in H; talker_cases H
  | (if ?x =? ?y then _ else _) = _ =>
      destruct (Z.eqb_spec x y) as [->|]; [injection H as <-|talker_cases H]
  | _ => discriminate H
  end.

(** the talker of an identifier is recognised as that identifier, wherever it
    stands in memory; the two identifiers without a decoder entry answer -1, and
    the plain GSV sentence answers the identifier with every frequency enabled. *)
Theorem nmea_talker_roundtrip m msg msgSize id s :
  nmea_talker id = Some s ->
  bytes_at m msg (0x24 :: chars s ++ [0x2C]) -> 7 <= msgSize -> 0 <= msg ->
  getNmeaMsgId m msg msgSize = Some (nmea_decoded id).
Proof.
  intros Hs Hm Hn Hmsg. eapply getNmeaMsgId_embed; [exact Hm|done|].
  unfold getNmeaMsgId. destruct (Z.ltb_spec msgSize 5); [lia|].
  assert ((msgSize - 1 <? 6) = false) as E by (apply Z.ltb_ge; lia).
  clear Hm. talker_cases Hs; try reflexivity.
  cbn -[decodeGSV]. unfold decodeGSV. rewrite E. reflexivity.
Qed.

(** ** The frequency list of a GSV sentence *)

Definition has_char (x : Z) (l : list Z) : bool := existsb (Z.eqb x) l.

(** The leading run of separators and band digits. *)
Fixpoint band_run (l : list Z) : list Z :=
  match l with
  | x :: l => if has_char x (chars "_1235") then x :: band_run l else []
  | [] => []
  end.

Definition band_flags (b1 b2 b3 b5 : bool) : Z :=
  Z.b2z b1 + 2 * Z.b2z b2 + 4 * Z.b2z b3 + 8 * Z.b2z b5.

Lemma constellation_lor c num b1 b2 b3 b5 :
  decodeGSV_constellation c = Some num ->
  Z.lor (num + band_flags b1 b2 b3 b5) 1 = num + band_flags true b2 b3 b5 /\
  Z.lor (num + band_flags b1 b2 b3 b5) 2 = num + band_flags b1 true b3 b5 /\
  Z.lor (num + band_flags b1 b2 b3 b5) 4 = num + band_flags b1 b2 true b5 /\
  Z.lor (num + band_flags b1 b2 b3 b5) 8 = num + band_flags b1 b2 b3 true.
Proof.
  unfold decodeGSV_constellation. intros H.
  repeat match type of H with (if ?b then _ else _) = _ => destruct b end;
    try discriminate H; injection H as <-; destruct b1, b2, b3, b5; repeat split.
Qed.

Lemma dropZ_nth {A} (l : list A) i x :
  nthZ l i = Some x -> dropZ i l = x :: dropZ (i + 1) l.
Proof.
  unfold nthZ, dropZ. destruct (Z.leb_spec 0 i); [|done]. intros Hx.
  rewrite (drop_S l x) by done. do 2 f_equal. lia.
Qed.

Lemma decodeGSV_loop_spec m a l c num n i b1 b2 b3 b5 :
  decodeGSV_constellation c = Some num ->
  bytes_at m a l -> 0 <= i <= lenZ l -> lenZ l - i <= Z.of_nat n ->
  decodeGSV_loop n m a i (lenZ l) (num + band_flags b1 b2 b3 b5) =
    let run := band_run (dropZ i l) in
    Some (num + band_flags (b1 || has_char 0x31 run) (b2 || has_char 0x32 run)
                           (b3 || has_char 0x33 run) (b5 || has_char 0x35 run)).
Proof.
  intros Hc Hm. cbv zeta. revert i b1 b2 b3 b5.
  induction n as [|n IH]; intros i b1 b2 b3 b5 Hi Hn; cbn [decodeGSV_loop].
  { assert (dropZ i l = []) as -> by (apply lenZ_0_nil; autorewrite with lenZ; lia).
    cbn. by rewrite !orb_false_r. }
  destruct (Z.ltb_spec i (lenZ l)) as [Hlt|].
  2: { assert (dropZ i l = []) as -> by (apply lenZ_0_nil; autorewrite with lenZ; lia).
       cbn. by rewrite !orb_false_r. }
  destruct (nthZ_Some l i ltac:(lia)) as [x Hx].
  rewrite Hm, Hx by lia. cbn [mbind option_bind]. rewrite (dropZ_nth _ _ _ Hx).
  destruct (constellation_lor c num b1 b2 b3 b5 Hc) as (E1 & E2 & E3 & E5).
  unfold NMEA_GNGSV_FREQ_BAND1_BIT, NMEA_GNGSV_FREQ_BAND2_BIT,
    NMEA_GNGSV_FREQ_BAND3_BIT, NMEA_GNGSV_FREQ_5_BIT.
  rewrite E1, E2, E3, E5. cbn [band_run].
  repeat match goal with
  | |- (if ?y =? ?k then _ else _) = _ => destruct (Z.eqb_spec y k) as [->|]
  end; rewrite ?IH by lia; unfold has_char; cbn;
    rewrite ?orb_false_r, ?orb_true_r; try done.
  rewrite !(proj2 (Z.eqb_neq x _)) by done. cbn. by rewrite !orb_false_r.
Qed.

(** the identifier of a GSV sentence is the constellation of its second letter
    plus one bit for each band listed after the sentence name, every band when the
    name is followed by a comma or an asterisk; another letter answers -3. *)
Theorem decodeGSV_spec m a l c x :
  bytes_at m a l -> 6 <= lenZ l -> 0 < a ->
  nthZ l 1 = Some c -> nthZ l 5 = Some x ->
  decodeGSV m a (lenZ l) =
    Some match decodeGSV_constellation c with
         | None => -3
         | Some num =>
           if (x =? 0x2C) || (x =? 0x2A) then num + 15 else
           let run := band_run (dropZ 5 l) in
           num + band_flags (has_char 0x31 run) (has_char 0x32 run)
                            (has_char 0x33 run) (has_char 0x35 run)
         end.
Proof.
  intros Hm Hl Ha Hc Hx. unfold decodeGSV.
  rewrite (proj2 (Z.ltb_ge _ _)), (proj2 (Z.eqb_neq a 0)) by lia. cbn [orb].
  rewrite (Hm 1), Hc by lia. cbn [mbind option_bind].
  destruct (decodeGSV_constellation c) as [num|] eqn:Hnum; [|done].
  rewrite (Hm 5), Hx by lia. cbn [mbind option_bind]. destruct (_ || _).
  - f_equal. unfold decodeGSV_constellation in Hnum.
    repeat match type of Hnum with (if ?b then _ else _) = _ => destruct b end;
      try discriminate Hnum; by injection Hnum as <-.
  - replace num with (num + band_flags false false false false) at 1
      by (unfold band_flags; cbn [Z.b2z]; lia).
    by erewrite (decodeGSV_loop_spec _ _ _ c) by (done || lia).
Qed.

(** writing a talker of a buffer of at least six bytes stays inside it and
    leaves the talker and a terminating zero at its start. *)
Theorem nmeaMsgIdToTalker_spec m id buf bufSize s :
  nmea_talker id = Some s -> 6 <= bufSize ->
  base m <= buf -> buf + bufSize <= base m + lenZ (cells m) ->
  exists m', nmeaMsgIdToTalker m id buf bufSize = Some (m', 0) /\
    bytes_at m' buf (chars s ++ [0]) /\
    (forall p, p < buf \/ buf + bufSize <= p -> load m' p = load m p).
Proof.
  intros Hs Hn Hb He. unfold nmeaMsgIdToTalker. rewrite Hs.
  destruct (Z.ltb_spec bufSize 5); [lia|].
  assert (4 <= lenZ (chars s) <= 5) as Hlen by (talker_cases Hs; done).
  rewrite store_range_ok by lia. cbn [mbind option_bind].
  unfold store. rewrite store_range_ok.
  2: cbn; lia. 2: { cbn [base cells]. rewrite lenZ_updZ by lia. by autorewrite with lenZ; lia. }
  cbn [mbind option_bind base cells]. eexists. split; [done|]. split.
  - intros k Hk. unfold load. cbn [base cells]. autorewrite with lenZ in Hk.
    autorewrite with nthZ; autorewrite with lenZ; try lia. split_cmp; nth_done.
  - intros p Hp. unfold load. cbn [base cells].
    autorewrite with nthZ; autorewrite with lenZ; try lia. split_cmp; nth_done.
Qed.

(** A five-byte buffer passes the size check, and a five-letter talker then puts its
    terminating zero one byte past the end of the buffer. *)
Example nmeaMsgIdToTalker_overrun_example :
  nmeaMsgIdToTalker (Region 1 [0; 0; 0; 0; 0; 7]) NMEA_MSG_ID_PINS1 1 5 =
    Some (Region 1 (chars "PINS1" ++ [0]), 0) /\
  nmeaMsgIdToTalker (Region 1 [0; 0; 0; 0; 0]) NMEA_MSG_ID_PINS1 1 5 = None.
Proof. split; reflexivity. Qed.
