(* ===== verification/CommTypes.v ===== *)
(** * Data of the packet interface (src/src/ISComm.h)

    The communications instance, its receive buffer, parser and packet, the
    callbacks and the payload headers.  Pointers are addresses, 0 is NULL. *)

From S2P Require Import Prelude.

(** ** Enumerations *)

Inductive protocol_type_t :=
  | PTYPE_NONE | PTYPE_PARSE_ERROR
  | PTYPE_INERTIAL_SENSE_ACK | PTYPE_INERTIAL_SENSE_CMD | PTYPE_INERTIAL_SENSE_DATA
  | PTYPE_NMEA | PTYPE_UBLOX | PTYPE_RTCM3 | PTYPE_SPARTN | PTYPE_SONY.

#[export] Instance protocol_type_eq_dec : EqDecision protocol_type_t.
Proof. solve_decision. Defined.

Inductive eParseErrorType :=
  | EPARSE_INVALID_PREAMBLE | EPARSE_INVALID_SIZE | EPARSE_INVALID_CHKSUM
  | EPARSE_INVALID_DATATYPE | EPARSE_MISSING_EOS_MARKER | EPARSE_INCOMPLETE_PACKET
  | EPARSE_INVALID_HEADER | EPARSE_INVALID_PAYLOAD | EPARSE_RXBUFFER_FLUSHED
  | EPARSE_STREAM_UNPARSABLE.

#[export] Instance eParseErrorType_eq_dec : EqDecision eParseErrorType.
Proof. solve_decision. Defined.

(** The packet functions the [processPkt] pointer takes; NULL is [None]. *)
Inductive pFnProcessPkt :=
  | ProcIsb | ProcNmea | ProcUblox | ProcRtcm3 | ProcSpartn | ProcSony.

#[export] Instance pFnProcessPkt_eq_dec : EqDecision pFnProcessPkt.
Proof. solve_decision. Defined.

(** [ePktSpecialChars] *)
Definition PSC_NMEA_START_BYTE : Z := 0x24.
Definition PSC_NMEA_PRE_END_BYTE : Z := 0x0D.
Definition PSC_NMEA_END_BYTE : Z := 0x0A.
Definition PSC_ISB_PREAMBLE_BYTE1 : Z := 0xEF.
Definition PSC_ISB_PREAMBLE_BYTE2 : Z := 0x49.
Definition PSC_ISB_PREAMBLE : Z := 0x49EF.
Definition UBLOX_START_BYTE1 : Z := 0xB5.
Definition UBLOX_START_BYTE2 : Z := 0x62.
Definition RTCM3_START_BYTE : Z := 0xD3.
Definition SPARTN_START_BYTE : Z := 0x73.
Definition SONY_START_BYTE : Z := 0x7F.

(** [eISBPacketFlags] *)
Definition PKT_TYPE_ACK : Z := 1.
Definition PKT_TYPE_NACK : Z := 2.
Definition PKT_TYPE_GET_DATA : Z := 3.
Definition PKT_TYPE_DATA : Z := 4.
Definition PKT_TYPE_SET_DATA : Z := 5.
Definition PKT_TYPE_STOP_BROADCASTS_ALL_PORTS : Z := 6.
Definition PKT_TYPE_STOP_DID_BROADCAST : Z := 7.
Definition PKT_TYPE_STOP_BROADCASTS_CURRENT_PORT : Z := 8.
Definition PKT_TYPE_MASK : Z := 0x0F.
Definition ISB_FLAGS_PAYLOAD_W_OFFSET : Z := 0x20.

(** [eProtocolMask] *)
Definition ENABLE_PROTOCOL_ISB : Z := 0x01.
Definition ENABLE_PROTOCOL_NMEA : Z := 0x02.
Definition ENABLE_PROTOCOL_UBLOX : Z := 0x04.
Definition ENABLE_PROTOCOL_RTCM3 : Z := 0x08.
Definition ENABLE_PROTOCOL_SPARTN : Z := 0x10.
Definition ENABLE_PROTOCOL_SONY : Z := 0x20.

Definition MAX_DATASET_SIZE : Z := 1024.
Definition PKT_BUF_SIZE : Z := 2048.

(** Sizes of the packed structures. *)
Definition sizeof_packet_hdr_t : Z := 6.
Definition sizeof_ubx_pkt_hdr_t : Z := 6.
Definition sizeof_sony_pkt_hdr_t : Z := 5.
Definition sizeof_p_data_hdr_t : Z := 5.
Definition sizeof_p_data_get_t : Z := 8.

(** ** Structures *)

Record is_comm_buffer_t := CommBuf {
  buf_start : Z;      (* start of the buffer *)
  buf_end : Z;        (* one past its end *)
  buf_size : Z;       (* its size *)
  head : Z;           (* start of the data *)
  tail : Z;           (* end of the data: new bytes are written here *)
  scan : Z;           (* search pointer *)
  scanPrior : Z       (* search pointer before the last reset *)
}.

Record is_comm_parser_t := Parser {
  p_state : Z;        (* int16_t *)
  p_size : Z;         (* uint16_t *)
  p_timeMs : Z        (* uint32_t, time of the last parse *)
}.

(** [packet_hdr_t] and [p_data_hdr_t] overlay each other in the union of
    [packet_t]: [hdr.id] is [dataHdr.id], [hdr.payloadSize] is [dataHdr.size] and
    [offset] is [dataHdr.offset], each one field here.  [P] is the type of the data
    pointer: an address in a received packet, the bytes pointed to in a packet to
    send. *)
Record packet_t {P : Type} := Packet {
  hdr_preamble : Z;
  hdr_flags : Z;
  hdr_id : Z;
  hdr_payloadSize : Z;
  pkt_offset : Z;
  data_ptr : P;
  data_size : Z;
  hdrCksum : Z;
  pkt_checksum : Z;
  pkt_size : Z;
  pkt_id : Z
}.
Arguments packet_t : clear implicits.
Arguments Packet {P}.

Record is_comm_instance_t := Comm {
  rxBuf : is_comm_buffer_t;
  enabledMask : Z;
  txPktCount : Z;
  rxPktCount : Z;
  rxErrorCount : Z;
  rxErrorType : eParseErrorType;
  rxErrorTypeCount : eParseErrorType -> Z;
  processPkt : option pFnProcessPkt;
  parser : is_comm_parser_t;
  ackNeeded : Z;
  rxPkt : packet_t Z;
  rxErrorState : Z
}.

(** [p_data_hdr_t] and [p_data_t]; the pointer is an address or the bytes. *)
Record p_data_hdr_t := DataHdr { dh_id : Z; dh_size : Z; dh_offset : Z }.
Record p_data_t {P : Type} := Data { d_hdr : p_data_hdr_t; d_ptr : P }.
Arguments p_data_t : clear implicits.
Arguments Data {P}.

(** [p_data_get_t] *)
Record p_data_get_t := DataGet { get_id : Z; get_size : Z; get_offset : Z; get_period : Z }.

(** Assignments to one field. *)
Definition buf_set_head (p : Z) (b : is_comm_buffer_t) : is_comm_buffer_t :=
  CommBuf (buf_start b) (buf_end b) (buf_size b) p (tail b) (scan b) (scanPrior b).
Definition buf_set_tail (p : Z) (b : is_comm_buffer_t) : is_comm_buffer_t :=
  CommBuf (buf_start b) (buf_end b) (buf_size b) (head b) p (scan b) (scanPrior b).
Definition buf_set_scan (p : Z) (b : is_comm_buffer_t) : is_comm_buffer_t :=
  CommBuf (buf_start b) (buf_end b) (buf_size b) (head b) (tail b) p (scanPrior b).
Definition buf_set_scanPrior (p : Z) (b : is_comm_buffer_t) : is_comm_buffer_t :=
  CommBuf (buf_start b) (buf_end b) (buf_size b) (head b) (tail b) (scan b) p.

Definition set_rxBuf (b : is_comm_buffer_t) (c : is_comm_instance_t) : is_comm_instance_t :=
  Comm b (enabledMask c) (txPktCount c) (rxPktCount c) (rxErrorCount c) (rxErrorType c)
    (rxErrorTypeCount c) (processPkt c) (parser c) (ackNeeded c) (rxPkt c) (rxErrorState c).
Definition set_head (p : Z) (c : is_comm_instance_t) := set_rxBuf (buf_set_head p (rxBuf c)) c.
Definition set_tail (p : Z) (c : is_comm_instance_t) := set_rxBuf (buf_set_tail p (rxBuf c)) c.
Definition set_scan (p : Z) (c : is_comm_instance_t) := set_rxBuf (buf_set_scan p (rxBuf c)) c.
Definition set_scanPrior (p : Z) (c : is_comm_instance_t) :=
  set_rxBuf (buf_set_scanPrior p (rxBuf c)) c.

Definition set_enabledMask (v : Z) (c : is_comm_instance_t) : is_comm_instance_t :=
  Comm (rxBuf c) v (txPktCount c) (rxPktCount c) (rxErrorCount c) (rxErrorType c)
    (rxErrorTypeCount c) (processPkt c) (parser c) (ackNeeded c) (rxPkt c) (rxErrorState c).
Definition set_txPktCount (v : Z) (c : is_comm_instance_t) : is_comm_instance_t :=
  Comm (rxBuf c) (enabledMask c) v (rxPktCount c) (rxErrorCount c) (rxErrorType c)
    (rxErrorTypeCount c) (processPkt c) (parser c) (ackNeeded c) (rxPkt c) (rxErrorState c).
Definition set_rxPktCount (v : Z) (c : is_comm_instance_t) : is_comm_instance_t :=
  Comm (rxBuf c) (enabledMask c) (txPktCount c) v (rxErrorCount c) (rxErrorType c)
    (rxErrorTypeCount c) (processPkt c) (parser c) (ackNeeded c) (rxPkt c) (rxErrorState c).
Definition set_processPkt (f : option pFnProcessPkt) (c : is_comm_instance_t)
    : is_comm_instance_t :=
  Comm (rxBuf c) (enabledMask c) (txPktCount c) (rxPktCount c) (rxErrorCount c) (rxErrorType c)
    (rxErrorTypeCount c) f (parser c) (ackNeeded c) (rxPkt c) (rxErrorState c).
Definition set_parser (p : is_comm_parser_t) (c : is_comm_instance_t) : is_comm_instance_t :=
  Comm (rxBuf c) (enabledMask c) (txPktCount c) (rxPktCount c) (rxErrorCount c) (rxErrorType c)
    (rxErrorTypeCount c) (processPkt c) p (ackNeeded c) (rxPkt c) (rxErrorState c).
Definition set_state (s : Z) (c : is_comm_instance_t) :=
  set_parser (Parser s (p_size (parser c)) (p_timeMs (parser c))) c.
Definition set_size (s : Z) (c : is_comm_instance_t) :=
  set_parser (Parser (p_state (parser c)) s (p_timeMs (parser c))) c.
Definition set_timeMs (t : Z) (c : is_comm_instance_t) :=
  set_parser (Parser (p_state (parser c)) (p_size (parser c)) t) c.
Definition set_ackNeeded (v : Z) (c : is_comm_instance_t) : is_comm_instance_t :=
  Comm (rxBuf c) (enabledMask c) (txPktCount c) (rxPktCount c) (rxErrorCount c) (rxErrorType c)
    (rxErrorTypeCount c) (processPkt c) (parser c) v (rxPkt c) (rxErrorState c).
Definition set_rxPkt (p : packet_t Z) (c : is_comm_instance_t) : is_comm_instance_t :=
  Comm (rxBuf c) (enabledMask c) (txPktCount c) (rxPktCount c) (rxErrorCount c) (rxErrorType c)
    (rxErrorTypeCount c) (processPkt c) (parser c) (ackNeeded c) p (rxErrorState c).
Definition set_rxErrorState (v : Z) (c : is_comm_instance_t) : is_comm_instance_t :=
  Comm (rxBuf c) (enabledMask c) (txPktCount c) (rxPktCount c) (rxErrorCount c) (rxErrorType c)
    (rxErrorTypeCount c) (processPkt c) (parser c) (ackNeeded c) (rxPkt c) v.

(** The error counters: the total, the latest type and the count of that type. *)
Definition count_error (e : eParseErrorType) (c : is_comm_instance_t) : is_comm_instance_t :=
  Comm (rxBuf c) (enabledMask c) (txPktCount c) (rxPktCount c) (u32 (rxErrorCount c + 1)) e
    (fun e' => if decide (e' = e) then u32 (rxErrorTypeCount c e + 1)
               else rxErrorTypeCount c e')
    (processPkt c) (parser c) (ackNeeded c) (rxPkt c) (rxErrorState c).
