(* ===== verification/CommRx.v ===== *)
(** * Receiving packets (src/src/ISComm.c, ISComm.h)

    The instance and buffer management, the packet state machine of each protocol
    and the parse loop.  A function gets the [region] the receive buffer is in and
    the instance; its result is [None] when it reads or writes outside the region. *)

From S2P Require Import Prelude Checksum Nmea CommTypes.

Definition MAX_MSG_LENGTH_ISB : Z := PKT_BUF_SIZE.
Definition MAX_MSG_LENGTH_NMEA : Z := 200.
Definition MAX_MSG_LENGTH_RTCM : Z := 1023.
Definition MAX_MSG_LENGTH_SONY : Z := 4090.
Definition PKT_PARSER_TIMEOUT_MS : Z := 100.

Module CommRx.

(** ** Initialisation *)

Definition default_mask : Z :=
  Z.lor (Z.lor (Z.lor ENABLE_PROTOCOL_ISB ENABLE_PROTOCOL_NMEA) ENABLE_PROTOCOL_UBLOX)
    ENABLE_PROTOCOL_RTCM3.

Definition is_comm_init (m : region) (buffer bufferSize : Z)
    : option (region * is_comm_instance_t) :=
  m ← store_range m buffer (repeat 0 (Z.to_nat bufferSize));
  Some (m,
    {| rxBuf := {| buf_start := buffer; buf_end := buffer + bufferSize;
                   buf_size := u32 bufferSize; head := buffer; tail := buffer;
                   scan := buffer; scanPrior := 0 |};
       enabledMask := default_mask;
       txPktCount := 0; rxPktCount := 0; rxErrorCount := 0;
       rxErrorType := EPARSE_INVALID_PREAMBLE; rxErrorTypeCount := fun _ => 0;
       processPkt := None; parser := Parser 0 0 0; ackNeeded := 0;
       rxPkt := Packet 0 0 0 0 0 buffer 0 0 0 0 0;
       rxErrorState := 1 |}).

Definition is_comm_check (c : is_comm_instance_t) (buffer bufferSize : Z) : Z :=
  let b := rxBuf c in
  if negb (buf_size b =? u32 bufferSize) then -1 else
  if negb (buf_start b =? buffer) then -1 else
  if negb (buf_end b =? buffer + bufferSize) then -1 else
  if (head b <? buf_start b) || (buf_end b <? head b) then -1 else
  if (tail b <? buf_start b) || (buf_end b <? tail b) then -1 else
  if (scan b <? buf_start b) || (buf_end b <? scan b) then -1 else
  if negb (enabledMask c =? default_mask) then -1 else
  if negb (data_ptr (rxPkt c) =? 0) &&
     ((data_ptr (rxPkt c) <? buf_start b) || (buf_end b <? data_ptr (rxPkt c))) then -1
  else 0.

Definition is_comm_check_init (m : region) (c : is_comm_instance_t)
    (buffer bufferSize : Z) (forceInit : bool) : option (region * is_comm_instance_t * Z) :=
  let result := is_comm_check c buffer bufferSize in
  if negb (result =? 0) || forceInit then
    '(m, c) ← is_comm_init m buffer bufferSize; Some (m, c, result)
  else Some (m, c, result).

(** ** Parser state *)

Definition setParserStart (c : is_comm_instance_t) (f : pFnProcessPkt) : is_comm_instance_t :=
  set_processPkt (Some f) (set_head (scan (rxBuf c)) (set_state 1 c)).

Definition is_comm_reset_parser (c : is_comm_instance_t) : is_comm_instance_t :=
  let c := set_state 0 c in
  let c := set_scanPrior (scan (rxBuf c)) c in
  let c := set_scan (head (rxBuf c)) c in
  set_processPkt None c.

Definition result := option (protocol_type_t * is_comm_instance_t).

Definition reportParseError (c : is_comm_instance_t) (e : eParseErrorType)
    : protocol_type_t * is_comm_instance_t :=
  if rxErrorState c =? 0 then
    (PTYPE_PARSE_ERROR, count_error e (set_rxErrorState 1 c))
  else (PTYPE_NONE, c).

Definition parseErrorResetState (c : is_comm_instance_t) (e : eParseErrorType) : result :=
  Some (reportParseError (is_comm_reset_parser c) e).

Definition validPacketReset (c : is_comm_instance_t) (pktSize : Z) : is_comm_instance_t :=
  let c := set_head (head (rxBuf c) + pktSize) c in
  let c := set_rxPktCount (u32 (rxPktCount c + 1)) c in
  let c := set_processPkt None c in
  set_rxErrorState 0 c.

Definition validPacketFound (c : is_comm_instance_t) (pktSize dataSize id : Z)
    : is_comm_instance_t :=
  let p := rxPkt c in
  let c := set_rxPkt
    {| hdr_preamble := hdr_preamble p; hdr_flags := hdr_flags p; hdr_id := 0;
       hdr_payloadSize := hdr_payloadSize p; pkt_offset := 0;
       data_ptr := head (rxBuf c); data_size := u32 dataSize; hdrCksum := hdrCksum p;
       pkt_checksum := pkt_checksum p; pkt_size := u16 pktSize; pkt_id := u16 id |} c in
  validPacketReset c pktSize.

Definition next_state (c : is_comm_instance_t) : is_comm_instance_t :=
  set_state (s16 (p_state (parser c) + 1)) c.

(** ** Inertial Sense binary packets *)

(** The end of [processIsbPkt]: the packet with its checksum verified. [pkt] is the
    old head, [numBytes] the bytes of the packet and [ck] its checksum. *)
Definition isb_packet (m : region) (c : is_comm_instance_t)
    (pkt payloadSize numBytes ck : Z) : result :=
  let c := validPacketReset c numBytes in
  preamble ← load16 m pkt;
  flags ← load m (pkt + 2);
  id ← load m (pkt + 3);
  let payload := pkt + sizeof_packet_hdr_t in
  '(size, ptr, offset, hsize) ←
    (if negb (Z.land flags ISB_FLAGS_PAYLOAD_W_OFFSET =? 0) then
       let size := if payloadSize <? 2 then 0 else payloadSize - 2 in
       let ptr := if size =? 0 then 0 else payload + 2 in
       offset ← load16 m payload;
       Some (size, ptr, offset, u16 size)
     else
       Some (payloadSize, if payloadSize =? 0 then 0 else payload, 0, payloadSize));
  let c := set_rxPkt
    {| hdr_preamble := preamble; hdr_flags := flags; hdr_id := id;
       hdr_payloadSize := hsize; pkt_offset := offset; data_ptr := ptr;
       data_size := size; hdrCksum := hdrCksum (rxPkt c); pkt_checksum := ck;
       pkt_size := p_size (parser c); pkt_id := id |} c in
  let c := set_ackNeeded 0 c in
  let ptype := Z.land flags PKT_TYPE_MASK in
  if (ptype =? PKT_TYPE_SET_DATA) || (ptype =? PKT_TYPE_DATA) then
    if size <=? MAX_DATASET_SIZE then
      let c := if ptype =? PKT_TYPE_SET_DATA then set_ackNeeded PKT_TYPE_ACK c else c in
      Some (PTYPE_INERTIAL_SENSE_DATA, c)
    else parseErrorResetState (set_ackNeeded PKT_TYPE_NACK c) EPARSE_INVALID_DATATYPE
  else if ptype =? PKT_TYPE_GET_DATA then
    gsize ← load16 m (payload + 2);
    if gsize <=? MAX_DATASET_SIZE then Some (PTYPE_INERTIAL_SENSE_CMD, c)
    else parseErrorResetState c EPARSE_INVALID_DATATYPE
  else if (ptype =? PKT_TYPE_STOP_BROADCASTS_ALL_PORTS)
       || (ptype =? PKT_TYPE_STOP_DID_BROADCAST)
       || (ptype =? PKT_TYPE_STOP_BROADCASTS_CURRENT_PORT) then
    Some (PTYPE_INERTIAL_SENSE_CMD, c)
  else if (ptype =? PKT_TYPE_ACK) || (ptype =? PKT_TYPE_NACK) then
    Some (PTYPE_INERTIAL_SENSE_ACK, c)
  else parseErrorResetState c EPARSE_INVALID_DATATYPE.

Definition processIsbPkt (m : region) (c : is_comm_instance_t) : result :=
  let b := rxBuf c in
  let p := parser c in
  if p_state p =? 0 then
    x ← load m (scan b);
    Some (PTYPE_NONE, if x =? PSC_ISB_PREAMBLE_BYTE1 then next_state c else c)
  else if p_state p =? 1 then
    x ← load m (scan b);
    if x =? PSC_ISB_PREAMBLE_BYTE2 then Some (PTYPE_NONE, next_state c)
    else parseErrorResetState c EPARSE_INVALID_PREAMBLE
  else if p_state p =? 2 then
    let numBytes := scan b - head b in
    if numBytes <? sizeof_packet_hdr_t - 1 then Some (PTYPE_NONE, c) else
    let c := next_state c in
    payloadSize ← load16 m (head b + 4);
    let c := set_size (u16 (sizeof_packet_hdr_t + payloadSize + 2)) c in
    if MAX_MSG_LENGTH_ISB <? p_size (parser c)
    then parseErrorResetState c EPARSE_INVALID_SIZE
    else Some (PTYPE_NONE, c)
  else
    let numBytes := scan b - head b + 1 in
    if numBytes <? p_size p then Some (PTYPE_NONE, c) else
    let c := set_state 0 c in
    payloadSize ← load16 m (head b + 4);
    let payload := head b + sizeof_packet_hdr_t in
    body ← load_range m (head b) (p_size p - 2);
    ck ← load16 m (payload + payloadSize);
    if negb (ck =? is_comm_isb_checksum16 0 body)
    then parseErrorResetState c EPARSE_INVALID_CHKSUM
    else isb_packet m c (head b) payloadSize numBytes ck.

(** ** NMEA sentences *)

(** The value of a character as a digit in base 16. *)
Definition hex_digit (x : Z) : option Z :=
  if (0x30 <=? x) && (x <=? 0x39) then Some (x - 0x30)
  else if (0x41 <=? x) && (x <=? 0x46) then Some (x - 0x41 + 10)
  else if (0x61 <=? x) && (x <=? 0x66) then Some (x - 0x61 + 10)
  else None.

Definition isspace (x : Z) : bool := (x =? 0x20) || ((0x09 <=? x) && (x <=? 0x0D)).

Fixpoint hex_digits (acc : Z) (s : list Z) : Z :=
  match s with
  | x :: s => match hex_digit x with Some d => hex_digits (16 * acc + d) s | None => acc end
  | [] => acc
  end.

(** The optional prefix [0x], which counts only in front of a digit. *)
Definition hex_prefixed (s : list Z) : Z :=
  match s with
  | z :: x :: d :: _ =>
    if (z =? 0x30) && ((x =? 0x78) || (x =? 0x58)) && bool_decide (is_Some (hex_digit d))
    then hex_digits 0 (dropZ 2 s) else hex_digits 0 s
  | _ => hex_digits 0 s
  end.

(** [strtol(s, NULL, 16)] of the characters in front of the terminating zero; a
    value this short never saturates. *)
Fixpoint strtol16 (s : list Z) : Z :=
  match s with
  | x :: r =>
    if isspace x then strtol16 r
    else if x =? 0x2D then - hex_prefixed r
    else if x =? 0x2B then hex_prefixed r
    else hex_prefixed s
  | [] => 0
  end.

Definition processNmeaPkt_end (m : region) (c : is_comm_instance_t) : result :=
  let b := rxBuf c in
  let c := set_state 0 c in
  let numBytes := scan b - head b + 1 in
  if numBytes <? 8 then parseErrorResetState c EPARSE_INCOMPLETE_PACKET else
  _ ← load m (scan b - 1);
  digits ← load_range m (scan b - 3) 2;
  let msgChecksum := strtol16 digits in
  body ← load_range m (head b + 1) (scan b - 4 - (head b + 1));
  let calChecksum := fold_left Z.lxor body 0 in
  if negb (msgChecksum =? calChecksum) then parseErrorResetState c EPARSE_INVALID_CHKSUM
  else
    id ← getNmeaMsgId m (head b) numBytes;
    Some (PTYPE_NMEA, validPacketFound c numBytes numBytes id).

Definition processNmeaPkt (m : region) (c : is_comm_instance_t) : result :=
  let b := rxBuf c in
  let p := parser c in
  if p_state p =? 0 then
    x ← load m (scan b);
    Some (PTYPE_NONE, if x =? PSC_NMEA_START_BYTE then next_state c else c)
  else if p_state p =? 1 then
    x ← load m (scan b);
    if x =? PSC_NMEA_PRE_END_BYTE then Some (PTYPE_NONE, next_state c)
    else if MAX_MSG_LENGTH_NMEA <? scan b - head b
    then parseErrorResetState c EPARSE_INVALID_SIZE
    else Some (PTYPE_NONE, c)
  else if p_state p =? 3 then
    x ← load m (scan b);
    if negb (x =? PSC_NMEA_END_BYTE) then parseErrorResetState c EPARSE_MISSING_EOS_MARKER
    else processNmeaPkt_end m c
  else processNmeaPkt_end m c.

(** ** u-blox packets *)

Definition processUbloxPkt (m : region) (c : is_comm_instance_t) : result :=
  let b := rxBuf c in
  let p := parser c in
  if p_state p =? 0 then
    x ← load m (scan b);
    Some (PTYPE_NONE, if x =? UBLOX_START_BYTE1 then next_state c else c)
  else if p_state p =? 1 then
    x ← load m (scan b);
    if x =? UBLOX_START_BYTE2 then Some (PTYPE_NONE, next_state c)
    else parseErrorResetState c EPARSE_INVALID_PREAMBLE
  else if p_state p =? 2 then
    if scan b - head b <? sizeof_ubx_pkt_hdr_t - 1 then Some (PTYPE_NONE, c) else
    payloadSize ← load16 m (head b + 4);
    let c := set_size (u16 (sizeof_ubx_pkt_hdr_t + payloadSize + 2)) c in
    Some (PTYPE_NONE, next_state c)
  else
    let numBytes := scan b - head b + 1 in
    if numBytes <? p_size p then Some (PTYPE_NONE, c) else
    let c := set_state 0 c in
    pktChecksum ← load16 m (scan b - 1);
    body ← load_range m (head b + 2) (u32 (scan b - 1 - (head b + 2)));
    if negb (pktChecksum =? is_comm_fletcher16 0 body)
    then parseErrorResetState c EPARSE_INVALID_CHKSUM
    else
      id ← load m (head b + 2);
      Some (PTYPE_UBLOX, validPacketFound c numBytes (p_size p) id).

(** ** RTCM3 packets *)

Definition RTCM3_MSG_ID (m : region) (msg : Z) : option Z := messageStatsGetbitu m msg 24 12.

Definition processRtcm3Pkt (m : region) (c : is_comm_instance_t) : result :=
  let b := rxBuf c in
  let p := parser c in
  if p_state p =? 0 then
    x ← load m (scan b);
    Some (PTYPE_NONE, if x =? RTCM3_START_BYTE then next_state c else c)
  else if p_state p =? 1 then Some (PTYPE_NONE, next_state c)
  else if p_state p =? 2 then
    len ← getBitsAsUInt32 m (head b) 14 10;
    let c := next_state (set_size (u16 (len + 6)) c) in
    let size := p_size (parser c) in
    if (MAX_MSG_LENGTH_RTCM <? size) || (u32 (buf_size b - 6) <? size)
    then parseErrorResetState c EPARSE_INCOMPLETE_PACKET
    else Some (PTYPE_NONE, c)
  else
    let numBytes := scan b - head b + 1 in
    if numBytes <? p_size p then Some (PTYPE_NONE, c) else
    let c := set_state 0 c in
    let lenWithoutCrc := p_size p - 3 in
    body ← load_range m (head b) lenWithoutCrc;
    correctCRC ← getBitsAsUInt32 m (head b + lenWithoutCrc) 0 24;
    if negb (calculate24BitCRCQ body =? correctCRC)
    then parseErrorResetState c EPARSE_INVALID_CHKSUM
    else
      id ← RTCM3_MSG_ID m (head b);
      Some (PTYPE_RTCM3, validPacketFound c numBytes (p_size p) id).

(** ** Sony packets *)

(** The 8-bit sum of the header and data checks. *)
Definition sum8 (bytes : list Z) : Z := fold_left (fun s x => u8 (s + x)) bytes 0.

Definition processSonyByte (m : region) (c : is_comm_instance_t) : result :=
  let b := rxBuf c in
  let p := parser c in
  if p_state p =? 0 then
    x ← load m (scan b);
    Some (PTYPE_NONE, if x =? SONY_START_BYTE then next_state c else c)
  else if p_state p =? 1 then
    if scan b - head b <? sizeof_sony_pkt_hdr_t - 1 then Some (PTYPE_NONE, c) else
    hdr ← load_range m (head b) 4;
    fcsh ← load m (head b + 4);
    dataSize ← load16 m (head b + 1);
    if negb (sum8 hdr =? fcsh) || (MAX_MSG_LENGTH_SONY <? dataSize) || (buf_size b <? dataSize)
    then parseErrorResetState c EPARSE_INVALID_PREAMBLE
    else Some (PTYPE_NONE, next_state (set_size (u16 (dataSize + 6)) c))
  else
    let numBytes := scan b - head b + 1 in
    if numBytes <? p_size p then Some (PTYPE_NONE, c) else
    let c := set_state 0 c in
    dataSize ← load16 m (head b + 1);
    data ← load_range m (head b + sizeof_sony_pkt_hdr_t) dataSize;
    x ← load m (scan b);
    if negb (sum8 data =? x) then parseErrorResetState c EPARSE_INVALID_CHKSUM
    else
      id ← load m (head b + 3);
      Some (PTYPE_SONY, validPacketFound c numBytes (p_size p) id).

(** ** SPARTN packets *)

(** The length of the embedded authentication data, from the byte that holds it. *)
Definition spartn_auth_len (x : Z) : Z :=
  if 1 <? Z.land (Z.shiftr x 3) 7 then
    let k := Z.land x 7 in
    if k =? 0 then 8 else if k =? 1 then 12 else if k =? 2 then 16
    else if k =? 3 then 32 else if k =? 4 then 64 else 0
  else 0.

Definition processSpartnByte (m : region) (c : is_comm_instance_t) : result :=
  let b := rxBuf c in
  let s := p_state (parser c) in
  if s =? 0 then
    x ← load m (scan b);
    Some (PTYPE_NONE, if x =? SPARTN_START_BYTE then next_state c else c)
  else if (s =? 1) || (s =? 2) || (s =? 4) || (s =? 5) || (s =? 6) then
    Some (PTYPE_NONE, next_state c)
  else if s =? 3 then
    h1 ← load m (head b + 1); h2 ← load m (head b + 2); h3 ← load m (head b + 3);
    if negb (Z.land h3 0x0F =? computeCrc4Ccitt [h1; h2; Z.land h3 0xF0])
    then parseErrorResetState c EPARSE_INVALID_HEADER
    else Some (PTYPE_NONE, next_state c)
  else if (7 <=? s) && (s <=? 11) then
    h1 ← load m (head b + 1); h2 ← load m (head b + 2);
    h3 ← load m (head b + 3); h4 ← load m (head b + 4);
    let payloadLen :=
      Z.land (Z.lor (Z.lor (Z.shiftl (Z.land h1 1) 9) (Z.shiftl h2 1))
                (Z.shiftr (Z.land h3 0x80) 7)) 0x3FF in
    let payloadLen := u16 (payloadLen + (Z.land (Z.shiftr h3 4) 3 + 1)) in
    let extendedTs := negb (Z.land h4 0x08 =? 0) in
    let encrypt := negb (Z.land h3 0x40 =? 0) in
    let (plain, enc) := if extendedTs then (9, 11) else (7, 9) in
    if negb encrypt && (s =? plain)
    then Some (PTYPE_NONE, set_state (s16 (- payloadLen)) c)
    else if encrypt && (s =? enc) then
      x ← load m (head b + (enc - 1) + 1);
      let payloadLen := u16 (payloadLen + spartn_auth_len x) in
      Some (PTYPE_NONE, set_state (s16 (- payloadLen)) c)
    else Some (PTYPE_NONE, next_state c)
  else
    let c := next_state c in
    if p_state (parser c) =? 0 then
      let numBytes := scan b - head b + 1 in
      Some (PTYPE_SPARTN, validPacketFound c numBytes numBytes 0)
    else if 0 <? p_state (parser c) then parseErrorResetState c EPARSE_INVALID_PAYLOAD
    else Some (PTYPE_NONE, c).

Definition process (f : pFnProcessPkt) : region -> is_comm_instance_t -> result :=
  match f with
  | ProcIsb => processIsbPkt
  | ProcNmea => processNmeaPkt
  | ProcUblox => processUbloxPkt
  | ProcRtcm3 => processRtcm3Pkt
  | ProcSpartn => processSpartnByte
  | ProcSony => processSonyByte
  end.

(** ** The parse loop *)

(** The packet function and the enable bit of a start byte. *)
Definition start_of (x : Z) : option (pFnProcessPkt * Z) :=
  if x =? PSC_ISB_PREAMBLE_BYTE1 then Some (ProcIsb, ENABLE_PROTOCOL_ISB)
  else if x =? PSC_NMEA_START_BYTE then Some (ProcNmea, ENABLE_PROTOCOL_NMEA)
  else if x =? UBLOX_START_BYTE1 then Some (ProcUblox, ENABLE_PROTOCOL_UBLOX)
  else if x =? RTCM3_START_BYTE then Some (ProcRtcm3, ENABLE_PROTOCOL_RTCM3)
  else if x =? SPARTN_START_BYTE then Some (ProcSpartn, ENABLE_PROTOCOL_SPARTN)
  else if x =? SONY_START_BYTE then Some (ProcSony, ENABLE_PROTOCOL_SONY)
  else None.

Definition scan_inc (c : is_comm_instance_t) : is_comm_instance_t :=
  set_scan (scan (rxBuf c) + 1) c.

(** One iteration of the loop: a result to return, or the instance to go on with. *)
Definition parse_step (m : region) (c : is_comm_instance_t)
    : option (protocol_type_t * is_comm_instance_t) :=
  match processPkt c with
  | None =>
    x ← load m (scan (rxBuf c));
    match start_of x with
    | Some (f, bit) =>
      let c := if negb (Z.land (enabledMask c) bit =? 0) then setParserStart c f else c in
      Some (PTYPE_NONE, scan_inc c)
    | None =>
      match reportParseError c EPARSE_STREAM_UNPARSABLE with
      | (PTYPE_NONE, c) => Some (PTYPE_NONE, scan_inc c)
      | (_, c) => Some (PTYPE_PARSE_ERROR, c)
      end
    end
  | Some f => '(ptype, c) ← process f m c; Some (ptype, scan_inc c)
  end.

Fixpoint parse_loop (fuel : nat) (m : region) (c : is_comm_instance_t) : result :=
  match fuel with
  | O => None
  | S fuel =>
    if scan (rxBuf c) <? tail (rxBuf c) then
      '(ptype, c) ← parse_step m c;
      if decide (ptype = PTYPE_NONE) then parse_loop fuel m c else Some (ptype, c)
    else Some (PTYPE_NONE, c)
  end.

(** Enough for every loop: each start position is left at most once, and each
    attempt from it scans at most all the bytes behind it. *)
Definition parse_fuel (c : is_comm_instance_t) : nat :=
  let n := Z.to_nat (tail (rxBuf c) - Z.min (head (rxBuf c)) (scan (rxBuf c))) in
  (n + 2) * (n + 2).

Definition is_comm_parse_timeout (m : region) (c : is_comm_instance_t) (timeMs : Z) : result :=
  let c :=
    match processPkt c with
    | Some _ =>
      if u32 (p_timeMs (parser c) + PKT_PARSER_TIMEOUT_MS) <? timeMs
      then is_comm_reset_parser (set_head (head (rxBuf c) + 1) c) else c
    | None => c
    end in
  '(ptype, c) ← parse_loop (parse_fuel c) m c;
  if decide (ptype = PTYPE_NONE) then
    Some (PTYPE_NONE,
          match processPkt c with Some _ => set_timeMs timeMs c | None => c end)
  else Some (ptype, c).

Definition is_comm_parse (m : region) (c : is_comm_instance_t) : result :=
  is_comm_parse_timeout m c 0.

(** ** Buffer space *)

(** Returns the memory, the instance and the number of free bytes. *)
Definition is_comm_free (m : region) (c : is_comm_instance_t)
    : option (region * is_comm_instance_t * Z) :=
  let b := rxBuf c in
  let bytesFree := buf_end b - tail b in
  if bytesFree =? 0 then
    let shift := head b - buf_start b in
    '(m, c) ←
      (if shift <? buf_size b / 3 then
         '(_, c) ← parseErrorResetState c EPARSE_RXBUFFER_FLUSHED;
         Some (m, set_scan (buf_start b) (set_tail (buf_start b) (set_head (buf_start b) c)))
       else
         bytes ← load_range m (head b) (tail b - head b);
         m ← store_range m (buf_start b) bytes;
         Some (m, set_scan (scan b - shift)
                    (set_tail (tail b - shift) (set_head (buf_start b) c))));
    Some (m, c, buf_end (rxBuf c) - tail (rxBuf c))
  else Some (m, c, bytesFree).

Definition is_comm_parse_byte_timeout (m : region) (c : is_comm_instance_t) (x timeMs : Z)
    : option (region * protocol_type_t * is_comm_instance_t) :=
  '(m, c, _) ← is_comm_free m c;
  m ← store m (tail (rxBuf c)) x;
  let c := set_tail (tail (rxBuf c) + 1) c in
  '(ptype, c) ← is_comm_parse_timeout m c timeMs;
  Some (m, ptype, c).

Definition is_comm_parse_byte (m : region) (c : is_comm_instance_t) (x : Z)
    : option (region * protocol_type_t * is_comm_instance_t) :=
  is_comm_parse_byte_timeout m c x 0.

(** ** Received data *)

Definition is_comm_to_isb_p_data (c : is_comm_instance_t) : p_data_t Z :=
  Data (DataHdr (hdr_id (rxPkt c)) (u16 (data_size (rxPkt c))) (pkt_offset (rxPkt c)))
       (data_ptr (rxPkt c)).

Definition is_comm_to_isb_pkt_type (c : is_comm_instance_t) : Z :=
  Z.land (hdr_flags (rxPkt c)) PKT_TYPE_MASK.

End CommRx.
Export CommRx.
