(* ===== verification/CommTx.v ===== *)
(** * Sending packets and copying data sets (src/src/ISComm.c, ISComm.h)

    The packet encoder to a buffer or a port, the wrappers for each packet type, the
    copies between packets and structures, and the baud rate check.  A port write
    is a function on a state of the caller's choice. *)

From S2P Require Import Prelude Checksum CommTypes.

Module CommTx.

(** ** Baud rates *)

Definition IS_BAUDRATE_STANDARD_MAX : Z := 921600.
Definition IS_BAUDRATE_MAX : Z := 10000000.
Definition g_validBaudRates : list Z :=
  [10000000; 921600; 460800; 230400; 115200; 57600; 38400; 19200; 9600].

Definition validateBaudRate (baudRate : Z) : Z :=
  if baudRate <=? IS_BAUDRATE_STANDARD_MAX then
    if existsb (Z.eqb baudRate) g_validBaudRates then 0 else -1
  else if baudRate <=? IS_BAUDRATE_MAX then 0
  else -1.

(** ** Encoding *)

(** A packet to send: its data pointer is the bytes pointed to. *)
Definition tx_packet := packet_t (list Z).

(** The bytes of [packet_hdr_t] in memory. *)
Definition hdr_bytes {P} (pkt : packet_t P) : list Z :=
  le16_bytes (hdr_preamble pkt) ++ [hdr_flags pkt; hdr_id pkt] ++
  le16_bytes (hdr_payloadSize pkt).

Definition is_comm_encode_hdr {P} (pkt : packet_t P) (flags did data_size offset : Z)
    (data : P) : packet_t P :=
  let pkt :=
    {| hdr_preamble := PSC_ISB_PREAMBLE;
       hdr_flags := if offset =? 0 then flags else Z.lor flags ISB_FLAGS_PAYLOAD_W_OFFSET;
       hdr_id := u8 did;
       hdr_payloadSize := if offset =? 0 then data_size else u16 (data_size + 2);
       pkt_offset := offset; data_ptr := data; data_size := data_size;
       hdrCksum := hdrCksum pkt; pkt_checksum := pkt_checksum pkt;
       pkt_size := pkt_size pkt; pkt_id := pkt_id pkt |} in
  let ck := is_comm_isb_checksum16 0 (hdr_bytes pkt) in
  let ck := if offset =? 0 then ck else is_comm_isb_checksum16 ck (le16_bytes offset) in
  {| hdr_preamble := hdr_preamble pkt; hdr_flags := hdr_flags pkt; hdr_id := hdr_id pkt;
     hdr_payloadSize := hdr_payloadSize pkt; pkt_offset := pkt_offset pkt;
     data_ptr := data_ptr pkt; data_size := CommTypes.data_size pkt; hdrCksum := ck;
     pkt_checksum := pkt_checksum pkt;
     pkt_size := u16 (hdr_payloadSize pkt + sizeof_packet_hdr_t + 2);
     pkt_id := pkt_id pkt |}.

Definition set_checksum {P} (ck : Z) (pkt : packet_t P) : packet_t P :=
  {| hdr_preamble := hdr_preamble pkt; hdr_flags := hdr_flags pkt; hdr_id := hdr_id pkt;
     hdr_payloadSize := hdr_payloadSize pkt; pkt_offset := pkt_offset pkt;
     data_ptr := data_ptr pkt; data_size := data_size pkt; hdrCksum := hdrCksum pkt;
     pkt_checksum := ck; pkt_size := pkt_size pkt; pkt_id := pkt_id pkt |}.

(** The macro [MEMCPY_INC]: copy and advance the destination. *)
Definition MEMCPY_INC (m : region) (dst : Z) (src : list Z) : option (region * Z) :=
  m ← store_range m dst src; Some (m, dst + lenZ src).

(** Returns the memory, the instance, the packet and the value returned: the size
    of the packet, or -1 when it does not fit. *)
Definition is_comm_write_isb_precomp_to_buffer (m : region) (buf buf_size : Z)
    (comm : is_comm_instance_t) (pkt : tx_packet)
    : option (region * is_comm_instance_t * tx_packet * Z) :=
  if buf_size <? pkt_size pkt then Some (m, comm, pkt, -1) else
  let pkt := set_checksum (hdrCksum pkt) pkt in
  '(m, buf) ← MEMCPY_INC m buf (hdr_bytes pkt);
  '(m, buf) ← (if pkt_offset pkt =? 0 then Some (m, buf)
               else MEMCPY_INC m buf (le16_bytes (pkt_offset pkt)));
  '(m, buf, pkt) ←
    (if data_size pkt =? 0 then Some (m, buf, pkt) else
       data ← take_exact (data_size pkt) (data_ptr pkt);
       let pkt := set_checksum (is_comm_isb_checksum16 (pkt_checksum pkt) data) pkt in
       '(m, buf) ← MEMCPY_INC m buf data;
       Some (m, buf, pkt));
  '(m, _) ← MEMCPY_INC m buf (le16_bytes (pkt_checksum pkt));
  Some (m, set_txPktCount (u32 (txPktCount comm + 1)) comm, pkt, pkt_size pkt).

Section Port.
(** The state the port writes change, and [pfnIsCommPortWrite]: it gets the port and
    the bytes and returns the number of bytes written. *)
Context {W : Type}.
Definition pfnIsCommPortWrite : Type := Z -> list Z -> W -> W * Z.

Definition is_comm_write_isb_precomp_to_port (portWrite : pfnIsCommPortWrite) (port : Z)
    (comm : is_comm_instance_t) (pkt : tx_packet) (w : W)
    : option (W * is_comm_instance_t * tx_packet * Z) :=
  let pkt := set_checksum (hdrCksum pkt) pkt in
  let '(w, n) := portWrite port (hdr_bytes pkt) w in
  let '(w, n) :=
    if pkt_offset pkt =? 0 then (w, n) else
    let '(w, k) := portWrite port (le16_bytes (pkt_offset pkt)) w in (w, n + k) in
  '(w, n, pkt) ←
    (if data_size pkt =? 0 then Some (w, n, pkt) else
       data ← take_exact (data_size pkt) (data_ptr pkt);
       let pkt := set_checksum (is_comm_isb_checksum16 (pkt_checksum pkt) data) pkt in
       let '(w, k) := portWrite port data w in
       Some (w, n + k, pkt));
  let '(w, k) := portWrite port (le16_bytes (pkt_checksum pkt)) w in
  let n := n + k in
  Some (w, set_txPktCount (u32 (txPktCount comm + 1)) comm, pkt,
        if n =? pkt_size pkt then n else -1).

(** [portWrite] may be NULL. *)
Definition is_comm_write_pkt (portWrite : option pfnIsCommPortWrite) (port : Z)
    (comm : is_comm_instance_t) (txPkt : tx_packet) (flags did data_size offset : Z)
    (data : list Z) (w : W) : option (W * is_comm_instance_t * tx_packet * Z) :=
  match portWrite with
  | None => Some (w, comm, txPkt, -1)
  | Some portWrite =>
    let txPkt := is_comm_encode_hdr txPkt flags did data_size offset data in
    is_comm_write_isb_precomp_to_port portWrite port comm txPkt w
  end.

(** The fields of a packet on the stack that are never assigned hold any value. *)
Definition stack_packet : tx_packet := Packet 0 0 0 0 0 [] 0 0 0 0 0.

Definition is_comm_write (portWrite : option pfnIsCommPortWrite) (port : Z)
    (comm : is_comm_instance_t) (flags did data_size offset : Z) (data : list Z) (w : W)
    : option (W * is_comm_instance_t * Z) :=
  '(w, comm, _, n) ←
    is_comm_write_pkt portWrite port comm stack_packet flags did data_size offset data w;
  Some (w, comm, n).

(** The bytes of a [p_data_get_t]. *)
Definition data_get_bytes (get : p_data_get_t) : list Z :=
  le16_bytes (get_id get) ++ le16_bytes (get_size get) ++ le16_bytes (get_offset get) ++
  le16_bytes (get_period get).

Definition mk_data_get (did size offset periodMultiple : Z) : p_data_get_t :=
  DataGet (u16 did) (u16 size) (u16 offset) (u16 periodMultiple).

Definition is_comm_get_data (portWrite : option pfnIsCommPortWrite) (port : Z)
    (comm : is_comm_instance_t) (did size offset periodMultiple : Z) (w : W)
    : option (W * is_comm_instance_t * Z) :=
  let get := mk_data_get did size offset periodMultiple in
  is_comm_write portWrite port comm PKT_TYPE_GET_DATA 0 sizeof_p_data_get_t 0
    (data_get_bytes get) w.

Definition is_comm_set_data (portWrite : option pfnIsCommPortWrite) (port : Z)
    (comm : is_comm_instance_t) (did size offset : Z) (data : list Z) (w : W) :=
  is_comm_write portWrite port comm PKT_TYPE_SET_DATA did size offset data w.

Definition is_comm_data (portWrite : option pfnIsCommPortWrite) (port : Z)
    (comm : is_comm_instance_t) (did size offset : Z) (data : list Z) (w : W) :=
  is_comm_write portWrite port comm PKT_TYPE_DATA did size offset data w.

Definition is_comm_data_pkt (portWrite : option pfnIsCommPortWrite) (port : Z)
    (comm : is_comm_instance_t) (txPkt : tx_packet) (did size offset : Z)
    (data : list Z) (w : W) :=
  is_comm_write_pkt portWrite port comm txPkt PKT_TYPE_DATA did size offset data w.

Definition is_comm_stop_broadcasts_all_ports (portWrite : option pfnIsCommPortWrite)
    (port : Z) (comm : is_comm_instance_t) (w : W) :=
  is_comm_write portWrite port comm PKT_TYPE_STOP_BROADCASTS_ALL_PORTS 0 0 0 [] w.

Definition is_comm_stop_broadcasts_current_ports (portWrite : option pfnIsCommPortWrite)
    (port : Z) (comm : is_comm_instance_t) (w : W) :=
  is_comm_write portWrite port comm PKT_TYPE_STOP_BROADCASTS_CURRENT_PORT 0 0 0 [] w.
End Port.
Arguments pfnIsCommPortWrite : clear implicits.

Definition is_comm_write_to_buf (m : region) (buf buf_size : Z)
    (comm : is_comm_instance_t) (flags did data_size offset : Z) (data : list Z)
    : option (region * is_comm_instance_t * Z) :=
  let txPkt := is_comm_encode_hdr stack_packet flags did data_size offset data in
  '(m, comm, _, n) ← is_comm_write_isb_precomp_to_buffer m buf buf_size comm txPkt;
  Some (m, comm, n).

Definition is_comm_get_data_to_buf (m : region) (buf buf_size : Z)
    (comm : is_comm_instance_t) (did size offset periodMultiple : Z)
    : option (region * is_comm_instance_t * Z) :=
  let get := mk_data_get did size offset periodMultiple in
  is_comm_write_to_buf m buf buf_size comm PKT_TYPE_GET_DATA 0 sizeof_p_data_get_t 0
    (data_get_bytes get).

Definition is_comm_set_data_to_buf (m : region) (buf buf_size : Z)
    (comm : is_comm_instance_t) (did size offset : Z) (data : list Z) :=
  is_comm_write_to_buf m buf buf_size comm PKT_TYPE_SET_DATA did size offset data.

Definition is_comm_data_to_buf (m : region) (buf buf_size : Z)
    (comm : is_comm_instance_t) (did size offset : Z) (data : list Z) :=
  is_comm_write_to_buf m buf buf_size comm PKT_TYPE_DATA did size offset data.

(** ** Copies between data sets and packets *)

(** [memcpy(dst + off, src, n)] between two objects: the new bytes of [dst]. *)
Definition memcpy (dst : list Z) (off : Z) (src : list Z) (n : Z) : option (list Z) :=
  src ← take_exact n src;
  if (n =? 0) || ((0 <=? off) && (off + n <=? lenZ dst)) then Some (updZ off src dst)
  else None.

(** The bytes of the structure [sptr] from [hdr.offset] on, into the packet. *)
Definition copyStructPToDataP (data : p_data_t (list Z)) (sptr : list Z) (maxsize : Z)
    : option (p_data_t (list Z) * Z) :=
  let h := d_hdr data in
  if u32 (dh_size h + dh_offset h) <=? maxsize then
    src ← take_exact (dh_size h) (dropZ (dh_offset h) sptr);
    ptr ← memcpy (d_ptr data) 0 src (dh_size h);
    Some (Data h ptr, 0)
  else Some (data, -1).

(** [copyDataPToStructP], and [copyDataBufPToStructP], whose buffer is inline. *)
Definition copyDataPToStructP (sptr : list Z) (data : p_data_t (list Z)) (maxsize : Z)
    : option (list Z * Z) :=
  let h := d_hdr data in
  if u32 (dh_size h + dh_offset h) <=? maxsize then
    sptr ← memcpy sptr (dh_offset h) (d_ptr data) (dh_size h); Some (sptr, 0)
  else Some (sptr, -1).

Definition copyDataBufPToStructP (sptr : list Z) (data : p_data_t (list Z)) (maxsize : Z)
    : option (list Z * Z) :=
  let h := d_hdr data in
  if u32 (dh_size h + dh_offset h) <=? maxsize then
    sptr ← memcpy sptr (dh_offset h) (d_ptr data) (dh_size h); Some (sptr, 0)
  else Some (sptr, -1).

Definition copyDataPToDataP (dst src : p_data_t (list Z)) (maxsize : Z)
    : option (p_data_t (list Z) * Z) :=
  if dh_size (d_hdr src) <=? maxsize then
    ptr ← memcpy (d_ptr dst) 0 (d_ptr src) (dh_size (d_hdr src));
    Some (Data (d_hdr src) ptr, 0)
  else Some (dst, -1).

Definition copyDataPToStructP2 (sptr : list Z) (dataHdr : p_data_hdr_t)
    (dataBuf : list Z) (maxsize : Z) : option (list Z * Z) :=
  if u32 (dh_size dataHdr + dh_offset dataHdr) <=? maxsize then
    sptr ← memcpy sptr (dh_offset dataHdr) dataBuf (dh_size dataHdr); Some (sptr, 0)
  else Some (sptr, -1).

(** [m] is the memory of the receive buffer. *)
Definition is_comm_copy_to_struct (m : region) (sptr : list Z) (c : is_comm_instance_t)
    (maxsize : Z) : option (list Z * Z) :=
  let p := rxPkt c in
  if u32 (data_size p + pkt_offset p) <=? maxsize then
    src ← load_range m (data_ptr p) (data_size p);
    sptr ← memcpy sptr (pkt_offset p) src (data_size p); Some (sptr, 0)
  else Some (sptr, -1).

(** The 32-bit sums wrap. *)
Definition dataOverlap (dstOffset dstSize : Z) (src : p_data_hdr_t) : bool :=
  Z.max dstOffset (dh_offset src) <?
    Z.min (u32 (dstOffset + dstSize)) (u32 (dh_offset src + dh_size src)).

End CommTx.
Export CommTx.

(** A copy between two objects that stays inside both. *)
Lemma memcpy_ok dst off src n :
  0 <= n <= lenZ src -> 0 <= off -> off + n <= lenZ dst ->
  memcpy dst off src n = Some (updZ off (takeZ n src) dst).
Proof.
  intros Hn Ho Hd. unfold memcpy. rewrite take_exact_ok by lia. cbn [mbind option_bind].
  rewrite (proj2 (Z.leb_le 0 off)), (proj2 (Z.leb_le (off + n) (lenZ dst))) by lia.
  by rewrite orb_true_r.
Qed.
