(* ===== verification/CommMessages.v ===== *)
(** * Dispatching received packets (src/src/ISComm.c, ISComm.h)

    The callbacks of [is_comm_callbacks_t] and the loops that read bytes into the
    receive buffer and call them.  A callback is a partial function on the world:
    the memory of the receive buffer, the instance and the client's own state. *)

From S2P Require Import Prelude CommTypes CommRx.

Record world {St : Type} := World {
  w_mem : region;
  w_comm : is_comm_instance_t;
  w_st : St
}.
Arguments world : clear implicits.
Arguments World {St}.

Module CommMessages.

Section Messages.
Context {St : Type}.

Definition pfnIsCommHandler : Type := Z -> world St -> option (world St).
Definition pfnIsCommIsbDataHandler : Type := Z -> p_data_t Z -> world St -> option (world St).
Definition pfnIsCommGenMsgHandler : Type := Z -> Z -> Z -> world St -> option (world St).

(** A callback that is NULL is [None].  The member [rmc] is not called from here. *)
Record is_comm_callbacks_t := Callbacks {
  cb_isbData : option pfnIsCommIsbDataHandler;
  cb_isb : option pfnIsCommHandler;
  cb_nmea : option pfnIsCommGenMsgHandler;
  cb_ublox : option pfnIsCommGenMsgHandler;
  cb_rtcm3 : option pfnIsCommGenMsgHandler;
  cb_sony : option pfnIsCommGenMsgHandler;
  cb_sprtn : option pfnIsCommGenMsgHandler;
  cb_error : option pfnIsCommHandler;
  cb_all : option pfnIsCommHandler
}.

Definition call_handler (f : option pfnIsCommHandler) (port : Z) (w : world St)
    : option (world St) :=
  match f with Some f => f port w | None => Some w end.

Definition call_gen (f : option pfnIsCommGenMsgHandler) (port : Z) (w : world St)
    : option (world St) :=
  let p := rxPkt (w_comm w) in
  match f with
  | Some f => f port (data_ptr p + pkt_offset p) (data_size p) w
  | None => Some w
  end.

(** The [switch] of [parse_messages]. *)
Definition dispatch (port : Z) (cb : is_comm_callbacks_t) (ptype : protocol_type_t)
    (w : world St) : option (world St) :=
  match ptype with
  | PTYPE_INERTIAL_SENSE_DATA =>
    w ← call_handler (cb_isb cb) port w;
    match cb_isbData cb with
    | Some f => f port (is_comm_to_isb_p_data (w_comm w)) w
    | None => Some w
    end
  | PTYPE_INERTIAL_SENSE_ACK | PTYPE_INERTIAL_SENSE_CMD => call_handler (cb_isb cb) port w
  | PTYPE_NMEA => call_gen (cb_nmea cb) port w
  | PTYPE_RTCM3 => call_gen (cb_rtcm3 cb) port w
  | PTYPE_SPARTN => call_gen (cb_sprtn cb) port w
  | PTYPE_UBLOX => call_gen (cb_ublox cb) port w
  | PTYPE_SONY => call_gen (cb_sony cb) port w
  | PTYPE_PARSE_ERROR => call_handler (cb_error cb) port w
  | PTYPE_NONE => Some w
  end.

(** [None] also when the loop has not ended within its fuel. *)
Fixpoint parse_messages (fuel : nat) (port : Z) (cb : is_comm_callbacks_t) (w : world St)
    : option (world St) :=
  match fuel with
  | O => None
  | S fuel =>
    '(ptype, c) ← is_comm_parse (w_mem w) (w_comm w);
    let w := World (w_mem w) c (w_st w) in
    if decide (ptype = PTYPE_NONE) then Some w else
    w ← dispatch port cb ptype w;
    w ← call_handler (cb_all cb) port w;
    parse_messages fuel port cb w
  end.

(** At most two results for each byte that was not yet parsed, and one more. *)
Definition messages_fuel (c : is_comm_instance_t) : nat :=
  2 * Z.to_nat (tail (rxBuf c) - Z.min (head (rxBuf c)) (scan (rxBuf c))) + 3.

Definition is_comm_buffer_parse_messages (buf : list Z) (buf_size : Z)
    (cb : is_comm_callbacks_t) (w : world St) : option (world St) :=
  '(m, c, free) ← is_comm_free (w_mem w) (w_comm w);
  let n := Z.min (s32 buf_size) free in
  bytes ← take_exact n buf;
  m ← store_range m (tail (rxBuf c)) bytes;
  let c := set_tail (tail (rxBuf c) + n) c in
  parse_messages (messages_fuel c) 0 cb (World m c (w_st w)).

(** [portRead] is not under src/: it returns the bytes it put in the buffer, which
    start at the pointer it is given, and its result. *)
Definition is_comm_port_parse_messages (portRead : Z -> Z -> St -> St * list Z * Z)
    (port : Z) (cb : is_comm_callbacks_t) (w : world St) : option (world St) :=
  '(m, c, bytesFree) ← is_comm_free (w_mem w) (w_comm w);
  let '(st, bytes, n) := portRead port bytesFree (w_st w) in
  m ← store_range m (tail (rxBuf c)) bytes;
  if n <=? 0 then Some (World m c st) else
  let c := set_tail (tail (rxBuf c) + n) c in
  parse_messages (messages_fuel c) port cb (World m c st).

End Messages.
Arguments is_comm_callbacks_t : clear implicits.

End CommMessages.
Export CommMessages.
