(* ===== verification/CommFrames.v ===== *)
(** * Packets in memory

    For each protocol, what a complete packet at an address is ([frame_at]), what
    the parser has seen of the packet it is in ([pinv]), and the facts about reads
    inside the receive buffer that the parser proofs share. *)

From S2P Require Import Prelude Checksum Nmea CommTypes CommRx.

(** ** Reads inside the buffer *)

(** The memory holds bytes. *)
Definition mem_ok (m : region) : Prop := Forall byte (cells m).

(** The address is inside the memory. *)
Definition valid (m : region) (a : Z) : Prop := base m <= a < base m + lenZ (cells m).

Lemma nthZ_Forall {A} (P : A -> Prop) l i x : Forall P l -> nthZ l i = Some x -> P x.
Proof.
  unfold nthZ. intros H. destruct (0 <=? i); [|done]. by apply Forall_lookup_1.
Qed.

Section Reads.
Context (m : region) (Hm : mem_ok m).

Lemma load_valid a : valid m a -> exists x, load m a = Some x /\ byte x.
Proof.
  intros Ha. destruct (load_ok m a Ha) as [x Hx]. exists x. split; [done|].
  eapply nthZ_Forall; [apply Hm|exact Hx].
Qed.

Lemma load_is_valid a x : load m a = Some x -> valid m a.
Proof. unfold load, valid. intros H%nthZ_Some_range. lia. Qed.

Lemma load_byte a x : load m a = Some x -> byte x.
Proof. eapply nthZ_Forall, Hm. Qed.

Lemma load16_valid a :
  valid m a -> valid m (a + 1) -> exists v, load16 m a = Some v /\ 0 <= v < 65536.
Proof.
  intros H0 H1. destruct (load_valid a H0) as [x [Hx Bx]].
  destruct (load_valid (a + 1) H1) as [y [Hy By]].
  exists (le16 x y). unfold load16. rewrite Hx, Hy. split; [done|].
  unfold le16, byte in *. lia.
Qed.

Lemma load16_range a v : load16 m a = Some v -> 0 <= v < 65536.
Proof.
  unfold load16. intros H. inv_some.
  match goal with H1 : load m a = _, H2 : load m (a + 1) = _ |- _ =>
    apply load_byte in H1, H2 end. unfold byte, le16 in *. lia.
Qed.

Lemma load_range_valid a n :
  0 <= n -> (n = 0 \/ valid m a /\ valid m (a + n - 1)) ->
  exists l, load_range m a n = Some l /\ lenZ l = n /\ Forall byte l.
Proof.
  intros Hn H. destruct (decide (n = 0)) as [->|]; [by exists []|].
  destruct H as [|[H1 H2]]; [done|]. unfold valid in *.
  rewrite load_range_ok by lia. eexists. split; [done|]. split.
  - autorewrite with lenZ. lia.
  - unfold subZ, takeZ, dropZ. apply Forall_take, Forall_drop, Hm.
Qed.

Lemma getBits_valid a pos len :
  0 <= pos -> 0 <= len <= 32 -> valid m (a + pos / 8) ->
  (len = 0 \/ valid m (a + (pos + len - 1) / 8)) ->
  exists v, getBitsAsUInt32 m a pos len = Some v /\ 0 <= v < 2 ^ len.
Proof.
  intros Hp Hlen H0 H1. unfold getBitsAsUInt32.
  assert (forall n i acc j, 0 <= i -> i + Z.of_nat n <= pos + len -> pos <= i ->
    j + Z.of_nat n <= 32 -> 0 <= j -> 0 <= acc < 2 ^ j ->
    exists v, getBits_loop n m a i acc = Some v /\ 0 <= v < 2 ^ (j + Z.of_nat n)) as Hloop.
  { induction n as [|n IH]; intros i acc j Hi Hn Hpi Hj Hj0 Hacc.
    { exists acc. by rewrite Z.add_0_r. }
    cbn [getBits_loop].
    assert (valid m (a + i / 8)) as Hv.
    { unfold valid in *. destruct H1 as [->|H1]; [lia|].
      assert (pos / 8 <= i / 8 <= (pos + len - 1) / 8)
        by (split; apply Z.div_le_mono; lia). lia. }
    destruct (buf_bit_spec m a i Hv) as (x & _ & E). rewrite E. cbn [mbind option_bind].
    set (b := Z.b2z _). assert (0 <= b <= 1) by (subst b; destruct (Z.testbit _ _); cbn; lia).
    assert (2 ^ (j + 1) = 2 * 2 ^ j) as E2 by (rewrite Z.pow_add_r by lia; lia).
    assert (2 ^ (j + 1) <= 2 ^ 32) by (apply Z.pow_le_mono_r; lia).
    change (2 ^ 32) with 4294967296 in *.
    assert (u32 (Z.shiftl acc 1 + b) = 2 * acc + b) as ->.
    { unfold u32. rewrite Z.shiftl_mul_pow2 by lia. change (2 ^ 1) with 2.
      rewrite Z.mod_small; lia. }
    destruct (IH (i + 1) (2 * acc + b) (j + 1)) as (v & Hv' & Hr); try lia.
    exists v. split; [done|]. replace (j + Z.of_nat (S n)) with (j + 1 + Z.of_nat n) by lia.
    done. }
  destruct (Hloop (Z.to_nat len) pos 0 0) as (v & Hv & Hr); try lia.
  exists v. split; [done|]. by rewrite Z.add_0_l, Z2Nat.id in Hr by lia.
Qed.
End Reads.

Lemma getBits_nonneg m a pos len v : getBitsAsUInt32 m a pos len = Some v -> 0 <= v.
Proof.
  unfold getBitsAsUInt32. generalize (Z.to_nat len) as n. intros n.
  assert (forall acc i, 0 <= acc -> getBits_loop n m a i acc = Some v -> 0 <= v) as H;
    [|by apply H].
  induction n as [|n IH]; intros acc i Hacc H; cbn [getBits_loop] in H; inv_some; [done|].
  eapply IH; [|eassumption]. unfold u32. zlia.
Qed.

(** ** Start bytes *)

Definition start_byte (f : pFnProcessPkt) : Z :=
  match f with
  | ProcIsb => PSC_ISB_PREAMBLE_BYTE1
  | ProcNmea => PSC_NMEA_START_BYTE
  | ProcUblox => UBLOX_START_BYTE1
  | ProcRtcm3 => RTCM3_START_BYTE
  | ProcSpartn => SPARTN_START_BYTE
  | ProcSony => SONY_START_BYTE
  end.

Definition enable_bit (f : pFnProcessPkt) : Z :=
  match f with
  | ProcIsb => ENABLE_PROTOCOL_ISB
  | ProcNmea => ENABLE_PROTOCOL_NMEA
  | ProcUblox => ENABLE_PROTOCOL_UBLOX
  | ProcRtcm3 => ENABLE_PROTOCOL_RTCM3
  | ProcSpartn => ENABLE_PROTOCOL_SPARTN
  | ProcSony => ENABLE_PROTOCOL_SONY
  end.

Lemma start_of_start f : start_of (start_byte f) = Some (f, enable_bit f).
Proof. destruct f; reflexivity. Qed.

Lemma start_of_inv x f bit :
  start_of x = Some (f, bit) -> x = start_byte f /\ bit = enable_bit f.
Proof.
  unfold start_of. intros H.
  repeat match type of H with (if ?a =? ?b then _ else _) = _ =>
    destruct (Z.eqb_spec a b) as [->|]; [by injection H as <- <-|] end.
  discriminate H.
Qed.

(** ** Complete packets *)

(** The index of the last header byte of a SPARTN packet. *)
Definition spartn_last_hdr (h3 h4 : Z) : Z :=
  let (plain, enc) := if negb (Z.land h4 0x08 =? 0) then (9, 11) else (7, 9) in
  if negb (Z.land h3 0x40 =? 0) then enc else plain.

Definition spartn_payload_len (h1 h2 h3 : Z) : Z :=
  Z.land (Z.lor (Z.lor (Z.shiftl (Z.land h1 1) 9) (Z.shiftl h2 1))
            (Z.shiftr (Z.land h3 0x80) 7)) 0x3FF + (Z.land (Z.shiftr h3 4) 3 + 1).

(** Header, payload with its checksum, and embedded authentication. *)
Definition spartn_len (h1 h2 h3 h4 x : Z) : Z :=
  spartn_last_hdr h3 h4 + 1 + spartn_payload_len h1 h2 h3 +
  (if negb (Z.land h3 0x40 =? 0) then spartn_auth_len x else 0).

Section Frames.
(** The memory, the size of the receive buffer and the address of the packet. *)
Context (m : region) (bsz h : Z).

Definition isb_frame_at (n : Z) : Prop :=
  exists ps body,
    load m (h + 1) = Some PSC_ISB_PREAMBLE_BYTE2 /\ load16 m (h + 4) = Some ps /\
    n = ps + 8 /\ n <= MAX_MSG_LENGTH_ISB /\ load_range m h (n - 2) = Some body /\
    load16 m (h + 6 + ps) = Some (is_comm_isb_checksum16 0 body).

(** The carriage return is the last byte but one, and the only one. *)
Definition nmea_frame_at (n : Z) : Prop :=
  exists digits body,
    8 <= n <= MAX_MSG_LENGTH_NMEA + 3 /\
    (forall i, 1 <= i < n - 2 -> load m (h + i) <> Some PSC_NMEA_PRE_END_BYTE) /\
    load m (h + n - 2) = Some PSC_NMEA_PRE_END_BYTE /\
    load_range m (h + n - 4) 2 = Some digits /\
    load_range m (h + 1) (n - 6) = Some body /\
    strtol16 digits = fold_left Z.lxor body 0.

(** The 16-bit size of the code: for a length field of 65528 or more it is less
    than a header, and the packet ends with the byte after the header. *)
Definition ublox_frame_at (n : Z) : Prop :=
  exists ps body,
    load m (h + 1) = Some UBLOX_START_BYTE2 /\ load16 m (h + 4) = Some ps /\
    n = Z.max 7 (u16 (ps + 8)) /\
    load_range m (h + 2) (n - 4) = Some body /\
    load16 m (h + n - 2) = Some (is_comm_fletcher16 0 body).

Definition rtcm3_frame_at (n : Z) : Prop :=
  exists len body,
    getBitsAsUInt32 m h 14 10 = Some len /\ n = len + 6 /\
    n <= MAX_MSG_LENGTH_RTCM /\ n <= u32 (bsz - 6) /\
    load_range m h (n - 3) = Some body /\
    getBitsAsUInt32 m (h + n - 3) 0 24 = Some (calculate24BitCRCQ body).

Definition spartn_frame_at (n : Z) : Prop :=
  exists h1 h2 h3 h4 x,
    load m (h + 1) = Some h1 /\ load m (h + 2) = Some h2 /\
    load m (h + 3) = Some h3 /\ load m (h + 4) = Some h4 /\
    Z.land h3 0x0F = computeCrc4Ccitt [h1; h2; Z.land h3 0xF0] /\
    load m (h + spartn_last_hdr h3 h4) = Some x /\ n = spartn_len h1 h2 h3 h4 x.

Definition sony_frame_at (n : Z) : Prop :=
  exists hdr ds data,
    load_range m h 4 = Some hdr /\ load m (h + 4) = Some (sum8 hdr) /\
    load16 m (h + 1) = Some ds /\ ds <= MAX_MSG_LENGTH_SONY /\ ds <= bsz /\ n = ds + 6 /\
    load_range m (h + 5) ds = Some data /\ load m (h + 5 + ds) = Some (sum8 data).

Definition frame_at (f : pFnProcessPkt) (n : Z) : Prop :=
  load m h = Some (start_byte f) /\
  match f with
  | ProcIsb => isb_frame_at n
  | ProcNmea => nmea_frame_at n
  | ProcUblox => ublox_frame_at n
  | ProcRtcm3 => rtcm3_frame_at n
  | ProcSpartn => spartn_frame_at n
  | ProcSony => sony_frame_at n
  end.

(** ** What the parser has seen *)

(** The parser state [p] in front of the byte [k] of a packet. *)
Definition isb_pinv (k : Z) (p : is_comm_parser_t) : Prop :=
  (p_state p = 1 /\ k = 1) \/
  (load m (h + 1) = Some PSC_ISB_PREAMBLE_BYTE2 /\
   ((p_state p = 2 /\ 2 <= k <= 5) \/
    (exists ps, p_state p = 3 /\ load16 m (h + 4) = Some ps /\ p_size p = ps + 8 /\
     6 <= k < p_size p /\ p_size p <= MAX_MSG_LENGTH_ISB))).

Definition nmea_pinv (k : Z) (p : is_comm_parser_t) : Prop :=
  (p_state p = 1 /\ 1 <= k <= MAX_MSG_LENGTH_NMEA + 1 /\
   forall i, 1 <= i < k -> load m (h + i) <> Some PSC_NMEA_PRE_END_BYTE) \/
  (p_state p = 2 /\ 2 <= k <= MAX_MSG_LENGTH_NMEA + 2 /\
   load m (h + k - 1) = Some PSC_NMEA_PRE_END_BYTE /\
   forall i, 1 <= i < k - 1 -> load m (h + i) <> Some PSC_NMEA_PRE_END_BYTE).

Definition ublox_pinv (k : Z) (p : is_comm_parser_t) : Prop :=
  (p_state p = 1 /\ k = 1) \/
  (load m (h + 1) = Some UBLOX_START_BYTE2 /\
   ((p_state p = 2 /\ 2 <= k <= 5) \/
    (exists ps, p_state p = 3 /\ load16 m (h + 4) = Some ps /\ p_size p = u16 (ps + 8) /\
     6 <= k < Z.max 7 (p_size p)))).

Definition rtcm3_pinv (k : Z) (p : is_comm_parser_t) : Prop :=
  (p_state p = 1 /\ k = 1) \/ (p_state p = 2 /\ k = 2) \/
  (exists len, p_state p = 3 /\ getBitsAsUInt32 m h 14 10 = Some len /\
   p_size p = len + 6 /\ 3 <= k < p_size p /\ p_size p <= MAX_MSG_LENGTH_RTCM /\
   p_size p <= u32 (bsz - 6)).

Definition spartn_crc_ok : Prop :=
  exists h1 h2 h3, load m (h + 1) = Some h1 /\ load m (h + 2) = Some h2 /\
    load m (h + 3) = Some h3 /\
    Z.land h3 0x0F = computeCrc4Ccitt [h1; h2; Z.land h3 0xF0].

Definition spartn_pinv (k : Z) (p : is_comm_parser_t) : Prop :=
  (p_state p = k /\ 1 <= k <= 3) \/
  (spartn_crc_ok /\
   ((p_state p = k /\ 4 <= k <= 7) \/
    (exists h3 h4, p_state p = k /\ load m (h + 3) = Some h3 /\ load m (h + 4) = Some h4 /\
     7 <= k <= spartn_last_hdr h3 h4) \/
    (exists n, spartn_frame_at n /\ p_state p = k - n /\ 8 <= k < n /\
     forall h3 h4, load m (h + 3) = Some h3 -> load m (h + 4) = Some h4 ->
     spartn_last_hdr h3 h4 < k))).

Definition sony_pinv (k : Z) (p : is_comm_parser_t) : Prop :=
  (p_state p = 1 /\ 1 <= k <= 4) \/
  (exists hdr ds, p_state p = 2 /\ load_range m h 4 = Some hdr /\
   load m (h + 4) = Some (sum8 hdr) /\ load16 m (h + 1) = Some ds /\
   ds <= MAX_MSG_LENGTH_SONY /\ ds <= bsz /\ p_size p = ds + 6 /\ 5 <= k < p_size p).

Definition pinv (f : pFnProcessPkt) (k : Z) (p : is_comm_parser_t) : Prop :=
  load m h = Some (start_byte f) /\
  match f with
  | ProcIsb => isb_pinv k p
  | ProcNmea => nmea_pinv k p
  | ProcUblox => ublox_pinv k p
  | ProcRtcm3 => rtcm3_pinv k p
  | ProcSpartn => spartn_pinv k p
  | ProcSony => sony_pinv k p
  end.

(** The header of an ISB packet does not announce a payload whose packet size
    overflows the 16-bit size of the parser, and a GET packet has the payload bytes
    its handler reads. *)
Definition isb_header_ok : Prop :=
  load m h = Some PSC_ISB_PREAMBLE_BYTE1 -> load m (h + 1) = Some PSC_ISB_PREAMBLE_BYTE2 ->
  forall flags ps, load m (h + 2) = Some flags -> load16 m (h + 4) = Some ps ->
  ps < 65528 /\ (Z.land flags PKT_TYPE_MASK = PKT_TYPE_GET_DATA -> 2 <= ps).
End Frames.
