(* ===== verification/CommStep.v ===== *)
(** * One byte of a packet

    Each packet function, called on the byte behind what the parser has seen, either
    goes on, or reports an error because no packet of its protocol is there, or
    delivers exactly the packet that ends with the byte. *)

From S2P Require Import Prelude Checksum Nmea CommTypes CommRx CommFrames.
From Stdlib Require Import String.

(** The result of delivering the packet of [n] bytes at [h]. *)
Definition delivered (f : pFnProcessPkt) (m : region) (c : is_comm_instance_t) (h n : Z)
    (r : protocol_type_t) (c' : is_comm_instance_t) : Prop :=
  match f with
  | ProcIsb => exists ps ck, load16 m (h + 4) = Some ps /\ load16 m (h + 6 + ps) = Some ck /\
      p_size (parser c) = n /\ isb_packet m c h ps n ck = Some (r, c')
  | ProcNmea => exists id, getNmeaMsgId m h n = Some id /\
      r = PTYPE_NMEA /\ c' = validPacketFound c n n id
  | ProcUblox => exists id ps, load m (h + 2) = Some id /\ load16 m (h + 4) = Some ps /\
      r = PTYPE_UBLOX /\ c' = validPacketFound c n (u16 (ps + 8)) id
  | ProcRtcm3 => exists id, RTCM3_MSG_ID m h = Some id /\
      r = PTYPE_RTCM3 /\ c' = validPacketFound c n n id
  | ProcSpartn => r = PTYPE_SPARTN /\ c' = validPacketFound c n n 0
  | ProcSony => exists id, load m (h + 3) = Some id /\
      r = PTYPE_SONY /\ c' = validPacketFound c n n id
  end.

Section Step.
Context (m : region) (c : is_comm_instance_t).
#[local] Abbreviation h := (head (rxBuf c)).
#[local] Abbreviation k := (scan (rxBuf c) - head (rxBuf c)).
#[local] Abbreviation bsz := (buf_size (rxBuf c)).

Definition step_more (f : pFnProcessPkt) (r : protocol_type_t) (c' : is_comm_instance_t) : Prop :=
  exists p, c' = set_parser p c /\ r = PTYPE_NONE /\ pinv m bsz h f (k + 1) p /\
    forall n, frame_at m bsz h f n -> k < n -> k + 1 < n.

Definition step_error (f : pFnProcessPkt) (r : protocol_type_t) (c' : is_comm_instance_t) : Prop :=
  exists p e, reportParseError (is_comm_reset_parser (set_parser p c)) e = (r, c') /\
    forall n, frame_at m bsz h f n -> ~ k < n.

Definition step_done (f : pFnProcessPkt) (r : protocol_type_t) (c' : is_comm_instance_t) : Prop :=
  exists p, frame_at m bsz h f (k + 1) /\
    (forall n, frame_at m bsz h f n -> k < n -> n = k + 1) /\
    delivered f m (set_parser p c) h (k + 1) r c'.

Definition step_ok (f : pFnProcessPkt) (res : result) : Prop :=
  exists r c', res = Some (r, c') /\
    (step_more f r c' \/ step_error f r c' \/ step_done f r c').

Lemma step_more_intro f p :
  pinv m bsz h f (k + 1) p ->
  (forall n, frame_at m bsz h f n -> k < n -> k + 1 < n) ->
  step_ok f (Some (PTYPE_NONE, set_parser p c)).
Proof. intros H1 H2. eexists _, _. split; [done|]. left. by exists p. Qed.

Lemma step_error_intro f p e :
  (forall n, frame_at m bsz h f n -> ~ k < n) ->
  step_ok f (parseErrorResetState (set_parser p c) e).
Proof.
  intros H. unfold step_ok, parseErrorResetState.
  destruct (reportParseError _ _) as [r c'] eqn:E. eexists r, c'. split; [done|].
  right. left. by exists p, e.
Qed.

Lemma set_parser_id : set_parser (parser c) c = c.
Proof. by destruct c. Qed.

Lemma step_error_same f e :
  (forall n, frame_at m bsz h f n -> ~ k < n) -> step_ok f (parseErrorResetState c e).
Proof. pose proof (step_error_intro f (parser c) e) as P. by rewrite set_parser_id in P. Qed.

Lemma step_more_same f :
  pinv m bsz h f (k + 1) (parser c) ->
  (forall n, frame_at m bsz h f n -> k < n -> k + 1 < n) ->
  step_ok f (Some (PTYPE_NONE, c)).
Proof. pose proof (step_more_intro f (parser c)) as P. by rewrite set_parser_id in P. Qed.

Lemma step_done_intro f p r c' :
  frame_at m bsz h f (k + 1) ->
  (forall n, frame_at m bsz h f n -> k < n -> n = k + 1) ->
  delivered f m (set_parser p c) h (k + 1) r c' ->
  step_ok f (Some (r, c')).
Proof. intros. eexists _, _. split; [done|]. right. right. by exists p. Qed.

Context (Hh : valid m h) (Hs : valid m (scan (rxBuf c))).

Lemma valid_upto a : h <= a <= scan (rxBuf c) -> valid m a.
Proof. unfold valid in *. lia. Qed.

End Step.

(** Name the value of a read that is known to be inside the memory. *)
Ltac use_load H :=
  let x := fresh "x" in let Hx := fresh "Hx" in let Bx := fresh "Bx" in
  destruct H as (x & Hx & Bx); rewrite Hx; cbn [mbind option_bind].

(** Two values of the same read agree. *)
Ltac same_load :=
  repeat match goal with
  | H1 : ?t = Some ?x, H2 : ?t = Some ?y |- _ =>
      assert (y = x) by congruence; clear H2; subst y
  end.

Section Isb.
Context (m : region) (c : is_comm_instance_t).
#[local] Abbreviation h := (head (rxBuf c)).
#[local] Abbreviation k := (scan (rxBuf c) - head (rxBuf c)).
#[local] Abbreviation bsz := (buf_size (rxBuf c)).
Context (Hm : mem_ok m) (Hh : valid m h) (Hs : valid m (scan (rxBuf c))) (Hk : 1 <= k).

Lemma isb_packet_total c0 ps ck n :
  load16 m (h + 4) = Some ps -> n = ps + 8 -> n = k + 1 ->
  (forall flags, load m (h + 2) = Some flags ->
   Z.land flags PKT_TYPE_MASK = PKT_TYPE_GET_DATA -> 2 <= ps) ->
  is_Some (isb_packet m c0 h ps n ck).
Proof.
  intros Hps -> Hn Hget. pose proof (load16_range m Hm _ _ Hps).
  unfold isb_packet, sizeof_packet_hdr_t.
  pose proof (load16_valid m Hm h) as H0. destruct H0 as (pre & -> & _);
    [by apply (valid_upto m c Hh Hs); lia..|]. cbn [mbind option_bind].
  destruct (load_valid m Hm (h + 2)) as (flags & Hfl & _); [by apply (valid_upto m c Hh Hs); lia|].
  rewrite Hfl. cbn [mbind option_bind].
  destruct (load_valid m Hm (h + 3)) as (id & -> & _); [by apply (valid_upto m c Hh Hs); lia|].
  cbn [mbind option_bind].
  destruct (load16_valid m Hm (h + 6)) as (off & Hoff & _); [by apply (valid_upto m c Hh Hs); lia..|].
  match goal with |- is_Some (mbind _ ?t) => assert (exists q, t = Some q) as [[[[size ptr] o] hs] ->] end.
  { destruct (negb _); [rewrite Hoff; cbn|]; by eexists. }
  cbn [mbind option_bind].
  destruct (_ || _); [destruct (_ <=? _); by eexists|].
  destruct (Z.eqb_spec (Z.land flags PKT_TYPE_MASK) PKT_TYPE_GET_DATA) as [E|].
  - specialize (Hget _ Hfl E).
    destruct (load16_valid m Hm (h + 6 + 2)) as (g & -> & _); [by apply (valid_upto m c Hh Hs); lia..|].
    cbn [mbind option_bind]. destruct (_ <=? _); by eexists.
  - destruct (_ || _); [by eexists|]. destruct (_ || _); by eexists.
Qed.

Lemma isb_step :
  (5 <= k -> isb_header_ok m h) -> pinv m bsz h ProcIsb k (parser c) ->
  step_ok m c ProcIsb (processIsbPkt m c).
Proof.
  intros Hok [H0 Hp]. unfold processIsbPkt, next_state.
  destruct Hp as [[E Ek]|[H1 [[E Ek]|(ps & E & Hps & Hsz & Hkn & Hmax)]]];
    rewrite E; cbn [Z.eqb Pos.eqb].
  - use_load (load_valid m Hm _ Hs).
    replace (scan (rxBuf c)) with (h + 1) in Hx by lia.
    destruct (Z.eqb_spec x PSC_ISB_PREAMBLE_BYTE2) as [->|Hne].
    + apply step_more_intro.
      * split; [done|]. right. split; [done|]. left. split; [done|lia].
      * intros n [_ (ps & body & _ & Hps & -> & _)] Hn.
        pose proof (load16_range m Hm _ _ Hps). lia.
    + apply step_error_same. intros n [_ (ps & body & H1 & _)] _. congruence.
  - unfold sizeof_packet_hdr_t. destruct (Z.ltb_spec k (6 - 1)).
    { apply step_more_same.
      - split; [done|]. right. split; [done|]. left. split; [done|lia].
      - intros n [_ (ps & body & _ & Hps & -> & _)] Hn.
        pose proof (load16_range m Hm _ _ Hps). lia. }
    destruct (load16_valid m Hm (h + 4)) as (ps & Hps & Hr);
      [apply (valid_upto m c Hh Hs); lia..|].
    destruct (load_valid m Hm (h + 2)) as (fl & Hfl & _);
      [apply (valid_upto m c Hh Hs); lia|].
    destruct (Hok ltac:(lia) H0 H1 fl ps Hfl Hps) as [Hlt _].
    rewrite Hps. cbn [mbind option_bind set_size set_state set_parser parser p_state p_size p_timeMs].
    assert (u16 (6 + ps + 2) = ps + 8) as -> by (unfold u16; zlia).
    destruct (Z.ltb_spec MAX_MSG_LENGTH_ISB (ps + 8)).
    + apply (step_error_intro m c ProcIsb (Parser _ _ _)).
      intros n [_ (ps' & body & _ & Hps' & -> & ? & _)] _. same_load. lia.
    + apply (step_more_intro m c ProcIsb (Parser _ _ _)).
      * split; [done|]. right. split; [done|]. right. exists ps.
        repeat split; try done; cbn; lia.
      * intros n [_ (ps' & body & _ & Hps' & -> & _)] _. same_load. lia.
  - destruct (Z.ltb_spec (k + 1) (p_size (parser c))).
    { apply step_more_same.
      - split; [done|]. right. split; [done|]. right. exists ps. repeat split; try done; lia.
      - intros n [_ (ps' & body & _ & Hps' & -> & _)] _. same_load. lia. }
    pose proof (load16_range m Hm _ _ Hps).
    rewrite Hps. cbn [mbind option_bind]. unfold sizeof_packet_hdr_t.
    destruct (load_range_valid m Hm h (p_size (parser c) - 2)) as (body & Hbody & _);
      [lia|right; split; apply (valid_upto m c Hh Hs); lia|].
    destruct (load16_valid m Hm (h + 6 + ps)) as (ck & Hck & _);
      [apply (valid_upto m c Hh Hs); lia..|].
    rewrite Hbody. cbn [mbind option_bind]. rewrite Hck. cbn [mbind option_bind].
    destruct (Z.eqb_spec ck (is_comm_isb_checksum16 0 body)) as [->|Hne]; cbn [negb].
    + destruct (load_valid m Hm (h + 2)) as (fl & Hfl & _);
        [apply (valid_upto m c Hh Hs); lia|].
      destruct (Hok ltac:(lia) H0 H1 fl ps Hfl Hps) as [_ Hget].
      destruct (isb_packet_total (set_state 0 c) ps
        (is_comm_isb_checksum16 0 body) (k + 1) Hps) as [[r c'] Hres];
        [lia|lia|intros; simplify_eq; auto|].
      rewrite Hres.
      apply (step_done_intro m c ProcIsb (parser (set_state 0 c))).
      * split; [done|]. exists ps, body. repeat split; try done; try lia.
        by replace (k + 1 - 2) with (p_size (parser c) - 2) by lia.
      * intros n [_ (ps' & body' & _ & Hps' & -> & _)] _. same_load. lia.
      * exists ps, (is_comm_isb_checksum16 0 body).
        repeat split; [done|done|cbn|exact Hres]. lia.
    + apply step_error_intro.
      intros n [_ (ps' & body' & _ & Hps' & Hn & _ & Hb' & Hck')] _. same_load.
      subst n. replace (ps + 8 - 2) with (p_size (parser c) - 2) in Hb' by lia. congruence.
Qed.
End Isb.

(** ** NMEA sentences *)

Section NmeaTotal.
Context (m : region) (Hm : mem_ok m).

Lemma match_chain_total {A} a (alts : list (string * A)) :
  valid m a -> valid m (a + 3) -> is_Some (match_chain m a alts).
Proof.
  intros H0 H1. induction alts as [|[s r] alts IH]; [by eexists|]. cbn [match_chain].
  unfold UINT32_MATCH.
  destruct (load_range_valid m Hm a 4) as (l & -> & _);
    [lia|right; replace (a + 4 - 1) with (a + 3) by lia; done|].
  cbn [mbind option_bind]. destruct (bool_decide _); [by eexists|done].
Qed.

Lemma decodeGSV_loop_total n a i aSize num :
  (forall j, i <= j < aSize -> valid m (a + j)) ->
  is_Some (decodeGSV_loop n m a i aSize num).
Proof.
  revert i num. induction n as [|n IH]; intros i num H; [by eexists|]. cbn [decodeGSV_loop].
  destruct (Z.ltb_spec i aSize); [|by eexists].
  destruct (load_valid m Hm (a + i)) as (x & -> & _); [apply H; lia|].
  cbn [mbind option_bind].
  repeat match goal with |- context [if ?b then _ else _] => destruct b end;
    try (apply IH; intros; apply H; lia); by eexists.
Qed.

Lemma decodeGSV_total a aSize :
  7 <= aSize -> (forall j, 0 <= j < aSize -> valid m (a + j)) ->
  is_Some (decodeGSV m a aSize).
Proof.
  intros Hn H. unfold decodeGSV. destruct (_ || _); [by eexists|].
  destruct (load_valid m Hm (a + 1)) as (x & -> & _); [apply H; lia|].
  destruct (load_valid m Hm (a + 5)) as (y & -> & _); [apply H; lia|].
  cbn [mbind option_bind]. destruct (decodeGSV_constellation x); [|by eexists].
  destruct (_ || _); [by eexists|]. apply decodeGSV_loop_total. intros; apply H; lia.
Qed.

Lemma getNmeaMsgId_total msg n :
  8 <= n -> (forall j, 0 <= j < n -> valid m (msg + j)) -> is_Some (getNmeaMsgId m msg n).
Proof.
  intros Hn H. unfold getNmeaMsgId. destruct (n <? 5); [by eexists|].
  destruct (load_valid m Hm (msg + 1)) as (x & -> & _); [apply H; lia|].
  cbn [mbind option_bind]. destruct (nmea_alts x) as [d alts] eqn:E.
  assert (d = 0 \/ d = 2) as Hd.
  { unfold nmea_alts in E. repeat match type of E with (if ?b then _ else _) = _ =>
      destruct b end; injection E as <- <-; auto. }
  destruct (match_chain_total (msg + 1 + d) alts) as [alt ->].
  { rewrite <- Z.add_assoc. apply H. lia. }
  { rewrite <- !Z.add_assoc. apply H. lia. }
  cbn [mbind option_bind]. destruct alt as [[id| |]|]; [by eexists| | |by eexists].
  - apply decodeGSV_total; [lia|]. intros. rewrite <- Z.add_assoc. apply H. lia.
  - destruct (load_valid m Hm (msg + 5)) as (y & -> & _); [apply H; lia|]. by eexists.
Qed.
End NmeaTotal.

Section NmeaStep.
Context (m : region) (c : is_comm_instance_t).
#[local] Abbreviation h := (head (rxBuf c)).
#[local] Abbreviation k := (scan (rxBuf c) - head (rxBuf c)).
#[local] Abbreviation bsz := (buf_size (rxBuf c)).
Context (Hm : mem_ok m) (Hh : valid m h) (Hs : valid m (scan (rxBuf c))) (Hk : 1 <= k).

Lemma nmea_end_step :
  load m h = Some PSC_NMEA_START_BYTE -> 2 <= k <= MAX_MSG_LENGTH_NMEA + 2 ->
  load m (h + k - 1) = Some PSC_NMEA_PRE_END_BYTE ->
  (forall i, 1 <= i < k - 1 -> load m (h + i) <> Some PSC_NMEA_PRE_END_BYTE) ->
  step_ok m c ProcNmea (processNmeaPkt_end m c).
Proof.
  intros H0 Hk2 Hcr Hno. unfold processNmeaPkt_end.
  assert (forall n, frame_at m bsz h ProcNmea n -> k < n -> n = k + 1) as Huniq.
  { intros n [_ (dg & body & Hn & Hno' & _)] Hkn.
    destruct (decide (k - 1 < n - 2)); [|lia].
    exfalso. apply (Hno' (k - 1)); [lia|].
    by replace (h + (k - 1)) with (h + k - 1) by lia. }
  destruct (Z.ltb_spec (k + 1) 8).
  { apply step_error_intro. intros n Hf Hkn. pose proof (Huniq n Hf Hkn).
    destruct Hf as [_ (dg & body & Hn & _)]. lia. }
  destruct (load_valid m Hm (scan (rxBuf c) - 1)) as (x1 & -> & _);
    [apply (valid_upto m c Hh Hs); lia|].
  cbn [mbind option_bind].
  destruct (load_range_valid m Hm (scan (rxBuf c) - 3) 2) as (dg & Hdg & _);
    [lia|right; split; apply (valid_upto m c Hh Hs); lia|].
  rewrite Hdg. cbn [mbind option_bind].
  destruct (load_range_valid m Hm (h + 1) (scan (rxBuf c) - 4 - (h + 1))) as (body & Hb & _);
    [lia|right; split; apply (valid_upto m c Hh Hs); lia|].
  rewrite Hb. cbn [mbind option_bind].
  replace (scan (rxBuf c) - 3) with (h + (k + 1) - 4) in Hdg by lia.
  replace (scan (rxBuf c) - 4 - (h + 1)) with (k + 1 - 6) in Hb by lia.
  destruct (Z.eqb_spec (strtol16 dg) (fold_left Z.lxor body 0)) as [E|Hne]; cbn [negb].
  - destruct (getNmeaMsgId_total m Hm h (k + 1)) as [id Hid];
      [lia|intros; apply (valid_upto m c Hh Hs); lia|].
    rewrite Hid. cbn [mbind option_bind].
    apply (step_done_intro m c ProcNmea (parser (set_state 0 c))).
    + split; [done|]. exists dg, body. repeat split; try done; try lia.
      * intros i Hi. apply Hno. lia.
      * by replace (h + (k + 1) - 2) with (h + k - 1) by lia.
    + exact Huniq.
    + by exists id.
  - apply step_error_intro. intros n Hf Hkn. pose proof (Huniq n Hf Hkn). subst n.
    destruct Hf as [_ (dg' & body' & _ & _ & _ & Hdg' & Hb' & E)]. congruence.
Qed.

Lemma nmea_step :
  pinv m bsz h ProcNmea k (parser c) -> step_ok m c ProcNmea (processNmeaPkt m c).
Proof.
  intros [H0 Hp]. unfold processNmeaPkt, next_state.
  destruct Hp as [(E & Hk2 & Hno)|(E & Hk2 & Hcr & Hno)]; rewrite E; cbn [Z.eqb Pos.eqb];
    [|by apply nmea_end_step].
  destruct (load_valid m Hm _ Hs) as (x & Hx & _). rewrite Hx. cbn [mbind option_bind].
  assert (scan (rxBuf c) = h + k) as Ehk by lia. rewrite Ehk in Hx.
  assert (forall n, frame_at m bsz h ProcNmea n -> k < n -> k + 1 < n) as Hmore.
  { intros n [_ (dg & body & Hn & _ & Hcr & _)] Hkn.
    destruct (decide (n = k + 1)) as [->|]; [|lia].
    exfalso. apply (Hno (k - 1)); [lia|].
    by replace (h + (k - 1)) with (h + (k + 1) - 2) by lia. }
  assert (forall i, x <> PSC_NMEA_PRE_END_BYTE -> 1 <= i < k + 1 ->
    load m (h + i) <> Some PSC_NMEA_PRE_END_BYTE) as Hno'.
  { intros i Hne Hi. destruct (decide (i = k)) as [->|]; [congruence|apply Hno; lia]. }
  destruct (Z.eqb_spec x PSC_NMEA_PRE_END_BYTE) as [->|Hne].
  - apply step_more_intro; [|exact Hmore]. split; [done|]. right. split; [done|].
    split; [lia|]. split.
    + by replace (h + (k + 1) - 1) with (h + k) by lia.
    + intros i Hi. apply Hno. lia.
  - destruct (Z.ltb_spec MAX_MSG_LENGTH_NMEA k).
    + apply step_error_same. intros n [_ (dg & body & Hn & _ & Hcr & _)] Hkn.
      destruct (decide (n - 2 <= k)); [|lia].
      apply (Hno' (n - 2)); [done|lia|].
      by replace (h + (n - 2)) with (h + n - 2) by lia.
    + apply step_more_same; [|exact Hmore]. split; [done|]. left. split; [done|].
      split; [lia|]. intros i Hi. by apply Hno'.
Qed.
End NmeaStep.

(** ** u-blox, RTCM3 and Sony packets *)

Section BinStep.
Context (m : region) (c : is_comm_instance_t).
#[local] Abbreviation h := (head (rxBuf c)).
#[local] Abbreviation k := (scan (rxBuf c) - head (rxBuf c)).
#[local] Abbreviation bsz := (buf_size (rxBuf c)).
Context (Hm : mem_ok m) (Hh : valid m h) (Hs : valid m (scan (rxBuf c))) (Hk : 1 <= k).
Context (Hbig : k < 4294967296).

Lemma ublox_step :
  pinv m bsz h ProcUblox k (parser c) -> step_ok m c ProcUblox (processUbloxPkt m c).
Proof.
  intros [H0 Hp]. unfold processUbloxPkt, next_state.
  destruct Hp as [[E Ek]|[H1 [[E Ek]|(ps & E & Hps & Hsz & Hkn)]]];
    rewrite E; cbn [Z.eqb Pos.eqb].
  - use_load (load_valid m Hm _ Hs).
    replace (scan (rxBuf c)) with (h + 1) in Hx by lia.
    destruct (Z.eqb_spec x UBLOX_START_BYTE2) as [->|Hne].
    + apply step_more_intro.
      * split; [done|]. right. split; [done|]. left. split; [done|lia].
      * intros n [_ (ps & body & _ & _ & -> & _)] Hn. lia.
    + apply step_error_same. intros n [_ (ps & body & H1 & _)] _. congruence.
  - unfold sizeof_ubx_pkt_hdr_t. destruct (Z.ltb_spec k (6 - 1)).
    { apply step_more_same.
      - split; [done|]. right. split; [done|]. left. split; [done|lia].
      - intros n [_ (ps & body & _ & _ & -> & _)] Hn. lia. }
    destruct (load16_valid m Hm (h + 4)) as (ps & Hps & Hr);
      [apply (valid_upto m c Hh Hs); lia..|].
    rewrite Hps. cbn [mbind option_bind].
    apply (step_more_intro m c ProcUblox (Parser _ _ _)).
    + split; [done|]. right. split; [done|]. right. exists ps.
      replace (6 + ps + 2) with (ps + 8) by lia. cbn. rewrite E. repeat split; try done; lia.
    + intros n [_ (ps' & body & _ & _ & -> & _)] _. lia.
  - destruct (Z.ltb_spec (k + 1) (p_size (parser c))).
    { apply step_more_same.
      - split; [done|]. right. split; [done|]. right. exists ps. repeat split; try done; lia.
      - intros n [_ (ps' & body & _ & Hps' & -> & _)] _. same_load. lia. }
    assert (k + 1 = Z.max 7 (p_size (parser c))) as Hend by lia.
    destruct (load16_valid m Hm (scan (rxBuf c) - 1)) as (ck & Hck & _);
      [apply (valid_upto m c Hh Hs); lia..|].
    rewrite Hck. cbn [mbind option_bind].
    replace (u32 (scan (rxBuf c) - 1 - (h + 2))) with (k + 1 - 4)
      by (unfold u32; rewrite Z.mod_small; lia).
    destruct (load_range_valid m Hm (h + 2) (k + 1 - 4)) as (body & Hbody & _);
      [lia|right; split; apply (valid_upto m c Hh Hs); lia|].
    rewrite Hbody. cbn [mbind option_bind].
    replace (scan (rxBuf c) - 1) with (h + (k + 1) - 2) in Hck by lia.
    destruct (Z.eqb_spec ck (is_comm_fletcher16 0 body)) as [->|Hne]; cbn [negb].
    + destruct (load_valid m Hm (h + 2)) as (id & Hid & _);
        [apply (valid_upto m c Hh Hs); lia|].
      rewrite Hid. cbn [mbind option_bind].
      apply (step_done_intro m c ProcUblox (parser (set_state 0 c))).
      * split; [done|]. exists ps, body. repeat split; try done; lia.
      * intros n [_ (ps' & body' & _ & Hps' & -> & _)] _. same_load. lia.
      * exists id, ps. by rewrite <- Hsz.
    + apply step_error_intro.
      intros n [_ (ps' & body' & _ & Hps' & Hn & Hb' & Hck')] _. same_load.
      assert (n = k + 1) by lia. subst n. congruence.
Qed.

Lemma rtcm3_step :
  pinv m bsz h ProcRtcm3 k (parser c) -> step_ok m c ProcRtcm3 (processRtcm3Pkt m c).
Proof.
  intros [H0 Hp]. unfold processRtcm3Pkt, next_state.
  assert (forall n, frame_at m bsz h ProcRtcm3 n -> 5 < n) as Hmin.
  { intros n [_ (len & body & Hlen & -> & _)]. apply getBits_nonneg in Hlen. lia. }
  destruct Hp as [[E Ek]|[[E Ek]|(len & E & Hlen & Hsz & Hkn & Hmax & Hbuf)]];
    rewrite E; cbn [Z.eqb Pos.eqb].
  - apply step_more_intro.
    + split; [done|]. right. left. split; [done|lia].
    + intros n Hf%Hmin. lia.
  - destruct (getBits_valid m h 14 10) as (len & Hlen & Hr);
      [lia|lia|change (14 / 8) with 1; apply (valid_upto m c Hh Hs); lia
      |right; change ((14 + 10 - 1) / 8) with 2; apply (valid_upto m c Hh Hs); lia|].
    change (2 ^ 10) with 1024 in Hr.
    rewrite Hlen. cbn [mbind option_bind set_size set_state set_parser parser p_state p_size p_timeMs].
    assert (u16 (len + 6) = len + 6) as -> by (unfold u16; rewrite Z.mod_small; lia).
    destruct (Z.ltb_spec MAX_MSG_LENGTH_RTCM (len + 6));
      [|destruct (Z.ltb_spec (u32 (bsz - 6)) (len + 6))]; cbn [orb].
    1-2: apply (step_error_intro m c ProcRtcm3 (Parser _ _ _));
      intros n [_ (len' & body & Hlen' & -> & ? & ? & _)] _; same_load; lia.
    apply (step_more_intro m c ProcRtcm3 (Parser _ _ _)).
    + split; [done|]. right. right. exists len. cbn. rewrite E. repeat split; try done; lia.
    + intros n Hf%Hmin. lia.
  - destruct (Z.ltb_spec (k + 1) (p_size (parser c))).
    { apply step_more_same.
      - split; [done|]. right. right. exists len. repeat split; try done; lia.
      - intros n [_ (len' & body & Hlen' & -> & _)] _. same_load. lia. }
    assert (k + 1 = p_size (parser c)) as Hend by lia.
    pose proof (getBits_nonneg _ _ _ _ _ Hlen).
    destruct (load_range_valid m Hm h (p_size (parser c) - 3)) as (body & Hbody & _);
      [lia|right; split; apply (valid_upto m c Hh Hs); lia|].
    rewrite Hbody. cbn [mbind option_bind].
    destruct (getBits_valid m (h + (p_size (parser c) - 3)) 0 24) as (crc & Hcrc & _);
      [lia|lia|change (0 / 8) with 0; apply (valid_upto m c Hh Hs); lia
      |right; change ((0 + 24 - 1) / 8) with 2; apply (valid_upto m c Hh Hs); lia|].
    rewrite Hcrc. cbn [mbind option_bind].
    replace (h + (p_size (parser c) - 3)) with (h + (k + 1) - 3) in Hcrc by lia.
    rewrite <- Hend in Hbody.
    destruct (Z.eqb_spec (calculate24BitCRCQ body) crc) as [<-|Hne]; cbn [negb].
    + destruct (getBits_valid m h 24 12) as (id & Hid & _);
        [lia|lia|change (24 / 8) with 3; apply (valid_upto m c Hh Hs); lia
        |right; change ((24 + 12 - 1) / 8) with 4; apply (valid_upto m c Hh Hs); lia|].
      assert (RTCM3_MSG_ID m h = Some id) as Hid' by exact Hid.
      rewrite Hid'. cbn [mbind option_bind].
      apply (step_done_intro m c ProcRtcm3 (parser (set_state 0 c))).
      * split; [done|]. exists len, body. repeat split; try done; lia.
      * intros n [_ (len' & body' & Hlen' & -> & _)] _. same_load. lia.
      * exists id. by rewrite <- Hend.
    + apply step_error_intro.
      intros n [_ (len' & body' & Hlen' & Hn & _ & _ & Hb' & Hck')] _. same_load.
      assert (n = k + 1) by lia. subst n. congruence.
Qed.

Lemma sony_step :
  pinv m bsz h ProcSony k (parser c) -> step_ok m c ProcSony (processSonyByte m c).
Proof.
  intros [H0 Hp]. unfold processSonyByte, next_state.
  assert (forall n, frame_at m bsz h ProcSony n -> 5 < n) as Hmin.
  { intros n [_ (hdr & ds & data & _ & _ & Hds & _ & _ & -> & _)].
    apply (load16_range m Hm) in Hds. lia. }
  destruct Hp as [[E Ek]|(hdr & ds & E & Hhdr & Hfc & Hds & Hmax & Hbuf & Hsz & Hkn)];
    rewrite E; cbn [Z.eqb Pos.eqb].
  - unfold sizeof_sony_pkt_hdr_t. destruct (Z.ltb_spec k (5 - 1)).
    { apply step_more_same.
      - split; [done|]. left. split; [done|lia].
      - intros n Hf%Hmin. lia. }
    destruct (load_range_valid m Hm h 4) as (hdr & Hhdr & _);
      [lia|right; split; apply (valid_upto m c Hh Hs); lia|].
    rewrite Hhdr. cbn [mbind option_bind].
    destruct (load_valid m Hm (h + 4)) as (fc & Hfc & _);
      [apply (valid_upto m c Hh Hs); lia|].
    rewrite Hfc. cbn [mbind option_bind].
    destruct (load16_valid m Hm (h + 1)) as (ds & Hds & Hr);
      [apply (valid_upto m c Hh Hs); lia..|].
    rewrite Hds. cbn [mbind option_bind].
    destruct (Z.eqb_spec (sum8 hdr) fc) as [<-|Hne];
      [destruct (Z.ltb_spec MAX_MSG_LENGTH_SONY ds);
       [|destruct (Z.ltb_spec bsz ds)]|]; cbn [orb negb].
    1,2,4: apply step_error_same;
      intros n [_ (hdr' & ds' & data & Hhdr' & Hfc' & Hds' & ? & ? & _)] _;
      same_load; (lia || congruence).
    apply (step_more_intro m c ProcSony (Parser _ _ _)).
    + split; [done|]. right. exists hdr, ds. cbn. rewrite E.
      repeat split; try done; unfold MAX_MSG_LENGTH_SONY, u16 in *; rewrite ?Z.mod_small; lia.
    + intros n Hf%Hmin. lia.
  - destruct (Z.ltb_spec (k + 1) (p_size (parser c))).
    { apply step_more_same.
      - split; [done|]. right. exists hdr, ds. repeat split; try done; lia.
      - intros n [_ (hdr' & ds' & data & _ & _ & Hds' & _ & _ & -> & _)] _. same_load. lia. }
    assert (k + 1 = p_size (parser c)) as Hend by lia.
    pose proof (load16_range m Hm _ _ Hds).
    rewrite Hds. cbn [mbind option_bind]. unfold sizeof_sony_pkt_hdr_t.
    destruct (load_range_valid m Hm (h + 5) ds) as (data & Hdata & _);
      [lia|destruct (decide (ds = 0)); [by left|right; split; apply (valid_upto m c Hh Hs); lia]|].
    rewrite Hdata. cbn [mbind option_bind].
    destruct (load_valid m Hm (scan (rxBuf c)) Hs) as (x & Hx & _). rewrite Hx.
    cbn [mbind option_bind]. replace (scan (rxBuf c)) with (h + 5 + ds) in Hx by lia.
    destruct (Z.eqb_spec (sum8 data) x) as [<-|Hne]; cbn [negb].
    + destruct (load_valid m Hm (h + 3)) as (id & Hid & _);
        [apply (valid_upto m c Hh Hs); lia|].
      rewrite Hid. cbn [mbind option_bind].
      apply (step_done_intro m c ProcSony (parser (set_state 0 c))).
      * split; [done|]. exists hdr, ds, data. repeat split; try done; lia.
      * intros n [_ (hdr' & ds' & data' & _ & _ & Hds' & _ & _ & -> & _)] _. same_load. lia.
      * exists id. by rewrite <- Hend.
    + apply step_error_intro.
      intros n [_ (hdr' & ds' & data' & _ & _ & Hds' & _ & _ & _ & Hd' & Hx')] _. same_load.
      congruence.
Qed.
End BinStep.

(** ** SPARTN packets *)

Lemma land_mask_range x n : 0 <= n -> 0 <= Z.land x (Z.ones n) < 2 ^ n.
Proof. intros. rewrite Z.land_ones by lia. apply Z.mod_pos_bound. lia. Qed.

Lemma spartn_payload_len_range h1 h2 h3 : 1 <= spartn_payload_len h1 h2 h3 <= 1027.
Proof.
  unfold spartn_payload_len. change 0x3FF with (Z.ones 10). change 3 with (Z.ones 2).
  match goal with |- _ <= Z.land ?a _ + (Z.land ?b _ + 1) <= _ =>
    pose proof (land_mask_range a 10); pose proof (land_mask_range b 2) end.
  change (2 ^ 10) with 1024 in *. change (2 ^ 2) with 4 in *. lia.
Qed.

Lemma spartn_auth_len_range x : 0 <= spartn_auth_len x <= 64.
Proof.
  unfold spartn_auth_len.
  repeat match goal with |- context [if ?b then _ else _] => destruct b end; lia.
Qed.

Lemma spartn_last_hdr_range h3 h4 : 7 <= spartn_last_hdr h3 h4 <= 11.
Proof. unfold spartn_last_hdr. destruct (negb _), (negb _); lia. Qed.

Lemma spartn_len_range h1 h2 h3 h4 x :
  spartn_last_hdr h3 h4 + 1 < spartn_len h1 h2 h3 h4 x <= 1103.
Proof.
  unfold spartn_len. pose proof (spartn_payload_len_range h1 h2 h3).
  pose proof (spartn_last_hdr_range h3 h4). pose proof (spartn_auth_len_range x).
  destruct (negb _); lia.
Qed.

Lemma s16_small x : -32768 <= x < 32768 -> s16 x = x.
Proof. intros. unfold s16. rewrite Z.mod_small; lia. Qed.

Section SpartnStep.
Context (m : region) (c : is_comm_instance_t).
#[local] Abbreviation h := (head (rxBuf c)).
#[local] Abbreviation k := (scan (rxBuf c) - head (rxBuf c)).
#[local] Abbreviation bsz := (buf_size (rxBuf c)).
Context (Hm : mem_ok m) (Hh : valid m h) (Hs : valid m (scan (rxBuf c))) (Hk : 1 <= k).

Lemma spartn_frame_min n :
  frame_at m bsz h ProcSpartn n ->
  9 <= n /\ forall h3 h4, load m (h + 3) = Some h3 -> load m (h + 4) = Some h4 ->
  spartn_last_hdr h3 h4 + 1 < n.
Proof.
  intros [_ (h1 & h2 & h3 & h4 & x & _ & _ & H3 & H4 & _ & _ & ->)].
  pose proof (spartn_len_range h1 h2 h3 h4 x). pose proof (spartn_last_hdr_range h3 h4).
  split; [lia|]. intros. same_load. lia.
Qed.

Lemma spartn_frame_unique n n' :
  spartn_frame_at m h n -> spartn_frame_at m h n' -> n = n'.
Proof.
  intros (h1 & h2 & h3 & h4 & x & H1 & H2 & H3 & H4 & _ & Hx & ->)
         (h1' & h2' & h3' & h4' & x' & H1' & H2' & H3' & H4' & _ & Hx' & ->).
  same_load. done.
Qed.

(** A header byte from the seventh on. *)
Lemma spartn_header_step h3 h4 :
  load m h = Some SPARTN_START_BYTE -> spartn_crc_ok m h ->
  load m (h + 3) = Some h3 -> load m (h + 4) = Some h4 ->
  p_state (parser c) = k -> 7 <= k <= spartn_last_hdr h3 h4 ->
  step_ok m c ProcSpartn (processSpartnByte m c).
Proof.
  intros H0 Hcrc H3 H4 E Hk7. unfold processSpartnByte, next_state. rewrite E.
  pose proof (spartn_last_hdr_range h3 h4).
  destruct Hcrc as (h1 & h2 & h3' & H1 & H2 & H3' & Hck).
  rewrite H3 in H3'. injection H3' as <-.
  do 7 match goal with |- context [k =? ?j] => rewrite (proj2 (Z.eqb_neq k j)) by lia end.
  cbn [orb]. rewrite (proj2 (Z.leb_le 7 k)), (proj2 (Z.leb_le k 11)) by lia. cbn [andb].
  rewrite H1, H2, H3, H4. cbn [mbind option_bind]. cbv zeta.
  pose proof (spartn_payload_len_range h1 h2 h3) as Hpl.
  assert (u16 (spartn_payload_len h1 h2 h3) = spartn_payload_len h1 h2 h3) as Epl
    by (unfold u16; rewrite Z.mod_small; lia).
  match goal with |- context [u16 (Z.land ?a 0x3FF + ?b)] =>
    change (u16 (Z.land a 0x3FF + b)) with (u16 (spartn_payload_len h1 h2 h3)) end.
  rewrite Epl.
  assert (forall n, frame_at m bsz h ProcSpartn n -> k < n -> k + 1 < n) as Hmore.
  { intros n Hf _. apply spartn_frame_min in Hf as [_ Hf]. specialize (Hf _ _ H3 H4). lia. }
  (* the last header byte: the rest of the packet is known *)
  assert (forall x pl, load m (h + spartn_last_hdr h3 h4) = Some x ->
    k = spartn_last_hdr h3 h4 ->
    pl = spartn_payload_len h1 h2 h3 +
         (if negb (Z.land h3 0x40 =? 0) then spartn_auth_len x else 0) ->
    step_ok m c ProcSpartn (Some (PTYPE_NONE, set_state (s16 (- pl)) c))) as Hlast.
  { intros x pl Hx Elast ->. pose proof (spartn_len_range h1 h2 h3 h4 x) as Hlen.
    unfold spartn_len in Hlen.
    rewrite s16_small by (destruct (negb _); lia).
    apply step_more_intro; [|exact Hmore]. split; [done|]. right.
    split; [by exists h1, h2, h3|]. right. right. exists (spartn_len h1 h2 h3 h4 x).
    split; [by exists h1, h2, h3, h4, x|]. unfold spartn_len. cbn [p_state].
    split; [lia|]. split; [lia|]. intros. same_load. lia. }
  destruct (load_valid m Hm (scan (rxBuf c)) Hs) as (x & Hx & _).
  assert (scan (rxBuf c) = h + k) as Ehk by lia. rewrite Ehk in Hx.
  assert (k <> spartn_last_hdr h3 h4 ->
    step_ok m c ProcSpartn (Some (PTYPE_NONE, set_state (s16 (k + 1)) c))) as Hnext.
  { intros Hne. rewrite s16_small by lia. apply step_more_intro; [|exact Hmore].
    split; [done|]. right. split; [by exists h1, h2, h3|]. right. left. exists h3, h4.
    repeat split; try done; cbn [p_state]; lia. }
  pose proof (spartn_auth_len_range x).
  unfold spartn_last_hdr in *.
  destruct (negb (Z.land h3 64 =? 0)), (negb (Z.land h4 8 =? 0)); cbn [negb andb];
    match goal with |- context [k =? ?j] => destruct (Z.eqb_spec k j) as [Ek|Ek] end;
    try (by apply Hnext); rewrite Ek in Hx; try (apply (Hlast x); [done|done|lia]).
  all: match goal with |- context [load m (h + ?a + 1)] =>
    replace (h + a + 1) with (h + k) by lia end; rewrite Ek, Hx; cbn [mbind option_bind].
  all: replace (u16 (spartn_payload_len h1 h2 h3 + spartn_auth_len x))
    with (spartn_payload_len h1 h2 h3 + spartn_auth_len x)
    by (unfold u16; rewrite Z.mod_small; lia); apply (Hlast x); [done|done|lia].
Qed.

Lemma spartn_step :
  pinv m bsz h ProcSpartn k (parser c) -> step_ok m c ProcSpartn (processSpartnByte m c).
Proof.
  intros [H0 [[E Hk3]|[Hcrc [[E Hk7]|[(h3 & h4 & E & H3 & H4 & Hk11)|(n & Hf & E & Hkn & Hlast)]]]]].
  - unfold processSpartnByte, next_state.
    assert (forall n, frame_at m bsz h ProcSpartn n -> k < n -> k + 1 < n) as Hmore.
    { intros n Hf _. apply spartn_frame_min in Hf as [Hf _]. lia. }
    assert (k = 1 \/ k = 2 \/ k = 3) as [Ek|[Ek|Ek]] by lia;
      rewrite E, Ek; cbn [Z.eqb Pos.eqb orb].
    1-2: apply step_more_intro; [|exact Hmore]; split; [done|]; left; split; [|lia];
      cbn [p_state]; rewrite s16_small; lia.
    destruct (load_valid m Hm (h + 1)) as (h1 & H1 & _); [apply (valid_upto m c Hh Hs); lia|].
    destruct (load_valid m Hm (h + 2)) as (h2 & H2 & _); [apply (valid_upto m c Hh Hs); lia|].
    destruct (load_valid m Hm (h + 3)) as (h3 & H3 & _); [apply (valid_upto m c Hh Hs); lia|].
    rewrite H1, H2, H3. cbn [mbind option_bind].
    destruct (Z.eqb_spec (Z.land h3 15) (computeCrc4Ccitt [h1; h2; Z.land h3 240]))
      as [Hck|Hck]; cbn [negb].
    + apply step_more_intro; [|exact Hmore]. split; [done|]. right.
      split; [by exists h1, h2, h3|]. left. cbn [p_state]. rewrite s16_small by lia. lia.
    + apply step_error_same.
      intros n [_ (h1' & h2' & h3' & h4 & x & H1' & H2' & H3' & _ & Hck' & _)] _.
      congruence.
  - destruct (decide (k = 7)) as [Ek|].
    { destruct (load_valid m Hm (h + 3)) as (h3 & H3 & _); [apply (valid_upto m c Hh Hs); lia|].
      destruct (load_valid m Hm (h + 4)) as (h4 & H4 & _); [apply (valid_upto m c Hh Hs); lia|].
      pose proof (spartn_last_hdr_range h3 h4).
      by apply (spartn_header_step h3 h4); try lia. }
    unfold processSpartnByte, next_state.
    assert (k = 4 \/ k = 5 \/ k = 6) as Ek by lia.
    assert (step_ok m c ProcSpartn (Some (PTYPE_NONE, set_state (s16 (k + 1)) c))) as H.
    { rewrite s16_small by lia. apply step_more_intro.
      - split; [done|]. right. split; [done|]. left. cbn [p_state]. lia.
      - intros n' Hf _. apply spartn_frame_min in Hf as [Hf _]. lia. }
    destruct Ek as [Ek|[Ek|Ek]]; rewrite E, Ek in *; cbn [Z.eqb Pos.eqb orb]; exact H.
  - by apply (spartn_header_step h3 h4).
  - unfold processSpartnByte, next_state. rewrite E.
    assert (9 <= n <= 1103) as Hn.
    { pose proof Hf as (h1 & h2 & h3 & h4 & x & _ & _ & _ & _ & _ & _ & ->).
      pose proof (spartn_len_range h1 h2 h3 h4 x). pose proof (spartn_last_hdr_range h3 h4). lia. }
    do 7 match goal with |- context [k - n =? ?j] =>
      rewrite (proj2 (Z.eqb_neq (k - n) j)) by lia end.
    cbn [orb]. rewrite (proj2 (Z.leb_gt 7 (k - n))) by lia. cbn [andb].
    rewrite s16_small by lia. cbn [set_state set_parser parser p_state].
    destruct (Z.eqb_spec (k - n + 1) 0).
    + apply (step_done_intro m c ProcSpartn (parser (set_state (k - n + 1) c))).
      * split; [done|]. by replace (k + 1) with n by lia.
      * intros n' [_ Hf'] _. rewrite (spartn_frame_unique n' n); [lia|done..].
      * done.
    + rewrite (proj2 (Z.ltb_ge 0 (k - n + 1))) by lia. apply step_more_intro.
      * split; [done|]. right. split; [done|]. right. right. exists n. cbn [p_state].
        split; [done|]. split; [lia|]. split; [lia|].
        intros h3 h4 H3 H4. specialize (Hlast h3 h4 H3 H4). lia.
      * intros n' [_ Hf'] _. rewrite (spartn_frame_unique n' n); [lia|done..].
Qed.
End SpartnStep.

(** ** All protocols *)

Lemma process_step m c f :
  mem_ok m -> valid m (head (rxBuf c)) -> valid m (scan (rxBuf c)) ->
  1 <= scan (rxBuf c) - head (rxBuf c) < 4294967296 ->
  (f = ProcIsb -> 5 <= scan (rxBuf c) - head (rxBuf c) -> isb_header_ok m (head (rxBuf c))) ->
  pinv m (buf_size (rxBuf c)) (head (rxBuf c)) f (scan (rxBuf c) - head (rxBuf c)) (parser c) ->
  step_ok m c f (process f m c).
Proof.
  intros Hm Hh Hs Hk Hok Hp. destruct f; cbn [process].
  - apply isb_step; (done || lia || auto).
  - apply nmea_step; (done || lia).
  - apply ublox_step; (done || lia).
  - apply rtcm3_step; (done || lia).
  - apply spartn_step; (done || lia).
  - apply sony_step; (done || lia).
Qed.
