(* ===== verification/CommParse.v ===== *)
(** * The parse loop

    The invariant of the communications instance, the iterations of the parse loop
    and its termination, and the theorems about what a call of the parser returns:
    it always returns, it reports only well-formed packets, and it reports every
    well-formed packet it is standing on. *)

From S2P Require Import Prelude Checksum Nmea CommTypes CommRx CommFrames CommStep.

(** ** Invariant *)

(** The receive buffer is the memory block, the pointers are in order, and the
    parser agrees with the bytes between [head] and [scan]. *)
Definition buffer_ok (m : region) (b : is_comm_buffer_t) : Prop :=
  mem_ok m /\ base m = buf_start b /\ lenZ (cells m) = buf_size b /\
  buf_end b = buf_start b + buf_size b /\ 0 < buf_start b /\ 0 < buf_size b < 2147483648 /\
  buf_start b <= head b /\ head b <= tail b /\ tail b <= buf_end b.

Definition comm_ok (m : region) (c : is_comm_instance_t) : Prop :=
  let b := rxBuf c in
  buffer_ok m b /\
  match processPkt c with
  | None => head b <= scan b <= tail b + 1
  | Some f => head b < scan b <= tail b /\
              pinv m (buf_size b) (head b) f (scan b - head b) (parser c)
  end.

(** No ISB header between [head] and [tail] defeats the 16-bit size check. *)
Definition headers_ok (m : region) (b : is_comm_buffer_t) : Prop :=
  forall h, head b <= h -> h + 6 <= tail b -> isb_header_ok m h.

(** What no call of the parser changes, and the direction of [head]. *)
Definition advances (c c' : is_comm_instance_t) : Prop :=
  buf_start (rxBuf c') = buf_start (rxBuf c) /\ buf_end (rxBuf c') = buf_end (rxBuf c) /\
  buf_size (rxBuf c') = buf_size (rxBuf c) /\ tail (rxBuf c') = tail (rxBuf c) /\
  enabledMask c' = enabledMask c /\ head (rxBuf c) <= head (rxBuf c').

#[export] Instance advances_preorder : PreOrder advances.
Proof.
  split; unfold advances.
  - intros c. repeat split; lia.
  - intros c1 c2 c3. intuition (congruence || lia).
Qed.

Lemma headers_ok_advances m c c' :
  advances c c' -> headers_ok m (rxBuf c) -> headers_ok m (rxBuf c').
Proof. intros (_ & _ & _ & Et & _ & Hh) H h H1 H2. apply H; rewrite <- ?Et; lia. Qed.

(** ** Iterations *)

(** What one iteration of the loop does to an instance that satisfies the
    invariant. *)
Inductive stepped (m : region) (c : is_comm_instance_t)
    : protocol_type_t -> is_comm_instance_t -> Prop :=
  | stepped_skip x :
      processPkt c = None -> load m (scan (rxBuf c)) = Some x ->
      (forall f, x = start_byte f -> Z.land (enabledMask c) (enable_bit f) = 0) ->
      stepped m c PTYPE_NONE (scan_inc c)
  | stepped_start f :
      processPkt c = None -> load m (scan (rxBuf c)) = Some (start_byte f) ->
      Z.land (enabledMask c) (enable_bit f) <> 0 ->
      stepped m c PTYPE_NONE (scan_inc (setParserStart c f))
  | stepped_unparsable x :
      processPkt c = None -> load m (scan (rxBuf c)) = Some x -> start_of x = None ->
      rxErrorState c = 0 ->
      stepped m c PTYPE_PARSE_ERROR (snd (reportParseError c EPARSE_STREAM_UNPARSABLE))
  | stepped_more f r c' :
      processPkt c = Some f -> step_more m c f r c' -> stepped m c r (scan_inc c')
  | stepped_error f r c' :
      processPkt c = Some f -> step_error m c f r c' -> stepped m c r (scan_inc c')
  | stepped_done f r c' :
      processPkt c = Some f -> step_done m c f r c' -> stepped m c r (scan_inc c').

Lemma buffer_ok_valid m b a :
  buffer_ok m b -> head b <= a < tail b -> valid m a.
Proof. unfold buffer_ok, valid. lia. Qed.

(** The same for the packet the parser is in. *)
Definition header_ok_in (m : region) (c : is_comm_instance_t) : Prop :=
  processPkt c = Some ProcIsb -> head (rxBuf c) + 6 <= tail (rxBuf c) ->
  isb_header_ok m (head (rxBuf c)).

Lemma headers_ok_in m c : headers_ok m (rxBuf c) -> header_ok_in m c.
Proof. intros H _ Ht. apply H; lia. Qed.

Lemma parse_step_stepped m c :
  comm_ok m c -> header_ok_in m c -> scan (rxBuf c) < tail (rxBuf c) ->
  exists r c', parse_step m c = Some (r, c') /\ stepped m c r c'.
Proof.
  intros [Hb Hp] Hok Hlt. unfold parse_step.
  destruct (processPkt c) as [f|] eqn:Ef.
  - destruct Hp as [Hs Hp].
    destruct (process_step m c f) as (r & c' & -> & Hstep); try done.
    + apply Hb.
    + eapply buffer_ok_valid; [done|lia].
    + eapply buffer_ok_valid; [done|lia].
    + unfold buffer_ok in Hb. lia.
    + intros -> ?. apply Hok; [done|lia].
    + cbn [mbind option_bind]. eexists _, _. split; [done|].
      destruct Hstep as [H|[H|H]];
        [eapply stepped_more|eapply stepped_error|eapply stepped_done]; eauto.
  - destruct (load_valid m ltac:(apply Hb) (scan (rxBuf c))) as (x & Hx & _);
      [eapply buffer_ok_valid; [done|lia]|].
    rewrite Hx. cbn [mbind option_bind].
    destruct (start_of x) as [[f bit]|] eqn:Es.
    + apply start_of_inv in Es as [-> ->].
      destruct (Z.eqb_spec (Z.land (enabledMask c) (enable_bit f)) 0); cbn [negb];
        eexists _, _; (split; [done|]).
      * eapply stepped_skip; [done|done|]. intros f' E.
        assert (Some (f, enable_bit f) = Some (f', enable_bit f')) as [= <-]
          by (rewrite <- !start_of_start; congruence). done.
      * by apply stepped_start.
    + unfold reportParseError. destruct (Z.eqb_spec (rxErrorState c) 0) as [E0|].
      * eexists _, _. split; [done|].
        replace (count_error _ _)
          with (snd (reportParseError c EPARSE_STREAM_UNPARSABLE))
          by (unfold reportParseError; by rewrite E0).
        by eapply stepped_unparsable.
      * eexists _, _. split; [done|]. eapply stepped_skip; [done|done|].
        intros f ->. by rewrite start_of_start in Es.
Qed.

(** ** Delivered packets *)

Definition has_offset (flags : Z) : bool := negb (Z.land flags ISB_FLAGS_PAYLOAD_W_OFFSET =? 0).

Definition isb_data_size (flags ps : Z) : Z :=
  if has_offset flags then Z.max 0 (ps - 2) else ps.

(** The result for a packet of the flags, data size and requested size; [None] is
    the invalid data type error. *)
Definition isb_ptype (flags dsize gsize : Z) : option protocol_type_t :=
  let t := Z.land flags PKT_TYPE_MASK in
  if (t =? PKT_TYPE_DATA) || (t =? PKT_TYPE_SET_DATA) then
    if dsize <=? MAX_DATASET_SIZE then Some PTYPE_INERTIAL_SENSE_DATA else None
  else if t =? PKT_TYPE_GET_DATA then
    if gsize <=? MAX_DATASET_SIZE then Some PTYPE_INERTIAL_SENSE_CMD else None
  else if (PKT_TYPE_STOP_BROADCASTS_ALL_PORTS <=? t) &&
          (t <=? PKT_TYPE_STOP_BROADCASTS_CURRENT_PORT) then Some PTYPE_INERTIAL_SENSE_CMD
  else if (t =? PKT_TYPE_ACK) || (t =? PKT_TYPE_NACK) then Some PTYPE_INERTIAL_SENSE_ACK
  else None.

(** The received packet [p] describes the ISB packet at [h] with [ps] payload bytes:
    its identifier and offset, and where its data is. *)
Definition isb_rx_pkt (m : region) (h ps : Z) (p : packet_t Z) : Prop :=
  exists flags id,
    load m (h + 2) = Some flags /\ load m (h + 3) = Some id /\
    hdr_flags p = flags /\ hdr_id p = id /\ pkt_id p = id /\
    pkt_size p = ps + 8 /\
    data_size p = isb_data_size flags ps /\
    hdr_payloadSize p = isb_data_size flags ps /\
    data_ptr p = (if data_size p =? 0 then 0 else h + 6 + (if has_offset flags then 2 else 0)) /\
    (if has_offset flags then load16 m (h + 6) = Some (pkt_offset p) else pkt_offset p = 0).

Lemma parseErrorResetState_inv c e r c' :
  parseErrorResetState c e = Some (r, c') ->
  reportParseError (is_comm_reset_parser c) e = (r, c').
Proof.
  unfold parseErrorResetState. generalize (reportParseError (is_comm_reset_parser c) e).
  intros q [= ->]. done.
Qed.

(** The first error after a valid packet is always reported. *)
Lemma reportParseError_fresh c e r c' :
  rxErrorState c = 0 -> reportParseError c e = (r, c') -> r = PTYPE_PARSE_ERROR.
Proof. unfold reportParseError. intros -> [= <- _]. done. Qed.

Lemma parseErrorResetState_fresh c e r c' :
  rxErrorState c = 0 -> parseErrorResetState c e = Some (r, c') ->
  r = PTYPE_PARSE_ERROR /\ reportParseError (is_comm_reset_parser c) e = (r, c').
Proof.
  intros H0 H%parseErrorResetState_inv. split; [|done].
  by eapply (reportParseError_fresh (is_comm_reset_parser c)).
Qed.

Lemma isb_packet_cases m c h ps n ck r c' :
  0 <= ps < 65536 -> p_size (parser c) = ps + 8 ->
  isb_packet m c h ps n ck = Some (r, c') ->
  exists pkt ack flags,
    isb_rx_pkt m h ps pkt /\ load m (h + 2) = Some flags /\
    let c1 := set_ackNeeded ack (set_rxPkt pkt (validPacketReset c n)) in
    (exists gsize, (Z.land flags PKT_TYPE_MASK = PKT_TYPE_GET_DATA -> load16 m (h + 8) = Some gsize) /\
     match isb_ptype flags (isb_data_size flags ps) gsize with
     | Some t => r = t /\ c' = c1
     | None => r = PTYPE_PARSE_ERROR /\
               reportParseError (is_comm_reset_parser c1) EPARSE_INVALID_DATATYPE = (r, c')
     end).
Proof.
  intros Hps Hsz H. unfold isb_packet, sizeof_packet_hdr_t in H.
  apply bind_Some in H as (pre & _ & H).
  apply bind_Some in H as (flags & Hfl & H).
  apply bind_Some in H as (id & Hid & H).
  apply bind_Some in H as ([[[size ptr] off] hs] & Hdat & H).
  assert (size = isb_data_size flags ps /\ hs = size /\
    ptr = (if size =? 0 then 0 else h + 6 + (if has_offset flags then 2 else 0)) /\
    (if has_offset flags then load16 m (h + 6) = Some off else off = 0)) as (-> & -> & -> & Hoff).
  { unfold isb_data_size, has_offset. destruct (negb _).
    - apply bind_Some in Hdat as (o & Ho & [= <- <- <- <-]).
      replace (if ps <? 2 then 0 else ps - 2) with (Z.max 0 (ps - 2))
        by (destruct (Z.ltb_spec ps 2); lia).
      repeat split; try done. unfold u16. rewrite Z.mod_small; lia.
    - injection Hdat as <- <- <- <-. rewrite Z.add_0_r. repeat split. }
  clear Hdat. cbv zeta in H.
  match type of H with context [set_rxPkt ?p] => set (pkt := p) in H end.
  assert (isb_rx_pkt m h ps pkt) as Hpkt by (exists flags, id; repeat split; done).
  clearbody pkt. unfold isb_ptype.
  destruct ((Z.land flags PKT_TYPE_MASK =? PKT_TYPE_SET_DATA)
    || (Z.land flags PKT_TYPE_MASK =? PKT_TYPE_DATA)) eqn:Et.
  { assert (Z.land flags PKT_TYPE_MASK <> PKT_TYPE_GET_DATA) as Hg
      by (intros E; by rewrite E in Et).
    destruct (Z.leb_spec (isb_data_size flags ps) MAX_DATASET_SIZE) as [Hd|Hd].
    - injection H as <- <-.
      exists pkt, (if Z.land flags PKT_TYPE_MASK =? PKT_TYPE_SET_DATA
                   then PKT_TYPE_ACK else 0), flags.
      split; [done|]. split; [done|]. exists 0. split; [done|].
      rewrite orb_comm, Et, (proj2 (Z.leb_le _ _) Hd). split; [done|].
      by destruct (_ =? PKT_TYPE_SET_DATA).
    - exists pkt, PKT_TYPE_NACK, flags.
      split; [done|]. split; [done|]. exists 0. split; [done|].
      rewrite orb_comm, Et, (proj2 (Z.leb_gt _ _) Hd).
      by apply parseErrorResetState_fresh. }
  exists pkt, 0, flags. split; [done|]. split; [done|].
  rewrite orb_comm, Et. cbv zeta.
  destruct (Z.eqb_spec (Z.land flags PKT_TYPE_MASK) PKT_TYPE_GET_DATA) as [Eg|Eg].
  { apply bind_Some in H as (g & Hg & H). exists g.
    replace (h + 6 + 2) with (h + 8) in Hg by lia. split; [done|].
    revert H. destruct (g <=? MAX_DATASET_SIZE); [by intros [= <- <-]|]. intros H.
    by apply parseErrorResetState_fresh. }
  exists 0. split; [done|].
  match type of H with (if ?b then _ else _) = _ => 
    assert (b = (PKT_TYPE_STOP_BROADCASTS_ALL_PORTS <=? Z.land flags PKT_TYPE_MASK) &&
            (Z.land flags PKT_TYPE_MASK <=? PKT_TYPE_STOP_BROADCASTS_CURRENT_PORT)) as Eb end.
  { unfold PKT_TYPE_STOP_BROADCASTS_ALL_PORTS, PKT_TYPE_STOP_DID_BROADCAST,
      PKT_TYPE_STOP_BROADCASTS_CURRENT_PORT. split_cmp; (done || lia). }
  rewrite Eb in H. revert H.
  do 2 match goal with |- (if ?b then _ else _) = _ -> _ =>
    destruct b; [by intros [= <- <-]|] end.
  intros H. by apply parseErrorResetState_fresh.
Qed.

(** ** The instance after an iteration *)

Lemma reportParseError_buf c e r c' :
  reportParseError c e = (r, c') ->
  rxBuf c' = rxBuf c /\ processPkt c' = processPkt c /\ enabledMask c' = enabledMask c /\
  rxPktCount c' = rxPktCount c /\ parser c' = parser c /\ rxPkt c' = rxPkt c /\
  (r = PTYPE_NONE /\ c' = c /\ rxErrorState c <> 0 \/ r = PTYPE_PARSE_ERROR /\ rxErrorState c = 0).
Proof.
  unfold reportParseError. destruct (Z.eqb_spec (rxErrorState c) 0); intros [= <- <-];
    repeat split; auto.
Qed.

Lemma reportParseError_0 c e :
  rxErrorState c = 0 ->
  reportParseError c e = (PTYPE_PARSE_ERROR, count_error e (set_rxErrorState 1 c)).
Proof. unfold reportParseError. by intros ->. Qed.

(** A packet of [n] bytes was taken from the buffer and reported. *)
Definition accepted (c : is_comm_instance_t) (n : Z) (c' : is_comm_instance_t) : Prop :=
  rxBuf c' = buf_set_head (head (rxBuf c) + n) (rxBuf c) /\
  processPkt c' = None /\ enabledMask c' = enabledMask c /\
  rxPktCount c' = u32 (rxPktCount c + 1) /\ rxErrorState c' = 0 /\
  rxErrorCount c' = rxErrorCount c /\ rxErrorTypeCount c' = rxErrorTypeCount c.

(** A packet of [n] bytes with a valid checksum was taken from the buffer and
    reported as an error. *)
Definition rejected (c : is_comm_instance_t) (n : Z) (c' : is_comm_instance_t) : Prop :=
  rxBuf c' = buf_set_scan (head (rxBuf c) + n) (buf_set_scanPrior (scan (rxBuf c))
    (buf_set_head (head (rxBuf c) + n) (rxBuf c))) /\
  processPkt c' = None /\ enabledMask c' = enabledMask c /\
  rxPktCount c' = u32 (rxPktCount c + 1) /\ rxErrorState c' = 1 /\
  rxErrorCount c' = u32 (rxErrorCount c + 1) /\
  rxErrorTypeCount c' =
    rxErrorTypeCount (count_error EPARSE_INVALID_DATATYPE c).

(** The result type of each packet function. *)
Definition ptype_of (f : pFnProcessPkt) (r : protocol_type_t) : Prop :=
  match f with
  | ProcIsb => r = PTYPE_INERTIAL_SENSE_ACK \/ r = PTYPE_INERTIAL_SENSE_CMD \/
               r = PTYPE_INERTIAL_SENSE_DATA
  | ProcNmea => r = PTYPE_NMEA
  | ProcUblox => r = PTYPE_UBLOX
  | ProcRtcm3 => r = PTYPE_RTCM3
  | ProcSpartn => r = PTYPE_SPARTN
  | ProcSony => r = PTYPE_SONY
  end.

Lemma isb_ptype_of flags dsize gsize r : isb_ptype flags dsize gsize = Some r -> ptype_of ProcIsb r.
Proof.
  unfold isb_ptype. intros H.
  repeat match type of H with (if ?b then _ else _) = _ => destruct b end;
    inversion H; subst; cbn; auto.
Qed.

Lemma delivered_cases f m bsz c n r c' :
  mem_ok m -> frame_at m bsz (head (rxBuf c)) f n ->
  delivered f m c (head (rxBuf c)) n r c' ->
  (ptype_of f r /\ accepted c n c') \/
  (f = ProcIsb /\ r = PTYPE_PARSE_ERROR /\ rejected c n c').
Proof.
  intros Hm Hf Hd. destruct f; cbn [delivered] in Hd.
  2-6: left; decompose [ex and] Hd; subst; (split; [done|]); unfold accepted; split_and!; reflexivity.
  destruct Hd as (ps & ck & Hps & Hck & Hsz & Hpkt).
  destruct Hf as [_ (ps' & body & _ & Hps' & -> & _)].
  rewrite Hps in Hps'. injection Hps' as <-.
  apply isb_packet_cases in Hpkt as (pkt & ack & flags & _ & _ & g & _ & Hr);
    [|by eapply load16_range|done].
  destruct (isb_ptype flags _ g) eqn:E.
  - left. destruct Hr as [-> ->]. split; [by eapply isb_ptype_of|].
    unfold accepted. split_and!; reflexivity.
  - right. destruct Hr as [-> Hr]. split; [done|]. split; [done|].
    rewrite reportParseError_0 in Hr by done. apply (f_equal snd) in Hr. cbn [snd] in Hr.
    subst c'. unfold rejected. split_and!; reflexivity.
Qed.

Lemma pinv_start m bsz h f p :
  load m h = Some (start_byte f) -> p_state p = 1 -> pinv m bsz h f 1 p.
Proof.
  intros H E. split; [done|]. destruct f; left; try (by split; [|lia]).
  unfold MAX_MSG_LENGTH_NMEA. split; [done|]. split; [lia|]. intros i Hi. lia.
Qed.

(** The rewriting of the fields of an updated instance. *)
Ltac buf_simpl := cbn [scan_inc set_scan set_head set_tail set_scanPrior set_rxBuf rxBuf
  setParserStart is_comm_reset_parser set_processPkt set_state set_parser
  buf_set_head buf_set_tail buf_set_scan buf_set_scanPrior processPkt parser enabledMask
  buf_start buf_end buf_size head tail scan scanPrior p_state p_size] in *.

Lemma stepped_comm_ok m c r c' :
  comm_ok m c -> scan (rxBuf c) < tail (rxBuf c) -> stepped m c r c' ->
  comm_ok m c' /\ advances c c'.
Proof.
  intros [Hb Hp] Hlt H. unfold comm_ok, advances, buffer_ok in *.
  destruct H as [x Ef Hx Hd|f Ef Hx Hd|x Ef Hx Es E0|f r c' Ef Hst|f r c' Ef Hst|f r c' Ef Hst];
    rewrite Ef in Hp.
  - buf_simpl. rewrite Ef. intuition lia.
  - buf_simpl. split; [|intuition lia]. split; [intuition lia|]. split; [lia|].
    replace (scan (rxBuf c) + 1 - scan (rxBuf c)) with 1 by lia. by apply pinv_start.
  - destruct (reportParseError c _) as [r' c'] eqn:E. cbn [snd].
    apply reportParseError_buf in E as (-> & -> & -> & _). rewrite Ef.
    intuition lia.
  - destruct Hst as (p & -> & -> & Hp' & _). buf_simpl. rewrite Ef.
    split; [|intuition lia]. split; [intuition lia|]. split; [lia|].
    by replace (scan (rxBuf c) + 1 - head (rxBuf c)) with (scan (rxBuf c) - head (rxBuf c) + 1) by lia.
  - destruct Hst as (p & e & E & _).
    apply reportParseError_buf in E as (Eb & Epp & Em & _).
    unfold scan_inc. cbn. rewrite Eb, Epp, Em. buf_simpl. intuition lia.
  - destruct Hst as (p & Hf & _ & Hdel).
    apply (delivered_cases f m (buf_size (rxBuf c)) (set_parser p c)) in Hdel; [|tauto|done].
    destruct Hdel as [[_ (Eb & Epp & Em & _)]|(_ & _ & Eb & Epp & Em & _)];
      unfold scan_inc; cbn; rewrite Eb, Epp, Em; buf_simpl; intuition lia.
Qed.

Lemma headers_ok_all m c :
  headers_ok m (rxBuf c) -> forall c1, advances c c1 -> header_ok_in m c1.
Proof. intros H c1 Ha. apply headers_ok_in. by eapply headers_ok_advances. Qed.

(** ** Termination *)

(** Where the next attempt at a packet starts if the current one fails. *)
Definition next_start (c : is_comm_instance_t) : Z :=
  match processPkt c with Some _ => head (rxBuf c) + 1 | None => scan (rxBuf c) end.

(** Lexicographic: the bytes behind the next start, then the bytes left to scan. *)
Definition measure (K : Z) (c : is_comm_instance_t) : Z :=
  Z.max 0 (tail (rxBuf c) - next_start c) * K +
  match processPkt c with Some _ => tail (rxBuf c) - scan (rxBuf c) | None => 0 end.

Lemma ptype_of_not f r : ptype_of f r -> r <> PTYPE_NONE /\ r <> PTYPE_PARSE_ERROR.
Proof. destruct f; cbn; intuition (subst; discriminate). Qed.

Lemma stepped_measure m c c' K :
  comm_ok m c -> scan (rxBuf c) < tail (rxBuf c) ->
  tail (rxBuf c) - head (rxBuf c) < K ->
  stepped m c PTYPE_NONE c' -> measure K c' < measure K c.
Proof.
  intros [Hb Hp] Hlt HK H. unfold buffer_ok in Hb. remember PTYPE_NONE as r eqn:Er.
  unfold measure, next_start.
  destruct H as [x Ef Hx Hd|f Ef Hx Hd|x Ef Hx Es E0|f r c' Ef Hst|f r c' Ef Hst|f r c' Ef Hst];
    try done; rewrite Ef in *.
  - buf_simpl. rewrite Ef, !Z.add_0_r. nia.
  - buf_simpl. rewrite !Z.max_r by lia. nia.
  - destruct Hst as (p & -> & _). buf_simpl. rewrite Ef. lia.
  - destruct Hst as (p & e & E & _). apply reportParseError_buf in E as (Eb & Epp & _).
    unfold scan_inc. cbn. rewrite Eb, Epp. buf_simpl. lia.
  - destruct Hst as (p & Hf & _ & Hdel).
    apply (delivered_cases f m (buf_size (rxBuf c)) (set_parser p c)) in Hdel; [|tauto|done].
    destruct Hdel as [[Hr _]|(_ & -> & _)]; [|done]. by apply ptype_of_not in Hr as [].
Qed.

Lemma measure_fuel m c :
  comm_ok m c ->
  0 <= measure (tail (rxBuf c) - head (rxBuf c) + 1) c < Z.of_nat (parse_fuel c).
Proof.
  intros [Hb Hp]. unfold buffer_ok in Hb. unfold measure, next_start, parse_fuel.
  destruct (processPkt c); rewrite (Z.min_l (head _)) by lia;
    set (n := tail (rxBuf c) - head (rxBuf c)) in *; nia.
Qed.

(** The rule for the loop: an invariant that every iteration which goes on keeps
    holds in the last iteration. *)
Lemma parse_loop_rule m (I : is_comm_instance_t -> Prop) (M : is_comm_instance_t -> Z) fuel c :
  (forall c, I c -> 0 <= M c) ->
  (forall c, I c -> scan (rxBuf c) < tail (rxBuf c) ->
   exists r c', parse_step m c = Some (r, c') /\
     (r = PTYPE_NONE -> I c' /\ M c' < M c)) ->
  I c -> M c < Z.of_nat fuel ->
  exists r c', parse_loop fuel m c = Some (r, c') /\
    ((r = PTYPE_NONE /\ I c' /\ tail (rxBuf c') <= scan (rxBuf c')) \/
     (r <> PTYPE_NONE /\ exists c0, I c0 /\ scan (rxBuf c0) < tail (rxBuf c0) /\
      parse_step m c0 = Some (r, c'))).
Proof.
  intros Hpos Hstep. revert c. induction fuel as [|fuel IH]; intros c HI HM.
  { specialize (Hpos c HI). lia. }
  cbn [parse_loop]. destruct (Z.ltb_spec (scan (rxBuf c)) (tail (rxBuf c))) as [Hlt|].
  - destruct (Hstep c HI Hlt) as (r & c' & E & Hnone). rewrite E. cbn [mbind option_bind].
    destruct (decide (r = PTYPE_NONE)) as [->|Hr].
    + destruct (Hnone eq_refl) as [HI' HM']. apply IH; [done|lia].
    + exists r, c'. split; [done|]. right. split; [done|]. by exists c.
  - exists PTYPE_NONE, c. split; [done|]. left. done.
Qed.

(** The same with the measure of the parser, for an invariant next to [comm_ok];
    [P] is what the last iteration establishes. *)
Lemma parse_loop_ok m (I : is_comm_instance_t -> Prop)
    (P : protocol_type_t -> is_comm_instance_t -> Prop) c :
  comm_ok m c -> I c ->
  (forall c1, I c1 -> advances c c1 -> header_ok_in m c1) ->
  (forall c1 r c2, I c1 -> comm_ok m c1 -> advances c c1 ->
   scan (rxBuf c1) < tail (rxBuf c1) -> stepped m c1 r c2 ->
   (r = PTYPE_NONE -> I c2) /\ (r <> PTYPE_NONE -> P r c2)) ->
  (forall c1, I c1 -> comm_ok m c1 -> advances c c1 ->
   tail (rxBuf c1) <= scan (rxBuf c1) -> P PTYPE_NONE c1) ->
  exists r c', parse_loop (parse_fuel c) m c = Some (r, c') /\
    comm_ok m c' /\ advances c c' /\ P r c'.
Proof.
  intros Hok HI Hhd Hstep Hend.
  set (K := tail (rxBuf c) - head (rxBuf c) + 1).
  destruct (parse_loop_rule m (fun c1 => I c1 /\ comm_ok m c1 /\ advances c c1)
    (fun c1 => Z.max 0 (measure K c1)) (parse_fuel c) c) as (r & c' & E & H).
  - intros. lia.
  - intros c1 (HI1 & Hok1 & Ha1) Hlt.
    destruct (parse_step_stepped m c1) as (r & c2 & E & Hs);
      [done|by apply Hhd|done|].
    exists r, c2. split; [done|]. intros ->.
    destruct (stepped_comm_ok m c1 _ c2 Hok1 Hlt Hs) as [Hok2 Ha2].
    split; [split; [|split; [done|by etransitivity]]|].
    + by apply (Hstep c1 PTYPE_NONE c2).
    + pose proof Ha1 as (_ & _ & _ & Et & _ & Eh).
      assert (measure K c2 < measure K c1) by (eapply stepped_measure; [done|done|lia|done]).
      destruct Hok1 as [Hb1 Hp1]. unfold buffer_ok in Hb1.
      assert (0 < measure K c1); [|lia]. unfold measure, next_start.
      destruct (processPkt c1); rewrite !Z.max_r by lia; nia.
  - split; [done|]. split; [done|reflexivity].
  - pose proof (measure_fuel m c Hok) as HF. fold K in HF. lia.
  - exists r, c'. split; [done|].
    destruct H as [(-> & (HI' & Hok' & Ha') & Ht)|(Hr & c0 & (HI0 & Hok0 & Ha0) & Hlt & Hs)].
    + split; [done|]. split; [done|]. by apply Hend.
    + destruct (parse_step_stepped m c0) as (r1 & c2 & E1 & Hs1);
        [done|by apply Hhd|done|].
      rewrite Hs in E1. injection E1 as <- <-.
      destruct (stepped_comm_ok m c0 _ _ Hok0 Hlt Hs1) as [Hok2 Ha2].
      split; [done|]. split; [by etransitivity|]. by eapply Hstep.
Qed.

(** ** A call of the parser *)

(** The instance after the timeout check at the start of the call. *)
Definition after_timeout (c : is_comm_instance_t) (timeMs : Z) : is_comm_instance_t :=
  match processPkt c with
  | Some _ =>
    if u32 (p_timeMs (parser c) + PKT_PARSER_TIMEOUT_MS) <? timeMs
    then is_comm_reset_parser (set_head (head (rxBuf c) + 1) c) else c
  | None => c
  end.

Lemma after_timeout_ok m c t :
  comm_ok m c -> comm_ok m (after_timeout c t) /\ advances c (after_timeout c t).
Proof.
  intros H. unfold after_timeout. destruct (processPkt c) as [f|] eqn:Ef; [|by split].
  destruct (_ <? _); [|by split].
  unfold comm_ok, advances, buffer_ok in *. rewrite Ef in H. buf_simpl. intuition lia.
Qed.

(** Without a clock there is no timeout. *)
Lemma after_timeout_0 c : after_timeout c 0 = c.
Proof.
  unfold after_timeout. destruct (processPkt c); [|done].
  destruct (Z.ltb_spec (u32 (p_timeMs (parser c) + PKT_PARSER_TIMEOUT_MS)) 0); [|done].
  unfold u32 in *. pose proof (Z.mod_pos_bound (p_timeMs (parser c) + PKT_PARSER_TIMEOUT_MS)
    4294967296). lia.
Qed.

Lemma pinv_parser m bsz h f k p q :
  p_state q = p_state p -> p_size q = p_size p -> pinv m bsz h f k p -> pinv m bsz h f k q.
Proof.
  intros E1 E2 [H0 H]. split; [done|]. destruct f;
    unfold isb_pinv, nmea_pinv, ublox_pinv, rtcm3_pinv, spartn_pinv, sony_pinv in *;
    by rewrite E1, ?E2.
Qed.

Definition record_time (t : Z) (c : is_comm_instance_t) : is_comm_instance_t :=
  match processPkt c with Some _ => set_timeMs t c | None => c end.

Lemma record_time_ok m c t :
  comm_ok m c -> comm_ok m (record_time t c) /\ advances c (record_time t c).
Proof.
  unfold record_time. destruct (processPkt c) as [f|] eqn:Ef; [|by split].
  intros [Hb Hp]. rewrite Ef in Hp. unfold comm_ok, set_timeMs. buf_simpl. rewrite Ef.
  split; [|unfold advances; cbn; intuition lia]. split; [done|].
  destruct Hp as [Hs Hp]. split; [done|]. by eapply pinv_parser; [| |exact Hp].
Qed.

Lemma parse_timeout_ok m c t (I : is_comm_instance_t -> Prop)
    (P : protocol_type_t -> is_comm_instance_t -> Prop) :
  comm_ok m c -> I (after_timeout c t) ->
  (forall c1, I c1 -> advances c c1 -> header_ok_in m c1) ->
  (forall c1 r c2, I c1 -> comm_ok m c1 -> advances c c1 ->
   scan (rxBuf c1) < tail (rxBuf c1) -> stepped m c1 r c2 ->
   (r = PTYPE_NONE -> I c2) /\ (r <> PTYPE_NONE -> P r c2)) ->
  (forall c1, I c1 -> comm_ok m c1 -> advances c c1 ->
   tail (rxBuf c1) <= scan (rxBuf c1) -> P PTYPE_NONE (record_time t c1)) ->
  exists r c', is_comm_parse_timeout m c t = Some (r, c') /\
    comm_ok m c' /\ advances c c' /\ P r c'.
Proof.
  intros Hok HI Hhd Hstep Hend.
  destruct (after_timeout_ok m c t Hok) as [Hok1 Ha1].
  destruct (parse_loop_ok m I (fun r c' => if decide (r = PTYPE_NONE)
      then P r (record_time t c') else P r c') (after_timeout c t))
    as (r & c' & E & Hok' & Ha' & HP); try done.
  - intros c1 HI1 Ha. apply Hhd; [done|by etransitivity].
  - intros c1 r c2 HI1 Hc1 Ha Hlt Hs.
    destruct (Hstep c1 r c2) as [H1 H2]; [done|done|by etransitivity|done|done|].
    split; [done|]. intros Hr. destruct (decide _); [done|by apply H2].
  - intros c1 HI1 Hc1 Ha Ht. apply Hend; [done|done|by etransitivity|done].
  - unfold is_comm_parse_timeout. change (match processPkt c with Some _ => _ | None => _ end)
      with (after_timeout c t). cbv zeta. rewrite E. cbn [mbind option_bind].
    destruct (decide (r = PTYPE_NONE)) as [->|].
    + destruct (record_time_ok m c' t Hok') as [H1 H2].
      exists PTYPE_NONE, (record_time t c'). split; [done|]. split; [done|].
      split; [|done]. transitivity (after_timeout c t); [done|]. by transitivity c'.
    + exists r, c'. split; [done|]. split; [done|]. split; [by etransitivity|done].
Qed.

(** ** What a packet looks like when it is reported *)

Definition rx_pkt (f : pFnProcessPkt) (m : region) (h n : Z) (p : packet_t Z) : Prop :=
  match f with
  | ProcIsb => isb_rx_pkt m h (n - 8) p
  | _ => data_ptr p = h /\ pkt_offset p = 0 /\ pkt_size p = n /\
         (if decide (f = ProcUblox)
          then exists ps, load16 m (h + 4) = Some ps /\ data_size p = u16 (ps + 8)
          else data_size p = n) /\
         (exists id, match f with
          | ProcNmea => getNmeaMsgId m h n = Some id
          | ProcUblox => load m (h + 2) = Some id
          | ProcRtcm3 => RTCM3_MSG_ID m h = Some id
          | ProcSony => load m (h + 3) = Some id
          | _ => id = 0
          end /\ pkt_id p = u16 id)
  end.

(** The result type of the packet at [h]; an ISB packet may be of an invalid type. *)
Definition isb_kind (m : region) (h : Z) : option protocol_type_t :=
  flags ← load m (h + 2);
  ps ← load16 m (h + 4);
  gs ← (if Z.land flags PKT_TYPE_MASK =? PKT_TYPE_GET_DATA then load16 m (h + 8) else Some 0);
  isb_ptype flags (isb_data_size flags ps) gs.

Definition kind_at (f : pFnProcessPkt) (m : region) (h : Z) (r : protocol_type_t) : Prop :=
  match f with ProcIsb => isb_kind m h = Some r | _ => ptype_of f r end.

Lemma frame_at_size f m bsz h n : mem_ok m -> frame_at m bsz h f n -> 6 <= n <= 65535.
Proof.
  intros Hm [_ H]. destruct f.
  - destruct H as (ps & body & _ & Hps & -> & Hn & _). apply (load16_range m Hm) in Hps.
    unfold MAX_MSG_LENGTH_ISB, PKT_BUF_SIZE in *. lia.
  - destruct H as (d & body & Hn & _). unfold MAX_MSG_LENGTH_NMEA in *. lia.
  - destruct H as (ps & body & _ & _ & -> & _). unfold u16. zlia.
  - destruct H as (len & body & Hl & -> & Hn & _). apply getBits_nonneg in Hl.
    unfold MAX_MSG_LENGTH_RTCM in *. lia.
  - destruct H as (h1 & h2 & h3 & h4 & x & _ & _ & _ & _ & _ & _ & ->).
    pose proof (spartn_len_range h1 h2 h3 h4 x). pose proof (spartn_last_hdr_range h3 h4). lia.
  - destruct H as (hdr & ds & data & _ & _ & Hds & Hn & _ & -> & _).
    apply (load16_range m Hm) in Hds. unfold MAX_MSG_LENGTH_SONY in *. lia.
Qed.

Lemma delivered_rx_pkt f m bsz c n r c' :
  mem_ok m -> frame_at m bsz (head (rxBuf c)) f n ->
  delivered f m c (head (rxBuf c)) n r c' ->
  rx_pkt f m (head (rxBuf c)) n (rxPkt c').
Proof.
  intros Hm Hf Hd. pose proof (frame_at_size _ _ _ _ _ Hm Hf) as Hn.
  assert (u16 n = n) as E16 by (unfold u16; rewrite Z.mod_small; lia).
  assert (forall x, 0 <= x < 65536 -> u32 x = x) as E32
    by (intros; unfold u32; rewrite Z.mod_small; lia).
  destruct f; cbn [delivered] in Hd; unfold rx_pkt.
  - destruct Hd as (ps & ck & Hps & Hck & Hsz & Hpkt).
    destruct Hf as [_ (ps' & body & _ & Hps' & -> & _)].
    rewrite Hps in Hps'. injection Hps' as <-.
    apply isb_packet_cases in Hpkt as (pkt & ack & flags & Hrx & _ & g & _ & Hr);
      [|by eapply load16_range|done].
    replace (ps + 8 - 8) with ps by lia.
    destruct (isb_ptype flags _ g).
    + by destruct Hr as [_ ->].
    + destruct Hr as [_ Hr]. by apply reportParseError_buf in Hr as (_ & _ & _ & _ & _ & -> & _).
  - destruct Hd as (id & Hid & _ & ->). cbn. rewrite E16, E32 by lia. split_and!; try done.
    by exists id.
  - destruct Hd as (id & ps & Hid & Hps & _ & ->). cbn. rewrite E16.
    split_and!; try done; [|by exists id].
    exists ps. split; [done|]. apply E32. unfold u16. zlia.
  - destruct Hd as (id & Hid & _ & ->). cbn. rewrite E16, E32 by lia. split_and!; try done.
    by exists id.
  - destruct Hd as (_ & ->). cbn. rewrite E16, E32 by lia. split_and!; try done.
    by exists 0.
  - destruct Hd as (id & Hid & _ & ->). cbn. rewrite E16, E32 by lia. split_and!; try done.
    by exists id.
Qed.

Lemma delivered_kind f m bsz c n r r' c' :
  mem_ok m -> frame_at m bsz (head (rxBuf c)) f n ->
  kind_at f m (head (rxBuf c)) r ->
  delivered f m c (head (rxBuf c)) n r' c' -> r' = r /\ ptype_of f r.
Proof.
  intros Hm Hf Hk Hd. destruct f; cbn [delivered kind_at] in *.
  2-6: cbn in Hk; decompose [ex and] Hd; subst; done.
  destruct Hd as (ps & ck & Hps & Hck & Hsz & Hpkt).
  destruct Hf as [_ (ps' & body & _ & Hps' & -> & _)].
  rewrite Hps in Hps'. injection Hps' as <-.
  apply isb_packet_cases in Hpkt as (pkt & ack & flags & _ & Hfl & g & Hg & Hr);
    [|by eapply load16_range|done].
  unfold isb_kind in Hk. rewrite Hfl, Hps in Hk. cbn [mbind option_bind] in Hk.
  assert (isb_ptype flags (isb_data_size flags ps) g = Some r) as E.
  { destruct (Z.eqb_spec (Z.land flags PKT_TYPE_MASK) PKT_TYPE_GET_DATA) as [Eg|Eg].
    - rewrite (Hg Eg) in Hk. exact Hk.
    - rewrite <- Hk. cbn [mbind option_bind]. unfold isb_ptype.
      by rewrite (proj2 (Z.eqb_neq _ _) Eg). }
  rewrite E in Hr. destruct Hr as [-> _]. split; [done|]. by eapply isb_ptype_of.
Qed.

(** ** Standing on a packet *)

Lemma start_byte_inj f f' : start_byte f = start_byte f' -> f = f'.
Proof.
  intros E. assert (Some (f, enable_bit f) = Some (f', enable_bit f')) as [= ->]; [|done].
  by rewrite <- !start_of_start, E.
Qed.

(** Before a packet of [n] bytes at [h], or inside it. *)
Definition standing (f : pFnProcessPkt) (h n : Z) (c : is_comm_instance_t) : Prop :=
  (processPkt c = None /\ scan (rxBuf c) = h) \/
  (processPkt c = Some f /\ head (rxBuf c) = h /\ scan (rxBuf c) < h + n).

(** The counters of packets and errors. *)
Definition same_counts (c c' : is_comm_instance_t) : Prop :=
  rxPktCount c' = rxPktCount c /\ rxErrorCount c' = rxErrorCount c /\
  rxErrorTypeCount c' = rxErrorTypeCount c.

(** The parser reports the packet it stands on, and counts no error. *)
Lemma parse_standing m c f h n r :
  comm_ok m c -> (f = ProcIsb -> isb_header_ok m h) -> standing f h n c ->
  frame_at m (buf_size (rxBuf c)) h f n -> kind_at f m h r ->
  Z.land (enabledMask c) (enable_bit f) <> 0 -> h + n <= tail (rxBuf c) ->
  exists c', is_comm_parse m c = Some (r, c') /\
    comm_ok m c' /\ advances c c' /\ ptype_of f r /\
    rx_pkt f m h n (rxPkt c') /\
    rxPktCount c' = u32 (rxPktCount c + 1) /\ rxErrorCount c' = rxErrorCount c /\
    rxErrorTypeCount c' = rxErrorTypeCount c /\ rxErrorState c' = 0 /\
    head (rxBuf c') = h + n /\ scan (rxBuf c') = h + n /\ processPkt c' = None.
Proof.
  intros Hok Hhd Hst0 Hf Hk Hen Ht.
  pose proof (frame_at_size _ _ _ _ _ ltac:(apply Hok) Hf) as Hn.
  destruct (parse_timeout_ok m c 0
    (fun c1 => standing f h n c1 /\ same_counts c c1)
    (fun r' c' => r' = r /\ ptype_of f r /\ rx_pkt f m h n (rxPkt c') /\
       rxPktCount c' = u32 (rxPktCount c + 1) /\ rxErrorCount c' = rxErrorCount c /\
       rxErrorTypeCount c' = rxErrorTypeCount c /\ rxErrorState c' = 0 /\
       head (rxBuf c') = h + n /\ scan (rxBuf c') = h + n /\
       processPkt c' = None)) as (r' & c' & E & Hok' & Ha & HP); try done.
  - rewrite after_timeout_0. by repeat split.
  - intros c1 [[[? ?]|(Ef1 & Eh & _)] _] _ E _; [congruence|].
    rewrite Eh. apply Hhd. congruence.
  - intros c1 r1 c2 [Hst1 Hc1] Hok1 (_ & _ & Esz & Et & Emk & _) Hlt Hs.
    destruct Hst1 as [[Ef1 Esc]|(Ef1 & Eh & Hs1)].
    + destruct Hs as [x Ef Hx Hd|f1 Ef Hx Hd|x Ef Hx Es E0|f1 r1 c' Ef Hst|f1 r1 c' Ef Hst|f1 r1 c' Ef Hst];
        try congruence; rewrite Esc in Hx; destruct Hf as [Hl _]; rewrite Hl in Hx.
      * injection Hx as <-. exfalso. apply Hen. rewrite <- Emk. by apply Hd.
      * injection Hx as <-%start_byte_inj.
        split; [|done]. intros _. split; [|done]. right. buf_simpl. split_and!; try done; lia.
      * injection Hx as <-. by rewrite start_of_start in Es.
    + destruct Hs as [x Ef Hx Hd|f1 Ef Hx Hd|x Ef Hx Es E0|f1 r1 c' Ef Hst|f1 r1 c' Ef Hst|f1 r1 c' Ef Hst];
        try congruence; (assert (f1 = f) as -> by congruence).
      * destruct Hst as (p & -> & -> & _ & Hmore). split; [|done]. intros _. split; [|done]. right.
        rewrite Eh, Esz in Hmore. specialize (Hmore n Hf). buf_simpl. split_and!; try done; lia.
      * destruct Hst as (p & e & _ & Hno). rewrite Eh, Esz in Hno. destruct (Hno n Hf). lia.
      * destruct Hst as (p & Hf1 & Huniq & Hdel). rewrite Eh in *. rewrite Esz in Hf1, Huniq.
        specialize (Huniq n Hf ltac:(lia)). rewrite <- Huniq in *. subst h.
        assert (mem_ok m) as Hm by apply Hok.
        destruct (delivered_kind f m (buf_size (rxBuf c)) (set_parser p c1) _ _ _ _ Hm Hf Hk Hdel)
          as [-> Hp].
        pose proof (ptype_of_not f r Hp) as [Hr1 Hr2].
        split; [done|]. intros _.
        pose proof (delivered_rx_pkt f m _ (set_parser p c1) _ _ _ Hm Hf Hdel) as Hrx.
        destruct (delivered_cases f m _ (set_parser p c1) _ _ _ Hm Hf Hdel)
          as [[_ (Eb & Epp & _ & Epc & Ees & Eec & Eet)]|(_ & -> & _)]; [|done].
        unfold scan_inc, set_scan. cbn [rxBuf set_rxBuf rxPkt processPkt rxPktCount
          rxErrorCount rxErrorTypeCount rxErrorState].
        rewrite Eb, Epp, Epc, Ees, Eec, Eet. destruct Hc1 as (<- & <- & <-).
        buf_simpl. split_and!; try done; lia.
  - intros c1 [Hst1 _] Hok1 (_ & _ & _ & Et & _) Htl.
    destruct Hst1 as [[_ ?]|(_ & _ & ?)]; lia.
  - exists c'. destruct HP as (-> & HP). do 3 (split; [done|]). exact HP.
Qed.

Lemma parse_frame m c f n r :
  comm_ok m c -> (f = ProcIsb -> isb_header_ok m (scan (rxBuf c))) -> processPkt c = None ->
  frame_at m (buf_size (rxBuf c)) (scan (rxBuf c)) f n -> kind_at f m (scan (rxBuf c)) r ->
  Z.land (enabledMask c) (enable_bit f) <> 0 -> scan (rxBuf c) + n <= tail (rxBuf c) ->
  exists c', is_comm_parse m c = Some (r, c') /\
    comm_ok m c' /\ advances c c' /\ ptype_of f r /\
    rx_pkt f m (scan (rxBuf c)) n (rxPkt c') /\
    rxPktCount c' = u32 (rxPktCount c + 1) /\ rxErrorCount c' = rxErrorCount c /\
    rxErrorTypeCount c' = rxErrorTypeCount c /\ rxErrorState c' = 0 /\
    head (rxBuf c') = scan (rxBuf c) + n /\ scan (rxBuf c') = scan (rxBuf c) + n /\
    processPkt c' = None.
Proof. intros. apply parse_standing; try done. by left. Qed.
