(* ===== verification/CommStream.v ===== *)
(** * The dispatch loop on a buffer

    Termination of [parse_messages] and its behaviour on a run of packets, for
    callbacks that leave the communications instance alone. *)

From S2P Require Import Prelude CommTypes CommRx CommMessages CommFrames CommStep.
From S2P Require Import CommParse.

(** ** Progress of each call *)

(** Twice the bytes behind the next start of a packet, plus one when an error could
    still be reported. *)
Definition potential (c : is_comm_instance_t) : Z :=
  2 * Z.max 0 (tail (rxBuf c) - next_start c) + (if rxErrorState c =? 0 then 1 else 0).

Lemma stepped_progress m c r c' :
  comm_ok m c -> scan (rxBuf c) < tail (rxBuf c) -> stepped m c r c' ->
  next_start c <= next_start c' /\
  (if decide (r = PTYPE_NONE) then rxErrorState c' = rxErrorState c
   else potential c' < potential c).
Proof.
  intros [Hb Hp] Hlt H. unfold buffer_ok in Hb. unfold potential, next_start.
  destruct H as [x Ef Hx Hd|f Ef Hx Hd|x Ef Hx Es E0|f r c' Ef Hst|f r c' Ef Hst|f r c' Ef Hst];
    rewrite Ef in *.
  - buf_simpl. rewrite Ef. cbn. split; [lia|done].
  - buf_simpl. cbn. split; [lia|done].
  - rewrite reportParseError_0 by done. cbn -[Z.mul Z.max]. rewrite Ef, E0. cbn -[Z.mul Z.max].
    rewrite decide_False by done. split; lia.
  - destruct Hst as (p & -> & -> & _). buf_simpl. rewrite Ef. cbn. split; [lia|done].
  - destruct Hst as (p & e & E & _). pose proof (reportParseError_buf _ _ _ _ E)
      as (Eb & Epp & _ & _ & _ & _ & Hr).
    unfold scan_inc, set_scan. cbn [rxBuf set_rxBuf processPkt rxErrorState]. rewrite Eb, Epp.
    buf_simpl. split; [lia|]. destruct Hr as [(-> & -> & _)|[-> E0]]; [done|].
    rewrite reportParseError_0 in E by done. injection E as <-. cbn in E0. rewrite decide_False by done.
    cbn -[Z.mul Z.max]. rewrite E0. cbn -[Z.mul Z.max]. lia.
  - destruct Hst as (p & Hf & _ & Hdel).
    pose proof (frame_at_size _ _ _ _ _ ltac:(apply Hb) Hf).
    apply (delivered_cases f m (buf_size (rxBuf c)) (set_parser p c)) in Hdel; [|tauto|done].
    destruct Hdel as [[Hr (Eb & Epp & _ & _ & Ees & _)]|(_ & -> & Eb & Epp & _ & _ & Ees & _)];
      unfold scan_inc, set_scan; cbn [rxBuf set_rxBuf processPkt rxErrorState];
      rewrite Eb, Epp, Ees; buf_simpl; (split; [lia|]).
    + apply ptype_of_not in Hr as [Hr _]. rewrite decide_False by done.
      cbn -[Z.mul Z.max]. destruct (rxErrorState c =? 0); lia.
    + rewrite decide_False by done. cbn -[Z.mul Z.max]. destruct (rxErrorState c =? 0); lia.
Qed.

Lemma parse_progress m c :
  comm_ok m c -> headers_ok m (rxBuf c) ->
  exists r c', is_comm_parse m c = Some (r, c') /\ comm_ok m c' /\ advances c c' /\
    (if decide (r = PTYPE_NONE) then tail (rxBuf c') <= scan (rxBuf c')
     else potential c' < potential c).
Proof.
  intros Hok Hhd.
  destruct (parse_timeout_ok m c 0
    (fun c1 => next_start c <= next_start c1 /\ rxErrorState c1 = rxErrorState c)
    (fun r c' => if decide (r = PTYPE_NONE) then tail (rxBuf c') <= scan (rxBuf c')
                 else potential c' < potential c))
    as (r & c' & E & Hok' & Ha & HP); try done.
  - rewrite after_timeout_0. split; [lia|done].
  - intros. by eapply headers_ok_all.
  - intros c1 r c2 [Hn He] Hok1 (_ & _ & _ & Et & _) Hlt Hs.
    apply stepped_progress in Hs as [Hn2 Hr]; [|done|done]. split.
    + intros ->. rewrite decide_True in Hr by done. split; [lia|congruence].
    + intros Hne. rewrite decide_False in Hr |- * by done.
      unfold potential in *. rewrite He in Hr. rewrite Et in Hr.
      destruct (rxErrorState c =? 0), (rxErrorState c2 =? 0); lia.
  - intros c1 _ Hok1 _ Ht. rewrite decide_True by done. unfold record_time.
    by destruct (processPkt c1).
  - exists r, c'. done.
Qed.

(** ** Dispatch *)

Section Dispatch.
Context {St : Type} (cb : is_comm_callbacks_t St).

(** The callbacks return and change nothing but the client's state. *)
Definition passive : Prop :=
  forall port (w : world St),
    (forall r, exists st, dispatch port cb r w = Some (World (w_mem w) (w_comm w) st)) /\
    (exists st, call_handler (cb_all cb) port w = Some (World (w_mem w) (w_comm w) st)).

Lemma parse_messages_returns fuel port (w : world St) :
  passive -> comm_ok (w_mem w) (w_comm w) -> headers_ok (w_mem w) (rxBuf (w_comm w)) ->
  potential (w_comm w) < Z.of_nat fuel ->
  exists w', parse_messages fuel port cb w = Some w' /\ w_mem w' = w_mem w /\
    comm_ok (w_mem w) (w_comm w') /\ advances (w_comm w) (w_comm w') /\
    tail (rxBuf (w_comm w')) <= scan (rxBuf (w_comm w')).
Proof.
  intros Hpas. revert w. induction fuel as [|fuel IH]; intros w Hok Hhd Hpot.
  { unfold potential in Hpot. destruct (_ =? 0); lia. }
  cbn [parse_messages].
  destruct (parse_progress _ _ Hok Hhd) as (r & c & -> & Hok1 & Ha1 & Hr).
  cbn [mbind option_bind]. destruct (decide (r = PTYPE_NONE)) as [->|Hne].
  { by eexists. }
  destruct (Hpas port (World (w_mem w) c (w_st w))) as [Hd _].
  destruct (Hd r) as [st1 ->]. cbn [mbind option_bind w_mem w_comm].
  destruct (Hpas port (World (w_mem w) c st1)) as [_ [st2 ->]].
  cbn [mbind option_bind w_mem w_comm].
  destruct (IH (World (w_mem w) c st2)) as (w' & E & Em & Hok' & Ha' & Ht); cbn in *.
  - done.
  - by eapply headers_ok_advances.
  - lia.
  - exists w'. split_and!; try done. by etransitivity.
Qed.

Lemma potential_fuel m (c : is_comm_instance_t) :
  comm_ok m c -> potential c < Z.of_nat (messages_fuel c).
Proof.
  intros [Hb Hp]. unfold buffer_ok in Hb. unfold potential, messages_fuel, next_start.
  destruct (processPkt c), (rxErrorState c =? 0); lia.
Qed.

(** ** A run of packets *)

Record packet_at := PacketAt { pa_fn : pFnProcessPkt; pa_addr : Z; pa_len : Z;
  pa_type : protocol_type_t }.

(** The packets follow each other from [a] to [e]. *)
Fixpoint packets_at (m : region) (bsz mask : Z) (a : Z) (ps : list packet_at) (e : Z) : Prop :=
  match ps with
  | [] => a = e
  | p :: ps =>
    pa_addr p = a /\ frame_at m bsz a (pa_fn p) (pa_len p) /\
    kind_at (pa_fn p) m a (pa_type p) /\ Z.land mask (enable_bit (pa_fn p)) <> 0 /\
    (pa_fn p = ProcIsb -> isb_header_ok m a) /\
    packets_at m bsz mask (a + pa_len p) ps e
  end.

(** The callbacks are called for each packet in turn, with the packet structure
    describing it. *)
Inductive handles (m : region) (port : Z) : world St -> list packet_at -> world St -> Prop :=
  | handles_nil w c : handles m port w [] (World m c (w_st w))
  | handles_cons w p ps c w1 w2 w3 :
      rx_pkt (pa_fn p) m (pa_addr p) (pa_len p) (rxPkt c) ->
      dispatch port cb (pa_type p) (World m c (w_st w)) = Some w1 ->
      call_handler (cb_all cb) port w1 = Some w2 ->
      handles m port w2 ps w3 -> handles m port w (p :: ps) w3.

Lemma packets_at_le m bsz mask a ps e :
  mem_ok m -> packets_at m bsz mask a ps e -> a + 6 * Z.of_nat (length ps) <= e.
Proof.
  intros Hm. revert a. induction ps as [|p ps IH]; intros a H; cbn in H.
  { subst. cbn. lia. }
  destruct H as (_ & Hf & _ & _ & _ & H). apply IH in H.
  pose proof (frame_at_size _ _ _ _ _ Hm Hf). cbn [length]. lia.
Qed.

Lemma parse_messages_run fuel port m w ps :
  passive -> w_mem w = m -> comm_ok m (w_comm w) ->
  processPkt (w_comm w) = None ->
  let c := w_comm w in
  packets_at m (buf_size (rxBuf c)) (enabledMask c) (scan (rxBuf c)) ps (tail (rxBuf c)) ->
  (length ps < fuel)%nat ->
  exists w', parse_messages fuel port cb w = Some w' /\ handles m port w ps w' /\
    scan (rxBuf (w_comm w')) = tail (rxBuf (w_comm w')) /\ processPkt (w_comm w') = None /\
    rxPktCount (w_comm w') =
      Nat.iter (length ps) (fun x => u32 (x + 1)) (rxPktCount (w_comm w)) /\
    rxErrorCount (w_comm w') = rxErrorCount (w_comm w).
Proof.
  intros Hpas. revert w ps. induction fuel as [|fuel IH]; intros w ps <- Hok Hidle c Hps Hfuel.
  { lia. }
  destruct w as [m c0 st]. cbn [w_mem w_comm] in *. subst c. rename c0 into c.
  cbn [parse_messages w_mem w_comm w_st].
  destruct ps as [|p ps]; cbn [packets_at] in Hps.
  - unfold is_comm_parse, is_comm_parse_timeout. rewrite Hidle.
    assert (parse_loop (parse_fuel c) m c = Some (PTYPE_NONE, c)) as ->.
    { destruct (parse_fuel c) as [|k] eqn:Ek; [unfold parse_fuel in Ek; lia|].
      cbn [parse_loop]. by rewrite Hps, Z.ltb_irrefl. }
    cbn [mbind option_bind]. rewrite !decide_True by done. rewrite Hidle.
    cbn [mbind option_bind]. rewrite decide_True by done.
    eexists. split; [done|]. split; [apply (handles_nil m port (World m c st))|]. done.
  - destruct Hps as (Ea & Hf & Hk & Hen & Hhd1 & Hps).
    assert (mem_ok m) as Hm by apply Hok.
    pose proof (packets_at_le _ _ _ _ _ _ Hm Hps) as Hle.
    destruct (parse_frame m c _ _ _ Hok Hhd1 Hidle Hf Hk Hen)
      as (c1 & -> & Hok1 & Ha1 & Hpt & Hrx & Epc & Eec & _ & _ & Eh & Esc & Epp); [lia|].
    cbn [mbind option_bind]. apply ptype_of_not in Hpt as [Hne _].
    rewrite decide_False by done.
    destruct (Hpas port (World m c1 st)) as [Hd _].
    destruct (Hd (pa_type p)) as [st1 Hd1]. rewrite Hd1. cbn [mbind option_bind w_mem w_comm].
    destruct (Hpas port (World m c1 st1)) as [_ [st2 Hd2]]. rewrite Hd2.
    cbn [mbind option_bind w_mem w_comm].
    pose proof Ha1 as (_ & _ & Esz & Et & Emk & _).
    destruct (IH (World m c1 st2) ps) as (w' & E & Hh & Hs' & Hp' & Hc' & He');
      cbn [w_mem w_comm] in *; try done.
    + by rewrite Esz, Emk, Esc, Et.
    + cbn [length] in Hfuel. lia.
    + exists w'. split_and!; try done.
      * eapply handles_cons; [by rewrite Ea|exact Hd1|exact Hd2|exact Hh].
      * rewrite Hc', Epc. cbn [length]. by rewrite Nat.iter_succ_r.
      * by rewrite He', Eec.
Qed.
End Dispatch.
