(* ===== verification/CommBuffer.v ===== *)
(** * The receive buffer

    The parser state survives moving the buffered bytes and appending new ones; the
    behaviour of [is_comm_free] and of pushing bytes through the parser. *)

From S2P Require Import Prelude Checksum Nmea CommTypes CommRx CommFrames CommStep.
From S2P Require Import CommParse.

(** ** The parser state depends on the bytes before [scan] only *)

Section Transport.
Context (m m' : region) (h h' k : Z).
Context (Hsame : forall i, 0 <= i < k -> load m' (h' + i) = load m (h + i)).

Lemma load_same i v : 0 <= i < k -> load m (h + i) = Some v -> load m' (h' + i) = Some v.
Proof. intros Hi <-. by apply Hsame. Qed.

Lemma load16_same i v :
  0 <= i -> i + 1 < k -> load16 m (h + i) = Some v -> load16 m' (h' + i) = Some v.
Proof.
  intros H0 H1 <-. unfold load16. rewrite <- !Z.add_assoc.
  by rewrite (Hsame i), (Hsame (i + 1)) by lia.
Qed.

Lemma load_range_same i n l :
  0 <= i -> 0 < n -> i + n <= k -> load_range m (h + i) n = Some l ->
  load_range m' (h' + i) n = Some l.
Proof.
  intros Hi Hn Hk H. unfold load_range in H.
  rewrite (proj2 (Z.eqb_neq n 0)) in H by lia.
  destruct ((0 <? n) && (base m <=? h + i) && (h + i + n <=? base m + lenZ (cells m))) eqn:E;
    [|done]. injection H as <-.
  apply andb_prop in E as [E E3]. apply andb_prop in E as [_ E2].
  apply Z.leb_le in E2, E3.
  assert (bytes_at m' (h' + i) (subZ (h + i - base m) n (cells m))) as Hb.
  { intros j Hj. autorewrite with lenZ in Hj.
    rewrite <- Z.add_assoc, Hsame by lia. unfold load. autorewrite with nthZ. split_cmp.
    f_equal. lia. }
  pose proof (bytes_at_range m' (h' + i) _ 0 n Hb) as P. rewrite Z.add_0_r in P.
  rewrite P; [|lia|lia|autorewrite with lenZ; lia]. f_equal. list_ext.
Qed.

Lemma getBits_same pos len v :
  0 <= pos -> (pos + len - 1) / 8 < k ->
  getBitsAsUInt32 m h pos len = Some v -> getBitsAsUInt32 m' h' pos len = Some v.
Proof.
  intros Hp Hk. unfold getBitsAsUInt32.
  destruct (Z.leb_spec len 0); [by rewrite !Z2Nat.nonpos by lia|].
  assert (forall n i acc, 0 <= i -> i + Z.of_nat n <= pos + len ->
    getBits_loop n m h i acc = Some v -> getBits_loop n m' h' i acc = Some v) as H1.
  { induction n as [|n IH]; intros i acc Hi Hn; [done|]. cbn [getBits_loop]. unfold buf_bit.
    rewrite (Hsame (i / 8)).
    - destruct (load m _); [|done]. cbn [mbind option_bind]. apply IH; lia.
    - assert (i / 8 <= (pos + len - 1) / 8) by (apply Z.div_le_mono; lia).
      split; [apply Z.div_pos; lia|lia]. }
  apply H1; lia.
Qed.

Lemma isb_pinv_same p : isb_pinv m h k p -> isb_pinv m' h' k p.
Proof.
  intros [?|[H1 [[? ?]|(ps & ? & Hps & ? & ? & ?)]]]; [by left|right..];
    (split; [apply (load_same 1); [lia|done]|]); [by left|].
  right. exists ps. split_and!; try done; try lia. apply load16_same; (lia || done).
Qed.

Lemma ublox_pinv_same p : ublox_pinv m h k p -> ublox_pinv m' h' k p.
Proof.
  intros [?|[H1 [[? ?]|(ps & ? & Hps & ? & ?)]]]; [by left|right..];
    (split; [apply (load_same 1); [lia|done]|]); [by left|].
  right. exists ps. split_and!; try done; try lia. apply load16_same; (lia || done).
Qed.

Lemma nmea_pinv_same p : nmea_pinv m h k p -> nmea_pinv m' h' k p.
Proof.
  intros [(? & ? & Hno)|(? & ? & Hcr & Hno)]; [left|right]; split_and!; try done; try lia.
  - intros i Hi. rewrite Hsame by lia. by apply Hno.
  - rewrite <- Z.add_sub_assoc in *. rewrite Hsame by lia. done.
  - intros i Hi. rewrite Hsame by lia. by apply Hno.
Qed.

Lemma rtcm3_pinv_same bsz p : rtcm3_pinv m bsz h k p -> rtcm3_pinv m' bsz h' k p.
Proof.
  intros [?|[?|(len & ? & Hlen & ? & ? & ? & ?)]]; [by left|by right; left|].
  right. right. exists len. split_and!; try done; try lia.
  apply getBits_same; [lia|change ((14 + 10 - 1) / 8) with 2; lia|done].
Qed.

Lemma spartn_pinv_same p : spartn_pinv m h k p -> spartn_pinv m' h' k p.
Proof.
  intros [?|[(h1 & h2 & h3 & H1 & H2 & H3 & Hck) Hp]]; [by left|].
  assert (4 <= k) as Hk4.
  { destruct Hp as [[? ?]|[(? & ? & ? & _ & _ & ?)|(? & _ & ? & ? & _)]]; lia. }
  right. split.
  { exists h1, h2, h3. split_and!; try done; apply load_same; (lia || done). }
  destruct Hp as [?|[(h3' & h4 & ? & H3' & H4 & ?)|(n & Hf & ? & ? & Hlast)]]; [by left| |].
  - right. left. exists h3', h4. split_and!; try done; try lia; apply load_same; (lia || done).
  - right. right. exists n.
    destruct Hf as (a1 & a2 & a3 & a4 & x & A1 & A2 & A3 & A4 & Ack & Ax & En).
    pose proof (Hlast _ _ A3 A4). pose proof (spartn_last_hdr_range a3 a4).
    split; [|split; [done|split; [lia|]]].
    + exists a1, a2, a3, a4, x. split_and!; try done; apply load_same; (lia || done).
    + intros b3 b4. rewrite !Hsame by lia. auto.
Qed.

Lemma sony_pinv_same bsz p : sony_pinv m bsz h k p -> sony_pinv m' bsz h' k p.
Proof.
  intros [?|(hdr & ds & ? & Hh & Hf & Hd & ? & ? & ? & ?)]; [by left|].
  right. exists hdr, ds. split_and!; try done; try lia.
  - rewrite <- (Z.add_0_r h'). apply load_range_same; [lia..|]. by rewrite Z.add_0_r.
  - apply load_same; (lia || done).
  - apply load16_same; (lia || done).
Qed.

Lemma pinv_same bsz f p : 1 <= k -> pinv m bsz h f k p -> pinv m' bsz h' f k p.
Proof.
  intros Hk [H0 H]. split.
  { rewrite <- (Z.add_0_r h'). apply load_same; [lia|]. by rewrite Z.add_0_r. }
  destruct f; [by apply isb_pinv_same|by apply nmea_pinv_same|by apply ublox_pinv_same
    |by apply rtcm3_pinv_same|by apply spartn_pinv_same|by apply sony_pinv_same].
Qed.
End Transport.

(** ** Bytes waiting in the buffer *)

(** The bytes from [head] to [tail]. *)
Definition pending (m : region) (c : is_comm_instance_t) : list Z :=
  subZ (head (rxBuf c) - base m) (tail (rxBuf c) - head (rxBuf c)) (cells m).

(** [headers_ok] of a stretch of the input. *)
Definition headers_fine (l : list Z) : Prop :=
  forall i flags lo hi,
    nthZ l i = Some PSC_ISB_PREAMBLE_BYTE1 -> nthZ l (i + 1) = Some PSC_ISB_PREAMBLE_BYTE2 ->
    nthZ l (i + 2) = Some flags -> nthZ l (i + 4) = Some lo -> nthZ l (i + 5) = Some hi ->
    le16 lo hi < 65528 /\ (Z.land flags PKT_TYPE_MASK = PKT_TYPE_GET_DATA -> 2 <= le16 lo hi).

Lemma headers_fine_infix l1 l l2 : headers_fine (l1 ++ l ++ l2) -> headers_fine l.
Proof.
  intros H i flags lo hi H0 H1 H2 H4 H5.
  assert (forall j x, nthZ l j = Some x -> nthZ (l1 ++ l ++ l2) (lenZ l1 + j) = Some x) as Hin.
  { intros j x Hj. pose proof (nthZ_Some_range _ _ _ Hj). autorewrite with nthZ. split_cmp.
    by replace (lenZ l1 + j - lenZ l1) with j by lia. }
  apply (H (lenZ l1 + i) flags lo hi); rewrite <- ?Z.add_assoc; by apply Hin.
Qed.

Lemma lenZ_pending m c :
  buffer_ok m (rxBuf c) -> lenZ (pending m c) = tail (rxBuf c) - head (rxBuf c).
Proof. unfold buffer_ok, pending. intros. autorewrite with lenZ. lia. Qed.

Lemma pending_load m c i :
  buffer_ok m (rxBuf c) -> 0 <= i < tail (rxBuf c) - head (rxBuf c) ->
  nthZ (pending m c) i = load m (head (rxBuf c) + i).
Proof.
  unfold buffer_ok, pending, load. intros. autorewrite with nthZ. split_cmp. f_equal. lia.
Qed.

Lemma headers_fine_ok m c :
  buffer_ok m (rxBuf c) -> headers_fine (pending m c) -> headers_ok m (rxBuf c).
Proof.
  intros Hb H h Hh Ht H0 H1 flags ps Hf Hps.
  assert (forall j, 0 <= j < 6 -> nthZ (pending m c) (h - head (rxBuf c) + j) = load m (h + j))
    as E.
  { intros j Hj. rewrite pending_load by (done || lia). f_equal. lia. }
  unfold load16 in Hps. inv_some.
  match goal with H4 : load m (h + 4) = Some ?lo, H5 : load m (h + 4 + 1) = Some ?hi |- _ =>
    apply (H (h - head (rxBuf c)) flags lo hi) end.
  - rewrite <- (Z.add_0_r (h - _)), E, Z.add_0_r by lia. done.
  - by rewrite E by lia.
  - by rewrite E by lia.
  - by rewrite E by lia.
  - rewrite E by lia. by replace (h + 5) with (h + 4 + 1) by lia.
Qed.

(** ** Appending bytes *)

Definition append (m : region) (c : is_comm_instance_t) (bs : list Z)
    : option (region * is_comm_instance_t) :=
  m ← store_range m (tail (rxBuf c)) bs;
  Some (m, set_tail (tail (rxBuf c) + lenZ bs) c).

Lemma append_ok m c bs :
  comm_ok m c -> Forall byte bs -> lenZ bs <= buf_end (rxBuf c) - tail (rxBuf c) ->
  exists m' c', append m c bs = Some (m', c') /\ comm_ok m' c' /\
    store_range m (tail (rxBuf c)) bs = Some m' /\
    c' = set_tail (tail (rxBuf c) + lenZ bs) c /\
    pending m' c' = pending m c ++ bs.
Proof.
  intros [Hb Hp] Hbs Hlen. pose proof Hb as (Hm & Ebase & Elen & Eend & Hpos & Hsz & H1 & H2 & H3).
  pose proof (lenZ_nonneg bs).
  unfold append. rewrite store_range_ok by lia. cbn [mbind option_bind].
  eexists _, _. split; [done|].
  assert (forall a, a < tail (rxBuf c) \/ tail (rxBuf c) + lenZ bs <= a ->
    load (Region (base m) (updZ (tail (rxBuf c) - base m) bs (cells m))) a = load m a) as Hold.
  { intros a Ha. unfold load. cbn [base cells]. rewrite nthZ_updZ by lia. by split_cmp. }
  split; [split|split; [done|split; [done|]]].
  - unfold buffer_ok, mem_ok. buf_simpl. cbn [base cells]. rewrite lenZ_updZ by lia.
    split_and!; try lia. unfold updZ, takeZ, dropZ.
    apply Forall_app. split; [by apply Forall_take|]. apply Forall_app.
    split; [done|by apply Forall_drop].
  - buf_simpl. destruct (processPkt c) as [f|]; [|lia]. destruct Hp as [Hs Hp].
    split; [lia|]. eapply pinv_same; [|lia|exact Hp].
    intros i Hi. apply Hold. lia.
  - unfold pending. buf_simpl. cbn [base cells]. apply nthZ_ext.
    + autorewrite with lenZ; lia.
    + intros i Hi. nth_ext.
Qed.

(** ** [is_comm_free] *)

Lemma is_comm_free_room m c :
  tail (rxBuf c) <> buf_end (rxBuf c) ->
  is_comm_free m c = Some (m, c, buf_end (rxBuf c) - tail (rxBuf c)).
Proof. intros H. unfold is_comm_free. by rewrite (proj2 (Z.eqb_neq _ _)) by lia. Qed.

(** The flush: everything buffered is dropped, and the error reported. *)
Lemma is_comm_free_flush m c :
  comm_ok m c -> tail (rxBuf c) = buf_end (rxBuf c) ->
  head (rxBuf c) - buf_start (rxBuf c) < buf_size (rxBuf c) / 3 ->
  exists c', is_comm_free m c = Some (m, c', buf_size (rxBuf c)) /\ comm_ok m c' /\
    pending m c' = [] /\ processPkt c' = None /\ enabledMask c' = enabledMask c /\
    head (rxBuf c') = buf_start (rxBuf c) /\
    tail (rxBuf c') = buf_start (rxBuf c) /\
    rxBuf c' = buf_set_scan (buf_start (rxBuf c)) (buf_set_tail (buf_start (rxBuf c))
      (buf_set_head (buf_start (rxBuf c)) (buf_set_scanPrior (scan (rxBuf c)) (rxBuf c)))) /\
    rxErrorState c' <> 0.
Proof.
  intros [Hb Hp] Ht Hs. unfold is_comm_free, parseErrorResetState.
  rewrite (proj2 (Z.eqb_eq _ _)) by lia. rewrite (proj2 (Z.ltb_lt _ _)) by lia.
  destruct (reportParseError (is_comm_reset_parser c) EPARSE_RXBUFFER_FLUSHED) as [r c1] eqn:E.
  assert (rxErrorState c1 <> 0) as Hes.
  { unfold reportParseError in E. destruct (Z.eqb_spec (rxErrorState (is_comm_reset_parser c)) 0);
      injection E as <- <-; cbn; done. }
  pose proof (reportParseError_buf _ _ _ _ E) as (Eb & Epp & Emk & _).
  unfold buffer_ok in Hb. cbn [mbind option_bind].
  eexists. split; [do 2 f_equal; unfold set_scan, set_tail, set_head; buf_simpl; rewrite Eb; buf_simpl; lia|].
  unfold comm_ok, buffer_ok, pending, set_scan, set_tail, set_head.
  cbn [set_rxBuf rxBuf processPkt rxErrorState enabledMask]. rewrite Eb, Epp, Emk. buf_simpl.
  split_and!; try done; try lia; try apply Hb.
  replace (buf_start (rxBuf c) - buf_start (rxBuf c)) with 0 by lia. done.
Qed.

(** The shift: the bytes from [head] on are moved to the start of the buffer. *)
Lemma is_comm_free_shift m c :
  comm_ok m c -> tail (rxBuf c) = buf_end (rxBuf c) ->
  buf_size (rxBuf c) / 3 <= head (rxBuf c) - buf_start (rxBuf c) ->
  let shift := head (rxBuf c) - buf_start (rxBuf c) in
  exists m' c', is_comm_free m c = Some (m', c', shift) /\ comm_ok m' c' /\
    pending m' c' = pending m c /\ processPkt c' = processPkt c /\
    c' = set_scan (scan (rxBuf c) - shift) (set_tail (tail (rxBuf c) - shift)
           (set_head (buf_start (rxBuf c)) c)).
Proof.
  intros [Hb Hp] Ht Hs shift. pose proof Hb as (Hm & Ebase & Elen & Eend & Hpos & Hsz & H1 & H2 & H3).
  unfold is_comm_free. rewrite (proj2 (Z.eqb_eq _ _)) by lia.
  rewrite (proj2 (Z.ltb_ge _ _)) by lia.
  rewrite load_range_ok by lia. cbn [mbind option_bind].
  fold (pending m c). pose proof (lenZ_pending m c Hb) as Hlen.
  rewrite store_range_ok by lia. cbn [mbind option_bind]. fold shift. buf_simpl.
  set (m' := Region _ _).
  assert (forall i, 0 <= i < tail (rxBuf c) - head (rxBuf c) ->
    load m' (buf_start (rxBuf c) + i) = load m (head (rxBuf c) + i)) as Hmove.
  { intros i Hi. rewrite <- (pending_load m c i Hb Hi). unfold load, m'. cbn [base cells].
    rewrite nthZ_updZ by lia. split_cmp. f_equal. lia. }
  eexists m', _. split; [do 2 f_equal; lia|].
  split; [split|split; [|split; [done|reflexivity]]].
  - unfold buffer_ok, mem_ok. buf_simpl. subst m'. cbn [base cells]. rewrite lenZ_updZ by lia.
    split_and!; try lia. unfold updZ, pending, subZ, takeZ, dropZ.
    repeat (apply Forall_app; split); auto using Forall_take, Forall_drop.
  - buf_simpl. destruct (processPkt c) as [f|]; [|lia]. destruct Hp as [Hsc Hp].
    split; [lia|].
    replace (scan (rxBuf c) - shift - buf_start (rxBuf c))
      with (scan (rxBuf c) - head (rxBuf c)) by lia.
    eapply pinv_same; [|lia|exact Hp]. intros i Hi. apply Hmove. lia.
  - apply nthZ_ext.
    + unfold pending. buf_simpl. subst m'. cbn [base cells]. autorewrite with lenZ; lia.
    + intros i Hi. unfold pending at 1 in Hi. buf_simpl. autorewrite with lenZ in Hi.
      subst m'. cbn [base cells] in Hi. rewrite lenZ_updZ in Hi by lia.
      rewrite (pending_load m c) by (done || lia). rewrite <- Hmove by lia.
      unfold pending, load. buf_simpl. cbn [base cells]. autorewrite with nthZ; try lia.
      autorewrite with lenZ. split_cmp; nth_done.
Qed.

(** All three cases. *)
Lemma is_comm_free_ok m c :
  comm_ok m c ->
  exists m' c' n, is_comm_free m c = Some (m', c', n) /\ comm_ok m' c' /\
    buf_start (rxBuf c') = buf_start (rxBuf c) /\ buf_size (rxBuf c') = buf_size (rxBuf c) /\
    enabledMask c' = enabledMask c /\
    n = buf_end (rxBuf c') - tail (rxBuf c') /\
    (3 <= buf_size (rxBuf c) -> 0 < n) /\
    (pending m' c' = pending m c \/ pending m' c' = [] /\ processPkt c' = None).
Proof.
  intros Hok. pose proof Hok as [Hb _]. unfold buffer_ok in Hb.
  destruct (decide (tail (rxBuf c) = buf_end (rxBuf c))) as [Et|Et].
  2: { rewrite is_comm_free_room by done. exists m, c, (buf_end (rxBuf c) - tail (rxBuf c)).
       split_and!; try done; try lia. by left. }
  destruct (Z.lt_ge_cases (head (rxBuf c) - buf_start (rxBuf c)) (buf_size (rxBuf c) / 3)) as [Hs|Hs].
  - destruct (is_comm_free_flush m c Hok Et Hs)
      as (c' & -> & Hok' & Hp & Hi & Em & Eh & Etl & Eb & _).
    exists m, c', (buf_size (rxBuf c)). rewrite Eb. buf_simpl.
    split_and!; try done; try lia. by right.
  - destruct (is_comm_free_shift m c Hok Et Hs) as (m' & c' & -> & Hok' & Hp & Hi & Ec).
    exists m', c', (head (rxBuf c) - buf_start (rxBuf c)). split; [done|].
    split; [done|]. split; [by rewrite Ec|]. split; [by rewrite Ec|]. split; [by rewrite Ec|].
    split; [rewrite Ec; buf_simpl; lia|]. split; [|by left].
    intros H3. assert (1 <= buf_size (rxBuf c) / 3) by (apply Z.div_le_lower_bound; lia). lia.
Qed.

(** ** Pushing bytes *)

Lemma pending_advances m c c' :
  buffer_ok m (rxBuf c) -> buffer_ok m (rxBuf c') -> advances c c' ->
  exists l, pending m c = l ++ pending m c'.
Proof.
  intros Hb Hb' (_ & _ & _ & Et & _ & Hh). unfold buffer_ok in *.
  exists (takeZ (head (rxBuf c') - head (rxBuf c)) (pending m c)).
  unfold pending. rewrite Et. list_ext.
Qed.

Lemma parse_byte_ok m c x t :
  comm_ok m c -> 3 <= buf_size (rxBuf c) -> byte x -> headers_fine (pending m c ++ [x]) ->
  exists m' r c' l, is_comm_parse_byte_timeout m c x t = Some (m', r, c') /\
    comm_ok m' c' /\ buf_size (rxBuf c') = buf_size (rxBuf c) /\
    pending m c ++ [x] = l ++ pending m' c'.
Proof.
  intros Hok Hsz Hx Hfine. unfold is_comm_parse_byte_timeout.
  destruct (is_comm_free_ok m c Hok) as (m1 & c1 & n & -> & Hok1 & Es & Esz & _ & En & Hn & Hp).
  cbn [mbind option_bind].
  destruct (append_ok m1 c1 [x] Hok1) as (m2 & c2 & _ & Hok2 & Hst & Ec2 & Hp2).
  { by constructor. } { change (lenZ [x]) with 1. specialize (Hn Hsz). lia. }
  unfold store. rewrite Hst. cbn [mbind option_bind].
  change (lenZ [x]) with 1 in Ec2. rewrite <- Ec2.
  assert (exists l, pending m c ++ [x] = l ++ pending m2 c2) as [l Hl].
  { rewrite Hp2. destruct Hp as [->|[-> _]]; [by exists []|]. by exists (pending m c). }
  assert (headers_ok m2 (rxBuf c2)) as Hhd.
  { apply headers_fine_ok; [apply Hok2|].
    apply (headers_fine_infix l _ []). by rewrite app_nil_r, <- Hl. }
  destruct (parse_timeout_ok m2 c2 t (fun _ => True) (fun _ _ => True))
    as (r & c3 & -> & Hok3 & Ha3 & _); try done.
  { intros. by eapply headers_ok_all. }
  cbn [mbind option_bind].
  destruct (pending_advances m2 c2 c3) as [l' Hl']; [apply Hok2|apply Hok3|done|].
  exists m2, r, c3, (l ++ l'). split_and!; try done.
  - destruct Ha3 as (_ & _ & E3 & _). rewrite E3, Ec2. exact Esz.
  - by rewrite Hl, Hl', app_assoc.
Qed.

(** The bytes of a stream one after the other, with the results. *)
Fixpoint parse_bytes (m : region) (c : is_comm_instance_t) (xs : list Z)
    : option (region * is_comm_instance_t * list protocol_type_t) :=
  match xs with
  | [] => Some (m, c, [])
  | x :: xs =>
    '(m, r, c) ← is_comm_parse_byte m c x;
    '(m, c, rs) ← parse_bytes m c xs;
    Some (m, c, r :: rs)
  end.

Lemma parse_bytes_ok m c pre xs :
  comm_ok m c -> 3 <= buf_size (rxBuf c) -> Forall byte xs ->
  headers_fine (pre ++ pending m c ++ xs) ->
  exists m' c' rs, parse_bytes m c xs = Some (m', c', rs) /\ comm_ok m' c' /\
    length rs = length xs /\ exists l, pre ++ pending m c ++ xs = l ++ pending m' c'.
Proof.
  revert m c pre. induction xs as [|x xs IH]; intros m c pre Hok Hsz Hxs Hfine.
  { exists m, c, []. split_and!; try done. exists pre. by rewrite app_nil_r. }
  apply Forall_cons_iff in Hxs as [Hx Hxs]. cbn [parse_bytes].
  destruct (parse_byte_ok m c x 0 Hok Hsz Hx) as (m1 & r & c1 & l & E & Hok1 & Esz & Hl).
  { apply (headers_fine_infix pre _ xs). by rewrite <- app_assoc. }
  unfold is_comm_parse_byte. rewrite E. cbn [mbind option_bind].
  destruct (IH m1 c1 (pre ++ l)) as (m2 & c2 & rs & -> & Hok2 & Elen & l2 & Hl2);
    [done|lia|done| |].
  { rewrite <- app_assoc, (app_assoc l), <- Hl, <- app_assoc. exact Hfine. }
  cbn [mbind option_bind]. exists m2, c2, (r :: rs). split_and!; try done; [cbn; lia|].
  exists l2. rewrite <- Hl2, <- app_assoc, (app_assoc l), <- Hl, <- app_assoc. done.
Qed.

(** ** Initialisation *)

Lemma is_comm_init_ok m buffer size :
  base m = buffer -> lenZ (cells m) = size -> 0 < buffer -> 0 < size < 2147483648 ->
  exists m' c', is_comm_init m buffer size = Some (m', c') /\ comm_ok m' c' /\
    pending m' c' = [] /\ buf_size (rxBuf c') = size /\ is_comm_check c' buffer size = 0.
Proof.
  intros Hb Hl Hpos Hsz. unfold is_comm_init.
  assert (lenZ (repeat 0 (Z.to_nat size)) = size) as Er
    by (unfold lenZ; rewrite repeat_length; lia).
  rewrite store_range_ok by lia. cbn [mbind option_bind].
  assert (u32 size = size) as Eu by (unfold u32; rewrite Z.mod_small; lia).
  eexists _, _. split; [done|]. split; [|split; [|split; [exact Eu|]]].
  - split; [|cbn; lia]. unfold buffer_ok, mem_ok. cbn [rxBuf buf_start buf_end buf_size head tail
      base cells]. rewrite lenZ_updZ, Eu by lia. split_and!; try lia.
    replace (updZ _ _ _) with (repeat 0 (Z.to_nat size)).
    + apply List.Forall_forall. intros x Hx%repeat_spec. by subst.
    + apply nthZ_ext; [rewrite lenZ_updZ; lia|]. intros i Hi. rewrite nthZ_updZ by lia.
      split_cmp. f_equal. lia.
  - unfold pending. cbn [rxBuf head tail]. by rewrite Z.sub_diag.
  - unfold is_comm_check. cbn [rxBuf buf_start buf_end buf_size head tail scan enabledMask rxPkt
      data_ptr]. rewrite !Z.eqb_refl. cbn [negb].
    rewrite !(proj2 (Z.ltb_ge _ _)) by lia. cbn [orb]. by rewrite andb_false_r.
Qed.
