(* ===== verification/CommLocal.v ===== *)
(** * What the parser reads

    The packet functions compute the same on a larger memory that agrees with a
    smaller one ([refines]): none of them looks behind the byte at [scan].  A packet
    of which only the beginning has arrived is therefore followed to the last byte
    that is there ([process_partial]), and the parser waits for the rest
    ([parse_partial]). *)

From S2P Require Import Prelude Checksum Nmea CommTypes CommRx CommFrames CommStep.
From S2P Require Import CommParse CommBuffer.
From Stdlib Require Import String.

(** ** Computations on a smaller and a larger memory *)

(** Every result of [a] is a result of [b]. *)
Definition refines {A} (a b : option A) : Prop := forall x, a = Some x -> b = Some x.

#[export] Instance refines_preorder {A} : PreOrder (@refines A).
Proof. split; unfold refines; [auto|eauto]. Qed.

Lemma refines_bind {A B} (a b : option A) (f g : A -> option B) :
  refines a b -> (forall x, refines (f x) (g x)) -> refines (a ≫= f) (b ≫= g).
Proof. intros H Hf y (x & Hx & E)%bind_Some. apply bind_Some. exists x. firstorder. Qed.

Section Mono.
Context (m m' : region) (Hmm : forall a, refines (load m a) (load m' a)).

Lemma load16_mono a : refines (load16 m a) (load16 m' a).
Proof. unfold load16. by repeat (apply refines_bind; intros). Qed.

Lemma load_range_mono a n : refines (load_range m a n) (load_range m' a n).
Proof.
  intros l. unfold load_range at 1. destruct (Z.eqb_spec n 0) as [->|Hn]; [done|].
  destruct ((0 <? n) && (base m <=? a) && (a + n <=? base m + lenZ (cells m))) eqn:E; [|done].
  intros [= <-]. apply andb_prop in E as [E E3]. apply andb_prop in E as [E1 E2].
  apply Z.ltb_lt in E1. apply Z.leb_le in E2, E3.
  assert (bytes_at m' a (subZ (a - base m) n (cells m))) as Hb.
  { intros k Hk. autorewrite with lenZ in Hk.
    destruct (nthZ_Some (subZ (a - base m) n (cells m)) k) as [x Hx];
      [autorewrite with lenZ; lia|]. rewrite Hx. apply Hmm. unfold load. rewrite <- Hx.
    autorewrite with nthZ. split_cmp. f_equal. lia. }
  pose proof (bytes_at_range m' a _ 0 n Hb ltac:(lia) ltac:(lia)) as P.
  rewrite Z.add_0_r in P. rewrite P by (autorewrite with lenZ; lia). f_equal. list_ext.
Qed.

Lemma getBits_loop_mono n a i acc : refines (getBits_loop n m a i acc) (getBits_loop n m' a i acc).
Proof.
  revert i acc. induction n as [|n IH]; intros i acc; [done|]. cbn [getBits_loop]. unfold buf_bit.
  repeat (apply refines_bind; intros); [apply Hmm|done|apply IH].
Qed.

Lemma match_chain_mono {A} a (alts : list (string * A)) :
  refines (match_chain m a alts) (match_chain m' a alts).
Proof.
  induction alts as [|[s r] alts IH]; [done|]. cbn [match_chain]. unfold UINT32_MATCH.
  repeat (apply refines_bind; intros); [apply load_range_mono|done|].
  match goal with |- context [if ?b then _ else _] => by destruct b end.
Qed.
End Mono.

Create HintDb mono.
#[export] Hint Resolve load16_mono load_range_mono getBits_loop_mono match_chain_mono : mono.

(** Step through a computation that reads memory: its reads, its branches. *)
Ltac mono :=
  repeat first
  [ done
  | assumption
  | solve [auto with mono]
  | apply refines_bind; [|intros]
  | match goal with
    | |- refines (if ?b then _ else _) _ => destruct b
    | |- refines (match ?x with _ => _ end) _ => destruct x
    end ].

Lemma decodeGSV_loop_mono m m' n a i aSize num :
  (forall a, refines (load m a) (load m' a)) ->
  refines (decodeGSV_loop n m a i aSize num) (decodeGSV_loop n m' a i aSize num).
Proof.
  intros H. revert i num. induction n as [|n IH]; intros i num; [done|]. cbn [decodeGSV_loop].
  mono.
Qed.
#[export] Hint Resolve decodeGSV_loop_mono : mono.

Lemma getNmeaMsgId_mono m m' a n :
  (forall a, refines (load m a) (load m' a)) ->
  refines (getNmeaMsgId m a n) (getNmeaMsgId m' a n).
Proof. intros H. unfold getNmeaMsgId, decodeGSV. mono. Qed.
#[export] Hint Resolve getNmeaMsgId_mono : mono.

Lemma isb_packet_mono m m' c pkt ps n ck :
  (forall a, refines (load m a) (load m' a)) ->
  refines (isb_packet m c pkt ps n ck) (isb_packet m' c pkt ps n ck).
Proof. intros H. unfold isb_packet. mono. Qed.
#[export] Hint Resolve isb_packet_mono : mono.

Lemma process_mono m m' f c :
  (forall a, refines (load m a) (load m' a)) -> refines (process f m c) (process f m' c).
Proof.
  intros H. destruct f; cbn [process].
  - unfold processIsbPkt. mono.
  - unfold processNmeaPkt, processNmeaPkt_end. mono.
  - unfold processUbloxPkt. mono.
  - unfold processRtcm3Pkt, getBitsAsUInt32, RTCM3_MSG_ID, messageStatsGetbitu. mono.
  - unfold processSpartnByte. mono.
  - unfold processSonyByte. mono.
Qed.

(** ** A packet of which the beginning has arrived *)

(** The memory up to the tail of the buffer, and the same with bytes to come. *)
Definition arrived (m : region) (c : is_comm_instance_t) : region :=
  Region (base m) (takeZ (tail (rxBuf c) - base m) (cells m)).
Definition completed (m : region) (c : is_comm_instance_t) (rest : list Z) : region :=
  Region (base m) (takeZ (tail (rxBuf c) - base m) (cells m) ++ rest).

Lemma isb_header_ok_mono m m' h :
  (forall a, refines (load m a) (load m' a)) -> isb_header_ok m' h -> isb_header_ok m h.
Proof.
  intros H Hok H0 H1 flags ps Hf Hps. apply Hok; [by apply H..|].
  by apply (load16_mono m m' H).
Qed.

Section Partial.
Context (m : region) (c : is_comm_instance_t) (rest : list Z).
Context (Hb : buffer_ok m (rxBuf c)) (Hrest : Forall byte rest).

Lemma load_arrived a : a < tail (rxBuf c) -> load (arrived m c) a = load m a.
Proof. unfold buffer_ok in Hb. intros Ha. unfold load, arrived. cbn [base cells]. nth_ext. Qed.

Lemma load_completed a : a < tail (rxBuf c) -> load (completed m c rest) a = load m a.
Proof. unfold buffer_ok in Hb. intros Ha. unfold load, completed. cbn [base cells]. nth_ext. Qed.

Lemma arrived_out a : tail (rxBuf c) <= a -> load (arrived m c) a = None.
Proof.
  unfold buffer_ok in Hb. intros Ha. unfold load, arrived. cbn [base cells].
  apply nthZ_out. autorewrite with lenZ. lia.
Qed.

Lemma arrived_memory a : refines (load (arrived m c) a) (load m a).
Proof.
  intros x Hx. destruct (Z.lt_ge_cases a (tail (rxBuf c))); [by rewrite <- load_arrived|].
  by rewrite arrived_out in Hx.
Qed.

Lemma arrived_completed a : refines (load (arrived m c) a) (load (completed m c rest) a).
Proof.
  intros x Hx. destruct (Z.lt_ge_cases a (tail (rxBuf c))).
  - by rewrite load_completed, <- load_arrived.
  - by rewrite arrived_out in Hx.
Qed.

Lemma arrived_mem_ok : mem_ok (arrived m c).
Proof. unfold mem_ok, arrived. apply Forall_take. apply Hb. Qed.

Lemma completed_mem_ok : mem_ok (completed m c rest).
Proof. unfold mem_ok, completed. apply Forall_app. split; [apply Forall_take, Hb|done]. Qed.

Lemma arrived_valid a : head (rxBuf c) <= a < tail (rxBuf c) -> valid (arrived m c) a.
Proof. unfold buffer_ok in Hb. unfold valid, arrived. cbn [base cells]. autorewrite with lenZ. lia. Qed.

Lemma completed_valid a :
  head (rxBuf c) <= a < tail (rxBuf c) -> valid (completed m c rest) a.
Proof.
  unfold buffer_ok in Hb. pose proof (lenZ_nonneg rest).
  unfold valid, completed. cbn [base cells]. autorewrite with lenZ. lia.
Qed.

Lemma process_partial f n :
  comm_ok m c -> processPkt c = Some f -> scan (rxBuf c) < tail (rxBuf c) ->
  (f = ProcIsb -> isb_header_ok (completed m c rest) (head (rxBuf c))) ->
  frame_at (completed m c rest) (buf_size (rxBuf c)) (head (rxBuf c)) f n ->
  tail (rxBuf c) < head (rxBuf c) + n ->
  exists p, process f m c = Some (PTYPE_NONE, set_parser p c) /\
    pinv m (buf_size (rxBuf c)) (head (rxBuf c)) f (scan (rxBuf c) - head (rxBuf c) + 1) p.
Proof.
  intros [_ Hp] Ef Hlt Hhd Hf Hn. rewrite Ef in Hp. destruct Hp as [Hs Hp].
  pose proof Hb as Hb'. unfold buffer_ok in Hb'.
  set (k := scan (rxBuf c) - head (rxBuf c)) in *.
  destruct (process_step (arrived m c) c f) as (r & c' & E & _);
    [apply arrived_mem_ok|apply arrived_valid; lia|apply arrived_valid; lia|lia| | |].
  { intros -> _. eapply isb_header_ok_mono; [apply arrived_completed|by apply Hhd]. }
  { eapply pinv_same; [|lia|exact Hp]. intros i Hi. apply load_arrived. lia. }
  pose proof (process_mono _ _ f c arrived_completed _ E) as E1.
  destruct (process_step (completed m c rest) c f) as (r1 & c1 & E1' & Hst);
    [apply completed_mem_ok|apply completed_valid; lia|apply completed_valid; lia|lia| | |].
  { intros -> _. by apply Hhd. }
  { eapply pinv_same; [|lia|exact Hp]. intros i Hi. apply load_completed. lia. }
  rewrite E1 in E1'. injection E1' as <- <-.
  destruct Hst as [(p & -> & -> & Hpi & _)|[(p & e & _ & Hno)|(p & _ & Hu & _)]].
  - exists p. split; [by apply (process_mono _ _ f c arrived_memory)|].
    eapply pinv_same; [|lia|exact Hpi]. intros i Hi. symmetry. apply load_completed. lia.
  - exfalso. apply (Hno n Hf). lia.
  - specialize (Hu n Hf ltac:(lia)). lia.
Qed.
End Partial.

(** Where the parser is while the beginning of the packet arrives. *)
Definition waiting (m : region) (c : is_comm_instance_t) (f : pFnProcessPkt) (n : Z)
    (c1 : is_comm_instance_t) : Prop :=
  comm_ok m c1 /\ standing f (head (rxBuf c)) n c1 /\ advances c c1 /\ same_counts c c1 /\
  head (rxBuf c1) = head (rxBuf c) /\ scan (rxBuf c1) <= tail (rxBuf c).

Lemma waiting_step m c rest f n c1 :
  let h := head (rxBuf c) in
  comm_ok m c -> Forall byte rest ->
  (f = ProcIsb -> isb_header_ok (completed m c rest) h) ->
  frame_at (completed m c rest) (buf_size (rxBuf c)) h f n ->
  Z.land (enabledMask c) (enable_bit f) <> 0 -> tail (rxBuf c) < h + n ->
  waiting m c f n c1 -> scan (rxBuf c1) < tail (rxBuf c1) ->
  exists c2, parse_step m c1 = Some (PTYPE_NONE, c2) /\ waiting m c f n c2 /\
    scan (rxBuf c2) = scan (rxBuf c1) + 1.
Proof.
  intros h Hok Hrest Hhd Hf Hen Hn (Hok1 & Hst1 & Ha1 & Hc1 & Eh1 & Hsc1) Hlt.
  pose proof Ha1 as (_ & _ & Esz & Et & Emk & _). pose proof Hok1 as [Hb1 Hp1].
  assert (completed m c1 rest = completed m c rest) as Ec by (unfold completed; by rewrite Et).
  destruct Hst1 as [[Ef1 Esc]|(Ef1 & _ & Hs1)].
  - assert (load m (scan (rxBuf c1)) = Some (start_byte f)) as Hx.
    { destruct Hf as [Hl _]. rewrite Esc, <- Hl. symmetry.
      apply load_completed; [apply Hok|lia]. }
    exists (scan_inc (setParserStart c1 f)). split.
    { unfold parse_step. rewrite Ef1, Hx. cbn [mbind option_bind]. rewrite start_of_start, Emk.
      by rewrite (proj2 (Z.eqb_neq _ _) Hen). }
    destruct (stepped_comm_ok m c1 _ _ Hok1 Hlt
      (stepped_start m c1 f Ef1 Hx ltac:(by rewrite Emk))) as [Hok2 Ha2].
    split; [|by buf_simpl]. split; [done|]. split; [|split; [by etransitivity|]].
    + right. buf_simpl. subst h. split; [done|]. lia.
    + buf_simpl. subst h. split; [done|]. lia.
  - destruct (process_partial m c1 rest Hb1 Hrest f n Hok1 Ef1 Hlt) as (p & Epr & Hpi);
      [by rewrite Ec, Eh1|by rewrite Ec, Eh1, Esz|lia|].
    exists (scan_inc (set_parser p c1)). split.
    { unfold parse_step. rewrite Ef1, Epr. done. }
    split; [|by buf_simpl]. unfold waiting, comm_ok, standing, advances in *.
    buf_simpl. rewrite Ef1 in *.
    replace (scan (rxBuf c1) + 1 - head (rxBuf c1))
      with (scan (rxBuf c1) - head (rxBuf c1) + 1) by lia.
    split_and!; try done; try lia; try apply Ha1.
    right. split; [done|]. lia.
Qed.

(** The parser looks at every byte that is there and waits for the rest of the
    packet; no error is reported or counted. *)
Lemma parse_partial m c rest f n :
  let h := head (rxBuf c) in
  comm_ok m c -> Forall byte rest -> standing f h n c ->
  (f = ProcIsb -> isb_header_ok (completed m c rest) h) ->
  frame_at (completed m c rest) (buf_size (rxBuf c)) h f n ->
  Z.land (enabledMask c) (enable_bit f) <> 0 -> tail (rxBuf c) < h + n ->
  exists c', is_comm_parse m c = Some (PTYPE_NONE, c') /\ comm_ok m c' /\ advances c c' /\
    same_counts c c' /\ standing f h n c' /\ head (rxBuf c') = h /\
    scan (rxBuf c') = tail (rxBuf c).
Proof.
  intros h Hok Hrest Hst Hhd Hf Hen Hn. pose proof Hok as [Hb Hp].
  assert (head (rxBuf c) <= scan (rxBuf c) <= tail (rxBuf c)) as Hsc.
  { unfold buffer_ok in Hb. destruct Hst as [[E ?]|[E ?]]; rewrite E in Hp; lia. }
  pose proof (fun c1 => waiting_step m c rest f n c1 Hok Hrest Hhd Hf Hen Hn) as Hstep.
  destruct (parse_loop_rule m (waiting m c f n) (fun c1 => tail (rxBuf c) - scan (rxBuf c1))
    (parse_fuel c) c) as (r & c' & E & Hres).
  - intros c1 (_ & _ & _ & _ & _ & ?). lia.
  - intros c1 HI Hlt. destruct (Hstep c1 HI Hlt) as (c2 & E & HI2 & Es).
    exists PTYPE_NONE, c2. split; [done|]. intros _. split; [done|]. lia.
  - unfold waiting. by split_and!; try done; try lia.
  - unfold buffer_ok in Hb. unfold parse_fuel. nia.
  - destruct Hres as [(-> & HI & Ht)|(Hne & c0 & HI & Hlt & Es)].
    2: { destruct (Hstep c0 HI Hlt) as (c2 & E2 & _). congruence. }
    unfold is_comm_parse, is_comm_parse_timeout. fold (after_timeout c 0).
    rewrite after_timeout_0, E. cbn [mbind option_bind]. rewrite decide_True by done.
    eexists. split; [done|]. fold (record_time 0 c').
    destruct HI as (Hok' & Hst' & Ha' & Hc' & Eh' & Hsc').
    pose proof Ha' as (_ & _ & _ & Et & _).
    destruct (record_time_ok m c' 0 Hok') as [Hok2 Ha2].
    split; [done|]. split; [by etransitivity|].
    unfold record_time, standing, same_counts in *. destruct (processPkt c') eqn:Ep;
      cbn [set_timeMs set_parser rxPktCount rxErrorCount rxErrorTypeCount processPkt rxBuf];
      rewrite ?Ep; (split; [done|]; split; [done|]; split; [done|]; lia).
Qed.
