(* ===== verification/CommReads.v ===== *)
(** * A stream of packets and the reads that deliver it

    What a packet is does not depend on where it lies in memory ([frame_same]), so a
    packet is a list of bytes here ([well_formed]).  However a stream of packets is cut
    into reads, and wherever the receive buffer moves them, the parser is always inside
    the packet that is due ([due]) and reports it when its last byte is there. *)

From S2P Require Import Prelude Checksum Nmea CommTypes CommRx CommMessages CommFrames.
From S2P Require Import CommStep CommParse CommStream CommBuffer CommLocal.

(** ** Packets at another address *)

Section Same.
Context (m m' : region) (h h' n : Z) (Hm : mem_ok m).
Context (Hsame : forall i, 0 <= i < n -> load m' (h' + i) = load m (h + i)).

Lemma load_range_head_same k l :
  0 < k <= n -> load_range m h k = Some l -> load_range m' h' k = Some l.
Proof.
  intros Hk H. rewrite <- (Z.add_0_r h'). apply (load_range_same m m' h h' n Hsame); [lia..|].
  by rewrite Z.add_0_r.
Qed.

Lemma isb_frame_same : isb_frame_at m h n -> isb_frame_at m' h' n.
Proof.
  intros (ps & body & H1 & Hps & En & Hn & Hb & Hck). pose proof (load16_range m Hm _ _ Hps).
  exists ps, body. split_and!; try done.
  - apply (load_same m m' h h' n Hsame 1); (lia || done).
  - apply (load16_same m m' h h' n Hsame 4); (lia || done).
  - apply load_range_head_same; (lia || done).
  - rewrite <- Z.add_assoc in *. apply (load16_same m m' h h' n Hsame (6 + ps)); (lia || done).
Qed.

Lemma nmea_frame_same : nmea_frame_at m h n -> nmea_frame_at m' h' n.
Proof.
  intros (dg & body & Hn & Hno & Hcr & Hd & Hb & E). exists dg, body.
  rewrite <- Z.add_sub_assoc in Hcr, Hd.
  split_and!; try done; try lia.
  - intros i Hi. rewrite Hsame by lia. by apply Hno.
  - rewrite <- Z.add_sub_assoc. apply (load_same m m' h h' n Hsame (n - 2)); (lia || done).
  - rewrite <- Z.add_sub_assoc. apply (load_range_same m m' h h' n Hsame (n - 4)); (lia || done).
  - apply (load_range_same m m' h h' n Hsame 1); (lia || done).
Qed.

Lemma ublox_frame_same : ublox_frame_at m h n -> ublox_frame_at m' h' n.
Proof.
  intros (ps & body & H1 & Hps & En & Hb & Hck). exists ps, body.
  assert (7 <= n) by (rewrite En; lia). rewrite <- Z.add_sub_assoc in Hck.
  split_and!; try done.
  - apply (load_same m m' h h' n Hsame 1); (lia || done).
  - apply (load16_same m m' h h' n Hsame 4); (lia || done).
  - apply (load_range_same m m' h h' n Hsame 2); (lia || done).
  - rewrite <- Z.add_sub_assoc. apply (load16_same m m' h h' n Hsame (n - 2)); (lia || done).
Qed.

Lemma rtcm3_frame_same bsz : rtcm3_frame_at m bsz h n -> rtcm3_frame_at m' bsz h' n.
Proof.
  intros (len & body & Hl & En & Hn & Hn' & Hb & Hck). pose proof (getBits_nonneg _ _ _ _ _ Hl).
  exists len, body. rewrite <- Z.add_sub_assoc in Hck. split_and!; try done.
  - apply (getBits_same m m' h h' n Hsame); [lia|change ((14 + 10 - 1) / 8) with 2; lia|done].
  - apply load_range_head_same; (lia || done).
  - rewrite <- Z.add_sub_assoc.
    apply (getBits_same m m' (h + (n - 3)) (h' + (n - 3)) 3);
      [|lia|change ((0 + 24 - 1) / 8) with 2; lia|done].
    intros i Hi. rewrite <- !Z.add_assoc. apply Hsame. lia.
Qed.

Lemma spartn_frame_same : spartn_frame_at m h n -> spartn_frame_at m' h' n.
Proof.
  intros (h1 & h2 & h3 & h4 & x & H1 & H2 & H3 & H4 & Hck & Hx & En).
  pose proof (spartn_len_range h1 h2 h3 h4 x). pose proof (spartn_last_hdr_range h3 h4).
  exists h1, h2, h3, h4, x.
  split_and!; try done; apply (load_same m m' h h' n Hsame); (lia || done).
Qed.

Lemma sony_frame_same bsz : sony_frame_at m bsz h n -> sony_frame_at m' bsz h' n.
Proof.
  intros (hdr & ds & data & Hh & Hf & Hds & H1 & H2 & En & Hd & Hx).
  pose proof (load16_range m Hm _ _ Hds). exists hdr, ds, data. split_and!; try done.
  - apply load_range_head_same; (lia || done).
  - apply (load_same m m' h h' n Hsame 4); (lia || done).
  - apply (load16_same m m' h h' n Hsame 1); (lia || done).
  - destruct (Z.eq_dec ds 0) as [->|].
    + change (Some [] = Some data). by rewrite <- Hd.
    + apply (load_range_same m m' h h' n Hsame 5); (lia || done).
  - rewrite <- Z.add_assoc in *. apply (load_same m m' h h' n Hsame (5 + ds)); (lia || done).
Qed.

Lemma frame_same f bsz : frame_at m bsz h f n -> frame_at m' bsz h' f n.
Proof.
  intros Hf. pose proof (frame_at_size _ _ _ _ _ Hm Hf) as Hn. destruct Hf as [H0 Hf]. split.
  { rewrite <- (Z.add_0_r h'). apply (load_same m m' h h' n Hsame); [lia|]. by rewrite Z.add_0_r. }
  destruct f; [by apply isb_frame_same|by apply nmea_frame_same|by apply ublox_frame_same
    |by apply rtcm3_frame_same|by apply spartn_frame_same|by apply sony_frame_same].
Qed.

Lemma isb_header_ok_same : 6 <= n -> isb_header_ok m h -> isb_header_ok m' h'.
Proof.
  intros Hn Hok H0 H1 flags ps Hf Hps. apply Hok.
  - rewrite <- H0, <- (Z.add_0_r h), <- (Z.add_0_r h'). symmetry. apply Hsame. lia.
  - rewrite <- H1. symmetry. apply Hsame. lia.
  - rewrite <- Hf. symmetry. apply Hsame. lia.
  - eapply (load16_same m' m h' h n); [intros; symmetry; by apply Hsame|lia..|done].
Qed.

(** A request for data has the two bytes that its kind depends on. *)
Lemma isb_kind_same r :
  isb_frame_at m h n -> isb_header_ok m h -> load m h = Some PSC_ISB_PREAMBLE_BYTE1 ->
  isb_kind m h = Some r -> isb_kind m' h' = Some r.
Proof.
  intros (ps & body & H1 & Hps & En & Hn & _) Hok H0. pose proof (load16_range m Hm _ _ Hps).
  unfold isb_kind. intros (flags & Hfl & H2)%bind_Some.
  rewrite Hps in H2. cbn [mbind option_bind] in H2.
  specialize (Hok H0 H1 flags ps Hfl Hps).
  rewrite (load_same m m' h h' n Hsame 2 flags) by (lia || done). cbn [mbind option_bind].
  rewrite (load16_same m m' h h' n Hsame 4 ps) by (lia || done). cbn [mbind option_bind].
  revert H2. destruct (Z.eqb_spec (Z.land flags PKT_TYPE_MASK) PKT_TYPE_GET_DATA) as [Eg|]; [|done].
  intros (g & Hg & H2)%bind_Some.
  rewrite (load16_same m m' h h' n Hsame 8 g) by (lia || done || (apply Hok in Eg; lia)). done.
Qed.

Lemma kind_same f bsz r :
  frame_at m bsz h f n -> (f = ProcIsb -> isb_header_ok m h) ->
  kind_at f m h r -> kind_at f m' h' r.
Proof.
  intros [H0 Hf] Hok. destruct f; try done. by apply isb_kind_same; [|apply Hok|].
Qed.
End Same.

(** ** Packets as bytes *)

Record stream_packet := StreamPacket {
  sp_fn : pFnProcessPkt;
  sp_type : protocol_type_t;
  sp_bytes : list Z
}.

Definition alone (bs : list Z) : region := Region 1 bs.

(** A packet of an enabled protocol that the parser reports with its type. *)
Definition well_formed (bsz mask : Z) (p : stream_packet) : Prop :=
  let bs := sp_bytes p in
  Forall byte bs /\ frame_at (alone bs) bsz 1 (sp_fn p) (lenZ bs) /\
  kind_at (sp_fn p) (alone bs) 1 (sp_type p) /\
  (sp_fn p = ProcIsb -> isb_header_ok (alone bs) 1) /\
  Z.land mask (enable_bit (sp_fn p)) <> 0.

Definition stream (ps : list stream_packet) : list Z := concat (map sp_bytes ps).

Lemma well_formed_length bsz mask p : well_formed bsz mask p -> 6 <= lenZ (sp_bytes p) <= 65535.
Proof.
  intros (Hb & Hf & _). by apply (frame_at_size (sp_fn p) (alone (sp_bytes p)) bsz 1).
Qed.

Section Placed.
Context (bsz mask : Z) (p : stream_packet) (Hw : well_formed bsz mask p).
Context (m : region) (h : Z).
Context (Hat : forall i, 0 <= i < lenZ (sp_bytes p) -> load m (h + i) = nthZ (sp_bytes p) i).

Lemma placed_same i :
  0 <= i < lenZ (sp_bytes p) -> load m (h + i) = load (alone (sp_bytes p)) (1 + i).
Proof. intros Hi. rewrite Hat by done. unfold load, alone. cbn [base cells]. f_equal. lia. Qed.

Lemma placed_frame : frame_at m bsz h (sp_fn p) (lenZ (sp_bytes p)).
Proof. destruct Hw as (Hb & Hf & _). by apply (frame_same (alone (sp_bytes p)) m 1 h _ Hb placed_same). Qed.

Lemma placed_kind : kind_at (sp_fn p) m h (sp_type p).
Proof.
  destruct Hw as (Hb & Hf & Hk & Hh & _).
  by apply (kind_same (alone (sp_bytes p)) m 1 h _ Hb placed_same _ bsz).
Qed.

Lemma placed_header : sp_fn p = ProcIsb -> isb_header_ok m h.
Proof.
  intros E. destruct Hw as (Hb & Hf & _ & Hh & _).
  apply (isb_header_ok_same (alone (sp_bytes p)) m 1 h _ placed_same); [|by apply Hh].
  pose proof (well_formed_length _ _ _ Hw). lia.
Qed.
End Placed.

(** ** Where the parser is in the stream *)

(** The buffer holds the beginning of the packets [ps], of which the bytes [more] are
    still to come, and the parser is before or inside the first of them. *)
Definition due (m : region) (c : is_comm_instance_t) (ps : list stream_packet)
    (more : list Z) : Prop :=
  comm_ok m c /\ pending m c ++ more = stream ps /\
  match ps with
  | [] => processPkt c = None /\ scan (rxBuf c) = head (rxBuf c)
  | p :: _ => standing (sp_fn p) (head (rxBuf c)) (lenZ (sp_bytes p)) c
  end.

(** The first packet is not complete. *)
Definition unfinished (c : is_comm_instance_t) (ps : list stream_packet) : Prop :=
  match ps with
  | [] => True
  | p :: _ => tail (rxBuf c) - head (rxBuf c) < lenZ (sp_bytes p)
  end.

Lemma due_idle m c ps more :
  comm_ok m c -> pending m c ++ more = stream ps ->
  processPkt c = None -> scan (rxBuf c) = head (rxBuf c) -> due m c ps more.
Proof. intros. split; [done|]. split; [done|]. destruct ps; [done|by left]. Qed.

Lemma due_parse m c p ps more mask :
  due m c (p :: ps) more -> mask = enabledMask c -> well_formed (buf_size (rxBuf c)) mask p ->
  lenZ (sp_bytes p) <= tail (rxBuf c) - head (rxBuf c) ->
  exists c', is_comm_parse m c = Some (sp_type p, c') /\ due m c' ps more /\ advances c c' /\
    rx_pkt (sp_fn p) m (head (rxBuf c)) (lenZ (sp_bytes p)) (rxPkt c') /\
    kind_at (sp_fn p) m (head (rxBuf c)) (sp_type p) /\
    load_range m (head (rxBuf c)) (lenZ (sp_bytes p)) = Some (sp_bytes p) /\
    head (rxBuf c') = head (rxBuf c) + lenZ (sp_bytes p) /\
    ptype_of (sp_fn p) (sp_type p) /\
    rxPktCount c' = u32 (rxPktCount c + 1) /\ rxErrorCount c' = rxErrorCount c.
Proof.
  intros (Hok & Hpend & Hst) -> Hw Hlen. pose proof Hok as [Hb _].
  pose proof (lenZ_pending m c Hb) as Hlp.
  unfold stream in Hpend. cbn [map concat] in Hpend.
  assert (forall i, 0 <= i < lenZ (sp_bytes p) ->
    load m (head (rxBuf c) + i) = nthZ (sp_bytes p) i) as Hat.
  { intros i Hi. rewrite <- pending_load by (done || lia).
    pose proof (f_equal (fun l => nthZ l i) Hpend) as E. cbn beta in E.
    rewrite !nthZ_app in E. revert E. by split_cmp. }
  pose proof (placed_frame _ _ p Hw m _ Hat) as Hf.
  pose proof (placed_kind _ _ p Hw m _ Hat) as Hk.
  destruct (parse_standing m c _ _ _ _ Hok (placed_header _ _ p Hw m _ Hat) Hst Hf Hk)
    as (c' & E & Hok' & Ha & Hpt & Hrx & Epc & Eec & _ & _ & Eh & Esc & Epp);
    [apply Hw|lia|].
  exists c'. split; [done|]. split; [|split_and!; try done].
  - apply due_idle; try done; [|by rewrite Eh, Esc].
    destruct (pending_advances m c c' Hb ltac:(apply Hok') Ha) as [l Hl].
    assert (lenZ l = lenZ (sp_bytes p)) as Ell.
    { pose proof (lenZ_pending m c' ltac:(apply Hok')) as Hlp'.
      destruct Ha as (_ & _ & _ & Et & _). rewrite Hl, lenZ_app in Hlp. lia. }
    rewrite Hl, <- app_assoc in Hpend. apply app_inj_1 in Hpend as [_ ->]; [done|].
    unfold lenZ in Ell. lia.
  - pose proof (bytes_at_range m (head (rxBuf c)) (sp_bytes p) 0 (lenZ (sp_bytes p))) as P.
    rewrite Z.add_0_r in P. pose proof (lenZ_nonneg (sp_bytes p)).
    rewrite (P Hat) by lia. f_equal. list_ext.
Qed.

Lemma due_wait m c ps more :
  due m c ps more -> Forall (well_formed (buf_size (rxBuf c)) (enabledMask c)) ps ->
  unfinished c ps ->
  exists c', is_comm_parse m c = Some (PTYPE_NONE, c') /\ due m c' ps more /\ advances c c' /\
    unfinished c' ps /\ rxPktCount c' = rxPktCount c /\ rxErrorCount c' = rxErrorCount c.
Proof.
  intros (Hok & Hpend & Hst) Hw Hun. pose proof Hok as [Hb _].
  pose proof (lenZ_pending m c Hb) as Hlp. destruct ps as [|p ps].
  - destruct Hst as [Hi Es]. apply app_nil in Hpend as [Hp0 ->].
    assert (tail (rxBuf c) = head (rxBuf c)) as Et by (rewrite Hp0 in Hlp; change (lenZ []) with 0 in Hlp; lia).
    assert (parse_loop (parse_fuel c) m c = Some (PTYPE_NONE, c)) as E.
    { destruct (parse_fuel c) as [|k] eqn:Ek; [unfold parse_fuel in Ek; lia|].
      cbn [parse_loop]. by rewrite Es, Et, Z.ltb_irrefl. }
    exists c. split.
    { unfold is_comm_parse, is_comm_parse_timeout. rewrite Hi, E. cbn [mbind option_bind].
      by rewrite decide_True, Hi by done. }
    split; [|by split_and!]. apply due_idle; try done. by rewrite Hp0.
  - apply Forall_cons_iff in Hw as [Hw _]. cbn [unfinished] in Hun.
    unfold stream in Hpend. cbn [map concat] in Hpend.
    set (rest := dropZ (tail (rxBuf c) - head (rxBuf c)) (sp_bytes p)).
    assert (Forall byte rest) as Hrest by (apply Forall_drop, Hw).
    assert (forall i, 0 <= i < lenZ (sp_bytes p) ->
      load (completed m c rest) (head (rxBuf c) + i) = nthZ (sp_bytes p) i) as Hat.
    { intros i Hi. destruct (Z.lt_ge_cases i (tail (rxBuf c) - head (rxBuf c))).
      - rewrite load_completed, <- pending_load by (done || lia).
        pose proof (f_equal (fun l => nthZ l i) Hpend) as E. cbn beta in E.
        rewrite !nthZ_app in E. revert E. by split_cmp.
      - unfold buffer_ok in Hb. unfold load, completed, rest. cbn [base cells]. nth_ext. }
    destruct (parse_partial m c rest _ _ Hok Hrest Hst (placed_header _ _ p Hw _ _ Hat)
      (placed_frame _ _ p Hw _ _ Hat)) as (c' & E & Hok' & Ha & Hc & Hst' & Eh & Es);
      [apply Hw|lia|].
    exists c'. destruct Hc as (Epc & Eec & _). pose proof Ha as (_ & _ & _ & Et & _).
    split; [done|]. split; [|split_and!; try done].
    + split; [done|]. split; [|by rewrite Eh].
      unfold pending. rewrite Eh, Et. exact Hpend.
    + cbn [unfinished]. lia.
Qed.

(** The next bytes of the stream go behind the tail of the buffer. *)
Lemma due_append m c bs ps more bsz mask :
  due m c ps (bs ++ more) -> Forall (well_formed bsz mask) ps ->
  lenZ bs <= buf_end (rxBuf c) - tail (rxBuf c) ->
  exists m' c', store_range m (tail (rxBuf c)) bs = Some m' /\
    c' = set_tail (tail (rxBuf c) + lenZ bs) c /\ due m' c' ps more.
Proof.
  intros (Hok & Hpend & Hst) Hw Hlen.
  assert (Forall byte (stream ps)) as HS.
  { unfold stream. apply Forall_concat, Forall_map. eapply Forall_impl; [|exact Hw].
    by intros p (Hb & _). }
  rewrite <- Hpend, !Forall_app in HS.
  destruct (append_ok m c bs Hok ltac:(apply HS) Hlen) as (m' & c' & _ & Hok' & Hsto & Ec' & Hp').
  exists m', c'. split; [done|]. split; [done|].
  split; [done|]. split; [by rewrite Hp', <- app_assoc|].
  rewrite Ec'. unfold standing in *. by buf_simpl.
Qed.

(** ** The client of the stream *)

(** What the dispatch loop needs of its client: the callbacks record each packet, and
    the port delivers the next bytes of the stream, as many as it likes. *)
Class stream_client {St : Type} (cb : is_comm_callbacks_t St)
    (portRead : Z -> Z -> St -> St * list Z * Z)
    (seen : St -> list (protocol_type_t * list Z)) (todo : St -> list Z) : Prop := {
  client_packet port m c st f h n r bs :
    rx_pkt f m h n (rxPkt c) -> kind_at f m h r -> head (rxBuf c) = h + n ->
    load_range m h n = Some bs ->
    exists w1 st', dispatch port cb r (World m c st) = Some w1 /\
      call_handler (cb_all cb) port w1 = Some (World m c st') /\
      seen st' = seen st ++ [(r, bs)] /\ todo st' = todo st;
  client_read port n st : 0 < n ->
    exists st' bs, portRead port n st = (st', bs, lenZ bs) /\ lenZ bs <= n /\
      todo st = bs ++ todo st' /\ seen st' = seen st
}.

Definition packet_events (ps : list stream_packet) : list (protocol_type_t * list Z) :=
  map (fun p => (sp_type p, sp_bytes p)) ps.

Section Reads.
Context {St : Type} (cb : is_comm_callbacks_t St)
  (portRead : Z -> Z -> St -> St * list Z * Z)
  (seen : St -> list (protocol_type_t * list Z)) (todo : St -> list Z)
  `{Hclient : !stream_client cb portRead seen todo}.

(** The client has seen the first of the packets, and the rest are due. *)
Definition progress (w : world St) (ps : list stream_packet) (more : list Z) (w' : world St)
    (ps' : list stream_packet) (more' : list Z) : Prop :=
  exists ps1, ps = ps1 ++ ps' /\ due (w_mem w') (w_comm w') ps' more' /\
    seen (w_st w') = seen (w_st w) ++ packet_events ps1 /\
    buf_size (rxBuf (w_comm w')) = buf_size (rxBuf (w_comm w)) /\
    enabledMask (w_comm w') = enabledMask (w_comm w) /\
    rxPktCount (w_comm w') =
      Nat.iter (length ps1) (fun x => u32 (x + 1)) (rxPktCount (w_comm w)) /\
    rxErrorCount (w_comm w') = rxErrorCount (w_comm w).

Lemma progress_refl w ps more :
  due (w_mem w) (w_comm w) ps more -> progress w ps more w ps more.
Proof. exists []. rewrite app_nil_r. by split_and!. Qed.

Lemma progress_trans w1 ps1 more1 w2 ps2 more2 w3 ps3 more3 :
  progress w1 ps1 more1 w2 ps2 more2 -> progress w2 ps2 more2 w3 ps3 more3 ->
  progress w1 ps1 more1 w3 ps3 more3.
Proof.
  intros (a & -> & _ & S1 & B1 & M1 & P1 & E1) (b & -> & D & S2 & B2 & M2 & P2 & E2).
  exists (a ++ b). split; [by rewrite app_assoc|]. split; [done|]. unfold packet_events in *.
  rewrite map_app, S2, S1, app_assoc, B2, B1, M2, M1, E2, E1, P2, P1, length_app.
  split_and!; try done. by rewrite Nat.add_comm, Nat.iter_add.
Qed.

Lemma parse_messages_due fuel port w ps more :
  due (w_mem w) (w_comm w) ps more ->
  Forall (well_formed (buf_size (rxBuf (w_comm w))) (enabledMask (w_comm w))) ps ->
  tail (rxBuf (w_comm w)) - head (rxBuf (w_comm w)) < Z.of_nat fuel ->
  exists w' ps', parse_messages fuel port cb w = Some w' /\
    progress w ps more w' ps' more /\ unfinished (w_comm w') ps' /\
    todo (w_st w') = todo (w_st w).
Proof.
  revert w ps. induction fuel as [|fuel IH]; intros w ps Hdue Hw Hfuel.
  { destruct Hdue as [[Hb _] _]. unfold buffer_ok in Hb. lia. }
  destruct w as [m c st]. cbn [w_mem w_comm w_st] in *. cbn [parse_messages w_mem w_comm w_st].
  assert (unfinished c ps \/ exists p ps', ps = p :: ps' /\
    lenZ (sp_bytes p) <= tail (rxBuf c) - head (rxBuf c)) as [Hun|(p & ps' & -> & Hlen)].
  { destruct ps as [|p ps]; [by left|]. cbn [unfinished].
    destruct (Z.lt_ge_cases (tail (rxBuf c) - head (rxBuf c)) (lenZ (sp_bytes p)));
      [by left|right; by exists p, ps]. }
  - destruct (due_wait m c ps more Hdue Hw Hun) as (c' & -> & Hdue' & Ha & Hun' & Epc & Eec).
    cbn [mbind option_bind]. rewrite decide_True by done.
    exists (World m c' st), ps. split; [done|]. split; [|done].
    destruct Ha as (_ & _ & Esz & _ & Emk & _). exists []. cbn [w_mem w_comm w_st].
    rewrite app_nil_r. by split_and!.
  - apply Forall_cons_iff in Hw as [Hwp Hw].
    destruct (due_parse m c p ps' more _ Hdue eq_refl Hwp Hlen)
      as (c' & -> & Hdue' & Ha & Hrx & Hk & Hld & Eh & Hpt & Epc & Eec).
    cbn [mbind option_bind]. rewrite decide_False by by eapply ptype_of_not.
    destruct (client_packet port m c' st _ _ _ _ _ Hrx Hk Eh Hld) as (w1 & st' & -> & Hall & Es & Et).
    cbn [mbind option_bind]. rewrite Hall. cbn [mbind option_bind].
    pose proof (well_formed_length _ _ _ Hwp). pose proof Ha as (_ & _ & Esz & Etl & Emk & _).
    destruct (IH (World m c' st') ps') as (w' & ps2 & E & Hpr & Hun & Et'); cbn [w_mem w_comm w_st].
    + done. + by rewrite Esz, Emk. + lia.
    + exists w', ps2. split; [done|]. split; [|split; [done|by rewrite Et']].
      eapply progress_trans; [|exact Hpr]. exists [p]. cbn [w_st w_comm w_mem]. by split_and!.
Qed.

(** ** Reads *)

(** No packet is longer than what [is_comm_free] keeps when the buffer is full. *)
Definition fits (bsz : Z) (p : stream_packet) : Prop := lenZ (sp_bytes p) <= bsz - bsz / 3.

Lemma free_due m c ps more :
  due m c ps more -> unfinished c ps -> 3 <= buf_size (rxBuf c) ->
  Forall (fits (buf_size (rxBuf c))) ps ->
  exists m' c' n, is_comm_free m c = Some (m', c', n) /\ due m' c' ps more /\
    unfinished c' ps /\ n = buf_end (rxBuf c') - tail (rxBuf c') /\ 0 < n /\
    buf_size (rxBuf c') = buf_size (rxBuf c) /\ enabledMask c' = enabledMask c /\
    rxPktCount c' = rxPktCount c /\ rxErrorCount c' = rxErrorCount c.
Proof.
  intros (Hok & Hpend & Hst) Hun Hsz Hfit. pose proof Hok as [Hb Hp].
  pose proof Hb as Hb'. unfold buffer_ok in Hb'.
  destruct (decide (tail (rxBuf c) = buf_end (rxBuf c))) as [Et|Et].
  2: { rewrite is_comm_free_room by done. exists m, c, (buf_end (rxBuf c) - tail (rxBuf c)).
       split_and!; try done; lia. }
  assert (buf_size (rxBuf c) / 3 <= head (rxBuf c) - buf_start (rxBuf c)) as Hs.
  { destruct ps as [|p ps].
    - destruct Hst as [Hi Es]. apply app_nil in Hpend as [Hp0 _].
      pose proof (lenZ_pending m c Hb) as Hlp. rewrite Hp0 in Hlp. change (lenZ []) with 0 in Hlp.
      assert (buf_size (rxBuf c) / 3 <= buf_size (rxBuf c)) by (apply Z.div_le_upper_bound; lia). lia.
    - apply Forall_cons_iff in Hfit as [Hfit _]. unfold fits, unfinished in *. lia. }
  assert (1 <= buf_size (rxBuf c) / 3) by (apply Z.div_le_lower_bound; lia).
  destruct (is_comm_free_shift m c Hok Et Hs) as (m' & c' & -> & Hok' & Hp' & Hi & Ec).
  exists m', c', (head (rxBuf c) - buf_start (rxBuf c)). split; [done|].
  split; [split; [done|]; split; [by rewrite Hp'|]|].
  - rewrite Ec. destruct ps as [|p ps]; unfold standing in *; buf_simpl; [destruct Hst as [? ->]; by split; [|lia]|].
    destruct Hst as [[? ?]|(? & _ & ?)]; [left|right]; (split; [done|]); lia.
  - rewrite Ec. unfold unfinished in *. buf_simpl. destruct ps; split_and!; try done; lia.
Qed.

Lemma read_due port w ps :
  due (w_mem w) (w_comm w) ps (todo (w_st w)) -> unfinished (w_comm w) ps ->
  let c := w_comm w in
  3 <= buf_size (rxBuf c) ->
  Forall (well_formed (buf_size (rxBuf c)) (enabledMask c)) ps ->
  Forall (fits (buf_size (rxBuf c))) ps ->
  exists w' ps', is_comm_port_parse_messages portRead port cb w = Some w' /\
    progress w ps (todo (w_st w)) w' ps' (todo (w_st w')) /\ unfinished (w_comm w') ps'.
Proof.
  intros Hdue Hun c Hsz Hw Hfit. subst c. destruct w as [m0 c0 st]. cbn [w_mem w_comm w_st] in *.
  unfold is_comm_port_parse_messages. cbn [w_mem w_comm w_st].
  destruct (free_due m0 c0 ps _ Hdue Hun Hsz Hfit)
    as (m & c & n & -> & Hdue1 & Hun1 & En & Hn & Esz & Emk & Epc & Eec).
  cbn [mbind option_bind].
  destruct (client_read (todo := todo) port n st Hn) as (st' & bs & -> & Hbs & Etd & Eseen).
  rewrite Etd in Hdue1.
  destruct (due_append m c bs ps (todo st') _ _ Hdue1 Hw ltac:(lia)) as (m' & c' & Hsto & Ec' & Hdue2).
  rewrite Hsto. cbn [mbind option_bind].
  destruct (Z.leb_spec (lenZ bs) 0) as [H0|H0].
  - assert (bs = []) as -> by (apply lenZ_0_nil; pose proof (lenZ_nonneg bs); lia).
    change (Some m = Some m') in Hsto. injection Hsto as <-.
    exists (World m c st'), ps. split; [done|]. split; [|done]. exists []. rewrite app_nil_r.
    cbn [w_mem w_comm w_st]. by split_and!.
  - rewrite <- Ec'.
    destruct (parse_messages_due (messages_fuel c') port (World m' c' st') ps (todo st'))
      as (w' & ps' & E & Hpr & Hun' & Etd'); cbn [w_mem w_comm w_st] in *; try done.
    + rewrite Ec'. buf_simpl. by rewrite Esz, Emk.
    + unfold messages_fuel. destruct Hdue2 as [[Hb' _] _]. unfold buffer_ok in Hb'. lia.
    + exists w', ps'. split; [done|]. split; [|done]. rewrite Etd'.
      eapply progress_trans; [|exact Hpr]. exists []. rewrite app_nil_r. rewrite Ec'.
      cbn [w_mem w_comm w_st]. buf_simpl. split_and!; try done. by rewrite <- Ec'.
Qed.

Fixpoint port_reads (k : nat) (port : Z) (w : world St) : option (world St) :=
  match k with
  | O => Some w
  | S k => w ← is_comm_port_parse_messages portRead port cb w; port_reads k port w
  end.

Lemma reads_due k port w ps :
  due (w_mem w) (w_comm w) ps (todo (w_st w)) -> unfinished (w_comm w) ps ->
  let c := w_comm w in
  3 <= buf_size (rxBuf c) ->
  Forall (well_formed (buf_size (rxBuf c)) (enabledMask c)) ps ->
  Forall (fits (buf_size (rxBuf c))) ps ->
  exists w' ps', port_reads k port w = Some w' /\
    progress w ps (todo (w_st w)) w' ps' (todo (w_st w')) /\ unfinished (w_comm w') ps'.
Proof.
  revert w ps. induction k as [|k IH]; intros w ps Hdue Hun c Hsz Hw Hfit; subst c.
  { exists w, ps. split; [done|]. split; [by apply progress_refl|done]. }
  cbn [port_reads].
  destruct (read_due port w ps Hdue Hun Hsz Hw Hfit) as (w1 & ps1 & -> & Hpr & Hun1).
  cbn [mbind option_bind]. pose proof Hpr as (a & -> & Hdue1 & _ & Esz & Emk & _).
  apply Forall_app in Hw as [_ Hw]. apply Forall_app in Hfit as [_ Hfit].
  destruct (IH w1 ps1 Hdue1 Hun1) as (w2 & ps2 & -> & Hpr2 & Hun2); rewrite ?Esz, ?Emk; try done.
  exists w2, ps2. split; [done|]. split; [by eapply progress_trans|done].
Qed.
End Reads.

(** ** One byte at a time *)

(** A packet has been reported: where it is, and what the packet structure says. *)
Definition reported (m : region) (c : is_comm_instance_t) (p : stream_packet) : Prop :=
  let n := lenZ (sp_bytes p) in
  let h := head (rxBuf c) - n in
  rx_pkt (sp_fn p) m h n (rxPkt c) /\ kind_at (sp_fn p) m h (sp_type p) /\
  load_range m h n = Some (sp_bytes p) /\ ptype_of (sp_fn p) (sp_type p).

(** The next byte of the stream completes the packet that is due, or it does not. *)
Lemma due_byte m c x ps more :
  due m c ps (x :: more) -> unfinished c ps -> 3 <= buf_size (rxBuf c) ->
  Forall (well_formed (buf_size (rxBuf c)) (enabledMask c)) ps ->
  Forall (fits (buf_size (rxBuf c))) ps ->
  exists m' r c' ps', is_comm_parse_byte m c x = Some (m', r, c') /\
    due m' c' ps' more /\ unfinished c' ps' /\
    buf_size (rxBuf c') = buf_size (rxBuf c) /\ enabledMask c' = enabledMask c /\
    ((r = PTYPE_NONE /\ ps' = ps) \/
     (exists p, ps = p :: ps' /\ r = sp_type p /\ reported m' c' p)).
Proof.
  intros Hdue Hun Hsz Hw Hfit.
  unfold is_comm_parse_byte, is_comm_parse_byte_timeout.
  destruct (free_due m c ps _ Hdue Hun Hsz Hfit)
    as (m1 & c1 & n & -> & Hdue1 & Hun1 & En & Hn & Esz & Emk & _).
  cbn [mbind option_bind].
  destruct (due_append m1 c1 [x] ps more _ _ Hdue1 Hw) as (m2 & c2 & Hsto & Ec2 & Hdue2);
    [change (lenZ [x]) with 1; lia|].
  unfold store. rewrite Hsto. cbn [mbind option_bind]. change (lenZ [x]) with 1 in Ec2.
  rewrite <- Ec2. fold (is_comm_parse m2 c2).
  assert (buf_size (rxBuf c2) = buf_size (rxBuf c) /\ enabledMask c2 = enabledMask c /\
    head (rxBuf c2) = head (rxBuf c1) /\ tail (rxBuf c2) = tail (rxBuf c1) + 1)
    as (Esz2 & Emk2 & Eh2 & Et2) by (rewrite Ec2; buf_simpl; done).
  assert (unfinished c2 ps \/ exists p ps', ps = p :: ps' /\
    lenZ (sp_bytes p) = tail (rxBuf c2) - head (rxBuf c2)) as [Hun2|(p & ps' & -> & Hlen)].
  { destruct ps as [|p ps]; [by left|]. cbn [unfinished] in *.
    destruct (Z.lt_ge_cases (tail (rxBuf c2) - head (rxBuf c2)) (lenZ (sp_bytes p)));
      [by left|right; exists p, ps; split; [done|lia]]. }
  - destruct (due_wait m2 c2 ps more Hdue2) as (c' & -> & Hdue' & Ha & Hun' & _);
      [by rewrite Esz2, Emk2|done|].
    destruct Ha as (_ & _ & Esz' & _ & Emk' & _). cbn [mbind option_bind].
    exists m2, PTYPE_NONE, c', ps. split_and!; try done; [by rewrite Esz', Esz2|by rewrite Emk', Emk2|].
    by left.
  - pose proof Hw as Hw'. apply Forall_cons_iff in Hw' as [Hwp Hw'].
    destruct (due_parse m2 c2 p ps' more _ Hdue2 eq_refl) as (c' & -> & Hdue' & Ha & Hrx & Hk & Hld & Eh & Hpt & _);
      [by rewrite Esz2, Emk2|lia|].
    pose proof Ha as (_ & _ & Esz' & Et' & Emk' & _). cbn [mbind option_bind].
    exists m2, (sp_type p), c', ps'. split; [done|]. split; [done|].
    split; [|split; [by rewrite Esz', Esz2|split; [by rewrite Emk', Emk2|]]].
    + destruct ps' as [|p' ps']; [done|]. apply Forall_cons_iff in Hw' as [Hwp' _].
      pose proof (well_formed_length _ _ _ Hwp'). cbn [unfinished]. lia.
    + right. exists p. split; [done|]. split; [done|]. unfold reported.
      by replace (head (rxBuf c') - lenZ (sp_bytes p)) with (head (rxBuf c2)) by lia.
Qed.

(** C16: From an idle instance with an empty receive buffer of bsz >= 3 bytes on, however
    the port cuts a stream of well-formed packets, none longer than bsz - bsz/3, into reads,
    the callbacks, which leave the instance alone, get the packets once each, in order and
    unchanged, and no error is counted, wherever the receive buffer moves the bytes: after
    any number of reads the packets received are the first of the stream, and all of them
    when the port has delivered everything. *)
Theorem stream_delivered {St} (cb : is_comm_callbacks_t St) portRead seen todo
    `{!stream_client cb portRead seen todo} k port w ps :
  let c := w_comm w in
  comm_ok (w_mem w) c -> pending (w_mem w) c = [] -> processPkt c = None ->
  scan (rxBuf c) = head (rxBuf c) -> 3 <= buf_size (rxBuf c) ->
  todo (w_st w) = stream ps ->
  Forall (well_formed (buf_size (rxBuf c)) (enabledMask c)) ps ->
  Forall (fits (buf_size (rxBuf c))) ps ->
  exists w' ps1 ps2, port_reads cb portRead k port w = Some w' /\ ps = ps1 ++ ps2 /\
    seen (w_st w') = seen (w_st w) ++ packet_events ps1 /\
    pending (w_mem w') (w_comm w') ++ todo (w_st w') = stream ps2 /\
    unfinished (w_comm w') ps2 /\ (todo (w_st w') = [] -> ps2 = []) /\
    comm_ok (w_mem w') (w_comm w') /\
    rxPktCount (w_comm w') = Nat.iter (length ps1) (fun x => u32 (x + 1)) (rxPktCount c) /\
    rxErrorCount (w_comm w') = rxErrorCount c.
Proof.
  intros c Hok Hp0 Hi Es Hsz Htd Hw Hfit. subst c.
  assert (due (w_mem w) (w_comm w) ps (todo (w_st w))) as Hdue
    by (apply due_idle; [done|by rewrite Hp0|done|done]).
  assert (unfinished (w_comm w) ps) as Hun.
  { destruct ps as [|p ps]; [done|]. apply Forall_cons_iff in Hw as [Hw _].
    pose proof (well_formed_length _ _ _ Hw). cbn [unfinished].
    rewrite <- lenZ_pending with (m := w_mem w), Hp0 by apply Hok. change (lenZ []) with 0. lia. }
  destruct (reads_due cb portRead seen todo k port w ps Hdue Hun Hsz Hw Hfit)
    as (w' & ps2 & E & (ps1 & -> & (Hok' & Hpend & _) & Hs & _ & _ & Hpc & Hec) & Hun').
  exists w', ps1, ps2. split_and!; try done. intros E0. rewrite E0, app_nil_r in Hpend.
  destruct ps2 as [|p ps2]; [done|]. cbn [unfinished] in Hun'.
  rewrite <- lenZ_pending with (m := w_mem w'), Hpend in Hun' by apply Hok'.
  unfold stream in Hun'. cbn [map concat] in Hun'. rewrite lenZ_app in Hun'.
  pose proof (lenZ_nonneg (concat (map sp_bytes ps2))). lia.
Qed.
