(* ===== verification/CommProps.v ===== *)
(** * Properties of the packet parser

    Safety and termination, soundness and completeness of what it reports, the
    dispatch loop on a stream of packets, and the error counters. *)

From S2P Require Import Prelude Checksum Nmea CommTypes CommRx CommTx CommMessages.
From S2P Require Import CommFrames CommStep CommParse CommStream CommBuffer.

(** C1: For an instance that satisfies the parser invariant, let every ISB header between
    head and tail announce a payload below 65528 bytes (so that the parser's 16-bit size
    does not wrap), and every GET_DATA header at least two payload bytes. Then a call of the
    parser returns, reads only inside of the buffer, keeps the invariant, and has looked at
    every byte when it reports nothing. *)
Theorem parse_total m c t :
  comm_ok m c -> headers_ok m (rxBuf c) ->
  exists r c', is_comm_parse_timeout m c t = Some (r, c') /\
    comm_ok m c' /\ advances c c' /\
    (r = PTYPE_NONE -> tail (rxBuf c) <= scan (rxBuf c')).
Proof.
  intros Hok Hhd.
  destruct (parse_timeout_ok m c t (fun _ => True)
    (fun r c' => r = PTYPE_NONE -> tail (rxBuf c) <= scan (rxBuf c')))
    as (r & c' & E & Hok' & Ha & HP); try done.
  - intros. by eapply headers_ok_all.
  - intros c1 _ _ (_ & _ & _ & Et & _) Ht _. rewrite <- Et.
    unfold record_time. by destruct (processPkt c1).
  - by exists r, c'.
Qed.

(** C2: For an instance that satisfies the parser invariant and a buffer where every ISB
    header announces a payload below 65528 bytes and every GET_DATA header at least two,
    every packet the parser reports is, between the old head and tail, a frame of its
    protocol in the sense of frame_at, and rxPkt describes it. frame_at is the length and
    the checksum as the code takes them: a u-blox length is reduced to 16 bits (a length
    field from 65528 on makes a frame of seven bytes), the byte behind the carriage return
    of an NMEA sentence may be anything, and of a SPARTN packet only the CRC-4 of the header
    is checked, not the checksum of its payload. *)
Theorem parse_sound m c t r c' :
  comm_ok m c -> headers_ok m (rxBuf c) ->
  is_comm_parse_timeout m c t = Some (r, c') ->
  r <> PTYPE_NONE -> r <> PTYPE_PARSE_ERROR ->
  exists f h n, head (rxBuf c) <= h /\ h + n <= tail (rxBuf c) /\
    frame_at m (buf_size (rxBuf c)) h f n /\ ptype_of f r /\
    rx_pkt f m h n (rxPkt c') /\
    head (rxBuf c') = h + n /\ scan (rxBuf c') = h + n /\ processPkt c' = None.
Proof.
  intros Hok Hhd E Hr He.
  destruct (parse_timeout_ok m c t (fun _ => True)
    (fun r c' => r <> PTYPE_NONE -> r <> PTYPE_PARSE_ERROR ->
      exists f h n, head (rxBuf c) <= h /\ h + n <= tail (rxBuf c) /\
        frame_at m (buf_size (rxBuf c)) h f n /\ ptype_of f r /\ rx_pkt f m h n (rxPkt c') /\
        head (rxBuf c') = h + n /\ scan (rxBuf c') = h + n /\ processPkt c' = None))
    as (r1 & c1 & E1 & _ & _ & HP); try done.
  { intros. by eapply headers_ok_all. }
  2: { rewrite E in E1. injection E1 as <- <-. by apply HP. }
  clear - Hok. intros c1 r c2 _ Hok1 (_ & _ & Esz & Et & _ & Hh) Hlt Hs.
  split; [done|]. intros _ Hr He.
  destruct Hs as [x Ef Hx Hd|f Ef Hx Hd|x Ef Hx Es E0|f r c' Ef Hst|f r c' Ef Hst|f r c' Ef Hst];
    try done.
  - by destruct Hst as (p & -> & -> & _).
  - destruct Hst as (p & e & E & _).
    by apply reportParseError_buf in E as (_ & _ & _ & _ & _ & _ & [[-> _]|[-> _]]).
  - destruct Hst as (p & Hf & _ & Hdel). destruct Hok1 as [Hb1 Hp1].
    rewrite Ef in Hp1. assert (mem_ok m) as Hm by apply Hb1.
    pose proof (delivered_rx_pkt f m (buf_size (rxBuf c1)) (set_parser p c1) _ _ _ Hm Hf Hdel).
    apply (delivered_cases f m (buf_size (rxBuf c1)) (set_parser p c1)) in Hdel; [|done|done].
    destruct Hdel as [[Hr' (Eb & Epp & _)]|(_ & -> & _)]; [|done].
    exists f, (head (rxBuf c1)), (scan (rxBuf c1) - head (rxBuf c1) + 1).
    rewrite <- Esz. unfold scan_inc, set_scan. cbn [rxBuf set_rxBuf rxPkt processPkt].
    rewrite Eb, Epp. buf_simpl. split_and!; try done; lia.
Qed.


(** C23: on a buffer that holds a run of well-formed packets, the dispatch loop ends
    after calling the callbacks once for each packet, in order, each time with the
    packet structure describing that packet; it counts the packets and no error. *)
Theorem parse_messages_stream {St} (cb : is_comm_callbacks_t St) port (w : world St) ps :
  let c := w_comm w in
  passive cb -> comm_ok (w_mem w) c -> processPkt c = None ->
  packets_at (w_mem w) (buf_size (rxBuf c)) (enabledMask c) (scan (rxBuf c)) ps
    (tail (rxBuf c)) ->
  exists w', parse_messages (messages_fuel c) port cb w = Some w' /\
    handles cb (w_mem w) port w ps w' /\
    scan (rxBuf (w_comm w')) = tail (rxBuf (w_comm w')) /\
    rxPktCount (w_comm w') = Nat.iter (length ps) (fun x => u32 (x + 1)) (rxPktCount c) /\
    rxErrorCount (w_comm w') = rxErrorCount c.
Proof.
  intros c Hpas Hok Hidle Hps.
  destruct (parse_messages_run cb (messages_fuel c) port (w_mem w) w ps)
    as (w' & E & Hh & Hs & _ & Hpc & Hec); try done.
  - pose proof (packets_at_le _ _ _ _ _ _ ltac:(apply Hok) Hps).
    destruct Hok as [Hb Hp]. rewrite Hidle in Hp. unfold messages_fuel. lia.
  - by exists w'.
Qed.

(** C24: On a buffer where every ISB header announces a payload below 65528 bytes and every
    GET_DATA header at least two, the dispatch loop with callbacks that return and leave the
    instance and its memory alone ends within two results for each unparsed byte and three
    more, keeps the invariant and has looked at every byte. *)
Theorem parse_messages_total {St} (cb : is_comm_callbacks_t St) port (w : world St) :
  passive cb -> comm_ok (w_mem w) (w_comm w) -> headers_ok (w_mem w) (rxBuf (w_comm w)) ->
  exists w', parse_messages (messages_fuel (w_comm w)) port cb w = Some w' /\
    w_mem w' = w_mem w /\ comm_ok (w_mem w) (w_comm w') /\
    tail (rxBuf (w_comm w')) <= scan (rxBuf (w_comm w')).
Proof.
  intros Hpas Hok Hhd.
  destruct (parse_messages_returns cb (messages_fuel (w_comm w)) port w Hpas Hok Hhd)
    as (w' & E & Em & Hok' & _ & Ht); [by eapply potential_fuel|].
  by exists w'.
Qed.

(** C25: An instance that is initialised on a buffer of at least three bytes and fed one
    byte at a time with a stream in which every ISB header announces a payload below 65528
    bytes, and every GET_DATA header at least two, never accesses memory outside of its
    buffer; what it still holds is the end of the stream. *)
Theorem parse_bytes_safe m size xs :
  0 < base m -> lenZ (cells m) = size -> 3 <= size < 2147483648 ->
  Forall byte xs -> headers_fine xs ->
  exists m0 c0 m' c' rs,
    is_comm_init m (base m) size = Some (m0, c0) /\
    parse_bytes m0 c0 xs = Some (m', c', rs) /\ comm_ok m' c' /\
    length rs = length xs /\ exists l, xs = l ++ pending m' c'.
Proof.
  intros Hb Hl Hsz Hxs Hfine.
  destruct (is_comm_init_ok m (base m) size) as (m0 & c0 & E0 & Hok0 & Hp0 & Es0 & _);
    [done|done|lia|lia|].
  destruct (parse_bytes_ok m0 c0 [] xs Hok0) as (m' & c' & rs & E & Hok & Hlen & l & Hl');
    [lia|done|by rewrite Hp0|].
  exists m0, c0, m', c', rs. split_and!; try done. exists l. by rewrite Hp0 in Hl'.
Qed.

(** [is_comm_free] returns the free space behind [tail], which is never zero for
    a buffer of three bytes or more, and the bytes between [head] and [tail] are
    either all kept or, when the buffer is full and less than a third of it could be
    reclaimed, all dropped with the parser reset. *)
Theorem is_comm_free_spec m c :
  comm_ok m c ->
  exists m' c' n, is_comm_free m c = Some (m', c', n) /\ comm_ok m' c' /\
    n = buf_end (rxBuf c') - tail (rxBuf c') /\ (3 <= buf_size (rxBuf c) -> 0 < n) /\
    (if (tail (rxBuf c) =? buf_end (rxBuf c)) &&
        (head (rxBuf c) - buf_start (rxBuf c) <? buf_size (rxBuf c) / 3)
     then pending m' c' = [] /\ processPkt c' = None
     else pending m' c' = pending m c /\ processPkt c' = processPkt c).
Proof.
  intros Hok. pose proof Hok as [Hb _]. unfold buffer_ok in Hb.
  destruct (Z.eqb_spec (tail (rxBuf c)) (buf_end (rxBuf c))) as [Et|Et]; cbn [andb].
  2: { rewrite is_comm_free_room by done. exists m, c, (buf_end (rxBuf c) - tail (rxBuf c)).
       split_and!; try done; lia. }
  destruct (Z.ltb_spec (head (rxBuf c) - buf_start (rxBuf c)) (buf_size (rxBuf c) / 3)) as [Hs|Hs].
  - destruct (is_comm_free_flush m c Hok Et Hs) as (c' & -> & Hok' & Hp & Hi & _ & _ & _ & Eb & _).
    exists m, c', (buf_size (rxBuf c)). rewrite Eb. buf_simpl. split_and!; try done; lia.
  - destruct (is_comm_free_shift m c Hok Et Hs) as (m' & c' & -> & Hok' & Hp & Hi & Ec).
    exists m', c', (head (rxBuf c) - buf_start (rxBuf c)). split; [done|]. split; [done|].
    split; [rewrite Ec; buf_simpl; lia|]. split; [|done].
    intros H3. assert (1 <= buf_size (rxBuf c) / 3) by (apply Z.div_le_lower_bound; lia). lia.
Qed.

(** ** Error counters *)

(** The counters of [c'] are those of [c] plus one error of the type [c'] records. *)
Definition one_error (c c' : is_comm_instance_t) : Prop :=
  rxErrorCount c' = u32 (rxErrorCount c + 1) /\
  (forall e, rxErrorTypeCount c' e =
     if decide (e = rxErrorType c') then u32 (rxErrorTypeCount c e + 1) else rxErrorTypeCount c e) /\
  rxErrorState c' = 1.

Definition no_error (c c' : is_comm_instance_t) : Prop :=
  rxErrorCount c' = rxErrorCount c /\ (forall e, rxErrorTypeCount c' e = rxErrorTypeCount c e).

Lemma count_error_one e c : one_error c (count_error e (set_rxErrorState 1 c)).
Proof.
  unfold one_error. cbn. split; [done|]. split; [|done]. intros e'.
  by destruct (decide (e' = e)) as [->|].
Qed.

Lemma delivered_reject f m bsz c n c' :
  mem_ok m -> frame_at m bsz (head (rxBuf c)) f n ->
  delivered f m c (head (rxBuf c)) n PTYPE_PARSE_ERROR c' -> one_error c c'.
Proof.
  intros Hm Hf Hd.
  destruct (delivered_cases f m bsz c n _ c' Hm Hf Hd)
    as [[Hr _]|(-> & _ & _)]; [by apply ptype_of_not in Hr as []|].
  cbn [delivered] in Hd. destruct Hd as (ps & ck & Hps & Hck & Hsz & Hpkt).
  destruct Hf as [_ (ps' & body & _ & Hps' & -> & _)].
  rewrite Hps in Hps'. injection Hps' as <-.
  apply isb_packet_cases in Hpkt as (pkt & ack & flags & _ & _ & g & _ & Hr);
    [|by eapply load16_range|done].
  destruct (isb_ptype flags _ g) eqn:E.
  { destruct Hr as [<- _]. by apply isb_ptype_of in E as [|[]]. }
  destruct Hr as [_ Hr]. rewrite reportParseError_0 in Hr by done.
  apply (f_equal snd) in Hr. cbn [snd] in Hr. subst c'.
  exact (count_error_one EPARSE_INVALID_DATATYPE (is_comm_reset_parser
    (set_ackNeeded ack (set_rxPkt pkt (validPacketReset c (ps + 8)))))).
Qed.

Lemma stepped_errors m c r c' :
  comm_ok m c -> stepped m c r c' ->
  (r = PTYPE_PARSE_ERROR -> one_error c c' /\
   (rxErrorState c = 0 \/ rxPktCount c' = u32 (rxPktCount c + 1))) /\
  (r <> PTYPE_PARSE_ERROR -> no_error c c') /\
  (r = PTYPE_NONE -> rxErrorState c' = rxErrorState c /\ rxPktCount c' = rxPktCount c) /\
  (r <> PTYPE_NONE -> r <> PTYPE_PARSE_ERROR ->
   rxErrorState c' = 0 /\ rxPktCount c' = u32 (rxPktCount c + 1)).
Proof.
  intros [Hb _] H.
  destruct H as [x Ef Hx Hd|f Ef Hx Hd|x Ef Hx Es E0|f r c' Ef Hst|f r c' Ef Hst|f r c' Ef Hst];
    try (by split_and!).
  - rewrite reportParseError_0 by done. split_and!; try done.
    intros _. split; [apply count_error_one|by left].
  - destruct Hst as (p & -> & -> & _). by split_and!.
  - destruct Hst as (p & e & E & _).
    pose proof (reportParseError_buf _ _ _ _ E) as (_ & _ & _ & _ & _ & _ & [(-> & -> & _)|[-> E0]]).
    { by split_and!. }
    rewrite reportParseError_0 in E by done. injection E as <-. split_and!; try done.
    intros _. split; [|by left].
    exact (count_error_one e (is_comm_reset_parser (set_parser p c))).
  - destruct Hst as (p & Hf & _ & Hdel).
    assert (mem_ok m) as Hm by apply Hb.
    destruct (delivered_cases f m _ (set_parser p c) _ _ _ Hm Hf Hdel)
      as [[Hr (_ & _ & _ & Epc & Ees & Eec & Eet)]|(-> & -> & (_ & _ & _ & Epc & _))].
    + apply ptype_of_not in Hr as [Hr1 Hr2]. split_and!; try done.
      intros _. split; [exact Eec|]. intros e. cbn. by rewrite Eet.
    + split_and!; try done. intros _. split; [|by right].
      by apply (delivered_reject ProcIsb m (buf_size (rxBuf c)) (set_parser p c)) in Hdel.
Qed.

(** C27: a call that reports an error adds exactly one to the error count and to the
    count of the error type it records; every other call leaves the counters
    alone.  Between two valid packets at most one error is reported. *)
Theorem parse_error_accounting m c t r c' :
  comm_ok m c -> headers_ok m (rxBuf c) ->
  is_comm_parse_timeout m c t = Some (r, c') ->
  (r = PTYPE_PARSE_ERROR -> one_error c c' /\
   (rxErrorState c = 0 \/ rxPktCount c' = u32 (rxPktCount c + 1))) /\
  (r <> PTYPE_PARSE_ERROR -> no_error c c') /\
  (r <> PTYPE_NONE -> r <> PTYPE_PARSE_ERROR ->
   rxErrorState c' = 0 /\ rxPktCount c' = u32 (rxPktCount c + 1)).
Proof.
  intros Hok Hhd E.
  destruct (parse_timeout_ok m c t
    (fun c1 => no_error c c1 /\ rxErrorState c1 = rxErrorState c /\ rxPktCount c1 = rxPktCount c)
    (fun r c' =>
      (r = PTYPE_PARSE_ERROR -> one_error c c' /\
       (rxErrorState c = 0 \/ rxPktCount c' = u32 (rxPktCount c + 1))) /\
      (r <> PTYPE_PARSE_ERROR -> no_error c c') /\
      (r <> PTYPE_NONE -> r <> PTYPE_PARSE_ERROR ->
       rxErrorState c' = 0 /\ rxPktCount c' = u32 (rxPktCount c + 1))))
    as (r1 & c1 & E1 & _ & _ & HP); try done.
  - unfold after_timeout. destruct (processPkt c); [destruct (_ <? _)|]; by repeat split.
  - intros. by eapply headers_ok_all.
  - intros c1 r1 c2 ((Hec & Htc) & Hes & Hpc) Hok1 _ _ Hs.
    destruct (stepped_errors m c1 r1 c2 Hok1 Hs) as (H1 & H2 & H3 & H4).
    assert (r1 <> PTYPE_PARSE_ERROR -> no_error c c2) as Hno.
    { intros Hr. destruct (H2 Hr) as [Ha Hb]. split; [congruence|].
      intros e. by rewrite Hb, Htc. }
    split.
    + intros ->. split; [by apply Hno|]. destruct (H3 eq_refl). split; congruence.
    + intros Hr. rewrite <- Hes, <- Hpc. split_and!; auto.
      intros Her. destruct (H1 Her) as ((Ha & Hb & Hc) & Hd). split; [|done].
      split; [congruence|]. split; [|done]. intros e. by rewrite Hb, !Htc.
  - intros c1 (Hno & _) _ _ _. split_and!; try done. intros _.
    unfold record_time. by destruct (processPkt c1).
  - rewrite E in E1. injection E1 as <- <-. exact HP.
Qed.
