(* ===== verification/CommTxProps.v ===== *)
(** * Properties of sending

    Both encoders produce the same bytes, the bytes are a well-formed packet, and a
    packet that is written and then parsed comes back unchanged. *)

From S2P Require Import Prelude Checksum Nmea CommTypes CommRx CommTx CommFrames CommStep.
From S2P Require Import CommParse CommBuffer.

(** ** The wire format *)

(** The payload: the offset, when there is one, and the data. *)
Definition isb_payload (offset : Z) (data : list Z) : list Z :=
  (if offset =? 0 then [] else le16_bytes offset) ++ data.

Definition isb_flags (flags offset : Z) : Z :=
  if offset =? 0 then flags else Z.lor flags ISB_FLAGS_PAYLOAD_W_OFFSET.

(** Everything the checksum covers. *)
Definition isb_body (flags did offset : Z) (data : list Z) : list Z :=
  [PSC_ISB_PREAMBLE_BYTE1; PSC_ISB_PREAMBLE_BYTE2; isb_flags flags offset; u8 did] ++
  le16_bytes (lenZ (isb_payload offset data)) ++ isb_payload offset data.

Definition isb_wire (flags did offset : Z) (data : list Z) : list Z :=
  isb_body flags did offset data ++
  le16_bytes (is_comm_isb_checksum16 0 (isb_body flags did offset data)).

(** The arguments an encoder is called with. *)
Definition tx_args_ok (flags did offset : Z) (data : list Z) : Prop :=
  0 <= flags < 256 /\ 0 <= did < 65536 /\ 0 <= offset < 65536 /\ Forall byte data /\
  lenZ (isb_payload offset data) + 8 < 65536.

Lemma lenZ_le16_bytes x : lenZ (le16_bytes x) = 2.
Proof. done. Qed.
#[export] Hint Rewrite lenZ_le16_bytes : lenZ.

Lemma le16_bytes_byte x : Forall byte (le16_bytes x).
Proof. repeat constructor; unfold byte, lo8, hi8; zlia. Qed.

Lemma lenZ_isb_payload offset data :
  lenZ (isb_payload offset data) = lenZ data + (if offset =? 0 then 0 else 2).
Proof. unfold isb_payload. destruct (offset =? 0); autorewrite with lenZ; lia. Qed.

Lemma lenZ_isb_body flags did offset data :
  lenZ (isb_body flags did offset data) = 6 + lenZ (isb_payload offset data).
Proof. unfold isb_body. autorewrite with lenZ. lia. Qed.

Lemma lenZ_isb_wire flags did offset data :
  lenZ (isb_wire flags did offset data) = 8 + lenZ (isb_payload offset data).
Proof. unfold isb_wire. rewrite lenZ_app, lenZ_isb_body, lenZ_le16_bytes. lia. Qed.

Lemma isb_flags_byte flags offset : byte flags -> byte (isb_flags flags offset).
Proof.
  unfold isb_flags. destruct (offset =? 0); [done|]. unfold byte. intros H.
  split; [apply Z.lor_nonneg; unfold ISB_FLAGS_PAYLOAD_W_OFFSET; lia|].
  destruct (decide (Z.lor flags ISB_FLAGS_PAYLOAD_W_OFFSET = 0)) as [->|]; [lia|].
  change 256 with (2 ^ 8). apply Z.log2_lt_pow2.
  - assert (0 <= Z.lor flags ISB_FLAGS_PAYLOAD_W_OFFSET)
      by (apply Z.lor_nonneg; unfold ISB_FLAGS_PAYLOAD_W_OFFSET; lia). lia.
  - rewrite Z.log2_lor by (unfold ISB_FLAGS_PAYLOAD_W_OFFSET; lia).
    apply Z.max_lub_lt; [|done].
    destruct (decide (flags = 0)) as [->|]; [done|]. apply Z.log2_lt_pow2; lia.
Qed.

(** The packet the encoder prepares. *)
Section Encode.
Context (pkt0 : tx_packet) (flags did offset : Z) (data : list Z).
Context (Hargs : tx_args_ok flags did offset data).
#[local] Abbreviation pkt := (is_comm_encode_hdr pkt0 flags did (lenZ data) offset data).
#[local] Abbreviation payload := (isb_payload offset data).

Lemma encode_payloadSize : hdr_payloadSize pkt = lenZ payload.
Proof.
  destruct Hargs as (_ & _ & _ & _ & Hn). rewrite lenZ_isb_payload in *.
  unfold is_comm_encode_hdr. cbn [hdr_payloadSize]. pose proof (lenZ_nonneg data).
  destruct (offset =? 0); [lia|]. unfold u16. rewrite Z.mod_small; lia.
Qed.

Lemma encode_hdr_bytes :
  hdr_bytes pkt = [PSC_ISB_PREAMBLE_BYTE1; PSC_ISB_PREAMBLE_BYTE2; isb_flags flags offset; u8 did]
    ++ le16_bytes (lenZ payload).
Proof. unfold hdr_bytes. rewrite encode_payloadSize. reflexivity. Qed.

Lemma encode_size : pkt_size pkt = lenZ (isb_wire flags did offset data).
Proof.
  rewrite lenZ_isb_wire.
  change (pkt_size pkt) with (u16 (hdr_payloadSize pkt + sizeof_packet_hdr_t + 2)).
  rewrite encode_payloadSize. destruct Hargs as (_ & _ & _ & _ & Hn).
  pose proof (lenZ_nonneg payload). unfold u16, sizeof_packet_hdr_t.
  rewrite Z.mod_small; lia.
Qed.

Lemma encode_hdr_byte : Forall byte (hdr_bytes pkt).
Proof.
  destruct Hargs as (Hfl & _). rewrite encode_hdr_bytes. apply Forall_app. split.
  - repeat constructor; unfold byte, u8; try done; try zlia; apply isb_flags_byte; done.
  - apply le16_bytes_byte.
Qed.

(** The checksum chained over header, offset and data is the checksum of the body. *)
Lemma encode_checksum :
  is_comm_isb_checksum16 (hdrCksum pkt) data =
  is_comm_isb_checksum16 0 (isb_body flags did offset data).
Proof.
  unfold isb_body. rewrite app_assoc, <- encode_hdr_bytes. unfold isb_payload.
  rewrite (ck16_app _ (hdr_bytes pkt)) by apply encode_hdr_byte.
  change (hdrCksum pkt) with (if offset =? 0 then is_comm_isb_checksum16 0 (hdr_bytes pkt)
    else is_comm_isb_checksum16 (is_comm_isb_checksum16 0 (hdr_bytes pkt)) (le16_bytes offset)).
  destruct (offset =? 0); [done|]. by rewrite (ck16_app _ (le16_bytes offset)) by apply le16_bytes_byte.
Qed.

Lemma encode_hdrCksum_nil : is_comm_isb_checksum16 (hdrCksum pkt) [] = hdrCksum pkt.
Proof.
  assert (0 <= hdrCksum pkt < 65536) as Hr.
  { change (hdrCksum pkt) with (if offset =? 0 then is_comm_isb_checksum16 0 (hdr_bytes pkt)
      else is_comm_isb_checksum16 (is_comm_isb_checksum16 0 (hdr_bytes pkt)) (le16_bytes offset)).
    destruct (offset =? 0); apply ck16_range; auto using le16_bytes_byte, encode_hdr_byte. }
  generalize dependent (hdrCksum pkt). intros x Hx.
  unfold is_comm_isb_checksum16, is_comm_fletcher16, ck16_to, ck16_of, le16, lo8, hi8.
  cbn [fold_left ck_a ck_b]. zlia.
Qed.
End Encode.

(** Consecutive stores are one store. *)
Lemma store_range_app m a l1 l2 :
  base m <= a -> a + lenZ (l1 ++ l2) <= base m + lenZ (cells m) ->
  (m1 ← store_range m a l1; store_range m1 (a + lenZ l1) l2) = store_range m a (l1 ++ l2).
Proof.
  intros Ha He. rewrite lenZ_app in He. pose proof (lenZ_nonneg l1). pose proof (lenZ_nonneg l2).
  rewrite !store_range_ok by (rewrite ?lenZ_app; lia). cbn [mbind option_bind].
  rewrite store_range_ok.
  2: cbn; lia. 2: cbn [base cells]; rewrite lenZ_updZ; lia.
  cbn [base cells]. do 2 f_equal. apply nthZ_ext.
  - rewrite !lenZ_updZ; rewrite ?lenZ_updZ, ?lenZ_app; lia.
  - intros i Hi. rewrite !nthZ_updZ; rewrite ?lenZ_updZ, ?lenZ_app; try lia.
    rewrite nthZ_app. split_cmp; nth_done.
Qed.

(** ** Writing to a buffer *)

Lemma MEMCPY_INC_ok m a l :
  base m <= a -> a + lenZ l <= base m + lenZ (cells m) ->
  exists m', store_range m a l = Some m' /\ MEMCPY_INC m a l = Some (m', a + lenZ l) /\
    base m' = base m /\ lenZ (cells m') = lenZ (cells m).
Proof.
  intros Ha He. unfold MEMCPY_INC. rewrite store_range_ok by done. cbn [mbind option_bind].
  pose proof (lenZ_nonneg l). eexists. split; [done|]. split; [done|]. split; [done|].
  cbn [cells]. rewrite lenZ_updZ; lia.
Qed.

Lemma MEMCPY_INC_nil m a : MEMCPY_INC m a [] = Some (m, a).
Proof. change (Some (m, a + 0) = Some (m, a)). by rewrite Z.add_0_r. Qed.

Lemma bind_step {A B} (f : A -> option B) t x r : t = Some x -> f x = r -> (y ← t; f y) = r.
Proof. by intros -> <-. Qed.

(** Four stores in a row. *)
Lemma stores4 m a l1 l2 l3 l4 :
  base m <= a -> a + lenZ (l1 ++ l2 ++ l3 ++ l4) <= base m + lenZ (cells m) ->
  exists m1 m2 m3 m4,
    MEMCPY_INC m a l1 = Some (m1, a + lenZ l1) /\
    MEMCPY_INC m1 (a + lenZ l1) l2 = Some (m2, a + lenZ l1 + lenZ l2) /\
    MEMCPY_INC m2 (a + lenZ l1 + lenZ l2) l3 = Some (m3, a + lenZ l1 + lenZ l2 + lenZ l3) /\
    MEMCPY_INC m3 (a + lenZ l1 + lenZ l2 + lenZ l3) l4 =
      Some (m4, a + lenZ l1 + lenZ l2 + lenZ l3 + lenZ l4) /\
    store_range m a (l1 ++ l2 ++ l3 ++ l4) = Some m4.
Proof.
  intros Ha He. rewrite !lenZ_app in He.
  pose proof (lenZ_nonneg l1). pose proof (lenZ_nonneg l2). pose proof (lenZ_nonneg l3).
  pose proof (lenZ_nonneg l4).
  destruct (MEMCPY_INC_ok m a l1) as (m1 & S1 & E1 & B1 & L1); [lia|lia|].
  destruct (MEMCPY_INC_ok m1 (a + lenZ l1) l2) as (m2 & S2 & E2 & B2 & L2); [lia|lia|].
  destruct (MEMCPY_INC_ok m2 (a + lenZ l1 + lenZ l2) l3) as (m3 & S3 & E3 & B3 & L3); [lia|lia|].
  destruct (MEMCPY_INC_ok m3 (a + lenZ l1 + lenZ l2 + lenZ l3) l4) as (m4 & S4 & E4 & _); [lia|lia|].
  exists m1, m2, m3, m4. split_and!; try done.
  do 3 (rewrite <- store_range_app by (rewrite ?lenZ_app; lia);
    match goal with H : store_range ?x ?y ?z = Some _ |- (_ ← store_range ?x ?y ?z; _) = _ =>
      rewrite H; cbn [mbind option_bind] end).
  exact S4.
Qed.

(** What a stream port promises: it takes every byte it is given, and two writes in
    a row are one. *)
Class stream_port {W} (portWrite : pfnIsCommPortWrite W) (emit : Z -> list Z -> W -> W) : Prop := {
  sp_write port bs w : portWrite port bs w = (emit port bs w, lenZ bs);
  sp_app port a b w : emit port b (emit port a w) = emit port (a ++ b) w
}.

(** A port whose state is the list of the bytes written. *)
Definition list_port : pfnIsCommPortWrite (list Z) := fun _ bs w => (w ++ bs, lenZ bs).
#[export] Instance list_stream_port : stream_port list_port (fun _ bs w => w ++ bs).
Proof. split; [done|]. intros. by rewrite app_assoc. Qed.

Section Write.
Context (comm : is_comm_instance_t) (flags did offset : Z) (data : list Z).
Context (Hargs : tx_args_ok flags did offset data).
#[local] Abbreviation wire := (isb_wire flags did offset data).
#[local] Abbreviation pkt pkt0 := (is_comm_encode_hdr pkt0 flags did (lenZ data) offset data).
#[local] Abbreviation off := (if offset =? 0 then [] else le16_bytes offset).
#[local] Abbreviation ck := (is_comm_isb_checksum16 0 (isb_body flags did offset data)).

Lemma wire_parts pkt0 : wire = hdr_bytes (pkt pkt0) ++ off ++ data ++ le16_bytes ck.
Proof.
  unfold isb_wire. unfold isb_body at 1. rewrite encode_hdr_bytes by done.
  unfold isb_payload at 2. by rewrite <- !app_assoc.
Qed.

(** The packet after the checksum is completed. *)
Lemma completed_checksum pkt0 :
  (if lenZ data =? 0 then set_checksum (hdrCksum (pkt pkt0)) (pkt pkt0)
   else set_checksum (is_comm_isb_checksum16 (hdrCksum (pkt pkt0)) data)
          (set_checksum (hdrCksum (pkt pkt0)) (pkt pkt0))) = set_checksum ck (pkt pkt0).
Proof.
  rewrite <- (encode_checksum pkt0) by done. destruct (Z.eqb_spec (lenZ data) 0) as [E|]; [|done].
  f_equal. apply lenZ_0_nil in E. rewrite E in *. symmetry. by apply encode_hdrCksum_nil.
Qed.

Lemma precomp_to_buffer_ok m buf bsz pkt0 :
  lenZ wire <= bsz -> base m <= buf -> buf + lenZ wire <= base m + lenZ (cells m) ->
  exists m', store_range m buf wire = Some m' /\
    is_comm_write_isb_precomp_to_buffer m buf bsz comm (pkt pkt0) =
      Some (m', set_txPktCount (u32 (txPktCount comm + 1)) comm,
            set_checksum ck (pkt pkt0), lenZ wire).
Proof.
  intros Hfit Hb He. rewrite (wire_parts pkt0) in He.
  destruct (stores4 m buf _ _ _ _ Hb He) as (m1 & m2 & m3 & m4 & E1 & E2 & E3 & E4 & Es).
  rewrite <- wire_parts in Es. exists m4. split; [done|].
  unfold is_comm_write_isb_precomp_to_buffer.
  assert (pkt_size (pkt pkt0) = lenZ wire) as Esz by by apply encode_size.
  rewrite Esz, (proj2 (Z.ltb_ge _ _)) by lia.
  pose proof (completed_checksum pkt0) as Eck. pose proof (lenZ_nonneg data).
  eapply bind_step; [exact E1|]. cbn beta iota.
  eapply bind_step.
  { instantiate (1 := (m2, _)). rewrite <- E2.
    change (pkt_offset (set_checksum (hdrCksum (pkt pkt0)) (pkt pkt0))) with offset.
    destruct (offset =? 0); [|done]. by rewrite MEMCPY_INC_nil. }
  cbn beta iota. eapply bind_step.
  { instantiate (1 := (m3, buf + lenZ (hdr_bytes (pkt pkt0)) + lenZ off + lenZ data,
      set_checksum ck (pkt pkt0))). rewrite <- Eck.
    change (CommTypes.data_size (set_checksum (hdrCksum (pkt pkt0)) (pkt pkt0))) with (lenZ data).
    destruct (Z.eqb_spec (lenZ data) 0) as [E0|].
    - assert (forall a, MEMCPY_INC m2 a data = Some (m2, a)) as Enil
        by (intros; rewrite (lenZ_0_nil data E0); apply MEMCPY_INC_nil).
      rewrite Enil in E3. injection E3 as <- <-. done.
    - cbn [data_ptr set_checksum is_comm_encode_hdr].
      rewrite take_exact_ok by lia. cbn [mbind option_bind]. rewrite takeZ_all by lia.
      rewrite E3. done. }
  cbn beta iota. eapply bind_step; [exact E4|]. cbn beta iota.
  f_equal. f_equal. by rewrite <- Esz.
Qed.

Lemma write_to_buf_ok m buf bsz :
  lenZ wire <= bsz -> base m <= buf -> buf + lenZ wire <= base m + lenZ (cells m) ->
  exists m', store_range m buf wire = Some m' /\
    is_comm_write_to_buf m buf bsz comm flags did (lenZ data) offset data =
      Some (m', set_txPktCount (u32 (txPktCount comm + 1)) comm, lenZ wire).
Proof.
  intros Hfit Hb He. destruct (precomp_to_buffer_ok m buf bsz stack_packet Hfit Hb He)
    as (m' & Es & E).
  exists m'. split; [done|]. unfold is_comm_write_to_buf. by rewrite E.
Qed.

Lemma write_to_buf_short m buf bsz :
  bsz < lenZ wire ->
  is_comm_write_to_buf m buf bsz comm flags did (lenZ data) offset data = Some (m, comm, -1).
Proof.
  intros Hfit. unfold is_comm_write_to_buf, is_comm_write_isb_precomp_to_buffer.
  rewrite encode_size by done. by rewrite (proj2 (Z.ltb_lt _ _)) by lia.
Qed.

(** ** Writing to a port *)

(** The packet written to a stream port, whatever the unassigned fields held. *)
Lemma precomp_to_port_ok {W} (portWrite : pfnIsCommPortWrite W) emit
    `{!stream_port portWrite emit} port pkt0 (w : W) :
  is_comm_write_isb_precomp_to_port portWrite port comm (pkt pkt0) w =
    Some (emit port wire w, set_txPktCount (u32 (txPktCount comm + 1)) comm,
          set_checksum ck (pkt pkt0), lenZ wire).
Proof.
  unfold is_comm_write_isb_precomp_to_port.
  pose proof (lenZ_nonneg data). pose proof (completed_checksum pkt0) as Eck.
  assert (pkt_size (pkt pkt0) = lenZ wire) as Esz by by apply encode_size.
  set (p0 := pkt pkt0) in *. rewrite sp_write. cbn beta iota.
  change (hdr_bytes (set_checksum (hdrCksum p0) p0)) with (hdr_bytes p0).
  change (pkt_offset (set_checksum (hdrCksum p0) p0)) with offset.
  change (CommTypes.data_size (set_checksum (hdrCksum p0) p0)) with (lenZ data).
  change (data_ptr (set_checksum (hdrCksum p0) p0)) with data.
  change (pkt_checksum (set_checksum (hdrCksum p0) p0)) with (hdrCksum p0).
  rewrite sp_write. cbn beta iota. rewrite sp_app.
  assert ((if offset =? 0 then (emit port (hdr_bytes p0) w, lenZ (hdr_bytes p0))
    else (emit port (hdr_bytes p0 ++ le16_bytes offset) w,
          lenZ (hdr_bytes p0) + lenZ (le16_bytes offset)))
    = (emit port (hdr_bytes p0 ++ off) w, lenZ (hdr_bytes p0) + lenZ off)) as ->.
  { destruct (offset =? 0); [|done]. by rewrite app_nil_r, lenZ_nil, Z.add_0_r. }
  cbn beta iota.
  assert (forall n, (n =? pkt_size (set_checksum ck p0)) = (n =? lenZ wire)) as Eq
    by (intros; cbn [pkt_size set_checksum]; by rewrite Esz).
  rewrite (wire_parts pkt0) in Eq |- *. fold p0 in Eq |- *.
  destruct (Z.eqb_spec (lenZ data) 0) as [E0|].
  - cbn [mbind option_bind]. cbn beta iota. rewrite Eck, sp_write.
    change (pkt_checksum (set_checksum ck p0)) with ck. cbn beta iota.
    apply lenZ_0_nil in E0 as E0'. rewrite Eq, sp_app, !lenZ_app, E0, Z.add_0_l, Z.add_assoc, Z.eqb_refl.
    rewrite E0'. cbn [app]. by rewrite <- !app_assoc.
  - rewrite take_exact_ok by lia. cbn [mbind option_bind]. rewrite takeZ_all, sp_write by lia.
    cbn beta iota. cbn [mbind option_bind]. cbn beta iota. rewrite Eck, sp_write, !sp_app.
    change (pkt_checksum (set_checksum ck p0)) with ck. cbn beta iota.
    rewrite Eq, !lenZ_app, !Z.add_assoc, Z.eqb_refl. by rewrite <- !app_assoc.
Qed.

Lemma write_to_port_ok {W} (portWrite : pfnIsCommPortWrite W) emit
    `{!stream_port portWrite emit} port (w : W) :
  is_comm_write (Some portWrite) port comm flags did (lenZ data) offset data w =
    Some (emit port wire w, set_txPktCount (u32 (txPktCount comm + 1)) comm, lenZ wire).
Proof. unfold is_comm_write, is_comm_write_pkt. by rewrite (precomp_to_port_ok portWrite emit). Qed.
End Write.

(** ** The bytes written are a packet *)

Lemma store_range_bytes_at m a l m' :
  base m <= a -> a + lenZ l <= base m + lenZ (cells m) ->
  store_range m a l = Some m' -> bytes_at m' a l.
Proof.
  intros Ha He H k Hk. rewrite store_range_ok in H by done. injection H as <-.
  unfold load. cbn [base cells]. rewrite nthZ_updZ by lia. split_cmp. f_equal. lia.
Qed.

Lemma bytes_at_load16 m a l k lo hi :
  bytes_at m a l -> 0 <= k -> k + 1 < lenZ l ->
  nthZ l k = Some lo -> nthZ l (k + 1) = Some hi -> load16 m (a + k) = Some (le16 lo hi).
Proof.
  intros H Hk Hl Hlo Hhi. unfold load16. rewrite <- Z.add_assoc, !H by lia.
  by rewrite Hlo, Hhi.
Qed.

Lemma le16_split x : 0 <= x < 65536 -> le16 (lo8 x) (hi8 x) = x.
Proof. intros. unfold le16, lo8, hi8. zlia. Qed.

Lemma isb_flags_type flags offset :
  Z.land (isb_flags flags offset) PKT_TYPE_MASK = Z.land flags PKT_TYPE_MASK.
Proof.
  unfold isb_flags. destruct (offset =? 0); [done|].
  rewrite Z.land_lor_distr_l. change (Z.land ISB_FLAGS_PAYLOAD_W_OFFSET PKT_TYPE_MASK) with 0.
  apply Z.lor_0_r.
Qed.

Lemma isb_flags_offset flags offset :
  Z.land flags ISB_FLAGS_PAYLOAD_W_OFFSET = 0 ->
  has_offset (isb_flags flags offset) = negb (offset =? 0).
Proof.
  intros H. unfold has_offset, isb_flags. destruct (offset =? 0).
  - by rewrite H.
  - rewrite Z.land_lor_distr_l, H. reflexivity.
Qed.

Section Wire.
Context (flags did offset : Z) (data : list Z).
Context (Hargs : tx_args_ok flags did offset data).
#[local] Abbreviation wire := (isb_wire flags did offset data).
#[local] Abbreviation payload := (isb_payload offset data).
Context (m : region) (h : Z) (Hm : mem_ok m) (Hat : bytes_at m h wire).

Lemma wire_long : 8 <= lenZ wire.
Proof. rewrite lenZ_isb_wire. pose proof (lenZ_nonneg payload). lia. Qed.

Lemma wire_payloadSize : load16 m (h + 4) = Some (lenZ payload).
Proof.
  pose proof wire_long. destruct Hargs as (_ & _ & _ & _ & Hn). pose proof (lenZ_nonneg payload).
  erewrite bytes_at_load16; [|exact Hat|lia|lia|reflexivity|reflexivity].
  by rewrite le16_split by lia.
Qed.

Lemma wire_flags : load m (h + 2) = Some (isb_flags flags offset).
Proof. pose proof wire_long. rewrite Hat by lia. reflexivity. Qed.

Lemma wire_id : load m (h + 3) = Some (u8 did).
Proof. pose proof wire_long. rewrite Hat by lia. reflexivity. Qed.

Lemma wire_frame bsz :
  lenZ wire <= MAX_MSG_LENGTH_ISB -> frame_at m bsz h ProcIsb (lenZ wire).
Proof.
  intros Hmax. pose proof wire_long. pose proof (lenZ_nonneg payload). split.
  { rewrite <- (Z.add_0_r h). rewrite Hat by lia. reflexivity. }
  set (body := isb_body flags did offset data).
  exists (lenZ payload), body. split_and!.
  - rewrite Hat by lia. reflexivity.
  - apply wire_payloadSize.
  - rewrite lenZ_isb_wire. lia.
  - done.
  - rewrite <- (Z.add_0_r h).
    rewrite (bytes_at_range m h wire 0 (lenZ wire - 2) Hat) by lia. f_equal.
    rewrite lenZ_isb_wire. unfold isb_wire. fold body.
    assert (lenZ body = 6 + lenZ payload) as Eb by apply lenZ_isb_body.
    apply nthZ_ext; [autorewrite with lenZ; lia|]. intros i Hi. autorewrite with lenZ in Hi.
    nth_ext.
  - assert (0 <= is_comm_isb_checksum16 0 body < 65536) as Hck.
    { apply ck16_range. unfold body, isb_body. rewrite app_assoc.
      rewrite <- (encode_hdr_bytes stack_packet) by done. apply Forall_app.
      split; [by apply encode_hdr_byte|]. unfold isb_payload.
      destruct Hargs as (_ & _ & _ & Hd & _). apply Forall_app. split; [|done].
      destruct (offset =? 0); [done|apply le16_bytes_byte]. }
    rewrite <- (le16_split (is_comm_isb_checksum16 0 body)) at 1 by done.
    rewrite <- Z.add_assoc. eapply bytes_at_load16; [exact Hat|lia|rewrite lenZ_isb_wire; lia|..];
      unfold isb_wire; fold body; rewrite nthZ_app;
      (assert (lenZ body = 6 + lenZ payload) as -> by apply lenZ_isb_body); split_cmp.
    + by replace (6 + lenZ payload - (6 + lenZ payload)) with 0 by lia.
    + by replace (6 + lenZ payload + 1 - (6 + lenZ payload)) with 1 by lia.
Qed.

(** The received packet gives back what was sent. *)
Lemma wire_received p :
  Z.land flags ISB_FLAGS_PAYLOAD_W_OFFSET = 0 ->
  isb_rx_pkt m h (lenZ payload) p ->
  Z.land (hdr_flags p) PKT_TYPE_MASK = Z.land flags PKT_TYPE_MASK /\
  hdr_id p = u8 did /\ pkt_offset p = offset /\ data_size p = lenZ data /\
  load_range m (data_ptr p) (data_size p) = Some data.
Proof.
  intros Hfl (fl & id & Efl & Eid & E1 & E2 & _ & _ & E3 & _ & E4 & E5).
  rewrite wire_flags in Efl. injection Efl as <-. rewrite wire_id in Eid. injection Eid as <-.
  pose proof (lenZ_nonneg data) as Hd. pose proof wire_long as Hl.
  rewrite E1, isb_flags_type. unfold isb_data_size in E3.
  rewrite isb_flags_offset in E3, E4, E5 by done.
  assert (data_size p = lenZ data) as Esz.
  { rewrite E3, lenZ_isb_payload. destruct (offset =? 0); cbn [negb]; lia. }
  split; [done|]. split; [done|]. split; [|split; [done|]].
  - destruct (Z.eqb_spec offset 0) as [->|Hne]; cbn [negb] in E5; [done|].
    assert (nthZ wire 6 = Some (lo8 offset) /\ nthZ wire 7 = Some (hi8 offset)) as [N6 N7].
    { unfold isb_wire, isb_body, isb_payload. rewrite (proj2 (Z.eqb_neq offset 0)) by done.
      split; reflexivity. }
    pose proof (bytes_at_load16 m h wire 6 _ _ Hat ltac:(lia) ltac:(lia) N6 N7) as E6.
    rewrite E5 in E6. injection E6 as ->. destruct Hargs as (_ & _ & Ho & _). by apply le16_split.
  - rewrite E4, Esz. destruct (Z.eqb_spec (lenZ data) 0) as [E0|E0].
    { rewrite E0. by rewrite (lenZ_0_nil data E0). }
    pose proof (lenZ_isb_wire flags did offset data) as Ew. rewrite lenZ_isb_payload in Ew.
    rewrite <- Z.add_assoc. rewrite (bytes_at_range m h wire _ _ Hat);
      [|destruct (offset =? 0); cbn [negb]; lia..].
    f_equal. unfold isb_wire, isb_body, isb_payload.
    destruct (offset =? 0); cbn [negb]; list_ext.
Qed.
End Wire.

(** ** Properties *)

(** Writing into the receive buffer of an idle instance that has parsed everything,
    and parsing. *)
Lemma write_then_parse m c comm flags did offset data r :
  let wire := isb_wire flags did offset data in
  comm_ok m c -> processPkt c = None -> scan (rxBuf c) = tail (rxBuf c) ->
  Z.land (enabledMask c) ENABLE_PROTOCOL_ISB <> 0 ->
  tx_args_ok flags did offset data -> Z.land flags ISB_FLAGS_PAYLOAD_W_OFFSET = 0 ->
  lenZ wire <= MAX_MSG_LENGTH_ISB -> lenZ wire <= buf_end (rxBuf c) - tail (rxBuf c) ->
  (Z.land flags PKT_TYPE_MASK = PKT_TYPE_GET_DATA -> 2 <= lenZ (isb_payload offset data)) ->
  (forall m', bytes_at m' (tail (rxBuf c)) wire -> isb_kind m' (tail (rxBuf c)) = Some r) ->
  exists m' c',
    is_comm_write_to_buf m (tail (rxBuf c)) (buf_end (rxBuf c) - tail (rxBuf c)) comm
      flags did (lenZ data) offset data =
      Some (m', set_txPktCount (u32 (txPktCount comm + 1)) comm, lenZ wire) /\
    is_comm_parse m' (set_tail (tail (rxBuf c) + lenZ wire) c) = Some (r, c') /\
    bytes_at m' (tail (rxBuf c)) wire /\ comm_ok m' c' /\
    isb_rx_pkt m' (tail (rxBuf c)) (lenZ (isb_payload offset data)) (rxPkt c').
Proof.
  intros wire Hok Hidle Hscan Hen Hargs Hfl Hmax Hroom Hget Hkind.
  pose proof Hok as [Hb _]. unfold buffer_ok in Hb.
  destruct (write_to_buf_ok comm flags did offset data Hargs m (tail (rxBuf c))
    (buf_end (rxBuf c) - tail (rxBuf c))) as (m' & Es & E); [done|lia|fold wire; lia|].
  assert (bytes_at m' (tail (rxBuf c)) wire) as Hat
    by (eapply store_range_bytes_at; [..|exact Es]; lia).
  assert (Forall byte wire) as Hbytes.
  { unfold wire, isb_wire. apply Forall_app. split; [|apply le16_bytes_byte].
    unfold isb_body. rewrite app_assoc, <- (encode_hdr_bytes stack_packet) by done.
    apply Forall_app. split; [by apply encode_hdr_byte|]. unfold isb_payload.
    destruct Hargs as (_ & _ & _ & Hd & _). apply Forall_app. split; [|done].
    destruct (offset =? 0); [done|apply le16_bytes_byte]. }
  destruct (append_ok m c wire Hok Hbytes Hroom) as (m1 & c1 & _ & Hok1 & Es1 & Ec1 & _).
  fold wire in Es. rewrite Es in Es1. injection Es1 as <-. subst c1.
  set (c1 := set_tail _ c) in *.
  destruct (parse_frame m' c1 ProcIsb (lenZ wire) r Hok1) as (c' & Ep & Hok' & _ & _ & Hrx & _).
  - intros _ _ _ fl ps Hfl1 Hps. change (scan (rxBuf c1)) with (scan (rxBuf c)) in *.
    rewrite Hscan in *. rewrite (wire_payloadSize flags did offset data) in Hps by done.
    rewrite (wire_flags flags did offset data) in Hfl1 by done.
    injection Hps as <-. injection Hfl1 as <-. rewrite isb_flags_type. split; [|done].
    unfold wire in Hmax. rewrite lenZ_isb_wire in Hmax.
    unfold MAX_MSG_LENGTH_ISB, PKT_BUF_SIZE in Hmax. lia.
  - done.
  - change (scan (rxBuf c1)) with (scan (rxBuf c)). rewrite Hscan. by apply wire_frame.
  - change (scan (rxBuf c1)) with (scan (rxBuf c)). rewrite Hscan. by apply Hkind.
  - done.
  - change (scan (rxBuf c1)) with (scan (rxBuf c)). rewrite Hscan. cbn. lia.
  - exists m', c'. split; [done|]. split; [done|]. split; [done|]. split; [done|].
    change (scan (rxBuf c1)) with (scan (rxBuf c)) in Hrx. rewrite Hscan in Hrx.
    cbn [rx_pkt] in Hrx. unfold wire in Hrx. rewrite lenZ_isb_wire in Hrx.
    by replace (lenZ (isb_payload offset data)) with (8 + lenZ (isb_payload offset data) - 8) by lia.
Qed.


(** a data request that is encoded and parsed comes back as a command whose
    payload is the request, when the requested size is a valid data set size. *)
Theorem get_data_roundtrip m c comm did size offset period :
  comm_ok m c -> processPkt c = None -> scan (rxBuf c) = tail (rxBuf c) ->
  Z.land (enabledMask c) ENABLE_PROTOCOL_ISB <> 0 ->
  16 <= buf_end (rxBuf c) - tail (rxBuf c) -> u16 size <= MAX_DATASET_SIZE ->
  exists m' comm' c',
    is_comm_get_data_to_buf m (tail (rxBuf c)) (buf_end (rxBuf c) - tail (rxBuf c)) comm
      did size offset period = Some (m', comm', 16) /\
    is_comm_parse m' (set_tail (tail (rxBuf c) + 16) c) =
      Some (PTYPE_INERTIAL_SENSE_CMD, c') /\
    is_comm_to_isb_pkt_type c' = PKT_TYPE_GET_DATA /\
    load_range m' (data_ptr (rxPkt c')) 8 =
      Some (data_get_bytes (mk_data_get did size offset period)).
Proof.
  intros Hok Hidle Hscan Hen Hroom Hsz.
  set (data := data_get_bytes (mk_data_get did size offset period)).
  assert (tx_args_ok PKT_TYPE_GET_DATA 0 0 data) as Hargs.
  { unfold tx_args_ok, PKT_TYPE_GET_DATA. split_and!; try lia; [|done].
    unfold data, data_get_bytes. repeat (apply Forall_app; split); apply le16_bytes_byte. }
  destruct (write_then_parse m c comm PKT_TYPE_GET_DATA 0 0 data PTYPE_INERTIAL_SENSE_CMD)
    as (m' & c' & E & Ep & Hat & _ & Hrx); try done.
  - intros m' Hat. unfold isb_kind.
    rewrite (wire_flags PKT_TYPE_GET_DATA 0 0 data), (wire_payloadSize PKT_TYPE_GET_DATA 0 0 data)
      by done.
    cbn [mbind option_bind]. change (isb_flags PKT_TYPE_GET_DATA 0) with PKT_TYPE_GET_DATA.
    change (Z.land PKT_TYPE_GET_DATA PKT_TYPE_MASK =? PKT_TYPE_GET_DATA) with true.
    cbn iota. erewrite bytes_at_load16; [|exact Hat|lia|done|reflexivity|reflexivity].
    cbn [mbind option_bind mk_data_get get_size].
    rewrite le16_split by (unfold u16; zlia). unfold isb_ptype. cbn.
    by rewrite (proj2 (Z.leb_le _ _) Hsz).
  - exists m', (set_txPktCount (u32 (txPktCount comm + 1)) comm), c'. split; [exact E|]. split; [exact Ep|].
    destruct (wire_received PKT_TYPE_GET_DATA 0 0 data Hargs m' _ Hat (rxPkt c'))
      as (Ht & _ & _ & Esz & Hl); [done|done|].
    unfold is_comm_to_isb_pkt_type. split; [by rewrite Ht|]. rewrite Esz in Hl. exact Hl.
Qed.

(** the encoder to a buffer and the encoder to a port that takes every byte
    send the same bytes and return the same length; the first writes nothing and
    returns -1 when they do not fit in the space it is given. *)
Theorem encoders_agree comm flags did offset data m buf bsz port out :
  let wire := isb_wire flags did offset data in
  tx_args_ok flags did offset data ->
  base m <= buf -> buf + lenZ wire <= base m + lenZ (cells m) ->
  let comm' := set_txPktCount (u32 (txPktCount comm + 1)) comm in
  is_comm_write (Some list_port) port comm flags did (lenZ data) offset data out =
    Some (out ++ wire, comm', lenZ wire) /\
  (if lenZ wire <=? bsz then
     exists m', is_comm_write_to_buf m buf bsz comm flags did (lenZ data) offset data =
                  Some (m', comm', lenZ wire) /\ bytes_at m' buf wire
   else is_comm_write_to_buf m buf bsz comm flags did (lenZ data) offset data =
          Some (m, comm, -1)).
Proof.
  intros wire Hargs Hb He comm'.
  split; [by rewrite (write_to_port_ok comm flags did offset data Hargs list_port (fun _ bs w => w ++ bs))|].
  destruct (Z.leb_spec (lenZ wire) bsz) as [Hfit|Hfit].
  - destruct (write_to_buf_ok comm flags did offset data Hargs m buf bsz Hfit Hb He) as (m' & Es & E).
    exists m'. split; [done|]. by eapply store_range_bytes_at.
  - by apply write_to_buf_short.
Qed.

(** ** Copies between structures and packets *)

Definition data_hdr_ok (h : p_data_hdr_t) : Prop :=
  0 <= dh_size h < 65536 /\ 0 <= dh_offset h < 65536.

(** copying the range of a header out of a structure into a packet and from the
    packet into another structure moves exactly that range; a range that does not
    fit in the structure copies nothing and returns -1, either way. *)
Theorem copy_struct_roundtrip src dst buf h :
  data_hdr_ok h -> dh_size h <= lenZ buf -> lenZ dst = lenZ src ->
  if dh_size h + dh_offset h <=? lenZ src then
    exists data, copyStructPToDataP (Data h buf) src (lenZ src) = Some (data, 0) /\
      copyDataPToStructP dst data (lenZ dst) =
        Some (updZ (dh_offset h) (subZ (dh_offset h) (dh_size h) src) dst, 0)
  else
    copyStructPToDataP (Data h buf) src (lenZ src) = Some (Data h buf, -1) /\
    copyDataPToStructP dst (Data h buf) (lenZ dst) = Some (dst, -1).
Proof.
  intros [Hs Ho] Hbuf Hlen. unfold copyStructPToDataP, copyDataPToStructP. cbn [d_hdr d_ptr].
  assert (u32 (dh_size h + dh_offset h) = dh_size h + dh_offset h) as ->
    by (unfold u32; rewrite Z.mod_small; lia).
  rewrite Hlen. destruct (Z.leb_spec (dh_size h + dh_offset h) (lenZ src)); [|done].
  rewrite take_exact_ok by (autorewrite with lenZ; lia). cbn [mbind option_bind].
  rewrite memcpy_ok by (autorewrite with lenZ; lia). cbn [mbind option_bind d_hdr d_ptr].
  eexists. split; [done|]. cbn [d_hdr d_ptr].
  assert (u32 (dh_size h + dh_offset h) = dh_size h + dh_offset h) as ->
    by (unfold u32; rewrite Z.mod_small; lia).
  rewrite (proj2 (Z.leb_le _ _)) by lia.
  rewrite memcpy_ok; [|autorewrite with lenZ; lia|lia|lia]. cbn [mbind option_bind].
  do 3 f_equal. apply nthZ_ext; [autorewrite with lenZ; lia|]. intros i Hi.
  autorewrite with lenZ in Hi. nth_ext.
Qed.

(** two ranges overlap exactly when a position is in both. *)
Theorem dataOverlap_spec dstOffset dstSize h :
  data_hdr_ok h -> 0 <= dstOffset -> 0 <= dstSize -> dstOffset + dstSize < 4294967296 ->
  dataOverlap dstOffset dstSize h = true <->
  exists i, dstOffset <= i < dstOffset + dstSize /\
            dh_offset h <= i < dh_offset h + dh_size h.
Proof.
  intros [Hs Ho] H1 H2 H3. unfold dataOverlap.
  assert (u32 (dstOffset + dstSize) = dstOffset + dstSize) as ->
    by (unfold u32; rewrite Z.mod_small; lia).
  assert (u32 (dh_offset h + dh_size h) = dh_offset h + dh_size h) as ->
    by (unfold u32; rewrite Z.mod_small; lia).
  rewrite Z.ltb_lt. split.
  - intros H. exists (Z.max dstOffset (dh_offset h)). lia.
  - intros (i & Hi & Hj). lia.
Qed.

(** A packet whose data size overflows the 16-bit packet size passes the space check
    and is written past the end of the buffer. *)
Example write_to_buf_overrun_example comm :
  is_comm_write_to_buf (Region 1 (repeat 0 100)) 1 100 comm PKT_TYPE_DATA 1 65528 0
    (repeat 0 (Z.to_nat 65528)) = None.
Proof. vm_compute. reflexivity. Qed.

(** Rates between the fastest standard rate and the maximum pass the check although
    they are in no table. *)
Example validateBaudRate_custom_example :
  validateBaudRate 921601 = 0 /\ existsb (Z.eqb 921601) g_validBaudRates = false.
Proof. split; reflexivity. Qed.
