(* ===== verification/CommExamples.v ===== *)
(** * Concrete instances of the parser

    An instance on a buffer that holds given bytes, for evaluating the parser, and
    the runs that show where it departs from what it means to do.  A client that keeps
    every packet it is called for, on a port that delivers at most a given number of bytes
    per read; [CommReads.stream_delivered] at a stream of five packets read seven bytes at
    a time; and a packet that is lost because it is too long for the buffer. *)

From Stdlib Require Import String.
From S2P Require Import Prelude Checksum Nmea CommTypes CommRx CommTx CommMessages CommFrames.
From S2P Require Import CommStep CommParse CommStream CommBuffer CommTxProps CommReads.

(** A buffer of [size] bytes at address 1 that starts with [l]. *)
Definition demo_mem (size : Z) (l : list Z) : region :=
  Region 1 (takeZ size (l ++ repeat 0 (Z.to_nat size))).

(** An idle instance on it with every protocol enabled, [n] bytes received and
    [rxErrorState] cleared. *)
Definition demo_comm (size n : Z) : is_comm_instance_t :=
  {| rxBuf := {| buf_start := 1; buf_end := 1 + size; buf_size := size; head := 1;
                 tail := 1 + n; scan := 1; scanPrior := 0 |};
     enabledMask := 63; txPktCount := 0; rxPktCount := 0; rxErrorCount := 0;
     rxErrorType := EPARSE_INVALID_PREAMBLE; rxErrorTypeCount := fun _ => 0;
     processPkt := None; parser := Parser 0 0 0; ackNeeded := 0;
     rxPkt := Packet 0 0 0 0 0 0 0 0 0 0 0; rxErrorState := 0 |}.

Lemma demo_ok size l n :
  0 < size < 2147483648 -> 0 <= n <= size -> Forall byte l ->
  comm_ok (demo_mem size l) (demo_comm size n).
Proof.
  intros Hsz Hn Hl. split; [|cbn; lia]. unfold buffer_ok, demo_mem, demo_comm.
  cbn [rxBuf base cells buf_start buf_end buf_size head tail].
  assert (lenZ (repeat 0 (Z.to_nat size)) = size) as Er
    by (unfold lenZ; rewrite repeat_length; lia).
  pose proof (lenZ_nonneg l). rewrite lenZ_takeZ, lenZ_app, Er. split_and!; try lia.
  unfold mem_ok. cbn [cells]. unfold takeZ. apply Forall_take, Forall_app. split; [done|].
  apply List.Forall_forall. intros x Hx%repeat_spec. by subst.
Qed.

(** A check for the header condition. *)
Definition header_okb (m : region) (h : Z) : bool :=
  match load m h, load m (h + 1), load m (h + 2), load16 m (h + 4) with
  | Some a, Some b, Some flags, Some ps =>
    negb (a =? PSC_ISB_PREAMBLE_BYTE1) || negb (b =? PSC_ISB_PREAMBLE_BYTE2) ||
    (ps <? 65528) && (negb (Z.land flags PKT_TYPE_MASK =? PKT_TYPE_GET_DATA) || (2 <=? ps))
  | _, _, _, _ => true
  end.

Lemma header_okb_ok m h : header_okb m h = true -> isb_header_ok m h.
Proof.
  unfold header_okb. intros H H0 H1 flags ps Hf Hps. rewrite H0, H1, Hf, Hps in H.
  cbn -[Z.land Z.ltb Z.leb] in H. apply andb_prop in H as [H2 H3].
  apply Z.ltb_lt in H2. split; [done|]. intros E. rewrite E in H3. cbn in H3. lia.
Qed.

Definition headers_okb (m : region) (b : is_comm_buffer_t) : bool :=
  forallb (fun i => header_okb m (head b + Z.of_nat i)) (seq 0 (Z.to_nat (tail b - head b))).

Lemma headers_okb_ok m b : headers_okb m b = true -> headers_ok m b.
Proof.
  unfold headers_okb. rewrite forallb_forall. intros H h Hh Ht.
  apply header_okb_ok. specialize (H (Z.to_nat (h - head b))).
  replace (head b + Z.of_nat (Z.to_nat (h - head b))) with h in H by lia.
  apply H. apply in_seq. lia.
Qed.

Definition demo_parse (size : Z) (l : list Z)
    : option (protocol_type_t * packet_t Z * is_comm_buffer_t) :=
  '(r, c) ← is_comm_parse (demo_mem size l) (demo_comm size (lenZ l));
  Some (r, rxPkt c, rxBuf c).

(** The results of calling the parser until it reports nothing. *)
Fixpoint parse_all (fuel : nat) (m : region) (c : is_comm_instance_t)
    : option (list protocol_type_t) :=
  match fuel with
  | O => None
  | S fuel =>
    '(r, c) ← is_comm_parse m c;
    if decide (r = PTYPE_NONE) then Some [] else
    rs ← parse_all fuel m c; Some (r :: rs)
  end.

Definition demo_all (size : Z) (l : list Z) : option (list protocol_type_t) :=
  parse_all 20 (demo_mem size l) (demo_comm size (lenZ l)).

(** A u-blox packet, an RTCM3 packet, an NMEA sentence and an ISB packet. *)
Definition demo_ublox : list Z := [0xB5; 0x62; 1; 2; 1; 0; 7; 11; 23].
Definition demo_rtcm3 : list Z := [0xD3; 0; 2; 0x3E; 0xD0; 0xA4; 0xE0; 0x00].
Definition demo_nmea : list Z := chars "$INFO*0E" ++ [13; 10].
Definition demo_isb : list Z := isb_wire PKT_TYPE_DATA 5 0 [1; 2; 3].
Definition demo_sony : list Z := [0x7F; 1; 0; 2; 0x82; 9; 9].

Example demo_stream :
  demo_all 64 (demo_ublox ++ demo_rtcm3 ++ demo_nmea ++ demo_isb ++ demo_sony) =
    Some [PTYPE_UBLOX; PTYPE_RTCM3; PTYPE_NMEA; PTYPE_INERTIAL_SENSE_DATA; PTYPE_SONY].
Proof. vm_compute. reflexivity. Qed.

(** ** Departures *)

(** A payload size of 65528 or more wraps the 16-bit packet size to a small number,
    which passes the size check, and the parser reads the checksum outside the
    buffer. *)
Example isb_size_wrap_example :
  is_comm_parse (demo_mem 32 [0xEF; 0x49; 4; 1; 0xF8; 0xFF; 0; 0]) (demo_comm 32 8) = None.
Proof. vm_compute. reflexivity. Qed.

(** The byte after the carriage return of a sentence is not looked at. *)
Example nmea_end_byte_example :
  demo_all 32 (chars "$INFO*0E" ++ [13; 0x58]) = Some [PTYPE_NMEA].
Proof. vm_compute. reflexivity. Qed.

(** A u-blox length field of 65528 or more is accepted as a packet of seven bytes
    with no data. *)
Example ublox_short_example :
  demo_parse 32 [0xB5; 0x62; 3; 4; 0xF8; 0xFF; 9] =
    Some (PTYPE_UBLOX,
          Packet 0 0 0 0 0 1 0 0 0 7 3,
          CommBuf 1 33 32 8 8 8 0).
Proof. vm_compute. reflexivity. Qed.

(** After a packet of an invalid type the search goes on one byte too far: the packet
    that follows it immediately is lost. *)
Example invalid_type_skips_example :
  demo_all 64 (isb_wire 0 5 0 [] ++ demo_isb) = Some [PTYPE_PARSE_ERROR] /\
  demo_all 64 (isb_wire 0 5 0 [] ++ [0] ++ demo_isb) =
    Some [PTYPE_PARSE_ERROR; PTYPE_INERTIAL_SENSE_DATA].
Proof. vm_compute. done. Qed.

(** The size of a data request is read behind the packet when the packet has no
    payload: at the end of the buffer, outside it. *)
Example get_data_overread_example :
  demo_parse 8 (isb_wire PKT_TYPE_GET_DATA 5 0 []) = None.
Proof. vm_compute. reflexivity. Qed.

(** ** The client *)

Record recorder := Recorder {
  rec_seen : list (protocol_type_t * list Z);
  rec_todo : list Z
}.

(** The packet ends at the head of the buffer. *)
Definition note (r : protocol_type_t) (w : world recorder) : option (world recorder) :=
  let c := w_comm w in
  bs ← load_range (w_mem w) (head (rxBuf c) - pkt_size (rxPkt c)) (pkt_size (rxPkt c));
  Some (World (w_mem w) c (Recorder (rec_seen (w_st w) ++ [(r, bs)]) (rec_todo (w_st w)))).

Definition isb_type (flags : Z) : protocol_type_t :=
  let t := Z.land flags PKT_TYPE_MASK in
  if (t =? PKT_TYPE_DATA) || (t =? PKT_TYPE_SET_DATA) then PTYPE_INERTIAL_SENSE_DATA
  else if (t =? PKT_TYPE_ACK) || (t =? PKT_TYPE_NACK) then PTYPE_INERTIAL_SENSE_ACK
  else PTYPE_INERTIAL_SENSE_CMD.

Definition recording : is_comm_callbacks_t recorder :=
  {| cb_isbData := None;
     cb_isb := Some (fun _ w => note (isb_type (hdr_flags (rxPkt (w_comm w)))) w);
     cb_nmea := Some (fun _ _ _ => note PTYPE_NMEA);
     cb_ublox := Some (fun _ _ _ => note PTYPE_UBLOX);
     cb_rtcm3 := Some (fun _ _ _ => note PTYPE_RTCM3);
     cb_sony := Some (fun _ _ _ => note PTYPE_SONY);
     cb_sprtn := Some (fun _ _ _ => note PTYPE_SPARTN);
     cb_error := None; cb_all := None |}.

(** At most [k] bytes for each read. *)
Definition read_at_most (k : Z) (port n : Z) (st : recorder) : recorder * list Z * Z :=
  let bs := takeZ (Z.min k n) (rec_todo st) in
  (Recorder (rec_seen st) (dropZ (Z.min k n) (rec_todo st)), bs, lenZ bs).

Lemma isb_type_kind m h flags r :
  load m (h + 2) = Some flags -> isb_kind m h = Some r -> isb_type flags = r.
Proof.
  intros Hfl. unfold isb_kind. rewrite Hfl. intros (f & [= <-] & H)%bind_Some.
  apply bind_Some in H as (ps & _ & H). apply bind_Some in H as (gs & _ & H).
  revert H. unfold isb_type, isb_ptype.
  unfold PKT_TYPE_DATA, PKT_TYPE_SET_DATA, PKT_TYPE_ACK, PKT_TYPE_NACK, PKT_TYPE_GET_DATA,
    PKT_TYPE_STOP_BROADCASTS_ALL_PORTS, PKT_TYPE_STOP_BROADCASTS_CURRENT_PORT.
  generalize (Z.land flags PKT_TYPE_MASK) as t. intros t.
  repeat (match goal with
  | |- context [ ?a =? ?b ] => destruct (Z.eqb_spec a b); subst
  | |- context [ ?a <=? ?b ] => destruct (Z.leb_spec a b)
  end; cbn [orb andb]; try lia; try congruence).
Qed.

#[export] Instance recording_client k :
  stream_client recording (read_at_most k) rec_seen rec_todo.
Proof.
  split.
  - intros port m c st f h n r bs Hrx Hk Hh Hld.
    assert (pkt_size (rxPkt c) = n /\ (f = ProcIsb -> isb_type (hdr_flags (rxPkt c)) = r) /\
      ptype_of f r) as (En & Et & Hpt).
    { destruct f; try (destruct Hrx as (_ & _ & En & _); by split_and!).
      destruct Hrx as (flags & id & Hfl & _ & -> & _ & _ & -> & _). split; [lia|].
      split; [intros _; by eapply isb_type_kind|].
      cbn [kind_at] in Hk. unfold isb_kind in Hk. inv_some. by eapply isb_ptype_of. }
    assert (note r (World m c st) =
      Some (World m c (Recorder (rec_seen st ++ [(r, bs)]) (rec_todo st)))) as Enote.
    { unfold note. cbn [w_mem w_comm w_st].
      by replace (head (rxBuf c) - pkt_size (rxPkt c)) with h by lia; rewrite En, Hld. }
    exists (World m c (Recorder (rec_seen st ++ [(r, bs)]) (rec_todo st))).
    eexists. split; [|by split].
    destruct f; cbn [ptype_of] in Hpt;
      [|subst r; cbn [dispatch call_gen recording cb_nmea cb_ublox cb_rtcm3 cb_sprtn cb_sony]; exact Enote..].
    specialize (Et eq_refl).
    destruct Hpt as [-> | [-> | ->]];
      cbn [dispatch call_handler recording cb_isb cb_isbData w_comm]; rewrite Et, Enote; done.
  - intros port n st Hn. eexists _, _. split; [reflexivity|]. cbn [rec_todo rec_seen].
    split; [autorewrite with lenZ; lia|]. split; [by rewrite takeZ_dropZ|done].
Qed.

(** ** A stream of five packets *)

Definition demo_stream_packets : list stream_packet :=
  [StreamPacket ProcUblox PTYPE_UBLOX demo_ublox;
   StreamPacket ProcRtcm3 PTYPE_RTCM3 demo_rtcm3;
   StreamPacket ProcNmea PTYPE_NMEA demo_nmea;
   StreamPacket ProcIsb PTYPE_INERTIAL_SENSE_DATA demo_isb;
   StreamPacket ProcSony PTYPE_SONY demo_sony].

(** A receive buffer of 32 bytes, less than the stream. *)
Definition demo_reader (ps : list Z) : world recorder :=
  World (demo_mem 32 []) (demo_comm 32 0) (Recorder [] ps).

Lemma demo_well_formed : Forall (well_formed 32 63) demo_stream_packets.
Proof.
  unfold demo_stream_packets.
  repeat (apply Forall_cons; [|]); [..|apply Forall_nil]; (split; [decided|]);
    (split; [|split; [reflexivity|split; [try discriminate|vm_compute; discriminate]]]);
    try (split; [reflexivity|]); cbn [sp_fn sp_bytes].
  - exists 1, [1; 2; 1; 0; 7]. repeat split; reflexivity.
  - exists 2, [0xD3; 0; 2; 0x3E; 0xD0]. repeat split; try reflexivity; vm_compute; discriminate.
  - exists (chars "0E"), (chars "INFO").
    split; [unfold MAX_MSG_LENGTH_NMEA; change (lenZ demo_nmea) with 10; lia|].
    split; [|repeat split; reflexivity]. change (lenZ demo_nmea) with 10. intros i Hi.
    assert (i = 1 \/ i = 2 \/ i = 3 \/ i = 4 \/ i = 5 \/ i = 6 \/ i = 7) as Hc by lia.
    repeat destruct Hc as [->|Hc]; try subst i; discriminate.
  - exists 3, (takeZ 9 demo_isb). repeat split; try reflexivity; vm_compute; discriminate.
  - intros _. apply header_okb_ok. vm_compute. reflexivity.
  - exists [0x7F; 1; 0; 2], 1, [9]. repeat split; try reflexivity; vm_compute; discriminate.
Defined.

Lemma stream_delivered_witness :
  exists w', port_reads recording (read_at_most 7) 7 0 (demo_reader (stream demo_stream_packets)) = Some w' /\
    exists ps1 ps2, demo_stream_packets = ps1 ++ ps2 /\
    rec_seen (w_st w') = packet_events ps1 /\
    (rec_todo (w_st w') = [] -> ps2 = []).
Proof.
  destruct (stream_delivered recording (read_at_most 7) rec_seen rec_todo 7 0
    (demo_reader (stream demo_stream_packets)) demo_stream_packets)
    as (w' & ps1 & ps2 & E & Eps & Es & _ & _ & Hall & _).
  - apply demo_ok; [lia|lia|apply Forall_nil].
  - reflexivity.
  - reflexivity.
  - reflexivity.
  - decided.
  - reflexivity.
  - exact demo_well_formed.
  - unfold fits. decided.
  - exists w'. split; [exact E|]. exists ps1, ps2. split; [exact Eps|]. split; [exact Es|exact Hall].
Defined.

(** Seven reads deliver the whole stream. *)
Example demo_stream_read :
  (w ← port_reads recording (read_at_most 7) 7 0 (demo_reader (stream demo_stream_packets));
   Some (w_st w)) = Some (Recorder (packet_events demo_stream_packets) []).
Proof. vm_compute. reflexivity. Qed.

(** ** A packet that is too long *)

(** An ISB packet of 24 bytes: more than the 22 bytes that a buffer of 32 keeps. *)
Definition demo_long : list Z := isb_wire PKT_TYPE_DATA 5 0 (map Z.of_nat (seq 0 16)).

(** Behind a packet of nine bytes it is flushed before its last byte arrives; alone it is
    received. *)
Example long_packet_flushed :
  lenZ demo_long = 24 /\ 32 - 32 / 3 = 22 /\
  (w ← port_reads recording (read_at_most 7) 8 0 (demo_reader (demo_ublox ++ demo_long));
   Some (map fst (rec_seen (w_st w)))) = Some [PTYPE_UBLOX] /\
  (w ← port_reads recording (read_at_most 7) 8 0 (demo_reader demo_long);
   Some (map fst (rec_seen (w_st w)))) = Some [PTYPE_INERTIAL_SENSE_DATA].
Proof. vm_compute. done. Qed.
