(* ===== verification/Witnesses.v ===== *)
(** * The theorems at concrete inputs

    Each theorem with hypotheses is applied once, at an input that satisfies them. *)

From S2P Require Import Prelude RingBuffer Checksum Nmea CommTypes CommRx CommTx.
From S2P Require Import CommMessages CommFrames CommStep CommParse CommStream CommBuffer.
From S2P Require Import CommProps CommTxProps CommExamples.
From Stdlib Require Import String.

(** ** Ring buffer *)

(** Eight bytes with three queued across the end of the storage. *)
Definition demo_ring : ring_buf_t := RingBuf 1 9 7 2 8 1.
Definition demo_ring_mem : region := Region 1 [30; 0; 0; 0; 0; 0; 10; 20].

Lemma demo_ring_wf : ring_wf demo_ring demo_ring_mem.
Proof. split; cbn; try lia; reflexivity. Defined.

(** Three queued at the start. *)
Definition demo_ring2 : ring_buf_t := RingBuf 1 9 1 4 8 1.
Definition demo_ring2_mem : region := Region 1 [10; 20; 30; 0; 0; 0; 0; 0].

Lemma demo_ring2_wf : ring_wf demo_ring2 demo_ring2_mem.
Proof. split; cbn; try lia; reflexivity. Defined.

Lemma ringBufWrite_safe_witness :
  exists rb' mem' ovf,
    ringBufWrite demo_ring demo_ring_mem [1; 2; 3] 3 = Some (rb', mem', ovf) /\
    ring_wf rb' mem' /\ ovf = (0 <? 3) && (ringBufFree demo_ring <? 3).
Proof. apply (ringBufWrite_safe demo_ring demo_ring_mem [1; 2; 3] 3); [exact demo_ring_wf|decided]. Defined.

Lemma ringBufWrite_spec_witness :
  exists rb' mem',
    ringBufWrite demo_ring demo_ring_mem [1; 2; 3] 3 =
      Some (rb', mem', ringBufFree demo_ring <? 3) /\ ring_contents rb' mem' = [10; 20; 30; 1; 2; 3].
Proof.
  destruct (ringBufWrite_spec demo_ring demo_ring_mem [1; 2; 3] 3) as (rb' & mem' & E & _ & H & _);
    [exact demo_ring_wf|decided|decided|].
  exists rb', mem'. split; [exact E|]. rewrite H; [reflexivity|decided].
Defined.

Lemma ring_refines_witness :
  let ops := [Push [1; 2]; Push [3; 4]; Pop; Push [5; 6]; Push [7; 8]; Pop] in
  exists rb' mem',
    ring_run ops (ringBufInit 1 6 2) (Region 1 [0; 0; 0; 0; 0; 0]) =
      Some (fst (bq_run 4 2 ops []), rb', mem') /\
    ring_contents rb' mem' = snd (bq_run 4 2 ops []).
Proof.
  apply (ring_refines_bounded_queue 1 [0; 0; 0; 0; 0; 0] 2);
    [lia|decided|by exists 3|by repeat constructor].
Defined.

Lemma ringBufRead_spec_witness :
  exists rb', ringBufRead demo_ring demo_ring_mem 2 = Some (rb', [10; 20], 2) /\
    ring_contents rb' demo_ring_mem = [30].
Proof.
  destruct (ringBufRead_spec demo_ring demo_ring_mem 2) as (rb' & E & _ & H);
    [exact demo_ring_wf|lia|].
  exists rb'. split; [exact E|exact H].
Defined.

Lemma ringBufReadToChar2_witness :
  exists rb' out n, ringBufReadToChar2 demo_ring demo_ring_mem 3 20 99 = Some (rb', out, n) /\
    n = 2 /\ out = [10; 20] /\ ring_contents rb' demo_ring_mem = [30].
Proof.
  destruct (ringBufReadToChar2_spec demo_ring demo_ring_mem 3 20 99)
    as (rb' & out & n & E & _ & H); [exact demo_ring_wf|lia|].
  exists rb', out, n. split; [exact E|exact H].
Defined.

Lemma ringBufPeek_spec_witness :
  ringBufPeek demo_ring demo_ring_mem 2 1 = Some ([20; 30], 2).
Proof.
  exact (ringBufPeek_spec demo_ring demo_ring_mem 2 1 demo_ring_wf
    ltac:(lia) ltac:(decided) ltac:(decided)).
Defined.

Lemma ringBufFind_spec_witness :
  exists r, ringBufFind demo_ring2 demo_ring2_mem [20; 30] 2 = Some r /\ 
    (r = -1 \/ strncmp demo_ring2_mem (1 + r) [20; 30] 2 = Some true).
Proof.
  destruct (ringBufFind_spec demo_ring2 demo_ring2_mem [20; 30] 2) as (r & E & H);
    [exact demo_ring2_wf|decided|decided|].
  exists r. split; [exact E|]. destruct H as [[H _]|(_ & H & _)]; [by left|by right].
Defined.

(** ** Checksums *)

Lemma calculate24BitCRCQ_witness :
  calculate24BitCRCQ [0xD3; 0; 2; 0x3E; 0xD0] = crc24_ref [0xD3; 0; 2; 0x3E; 0xD0].
Proof. apply (calculate24BitCRCQ_equiv [0xD3; 0; 2; 0x3E; 0xD0]). decided. Defined.

Lemma computeCrc4Ccitt_witness : computeCrc4Ccitt [1; 2; 0xF0] = crc4_ref [1; 2; 0xF0].
Proof. apply (computeCrc4Ccitt_equiv [1; 2; 0xF0]). decided. Defined.

Lemma checksums_detect_single_witness :
  calculate24BitCRCQ [1; 2; 3] <> calculate24BitCRCQ [1; 9; 3].
Proof. apply (checksums_detect_single [1] [3] 2 9); decided. Defined.

Lemma fletcher16_functional_witness :
  is_comm_fletcher16 0 [1; 2; 3; 4] <> is_comm_fletcher16 0 [1; 3; 2; 4].
Proof.
  apply (proj2 (fletcher16_functional [1; 2; 3; 4]) [1] [4] 2 3); (reflexivity || decided).
Defined.

Lemma checksum32_self_check_witness :
  checksum32 ([1; 2; 3; 4; 5; 6; 7; 8] ++ le32_bytes 0x0C040404) 12 = Some 0.
Proof.
  apply (checksum32_self_check [1; 2; 3; 4; 5; 6; 7; 8] 0x0C040404);
    [decided|decided|by exists 2|reflexivity].
Defined.

Lemma bootloader_hash_witness :
  calculateBootloaderHashCode 7 [1; 2; 3] <> calculateBootloaderHashCode 7 [1; 4; 3].
Proof.
  apply (bootloader_hash_detects_single [1] [3] 2 4 7);
    [repeat constructor; unfold u32_ok; lia|unfold u32_ok; lia|unfold u32_ok; lia|lia].
Defined.

Lemma getBitsAsUInt32_witness :
  getBitsAsUInt32 (Region 1 [0xD3; 0x01; 0x80]) 1 14 4 = Some (bits_be [0; 1; 1; 0]).
Proof.
  apply (getBitsAsUInt32_spec (Region 1 [0xD3; 0x01; 0x80]) 1 14 [0; 1; 1; 0]); [decided|].
  intros k b Hk. pose proof (nthZ_Some_range _ _ _ Hk) as Hr.
  change (lenZ [0; 1; 1; 0]) with 4 in Hr.
  assert (k = 0 \/ k = 1 \/ k = 2 \/ k = 3) as [->|[->|[->| ->]]] by lia;
    injection Hk as <-; reflexivity.
Defined.

(** ** NMEA identifiers *)

Lemma nmea_talker_roundtrip_witness :
  getNmeaMsgId (Region 1 (chars "$PINS1,1*00")) 1 11 = Some NMEA_MSG_ID_PINS1.
Proof.
  apply (nmea_talker_roundtrip (Region 1 (chars "$PINS1,1*00")) 1 11 NMEA_MSG_ID_PINS1 "PINS1");
    [reflexivity| |lia|lia].
  exact (bytes_at_intro 1 [] (chars "$PINS1,") (chars "1*00")).
Defined.

Lemma decodeGSV_spec_witness :
  decodeGSV (Region 1 (chars "GPGSV_1_5,")) 1 10 = Some (0xF10 + 9).
Proof.
  refine (decodeGSV_spec (Region 1 (chars "GPGSV_1_5,")) 1 (chars "GPGSV_1_5,") 0x50 0x5F _ _ _ _ _);
    [|decided|lia|reflexivity|reflexivity].
  exact (bytes_at_intro 1 [] (chars "GPGSV_1_5,") []).
Defined.

Lemma nmeaMsgIdToTalker_witness :
  exists m', nmeaMsgIdToTalker (Region 1 (repeat 7 8)) NMEA_MSG_ID_GNRMC 2 6 = Some (m', 0) /\
    bytes_at m' 2 (chars "GNRMC" ++ [0]).
Proof.
  destruct (nmeaMsgIdToTalker_spec (Region 1 (repeat 7 8)) NMEA_MSG_ID_GNRMC 2 6 "GNRMC")
    as (m' & E & H & _); [reflexivity|lia|decided|decided|].
  exists m'. by split.
Defined.

(** ** The packet parser *)

Definition demo_bytes : list Z := demo_ublox ++ demo_nmea ++ demo_isb.
Definition demo_m : region := demo_mem 64 demo_bytes.
Definition demo_c : is_comm_instance_t := demo_comm 64 (lenZ demo_bytes).

Lemma demo_c_ok : comm_ok demo_m demo_c.
Proof. apply demo_ok; decided. Defined.

Lemma demo_headers_ok : headers_ok demo_m (rxBuf demo_c).
Proof. apply headers_okb_ok. vm_compute. reflexivity. Defined.

Lemma parse_total_witness :
  exists r c', is_comm_parse_timeout demo_m demo_c 5 = Some (r, c') /\ comm_ok demo_m c'.
Proof.
  destruct (parse_total demo_m demo_c 5 demo_c_ok demo_headers_ok) as (r & c' & E & H & _).
  exists r, c'. by split.
Defined.

Lemma parse_sound_witness :
  exists f h n, frame_at demo_m 64 h f n /\ ptype_of f PTYPE_UBLOX /\ h + n = 10.
Proof.
  destruct (is_comm_parse_timeout demo_m demo_c 0) as [[r c']|] eqn:E;
    [|vm_compute in E; discriminate E].
  pose proof E as E'. vm_compute in E'. injection E' as Er Ec. symmetry in Er. subst r.
  destruct (parse_sound demo_m demo_c 0 _ c' demo_c_ok demo_headers_ok E)
    as (f & h & n & _ & _ & Hf & Hr & _ & Hh & _); [discriminate|discriminate|].
  exists f, h, n. split; [exact Hf|]. split; [exact Hr|]. rewrite <- Hh, <- Ec. reflexivity.
Defined.

(** The u-blox packet at the start. *)
Lemma demo_ublox_frame : frame_at demo_m 64 1 ProcUblox 9.
Proof.
  split; [reflexivity|]. exists 1, [1; 2; 1; 0; 7]. repeat split; reflexivity.
Defined.


(** Callbacks that record the type of every result. *)
Definition demo_log : is_comm_callbacks_t (list Z) :=
  {| cb_isbData := None; cb_isb := None; cb_nmea := None; cb_ublox := None; cb_rtcm3 := None;
     cb_sony := None; cb_sprtn := None; cb_error := None;
     cb_all := Some (fun _ w => Some (World (w_mem w) (w_comm w)
       (w_st w ++ [data_size (rxPkt (w_comm w))]))) |}.

Lemma demo_log_passive : passive demo_log.
Proof.
  intros port w. split; [|by eexists].
  intros r. exists (w_st w). by destruct w, r.
Defined.

Definition demo_packets : list packet_at :=
  [PacketAt ProcUblox 1 9 PTYPE_UBLOX; PacketAt ProcNmea 10 10 PTYPE_NMEA;
   PacketAt ProcIsb 20 11 PTYPE_INERTIAL_SENSE_DATA].

Lemma demo_packets_at : packets_at demo_m 64 63 1 demo_packets 31.
Proof.
  cbn [packets_at demo_packets pa_addr pa_fn pa_len pa_type]. split_and!; try reflexivity;
    try (vm_compute; discriminate); try discriminate.
  - exact demo_ublox_frame.
  - split; [reflexivity|]. exists (chars "0E"), (chars "INFO"). split; [unfold MAX_MSG_LENGTH_NMEA; lia|].
    split; [|repeat split; reflexivity]. intros i Hi.
    assert (i = 1 \/ i = 2 \/ i = 3 \/ i = 4 \/ i = 5 \/ i = 6 \/ i = 7) as Hc by lia.
    repeat destruct Hc as [->|Hc]; try subst i; discriminate.
  - split; [reflexivity|]. exists 3, (takeZ 9 demo_isb). split_and!; try reflexivity. vm_compute. discriminate.
  - intros _. apply header_okb_ok. vm_compute. reflexivity.
Defined.

Lemma parse_messages_stream_witness :
  exists w', parse_messages (messages_fuel demo_c) 0 demo_log (World demo_m demo_c []) = Some w' /\
    handles demo_log demo_m 0 (World demo_m demo_c []) demo_packets w'.
Proof.
  destruct (parse_messages_stream demo_log 0 (World demo_m demo_c []) demo_packets)
    as (w' & E & H & _);
    [exact demo_log_passive|exact demo_c_ok|reflexivity|exact demo_packets_at|].
  exists w'. by split.
Defined.

Lemma parse_messages_total_witness :
  exists w', parse_messages (messages_fuel demo_c) 0 demo_log (World demo_m demo_c []) = Some w' /\
    w_mem w' = demo_m.
Proof.
  destruct (parse_messages_total demo_log 0 (World demo_m demo_c [])) as (w' & E & H & _);
    [exact demo_log_passive|exact demo_c_ok|exact demo_headers_ok|].
  exists w'. by split.
Defined.

Lemma parse_bytes_safe_witness :
  exists m0 c0 m' c' rs,
    is_comm_init (Region 1 (repeat 0 12)) 1 12 = Some (m0, c0) /\
    parse_bytes m0 c0 demo_ublox = Some (m', c', rs) /\ comm_ok m' c'.
Proof.
  destruct (parse_bytes_safe (Region 1 (repeat 0 12)) 12 demo_ublox)
    as (m0 & c0 & m' & c' & rs & E0 & E & H & _); [decided|reflexivity|lia|decided| |].
  - intros i flags lo hi H0. exfalso. pose proof (nthZ_Some_range _ _ _ H0) as Hr.
    change (lenZ demo_ublox) with 9 in Hr.
    assert (i = 0 \/ i = 1 \/ i = 2 \/ i = 3 \/ i = 4 \/ i = 5 \/ i = 6 \/ i = 7 \/ i = 8)
      as Hc by lia.
    repeat destruct Hc as [->|Hc]; try subst i; discriminate H0.
  - exists m0, c0, m', c', rs. split; [exact E0|]. split; [exact E|exact H].
Defined.

Lemma is_comm_free_spec_witness :
  exists m' c' n, is_comm_free demo_m (demo_comm 64 64) = Some (m', c', n) /\
    pending m' c' = [] /\ n = buf_end (rxBuf c') - tail (rxBuf c').
Proof.
  destruct (is_comm_free_spec demo_m (demo_comm 64 64)) as (m' & c' & n & E & _ & En & _ & H).
  - apply demo_ok; decided.
  - exists m', c', n. split; [exact E|]. split; [|exact En]. apply H.
Defined.

Lemma parse_error_accounting_witness :
  exists c', is_comm_parse_timeout (demo_mem 8 [1; 2]) (demo_comm 8 2) 0 =
      Some (PTYPE_PARSE_ERROR, c') /\ one_error (demo_comm 8 2) c'.
Proof.
  destruct (is_comm_parse_timeout (demo_mem 8 [1; 2]) (demo_comm 8 2) 0) as [[r c']|] eqn:E;
    [|vm_compute in E; discriminate E].
  assert (r = PTYPE_PARSE_ERROR) as ->
    by (pose proof E as E'; vm_compute in E'; injection E' as E' _; by symmetry).
  exists c'. split; [reflexivity|].
  apply (parse_error_accounting (demo_mem 8 [1; 2]) (demo_comm 8 2) 0 PTYPE_PARSE_ERROR c');
    [apply demo_ok; decided|apply headers_okb_ok; vm_compute; reflexivity|exact E|reflexivity].
Defined.

(** ** Sending *)

Lemma demo_tx_args : tx_args_ok PKT_TYPE_DATA 5 4 [1; 2; 3].
Proof. unfold tx_args_ok. split_and!; try decided. Defined.


Lemma get_data_roundtrip_witness :
  exists m' comm' c',
    is_comm_get_data_to_buf (demo_mem 32 []) 1 32 demo_c 13 20 0 1 = Some (m', comm', 16) /\
    is_comm_parse m' (demo_comm 32 16) = Some (PTYPE_INERTIAL_SENSE_CMD, c').
Proof.
  destruct (get_data_roundtrip (demo_mem 32 []) (demo_comm 32 0) demo_c 13 20 0 1)
    as (m' & comm' & c' & E & Ep & _);
    [apply demo_ok; decided|reflexivity|reflexivity|discriminate|decided|decided|].
  exists m', comm', c'. split; [exact E|exact Ep].
Defined.

Lemma encoders_agree_witness :
  is_comm_write_to_buf (Region 1 (repeat 0 20)) 1 5 demo_c PKT_TYPE_DATA 5 3 4 [1; 2; 3] =
    Some (Region 1 (repeat 0 20), demo_c, -1).
Proof.
  apply (proj2 (encoders_agree demo_c PKT_TYPE_DATA 5 4 [1; 2; 3] (Region 1 (repeat 0 20)) 1 5 0 []
    demo_tx_args ltac:(decided) ltac:(decided))).
Defined.

Lemma copy_struct_roundtrip_witness :
  exists data, copyStructPToDataP (Data (DataHdr 5 2 1) [0; 0; 0]) [1; 2; 3; 4] 4 = Some (data, 0) /\
    copyDataPToStructP [9; 9; 9; 9] data 4 = Some ([9; 2; 3; 9], 0).
Proof.
  apply (copy_struct_roundtrip [1; 2; 3; 4] [9; 9; 9; 9] [0; 0; 0] (DataHdr 5 2 1));
    [split; cbn; lia|decided|reflexivity].
Defined.

Lemma dataOverlap_spec_witness : exists i, 4 <= i < 4 + 4 /\ 6 <= i < 6 + 10.
Proof.
  apply (dataOverlap_spec 4 4 (DataHdr 5 10 6)); [split; cbn; lia|lia|lia|lia|reflexivity].
Defined.
