(* ===== verification/DataIds.v ===== *)
(** * Identifiers of the data sets and of their stream bits (src/src/data_sets.h)

    The values of the [DID_...] macros the C core uses, and the bits of the realtime
    message controllers of the IMX, its NMEA output and the GPX. *)

From S2P Require Import Prelude Nmea.

Definition DID_DEV_INFO : Z := 1.
Definition DID_PIMU : Z := 3.
Definition DID_INS_1 : Z := 4.
Definition DID_INS_2 : Z := 5.
Definition DID_GPS1_RCVR_POS : Z := 6.
Definition DID_RMC : Z := 9.
Definition DID_SYS_PARAMS : Z := 10.
Definition DID_FLASH_CONFIG : Z := 12.
Definition DID_GPS1_POS : Z := 13.
Definition DID_GPS2_POS : Z := 14.
Definition DID_GPS1_SAT : Z := 15.
Definition DID_GPS2_SAT : Z := 16.
Definition DID_GPS1_VERSION : Z := 17.
Definition DID_GPS2_VERSION : Z := 18.
Definition DID_GPS1_RTK_POS_REL : Z := 21.
Definition DID_GPS1_RTK_POS_MISC : Z := 22.
Definition DID_GPS1_VEL : Z := 30.
Definition DID_GPS2_VEL : Z := 31.
Definition DID_DEBUG_ARRAY : Z := 39.
Definition DID_GPS1_TIMEPULSE : Z := 41.
Definition DID_GPS1_SIG : Z := 45.
Definition DID_REFERENCE_MAGNETOMETER : Z := 47.
Definition DID_INL2_STATES : Z := 48.
Definition DID_MAGNETOMETER : Z := 52.
Definition DID_BAROMETER : Z := 53.
Definition DID_GPS1_RTK_POS : Z := 54.
Definition DID_IMU3_UNCAL : Z := 57.
Definition DID_IMU : Z := 58.
Definition DID_GPS_BASE_RAW : Z := 60.
Definition DID_REFERENCE_PIMU : Z := 62.
Definition DID_MANUFACTURING_INFO : Z := 63.
Definition DID_INS_3 : Z := 65.
Definition DID_INS_4 : Z := 66.
Definition DID_INL2_NED_SIGMA : Z := 67.
Definition DID_STROBE_IN_TIME : Z := 68.
Definition DID_GPS1_RAW : Z := 69.
Definition DID_GPS2_RAW : Z := 70.
Definition DID_WHEEL_ENCODER : Z := 71.
Definition DID_DIAGNOSTIC_MESSAGE : Z := 72.
Definition DID_SURVEY_IN : Z := 73.
Definition DID_PORT_MONITOR : Z := 75.
Definition DID_RTK_STATE : Z := 76.
Definition DID_RTK_PHASE_RESIDUAL : Z := 77.
Definition DID_RTK_CODE_RESIDUAL : Z := 78.
Definition DID_RTK_DEBUG : Z := 79.
Definition DID_EVB_DEBUG_ARRAY : Z := 82.
Definition DID_GPS2_SIG : Z := 84.
Definition DID_IMU_MAG : Z := 85.
Definition DID_PIMU_MAG : Z := 86.
Definition DID_GROUND_VEHICLE : Z := 87.
Definition DID_GPS2_RTK_CMP_REL : Z := 91.
Definition DID_GPS2_RTK_CMP_MISC : Z := 92.
Definition DID_REFERENCE_IMU : Z := 95.
Definition DID_IMU3_RAW : Z := 96.
Definition DID_IMU_RAW : Z := 97.
Definition DID_EVENT : Z := 119.
Definition DID_GPX_DEV_INFO : Z := 120.
Definition DID_GPX_FLASH_CFG : Z := 121.
Definition DID_GPX_RTOS_INFO : Z := 122.
Definition DID_GPX_STATUS : Z := 123.
Definition DID_GPX_DEBUG_ARRAY : Z := 124.
Definition DID_GPX_BIT : Z := 125.
Definition DID_GPX_RMC : Z := 126.
Definition DID_GPX_PORT_MONITOR : Z := 127.
Definition DID_COUNT : Z := 132.

Definition RMC_BITS_INS1 : Z := 0x1.
Definition RMC_BITS_INS2 : Z := 0x2.
Definition RMC_BITS_INS3 : Z := 0x4.
Definition RMC_BITS_INS4 : Z := 0x8.
Definition RMC_BITS_IMU : Z := 0x10.
Definition RMC_BITS_PIMU : Z := 0x20.
Definition RMC_BITS_BAROMETER : Z := 0x40.
Definition RMC_BITS_MAGNETOMETER : Z := 0x80.
Definition RMC_BITS_GPS1_POS : Z := 0x400.
Definition RMC_BITS_GPS2_POS : Z := 0x800.
Definition RMC_BITS_GPS1_RAW : Z := 0x1000.
Definition RMC_BITS_GPS2_RAW : Z := 0x2000.
Definition RMC_BITS_GPS1_SAT : Z := 0x4000.
Definition RMC_BITS_GPS2_SAT : Z := 0x8000.
Definition RMC_BITS_GPS_BASE_RAW : Z := 0x10000.
Definition RMC_BITS_STROBE_IN_TIME : Z := 0x20000.
Definition RMC_BITS_DIAGNOSTIC_MESSAGE : Z := 0x40000.
Definition RMC_BITS_IMU3_UNCAL : Z := 0x80000.
Definition RMC_BITS_GPS1_VEL : Z := 0x100000.
Definition RMC_BITS_GPS2_VEL : Z := 0x200000.
Definition RMC_BITS_GPS1_UBX_POS : Z := 0x400000.
Definition RMC_BITS_GPS1_RTK_POS : Z := 0x800000.
Definition RMC_BITS_GPS1_RTK_POS_REL : Z := 0x1000000.
Definition RMC_BITS_GPS1_RTK_POS_MISC : Z := 0x4000000.
Definition RMC_BITS_INL2_NED_SIGMA : Z := 0x8000000.
Definition RMC_BITS_RTK_STATE : Z := 0x10000000.
Definition RMC_BITS_RTK_CODE_RESIDUAL : Z := 0x20000000.
Definition RMC_BITS_RTK_PHASE_RESIDUAL : Z := 0x40000000.
Definition RMC_BITS_WHEEL_ENCODER : Z := 0x80000000.
Definition RMC_BITS_GROUND_VEHICLE : Z := 0x100000000.
Definition RMC_BITS_IMU_MAG : Z := 0x400000000.
Definition RMC_BITS_PIMU_MAG : Z := 0x800000000.
Definition RMC_BITS_GPS1_RTK_HDG_REL : Z := 0x1000000000.
Definition RMC_BITS_GPS1_RTK_HDG_MISC : Z := 0x2000000000.
Definition RMC_BITS_REFERENCE_IMU : Z := 0x4000000000.
Definition RMC_BITS_REFERENCE_PIMU : Z := 0x8000000000.
Definition RMC_BITS_IMU3_RAW : Z := 0x10000000000.
Definition RMC_BITS_IMU_RAW : Z := 0x20000000000.
Definition RMC_BITS_GPS1_SIG : Z := 0x40000000000.
Definition RMC_BITS_GPS2_SIG : Z := 0x80000000000.
Definition RMC_BITS_GPX_RTOS_INFO : Z := 0x100000000000.
Definition RMC_BITS_GPX_DEBUG : Z := 0x200000000000.
Definition RMC_BITS_GPX_STATUS : Z := 0x400000000000.
Definition RMC_BITS_GPX_DEV_INFO : Z := 0x800000000000.
Definition RMC_BITS_GPX_RMC : Z := 0x1000000000000.
Definition RMC_BITS_GPX_FLASH_CFG : Z := 0x2000000000000.
Definition RMC_BITS_GPX_BIT : Z := 0x4000000000000.
Definition RMC_BITS_GPX_PORT_MON : Z := 0x8000000000000.
Definition RMC_BITS_EVENT : Z := 0x800000000000000.

Definition NMEA_RMC_BITS_PIMU : Z := Z.shiftl 1 NMEA_MSG_ID_PIMU.
Definition NMEA_RMC_BITS_PPIMU : Z := Z.shiftl 1 NMEA_MSG_ID_PPIMU.
Definition NMEA_RMC_BITS_PRIMU : Z := Z.shiftl 1 NMEA_MSG_ID_PRIMU.
Definition NMEA_RMC_BITS_PINS1 : Z := Z.shiftl 1 NMEA_MSG_ID_PINS1.
Definition NMEA_RMC_BITS_PINS2 : Z := Z.shiftl 1 NMEA_MSG_ID_PINS2.
Definition NMEA_RMC_BITS_PGPSP : Z := Z.shiftl 1 NMEA_MSG_ID_PGPSP.
Definition NMEA_RMC_BITS_GNGGA : Z := Z.shiftl 1 NMEA_MSG_ID_GNGGA.
Definition NMEA_RMC_BITS_GNGLL : Z := Z.shiftl 1 NMEA_MSG_ID_GNGLL.
Definition NMEA_RMC_BITS_GNGSA : Z := Z.shiftl 1 NMEA_MSG_ID_GNGSA.
Definition NMEA_RMC_BITS_GNRMC : Z := Z.shiftl 1 NMEA_MSG_ID_GNRMC.
Definition NMEA_RMC_BITS_GNZDA : Z := Z.shiftl 1 NMEA_MSG_ID_GNZDA.
Definition NMEA_RMC_BITS_PASHR : Z := Z.shiftl 1 NMEA_MSG_ID_PASHR.
Definition NMEA_RMC_BITS_INFO : Z := Z.shiftl 1 NMEA_MSG_ID_INFO.
Definition NMEA_RMC_BITS_GNGSV : Z := Z.shiftl 1 NMEA_MSG_ID_GNGSV.
Definition NMEA_RMC_BITS_GNVTG : Z := Z.shiftl 1 NMEA_MSG_ID_GNVTG.
Definition NMEA_RMC_BITS_INTEL : Z := Z.shiftl 1 NMEA_MSG_ID_INTEL.

Definition GRMC_BIT_POS_DEV_INFO : Z := 0.
Definition GRMC_BIT_POS_FLASH_CFG : Z := 1.
Definition GRMC_BIT_POS_STATUS : Z := 2.
Definition GRMC_BIT_POS_RTOS_INFO : Z := 3.
Definition GRMC_BIT_POS_DEBUG_ARRAY : Z := 4.
Definition GRMC_BIT_POS_GPS1_POS : Z := 5.
Definition GRMC_BIT_POS_GPS1_VEL : Z := 6.
Definition GRMC_BIT_POS_GPS1_SAT : Z := 7.
Definition GRMC_BIT_POS_GPS1_SIG : Z := 8.
Definition GRMC_BIT_POS_GPS1_RAW : Z := 9.
Definition GRMC_BIT_POS_GPS1_VERSION : Z := 10.
Definition GRMC_BIT_POS_GPS2_POS : Z := 11.
Definition GRMC_BIT_POS_GPS2_VEL : Z := 12.
Definition GRMC_BIT_POS_GPS2_SAT : Z := 13.
Definition GRMC_BIT_POS_GPS2_SIG : Z := 14.
Definition GRMC_BIT_POS_GPS2_RAW : Z := 15.
Definition GRMC_BIT_POS_GPS2_VERSION : Z := 16.
Definition GRMC_BIT_POS_GPS1_RTK_POS : Z := 17.
Definition GRMC_BIT_POS_GPS1_RTK_POS_MISC : Z := 18.
Definition GRMC_BIT_POS_GPS1_RTK_POS_REL : Z := 19.
Definition GRMC_BIT_POS_GPS2_RTK_CMP_MISC : Z := 20.
Definition GRMC_BIT_POS_GPS2_RTK_CMP_REL : Z := 21.
Definition GRMC_BIT_POS_DID_RTK_DEBUG : Z := 22.
Definition GRMC_BIT_POS_DID_PORT_MON : Z := 23.
Definition GRMC_BIT_POS_DID_GPX_PORT_MON : Z := 24.
Definition GRMC_BIT_POS_COUNT : Z := 25.
Definition GRMC_BITS_DEV_INFO : Z := Z.shiftl 1 GRMC_BIT_POS_DEV_INFO.
Definition GRMC_BITS_FLASH_CFG : Z := Z.shiftl 1 GRMC_BIT_POS_FLASH_CFG.
Definition GRMC_BITS_STATUS : Z := Z.shiftl 1 GRMC_BIT_POS_STATUS.
Definition GRMC_BITS_RTOS_INFO : Z := Z.shiftl 1 GRMC_BIT_POS_RTOS_INFO.
Definition GRMC_BITS_DEBUG_ARRAY : Z := Z.shiftl 1 GRMC_BIT_POS_DEBUG_ARRAY.
Definition GRMC_BITS_GPS1_POS : Z := Z.shiftl 1 GRMC_BIT_POS_GPS1_POS.
Definition GRMC_BITS_GPS1_VEL : Z := Z.shiftl 1 GRMC_BIT_POS_GPS1_VEL.
Definition GRMC_BITS_GPS1_SAT : Z := Z.shiftl 1 GRMC_BIT_POS_GPS1_SAT.
Definition GRMC_BITS_GPS1_SIG : Z := Z.shiftl 1 GRMC_BIT_POS_GPS1_SIG.
Definition GRMC_BITS_GPS1_RAW : Z := Z.shiftl 1 GRMC_BIT_POS_GPS1_RAW.
Definition GRMC_BITS_GPS1_VERSION : Z := Z.shiftl 1 GRMC_BIT_POS_GPS1_VERSION.
Definition GRMC_BITS_GPS2_POS : Z := Z.shiftl 1 GRMC_BIT_POS_GPS2_POS.
Definition GRMC_BITS_GPS2_VEL : Z := Z.shiftl 1 GRMC_BIT_POS_GPS2_VEL.
Definition GRMC_BITS_GPS2_SAT : Z := Z.shiftl 1 GRMC_BIT_POS_GPS2_SAT.
Definition GRMC_BITS_GPS2_SIG : Z := Z.shiftl 1 GRMC_BIT_POS_GPS2_SIG.
Definition GRMC_BITS_GPS2_RAW : Z := Z.shiftl 1 GRMC_BIT_POS_GPS2_RAW.
Definition GRMC_BITS_GPS2_VERSION : Z := Z.shiftl 1 GRMC_BIT_POS_GPS2_VERSION.
Definition GRMC_BITS_GPS1_RTK_POS : Z := Z.shiftl 1 GRMC_BIT_POS_GPS1_RTK_POS.
Definition GRMC_BITS_GPS1_RTK_POS_MISC : Z := Z.shiftl 1 GRMC_BIT_POS_GPS1_RTK_POS_MISC.
Definition GRMC_BITS_GPS1_RTK_POS_REL : Z := Z.shiftl 1 GRMC_BIT_POS_GPS1_RTK_POS_REL.
Definition GRMC_BITS_GPS2_RTK_CMP_MISC : Z := Z.shiftl 1 GRMC_BIT_POS_GPS2_RTK_CMP_MISC.
Definition GRMC_BITS_GPS2_RTK_CMP_REL : Z := Z.shiftl 1 GRMC_BIT_POS_GPS2_RTK_CMP_REL.
Definition GRMC_BITS_DID_RTK_DEBUG : Z := Z.shiftl 1 GRMC_BIT_POS_DID_RTK_DEBUG.
Definition GRMC_BITS_PORT_MON : Z := Z.shiftl 1 GRMC_BIT_POS_DID_PORT_MON.
Definition GRMC_BITS_GPX_PORT_MON : Z := Z.shiftl 1 GRMC_BIT_POS_DID_GPX_PORT_MON.
Definition GRMC_PRESET_DID_RTK_DEBUG_PERIOD_MS : Z := 1000.
Definition GRMC_PRESET_GPX_DEV_INFO_PERIOD_MS : Z := 1000.
Definition GRMC_PRESET_GPX_GPS1_VERSION_PERIOD_MS : Z := 1000.
Definition GRMC_PRESET_GPX_GPS2_VERSION_PERIOD_MS : Z := 1000.
Definition GRMC_PRESET_GPX_RTOS_INFO_PERIOD_MS : Z := 500.
Definition GRMC_PRESET_GPX_STATUS_PERIOD_MS : Z := 500.
Definition GRMC_PRESET_GPX_DEBUG_ARRAY_PERIOD_MS : Z := 500.
Definition GRMC_PRESET_GPX_PORT_MON_PERIOD_MS : Z := 500.
