(* ===== verification/ComManager.v ===== *)
(** * The communications manager (src/src/com_manager.c, com_manager.h)

    Registered data sets, the broadcast table, requests, acknowledges and the
    receive and transmit steps over several ports.

    Function pointers are values of a type [F], interpreted by the class
    [cm_functions]: a callback gets the whole environment, so it may call the
    manager again.  The environment holds the manager, the memory the registered
    structures are in and the state of the ports; [e_cmPtr] says whether the
    global [s_cmPtr] is set (to this manager).  The functions without the suffix
    [Instance] are the same with the global manager as the instance. *)

From S2P Require Import Prelude CommTypes CommRx CommTx CommMessages.
From S2P Require Export DataIds.

(** ** Constants (com_manager.c, com_manager.h, data_sets.h) *)

Definition MIN_REQUEST_PERIOD_MS : Z := 1.
Definition MAX_REQUEST_PERIOD_MS : Z := 65000.
Definition MSG_PERIOD_SEND_ONCE : Z := -1.
Definition MSG_PERIOD_DISABLED : Z := 0.
Definition MAX_NUM_BCAST_MSGS : Z := 12.
Definition sizeof_rmc_t : Z := 12.
Definition sizeof_p_ack_t : Z := 9.

(** ** Structures *)

Record bufTxRxPtr_t := TxRxPtr { txPtr : Z; rxPtr : Z; ds_size : Z }.

Record broadcast_msg_t := Bcast {
  bc_pkt : packet_t Z;
  bc_counter : Z;
  bc_period : Z;
  bc_pHandle : Z
}.

Record registered_data_t {F : Type} := Reg {
  dataSet : bufTxRxPtr_t;
  preTxFnc : option F;
  reg_pstRxFnc : option F;
  pktFlags : Z
}.
Arguments registered_data_t : clear implicits.
Arguments Reg {F}.

Record com_manager_port_t := CmPort {
  port_comm : is_comm_instance_t;
  comm_buffer : region
}.

(** The member [isb] is [processIsb] in every initialised manager. *)
Inductive isb_handler {F : Type} := IsbProcessIsb | IsbUser (f : F).
Arguments isb_handler : clear implicits.

Record cm_callbacks_t {F : Type} := CmCallbacks {
  ccb_isbData : option F;
  ccb_isb : option (isb_handler F);
  ccb_nmea : option F;
  ccb_ublox : option F;
  ccb_rtcm3 : option F;
  ccb_sony : option F;
  ccb_sprtn : option F;
  ccb_error : option F;
  ccb_all : option F;
  ccb_rmc : option F
}.
Arguments cm_callbacks_t : clear implicits.
Arguments CmCallbacks {F}.

Record com_manager_t {F : Type} := Cm {
  cm_portRead : option F;
  cm_portWrite : option F;
  cm_txFree : option F;
  cm_pstRxFnc : option F;
  cm_pstAckFnc : option F;
  cm_disableBcastFnc : option F;
  regData : list (registered_data_t F);
  ports : list com_manager_port_t;
  numPorts : Z;
  broadcastMessages : list broadcast_msg_t;
  stepPeriodMilliseconds : Z;
  userPointer : Z;
  callbacks : cm_callbacks_t F
}.
Arguments com_manager_t : clear implicits.
Arguments Cm {F}.

Record env {F St : Type} := Env {
  e_cm : com_manager_t F;
  e_cmPtr : bool;
  e_mem : region;
  e_st : St
}.
Arguments env : clear implicits.
Arguments Env {F St}.

(** What the function pointers point to. *)
Class cm_functions (F St : Type) := {
  call_portRead : F -> Z -> Z -> St -> St * list Z * Z;
  call_portWrite : F -> pfnIsCommPortWrite St;
  call_txFree : F -> Z -> St -> Z;
  call_preTx : F -> Z -> p_data_hdr_t -> env F St -> option (env F St * Z);
  call_postRead : F -> Z -> p_data_t Z -> env F St -> option (env F St);
  call_postAck : F -> Z -> Z -> Z -> env F St -> option (env F St);
  call_disableBcast : F -> Z -> env F St -> option (env F St);
  call_rmc : F -> Z -> p_data_get_t -> env F St -> option (env F St * Z);
  call_genMsg : F -> Z -> Z -> Z -> env F St -> option (env F St);
  call_comm : F -> Z -> env F St -> option (env F St)
}.

Module ComManager.

(** The result of [memset(.., 0, ..)] on the structures. *)
Definition zero_pkt : packet_t Z := Packet 0 0 0 0 0 0 0 0 0 0 0.
Definition zero_bcast : broadcast_msg_t := Bcast zero_pkt 0 0 0.
Definition zero_reg {F} : registered_data_t F := Reg (TxRxPtr 0 0 0) None None 0.
Definition zero_callbacks {F} : cm_callbacks_t F :=
  CmCallbacks None None None None None None None None None None.
Definition zero_cm {F} : com_manager_t F :=
  Cm None None None None None None (repeat zero_reg (Z.to_nat DID_COUNT)) [] 0 [] 0 0
    zero_callbacks.

(** Assignments to one member. *)
Definition set_regData {F} r (cm : com_manager_t F) : com_manager_t F :=
  Cm (cm_portRead cm) (cm_portWrite cm) (cm_txFree cm) (cm_pstRxFnc cm) (cm_pstAckFnc cm)
    (cm_disableBcastFnc cm) r (ports cm) (numPorts cm) (broadcastMessages cm)
    (stepPeriodMilliseconds cm) (userPointer cm) (callbacks cm).
Definition set_ports {F} p (cm : com_manager_t F) : com_manager_t F :=
  Cm (cm_portRead cm) (cm_portWrite cm) (cm_txFree cm) (cm_pstRxFnc cm) (cm_pstAckFnc cm)
    (cm_disableBcastFnc cm) (regData cm) p (numPorts cm) (broadcastMessages cm)
    (stepPeriodMilliseconds cm) (userPointer cm) (callbacks cm).
Definition set_broadcastMessages {F} b (cm : com_manager_t F) : com_manager_t F :=
  Cm (cm_portRead cm) (cm_portWrite cm) (cm_txFree cm) (cm_pstRxFnc cm) (cm_pstAckFnc cm)
    (cm_disableBcastFnc cm) (regData cm) (ports cm) (numPorts cm) b
    (stepPeriodMilliseconds cm) (userPointer cm) (callbacks cm).
Definition set_userPointer {F} p (cm : com_manager_t F) : com_manager_t F :=
  Cm (cm_portRead cm) (cm_portWrite cm) (cm_txFree cm) (cm_pstRxFnc cm) (cm_pstAckFnc cm)
    (cm_disableBcastFnc cm) (regData cm) (ports cm) (numPorts cm) (broadcastMessages cm)
    (stepPeriodMilliseconds cm) p (callbacks cm).
Definition set_isb {F} h (cb : cm_callbacks_t F) : cm_callbacks_t F :=
  CmCallbacks (ccb_isbData cb) h (ccb_nmea cb) (ccb_ublox cb) (ccb_rtcm3 cb) (ccb_sony cb)
    (ccb_sprtn cb) (ccb_error cb) (ccb_all cb) (ccb_rmc cb).
Definition bc_set_pkt p (b : broadcast_msg_t) : broadcast_msg_t :=
  Bcast p (bc_counter b) (bc_period b) (bc_pHandle b).
Definition bc_set_counter c (b : broadcast_msg_t) : broadcast_msg_t :=
  Bcast (bc_pkt b) c (bc_period b) (bc_pHandle b).
Definition bc_set_period p (b : broadcast_msg_t) : broadcast_msg_t :=
  Bcast (bc_pkt b) (bc_counter b) p (bc_pHandle b).
Definition bc_set_pHandle p (b : broadcast_msg_t) : broadcast_msg_t :=
  Bcast (bc_pkt b) (bc_counter b) (bc_period b) p.
Definition pkt_set_data {P Q} (d : Q) (pkt : packet_t P) : packet_t Q :=
  Packet (hdr_preamble pkt) (hdr_flags pkt) (hdr_id pkt) (hdr_payloadSize pkt)
    (pkt_offset pkt) d (data_size pkt) (hdrCksum pkt) (pkt_checksum pkt) (pkt_size pkt)
    (pkt_id pkt).
Definition pkt_dataHdr {P} (pkt : packet_t P) : p_data_hdr_t :=
  DataHdr (hdr_id pkt) (hdr_payloadSize pkt) (pkt_offset pkt).

(** The element [i] of a C array replaced; nothing outside its bounds. *)
Definition set_nth {A} (i : Z) (x : A) (l : list A) : option (list A) :=
  if (0 <=? i) && (i <? lenZ l) then Some (updZ i [x] l) else None.

Section Manager.
Context {F St : Type} `{!cm_functions F St}.
#[local] Abbreviation manager := (com_manager_t F).
#[local] Abbreviation environ := (env F St).

Definition set_cm (cm : manager) (e : environ) : environ :=
  Env cm (e_cmPtr e) (e_mem e) (e_st e).
Definition set_mem (m : region) (e : environ) : environ :=
  Env (e_cm e) (e_cmPtr e) m (e_st e).
Definition set_st (s : St) (e : environ) : environ :=
  Env (e_cm e) (e_cmPtr e) (e_mem e) s.

Definition put_port (i : Z) (p : com_manager_port_t) (e : environ) : option environ :=
  l ← set_nth i p (ports (e_cm e)); Some (set_cm (set_ports l (e_cm e)) e).
Definition put_msg (i : Z) (b : broadcast_msg_t) (e : environ) : option environ :=
  l ← set_nth i b (broadcastMessages (e_cm e));
  Some (set_cm (set_broadcastMessages l (e_cm e)) e).

(** ** Initialisation *)

(** [com_manager_init_t]: whether [broadcastMsg] is not NULL, and its size in bytes;
    the size of a slot depends on the platform. *)
Record com_manager_init_t := InitBuffers { broadcastMsg : bool; broadcastMsgSize : Z }.

(** The first [n] ports initialised, each on its own buffer. *)
Fixpoint init_ports (n : nat) (l : list com_manager_port_t)
    : option (list com_manager_port_t) :=
  match n, l with
  | O, _ => Some l
  | S n, p :: l =>
    '(m, c) ← is_comm_init (comm_buffer p) (base (comm_buffer p)) PKT_BUF_SIZE;
    l ← init_ports n l;
    Some (CmPort c m :: l)
  | S _, [] => None
  end.

Definition initComManagerInstanceInternal (sizeof_broadcast_msg_t : Z) (cm : manager)
    (numPorts stepPeriodMilliseconds : Z)
    (portReadFnc portWriteFnc txFreeFnc pstRxFnc pstAckFnc disableBcastFnc : option F)
    (buffers : option com_manager_init_t) (cmPorts : option (list com_manager_port_t))
    (cbs : option (cm_callbacks_t F)) : option (manager * Z) :=
  if numPorts <=? 0 then Some (cm, -1) else
  let numPorts := Z.max 1 (Z.min 1024 numPorts) in
  let cb := set_isb (Some IsbProcessIsb) (default (callbacks cm) cbs) in
  let cm := Cm portReadFnc portWriteFnc txFreeFnc pstRxFnc pstAckFnc disableBcastFnc
              (regData cm) (ports cm) numPorts (broadcastMessages cm)
              stepPeriodMilliseconds (userPointer cm) cb in
  match buffers, cmPorts with
  | Some buffers, Some cmPorts =>
    if negb (broadcastMsg buffers) ||
       (broadcastMsgSize buffers <? MAX_NUM_BCAST_MSGS * sizeof_broadcast_msg_t)
    then Some (cm, -1) else
    let slots := Z.to_nat (broadcastMsgSize buffers / sizeof_broadcast_msg_t) in
    let cm := set_broadcastMessages (repeat zero_bcast slots) cm in
    l ← init_ports (Z.to_nat numPorts) cmPorts;
    Some (set_ports l cm, 0)
  | _, _ => Some (cm, -1)
  end.

Definition comManagerInit := initComManagerInstanceInternal.

(** The handle may be NULL; the instance is cleared first. *)
Definition comManagerInitInstance (sizeof_broadcast_msg_t : Z) (cmHandle : option manager)
    (numPorts stepPeriodMilliseconds : Z)
    (portReadFnc portWriteFnc txFreeFnc pstRxFnc pstAckFnc disableBcastFnc : option F)
    (buffers : option com_manager_init_t) (cmPorts : option (list com_manager_port_t))
    (cbs : option (cm_callbacks_t F)) : option (option manager * Z) :=
  match cmHandle with
  | None => Some (None, 0)
  | Some _ =>
    '(cm, result) ← initComManagerInstanceInternal sizeof_broadcast_msg_t zero_cm numPorts
       stepPeriodMilliseconds portReadFnc portWriteFnc txFreeFnc pstRxFnc pstAckFnc
       disableBcastFnc buffers cmPorts cbs;
    Some (Some cm, result)
  end.

Definition comManagerRegisterInstance (did : Z) (txFnc pstRxFnc : option F)
    (txDataPtr rxDataPtr size pktFlags : Z) (e : environ) : option environ :=
  if DID_COUNT <=? did then Some e else
  l ← set_nth did (Reg (TxRxPtr txDataPtr rxDataPtr size) txFnc pstRxFnc pktFlags)
        (regData (e_cm e));
  Some (set_cm (set_regData l (e_cm e)) e).

Definition comManagerRegister := comManagerRegisterInstance.

Definition comManagerAssignUserPointer (p : Z) (e : environ) : environ :=
  set_cm (set_userPointer p (e_cm e)) e.
Definition comManagerGetUserPointer (e : environ) : Z := userPointer (e_cm e).

(** The index of the port whose instance is returned, NULL being [None]. *)
Definition comManagerGetIsCommInstance (pHandle : Z) (e : environ) : option Z :=
  if (numPorts (e_cm e) <=? 0) || (pHandle <? 0) || (numPorts (e_cm e) <=? pHandle)
  then None else Some pHandle.
Definition comManagerGetIsComm := comManagerGetIsCommInstance.

Definition comManagerGetRegisteredDataInfoInstance (did : Z) (e : environ)
    : option bufTxRxPtr_t :=
  if did <? DID_COUNT then dataSet <$> nthZ (regData (e_cm e)) did else None.
Definition comManagerGetRegisteredDataInfo := comManagerGetRegisteredDataInfoInstance.

(** ** Sending *)

Definition comManagerSendInstance (port pFlags : Z) (data : list Z)
    (did size offset : Z) (e : environ) : option (environ * Z) :=
  p ← nthZ (ports (e_cm e)) port;
  '(st, comm, bytes) ← is_comm_write (call_portWrite <$> cm_portWrite (e_cm e)) port
      (port_comm p) pFlags did size offset data (e_st e);
  e ← put_port port (CmPort comm (comm_buffer p)) (set_st st e);
  Some (e, if bytes <? 0 then -1 else 0).
Definition comManagerSend := comManagerSendInstance.

Definition comManagerGetDataInstance (pHandle did size offset period : Z) (e : environ)
    : option environ :=
  '(e, _) ← comManagerSendInstance pHandle PKT_TYPE_GET_DATA
     (data_get_bytes (DataGet did size offset period)) 0 sizeof_p_data_get_t 0 e;
  Some e.
Definition comManagerGetData := comManagerGetDataInstance.

Definition comManagerSendDataInstance (pHandle : Z) (data : list Z) (did size offset : Z)
    (e : environ) := comManagerSendInstance pHandle PKT_TYPE_SET_DATA data did size offset e.
Definition comManagerSendData := comManagerSendDataInstance.

Definition comManagerSendDataNoAckInstance (pHandle : Z) (data : list Z)
    (did size offset : Z) (e : environ) :=
  comManagerSendInstance pHandle PKT_TYPE_DATA data did size offset e.
Definition comManagerSendDataNoAck := comManagerSendDataNoAckInstance.

Definition comManagerSendRawDataInstance (pHandle : Z) (data : list Z)
    (did size offset : Z) (e : environ) :=
  comManagerSendInstance pHandle PKT_TYPE_SET_DATA data did size offset e.
Definition comManagerSendRawData := comManagerSendRawDataInstance.

Definition comManagerGetDataRmcInstance (pHandle rmcBits rmcOptions : Z) (e : environ)
    : option environ :=
  '(e, _) ← comManagerSendDataInstance pHandle
     (le32_bytes (rmcBits mod 2 ^ 32) ++ le32_bytes (rmcBits / 2 ^ 32) ++
      le32_bytes rmcOptions) DID_RMC sizeof_rmc_t 0 e;
  Some e.
Definition comManagerGetDataRmc := comManagerGetDataRmcInstance.

Definition comManagerSendRawInstance (pHandle : Z) (data : list Z) (dataSize : Z)
    (e : environ) : option (environ * Z) :=
  match cm_portWrite (e_cm e) with
  | None => Some (e, 0)
  | Some f =>
    data ← take_exact dataSize data;
    let '(st, n) := call_portWrite f pHandle data (e_st e) in
    Some (set_st st e, if n =? 0 then -1 else 0)
  end.
Definition comManagerSendRaw := comManagerSendRawInstance.

Definition comManagerDisableDataInstance (pHandle did : Z) (e : environ) :=
  comManagerSendInstance pHandle PKT_TYPE_STOP_DID_BROADCAST [] did 0 0 e.
Definition comManagerDisableData := comManagerDisableDataInstance.

(** The packet of slot [i] with the data it points to, sent; the slot keeps the
    updated checksum.  A NULL [portWrite] is called all the same. *)
Definition sendDataPacket (port i : Z) (e : environ) : option (environ * Z) :=
  p ← nthZ (ports (e_cm e)) port;
  b ← nthZ (broadcastMessages (e_cm e)) i;
  f ← cm_portWrite (e_cm e);
  data ← load_range (e_mem e) (data_ptr (bc_pkt b)) (data_size (bc_pkt b));
  '(st, comm, pkt, bytes) ← is_comm_write_isb_precomp_to_port (call_portWrite f) port
     (port_comm p) (pkt_set_data data (bc_pkt b)) (e_st e);
  e ← put_port port (CmPort comm (comm_buffer p)) (set_st st e);
  e ← put_msg i (bc_set_pkt (pkt_set_data (data_ptr (bc_pkt b)) pkt) b) e;
  Some (e, if bytes <? 0 then -1 else 0).

(** The bytes of the [p_ack_t] for the packet [pkt] received on port [pHandle]. *)
Definition sendAck (pHandle : Z) (pkt : packet_t Z) (pTypeFlags : Z) (e : environ)
    : option environ :=
  p ← nthZ (ports (e_cm e)) pHandle;
  body ← (if Z.land (hdr_flags pkt) PKT_TYPE_MASK =? PKT_TYPE_SET_DATA
          then load_range (comm_buffer p) (data_ptr pkt) sizeof_p_data_hdr_t
          else Some (repeat 0 (Z.to_nat sizeof_p_data_hdr_t)));
  '(e, _) ← comManagerSendInstance pHandle pTypeFlags
     (le16_bytes (hdr_flags pkt) ++ le16_bytes 0 ++ body) 0 sizeof_p_ack_t 0 e;
  Some e.

Definition comManagerValidateBaudRate (baudRate : Z) : Z := validateBaudRate baudRate.

(** ** The broadcast table *)

Definition enableBroadcastMsg (i periodMultiple : Z) (e : environ) : option environ :=
  b ← nthZ (broadcastMessages (e_cm e)) i;
  period ← (if 0 <? periodMultiple then
              if stepPeriodMilliseconds (e_cm e) =? 0 then None
              else Some (Z.quot periodMultiple (stepPeriodMilliseconds (e_cm e)))
            else Some MSG_PERIOD_SEND_ONCE);
  put_msg i (bc_set_counter (-1) (bc_set_period period b)) e.

Definition disableBroadcastMsg (i : Z) (e : environ) : option environ :=
  b ← nthZ (broadcastMessages (e_cm e)) i;
  put_msg i (bc_set_period MSG_PERIOD_DISABLED b) e.

(** A loop over the first [MAX_NUM_BCAST_MSGS] slots that only updates them. *)
Definition update_msgs (f : broadcast_msg_t -> broadcast_msg_t) (e : environ)
    : option environ :=
  let l := broadcastMessages (e_cm e) in
  if lenZ l <? MAX_NUM_BCAST_MSGS then None else
  Some (set_cm (set_broadcastMessages
          (map f (takeZ MAX_NUM_BCAST_MSGS l) ++ dropZ MAX_NUM_BCAST_MSGS l) (e_cm e)) e).

Definition comManagerDisableBroadcastsInstance (pHandle : Z) (e : environ)
    : option environ :=
  update_msgs (fun b =>
    if (pHandle <? 0) || (bc_pHandle b =? pHandle)
    then bc_set_period MSG_PERIOD_DISABLED b else b) e.
Definition comManagerDisableBroadcasts := comManagerDisableBroadcastsInstance.

Definition disableDidBroadcast (pHandle did : Z) (e : environ) : option environ :=
  e ← update_msgs (fun b =>
    if ((pHandle <? 0) || (pHandle =? bc_pHandle b)) && (hdr_id (bc_pkt b) =? did)
    then bc_set_period MSG_PERIOD_DISABLED b else b) e;
  match ccb_rmc (callbacks (e_cm e)) with
  | Some f => '(e, _) ← call_rmc f pHandle (DataGet did 0 0 0) e; Some e
  | None => Some e
  end.

(** The first of the [n] slots from [i] on that satisfies [p]. *)
Fixpoint find_msg (p : broadcast_msg_t -> bool) (n : nat) (i : Z)
    (l : list broadcast_msg_t) : option (option Z) :=
  match n, l with
  | O, _ => Some None
  | S n, b :: l => if p b then Some (Some i) else find_msg p n (i + 1) l
  | S _, [] => None
  end.

(** The slot a request uses: the one with the same port, identifier, size and
    offset, else the first that is not periodic, else the last. *)
Definition request_slot (pHandle : Z) (req : p_data_get_t) (e : environ) : option Z :=
  let l := broadcastMessages (e_cm e) in
  let n := Z.to_nat MAX_NUM_BCAST_MSGS in
  msg ← find_msg (fun b =>
          (bc_pHandle b =? pHandle) && (hdr_id (bc_pkt b) =? get_id req) &&
          (hdr_payloadSize (bc_pkt b) =? get_size req) &&
          (pkt_offset (bc_pkt b) =? get_offset req)) n 0 l;
  match msg with
  | Some i => Some i
  | None =>
    msg ← find_msg (fun b => bc_period b <=? MSG_PERIOD_DISABLED) n 0 l;
    Some (default (MAX_NUM_BCAST_MSGS - 1) msg)
  end.

(** [txFree == 0 || size <= (uint32_t)txFree(pHandle)] *)
Definition tx_fits (pHandle size : Z) (e : environ) : bool :=
  match cm_txFree (e_cm e) with
  | None => true
  | Some f => size <=? u32 (call_txFree f pHandle (e_st e))
  end.

(** The request with its size and offset completed from the data set. *)
Definition request_range (ds : bufTxRxPtr_t) (req : p_data_get_t) : p_data_get_t :=
  if (u32 (get_offset req + get_size req) <=? ds_size ds) then req
  else DataGet (get_id req) (u16 (ds_size ds)) 0 (get_period req).

(** Calls [preTxFnc] of data set [id] if there is one. *)
Definition pre_send (pHandle id : Z) (h : p_data_hdr_t) (e : environ)
    : option (environ * bool) :=
  reg ← nthZ (regData (e_cm e)) id;
  match preTxFnc reg with
  | None => Some (e, true)
  | Some f => '(e, r) ← call_preTx f pHandle h e; Some (e, negb (r =? 0))
  end.

(** From the choice of the slot on; returns the request as well, whose period may
    have been limited. *)
Definition request_send (pHandle : Z) (req : p_data_get_t) (e : environ)
    : option (environ * p_data_get_t * Z) :=
  reg ← nthZ (regData (e_cm e)) (get_id req);
  i ← request_slot pHandle req e;
  b ← nthZ (broadcastMessages (e_cm e)) i;
  let ptr := if txPtr (dataSet reg) =? 0 then 0 else txPtr (dataSet reg) + get_offset req in
  let pkt := is_comm_encode_hdr (bc_pkt b) PKT_TYPE_DATA (get_id req) (get_size req)
               (get_offset req) ptr in
  e ← put_msg i (bc_set_pkt pkt (bc_set_pHandle pHandle b)) e;
  '(e, sendData) ← pre_send pHandle (get_id req) (pkt_dataHdr pkt) e;
  if get_id req =? DID_REFERENCE_IMU then Some (e, req, -1) else
  let period := if get_period req =? 0 then 0
                else Z.max MIN_REQUEST_PERIOD_MS (Z.min MAX_REQUEST_PERIOD_MS (get_period req)) in
  let req := DataGet (get_id req) (get_size req) (get_offset req) period in
  b ← nthZ (broadcastMessages (e_cm e)) i;
  let fits := tx_fits pHandle (pkt_size (bc_pkt b)) e in
  e ← (if fits && sendData then '(e, _) ← sendDataPacket pHandle i e; Some e else Some e);
  e ← (if (0 <? period) || negb fits then enableBroadcastMsg i period e
       else disableBroadcastMsg i e);
  Some (e, req, 0).

Definition comManagerGetDataRequestInstance (pHandle : Z) (req : p_data_get_t)
    (e : environ) : option (environ * p_data_get_t * Z) :=
  if DID_COUNT <=? get_id req then Some (e, req, -1) else
  '(e, handled) ←
    match ccb_rmc (callbacks (e_cm e)) with
    | None => Some (e, false)
    | Some f => '(e, r) ← call_rmc f pHandle req e; Some (e, r =? 0)
    end;
  if handled : bool then Some (e, req, 0) else
  reg ← nthZ (regData (e_cm e)) (get_id req);
  let req :=
    if (get_size req =? 0) && (get_offset req =? 0)
    then DataGet (get_id req) (u16 (ds_size (dataSet reg))) 0 (get_period req) else req in
  if get_size req =? 0 then Some (e, req, 0) else
  request_send pHandle (request_range (dataSet reg) req) e.
Definition comManagerGetDataRequest := comManagerGetDataRequestInstance.

(** One slot of the transmit step, and whether the loop goes on. *)
Definition send_msg (i : Z) (e : environ) : option (environ * bool) :=
  b ← nthZ (broadcastMessages (e_cm e)) i;
  if negb (tx_fits (bc_pHandle b) (pkt_size (bc_pkt b)) e) then Some (e, false) else
  if bc_period b =? MSG_PERIOD_SEND_ONCE then
    '(e, _) ← sendDataPacket (bc_pHandle b) i e;
    e ← disableBroadcastMsg i e;
    Some (e, true)
  else if 0 <? bc_period b then
    let counter := bc_counter b + 1 in
    if counter <? bc_period b
    then e ← put_msg i (bc_set_counter counter b) e; Some (e, true)
    else
      e ← put_msg i (bc_set_counter 0 b) e;
      let id := hdr_id (bc_pkt b) in
      '(e, sendData) ← (if id <? DID_COUNT
                        then pre_send (bc_pHandle b) id (pkt_dataHdr (bc_pkt b)) e
                        else Some (e, true));
      b ← nthZ (broadcastMessages (e_cm e)) i;
      if sendData : bool then '(e, _) ← sendDataPacket (bc_pHandle b) i e; Some (e, true)
      else Some (e, true)
  else Some (e, true).

Fixpoint send_msgs (n : nat) (i : Z) (e : environ) : option environ :=
  match n with
  | O => Some e
  | S n =>
    '(e, go) ← send_msg i e;
    if go : bool then send_msgs n (i + 1) e else Some e
  end.

Definition stepComManagerSendMessagesInstance (e : environ) : option environ :=
  send_msgs (Z.to_nat MAX_NUM_BCAST_MSGS) 0 e.
Definition stepComManagerSendMessages := stepComManagerSendMessagesInstance.
Definition comManagerStepTxInstance := stepComManagerSendMessagesInstance.

(** ** Receiving *)

(** Received data into the registered structure at [rxPtr]. *)
Definition copy_to_registered (ds : bufTxRxPtr_t) (buf : region) (data : p_data_t Z)
    (mem : region) : option region :=
  if rxPtr ds =? 0 then Some mem else
  sptr ← load_range mem (rxPtr ds) (ds_size ds);
  bytes ← load_range buf (d_ptr data) (dh_size (d_hdr data));
  '(sptr, _) ← copyDataPToStructP sptr (Data (d_hdr data) bytes) (ds_size ds);
  store_range mem (rxPtr ds) sptr.

(** The received size limited to the registered structure; [None] when it cannot be. *)
Definition trim_size (ds : bufTxRxPtr_t) (h : p_data_hdr_t) : option p_data_hdr_t :=
  if negb (ds_size ds =? 0) && (ds_size ds <? u32 (dh_offset h + dh_size h)) then
    let size := u16 (ds_size ds - dh_offset h) in
    if size <? 4 then None
    else Some (DataHdr (dh_id h) (Z.min (dh_size h) (u8 size)) (dh_offset h))
  else Some h.

Definition call_opt (f : option F) (call : F -> environ -> option environ) (e : environ)
    : option environ :=
  match f with Some f => call f e | None => Some e end.

(** The packets [PKT_TYPE_DATA] and [PKT_TYPE_SET_DATA]. *)
Definition processIsb_data (pHandle ptype : Z) (p : com_manager_port_t) (e : environ)
    : option (environ * Z) :=
  let comm := port_comm p in
  let data := is_comm_to_isb_p_data comm in
  if (DID_COUNT <=? dh_id (d_hdr data)) || (hdr_payloadSize (rxPkt comm) =? 0)
  then Some (e, -1) else
  reg ← nthZ (regData (e_cm e)) (dh_id (d_hdr data));
  match trim_size (dataSet reg) (d_hdr data) with
  | None => Some (e, -1)
  | Some h =>
    let data := Data h (d_ptr data) in
    mem ← copy_to_registered (dataSet reg) (comm_buffer p) data (e_mem e);
    let e := set_mem mem e in
    e ← call_opt (reg_pstRxFnc reg) (fun f => call_postRead f pHandle data) e;
    e ← call_opt (cm_pstRxFnc (e_cm e)) (fun f => call_postRead f pHandle data) e;
    p ← nthZ (ports (e_cm e)) pHandle;
    e ← (if ptype =? PKT_TYPE_SET_DATA
         then sendAck pHandle (rxPkt (port_comm p)) PKT_TYPE_ACK e else Some e);
    Some (e, 0)
  end.

(** The request in a received packet, and its bytes after the manager has used it. *)
Definition load_req (m : region) (a : Z) : option p_data_get_t :=
  id ← load16 m a; size ← load16 m (a + 2); offset ← load16 m (a + 4);
  period ← load16 m (a + 6); Some (DataGet id size offset period).

Definition processIsb_get (pHandle : Z) (p : com_manager_port_t) (e : environ)
    : option (environ * Z) :=
  let ptr := data_ptr (rxPkt (port_comm p)) in
  req ← load_req (comm_buffer p) ptr;
  '(e, req, r) ← comManagerGetDataRequestInstance pHandle req e;
  p ← nthZ (ports (e_cm e)) pHandle;
  m ← store_range (comm_buffer p) ptr (data_get_bytes req);
  e ← put_port pHandle (CmPort (port_comm p) m) e;
  e ← (if r =? 0 then Some e
       else sendAck pHandle (rxPkt (port_comm p)) PKT_TYPE_NACK e);
  Some (e, 0).

(** The two commands that stop broadcasts, on the ports [which]. *)
Definition processIsb_stop (pHandle which : Z) (e : environ) : option (environ * Z) :=
  e ← comManagerDisableBroadcastsInstance which e;
  e ← call_opt (cm_disableBcastFnc (e_cm e)) (fun f => call_disableBcast f which) e;
  p ← nthZ (ports (e_cm e)) pHandle;
  e ← sendAck pHandle (rxPkt (port_comm p)) PKT_TYPE_ACK e;
  Some (e, 0).

Definition processIsb (pHandle : Z) (e : environ) : option (environ * Z) :=
  if negb (e_cmPtr e) then Some (e, -1) else
  p ← nthZ (ports (e_cm e)) pHandle;
  let ptype := is_comm_to_isb_pkt_type (port_comm p) in
  if (ptype =? PKT_TYPE_SET_DATA) || (ptype =? PKT_TYPE_DATA)
  then processIsb_data pHandle ptype p e
  else if ptype =? PKT_TYPE_GET_DATA then processIsb_get pHandle p e
  else if ptype =? PKT_TYPE_STOP_BROADCASTS_ALL_PORTS then processIsb_stop pHandle (-1) e
  else if ptype =? PKT_TYPE_STOP_BROADCASTS_CURRENT_PORT then processIsb_stop pHandle pHandle e
  else if ptype =? PKT_TYPE_STOP_DID_BROADCAST then
    e ← disableDidBroadcast pHandle (hdr_id (rxPkt (port_comm p))) e; Some (e, 0)
  else if (ptype =? PKT_TYPE_NACK) || (ptype =? PKT_TYPE_ACK) then
    e ← call_opt (cm_pstAckFnc (e_cm e))
          (fun f => call_postAck f pHandle (data_ptr (rxPkt (port_comm p))) ptype) e;
    Some (e, 0)
  else Some (e, -1).

(** The instance and buffer the parser works on are those of port [port]: they are
    put back before a callback runs and taken out again after it.  The table of
    callbacks is read once for each port. *)
Definition enter (port : Z) (e : environ) : option (world environ) :=
  p ← nthZ (ports (e_cm e)) port; Some (World (comm_buffer p) (port_comm p) e).
Definition leave (port : Z) (w : world environ) : option environ :=
  put_port port (CmPort (w_comm w) (w_mem w)) (w_st w).
Definition with_port (port : Z) (f : environ -> option environ) (w : world environ)
    : option (world environ) :=
  e ← leave port w; e ← f e; enter port e.

Definition cm_callbacks (cb : cm_callbacks_t F) : is_comm_callbacks_t environ :=
  let gen (f : F) : pfnIsCommGenMsgHandler :=
    fun port msg size => with_port port (call_genMsg f port msg size) in
  let handler (f : F) : pfnIsCommHandler := fun port => with_port port (call_comm f port) in
  {| cb_isbData := (fun (f : F) port data => with_port port (call_postRead f port data))
                     <$> ccb_isbData cb;
     cb_isb := (fun h => match h with
                         | IsbProcessIsb => fun port =>
                             with_port port (fun e => '(e, _) ← processIsb port e; Some e)
                         | IsbUser f => handler f
                         end) <$> ccb_isb cb;
     cb_nmea := gen <$> ccb_nmea cb; cb_ublox := gen <$> ccb_ublox cb;
     cb_rtcm3 := gen <$> ccb_rtcm3 cb; cb_sony := gen <$> ccb_sony cb;
     cb_sprtn := gen <$> ccb_sprtn cb;
     cb_error := handler <$> ccb_error cb; cb_all := handler <$> ccb_all cb |}.

Definition env_portRead (f : F) (port len : Z) (e : environ) : environ * list Z * Z :=
  let '(st, bytes, n) := call_portRead f port len (e_st e) in (set_st st e, bytes, n).

(** The receive loop, from [port] on. *)
Fixpoint step_rx_loop (fuel : nat) (port : Z) (e : environ) : option environ :=
  if negb (port <? numPorts (e_cm e)) then Some e else
  match fuel with
  | O => None
  | S fuel =>
    f ← cm_portRead (e_cm e);
    w ← enter port e;
    w ← is_comm_port_parse_messages (env_portRead f) port
          (cm_callbacks (callbacks (e_cm e))) w;
    e ← leave port w;
    step_rx_loop fuel (port + 1) e
  end.

(** The manager never has more than 1024 ports.  The time is not used. *)
Definition comManagerStepRxInstance (timeMs : Z) (e : environ) : option environ :=
  match cm_portRead (e_cm e) with
  | None => Some e
  | Some _ => step_rx_loop 1024 0 (Env (e_cm e) true (e_mem e) (e_st e))
  end.

Definition comManagerStepTimeout (timeMs : Z) (e : environ) : option environ :=
  e ← comManagerStepRxInstance timeMs e; comManagerStepTxInstance e.
Definition comManagerStepInstance (e : environ) : option environ := comManagerStepTimeout 0 e.
Definition comManagerStep := comManagerStepInstance.

End Manager.
Arguments com_manager_init_t : clear implicits.
End ComManager.
Export ComManager.
