(* ===== verification/ComManagerProps.v ===== *)
(** * Properties of the communications manager

    The transmit step against an abstract schedule, requests, received data, and
    the commands that stop broadcasts.  The ports are stream ports: they take every
    byte. *)

From S2P Require Import Prelude Checksum CommTypes CommRx CommTx CommMessages.
From S2P Require Import CommFrames CommStep CommParse CommBuffer CommTxProps ComManager.

(** ** Arrays *)

Lemma set_nth_ok {A} i (x : A) l :
  0 <= i < lenZ l -> set_nth i x l = Some (updZ i [x] l).
Proof. intros. unfold set_nth. split_cmp; try lia; done. Qed.

Lemma map_updZ {A B} (f : A -> B) i x l :
  0 <= i < lenZ l -> map f (updZ i [x] l) = updZ i [f x] (map f l).
Proof.
  intros Hi. unfold updZ, takeZ, dropZ. rewrite !map_app. cbn [map].
  by rewrite <- !skipn_map, <- firstn_map.
Qed.

Lemma updZ_same {A} i (x : A) l : nthZ l i = Some x -> updZ i [x] l = l.
Proof.
  intros Hx. apply nthZ_Some_range in Hx as Hi.
  apply nthZ_ext; [rewrite lenZ_updZ; rewrite ?lenZ_cons, ?lenZ_nil; lia|].
  intros j Hj. rewrite nthZ_updZ by (rewrite ?lenZ_cons, ?lenZ_nil; lia).
  rewrite lenZ_cons, lenZ_nil. split_cmp; [|done|done].
  assert (j = i) as -> by lia. rewrite Z.sub_diag. by rewrite Hx.
Qed.

Lemma nthZ_updZ_same {A} i (x : A) l : 0 <= i < lenZ l -> nthZ (updZ i [x] l) i = Some x.
Proof.
  intros Hi. rewrite nthZ_updZ by (rewrite ?lenZ_cons, ?lenZ_nil; lia).
  rewrite lenZ_cons, lenZ_nil. split_cmp; try lia. by rewrite Z.sub_diag.
Qed.

Lemma nthZ_updZ_other {A} i j (x : A) l :
  0 <= i < lenZ l -> j <> i -> nthZ (updZ i [x] l) j = nthZ l j.
Proof.
  intros Hi Hj. rewrite nthZ_updZ by (rewrite ?lenZ_cons, ?lenZ_nil; lia).
  rewrite lenZ_cons, lenZ_nil. split_cmp; try lia; done.
Qed.

Lemma updZ_updZ {A} i (x y : A) l :
  0 <= i < lenZ l -> updZ i [y] (updZ i [x] l) = updZ i [y] l.
Proof.
  intros Hi. assert (lenZ [x] = 1 /\ lenZ [y] = 1) as [? ?] by done.
  apply nthZ_ext; [rewrite !lenZ_updZ; rewrite ?lenZ_updZ; lia|]. intros j Hj.
  rewrite !nthZ_updZ; rewrite ?lenZ_updZ; try lia. split_cmp; done || lia.
Qed.

Lemma updZ_middle_one {A} (pre post : list A) x y :
  updZ (lenZ pre) [y] (pre ++ x :: post) = pre ++ y :: post.
Proof. by apply (updZ_middle pre [x] [y]). Qed.

(** ** What a transmission leaves alone *)

Section Kept.
Context {F St : Type}.
Implicit Types e : env F St.

(** Everything of the manager but its ports and its slots. *)
Definition cm_static (cm : com_manager_t F) : com_manager_t F :=
  set_broadcastMessages [] (set_ports [] cm).

(** A port without its count of packets sent. *)
Definition port_rx (p : com_manager_port_t) : com_manager_port_t :=
  CmPort (set_txPktCount 0 (port_comm p)) (comm_buffer p).

Definition kept e e' : Prop :=
  cm_static (e_cm e') = cm_static (e_cm e) /\
  map port_rx (ports (e_cm e')) = map port_rx (ports (e_cm e)) /\
  e_mem e' = e_mem e /\ e_cmPtr e' = e_cmPtr e.

#[export] Instance kept_preorder : PreOrder kept.
Proof.
  split; [done|]. intros e1 e2 e3 (A1 & B1 & C1 & D1) (A2 & B2 & C2 & D2).
  split_and!; congruence.
Qed.

Lemma kept_static {A} (f : com_manager_t F -> A) e e' :
  (forall cm, f cm = f (cm_static cm)) -> kept e e' -> f (e_cm e') = f (e_cm e).
Proof. intros Hf (E & _). by rewrite Hf, E, <- Hf. Qed.

Lemma kept_nports e e' : kept e e' -> lenZ (ports (e_cm e')) = lenZ (ports (e_cm e)).
Proof.
  intros (_ & E & _). apply (f_equal length) in E. rewrite !length_map in E.
  unfold lenZ. lia.
Qed.

(** A slot without the checksum of its packet. *)
Definition bc_norm (b : broadcast_msg_t) : broadcast_msg_t :=
  bc_set_pkt (set_checksum 0 (bc_pkt b)) b.
End Kept.

(** ** Slots *)

(** The packet was prepared by [is_comm_encode_hdr]. *)
Definition encoded (b : broadcast_msg_t) : Prop :=
  exists pkt0 did size offset ptr,
    0 <= did < 256 /\ bc_pkt b = is_comm_encode_hdr pkt0 PKT_TYPE_DATA did size offset ptr.

Definition active (b : broadcast_msg_t) : bool :=
  (bc_period b =? MSG_PERIOD_SEND_ONCE) || (0 <? bc_period b).

(** The bytes of the data set a slot refers to. *)
Definition slot_data (m : region) (b : broadcast_msg_t) : option (list Z) :=
  load_range m (data_ptr (bc_pkt b)) (data_size (bc_pkt b)).

Definition slot_ok (nports : Z) (m : region) (b : broadcast_msg_t) : Prop :=
  active b = true ->
  encoded b /\ 0 <= bc_pHandle b < nports /\
  exists data, slot_data m b = Some data /\ lenZ data = data_size (bc_pkt b) /\
    tx_args_ok PKT_TYPE_DATA (hdr_id (bc_pkt b)) (pkt_offset (bc_pkt b)) data.

(** The packet a slot sends while the memory is [m]. *)
Definition slot_frame (m : region) (b : broadcast_msg_t) : list Z :=
  isb_wire PKT_TYPE_DATA (hdr_id (bc_pkt b)) (pkt_offset (bc_pkt b))
    (default [] (slot_data m b)).

(** ** The abstract schedule *)

(** Whether a slot sends in the next step, and what it becomes. *)
Definition due (b : broadcast_msg_t) : bool :=
  (bc_period b =? MSG_PERIOD_SEND_ONCE) ||
  ((0 <? bc_period b) && (bc_period b <=? bc_counter b + 1)).

Definition tick (b : broadcast_msg_t) : broadcast_msg_t :=
  if bc_period b =? MSG_PERIOD_SEND_ONCE then bc_set_period MSG_PERIOD_DISABLED b
  else if 0 <? bc_period b then
    bc_set_counter (if bc_counter b + 1 <? bc_period b then bc_counter b + 1 else 0) b
  else b.

(** Whether a slot sends in step [k], counted from 0. *)
Definition due_at (b : broadcast_msg_t) (k : Z) : bool :=
  if bc_period b =? MSG_PERIOD_SEND_ONCE then k =? 0 else
  if 0 <? bc_period b then
    let first := Z.max 0 (bc_period b - (bc_counter b + 1)) in
    (first <=? k) && ((k - first) mod bc_period b =? 0)
  else false.

(** ** Sending one slot *)

Section Send.
Context {F St : Type} `{!cm_functions F St}.
Implicit Types e : env F St.
#[local] Abbreviation slots e := (broadcastMessages (e_cm e)).

Lemma put_port_kept i p p' e :
  nthZ (ports (e_cm e)) i = Some p -> port_rx p' = port_rx p ->
  exists e', put_port i p' e = Some e' /\ kept e e' /\ e_st e' = e_st e /\ slots e' = slots e.
Proof.
  intros Hp E. apply nthZ_Some_range in Hp as Hi. unfold put_port.
  rewrite set_nth_ok by done. eexists. split; [done|]. split; [|done].
  split; [done|]. split; [|done]. cbn. rewrite map_updZ, E by done. apply updZ_same.
  by rewrite nthZ_map, Hp.
Qed.

Lemma put_msg_kept i b e :
  0 <= i < lenZ (slots e) ->
  exists e', put_msg i b e = Some e' /\ kept e e' /\ e_st e' = e_st e /\
    slots e' = updZ i [b] (slots e).
Proof. intros Hi. unfold put_msg. rewrite set_nth_ok by done. by eexists. Qed.

Context (f : F) (emit : Z -> list Z -> St -> St).
Context `{!stream_port (call_portWrite f) emit}.

Lemma sendDataPacket_ok e i b :
  cm_portWrite (e_cm e) = Some f -> nthZ (slots e) i = Some b ->
  encoded b -> 0 <= bc_pHandle b < lenZ (ports (e_cm e)) ->
  (exists data, slot_data (e_mem e) b = Some data /\ lenZ data = data_size (bc_pkt b) /\
    tx_args_ok PKT_TYPE_DATA (hdr_id (bc_pkt b)) (pkt_offset (bc_pkt b)) data) ->
  exists e' b', sendDataPacket (bc_pHandle b) i e = Some (e', 0) /\ kept e e' /\
    e_st e' = emit (bc_pHandle b) (slot_frame (e_mem e) b) (e_st e) /\
    slots e' = updZ i [b'] (slots e) /\ bc_norm b' = bc_norm b /\ encoded b'.
Proof.
  intros Hf Hb (pkt0 & did & size & offset & ptr & Hdid & Eb) Hport (data & Hd & Hlen & Hargs).
  unfold sendDataPacket. unfold slot_frame. destruct (nthZ_Some _ _ Hport) as [p Hp].
  unfold slot_data in *. rewrite Hp, Hb, Hf. cbn [mbind option_bind].
  rewrite Hd. cbn [mbind option_bind default].
  destruct b as [pkt counter period pHandle]. cbn [bc_pkt bc_pHandle] in *. subst pkt.
  set (pkt := is_comm_encode_hdr pkt0 PKT_TYPE_DATA did size offset ptr) in *.
  change (hdr_id pkt) with (u8 did) in *. change (data_size pkt) with size in *.
  change (pkt_offset pkt) with offset in *. change (data_ptr pkt) with ptr in *.
  assert (u8 did = did) as Hu by (unfold u8; rewrite Z.mod_small; lia). rewrite Hu in *.
  change (pkt_set_data data pkt)
    with (is_comm_encode_hdr (pkt_set_data data pkt0) PKT_TYPE_DATA did size offset data).
  unfold pkt. rewrite <- Hlen, (precomp_to_port_ok (port_comm p) _ _ _ _ Hargs (call_portWrite f) emit).
  cbn [mbind option_bind]. set (st := emit _ _ _).
  destruct (put_port_kept pHandle p
    (CmPort (set_txPktCount (u32 (txPktCount (port_comm p) + 1)) (port_comm p)) (comm_buffer p))
    (set_st st e) Hp eq_refl) as (e1 & -> & Hk1 & Hst1 & Hs1).
  cbn [mbind option_bind]. change (slots (set_st st e)) with (slots e) in Hs1.
  match goal with |- context [put_msg i ?x e1] => set (b' := x) end.
  destruct (put_msg_kept i b' e1) as (e2 & -> & Hk2 & Hst2 & Hs2).
  { rewrite Hs1. by apply nthZ_Some_range in Hb. }
  cbn [mbind option_bind]. rewrite lenZ_isb_wire. pose proof (lenZ_nonneg (isb_payload offset data)).
  rewrite (proj2 (Z.ltb_ge _ 0)) by lia.
  exists e2, b'. split; [done|]. split; [etrans; [|exact Hk2]; exact Hk1|].
  split; [by rewrite Hst2, Hst1|]. split; [by rewrite Hs2, Hs1|]. split; [done|].
  eexists (set_checksum _ pkt0), did, (lenZ data), offset, ptr. split; [done|]. reflexivity.
Qed.
End Send.

(** ** One transmit step *)

Lemma encoded_norm b b' : encoded b -> bc_norm b' = bc_norm b -> encoded b'.
Proof.
  intros (pkt0 & did & size & offset & ptr & Hd & Eb) En.
  exists (set_checksum (pkt_checksum (bc_pkt b')) pkt0), did, size, offset, ptr.
  split; [done|]. apply (f_equal bc_pkt) in En. cbn [bc_norm bc_pkt bc_set_pkt] in En.
  transitivity (set_checksum (pkt_checksum (bc_pkt b')) (set_checksum 0 (bc_pkt b')));
    [by destruct (bc_pkt b')|]. by rewrite En, Eb.
Qed.

(** What does not depend on the checksum of the packet. *)
Section Norm.
Context (b b' : broadcast_msg_t) (En : bc_norm b' = bc_norm b).

Lemma norm_field {A} (g : broadcast_msg_t -> A) : (forall x, g x = g (bc_norm x)) -> g b' = g b.
Proof. intros Hg. by rewrite Hg, En, <- Hg. Qed.

Lemma tick_norm : bc_norm (tick b') = bc_norm (tick b).
Proof.
  assert (forall x, bc_norm (tick x) = bc_norm (tick (bc_norm x))) as Hx.
  { intros x. unfold tick. destruct x as [p c q h]. cbn. destruct (q =? _); [done|].
    by destruct (0 <? q). }
  apply (norm_field (fun x => bc_norm (tick x)) Hx).
Qed.

Lemma slot_ok_norm n m : slot_ok n m b -> slot_ok n m b'.
Proof.
  unfold slot_ok. intros H Ha. rewrite (norm_field active) in Ha by done.
  destruct (H Ha) as (He & Hh & Hd). split; [by eapply encoded_norm|].
  rewrite (norm_field bc_pHandle) by done. split; [done|].
  destruct Hd as (data & Hd & Hl & Hargs). exists data.
  rewrite (norm_field (slot_data m)), (norm_field (fun x => data_size (bc_pkt x))),
    (norm_field (fun x => hdr_id (bc_pkt x))), (norm_field (fun x => pkt_offset (bc_pkt x)))
    by done. done.
Qed.
End Norm.

Lemma slot_ok_tick n m b : slot_ok n m b -> slot_ok n m (tick b).
Proof.
  intros H Ha. unfold tick in *.
  destruct (bc_period b =? MSG_PERIOD_SEND_ONCE) eqn:E1; [done|].
  destruct (0 <? bc_period b) eqn:E2; [|by apply H]. apply H. unfold active. by rewrite E2, orb_true_r.
Qed.

Section Step.
Context {F St : Type} `{!cm_functions F St}.
Implicit Types e : env F St.
Context (f : F) (emit : Z -> list Z -> St -> St).
Context `{!stream_port (call_portWrite f) emit}.
#[local] Abbreviation slots e := (broadcastMessages (e_cm e)).

(** No callback takes part in the preparation of a packet. *)
Definition calm (e : env F St) : Prop :=
  cm_portWrite (e_cm e) = Some f /\ lenZ (regData (e_cm e)) = DID_COUNT /\
  Forall (fun r => preTxFnc r = None) (regData (e_cm e)).

(** Besides, no transmission is held back. *)
Definition quiet (e : env F St) : Prop := calm e /\ cm_txFree (e_cm e) = None.

Lemma calm_kept e e' : calm e -> kept e e' -> calm e'.
Proof.
  intros (H1 & H3 & H4) Hk. unfold calm.
  by rewrite (kept_static cm_portWrite e e'), (kept_static regData e e').
Qed.

Lemma quiet_kept e e' : quiet e -> kept e e' -> quiet e'.
Proof.
  intros [Hc Hf] Hk. split; [by eapply calm_kept|]. by rewrite (kept_static cm_txFree e e').
Qed.

Lemma pre_send_calm e p id h :
  calm e -> 0 <= id < DID_COUNT -> pre_send p id h e = Some (e, true).
Proof.
  intros (_ & Hl & Hr) Hid. unfold pre_send.
  destruct (nthZ_Some (regData (e_cm e)) id ltac:(lia)) as [r Er]. rewrite Er.
  cbn [mbind option_bind].
  by rewrite (nthZ_Forall _ _ _ _ Hr Er).
Qed.

Lemma tx_fits_quiet e p n : quiet e -> tx_fits p n e = true.
Proof. intros [_ H]. unfold tx_fits. by rewrite H. Qed.

(** The port of a slot has room for its packet. *)
Definition room e (b : broadcast_msg_t) : bool := tx_fits (bc_pHandle b) (pkt_size (bc_pkt b)) e.

(** The slot sends its packet when it is due and ticks. *)
Lemma send_msg_spec e i b :
  calm e -> room e b = true -> nthZ (slots e) i = Some b ->
  slot_ok (lenZ (ports (e_cm e))) (e_mem e) b ->
  exists e' b', send_msg i e = Some (e', true) /\ kept e e' /\
    slots e' = updZ i [b'] (slots e) /\ bc_norm b' = bc_norm (tick b) /\
    e_st e' = if due b then emit (bc_pHandle b) (slot_frame (e_mem e) b) (e_st e) else e_st e.
Proof.
  intros Hq Hr Hb Hok. unfold send_msg. rewrite Hb. cbn [mbind option_bind].
  unfold room in Hr. rewrite Hr. cbn [negb]. apply nthZ_Some_range in Hb as Hi.
  unfold due, tick. unfold slot_ok, active in Hok.
  destruct (bc_period b =? MSG_PERIOD_SEND_ONCE) eqn:E1.
  { destruct (Hok eq_refl) as (He & Hh & Hd).
    destruct (sendDataPacket_ok f emit e i b) as (e1 & b1 & -> & Hk1 & Hst1 & Hs1 & Hn1 & _);
      [apply Hq|done..|]. cbn [mbind option_bind]. unfold disableBroadcastMsg.
    rewrite Hs1, nthZ_updZ_same by done. cbn [mbind option_bind].
    destruct (put_msg_kept i (bc_set_period MSG_PERIOD_DISABLED b1) e1) as (e2 & -> & Hk2 & Hst2 & Hs2).
    { rewrite Hs1, lenZ_updZ; rewrite ?lenZ_cons, ?lenZ_nil; lia. }
    cbn [mbind option_bind]. exists e2, (bc_set_period MSG_PERIOD_DISABLED b1).
    split; [done|]. split; [by etrans|]. rewrite Hs2, Hs1, updZ_updZ by done.
    split; [done|]. cbn [orb]. split; [|by rewrite Hst2].
    apply (norm_field b b1 Hn1 (fun x => bc_norm (bc_set_period MSG_PERIOD_DISABLED x))). done. }
  cbn [orb]. destruct (Z.ltb_spec 0 (bc_period b)) as [Hp|Hp].
  2: { cbn [andb]. exists e, b. rewrite updZ_same by done. done. }
  cbn [andb]. destruct (Hok eq_refl) as (He & Hh & Hd).
  destruct (Z.ltb_spec (bc_counter b + 1) (bc_period b)) as [Hc|Hc].
  { destruct (put_msg_kept i (bc_set_counter (bc_counter b + 1) b) e Hi) as (e1 & -> & Hk1 & Hst1 & Hs1).
    cbn [mbind option_bind]. rewrite (proj2 (Z.leb_gt _ _)) by lia. eauto 10. }
  rewrite (proj2 (Z.leb_le _ _)) by lia.
  destruct (put_msg_kept i (bc_set_counter 0 b) e Hi) as (e1 & -> & Hk1 & Hst1 & Hs1).
  cbn [mbind option_bind]. assert (calm e1) as Hq1 by by eapply calm_kept.
  assert ((if hdr_id (bc_pkt b) <? DID_COUNT then
      pre_send (bc_pHandle b) (hdr_id (bc_pkt b)) (pkt_dataHdr (bc_pkt b)) e1
    else Some (e1, true)) = Some (e1, true)) as ->.
  { destruct (Z.ltb_spec (hdr_id (bc_pkt b)) DID_COUNT); [|done].
    apply pre_send_calm; [done|]. destruct Hd as (? & _ & _ & Hargs). destruct Hargs. lia. }
  cbn [mbind option_bind]. rewrite Hs1, nthZ_updZ_same by done. cbn [mbind option_bind].
  destruct (sendDataPacket_ok f emit e1 i (bc_set_counter 0 b))
    as (e2 & b2 & -> & Hk2 & Hst2 & Hs2 & Hn2 & _).
  - apply Hq1.
  - by rewrite Hs1, nthZ_updZ_same.
  - exact He.
  - by rewrite (kept_nports e e1).
  - destruct Hk1 as (_ & _ & -> & _). exact Hd.
  - cbn [mbind option_bind]. exists e2, b2. split; [done|]. split; [by etrans|].
    rewrite Hs2, Hs1, updZ_updZ by done. split; [done|]. split; [exact Hn2|].
    rewrite Hst2, Hst1. by destruct Hk1 as (_ & _ & -> & _).
Qed.
(** What the slots [l] send, in order, while the memory is [m]. *)
Definition sends (m : region) (p : broadcast_msg_t -> bool) (l : list broadcast_msg_t) (st : St)
    : St :=
  fold_left (fun st b => if p b then emit (bc_pHandle b) (slot_frame m b) st else st) l st.

Definition ticked (b b' : broadcast_msg_t) : Prop := bc_norm b' = bc_norm (tick b).

(** The slots [l] have room when the turn comes to each of them. *)
Fixpoint rooms e (l : list broadcast_msg_t) (st : St) : Prop :=
  match l with
  | [] => True
  | b :: l => room (set_st st e) b = true /\
      rooms e l (if due b then emit (bc_pHandle b) (slot_frame (e_mem e) b) st else st)
  end.

(** The first of the slots [l], if there is one, has no room. *)
Definition held_back e (l : list broadcast_msg_t) : Prop :=
  match l with [] => True | b :: _ => room e b = false end.

Lemma room_kept e e' st b : kept e e' -> room (set_st st e') b = room (set_st st e) b.
Proof.
  intros Hk. unfold room, tx_fits. change (e_cm (set_st st e')) with (e_cm e').
  change (e_cm (set_st st e)) with (e_cm e). by rewrite (kept_static cm_txFree e e').
Qed.

Lemma room_here e st b : e_st e = st -> room (set_st st e) b = room e b.
Proof. intros <-. done. Qed.

Lemma rooms_kept e e' l st : kept e e' -> rooms e' l st -> rooms e l st.
Proof.
  intros Hk. revert st. induction l as [|b l IH]; intros st; [done|]. cbn [rooms].
  pose proof Hk as (_ & _ & Hm & _). rewrite (room_kept e e') by done. rewrite Hm. intros [H1 H2].
  split; [done|]. by apply IH.
Qed.

(** The slots are processed up to the first one without room. *)
Lemma send_msgs_until mid : forall e pre post,
  calm e -> slots e = pre ++ mid ++ post ->
  Forall (slot_ok (lenZ (ports (e_cm e))) (e_mem e)) mid ->
  exists e' served waiting served', mid = served ++ waiting /\
    send_msgs (length mid) (lenZ pre) e = Some e' /\ kept e e' /\
    slots e' = pre ++ served' ++ waiting ++ post /\ Forall2 ticked served served' /\
    e_st e' = sends (e_mem e) due served (e_st e) /\
    rooms e served (e_st e) /\ held_back e' waiting.
Proof.
  induction mid as [|b mid IH]; intros e pre post Hq Es Hok.
  { exists e, [], [], []. split_and!; done || constructor. }
  apply Forall_cons_iff in Hok as [Hb Hok]. cbn [length send_msgs app] in *.
  destruct (room e b) eqn:Hr.
  2: { exists e, [], (b :: mid), []. split_and!; try done; try constructor.
       unfold send_msg. rewrite Es, nthZ_middle. cbn [mbind option_bind]. unfold room in Hr. by rewrite Hr. }
  destruct (send_msg_spec e (lenZ pre) b Hq Hr) as (e1 & b1 & -> & Hk & Hs1 & Hn & Hst);
    [rewrite Es; apply nthZ_middle|done|].
  cbn [mbind option_bind]. rewrite Es, updZ_middle_one in Hs1. pose proof Hk as (_ & _ & Hm & _).
  destruct (IH e1 (pre ++ [b1]) post) as (e2 & served & waiting & served' & -> & E2 & Hk2 & Hs2 & Hf & Hst2 & Hro & Hw).
  - by eapply calm_kept.
  - by rewrite Hs1, <- app_assoc.
  - by rewrite (kept_nports e e1), Hm.
  - rewrite lenZ_app in E2. exists e2, (b :: served), waiting, (b1 :: served'). split; [done|].
    split; [exact E2|]. split; [by etrans|]. split; [by rewrite Hs2, <- app_assoc|].
    split; [by constructor|]. rewrite Hm in Hst2. split; [by rewrite Hst2, Hst|]. split; [|done].
    split; [by rewrite room_here|]. rewrite <- Hst. by apply (rooms_kept e e1).
Qed.

(** The transmit step on the first twelve slots. *)
Lemma step_tx_until e act rest :
  calm e -> slots e = act ++ rest -> lenZ act = MAX_NUM_BCAST_MSGS ->
  Forall (slot_ok (lenZ (ports (e_cm e))) (e_mem e)) act ->
  exists e' served waiting served', act = served ++ waiting /\
    stepComManagerSendMessagesInstance e = Some e' /\ kept e e' /\
    slots e' = served' ++ waiting ++ rest /\ Forall2 ticked served served' /\
    e_st e' = sends (e_mem e) due served (e_st e) /\
    rooms e served (e_st e) /\ held_back e' waiting.
Proof.
  intros Hq Es Hl Hok.
  destruct (send_msgs_until act e [] rest Hq Es Hok) as (e' & served & waiting & served' & Ea & E & H).
  exists e', served, waiting, served'. split; [done|]. split; [|exact H]. rewrite <- E.
  unfold stepComManagerSendMessagesInstance. unfold lenZ in *. rewrite <- Hl, Nat2Z.id. done.
Qed.

(** Without a limit it is the abstract one. *)
Lemma step_tx_spec e act rest :
  quiet e -> slots e = act ++ rest -> lenZ act = MAX_NUM_BCAST_MSGS ->
  Forall (slot_ok (lenZ (ports (e_cm e))) (e_mem e)) act ->
  exists e' act', stepComManagerSendMessagesInstance e = Some e' /\ kept e e' /\
    slots e' = act' ++ rest /\ Forall2 ticked act act' /\
    e_st e' = sends (e_mem e) due act (e_st e).
Proof.
  intros Hq Es Hl Hok.
  destruct (step_tx_until e act rest (proj1 Hq) Es Hl Hok) as (e' & served & waiting & served' & -> & E & Hk & Hs & Ht & Hst & _ & Hw).
  destruct waiting as [|b waiting].
  - rewrite app_nil_r in *. by exists e', served'.
  - cbn [held_back] in Hw. unfold room in Hw. rewrite tx_fits_quiet in Hw; [done|]. by eapply quiet_kept.
Qed.

(** ** Many steps *)

Fixpoint run_tx (n : nat) (e : env F St) : option (env F St) :=
  match n with
  | O => Some e
  | S n => e ← stepComManagerSendMessagesInstance e; run_tx n e
  end.

(** What the slots send in the [n] steps from step [k] on, by the schedule. *)
Fixpoint scheduled (m : region) (l : list broadcast_msg_t) (n : nat) (k : Z) (st : St) : St :=
  match n with
  | O => st
  | S n => scheduled m l n (k + 1) (sends m (fun b => due_at b k) l st)
  end.

Lemma due_at_0 b : due b = due_at b 0.
Proof.
  unfold due, due_at. destruct (bc_period b =? MSG_PERIOD_SEND_ONCE); [done|]. cbn [orb].
  destruct (Z.ltb_spec 0 (bc_period b)); [|done]. cbn [andb].
  destruct (Z.leb_spec (bc_period b) (bc_counter b + 1)).
  - rewrite Z.max_l by lia. by rewrite Z.mod_0_l by lia.
  - rewrite Z.max_r by lia. by rewrite (proj2 (Z.leb_gt _ 0)) by lia.
Qed.

Lemma due_at_tick b k : 0 <= k -> due_at (tick b) k = due_at b (k + 1).
Proof.
  intros Hk. unfold tick, due_at.
  destruct (Z.eqb_spec (bc_period b) MSG_PERIOD_SEND_ONCE) as [E|E].
  { cbn. symmetry. apply Z.eqb_neq. lia. }
  destruct (Z.ltb_spec 0 (bc_period b)) as [Hp|Hp].
  2: { rewrite (proj2 (Z.eqb_neq _ _) E). by rewrite (proj2 (Z.ltb_ge _ _)) by lia. }
  cbn [bc_period bc_counter bc_set_counter]. rewrite (proj2 (Z.eqb_neq _ _) E).
  rewrite (proj2 (Z.ltb_lt _ _)) by lia. set (p := bc_period b) in *. set (c := bc_counter b).
  destruct (Z.ltb_spec (c + 1) p).
  - rewrite !Z.max_r by lia. f_equal; [split_cmp; lia|]. do 2 f_equal. lia.
  - rewrite Z.max_r, Z.max_l by lia. rewrite Z.sub_0_r, (proj2 (Z.leb_le 0 (k + 1))) by lia.
    replace (k - (p - (0 + 1))) with (k + 1 + (-1) * p) by lia. rewrite Z.mod_add by lia.
    cbn [andb]. destruct (Z.eqb_spec ((k + 1) mod p) 0) as [Em|Em]; [|by rewrite andb_false_r].
    rewrite andb_true_r. apply Z.leb_le. apply Z.mod_divide in Em; [|lia].
    apply Z.divide_pos_le in Em; lia.
Qed.

Lemma sends_ext m p p' l l' st :
  Forall2 (fun b b' => p b = p' b' /\ bc_pHandle b = bc_pHandle b' /\
                       slot_frame m b = slot_frame m b') l l' ->
  sends m p l st = sends m p' l' st.
Proof.
  intros H. revert st. induction H as [|b b' l l' (E1 & E2 & E3) _ IH]; intros st; [done|].
  unfold sends in *. cbn [fold_left]. by rewrite E1, E2, E3, IH.
Qed.

Lemma scheduled_shift m l l' n : forall k st,
  Forall2 ticked l l' -> 0 <= k -> scheduled m l' n k st = scheduled m l n (k + 1) st.
Proof.
  induction n as [|n IH]; intros k st Hl Hk; [done|]. cbn [scheduled].
  rewrite (sends_ext m _ (fun b => due_at b (k + 1)) l' l).
  - apply IH; [done|lia].
  - apply Forall2_flip. eapply Forall2_impl; [|exact Hl]. intros b b' Hb. unfold flip.
    assert (forall (A : Type) (g : broadcast_msg_t -> A), (forall x, g x = g (bc_norm x)) ->
      g b' = g (tick b)) as Hg by (intros; by apply norm_field).
    rewrite (Hg _ (fun x => due_at x k)), (Hg _ bc_pHandle), (Hg _ (slot_frame m)) by done.
    rewrite due_at_tick by done. unfold tick. by repeat case_match.
Qed.

(** ** Requests *)

Lemma find_msg_range p n : forall i l,
  Z.of_nat n <= lenZ l ->
  exists r, find_msg p n i l = Some r /\ forall j, r = Some j -> i <= j < i + Z.of_nat n.
Proof.
  induction n as [|n IH]; intros i l Hl; [by exists None|].
  destruct l as [|b l]; [rewrite lenZ_nil in Hl; lia|]. rewrite lenZ_cons in Hl. cbn [find_msg].
  destruct (p b). { eexists. split; [done|]. intros j [= <-]. lia. }
  destruct (IH (i + 1) l) as (r & E & Hr); [lia|]. exists r. split; [done|].
  intros j Hj. specialize (Hr j Hj). lia.
Qed.

Lemma request_slot_range pHandle req e :
  MAX_NUM_BCAST_MSGS <= lenZ (slots e) ->
  exists i, request_slot pHandle req e = Some i /\ 0 <= i < MAX_NUM_BCAST_MSGS.
Proof.
  intros Hl. unfold request_slot.
  match goal with |- exists _, (find_msg ?p ?n 0 ?l ≫= _) = _ /\ _ =>
    destruct (find_msg_range p n 0 l) as (r & E & Hr); [exact Hl|] end.
  rewrite E. cbn [mbind option_bind]. destruct r as [j|].
  { exists j. split; [done|]. apply (Hr j eq_refl). }
  match goal with |- context [find_msg ?p ?n 0 ?l] =>
    destruct (find_msg_range p n 0 l) as (r' & E' & Hr'); [exact Hl|] end.
  rewrite E'. cbn [mbind option_bind]. eexists. split; [done|].
  destruct r' as [j|]; [exact (Hr' j eq_refl)|done].
Qed.

(** A data set in memory that fits into one packet, whatever the offset. *)
Definition data_set_ok (m : region) (ds : bufTxRxPtr_t) (d : list Z) : Prop :=
  0 < txPtr ds /\ lenZ d = ds_size ds /\ ds_size ds < 65526 /\ Forall byte d /\
  bytes_at m (txPtr ds) d.

(** The request a manager answers: its range completed from the data set. *)
Definition completed (ds : bufTxRxPtr_t) (req : p_data_get_t) : p_data_get_t :=
  request_range ds
    (if (get_size req =? 0) && (get_offset req =? 0)
     then DataGet (get_id req) (u16 (ds_size ds)) 0 (get_period req) else req).

Definition req_ok (req : p_data_get_t) : Prop :=
  0 <= get_id req < DID_COUNT /\ 0 <= get_size req < 65536 /\ 0 <= get_offset req < 65536 /\
  0 <= get_period req < 65536.

Lemma completed_ok m ds d req :
  data_set_ok m ds d -> req_ok req ->
  let r := completed ds req in
  get_id r = get_id req /\ get_period r = get_period req /\ req_ok r /\
  get_offset r + get_size r <= ds_size ds.
Proof.
  intros (_ & Hl & Hs & _) (Hi & Hz & Ho & Hp). unfold completed, request_range.
  pose proof (lenZ_nonneg d).
  assert (u16 (ds_size ds) = ds_size ds) as Eu by (unfold u16; rewrite Z.mod_small; lia).
  rewrite Eu. match goal with |- context [if ?c then ?x else req] => set (r := if c then x else req) end.
  assert (get_id r = get_id req /\ get_period r = get_period req /\ req_ok r) as (Ei & Ep & Hr).
  { unfold r. case_match; [|done]. unfold req_ok; cbn. split_and!; done || lia. }
  unfold req_ok in *.
  assert (u32 (get_offset r + get_size r) = get_offset r + get_size r) as ->
    by (unfold u32; rewrite Z.mod_small; lia).
  destruct (Z.leb_spec (get_offset r + get_size r) (ds_size ds)); [done|].
  cbn. split_and!; done || lia.
Qed.

Lemma data_set_range m ds d o n :
  data_set_ok m ds d -> 0 <= o -> 0 <= n -> o + n <= ds_size ds ->
  load_range m (txPtr ds + o) n = Some (subZ o n d) /\ lenZ (subZ o n d) = n.
Proof.
  intros (_ & Hl & _ & _ & Hb) Ho Hn Hon. split; [|autorewrite with lenZ; lia].
  apply (bytes_at_range m (txPtr ds) d o n); [exact Hb|done|done|lia].
Qed.

Lemma request_tx_args m ds d req :
  data_set_ok m ds d -> req_ok req -> get_offset req + get_size req <= ds_size ds ->
  tx_args_ok PKT_TYPE_DATA (get_id req) (get_offset req) (subZ (get_offset req) (get_size req) d).
Proof.
  intros Hds (Hi & Hz & Ho & _) Hfit. destruct (data_set_range m ds d (get_offset req)
    (get_size req) Hds) as (_ & Hl); try lia.
  destruct Hds as (_ & Hd & Hs & Hb & _). unfold tx_args_ok.
  rewrite lenZ_isb_payload, Hl. unfold PKT_TYPE_DATA, DID_COUNT in *.
  split_and!; try lia; [|case_match; lia].
  unfold subZ, takeZ, dropZ. by apply Forall_take, Forall_drop.
Qed.

(** The period of a request after it has been limited, and in steps. *)
Definition limited (req : p_data_get_t) : Z :=
  if get_period req =? 0 then 0
  else Z.max MIN_REQUEST_PERIOD_MS (Z.min MAX_REQUEST_PERIOD_MS (get_period req)).
Definition period_steps (e : env F St) (req : p_data_get_t) : Z :=
  limited req / stepPeriodMilliseconds (e_cm e).

(** The slot after a request: the packet prepared for the port and the counters. *)
Definition requested (pHandle : Z) (req : p_data_get_t) (ptr : Z) (e : env F St)
    (b : broadcast_msg_t) : broadcast_msg_t :=
  {| bc_pkt := is_comm_encode_hdr (bc_pkt b) PKT_TYPE_DATA (get_id req) (get_size req)
                 (get_offset req) ptr;
     bc_counter := if 0 <? limited req then -1 else bc_counter b;
     bc_period := if 0 <? limited req then period_steps e req else MSG_PERIOD_DISABLED;
     bc_pHandle := pHandle |}.

(** The end of a request: the slot is enabled or disabled. *)
Lemma request_finish e i b lp :
  nthZ (slots e) i = Some b -> 0 < stepPeriodMilliseconds (e_cm e) -> 0 <= lp ->
  exists e', (if 0 <? lp then enableBroadcastMsg i lp e else disableBroadcastMsg i e) = Some e' /\
    kept e e' /\ e_st e' = e_st e /\
    slots e' = updZ i [Bcast (bc_pkt b) (if 0 <? lp then -1 else bc_counter b)
      (if 0 <? lp then lp / stepPeriodMilliseconds (e_cm e) else MSG_PERIOD_DISABLED)
      (bc_pHandle b)] (slots e).
Proof.
  intros Hb Hs Hlp. unfold enableBroadcastMsg, disableBroadcastMsg. rewrite Hb.
  apply nthZ_Some_range in Hb as Hi. cbn [mbind option_bind].
  destruct (Z.ltb_spec 0 lp).
  - rewrite (proj2 (Z.eqb_neq _ 0)) by lia. cbn [mbind option_bind].
    rewrite Z.quot_div_nonneg by lia. by apply put_msg_kept.
  - by apply put_msg_kept.
Qed.

Lemma request_send_ok e pHandle req reg d :
  quiet e -> MAX_NUM_BCAST_MSGS <= lenZ (slots e) ->
  0 < stepPeriodMilliseconds (e_cm e) ->
  0 <= pHandle < lenZ (ports (e_cm e)) ->
  nthZ (regData (e_cm e)) (get_id req) = Some reg -> data_set_ok (e_mem e) (dataSet reg) d ->
  req_ok req -> get_id req <> DID_REFERENCE_IMU ->
  get_offset req + get_size req <= ds_size (dataSet reg) ->
  let data := subZ (get_offset req) (get_size req) d in
  exists e' req' i b b0, request_send pHandle req e = Some (e', req', 0) /\ kept e e' /\
    e_st e' = emit pHandle (isb_wire PKT_TYPE_DATA (get_id req) (get_offset req) data) (e_st e) /\
    nthZ (slots e) i = Some b0 /\ 0 <= i < MAX_NUM_BCAST_MSGS /\
    slots e' = updZ i [b] (slots e) /\
    bc_norm b = bc_norm (requested pHandle req (txPtr (dataSet reg) + get_offset req) e b0).
Proof.
  intros Hq Hslots Hstep Hport Hreg Hds Hreq Href Hfit data. unfold request_send.
  pose proof (request_tx_args _ _ _ _ Hds Hreq Hfit) as Hargs.
  destruct Hreq as (Hid & Hsz & Hoff & Hper).
  destruct (data_set_range _ _ _ _ _ Hds (proj1 Hoff) (proj1 Hsz) Hfit) as (Hld & Hlen).
  rewrite Hreg. cbn [mbind option_bind].
  destruct (request_slot_range pHandle req e Hslots) as (i & -> & Hi). cbn [mbind option_bind].
  destruct (nthZ_Some (slots e) i ltac:(lia)) as [b0 Hb0]. rewrite Hb0. cbn [mbind option_bind].
  rewrite (proj2 (Z.eqb_neq (txPtr _) 0)) by (destruct Hds; lia).
  set (ptr := txPtr (dataSet reg) + get_offset req) in *.
  set (pkt := is_comm_encode_hdr _ _ _ _ _ ptr).
  set (b1 := bc_set_pkt pkt (bc_set_pHandle pHandle b0)).
  destruct (put_msg_kept i b1 e ltac:(lia)) as (e1 & -> & Hk1 & Hst1 & Hs1).
  cbn [mbind option_bind]. pose proof Hk1 as (_ & _ & Hm1 & _).
  assert (quiet e1) as Hq1 by by eapply quiet_kept.
  rewrite pre_send_calm by (exact (proj1 Hq1) || done). cbn [mbind option_bind].
  rewrite (proj2 (Z.eqb_neq _ _) Href), Hs1, nthZ_updZ_same by lia. cbn [mbind option_bind].
  rewrite tx_fits_quiet by done. cbn [andb negb].
  assert (u8 (get_id req) = get_id req) as Hu
    by (unfold u8; unfold DID_COUNT in *; rewrite Z.mod_small; lia).
  destruct (sendDataPacket_ok f emit e1 i b1) as (e2 & b2 & E2 & Hk2 & Hst2 & Hs2 & Hn2 & _).
  - apply Hq1.
  - by rewrite Hs1, nthZ_updZ_same by lia.
  - eexists _, _, _, _, _. split; [|reflexivity]. unfold DID_COUNT in *. lia.
  - by rewrite (kept_nports e e1).
  - exists data. rewrite Hm1. split; [exact Hld|]. split; [exact Hlen|].
    change (hdr_id (bc_pkt b1)) with (u8 (get_id req)). by rewrite Hu.
  - change (bc_pHandle b1) with pHandle in *. rewrite E2. cbn [mbind option_bind].
    change (if get_period req =? 0 then 0 else _) with (limited req).
    assert (0 <= limited req) by (unfold limited, MIN_REQUEST_PERIOD_MS; case_match; lia).
    destruct (request_finish e2 i b2 (limited req)) as (e3 & E3 & Hk3 & Hst3 & Hs3); [|..|done|].
    + rewrite Hs2, Hs1, updZ_updZ by lia. by apply nthZ_updZ_same; lia.
    + rewrite (kept_static stepPeriodMilliseconds e e2); [done|done|]. by etrans.
    + rewrite orb_false_r, E3. cbn [mbind option_bind].
      eexists e3, _, i, _, b0. split; [done|]. split; [by etrans; [|etrans]|].
      split. { rewrite Hst3, Hst2, Hst1. unfold slot_frame. rewrite Hm1.
        change (slot_data (e_mem e) b1) with (load_range (e_mem e) ptr (get_size req)).
        rewrite Hld. cbn [default]. change (hdr_id (bc_pkt b1)) with (u8 (get_id req)).
        by rewrite Hu. }
      split; [done|]. split; [done|].
      split; [rewrite Hs3, Hs2, Hs1, (updZ_updZ i b1 b2), updZ_updZ by lia; done|].
      rewrite (kept_static stepPeriodMilliseconds e e2) by (done || by etrans).
      apply (f_equal (fun x => Bcast (bc_pkt x) (if 0 <? limited req then -1 else bc_counter x)
        (if 0 <? limited req then limited req / stepPeriodMilliseconds (e_cm e)
         else MSG_PERIOD_DISABLED) (bc_pHandle x)) Hn2).
Qed.

Lemma requested_ok e pHandle req (reg : registered_data_t F) d b0 b n :
  data_set_ok (e_mem e) (dataSet reg) d -> req_ok req ->
  0 <= pHandle < n -> get_offset req + get_size req <= ds_size (dataSet reg) ->
  bc_norm b = bc_norm (requested pHandle req (txPtr (dataSet reg) + get_offset req) e b0) ->
  slot_ok n (e_mem e) b /\ slot_frame (e_mem e) b =
    isb_wire PKT_TYPE_DATA (get_id req) (get_offset req) (subZ (get_offset req) (get_size req) d).
Proof.
  intros Hds Hreq Hport Hfit Hn. pose proof (request_tx_args _ _ _ _ Hds Hreq Hfit) as Hargs.
  destruct Hreq as (Hid & Hsz & Hoff & _).
  destruct (data_set_range _ _ _ _ _ Hds (proj1 Hoff) (proj1 Hsz) Hfit) as (Hld & Hlen).
  assert (u8 (get_id req) = get_id req) as Hu
    by (unfold u8; unfold DID_COUNT in *; rewrite Z.mod_small; lia).
  set (b1 := requested _ _ _ _ _) in *.
  assert (slot_data (e_mem e) b1 = Some (subZ (get_offset req) (get_size req) d)) as Hsd by exact Hld.
  split.
  - eapply slot_ok_norm; [exact Hn|]. intros _. split.
    { eexists _, _, _, _, _. split; [|reflexivity]. unfold DID_COUNT in *. lia. }
    split; [done|]. eexists. split; [exact Hsd|]. split; [exact Hlen|].
    change (hdr_id (bc_pkt b1)) with (u8 (get_id req)). by rewrite Hu.
  - rewrite (norm_field b1 b Hn (slot_frame (e_mem e))) by done. unfold slot_frame.
    rewrite Hsd. change (hdr_id (bc_pkt b1)) with (u8 (get_id req)). by rewrite Hu.
Qed.

(** When a slot that a request has just set sends: every [p] steps, not in the first. *)
Lemma requested_due e pHandle req ptr b0 b k :
  0 < stepPeriodMilliseconds (e_cm e) -> 0 <= get_period req -> 0 <= k ->
  bc_norm b = bc_norm (requested pHandle req ptr e b0) ->
  due_at b k = (0 <? period_steps e req) && (0 <? k) && (k mod period_steps e req =? 0).
Proof.
  intros Hs Hp Hk Hn. rewrite (norm_field _ _ Hn (fun x => due_at x k)) by done.
  assert (0 <= limited req) as Hl by (unfold limited, MIN_REQUEST_PERIOD_MS; case_match; lia).
  unfold due_at, requested. cbn [bc_period bc_counter].
  pose proof (Z.div_pos (limited req) (stepPeriodMilliseconds (e_cm e)) Hl Hs) as Hd.
  fold (period_steps e req) in Hd. set (p := period_steps e req) in *.
  destruct (Z.ltb_spec 0 (limited req)) as [Hlp|Hlp].
  2: { assert (p = 0) as -> by (unfold p, period_steps; replace (limited req) with 0 by lia; done).
       done. }
  unfold MSG_PERIOD_SEND_ONCE. rewrite (proj2 (Z.eqb_neq p (-1))) by lia.
  destruct (Z.ltb_spec 0 p) as [Hp0|]; [|done]. cbn [andb].
  change (-1 + 1) with 0. rewrite Z.sub_0_r, Z.max_r by lia.
  replace (k - p) with (k + (-1) * p) by lia. rewrite Z.mod_add by lia.
  destruct (Z.eqb_spec (k mod p) 0) as [Em|]; [|by rewrite !andb_false_r].
  rewrite !andb_true_r. apply Z.mod_divide in Em; [|lia]. destruct Em as [q ->].
  destruct (Z.leb_spec p (q * p)), (Z.ltb_spec 0 (q * p)); try done; exfalso; [lia|].
  assert (0 < q) by (apply (Z.mul_pos_cancel_r q p Hp0); lia). nia.
Qed.

Lemma run_tx_schedule n : forall e act rest,
  quiet e -> slots e = act ++ rest -> lenZ act = MAX_NUM_BCAST_MSGS ->
  Forall (slot_ok (lenZ (ports (e_cm e))) (e_mem e)) act ->
  exists e', run_tx n e = Some e' /\ kept e e' /\
    e_st e' = scheduled (e_mem e) act n 0 (e_st e).
Proof.
  induction n as [|n IH]; intros e act rest Hq Es Hl Hok; [by exists e|].
  destruct (step_tx_spec e act rest Hq Es Hl Hok) as (e1 & act1 & E1 & Hk & Hs & Ht & Hst).
  cbn [run_tx]. rewrite E1. cbn [mbind option_bind]. pose proof Hk as (_ & _ & Hm & _).
  destruct (IH e1 act1 rest) as (e2 & E2 & Hk2 & Hst2); [by eapply quiet_kept|done|..].
  - apply Forall2_length in Ht. unfold lenZ in *. lia.
  - rewrite (kept_nports e e1), Hm by done. apply Forall2_flip in Ht.
    eapply Forall2_Forall_l; [exact Ht|]. eapply Forall_impl; [|exact Hok].
    intros b Hb b' Hb'. eapply slot_ok_norm; [exact Hb'|]. by apply slot_ok_tick.
  - exists e2. split; [done|]. split; [by etrans|]. rewrite Hst2, Hm, Hst.
    rewrite (scheduled_shift _ act act1) by done. cbn [scheduled]. f_equal.
    apply sends_ext. apply Forall_Forall2_diag, Forall_true. intros b. by rewrite due_at_0.
Qed.

(** C29: Let no data set have a preTxFnc, let each slot in use hold an encoded data packet
    of bytes in memory for a port of the manager, and let the ports take all bytes. One
    transmit step processes the slots in table order up to the first whose packet is larger
    than what txFree reports for its port at that moment: each slot before it sends its
    packet if it is due and moves on in its schedule, and that slot and all behind it are
    left as they are and send nothing. Without txFree, over any number of steps every slot
    sends its packet exactly in the steps of its schedule, in table order. Nothing else
    changes but packet counts. *)
Theorem broadcast_schedule n e act rest :
  calm e -> slots e = act ++ rest -> lenZ act = MAX_NUM_BCAST_MSGS ->
  Forall (slot_ok (lenZ (ports (e_cm e))) (e_mem e)) act ->
  (exists e' served waiting served', act = served ++ waiting /\
     stepComManagerSendMessagesInstance e = Some e' /\ kept e e' /\
     slots e' = served' ++ waiting ++ rest /\ Forall2 ticked served served' /\
     e_st e' = sends (e_mem e) due served (e_st e) /\
     rooms e served (e_st e) /\ held_back e' waiting) /\
  (cm_txFree (e_cm e) = None ->
   exists e', run_tx n e = Some e' /\ kept e e' /\
     e_st e' = scheduled (e_mem e) act n 0 (e_st e)).
Proof.
  intros Hc Es Hl Hok. split; [by apply step_tx_until|]. intros Hf. apply (run_tx_schedule n e act rest); done.
Qed.

(** C30: For a manager without txFree, preTxFnc and rmc handler, with a positive step period
    and ports that take all bytes, a request (with a size, or with neither size nor offset)
    for a registered data set of at most 65525 bytes other than DID_REFERENCE_IMU is
    answered at once with the requested bytes, the whole data set when the range does not
    fit, and takes one slot; the slot sends that packet every p steps, where p is the
    limited period divided by the step period, rounded down, and never when p is zero. The
    other slots, the memory and the configuration stay. *)
Theorem get_data_request_spec e pHandle req reg d :
  quiet e -> MAX_NUM_BCAST_MSGS <= lenZ (slots e) ->
  0 < stepPeriodMilliseconds (e_cm e) -> ccb_rmc (callbacks (e_cm e)) = None ->
  0 <= pHandle < lenZ (ports (e_cm e)) -> req_ok req -> get_id req <> DID_REFERENCE_IMU ->
  nthZ (regData (e_cm e)) (get_id req) = Some reg -> data_set_ok (e_mem e) (dataSet reg) d ->
  0 < ds_size (dataSet reg) -> (get_size req = 0 -> get_offset req = 0) ->
  let r := completed (dataSet reg) req in
  let wire := isb_wire PKT_TYPE_DATA (get_id req) (get_offset r)
                (subZ (get_offset r) (get_size r) d) in
  let p := period_steps e req in
  get_offset r + get_size r <= ds_size (dataSet reg) /\
  exists e' req' i b,
    comManagerGetDataRequestInstance pHandle req e = Some (e', req', 0) /\ kept e e' /\
    e_st e' = emit pHandle wire (e_st e) /\
    0 <= i < MAX_NUM_BCAST_MSGS /\ slots e' = updZ i [b] (slots e) /\
    bc_pHandle b = pHandle /\ slot_ok (lenZ (ports (e_cm e))) (e_mem e) b /\
    slot_frame (e_mem e) b = wire /\
    forall k, 0 <= k -> due_at b k = (0 <? p) && (0 <? k) && (k mod p =? 0).
Proof.
  intros Hq Hsl Hst Hrmc Hport Hreq Href Hreg Hds Hsz Hzero r wire p.
  destruct (completed_ok _ _ _ _ Hds Hreq) as (Ei & Ep & Hr & Hfit). fold r in Ei, Ep, Hr, Hfit.
  split; [done|]. unfold comManagerGetDataRequestInstance.
  rewrite (proj2 (Z.leb_gt _ _)) by apply Hreq. rewrite Hrmc. cbn [mbind option_bind].
  rewrite Hreg. cbn [mbind option_bind]. set (req1 := if _ && _ then _ else _).
  change (request_range (dataSet reg) req1) with r.
  assert (get_size req1 <> 0) as Hnz.
  { unfold req1. destruct (Z.eqb_spec (get_size req) 0) as [E|]; [|done].
    rewrite (Hzero E). cbn. destruct Hds as (_ & _ & ? & _). unfold u16. rewrite Z.mod_small; lia. }
  rewrite (proj2 (Z.eqb_neq _ _) Hnz).
  destruct (request_send_ok e pHandle r reg d) as (e' & req' & i & b & b0 & E & Hk & Hs & Hb0 & Hi & Hsl' & Hn);
    try done; [by rewrite Ei..|].
  destruct (requested_ok e pHandle r reg d b0 b _ Hds Hr Hport Hfit Hn) as (Hok & Hfr).
  rewrite Ei in Hs, Hfr. exists e', req', i, b. split_and!; try done; try lia.
  - apply (norm_field _ _ Hn bc_pHandle). done.
  - intros k Hk0. rewrite (requested_due e pHandle r _ b0 b k Hst) by (done || apply Hr).
    unfold p, period_steps, limited. by rewrite Ep.
Qed.

(** ** Stopping broadcasts *)

Lemma sendAck_ok e pHandle p pTypeFlags :
  cm_portWrite (e_cm e) = Some f -> nthZ (ports (e_cm e)) pHandle = Some p ->
  Z.land (hdr_flags (rxPkt (port_comm p))) PKT_TYPE_MASK <> PKT_TYPE_SET_DATA ->
  0 <= pTypeFlags < 256 ->
  let ack := le16_bytes (hdr_flags (rxPkt (port_comm p))) ++ [0; 0; 0; 0; 0; 0; 0] in
  exists e', sendAck pHandle (rxPkt (port_comm p)) pTypeFlags e = Some e' /\ kept e e' /\
    e_st e' = emit pHandle (isb_wire pTypeFlags 0 0 ack) (e_st e) /\ slots e' = slots e.
Proof.
  intros Hf Hp Hset Hfl ack. unfold sendAck, comManagerSendInstance. rewrite Hp, Hf.
  cbn [mbind option_bind fmap option_fmap option_map].
  rewrite (proj2 (Z.eqb_neq _ _) Hset). cbn [mbind option_bind].
  change (le16_bytes (hdr_flags (rxPkt (port_comm p))) ++ le16_bytes 0 ++
    repeat 0 (Z.to_nat sizeof_p_data_hdr_t)) with ack.
  change sizeof_p_ack_t with (lenZ ack).
  assert (tx_args_ok pTypeFlags 0 0 ack) as Hargs.
  { split_and!; try lia; try done. apply Forall_app. split; [apply le16_bytes_byte|].
    repeat constructor; unfold byte; lia. }
  rewrite (write_to_port_ok (port_comm p) _ _ _ _ Hargs (call_portWrite f) emit).
  cbn [mbind option_bind].
  match goal with |- context [put_port pHandle ?q ?x] =>
    destruct (put_port_kept pHandle p q x Hp eq_refl) as (e1 & -> & Hk & Hst & Hs) end.
  cbn [mbind option_bind]. by exists e1.
Qed.

Lemma update_msgs_ok g e :
  MAX_NUM_BCAST_MSGS <= lenZ (slots e) ->
  exists e', update_msgs g e = Some e' /\ kept e e' /\ e_st e' = e_st e /\
    ports (e_cm e') = ports (e_cm e) /\
    slots e' = map g (takeZ MAX_NUM_BCAST_MSGS (slots e)) ++ dropZ MAX_NUM_BCAST_MSGS (slots e).
Proof.
  intros Hl. unfold update_msgs. rewrite (proj2 (Z.ltb_ge _ _)) by lia. by eexists.
Qed.

(** Slots disabled on one port, or on all for a negative handle. *)
Definition stopped (which : Z) (b : broadcast_msg_t) : broadcast_msg_t :=
  if (which <? 0) || (bc_pHandle b =? which) then bc_set_period MSG_PERIOD_DISABLED b else b.

(** C32: a command that stops the broadcasts of its port, or of all ports, disables
    exactly the slots of that port, which send nothing in any later step, leaves
    the other slots alone and is acknowledged. *)
Theorem stop_broadcasts_spec e pHandle p which :
  e_cmPtr e = true -> cm_portWrite (e_cm e) = Some f -> cm_disableBcastFnc (e_cm e) = None ->
  nthZ (ports (e_cm e)) pHandle = Some p -> MAX_NUM_BCAST_MSGS <= lenZ (slots e) ->
  (is_comm_to_isb_pkt_type (port_comm p), which) ∈
    [(PKT_TYPE_STOP_BROADCASTS_ALL_PORTS, -1); (PKT_TYPE_STOP_BROADCASTS_CURRENT_PORT, pHandle)] ->
  let ack := le16_bytes (hdr_flags (rxPkt (port_comm p))) ++ [0; 0; 0; 0; 0; 0; 0] in
  exists e', processIsb pHandle e = Some (e', 0) /\ kept e e' /\
    e_st e' = emit pHandle (isb_wire PKT_TYPE_ACK 0 0 ack) (e_st e) /\
    slots e' = map (stopped which) (takeZ MAX_NUM_BCAST_MSGS (slots e)) ++
               dropZ MAX_NUM_BCAST_MSGS (slots e) /\
    forall b k, which < 0 \/ bc_pHandle b = which -> due_at (stopped which b) k = false.
Proof.
  intros Hptr Hf Hnone Hp Hl Hty ack. set (ty := is_comm_to_isb_pkt_type (port_comm p)) in *.
  assert (processIsb pHandle e = processIsb_stop pHandle which e) as ->.
  { unfold processIsb. rewrite Hptr, Hp. cbn [negb mbind option_bind]. fold ty.
    apply elem_of_cons in Hty as [[= -> ->]|Hty]; [reflexivity|].
    apply list_elem_of_singleton in Hty as [= -> ->]. reflexivity. }
  assert (ty <> PKT_TYPE_SET_DATA) as Hset.
  { apply elem_of_cons in Hty as [[= -> _]|Hty]; [done|].
    by apply list_elem_of_singleton in Hty as [= -> _]. }
  unfold processIsb_stop, comManagerDisableBroadcastsInstance.
  destruct (update_msgs_ok (stopped which) e Hl) as (e1 & E1 & Hk1 & Hst1 & Hp1 & Hs1).
  unfold stopped in E1 at 1. rewrite E1. cbn [mbind option_bind].
  rewrite (kept_static cm_disableBcastFnc e e1), Hnone by done. cbn [call_opt mbind option_bind].
  rewrite Hp1, Hp. cbn [mbind option_bind].
  destruct (sendAck_ok e1 pHandle p PKT_TYPE_ACK) as (e2 & -> & Hk2 & Hst2 & Hs2); try done.
  { by rewrite (kept_static cm_portWrite e e1). } { by rewrite Hp1. }
  cbn [mbind option_bind]. exists e2. split; [done|]. split; [by etrans|].
  split; [by rewrite Hst2, Hst1|]. split; [by rewrite Hs2, Hs1|].
  intros b k Hb. unfold stopped.
  replace ((which <? 0) || (bc_pHandle b =? which)) with true; [done|].
  symmetry. apply orb_true_iff. rewrite Z.ltb_lt, Z.eqb_eq. done.
Qed.
End Step.

(** ** Receiving data *)

Section Receive.
Context {F St : Type} `{!cm_functions F St}.
Implicit Types e : env F St.

(** The structure after the range of [h] has been received into it. *)
Definition received (h : p_data_hdr_t) (bytes old : list Z) : list Z :=
  if dh_offset h + dh_size h <=? lenZ old
  then updZ (dh_offset h) (takeZ (dh_size h) bytes) old else old.

Lemma store_range_frame m a l m' :
  store_range m a l = Some m' -> forall x, ~ (a <= x < a + lenZ l) -> load m' x = load m x.
Proof.
  unfold store_range. intros E x Hx. pose proof (lenZ_nonneg l).
  destruct (Z.eqb_spec (lenZ l) 0); [by simplify_eq|].
  destruct (Z.leb_spec (base m) a), (Z.leb_spec (a + lenZ l) (base m + lenZ (cells m)));
    try done. cbn in E. injection E as <-. unfold load. cbn [base cells].
  rewrite nthZ_updZ by lia. split_cmp; try done; lia.
Qed.

Lemma load_range_inv m a n l :
  load_range m a n = Some l -> 0 < n ->
  lenZ l = n /\ base m <= a /\ a + n <= base m + lenZ (cells m).
Proof.
  unfold load_range. intros E Hn. rewrite (proj2 (Z.eqb_neq n 0)) in E by lia.
  destruct (Z.ltb_spec 0 n), (Z.leb_spec (base m) a),
    (Z.leb_spec (a + n) (base m + lenZ (cells m))); try done.
  cbn in E. injection E as <-. autorewrite with lenZ. lia.
Qed.

Lemma copy_to_registered_ok ds buf ptr h mem old bytes :
  0 < rxPtr ds -> 0 < ds_size ds -> data_hdr_ok h ->
  load_range mem (rxPtr ds) (ds_size ds) = Some old ->
  load_range buf ptr (dh_size h) = Some bytes -> lenZ bytes = dh_size h ->
  exists mem', copy_to_registered ds buf (Data h ptr) mem = Some mem' /\
    load_range mem' (rxPtr ds) (ds_size ds) = Some (received h bytes old) /\
    forall a, ~ (rxPtr ds <= a < rxPtr ds + ds_size ds) -> load mem' a = load mem a.
Proof.
  intros Hrx Hsz [Hs Ho] Hold Hbytes Hlen. unfold copy_to_registered.
  rewrite (proj2 (Z.eqb_neq _ 0)), Hold by lia. cbn [mbind option_bind d_hdr d_ptr].
  rewrite Hbytes. cbn [mbind option_bind].
  destruct (load_range_inv _ _ _ _ Hold Hsz) as (Hol & Hb & He).
  unfold received. rewrite Hol.
  assert (exists r, copyDataPToStructP old (Data h bytes) (ds_size ds) = Some (received h bytes old, r))
    as (r & ->).
  { unfold copyDataPToStructP, received. cbn [d_hdr d_ptr].
    assert (u32 (dh_size h + dh_offset h) = dh_offset h + dh_size h) as ->
      by (unfold u32; rewrite Z.mod_small; lia).
    rewrite Hol. destruct (Z.leb_spec (dh_offset h + dh_size h) (ds_size ds)); [|by eexists].
    rewrite memcpy_ok by lia. by eexists. }
  cbn [mbind option_bind].
  assert (lenZ (received h bytes old) = ds_size ds) as Hrl.
  { unfold received. destruct (Z.leb_spec (dh_offset h + dh_size h) (lenZ old)); [|done].
    rewrite lenZ_updZ; [done|lia|autorewrite with lenZ; lia]. }
  unfold received in *. rewrite Hol in *.
  match goal with |- context [store_range mem _ ?l] => set (new := l) in * end.
  rewrite store_range_ok by lia. eexists. split; [done|]. split.
  - rewrite load_range_ok; cbn [base cells]; [|lia|lia|rewrite lenZ_updZ; lia].
    f_equal. apply nthZ_ext; [autorewrite with lenZ; rewrite ?lenZ_updZ; lia|].
    intros i Hi. rewrite nthZ_subZ, nthZ_updZ; [|lia..]. rewrite Hrl in *.
    split_cmp; try lia; [f_equal; lia|..]; autorewrite with lenZ in Hi;
      rewrite ?lenZ_updZ in Hi; lia.
  - intros a Ha. eapply store_range_frame; [by apply store_range_ok; lia|]. by rewrite Hrl.
Qed.

Lemma trim_size_hdr ds h h' :
  data_hdr_ok h -> trim_size ds h = Some h' ->
  dh_id h' = dh_id h /\ dh_offset h' = dh_offset h /\ 0 <= dh_size h' <= dh_size h.
Proof.
  intros [Hs Ho]. unfold trim_size. destruct (negb _ && _); [|intros [= <-]; lia].
  destruct (_ <? 4); [done|]. intros [= <-]. cbn.
  pose proof (Z.mod_pos_bound (u16 (ds_size ds - dh_offset h)) 256). unfold u8. lia.
Qed.

Lemma trim_size_fits ds h :
  data_hdr_ok h -> dh_offset h + dh_size h <= ds_size ds -> trim_size ds h = Some h.
Proof.
  intros [Hs Ho] Hfit. unfold trim_size.
  assert (u32 (dh_offset h + dh_size h) = dh_offset h + dh_size h) as ->
    by (unfold u32; rewrite Z.mod_small; lia).
  by rewrite (proj2 (Z.ltb_ge _ _)), andb_false_r by lia.
Qed.

Lemma load_range_prefix m a n k l :
  load_range m a n = Some l -> 0 <= k <= n -> load_range m a k = Some (takeZ k l).
Proof.
  unfold load_range. intros E Hk. destruct (Z.eqb_spec k 0) as [->|]; [by rewrite takeZ_0|].
  rewrite (proj2 (Z.eqb_neq n 0)) in E by lia.
  destruct (Z.ltb_spec 0 n), (Z.leb_spec (base m) a), (Z.leb_spec (a + n) (base m + lenZ (cells m)));
    try done. cbn in E. injection E as <-.
  rewrite (proj2 (Z.ltb_lt 0 k)), (proj2 (Z.leb_le (a + k) _)) by lia. cbn. f_equal.
  unfold subZ, takeZ. rewrite take_take. f_equal. lia.
Qed.

(** C31: a data packet for a registered structure changes memory only inside that
    structure: the received bytes are put at the offset of the packet when they end
    inside the structure, and one that goes beyond its end is cut or refused. *)
Theorem processIsb_data_spec e pHandle p reg old bytes :
  let h := d_hdr (is_comm_to_isb_p_data (port_comm p)) in
  let ds := dataSet reg in
  e_cmPtr e = true -> nthZ (ports (e_cm e)) pHandle = Some p ->
  is_comm_to_isb_pkt_type (port_comm p) = PKT_TYPE_DATA ->
  hdr_payloadSize (rxPkt (port_comm p)) <> 0 -> dh_id h < DID_COUNT -> data_hdr_ok h ->
  nthZ (regData (e_cm e)) (dh_id h) = Some reg ->
  reg_pstRxFnc reg = None -> cm_pstRxFnc (e_cm e) = None ->
  0 < rxPtr ds -> 0 < ds_size ds -> load_range (e_mem e) (rxPtr ds) (ds_size ds) = Some old ->
  load_range (comm_buffer p) (data_ptr (rxPkt (port_comm p))) (dh_size h) = Some bytes ->
  (ds_size ds < dh_offset h + dh_size h /\ processIsb pHandle e = Some (e, -1)) \/
  exists n mem', 0 <= n <= dh_size h /\
    (dh_offset h + dh_size h <= ds_size ds -> n = dh_size h) /\
    processIsb pHandle e = Some (set_mem mem' e, 0) /\
    load_range mem' (rxPtr ds) (ds_size ds) =
      Some (received (DataHdr (dh_id h) n (dh_offset h)) bytes old) /\
    forall a, ~ (rxPtr ds <= a < rxPtr ds + ds_size ds) -> load mem' a = load (e_mem e) a.
Proof.
  intros h ds Hptr Hp Hty Hpay Hid Hh Hreg Hcb1 Hcb2 Hrx Hsz Hold Hbytes.
  pose proof (trim_size_fits ds h Hh) as Hfits.
  unfold processIsb. rewrite Hptr, Hp. cbn [negb mbind option_bind]. rewrite Hty.
  change ((PKT_TYPE_DATA =? PKT_TYPE_SET_DATA) || (PKT_TYPE_DATA =? PKT_TYPE_DATA)) with true.
  cbv iota. unfold processIsb_data. fold h.
  rewrite (proj2 (Z.leb_gt _ _)), (proj2 (Z.eqb_neq _ 0) Hpay) by lia. cbn [orb].
  rewrite Hreg. cbn [mbind option_bind]. fold ds.
  destruct (trim_size ds h) as [h'|] eqn:Et;
    [right|left; split; [|done]; destruct (Z.le_gt_cases (dh_offset h + dh_size h) (ds_size ds)) as [Hle|];
     [by apply Hfits in Hle|lia]].
  destruct (trim_size_hdr ds h h' Hh Et) as (Ei & Eo & Hs').
  assert (data_hdr_ok h') as Hh' by (destruct Hh; split; lia).
  pose proof (load_range_prefix _ _ _ (dh_size h') _ Hbytes Hs') as Hb'.
  assert (lenZ bytes = dh_size h) as Hlen.
  { destruct (decide (dh_size h = 0)) as [E0|]; [rewrite E0 in Hbytes |- *; by injection Hbytes as <-|].
    destruct Hh. apply (load_range_inv _ _ _ _ Hbytes). lia. }
  destruct (copy_to_registered_ok ds (comm_buffer p) (data_ptr (rxPkt (port_comm p))) h' (e_mem e)
    old (takeZ (dh_size h') bytes)) as (mem' & E & Hnew & Hfr);
    [done..|autorewrite with lenZ; lia|].
  cbn [is_comm_to_isb_p_data d_ptr] in *. rewrite E. cbn [mbind option_bind].
  rewrite Hcb1. cbn [call_opt mbind option_bind]. change (cm_pstRxFnc (e_cm (set_mem mem' e)))
    with (cm_pstRxFnc (e_cm e)). rewrite Hcb2. cbn [call_opt mbind option_bind].
  change (ports (e_cm (set_mem mem' e))) with (ports (e_cm e)). rewrite Hp.
  cbn [mbind option_bind]. exists (dh_size h'), mem'. split; [done|].
  split; [intros Hle; by specialize (Hfits Hle) as [= <-]|]. split; [done|]. split; [|done].
  rewrite Hnew, <- Ei, <- Eo. unfold received. cbn [dh_offset dh_size]. by replace (takeZ (dh_size h') (takeZ (dh_size h') bytes))
    with (takeZ (dh_size h') bytes) by (unfold takeZ; rewrite take_take; f_equal; lia).
Qed.
End Receive.

(** ** Initialisation *)

Definition port_fresh (p : com_manager_port_t) : Prop :=
  comm_ok (comm_buffer p) (port_comm p) /\ pending (comm_buffer p) (port_comm p) = [] /\
  buf_size (rxBuf (port_comm p)) = PKT_BUF_SIZE.

Definition port_storage (p : com_manager_port_t) : Prop :=
  0 < base (comm_buffer p) /\ lenZ (cells (comm_buffer p)) = PKT_BUF_SIZE.

Lemma init_ports_ok n : forall l,
  (n <= length l)%nat -> Forall port_storage l ->
  exists l', init_ports n l = Some l' /\ length l' = length l /\ Forall port_fresh (take n l').
Proof.
  induction n as [|n IH]; intros l Hl Hs; [by exists l; rewrite take_0|].
  destruct l as [|p l]; [cbn in Hl; lia|]. apply Forall_cons_iff in Hs as [[Hb Hc] Hs].
  cbn [init_ports]. destruct (is_comm_init_ok (comm_buffer p) (base (comm_buffer p)) PKT_BUF_SIZE)
    as (m' & c' & -> & Hok & Hpend & Hsize & _); [done|done|done|done|]. cbn [mbind option_bind].
  destruct (IH l) as (l' & -> & Hl' & Hf); [cbn in Hl; lia|done|]. cbn [mbind option_bind].
  eexists. split; [done|]. split; [cbn; lia|]. cbn [take]. by constructor.
Qed.

(** initialisation of a manager over enough ports and a large enough broadcast
    table succeeds whatever the instance held: every port, at most 1024 of them, has
    an empty and well-formed parser, no data set is registered and no slot ever
    sends; without ports, buffers or table space it returns -1. *)
Theorem comManagerInitInstance_spec {F : Type} (cm : com_manager_t F) sizeof n step
    fr fw ft fp fa fd tsize storage cbs :
  0 < sizeof -> 0 < n -> Forall port_storage storage -> Z.min 1024 n <= lenZ storage ->
  let init buffers ports k := comManagerInitInstance sizeof (Some cm) k step fr fw ft fp fa fd
    buffers ports cbs in
  (MAX_NUM_BCAST_MSGS * sizeof <= tsize -> exists cm',
    init (Some (InitBuffers true tsize)) (Some storage) n = Some (Some cm', 0) /\
    numPorts cm' = Z.min 1024 n /\ Forall port_fresh (takeZ (numPorts cm') (ports cm')) /\
    lenZ (ports cm') = lenZ storage /\
    MAX_NUM_BCAST_MSGS <= lenZ (broadcastMessages cm') /\
    Forall (fun b => forall k, due_at b k = false) (broadcastMessages cm') /\
    regData cm' = repeat zero_reg (Z.to_nat DID_COUNT) /\
    ccb_isb (callbacks cm') = Some IsbProcessIsb) /\
  (forall buffers ports k, k <= 0 \/ buffers = None \/ ports = None \/
     (exists t s, buffers = Some (InitBuffers t s) /\
        (t = false \/ s < MAX_NUM_BCAST_MSGS * sizeof)) ->
     exists cm', init buffers ports k = Some (Some cm', -1)).
Proof.
  intros Hsz Hn Hst Hlen init. unfold init, comManagerInitInstance, initComManagerInstanceInternal.
  split.
  - intros Ht. rewrite (proj2 (Z.leb_gt n 0)) by lia. cbn [broadcastMsg broadcastMsgSize negb orb].
    rewrite (proj2 (Z.ltb_ge tsize _)) by lia.
    destruct (init_ports_ok (Z.to_nat (Z.max 1 (Z.min 1024 n))) storage) as (l' & -> & Hl' & Hf);
      [unfold lenZ in Hlen; lia|done|].
    cbn [mbind option_bind]. eexists. split; [done|]. cbn.
    split; [lia|]. split; [exact Hf|]. split; [unfold lenZ; lia|]. split.
    + unfold MAX_NUM_BCAST_MSGS in *. unfold lenZ. rewrite repeat_length, Z2Nat.id by (apply Z.div_pos; lia).
      apply Z.div_le_lower_bound; lia.
    + split; [|done]. apply List.Forall_forall. intros b Hb. apply repeat_spec in Hb as ->. done.
  - intros buffers ports k Hbad. destruct (Z.leb_spec k 0); [by eexists|].
    destruct buffers as [[t s]|]; [|by eexists]. destruct ports as [ps|]; [|by eexists].
    cbn [broadcastMsg broadcastMsgSize].
    destruct Hbad as [?|[?|[?|(t' & s' & [= <- <-] & Hts)]]]; [lia|done|done|].
    replace (negb t || (s <? MAX_NUM_BCAST_MSGS * sizeof)) with true; [by eexists|].
    destruct Hts as [->|?]; [done|]. rewrite (proj2 (Z.ltb_lt s _)) by lia. by rewrite orb_true_r.
Qed.
