(* ===== verification/ComExamples.v ===== *)
(** * A communications manager on concrete inputs

    A manager with two ports that log the bytes written, used by the witnesses, and
    the behaviours that differ from what comments and names say. *)

From S2P Require Import Prelude Checksum CommTypes CommRx CommTx CommMessages CommTxProps.
From S2P Require Import ComManager ComManagerProps.

(** The bytes written, each with its port. *)
Definition demo_st : Type := list (Z * Z).
Definition demo_emit (port : Z) (bs : list Z) (st : demo_st) : demo_st := st ++ map (pair port) bs.

(** Function pointers are port space: [txFree] of [n] answers [n]; callbacks do
    nothing, [preTxFnc] lets data be sent. *)
#[export] Instance demo_functions : cm_functions Z demo_st := {|
  call_portRead _ _ _ st := (st, [], 0);
  call_portWrite _ port bs st := (demo_emit port bs st, lenZ bs);
  call_txFree n _ _ := n;
  call_preTx _ _ _ e := Some (e, 1);
  call_postRead _ _ _ e := Some e;
  call_postAck _ _ _ _ e := Some e;
  call_disableBcast _ _ e := Some e;
  call_rmc _ _ _ e := Some (e, -1);
  call_genMsg _ _ _ _ e := Some e;
  call_comm _ _ e := Some e
|}.

#[export] Instance demo_stream_port : stream_port (call_portWrite (F := Z) 0) demo_emit.
Proof. split; [done|]. intros. unfold demo_emit. by rewrite map_app, app_assoc. Qed.

Definition demo_port (base : Z) : com_manager_port_t :=
  CmPort (Comm (CommBuf base (base + 2048) 2048 base base base 0) default_mask 0 0 0
            EPARSE_INVALID_PREAMBLE (fun _ => 0) None (Parser 0 0 0) 0
            (Packet 0 0 0 0 0 base 0 0 0 0 0) 1)
    (Region base (repeat 0 2048)).

(** Ten bytes at address 1000 registered as data set 5 for both directions, and as
    data set 6 only for reception; the step takes 10 ms. *)
Definition demo_regs : list (registered_data_t Z) :=
  updZ 5 [Reg (TxRxPtr 1000 1000 10) None None 0; Reg (TxRxPtr 0 1000 10) None None 0]
    (repeat zero_reg (Z.to_nat DID_COUNT)).

Definition demo_cm (txFree : option Z) : com_manager_t Z :=
  Cm (Some 0) (Some 0) txFree None None None demo_regs [demo_port 5000; demo_port 8000] 2
    (repeat zero_bcast 12) 10 0 (set_isb (Some IsbProcessIsb) zero_callbacks).

Definition demo_data : list Z := [1; 2; 3; 4; 5; 6; 7; 8; 9; 10].
Definition demo_e (txFree : option Z) : env Z demo_st :=
  Env (demo_cm txFree) true (Region 1000 demo_data) [].

(** Requests in a row on port 0. *)
Definition demo_requests (txFree : option Z) (l : list p_data_get_t) : option (env Z demo_st) :=
  fold_left (fun e r => e ← e; '(e, _, _) ← comManagerGetDataRequestInstance 0 r e; Some e) l
    (Some (demo_e txFree)).

(** The data size and the period of the first three slots. *)
Definition demo_slots (e : option (env Z demo_st)) : option (list (Z * Z)) :=
  e ← e; Some (map (fun b => (data_size (bc_pkt b), bc_period b)) (takeZ 3 (broadcastMessages (e_cm e)))).

(** The same range at a nonzero offset, requested twice, takes two slots: the search
    compares the payload size, which includes the offset, with the data size. *)
Example request_offset_duplicates :
  demo_slots (demo_requests None [DataGet 5 4 4 100; DataGet 5 4 4 100]) =
    Some [(4, 10); (4, 10); (0, 0)] /\
  demo_slots (demo_requests None [DataGet 5 4 0 100; DataGet 5 4 0 100]) =
    Some [(4, 10); (0, 0); (0, 0)].
Proof. split; vm_compute; reflexivity. Qed.

(** A single request that has to wait for space in the port is lost when another
    request arrives: its slot counts as free. *)
Example pending_request_lost :
  demo_slots (demo_requests (Some 0) [DataGet 5 4 0 0]) = Some [(4, -1); (0, 0); (0, 0)] /\
  demo_slots (demo_requests (Some 0) [DataGet 5 4 0 0; DataGet 5 6 0 0]) =
    Some [(6, -1); (0, 0); (0, 0)].
Proof. split; vm_compute; reflexivity. Qed.

(** A period shorter than the step disables the broadcast that was asked for. *)
Example short_period_never_sends :
  demo_slots (demo_requests None [DataGet 5 4 0 9]) = Some [(4, 0); (0, 0); (0, 0)].
Proof. vm_compute; reflexivity. Qed.

(** A request for a data set registered without a transmit pointer reads through a
    NULL pointer. *)
Example request_null_pointer : demo_requests None [DataGet 6 4 0 0] = None.
Proof. vm_compute; reflexivity. Qed.

(** A packet one byte longer than a structure of 300 bytes is cut to 44 bytes, the
    size having been converted to 8 bits; one that starts behind the end of a
    structure of 8 bytes passes as it is. *)
Example trim_size_truncates :
  trim_size (TxRxPtr 1000 1000 300) (DataHdr 5 301 0) = Some (DataHdr 5 44 0) /\
  trim_size (TxRxPtr 1000 1000 8) (DataHdr 5 4 20) = Some (DataHdr 5 4 20).
Proof. split; vm_compute; reflexivity. Qed.

(** The manager after a packet has arrived on port 0. *)
Definition demo_rx_port (flags id offset : Z) (data : list Z) : com_manager_port_t :=
  CmPort (set_rxPkt (Packet PSC_ISB_PREAMBLE flags id (lenZ data) offset 5006 (lenZ data) 0 0 0 0)
            (port_comm (demo_port 5000)))
    (Region 5000 (updZ 6 data (repeat 0 2048))).
Definition demo_rx (flags id offset : Z) (data : list Z) : env Z demo_st :=
  set_cm (set_ports [demo_rx_port flags id offset data; demo_port 8000] (demo_cm None))
    (demo_e None).

(** The acknowledge of a received data packet repeats the first five bytes of the
    data where the receiver expects the header of the data set. *)
Example ack_carries_data :
  (e ← processIsb 0 (demo_rx PKT_TYPE_SET_DATA 5 0 [21; 22; 23; 24; 25; 26]);
   Some (takeZ 9 (dropZ 6 (map snd (e_st (fst e)))), cells (e_mem (fst e)))) =
  Some ([5; 0; 0; 0; 21; 22; 23; 24; 25], [21; 22; 23; 24; 25; 26; 7; 8; 9; 10]).
Proof. vm_compute; reflexivity. Qed.

(** A broadcast every two steps, requested and run for six steps: sent at once and
    in the third and fifth step. *)
Definition demo_count (e : option (env Z demo_st)) : option Z :=
  e ← e; Some (lenZ (e_st e)).
Example demo_broadcast :
  map (fun n => demo_count (e ← demo_requests None [DataGet 5 4 0 20]; run_tx n e))
    [0; 1; 2; 3; 4; 5; 6]%nat =
  map Some [12; 12; 12; 24; 24; 36; 36].
Proof. vm_compute; reflexivity. Qed.

(** ** The theorems about the manager at this manager *)

Lemma demo_calm txFree : calm 0 (demo_e txFree).
Proof.
  split; [done|]. split; [done|].
  apply List.Forall_forall. intros r Hr. revert r Hr. apply List.Forall_forall.
  repeat constructor.
Qed.

Lemma demo_quiet : quiet 0 (demo_e None).
Proof. split; [apply demo_calm|done]. Qed.

Lemma demo_bytes_at : bytes_at (Region 1000 demo_data) 1000 demo_data.
Proof. exact (bytes_at_intro 1000 [] demo_data []). Qed.

Lemma demo_data_set : data_set_ok (Region 1000 demo_data) (TxRxPtr 1000 1000 10) demo_data.
Proof.
  split; [done|]. split; [done|]. split; [done|]. split; [|exact demo_bytes_at].
  repeat constructor; unfold byte; lia.
Qed.

(** A table with data set 5 due every second step. *)
Definition demo_slot : broadcast_msg_t :=
  Bcast (is_comm_encode_hdr zero_pkt PKT_TYPE_DATA 5 4 2 1002) (-1) 2 1.
Definition demo_act : list broadcast_msg_t :=
  repeat zero_bcast 3 ++ [demo_slot] ++ repeat zero_bcast 8.
Definition demo_active (txFree : option Z) : env Z demo_st :=
  set_cm (set_broadcastMessages demo_act (demo_cm txFree)) (demo_e txFree).

Lemma demo_slots_ok : Forall (slot_ok 2 (Region 1000 demo_data)) demo_act.
Proof.
  assert (forall n, Forall (slot_ok 2 (Region 1000 demo_data)) (repeat zero_bcast n)) as Hz.
  { intros n. apply List.Forall_forall. intros b Hb. apply repeat_spec in Hb as ->. by intros [=]. }
  apply Forall_app. split; [apply Hz|]. apply Forall_app. split; [|apply Hz].
  constructor; [|constructor]. intros _. split.
  { exists zero_pkt, 5, 4, 2, 1002. split; [lia|reflexivity]. }
  split; [cbn; lia|]. exists [3; 4; 5; 6]. split; [reflexivity|]. split; [reflexivity|].
  split; [done|]. split; [done|]. split; [done|]. split; [|done].
  repeat constructor; unfold byte; lia.
Qed.

(** Four steps without a limit, and one with room for three bytes on each port. *)
Lemma broadcast_schedule_witness :
  (exists e', run_tx 4 (demo_active None) = Some e' /\ kept (demo_active None) e' /\
    e_st e' = scheduled demo_emit (Region 1000 demo_data) demo_act 4 0 []) /\
  exists e' served waiting served', demo_act = served ++ waiting /\
    stepComManagerSendMessagesInstance (demo_active (Some 3)) = Some e' /\ kept (demo_active (Some 3)) e' /\
    broadcastMessages (e_cm e') = served' ++ waiting ++ [] /\ Forall2 ticked served served' /\
    e_st e' = sends demo_emit (Region 1000 demo_data) due served [] /\
    rooms demo_emit (demo_active (Some 3)) served [] /\ held_back e' waiting.
Proof.
  split.
  - apply (broadcast_schedule 0 demo_emit 4 (demo_active None) demo_act []);
      [exact (demo_calm None)|reflexivity|reflexivity|exact demo_slots_ok|reflexivity].
  - apply (broadcast_schedule 0 demo_emit 0 (demo_active (Some 3)) demo_act []);
      [exact (demo_calm (Some 3))|reflexivity|reflexivity|exact demo_slots_ok].
Defined.

(** The port is full: the slot that is due, and those behind it, wait. *)
Example full_port_waits :
  ((fun e => (map bc_counter (takeZ 4 (broadcastMessages (e_cm e))), lenZ (e_st e))) <$>
    run_tx 4 (demo_active (Some 3))) = Some ([0; 0; 0; -1], 0).
Proof. vm_compute. reflexivity. Qed.

Lemma get_data_request_witness :
  exists e' req' i b,
    comManagerGetDataRequestInstance 1 (DataGet 5 4 2 20) (demo_e None) = Some (e', req', 0) /\
    kept (demo_e None) e' /\
    e_st e' = demo_emit 1 (isb_wire PKT_TYPE_DATA 5 2 [3; 4; 5; 6]) [] /\
    0 <= i < MAX_NUM_BCAST_MSGS /\
    broadcastMessages (e_cm e') = updZ i [b] (repeat zero_bcast 12) /\ bc_pHandle b = 1 /\
    slot_ok 2 (Region 1000 demo_data) b /\
    slot_frame (Region 1000 demo_data) b = isb_wire PKT_TYPE_DATA 5 2 [3; 4; 5; 6] /\
    forall k, 0 <= k -> due_at b k = true && (0 <? k) && (k mod 2 =? 0).
Proof.
  apply (get_data_request_spec 0 demo_emit (demo_e None) 1 (DataGet 5 4 2 20)
    (Reg (TxRxPtr 1000 1000 10) None None 0) demo_data); try exact demo_quiet;
    try exact demo_data_set; try reflexivity; try done; unfold req_ok; cbn; unfold DID_COUNT; lia.
Defined.

Lemma stop_broadcasts_witness :
  let e := demo_rx PKT_TYPE_STOP_BROADCASTS_ALL_PORTS 0 0 [] in
  exists e', processIsb 0 e = Some (e', 0) /\ kept e e' /\
    e_st e' = demo_emit 0 (isb_wire PKT_TYPE_ACK 0 0 [6; 0; 0; 0; 0; 0; 0; 0; 0]) [] /\
    broadcastMessages (e_cm e') = repeat zero_bcast 12 /\
    forall b k, -1 < 0 \/ bc_pHandle b = -1 -> due_at (stopped (-1) b) k = false.
Proof.
  intros e. apply (stop_broadcasts_spec 0 demo_emit e 0
    (demo_rx_port PKT_TYPE_STOP_BROADCASTS_ALL_PORTS 0 0 []) (-1)); try reflexivity.
  apply elem_of_cons. left. reflexivity.
Defined.

Lemma processIsb_data_witness :
  let e := demo_rx PKT_TYPE_DATA 5 4 [21; 22; 23] in
  exists mem', processIsb 0 e = Some (set_mem mem' e, 0) /\
    load_range mem' 1000 10 = Some [1; 2; 3; 4; 21; 22; 23; 8; 9; 10] /\
    forall a, ~ (1000 <= a < 1000 + 10) -> load mem' a = load (Region 1000 demo_data) a.
Proof.
  intros e.
  destruct (processIsb_data_spec e 0 (demo_rx_port PKT_TYPE_DATA 5 4 [21; 22; 23])
    (Reg (TxRxPtr 1000 1000 10) None None 0) demo_data [21; 22; 23])
    as [[Hlt _]|(n & mem' & _ & Hn & E & L & Hf)]; try reflexivity; try done.
  specialize (Hn ltac:(vm_compute; discriminate)). subst n. exists mem'.
  split; [exact E|]. split; [exact L|exact Hf].
Defined.

Lemma comManagerInitInstance_witness :
  exists cm', comManagerInitInstance 40 (Some (demo_cm None)) 2 10 None None None None None None
      (Some (InitBuffers true 480)) (Some [demo_port 5000; demo_port 8000]) None = Some (Some cm', 0) /\
    numPorts cm' = 2 /\ Forall port_fresh (takeZ (numPorts cm') (ports cm')) /\
    lenZ (ports cm') = 2 /\ MAX_NUM_BCAST_MSGS <= lenZ (broadcastMessages cm') /\
    Forall (fun b => forall k, due_at b k = false) (broadcastMessages cm') /\
    regData cm' = repeat zero_reg (Z.to_nat DID_COUNT) /\
    ccb_isb (callbacks cm') = Some IsbProcessIsb.
Proof.
  apply (comManagerInitInstance_spec (demo_cm None) 40 2 10 None None None None None None 480
    [demo_port 5000; demo_port 8000] None); [lia|lia| |decided|decided].
  repeat constructor.
Defined.
