(* ===== verification/LinkedList.v ===== *)
(** * The intrusive doubly linked list (src/src/linked_list.c, linked_list.h)

    Nodes are cells of a heap, a list object its two end pointers; 0 is the NULL
    pointer.  An operation that follows a pointer to no node has no result.  The
    operations are proved to implement the operations on sequences of nodes. *)

From stdpp Require Import gmap.
From S2P Require Import Prelude.
#[local] Open Scope Z_scope.
#[local] Set Warnings "-clear-no-such-hyp".

Record linked_list_node_t := Node { prev : Z; nextCt : Z }.
Record linked_list_t := LinkedList { ll_head : Z; ll_tail : Z }.

Module LinkedList.

Abbreviation heap := (gmap Z linked_list_node_t).

Definition set_prev (h : heap) (a p : Z) : option heap :=
  n ← h !! a; Some (<[a := Node p (nextCt n)]> h).
Definition set_nextCt (h : heap) (a p : Z) : option heap :=
  n ← h !! a; Some (<[a := Node (prev n) p]> h).

Definition linkedListClear (ll : linked_list_t) : linked_list_t := LinkedList 0 0.

Definition linkedListInsertAtHead (h : heap) (ll : linked_list_t) (newNode : Z)
    : option (heap * linked_list_t) :=
  if negb (ll_head ll =? 0) then
    h ← set_prev h (ll_head ll) newNode;
    h ← set_nextCt h newNode (ll_head ll);
    h ← set_prev h newNode 0;
    Some (h, LinkedList newNode (ll_tail ll))
  else Some (h, LinkedList newNode newNode).

Definition linkedListInsertBefore (h : heap) (ll : linked_list_t) (node newNode : Z)
    : option (heap * linked_list_t) :=
  n ← h !! node;
  let p := prev n in
  '(h, ll) ←
    (if negb (p =? 0) then
       h ← set_nextCt h p newNode;
       h ← set_prev h newNode p;
       Some (h, ll)
     else
       h ← set_prev h newNode 0;
       Some (h, LinkedList newNode (ll_tail ll)));
  h ← set_prev h node newNode;
  h ← set_nextCt h newNode node;
  Some (h, ll).

Definition linkedListRemove (h : heap) (ll : linked_list_t) (node : Z)
    : option (heap * linked_list_t) :=
  n ← h !! node;
  let p := prev n in
  let next := nextCt n in
  let ll := if ll_head ll =? node then LinkedList next (ll_tail ll) else ll in
  let ll := if ll_tail ll =? node then LinkedList (ll_head ll) p else ll in
  h ← (if negb (p =? 0) then set_nextCt h p next else Some h);
  h ← (if negb (next =? 0) then set_prev h next p else Some h);
  Some (h, ll).

End LinkedList.
Export LinkedList.

(** ** Representation *)

(** The nodes of [l], linked in both directions, between [p] and [n]. *)
Fixpoint dseg (h : heap) (p : Z) (l : list Z) (n : Z) : Prop :=
  match l with
  | [] => True
  | x :: l => x <> 0 /\ h !! x = Some (Node p (hd n l)) /\ dseg h x l n
  end.

(** The list object represents the sequence of nodes [l]. *)
Definition dlist (h : heap) (ll : linked_list_t) (l : list Z) : Prop :=
  NoDup l /\ ll_head ll = hd 0 l /\ ll_tail ll = List.last l 0 /\ dseg h 0 l 0.

Lemma hd_app (l1 l2 : list Z) n : hd n (l1 ++ l2) = hd (hd n l2) l1.
Proof. by destruct l1. Qed.

Lemma last_cons_default (x : Z) l p q : List.last (x :: l) p = List.last (x :: l) q.
Proof. revert x. induction l as [|y l IH]; intros x; [done|]. apply IH. Qed.

Lemma last_cons (x : Z) l p : List.last (x :: l) p = List.last l x.
Proof. destruct l as [|y l]; [done|]. exact (last_cons_default y l p x). Qed.

Lemma last_app (l1 l2 : list Z) p : List.last (l1 ++ l2) p = List.last l2 (List.last l1 p).
Proof.
  revert p. induction l1 as [|x l1 IH]; intros p; [done|]. cbn [app]. rewrite !last_cons. apply IH.
Qed.

Lemma dseg_app h l1 : forall p l2 n,
  dseg h p (l1 ++ l2) n <-> dseg h p l1 (hd n l2) /\ dseg h (List.last l1 p) l2 n.
Proof.
  induction l1 as [|x l1 IH]; intros p l2 n; [cbn; tauto|]. cbn [app dseg]. rewrite IH, hd_app.
  rewrite last_cons. tauto.
Qed.

Lemma dseg_frame h p l n y v : y ∉ l -> dseg h p l n -> dseg (<[y := v]> h) p l n.
Proof.
  revert p. induction l as [|x l IH]; intros p Hy H; [done|]. apply not_elem_of_cons in Hy as [Hxy Hy].
  destruct H as (Hx & E & H). cbn [dseg]. split; [done|]. split; [|by apply IH].
  by rewrite lookup_insert_ne by congruence.
Qed.

(** A change of the first back pointer or of the last forward pointer. *)
Lemma dseg_set_prev h p q x l n :
  x ∉ l -> dseg h p (x :: l) n ->
  exists h', set_prev h x q = Some h' /\ dseg h' q (x :: l) n /\
    forall y, y <> x -> h' !! y = h !! y.
Proof.
  intros Hx (Hx0 & E & H). unfold set_prev. rewrite E. cbn [mbind option_bind].
  eexists. split; [done|]. split.
  - cbn [dseg]. split; [done|]. rewrite lookup_insert_eq. split; [done|]. by apply dseg_frame.
  - intros y Hy. by rewrite lookup_insert_ne by congruence.
Qed.

Lemma dseg_set_next h p l x m n :
  x ∉ l -> dseg h p (l ++ [x]) n ->
  exists h', set_nextCt h x m = Some h' /\ dseg h' p (l ++ [x]) m /\
    forall y, y <> x -> h' !! y = h !! y.
Proof.
  intros Hx H. apply dseg_app in H as [Hl (Hx0 & E & _)]. unfold set_nextCt. rewrite E.
  cbn [mbind option_bind]. eexists. split; [done|]. split.
  - apply dseg_app. split; [by apply dseg_frame|]. cbn [dseg]. split; [done|].
    by rewrite lookup_insert_eq.
  - intros y Hy. by rewrite lookup_insert_ne by congruence.
Qed.

Lemma dseg_other h h' p l n :
  (forall y, y ∈ l -> h' !! y = h !! y) -> dseg h p l n -> dseg h' p l n.
Proof.
  revert p. induction l as [|x l IH]; intros p Hy H; [done|]. destruct H as (Hx & E & H).
  split; [done|]. split; [rewrite Hy by set_solver; done|].
  apply IH; [|done]. intros y Hyl. apply Hy. set_solver.
Qed.

(** ** The operations *)

Section Operations.
Context (h : heap) (ll : linked_list_t).

Lemma dseg_single h' x p n : x <> 0 -> h' !! x = Some (Node p n) -> dseg h' p [x] n.
Proof. done. Qed.

Lemma set_prev_lookup h' a n p :
  h' !! a = Some n -> set_prev h' a p = Some (<[a := Node p (nextCt n)]> h').
Proof. intros E. unfold set_prev. by rewrite E. Qed.

Lemma set_nextCt_lookup h' a n p :
  h' !! a = Some n -> set_nextCt h' a p = Some (<[a := Node (prev n) p]> h').
Proof. intros E. unfold set_nextCt. by rewrite E. Qed.

Lemma insertAtHead_ok l x nx :
  dlist h ll l -> x ∉ l -> x <> 0 -> h !! x = Some nx -> (l = [] -> nx = Node 0 0) ->
  exists h' ll', linkedListInsertAtHead h ll x = Some (h', ll') /\ dlist h' ll' (x :: l) /\
    forall y, y ∉ x :: l -> h' !! y = h !! y.
Proof.
  intros (Hnd & Hh & Ht & Hd) Hx Hx0 Ex Hnil. unfold linkedListInsertAtHead. rewrite Hh.
  destruct l as [|y l]; cbn [hd] in *.
  { exists h, (LinkedList x x). split; [done|]. split; [|done]. rewrite (Hnil eq_refl) in Ex.
    split; [by apply NoDup_singleton|]. done. }
  assert (y <> 0) as Hy0 by apply Hd. rewrite (proj2 (Z.eqb_neq y 0) Hy0). cbn [negb].
  apply list.NoDup_cons in Hnd as [Hyl Hnd]. apply not_elem_of_cons in Hx as [Hxy Hxl].
  destruct (dseg_set_prev h 0 x y l 0 Hyl Hd) as (h1 & -> & Hd1 & Hf1). cbn [mbind option_bind].
  rewrite (set_nextCt_lookup h1 x nx) by (by rewrite Hf1). cbn [mbind option_bind].
  erewrite set_prev_lookup by apply lookup_insert_eq. cbn [mbind option_bind nextCt].
  rewrite insert_insert_eq. eexists _, _. split; [done|]. split.
  - split; [repeat (apply list.NoDup_cons; split); try done; by apply not_elem_of_cons|]. cbn.
    split; [done|]. split; [by rewrite Ht|]. split; [done|]. split; [by rewrite lookup_insert_eq|].
    apply (dseg_frame h1 x (y :: l)); [by apply not_elem_of_cons|done].
  - intros z Hz. apply not_elem_of_cons in Hz as [Hzx Hz]. apply not_elem_of_cons in Hz as [Hzy _].
    rewrite lookup_insert_ne by congruence. by apply Hf1.
Qed.

(** The first half of an insertion: the new node behind the nodes [l1]. *)
Lemma link_before l1 x nx n :
  ll_head ll = hd n l1 -> NoDup l1 -> x ∉ l1 -> h !! x = Some nx -> dseg h 0 l1 n ->
  exists h1 ll1,
    (if negb (List.last l1 0 =? 0) then
       h ← set_nextCt h (List.last l1 0) x; h ← set_prev h x (List.last l1 0); Some (h, ll)
     else h ← set_prev h x 0; Some (h, LinkedList x (ll_tail ll))) = Some (h1, ll1) /\
    ll_head ll1 = hd x l1 /\ ll_tail ll1 = ll_tail ll /\ dseg h1 0 l1 x /\
    (exists m, h1 !! x = Some (Node (List.last l1 0) m)) /\
    forall z, z ∉ l1 ++ [x] -> h1 !! z = h !! z.
Proof.
  intros Hh Hn1 Hx Ex Hd1.
   destruct l1 as [|w l1 _] using rev_ind.
  - cbn [List.last Z.eqb negb]. rewrite (set_prev_lookup h x nx) by done. cbn [mbind option_bind].
    eexists _, _. split; [done|]. do 3 (split; [done|]). split; [eexists; by rewrite lookup_insert_eq|].
    intros z Hz. rewrite lookup_insert_ne; [done|]. set_solver.
  - rewrite last_app in *. cbn [List.last] in *.
    assert (w <> 0) as Hw0 by (apply dseg_app in Hd1 as [_ [? _]]; done).
    rewrite (proj2 (Z.eqb_neq w 0) Hw0). cbn [negb].
    apply list.NoDup_app in Hn1 as (Hn1 & Hw & _).
    destruct (dseg_set_next h 0 l1 w x _ ltac:(set_solver) Hd1) as (h1 & -> & Hs1 & Hf1).
    cbn [mbind option_bind]. rewrite (set_prev_lookup h1 x nx) by (rewrite Hf1 by set_solver; done).
    cbn [mbind option_bind]. eexists _, _. split; [done|].
    split; [rewrite Hh, !hd_app; by destruct l1|]. split; [done|].
    split; [apply dseg_frame; [set_solver|done]|]. split; [eexists; by rewrite lookup_insert_eq|].
    intros z Hz. rewrite lookup_insert_ne by set_solver. apply Hf1. set_solver.
Qed.

Lemma insertBefore_ok l1 l2 y x nx :
  dlist h ll (l1 ++ y :: l2) -> x ∉ l1 ++ y :: l2 -> x <> 0 -> h !! x = Some nx ->
  exists h' ll', linkedListInsertBefore h ll y x = Some (h', ll') /\
    dlist h' ll' (l1 ++ x :: y :: l2) /\
    forall z, z ∉ l1 ++ x :: y :: l2 -> h' !! z = h !! z.
Proof.
  intros (Hnd & Hh & Ht & Hd) Hx Hx0 Ex. apply dseg_app in Hd as [Hd1 Hd2].
  pose proof Hd2 as (Hy0 & Ey & _). unfold linkedListInsertBefore. rewrite Ey.
  cbn [mbind option_bind prev]. apply list.NoDup_app in Hnd as (Hn1 & Hdis & Hn2).
  apply list.NoDup_cons in Hn2 as [Hyl2 Hn2].
  assert (NoDup (l1 ++ x :: y :: l2)) as Hnd'.
  { apply list.NoDup_app. split; [done|]. split; [|repeat (apply list.NoDup_cons; split); set_solver].
    intros z Hz. specialize (Hdis z Hz). set_solver. }
  destruct (link_before l1 x nx y) as (h1 & ll1 & -> & Hh1 & Ht1 & Hs1 & [m Ex1] & Hf1);
    [by rewrite Hh, hd_app|done|set_solver|done|done|].
  cbn [mbind option_bind].
  destruct (dseg_set_prev h1 (List.last l1 0) x y l2 0 Hyl2) as (h2 & -> & Hs2 & Hf2).
  { eapply dseg_other; [|exact Hd2]. intros z Hz. apply Hf1. set_solver. }
  cbn [mbind option_bind]. rewrite (set_nextCt_lookup h2 x _ y (eq_trans (Hf2 x ltac:(set_solver)) Ex1)).
  cbn [mbind option_bind prev]. eexists _, _. split; [done|]. split.
  - split; [done|]. split; [by rewrite Hh1, hd_app|].
    split; [rewrite Ht1, Ht, !last_app, !last_cons; done|].
    apply dseg_app. cbn [hd]. split.
    + apply dseg_frame; [set_solver|]. eapply dseg_other; [|exact Hs1]. intros z Hz. apply Hf2.
      intros ->. by specialize (Hdis y Hz); set_solver.
    + cbn [dseg]. split; [done|]. rewrite lookup_insert_eq. split; [done|].
      apply (dseg_frame h2 x (y :: l2)); [set_solver|done].
  - intros z Hz. rewrite lookup_insert_ne by set_solver. rewrite Hf2 by set_solver.
    apply Hf1. set_solver.
Qed.

(** The two halves of a removal: the links around the removed node. *)
Lemma unlink_next l1 n m :
  NoDup l1 -> dseg h 0 l1 n ->
  exists h1, (if negb (List.last l1 0 =? 0) then set_nextCt h (List.last l1 0) m else Some h) =
      Some h1 /\ dseg h1 0 l1 m /\ forall z, z ∉ l1 -> h1 !! z = h !! z.
Proof.
  intros Hnd Hd. destruct l1 as [|w l1 _] using rev_ind; [by exists h|].
  rewrite last_app. cbn [List.last].
  assert (w <> 0) as Hw0 by (apply dseg_app in Hd as [_ [? _]]; done).
  rewrite (proj2 (Z.eqb_neq w 0) Hw0). cbn [negb]. apply list.NoDup_app in Hnd as (_ & Hw & _).
  destruct (dseg_set_next h 0 l1 w m n ltac:(set_solver) Hd) as (h1 & -> & Hs & Hf).
  exists h1. split; [done|]. split; [done|]. intros z Hz. apply Hf. set_solver.
Qed.

Lemma unlink_prev l2 p q :
  NoDup l2 -> dseg h p l2 0 ->
  exists h1, (if negb (hd 0 l2 =? 0) then set_prev h (hd 0 l2) q else Some h) = Some h1 /\
    dseg h1 q l2 0 /\ forall z, z ∉ l2 -> h1 !! z = h !! z.
Proof.
  intros Hnd Hd. destruct l2 as [|w l2]; [by exists h|]. cbn [hd].
  assert (w <> 0) as Hw0 by apply Hd. rewrite (proj2 (Z.eqb_neq w 0) Hw0). cbn [negb].
  apply list.NoDup_cons in Hnd as [Hw _].
  destruct (dseg_set_prev h p q w l2 0 Hw Hd) as (h1 & -> & Hs & Hf).
  exists h1. split; [done|]. split; [done|]. intros z Hz. apply Hf. set_solver.
Qed.
End Operations.

Lemma last_in (x : Z) l p : List.last (x :: l) p ∈ x :: l.
Proof. revert x. induction l as [|y l IH]; intros x; [set_solver|]. specialize (IH y). set_solver. Qed.

Lemma remove_ok h ll l1 l2 x :
  dlist h ll (l1 ++ x :: l2) ->
  exists h' ll', linkedListRemove h ll x = Some (h', ll') /\ dlist h' ll' (l1 ++ l2) /\
    forall z, z ∉ l1 ++ l2 -> h' !! z = h !! z.
Proof.
  intros (Hnd & Hh & Ht & Hd). apply dseg_app in Hd as [Hd1 (Hx0 & Ex & Hd2)].
  apply list.NoDup_app in Hnd as (Hn1 & Hdis & Hn2). apply list.NoDup_cons in Hn2 as [Hxl2 Hn2].
  unfold linkedListRemove. rewrite Ex. cbn [mbind option_bind prev nextCt].
  destruct (unlink_next h l1 _ (hd 0 l2) Hn1 Hd1) as (h1 & -> & Hs1 & Hf1). cbn [mbind option_bind].
  assert (dseg h1 x l2 0) as Hd2'.
  { eapply dseg_other; [|exact Hd2]. intros y Hy. apply Hf1. intros Hy1. specialize (Hdis y Hy1).
    set_solver. }
  destruct (unlink_prev h1 l2 x (List.last l1 0) Hn2 Hd2') as (h2 & -> & Hs2 & Hf2).
  cbn [mbind option_bind]. eexists _, _. split; [done|]. split.
  - split.
    { apply list.NoDup_app. split; [done|]. split; [|done]. intros y Hy. specialize (Hdis y Hy).
      set_solver. }
    assert ((if ll_head ll =? x then LinkedList (hd 0 l2) (ll_tail ll) else ll) =
      LinkedList (hd 0 (l1 ++ l2)) (List.last l2 x)) as ->.
    { rewrite hd_app, Hh, hd_app. rewrite last_app, last_cons in Ht. rewrite <- Ht.
      destruct l1 as [|y l1]; cbn [hd]; [by rewrite Z.eqb_refl|].
      rewrite (proj2 (Z.eqb_neq y x)).
      - destruct ll; cbn in *. f_equal. by rewrite Hh.
      - intros ->. specialize (Hdis x). set_solver. }
    assert (dseg h2 0 (l1 ++ l2) 0) as Hs.
    { apply dseg_app. split; [|done]. eapply dseg_other; [|exact Hs1]. intros z Hz. apply Hf2.
      specialize (Hdis z Hz). set_solver. }
    cbn [ll_tail ll_head]. rewrite last_app. destruct l2 as [|y l2].
    + cbn [List.last]. rewrite Z.eqb_refl. done.
    + rewrite (proj2 (Z.eqb_neq (List.last (y :: l2) x) x)).
      2: { intros E. pose proof (last_in y l2 x) as Hin. rewrite E in Hin. set_solver. }
      cbn [ll_head ll_tail]. split; [done|]. split; [apply last_cons_default|done].
  - intros z Hz. rewrite Hf2 by set_solver. apply Hf1. set_solver.
Qed.

(** ** Refinement of sequences *)

Inductive ll_op := OpHead (x : Z) | OpBefore (y x : Z) | OpRemove (x : Z) | OpClear.

Definition ll_step (op : ll_op) (h : heap) (ll : linked_list_t) : option (heap * linked_list_t) :=
  match op with
  | OpHead x => linkedListInsertAtHead h ll x
  | OpBefore y x => linkedListInsertBefore h ll y x
  | OpRemove x => linkedListRemove h ll x
  | OpClear => Some (h, linkedListClear ll)
  end.

Fixpoint ll_run (ops : list ll_op) (h : heap) (ll : linked_list_t)
    : option (heap * linked_list_t) :=
  match ops with
  | [] => Some (h, ll)
  | op :: ops => '(h, ll) ← ll_step op h ll; ll_run ops h ll
  end.

(** The same operations on a sequence of nodes; an operation on a node that is not
    in the sequence has no result. *)
Fixpoint seq_before (y x : Z) (l : list Z) : option (list Z) :=
  match l with
  | [] => None
  | z :: l => if decide (z = y) then Some (x :: z :: l) else cons z <$> seq_before y x l
  end.
Fixpoint seq_remove (x : Z) (l : list Z) : option (list Z) :=
  match l with
  | [] => None
  | z :: l => if decide (z = x) then Some l else cons z <$> seq_remove x l
  end.

Definition seq_step (op : ll_op) (l : list Z) : option (list Z) :=
  match op with
  | OpHead x => Some (x :: l)
  | OpBefore y x => seq_before y x l
  | OpRemove x => seq_remove x l
  | OpClear => Some []
  end.
Fixpoint seq_run (ops : list ll_op) (l : list Z) : option (list Z) :=
  match ops with [] => Some l | op :: ops => l ← seq_step op l; seq_run ops l end.

(** The nodes that are inserted. *)
Definition inserted (op : ll_op) : list Z :=
  match op with OpHead x => [x] | OpBefore _ x => [x] | _ => [] end.

Lemma seq_before_split y x l l' :
  seq_before y x l = Some l' -> exists l1 l2, l = l1 ++ y :: l2 /\ l' = l1 ++ x :: y :: l2.
Proof.
  revert l'. induction l as [|z l IH]; intros l'; [done|]. cbn.
  destruct (decide (z = y)) as [->|]; [intros [= <-]; by exists [], l|].
  intros (l0 & Hl0 & ->)%fmap_Some. destruct (IH l0 Hl0) as (l1 & l2 & -> & ->).
  by exists (z :: l1), l2.
Qed.

Lemma seq_remove_split x l l' :
  seq_remove x l = Some l' -> exists l1 l2, l = l1 ++ x :: l2 /\ l' = l1 ++ l2.
Proof.
  revert l'. induction l as [|z l IH]; intros l'; [done|]. cbn.
  destruct (decide (z = x)) as [->|]; [intros [= <-]; by exists [], l|].
  intros (l0 & Hl0 & ->)%fmap_Some. destruct (IH l0 Hl0) as (l1 & l2 & -> & ->).
  by exists (z :: l1), l2.
Qed.

(** The inserted nodes exist, are not in the list and their links are zero. *)
Definition unused (h : heap) (l : list Z) (xs : list Z) : Prop :=
  forall x, x ∈ xs -> x <> 0 /\ (x ∉ l) /\ (h !! x = Some (Node 0 0)).

Lemma ll_step_refines op h ll l l' :
  dlist h ll l -> unused h l (inserted op) -> seq_step op l = Some l' ->
  exists h' ll', ll_step op h ll = Some (h', ll') /\ dlist h' ll' l' /\
    (forall z, z ∈ l' -> z ∈ l \/ z ∈ inserted op) /\
    forall z, z ∉ l -> z ∉ inserted op -> h' !! z = h !! z.
Proof.
  intros Hd Hu. destruct op as [x|y x|x|]; cbn [ll_step seq_step inserted] in *.
  - intros [= <-]. destruct (Hu x ltac:(set_solver)) as (Hx0 & Hxl & Ex).
    destruct (insertAtHead_ok h ll l x _ Hd Hxl Hx0 Ex) as (h' & ll' & E & Hd' & Hf); [done|].
    exists h', ll'. split; [done|]. split; [done|]. split; [set_solver|].
    intros z Hz Hzx. apply Hf. set_solver.
  - intros (l1 & l2 & -> & ->)%seq_before_split.
    destruct (Hu x ltac:(set_solver)) as (Hx0 & Hxl & Ex).
    destruct (insertBefore_ok h ll l1 l2 y x _ Hd Hxl Hx0 Ex) as (h' & ll' & E & Hd' & Hf).
    exists h', ll'. split; [done|]. split; [done|]. split; [set_solver|].
    intros z Hz Hzx. apply Hf. set_solver.
  - intros (l1 & l2 & -> & ->)%seq_remove_split.
    destruct (remove_ok h ll l1 l2 x Hd) as (h' & ll' & E & Hd' & Hf).
    exists h', ll'. split; [done|]. split; [done|]. split; [set_solver|].
    intros z Hz Hzx. apply Hf. set_solver.
  - intros [= <-]. exists h, (linkedListClear ll). split; [done|].
    split; [split; [by constructor|done]|]. split; [set_solver|done].
Qed.

(** C36: From a cleared list on, any sequence of insertions, removals and clears that is
    meaningful on sequences of nodes and inserts no node twice, with nodes whose links are
    zero at the start, succeeds and leaves a list that links the abstract sequence in both
    directions. (A node inserted again after its removal keeps stale links and is excluded.)
    *)
Theorem linked_list_refines_sequence ops h ll l' :
  NoDup (flat_map inserted ops) ->
  (forall x, x ∈ flat_map inserted ops -> x <> 0 /\ h !! x = Some (Node 0 0)) ->
  seq_run ops [] = Some l' ->
  exists h' ll', ll_run ops h (linkedListClear ll) = Some (h', ll') /\ dlist h' ll' l'.
Proof.
  intros Hnd Hz Hrun.
  assert (dlist h (linkedListClear ll) []) as Hd by (split; [by constructor|done]).
  assert (unused h [] (flat_map inserted ops)) as Hu by (intros x Hx; set_solver).
  clear Hz. revert h Hd Hu Hrun. generalize (linkedListClear ll), (@nil Z).
  induction ops as [|op ops IH]; intros ll0 l h Hd Hu Hrun.
  { exists h, ll0. by injection Hrun as <-. }
  cbn [seq_run ll_run flat_map] in *. apply bind_Some in Hrun as (l1 & Hop & Hrun).
  apply list.NoDup_app in Hnd as (_ & Hdis & Hnd).
  destruct (ll_step_refines op h ll0 l l1 Hd) as (h1 & ll1 & -> & Hd1 & Hin & Hf);
    [intros x Hx; apply Hu; set_solver|done|].
  cbn [mbind option_bind]. apply (IH Hnd ll1 l1 h1 Hd1); [|done].
  intros x Hx. destruct (Hu x) as (Hx0 & Hxl & Ex); [set_solver|].
  assert (x ∉ inserted op) by (intros Hi; by apply (Hdis x Hi)).
  split; [done|]. split; [intros Hx1; by destruct (Hin x Hx1)|]. by rewrite Hf.
Qed.

(** A node that was removed keeps its links; inserted into the empty list, it brings
    them along: the list then starts with a node that has a successor. *)
Example reinsert_stale_links :
  (ops ← ll_run [OpHead 8; OpHead 4; OpRemove 4; OpRemove 8; OpHead 4]
     (<[4 := Node 0 0]> {[8 := Node 0 0]}) (LinkedList 0 0);
   Some (fst ops !! 4, snd ops)) = Some (Some (Node 0 8), LinkedList 4 4).
Proof. vm_compute. reflexivity. Qed.
