(* ===== verification/SerialPort.v ===== *)
(** * The serial port front end (src/src/serialPort.c, serialPort.h)

    The functions that check their arguments, count bytes and read and write lines
    on top of the platform layer.  The platform layer, the functions of [serial_fns],
    is a parameter: each may change the port object and the device.  A pointer that
    may be NULL is an [option]; a function whose buffer is too short for what the
    platform layer puts in it has no result. *)

From S2P Require Import Prelude CommRx CommTx.

Definition MAX_SERIAL_PORT_NAME_LENGTH : Z := 63.
Definition SERIAL_PORT_OPTIONS_MASK : Z := 3.
Definition SERIAL_PORT_DEFAULT_TIMEOUT : Z := 2500.

Record serial_port_t {D : Type} := SerialPort {
  sp_handle : Z;
  sp_port : list Z;
  sp_txBytes : Z;
  sp_rxBytes : Z;
  sp_options : Z;
  sp_dev : D
}.
Arguments serial_port_t : clear implicits.
Arguments SerialPort {D}.

(** The function pointers of [serial_port_t].  A read function returns the bytes it
    put at the start of the buffer and its result. *)
Record serial_fns {D : Type} := SerialFns {
  pfnOpen : option (list Z -> Z -> Z -> serial_port_t D -> serial_port_t D * Z);
  pfnIsOpen : option (serial_port_t D -> serial_port_t D * Z);
  pfnRead : option (Z -> Z -> serial_port_t D -> serial_port_t D * list Z * Z);
  pfnAsyncRead : option (Z -> Z -> serial_port_t D -> serial_port_t D * list Z * Z);
  pfnWrite : option (list Z -> serial_port_t D -> serial_port_t D * Z);
  pfnClose : option (serial_port_t D -> serial_port_t D * Z);
  pfnFlush : option (serial_port_t D -> serial_port_t D * Z);
  pfnDrain : option (serial_port_t D -> serial_port_t D * Z);
  pfnGetByteCountAvailableToRead : option (serial_port_t D -> serial_port_t D * Z);
  pfnGetByteCountAvailableToWrite : option (serial_port_t D -> serial_port_t D * Z);
  pfnSleep : option (Z -> serial_port_t D -> serial_port_t D * Z)
}.
Arguments serial_fns : clear implicits.

Module SerialPort.
Section Port.
Context {D : Type} (fns : serial_fns D).
#[local] Abbreviation port_t := (serial_port_t D).
#[local] Abbreviation ptr := (option port_t).

Definition add_txBytes (n : Z) (s : port_t) : port_t :=
  SerialPort (sp_handle s) (sp_port s) (s32 (sp_txBytes s + n)) (sp_rxBytes s) (sp_options s)
    (sp_dev s).
Definition add_rxBytes (n : Z) (s : port_t) : port_t :=
  SerialPort (sp_handle s) (sp_port s) (sp_txBytes s) (s32 (sp_rxBytes s + n)) (sp_options s)
    (sp_dev s).

Definition serialPortSetOptions (sp : ptr) (options : Z) : ptr :=
  match sp with
  | Some s => if Z.land options SERIAL_PORT_OPTIONS_MASK =? 0
              then Some (SerialPort (sp_handle s) (sp_port s) (sp_txBytes s) (sp_rxBytes s)
                           options (sp_dev s))
              else sp
  | None => None
  end.

(** The characters of the string [port], without its terminating zero; the case of
    the port's own name as argument changes nothing either way. *)
Definition serialPortSetPort (sp : ptr) (port : option (list Z)) : option ptr :=
  match sp, port with
  | Some s, Some port =>
    let name := takeZ MAX_SERIAL_PORT_NAME_LENGTH port in
    l ← memcpy (sp_port s) 0 (name ++ [0]) (lenZ name + 1);
    Some (Some (SerialPort (sp_handle s) l (sp_txBytes s) (sp_rxBytes s) (sp_options s)
                  (sp_dev s)))
  | _, _ => Some sp
  end.

(** A call of a function without arguments, [0] when [ok] does not hold. *)
Definition call0 (f : option (port_t -> port_t * Z)) (ok : port_t -> bool) (sp : ptr) : ptr * Z :=
  match sp, f with
  | Some s, Some f => if ok s then let '(s, r) := f s in (Some s, r) else (sp, 0)
  | _, _ => (sp, 0)
  end.
Definition opened (s : port_t) : bool := negb (sp_handle s =? 0).

Definition serialPortOpen (sp : ptr) (port : option (list Z)) (baudRate blocking : Z) : ptr * Z :=
  match sp, port, pfnOpen fns with
  | Some s, Some port, Some f => let '(s, r) := f port baudRate blocking s in (Some s, r)
  | _, _, _ => (sp, 0)
  end.

Definition serialPortIsOpen (sp : ptr) : ptr * Z :=
  match sp with
  | Some s => if sp_handle s =? 0 then (sp, 0) else
              match pfnIsOpen fns with
              | Some f => let '(s, r) := f s in (Some s, r)
              | None => (sp, 1)
              end
  | None => (sp, 0)
  end.

Definition serialPortClose (sp : ptr) : ptr * Z := call0 (pfnClose fns) (fun _ => true) sp.
Definition serialPortFlush (sp : ptr) : ptr * Z := call0 (pfnFlush fns) opened sp.
Definition serialPortDrain (sp : ptr) : ptr * Z := call0 (pfnDrain fns) opened sp.
Definition serialPortGetByteCountAvailableToRead (sp : ptr) : ptr * Z :=
  call0 (pfnGetByteCountAvailableToRead fns) opened sp.
Definition serialPortGetByteCountAvailableToWrite (sp : ptr) : ptr * Z :=
  call0 (pfnGetByteCountAvailableToWrite fns) opened sp.
Definition serialPortSleep (sp : ptr) (sleepMilliseconds : Z) : ptr * Z :=
  call0 (option_map (fun f => f sleepMilliseconds) (pfnSleep fns)) (fun _ => true) sp.

(** The remaining [retries] of the loop; the port is closed when all have failed. *)
Fixpoint open_retries (retries : nat) (sp : ptr) (port : option (list Z)) (baudRate blocking : Z)
    : ptr * Z :=
  match retries with
  | O => let '(sp, _) := serialPortClose sp in (sp, 0)
  | S retries =>
    let '(sp, r) := serialPortOpen sp port baudRate blocking in
    if negb (r =? 0) then (sp, 1) else
    let '(sp, _) := serialPortSleep sp 100 in
    open_retries retries sp port baudRate blocking
  end.

Definition serialPortOpenRetry (sp : ptr) (port : option (list Z)) (baudRate blocking : Z)
    : ptr * Z :=
  match sp, port, pfnOpen fns with
  | Some _, Some _, Some _ =>
    let '(sp, _) := serialPortClose sp in open_retries 30 sp port baudRate blocking
  | _, _, _ => (sp, 0)
  end.

(** ** Reading *)

(** A read with the function [f]: the port, the buffer and the result. *)
Definition read_with (f : option (Z -> Z -> port_t -> port_t * list Z * Z)) (sp : ptr)
    (buffer : option (list Z)) (readCount timeoutMilliseconds : Z)
    : option (ptr * option (list Z) * Z) :=
  match sp, buffer, f with
  | Some s, Some buf, Some f =>
    if (sp_handle s =? 0) || (readCount <? 1) then Some (sp, buffer, 0) else
    let '(s, bytes, count) := f readCount timeoutMilliseconds s in
    buf ← memcpy buf 0 bytes (lenZ bytes);
    if count <? 0 then Some (Some s, Some buf, 0)
    else Some (Some (add_rxBytes count s), Some buf, count)
  | _, _, _ => Some (sp, buffer, 0)
  end.

Definition serialPortReadTimeout (sp : ptr) (buffer : option (list Z))
    (readCount timeoutMilliseconds : Z) :=
  read_with (pfnRead fns) sp buffer readCount timeoutMilliseconds.
Definition serialPortRead (sp : ptr) (buffer : option (list Z)) (readCount : Z) :=
  serialPortReadTimeout sp buffer readCount (-1).

(** [completion], which must not be NULL, is passed on as a number. *)
Definition serialPortReadTimeoutAsync (sp : ptr) (buffer : option (list Z))
    (readCount completion : Z) :=
  if completion =? 0 then Some (sp, buffer, 0)
  else read_with (pfnAsyncRead fns) sp buffer readCount completion.

(** The character read, if it was, and the result. *)
Definition serialPortReadCharTimeout (sp : ptr) (c timeoutMilliseconds : Z)
    : option (ptr * Z * Z) :=
  '(sp, buf, n) ← serialPortReadTimeout sp (Some [c]) 1 timeoutMilliseconds;
  c ← (b ← buf; nthZ b 0);
  Some (sp, c, n).
Definition serialPortReadChar (sp : ptr) (c : Z) :=
  serialPortReadCharTimeout sp c SERIAL_PORT_DEFAULT_TIMEOUT.

(** The loop with [n] places of the buffer left, [idx] of them filled. *)
Fixpoint read_line_loop (n : nat) (sp : ptr) (buf : list Z) (idx c timeoutMilliseconds : Z)
    (prevCR : bool) : option (ptr * list Z * Z) :=
  match n with
  | O => Some (sp, buf, -1)
  | S n =>
    '(sp, c, r) ← serialPortReadCharTimeout sp c timeoutMilliseconds;
    if negb (r =? 1) then Some (sp, buf, -1) else
    buf ← memcpy buf idx [c] 1;
    if (c =? 0x0A) && prevCR then
      buf ← memcpy buf (idx + 1 - 2) [0] 1; Some (sp, buf, idx + 1 - 2)
    else read_line_loop n sp buf (idx + 1) c timeoutMilliseconds (c =? 0x0D)
  end.

Definition serialPortReadLineTimeout (sp : ptr) (buffer : option (list Z))
    (bufferLength timeoutMilliseconds : Z) : option (ptr * option (list Z) * Z) :=
  match sp, buffer, pfnRead fns with
  | Some s, Some buf, Some _ =>
    if (sp_handle s =? 0) || (bufferLength <? 8) then Some (sp, buffer, 0) else
    '(sp, buf, r) ←
      read_line_loop (Z.to_nat bufferLength) sp buf 0 0 timeoutMilliseconds false;
    Some (sp, Some buf, r)
  | _, _, _ => Some (sp, buffer, 0)
  end.
Definition serialPortReadLine (sp : ptr) (buffer : option (list Z)) (bufferLength : Z) :=
  serialPortReadLineTimeout sp buffer bufferLength SERIAL_PORT_DEFAULT_TIMEOUT.

(** The search for the dollar sign from [p] on, in front of [ptrEnd]. *)
Fixpoint find_dollar (fuel : nat) (buf : list Z) (p ptrEnd : Z) : option Z :=
  x ← nthZ buf p;
  if negb (x =? 0x24) && (p <? ptrEnd) then
    match fuel with O => None | S fuel => find_dollar fuel buf (p + 1) ptrEnd end
  else Some p.

(** Also returns the index [asciiData] is set to, if it is.  A NULL buffer is read
    all the same. *)
Definition serialPortReadAsciiTimeout (sp : ptr) (buffer : option (list Z))
    (bufferLength timeoutMilliseconds : Z) : option (ptr * option (list Z) * option Z * Z) :=
  '(sp, buffer, count) ← serialPortReadLineTimeout sp buffer bufferLength timeoutMilliseconds;
  buf ← buffer;
  p ← find_dollar (Z.to_nat count) buf 0 count;
  if count - p <=? 7 then Some (sp, Some buf, None, -1) else
  let ptrEndNoChecksum := count - 3 in
  let checksum := fold_left Z.lxor (subZ (p + 1) (ptrEndNoChecksum - (p + 1)) buf) 0 in
  star ← nthZ buf ptrEndNoChecksum;
  if (star =? 0x2A) && (strtol16 (subZ (ptrEndNoChecksum + 1) 2 buf) =? checksum)
  then Some (sp, Some buf, Some p, count) else Some (sp, Some buf, Some p, -1).
Definition serialPortReadAscii (sp : ptr) (buffer : option (list Z)) (bufferLength : Z) :=
  serialPortReadAsciiTimeout sp buffer bufferLength SERIAL_PORT_DEFAULT_TIMEOUT.

(** ** Writing *)

Definition serialPortWrite (sp : ptr) (buffer : option (list Z)) (writeCount : Z)
    : option (ptr * Z) :=
  match sp, buffer, pfnWrite fns with
  | Some s, Some buf, Some f =>
    if (sp_handle s =? 0) || (writeCount <? 1) then Some (sp, 0) else
    bytes ← take_exact writeCount buf;
    let '(s, count) := f bytes s in
    if count <? 0 then Some (Some s, 0) else Some (Some (add_txBytes count s), count)
  | _, _, _ => Some (sp, 0)
  end.

Definition serialPortWriteLine (sp : ptr) (buffer : option (list Z)) (writeCount : Z)
    : option (ptr * Z) :=
  match sp, buffer with
  | Some s, Some _ =>
    if (sp_handle s =? 0) || (writeCount <? 1) then Some (sp, 0) else
    '(sp, count) ← serialPortWrite sp buffer writeCount;
    '(sp, n) ← serialPortWrite sp (Some [0x0D; 0x0A]) 2;
    Some (sp, count + n)
  | _, _ => Some (sp, 0)
  end.

(** [snprintf] of the format string [*%.2x\r\n] for a value of one byte. *)
Definition hex_char (d : Z) : Z := if d <? 10 then 0x30 + d else 0x61 + (d - 10).
Definition checksum_text (x : Z) : list Z :=
  [0x2A; hex_char (x / 16); hex_char (x mod 16); 0x0D; 0x0A].

Definition serialPortWriteAscii (sp : ptr) (buffer : option (list Z)) (bufferLength : Z)
    : option (ptr * Z) :=
  match sp, buffer with
  | Some s, Some buf =>
    if (sp_handle s =? 0) || (bufferLength <? 2) then Some (sp, 0) else
    x ← nthZ buf 0;
    '(sp, start, bufferLength, count) ←
      (if x =? 0x24 then Some (sp, 1, bufferLength - 1, 0) else
         '(sp, count) ← serialPortWrite sp (Some [0x24]) 1; Some (sp, 0, bufferLength, count));
    '(sp, n) ← serialPortWrite sp (Some buf) bufferLength;
    covered ← take_exact bufferLength (dropZ start buf);
    let checkSum := fold_left Z.lxor covered 0 in
    '(sp, k) ← serialPortWrite sp (Some (checksum_text checkSum)) 5;
    Some (sp, count + n + k)
  | _, _ => Some (sp, 0)
  end.

(** ** Waiting for an answer *)

Definition serialPortWaitForTimeout (sp : ptr) (waitFor : option (list Z))
    (waitForLength timeoutMilliseconds : Z) : option (ptr * Z) :=
  match sp, waitFor with
  | Some s, Some expected =>
    if (sp_handle s =? 0) || (waitForLength <? 1) then Some (sp, 1)
    else if 128 <? waitForLength then Some (sp, 0) else
    '(sp, buf, count) ←
      serialPortReadTimeout sp (Some (repeat 0 128)) waitForLength timeoutMilliseconds;
    if negb (count =? waitForLength) then Some (sp, 0) else
    buf ← buf;
    expected ← take_exact waitForLength expected;
    Some (sp, if decide (takeZ waitForLength buf = expected) then 1 else 0)
  | _, _ => Some (sp, 1)
  end.
Definition serialPortWaitFor (sp : ptr) (waitFor : option (list Z)) (waitForLength : Z) :=
  serialPortWaitForTimeout sp waitFor waitForLength SERIAL_PORT_DEFAULT_TIMEOUT.

Definition serialPortWriteAndWaitForTimeout (sp : ptr) (buffer : option (list Z))
    (writeCount : Z) (waitFor : option (list Z)) (waitForLength timeoutMilliseconds : Z)
    : option (ptr * Z) :=
  match sp, buffer, waitFor with
  | Some s, Some _, Some _ =>
    if (sp_handle s =? 0) || (writeCount <? 1) || (waitForLength <? 1) then Some (sp, 0) else
    '(sp, n) ← serialPortWrite sp buffer writeCount;
    if negb (n =? writeCount) then Some (sp, 0)
    else serialPortWaitForTimeout sp waitFor waitForLength timeoutMilliseconds
  | _, _, _ => Some (sp, 0)
  end.
Definition serialPortWriteAndWaitFor (sp : ptr) (buffer : option (list Z)) (writeCount : Z)
    (waitFor : option (list Z)) (waitForLength : Z) :=
  serialPortWriteAndWaitForTimeout sp buffer writeCount waitFor waitForLength
    SERIAL_PORT_DEFAULT_TIMEOUT.

End Port.
End SerialPort.
Export SerialPort.
