(* ===== verification/SerialProps.v ===== *)
(** * Properties of the serial port front end

    A line written with its checksum is read back, and the line reader stays inside
    the buffer it is given. *)

From S2P Require Import Prelude Checksum CommRx CommTx CommTxProps SerialPort.

Section Serial.
Context {D : Type} (fns : serial_fns D).
Implicit Types s : serial_port_t D.

Definition set_dev (d : D) (s : serial_port_t D) : serial_port_t D :=
  SerialPort (sp_handle s) (sp_port s) (sp_txBytes s) (sp_rxBytes s) (sp_options s) d.

(** The platform layer keeps the handle of the port and reads no more than asked. *)
Definition reads_at_most (f : Z -> Z -> serial_port_t D -> serial_port_t D * list Z * Z) : Prop :=
  forall n t s, 0 <= n -> let '(s', bytes, k) := f n t s in lenZ bytes <= n.

Lemma memcpy_length dst off src n dst' :
  memcpy dst off src n = Some dst' -> lenZ dst' = lenZ dst.
Proof.
  unfold memcpy, take_exact. intros H. apply bind_Some in H as (x & Hx & H).
  destruct (Z.leb_spec 0 n), (Z.leb_spec n (lenZ src)); try done. cbn in Hx. injection Hx as <-.
  assert (lenZ (takeZ n src) = n) as Hl by (autorewrite with lenZ; lia).
  destruct (Z.eqb_spec n 0) as [->|]; cbn in H.
  - injection H as <-. rewrite takeZ_0. unfold updZ. rewrite lenZ_nil, Z.add_0_r. cbn.
    by rewrite takeZ_dropZ.
  - destruct (Z.leb_spec 0 off), (Z.leb_spec (off + n) (lenZ dst)); try done. cbn in H.
    injection H as <-. rewrite lenZ_updZ; lia.
Qed.

Lemma read_char_safe f s c t :
  pfnRead fns = Some f -> reads_at_most f ->
  exists s' c' r, serialPortReadCharTimeout fns (Some s) c t = Some (Some s', c', r).
Proof.
  intros Hf Hr. unfold serialPortReadCharTimeout, serialPortReadTimeout, read_with. rewrite Hf.
  destruct ((sp_handle s =? 0) || (1 <? 1)).
  { cbn [mbind option_bind]. eexists _, _, _. reflexivity. }
  specialize (Hr 1 t s ltac:(lia)). destruct (f 1 t s) as [[s' bytes] k].
  assert (exists x, memcpy [c] 0 bytes (lenZ bytes) = Some [x]) as [x Ex].
  { destruct bytes as [|x [|y bytes]]; [by exists c|by exists x|].
    rewrite !lenZ_cons in Hr. pose proof (lenZ_nonneg bytes). lia. }
  rewrite Ex. cbn [mbind option_bind]. destruct (k <? 0); cbn [mbind option_bind];
    eexists _, _, _; reflexivity.
Qed.


Lemma memcpy_char buf idx c :
  0 <= idx < lenZ buf -> memcpy buf idx [c] 1 = Some (updZ idx [c] buf).
Proof. intros Hi. apply (memcpy_ok buf idx [c] 1); [done|lia|]. lia. Qed.

Lemma lenZ_updZ_char buf idx (c : Z) : 0 <= idx < lenZ buf -> lenZ (updZ idx [c] buf) = lenZ buf.
Proof. intros Hi. apply lenZ_updZ; [lia|]. change (lenZ [c]) with 1. lia. Qed.

Lemma read_line_loop_safe f t n : forall s buf idx c prevCR,
  pfnRead fns = Some f -> reads_at_most f ->
  0 <= idx -> (prevCR = true -> 1 <= idx) -> idx + Z.of_nat n <= lenZ buf -> 0 < lenZ buf ->
  exists s' buf' r, read_line_loop fns n (Some s) buf idx c t prevCR = Some (Some s', buf', r) /\
    lenZ buf' = lenZ buf /\ -1 <= r /\ r + 1 < lenZ buf.
Proof.
  induction n as [|n IH]; intros s buf idx c prevCR Hf Hr Hi Hp Hn Hl.
  { exists s, buf, (-1). split_and!; done || lia. }
  cbn [read_line_loop].
  destruct (read_char_safe f s c t Hf Hr) as (s1 & c1 & r1 & ->). cbn [mbind option_bind].
  destruct (negb (r1 =? 1)); [exists s1, buf, (-1); split_and!; done || lia|].
  rewrite memcpy_char by lia. cbn [mbind option_bind].
  pose proof (lenZ_updZ_char buf idx c1 ltac:(lia)) as Hl1.
  destruct ((c1 =? 0x0A) && prevCR) eqn:E.
  - apply andb_true_iff in E as [_ E]. specialize (Hp E). rewrite memcpy_char by lia.
    cbn [mbind option_bind]. eexists _, _, _. split; [reflexivity|].
    rewrite lenZ_updZ_char by lia. lia.
  - destruct (IH s1 (updZ idx [c1] buf) (idx + 1) c1 (c1 =? 0x0D)) as (s' & buf' & r & E' & H');
      try done; try lia. eexists _, _, _. split; [exact E'|]. lia.
Qed.

(** whatever the device delivers, the line reader returns, never writes outside
    the buffer it is given, and its result is -1 or the length of a line that ends
    inside the buffer. *)
Theorem serialPortReadLineTimeout_safe f s buf t :
  pfnRead fns = Some f -> reads_at_most f ->
  exists s' buf' r,
    serialPortReadLineTimeout fns (Some s) (Some buf) (lenZ buf) t = Some (Some s', Some buf', r) /\
    lenZ buf' = lenZ buf /\ -1 <= r /\ (r = 0 \/ r + 1 < lenZ buf).
Proof.
  intros Hf Hr. unfold serialPortReadLineTimeout. rewrite Hf. pose proof (lenZ_nonneg buf).
  destruct (Z.eqb_spec (sp_handle s) 0); [exists s, buf, 0; split; [done|lia]|]. cbn [orb].
  destruct (Z.ltb_spec (lenZ buf) 8); [exists s, buf, 0; split; [done|lia]|].
  destruct (read_line_loop_safe f t (Z.to_nat (lenZ buf)) s buf 0 0 false)
    as (s' & buf' & r & -> & Hl & Hrange); try done; try lia.
  cbn [mbind option_bind]. exists s', buf', r. split; [done|]. lia.
Qed.

(** ** A line there and back *)

(** A device that gives back, one at a time, the bytes written to it. *)
Record loopback (dev : D -> list Z) (put : list Z -> D -> D) (get : D -> D) : Prop := {
  lb_write : exists f, pfnWrite fns = Some f /\
    forall bs s, f bs s = (set_dev (put bs (sp_dev s)) s, lenZ bs);
  lb_read : exists f, pfnRead fns = Some f /\ forall t s x q, dev (sp_dev s) = x :: q ->
    f 1 t s = (set_dev (get (sp_dev s)) s, [x], 1);
  lb_put d bs : dev (put bs d) = dev d ++ bs;
  lb_get d x q : dev d = x :: q -> dev (get d) = q
}.

Section Loopback.
Context dev put get (Hlb : loopback dev put get).

Lemma port_write_ok s bs :
  sp_handle s <> 0 -> 0 < lenZ bs ->
  exists s', serialPortWrite fns (Some s) (Some bs) (lenZ bs) = Some (Some s', lenZ bs) /\
    sp_handle s' = sp_handle s /\ dev (sp_dev s') = dev (sp_dev s) ++ bs.
Proof.
  intros Hh Hl. destruct (lb_write _ _ _ Hlb) as (f & Ef & Hf). unfold serialPortWrite.
  rewrite Ef, (proj2 (Z.eqb_neq _ 0) Hh), (proj2 (Z.ltb_ge _ 1)) by lia. cbn [orb].
  rewrite take_exact_ok, takeZ_all by lia. cbn [mbind option_bind]. rewrite Hf.
  rewrite (proj2 (Z.ltb_ge _ 0)) by lia. eexists. split; [done|]. split; [done|].
  apply (lb_put _ _ _ Hlb).
Qed.

Lemma read_char_ok s c t x q :
  sp_handle s <> 0 -> dev (sp_dev s) = x :: q ->
  exists s', serialPortReadCharTimeout fns (Some s) c t = Some (Some s', x, 1) /\
    sp_handle s' = sp_handle s /\ dev (sp_dev s') = q.
Proof.
  intros Hh Hd. destruct (lb_read _ _ _ Hlb) as (f & Ef & Hf).
  unfold serialPortReadCharTimeout, serialPortReadTimeout, read_with.
  rewrite Ef, (proj2 (Z.eqb_neq _ 0) Hh). cbn [orb]. change (1 <? 1) with false. cbv iota.
  rewrite (Hf _ _ _ _ Hd). change (memcpy [c] 0 [x] (lenZ [x])) with (Some [x]).
  cbn [mbind option_bind]. change (1 <? 0) with false. cbn [mbind option_bind].
  eexists. split; [reflexivity|]. split; [done|]. by apply (lb_get _ _ _ Hlb (sp_dev s) x).
Qed.

Lemma updZ_head idx (x y : Z) l buf :
  0 <= idx -> idx + 1 + lenZ l <= lenZ buf ->
  updZ idx [y] (updZ idx (x :: l) buf) = updZ idx (y :: l) buf.
Proof.
  intros Hi Hl. pose proof (lenZ_nonneg l). assert (lenZ [y] = 1) as H1 by done.
  assert (lenZ (x :: l) = 1 + lenZ l) as H2 by (rewrite lenZ_cons; lia).
  assert (lenZ (y :: l) = 1 + lenZ l) as H3 by (rewrite lenZ_cons; lia).
  assert (lenZ (updZ idx (x :: l) buf) = lenZ buf) as Hu by (apply lenZ_updZ; lia).
  apply nthZ_ext; [rewrite !lenZ_updZ; lia|]. intros i Hi'.
  rewrite !nthZ_updZ, !nthZ_cons; try lia. rewrite H1, H2, H3.
  split_cmp; try lia; try done; f_equal; lia.
Qed.

Lemma read_line_ok body : forall n s buf idx c t rest,
  sp_handle s <> 0 -> dev (sp_dev s) = body ++ 0x0D :: 0x0A :: rest ->
  Forall (fun x => x <> 0x0D) body -> 0 <= idx -> idx + lenZ body + 2 <= lenZ buf ->
  lenZ body + 2 <= Z.of_nat n ->
  exists s', read_line_loop fns n (Some s) buf idx c t false =
      Some (Some s', updZ idx (body ++ [0; 0x0A]) buf, idx + lenZ body) /\
    dev (sp_dev s') = rest.
Proof.
  induction body as [|x body IH]; intros n s buf idx c t rest Hh Hd Hcr Hi Hl Hn.
  { rewrite lenZ_nil in *. destruct n as [|[|n]]; [lia|lia|]. cbn [read_line_loop app] in *.
    destruct (read_char_ok s c t _ _ Hh Hd) as (s1 & -> & Hh1 & Hd1). cbn [mbind option_bind].
    change (negb (1 =? 1)) with false. cbv iota. rewrite memcpy_char by lia. cbn [mbind option_bind].
    change ((0x0D =? 0x0A) && false) with false. cbv iota.
    destruct (read_char_ok s1 0x0D t 0x0A rest) as (s2 & -> & _ & Hd2); [by rewrite Hh1|done|].
    cbn [mbind option_bind]. change (negb (1 =? 1)) with false. cbv iota.
    pose proof (lenZ_updZ_char buf idx 0x0D ltac:(lia)) as Hl1.
    rewrite memcpy_char by lia. cbn [mbind option_bind].
    change ((0x0A =? 0x0A) && (0x0D =? 0x0D)) with true. cbv iota.
    assert (lenZ [10] = 1) as H1 by done.
    rewrite updZ_cons by lia. rewrite memcpy_char.
    2: { rewrite lenZ_updZ; [lia|lia|]. change (lenZ [13; 10]) with 2. lia. }
    cbn [mbind option_bind]. replace (idx + 1 + 1 - 2) with idx by lia.
    rewrite updZ_head by lia. exists s2. by rewrite Z.add_0_r. }
  rewrite lenZ_cons in *. apply Forall_cons_iff in Hcr as [Hx Hcr].
  destruct n as [|n]; [pose proof (lenZ_nonneg body); lia|]. cbn [read_line_loop app] in *.
  destruct (read_char_ok s c t _ _ Hh Hd) as (s1 & -> & Hh1 & Hd1). cbn [mbind option_bind].
  change (negb (1 =? 1)) with false. cbv iota. pose proof (lenZ_nonneg body).
  rewrite memcpy_char by lia. cbn [mbind option_bind]. rewrite andb_false_r.
  rewrite (proj2 (Z.eqb_neq _ _) Hx). pose proof (lenZ_updZ_char buf idx x ltac:(lia)) as Hl1.
  destruct (IH n s1 (updZ idx [x] buf) (idx + 1) x t rest) as (s' & -> & Hd'); try done; try lia.
  exists s'. split; [|done]. rewrite updZ_cons; [|lia|rewrite lenZ_app; change (lenZ [0; 10]) with 2; lia].
  by replace (idx + (1 + lenZ body)) with (idx + 1 + lenZ body) by lia.
Qed.

Lemma checksum_text_ok : forall x, 0 <= x < 256 ->
  strtol16 [hex_char (x / 16); hex_char (x mod 16)] = x /\
  hex_char (x / 16) <> 0x0D /\ hex_char (x mod 16) <> 0x0D.
Proof.
  assert (forallb (fun n => let x := Z.of_nat n in
    (strtol16 [hex_char (x / 16); hex_char (x mod 16)] =? x) &&
    negb (hex_char (x / 16) =? 0x0D) && negb (hex_char (x mod 16) =? 0x0D)) (seq 0 256) = true) as H
    by (vm_compute; reflexivity).
  intros x Hx. rewrite forallb_forall in H. specialize (H (Z.to_nat x)).
  rewrite Z2Nat.id in H by lia. rewrite !andb_true_iff, !negb_true_iff, !Z.eqb_neq, Z.eqb_eq in H.
  destruct H as [[? ?] ?]; [apply in_seq; lia|done].
Qed.

Lemma xor_range l : forall x, 0 <= x < 256 -> Forall byte l -> 0 <= fold_left Z.lxor l x < 256.
Proof.
  induction l as [|y l IH]; intros x Hx Hl; [done|]. apply Forall_cons_iff in Hl as [Hy Hl].
  apply IH; [|done]. change 256 with (2 ^ 8). by apply lxor_bound.
Qed.

(** What the writer sends for a message without a dollar sign in front. *)
Definition ascii_line (msg : list Z) : list Z :=
  0x24 :: msg ++ checksum_text (fold_left Z.lxor msg 0).

Lemma write_ascii_ok s msg :
  sp_handle s <> 0 -> 2 <= lenZ msg -> nthZ msg 0 <> Some 0x24 ->
  exists s', serialPortWriteAscii fns (Some s) (Some msg) (lenZ msg) =
      Some (Some s', lenZ msg + 6) /\
    sp_handle s' <> 0 /\ dev (sp_dev s') = dev (sp_dev s) ++ ascii_line msg.
Proof.
  intros Hh Hl Hd. unfold serialPortWriteAscii.
  rewrite (proj2 (Z.eqb_neq _ 0) Hh), (proj2 (Z.ltb_ge _ 2)) by lia. cbn [orb].
  destruct (nthZ_Some msg 0 ltac:(lia)) as [x Ex]. rewrite Ex. cbn [mbind option_bind].
  rewrite (proj2 (Z.eqb_neq x 0x24)) by congruence.
  destruct (port_write_ok s [0x24] Hh ltac:(done)) as (s1 & E1 & Hh1 & Hd1).
  change (lenZ [0x24]) with 1 in E1. rewrite E1. cbn [mbind option_bind].
  destruct (port_write_ok s1 msg ltac:(congruence) ltac:(lia)) as (s2 & -> & Hh2 & Hd2).
  cbn [mbind option_bind]. rewrite dropZ_0, take_exact_ok, takeZ_all by lia. cbn [mbind option_bind].
  set (ck := fold_left Z.lxor msg 0).
  destruct (port_write_ok s2 (checksum_text ck) ltac:(congruence) ltac:(done)) as (s3 & E3 & Hh3 & Hd3).
  change (lenZ (checksum_text ck)) with 5 in E3. rewrite E3. cbn [mbind option_bind].
  exists s3. split; [do 2 f_equal; lia|]. split; [congruence|].
  rewrite Hd3, Hd2, Hd1, <- !app_assoc. done.
Qed.


(** The line as the reader leaves it, without its end. *)
Definition line_body (msg : list Z) (ck : Z) : list Z :=
  0x24 :: msg ++ [0x2A; hex_char (ck / 16); hex_char (ck mod 16)].

Lemma line_body_length msg ck : lenZ (line_body msg ck) = lenZ msg + 4.
Proof. unfold line_body. rewrite lenZ_cons, lenZ_app. change (lenZ [_; _; _]) with 3. lia. Qed.

Lemma line_body_parts msg ck :
  subZ 1 (lenZ msg) (line_body msg ck) = msg /\
  nthZ (line_body msg ck) (lenZ msg + 1) = Some 0x2A /\
  subZ (lenZ msg + 2) 2 (line_body msg ck) = [hex_char (ck / 16); hex_char (ck mod 16)].
Proof.
  unfold line_body. split.
  { unfold subZ. change (dropZ 1 (36 :: ?l)) with l. unfold takeZ, lenZ. rewrite Nat2Z.id.
    apply take_app_length. }
  rewrite app_comm_cons. set (pre := 36 :: msg).
  assert (lenZ pre = lenZ msg + 1) as Hpre by (unfold pre; rewrite lenZ_cons; lia).
  split; [rewrite <- Hpre; apply nthZ_middle|].
  change (pre ++ [42; hex_char (ck / 16); hex_char (ck mod 16)]) with
    (pre ++ [42] ++ [hex_char (ck / 16); hex_char (ck mod 16)]). rewrite app_assoc.
  unfold subZ, dropZ, takeZ. replace (Z.to_nat (lenZ msg + 2)) with (length (pre ++ [42])).
  - by rewrite drop_app_length.
  - rewrite length_app. unfold lenZ in *. cbn [length]. lia.
Qed.

Lemma updZ_prefix l (buf : list Z) i n :
  lenZ l <= lenZ buf -> 0 <= i -> 0 <= n -> i + n <= lenZ l ->
  subZ i n (updZ 0 l buf) = subZ i n l.
Proof.
  intros Hl Hi Hn Hin. apply nthZ_ext.
  - assert (lenZ (updZ 0 l buf) = lenZ buf) as Hu by (apply lenZ_updZ; lia).
    autorewrite with lenZ. lia.
  - intros j Hj. rewrite !nthZ_subZ. split_cmp; try done. rewrite nthZ_updZ by lia.
    rewrite Z.sub_0_r. split_cmp; try lia; done.
Qed.

(** The buffer that holds a complete line passes the checks of the reader. *)
Lemma check_line_ok (p1 p2 : option (serial_port_t D)) msg buf t tail :
  let ck := fold_left Z.lxor msg 0 in
  let buf' := updZ 0 (line_body msg ck ++ tail) buf in
  4 <= lenZ msg -> Forall byte msg -> lenZ msg + 4 + lenZ tail <= lenZ buf ->
  serialPortReadLineTimeout fns p1 (Some buf) (lenZ buf) t = Some (p2, Some buf', lenZ msg + 4) ->
  serialPortReadAsciiTimeout fns p1 (Some buf) (lenZ buf) t =
    Some (p2, Some buf', Some 0, lenZ msg + 4) /\
  nthZ buf' 0 = Some 0x24 /\ subZ 1 (lenZ msg) buf' = msg.
Proof.
  intros ck buf' Hl Hb Hbuf E. destruct (line_body_parts msg ck) as (Hm & Hstar & Hhx).
  pose proof (line_body_length msg ck) as Hbl. pose proof (lenZ_nonneg tail).
  assert (lenZ (line_body msg ck ++ tail) = lenZ msg + 4 + lenZ tail) as Hall
    by (rewrite lenZ_app; lia).
  assert (forall i, 0 <= i < lenZ msg + 4 -> nthZ buf' i = nthZ (line_body msg ck) i) as Hn.
  { intros i Hi. unfold buf'. rewrite nthZ_updZ by lia. rewrite nthZ_app, Z.sub_0_r.
    split_cmp; try lia; done. }
  assert (forall i n, 0 <= i -> 0 <= n -> i + n <= lenZ msg + 4 ->
    subZ i n buf' = subZ i n (line_body msg ck)) as Hs.
  { intros i n Hi Hn0 Hin. unfold buf'. rewrite updZ_prefix by lia. apply nthZ_ext.
    - autorewrite with lenZ. lia.
    - intros j Hj. rewrite !nthZ_subZ, nthZ_app. split_cmp; try done; lia. }
  assert (nthZ buf' 0 = Some 0x24) as H0 by (rewrite Hn by lia; done).
  split; [|split; [exact H0|by rewrite Hs by lia]].
  unfold serialPortReadAsciiTimeout. rewrite E. cbn [mbind option_bind].
  assert (find_dollar (Z.to_nat (lenZ msg + 4)) buf' 0 (lenZ msg + 4) = Some 0) as ->
    by (destruct (Z.to_nat (lenZ msg + 4)); cbn [find_dollar]; by rewrite H0).
  cbn [mbind option_bind]. rewrite (proj2 (Z.leb_gt _ _)) by lia.
  replace (lenZ msg + 4 - 3 - (0 + 1)) with (lenZ msg) by lia. change (0 + 1) with 1.
  rewrite (Hs 1 (lenZ msg)), Hm by lia. replace (lenZ msg + 4 - 3) with (lenZ msg + 1) by lia.
  rewrite Hn, Hstar by lia. cbn [mbind option_bind]. rewrite Hs by lia.
  replace (lenZ msg + 1 + 1) with (lenZ msg + 2) by lia. rewrite Hhx.
  destruct (checksum_text_ok ck) as [-> _]; [by apply (xor_range msg 0)|].
  by rewrite !Z.eqb_refl.
Qed.

(** C34: A message of at least four bytes, with no carriage return and no dollar sign in
    front, written with its checksum and read back from the same empty device into a large
    enough buffer comes back unchanged behind a dollar sign and leaves nothing in the
    device. *)
Theorem serial_ascii_roundtrip s msg buf t :
  sp_handle s <> 0 -> dev (sp_dev s) = [] ->
  Forall (fun x => 0 <= x < 256 /\ x <> 0x0D) msg -> nthZ msg 0 <> Some 0x24 ->
  4 <= lenZ msg -> lenZ msg + 6 <= lenZ buf ->
  exists s1 s2 buf',
    serialPortWriteAscii fns (Some s) (Some msg) (lenZ msg) = Some (Some s1, lenZ msg + 6) /\
    serialPortReadAsciiTimeout fns (Some s1) (Some buf) (lenZ buf) t =
      Some (Some s2, Some buf', Some 0, lenZ msg + 4) /\
    nthZ buf' 0 = Some 0x24 /\ subZ 1 (lenZ msg) buf' = msg /\ dev (sp_dev s2) = [].
Proof.
  intros Hh Hd0 Hmsg Hdollar Hl Hbuf.
  destruct (write_ascii_ok s msg Hh ltac:(lia) Hdollar) as (s1 & E1 & Hh1 & Hd1).
  rewrite Hd0 in Hd1. cbn [app] in Hd1. unfold ascii_line in Hd1.
  assert (Forall byte msg) as Hb by (eapply Forall_impl; [|exact Hmsg]; intros x [? _]; done).
  set (ck := fold_left Z.lxor msg 0) in *. pose proof (line_body_length msg ck) as Hbl.
  destruct (checksum_text_ok ck (xor_range msg 0 ltac:(lia) Hb)) as (_ & Hc1 & Hc2).
  destruct (read_line_ok (line_body msg ck) (Z.to_nat (lenZ buf)) s1 buf 0 0 t [])
    as (s2 & E2 & Hd2); try lia.
  { rewrite Hd1. unfold line_body, checksum_text. cbn [app]. by rewrite <- app_assoc. }
  { unfold line_body. constructor; [done|]. apply Forall_app. split.
    - eapply Forall_impl; [|exact Hmsg]. by intros x [_ ?].
    - by repeat constructor. }
  exists s1, s2, (updZ 0 (line_body msg ck ++ [0; 0x0A]) buf). split; [exact E1|].
  destruct (check_line_ok (Some s1) (Some s2) msg buf t [0; 0x0A]) as (H1 & H2 & H3); try done.
  { change (lenZ [0; 10]) with 2. lia. }
  unfold serialPortReadLineTimeout. destruct (lb_read _ _ _ Hlb) as (f & -> & _).
  rewrite (proj2 (Z.eqb_neq _ 0) Hh1), (proj2 (Z.ltb_ge _ 8)) by lia. cbn [orb].
  rewrite E2. cbn [mbind option_bind]. by rewrite Hbl, Z.add_0_l.
Qed.
End Loopback.
End Serial.
