(* ===== verification/Printf.v ===== *)
(** * Text in the C library

    Numbers printed and read by [snprintf], [atoi] and [sscanf], on lists of characters: the
    conversions that the sources use.  A [long] has 64 bits. *)

From S2P Require Import Prelude CommRx.
#[local] Open Scope Z_scope.

Module Printf.

(** The characters of a C string, which ends at the first zero. *)
Fixpoint text (l : list Z) : list Z :=
  match l with [] => [] | c :: l => if c =? 0 then [] else c :: text l end.

(** ** Printing *)

Definition upper_digit (d : Z) : Z := if d <? 10 then 0x30 + d else 0x41 + (d - 10).
Fixpoint hex_fixed (n : nat) (x : Z) : list Z :=
  match n with O => [] | S n => hex_fixed n (x / 16) ++ [upper_digit (x mod 16)] end.
(** [%.wX]: as many digits as are needed, at least [w]. *)
Definition hex_text (w : nat) (x : Z) : list Z :=
  let x := u32 x in hex_fixed (max w (Z.to_nat (Z.log2 x / 4 + 1))) x.

Fixpoint dec_fixed (n : nat) (x : Z) : list Z :=
  match n with O => [] | S n => dec_fixed n (x / 10) ++ [0x30 + x mod 10] end.
Fixpoint ndigits (n : nat) (x : Z) : nat :=
  match n with O => 1 | S n => if x <? 10 then 1%nat else S (ndigits n (x / 10)) end.
(** [%0wu]: numbers of a C type have 20 digits at most. *)
Definition dec_text (w : nat) (x : Z) : list Z := dec_fixed (max w (ndigits 20 x)) x.
(** [%0wd]: the sign counts as a digit. *)
Definition int_text (w : nat) (x : Z) : list Z :=
  if x <? 0 then 0x2D :: dec_text (pred w) (- x) else dec_text w x.

(** The characters [snprintf] puts at the start of an array. *)
Definition snprintf (size : Z) (text : list Z) : list Z := takeZ (size - 1) text ++ [0].

(** ** Reading *)

Definition isdigit (c : Z) : bool := (0x30 <=? c) && (c <=? 0x39).

Fixpoint skip_space (l : list Z) : list Z :=
  match l with c :: r => if isspace c then skip_space r else l | [] => [] end.

(** [n] digits at most. *)
Fixpoint digits_upto (n : nat) (acc : Z) (l : list Z) : Z * list Z :=
  match n, l with
  | S n, c :: r => if isdigit c then digits_upto n (10 * acc + (c - 0x30)) r else (acc, l)
  | _, _ => (acc, l)
  end.

Definition number (n : nat) (l : list Z) : option (Z * list Z) :=
  match n, l with
  | S _, c :: _ => if isdigit c then Some (digits_upto n 0 l) else None
  | _, _ => None
  end.

(** A number of [width] characters at most, and what follows it. *)
Definition scan_int (width : nat) (l : list Z) : option (Z * list Z) :=
  match skip_space l with
  | c :: r =>
    if c =? 0x2D then '(x, r) ← number (pred width) r; Some (- x, r)
    else if c =? 0x2B then number (pred width) r
    else number width (c :: r)
  | [] => None
  end.

Definition to_int (x : Z) : Z := s32 (Z.max (-9223372036854775808) (Z.min 9223372036854775807 x)).
Definition to_uint (x : Z) : Z := u32 (if Z.abs x <? 18446744073709551616 then x else -1).

Definition atoi (l : list Z) : Z :=
  match scan_int (length l) l with Some (x, _) => to_int x | None => 0 end.

(** The conversions of a format: [%d] and [%u] with a width, zero for none, and characters
    that must be there. *)
Inductive conversion := Cd (w : nat) | Cu (w : nat) | Lit (c : Z).

(** The values that are converted. *)
Fixpoint sscanf (l : list Z) (format : list conversion) : list Z :=
  let width w := match w with O => length l | _ => w end in
  match format with
  | [] => []
  | Cd w :: format =>
    match scan_int (width w) l with Some (x, l) => to_int x :: sscanf l format | None => [] end
  | Cu w :: format =>
    match scan_int (width w) l with Some (x, l) => to_uint x :: sscanf l format | None => [] end
  | Lit c :: format =>
    match l with x :: l => if x =? c then sscanf l format else [] | [] => [] end
  end.

(** Variables that get the converted values; the others keep what they have. *)
Definition assign (values init : list Z) : list Z := values ++ drop (length values) init.

(** ** Printed numbers are read back *)

Lemma length_dec_fixed n x : length (dec_fixed n x) = n.
Proof. revert x. induction n; intros x; cbn; [done|]. rewrite length_app, IHn. cbn. lia. Qed.

Lemma digit_is_digit x : isdigit (0x30 + x mod 10) = true.
Proof. unfold isdigit. pose proof (Z.mod_pos_bound x 10 ltac:(lia)). lia. Qed.

Lemma dec_fixed_digits n x : Forall (fun c => isdigit c = true) (dec_fixed n x).
Proof.
  revert x. induction n as [|n IH]; intros x; cbn; [constructor|].
  apply Forall_app_2; [apply IH|]. repeat constructor. apply digit_is_digit.
Qed.

Lemma digits_upto_app l n acc rest : Forall (fun c => isdigit c = true) l -> (length l <= n)%nat ->
  digits_upto n acc (l ++ rest) =
  digits_upto (n - length l) (fold_left (fun acc c => 10 * acc + (c - 0x30)) l acc) rest.
Proof.
  intros Hl. revert n acc. induction Hl as [|c l Hc Hl IH]; intros n acc Hn.
  - cbn [app fold_left length]. by rewrite Nat.sub_0_r.
  - cbn [length] in *. destruct n as [|n]; [lia|]. cbn [app digits_upto fold_left length Nat.sub].
    rewrite Hc. apply IH. lia.
Qed.

Lemma dec_fixed_value n x acc : 0 <= x ->
  fold_left (fun acc c => 10 * acc + (c - 0x30)) (dec_fixed n x) acc =
  acc * 10 ^ Z.of_nat n + x mod 10 ^ Z.of_nat n.
Proof.
  revert x acc. induction n as [|n IH]; intros x acc Hx.
  - cbn [dec_fixed fold_left]. change (10 ^ Z.of_nat 0) with 1. rewrite Z.mod_1_r. lia.
  - cbn [dec_fixed]. rewrite fold_left_app, IH by zlia. cbn [fold_left].
    rewrite Nat2Z.inj_succ, Z.pow_succ_r by lia.
    pose proof (Z.pow_pos_nonneg 10 (Z.of_nat n) ltac:(lia) ltac:(lia)).
    rewrite (Z.rem_mul_r x 10) by lia. set (p := 10 ^ Z.of_nat n) in *.
    replace (acc * (10 * p)) with (10 * (acc * p)) by ring. lia.
Qed.

Lemma ndigits_bound n x : 0 <= x < 10 ^ (Z.of_nat n + 1) -> x < 10 ^ Z.of_nat (ndigits n x).
Proof.
  revert x. induction n as [|n IH]; intros x Hx; cbn [ndigits]; [exact (proj2 Hx)|].
  destruct (Z.ltb_spec x 10) as [Hlt|Hge]; [exact Hlt|].
  rewrite Nat2Z.inj_succ, Z.pow_succ_r by lia. rewrite Nat2Z.inj_succ, <- Z.add_1_r in Hx.
  rewrite (Z.pow_add_r 10 (Z.of_nat n + 1) 1) in Hx by lia.
  specialize (IH (x / 10) ltac:(zlia)). zlia.
Qed.

Lemma ndigits_least n x k : (1 <= k)%nat -> 0 <= x < 10 ^ Z.of_nat k -> (ndigits n x <= k)%nat.
Proof.
  revert x k. induction n as [|n IH]; intros x k Hk Hx; cbn [ndigits]; [done|].
  destruct (Z.ltb_spec x 10) as [Hlt|Hge]; [done|]. destruct k as [|[|k]]; [lia|cbn in Hx; lia|].
  apply le_n_S, IH; [lia|]. rewrite Nat2Z.inj_succ, Z.pow_succ_r in Hx by lia. zlia.
Qed.

(** What follows a number does not begin with a digit. *)
Definition no_digit (l : list Z) : Prop := match l with c :: _ => isdigit c = false | [] => True end.

Lemma digits_stop n acc l : no_digit l -> digits_upto n acc l = (acc, l).
Proof. destruct n, l as [|c l]; try done. cbn. by intros ->. Qed.

Lemma ndigits_pos n x : (1 <= ndigits n x)%nat.
Proof. destruct n as [|n]; cbn [ndigits]; [done|]. destruct (x <? 10); lia. Qed.

Lemma dec_text_cons w x : exists c l, dec_text w x = c :: l /\ isdigit c = true.
Proof.
  pose proof (dec_fixed_digits (max w (ndigits 20 x)) x) as H. unfold dec_text.
  destruct (dec_fixed (max w (ndigits 20 x)) x) as [|c l] eqn:E.
  - apply (f_equal length) in E. rewrite length_dec_fixed in E.
    pose proof (ndigits_pos 20 x). change (length []) with 0%nat in E. lia.
  - exists c, l. split; [done|]. by apply Forall_cons_1 in H as [H _].
Qed.

(** A printed number is read up to the width, or up to its end. *)
Lemma number_dec w n x rest : 0 <= x < 10 ^ 20 ->
  (length (dec_text w x) <= n)%nat -> (length (dec_text w x) = n \/ no_digit rest) ->
  number n (dec_text w x ++ rest) = Some (x, rest).
Proof.
  intros Hx Hn Hr. destruct (dec_text_cons w x) as (c & l & E & Hc).
  assert (digits_upto n 0 (dec_text w x ++ rest) = (x, rest)) as Hd.
  { unfold dec_text in *. rewrite digits_upto_app by (done || apply dec_fixed_digits).
    rewrite dec_fixed_value by lia. rewrite length_dec_fixed in *.
    rewrite Z.mod_small.
    - rewrite Z.mul_0_l, Z.add_0_l. destruct Hr as [<-|Hr]; [by rewrite Nat.sub_diag; destruct rest|].
      by apply digits_stop.
    - split; [lia|]. eapply Z.lt_le_trans; [apply (ndigits_bound 20); change (10 ^ (Z.of_nat 20 + 1)) with
        (10 * 10 ^ 20); lia|]. apply Z.pow_le_mono_r; lia. }
  unfold number. rewrite E in *. cbn [app length] in *. destruct n as [|n]; [lia|]. by rewrite Hc, Hd.
Qed.

Lemma digit_not_special c : isdigit c = true -> isspace c = false /\ c <> 0x2D /\ c <> 0x2B /\ c <> 0.
Proof. unfold isdigit, isspace. lia. Qed.

Lemma scan_dec w n x rest : 0 <= x < 10 ^ 20 ->
  (length (dec_text w x) <= n)%nat -> (length (dec_text w x) = n \/ no_digit rest) ->
  scan_int n (dec_text w x ++ rest) = Some (x, rest).
Proof.
  intros Hx Hn Hr. rewrite <- (number_dec w n x rest Hx Hn Hr).
  destruct (dec_text_cons w x) as (c & l & -> & Hc). destruct (digit_not_special c Hc) as (Hs & H1 & H2 & _).
  unfold scan_int. cbn [app skip_space]. rewrite Hs.
  by rewrite (proj2 (Z.eqb_neq c 0x2D) H1), (proj2 (Z.eqb_neq c 0x2B) H2).
Qed.

Lemma scan_int_text x n rest : Z.abs x < 10 ^ 20 -> (length (int_text 0 x) <= n)%nat -> no_digit rest ->
  scan_int n (int_text 0 x ++ rest) = Some (x, rest).
Proof.
  intros Hx Hn Hr. unfold int_text in *. destruct (Z.ltb_spec x 0) as [Hlt|Hge].
  - unfold scan_int. cbn [app skip_space pred length] in *. change (isspace 0x2D) with false. cbv iota.
    change (0x2D =? 0x2D) with true. cbv iota. rewrite number_dec; [|lia|lia|by right].
    cbn [mbind option_bind]. do 2 f_equal. lia.
  - apply scan_dec; [lia|done|by right].
Qed.

Lemma to_int_small x : -2147483648 <= x < 2147483648 -> to_int x = x.
Proof. intros H. unfold to_int, s32. rewrite Z.min_r, Z.max_r by lia. rewrite Z.mod_small by lia. lia. Qed.

Lemma to_uint_small x : 0 <= x < 4294967296 -> to_uint x = x.
Proof.
  intros H. unfold to_uint, u32. rewrite (proj2 (Z.ltb_lt _ _)) by lia. by apply Z.mod_small.
Qed.

Lemma atoi_int_text x rest : -2147483648 <= x < 2147483648 -> no_digit rest ->
  atoi (int_text 0 x ++ rest) = x.
Proof.
  intros Hx Hr. unfold atoi. rewrite scan_int_text; [by apply to_int_small|lia| |done].
  rewrite length_app. lia.
Qed.

Lemma length_dec_text w x k : (1 <= k)%nat -> 0 <= x < 10 ^ Z.of_nat k ->
  (length (dec_text w x) <= max w k)%nat.
Proof. intros Hk Hx. unfold dec_text. rewrite length_dec_fixed. pose proof (ndigits_least 20 x k Hk Hx). lia. Qed.

(** ** The width of hexadecimal text *)

Lemma length_hex_fixed n x : length (hex_fixed n x) = n.
Proof. revert x. induction n; intros x; cbn; [done|]. rewrite length_app, IHn. cbn. lia. Qed.

Lemma hex_text_fixed w x : (0 < w)%nat -> 0 <= x < 16 ^ Z.of_nat w -> x < 4294967296 ->
  hex_text w x = hex_fixed w x.
Proof.
  intros Hw Hx H32. unfold hex_text. unfold u32. rewrite Z.mod_small by lia. f_equal.
  assert (Z.log2 x / 4 + 1 <= Z.of_nat w); [|lia].
  destruct (decide (x = 0)) as [->|Hne]; [change (Z.log2 0 / 4) with 0; lia|].
  assert (Z.log2 x < 4 * Z.of_nat w).
  { apply Z.log2_lt_pow2; [lia|]. rewrite Z.pow_mul_r by lia. change (2 ^ 4) with 16. lia. }
  pose proof (Z.div_lt_upper_bound (Z.log2 x) 4 (Z.of_nat w)). lia.
Qed.

Lemma lenZ_hex2 x : 0 <= x < 256 -> lenZ (hex_text 2 x) = 2.
Proof. intros H. rewrite hex_text_fixed by (cbn; lia). unfold lenZ. by rewrite length_hex_fixed. Qed.

Lemma lenZ_hex4 x : 0 <= x < 65536 -> lenZ (hex_text 4 x) = 4.
Proof. intros H. rewrite hex_text_fixed by (cbn; lia). unfold lenZ. by rewrite length_hex_fixed. Qed.

End Printf.
Export Printf.
