(* ===== verification/IsbBootloader.v ===== *)
(** * The ISB bootloader (src/src/ISBootloaderISB.cpp, ISBootloaderISB.h)

    The updates of application images through the bootloader of a device: the records sent
    to it, the reading of a hex file, the verification, and the requests for its version
    and for restarts.  The port is that of SerialPort.v.  Messages for the user and pauses
    are left out; the callbacks that report progress may cancel and are parameters.  A
    function has no result when it would write outside of a buffer.  Sums of type [int]
    wrap around. *)

From stdpp Require Import strings.
From S2P Require Import Prelude Printf CommRx CommTx SerialPort.
#[local] Open Scope string_scope.
#[local] Open Scope list_scope.
#[local] Open Scope Z_scope.

Definition IS_OP_OK : Z := 0.
Definition IS_OP_ERROR : Z := -1.
Definition IS_OP_CANCELLED : Z := -2.
Definition IS_OP_INCOMPATIBLE : Z := -3.
Definition IS_OP_CLOSED : Z := -5.

Module IsbBootloader.

Definition BOOTLOADER_RETRIES : nat := 100.
Definition BOOTLOADER_RESPONSE_DELAY : Z := 10.
Definition MAX_VERIFY_CHUNK_SIZE : Z := 1024.
Definition BOOTLOADER_TIMEOUT_DEFAULT : Z := 1000.
Definition MAX_SEND_COUNT : Z := 510.
Definition FLASH_PAGE_SIZE : Z := 65536.
Definition HEX_BUFFER_SIZE : Z := 1024.

Definition IS_PROCESSOR_SAMx70 : Z := 0.
Definition IS_PROCESSOR_STM32L4 : Z := 1.
Definition IS_IMAGE_SIGN_NONE : Z := 0.
Definition IS_IMAGE_SIGN_ISB_STM32L4 : Z := 0x01.
Definition IS_IMAGE_SIGN_ISB_SAMx70_16K : Z := 0x02.
Definition IS_IMAGE_SIGN_ISB_SAMx70_24K : Z := 0x04.
Definition IS_IMAGE_SIGN_UINS_3_16K : Z := 0x08.
Definition IS_IMAGE_SIGN_UINS_3_24K : Z := 0x10.
Definition IS_IMAGE_SIGN_EVB_2_16K : Z := 0x20.
Definition IS_IMAGE_SIGN_EVB_2_24K : Z := 0x40.
Definition IS_IMAGE_SIGN_IMX_5p0 : Z := 0x80.

(** The members of the class: those of the device, and those for the verification. *)
Record isb := Isb {
  m_isb_major : Z; m_isb_minor : Z; m_sn : Z;
  is_evb : Z; processor : Z; rom_available : Z; app_offset : Z; verify_size : Z;
  m_currentPage : Z; m_verifyCheckSum : Z
}.

Definition set_version (major minor : Z) (b : isb) : isb :=
  Isb major minor (m_sn b) (is_evb b) (processor b) (rom_available b) (app_offset b) (verify_size b)
    (m_currentPage b) (m_verifyCheckSum b).
Definition set_device (evb proc sn : Z) (b : isb) : isb :=
  Isb (m_isb_major b) (m_isb_minor b) sn evb proc (rom_available b) (app_offset b) (verify_size b)
    (m_currentPage b) (m_verifyCheckSum b).
Definition set_rom (x : Z) (b : isb) : isb :=
  Isb (m_isb_major b) (m_isb_minor b) (m_sn b) (is_evb b) (processor b) x (app_offset b)
    (verify_size b) (m_currentPage b) (m_verifyCheckSum b).
Definition set_layout (offset size : Z) (b : isb) : isb :=
  Isb (m_isb_major b) (m_isb_minor b) (m_sn b) (is_evb b) (processor b) (rom_available b) offset size
    (m_currentPage b) (m_verifyCheckSum b).
Definition set_verify (page sum : Z) (b : isb) : isb :=
  Isb (m_isb_major b) (m_isb_minor b) (m_sn b) (is_evb b) (processor b) (rom_available b)
    (app_offset b) (verify_size b) page sum.

(** ** Text *)

(** The value of a character as the checksum takes it: right for hexadecimal digits. *)
Definition digit_value (c : Z) : Z :=
  let c := Z.lor c 0x20 in u8 (if c <=? 0x39 then c + 0xD0 else c + 0xA9).
Definition pair_value (c1 c2 : Z) : Z := Z.lor (u8 (Z.shiftl (digit_value c1) 4)) (digit_value c2).
Fixpoint sum_pairs (l : list Z) : Z :=
  match l with c1 :: c2 :: l => pair_value c1 c2 + sum_pairs l | _ => 0 end.

(** The array, which receives the checksum when there is a position for it, and the sum. *)
Definition checksum (checkSum : Z) (ptr : list Z) (start stop checkSumPosition : Z)
    (finalCheckSum : bool) : option (list Z * Z) :=
  data ← take_exact (stop - start) (dropZ start ptr);
  let checkSum := checkSum + sum_pairs data in
  let checkSum := if finalCheckSum then u8 (Z.lnot checkSum + 1) else checkSum in
  ptr ← (if checkSumPosition =? 0 then Some ptr
         else memcpy ptr checkSumPosition (snprintf 3 (hex_text 2 checkSum)) 3);
  Some (ptr, checkSum).

Definition ok_response : list Z := [0x2E; 0x0D; 0x0A].

Section Bootloader.
Context {D : Type} (fns : serial_fns D).
#[local] Abbreviation port_t := (serial_port_t D).
(** The callbacks: progress as a fraction, and the result they give. *)
Context (m_update_callback m_verify_callback : Z -> Z -> port_t -> port_t * Z).

(** ** Functions that use the port *)

Definition M (A : Type) : Type := port_t -> option (port_t * A).
Definition ret {A} (x : A) : M A := fun s => Some (s, x).
Definition bind {A B} (m : M A) (f : A -> M B) : M B := fun s => '(s, x) ← m s; f x s.
#[export] Instance M_bind : MBind M := fun A B f m => bind m f.
Definition lift {A} (x : option A) : M A := fun s => x ← x; Some (s, x).
Definition call {A} (f : port_t -> port_t * A) : M A := fun s => Some (f s).

(** A function of the port's front end, for a port that is there. *)
Definition on_port {A} (f : option port_t -> option (option port_t * A)) : M A := fun s =>
  '(p, x) ← f (Some s); s ← p; Some (s, x).

Definition write (buf : list Z) (n : Z) : M Z := on_port (fun p => serialPortWrite fns p (Some buf) n).
Definition write_wait (buf : list Z) (n : Z) (expected : list Z) (timeout : Z) : M Z :=
  on_port (fun p => serialPortWriteAndWaitForTimeout fns p (Some buf) n (Some expected)
                      (lenZ expected) timeout).
Definition wait_for (expected : list Z) (timeout : Z) : M Z :=
  on_port (fun p => serialPortWaitForTimeout fns p (Some expected) (lenZ expected) timeout).
Definition read_timeout (buf : list Z) (n timeout : Z) : M (list Z * Z) :=
  on_port (fun p => '(p, b, count) ← serialPortReadTimeout fns p (Some buf) n timeout;
                    b ← b; Some (p, (b, count))).
Definition flush : M Z := on_port (fun p => Some (serialPortFlush fns p)).
Definition close : M Z := on_port (fun p => Some (serialPortClose fns p)).
Definition sleep (ms : Z) : M Z := on_port (fun p => Some (serialPortSleep fns p ms)).

(** ** Handshake and version *)

Fixpoint handshake_short (n : nat) : M (option Z) :=
  match n with
  | O => ret None
  | S n =>
    w ← write [0x55] 1;
    if negb (w =? 1) then ret (Some IS_OP_ERROR) else
    r ← wait_for [0x55] BOOTLOADER_RESPONSE_DELAY;
    if negb (r =? 0) then ret (Some IS_OP_OK) else handshake_short n
  end.

Definition handshaker : list Z := chars "INERTIAL_SENSE_SYNC_DFU" ++ [0].

Fixpoint handshake_long (n : nat) : M Z :=
  match n with
  | O => ret IS_OP_ERROR
  | S n =>
    r ← write_wait handshaker (lenZ handshaker) [0x55] BOOTLOADER_RESPONSE_DELAY;
    if negb (r =? 0) then ret IS_OP_OK else handshake_long n
  end.

Definition handshake_sync : M Z :=
  r ← handshake_short BOOTLOADER_RETRIES;
  match r with Some r => ret r | None => handshake_long BOOTLOADER_RETRIES end.

Definition byte_at (l : list Z) (i : Z) : Z := default 0 (nthZ l i).
Definition version_request : list Z := chars ":020000041000EA".
Definition has_version (buf : list Z) (count : Z) : bool :=
  (8 <=? count) && (byte_at buf 0 =? 0xAA) && (byte_at buf 1 =? 0x55).
Definition has_end (buf : list Z) : bool := bool_decide (subZ 11 3 buf = ok_response).
Definition serial_number (buf : list Z) : Z :=
  le16 (byte_at buf 7) (byte_at buf 8) + 65536 * le16 (byte_at buf 9) (byte_at buf 10).

(** The tries of the request that are left; the last one of ten gives up. *)
Fixpoint request_version (n : nat) (buf : list Z) : M (list Z * bool) :=
  match n with
  | O => ret (buf, false)
  | S n =>
    _ ← flush;
    '(buf, _) ← read_timeout buf 14 (-1);
    _ ← write version_request 15;
    '(buf, count) ← read_timeout buf 14 500;
    if has_version buf count then ret (buf, true) else request_version n buf
  end.

Definition bool_of (x : Z) : Z := if x =? 0 then 0 else 1.

Definition check_is_compatible (b : isb) : M (isb * Z) :=
  _ ← flush;
  '(buf, _) ← read_timeout (repeat 0 14) 14 (-1);
  _ ← handshake_sync;
  '(buf, found) ← request_version 10 buf;
  if negb found then ret (b, IS_IMAGE_SIGN_NONE) else
  let b := set_version (byte_at buf 2) (byte_at buf 3) b in
  let rom := negb (byte_at buf 4 =? 0) in
  let b := set_device 0 (processor b) 0 b in
  if negb (has_end buf) then ret (b, IS_IMAGE_SIGN_IMX_5p0) else
  let proc := byte_at buf 5 in
  let b := set_device (bool_of (byte_at buf 6)) (processor b) (serial_number buf) b in
  let old := Z.lor IS_IMAGE_SIGN_ISB_SAMx70_16K IS_IMAGE_SIGN_ISB_SAMx70_24K in
  let signs :=
    if 6 <=? m_isb_major b then
      if proc =? IS_PROCESSOR_SAMx70 then
        Z.lor (if negb (is_evb b =? 0) then IS_IMAGE_SIGN_EVB_2_24K else IS_IMAGE_SIGN_UINS_3_24K)
          (if rom then old else 0)
      else if proc =? IS_PROCESSOR_STM32L4 then
        Z.lor IS_IMAGE_SIGN_IMX_5p0 (if rom then IS_IMAGE_SIGN_ISB_STM32L4 else 0)
      else 0
    else
      Z.lor (Z.lor IS_IMAGE_SIGN_EVB_2_16K IS_IMAGE_SIGN_UINS_3_16K) (if rom then old else 0) in
  ret (b, Z.lor IS_IMAGE_SIGN_IMX_5p0 signs).

Definition get_device_info (b : isb) : M (isb * Z) :=
  _ ← handshake_sync;
  _ ← flush;
  _ ← write version_request 15;
  '(buf, count) ← read_timeout (repeat 0 14) 14 1000;
  if negb (has_version buf count) then
    ret (set_device 0 IS_PROCESSOR_SAMx70 0 (set_rom 1 (set_version 0 0 b)), 0)
  else
    let b := set_rom (bool_of (byte_at buf 4)) (set_version (byte_at buf 2) (byte_at buf 3) b) in
    let b := if has_end buf then set_device (bool_of (byte_at buf 6)) (byte_at buf 5) (serial_number buf) b
             else set_device (is_evb b) (processor b) 0 b in
    let major := m_isb_major b in
    if major =? 1 then ret (set_layout 8192 MAX_VERIFY_CHUNK_SIZE b, IS_OP_OK)
    else if (2 <=? major) && (major <=? 5) then ret (set_layout 16384 MAX_VERIFY_CHUNK_SIZE b, IS_OP_OK)
    else if 6 <=? major then ret (set_layout 24576 MAX_VERIFY_CHUNK_SIZE b, IS_OP_OK)
    else ret (b, 0).

(** ** Restarts *)

Definition reboot_up : M Z :=
  _ ← write (chars ":020000040300F7") 15;
  _ ← flush;
  _ ← close;
  ret IS_OP_OK.

Definition reboot_down (major minor : Z) (force : bool) (b : isb) : M Z :=
  let restart := (_ ← write (chars ":020000040700F3") 15; _ ← sleep 500; ret IS_OP_OK) in
  if force then restart
  else if (major =? 0) || (minor =? 0) then ret IS_OP_ERROR
  else if (major <? m_isb_major b) || ((major =? m_isb_major b) && (minor <=? m_isb_minor b))
  then ret IS_OP_OK
  else restart.

Definition reboot_force : M Z :=
  w ← write (chars ":020000040500F5") 15;
  ret (if negb (w =? 15) then IS_OP_ERROR else IS_OP_OK).

(** [rst_serial_list] are the serial numbers of the devices that have been restarted. *)
Definition reboot (b : isb) (rst_serial_list : list Z) : M (list Z * Z) :=
  if bool_decide (m_sn b ∈ rst_serial_list) then ret (rst_serial_list, IS_OP_ERROR) else
  r ← reboot_force;
  ret (if r =? IS_OP_OK then (rst_serial_list ++ [m_sn b], IS_OP_OK) else (rst_serial_list, IS_OP_CLOSED)).

(** The name of the port is compared with a string, both up to 100 characters. *)
Definition match_test (serial_name : list Z) : M Z := fun s =>
  let name := takeZ 100 (text serial_name) in
  Some (s, if negb (lenZ name =? 0) && bool_decide (name = takeZ 100 (text (sp_port s)))
           then IS_OP_OK else IS_OP_ERROR).

(** ** Commands *)

Definition command (line : list Z) (size stop : Z) : M (list Z) :=
  '(line, _) ← lift (checksum 0 (snprintf size line) 1 stop stop true);
  ret line.

Definition select_page (page : Z) : M Z :=
  changePage ← command (chars ":040000060301" ++ hex_text 4 page ++ chars "CC") 24 17;
  r ← write_wait changePage 19 ok_response BOOTLOADER_TIMEOUT_DEFAULT;
  ret (if r =? 0 then IS_OP_ERROR else IS_OP_OK).

Definition begin_program_for_current_page (startOffset endOffset : Z) : M Z :=
  programPage ← command (chars ":0500000100" ++ hex_text 4 startOffset ++ hex_text 4 endOffset ++ chars "CC") 24 19;
  r ← write_wait programPage 21 ok_response BOOTLOADER_TIMEOUT_DEFAULT;
  ret (if r =? 0 then IS_OP_ERROR else IS_OP_OK).

Definition download_data (startOffset endOffset : Z) : M Z :=
  programLine ← command (chars ":0500000300" ++ hex_text 4 startOffset ++ hex_text 4 endOffset ++ chars "CC") 24 19;
  w ← write programLine 21;
  ret (if negb (w =? 21) then IS_OP_ERROR else IS_OP_OK).

(** The response is read into [buf], behind the [count] bytes that are there. *)
Fixpoint wait_erased (n : nat) (buf : list Z) (count : Z) : M Z :=
  match n with
  | O => ret IS_OP_ERROR
  | S n =>
    '(rest, k) ← read_timeout (dropZ count buf) 3 100;
    let buf := takeZ count buf ++ rest in
    let count := count + k in
    r ← call (m_update_callback 0 1);
    if negb (r =? IS_OP_OK) then ret IS_OP_CANCELLED
    else if (count =? 3) && bool_decide (takeZ 3 buf = ok_response) then ret IS_OP_OK
    else wait_erased n buf count
  end.

(** [buf] is the uninitialised array of 128 characters. *)
Definition erase_flash (buf : list Z) : M Z :=
  selectFlash ← command (chars ":03000006030000F4CC") 24 17;
  r ← write_wait selectFlash 19 ok_response BOOTLOADER_TIMEOUT_DEFAULT;
  if r =? 0 then ret IS_OP_ERROR else
  selectFlash ← command (chars ":0200000400FFFBCC") 24 15;
  _ ← write selectFlash 17;
  wait_erased 600 buf 0.

(** ** Programming *)

(** The variables the functions below share by pointers. *)
Record upload := Upload { currentOffset : Z; totalBytes : Z; verifyCheckSum : Z }.

Definition add_hash (h c : Z) : Z := s32 (Z.shiftl h 5 + h + c).

(** The checksum is sent again until it is answered. *)
Fixpoint send_checksum (n : nat) (checkSumHex : list Z) : M Z :=
  match n with
  | O => ret IS_OP_ERROR
  | S n =>
    w ← write checkSumHex 2;
    if negb (w =? 2) then ret IS_OP_ERROR else
    '(buf, count) ← read_timeout (repeat 0 5) 3 1000;
    if (count =? 3) && bool_decide (takeZ 3 buf = ok_response) then ret IS_OP_OK
    else send_checksum n checkSumHex
  end.

Definition upload_hex_page (hexData : list Z) (byteCount : Z) (u : upload) : M (upload * Z) :=
  if byteCount =? 0 then ret (u, IS_OP_OK) else
  let programLine := snprintf 12 ([0x3A] ++ hex_text 2 byteCount ++ hex_text 4 (currentOffset u) ++ chars "00") in
  w ← write programLine 9;
  if negb (w =? 9) then ret (u, IS_OP_ERROR) else
  '(_, checkSum) ← lift (checksum 0 programLine 1 9 0 false);
  let charsForThisPage := byteCount * 2 in
  w ← write hexData charsForThisPage;
  if negb (w =? charsForThisPage) then ret (u, IS_OP_ERROR) else
  data ← lift (take_exact charsForThisPage hexData);
  '(_, checkSum) ← lift (checksum checkSum hexData 0 charsForThisPage 0 true);
  r ← send_checksum 10 (snprintf 3 (hex_text 2 checkSum));
  if negb (r =? IS_OP_OK) then ret (u, IS_OP_ERROR) else
  ret (Upload (currentOffset u + byteCount) (totalBytes u + byteCount)
         (fold_left add_hash data (verifyCheckSum u)), IS_OP_OK).

Definition upload_hex (hexData : list Z) (charCount : Z) (u : upload) : M (upload * Z) :=
  if MAX_SEND_COUNT <? charCount then ret (u, IS_OP_ERROR)
  else if charCount =? 0 then ret (u, IS_OP_OK)
  else
    let pageByteCount := FLASH_PAGE_SIZE - currentOffset u in
    '(u, r, hexData, charCount) ←
      (if FLASH_PAGE_SIZE <? currentOffset u + charCount / 2 then
         '(u, r) ← upload_hex_page hexData pageByteCount u;
         ret (u, r, dropZ (pageByteCount * 2) hexData, charCount - pageByteCount * 2)
       else ret (u, IS_OP_OK, hexData, charCount));
    if negb (r =? IS_OP_OK) then ret (u, IS_OP_ERROR) else
    if negb (charCount =? 0) then
      '(u, r) ← upload_hex_page hexData (charCount / 2) u;
      ret (u, if negb (r =? IS_OP_OK) then IS_OP_ERROR else IS_OP_OK)
    else ret (u, IS_OP_OK).

(** A failure ends the filling without an error. *)
Fixpoint fill_loop (fuel : nat) (u : upload) : M upload :=
  if currentOffset u <? FLASH_PAGE_SIZE then
    match fuel with
    | O => lift None
    | S fuel =>
      let byteCount := Z.min 256 ((FLASH_PAGE_SIZE - currentOffset u) * 2) in
      '(u, r) ← upload_hex_page (repeat 0x46 256) (byteCount / 2) u;
      if negb (r =? IS_OP_OK) then ret u else fill_loop fuel u
    end
  else ret u.

(** Each turn programs a byte at least. *)
Definition fill_fuel (u : upload) : nat := Z.to_nat (FLASH_PAGE_SIZE - currentOffset u).
Definition fill_current_page (u : upload) : M upload := fill_loop (fill_fuel u) u.

(** ** Hex files *)

(** A line and the rest of the file: without carriage returns, up to [places]
    characters; the character 255 is taken for the end of the file. *)
Fixpoint read_line (file : list Z) (places : Z) : list Z * list Z :=
  if places =? 0 then ([], file) else
  match file with
  | [] => ([], [])
  | c :: file =>
    if c =? 0x0D then read_line file places
    else if (c =? 0x0A) || (c =? 0xFF) then ([], file)
    else let '(line, rest) := read_line file (places - 1) in (c :: line, rest)
  end.
(** The length of a line that fills the array is given as zero. *)
Definition is_isb_read_line (file : list Z) : list Z * list Z * Z :=
  let '(line, rest) := read_line file 1023 in
  (line, rest, if lenZ line =? 1023 then 0 else lenZ line).

(** The local variables of the loop; [output] is what is in front of [outputPtr]. *)
Record hex_state := HexState {
  hx_upload : upload; currentPage : Z; lastSubOffset : Z; output : list Z
}.

(** What a line leads to: an error, the next line, or the report of the progress first. *)
Inductive line_result := Fail (r : Z) | Skip (st : hex_state) | Next (st : hex_state).

(** Characters added to the array of [HEX_BUFFER_SIZE * 2]. *)
Definition push_output (l out : list Z) : option (list Z) :=
  if lenZ out + lenZ l <=? HEX_BUFFER_SIZE * 2 then Some (out ++ l) else None.

Definition no_room (out : list Z) (pad : Z) : bool := HEX_BUFFER_SIZE * 2 <=? lenZ out + pad.

(** The skipped offsets are filled; [None] when the check for them fails. *)
Definition pad_output (subOffset : Z) (st : hex_state) : M (option (list Z)) :=
  let pad := subOffset - lastSubOffset st in
  if 0 <? pad then
    if no_room (output st) pad then ret None
    else out ← lift (push_output (repeat 0x46 (Z.to_nat (2 * pad))) (output st)); ret (Some out)
  else ret (Some (output st)).

Definition data_line (line : list Z) (st : hex_state) : M line_result :=
  if HEX_BUFFER_SIZE * 4 <? lenZ line then ret (Fail IS_OP_ERROR) else
  let subOffset := strtol16 (subZ 3 4 line) in
  padded ← pad_output subOffset st;
  match padded with
  | None => ret (Fail IS_OP_ERROR)
  | Some out =>
    let pad := lenZ line - 11 in
    if no_room out pad then ret (Fail IS_OP_ERROR) else
    out ← lift (push_output (subZ 9 pad line) out);
    let last := subOffset + pad / 2 in
    let outputSize := lenZ out in
    if outputSize <? MAX_SEND_COUNT then ret (Skip (HexState (hx_upload st) (currentPage st) last out))
    else
      '(u, r) ← upload_hex out (Z.min MAX_SEND_COUNT outputSize) (hx_upload st);
      if negb (r =? IS_OP_OK) then ret (Fail IS_OP_ERROR) else
      let outputSize := outputSize - MAX_SEND_COUNT in
      if (outputSize <? 0) || (HEX_BUFFER_SIZE <? outputSize) then ret (Fail IS_OP_ERROR)
      else ret (Next (HexState u (currentPage st) last (dropZ MAX_SEND_COUNT out)))
  end.

Definition page_line (line : list Z) (st : hex_state) : M line_result :=
  let page := strtol16 (subZ 12 1 line) in
  let st := HexState (hx_upload st) page 0 (output st) in
  if page =? 0 then
    ret (Skip (HexState (hx_upload st) page (currentOffset (hx_upload st)) (output st)))
  else
    let outputSize := lenZ (output st) in
    if (outputSize <? 0) || (HEX_BUFFER_SIZE <? outputSize) then ret (Fail IS_OP_ERROR) else
    '(u, r) ← upload_hex (output st) outputSize (hx_upload st);
    if negb (r =? IS_OP_OK) then ret (Fail IS_OP_ERROR) else
    u ← fill_current_page u;
    let u := Upload 0 (totalBytes u) (verifyCheckSum u) in
    r ← select_page page;
    if negb (r =? IS_OP_OK) then ret (Fail IS_OP_ERROR) else
    r ← begin_program_for_current_page 0 (FLASH_PAGE_SIZE - 1);
    if negb (r =? IS_OP_OK) then ret (Fail IS_OP_ERROR) else
    ret (Next (HexState u page 0 [])).

Definition end_line (st : hex_state) : M line_result :=
  '(u, r) ← upload_hex (output st) (lenZ (output st)) (hx_upload st);
  if negb (r =? IS_OP_OK) then ret (Fail IS_OP_ERROR) else
  u ← (if negb (currentOffset u =? 0) then fill_current_page u else ret u);
  ret (Next (HexState u (currentPage st) (lastSubOffset st) [])).

Definition is_type (c : Z) (line : list Z) : bool := (byte_at line 7 =? 0x30) && (byte_at line 8 =? c).

Definition process_line (line : list Z) (st : hex_state) : M line_result :=
  if (12 <? lenZ line) && is_type 0x30 line then data_line line st
  else if bool_decide (takeZ 10 (text line) = chars ":020000040") && (13 <=? lenZ (text line))
  then page_line line st
  else if (10 <? lenZ line) && is_type 0x31 line then end_line st
  else ret (Next st).

(** [size] is the size of the file; [shown] is the position that was reported last.  The
    reports compare a quotient of single precision with one: it is one exactly at the end
    of a file of less than 2^24 bytes. *)
Fixpoint hex_loop (fuel : nat) (size shown : Z) (file : list Z) (st : hex_state) : M (hex_state * Z * Z) :=
  match fuel with
  | O => lift None
  | S fuel =>
    let '(line, file, lineLength) := is_isb_read_line file in
    if lineLength =? 0 then ret (st, shown, IS_OP_OK) else
    result ← process_line line st;
    match result with
    | Fail r => ret (st, shown, r)
    | Skip st => hex_loop fuel size shown file st
    | Next st =>
      r ← call (m_update_callback (size - lenZ file) size);
      if negb (r =? IS_OP_OK) then ret (st, size - lenZ file, IS_OP_CANCELLED)
      else hex_loop fuel size (size - lenZ file) file st
    end
  end.

Definition process_hex_file (file : list Z) (b : isb) : M (isb * Z) :=
  let start := app_offset b in
  let st := HexState (Upload start start 5381) (-1) start [] in
  '(st, shown, r) ← hex_loop (S (length file)) (lenZ file) 0 file st;
  if negb (r =? IS_OP_OK) then ret (b, r) else
  _ ← (if negb (shown =? lenZ file) || (lenZ file =? 0) then call (m_update_callback 1 1) else ret IS_OP_OK);
  ret (set_verify (currentPage st) (verifyCheckSum (hx_upload st)) b, IS_OP_OK).

(** [stack] is the uninitialised array of [erase_flash]. *)
Definition download_image (stack : list Z) (firmware_file : option (list Z)) (b : isb) : M (isb * Z) :=
  match firmware_file with
  | None => ret (b, IS_OP_INCOMPATIBLE)
  | Some file =>
    r ← erase_flash stack;
    if negb (r =? IS_OP_OK) then ret (b, r) else
    r ← select_page 0;
    if negb (r =? IS_OP_OK) then ret (b, r) else
    r ← begin_program_for_current_page (app_offset b) (FLASH_PAGE_SIZE - 1);
    if negb (r =? IS_OP_OK) then ret (b, r) else
    process_hex_file file b
  end.

(** ** Verification *)

(** The sum, the number of characters, the first half of a byte, and the bytes written to
    the file when it could be opened. *)
Record verify := Verify { v_sum : Z; v_chars : Z; v_half : option Z; v_file : option (list Z) }.

Definition is_hex (c : Z) : bool := ((0x30 <=? c) && (c <=? 0x39)) || ((0x41 <=? c) && (c <=? 0x46)).
Definition hex_value (c : Z) : Z := if (0x30 <=? c) && (c <=? 0x39) then c - 0x30 else c - 0x41 + 10.

Definition take_char (c : Z) (v : verify) : verify :=
  let '(half, file) :=
    match v_file v with
    | None => (v_half v, None)
    | Some file =>
      match v_half v with
      | None => (Some (Z.shiftl (hex_value c) 4), Some file)
      | Some h => (None, Some (file ++ [u8 (Z.lor h (hex_value c))]))
      end
    end in
  Verify (add_hash (v_sum v) c) (v_chars v + 1) half file.

(** The characters up to the end of the line: the state, the number of digits, the last
    character and what follows; [None] for a character that is not expected. *)
Fixpoint verify_chars (l : list Z) (v : verify) (pageChars c : Z) : option (verify * Z * Z * list Z) :=
  match l with
  | [] => Some (v, pageChars, c, [])
  | x :: l =>
    if is_hex x then verify_chars l (take_char x v) (pageChars + 1) x
    else if x =? 0x0D then verify_chars l v pageChars x
    else if x =? 0x0A then Some (v, pageChars, x, l)
    else None
  end.

(** The lines of an answer; [c] is the character that was read last. *)
Fixpoint verify_lines (fuel : nat) (l : list Z) (grand pageOffset c : Z) (v : verify)
    : M (verify * Z * Z * Z) :=
  match l with
  | [] => ret (v, pageOffset, c, IS_OP_OK)
  | _ =>
    match fuel with
    | O => lift None
    | S fuel =>
      if lenZ l <? 5 then ret (v, pageOffset, c, IS_OP_ERROR)
      else if byte_at l 0 =? 0x58 then ret (v, pageOffset, c, IS_OP_ERROR)
      else if negb (byte_at l 4 =? 0x3D) then ret (v, pageOffset, c, IS_OP_ERROR)
      else if negb (strtol16 (takeZ 4 l) =? pageOffset) then ret (v, pageOffset, c, IS_OP_ERROR)
      else
        match verify_chars (dropZ 5 l) v 0 c with
        | None => ret (v, pageOffset, c, IS_OP_ERROR)
        | Some (v, pageChars, c, l) =>
          if negb (c =? 0x0A) then ret (v, pageOffset, c, IS_OP_ERROR) else
          let pageOffset := pageOffset + pageChars / 2 in
          r ← call (m_verify_callback (v_chars v) grand);
          if negb (r =? IS_OP_OK) then ret (v, pageOffset, c, IS_OP_CANCELLED)
          else verify_lines fuel l grand pageOffset c v
        end
    end
  end.

(** [buffer] is [chunkBuffer]. *)
Fixpoint verify_page (fuel : nat) (chunkSize grand : Z) (buffer : list Z) (pageOffset c : Z) (v : verify)
    : M (verify * Z * Z) :=
  if pageOffset <? FLASH_PAGE_SIZE then
    match fuel with
    | O => lift None
    | S fuel =>
      let readCount := Z.min chunkSize (FLASH_PAGE_SIZE - pageOffset) in
      r ← download_data pageOffset (pageOffset + readCount - 1);
      if negb (r =? IS_OP_OK) then ret (v, c, IS_OP_ERROR) else
      let lines := (readCount + 254) / 255 in
      '(buffer, readCount) ← read_timeout buffer (7 * lines + readCount * 2) BOOTLOADER_TIMEOUT_DEFAULT;
      '(v, pageOffset, c, r) ←
        verify_lines (S (length buffer)) (takeZ readCount buffer) grand pageOffset c v;
      if negb (r =? IS_OP_OK) then ret (v, c, r)
      else verify_page fuel chunkSize grand buffer pageOffset c v
    end
  else ret (v, c, IS_OP_OK).

(** The [n] pages from [i] on; [fuel] bounds the requests for each page, which the code
    does not. *)
Fixpoint verify_pages (fuel n : nat) (i : Z) (b : isb) (grand : Z) (buffer : list Z) (c : Z) (v : verify)
    : M (verify * Z) :=
  match n with
  | O => ret (v, IS_OP_OK)
  | S n =>
    r ← select_page i;
    if negb (r =? IS_OP_OK) then ret (v, IS_OP_ERROR) else
    '(v, c, r) ← verify_page fuel (Z.min FLASH_PAGE_SIZE (verify_size b)) grand buffer
                   (if i =? 0 then app_offset b else 0) c v;
    if negb (r =? IS_OP_OK) then ret (v, r) else verify_pages fuel n (i + 1) b grand buffer c v
  end.

(** The contents of the file, when it could be opened, and the result. *)
Definition verify_image (fuel : nat) (buffer : list Z) (can_open : bool) (b : isb)
    : M (option (list Z) * Z) :=
  let grand := (m_currentPage b + 1) * FLASH_PAGE_SIZE * 2 in
  let v := Verify 5381 (app_offset b * 2) None (if can_open then Some [] else None) in
  '(v, r) ← verify_pages fuel (Z.to_nat (m_currentPage b + 1)) 0 b grand buffer 0 v;
  ret (v_file v,
       if negb (r =? IS_OP_OK) then r
       else if negb (v_sum v =? m_verifyCheckSum b) then IS_OP_ERROR else IS_OP_OK).

End Bootloader.

(** The version in the image of a bootloader, if it has one: [ver_info] is the
    uninitialised array, which a short file leaves as it is. *)
Definition get_version_from_file (ver_info : list Z) (blfile : option (list Z)) : option (Z * Z) * Z :=
  match blfile with
  | None => (None, IS_OP_ERROR)
  | Some file =>
    let read := takeZ 4 (dropZ 0x3DFC file) in
    let ver_info := read ++ dropZ (lenZ read) ver_info in
    if (byte_at ver_info 0 =? 0xAA) && (byte_at ver_info 1 =? 0x55)
    then (Some (byte_at ver_info 2, byte_at ver_info 3), IS_OP_OK) else (None, IS_OP_ERROR)
  end.

End IsbBootloader.
