(* ===== verification/IsbProps.v ===== *)
(** * The upload of a hex file by the ISB bootloader

    What is sent to a device that answers every command: the records, their checksums,
    and the pages of flash memory they program. *)

From stdpp Require Import strings.
From S2P Require Import Prelude Printf CommRx CommTx SerialPort IsbBootloader.
Import IsbBootloader.
#[local] Open Scope string_scope.
#[local] Open Scope list_scope.
#[local] Open Scope Z_scope.

Module IsbProps.

(** ** Hexadecimal text *)

(** The checksum takes two digits for their byte. *)
Lemma hex2_pair x : 0 <= x < 256 ->
  hex_text 2 x = [upper_digit (x / 16); upper_digit (x mod 16)] /\
  pair_value (upper_digit (x / 16)) (upper_digit (x mod 16)) = x.
Proof.
  intros H. split.
  - rewrite hex_text_fixed by (cbn; lia). cbn. rewrite (Z.mod_small (x / 16)) by zlia. done.
  - assert (forallb (fun n => let x := Z.of_nat n in
      pair_value (upper_digit (x / 16)) (upper_digit (x mod 16)) =? x) (seq 0 256) = true) as Hall
      by (vm_compute; reflexivity).
    rewrite forallb_forall in Hall. specialize (Hall (Z.to_nat x)).
    rewrite Z2Nat.id in Hall by lia. apply Z.eqb_eq, Hall, in_seq. lia.
Qed.

Lemma sum_pairs_app l k : Nat.Even (length l) -> sum_pairs (l ++ k) = sum_pairs l + sum_pairs k.
Proof.
  intros [n Hn]. revert l Hn. induction n as [|n IH]; intros l Hn.
  - by destruct l.
  - destruct l as [|a [|b l]]; [done|cbn in Hn; lia|]. cbn [sum_pairs app].
    rewrite IH by (cbn in Hn; lia). lia.
Qed.

(** ** Records *)

(** A record: a colon, its body, and two digits for the checksum. *)
Definition record_text (body : list Z) : list Z :=
  0x3A :: body ++ hex_text 2 (u8 (- sum_pairs body)).

(** The bytes of a record, the checksum included, have the sum zero. *)
Lemma record_sum body : Nat.Even (length body) ->
  sum_pairs (dropZ 1 (record_text body)) mod 256 = 0.
Proof.
  intros He. change (dropZ 1 (record_text body)) with (body ++ hex_text 2 (u8 (- sum_pairs body))).
  rewrite sum_pairs_app by done. destruct (hex2_pair (u8 (- sum_pairs body))) as [-> Hv];
    [by apply Z.mod_pos_bound|]. cbn [sum_pairs]. rewrite Hv. unfold u8. zlia.
Qed.

(** What is sent: the choice of a page, the range that will be programmed, and data. *)
Inductive op := SelectPage (page : Z) | Begin (first last : Z) | Program (offset : Z) (data : list Z).

Definition op_body (o : op) : list Z :=
  match o with
  | SelectPage page => chars "040000060301" ++ hex_text 4 page
  | Begin first last => chars "0500000100" ++ hex_text 4 first ++ hex_text 4 last
  | Program offset data => hex_text 2 (lenZ data / 2) ++ hex_text 4 offset ++ chars "00" ++ data
  end.
Definition op_text (o : op) : list Z := record_text (op_body o).
Definition ops_text (l : list op) : list Z := concat (map op_text l).

Lemma ops_text_app l k : ops_text (l ++ k) = ops_text l ++ ops_text k.
Proof. unfold ops_text. by rewrite map_app, concat_app. Qed.

(** The records program [data] from an offset on, without a gap, 255 bytes at most at once. *)
Inductive programs : Z -> list Z -> list op -> Prop :=
  | programs_nil off : programs off [] []
  | programs_cons off data rest ops :
      0 < lenZ data <= MAX_SEND_COUNT -> lenZ data mod 2 = 0 ->
      programs (off + lenZ data / 2) rest ops ->
      programs off (data ++ rest) (Program off data :: ops).

Lemma programs_app off l ops k ops' : programs off l ops -> programs (off + lenZ l / 2) k ops' ->
  programs off (l ++ k) (ops ++ ops').
Proof.
  induction 1 as [off|off data rest ops Hd He Hp IH]; intros Hk.
  - by rewrite Z.add_0_r in Hk.
  - rewrite <- app_assoc. cbn [app]. constructor; [done|done|]. apply IH.
    rewrite lenZ_app in Hk. replace (off + lenZ data / 2 + lenZ rest / 2)
      with (off + (lenZ data + lenZ rest) / 2); [done|]. zlia.
Qed.

Section Answered.
Context {D : Type} (fns : serial_fns D).
Implicit Types s : serial_port_t D.
Context (m_update_callback : Z -> Z -> serial_port_t D -> serial_port_t D * Z).

(** A device that takes every byte and answers every read with the response that all is
    well: [log] is what it has been sent.  The callback does not cancel. *)
Record answering (log : D -> list Z) : Prop := {
  an_write : exists f, pfnWrite fns = Some f /\ forall bs s, exists s', f bs s = (s', lenZ bs) /\
    sp_handle s' = sp_handle s /\ log (sp_dev s') = log (sp_dev s) ++ bs;
  an_read : exists f, pfnRead fns = Some f /\ forall t s, exists s', f 3 t s = (s', ok_response, 3) /\
    sp_handle s' = sp_handle s /\ log (sp_dev s') = log (sp_dev s);
  an_callback : forall n k s, exists s', m_update_callback n k s = (s', IS_OP_OK) /\
    sp_handle s' = sp_handle s /\ log (sp_dev s') = log (sp_dev s)
}.

Context (log : D -> list Z) (Han : answering log).

(** [m] sends [sent] and returns [x]. *)
Definition sends {A} (m : serial_port_t D -> option (serial_port_t D * A)) (x : A) (sent : list Z) : Prop :=
  forall s, sp_handle s <> 0 -> exists s', m s = Some (s', x) /\ sp_handle s' <> 0 /\
    log (sp_dev s') = log (sp_dev s) ++ sent.

Lemma sends_ret {A} (x : A) : sends (ret x) x [].
Proof. intros s Hh. exists s. by rewrite app_nil_r. Qed.

Lemma sends_bind {A B} (m : M A) (f : A -> M B) x y l k :
  sends m x l -> sends (f x) y k -> sends (bind m f) y (l ++ k).
Proof.
  intros Hm Hf s Hh. destruct (Hm s Hh) as (s1 & E1 & Hh1 & L1).
  destruct (Hf s1 Hh1) as (s2 & E2 & Hh2 & L2). exists s2. unfold bind. rewrite E1.
  cbn [mbind option_bind]. split; [done|]. split; [done|]. by rewrite L2, L1, app_assoc.
Qed.

Lemma sends_pure {A B} (m : M A) (f : A -> M B) x y k :
  sends m x [] -> sends (f x) y k -> sends (bind m f) y k.
Proof. apply (sends_bind m f x y []). Qed.

Lemma sends_last {A B} (m : M A) (f : A -> M B) x y l :
  sends m x l -> sends (f x) y [] -> sends (bind m f) y l.
Proof. intros Hm Hf. rewrite <- (app_nil_r l). by apply (sends_bind m f x y l []). Qed.

Lemma sends_lift {A B} (o : option A) (f : A -> M B) x y k :
  o = Some x -> sends (f x) y k -> sends (bind (lift o) f) y k.
Proof. intros -> Hf. eapply sends_pure; [|exact Hf]. intros s Hh. exists s. by rewrite app_nil_r. Qed.

Lemma sends_write buf n : 0 < n <= lenZ buf -> sends (write fns buf n) n (takeZ n buf).
Proof.
  intros Hn s Hh. destruct (an_write _ Han) as (f & Ef & Hf). unfold write, on_port, serialPortWrite.
  rewrite Ef, (proj2 (Z.eqb_neq _ 0) Hh), (proj2 (Z.ltb_ge n 1)) by lia. cbn [orb].
  rewrite take_exact_ok by lia. cbn [mbind option_bind].
  destruct (Hf (takeZ n buf) s) as (s1 & -> & Hh1 & L1).
  assert (lenZ (takeZ n buf) = n) as -> by (rewrite lenZ_takeZ; lia).
  rewrite (proj2 (Z.ltb_ge n 0)) by lia. cbn [mbind option_bind]. eexists. split; [reflexivity|].
  split; [cbn; congruence|done].
Qed.

Lemma sends_read buf t : 3 <= lenZ buf ->
  sends (read_timeout fns buf 3 t) (updZ 0 ok_response buf, 3) [].
Proof.
  intros Hb s Hh. destruct (an_read _ Han) as (f & Ef & Hf).
  unfold read_timeout, on_port, serialPortReadTimeout, read_with.
  rewrite Ef, (proj2 (Z.eqb_neq _ 0) Hh). cbn [orb]. change (3 <? 1) with false. cbv iota.
  destruct (Hf t s) as (s1 & -> & Hh1 & L1). assert (lenZ ok_response = 3) as H3 by done.
  rewrite H3, memcpy_ok by lia. change (takeZ 3 ok_response) with ok_response.
  cbn [mbind option_bind]. change (3 <? 0) with false. cbv iota. cbn [mbind option_bind].
  eexists. split; [reflexivity|]. split; [cbn; congruence|]. by rewrite app_nil_r.
Qed.

Lemma sends_command_wait buf n t : 0 < n <= lenZ buf ->
  sends (write_wait fns buf n ok_response t) 1 (takeZ n buf).
Proof.
  intros Hn s Hh. unfold write_wait, on_port, serialPortWriteAndWaitForTimeout.
  rewrite (proj2 (Z.eqb_neq _ 0) Hh), (proj2 (Z.ltb_ge n 1)) by lia. cbn [orb].
  change (lenZ ok_response <? 1) with false. cbv iota.
  destruct (sends_write buf n Hn s Hh) as (s1 & E1 & Hh1 & L1). unfold write, on_port in E1.
  destruct (serialPortWrite fns (Some s) (Some buf) n) as [[p1 n1]|]; [|done].
  cbn [mbind option_bind] in E1 |- *. destruct p1 as [s1'|]; [|done]. cbn [mbind option_bind] in E1.
  injection E1 as -> ->. rewrite Z.eqb_refl. cbn [negb]. unfold serialPortWaitForTimeout.
  rewrite (proj2 (Z.eqb_neq _ 0) Hh1). cbn [orb]. change (lenZ ok_response <? 1) with false.
  change (128 <? lenZ ok_response) with false. cbv iota.
  destruct (sends_read (repeat 0 128) t ltac:(done) s1 Hh1) as (s2 & E2 & Hh2 & L2).
  unfold read_timeout, on_port in E2. change (lenZ ok_response) with 3.
  destruct (serialPortReadTimeout _ _ _ _ _) as [[[p2 b2] n2]|]; [|done].
  cbn [mbind option_bind] in E2 |- *. destruct b2 as [b2|]; [|done]. cbn [mbind option_bind] in E2.
  destruct p2 as [s2'|]; [|done]. cbn [mbind option_bind] in E2. injection E2 as -> -> ->.
  rewrite Z.eqb_refl. cbn [negb mbind option_bind]. change (take_exact 3 ok_response) with (Some ok_response).
  cbn [mbind option_bind]. rewrite decide_True by done. exists s2. split; [done|]. split; [done|].
  by rewrite L2, L1, app_nil_r.
Qed.

(** *** Commands *)

Lemma u8_negate x : u8 (Z.lnot x + 1) = u8 (- x).
Proof. f_equal. unfold Z.lnot. lia. Qed.

Lemma snprintf_hex2 x : 0 <= x < 256 -> snprintf 3 (hex_text 2 x) = hex_text 2 x ++ [0].
Proof. intros H. unfold snprintf. by rewrite takeZ_all by (rewrite lenZ_hex2; lia). Qed.

Lemma checksum_end body tail : lenZ tail = 3 ->
  checksum 0 (0x3A :: body ++ tail) 1 (1 + lenZ body) (1 + lenZ body) true =
    Some (record_text body ++ [0], u8 (- sum_pairs body)).
Proof.
  intros Ht. pose proof (lenZ_nonneg body). unfold checksum.
  change (dropZ 1 (0x3A :: body ++ tail)) with (body ++ tail).
  replace (1 + lenZ body - 1) with (lenZ body) by lia.
  rewrite take_exact_ok by (rewrite lenZ_app; lia). cbn [mbind option_bind].
  assert (takeZ (lenZ body) (body ++ tail) = body) as ->
    by apply takeZ_app_len.
  rewrite Z.add_0_l, u8_negate, (proj2 (Z.eqb_neq _ 0)) by lia.
  pose proof (Z.mod_pos_bound (- sum_pairs body) 256 ltac:(lia)) as Hm. fold (u8 (- sum_pairs body)) in Hm.
  rewrite snprintf_hex2 by done. pose proof (lenZ_hex2 _ Hm) as H2.
  assert (lenZ (hex_text 2 (u8 (- sum_pairs body)) ++ [0]) = 3) as H3
    by (rewrite lenZ_app, H2; done).
  rewrite memcpy_ok by (rewrite ?H3, ?lenZ_cons, ?lenZ_app; lia). cbn [mbind option_bind].
  rewrite (takeZ_all 3) by lia. do 2 f_equal. unfold record_text.
  change (0x3A :: body ++ tail) with ((0x3A :: body) ++ tail).
  replace (1 + lenZ body) with (lenZ (0x3A :: body)) by (rewrite lenZ_cons; lia).
  rewrite <- (app_nil_r tail) at 1. rewrite updZ_middle by lia. rewrite app_nil_r. cbn [app].
  by rewrite <- app_assoc.
Qed.

Lemma sends_command body size stop : stop = 1 + lenZ body -> stop + 2 < size ->
  sends (command (0x3A :: body ++ chars "CC") size stop) (record_text body ++ [0]) [].
Proof.
  intros -> Hs. unfold command. pose proof (lenZ_nonneg body).
  assert (snprintf size (0x3A :: body ++ chars "CC") = 0x3A :: body ++ (chars "CC" ++ [0])) as ->.
  { unfold snprintf. change (0x3A :: body ++ chars "CC") with ((0x3A :: body) ++ chars "CC").
    rewrite takeZ_all; [cbn [app]; by rewrite <- app_assoc|]. rewrite lenZ_app, lenZ_cons.
    change (lenZ (chars "CC")) with 2. lia. }
  eapply sends_lift; [apply checksum_end; done|]. apply sends_ret.
Qed.

Lemma take_record body : takeZ (lenZ body + 3) (record_text body ++ [0]) = record_text body.
Proof.
  assert (lenZ (record_text body) = lenZ body + 3) as <-; [|apply takeZ_app_len].
  unfold record_text. rewrite lenZ_cons, lenZ_app, lenZ_hex2 by (by apply Z.mod_pos_bound). lia.
Qed.

Lemma sends_record body size stop n : stop = 1 + lenZ body -> stop + 2 < size -> n = stop + 2 ->
  sends (line ← command (0x3A :: body ++ chars "CC") size stop;
         r ← write_wait fns line n ok_response BOOTLOADER_TIMEOUT_DEFAULT;
         ret (if r =? 0 then IS_OP_ERROR else IS_OP_OK)) IS_OP_OK (record_text body).
Proof.
  intros -> Hs ->. eapply sends_pure; [by apply sends_command|].
  replace (1 + lenZ body + 2) with (lenZ body + 3) by lia.
  pose proof (lenZ_nonneg body). apply (sends_last _ _ 1); [|apply sends_ret].
  rewrite <- (take_record body) at 2.
  apply sends_command_wait. unfold record_text. rewrite lenZ_app, lenZ_cons, lenZ_app, lenZ_hex2
    by (by apply Z.mod_pos_bound). change (lenZ [0]) with 1. lia.
Qed.

Lemma sends_select page : 0 <= page < 65536 ->
  sends (select_page fns page) IS_OP_OK (op_text (SelectPage page)).
Proof.
  intros Hp. unfold select_page, op_text. cbn [op_body].
  change (chars ":040000060301" ++ hex_text 4 page ++ chars "CC")
    with (0x3A :: (chars "040000060301" ++ hex_text 4 page ++ chars "CC")). rewrite app_assoc.
  apply sends_record; rewrite ?lenZ_app, ?lenZ_hex4 by done; done.
Qed.

Lemma sends_begin first last : 0 <= first < 65536 -> 0 <= last < 65536 ->
  sends (begin_program_for_current_page fns first last) IS_OP_OK (op_text (Begin first last)).
Proof.
  intros Hf Hl. unfold begin_program_for_current_page, op_text. cbn [op_body].
  change (chars ":0500000100" ++ hex_text 4 first ++ hex_text 4 last ++ chars "CC")
    with (0x3A :: (chars "0500000100" ++ hex_text 4 first ++ hex_text 4 last ++ chars "CC")).
  rewrite (app_assoc (hex_text 4 first)), app_assoc.
  apply sends_record; rewrite ?lenZ_app, ?lenZ_hex4 by done; done.
Qed.

(** *** Data *)

Definition programmed (n : Z) (data : list Z) (u : upload) : upload :=
  Upload (currentOffset u + n) (totalBytes u + n) (fold_left add_hash data (verifyCheckSum u)).

Lemma programmed_none u : programmed 0 [] u = u.
Proof. destruct u. unfold programmed. cbn. f_equal; lia. Qed.

Lemma sends_checksum x n : 0 <= x < 256 ->
  sends (send_checksum fns (S n) (hex_text 2 x ++ [0])) IS_OP_OK (hex_text 2 x).
Proof.
  intros Hx. pose proof (lenZ_hex2 x Hx) as H2. cbn [send_checksum].
  apply (sends_last _ _ 2).
  - assert (takeZ 2 (hex_text 2 x ++ [0]) = hex_text 2 x) as E
      by (unfold takeZ; rewrite take_app_le by (unfold lenZ in H2; lia); apply take_ge; unfold lenZ in H2; lia).
    pose proof (sends_write (hex_text 2 x ++ [0]) 2) as H. rewrite E in H. apply H.
    rewrite lenZ_app, H2. change (lenZ [0]) with 1. lia.
  - cbn beta. change (negb (2 =? 2)) with false. cbv iota.
    eapply sends_pure; [by apply sends_read|]. cbv iota beta.
    rewrite bool_decide_eq_true_2 by done. apply sends_ret.
Qed.

Lemma sends_page hexData n u : 0 < n <= 255 -> 0 <= currentOffset u < 65536 -> 2 * n <= lenZ hexData ->
  let data := takeZ (2 * n) hexData in
  sends (upload_hex_page fns hexData n u) (programmed n data u, IS_OP_OK)
    (op_text (Program (currentOffset u) data)).
Proof.
  intros Hn Ho Hl data. unfold upload_hex_page. rewrite (proj2 (Z.eqb_neq n 0)) by lia.
  assert (lenZ data = 2 * n) as Hd by (unfold data; rewrite lenZ_takeZ; lia).
  set (head := hex_text 2 n ++ hex_text 4 (currentOffset u) ++ chars "00").
  assert (lenZ head = 8) as Hh by (unfold head; rewrite !lenZ_app, lenZ_hex2, lenZ_hex4 by lia; done).
  assert (op_text (Program (currentOffset u) data) =
    (0x3A :: head) ++ data ++ hex_text 2 (u8 (- sum_pairs (head ++ data)))) as ->.
  { unfold op_text, record_text. cbn [op_body]. rewrite Hd. replace (2 * n / 2) with n by zlia.
    unfold head. cbn [app]. by rewrite <- !app_assoc. }
  change ([0x3A] ++ head) with (0x3A :: head).
  assert (snprintf 12 (0x3A :: head) = (0x3A :: head) ++ [0]) as ->
    by (unfold snprintf; by rewrite takeZ_all by (rewrite lenZ_cons; lia)).
  assert (takeZ 9 ((0x3A :: head) ++ [0]) = 0x3A :: head) as E9.
  { replace 9 with (lenZ (0x3A :: head)) by (rewrite lenZ_cons; lia).
    apply takeZ_app_len. }
  pose proof (sends_write ((0x3A :: head) ++ [0]) 9) as W9. rewrite E9 in W9.
  eapply sends_bind; [apply W9; rewrite lenZ_app, lenZ_cons; change (lenZ [0]) with 1; lia|].
  cbn beta. change (negb (9 =? 9)) with false. cbv iota.
  eapply sends_lift.
  { unfold checksum. change (dropZ 1 ((0x3A :: head) ++ [0])) with (head ++ [0]).
    change (9 - 1) with 8. rewrite <- Hh, take_exact_ok by (rewrite lenZ_app; change (lenZ [0]) with 1; lia).
    cbn [mbind option_bind]. change (0 =? 0) with true. cbv iota. cbn [mbind option_bind]. reflexivity. }
  assert (takeZ (lenZ head) (head ++ [0]) = head) as ->
    by apply takeZ_app_len.
  cbv iota beta. replace (n * 2) with (2 * n) by lia.
  eapply sends_bind; [apply sends_write; lia|]. cbn beta. rewrite Z.eqb_refl. cbn [negb].
  eapply sends_lift; [by rewrite take_exact_ok by lia|]. fold data. cbn beta.
  eapply sends_lift.
  { unfold checksum. rewrite dropZ_0, Z.sub_0_r, take_exact_ok by lia. fold data.
    cbn [mbind option_bind]. change (0 =? 0) with true. cbv iota. cbn [mbind option_bind]. reflexivity. }
  cbv iota beta. rewrite u8_negate. replace (0 + sum_pairs head + sum_pairs data) with (sum_pairs (head ++ data))
    by (rewrite sum_pairs_app; [lia|exists 4%nat; unfold lenZ in Hh; lia]).
  set (ck := u8 (- sum_pairs (head ++ data))).
  assert (0 <= ck < 256) as Hck by (by apply Z.mod_pos_bound).
  rewrite snprintf_hex2 by done. 
  eapply sends_last; [by apply sends_checksum|]. cbn beta. change (negb (IS_OP_OK =? IS_OP_OK)) with false.
  cbv iota. apply sends_ret.
Qed.

(** The characters given to one call, which do not cross the end of the page. *)
Lemma sends_upload hexData n u : 0 <= n <= MAX_SEND_COUNT -> n mod 2 = 0 -> n <= lenZ hexData ->
  0 <= currentOffset u -> currentOffset u + n / 2 <= FLASH_PAGE_SIZE ->
  exists ops, programs (currentOffset u) (takeZ n hexData) ops /\
    sends (upload_hex fns hexData n u) (programmed (n / 2) (takeZ n hexData) u, IS_OP_OK) (ops_text ops).
Proof.
  unfold MAX_SEND_COUNT, FLASH_PAGE_SIZE. intros Hn Hev Hl Ho Hp. unfold upload_hex, MAX_SEND_COUNT.
  rewrite (proj2 (Z.ltb_ge 510 n)) by lia. destruct (Z.eqb_spec n 0) as [->|Hne].
  { exists []. rewrite takeZ_0. split; [constructor|]. change (0 / 2) with 0. rewrite programmed_none.
    apply sends_ret. }
  exists [Program (currentOffset u) (takeZ n hexData)].
  assert (lenZ (takeZ n hexData) = n) as Ht by (rewrite lenZ_takeZ; lia). split.
  { rewrite <- (app_nil_r (takeZ n hexData)) at 1. constructor; rewrite ?Ht; [unfold MAX_SEND_COUNT; lia|done|].
    constructor. }
  unfold FLASH_PAGE_SIZE. rewrite (proj2 (Z.ltb_ge 65536 _)) by lia. eapply sends_pure; [apply sends_ret|].
  cbv iota beta. change (negb (IS_OP_OK =? IS_OP_OK)) with false. cbv iota.
  rewrite (proj2 (Z.eqb_neq n 0) Hne). cbn [negb].
  assert (n = 2 * (n / 2)) as E2 by zlia. assert (0 < n / 2) by lia. unfold ops_text. cbn [map concat]. rewrite app_nil_r.
  apply (sends_last _ _ (programmed (n / 2) (takeZ n hexData) u, IS_OP_OK)).
  - pose proof (sends_page hexData (n / 2) u ltac:(lia) ltac:(lia) ltac:(lia)) as Hpg. cbv zeta in Hpg.
    by rewrite <- E2 in Hpg.
  - cbv iota beta. change (negb (IS_OP_OK =? IS_OP_OK)) with false. cbv iota. apply sends_ret.
Qed.

Lemma programmed_twice n k l l' u :
  programmed k l' (programmed n l u) = programmed (n + k) (l ++ l') u.
Proof. unfold programmed. cbn. rewrite fold_left_app. f_equal; lia. Qed.

Definition filling (n : Z) : list Z := repeat 0x46 (Z.to_nat (2 * n)).

Lemma lenZ_filling n : lenZ (filling n) = 2 * Z.max 0 n.
Proof. unfold filling, lenZ. rewrite repeat_length. lia. Qed.

Lemma filling_add n k : 0 <= n -> 0 <= k -> filling (n + k) = filling n ++ filling k.
Proof. intros. unfold filling. rewrite <- repeat_app. f_equal. lia. Qed.

Lemma sends_fill_loop fuel u : 0 <= currentOffset u <= FLASH_PAGE_SIZE ->
  FLASH_PAGE_SIZE - currentOffset u <= Z.of_nat fuel ->
  let rest := FLASH_PAGE_SIZE - currentOffset u in
  exists ops, programs (currentOffset u) (filling rest) ops /\
    sends (fill_loop fns fuel u) (programmed rest (filling rest) u) (ops_text ops).
Proof.
  unfold FLASH_PAGE_SIZE. revert u. induction fuel as [|fuel IH]; intros u Ho Hf; set (rest := 65536 - currentOffset u).
  - exists []. assert (currentOffset u = 65536) as E by lia. unfold rest. rewrite E. split; [constructor|].
    cbn [fill_loop]. unfold FLASH_PAGE_SIZE. rewrite (proj2 (Z.ltb_ge _ _)) by lia.
    change (filling (65536 - 65536)) with (@nil Z). rewrite programmed_none. apply sends_ret.
  - cbn [fill_loop]. unfold FLASH_PAGE_SIZE. destruct (Z.ltb_spec (currentOffset u) 65536) as [Hlt|Hge].
    + set (n := Z.min 256 ((65536 - currentOffset u) * 2)). set (k := n / 2).
      assert (n = 2 * k /\ 0 < k <= 128 /\ k <= rest) as (En & Hk & Hkr)
        by (unfold k, n, rest in *; zlia).
      assert (takeZ (2 * k) (repeat 0x46 256) = filling k) as Ef.
      { change (repeat 0x46 256) with (filling 128). replace 128 with (k + (128 - k)) by lia.
        rewrite filling_add by lia. replace (2 * k) with (lenZ (filling k)) by (rewrite lenZ_filling; lia).
        apply takeZ_app_len. }
      pose proof (sends_page (repeat 0x46 256) k u ltac:(lia) ltac:(lia) ltac:(change (lenZ (repeat 70 256)) with 256; lia))
        as Hp. cbv zeta in Hp. rewrite Ef in Hp.
      destruct (IH (programmed k (filling k) u)) as (ops & Hops & Hs); cbn [currentOffset programmed]; [lia|lia|].
      exists (Program (currentOffset u) (filling k) :: ops). split.
      * replace rest with (k + (65536 - (currentOffset u + k))) by (unfold rest; lia).
        rewrite filling_add by lia. pose proof (lenZ_filling k). constructor.
        -- unfold MAX_SEND_COUNT. lia.
        -- zlia.
        -- cbn [currentOffset programmed] in Hops. by replace (lenZ (filling k) / 2) with k by zlia.
      * unfold ops_text. cbn [map concat]. eapply sends_bind; [exact Hp|]. cbv iota beta.
        change (negb (IS_OP_OK =? IS_OP_OK)) with false. cbv iota.
        cbn [currentOffset programmed] in Hs. rewrite programmed_twice, <- filling_add in Hs by lia.
        by replace (k + (65536 - (currentOffset u + k))) with rest in Hs by (unfold rest; lia).
    + assert (currentOffset u = 65536) as E by lia. exists []. unfold rest. rewrite E. split; [constructor|].
      change (filling (65536 - 65536)) with (@nil Z). rewrite programmed_none. apply sends_ret.
Qed.

(** The rest of the page is filled. *)
Lemma sends_fill u : 0 <= currentOffset u <= FLASH_PAGE_SIZE ->
  let rest := FLASH_PAGE_SIZE - currentOffset u in
  exists ops, programs (currentOffset u) (filling rest) ops /\
    sends (fill_current_page fns u) (programmed rest (filling rest) u) (ops_text ops).
Proof. intros Ho. apply sends_fill_loop; [done|unfold fill_fuel; lia]. Qed.
End Answered.
End IsbProps.
