(* ===== verification/IsbUpload.v ===== *)
(** * Hex files of the ISB bootloader

    What the lines of a hex file mean, as the contents of the pages they write to, and
    the records [download_image] sends for them to a device that answers. *)

From stdpp Require Import strings.
From S2P Require Import Prelude Printf CommRx CommTx SerialPort IsbBootloader IsbProps.
Import IsbBootloader IsbProps.
#[local] Open Scope string_scope.
#[local] Open Scope list_scope.
#[local] Open Scope Z_scope.

Module IsbUpload.

(** ** Lines *)

(** The lines a file has, with the digits of their checksums: data, the choice of a page
    by the last digit of its number, the address the program starts at, the end. *)
Inductive hex_line :=
  | DataLine (offset : Z) (data ck : list Z)
  | PageLine (high : list Z) (page : Z) (ck : list Z)
  | StartLine (address ck : list Z)
  | EndLine.

Definition line_text (l : hex_line) : list Z :=
  match l with
  | DataLine offset data ck =>
    [0x3A] ++ hex_text 2 (lenZ data / 2) ++ hex_text 4 offset ++ chars "00" ++ data ++ ck
  | PageLine high page ck => chars ":020000040" ++ high ++ [upper_digit page] ++ ck
  | StartLine address ck => chars ":04000005" ++ address ++ ck
  | EndLine => chars ":00000001FF"
  end.

Definition hex (l : list Z) : Prop := Forall (fun c => is_hex c = true) l.

Definition line_ok (l : hex_line) : Prop :=
  match l with
  | DataLine offset data ck =>
    0 <= offset < FLASH_PAGE_SIZE /\ 0 < lenZ data <= MAX_SEND_COUNT /\ lenZ data mod 2 = 0 /\
    hex data /\ hex ck /\ lenZ ck = 2
  | PageLine high page ck => 0 <= page < 16 /\ hex high /\ lenZ high = 2 /\ hex ck /\ lenZ ck = 2
  | StartLine address ck => hex address /\ lenZ address = 8 /\ hex ck /\ lenZ ck = 2
  | EndLine => True
  end.

(** A character of a line: one of the digits or the colon. *)
Definition plain (c : Z) : Prop := 0x30 <= c <= 0x46.

Lemma hex_plain l : hex l -> Forall plain l.
Proof.
  apply Forall_impl. intros c Hc. unfold is_hex in Hc. unfold plain.
  repeat (apply orb_true_iff in Hc as [Hc|Hc] || apply andb_true_iff in Hc as [? ?]); lia.
Qed.

Lemma upper_digit_facts d : 0 <= d < 16 ->
  plain (upper_digit d) /\ is_hex (upper_digit d) = true /\ hex_digit (upper_digit d) = Some d /\
  isspace (upper_digit d) = false /\ upper_digit d <> 0x78 /\ upper_digit d <> 0x58.
Proof.
  intros H. unfold upper_digit, plain, is_hex, hex_digit, isspace.
  destruct (Z.ltb_spec d 10); split_cmp; cbn; repeat split; try lia; try (f_equal; lia).
Qed.

Lemma hex_fixed_plain n x : Forall plain (hex_fixed n x).
Proof.
  revert x. induction n as [|n IH]; intros x; cbn; [done|]. apply Forall_app. split; [done|].
  apply Forall_singleton. apply upper_digit_facts. by apply Z.mod_pos_bound.
Qed.

Lemma line_plain l : line_ok l -> Forall plain (line_text l).
Proof.
  assert (forall s, forallb (fun c => (0x30 <=? c) && (c <=? 0x46)) s = true -> Forall plain s) as Hs.
  { induction s as [|c s IH]; intros H; [constructor|]. cbn [forallb] in H.
    apply andb_true_iff in H as [Hc H]. constructor; [unfold plain; lia|auto]. }
  destruct l as [offset data ck|high page ck|address ck|]; cbn [line_text line_ok].
  - intros (? & ? & ? & ? & ? & ?). unfold hex_text. repeat apply Forall_app_2; auto using hex_plain, hex_fixed_plain.
  - intros (Hp & ? & ? & ? & ?). repeat apply Forall_app_2; auto using hex_plain.
    apply Forall_singleton. by apply upper_digit_facts.
  - intros (? & ? & ? & ?). repeat apply Forall_app_2; auto using hex_plain.
  - intros _. by apply Hs.
Qed.

(** A line ends with a newline, with or without a carriage return. *)
Inductive line_end : list Z -> Prop := lf : line_end [0x0A] | crlf : line_end [0x0D; 0x0A].

Lemma read_line_plain l eol rest places : Forall plain l -> line_end eol -> lenZ l < places ->
  read_line (l ++ eol ++ rest) places = (l, rest).
Proof.
  intros Hl He. revert places. induction Hl as [|c l Hc Hl IH]; intros places Hp.
  - rewrite lenZ_nil in Hp. destruct He; cbn; split_cmp; try lia; try done.
  - rewrite lenZ_cons in Hp. pose proof (lenZ_nonneg l). unfold plain in Hc. cbn [app read_line].
    rewrite !(proj2 (Z.eqb_neq _ _)) by lia. cbn [orb]. by rewrite IH by lia.
Qed.

Lemma text_plain l : Forall plain l -> text l = l.
Proof.
  induction 1 as [|c l Hc Hl IH]; [done|]. unfold plain in Hc. cbn [text].
  rewrite (proj2 (Z.eqb_neq _ _)) by lia. by rewrite IH.
Qed.

Lemma strtol16_digits ds : Forall (fun d => 0 <= d < 16) ds ->
  strtol16 (map upper_digit ds) = fold_left (fun acc d => 16 * acc + d) ds 0.
Proof.
  assert (forall ds acc, Forall (fun d => 0 <= d < 16) ds ->
    hex_digits acc (map upper_digit ds) = fold_left (fun acc d => 16 * acc + d) ds acc) as Hd.
  { clear ds. induction ds as [|d ds IH]; intros acc H; [done|]. apply Forall_cons_iff in H as [Hd H].
    cbn. destruct (upper_digit_facts d Hd) as (_ & _ & -> & _). by apply IH. }
  intros H. destruct H as [|d ds Hd1 H]; [done|]. cbn [map strtol16].
  destruct (upper_digit_facts d Hd1) as (Hp & _ & _ & -> & _). unfold plain in Hp.
  rewrite !(proj2 (Z.eqb_neq _ _)) by lia. unfold hex_prefixed.
  destruct H as [|x ds Hx H]; [apply (Hd [d] 0); auto|]. cbn [map].
  destruct H as [|y ds Hy H]; [apply (Hd [d; x] 0); auto|]. cbn [map].
  destruct (upper_digit_facts x Hx) as (_ & _ & _ & _ & Hx1 & Hx2).
  rewrite (proj2 (Z.eqb_neq _ _) Hx1), (proj2 (Z.eqb_neq _ _) Hx2), andb_false_r. cbn [andb].
  apply (Hd (d :: x :: y :: ds) 0). auto.
Qed.

(** The four digits of an offset. *)
Lemma hex4_digits x : 0 <= x < 65536 -> exists a b c d,
  hex_text 4 x = [a; b; c; d] /\ strtol16 [a; b; c; d] = x.
Proof.
  intros H. rewrite hex_text_fixed by (cbn; lia). cbn [hex_fixed app]. do 4 eexists. split; [reflexivity|].
  match goal with |- strtol16 [upper_digit ?a; upper_digit ?b; upper_digit ?c; upper_digit ?d] = _ =>
    change (strtol16 (map upper_digit [a; b; c; d]) = x) end.
  rewrite strtol16_digits by (repeat apply Forall_cons_2; auto; apply Z.mod_pos_bound; lia). cbn [fold_left]. zlia.
Qed.

(** ** What a file means *)

(** An entry: an offset in the page, and the digits of its data. *)
Abbreviation entry := (Z * list Z)%type.

(** The image of a page from an offset on: the entries are written over unused memory. *)
Definition page_image (start : Z) (es : list entry) : list Z :=
  fold_left (fun image '(offset, data) => updZ (2 * (offset - start)) data image) es
    (filling (FLASH_PAGE_SIZE - start)).

(** The lines of a page: their offsets ascend from [last] on; a gap and the data behind
    it are 255 bytes at most. *)
Inductive page_lines : Z -> list hex_line -> list entry -> Prop :=
  | no_lines last : page_lines last [] []
  | data_lines last offset data ck lines es :
      line_ok (DataLine offset data ck) -> last <= offset ->
      2 * (offset - last) + lenZ data <= MAX_SEND_COUNT ->
      offset + lenZ data / 2 <= FLASH_PAGE_SIZE ->
      page_lines (offset + lenZ data / 2) lines es ->
      page_lines last (DataLine offset data ck :: lines) ((offset, data) :: es)
  | start_line last address ck lines es :
      line_ok (StartLine address ck) -> page_lines last lines es ->
      page_lines last (StartLine address ck :: lines) es.

(** The pages behind the first one, and the end. *)
Inductive more_pages : list hex_line -> list (Z * list entry) -> Prop :=
  | last_page : more_pages [EndLine] []
  | next_page high page ck lines es rest ps :
      line_ok (PageLine high page ck) -> page <> 0 -> page_lines 0 lines es -> es <> [] ->
      more_pages rest ps -> more_pages (PageLine high page ck :: lines ++ rest) ((page, es) :: ps).

(** A file, the entries of page zero from [start] on, and those of the other pages. *)
Inductive hex_file (start : Z) : list hex_line -> list entry -> list (Z * list entry) -> Prop :=
  | hex_file_pages high ck lines es rest ps :
      line_ok (PageLine high 0 ck) -> page_lines start lines es -> more_pages rest ps ->
      hex_file start (PageLine high 0 ck :: lines ++ rest) es ps.

Definition file_text (eol : list Z) (lines : list hex_line) : list Z :=
  concat (map (fun l => line_text l ++ eol) lines).

(** The records for the pages behind the first one. *)
Inductive uploads : list (Z * list entry) -> list op -> Prop :=
  | uploads_nil : uploads [] []
  | uploads_cons page es ps ops ops' :
      programs 0 (page_image 0 es) ops -> uploads ps ops' ->
      uploads ((page, es) :: ps) (SelectPage page :: Begin 0 (FLASH_PAGE_SIZE - 1) :: ops ++ ops').

(** The data of the pages behind the first one, and the number of the last page. *)
Definition images (ps : list (Z * list entry)) : list Z :=
  concat (map (fun '(_, es) => page_image 0 es) ps).
Definition last_page_of (page : Z) (ps : list (Z * list entry)) : Z :=
  fold_left (fun _ '(page, _) => page) ps page.

(** The data of a page up to its last entry, with the gaps. *)
Fixpoint stream (last : Z) (es : list entry) : list Z :=
  match es with
  | [] => []
  | (offset, data) :: es => filling (offset - last) ++ data ++ stream (offset + lenZ data / 2) es
  end.

(** A page's image is its stream, and the rest of the page is unused. *)
Lemma stream_image start last lines es pre : page_lines last lines es ->
  lenZ pre = 2 * (last - start) -> last <= FLASH_PAGE_SIZE ->
  exists next, lenZ (stream last es) = 2 * (next - last) /\ last <= next <= FLASH_PAGE_SIZE /\
    (es <> [] -> last < next) /\
    fold_left (fun image '(offset, data) => updZ (2 * (offset - start)) data image) es
      (pre ++ filling (FLASH_PAGE_SIZE - last)) =
    pre ++ stream last es ++ filling (FLASH_PAGE_SIZE - next).
Proof.
  intros Hp. revert pre. induction Hp as [last|last offset data ck lines es (Ho & Hd & He & _) Hle Hg Hend Hp IH|
    last address ck lines es _ Hp IH]; intros pre Hl Hlast.
  - exists last. cbn [stream fold_left app]. change (lenZ []) with 0.
    split; [lia|]. split; [lia|]. split; [done|done].
  - assert (lenZ data = 2 * (lenZ data / 2)) as Hdd by zlia. set (k := lenZ data / 2) in *.
    assert (filling (FLASH_PAGE_SIZE - last) = filling (offset - last) ++ filling k ++
      filling (FLASH_PAGE_SIZE - (offset + k))) as ->.
    { rewrite <- !filling_add by lia. f_equal. lia. }
    destruct (IH (pre ++ filling (offset - last) ++ data)) as (next & Hn1 & Hn2 & _ & Hf).
    { rewrite !lenZ_app, lenZ_filling. lia. }
    { lia. }
    exists next. cbn [stream fold_left]. fold k. rewrite !lenZ_app, lenZ_filling, Hn1.
    split; [lia|]. split; [lia|]. split; [lia|].
    replace (2 * (offset - start)) with (lenZ (pre ++ filling (offset - last)))
      by (rewrite lenZ_app, lenZ_filling; lia).
    rewrite (app_assoc pre), updZ_middle by (rewrite lenZ_filling; lia).
    rewrite <- !app_assoc. rewrite <- !app_assoc in Hf. exact Hf.
  - by apply IH.
Qed.

Lemma page_image_stream start lines es : page_lines start lines es -> start <= FLASH_PAGE_SIZE ->
  exists next, lenZ (stream start es) = 2 * (next - start) /\ start <= next <= FLASH_PAGE_SIZE /\
    (es <> [] -> start < next) /\
    page_image start es = stream start es ++ filling (FLASH_PAGE_SIZE - next).
Proof.
  intros Hp Hs. destruct (stream_image start start lines es [] Hp) as (next & H1 & H2 & H3 & H4); [rewrite lenZ_nil; lia|done|].
  exists next. by rewrite !app_nil_l in H4.
Qed.

(** ** Reading a line *)

Section Uploaded.
Context {D : Type} (fns : serial_fns D).
Context (m_update_callback : Z -> Z -> serial_port_t D -> serial_port_t D * Z).
Context (log : D -> list Z) (Han : answering fns m_update_callback log).
Context (eol : list Z) (Heol : line_end eol).
#[local] Abbreviation sends := (sends log).

(** What a line leads to when it does not end the reading. *)
Definition step_to (line : list Z) (st st' : hex_state) (sent : list Z) : Prop :=
  sends (process_line fns line st) (Skip st') sent \/ sends (process_line fns line st) (Next st') sent.

(** The lines from here on lead to a result, whatever position was reported. *)
Definition reads (fuel : nat) (size : Z) (file : list Z) (st : hex_state) (res : hex_state * Z * Z)
    (sent : list Z) : Prop :=
  forall shown, sends (hex_loop fns m_update_callback fuel size shown file st) res sent.

Lemma sends_callback n k : sends (call (m_update_callback n k)) IS_OP_OK [].
Proof.
  intros s Hh. destruct (an_callback _ _ _ Han n k s) as (s' & E & Hh' & L). exists s'. unfold call.
  rewrite E. split; [done|]. split; [congruence|]. by rewrite app_nil_r.
Qed.

Lemma read_line_text l rest : line_ok l ->
  is_isb_read_line (line_text l ++ eol ++ rest) = (line_text l, rest, lenZ (line_text l)) /\
  0 < lenZ (line_text l) < 1023.
Proof.
  intros Hl. assert (0 < lenZ (line_text l) < 1023) as Hlen.
  { assert (forall x, 0 <= x < 256 -> lenZ (hex_text 2 x) = 2) as H2 by apply lenZ_hex2.
    destruct l as [offset data ck|high page ck|address ck|]; cbn [line_ok line_text] in *;
      unfold MAX_SEND_COUNT, FLASH_PAGE_SIZE in *; rewrite ?lenZ_app, ?lenZ_hex4 by lia.
    - rewrite lenZ_hex2 by zlia. change (lenZ [0x3A]) with 1. change (lenZ (chars "00")) with 2. lia.
    - change (lenZ (chars ":020000040")) with 10. change (lenZ [upper_digit page]) with 1. lia.
    - change (lenZ (chars ":04000005")) with 9. lia.
    - done. }
  split; [|done]. unfold is_isb_read_line. rewrite (read_line_plain _ eol rest 1023); [|by apply line_plain|done|lia].
  by rewrite (proj2 (Z.eqb_neq _ _)) by lia.
Qed.

Lemma reads_line l rest st st' sent res sent' fuel size : line_ok l ->
  step_to (line_text l) st st' sent -> reads fuel size rest st' res sent' ->
  reads (S fuel) size (line_text l ++ eol ++ rest) st res (sent ++ sent').
Proof.
  intros Hl Hs Hr shown. destruct (read_line_text l rest Hl) as [Hread Hlen]. cbn [hex_loop].
  rewrite Hread, (proj2 (Z.eqb_neq _ _)) by lia. destruct Hs as [Hs|Hs]; eapply sends_bind; try exact Hs.
  - cbv iota beta. apply Hr.
  - cbv iota beta. eapply sends_pure; [apply sends_callback|]. cbn beta.
    change (negb (IS_OP_OK =? IS_OP_OK)) with false. cbv iota. apply Hr.
Qed.

(** The end of the file behind its last line, whose position is reported. *)
Lemma reads_last l st st' sent fuel size : line_ok l ->
  sends (process_line fns (line_text l) st) (Next st') sent ->
  reads (S (S fuel)) size (line_text l ++ eol) st (st', size, IS_OP_OK) sent.
Proof.
  intros Hl Hs shown. destruct (read_line_text l [] Hl) as [Hread Hlen]. rewrite app_nil_r in Hread.
  cbn [hex_loop]. rewrite Hread, (proj2 (Z.eqb_neq _ _)) by lia. rewrite <- (app_nil_r sent).
  eapply sends_bind; [exact Hs|]. cbv iota beta. eapply sends_pure; [apply sends_callback|]. cbn beta.
  change (negb (IS_OP_OK =? IS_OP_OK)) with false. cbv iota.
  change (is_isb_read_line []) with (@nil Z, @nil Z, 0). cbv iota beta. change (0 =? 0) with true. cbv iota.
  change (lenZ (@nil Z)) with 0. rewrite Z.sub_0_r. apply sends_ret.
Qed.

(** ** The lines *)

(** The variables between two lines: what is buffered is behind what has been programmed. *)
Definition ready (u : upload) (last : Z) (out : list Z) : Prop :=
  0 <= currentOffset u /\ lenZ out < MAX_SEND_COUNT /\ lenZ out mod 2 = 0 /\
  last = currentOffset u + lenZ out / 2 /\ last <= FLASH_PAGE_SIZE.

(** The fields of a data line. *)
Lemma data_line_fields offset data ck : line_ok (DataLine offset data ck) ->
  let line := line_text (DataLine offset data ck) in
  lenZ line = lenZ data + 11 /\ is_type 0x30 line = true /\ strtol16 (subZ 3 4 line) = offset /\
  subZ 9 (lenZ data) line = data.
Proof.
  intros (Ho & Hd & He & _ & _ & Hck). cbn [line_text]. unfold MAX_SEND_COUNT, FLASH_PAGE_SIZE in *.
  destruct (hex2_pair (lenZ data / 2)) as [-> _]; [zlia|].
  destruct (hex4_digits offset Ho) as (a & b & c & d & -> & Hn). cbn [app].
  split; [rewrite !lenZ_cons, !lenZ_app; change (lenZ (chars "00")) with 2; lia|].
  split; [done|]. split; [exact Hn|]. unfold subZ. change (dropZ 9 _) with (data ++ ck). apply takeZ_app_len.
Qed.

Lemma push_output_ok l out : lenZ out + lenZ l <= 2048 -> push_output l out = Some (out ++ l).
Proof. intros H. unfold push_output, HEX_BUFFER_SIZE. by rewrite (proj2 (Z.leb_le _ _)) by lia. Qed.

Lemma has_room out n : lenZ out + n < 2048 -> no_room out n = false.
Proof. intros H. unfold no_room, HEX_BUFFER_SIZE. apply Z.leb_gt. lia. Qed.

Lemma sends_pad u page last out offset : last <= offset -> lenZ out + 2 * (offset - last) < 2048 ->
  sends (pad_output offset (HexState u page last out)) (Some (out ++ filling (offset - last))) [].
Proof.
  intros Hle Hr. pose proof (lenZ_nonneg out). unfold pad_output. cbn [lastSubOffset output].
  destruct (Z.ltb_spec 0 (offset - last)) as [Hlt|Hge].
  - rewrite has_room by lia. eapply sends_lift; [|apply sends_ret].
    apply (push_output_ok (filling (offset - last))). rewrite lenZ_filling. lia.
  - replace (offset - last) with 0 by lia. unfold filling. cbn [Z.to_nat Z.mul repeat].
    rewrite app_nil_r. apply sends_ret.
Qed.

(** What follows when the data of a line is in the array. *)
Definition after_data (u : upload) (page last : Z) (out : list Z) : M line_result :=
  if lenZ out <? MAX_SEND_COUNT then ret (Skip (HexState u page last out))
  else
    '(u, r) ← upload_hex fns out (Z.min MAX_SEND_COUNT (lenZ out)) u;
    if negb (r =? IS_OP_OK) then ret (Fail IS_OP_ERROR) else
    let outputSize := lenZ out - MAX_SEND_COUNT in
    if (outputSize <? 0) || (HEX_BUFFER_SIZE <? outputSize) then ret (Fail IS_OP_ERROR)
    else ret (Next (HexState u page last (dropZ MAX_SEND_COUNT out))).

Lemma sends_data_line u page last out offset data ck x k : ready u last out ->
  line_ok (DataLine offset data ck) -> last <= offset ->
  2 * (offset - last) + lenZ data <= MAX_SEND_COUNT ->
  sends (after_data u page (offset + lenZ data / 2) (out ++ filling (offset - last) ++ data)) x k ->
  sends (process_line fns (line_text (DataLine offset data ck)) (HexState u page last out)) x k.
Proof.
  intros (Hu & Ho & Hev & Hlast & _) Hl Hle Hg Hx.
  destruct (data_line_fields offset data ck Hl) as (Hlen & Hty & Hnum & Hdat). cbv zeta in *.
  destruct Hl as (Hoff & Hd & Hde & _). unfold MAX_SEND_COUNT in *. pose proof (lenZ_nonneg out).
  set (line := line_text (DataLine offset data ck)) in *. unfold process_line.
  rewrite Hty, (proj2 (Z.ltb_lt 12 _)) by zlia. cbn [andb]. unfold data_line.
  rewrite (proj2 (Z.ltb_ge (HEX_BUFFER_SIZE * 4) _)) by (unfold HEX_BUFFER_SIZE; lia). rewrite Hnum.
  eapply sends_pure; [apply sends_pad; lia|]. cbv iota beta.
  assert (lenZ line - 11 = lenZ data) as -> by lia. rewrite has_room by (rewrite lenZ_app, lenZ_filling; lia).
  rewrite Hdat. eapply sends_lift.
  { apply push_output_ok. rewrite lenZ_app, lenZ_filling. lia. }
  cbn beta. rewrite <- app_assoc. exact Hx.
Qed.

(** A data line is buffered, or completes 255 bytes that are programmed. *)
Lemma data_step u page last out offset data ck : ready u last out ->
  line_ok (DataLine offset data ck) -> last <= offset ->
  2 * (offset - last) + lenZ data <= MAX_SEND_COUNT -> offset + lenZ data / 2 <= FLASH_PAGE_SIZE ->
  exists ops sent out', let u' := programmed (lenZ sent / 2) sent u in
    programs (currentOffset u) sent ops /\ lenZ sent mod 2 = 0 /\
    sent ++ out' = out ++ filling (offset - last) ++ data /\ ready u' (offset + lenZ data / 2) out' /\
    step_to (line_text (DataLine offset data ck)) (HexState u page last out)
      (HexState u' page (offset + lenZ data / 2) out') (ops_text ops).
Proof.
  intros Hrd Hl Hle Hg Hend. unfold step_to.
  pose proof (fun x k => sends_data_line u page last out offset data ck x k Hrd Hl Hle Hg) as Hstep.
  destruct Hrd as (Hu & Ho & Hev & Hlast & _). destruct Hl as (Hoff & Hd & Hde & _).
  set (full := out ++ filling (offset - last) ++ data) in *. unfold MAX_SEND_COUNT in Hd, Hg, Ho.
  assert (lenZ full = lenZ out + 2 * (offset - last) + lenZ data) as Hfull
    by (unfold full; rewrite !lenZ_app, lenZ_filling; lia).
  unfold after_data, MAX_SEND_COUNT in Hstep. destruct (Z.ltb_spec (lenZ full) 510) as [Hlt|Hge].
  - exists [], [], full. change (lenZ []) with 0. change (0 / 2) with 0.
    rewrite programmed_none.
    split; [constructor|]. split; [done|]. split; [done|]. split.
    { unfold ready, MAX_SEND_COUNT. rewrite Hfull. repeat split; zlia. }
    left. apply Hstep, sends_ret.
  - destruct (sends_upload fns m_update_callback log Han full 510 u) as (ops & Hops & Hs);
      [unfold MAX_SEND_COUNT; lia|done|lia|done|unfold FLASH_PAGE_SIZE in *; zlia|].
    exists ops, (takeZ 510 full), (dropZ 510 full).
    assert (lenZ (takeZ 510 full) = 510) as H5 by (rewrite lenZ_takeZ; lia). rewrite H5.
    split; [done|]. split; [done|]. split; [apply takeZ_dropZ|]. split.
    { unfold ready, MAX_SEND_COUNT, programmed. cbn [currentOffset]. rewrite lenZ_dropZ, Hfull.
      change (510 / 2) with 255. repeat split; zlia. }
    right. apply Hstep. rewrite Z.min_l by lia. apply (sends_last _ _ _ _ _ _ Hs). cbv iota beta.
    change (negb (IS_OP_OK =? IS_OP_OK)) with false. cbv iota zeta. unfold HEX_BUFFER_SIZE.
    rewrite (proj2 (Z.ltb_ge _ _)), (proj2 (Z.ltb_ge _ _)) by lia. cbn [orb]. apply sends_ret.
Qed.

(** The address at which the program starts is not used. *)
Lemma start_line_skipped address ck st :
  process_line fns (line_text (StartLine address ck)) st = ret (Next st).
Proof.
  unfold process_line. cbn [line_text].
  assert (forall c, c <> 0x35 -> is_type c (chars ":04000005" ++ address ++ ck) = false) as Hty.
  { intros c Hc. unfold is_type. change (byte_at (chars ":04000005" ++ address ++ ck) 8) with 0x35.
    rewrite (proj2 (Z.eqb_neq 0x35 c)) by congruence. apply andb_false_r. }
  rewrite !Hty, !andb_false_r by done. rewrite bool_decide_eq_false_2; [done|].
  intros E. apply (f_equal (take 3)) in E. discriminate.
Qed.

(** The data lines of a page. *)
Lemma page_run lines last es : page_lines last lines es -> forall u page out, ready u last out ->
  exists ops sent u' last' out',
    programs (currentOffset u) sent ops /\ lenZ sent mod 2 = 0 /\ u' = programmed (lenZ sent / 2) sent u /\
    sent ++ out' = out ++ stream last es /\ ready u' last' out' /\
    forall fuel size rest res k, reads fuel size rest (HexState u' page last' out') res k ->
      reads (length lines + fuel) size (file_text eol lines ++ rest) (HexState u page last out) res
        (ops_text ops ++ k).
Proof.
  induction 1 as [last|last offset data ck lines es Hl Hle Hg Hend Hp IH|last address ck lines es Hl Hp IH];
    intros u page out Hr.
  - exists [], [], u, last, out. split; [constructor|]. split; [done|].
    change (lenZ [] / 2) with 0. rewrite programmed_none.
    split; [done|]. split; [by rewrite app_nil_r|]. split; [done|]. intros. done.
  - destruct (data_step u page last out offset data ck Hr Hl Hle Hg Hend)
      as (ops & sent & out1 & Hops & Hev & Hs & Hr1 & Hstep). cbv zeta in *.
    destruct (IH _ page out1 Hr1) as (ops' & sent' & u' & last' & out' & Hops' & Hev' & -> & Hs' & Hr' & Hreads).
    exists (ops ++ ops'), (sent ++ sent'), (programmed (lenZ (sent ++ sent') / 2) (sent ++ sent') u), last', out'.
    assert (programmed (lenZ (sent ++ sent') / 2) (sent ++ sent') u =
      programmed (lenZ sent' / 2) sent' (programmed (lenZ sent / 2) sent u)) as E.
    { rewrite programmed_twice, lenZ_app. f_equal. zlia. }
    split; [by apply programs_app|]. split; [rewrite lenZ_app; zlia|]. split; [done|].
    split; [by rewrite <- app_assoc, Hs', app_assoc, Hs, <- !app_assoc|]. split; [by rewrite E|].
    intros fuel size rest res k Hk. rewrite E in Hk. unfold file_text. cbn [map concat length Nat.add].
    rewrite <- !app_assoc, ops_text_app, <- app_assoc. eapply reads_line; [done|exact Hstep|]. by apply Hreads.
  - destruct (IH u page out Hr) as (ops & sent & u' & last' & out' & H1 & H2 & H3 & H4 & H5 & Hreads).
    exists ops, sent, u', last', out'. do 5 (split; [done|]). intros fuel size rest res k Hk.
    unfold file_text. cbn [map concat length Nat.add]. rewrite <- !app_assoc.
    change (ops_text ops ++ k) with ([] ++ ops_text ops ++ k).
    eapply (reads_line _ _ _ (HexState u page last out)); [done| |by apply Hreads].
    right. rewrite start_line_skipped. apply sends_ret.
Qed.

(** What is buffered is programmed, and the rest of the page is filled. *)
Lemma sends_flush u last out : ready u last out -> exists ops1 ops2 u1 u2,
  sends (upload_hex fns out (lenZ out) u) (u1, IS_OP_OK) (ops_text ops1) /\
  sends (fill_current_page fns u1) u2 (ops_text ops2) /\ currentOffset u1 = last /\
  programs (currentOffset u) (out ++ filling (FLASH_PAGE_SIZE - last)) (ops1 ++ ops2) /\
  verifyCheckSum u2 = fold_left add_hash (out ++ filling (FLASH_PAGE_SIZE - last)) (verifyCheckSum u).
Proof.
  intros (Hu & Ho & Hev & Hlast & Hend). pose proof (lenZ_nonneg out).
  assert (lenZ out = 2 * (lenZ out / 2)) as E2 by zlia.
  destruct (sends_upload fns m_update_callback log Han out (lenZ out) u) as (ops1 & Hops1 & Hs1);
    [lia|done|lia|done|lia|].
  rewrite takeZ_all in Hops1, Hs1 by lia. set (u1 := programmed (lenZ out / 2) out u) in *.
  assert (currentOffset u1 = last) as E1 by (rewrite Hlast; done).
  destruct (sends_fill fns m_update_callback log Han u1) as (ops2 & Hops2 & Hs2); [lia|]. cbv zeta in *.
  rewrite E1 in *. exists ops1, ops2, u1. eexists. split; [exact Hs1|]. split; [exact Hs2|]. split; [done|].
  split; [apply programs_app; [done|by rewrite <- Hlast]|]. cbn [verifyCheckSum programmed].
  by rewrite fold_left_app.
Qed.

Lemma process_line_page high page ck st : line_ok (PageLine high page ck) ->
  process_line fns (line_text (PageLine high page ck)) st = page_line fns (line_text (PageLine high page ck)) st /\
  strtol16 (subZ 12 1 (line_text (PageLine high page ck))) = page.
Proof.
  intros (Hp & Hh & Hh2 & Hc & Hc2). pose proof (line_plain (PageLine high page ck)) as Hpl.
  cbn [line_ok line_text] in *. assert (exists a b, high = [a; b]) as (a & b & ->).
  { destruct high as [|a [|b [|c l]]]; [done|done|by exists a, b|].
    rewrite !lenZ_cons in Hh2. pose proof (lenZ_nonneg l). lia. }
  split.
  - unfold process_line. rewrite text_plain by (apply Hpl; done).
    assert (is_type 0x30 (chars ":020000040" ++ [a; b] ++ [upper_digit page] ++ ck) = false) as -> by done.
    rewrite andb_false_r. rewrite bool_decide_eq_true_2 by done.
    rewrite (proj2 (Z.leb_le 13 _)); [done|]. rewrite !lenZ_app. change (lenZ (chars ":020000040")) with 10.
    change (lenZ [upper_digit page]) with 1. lia.
  - change (subZ 12 1 _) with (map upper_digit [page]).
    rewrite strtol16_digits by auto. cbn. lia.
Qed.

(** The line of another page ends the one before. *)
Lemma page_step u page last out high next ck : ready u last out -> 0 < last ->
  line_ok (PageLine high next ck) -> next <> 0 ->
  exists ops u', programs (currentOffset u) (out ++ filling (FLASH_PAGE_SIZE - last)) ops /\
    currentOffset u' = 0 /\
    verifyCheckSum u' = fold_left add_hash (out ++ filling (FLASH_PAGE_SIZE - last)) (verifyCheckSum u) /\
    step_to (line_text (PageLine high next ck)) (HexState u page last out) (HexState u' next 0 [])
      (ops_text (ops ++ [SelectPage next; Begin 0 (FLASH_PAGE_SIZE - 1)])).
Proof.
  intros Hr Hl0 Hl Hne. destruct (process_line_page high next ck (HexState u page last out) Hl) as [Ep En].
  destruct (sends_flush u last out Hr) as (ops1 & ops2 & u1 & u2 & Hs1 & Hs2 & E1 & Hops & Hv).
  exists (ops1 ++ ops2), (Upload 0 (totalBytes u2) (verifyCheckSum u2)). split; [done|]. split; [done|].
  split; [done|]. right. rewrite Ep. unfold page_line. rewrite En, (proj2 (Z.eqb_neq _ _) Hne).
  cbn [hx_upload output]. destruct Hr as (_ & Ho & _). unfold MAX_SEND_COUNT, HEX_BUFFER_SIZE in *.
  pose proof (lenZ_nonneg out). rewrite (proj2 (Z.ltb_ge (lenZ out) 0)), (proj2 (Z.ltb_ge 1024 _)) by lia.
  cbn [orb]. rewrite ops_text_app, ops_text_app, <- !app_assoc. eapply sends_bind; [exact Hs1|]. cbv iota beta.
  change (negb (IS_OP_OK =? IS_OP_OK)) with false. cbv iota. eapply sends_bind; [exact Hs2|]. cbv beta zeta.
  destruct Hl as (Hp & _). unfold ops_text. cbn [map concat]. eapply sends_bind.
  { eapply sends_select; [exact Han|lia]. }
  cbv beta. change (negb (IS_OP_OK =? IS_OP_OK)) with false. cbv iota. eapply sends_bind.
  { eapply sends_begin; [exact Han|lia|unfold FLASH_PAGE_SIZE; lia]. }
  cbv beta. change (negb (IS_OP_OK =? IS_OP_OK)) with false. cbv iota. apply sends_ret.
Qed.

(** The last line ends the last page. *)
Lemma end_step u page last out : ready u last out -> 0 < last ->
  exists ops u', programs (currentOffset u) (out ++ filling (FLASH_PAGE_SIZE - last)) ops /\
    verifyCheckSum u' = fold_left add_hash (out ++ filling (FLASH_PAGE_SIZE - last)) (verifyCheckSum u) /\
    sends (process_line fns (line_text EndLine) (HexState u page last out))
      (Next (HexState u' page last [])) (ops_text ops).
Proof.
  intros Hr Hl0. destruct (sends_flush u last out Hr) as (ops1 & ops2 & u1 & u2 & Hs1 & Hs2 & E1 & Hops & Hv).
  exists (ops1 ++ ops2), u2. split; [done|]. split; [done|].
  assert (process_line fns (line_text EndLine) (HexState u page last out) =
    end_line fns (HexState u page last out)) as -> by reflexivity.
  unfold end_line. cbn [output hx_upload currentPage lastSubOffset]. rewrite ops_text_app.
  eapply sends_bind; [exact Hs1|]. cbv iota beta. change (negb (IS_OP_OK =? IS_OP_OK)) with false. cbv iota.
  rewrite E1, (proj2 (Z.eqb_neq last 0)) by lia. cbn [negb]. apply (sends_last _ _ _ _ _ _ Hs2).
  cbv beta. apply sends_ret.
Qed.

(** ** Files *)

(** The pages from here on, the one that is open first. *)
Lemma pages_run lines ps : more_pages lines ps -> forall u page last out, ready u last out -> 0 < last ->
  exists ops ops' u' last',
    programs (currentOffset u) (out ++ filling (FLASH_PAGE_SIZE - last)) ops /\ uploads ps ops' /\
    verifyCheckSum u' =
      fold_left add_hash (out ++ filling (FLASH_PAGE_SIZE - last) ++ images ps) (verifyCheckSum u) /\
    forall fuel size, (length lines < fuel)%nat ->
      reads fuel size (file_text eol lines) (HexState u page last out)
        (HexState u' (last_page_of page ps) last' [], size, IS_OP_OK) (ops_text (ops ++ ops')).
Proof.
  induction 1 as [|high next ck lines es rest ps Hl Hne Hp Hes Hm IH]; intros u page last out Hr Hl0.
  - destruct (end_step u page last out Hr Hl0) as (ops & u' & Hops & Hv & Hs).
    exists ops, [], u', last. split; [done|]. split; [constructor|]. unfold images. cbn [map concat].
    rewrite !app_nil_r. split; [done|]. intros fuel size Hf. cbn [length] in Hf.
    destruct fuel as [|[|fuel]]; [lia|lia|]. unfold file_text. cbn [map concat]. rewrite app_nil_r.
    by apply reads_last.
  - destruct (page_step u page last out high next ck Hr Hl0 Hl Hne) as (ops & u1 & Hops & Ho1 & Hv1 & Hs1).
    destruct (page_run lines 0 es Hp u1 next []) as
      (ops2 & sent & u2 & last2 & out2 & Hops2 & Hev & -> & Hs2 & Hr2 & Hreads2).
    { unfold ready, MAX_SEND_COUNT, FLASH_PAGE_SIZE. rewrite Ho1. by repeat split. }
    cbn [app] in Hs2. set (u2 := programmed (lenZ sent / 2) sent u1) in *.
    destruct (page_image_stream 0 lines es Hp ltac:(done)) as (stop & Hstop & _ & Hlt & Himg).
    assert (lenZ sent + lenZ out2 = 2 * stop) as Hsum by (rewrite <- lenZ_app, Hs2; lia).
    assert (last2 = stop) as ->.
    { destruct Hr2 as (_ & _ & Hev2 & -> & _). unfold u2. cbn [currentOffset programmed]. zlia. }
    destruct (IH u2 next stop out2 Hr2 (Hlt Hes)) as (ops3 & ops4 & u4 & last4 & Hops3 & Hops4 & Hv4 & Hreads4).
    assert (currentOffset u2 = 0 + lenZ sent / 2) as Ho2 by (unfold u2; cbn [currentOffset programmed]; lia).
    exists ops, (SelectPage next :: Begin 0 (FLASH_PAGE_SIZE - 1) :: (ops2 ++ ops3) ++ ops4), u4, last4.
    split; [done|]. split.
    { constructor; [|done]. rewrite Himg, <- Hs2, <- app_assoc. apply programs_app; [by rewrite Ho1 in Hops2|].
      by rewrite <- Ho2. }
    split.
    { rewrite Hv4. unfold u2, images. cbn [verifyCheckSum programmed map concat].
      rewrite Himg, Hv1, <- !fold_left_app. f_equal. rewrite <- Hs2, <- !app_assoc. done. }
    intros fuel size Hf. cbn [length] in Hf. rewrite length_app in Hf. destruct fuel as [|fuel]; [lia|].
    unfold file_text. cbn [map concat]. rewrite map_app, concat_app, <- !app_assoc.
    replace (ops ++ SelectPage next :: Begin 0 (FLASH_PAGE_SIZE - 1) :: ops2 ++ ops3 ++ ops4) with
      ((ops ++ [SelectPage next; Begin 0 (FLASH_PAGE_SIZE - 1)]) ++ ops2 ++ ops3 ++ ops4)
      by (by rewrite <- !app_assoc).
    rewrite ops_text_app. eapply reads_line; [done|exact Hs1|].
    replace fuel with (length lines + (fuel - length lines))%nat by lia. rewrite ops_text_app.
    apply Hreads2. apply Hreads4. lia.
Qed.

Lemma file_text_long lines : (length lines <= length (file_text eol lines))%nat.
Proof.
  assert (1 <= length eol)%nat by (destruct Heol; cbn; lia).
  unfold file_text. induction lines as [|l lines IH]; [done|]. cbn [map concat length].
  rewrite !length_app. lia.
Qed.

(** The whole file, behind the choice of page zero and the begin of the programming. *)
Lemma sends_file lines es ps b : 0 < app_offset b < FLASH_PAGE_SIZE -> hex_file (app_offset b) lines es ps ->
  let data := page_image (app_offset b) es ++ images ps in
  exists ops ops', programs (app_offset b) (page_image (app_offset b) es) ops /\ uploads ps ops' /\
    sends (process_hex_file fns m_update_callback (file_text eol lines) b)
      (set_verify (last_page_of 0 ps) (fold_left add_hash data 5381) b, IS_OP_OK) (ops_text (ops ++ ops')).
Proof.
  intros Hb Hf data. set (start := app_offset b) in *. destruct Hf as [high ck lines es rest ps Hl Hp Hm].
  set (u := Upload start start 5381).
  assert (ready u start []) as Hr.
  { unfold ready, MAX_SEND_COUNT. cbn [currentOffset u]. change (lenZ []) with 0. change (0 / 2) with 0.
    change (0 mod 2) with 0. lia. }
  destruct (page_run lines start es Hp u 0 [] Hr) as
    (ops & sent & u2 & last2 & out2 & Hops & Hev & -> & Hs & Hr2 & Hreads).
  cbn [app] in Hs. set (u2 := programmed (lenZ sent / 2) sent u) in *.
  destruct (page_image_stream start lines es Hp ltac:(lia)) as (stop & Hstop & Hrange & _ & Himg).
  assert (lenZ sent + lenZ out2 = 2 * (stop - start)) as Hsum by (rewrite <- lenZ_app, Hs; lia).
  assert (last2 = stop) as ->.
  { destruct Hr2 as (_ & _ & Hev2 & -> & _). unfold u2. cbn [currentOffset programmed u]. zlia. }
  destruct (pages_run rest ps Hm u2 0 stop out2 Hr2 ltac:(lia)) as (ops2 & ops3 & u3 & last3 & Hops2 & Hops3 & Hv & Hreads2).
  exists (ops ++ ops2), ops3. split.
  { rewrite Himg, <- Hs, <- app_assoc. by apply programs_app. }
  split; [done|]. unfold process_hex_file. fold start. fold u. set (file := file_text eol _).
  assert (data = sent ++ out2 ++ filling (FLASH_PAGE_SIZE - stop) ++ images ps) as ->
    by (unfold data; rewrite Himg, <- Hs, <- !app_assoc; done).
  unfold u2 in Hv. cbn [verifyCheckSum programmed u] in Hv. rewrite <- fold_left_app in Hv.
  apply (sends_last _ _ _ (HexState u3 (last_page_of 0 ps) last3 [], lenZ file, IS_OP_OK)).
  - assert (length lines + length rest + 1 <= length file)%nat as Hlen.
    { unfold file. etransitivity; [|apply file_text_long]. cbn [length]. rewrite length_app. lia. }
    unfold file at 3. unfold file_text. cbn [map concat]. rewrite map_app, concat_app, <- !app_assoc.
    rewrite <- (app_nil_l (ops ++ ops2 ++ ops3)), ops_text_app.
    apply (reads_line _ _ _ (HexState u 0 start []) (ops_text [])); [done| |].
    + destruct (process_line_page high 0 ck (HexState u (-1) start []) Hl) as [Ep En]. left. rewrite Ep.
      unfold page_line. rewrite En. change (0 =? 0) with true. cbv iota. apply sends_ret.
    + replace (length file) with (length lines + (length file - length lines))%nat by lia. rewrite ops_text_app.
      apply Hreads. apply Hreads2. lia.
  - cbv iota beta. change (negb (IS_OP_OK =? IS_OP_OK)) with false. cbv iota. rewrite Z.eqb_refl.
    cbn [negb orb hx_upload currentPage].
    assert (forall x : Z, sends (ret x) x []) as Hx by (intros; apply sends_ret).
    destruct (lenZ file =? 0); (eapply sends_pure; [apply sends_callback || apply Hx|]); rewrite Hv;
      apply sends_ret.
Qed.

(** ** Images *)

Definition erase_text : list Z :=
  record_text (chars "03000006030000F4") ++ record_text (chars "0200000400FFFB").

Lemma sends_wait_erased n stack : 3 <= lenZ stack ->
  sends (wait_erased fns m_update_callback (S n) stack 0) IS_OP_OK [].
Proof.
  intros Hs. cbn [wait_erased]. rewrite dropZ_0.
  eapply sends_pure; [eapply sends_read; [exact Han|lia]|]. cbv beta iota.
  eapply sends_pure; [apply sends_callback|]. cbv beta. change (negb (IS_OP_OK =? IS_OP_OK)) with false. cbv iota.
  rewrite bool_decide_eq_true_2 by done. change ((0 + 3 =? 3) && true) with true. cbv iota. apply sends_ret.
Qed.

Lemma sends_erase stack : lenZ stack = 128 -> sends (erase_flash fns m_update_callback stack) IS_OP_OK erase_text.
Proof.
  intros Hs. unfold erase_flash, erase_text. change (chars ":03000006030000F4CC") with
    (0x3A :: (chars "03000006030000F4" ++ chars "CC")).
  eapply sends_pure; [by apply sends_command|]. cbv beta.
  pose proof (sends_command_wait fns _ log Han (record_text (chars "03000006030000F4") ++ [0]) 19
    BOOTLOADER_TIMEOUT_DEFAULT ltac:(vm_compute; split; congruence)) as H1.
  eapply sends_bind; [exact H1|]. change (1 =? 0) with false. cbv iota beta.
  change (chars ":0200000400FFFBCC") with (0x3A :: (chars "0200000400FFFB" ++ chars "CC")).
  eapply sends_pure; [by apply sends_command|]. cbv beta.
  pose proof (sends_write fns _ log Han (record_text (chars "0200000400FFFB") ++ [0]) 17
    ltac:(vm_compute; split; congruence)) as H2.
  apply (sends_last _ _ _ _ _ _ H2). apply sends_wait_erased. lia.
Qed.

Lemma sends_image stack lines es ps b : lenZ stack = 128 -> 0 < app_offset b < FLASH_PAGE_SIZE ->
  hex_file (app_offset b) lines es ps ->
  let data := page_image (app_offset b) es ++ images ps in
  exists ops ops', programs (app_offset b) (page_image (app_offset b) es) ops /\ uploads ps ops' /\
    sends (download_image fns m_update_callback stack (Some (file_text eol lines)) b)
      (set_verify (last_page_of 0 ps) (fold_left add_hash data 5381) b, IS_OP_OK)
      (erase_text ++ ops_text (SelectPage 0 :: Begin (app_offset b) (FLASH_PAGE_SIZE - 1) :: ops ++ ops')).
Proof.
  intros Hs Hb Hf data. destruct (sends_file lines es ps b Hb Hf) as (ops & ops' & Hops & Hops' & Hsend).
  exists ops, ops'. split; [done|]. split; [done|]. unfold download_image, FLASH_PAGE_SIZE in *.
  eapply sends_bind; [by apply sends_erase|]. cbv beta. change (negb (IS_OP_OK =? IS_OP_OK)) with false. cbv iota.
  unfold ops_text. cbn [map concat]. eapply sends_bind; [eapply sends_select; [exact Han|lia]|].
  cbv beta. change (negb (IS_OP_OK =? IS_OP_OK)) with false. cbv iota.
  eapply sends_bind; [eapply sends_begin; [exact Han|lia|lia]|].
  cbv beta. change (negb (IS_OP_OK =? IS_OP_OK)) with false. cbv iota. exact Hsend.
Qed.

End Uploaded.
(** C13: the upload of a well-formed hex file to a device that answers every command
    succeeds: it sends the commands that erase the flash memory, and for every page the
    records that program exactly its image, the data of the file over unused memory, from
    the start of the application on; the sum kept for the verification is that of the
    images. *)
Theorem image_uploaded {D : Type} (fns : serial_fns D) m_update_callback (log : D -> list Z) eol stack lines
    (es : list entry) ps b (s : serial_port_t D) :
  answering fns m_update_callback log -> line_end eol -> lenZ stack = 128 ->
  0 < app_offset b < FLASH_PAGE_SIZE -> hex_file (app_offset b) lines es ps -> sp_handle s <> 0 ->
  let image := page_image (app_offset b) es in
  exists ops ops' s', programs (app_offset b) image ops /\ uploads ps ops' /\
    download_image fns m_update_callback stack (Some (file_text eol lines)) b s =
      Some (s', (set_verify (last_page_of 0 ps) (fold_left add_hash (image ++ images ps) 5381) b, IS_OP_OK)) /\
    log (sp_dev s') = log (sp_dev s) ++ erase_text ++
      ops_text (SelectPage 0 :: Begin (app_offset b) (FLASH_PAGE_SIZE - 1) :: ops ++ ops').
Proof.
  intros Han He Hs Hb Hf Hh image.
  destruct (sends_image fns _ log Han eol He stack lines es ps b Hs Hb Hf) as (ops & ops' & H1 & H2 & Hsend).
  destruct (Hsend s Hh) as (s' & E & _ & L). by exists ops, ops', s'.
Qed.

End IsbUpload.
