(* ===== verification/IsbVerify.v ===== *)
(** * The verification of an image by the ISB bootloader

    A verification that ends well has read as many digits as the pages have, with the sum
    that the upload computed, and has written the bytes they stand for. *)

From S2P Require Import Prelude Printf SerialPort IsbBootloader IsbProps IsbUpload.
Import IsbBootloader IsbProps IsbUpload.
#[local] Open Scope list_scope.
#[local] Open Scope Z_scope.

Module IsbVerify.

Definition take_chars (l : list Z) (v : verify) : verify := fold_left (fun v c => take_char c v) l v.

Lemma take_chars_app l k v : take_chars (l ++ k) v = take_chars k (take_chars l v).
Proof. apply fold_left_app. Qed.

(** The bytes of pairs of digits. *)
Fixpoint digit_bytes (l : list Z) : list Z :=
  match l with
  | a :: b :: l => u8 (Z.lor (Z.shiftl (hex_value a) 4) (hex_value b)) :: digit_bytes l
  | _ => []
  end.

Lemma take_chars_sum l v : v_sum (take_chars l v) = fold_left add_hash l (v_sum v).
Proof.
  revert v. induction l as [|c l IH]; intros v; [done|]. change (take_chars (c :: l) v) with (take_chars l (take_char c v)).
  rewrite IH. unfold take_char. by destruct (v_file v), (v_half v).
Qed.

Lemma take_chars_none l v : v_file v = None -> v_file (take_chars l v) = None.
Proof.
  revert v. induction l as [|c l IH]; intros v H; [done|]. apply IH. unfold take_char. by rewrite H.
Qed.

Lemma take_chars_file l v file : v_file v = Some file -> v_half v = None ->
  v_file (take_chars l v) = Some (file ++ digit_bytes l).
Proof.
  revert v file. induction l as [l IH] using (induction_ltof1 _ (@length Z)). intros v file Hf Hh.
  unfold ltof in IH. destruct l as [|a [|b l]].
  - cbn. by rewrite app_nil_r.
  - cbn. unfold take_char. rewrite Hf, Hh. cbn. by rewrite app_nil_r.
  - change (take_chars (a :: b :: l) v) with (take_chars l (take_char b (take_char a v))).
    rewrite (IH l ltac:(cbn; lia) _ (file ++ [u8 (Z.lor (Z.shiftl (hex_value a) 4) (hex_value b))])).
    + by rewrite <- app_assoc.
    + unfold take_char. by rewrite Hf, Hh.
    + unfold take_char. by rewrite Hf, Hh.
Qed.

Section Verified.
Context {D : Type} (fns : serial_fns D).
Context (m_verify_callback : Z -> Z -> serial_port_t D -> serial_port_t D * Z).

Lemma bind_inv {A B} (m : M (D := D) A) (f : A -> M B) s s' y : (m ≫= f) s = Some (s', y) ->
  exists s1 x, m s = Some (s1, x) /\ f x s1 = Some (s', y).
Proof. intros H. apply bind_Some in H as ([s1 x] & H1 & H2). by exists s1, x. Qed.

(** From [v] on, the digits [l] have been read. *)
Definition has_read (v v' : verify) (n : Z) : Prop :=
  exists l, hex l /\ v' = take_chars l v /\ 2 * n <= lenZ l.

Lemma has_read_none v n : n <= 0 -> has_read v v n.
Proof. intros Hn. exists []. split; [constructor|]. split; [done|]. change (lenZ []) with 0. lia. Qed.

Lemma has_read_trans v v1 v2 n k m : m <= n + k -> has_read v v1 n -> has_read v1 v2 k -> has_read v v2 m.
Proof.
  intros Hm (l & Hl & -> & Hn) (l' & Hl' & -> & Hk). exists (l ++ l'). split; [by apply Forall_app_2|].
  split; [by rewrite take_chars_app|]. rewrite lenZ_app. lia.
Qed.

Lemma verify_chars_read l : forall v n c v' n' c' rest,
  verify_chars l v n c = Some (v', n', c', rest) ->
  exists k, hex k /\ v' = take_chars k v /\ n' = n + lenZ k.
Proof.
  induction l as [|x l IH]; intros v n c v' n' c' rest; cbn [verify_chars].
  { intros [= <- <- <- <-]. exists []. split; [constructor|]. split; [done|]. change (lenZ []) with 0. lia. }
  destruct (is_hex x) eqn:Hx.
  - intros (k & Hk & -> & ->)%IH. exists (x :: k). split; [by constructor|]. split; [done|]. rewrite lenZ_cons. lia.
  - destruct (x =? 0x0D); [apply IH|]. destruct (x =? 0x0A); [|done].
    intros [= <- <- <- <-]. exists []. split; [constructor|]. split; [done|]. change (lenZ []) with 0. lia.
Qed.

Lemma verify_lines_read fuel : forall l grand off c v s s' v' off' c',
  verify_lines m_verify_callback fuel l grand off c v s = Some (s', (v', off', c', IS_OP_OK)) ->
  has_read v v' (off' - off).
Proof.
  induction fuel as [|fuel IH]; intros l grand off c v s s' v' off' c' H; destruct l as [|x l].
  - cbn in H. injection H as <- <- <- <-. apply has_read_none. lia.
  - done.
  - cbn in H. injection H as <- <- <- <-. apply has_read_none. lia.
  - cbn [verify_lines] in H. repeat (destruct (_ : bool) in H; [done|]).
    destruct (verify_chars _ v 0 c) as [[[[v1 n1] c1] rest]|] eqn:E; [|done].
    apply verify_chars_read in E as (k & Hk & -> & ->). destruct (negb (c1 =? 10)); [done|].
    rewrite Z.add_0_l in H.
    apply bind_inv in H as (s1 & r & _ & H). destruct (negb (r =? IS_OP_OK)); [done|]. apply IH in H.
    eapply (has_read_trans _ _ _ (lenZ k / 2)); [|exists k; split; [done|]; split; [done|zlia]|exact H]. lia.
Qed.

(** The characters of the requests until the page is complete. *)
Lemma verify_page_read fuel : forall size grand buffer off c v s s' v' c',
  verify_page fns m_verify_callback fuel size grand buffer off c v s = Some (s', (v', c', IS_OP_OK)) ->
  has_read v v' (FLASH_PAGE_SIZE - off).
Proof.
  induction fuel as [|fuel IH]; intros size grand buffer off c v s s' v' c' H; cbn [verify_page] in H;
    destruct (Z.ltb_spec off FLASH_PAGE_SIZE) as [Hlt|Hge].
  - done.
  - injection H as <- <- <-. apply has_read_none. lia.
  - apply bind_inv in H as (s1 & r & _ & H). destruct (negb (r =? IS_OP_OK)); [done|].
    apply bind_inv in H as (s2 & [buffer2 count] & _ & H). cbv iota beta in H.
    apply bind_inv in H as (s3 & [[[v3 off3] c3] r3] & Hl & H). cbv iota beta in H.
    destruct (Z.eqb_spec r3 IS_OP_OK) as [->|Hne]; cbn [negb] in H; [|unfold ret in H; congruence].
    apply verify_lines_read in Hl. apply IH in H.
    eapply (has_read_trans _ _ _ (off3 - off)); [|exact Hl|exact H]. lia.
  - injection H as <- <- <-. apply has_read_none. lia.
Qed.

Lemma verify_pages_read fuel n : forall i b grand buffer c v s s' v',
  verify_pages fns m_verify_callback fuel n i b grand buffer c v s = Some (s', (v', IS_OP_OK)) ->
  0 <= i -> 0 <= app_offset b ->
  has_read v v' (Z.of_nat n * FLASH_PAGE_SIZE - (if (i =? 0) && (0 <? Z.of_nat n) then app_offset b else 0)).
Proof.
  induction n as [|n IH]; intros i b grand buffer c v s s' v' H Hi Hb; cbn [verify_pages] in H.
  - injection H as <- <-. apply has_read_none. rewrite andb_false_r. lia.
  - apply bind_inv in H as (s1 & r & _ & H). destruct (negb (r =? IS_OP_OK)); [done|].
    apply bind_inv in H as (s2 & [[v2 c2] r2] & Hp & H). cbv iota beta in H.
    destruct (Z.eqb_spec r2 IS_OP_OK) as [->|Hne]; cbn [negb] in H; [|unfold ret in H; congruence].
    apply verify_page_read in Hp. apply IH in H; [|lia|done].
    eapply has_read_trans; [|exact Hp|exact H]. rewrite (proj2 (Z.eqb_neq (i + 1) 0)) by lia. cbn [andb].
    rewrite (proj2 (Z.ltb_lt 0 _)), andb_true_r by lia. lia.
Qed.

(** C14: a verification that returns [IS_OP_OK] has read digits of all pages of the image
    from the start of the application on, their sum is the one that the upload left, and a
    file that could be opened has the bytes of the digits. *)
Theorem verify_image_sound fuel buffer can_open b s s' file :
  verify_image fns m_verify_callback fuel buffer can_open b s = Some (s', (file, IS_OP_OK)) ->
  0 <= m_currentPage b -> 0 <= app_offset b ->
  exists digits, hex digits /\ fold_left add_hash digits 5381 = m_verifyCheckSum b /\
    2 * ((m_currentPage b + 1) * FLASH_PAGE_SIZE - app_offset b) <= lenZ digits /\
    file = (if can_open then Some (digit_bytes digits) else None).
Proof.
  intros H Hp Hb. unfold verify_image in H. apply bind_inv in H as (s1 & [v r] & Hv & H).
  unfold ret in H. injection H as _ <- Hr. destruct (Z.eqb_spec r IS_OP_OK) as [->|Hne]; cbn [negb] in Hr; [|congruence].
  destruct (Z.eqb_spec (v_sum v) (m_verifyCheckSum b)) as [Hsum|]; [|done].
  apply verify_pages_read in Hv as (l & Hl & -> & Hn); [|done|done]. exists l. split; [done|].
  rewrite take_chars_sum in Hsum. split; [exact Hsum|]. split.
  { rewrite Z2Nat.id, (proj2 (Z.ltb_lt 0 (m_currentPage b + 1))) in Hn by lia. cbn [andb] in Hn.
    change (0 =? 0) with true in Hn. cbn [andb] in Hn. lia. }
  destruct can_open; [by apply (take_chars_file l _ [])|by apply take_chars_none].
Qed.
End Verified.
End IsbVerify.
