(* ===== verification/IsbExamples.v ===== *)
(** * Runs of the ISB bootloader

    Uploads and verifications with concrete devices, among them the runs that deviate from
    what the code means to do. *)

From stdpp Require Import strings.
From S2P Require Import Prelude Printf CommTx SerialPort SerialProps IsbBootloader IsbProps IsbUpload IsbVerify.
Import IsbBootloader IsbProps IsbUpload IsbVerify.
#[local] Open Scope string_scope.
#[local] Open Scope list_scope.
#[local] Open Scope Z_scope.

Module IsbExamples.

(** A device is the list of what it has been sent; [answer] is what a read of so many
    bytes gives. *)
Definition fns (answer : Z -> list Z) : serial_fns (list Z) :=
  SerialFns (list Z) None None (Some (fun n _ s => (s, takeZ n (answer n), lenZ (takeZ n (answer n))))) None
    (Some (fun bs s => (set_dev (sp_dev s ++ bs) s, lenZ bs))) None None None None None None.

Definition fine (_ _ : Z) (s : serial_port_t (list Z)) : serial_port_t (list Z) * Z := (s, IS_OP_OK).
Definition port : serial_port_t (list Z) := SerialPort 1 [] 0 0 0 [].
Definition sent (r : option (serial_port_t (list Z) * (isb * Z))) : option (list Z * Z) :=
  '(s, (_, r)) ← r; Some (sp_dev s, r).
Definition unit_v6 : isb := Isb 6 0x61 0 0 1 0 24576 1024 (-1) 0.
Definition stack : list Z := repeat 0xAA 128.
Definition lines_of (l : list string) : list Z := concat (map (fun s => chars s ++ [0x0A]) l).

Lemma answering_fine : answering (fns (fun _ => ok_response)) fine (fun d => d).
Proof.
  split.
  - eexists. split; [reflexivity|]. intros bs s. eexists. split; [reflexivity|]. done.
  - eexists. split; [reflexivity|]. intros t s. eexists. split; [reflexivity|]. done.
  - intros n k s. exists s. done.
Defined.

(** A file with a gap, and a second page. *)
Definition data_a : list Z := chars "00112233445566778899AABBCCDDEEFF".
Definition ck : list Z := chars "00".
Definition file_lines : list hex_line :=
  PageLine (chars "00") 0 ck :: ([DataLine 24576 data_a ck; StartLine (chars "08006000") ck; DataLine 24600 data_a ck]
    ++ PageLine (chars "00") 1 ck :: [DataLine 16 data_a ck] ++ [EndLine]).

Lemma file_described :
  hex_file 24576 file_lines [(24576, data_a); (24600, data_a)] [(1, [(16, data_a)])].
Proof.
  assert (hex ck) as Hck by decided. assert (hex data_a) as Hd by decided.
  assert (hex (chars "00")) as H0 by decided.
  assert (hex (chars "08006000")) as Ha by decided.
  assert (forall o, 0 <= o < FLASH_PAGE_SIZE -> line_ok (DataLine o data_a ck)) as Hdl.
  { intros o Ho. cbn [line_ok]. repeat split; try done; lia. }
  assert (forall p, 0 <= p < 16 -> line_ok (PageLine (chars "00") p ck)) as Hpl.
  { intros p Hp. cbn [line_ok]. repeat split; try done; lia. }
  constructor; [by apply Hpl| |constructor; [by apply Hpl|done| |done|constructor]].
  - constructor; [by apply Hdl|done|done|done|]. constructor; [by repeat split|].
    constructor; [by apply Hdl|done|done|done|]. constructor.
  - constructor; [by apply Hdl|done|done|done|]. constructor.
Defined.

Lemma image_uploaded_witness : exists ops ops' s',
  programs 24576 (page_image 24576 [(24576, data_a); (24600, data_a)]) ops /\ uploads [(1, [(16, data_a)])] ops' /\
  download_image (fns (fun _ => ok_response)) fine stack (Some (file_text [0x0D; 0x0A] file_lines)) unit_v6 port =
    Some (s', (set_verify 1 (fold_left add_hash (page_image 24576 [(24576, data_a); (24600, data_a)] ++
                             images [(1, [(16, data_a)])]) 5381) unit_v6, IS_OP_OK)) /\
  sp_dev s' = erase_text ++ ops_text (SelectPage 0 :: Begin 24576 (FLASH_PAGE_SIZE - 1) :: ops ++ ops').
Proof.
  exact (image_uploaded (fns (fun _ => ok_response)) fine (fun d => d) [0x0D; 0x0A] stack file_lines
    [(24576, data_a); (24600, data_a)] [(1, [(16, data_a)])] unit_v6 port
    answering_fine crlf eq_refl ltac:(cbn; unfold FLASH_PAGE_SIZE; lia) file_described ltac:(done)).
Defined.

(** ** Verification *)

Definition answer_page (n : Z) : list Z := if n =? 3 then ok_response else chars "FFFC=00A12233" ++ [0x0D; 0x0A].
Definition small : isb := Isb 6 0x61 0 0 1 0 65532 1024 0 (fold_left add_hash (chars "00A12233") 5381).

Definition port_verified : serial_port_t (list Z) :=
  SerialPort 1 [] 40 18 0 (op_text (SelectPage 0) ++ record_text (chars "0500000300FFFCFFFF")).

Example small_verified :
  verify_image (fns answer_page) fine 2 (repeat 0 2112) true small port =
  Some (port_verified, (Some [0x00; 0xA1; 0x22; 0x33], IS_OP_OK)).
Proof. vm_compute. reflexivity. Qed.

Lemma verify_image_sound_witness : exists digits, hex digits /\
  fold_left add_hash digits 5381 = m_verifyCheckSum small /\
  2 * ((0 + 1) * FLASH_PAGE_SIZE - 65532) <= lenZ digits /\ Some [0x00; 0xA1; 0x22; 0x33] = Some (digit_bytes digits).
Proof.
  refine (verify_image_sound (fns answer_page) fine 2 (repeat 0 2112) true small port port_verified
    _ _ _ _).
  - vm_compute. reflexivity.
  - cbn. lia.
  - cbn. lia.
Defined.

(** ** Deviations *)

(** The check for the padding counts bytes, and two characters are written for each: a gap
    of 1024 bytes overflows the array. *)
Example padding_overflows :
  process_hex_file (fns (fun _ => ok_response)) fine
    (lines_of [":020000040000FA"; ":1060000000112233445566778899AABBCCDDEEFF98";
               ":1064100000112233445566778899AABBCCDDEEFF88"; ":00000001FF"]) unit_v6 port = None.
Proof. vm_compute. reflexivity. Qed.

(** A blank line ends the file, and the upload is reported as complete. *)
Example blank_line_ends :
  sent (process_hex_file (fns (fun _ => ok_response)) fine
    (lines_of [":020000040000FA"; ""; ":1060000000112233445566778899AABBCCDDEEFF98"; ":00000001FF"]) unit_v6 port) =
  Some ([], IS_OP_OK).
Proof. vm_compute. reflexivity. Qed.

(** Without the end record the last data is never sent. *)
Example unfinished_file_accepted :
  sent (process_hex_file (fns (fun _ => ok_response)) fine
    (lines_of [":020000040000FA"; ":1060000000112233445566778899AABBCCDDEEFF98"]) unit_v6 port) =
  Some ([], IS_OP_OK).
Proof. vm_compute. reflexivity. Qed.

(** The last digit of the number of a page is all that counts: page 16 is taken for zero. *)
Example page_sixteen :
  (page_line (fns (fun _ => ok_response)) (chars ":020000040010EA") (HexState (Upload 24576 0 0) 0 24580 []) port) =
  Some (port, Skip (HexState (Upload 24576 0 0) 0 24576 [])).
Proof. vm_compute. reflexivity. Qed.

(** Data that crosses the end of a page is sent for the offset 0x10000, which has five
    digits: the line of the nine characters that are sent is wrong. *)
Example page_crossed :
  ((fun '(s, _) => sp_dev s) <$> upload_hex (fns (fun _ => ok_response)) (chars "0011") 4 (Upload 65535 0 0) port) =
  Some (chars ":01FFFF000001" ++ chars ":01100000" ++ chars "11DE").
Proof. vm_compute. reflexivity. Qed.

(** A device that is silent is asked for the data of a page without end. *)
Definition silent (_ : Z) : list Z := [].
Lemma silent_download s : sp_handle s = 1 -> exists s', sp_handle s' = 1 /\
  download_data (fns silent) 24576 25599 s = Some (s', IS_OP_OK).
Proof. destruct s as [h pt tx rx o d]. intros Hh. cbn in Hh. subst h. eexists. split; [|reflexivity]. done. Qed.

Lemma silent_read n buffer s : 0 < n -> sp_handle s = 1 -> exists s', sp_handle s' = 1 /\
  read_timeout (fns silent) buffer n BOOTLOADER_TIMEOUT_DEFAULT s = Some (s', (buffer, 0)).
Proof.
  intros Hn Hh. exists (add_rxBytes 0 s). split; [done|].
  unfold read_timeout, on_port, serialPortReadTimeout, read_with. cbn [pfnRead fns].
  rewrite Hh, (proj2 (Z.ltb_ge n 1)) by lia. unfold silent, takeZ. rewrite take_nil.
  rewrite memcpy_ok by (change (lenZ (@nil Z)) with 0; pose proof (lenZ_nonneg buffer); lia).
  change (takeZ (lenZ []) []) with (@nil Z). pose proof (lenZ_nonneg buffer). by rewrite updZ_nil by lia.
Qed.

Lemma silent_never_verified fuel grand buffer c v s : sp_handle s = 1 ->
  verify_page (fns silent) fine fuel 1024 grand buffer 24576 c v s = None.
Proof.
  revert s. induction fuel as [|fuel IH]; intros s Hs; [done|].
  cbn [verify_page]. change (24576 <? FLASH_PAGE_SIZE) with true. cbv iota zeta.
  change (24576 + Z.min 1024 (FLASH_PAGE_SIZE - 24576) - 1) with 25599.
  destruct (silent_download s Hs) as (s1 & Hs1 & E1). unfold mbind at 1, M_bind, bind at 1. rewrite E1.
  cbn [mbind option_bind]. change (negb (IS_OP_OK =? IS_OP_OK)) with false. cbv iota.
  change (7 * ((Z.min 1024 (FLASH_PAGE_SIZE - 24576) + 254) / 255) + Z.min 1024 (FLASH_PAGE_SIZE - 24576) * 2)
    with 2083.
  destruct (silent_read 2083 buffer s1 ltac:(lia) Hs1) as (s2 & Hs2 & E2).
  unfold mbind at 1, M_bind, bind at 1. rewrite E2. cbn [mbind option_bind].
  exact (IH s2 Hs2).
Qed.

(** An answer to the erase command other than the one expected is followed by others that
    are written behind the array. *)
Example erase_overflows :
  wait_erased (fns (fun _ => [0x58; 0x0D; 0x0A])) fine 43 stack 0 port = None /\
  wait_erased (fns (fun _ => [0x58; 0x0D; 0x0A])) fine 42 stack 0 port <> None.
Proof. split; vm_compute; congruence. Qed.

(** Without the record of page zero, no page is verified. *)
Example no_page_verified :
  ((fun '(_, (b, r)) => (m_currentPage b, r)) <$> process_hex_file (fns (fun _ => ok_response)) fine
    (lines_of [":1060000000112233445566778899AABBCCDDEEFF98"; ":00000001FF"]) unit_v6 port) = Some (-1, IS_OP_OK) /\
  verify_image (fns (fun _ => ok_response)) fine 0 [] true (set_verify (-1) 7 unit_v6) port =
    Some (port, (Some [], IS_OP_ERROR)).
Proof. split; vm_compute; reflexivity. Qed.

(** The result of the request for the device's data is the same whether it is answered or
    not. *)
Example no_device_info :
  ((fun '(_, (b, r)) => (m_isb_major b, m_sn b, r)) <$>
    get_device_info (fns (fun _ => [])) unit_v6 port) = Some (0, 0, IS_OP_OK) /\
  ((fun '(_, (b, r)) => (m_isb_major b, m_sn b, r)) <$>
    get_device_info (fns (fun _ => [0xAA; 0x55; 6; 0x61; 0; 1; 0; 1; 2; 0; 0] ++ ok_response)) unit_v6 port) =
  Some (6, 513, IS_OP_OK).
Proof. split; vm_compute; reflexivity. Qed.

End IsbExamples.
