(* ===== verification/SambaBootloader.v ===== *)
(** * The SAM-BA monitor (src/src/ISBootloaderSAMBA.cpp, ISBootloaderSAMBA.h)

    The bootloader of a device is written through the monitor in the ROM of its processor:
    words are read and written by text commands, and the pages of the flash memory are sent
    by XMODEM.  The port and the functions on it are those of IsbBootloader.v.  Messages
    for the user and pauses of the computer are left out; the callbacks that report progress are
    parameters.  The loops that the code does not bound have a number of turns as a
    parameter, and no result when it is used up. *)

From stdpp Require Import gmap strings.
From S2P Require Import Prelude Printf Checksum CommRx CommTx SerialPort IsbBootloader.
Import IsbBootloader.
#[local] Open Scope string_scope.
#[local] Open Scope list_scope.
#[local] Open Scope Z_scope.

Module SambaBootloader.

Definition UART_XMODEM_SOH : Z := 0x01.
Definition UART_XMODEM_EOT : Z := 0x04.
Definition UART_XMODEM_ACK : Z := 0x06.
Definition UART_XMODEM_NAK : Z := 0x15.
Definition UART_XMODEM_CAN : Z := 0x18.
Definition UART_XMODEM_CRC_POLY : Z := 0x1021.
Definition UART_XMODEM_PAYLOAD_SIZE : Z := 128.
Definition SAMBA_TIMEOUT_DEFAULT : Z := 1000.
Definition SAMBA_FLASH_START_ADDRESS : Z := 0x00400000.
Definition SAMBA_BOOTLOADER_SIZE_24K : Z := 0x6000.
Definition SAMBA_PAGE_SIZE : Z := 512.
Definition IS_IMAGE_SIGN_SAMBA : Z := Z.lor IS_IMAGE_SIGN_ISB_SAMx70_16K IS_IMAGE_SIGN_ISB_SAMx70_24K.

(** ** Checksum *)

Definition crc_update (crc_in incr : Z) : Z :=
  let crc := Z.shiftr crc_in 15 in
  let out := u16 (Z.shiftl crc_in 1) in
  let out := if incr =? 0 then out else u16 (out + 1) in
  if crc =? 0 then out else Z.lxor out UART_XMODEM_CRC_POLY.

(** The bits of a byte, from the highest on. *)
Fixpoint crc_bits (n : nat) (crc data : Z) : Z :=
  match n with
  | O => crc
  | S n => crc_bits n (crc_update crc (Z.land data (Z.shiftl 1 (Z.of_nat n)))) data
  end.
Fixpoint crc_zeros (n : nat) (crc : Z) : Z :=
  match n with O => crc | S n => crc_zeros n (crc_update crc 0) end.
Definition crc16 (data : list Z) : Z := crc_zeros 16 (fold_left (crc_bits 8) data 0).

Definition SWAP16 (v : Z) : Z := u16 (Z.lor (Z.shiftr v 8) (Z.shiftl v 8)).

(** ** Words *)

(** [%08x] and [%04x]: the digits are lower case. *)
Definition hex_lower (w : nat) (x : Z) : list Z :=
  map (fun c => if 0x41 <=? c then c + 0x20 else c) (hex_text w x).

Section Samba.
Context {D : Type} (fns : serial_fns D).
#[local] Abbreviation port_t := (serial_port_t D).
(** The callbacks get the bytes that are done. *)
Context (update_callback verify_callback : Z -> port_t -> port_t).
(** The turns of a loop without a bound. *)
Context (fuel : nat).

Definition send_text (text : list Z) : M Z := write fns text (lenZ text).
Definition read_char (c timeout : Z) : M (Z * Z) :=
  on_port (fun p => '(p, c, n) ← serialPortReadCharTimeout fns p c timeout; Some (p, (c, n))).

Definition read_command (address : Z) : list Z := chars "w" ++ hex_lower 8 address ++ chars ",#".
Definition write_command (address word : Z) : list Z :=
  chars "W" ++ hex_lower 8 address ++ chars "," ++ hex_lower 8 word ++ chars "#".

(** The text is printed into an array, and its length is what is written of it. *)
Definition print_send (size : Z) (text : list Z) : M Z := write fns (snprintf size text) (lenZ text).

(** [None] is [IS_OP_ERROR]. *)
Definition read_word (address : Z) : M (option Z) :=
  let line := read_command address in
  w ← print_send 16 line;
  if negb (w =? lenZ line) then ret None else
  '(buf, n) ← read_timeout fns (takeZ 16 (snprintf 16 line ++ repeat 0 16)) 4 SAMBA_TIMEOUT_DEFAULT;
  ret (if n =? 4 then
         Some (u32 (Z.lor (Z.lor (Z.lor (Z.shiftl (byte_at buf 3) 24) (Z.shiftl (byte_at buf 2) 16))
                      (Z.shiftl (byte_at buf 1) 8)) (byte_at buf 0)))
       else None).

Definition write_word (address word : Z) : M Z :=
  let line := write_command address word in
  w ← print_send 32 line;
  ret (if negb (w =? lenZ line) then IS_OP_ERROR else IS_OP_OK).

(** [n] tries. *)
Fixpoint wait_ready (n : nat) (waitReady : bool) : M Z :=
  match n with
  | O => ret IS_OP_ERROR
  | S n =>
    status ← read_word 0x400e0c08;
    match status with
    | None => wait_ready n waitReady
    | Some status =>
      if Bool.eqb waitReady (negb (Z.land status 1 =? 0)) then ret IS_OP_OK
      else _ ← sleep fns 20; wait_ready n waitReady
    end
  end.
Definition wait_eefc_ready (waitReady : bool) : M Z := wait_ready 10 waitReady.

(** ** The device *)

Definition match_test (serial_name : list Z) : M Z := fun s : port_t =>
  let name := takeZ 100 (text serial_name) in
  Some (s, if negb (lenZ name =? 0) && bool_decide (name = takeZ 100 (text (sp_port s)))
           then IS_OP_OK else IS_OP_ERROR).

Definition check_is_compatible : M Z :=
  _ ← write fns (chars "#") 1;
  _ ← sleep fns 10;
  _ ← flush fns;
  count ← write_wait fns (chars "N#") 2 [0x0A; 0x0D] 100;
  ret (if count =? 0 then IS_IMAGE_SIGN_NONE else IS_IMAGE_SIGN_SAMBA).

Definition reboot : M Z := _ ← write_word 0x400e1800 0xa5000001; ret IS_OP_OK.

Definition reboot_up : M Z :=
  r ← write_word 0x400e0c04 0x5a00010b;
  if r =? IS_OP_OK then
    _ ← wait_eefc_ready true; _ ← reboot; _ ← sleep fns 500; ret IS_OP_OK
  else ret IS_OP_ERROR.

Definition reboot_down : Z := IS_OP_OK.

(** The serial number, zero when it could not be read, and the member [m_sn]. *)
Definition get_device_info (m_sn : Z) : M (Z * Z) :=
  _ ← write fns (chars "#" ++ [0]) 2;
  '(_, _) ← read_timeout fns (repeat 0 512) SAMBA_PAGE_SIZE 100;
  count ← write_wait fns (chars "N#") 2 [0x0A; 0x0D] SERIAL_PORT_DEFAULT_TIMEOUT;
  if count =? 0 then ret (0, m_sn) else
  r ← write_word 0x400e0c00 0x04000600;
  if negb (r =? IS_OP_OK) then ret (0, m_sn) else
  r ← write_word 0x400e0c04 0x5a000014;
  if negb (r =? IS_OP_OK) then ret (0, m_sn) else
  r ← wait_eefc_ready false;
  if negb (r =? IS_OP_OK) then ret (0, m_sn) else
  word ← read_word 0x00400000;
  match word with
  | None => ret (0, m_sn)
  | Some sn =>
    r ← write_word 0x400e0c04 0x5a000015;
    ret (if negb (r =? IS_OP_OK) then 0 else sn, sn)
  end.

(** ** Pages *)

(** The answers are read until the monitor asks for data. *)
Fixpoint wait_ping (n : nat) (answer : Z) : M Z :=
  match n with
  | O => lift None
  | S n =>
    '(buf, r) ← read_timeout fns [answer] 1 (-1);
    if negb (r =? 1) then ret IS_OP_ERROR
    else if byte_at buf 0 =? 0x43 then ret IS_OP_OK else wait_ping n (byte_at buf 0)
  end.

Definition xmodem_chunk (block : Z) (payload : list Z) : list Z :=
  [UART_XMODEM_SOH; block; u8 (0xff - block)] ++ payload ++ le16_bytes (SWAP16 (crc16 payload)).

(** A block that is not acknowledged is sent again. *)
Fixpoint send_blocks (n : nat) (block answer : Z) (buf : list Z) : M Z :=
  match buf, n with
  | [], _ => ret IS_OP_OK
  | _, O => lift None
  | _, S n =>
    let z := Z.min (lenZ buf) UART_XMODEM_PAYLOAD_SIZE in
    let payload := takeZ z buf ++ repeat 0xff (Z.to_nat (UART_XMODEM_PAYLOAD_SIZE - z)) in
    let chunk := xmodem_chunk block payload in
    w ← send_text chunk;
    if negb (w =? lenZ chunk) then ret IS_OP_ERROR else
    '(a, r) ← read_timeout fns [answer] 1 SAMBA_TIMEOUT_DEFAULT;
    if negb (r =? 1) then ret IS_OP_ERROR else
    let answer := byte_at a 0 in
    if answer =? UART_XMODEM_ACK then send_blocks n (u8 (block + 1)) answer (dropZ z buf)
    else if answer =? UART_XMODEM_CAN then ret IS_OP_ERROR
    else send_blocks n block answer buf
  end.

Definition write_uart_modem (buf : list Z) : M Z :=
  r ← wait_ping fuel 0;
  if negb (r =? IS_OP_OK) then ret IS_OP_ERROR else
  _ ← flush fns;
  r ← send_blocks fuel 1 0x43 buf;
  if negb (r =? IS_OP_OK) then ret IS_OP_ERROR else
  w ← send_text [UART_XMODEM_EOT];
  if negb (w =? 1) then ret IS_OP_ERROR else
  '(eot, r) ← read_char UART_XMODEM_EOT SAMBA_TIMEOUT_DEFAULT;
  ret (if (r =? 0) || negb (eot =? UART_XMODEM_ACK) then IS_OP_ERROR else IS_OP_OK).

Definition page_command (offset : Z) : list Z :=
  chars "S" ++ hex_lower 8 (SAMBA_FLASH_START_ADDRESS + offset) ++ chars "," ++ hex_lower 8 SAMBA_PAGE_SIZE ++ chars "#".
Definition latch_command (page : Z) : list Z :=
  chars "W" ++ hex_lower 8 0x400e0c04 ++ chars ",5a" ++ hex_lower 4 page ++ chars "01#".

Definition flash_erase_write_page (offset : Z) (data : list Z) (isUSB : bool) : M Z :=
  let page := u16 (offset / SAMBA_PAGE_SIZE) in
  _ ← print_send 32 (page_command offset);
  r ← (if isUSB then _ ← write fns data SAMBA_PAGE_SIZE; ret IS_OP_OK else write_uart_modem data);
  if negb (r =? IS_OP_OK) then ret IS_OP_ERROR else
  _ ← print_send 32 (latch_command page);
  wait_eefc_ready true.

(** ** Images *)

Definition erase_flash : M Z :=
  r ← write_word 0x400e0c04 0x5a000207;
  _ ← (if r =? IS_OP_OK then wait_eefc_ready true else ret 0);
  r ← write_word 0x400e0c04 0x5a001207;
  _ ← (if r =? IS_OP_OK then wait_eefc_ready true else ret 0);
  r ← write_word 0x400e0c04 0x5a002207;
  if r =? IS_OP_OK then wait_eefc_ready true else ret IS_OP_ERROR.

(** The pages of the file from [offset] on: the result, the offset and the checksum. *)
Fixpoint write_pages (n : nat) (file : list Z) (offset sum : Z) (isUSB : bool) : M (Z * Z * Z) :=
  let buf := takeZ SAMBA_PAGE_SIZE file in
  match n with
  | O => ret (IS_OP_OK, offset, sum)
  | S n =>
    if negb (lenZ buf =? SAMBA_PAGE_SIZE) then ret (IS_OP_OK, offset, sum) else
    r ← flash_erase_write_page offset buf isUSB;
    if negb (r =? IS_OP_OK) then
      if isUSB then ret (IS_OP_ERROR, offset, sum) else ret (IS_OP_OK, 0, sum)
    else
      let sum := fold_left Z.lxor (words32 buf) sum in
      _ ← call (fun s => (update_callback (offset + SAMBA_PAGE_SIZE) s, 0));
      write_pages n (dropZ SAMBA_PAGE_SIZE file) (offset + SAMBA_PAGE_SIZE) sum isUSB
  end.

(** One way of sending, then the other: [file] is [None] when it does not open. *)
Fixpoint download_ways (ways : list bool) (file : option (list Z)) (sum : Z) : M (Z * Z) :=
  match ways with
  | [] => ret (IS_OP_OK, sum)
  | isUSB :: ways =>
    _ ← sleep fns 250;
    _ ← flush fns;
    _ ← write fns (chars "#" ++ [0]) 2;
    '(_, _) ← read_timeout fns (repeat 0 512) SAMBA_PAGE_SIZE 100;
    match file with
    | None => ret (IS_OP_ERROR, sum)
    | Some bytes =>
      if negb (lenZ bytes =? SAMBA_BOOTLOADER_SIZE_24K) then ret (IS_OP_ERROR, 0) else
      '(r, offset, sum) ← write_pages (S (length bytes)) bytes 0 0 isUSB;
      if negb (r =? IS_OP_OK) then ret (IS_OP_ERROR, sum)
      else if negb (offset =? 0) then ret (IS_OP_OK, sum)
      else download_ways ways file sum
    end
  end.

(** The result and the member [checksum]. *)
Definition download_image (file : option (list Z)) (sum : Z) : M (Z * Z) :=
  r ← erase_flash;
  if negb (r =? IS_OP_OK) then ret (IS_OP_ERROR, sum) else download_ways [false; true] file sum.

(** What is left to be read is discarded. *)
Fixpoint drain_port (n : nat) (buf : list Z) : M (list Z) :=
  match n with
  | O => lift None
  | S n =>
    '(b, r) ← read_timeout fns buf 1 (-1);
    if r =? 0 then ret b else drain_port n b
  end.

(** The [n] words from [address] on are read behind the [index] bytes of [buf]. *)
Fixpoint read_words (n : nat) (address index : Z) (buf : list Z) : M (list Z * Z) :=
  match n with
  | O => ret (buf, index)
  | S n =>
    _ ← write fns (chars "#" ++ [0]) 2;
    _ ← print_send 42 (read_command address);
    '(rest, k) ← read_timeout fns (dropZ index buf) 4 SAMBA_TIMEOUT_DEFAULT;
    read_words n (address + 4) (index + k) (takeZ index buf ++ rest)
  end.

Fixpoint verify_pages (n : nat) (address : Z) (buf : list Z) (sum : Z) : M (Z * Z) :=
  match n with
  | O => ret (IS_OP_OK, sum)
  | S n =>
    '(buf, index) ← read_words 128 address 0 buf;
    if negb (index =? SAMBA_PAGE_SIZE) then ret (IS_OP_ERROR, sum) else
    let sum := fold_left Z.lxor (words32 buf) sum in
    _ ← call (fun s => (verify_callback (address + SAMBA_PAGE_SIZE - SAMBA_FLASH_START_ADDRESS) s, 0));
    verify_pages n (address + SAMBA_PAGE_SIZE) buf sum
  end.

Definition verify_image (checksum : Z) : M Z :=
  _ ← flush fns;
  buf ← drain_port fuel (repeat 0 512);
  '(r, sum) ← verify_pages 48 SAMBA_FLASH_START_ADDRESS buf 0;
  ret (if negb (r =? IS_OP_OK) then r else if checksum =? sum then IS_OP_OK else IS_OP_ERROR).

End Samba.
End SambaBootloader.
