(* ===== verification/SambaProps.v ===== *)
(** * The SAM-BA monitor: what the SDK sends it

    The checksum of the blocks against its usual definition, what the monitor of a processor
    does with its commands and blocks as a step relation, and the image that ends up in
    the flash memory. *)

From stdpp Require Import gmap strings.
From S2P Require Import Prelude Printf Checksum CommRx CommTx SerialPort IsbBootloader SambaBootloader.
Import IsbBootloader SambaBootloader.
#[local] Open Scope string_scope.
#[local] Open Scope list_scope.
#[local] Open Scope Z_scope.

Module SambaProps.

(** ** The checksum *)

(** One step of the register of XMODEM, and a byte on top of it. *)
Definition crc_shift (r : Z) : Z :=
  let s := u16 (Z.shiftl r 1) in if Z.testbit r 15 then Z.lxor s UART_XMODEM_CRC_POLY else s.
Definition crc_byte (crc b : Z) : Z := Nat.iter 8 crc_shift (Z.lxor crc (Z.shiftl b 8)).
Definition xmodem_crc (data : list Z) : Z := fold_left crc_byte data 0.

Lemma crc_shift_lxor x y : crc_shift (Z.lxor x y) = Z.lxor (crc_shift x) (crc_shift y).
Proof.
  unfold crc_shift, u16. rewrite Z.lxor_spec, Z.shiftl_lxor. change 65536 with (2 ^ 16).
  rewrite lxor_mod by lia. destruct (Z.testbit x 15), (Z.testbit y 15); cbn [xorb]; zbits.
Qed.

Lemma crc_iter_lxor n x y :
  Nat.iter n crc_shift (Z.lxor x y) = Z.lxor (Nat.iter n crc_shift x) (Nat.iter n crc_shift y).
Proof. induction n as [|n IH]; [done|]. by rewrite !Nat.iter_succ, IH, crc_shift_lxor. Qed.

Lemma crc_shift_range r : 0 <= crc_shift r < 65536.
Proof.
  assert (0 <= u16 (Z.shiftl r 1) < 65536) as H by (by apply Z.mod_pos_bound).
  unfold crc_shift. destruct (Z.testbit r 15); [|done].
  apply (lxor_bound 16); [lia|done|]. unfold UART_XMODEM_CRC_POLY. lia.
Qed.

Lemma crc_iter_range n r : 0 <= r < 65536 -> 0 <= Nat.iter n crc_shift r < 65536.
Proof. intros H. destruct n as [|n]; [done|]. rewrite Nat.iter_succ. apply crc_shift_range. Qed.

(** A bit is shifted in at the low end of the register. *)
Lemma crc_update_shift c incr : 0 <= c < 65536 ->
  crc_update c incr = Z.lxor (crc_shift c) (if incr =? 0 then 0 else 1).
Proof.
  intros Hc. unfold crc_update, crc_shift. rewrite Z.shiftl_mul_pow2 by lia. change (2 ^ 1) with 2.
  assert (Z.testbit c 15 = negb (Z.shiftr c 15 =? 0)) as ->.
  { rewrite Z.shiftr_div_pow2, Z.testbit_odd, Z.shiftr_div_pow2 by lia.
    change (2 ^ 15) with 32768. assert (c / 32768 = 0 \/ c / 32768 = 1) as [-> | ->] by zlia; done. }
  assert (Z.lxor (u16 (c * 2)) 1 = u16 (u16 (c * 2) + 1)) as Hone.
  { unfold u16. set (x := (c * 2) mod 65536). assert (x = 2 * (x / 2) /\ 0 <= x < 65536) as [Ex Hx] by (unfold x; zlia).
    rewrite (Z.mod_small (x + 1)) by zlia. rewrite Ex, <- Z.add_nocarry_lxor; [lia|].
    apply Z.bits_inj'. intros i Hi. rewrite Z.land_spec, Z.bits_0.
    destruct (Z.eq_dec i 0) as [->|Hne]; [by rewrite Z.testbit_even_0|].
    rewrite (Z.bits_above_log2 1), andb_false_r; [done|lia|cbn; lia]. }
  destruct (Z.shiftr c 15 =? 0), (incr =? 0); cbn [negb]; rewrite ?Z.lxor_0_r, <- ?Hone; try done.
  by rewrite !Z.lxor_assoc, (Z.lxor_comm 1).
Qed.

Lemma crc_zeros_iter n c : 0 <= c < 65536 -> crc_zeros n c = Nat.iter n crc_shift c.
Proof.
  revert c. induction n as [|n IH]; intros c Hc; [done|]. cbn [crc_zeros].
  rewrite crc_update_shift, Z.lxor_0_r by done. rewrite IH by apply crc_shift_range.
  by rewrite <- Nat.iter_succ_r, Nat.iter_succ.
Qed.

(** The bits of a byte, with nothing in the register before. *)
Lemma crc_bits_lxor n c data : 0 <= c < 65536 ->
  crc_bits n c data = Z.lxor (Nat.iter n crc_shift c) (crc_bits n 0 data) /\ 0 <= crc_bits n c data < 65536.
Proof.
  revert c. induction n as [|n IH]; intros c Hc; cbn [crc_bits].
  - by rewrite Z.lxor_0_r.
  - set (bit := Z.land data (Z.shiftl 1 (Z.of_nat n))). set (v := if bit =? 0 then 0 else 1).
    assert (0 <= v < 65536) as Hv by (unfold v; destruct (bit =? 0); lia).
    pose proof (crc_shift_range c) as Hs. rewrite !crc_update_shift by lia. fold v.
    change (crc_shift 0) with 0. rewrite Z.lxor_0_l.
    assert (0 <= Z.lxor (crc_shift c) v < 65536) as Hx by (apply (lxor_bound 16); [lia|done|done]).
    destruct (IH _ Hx) as [E Hr]. split; [|done]. rewrite E, (proj1 (IH v Hv)).
    rewrite crc_iter_lxor, <- Nat.iter_succ_r, Z.lxor_assoc. done.
Qed.

Lemma byte_facts b : byte b -> crc_bits 8 0 b = b /\ Nat.iter 8 crc_shift b = Z.shiftl b 8.
Proof.
  intros Hb. assert ((crc_bits 8 0 b =? b) && (Nat.iter 8 crc_shift b =? Z.shiftl b 8) = true) as H.
  { apply (forall_below (fun b => (crc_bits 8 0 b =? b) && (Nat.iter 8 crc_shift b =? Z.shiftl b 8)) 256);
      [vm_compute; reflexivity|exact Hb]. }
  apply andb_true_iff in H as [H1 H2]. split; by apply Z.eqb_eq.
Qed.

Lemma iter_comm {A} (f : A -> A) n k x : Nat.iter n f (Nat.iter k f x) = Nat.iter k f (Nat.iter n f x).
Proof. by rewrite <- !Nat.iter_add, Nat.add_comm. Qed.

Lemma crc_bits_byte c b : 0 <= c < 65536 -> byte b ->
  Nat.iter 16 crc_shift (crc_bits 8 c b) = crc_byte (Nat.iter 16 crc_shift c) b.
Proof.
  intros Hc Hb. destruct (byte_facts b Hb) as [E1 E2].
  rewrite (proj1 (crc_bits_lxor 8 c b Hc)), E1, crc_iter_lxor. unfold crc_byte.
  rewrite crc_iter_lxor. change 16%nat with (8 + 8)%nat at 2. rewrite (Nat.iter_add 8 8 _ b), E2.
  by rewrite (iter_comm crc_shift 16 8).
Qed.

(** Two folds whose steps agree up to a map of the states. *)
Lemma fold_left_map_state {A B C} (f : A -> B -> A) (g : C -> B -> C) (h : A -> C) (P : A -> Prop) (Q : B -> Prop) l a :
  (forall a b, P a -> Q b -> h (f a b) = g (h a) b /\ P (f a b)) -> Forall Q l -> P a ->
  h (fold_left f l a) = fold_left g l (h a) /\ P (fold_left f l a).
Proof.
  intros Hs Hl. revert a. induction Hl as [|b l Hb Hl IH]; intros a Ha; [done|]. cbn [fold_left].
  destruct (Hs a b Ha Hb) as [<- HP]. by apply IH.
Qed.

Lemma crc_bits_message data c : Forall byte data -> 0 <= c < 65536 ->
  Nat.iter 16 crc_shift (fold_left (crc_bits 8) data c) = fold_left crc_byte data (Nat.iter 16 crc_shift c) /\
  0 <= fold_left (crc_bits 8) data c < 65536.
Proof.
  apply (fold_left_map_state _ _ _ (fun c => 0 <= c < 65536)). intros a b Ha Hb.
  split; [by apply crc_bits_byte|by apply crc_bits_lxor].
Qed.

(** The checksum of the code, which works through sixteen more zero bits at the end, is the one of XMODEM. *)
Lemma crc16_xmodem data : Forall byte data -> crc16 data = xmodem_crc data.
Proof.
  intros Hd. unfold crc16. destruct (crc_bits_message data 0 Hd ltac:(lia)) as [E Hr].
  rewrite crc_zeros_iter by exact Hr. exact E.
Qed.

Lemma xmodem_crc_range data : 0 <= xmodem_crc data < 65536.
Proof.
  unfold xmodem_crc. assert (forall c, 0 <= c < 65536 -> 0 <= fold_left crc_byte data c < 65536) as H; [|by apply H].
  induction data as [|b data IH]; intros c Hc; [done|]. apply IH. unfold crc_byte. apply crc_shift_range.
Qed.

(** The bytes of the checksum are sent high byte first. *)
Lemma crc_bytes data : Forall byte data ->
  le16_bytes (SWAP16 (crc16 data)) = [xmodem_crc data / 256; xmodem_crc data mod 256].
Proof.
  intros Hd. rewrite crc16_xmodem by done. pose proof (xmodem_crc_range data) as Hr.
  set (c := xmodem_crc data) in *. unfold SWAP16, le16_bytes.
  rewrite Z.shiftr_div_pow2 by lia. change (2 ^ 8) with 256. rewrite lor_shiftl by (change (2 ^ 8) with 256; zlia).
  change (2 ^ 8) with 256. unfold u16, lo8, hi8. f_equal; [|f_equal]; zlia.
Qed.

(** ** The monitor *)

Definition EEFC_FCR : Z := 0x400e0c04.
Definition EEFC_FSR : Z := 0x400e0c08.

(** What the monitor is sent: an end of a command, the commands that read and write words
    and receive a page, and the blocks of a page with their end. *)
Inductive input :=
  | Sync | ReadWord (address : Z) | WriteWord (address word : Z) | SendPage (page : Z)
  | Block (block : Z) (payload : list Z) (crc : Z) | EndOfPage.

Definition input_text (i : input) : list Z :=
  match i with
  | Sync => [0x23; 0]
  | ReadWord address => read_command address
  | WriteWord address word => write_command address word
  | SendPage page => page_command (SAMBA_PAGE_SIZE * page)
  | Block block payload crc =>
    [UART_XMODEM_SOH; block; 0xff - block] ++ payload ++ [crc / 256; crc mod 256]
  | EndOfPage => [UART_XMODEM_EOT]
  end.

(** A page that is received: its number, the number of the next block, what there is of it, and how
    many blocks may still be garbled on the way. *)
Inductive mode_t := Ready | Receiving (page block : Z) (got : list Z) (tries : nat).

(** The latches of the flash controller hold a page; [busy] is for how many requests of its
    status it is not ready; [out] is what can be read. *)
Record monitor := Monitor {
  mode : mode_t; latch : option (Z * list Z); busy : nat; flash : gmap Z (list Z); out : list Z
}.

Definition set_out (l : list Z) (m : monitor) : monitor :=
  Monitor (mode m) (latch m) (busy m) (flash m) l.

Definition erased : list Z := repeat 0xff 512.
Fixpoint erase (n : nat) (page : Z) (flash : gmap Z (list Z)) : gmap Z (list Z) :=
  match n with O => flash | S n => <[page := erased]> (erase n (page + 1) flash) end.

(** What the monitor and the flash controller do, with [noise] the limit of the stray bytes before a
    page is asked for and of the blocks of a page that are garbled.  Flash memory is erased by 16
    pages; programming only clears bits. *)
Inductive takes (noise : nat) : monitor -> input -> monitor -> Prop :=
  | takes_sync l b f o : takes noise (Monitor Ready l b f o) Sync (Monitor Ready l b f o)
  | takes_status l b f status :
      0 <= status < 32 -> Z.land status 1 = (match b with O => 1 | _ => 0 end) ->
      takes noise (Monitor Ready l b f []) (ReadWord EEFC_FSR) (Monitor Ready l (pred b) f [status; 0; 0; 0])
  | takes_word l f page i bytes :
      0 <= page < 48 -> 0 <= i < 128 -> f !! page = Some bytes ->
      takes noise (Monitor Ready l 0 f [])
        (ReadWord (SAMBA_FLASH_START_ADDRESS + SAMBA_PAGE_SIZE * page + 4 * i))
        (Monitor Ready l 0 f (subZ (4 * i) 4 bytes))
  | takes_erase l f k b : 0 <= k < 3 -> (b < 10)%nat ->
      takes noise (Monitor Ready l 0 f []) (WriteWord EEFC_FCR (0x5a000207 + 0x1000 * k))
        (Monitor Ready l b (erase 16 (16 * k) f) [])
  | takes_program f page data old b : 0 <= page < 48 -> (b < 10)%nat -> f !! page = Some old ->
      takes noise (Monitor Ready (Some (page, data)) 0 f []) (WriteWord EEFC_FCR (0x5a000001 + 256 * page))
        (Monitor Ready None b (<[page := zip_with Z.land old data]> f) [])
  | takes_send l f page junk pings :
      0 <= page < 48 -> (length junk <= noise)%nat -> 0x43 ∉ junk ->
      takes noise (Monitor Ready l 0 f []) (SendPage page)
        (Monitor (Receiving page 1 [] noise) l 0 f (junk ++ 0x43 :: pings))
  | takes_block l f page block got tries payload : lenZ payload = UART_XMODEM_PAYLOAD_SIZE ->
      takes noise (Monitor (Receiving page block got tries) l 0 f []) (Block block payload (xmodem_crc payload))
        (Monitor (Receiving page (u8 (block + 1)) (got ++ payload) tries) l 0 f [UART_XMODEM_ACK])
  | takes_garbled l f page block got tries payload crc answer :
      lenZ payload = UART_XMODEM_PAYLOAD_SIZE -> 0 <= crc < 65536 ->
      answer <> UART_XMODEM_ACK -> answer <> UART_XMODEM_CAN ->
      takes noise (Monitor (Receiving page block got (S tries)) l 0 f []) (Block block payload crc)
        (Monitor (Receiving page block got tries) l 0 f [answer])
  | takes_end l f page block got tries : lenZ got = SAMBA_PAGE_SIZE ->
      takes noise (Monitor (Receiving page block got tries) l 0 f []) EndOfPage
        (Monitor Ready (Some (page, got)) 0 f [UART_XMODEM_ACK]).

(** ** Functions that use the port *)

Section Monitored.
Context {D : Type} (fns : serial_fns D).
Implicit Types s : serial_port_t D.
Context (update_callback verify_callback : Z -> serial_port_t D -> serial_port_t D).
Context (noise : nat).

(** A device with a monitor, which [view] gives: writes are taken, reads give what there is,
    and neither pauses nor the callbacks for the progress change it. *)
Record monitored (view : D -> monitor) : Prop := {
  mo_write : exists f, pfnWrite fns = Some f /\ forall i s, (exists m, takes noise (view (sp_dev s)) i m) ->
    exists s', f (input_text i) s = (s', lenZ (input_text i)) /\ sp_handle s' = sp_handle s /\
      takes noise (view (sp_dev s)) i (view (sp_dev s'));
  mo_read : exists f, pfnRead fns = Some f /\ forall n t s, 0 < n ->
    exists s', f n t s = (s', takeZ n (out (view (sp_dev s))), lenZ (takeZ n (out (view (sp_dev s))))) /\
      sp_handle s' = sp_handle s /\
      view (sp_dev s') = set_out (dropZ n (out (view (sp_dev s)))) (view (sp_dev s));
  mo_flush : exists f, pfnFlush fns = Some f /\ forall s, exists s' r, f s = (s', r) /\
    sp_handle s' = sp_handle s /\ view (sp_dev s') = set_out [] (view (sp_dev s));
  mo_sleep : forall f, pfnSleep fns = Some f -> forall ms s, exists s' r, f ms s = (s', r) /\
    sp_handle s' = sp_handle s /\ view (sp_dev s') = view (sp_dev s);
  mo_update : forall k s, sp_handle (update_callback k s) = sp_handle s /\
    view (sp_dev (update_callback k s)) = view (sp_dev s);
  mo_verify : forall k s, sp_handle (verify_callback k s) = sp_handle s /\
    view (sp_dev (verify_callback k s)) = view (sp_dev s)
}.

Context (view : D -> monitor) (Hmo : monitored view).

(** [m] returns a result with [Q], when the monitor is in the state [mu]. *)
Definition wp {A} (m : serial_port_t D -> option (serial_port_t D * A)) (Q : A -> monitor -> Prop) (mu : monitor) : Prop :=
  forall s, sp_handle s <> 0 -> view (sp_dev s) = mu ->
  exists s' x, m s = Some (s', x) /\ sp_handle s' <> 0 /\ Q x (view (sp_dev s')).

Lemma wp_ret {A} (x : A) Q mu : Q x mu -> wp (ret x) Q mu.
Proof. intros HQ s Hh Hv. exists s, x. by rewrite Hv. Qed.

Lemma wp_bind {A B} (m : M A) (f : A -> M B) Q mu : wp m (fun x => wp (f x) Q) mu -> wp (bind m f) Q mu.
Proof.
  intros Hm s Hh Hv. destruct (Hm s Hh Hv) as (s1 & x & E1 & Hh1 & H1).
  destruct (H1 s1 Hh1 eq_refl) as (s2 & y & E2 & Hh2 & H2). exists s2, y. unfold bind. by rewrite E1.
Qed.

Lemma wp_mono {A} (m : M A) (Q Q' : A -> monitor -> Prop) mu :
  wp m Q mu -> (forall x mu', Q x mu' -> Q' x mu') -> wp m Q' mu.
Proof.
  intros Hm HQ s Hh Hv. destruct (Hm s Hh Hv) as (s1 & x & E1 & Hh1 & H1). exists s1, x. auto.
Qed.

Lemma wp_write buf n i (Q : Z -> monitor -> Prop) mu :
  0 < n <= lenZ buf -> takeZ n buf = input_text i -> (exists m, takes noise mu i m) ->
  (forall m, takes noise mu i m -> Q n m) -> wp (write fns buf n) Q mu.
Proof.
  intros Hn Ht Hex HQ s Hh Hv. destruct (mo_write _ Hmo) as (f & Ef & Hf). rewrite <- Hv in Hex.
  destruct (Hf i s Hex) as (s1 & E1 & Hh1 & T1). assert (lenZ (input_text i) = n) as Hl
    by (rewrite <- Ht, lenZ_takeZ; lia).
  unfold write, on_port, serialPortWrite. rewrite Ef, (proj2 (Z.eqb_neq _ 0) Hh), (proj2 (Z.ltb_ge n 1)) by lia.
  cbn [orb]. rewrite take_exact_ok by lia. cbn [mbind option_bind]. rewrite Ht, E1, Hl.
  rewrite (proj2 (Z.ltb_ge n 0)) by lia. cbn [mbind option_bind]. do 2 eexists. split; [reflexivity|].
  split; [cbn; congruence|]. apply HQ. by rewrite <- Hv.
Qed.

Lemma wp_read buf n t (Q : list Z * Z -> monitor -> Prop) mu :
  0 < n -> lenZ (takeZ n (out mu)) <= lenZ buf ->
  Q (updZ 0 (takeZ n (out mu)) buf, lenZ (takeZ n (out mu))) (set_out (dropZ n (out mu)) mu) ->
  wp (read_timeout fns buf n t) Q mu.
Proof.
  intros Hn Hb HQ s Hh Hv. destruct (mo_read _ Hmo) as (f & Ef & Hf). destruct (Hf n t s Hn) as (s1 & E1 & Hh1 & V1).
  rewrite Hv in E1, V1. unfold read_timeout, on_port, serialPortReadTimeout, read_with.
  rewrite Ef, (proj2 (Z.eqb_neq _ 0) Hh), (proj2 (Z.ltb_ge n 1)) by lia. cbn [orb]. rewrite E1.
  set (l := takeZ n (out mu)) in *. pose proof (lenZ_nonneg l). rewrite memcpy_ok by lia. cbn [mbind option_bind].
  rewrite (takeZ_all (lenZ l)) by lia. rewrite (proj2 (Z.ltb_ge _ 0)) by lia. cbn [mbind option_bind].
  do 2 eexists. split; [reflexivity|]. split; [cbn; congruence|]. cbn. by rewrite V1.
Qed.

Lemma wp_flush (Q : Z -> monitor -> Prop) mu : (forall r, Q r (set_out [] mu)) -> wp (flush fns) Q mu.
Proof.
  intros HQ s Hh Hv. destruct (mo_flush _ Hmo) as (f & Ef & Hf). destruct (Hf s) as (s1 & r & E1 & Hh1 & V1).
  unfold flush, on_port, serialPortFlush, call0, opened. rewrite Ef, (proj2 (Z.eqb_neq _ 0) Hh), E1. cbn.
  do 2 eexists. split; [reflexivity|]. split; [congruence|]. rewrite V1, Hv. apply HQ.
Qed.

Lemma wp_sleep ms (Q : Z -> monitor -> Prop) mu : (forall r, Q r mu) -> wp (sleep fns ms) Q mu.
Proof.
  intros HQ s Hh Hv. unfold sleep, on_port, serialPortSleep, call0. destruct (pfnSleep fns) as [f|] eqn:Ef; cbn.
  - destruct (mo_sleep _ Hmo f Ef ms s) as (s1 & r & E1 & Hh1 & V1). rewrite E1. cbn.
    do 2 eexists. split; [reflexivity|]. split; [congruence|]. rewrite V1, Hv. apply HQ.
  - do 2 eexists. split; [reflexivity|]. split; [done|]. rewrite Hv. apply HQ.
Qed.

Lemma wp_call (f : Z -> serial_port_t D -> serial_port_t D) k (Q : Z -> monitor -> Prop) mu :
  (forall k s, sp_handle (f k s) = sp_handle s /\ view (sp_dev (f k s)) = view (sp_dev s)) ->
  Q 0 mu -> wp (call (fun s => (f k s, 0))) Q mu.
Proof.
  intros Hf HQ s Hh Hv. unfold call. destruct (Hf k s) as [Hh1 V1]. do 2 eexists. split; [reflexivity|].
  split; [congruence|]. by rewrite V1, Hv.
Qed.
(** *** Words *)

Lemma wp_print_send size text i (Q : Z -> monitor -> Prop) mu :
  text = input_text i -> 0 < lenZ text < size -> (exists m, takes noise mu i m) ->
  (forall m, takes noise mu i m -> Q (lenZ text) m) -> wp (print_send fns size text) Q mu.
Proof.
  intros Ht Hl. unfold print_send, snprintf. rewrite takeZ_all by lia. apply wp_write.
  - rewrite lenZ_app. change (lenZ [0]) with 1. lia.
  - by rewrite takeZ_app_len.
Qed.

Lemma lenZ_hex_lower w x : (0 < w)%nat -> 0 <= x < 16 ^ Z.of_nat w -> x < 4294967296 ->
  lenZ (hex_lower w x) = Z.of_nat w.
Proof.
  intros. unfold hex_lower, lenZ. rewrite length_map, hex_text_fixed by done. by rewrite length_hex_fixed.
Qed.

Lemma lenZ_read_command a : 0 <= a < 4294967296 -> lenZ (read_command a) = 11.
Proof. intros H. unfold read_command. rewrite !lenZ_app, lenZ_hex_lower by (cbn; lia). done. Qed.

Lemma lenZ_write_command a w : 0 <= a < 4294967296 -> 0 <= w < 4294967296 -> lenZ (write_command a w) = 19.
Proof. intros. unfold write_command. rewrite !lenZ_app, !lenZ_hex_lower by (cbn; lia). done. Qed.

Lemma updZ_front {A} (l buf : list A) : updZ 0 l buf = l ++ dropZ (lenZ l) buf.
Proof. done. Qed.

(** One request of the status. *)
Lemma wp_status l b f (Q : option Z -> monitor -> Prop) :
  (forall status, Z.land status 1 = (match b with O => 1 | _ => 0 end) ->
    Q (Some status) (Monitor Ready l (pred b) f [])) ->
  wp (read_word fns EEFC_FSR) Q (Monitor Ready l b f []).
Proof.
  intros HQ. unfold read_word. apply wp_bind. assert (0 <= EEFC_FSR < 4294967296) as Ha by (unfold EEFC_FSR; lia).
  pose proof (lenZ_read_command _ Ha) as Hl.
  apply (wp_print_send 16 _ (ReadWord EEFC_FSR)); [done|lia| |].
  - eexists. apply (takes_status noise l b f (match b with O => 1 | _ => 0 end)); destruct b; [lia..|done|done].
  - intros m Hm. rewrite Hl. change (negb (11 =? 11)) with false. cbv iota. apply wp_bind.
    inversion Hm as [|? ? ? status Hs Ho| | | | | | |]; subst.
    + apply wp_read; [lia|done|]. cbn [out]. change (takeZ 4 [status; 0; 0; 0]) with [status; 0; 0; 0].
      change (lenZ [status; 0; 0; 0]) with 4. cbv beta iota. change (4 =? 4) with true. cbv iota.
      apply wp_ret. rewrite updZ_front. cbn [app].
      repeat match goal with |- context [byte_at (?a :: ?b :: ?c :: ?d :: ?l) ?i] =>
        first [change (byte_at (a :: b :: c :: d :: l) i) with 0 | change (byte_at (a :: b :: c :: d :: l) i) with status] end.
      rewrite !Z.shiftl_0_l, Z.lor_0_l. unfold u32. rewrite Z.mod_small by lia. by apply HQ.
    + exfalso. unfold EEFC_FSR, SAMBA_FLASH_START_ADDRESS, SAMBA_PAGE_SIZE in *. lia.
Qed.

Lemma wp_wait_ready n b l f (Q : Z -> monitor -> Prop) : (b < n)%nat ->
  Q IS_OP_OK (Monitor Ready l 0 f []) -> wp (wait_ready fns n true) Q (Monitor Ready l b f []).
Proof.
  revert b. induction n as [|n IH]; intros b Hb HQ; [lia|]. cbn [wait_ready].
  change 0x400e0c08 with EEFC_FSR. apply wp_bind, wp_status. intros status Hs. rewrite Hs.
  destruct b as [|b]; [by apply wp_ret|]. cbn [Z.eqb negb Bool.eqb Nat.pred].
  apply wp_bind, wp_sleep. intros _. apply IH; [lia|done].
Qed.

(** A word that is written to the flash controller. *)
Lemma wp_write_word a w (Q : Z -> monitor -> Prop) mu :
  0 <= a < 4294967296 -> 0 <= w < 4294967296 -> (exists m, takes noise mu (WriteWord a w) m) ->
  (forall m, takes noise mu (WriteWord a w) m -> Q IS_OP_OK m) -> wp (write_word fns a w) Q mu.
Proof.
  intros Ha Hw Hex HQ. unfold write_word. pose proof (lenZ_write_command a w Ha Hw) as Hl.
  apply wp_bind, (wp_print_send 32 _ (WriteWord a w)); [done|lia|done|]. intros m Hm.
  rewrite Z.eqb_refl. cbn [negb]. apply wp_ret. auto.
Qed.

(** *** Erasure *)

Lemma lookup_erase n page f q : erase n page f !! q =
  if decide (page <= q < page + Z.of_nat n) then Some erased else f !! q.
Proof.
  revert page. induction n as [|n IH]; intros page; cbn [erase].
  - rewrite decide_False by lia. done.
  - destruct (decide (q = page)) as [->|Hne].
    + rewrite lookup_insert_eq, decide_True by lia. done.
    + rewrite lookup_insert_ne by done. rewrite IH.
      destruct (decide (page + 1 <= q < _)), (decide (page <= q < _)); done || lia.
Qed.

Lemma wp_erase_word l f w k (Q : Z -> monitor -> Prop) : 0 <= k < 3 -> w = 0x5a000207 + 0x1000 * k ->
  (forall b, (b < 10)%nat -> Q IS_OP_OK (Monitor Ready l b (erase 16 (16 * k) f) [])) ->
  wp (write_word fns EEFC_FCR w) Q (Monitor Ready l 0 f []).
Proof.
  intros Hk -> HQ. apply wp_write_word.
  - unfold EEFC_FCR. lia.
  - lia.
  - eexists. by apply (takes_erase noise l f k 0); [|lia].
  - intros m Hm. inversion Hm as [| | |? ? k' b ? ? E| | | | |]; subst.
    + assert (k' = k) as -> by lia. by apply HQ.
    + exfalso. lia.
Qed.

Lemma wp_erase_flash l f (Q : Z -> monitor -> Prop) :
  (forall f', (forall q, 0 <= q < 48 -> f' !! q = Some erased) -> Q IS_OP_OK (Monitor Ready l 0 f' [])) ->
  wp (erase_flash fns) Q (Monitor Ready l 0 f []).
Proof.
  intros HQ. unfold erase_flash. change 0x400e0c04 with EEFC_FCR.
  apply wp_bind, (wp_erase_word _ _ _ 0); [lia|done|]. intros b Hb. cbn [Z.eqb IS_OP_OK].
  apply wp_bind, wp_wait_ready; [done|].
  apply wp_bind, (wp_erase_word _ _ _ 1); [lia|done|]. intros b1 Hb1. cbn [Z.eqb IS_OP_OK].
  apply wp_bind, wp_wait_ready; [done|].
  apply wp_bind, (wp_erase_word _ _ _ 2); [lia|done|]. intros b2 Hb2. cbn [Z.eqb IS_OP_OK].
  apply wp_wait_ready; [done|]. apply HQ. intros q Hq. rewrite !lookup_erase.
  repeat destruct (decide _); done || lia.
Qed.

(** *** Pages *)

Lemma wp_ping n a l f page junk pings (Q : Z -> monitor -> Prop) : (length junk < n)%nat -> 0x43 ∉ junk ->
  Q IS_OP_OK (Monitor (Receiving page 1 [] noise) l 0 f pings) ->
  wp (wait_ping fns n a) Q (Monitor (Receiving page 1 [] noise) l 0 f (junk ++ 0x43 :: pings)).
Proof.
  intros Hn Hj HQ. revert n a Hn. induction junk as [|c junk IH]; intros n a Hn; (destruct n as [|n]; [cbn in Hn; lia|]);
    cbn [wait_ping]; apply wp_bind, wp_read; try done; cbn [app out set_out mode latch busy flash].
  - change (takeZ 1 (67 :: pings)) with [67]. by apply wp_ret.
  - change (takeZ 1 (c :: junk ++ 67 :: pings)) with [c]. rewrite updZ_front. cbn [app]. change (lenZ [c]) with 1.
    change (dropZ 1 (c :: junk ++ 67 :: pings)) with (junk ++ 67 :: pings).
    change (byte_at (c :: dropZ 1 [a]) 0) with c. cbv beta iota. change (negb (1 =? 1)) with false. cbv iota.
    rewrite (proj2 (Z.eqb_neq c 67)) by set_solver. apply IH; [set_solver|cbn in Hn; lia].
Qed.

Lemma wp_send_blocks n block a l f page got tries buf (Q : Z -> monitor -> Prop) :
  Forall byte buf -> 0 <= block < 256 -> (128 | lenZ buf) -> lenZ buf / 128 + Z.of_nat tries <= Z.of_nat n ->
  (forall block' tries', Q IS_OP_OK (Monitor (Receiving page block' (got ++ buf) tries') l 0 f [])) ->
  wp (send_blocks fns n block a buf) Q (Monitor (Receiving page block got tries) l 0 f []).
Proof.
  revert block a got tries buf. induction n as [|n IH]; intros block a got tries buf Hb Hbl Hd Hn HQ;
    (destruct buf as [|c rest]; [rewrite app_nil_r in HQ; by apply wp_ret|]); cbn [send_blocks];
    set (buf := c :: rest) in *; assert (0 < lenZ buf) as Hpos
      by (unfold buf; rewrite lenZ_cons; pose proof (lenZ_nonneg rest); lia);
    destruct Hd as [k Hk]; [zlia|].
  unfold UART_XMODEM_PAYLOAD_SIZE. replace (Z.min (lenZ buf) 128) with 128 by lia.
  cbn [Z.sub Z.add Z.opp Z.pos_sub Pos.pred_double Z.to_nat repeat]. rewrite app_nil_r.
  assert (lenZ (takeZ 128 buf) = 128) as Hp by (rewrite lenZ_takeZ; lia).
  assert (Forall byte (takeZ 128 buf)) as Hpb by (by apply Forall_take).
  assert (xmodem_chunk block (takeZ 128 buf) = input_text (Block block (takeZ 128 buf) (xmodem_crc (takeZ 128 buf)))) as Ht.
  { unfold xmodem_chunk. rewrite crc_bytes by done. cbn [input_text]. unfold u8. by rewrite Z.mod_small by lia. }
  set (chunk := xmodem_chunk block (takeZ 128 buf)) in *.
  assert (0 < lenZ chunk) as Hc.
  { unfold chunk, xmodem_chunk. rewrite lenZ_app. change (lenZ [UART_XMODEM_SOH; block; u8 (255 - block)]) with 3.
    pose proof (lenZ_nonneg (takeZ 128 buf ++ le16_bytes (SWAP16 (crc16 (takeZ 128 buf))))). lia. }
  apply wp_bind. unfold send_text. eapply wp_write; [lia|rewrite takeZ_all by lia; exact Ht|eexists; by apply takes_block|].
  intros m Hm. rewrite Z.eqb_refl. cbn [negb].
  inversion Hm as [| | | | | |? ? ? ? ? ? ? Hpl|? ? ? ? ? tries' ? ? answer ? ? Ha1 Ha2|]; subst;
    apply wp_bind, wp_read; try done; cbn [out set_out mode latch busy flash].
  - change (takeZ 1 [UART_XMODEM_ACK]) with [UART_XMODEM_ACK]. rewrite updZ_front. 
    change (negb (lenZ [UART_XMODEM_ACK] =? 1)) with false. cbv beta iota zeta.
    change (byte_at ([UART_XMODEM_ACK] ++ dropZ (lenZ [UART_XMODEM_ACK]) [a]) 0) with UART_XMODEM_ACK.
    change (UART_XMODEM_ACK =? UART_XMODEM_ACK) with true. cbv iota.
    apply IH; [by apply Forall_drop|by apply Z.mod_pos_bound|exists (k - 1); rewrite lenZ_dropZ; lia| |].
    + rewrite lenZ_dropZ. replace (Z.max 0 (lenZ buf - Z.max 0 128)) with ((k - 1) * 128) by lia.
      rewrite Hk, Z.div_mul in Hn by lia. rewrite Z.div_mul by lia. lia.
    + intros block' tries'. rewrite <- app_assoc, takeZ_dropZ. apply HQ.
  - change (takeZ 1 [answer]) with [answer]. rewrite updZ_front.
    change (negb (lenZ [answer] =? 1)) with false. cbv beta iota zeta.
    change (byte_at ([answer] ++ dropZ (lenZ [answer]) [a]) 0) with answer.
    rewrite (proj2 (Z.eqb_neq _ _) Ha1), (proj2 (Z.eqb_neq _ _) Ha2).
    apply IH; [done|done|by exists k|lia|done].
Qed.

Lemma wp_read_char c t x rest l f (Q : Z * Z -> monitor -> Prop) m0 :
  Q (x, 1) (Monitor m0 l 0 f rest) -> wp (read_char fns c t) Q (Monitor m0 l 0 f (x :: rest)).
Proof.
  intros HQ s Hh Hv. destruct (wp_read [c] 1 t (fun r mu => r = ([x], 1) /\ mu = Monitor m0 l 0 f rest)
    (Monitor m0 l 0 f (x :: rest)) ltac:(lia) ltac:(done)) with (s := s) as (s1 & r & E1 & Hh1 & -> & V1); [|done|done|].
  { cbn [out set_out mode latch busy flash]. split; [|done]. by change (takeZ 1 (x :: rest)) with [x]. }
  exists s1, (x, 1). split; [|split; [done|by rewrite V1]].
  unfold read_timeout, on_port in E1. unfold read_char, on_port, serialPortReadCharTimeout.
  destruct (serialPortReadTimeout _ _ _ _ _) as [[[p bf] k]|]; [|done]. cbn [mbind option_bind] in E1 |- *.
  destruct bf as [bf|]; [|done]. cbn [mbind option_bind] in E1 |- *. destruct p as [p|]; [|done].
  cbn [mbind option_bind] in E1. injection E1 as -> -> ->. done.
Qed.

(** A page by XMODEM: it is in the latches afterwards. *)
Lemma wp_write_uart_modem fuel l f page junk pings buf (Q : Z -> monitor -> Prop) :
  Forall byte buf -> lenZ buf = SAMBA_PAGE_SIZE -> (length junk <= noise)%nat -> 0x43 ∉ junk -> (noise + 4 <= fuel)%nat ->
  Q IS_OP_OK (Monitor Ready (Some (page, buf)) 0 f []) ->
  wp (write_uart_modem fns fuel buf) Q (Monitor (Receiving page 1 [] noise) l 0 f (junk ++ 0x43 :: pings)).
Proof.
  unfold SAMBA_PAGE_SIZE. intros Hb Hl Hj Hc Hf HQ. unfold write_uart_modem.
  apply wp_bind, wp_ping; [lia|done|]. change (negb (IS_OP_OK =? IS_OP_OK)) with false. cbv iota.
  apply wp_bind, wp_flush. intros _. cbn [set_out mode latch busy flash].
  apply wp_bind, wp_send_blocks; [done|lia|exists 4; lia|rewrite Hl; change (512 / 128) with 4; lia|].
  intros block' tries'. cbn [app]. change (negb (IS_OP_OK =? IS_OP_OK)) with false. cbv iota.
  apply wp_bind. unfold send_text. change (lenZ [UART_XMODEM_EOT]) with 1.
  apply (wp_write _ _ EndOfPage); [done|done|eexists; by apply takes_end|].
  intros m Hm. change (negb (1 =? 1)) with false. cbv iota. inversion Hm; subst.
  apply wp_bind, wp_read_char. cbv beta iota. by apply wp_ret.
Qed.

Lemma latch_command_word page : 0 <= page < 48 ->
  latch_command page = write_command EEFC_FCR (0x5a000001 + 256 * page).
Proof.
  intros H. eapply bool_decide_eq_true_1. revert page H.
  apply (forall_below (fun page => bool_decide (latch_command page = write_command EEFC_FCR (0x5a000001 + 256 * page))) 48).
  vm_compute. reflexivity.
Qed.

Lemma land_erased data : Forall byte data -> lenZ data = SAMBA_PAGE_SIZE -> zip_with Z.land erased data = data.
Proof.
  unfold SAMBA_PAGE_SIZE, erased, lenZ. intros Hb Hl. assert (length data = 512%nat) as <- by lia. clear Hl.
  induction Hb as [|b data Hb Hd IH]; [done|]. cbn [length repeat zip_with]. f_equal; [|done].
  unfold byte in Hb. rewrite Z.land_comm. change 255 with (Z.ones 8). rewrite Z.land_ones by lia. by apply Z.mod_small.
Qed.

(** An erased page is programmed. *)
Lemma wp_flash_page fuel l f page data (Q : Z -> monitor -> Prop) :
  0 <= page < 48 -> Forall byte data -> lenZ data = SAMBA_PAGE_SIZE -> f !! page = Some erased -> (noise + 4 <= fuel)%nat ->
  Q IS_OP_OK (Monitor Ready None 0 (<[page := data]> f) []) ->
  wp (flash_erase_write_page fns fuel (SAMBA_PAGE_SIZE * page) data false) Q (Monitor Ready l 0 f []).
Proof.
  intros Hp Hb Hl He Hf HQ. unfold flash_erase_write_page.
  assert (u16 (SAMBA_PAGE_SIZE * page / SAMBA_PAGE_SIZE) = page) as ->.
  { rewrite Z.mul_comm, Z.div_mul by done. unfold u16. by rewrite Z.mod_small by lia. }
  apply wp_bind, (wp_print_send _ _ (SendPage page)); [done| | |].
  - unfold page_command, SAMBA_FLASH_START_ADDRESS, SAMBA_PAGE_SIZE.
    rewrite !lenZ_app, !lenZ_hex_lower by (cbn; lia). done.
  - eexists. apply (takes_send noise l f page [] []); [done|cbn; lia|set_solver].
  - intros m Hm. inversion Hm; subst. apply wp_bind, (wp_write_uart_modem fuel l f page); [done..|].
    change (negb (IS_OP_OK =? IS_OP_OK)) with false. cbv iota. rewrite latch_command_word by done.
    apply wp_bind, (wp_print_send _ _ (WriteWord EEFC_FCR (0x5a000001 + 256 * page))); [done| | |].
    + rewrite lenZ_write_command by (unfold EEFC_FCR; lia). done.
    + eexists. by apply (takes_program noise f page data erased 0); [|lia|].
    + intros m Hm2. inversion Hm2 as [| | |? ? k b ? ? E|? page' ? old b ? ? Ho E| | | |]; subst; [exfalso; lia|].
      rewrite He in Ho. injection Ho as <-. rewrite land_erased by done. by apply wp_wait_ready.
Qed.

End Monitored.
End SambaProps.
