(* ===== verification/SambaImage.v ===== *)
(** * The image of the bootloader

    The whole image is written through the SAM-BA monitor and verified, against a monitor that
    behaves as described in SambaProps.v; runs with a concrete device, among them those
    that deviate from what the code means to do. *)

From stdpp Require Import gmap strings.
From S2P Require Import Prelude Printf Checksum CommRx CommTx SerialPort SerialProps IsbBootloader SambaBootloader SambaProps.
Import IsbBootloader SambaBootloader SambaProps.
#[local] Open Scope string_scope.
#[local] Open Scope list_scope.
#[local] Open Scope Z_scope.

Module SambaImage.

Definition page_of (file : list Z) (page : Z) : list Z := subZ (SAMBA_PAGE_SIZE * page) SAMBA_PAGE_SIZE file.
(** The pages from [first] on hold [file]. *)
Definition holds (f : gmap Z (list Z)) (first n : Z) (file : list Z) : Prop :=
  forall q, 0 <= q < n -> f !! (first + q) = Some (page_of file q).

Lemma page_of_0 file : page_of file 0 = takeZ SAMBA_PAGE_SIZE file.
Proof. done. Qed.

Lemma dropZ_dropZ {A} n k (l : list A) : 0 <= n -> 0 <= k -> dropZ n (dropZ k l) = dropZ (k + n) l.
Proof. intros. unfold dropZ. rewrite drop_drop. f_equal. lia. Qed.

Lemma page_of_tail file q : 0 <= q -> page_of (dropZ SAMBA_PAGE_SIZE file) q = page_of file (q + 1).
Proof.
  intros Hq. unfold page_of, subZ. rewrite dropZ_dropZ by (unfold SAMBA_PAGE_SIZE; lia).
  do 2 f_equal. lia.
Qed.

(** The checksum page by page is the one of the whole. *)
Lemma xor_pages file sum : SAMBA_PAGE_SIZE <= lenZ file ->
  fold_left Z.lxor (words32 (dropZ SAMBA_PAGE_SIZE file)) (fold_left Z.lxor (words32 (takeZ SAMBA_PAGE_SIZE file)) sum) =
  fold_left Z.lxor (words32 file) sum.
Proof.
  unfold SAMBA_PAGE_SIZE. intros Hl. rewrite <- (takeZ_dropZ 512 file) at 3. rewrite words32_app.
  - by rewrite fold_left_app.
  - exists 128. rewrite lenZ_takeZ. lia.
Qed.

Lemma subZ_next {A} o n k (l : list A) : 0 <= o -> 0 <= n -> 0 <= k ->
  subZ o n l ++ subZ (o + n) k l = subZ o (n + k) l.
Proof.
  intros. unfold subZ, takeZ, dropZ. rewrite !Z2Nat.inj_add by lia.
  rewrite <- drop_drop, <- (take_drop (Z.to_nat n) (take (Z.to_nat n + Z.to_nat k) (drop (Z.to_nat o) l))).
  by rewrite take_take, Nat.min_l, skipn_firstn_comm, Nat.add_comm, Nat.add_sub by lia.
Qed.

(** A word of the flash memory is the only answer to a request for it. *)
Lemma takes_word_inv noise l f page i bytes m : 0 <= page < 48 -> 0 <= i < 128 -> f !! page = Some bytes ->
  takes noise (Monitor Ready l 0 f []) (ReadWord (SAMBA_FLASH_START_ADDRESS + SAMBA_PAGE_SIZE * page + 4 * i)) m ->
  m = Monitor Ready l 0 f (subZ (4 * i) 4 bytes).
Proof.
  unfold SAMBA_FLASH_START_ADDRESS, SAMBA_PAGE_SIZE. intros Hp Hi Hf Hm.
  inversion Hm as [|l1 b1 f1 status H1 H2 E1 E2 E3|l1 f1 page' i' bytes' Hp' Hi' Hf' E1 E2 E3| | | | | |]; subst.
  - exfalso. unfold EEFC_FSR in *. lia.
  - unfold SAMBA_FLASH_START_ADDRESS, SAMBA_PAGE_SIZE in E2. assert (page' = page /\ i' = i) as [-> ->] by lia.
    congruence.
Qed.

Section Image.
Context {D : Type} (fns : serial_fns D).
Implicit Types s : serial_port_t D.
Context (update_callback verify_callback : Z -> serial_port_t D -> serial_port_t D).
Context (noise : nat) (view : D -> monitor).
Context (Hmo : monitored fns update_callback verify_callback noise view).
Context (fuel : nat) (Hfuel : (noise + 4 <= fuel)%nat).
#[local] Abbreviation wp := (wp view).
#[local] Hint Resolve Hmo : core.

(** The pages that are left of the file are written. *)
Lemma wp_write_pages n k p file sum l f (Q : Z * Z * Z -> monitor -> Prop) :
  0 <= p -> 0 <= k -> p + k <= 48 -> lenZ file = SAMBA_PAGE_SIZE * k -> Forall byte file -> k < Z.of_nat n ->
  (forall q, p <= q < 48 -> f !! q = Some erased) ->
  (forall l' f', holds f' p k file -> (forall q, q < p -> f' !! q = f !! q) ->
    Q (IS_OP_OK, SAMBA_PAGE_SIZE * (p + k), fold_left Z.lxor (words32 file) sum) (Monitor Ready l' 0 f' [])) ->
  wp (write_pages fns update_callback fuel n file (SAMBA_PAGE_SIZE * p) sum false) Q (Monitor Ready l 0 f []).
Proof.
  revert k p file sum l f. induction n as [|n IH]; intros k p file sum l f Hp Hk Hpk Hl Hb Hn He HQ; [lia|].
  cbn [write_pages]. rewrite lenZ_takeZ, Hl. unfold SAMBA_PAGE_SIZE in Hl |- * at 1 2 3 4.
  destruct (decide (k = 0)) as [->|Hk0].
  - change (negb (Z.max 0 (Z.min 512 (512 * 0)) =? 512)) with true. cbv iota. apply wp_ret.
    apply lenZ_0_nil in Hl as ->. rewrite Z.add_0_r in HQ. apply HQ; [|done]. intros q Hq. lia.
  - rewrite (proj2 (Z.eqb_eq _ 512)) by lia. cbn [negb].
    assert (lenZ (takeZ 512 file) = 512) as Ht by (rewrite lenZ_takeZ; lia).
    apply wp_bind. eapply wp_flash_page; [exact Hmo|lia|by apply Forall_take|done|apply He; lia|done|].
    change (negb (IS_OP_OK =? IS_OP_OK)) with false. cbv iota.
    apply wp_bind. eapply wp_call; [exact (mo_update _ _ _ _ _ Hmo)|].
    replace (SAMBA_PAGE_SIZE * p + SAMBA_PAGE_SIZE) with (SAMBA_PAGE_SIZE * (p + 1)) by lia.
    apply (IH (k - 1)); try lia.
    + rewrite lenZ_dropZ. unfold SAMBA_PAGE_SIZE. lia.
    + by apply Forall_drop.
    + intros q Hq. rewrite lookup_insert_ne by lia. apply He. lia.
    + intros l' f' Hh Hf. replace (p + 1 + (k - 1)) with (p + k) by lia.
      rewrite xor_pages by (unfold SAMBA_PAGE_SIZE; lia). apply HQ.
      * intros q Hq. destruct (decide (q = 0)) as [->|Hq0].
        -- rewrite Z.add_0_r, Hf, lookup_insert_eq by lia. done.
        -- specialize (Hh (q - 1) ltac:(lia)). replace (p + 1 + (q - 1)) with (p + q) in Hh by lia.
           rewrite Hh, page_of_tail by lia. do 2 f_equal. lia.
      * intros q Hq. rewrite Hf, lookup_insert_ne by lia. done.
Qed.

Lemma wp_download_image file sum0 l f (Q : Z * Z -> monitor -> Prop) :
  lenZ file = SAMBA_BOOTLOADER_SIZE_24K -> Forall byte file ->
  (forall l' f', holds f' 0 48 file ->
    Q (IS_OP_OK, fold_left Z.lxor (words32 file) 0) (Monitor Ready l' 0 f' [])) ->
  wp (download_image fns update_callback fuel (Some file) sum0) Q (Monitor Ready l 0 f []).
Proof.
  intros Hl Hb HQ. unfold download_image. apply wp_bind. eapply wp_erase_flash; [exact Hmo|]. intros f1 He.
  change (negb (IS_OP_OK =? IS_OP_OK)) with false. cbv iota. cbn [download_ways].
  apply wp_bind. eapply wp_sleep; [exact Hmo|]. intros _.
  apply wp_bind. eapply wp_flush; [exact Hmo|]. intros _. cbn [set_out mode latch busy flash].
  apply wp_bind. eapply (wp_write _ _ _ _ _ Hmo _ _ Sync); [done|done|eexists; by apply takes_sync|].
  intros m Hm. inversion Hm; subst. apply wp_bind. eapply wp_read; [exact Hmo|done|done|]. cbv beta iota.
  rewrite Hl, Z.eqb_refl. cbn [negb set_out mode latch busy flash].
  change (dropZ SAMBA_PAGE_SIZE (@nil Z)) with (@nil Z). unfold SAMBA_BOOTLOADER_SIZE_24K in Hl. change 24576 with (512 * 48) in Hl.
  apply wp_bind. pose proof (wp_write_pages (S (length file)) 48 0 file 0 l f1) as Hw. rewrite Z.mul_0_r in Hw.
  apply Hw; try lia; try done.
  - unfold lenZ in Hl. lia.
  - intros l' f' Hh _. cbv iota beta. change (negb (IS_OP_OK =? IS_OP_OK)) with false. cbv iota.
    change (negb (SAMBA_PAGE_SIZE * (0 + 48) =? 0)) with true. cbv iota. apply wp_ret, HQ, Hh.
Qed.

(** The words of a page from the one with number [i] on. *)
Lemma wp_read_words n page i buf bytes l f (Q : list Z * Z -> monitor -> Prop) :
  0 <= page < 48 -> 0 <= i -> i + Z.of_nat n <= 128 -> lenZ buf = 512 -> lenZ bytes = 512 ->
  f !! page = Some bytes ->
  (forall buf', lenZ buf' = 512 -> takeZ (4 * (i + Z.of_nat n)) buf' = takeZ (4 * i) buf ++ subZ (4 * i) (4 * Z.of_nat n) bytes ->
    Q (buf', 4 * (i + Z.of_nat n)) (Monitor Ready l 0 f [])) ->
  wp (read_words fns n (SAMBA_FLASH_START_ADDRESS + SAMBA_PAGE_SIZE * page + 4 * i) (4 * i) buf) Q (Monitor Ready l 0 f []).
Proof.
  revert i buf. induction n as [|n IH]; intros i buf Hp Hi Hin Hb Hy Hf HQ; cbn [read_words].
  { apply wp_ret. specialize (HQ buf Hb). rewrite Z.add_0_r in HQ. apply HQ. by rewrite app_nil_r. }
  apply wp_bind. eapply (wp_write _ _ _ _ _ Hmo _ _ Sync); [done|done|eexists; by apply takes_sync|].
  intros m Hm. inversion Hm; subst.
  set (a := SAMBA_FLASH_START_ADDRESS + SAMBA_PAGE_SIZE * page + 4 * i).
  assert (0 <= a < 4294967296) as Ha by (unfold a, SAMBA_FLASH_START_ADDRESS, SAMBA_PAGE_SIZE; lia).
  apply wp_bind. eapply (wp_print_send _ _ _ _ _ Hmo _ _ (ReadWord a)); [done|by rewrite lenZ_read_command| |].
  { eexists. apply takes_word; [done|lia|done]. }
  intros m Hm2. apply (takes_word_inv _ _ _ _ _ bytes) in Hm2 as ->; [|lia|lia|done].
  assert (lenZ (subZ (4 * i) 4 bytes) = 4) as Hw by (rewrite lenZ_subZ; lia).
  set (word := subZ (4 * i) 4 bytes) in *. cbn [out].
  apply wp_bind. eapply wp_read; [exact Hmo|done| |]; cbn [out set_out mode latch busy flash]; rewrite (takeZ_all 4 word) by lia.
  { rewrite lenZ_dropZ. lia. }
  cbv iota beta. assert (dropZ 4 word = []) as -> by (apply lenZ_0_nil; rewrite lenZ_dropZ; lia). rewrite Hw.
  unfold a. replace (SAMBA_FLASH_START_ADDRESS + SAMBA_PAGE_SIZE * page + 4 * i + 4)
    with (SAMBA_FLASH_START_ADDRESS + SAMBA_PAGE_SIZE * page + 4 * (i + 1)) by lia.
  replace (4 * i + 4) with (4 * (i + 1)) by lia. apply IH; try lia; try done.
  - rewrite lenZ_app, lenZ_updZ, lenZ_takeZ, lenZ_dropZ; rewrite ?lenZ_dropZ; lia.
  - intros buf' Hb' Ht. replace (i + 1 + Z.of_nat n) with (i + Z.of_nat (S n)) in Ht |- * by lia. apply HQ; [done|].
    rewrite Ht, updZ_front, app_assoc.
    assert (lenZ (takeZ (4 * i) buf ++ word) = 4 * (i + 1)) as <- by (rewrite lenZ_app, lenZ_takeZ; lia).
    rewrite takeZ_app_len, <- app_assoc. f_equal. rewrite lenZ_app, lenZ_takeZ, Hw.
    replace (Z.max 0 (Z.min (4 * i) (lenZ buf)) + 4) with (4 * i + 4) by lia. unfold word.
    rewrite subZ_next by lia. f_equal. lia.
Qed.

Lemma wp_verify_pages n page file buf sum l f (Q : Z * Z -> monitor -> Prop) :
  0 <= page -> page + Z.of_nat n <= 48 -> lenZ buf = 512 -> lenZ file = SAMBA_PAGE_SIZE * Z.of_nat n ->
  holds f page (Z.of_nat n) file ->
  Q (IS_OP_OK, fold_left Z.lxor (words32 file) sum) (Monitor Ready l 0 f []) ->
  wp (verify_pages fns verify_callback n (SAMBA_FLASH_START_ADDRESS + SAMBA_PAGE_SIZE * page) buf sum) Q (Monitor Ready l 0 f []).
Proof.
  revert page file buf sum. induction n as [|n IH]; intros page file buf sum Hp Hn Hb Hl Hh HQ; cbn [verify_pages].
  { apply wp_ret. rewrite Z.mul_0_r in Hl. by apply lenZ_0_nil in Hl as ->. }
  assert (f !! page = Some (takeZ SAMBA_PAGE_SIZE file)) as Hf
    by (specialize (Hh 0 ltac:(lia)); by rewrite Z.add_0_r in Hh).
  assert (lenZ (takeZ SAMBA_PAGE_SIZE file) = 512) as Ht by (rewrite lenZ_takeZ, Hl; unfold SAMBA_PAGE_SIZE; lia).
  apply wp_bind. pose proof (wp_read_words 128 page 0 buf (takeZ SAMBA_PAGE_SIZE file) l f) as Hr.
  rewrite !Z.mul_0_r, Z.add_0_r in Hr. apply Hr; try lia; try done. clear Hr.
  intros buf' Hb' Hbuf. change (4 * (0 + Z.of_nat 128)) with 512 in Hbuf |- *.
  rewrite takeZ_all in Hbuf by lia. change (4 * Z.of_nat 128) with 512 in Hbuf. cbn [app Z.mul] in Hbuf.
  change (takeZ 0 buf) with (@nil Z) in Hbuf. cbn [app] in Hbuf. unfold subZ in Hbuf. rewrite dropZ_0, takeZ_all in Hbuf by lia.
  subst buf'. cbv iota beta. change (negb (512 =? SAMBA_PAGE_SIZE)) with false. cbv iota.
  apply wp_bind. eapply wp_call; [exact (mo_verify _ _ _ _ _ Hmo)|].
  replace (SAMBA_FLASH_START_ADDRESS + SAMBA_PAGE_SIZE * page + SAMBA_PAGE_SIZE)
    with (SAMBA_FLASH_START_ADDRESS + SAMBA_PAGE_SIZE * (page + 1)) by lia.
  apply (IH _ (dropZ SAMBA_PAGE_SIZE file)); try lia; try done.
  - rewrite lenZ_dropZ, Hl. unfold SAMBA_PAGE_SIZE. lia.
  - intros q Hq. rewrite page_of_tail by lia. replace (page + 1 + q) with (page + (q + 1)) by lia. apply Hh. lia.
  - rewrite xor_pages by (rewrite Hl; unfold SAMBA_PAGE_SIZE; lia). done.
Qed.

(** The verification succeeds just when the checksum is the one of what the flash memory holds. *)
Lemma wp_verify_image file sum l f (Q : Z -> monitor -> Prop) :
  lenZ file = SAMBA_BOOTLOADER_SIZE_24K -> holds f 0 48 file ->
  Q (if sum =? fold_left Z.lxor (words32 file) 0 then IS_OP_OK else IS_OP_ERROR) (Monitor Ready l 0 f []) ->
  wp (verify_image fns verify_callback fuel sum) Q (Monitor Ready l 0 f []).
Proof.
  intros Hl Hh HQ. unfold verify_image. apply wp_bind. eapply wp_flush; [exact Hmo|]. intros _.
  cbn [set_out mode latch busy flash]. assert (fuel = S (pred fuel)) as -> by lia. cbn [drain_port].
  apply wp_bind, wp_bind. eapply wp_read; [exact Hmo|done|done|]. cbn [out set_out mode latch busy flash].
  change (takeZ 1 (@nil Z)) with (@nil Z). change (dropZ 1 (@nil Z)) with (@nil Z).
  cbv iota beta. change (lenZ (@nil Z) =? 0) with true. cbv iota. apply wp_ret.
  apply wp_bind. pose proof (wp_verify_pages 48 0 file) as Hw.
  rewrite Z.mul_0_r, Z.add_0_r in Hw. apply Hw; try lia; try done.
  cbv iota beta. change (negb (IS_OP_OK =? IS_OP_OK)) with false. cbv iota. by apply wp_ret.
Qed.
End Image.

(** C15: A file of the right size is written to the flash memory whole, whatever was there, whatever
    the monitor sends before it asks for a page, and however it garbles blocks within the limit; the checksum kept
    is the one of the words of the file, and the verification that follows succeeds. *)
Theorem samba_image_written {D} (fns : serial_fns D) update_callback verify_callback noise view fuel file sum l f s :
  monitored fns update_callback verify_callback noise view -> (noise + 4 <= fuel)%nat ->
  lenZ file = SAMBA_BOOTLOADER_SIZE_24K -> Forall byte file ->
  sp_handle s <> 0 -> view (sp_dev s) = Monitor Ready l 0 f [] ->
  exists s' checksum s'',
    download_image fns update_callback fuel (Some file) sum s = Some (s', (IS_OP_OK, checksum)) /\
    checksum = fold_left Z.lxor (words32 file) 0 /\
    (forall page, 0 <= page < 48 ->
      flash (view (sp_dev s')) !! page = Some (subZ (SAMBA_PAGE_SIZE * page) SAMBA_PAGE_SIZE file)) /\
    verify_image fns verify_callback fuel checksum s' = Some (s'', IS_OP_OK).
Proof.
  intros Hmo Hfuel Hl Hb Hh Hv.
  destruct (wp_download_image fns update_callback verify_callback noise view Hmo fuel Hfuel file sum l f
    (fun r mu => r = (IS_OP_OK, fold_left Z.lxor (words32 file) 0) /\ exists l' f', holds f' 0 48 file /\ mu = Monitor Ready l' 0 f' []) Hl Hb)
    with (s := s) as (s1 & x & E1 & Hh1 & -> & l' & f' & Hf & V1); [eauto 10|done|done|].
  destruct (wp_verify_image fns update_callback verify_callback noise view Hmo fuel Hfuel file
    (fold_left Z.lxor (words32 file) 0) l' f' (fun r _ => r = IS_OP_OK) Hl Hf)
    with (s := s1) as (s2 & x & E2 & Hh2 & ->); [by rewrite Z.eqb_refl|done|done|].
  exists s1, (fold_left Z.lxor (words32 file) 0), s2. split; [done|]. split; [done|]. split; [|done].
  rewrite V1. exact Hf.
Qed.

(** ** A device *)

(** The texts are read back. *)
Definition hex_value (l : list Z) : Z :=
  fold_left (fun acc c => 16 * acc + (if c <=? 0x39 then c - 0x30 else c - 0x57)) l 0.
Definition parse (bs : list Z) : input :=
  match bs with
  | 0x23 :: _ => Sync
  | 0x77 :: rest => ReadWord (hex_value (takeZ 8 rest))
  | 0x57 :: rest => WriteWord (hex_value (takeZ 8 rest)) (hex_value (subZ 9 8 rest))
  | 0x53 :: rest => SendPage ((hex_value (takeZ 8 rest) - SAMBA_FLASH_START_ADDRESS) / SAMBA_PAGE_SIZE)
  | 0x01 :: block :: _ :: rest =>
    Block block (takeZ 128 rest) (256 * byte_at (dropZ 128 rest) 0 + byte_at (dropZ 128 rest) 1)
  | _ => EndOfPage
  end.

(** A monitor that sends a prompt before a page, garbles the first block of each page as often
    as it may, and is busy for a while. *)
Definition step (m : monitor) (i : input) : monitor :=
  let '(Monitor md l b f o) := m in
  match i, md with
  | ReadWord a, _ =>
    if a =? EEFC_FSR then Monitor md l (pred b) f [match b with O => 1 | _ => 0 end; 0; 0; 0]
    else let o := a - SAMBA_FLASH_START_ADDRESS in
         Monitor md l b f (subZ (o mod SAMBA_PAGE_SIZE) 4 (default [] (f !! (o / SAMBA_PAGE_SIZE))))
  | WriteWord _ w, _ =>
    if w mod 256 =? 7 then Monitor md l 2 (erase 16 (16 * ((w - 0x5a000207) / 0x1000)) f) []
    else let page := (w - 0x5a000001) / 256 in
         match l, f !! page with
         | Some (_, data), Some old => Monitor md None 2 (<[page := zip_with Z.land old data]> f) []
         | _, _ => m
         end
  | SendPage page, _ => Monitor (Receiving page 1 [] 1) l b f [0x3E; 0x43; 0x43]
  | Block _ _ _, Receiving page block got (S tries) =>
    Monitor (Receiving page block got tries) l b f [UART_XMODEM_NAK]
  | Block _ payload _, Receiving page block got O =>
    Monitor (Receiving page (u8 (block + 1)) (got ++ payload) O) l b f [UART_XMODEM_ACK]
  | EndOfPage, Receiving page _ got _ => Monitor Ready (Some (page, got)) b f [UART_XMODEM_ACK]
  | _, _ => m
  end.

Definition fns : serial_fns monitor :=
  SerialFns monitor None None
    (Some (fun n _ s => let l := takeZ n (out (sp_dev s)) in
                        (set_dev (set_out (dropZ n (out (sp_dev s))) (sp_dev s)) s, l, lenZ l))) None
    (Some (fun bs s => (set_dev (step (sp_dev s) (parse bs)) s, lenZ bs))) None
    (Some (fun s => (set_dev (set_out [] (sp_dev s)) s, 1))) None None None None.

Lemma hex_value_fixed n x : 0 <= x < 16 ^ Z.of_nat n ->
  hex_value (map (fun c => if 0x41 <=? c then c + 0x20 else c) (hex_fixed n x)) = x.
Proof.
  revert x. induction n as [|n IH]; intros x Hx; cbn [hex_fixed map]; [cbn in *; lia|].
  rewrite Nat2Z.inj_succ, Z.pow_succ_r in Hx by lia.
  rewrite map_app. unfold hex_value in *. rewrite fold_left_app, IH by zlia. cbn [map fold_left].
  unfold upper_digit. pose proof (Z.mod_pos_bound x 16 ltac:(lia)).
  destruct (Z.ltb_spec (x mod 16) 10); split_cmp; zlia.
Qed.

Lemma hex_value_lower x : 0 <= x < 4294967296 -> hex_value (hex_lower 8 x) = x.
Proof. intros H. unfold hex_lower. rewrite hex_text_fixed by (cbn; lia). by apply hex_value_fixed. Qed.

Lemma takeZ_hex8 x l : 0 <= x < 4294967296 -> takeZ 8 (hex_lower 8 x ++ l) = hex_lower 8 x.
Proof.
  intros H. rewrite <- (takeZ_app_len (hex_lower 8 x) l) at 2. by rewrite lenZ_hex_lower by (cbn; lia).
Qed.

Lemma parse_read a : 0 <= a < 4294967296 -> parse (input_text (ReadWord a)) = ReadWord a.
Proof.
  intros H. cbn [input_text]. unfold read_command. change (chars "w") with [0x77]. cbn [app parse].
  by rewrite takeZ_hex8, hex_value_lower.
Qed.

Lemma parse_write a w : 0 <= a < 4294967296 -> 0 <= w < 4294967296 ->
  parse (input_text (WriteWord a w)) = WriteWord a w.
Proof.
  intros Ha Hw. cbn [input_text]. unfold write_command. change (chars "W") with [0x57]. cbn [app parse].
  rewrite takeZ_hex8, hex_value_lower by done. f_equal. change (chars ",") with [0x2C]. cbn [app].
  unfold subZ. assert (lenZ (hex_lower 8 a ++ [0x2C]) = 9) as H9 by (rewrite lenZ_app, lenZ_hex_lower by (cbn; lia); done).
  rewrite <- H9. change (0x2C :: hex_lower 8 w ++ chars "#") with ([0x2C] ++ hex_lower 8 w ++ chars "#").
  by rewrite app_assoc, dropZ_app_len, takeZ_hex8, hex_value_lower.
Qed.

Lemma parse_send page : 0 <= page < 48 -> parse (input_text (SendPage page)) = SendPage page.
Proof.
  intros H. cbn [input_text]. unfold page_command, SAMBA_FLASH_START_ADDRESS, SAMBA_PAGE_SIZE. change (chars "S") with [0x53].
  cbn [app parse]. rewrite takeZ_hex8, hex_value_lower by lia. f_equal.
  unfold SAMBA_FLASH_START_ADDRESS, SAMBA_PAGE_SIZE. zlia.
Qed.

Lemma parse_block block payload crc : lenZ payload = UART_XMODEM_PAYLOAD_SIZE -> 0 <= crc < 65536 ->
  parse (input_text (Block block payload crc)) = Block block payload crc.
Proof.
  unfold UART_XMODEM_PAYLOAD_SIZE. intros Hp Hc. cbn [input_text app parse]. unfold UART_XMODEM_SOH. cbn [parse].
  rewrite <- Hp, takeZ_app_len, dropZ_app_len. f_equal.
  change (256 * (crc / 256) + crc mod 256 = crc). zlia.
Qed.

Lemma step_takes m i m' : takes 1 m i m' -> parse (input_text i) = i /\ takes 1 m i (step m i).
Proof.
  destruct 1 as [l b f o|l b f status|l f page k bytes Hp Hk Hf|l f k b Hk Hb|f page data old b Hp Hb Hf
                |l f page junk pings Hp Hj Hc|l f page block got tries payload Hl
                |l f page block got tries payload crc answer Hl Hcrc Ha1 Ha2|l f page block got tries Hl].
  - split; [done|constructor].
  - split; [by apply parse_read|]. destruct b; apply takes_status; done || lia.
  - assert (0 <= SAMBA_FLASH_START_ADDRESS + SAMBA_PAGE_SIZE * page + 4 * k < 4294967296) as Ha
      by (unfold SAMBA_FLASH_START_ADDRESS, SAMBA_PAGE_SIZE; lia).
    split; [by apply parse_read|]. cbn [step]. destruct (Z.eqb_spec (SAMBA_FLASH_START_ADDRESS + SAMBA_PAGE_SIZE * page + 4 * k) EEFC_FSR) as [E|_];
      [exfalso; unfold EEFC_FSR, SAMBA_FLASH_START_ADDRESS, SAMBA_PAGE_SIZE in E; lia|].
    replace (SAMBA_FLASH_START_ADDRESS + SAMBA_PAGE_SIZE * page + 4 * k - SAMBA_FLASH_START_ADDRESS)
      with (SAMBA_PAGE_SIZE * page + 4 * k) by lia.
    assert ((SAMBA_PAGE_SIZE * page + 4 * k) mod SAMBA_PAGE_SIZE = 4 * k) as -> by (unfold SAMBA_PAGE_SIZE; zlia).
    assert ((SAMBA_PAGE_SIZE * page + 4 * k) / SAMBA_PAGE_SIZE = page) as -> by (unfold SAMBA_PAGE_SIZE; zlia).
    rewrite Hf. by apply takes_word.
  - split; [apply parse_write; unfold EEFC_FCR; lia|]. cbn [step].
    assert ((0x5a000207 + 0x1000 * k) mod 256 = 7) as -> by zlia. cbn [Z.eqb Pos.eqb].
    assert ((0x5a000207 + 0x1000 * k - 0x5a000207) / 0x1000 = k) as -> by zlia. apply takes_erase; [done|lia].
  - split; [apply parse_write; unfold EEFC_FCR; lia|]. cbn [step].
    assert ((0x5a000001 + 256 * page) mod 256 = 1) as -> by zlia. cbn [Z.eqb Pos.eqb].
    assert ((0x5a000001 + 256 * page - 0x5a000001) / 256 = page) as -> by zlia. rewrite Hf.
    apply takes_program; [done|lia|done].
  - split; [by apply parse_send|]. cbn [step]. apply (takes_send 1 l f page [0x3E] [0x43]); [done|cbn; lia|].
    by rewrite list_elem_of_singleton.
  - pose proof (xmodem_crc_range payload). split; [by apply parse_block|]. cbn [step].
    destruct tries as [|tries]; [by apply takes_block|by apply takes_garbled].
  - split; [by apply parse_block|]. cbn [step]. by apply takes_garbled.
  - split; [done|]. cbn [step]. by apply takes_end.
Qed.

Definition no_callback (_ : Z) (s : serial_port_t monitor) : serial_port_t monitor := s.

Lemma fns_monitored : monitored fns no_callback no_callback 1 id.
Proof.
  split.
  - eexists. split; [reflexivity|]. intros i s [m Hm]. destruct (step_takes _ _ _ Hm) as [E Ht].
    eexists. split; [reflexivity|]. split; [done|]. cbn [sp_dev set_dev]. by rewrite E.
  - eexists. split; [reflexivity|]. intros n t s Hn. eexists. split; [reflexivity|]. done.
  - eexists. split; [reflexivity|]. intros s. do 2 eexists. split; [reflexivity|]. done.
  - done.
  - done.
  - done.
Qed.

Definition port (m : monitor) : serial_port_t monitor := SerialPort 1 [] 0 0 0 m.

(** One page, of which a block is sent twice. *)
Definition page_data : list Z := map Z.of_nat (seq 0 256) ++ repeat 0xA5 256.
Example samba_page_run :
  ((fun '(s, r) => (flash (sp_dev s) !! 3, r)) <$>
    flash_erase_write_page fns 5 (SAMBA_PAGE_SIZE * 3) page_data false
      (port (Monitor Ready None 0 (<[3 := erased]> ∅) []))) = Some (Some page_data, IS_OP_OK).
Proof. vm_compute. reflexivity. Qed.

Definition image : list Z := repeat 0x5A (Z.to_nat SAMBA_BOOTLOADER_SIZE_24K).

Lemma samba_image_written_witness : exists s' checksum s'',
  download_image fns no_callback 5 (Some image) 7 (port (Monitor Ready None 0 ∅ [])) = Some (s', (IS_OP_OK, checksum)) /\
  checksum = fold_left Z.lxor (words32 image) 0 /\
  (forall page, 0 <= page < 48 ->
    flash (sp_dev s') !! page = Some (subZ (SAMBA_PAGE_SIZE * page) SAMBA_PAGE_SIZE image)) /\
  verify_image fns no_callback 5 checksum s' = Some (s'', IS_OP_OK).
Proof.
  refine (samba_image_written fns no_callback no_callback 1 id 5 image 7 None ∅ (port (Monitor Ready None 0 ∅ []))
    fns_monitored _ _ _ _ _).
  - lia.
  - unfold image, lenZ. by rewrite repeat_length.
  - apply List.Forall_forall. intros x Hx. apply repeat_spec in Hx as ->. unfold byte. lia.
  - done.
  - done.
Defined.

(** ** Deviations *)

(** A device that takes everything and answers with one and the same byte. *)
Definition one_answer (x : Z) : serial_fns unit :=
  SerialFns unit None None (Some (fun n _ s => (s, [x], 1))) None
    (Some (fun bs s => (s, lenZ bs))) None None None None None None.

(** Blocks that are never acknowledged are sent without end. *)
Lemma rejected_forever n block a c buf s : sp_handle s = 1 ->
  send_blocks (one_answer UART_XMODEM_NAK) n block a (c :: buf) s = None.
Proof.
  revert block a s. induction n as [|n IH]; intros block a s Hs; [done|]. cbn [send_blocks].
  set (chunk := xmodem_chunk _ _).
  assert (1 <= lenZ chunk) as Hc by (unfold chunk, xmodem_chunk; cbn [app]; rewrite !lenZ_cons;
    match goal with |- context [lenZ ?l] => pose proof (lenZ_nonneg l) end; lia).
  unfold send_text, write, on_port, serialPortWrite, mbind, M_bind, bind, option_bind. cbn [pfnWrite one_answer].
  rewrite Hs, (proj2 (Z.ltb_ge _ 1)) by done. cbn [orb Z.eqb]. rewrite take_exact_ok by lia.
  rewrite takeZ_all, (proj2 (Z.ltb_ge _ 0)) by lia. cbn [mbind option_bind]. rewrite Z.eqb_refl. cbn [negb].
  unfold read_timeout, on_port, serialPortReadTimeout, read_with. cbn [pfnRead one_answer add_txBytes sp_handle].
  rewrite Hs. cbn. by apply IH.
Qed.

(** The first two of the three parts of the flash memory may fail to be erased: only the
    result for the last is used. *)
Definition counting : serial_fns Z :=
  SerialFns Z None None (Some (fun n _ s => (s, takeZ n [1; 0; 0; 0], lenZ (takeZ n [1; 0; 0; 0])))) None
    (Some (fun bs s => (set_dev (sp_dev s + 1) s, if sp_dev s <? 2 then 0 else lenZ bs))) None None None None None None.
Example failed_erasures_ignored :
  (snd <$> erase_flash counting (SerialPort 1 [] 0 0 0 0)) = Some IS_OP_OK.
Proof. vm_compute. reflexivity. Qed.

End SambaImage.
