(* ===== verification/Layouts.v ===== *)
(** * Layouts of the data set structures (src/src/data_sets.h)

    The structures are packed: the offset of a member is the sum of the sizes of the
    members before it. *)

From stdpp Require Import strings.
From S2P Require Import Prelude.
#[local] Open Scope string_scope.
#[local] Open Scope list_scope.

Inductive ctype := U8 | CHAR | U16 | I16 | U32 | I32 | F32 | F64 | U64.

#[global] Instance ctype_eq_dec : EqDecision ctype.
Proof. solve_decision. Defined.

Definition sizeof (t : ctype) : Z :=
  match t with U8 | CHAR => 1 | U16 | I16 => 2 | U32 | I32 | F32 => 4 | F64 | U64 => 8 end.

(** The members in order: name, type, and number of elements. *)
Definition layout := list (string * ctype * Z).

(** The members of a nested structure, under the name of the member that holds it. *)
Definition within (member : string) (l : layout) : layout :=
  map (fun '(name, t, count) => (member ++ "." ++ name, t, count)%string) l.

Definition field_size (f : string * ctype * Z) : Z := let '(_, t, count) := f in sizeof t * count.
Definition sizeof_layout (l : layout) : Z := foldr Z.add 0 (map field_size l).

(** The offset of element [i] of a member. *)
Fixpoint offsetof (l : layout) (member : string) (i : Z) : Z :=
  match l with
  | [] => 0
  | (name, t, count) :: l' =>
    if decide (name = member) then sizeof t * i
    else sizeof t * count + offsetof l' member i
  end.
Fixpoint member_count (l : layout) (member : string) : Z :=
  match l with
  | [] => 0
  | (name, _, count) :: l' => if decide (name = member) then count else member_count l' member
  end.

(** The type of a member. *)
Fixpoint member_type (l : layout) (member : string) : option ctype :=
  match l with
  | [] => None
  | (name, t, _) :: l' => if decide (name = member) then Some t else member_type l' member
  end.

(** ** Reading and writing members of a structure in memory

    A structure is the bytes from its address on; integers are little-endian. *)

Definition decode (t : ctype) (bytes : list Z) : option Z :=
  match t, bytes with
  | (U8 | CHAR), [b0] => Some b0
  | U16, [b0; b1] => Some (le16 b0 b1)
  | I16, [b0; b1] => Some (s16 (le16 b0 b1))
  | U32, [b0; b1; b2; b3] => Some (le16 b0 b1 + 65536 * le16 b2 b3)%Z
  | I32, [b0; b1; b2; b3] => Some (s32 (le16 b0 b1 + 65536 * le16 b2 b3))%Z
  | _, _ => None
  end.
Definition encode (t : ctype) (v : Z) : list Z :=
  match t with
  | U8 | CHAR => [u8 v]
  | U16 | I16 => le16_bytes (u16 v)
  | U32 | I32 => le32_bytes (u32 v)
  | F32 | F64 | U64 => []
  end.

(** Element [i] of a member of the structure [p] points to. *)
Definition get_member (l : layout) (member : string) (i : Z) (p : list Z) : option Z :=
  t ← member_type l member;
  bytes ← take_exact (sizeof t) (dropZ (offsetof l member i) p);
  decode t bytes.
Definition set_member (l : layout) (member : string) (i v : Z) (p : list Z) : option (list Z) :=
  t ← member_type l member;
  let o := offsetof l member i in
  if (o + sizeof t <=? lenZ p)%Z then Some (updZ o (encode t v) p) else None.

(** The [n] bytes of a member that is an array of bytes or ends the structure. *)
Definition get_bytes (l : layout) (member : string) (n : Z) (p : list Z) : option (list Z) :=
  take_exact n (dropZ (offsetof l member 0) p).

(** ** The structures *)

Definition ins_1_t : layout :=
  [("week", U32, 1); ("timeOfWeek", F64, 1); ("insStatus", U32, 1); ("hdwStatus", U32, 1);
    ("theta", F32, 3); ("uvw", F32, 3); ("lla", F64, 3); ("ned", F32, 3)].
Definition ins_2_t : layout :=
  [("week", U32, 1); ("timeOfWeek", F64, 1); ("insStatus", U32, 1); ("hdwStatus", U32, 1);
    ("qn2b", F32, 4); ("uvw", F32, 3); ("lla", F64, 3)].
Definition ins_3_t : layout :=
  [("week", U32, 1); ("timeOfWeek", F64, 1); ("insStatus", U32, 1); ("hdwStatus", U32, 1);
    ("qn2b", F32, 4); ("uvw", F32, 3); ("lla", F64, 3); ("msl", F32, 1)].
Definition ins_4_t : layout :=
  [("week", U32, 1); ("timeOfWeek", F64, 1); ("insStatus", U32, 1); ("hdwStatus", U32, 1);
    ("qe2b", F32, 4); ("ve", F32, 3); ("ecef", F64, 3)].
Definition imus_t : layout :=
  [("pqr", F32, 3); ("acc", F32, 3)].
Definition imu_t : layout :=
  [("time", F64, 1); ("status", U32, 1)] ++
  within "I" imus_t.
Definition pimu_t : layout :=
  [("time", F64, 1); ("dt", F32, 1); ("status", U32, 1); ("theta", F32, 3); ("vel", F32, 3)].
Definition magnetometer_t : layout :=
  [("time", F64, 1); ("mag", F32, 3)].
Definition imu_mag_t : layout :=
  within "imu" imu_t ++
  within "mag" magnetometer_t.
Definition pimu_mag_t : layout :=
  within "pimu" pimu_t ++
  within "mag" magnetometer_t.
Definition gps_pos_t : layout :=
  [("week", U32, 1); ("timeOfWeekMs", U32, 1); ("status", U32, 1); ("ecef", F64, 3);
    ("lla", F64, 3); ("hMSL", F32, 1); ("hAcc", F32, 1); ("vAcc", F32, 1); ("pDop", F32, 1);
    ("cnoMean", F32, 1); ("towOffset", F64, 1); ("leapS", U8, 1); ("satsUsed", U8, 1);
    ("cnoMeanSigma", U8, 1); ("reserved", U8, 1)].
Definition gps_timepulse_t : layout :=
  [("towOffset", F64, 1); ("towGps", F64, 1); ("timeMcu", F64, 1); ("msgTimeMs", U32, 1);
    ("plsTimeMs", U32, 1); ("syncCount", U8, 1); ("badPulseAgeCount", U8, 1);
    ("ppsInterruptReinitCount", U8, 1); ("plsCount", U8, 1); ("lastSyncTimeMs", U32, 1);
    ("sinceLastSyncTimeMs", U32, 1)].
Definition sys_params_t : layout :=
  [("timeOfWeekMs", U32, 1); ("insStatus", U32, 1); ("hdwStatus", U32, 1);
    ("imuTemp", F32, 1); ("baroTemp", F32, 1); ("mcuTemp", F32, 1); ("sysStatus", U32, 1);
    ("imuSamplePeriodMs", U32, 1); ("navOutputPeriodMs", U32, 1);
    ("sensorTruePeriod", F64, 1); ("flashCfgChecksum", U32, 1); ("navUpdatePeriodMs", U32, 1);
    ("genFaultCode", U32, 1); ("upTime", F64, 1)].
Definition rmc_t : layout :=
  [("bits", U64, 1); ("options", U32, 1)].
Definition gps_rtk_misc_t : layout :=
  [("timeOfWeekMs", U32, 1); ("accuracyPos", F32, 3); ("accuracyCov", F32, 3);
    ("arThreshold", F32, 1); ("gDop", F32, 1); ("hDop", F32, 1); ("vDop", F32, 1);
    ("baseLla", F64, 3); ("cycleSlipCount", U32, 1); ("roverGpsObservationCount", U32, 1);
    ("baseGpsObservationCount", U32, 1); ("roverGlonassObservationCount", U32, 1);
    ("baseGlonassObservationCount", U32, 1); ("roverGalileoObservationCount", U32, 1);
    ("baseGalileoObservationCount", U32, 1); ("roverBeidouObservationCount", U32, 1);
    ("baseBeidouObservationCount", U32, 1); ("roverQzsObservationCount", U32, 1);
    ("baseQzsObservationCount", U32, 1); ("roverGpsEphemerisCount", U32, 1);
    ("baseGpsEphemerisCount", U32, 1); ("roverGlonassEphemerisCount", U32, 1);
    ("baseGlonassEphemerisCount", U32, 1); ("roverGalileoEphemerisCount", U32, 1);
    ("baseGalileoEphemerisCount", U32, 1); ("roverBeidouEphemerisCount", U32, 1);
    ("baseBeidouEphemerisCount", U32, 1); ("roverQzsEphemerisCount", U32, 1);
    ("baseQzsEphemerisCount", U32, 1); ("roverSbasCount", U32, 1); ("baseSbasCount", U32, 1);
    ("baseAntennaCount", U32, 1); ("ionUtcAlmCount", U32, 1);
    ("correctionChecksumFailures", U32, 1); ("timeToFirstFixMs", U32, 1)].
Definition wheel_transform_t : layout :=
  [("e_b2w", F32, 3); ("e_b2w_sigma", F32, 3); ("t_b2w", F32, 3); ("t_b2w_sigma", F32, 3)].
Definition wheel_config_t : layout :=
  [("bits", U32, 1)] ++
  within "transform" wheel_transform_t ++
  [("track_width", F32, 1); ("radius", F32, 1)].
Definition nvm_flash_cfg_t : layout :=
  [("size", U32, 1); ("checksum", U32, 1); ("key", U32, 1); ("startupImuDtMs", U32, 1);
    ("startupNavDtMs", U32, 1); ("ser0BaudRate", U32, 1); ("ser1BaudRate", U32, 1);
    ("insRotation", F32, 3); ("insOffset", F32, 3); ("gps1AntOffset", F32, 3);
    ("dynamicModel", U8, 1); ("debug", U8, 1); ("gnssSatSigConst", U16, 1);
    ("sysCfgBits", U32, 1); ("refLla", F64, 3); ("lastLla", F64, 3);
    ("lastLlaTimeOfWeekMs", U32, 1); ("lastLlaWeek", U32, 1);
    ("lastLlaUpdateDistance", F32, 1); ("ioConfig", U32, 1); ("platformConfig", U32, 1);
    ("gps2AntOffset", F32, 3); ("zeroVelRotation", F32, 3); ("zeroVelOffset", F32, 3);
    ("gpsTimeUserDelay", F32, 1); ("magDeclination", F32, 1); ("gpsTimeSyncPeriodMs", U32, 1);
    ("startupGPSDtMs", U32, 1); ("RTKCfgBits", U32, 1); ("sensorConfig", U32, 1);
    ("gpsMinimumElevation", F32, 1); ("ser2BaudRate", U32, 1)] ++
  within "wheelConfig" wheel_config_t ++
  [("magInterferenceThreshold", F32, 1); ("magCalibrationQualityThreshold", F32, 1);
    ("gnssCn0Minimum", U8, 1); ("gnssCn0DynMinOffset", U8, 1); ("reserved1", U8, 2);
    ("reserved2", U32, 2)].
Definition survey_in_t : layout :=
  [("state", U32, 1); ("maxDurationSec", U32, 1); ("minAccuracy", F32, 1);
    ("elapsedTimeSec", U32, 1); ("hAccuracy", F32, 1); ("lla", F64, 3)].
Definition manufacturing_info_t : layout :=
  [("serialNumber", U32, 1); ("hardwareId", U16, 1); ("lotNumber", U16, 1);
    ("date", CHAR, 16); ("key", U32, 1); ("platformType", I32, 1); ("reserved", I32, 1);
    ("uid", U32, 4)].
Definition diag_msg_t : layout :=
  [("timeOfWeekMs", U32, 1); ("messageLength", U32, 1); ("message", CHAR, 256)].
Definition inl2_states_t : layout :=
  [("timeOfWeek", F64, 1); ("qe2b", F32, 4); ("ve", F32, 3); ("ecef", F64, 3);
    ("biasPqr", F32, 3); ("biasAcc", F32, 3); ("biasBaro", F32, 1); ("magDec", F32, 1);
    ("magInc", F32, 1)].
Definition debug_array_t : layout :=
  [("i", I32, 9); ("f", F32, 9); ("lf", F64, 3)].

(** The identifiers of the listed structures agree with their documented sizes. *)
Example layout_sizes :
  map sizeof_layout [ins_1_t; ins_2_t; ins_3_t; ins_4_t; gps_pos_t; rmc_t; debug_array_t] =
    [80; 72; 76; 72; 92; 12; 96].
Proof. reflexivity. Qed.

Definition DEVINFO_MANUFACTURER_STRLEN : Z := 24.
Definition DEVINFO_ADDINFO_STRLEN : Z := 24.
Definition dev_info_layout : layout :=
  [("reserved", U16, 1); ("hardwareType", U8, 1); ("reserved2", U8, 1); ("serialNumber", U32, 1);
    ("hardwareVer", U8, 4); ("firmwareVer", U8, 4); ("buildNumber", U32, 1); ("protocolVer", U8, 4);
    ("repoRevision", U32, 1); ("manufacturer", CHAR, DEVINFO_MANUFACTURER_STRLEN);
    ("buildType", U8, 1); ("buildYear", U8, 1); ("buildMonth", U8, 1); ("buildDay", U8, 1);
    ("buildHour", U8, 1); ("buildMinute", U8, 1); ("buildSecond", U8, 1);
    ("buildMillisecond", U8, 1); ("addInfo", CHAR, DEVINFO_ADDINFO_STRLEN)].
