(* ===== verification/DataSets.v ===== *)
(** * Data set utilities (src/src/data_sets.c)

    Byte order conversion with the tables of the structures' 8-byte members and
    strings, the tables of stream bits, the run-time profiler and the hardware type of
    older devices.  (The checksums and the NMEA identifiers of the
    same file are in Checksum.v and Nmea.v, satellite numbers in Satellite.v.) *)

From stdpp Require Import strings.
From S2P Require Import Prelude CommRx CommTx.
From S2P Require Import Nmea DataIds Layouts.
#[local] Open Scope string_scope.
#[local] Open Scope list_scope.
#[local] Open Scope Z_scope.

Definition MAX_TASK_NAME_LEN : Z := 12.

Module DataSets.

(** ** Byte order *)

(** The byte swap of a word, on its bytes in memory. *)
Definition SWAP32 (w : list Z) : list Z := rev w.
Definition SWAP64 (w : list Z) : list Z := rev w.

(** [n] bytes at [o], if they are all there. *)
Definition bytes_of (data : list Z) (o n : Z) : option (list Z) :=
  if o <? 0 then None else take_exact n (dropZ o data).

Definition flipFloat (ptr : list Z) : option (list Z) :=
  match ptr with
  | tmp1 :: tmp2 :: tmp3 :: tmp4 :: rest => Some (tmp4 :: tmp3 :: tmp2 :: tmp1 :: rest)
  | _ => None
  end.
Definition flipFloatCopy (val : list Z) : option (list Z) :=
  match val with
  | [tmp1; tmp2; tmp3; tmp4] => Some [tmp4; tmp3; tmp2; tmp1]
  | _ => None
  end.

Definition flipDouble (data : list Z) (ptr : Z) : option (list Z) :=
  w0 ← bytes_of data ptr 4;
  w1 ← bytes_of data (ptr + 4) 4;
  Some (updZ ptr (w1 ++ w0) data).
Definition flipDoubleCopy (val : list Z) : option (list Z) :=
  w0 ← bytes_of val 0 4;
  w1 ← bytes_of val 4 4;
  Some (SWAP32 w1 ++ SWAP32 w0).

Fixpoint flip_words (fuel : nat) (data : list Z) (dataPtr dataPtrEnd : Z) : option (list Z) :=
  if dataPtr <? dataPtrEnd then
    match fuel with
    | O => None
    | S fuel =>
      tmp ← bytes_of data dataPtr 4;
      flip_words fuel (updZ dataPtr (SWAP32 tmp) data) (dataPtr + 4) dataPtrEnd
    end
  else Some data.

(** The words of [data] from [base] on. *)
Definition flipEndianess32 (data : list Z) (base dataLength : Z) : option (list Z) :=
  if negb (Z.land dataLength 3 =? 0) then Some data
  else flip_words (Z.to_nat dataLength) data base (base + dataLength).

Definition flip_at_offset (data : list Z) (dataLength offset entry : Z) : option (list Z) :=
  let isDouble := Z.land entry 0x8000 =? 0 in
  let offsetToDouble := Z.land entry 0x7FFF - offset in
  if (0 <=? offsetToDouble) && (offsetToDouble <=? dataLength - 8) then
    if isDouble then flipDouble data offsetToDouble
    else v ← bytes_of data offsetToDouble 8; Some (updZ offsetToDouble (SWAP64 v) data)
  else Some data.

Fixpoint flip_doubles_loop (n : nat) (data : list Z) (dataLength offset : Z) (offsets : list Z)
    : option (list Z) :=
  match n with
  | O => Some data
  | S n =>
    match offsets with
    | [] => None
    | entry :: offsets =>
      data ← flip_at_offset data dataLength offset entry;
      flip_doubles_loop n data dataLength offset offsets
    end
  end.
Definition flipDoubles (data : list Z) (dataLength offset : Z) (offsets : list Z)
    (offsetsLength : Z) : option (list Z) :=
  flip_doubles_loop (Z.to_nat offsetsLength) data dataLength offset offsets.

(** [n] entries left in front of the end; each turn consumes two. *)
Fixpoint flip_strings_loop (n : nat) (data : list Z) (dataLength offset : Z) (offsets : list Z)
    : option (list Z) :=
  match n with
  | O => Some data
  | S n =>
    match offsets with
    | o :: lengthOfString :: offsets =>
      let offsetToString := o - offset in
      data ← (if (0 <=? offsetToString) && (offsetToString <=? dataLength - lengthOfString)
              then flipEndianess32 data offsetToString lengthOfString else Some data);
      flip_strings_loop (pred n) data dataLength offset offsets
    | _ => None
    end
  end.
Definition flipStrings (data : list Z) (dataLength offset : Z) (offsets : list Z)
    (offsetsLength : Z) : option (list Z) :=
  flip_strings_loop (Z.to_nat offsetsLength) data dataLength offset offsets.

(** *** The 8-byte members; the first entry of a table is their number *)

Definition offsetsIns1 : list Z :=
  [4; offsetof ins_1_t "timeOfWeek" 0; offsetof ins_1_t "lla" 0; offsetof ins_1_t "lla" 1;
   offsetof ins_1_t "lla" 2].
Definition offsetsIns2 : list Z :=
  [4; offsetof ins_2_t "timeOfWeek" 0; offsetof ins_2_t "lla" 0; offsetof ins_2_t "lla" 1;
   offsetof ins_2_t "lla" 2].
Definition offsetsIns3 : list Z :=
  [4; offsetof ins_3_t "timeOfWeek" 0; offsetof ins_3_t "lla" 0; offsetof ins_3_t "lla" 1;
   offsetof ins_3_t "lla" 2].
Definition offsetsIns4 : list Z :=
  [4; offsetof ins_4_t "timeOfWeek" 0; offsetof ins_4_t "ecef" 0;
   offsetof ins_4_t "ecef" 1; offsetof ins_4_t "ecef" 2].
Definition offsetsGpsTimepulse : list Z :=
  [3; offsetof gps_timepulse_t "towOffset" 0; offsetof gps_timepulse_t "towGps" 0;
   offsetof gps_timepulse_t "timeMcu" 0].
Definition offsetsSysParams : list Z :=
  [1; offsetof sys_params_t "sensorTruePeriod" 0].
Definition offsetsPreImuMag : list Z :=
  [2; offsetof pimu_mag_t "pimu.time" 0; offsetof pimu_mag_t "mag.time" 0].
Definition offsetsImuMag : list Z :=
  [2; offsetof imu_mag_t "imu.time" 0; offsetof imu_mag_t "mag.time" 0].
Definition offsetsGps : list Z :=
  [7; offsetof gps_pos_t "lla" 0; offsetof gps_pos_t "lla" 1; offsetof gps_pos_t "lla" 2;
   offsetof gps_pos_t "towOffset" 0; offsetof gps_pos_t "ecef" 0;
   offsetof gps_pos_t "ecef" 1; offsetof gps_pos_t "ecef" 2].
Definition offsetsRmc : list Z :=
  [1; Z.lor (offsetof rmc_t "bits" 0) 0x8000].
Definition offsetsInl2States : list Z :=
  [4; 0; 36; 44; 52].
Definition offsetsRtkNav : list Z :=
  [3; offsetof gps_rtk_misc_t "baseLla" 0; offsetof gps_rtk_misc_t "baseLla" 1;
   offsetof gps_rtk_misc_t "baseLla" 2].
Definition offsetsFlashConfig : list Z :=
  [6; offsetof nvm_flash_cfg_t "refLla" 0; offsetof nvm_flash_cfg_t "refLla" 1;
   offsetof nvm_flash_cfg_t "refLla" 2; offsetof nvm_flash_cfg_t "lastLla" 0;
   offsetof nvm_flash_cfg_t "lastLla" 1; offsetof nvm_flash_cfg_t "lastLla" 2].
Definition offsetsOnlyTimeFirst : list Z :=
  [1; 0].
Definition offsetsDebugArray : list Z :=
  [3; 72; 80; 88].
Definition offsetsSurveyIn : list Z :=
  [3; offsetof survey_in_t "lla" 0; offsetof survey_in_t "lla" 1;
   offsetof survey_in_t "lla" 2].
Definition s_doubleOffsets : list (option (list Z)) := [
  None; None; None; Some offsetsOnlyTimeFirst; Some offsetsIns1; Some offsetsIns2;
  Some offsetsGps; None; None; Some offsetsRmc; Some offsetsSysParams; Some offsetsOnlyTimeFirst;
  Some offsetsFlashConfig; Some offsetsGps; Some offsetsGps; None; None; None;
  None; None; None; None; Some offsetsRtkNav; None;
  None; None; None; None; Some offsetsOnlyTimeFirst; None;
  None; None; None; None; None; None;
  None; None; None; Some offsetsDebugArray; None; Some offsetsGpsTimepulse;
  None; None; None; None; Some offsetsOnlyTimeFirst; Some offsetsOnlyTimeFirst;
  Some offsetsInl2States; None; None; None; Some offsetsOnlyTimeFirst; Some offsetsOnlyTimeFirst;
  None; Some offsetsOnlyTimeFirst; None; Some offsetsOnlyTimeFirst; Some offsetsOnlyTimeFirst; None;
  None; None; Some offsetsOnlyTimeFirst; None; None; Some offsetsIns3;
  Some offsetsIns4; None; None; None; None; Some offsetsOnlyTimeFirst;
  None; Some offsetsSurveyIn; None; None; None; None;
  None; None; None; None; Some offsetsDebugArray; None;
  None; Some offsetsImuMag; Some offsetsPreImuMag; None; Some offsetsOnlyTimeFirst; None;
  None; None; Some offsetsRtkNav; None; None; Some offsetsOnlyTimeFirst;
  Some offsetsOnlyTimeFirst; Some offsetsOnlyTimeFirst; None; None; None; None;
  None; None; None; None; None; None;
  None; None; None; None; None; None;
  None; None; None; None; None; None;
  None; None; None; None; Some offsetsDebugArray; None;
  None; None; None; None; None; None].

(** The length of the table and the table; [None] is the NULL result. *)
Definition lookup_offsets (table : list (option (list Z))) (dataId : Z) : option (Z * list Z) :=
  if dataId <? DID_COUNT then
    match nthZ table dataId with
    | Some (Some (offsetsLength :: offsets)) => Some (offsetsLength, offsets)
    | _ => None
    end
  else None.
Definition getDoubleOffsets (dataId : Z) : option (Z * list Z) :=
  lookup_offsets s_doubleOffsets dataId.

(** *** The strings, as pairs of an offset and a size *)

Definition debugStringOffsets : list Z :=
  [2; 0; 80].
Definition rtosTaskOffsets : list Z :=
  [12; 0; MAX_TASK_NAME_LEN; 32; MAX_TASK_NAME_LEN; 64; MAX_TASK_NAME_LEN; 96;
   MAX_TASK_NAME_LEN; 128; MAX_TASK_NAME_LEN; 160; MAX_TASK_NAME_LEN].
Definition manufInfoOffsets : list Z :=
  [2; offsetof manufacturing_info_t "date" 0; member_count manufacturing_info_t "date"].
Definition diagMsgOffsets : list Z :=
  [2; offsetof diag_msg_t "message" 0; member_count diag_msg_t "message"].
Definition s_stringOffsets : list (option (list Z)) := [
  None; None; None; None; None; None;
  None; None; None; None; None; None;
  None; None; None; None; None; None;
  None; None; None; None; None; None;
  None; None; None; None; None; None;
  None; None; None; None; None; None;
  None; Some debugStringOffsets; Some rtosTaskOffsets; None; None; None;
  None; None; None; None; None; None;
  None; None; None; None; None; None;
  None; None; None; None; None; None;
  None; None; None; Some manufInfoOffsets; None; None;
  None; None; None; None; None; None;
  Some diagMsgOffsets; None; None; None; None; None;
  None; None; None; None; None; None;
  None; None; None; None; None; None;
  None; None; None; None; None; None;
  None; None; None; None; None; None;
  None; None; None; None; None; None;
  None; None; None; None; None; None;
  None; None; None; None; None; None;
  None; None; None; None; None; None;
  None; None; None; None; None; None].
Definition getStringOffsetsLengths (dataId : Z) : option (Z * list Z) :=
  lookup_offsets s_stringOffsets dataId.

(** ** Stream bits *)

(** An array of [n] elements with designated initialisers. *)
Definition assoc (l : list (Z * Z)) (i : Z) : Z :=
  match find (fun p => p.1 =? i) l with Some p => p.2 | None => 0 end.
Definition designated (n : Z) (l : list (Z * Z)) : list Z := map (assoc l) (seqZ 0 n).

Definition g_didToRmcBit : list Z := designated DID_COUNT [
  (DID_INS_1, RMC_BITS_INS1);
  (DID_INS_2, RMC_BITS_INS2);
  (DID_INS_3, RMC_BITS_INS3);
  (DID_INS_4, RMC_BITS_INS4);
  (DID_IMU3_UNCAL, RMC_BITS_IMU3_UNCAL);
  (DID_IMU3_RAW, RMC_BITS_IMU3_RAW);
  (DID_IMU_RAW, RMC_BITS_IMU_RAW);
  (DID_IMU, RMC_BITS_IMU);
  (DID_PIMU, RMC_BITS_PIMU);
  (DID_REFERENCE_IMU, RMC_BITS_REFERENCE_IMU);
  (DID_REFERENCE_PIMU, RMC_BITS_REFERENCE_PIMU);
  (DID_BAROMETER, RMC_BITS_BAROMETER);
  (DID_MAGNETOMETER, RMC_BITS_MAGNETOMETER);
  (DID_GPS1_POS, RMC_BITS_GPS1_POS);
  (DID_GPS2_POS, RMC_BITS_GPS2_POS);
  (DID_GPS1_VEL, RMC_BITS_GPS1_VEL);
  (DID_GPS2_VEL, RMC_BITS_GPS2_VEL);
  (DID_GPS1_SAT, RMC_BITS_GPS1_SAT);
  (DID_GPS2_SAT, RMC_BITS_GPS2_SAT);
  (DID_GPS1_SIG, RMC_BITS_GPS1_SIG);
  (DID_GPS2_SIG, RMC_BITS_GPS2_SIG);
  (DID_GPS1_RAW, RMC_BITS_GPS1_RAW);
  (DID_GPS2_RAW, RMC_BITS_GPS2_RAW);
  (DID_GPS_BASE_RAW, RMC_BITS_GPS_BASE_RAW);
  (DID_GPS1_RCVR_POS, RMC_BITS_GPS1_UBX_POS);
  (DID_GPS1_RTK_POS, RMC_BITS_GPS1_RTK_POS);
  (DID_GPS1_RTK_POS_REL, RMC_BITS_GPS1_RTK_POS_REL);
  (DID_GPS1_RTK_POS_MISC, RMC_BITS_GPS1_RTK_POS_MISC);
  (DID_GPS2_RTK_CMP_REL, RMC_BITS_GPS1_RTK_HDG_REL);
  (DID_GPS2_RTK_CMP_MISC, RMC_BITS_GPS1_RTK_HDG_MISC);
  (DID_STROBE_IN_TIME, RMC_BITS_STROBE_IN_TIME);
  (DID_DIAGNOSTIC_MESSAGE, RMC_BITS_DIAGNOSTIC_MESSAGE);
  (DID_INL2_NED_SIGMA, RMC_BITS_INL2_NED_SIGMA);
  (DID_RTK_STATE, RMC_BITS_RTK_STATE);
  (DID_RTK_CODE_RESIDUAL, RMC_BITS_RTK_CODE_RESIDUAL);
  (DID_RTK_PHASE_RESIDUAL, RMC_BITS_RTK_PHASE_RESIDUAL);
  (DID_WHEEL_ENCODER, RMC_BITS_WHEEL_ENCODER);
  (DID_GROUND_VEHICLE, RMC_BITS_GROUND_VEHICLE);
  (DID_IMU_MAG, RMC_BITS_IMU_MAG);
  (DID_PIMU_MAG, RMC_BITS_PIMU_MAG);
  (DID_EVENT, RMC_BITS_EVENT);
  (DID_GPX_STATUS, RMC_BITS_GPX_STATUS);
  (DID_GPX_RTOS_INFO, RMC_BITS_GPX_RTOS_INFO);
  (DID_GPX_DEBUG_ARRAY, RMC_BITS_GPX_DEBUG);
  (DID_GPX_DEV_INFO, RMC_BITS_GPX_DEV_INFO);
  (DID_GPX_FLASH_CFG, RMC_BITS_GPX_FLASH_CFG);
  (DID_GPX_RMC, RMC_BITS_GPX_RMC);
  (DID_GPX_BIT, RMC_BITS_GPX_BIT);
  (DID_GPX_PORT_MONITOR, RMC_BITS_GPX_PORT_MON)].
Definition g_didToNmeaRmcBit : list Z := designated DID_COUNT [
  (DID_IMU, NMEA_RMC_BITS_PIMU);
  (DID_PIMU, NMEA_RMC_BITS_PPIMU);
  (DID_IMU_RAW, NMEA_RMC_BITS_PRIMU);
  (DID_INS_1, NMEA_RMC_BITS_PINS1);
  (DID_INS_2, NMEA_RMC_BITS_PINS2);
  (DID_GPS1_SAT, NMEA_RMC_BITS_GNGSV);
  (DID_GPS1_POS, foldl Z.lor NMEA_RMC_BITS_INTEL
    [NMEA_RMC_BITS_PGPSP; NMEA_RMC_BITS_GNGGA; NMEA_RMC_BITS_GNGLL; NMEA_RMC_BITS_GNGSA;
     NMEA_RMC_BITS_GNRMC; NMEA_RMC_BITS_GNZDA; NMEA_RMC_BITS_GNVTG; NMEA_RMC_BITS_PASHR]);
  (DID_DEV_INFO, NMEA_RMC_BITS_INFO)].
Definition g_gpxDidToGrmcBit : list Z := designated DID_COUNT [
  (DID_GPX_DEV_INFO, GRMC_BITS_DEV_INFO);
  (DID_GPX_FLASH_CFG, GRMC_BITS_FLASH_CFG);
  (DID_GPX_RTOS_INFO, GRMC_BITS_RTOS_INFO);
  (DID_GPX_STATUS, GRMC_BITS_STATUS);
  (DID_GPX_DEBUG_ARRAY, GRMC_BITS_DEBUG_ARRAY);
  (DID_GPS1_POS, GRMC_BITS_GPS1_POS);
  (DID_GPS1_VEL, GRMC_BITS_GPS1_VEL);
  (DID_GPS1_RAW, GRMC_BITS_GPS1_RAW);
  (DID_GPS1_SAT, GRMC_BITS_GPS1_SAT);
  (DID_GPS1_SIG, GRMC_BITS_GPS1_SIG);
  (DID_GPS1_VERSION, GRMC_BITS_GPS1_VERSION);
  (DID_GPS2_POS, GRMC_BITS_GPS2_POS);
  (DID_GPS2_VEL, GRMC_BITS_GPS2_VEL);
  (DID_GPS2_SAT, GRMC_BITS_GPS2_SAT);
  (DID_GPS2_SIG, GRMC_BITS_GPS2_SIG);
  (DID_GPS2_RAW, GRMC_BITS_GPS2_RAW);
  (DID_GPS2_VERSION, GRMC_BITS_GPS2_VERSION);
  (DID_GPS1_RTK_POS, GRMC_BITS_GPS1_RTK_POS);
  (DID_GPS1_RTK_POS_MISC, GRMC_BITS_GPS1_RTK_POS_MISC);
  (DID_GPS1_RTK_POS_REL, GRMC_BITS_GPS1_RTK_POS_REL);
  (DID_GPS2_RTK_CMP_MISC, GRMC_BITS_GPS2_RTK_CMP_MISC);
  (DID_GPS2_RTK_CMP_REL, GRMC_BITS_GPS2_RTK_CMP_REL);
  (DID_RTK_DEBUG, GRMC_BITS_DID_RTK_DEBUG);
  (DID_PORT_MONITOR, GRMC_BITS_PORT_MON);
  (DID_GPX_PORT_MONITOR, GRMC_BITS_GPX_PORT_MON)].
Definition g_gpxGRMCPresetLookup : list Z := designated GRMC_BIT_POS_COUNT [
  (GRMC_BIT_POS_DEV_INFO, GRMC_PRESET_GPX_DEV_INFO_PERIOD_MS);
  (GRMC_BIT_POS_FLASH_CFG, 1);
  (GRMC_BIT_POS_STATUS, GRMC_PRESET_GPX_STATUS_PERIOD_MS);
  (GRMC_BIT_POS_RTOS_INFO, GRMC_PRESET_GPX_RTOS_INFO_PERIOD_MS);
  (GRMC_BIT_POS_DEBUG_ARRAY, GRMC_PRESET_GPX_DEBUG_ARRAY_PERIOD_MS);
  (GRMC_BIT_POS_GPS1_POS, 1);
  (GRMC_BIT_POS_GPS1_VEL, 1);
  (GRMC_BIT_POS_GPS1_SAT, 1);
  (GRMC_BIT_POS_GPS1_SIG, 1);
  (GRMC_BIT_POS_GPS1_RAW, 1);
  (GRMC_BIT_POS_GPS1_VERSION, GRMC_PRESET_GPX_GPS1_VERSION_PERIOD_MS);
  (GRMC_BIT_POS_GPS2_POS, 1);
  (GRMC_BIT_POS_GPS2_VEL, 1);
  (GRMC_BIT_POS_GPS2_SAT, 1);
  (GRMC_BIT_POS_GPS2_SIG, 1);
  (GRMC_BIT_POS_GPS2_RAW, 1);
  (GRMC_BIT_POS_GPS2_VERSION, GRMC_PRESET_GPX_GPS2_VERSION_PERIOD_MS);
  (GRMC_BIT_POS_GPS1_RTK_POS, 1);
  (GRMC_BIT_POS_GPS1_RTK_POS_MISC, 1);
  (GRMC_BIT_POS_GPS1_RTK_POS_REL, 1);
  (GRMC_BIT_POS_GPS2_RTK_CMP_MISC, 1);
  (GRMC_BIT_POS_GPS2_RTK_CMP_REL, 1);
  (GRMC_BIT_POS_DID_RTK_DEBUG, GRMC_PRESET_DID_RTK_DEBUG_PERIOD_MS);
  (GRMC_BIT_POS_DID_PORT_MON, 0);
  (GRMC_BIT_POS_DID_GPX_PORT_MON, GRMC_PRESET_GPX_PORT_MON_PERIOD_MS)].

(** An identifier beyond the table has no result. *)
Definition didToRmcBit (dataId defaultRmcBits devInfoRmcBits : Z) : option Z :=
  if dataId =? DID_DEV_INFO then Some devInfoRmcBits else
  bit ← nthZ g_didToRmcBit dataId;
  Some (if negb (bit =? 0) then bit else defaultRmcBits).

(** ** Run-time profiler *)

Record runtime_profile_t := Profile {
  runTimeUs : Z; maxRuntimeUs : Z; StartTimeUs : Z; startPeriodUs : Z
}.
Definition RUNTIME_PROFILE_COUNT : Z := 4.

Definition profiler_start (p : runtime_profile_t) (timeUs : Z) : runtime_profile_t :=
  Profile (runTimeUs p) (maxRuntimeUs p) timeUs (u32 (timeUs - StartTimeUs p)).
Definition profiler_stop (p : runtime_profile_t) (timeUs : Z) : runtime_profile_t :=
  let run := u32 (timeUs - StartTimeUs p) in
  Profile run (if run <? maxRuntimeUs p then maxRuntimeUs p else run) (StartTimeUs p)
    (startPeriodUs p).
(** With the static [count]; returns its new value. *)
Definition profiler_maintenance_1s (p : list runtime_profile_t) (count : Z)
    : list runtime_profile_t * Z :=
  let count := u8 (count + 1) in
  if count <? 5 then (p, count) else
  (map (fun x => Profile (runTimeUs x) (runTimeUs x) (StartTimeUs x) (startPeriodUs x))
     (takeZ RUNTIME_PROFILE_COUNT p) ++ dropZ RUNTIME_PROFILE_COUNT p, 0).

(** ** Hardware type of older devices *)

Definition IS_HARDWARE_TYPE_UNKNOWN : Z := 0.
Definition IS_HARDWARE_TYPE_UINS : Z := 1.
Definition IS_HARDWARE_TYPE_EVB : Z := 2.
Definition IS_HARDWARE_TYPE_IMX : Z := 3.

(** The members of [dev_info_t] the function uses; it leaves the others alone. *)
Record dev_info_t := DevInfo { hardwareType : Z; hardwareVer : list Z; buildYear : Z }.

Definition devInfoPopulateMissingHardware (d : dev_info_t) : option dev_info_t :=
  if negb (hardwareType d =? IS_HARDWARE_TYPE_UNKNOWN) then Some d else
  let year := buildYear d + 2000 in
  if year <=? 2024 then
    v ← nthZ (hardwareVer d) 0;
    let t := if v =? 2 then IS_HARDWARE_TYPE_EVB else if v =? 3 then IS_HARDWARE_TYPE_UINS
             else if v =? 5 then IS_HARDWARE_TYPE_IMX else hardwareType d in
    Some (DevInfo t (hardwareVer d) (buildYear d))
  else Some d.
End DataSets.
Export DataSets.
