(* ===== verification/Satellite.v ===== *)
(** * Satellite numbers (src/src/data_sets.c, rtk_defines.h)

    The constellations compiled in are a parameter; the code is the same for each
    choice, as the numbering is meant to be, and it is shown to number the satellites. *)

From S2P Require Import Prelude.

Module Satellite.

(** The macros of rtk_defines.h that enable a constellation; GPS always is. *)
Record constellations := Constellations {
  ENAGLO : bool; ENAGAL : bool; ENAQZS : bool; ENACMP : bool; ENAIRN : bool; ENALEO : bool;
  ENASBS : bool
}.
(** The choice of the repository. *)
Definition rtk_defines : constellations :=
  Constellations false true false false false false false.

Definition SYS_GPS : Z := 0x01.
Definition SYS_SBS : Z := 0x02.
Definition SYS_GLO : Z := 0x04.
Definition SYS_GAL : Z := 0x08.
Definition SYS_QZS : Z := 0x10.
Definition SYS_CMP : Z := 0x20.
Definition SYS_IRN : Z := 0x40.
Definition SYS_LEO : Z := 0x80.

Section Numbers.
Context (c : constellations).

(** First and last number of a constellation, zero when it is disabled. *)
Definition enabled (ena : bool) (x : Z) : Z := if ena then x else 0.
Definition MINPRNGPS : Z := 1.
Definition MAXPRNGPS : Z := 32.
Definition NSATGPS : Z := MAXPRNGPS - MINPRNGPS + 1.
Definition MINPRNGLO : Z := enabled (ENAGLO c) 1.
Definition MAXPRNGLO : Z := enabled (ENAGLO c) 27.
Definition NSATGLO : Z := enabled (ENAGLO c) (MAXPRNGLO - MINPRNGLO + 1).
Definition MINPRNGAL : Z := enabled (ENAGAL c) 1.
Definition MAXPRNGAL : Z := enabled (ENAGAL c) 36.
Definition NSATGAL : Z := enabled (ENAGAL c) (MAXPRNGAL - MINPRNGAL + 1).
Definition MINPRNQZS : Z := enabled (ENAQZS c) 193.
Definition MAXPRNQZS : Z := enabled (ENAQZS c) 202.
Definition NSATQZS : Z := enabled (ENAQZS c) (MAXPRNQZS - MINPRNQZS + 1).
Definition MINPRNCMP : Z := enabled (ENACMP c) 1.
Definition MAXPRNCMP : Z := enabled (ENACMP c) 63.
Definition NSATCMP : Z := enabled (ENACMP c) (MAXPRNCMP - MINPRNCMP + 1).
Definition MINPRNIRN : Z := enabled (ENAIRN c) 1.
Definition MAXPRNIRN : Z := enabled (ENAIRN c) 14.
Definition NSATIRN : Z := enabled (ENAIRN c) (MAXPRNIRN - MINPRNIRN + 1).
Definition MINPRNLEO : Z := enabled (ENALEO c) 1.
Definition MAXPRNLEO : Z := enabled (ENALEO c) 10.
Definition NSATLEO : Z := enabled (ENALEO c) (MAXPRNLEO - MINPRNLEO + 1).
Definition MINPRNSBS : Z := enabled (ENASBS c) 120.
Definition MAXPRNSBS : Z := enabled (ENASBS c) 158.
Definition NSATSBS : Z := enabled (ENASBS c) (MAXPRNSBS - MINPRNSBS + 1).

Definition satNo (sys prn : Z) : Z :=
  let numbered (minprn maxprn before : Z) :=
    if (prn <? minprn) || (maxprn <? prn) then 0 else before + prn - minprn + 1 in
  if prn <=? 0 then 0
  else if sys =? SYS_GPS then numbered MINPRNGPS MAXPRNGPS 0
  else if sys =? SYS_GLO then numbered MINPRNGLO MAXPRNGLO NSATGPS
  else if sys =? SYS_GAL then numbered MINPRNGAL MAXPRNGAL (NSATGPS + NSATGLO)
  else if sys =? SYS_QZS then numbered MINPRNQZS MAXPRNQZS (NSATGPS + NSATGLO + NSATGAL)
  else if sys =? SYS_CMP then
    numbered MINPRNCMP MAXPRNCMP (NSATGPS + NSATGLO + NSATGAL + NSATQZS)
  else if sys =? SYS_IRN then
    numbered MINPRNIRN MAXPRNIRN (NSATGPS + NSATGLO + NSATGAL + NSATQZS + NSATCMP)
  else if sys =? SYS_LEO then
    numbered MINPRNLEO MAXPRNLEO (NSATGPS + NSATGLO + NSATGAL + NSATQZS + NSATCMP + NSATIRN)
  else if sys =? SYS_SBS then
    numbered MINPRNSBS MAXPRNSBS
      (NSATGPS + NSATGLO + NSATGAL + NSATQZS + NSATCMP + NSATIRN + NSATLEO)
  else 0.

Definition ubxSys (gnssID : Z) : Z :=
  if gnssID =? 0 then SYS_GPS else if gnssID =? 1 then SYS_SBS
  else if gnssID =? 2 then SYS_GAL else if gnssID =? 3 then SYS_CMP
  else if gnssID =? 5 then SYS_QZS else if gnssID =? 6 then SYS_GLO else 0.

Definition satNumCalc (gnssID svID : Z) : Z :=
  let sys := ubxSys gnssID in
  satNo sys (svID + (if sys =? SYS_QZS then 192 else 0)).

(** ** What the numbering is *)

(** The satellites that have a number, in order of their numbers. *)
Definition satellites : list (Z * Z) :=
  flat_map (fun '(sys, first, count) => map (pair sys) (seqZ first count))
    [(SYS_GPS, MINPRNGPS, NSATGPS); (SYS_GLO, MINPRNGLO, NSATGLO);
     (SYS_GAL, MINPRNGAL, NSATGAL); (SYS_QZS, MINPRNQZS, NSATQZS);
     (SYS_CMP, MINPRNCMP, NSATCMP); (SYS_IRN, MINPRNIRN, NSATIRN);
     (SYS_LEO, MINPRNLEO, NSATLEO); (SYS_SBS, MINPRNSBS, NSATSBS)].
Definition MAXSAT : Z :=
  NSATGPS + NSATGLO + NSATGAL + NSATQZS + NSATCMP + NSATIRN + NSATLEO + NSATSBS.
End Numbers.
End Satellite.
Export Satellite.

Definition all_configs : list constellations :=
  a ← [false; true]; b ← [false; true]; d ← [false; true]; e ← [false; true];
  f ← [false; true]; g ← [false; true]; h ← [false; true]; [Constellations a b d e f g h].

Lemma all_configs_ok c : In c all_configs.
Proof. destruct c as [[] [] [] [] [] [] []]; vm_compute; tauto. Qed.

(** A property decided for every choice of constellations. *)
Lemma for_all_configs (P : constellations -> bool) :
  forallb P all_configs = true -> forall c, P c = true.
Proof. rewrite forallb_forall. intros H c. apply H, all_configs_ok. Qed.

(** Each satellite of the list has its place in the list as its number. *)
Lemma satNo_of_satellites c i sys prn :
  nthZ (satellites c) i = Some (sys, prn) -> satNo c sys prn = i + 1.
Proof.
  pose (P := fun c => forallb (fun '(i, (sys, prn)) => satNo c sys prn =? i + 1)
    (zip (seqZ 0 (lenZ (satellites c))) (satellites c))).
  assert (forall c, P c = true) as H by (apply for_all_configs; vm_compute; reflexivity).
  intros Hi. specialize (H c). unfold P in H. rewrite forallb_forall in H.
  specialize (H (i, (sys, prn))). apply Z.eqb_eq. refine (H _). apply list_elem_of_In.
  unfold nthZ in Hi. destruct (Z.leb_spec 0 i); [|done].
  pose proof (lookup_lt_Some _ _ _ Hi). apply list_elem_of_lookup.
  exists (Z.to_nat i). apply lookup_zip_with_Some. exists i, (sys, prn). split_and!; try done.
  apply lookup_seqZ. unfold lenZ. lia.
Qed.

Lemma in_system (sys first count prn : Z) :
  first <= prn < first + count -> In (sys, prn) (map (pair sys) (seqZ first count)).
Proof. intros H. apply in_map, list_elem_of_In, elem_of_seqZ. lia. Qed.

Ltac prns := cbv [
  MINPRNGPS MAXPRNGPS NSATGPS MINPRNGLO MAXPRNGLO NSATGLO MINPRNGAL MAXPRNGAL NSATGAL
  MINPRNQZS MAXPRNQZS NSATQZS MINPRNCMP MAXPRNCMP NSATCMP MINPRNIRN MAXPRNIRN NSATIRN
  MINPRNLEO MAXPRNLEO NSATLEO MINPRNSBS MAXPRNSBS NSATSBS enabled] in *.
Ltac listed s first count :=
  exists (s, first, count);
  split; [cbn [In]; repeat (first [left; reflexivity|right])
         |apply in_system; prns; repeat match goal with H : _ <= _ |- _ => revert H end;
          repeat match goal with |- context [if ?b then _ else _] => destruct b end; lia].

Lemma satNo_listed c sys prn : satNo c sys prn <> 0 -> In (sys, prn) (satellites c).
Proof.
  unfold satNo, satellites. intros H. apply in_flat_map. revert H.
  destruct (Z.leb_spec prn 0); [done|].
  repeat match goal with |- context [sys =? ?s] => destruct (Z.eqb_spec sys s); [subst sys|] end;
    try done;
    (destruct (_ || _) eqn:E; [done|intros _];
     apply orb_false_iff in E as [?%Z.ltb_ge ?%Z.ltb_ge]).
  - listed SYS_GPS MINPRNGPS NSATGPS.
  - listed SYS_GLO (MINPRNGLO c) (NSATGLO c).
  - listed SYS_GAL (MINPRNGAL c) (NSATGAL c).
  - listed SYS_QZS (MINPRNQZS c) (NSATQZS c).
  - listed SYS_CMP (MINPRNCMP c) (NSATCMP c).
  - listed SYS_IRN (MINPRNIRN c) (NSATIRN c).
  - listed SYS_LEO (MINPRNLEO c) (NSATLEO c).
  - listed SYS_SBS (MINPRNSBS c) (NSATSBS c).
Qed.

(** whatever constellations are compiled in, the satellite numbers are one
    enumeration without gaps: number [n] belongs to exactly one pair of system and
    number within the system, the pair at place [n - 1] of the list of enabled
    satellites, and the last number is the count of the enabled satellites. *)
Theorem satNo_enumerates c sys prn n :
  ((0 < n /\ satNo c sys prn = n) <-> nthZ (satellites c) (n - 1) = Some (sys, prn)) /\
  lenZ (satellites c) = MAXSAT c.
Proof.
  assert ((lenZ (satellites c) =? MAXSAT c) = true) as Hlen%Z.eqb_eq
    by (revert c; apply for_all_configs; vm_compute; reflexivity).
  split; [|done]. split.
  - intros [Hn E]. assert (In (sys, prn) (satellites c)) as Hin by (apply satNo_listed; lia).
    apply list_elem_of_In, list_elem_of_lookup in Hin as [i Hi].
    assert (nthZ (satellites c) (Z.of_nat i) = Some (sys, prn)) as Hi'
      by (unfold nthZ; rewrite (proj2 (Z.leb_le _ _)), Nat2Z.id by lia; done).
    rewrite (satNo_of_satellites _ _ _ _ Hi') in E. by replace (n - 1) with (Z.of_nat i) by lia.
  - intros H. split; [|rewrite (satNo_of_satellites _ _ _ _ H); lia].
    unfold nthZ in H. destruct (Z.leb_spec 0 (n - 1)); [lia|done].
Qed.
