(* ===== verification/DataSetsProps.v ===== *)
(** * Properties of the data set utilities

    The byte order conversion of a structure, and its tables against the structures. *)

From stdpp Require Import strings sorting.
From S2P Require Import Prelude CommRx CommTx.
From S2P Require Import DataIds Layouts DataSets.
#[local] Open Scope Z_scope.

(** ** Structures as sequences of fields *)

(** A member of four bytes, of eight bytes as two words, or a string as words. *)
Inductive field := Word (w : list Z) | Dbl (w0 w1 : list Z) | Str (ws : list (list Z)).

Definition field_words (f : field) : list (list Z) :=
  match f with Word w => [w] | Dbl w0 w1 => [w0; w1] | Str ws => ws end.
Definition field_bytes (f : field) : list Z := concat (field_words f).
Definition bytes (fs : list field) : list Z := concat (map field_bytes fs).

(** Words have four bytes, and strings are not empty. *)
Definition field_ok (f : field) : Prop :=
  Forall (fun w => lenZ w = 4) (field_words f) /\ field_words f <> [].

(** The field in the other byte order; strings stay as they are. *)
Definition swap_field (f : field) : field :=
  match f with Word w => Word (SWAP32 w) | Dbl w0 w1 => Dbl (SWAP32 w1) (SWAP32 w0) | Str ws => Str ws end.
Definition rev_words (f : field) : field :=
  match f with Word w => Word (SWAP32 w) | Dbl w0 w1 => Dbl (SWAP32 w0) (SWAP32 w1) | Str ws => Str (map SWAP32 ws) end.
Definition swap_halves (f : field) : field := match f with Dbl w0 w1 => Dbl w1 w0 | f => f end.
Definition rev_string (f : field) : field := match f with Str ws => Str (map SWAP32 ws) | f => f end.

Lemma concat_words (ws : list (list Z)) : Forall (fun w => lenZ w = 4) ws -> lenZ (concat ws) = 4 * lenZ ws.
Proof.
  induction 1 as [|w ws Hw _ IH]; [done|]. cbn [concat]. rewrite lenZ_app, lenZ_cons. lia.
Qed.

Lemma lenZ_rev {A} (l : list A) : lenZ (rev l) = lenZ l.
Proof. unfold lenZ. by rewrite length_rev. Qed.

Lemma lenZ_SWAP32 w : lenZ (SWAP32 w) = lenZ w.
Proof. apply lenZ_rev. Qed.

Lemma concat_rev_words (ws : list (list Z)) :
  Forall (fun w => lenZ w = 4) ws -> Forall (fun w => lenZ w = 4) (map SWAP32 ws).
Proof. induction 1; cbn [map]; constructor; try done. by rewrite lenZ_SWAP32. Qed.

(** ** Words *)

Lemma bytes_of_middle (pre l post : list Z) :
  bytes_of (pre ++ l ++ post) (lenZ pre) (lenZ l) = Some l.
Proof.
  pose proof (lenZ_nonneg pre). pose proof (lenZ_nonneg l). pose proof (lenZ_nonneg post).
  unfold bytes_of. rewrite (proj2 (Z.ltb_ge _ _)) by lia.
  assert (dropZ (lenZ pre) (pre ++ l ++ post) = l ++ post) as ->
    by (unfold dropZ, lenZ; rewrite Nat2Z.id; apply drop_app_length).
  rewrite take_exact_ok by (rewrite lenZ_app; lia). f_equal. unfold takeZ, lenZ.
  rewrite Nat2Z.id. apply take_app_length.
Qed.

Lemma flip_words_ok (ws : list (list Z)) : Forall (fun w => lenZ w = 4) ws -> forall fuel pre post,
  (length ws <= fuel)%nat ->
  flip_words fuel (pre ++ concat ws ++ post) (lenZ pre) (lenZ pre + lenZ (concat ws)) =
    Some (pre ++ concat (map SWAP32 ws) ++ post).
Proof.
  induction 1 as [|w ws Hw Hws IH]; intros fuel pre post Hf.
  - cbn [concat map app]. rewrite lenZ_nil, Z.add_0_r.
    destruct fuel; cbn [flip_words]; by rewrite Z.ltb_irrefl.
  - cbn [length] in Hf. destruct fuel as [|fuel]; [lia|]. cbn [flip_words concat map].
    rewrite lenZ_app. pose proof (lenZ_nonneg (concat ws)).
    rewrite (proj2 (Z.ltb_lt _ _)) by lia. rewrite <- !app_assoc. rewrite <- Hw at 1.
    rewrite bytes_of_middle. cbn [mbind option_bind]. rewrite updZ_middle by apply lenZ_rev.
    specialize (IH fuel (pre ++ SWAP32 w) post ltac:(lia)). rewrite lenZ_app, lenZ_SWAP32, Hw in IH.
    rewrite <- !app_assoc in IH.
    replace (lenZ pre + (lenZ w + lenZ (concat ws))) with (lenZ pre + 4 + lenZ (concat ws)) by lia.
    exact IH.
Qed.

Lemma flipEndianess32_ok (ws : list (list Z)) pre post :
  Forall (fun w => lenZ w = 4) ws ->
  flipEndianess32 (pre ++ concat ws ++ post) (lenZ pre) (lenZ (concat ws)) =
    Some (pre ++ concat (map SWAP32 ws) ++ post).
Proof.
  intros H. unfold flipEndianess32. pose proof (concat_words ws H) as Hl.
  change 3 with (Z.ones 2). rewrite Z.land_ones, Hl, Z.mul_comm by lia.
  change (2 ^ 2) with 4. rewrite Z.mod_mul by lia. cbn [negb Z.eqb].
  replace (lenZ ws * 4) with (lenZ (concat ws)) by lia. apply flip_words_ok; [done|].
  unfold lenZ in *. lia.
Qed.

(** ** Fields at their places *)

Definition field_length (f : field) : Z := lenZ (field_bytes f).

Lemma field_length_pos f : field_ok f -> 0 < field_length f.
Proof.
  intros [Hw Hn]. unfold field_length, field_bytes. rewrite concat_words by done.
  destruct (field_words f); [done|]. rewrite lenZ_cons. pose proof (lenZ_nonneg l0). lia.
Qed.

Lemma bytes_cons f fs : bytes (f :: fs) = field_bytes f ++ bytes fs.
Proof. done. Qed.
Lemma bytes_app fs fs' : bytes (fs ++ fs') = bytes fs ++ bytes fs'.
Proof. unfold bytes. by rewrite map_app, concat_app. Qed.

(** The places of the fields that [hit] selects, the first field being at [base]. *)
Fixpoint places (hit : field -> bool) (base : Z) (fs : list field) : list Z :=
  match fs with
  | [] => []
  | f :: fs => (if hit f then [base] else []) ++ places hit (base + field_length f) fs
  end.

(** [g] on the selected fields at the places in [ps]. *)
Fixpoint update (hit : field -> bool) (g : field -> field) (ps : list Z) (base : Z)
    (fs : list field) : list field :=
  match fs with
  | [] => []
  | f :: fs => (if hit f && bool_decide (base ∈ ps) then g f else f)
                 :: update hit g ps (base + field_length f) fs
  end.

Section Places.
Context (hit : field -> bool) (g : field -> field).
Context (Hg : forall f, field_ok f -> field_length (g f) = field_length f).

Lemma places_app fs fs' base :
  places hit base (fs ++ fs') = places hit base fs ++ places hit (base + lenZ (bytes fs)) fs'.
Proof.
  revert base. induction fs as [|f fs IH]; intros base; cbn [places app].
  - change (lenZ (bytes [])) with 0. by rewrite Z.add_0_r.
  - rewrite IH, bytes_cons, lenZ_app, <- app_assoc. unfold field_length. do 3 f_equal. lia.
Qed.

Lemma update_app ps fs fs' base :
  update hit g ps base (fs ++ fs') =
    update hit g ps base fs ++ update hit g ps (base + lenZ (bytes fs)) fs'.
Proof.
  revert base. induction fs as [|f fs IH]; intros base; cbn [update app].
  - change (lenZ (bytes [])) with 0. by rewrite Z.add_0_r.
  - rewrite IH, bytes_cons, lenZ_app. unfold field_length. do 3 f_equal. lia.
Qed.

Lemma update_length ps fs base :
  Forall field_ok fs -> lenZ (bytes (update hit g ps base fs)) = lenZ (bytes fs).
Proof.
  intros H. revert base. induction H as [|f fs Hf Hfs IH]; intros base; [done|].
  cbn [update]. rewrite !bytes_cons, !lenZ_app, IH. pose proof (Hg f Hf).
  unfold field_length in *. destruct (_ && _); lia.
Qed.

(** A place in front of or behind the fields changes nothing. *)
Lemma update_outside p ps fs base :
  Forall field_ok fs -> p < base \/ base + lenZ (bytes fs) <= p ->
  update hit g (p :: ps) base fs = update hit g ps base fs.
Proof.
  intros H. revert base. induction H as [|f fs Hf Hfs IH]; intros base Hp; [done|].
  rewrite bytes_cons, lenZ_app in Hp. pose proof (field_length_pos f Hf).
  pose proof (lenZ_nonneg (bytes fs)). unfold field_length in *. cbn [update].
  rewrite IH by (unfold field_length; lia). f_equal.
  assert (bool_decide (base ∈ p :: ps) = bool_decide (base ∈ ps)) as ->; [|done].
  apply bool_decide_ext. rewrite elem_of_cons. split; [|by right]. intros [->|?]; [lia|done].
Qed.

Lemma places_range p base fs :
  Forall field_ok fs -> p ∈ places hit base fs ->
  exists l f r, fs = l ++ f :: r /\ hit f = true /\ p = base + lenZ (bytes l).
Proof.
  intros H. revert base. induction H as [|f fs Hf Hfs IH]; intros base Hp; cbn [places] in Hp.
  - by apply elem_of_nil in Hp.
  - apply elem_of_app in Hp as [Hp|Hp].
    + destruct (hit f) eqn:E; [|by apply elem_of_nil in Hp].
      apply list_elem_of_singleton in Hp as ->. exists [], f, fs. change (lenZ (bytes [])) with 0. split_and!; try done; lia.
    + destruct (IH _ Hp) as (l & f' & r & -> & Hh & ->). exists (f :: l), f', r.
      rewrite bytes_cons, lenZ_app. unfold field_length. split_and!; try done; lia.
Qed.

(** One more place: the field there changes from [f] to [g f]. *)
Lemma update_at ps l f r base :
  Forall field_ok (l ++ f :: r) -> hit f = true -> base + lenZ (bytes l) ∉ ps ->
  let p := base + lenZ (bytes l) in
  let l' := update hit g ps base l in
  let r' := update hit g ps (p + field_length f) r in
  update hit g ps base (l ++ f :: r) = l' ++ f :: r' /\
  update hit g (p :: ps) base (l ++ f :: r) = l' ++ g f :: r'.
Proof.
  intros Hok Hh Hp p l' r'. apply Forall_app in Hok as [Hl Hfr].
  apply Forall_cons_iff in Hfr as [Hf Hr]. pose proof (field_length_pos f Hf).
  rewrite !update_app. cbn [update]. rewrite Hh. fold p.
  rewrite (bool_decide_eq_false_2 _ Hp), (bool_decide_eq_true_2 (p ∈ p :: ps)) by (left; done).
  cbn [andb]. split; [done|]. rewrite !update_outside by (done || lia). done.
Qed.

Lemma update_all ps base fs :
  (forall p, p ∈ places hit base fs -> p ∈ ps) ->
  update hit g ps base fs = map (fun f => if hit f then g f else f) fs.
Proof.
  revert base. induction fs as [|f fs IH]; intros base Hp; [done|]. cbn [update map places] in *.
  rewrite IH by (intros p Hin; apply Hp, elem_of_app; by right). f_equal.
  destruct (hit f); [|done]. cbn [andb]. rewrite bool_decide_eq_true_2; [done|].
  apply Hp, elem_of_app. left. by apply list_elem_of_singleton.
Qed.
End Places.

Lemma places_NoDup hit base fs :
  Forall field_ok fs -> NoDup (places hit base fs) /\ Forall (fun p => base <= p) (places hit base fs).
Proof.
  intros H. revert base. induction H as [|f fs Hf Hfs IH]; intros base; cbn [places].
  - split; [apply NoDup_nil_2|apply Forall_nil_2].
  - pose proof (field_length_pos f Hf). destruct (IH (base + field_length f)) as [IH1 IH2].
    assert (Forall (fun p => base <= p) (places hit (base + field_length f) fs))
      by (eapply Forall_impl; [|exact IH2]; cbn; lia).
    destruct (hit f); cbn [app]; [|done]. split; [|by constructor].
    apply list.NoDup_cons. split; [|done]. intros Hin.
    rewrite Forall_forall in IH2. apply list_elem_of_In, IH2 in Hin. lia.
Qed.

(** A field of the whole structure is in the part, or lies outside of it. *)
Lemma field_split pre fs post L f R :
  pre ++ fs ++ post = L ++ f :: R ->
  let base := lenZ (bytes pre) in let p := lenZ (bytes L) in
  p + field_length f <= base \/ base + lenZ (bytes fs) <= p \/
  exists l r, fs = l ++ f :: r /\ p = base + lenZ (bytes l).
Proof.
  intros E base p. unfold base, p, field_length. clear base p.
  apply app_eq_app in E as [l [[-> E]|[-> E]]].
  - destruct l as [|f' l]; [|injection E as -> E]; cbn [app] in E.
    + rewrite app_nil_r. destruct fs as [|f' fs]; [right; left; change (lenZ (bytes [])) with 0; lia|].
      injection E as -> _. right. right. exists [], fs. change (lenZ (bytes [])) with 0. split; [done|lia].
    + left. rewrite bytes_app, bytes_cons, !lenZ_app. pose proof (lenZ_nonneg (bytes l)). lia.
  - rewrite bytes_app, lenZ_app. apply app_eq_app in E as [l2 [[-> E]|[-> E]]].
    + destruct l2 as [|f' l2]; [|injection E as -> E].
      * right. left. rewrite app_nil_r. lia.
      * right. right. by exists l, l2.
    + right. left. rewrite bytes_app, lenZ_app. pose proof (lenZ_nonneg (bytes l2)). lia.
Qed.

Definition is_double (f : field) : bool := match f with Dbl _ _ => true | _ => false end.
Definition is_string (f : field) : bool := match f with Str _ => true | _ => false end.

Lemma swap_halves_length f : field_ok f -> field_length (swap_halves f) = field_length f.
Proof.
  destruct f as [w|w0 w1|ws]; try done. intros _. unfold field_length, field_bytes.
  cbn [swap_halves field_words concat]. rewrite !lenZ_app. lia.
Qed.
Lemma rev_string_length f : field_ok f -> field_length (rev_string f) = field_length f.
Proof.
  destruct f as [w|w0 w1|ws]; try done. intros [H _]. unfold field_length, field_bytes.
  cbn [rev_string field_words] in *. rewrite !concat_words by (try apply concat_rev_words; done).
  by rewrite lenZ_map.
Qed.

(** ** The loops *)

Lemma land_offset p : 0 <= p < 32768 -> Z.land p 0x8000 = 0 /\ Z.land p 0x7FFF = p.
Proof.
  intros Hp. split.
  - apply Z.bits_inj'. intros i Hi. rewrite Z.land_spec, Z.bits_0.
    destruct (Z.eq_dec i 15) as [->|Hne].
    + rewrite Z.bits_above_log2; [done|lia|]. destruct (Z.eq_dec p 0) as [->|]; [done|].
      apply Z.log2_lt_pow2; lia.
    + change 0x8000 with (2 ^ 15). rewrite Z.pow2_bits_false by lia. apply andb_false_r.
  - change 0x7FFF with (Z.ones 15). rewrite Z.land_ones by lia. apply Z.mod_small. lia.
Qed.

Lemma flipDouble_ok l w0 w1 r :
  lenZ w0 = 4 -> lenZ w1 = 4 ->
  flipDouble (l ++ (w0 ++ w1) ++ r) (lenZ l) = Some (l ++ (w1 ++ w0) ++ r).
Proof.
  intros H0 H1. unfold flipDouble. rewrite <- app_assoc. rewrite <- H0 at 1.
  rewrite bytes_of_middle. cbn [mbind option_bind].
  replace (lenZ l + 4) with (lenZ (l ++ w0)) by (rewrite lenZ_app; lia).
  rewrite (app_assoc l w0). rewrite <- H1 at 1. rewrite bytes_of_middle. cbn [mbind option_bind].
  rewrite <- app_assoc, (app_assoc w0 w1 r), updZ_middle; [done|]. rewrite !lenZ_app. lia.
Qed.

Section Convert.
Context (pre fs post : list field).
Context (Hok : Forall field_ok (pre ++ fs ++ post)).
#[local] Abbreviation base := (lenZ (bytes pre)).
#[local] Abbreviation dataLength := (lenZ (bytes fs)).

Lemma fs_ok : Forall field_ok fs.
Proof. rewrite !Forall_app in Hok. tauto. Qed.

Lemma flip_at_offset_ok p ps :
  lenZ (bytes (pre ++ fs ++ post)) <= 32768 ->
  p ∈ places is_double 0 (pre ++ fs ++ post) -> p ∉ ps ->
  flip_at_offset (bytes (update is_double swap_halves ps base fs)) dataLength base p =
    Some (bytes (update is_double swap_halves (p :: ps) base fs)).
Proof.
  pose proof fs_ok as Hfs. intros Hmax Hp Hps. pose proof Hok as Hok'.
  apply places_range in Hp as (L & f & R & E & Hh & ->); [|done].
  destruct f as [|w0 w1|]; try done. rewrite E in Hok', Hmax. rewrite Z.add_0_l in *.
  apply Forall_app in Hok' as [_ Hf]. apply Forall_cons_iff in Hf as [[Hw _] _]. cbn [field_words] in Hw.
  apply Forall_cons_iff in Hw as [H0 Hw]. apply Forall_cons_iff in Hw as [H1 _].
  assert (field_length (Dbl w0 w1) = 8) as H8
    by (unfold field_length, field_bytes; cbn [field_words concat]; rewrite !lenZ_app, H0, H1; done).
  rewrite bytes_app, bytes_cons, !lenZ_app in Hmax. fold (field_length (Dbl w0 w1)) in Hmax.
  pose proof (lenZ_nonneg (bytes L)). pose proof (lenZ_nonneg (bytes R)).
  unfold flip_at_offset. destruct (land_offset (lenZ (bytes L)) ltac:(lia)) as [-> ->].
  change (0 =? 0) with true. cbv iota.
  destruct (field_split _ _ _ _ _ _ E) as [Hcase|[Hcase|(l & r & -> & Ep)]].
  1-2: rewrite update_outside by (first [exact Hfs|lia]);
    destruct (Z.leb_spec 0 (lenZ (bytes L) - base)),
      (Z.leb_spec (lenZ (bytes L) - base) (dataLength - 8)); try lia; done.
  rewrite Ep in *. destruct (update_at is_double swap_halves ps l (Dbl w0 w1) r base Hfs Hh Hps)
    as [-> ->].
  rewrite !bytes_app, !bytes_cons, !lenZ_app. fold (field_length (Dbl w0 w1)). rewrite H8.
  pose proof (lenZ_nonneg (bytes l)). pose proof (lenZ_nonneg (bytes r)).
  rewrite (proj2 (Z.leb_le 0 _)), (proj2 (Z.leb_le _ (_ - 8))) by lia. cbn [andb].
  apply Forall_app in Hfs as [Hl _].
  replace (base + lenZ (bytes l) - base) with
    (lenZ (bytes (update is_double swap_halves ps base l)))
    by (rewrite update_length by (apply swap_halves_length || done); lia).
  change (field_bytes (Dbl w0 w1)) with (w0 ++ w1 ++ []).
  change (field_bytes (swap_halves (Dbl w0 w1))) with (w1 ++ w0 ++ []). rewrite !app_nil_r.
  by apply flipDouble_ok.
Qed.

(** The offsets that are left, after those in [ps]. *)
Lemma flip_doubles_ok offs extra ps :
  lenZ (bytes (pre ++ fs ++ post)) <= 32768 ->
  NoDup offs -> (forall p, p ∈ offs -> p ∈ places is_double 0 (pre ++ fs ++ post) /\ p ∉ ps) ->
  flip_doubles_loop (length offs) (bytes (update is_double swap_halves ps base fs)) dataLength base
      (offs ++ extra) =
    Some (bytes (update is_double swap_halves (rev offs ++ ps) base fs)).
Proof.
  intros Hmax. revert ps. induction offs as [|p offs IH]; intros ps Hnd Hin; [done|].
  apply list.NoDup_cons in Hnd as [Hp Hnd]. cbn [length flip_doubles_loop app].
  destruct (Hin p) as [Hpl Hps]; [by left|]. rewrite flip_at_offset_ok by done.
  cbn [mbind option_bind]. rewrite IH; [|done|].
  - cbn [rev]. by rewrite <- app_assoc.
  - intros q Hq. destruct (Hin q) as [? ?]; [by right|]. split; [done|].
    rewrite elem_of_cons. intros [->|?]; done.
Qed.

(** An entry of the string table: a string of the structure, with its length. *)
Definition string_at (e : Z * Z) : Prop :=
  exists L ws R, pre ++ fs ++ post = L ++ Str ws :: R /\
    e = (lenZ (bytes L), field_length (Str ws)).

Lemma flip_string_ok p n ps :
  string_at (p, n) -> p ∉ ps ->
  let data := bytes (update is_string rev_string ps base fs) in
  (if (0 <=? p - base) && (p - base <=? dataLength - n) then flipEndianess32 data (p - base) n
   else Some data) = Some (bytes (update is_string rev_string (p :: ps) base fs)).
Proof.
  pose proof fs_ok as Hfs. intros (L & ws & R & E & [= -> ->]) Hps. pose proof Hok as Hok'.
  rewrite E in Hok'. apply Forall_app in Hok' as [_ Hf]. apply Forall_cons_iff in Hf as [Hf _].
  pose proof (field_length_pos _ Hf) as Hpos. destruct Hf as [Hw _]. cbn [field_words] in Hw.
  cbv zeta. destruct (field_split _ _ _ _ _ _ E) as [Hcase|[Hcase|(l & r & -> & Ep)]].
  1-2: rewrite update_outside by (first [exact Hfs|lia]);
    destruct (Z.leb_spec 0 (lenZ (bytes L) - base)),
      (Z.leb_spec (lenZ (bytes L) - base) (dataLength - field_length (Str ws))); try lia; done.
  rewrite Ep in *. destruct (update_at is_string rev_string ps l (Str ws) r base Hfs eq_refl Hps)
    as [-> ->].
  rewrite !bytes_app, !bytes_cons, !lenZ_app. fold (field_length (Str ws)).
  pose proof (lenZ_nonneg (bytes l)). pose proof (lenZ_nonneg (bytes r)).
  rewrite (proj2 (Z.leb_le 0 _)), (proj2 (Z.leb_le _ (_ - field_length _))) by lia. cbn [andb].
  apply Forall_app in Hfs as [Hl _].
  replace (base + lenZ (bytes l) - base) with
    (lenZ (bytes (update is_string rev_string ps base l)))
    by (rewrite update_length by (apply rev_string_length || done); lia).
  by apply flipEndianess32_ok.
Qed.

Lemma flip_strings_ok soffs extra ps :
  NoDup (map fst soffs) -> (forall e, e ∈ soffs -> string_at e /\ e.1 ∉ ps) ->
  flip_strings_loop (2 * length soffs) (bytes (update is_string rev_string ps base fs)) dataLength
      base (flat_map (fun '(p, n) => [p; n]) soffs ++ extra) =
    Some (bytes (update is_string rev_string (rev (map fst soffs) ++ ps) base fs)).
Proof.
  revert ps. induction soffs as [|[p n] soffs IH]; intros ps Hnd Hin; [done|].
  apply list.NoDup_cons in Hnd as [Hp Hnd]. cbn [map fst] in *.
  replace (2 * length ((p, n) :: soffs))%nat with (S (S (2 * length soffs))) by (cbn [length]; lia).
  cbn [flip_strings_loop flat_map app pred].
  destruct (Hin (p, n)) as [Hpl Hps]; [by left|]. rewrite flip_string_ok by done.
  cbn [mbind option_bind]. rewrite IH; [|done|].
  - cbn [rev]. by rewrite <- app_assoc.
  - intros q Hq. destruct (Hin q) as [? ?]; [by right|]. split; [done|].
    rewrite elem_of_cons. intros [Eq|?]; [|done]. apply Hp. rewrite <- Eq.
    by apply list_elem_of_fmap_2.
Qed.
End Convert.

(** ** The conversion of a structure *)

(** The strings at their places, with their lengths. *)
Fixpoint string_entries (base : Z) (fs : list field) : list (Z * Z) :=
  match fs with
  | [] => []
  | f :: fs => (if is_string f then [(base, field_length f)] else [])
                 ++ string_entries (base + field_length f) fs
  end.

Lemma string_entries_places base fs : map fst (string_entries base fs) = places is_string base fs.
Proof.
  revert base. induction fs as [|f fs IH]; intros base; [done|]. cbn [string_entries places].
  rewrite map_app, IH. by destruct (is_string f).
Qed.

Lemma string_entries_at e base fs :
  e ∈ string_entries base fs -> exists l ws r, fs = l ++ Str ws :: r /\
    e = (base + lenZ (bytes l), field_length (Str ws)).
Proof.
  revert base. induction fs as [|f fs IH]; intros base He; cbn [string_entries] in He.
  - by apply elem_of_nil in He.
  - apply elem_of_app in He as [He|He].
    + destruct f as [| |ws]; cbn [is_string] in He; try by apply elem_of_nil in He.
      apply list_elem_of_singleton in He as ->. exists [], ws, fs.
      change (lenZ (bytes [])) with 0. by rewrite Z.add_0_r.
    + destruct (IH _ He) as (l & ws & r & -> & ->). exists (f :: l), ws, r. split; [done|].
      rewrite bytes_cons, lenZ_app. unfold field_length at 1. f_equal. lia.
Qed.

(** Fields of the same length and kind; a structure of such fields has the same places. *)
Definition alike (f f' : field) : Prop :=
  field_length f' = field_length f /\ is_double f' = is_double f /\ is_string f' = is_string f.

#[global] Instance alike_refl : Reflexive alike.
Proof. by intros f. Qed.

Lemma alike_places fs fs' :
  Forall2 alike fs fs' ->
  lenZ (bytes fs') = lenZ (bytes fs) /\
  forall base, places is_double base fs' = places is_double base fs /\
               string_entries base fs' = string_entries base fs.
Proof.
  induction 1 as [|f f' fs fs' (El & Ed & Es) _ [IHl IH]]; [done|].
  rewrite !bytes_cons, !lenZ_app, IHl. unfold field_length in El. split; [lia|].
  intros base. cbn [places string_entries]. unfold field_length. rewrite El, Ed, Es.
  by destruct (IH (base + lenZ (field_bytes f))) as [-> ->].
Qed.

Lemma rev_words_ok f : field_ok f -> field_ok (rev_words f).
Proof.
  intros [Hw Hn]. assert (field_words (rev_words f) = map SWAP32 (field_words f)) as E
    by by destruct f. split; rewrite E; [by apply concat_rev_words|]. by destruct (field_words f).
Qed.

Lemma rev_words_alike f : field_ok f -> alike f (rev_words f).
Proof.
  intros Hf. assert (field_words (rev_words f) = map SWAP32 (field_words f)) as E by by destruct f.
  split; [|by destruct f]. destruct Hf as [Hw _]. unfold field_length, field_bytes.
  rewrite E, !concat_words by (try apply concat_rev_words; done). by rewrite lenZ_map.
Qed.

Definition swap_double (f : field) : field := if is_double f then swap_halves f else f.

Lemma swap_double_alike f : field_ok f -> alike f (swap_double f).
Proof.
  intros Hf. unfold swap_double. split; [|by destruct f].
  destruct (is_double f); [by apply swap_halves_length|done].
Qed.
Lemma swap_double_ok f : field_ok f -> field_ok (swap_double f).
Proof.
  destruct f as [|w0 w1|]; try done. unfold swap_double. cbn. intros [Hw _]. split; [|done].
  cbn in *. inversion_clear Hw as [|? ? ? Hw']. inversion_clear Hw'. by repeat constructor.
Qed.

Lemma flip_all_words fs :
  Forall field_ok fs ->
  flipEndianess32 (bytes fs) 0 (lenZ (bytes fs)) = Some (bytes (map rev_words fs)).
Proof.
  intros H. set (ws := flat_map field_words fs).
  assert (bytes fs = concat ws) as E.
  { unfold ws. clear H ws. induction fs as [|f fs IH]; [done|]. cbn [flat_map].
    by rewrite bytes_cons, concat_app, IH. }
  assert (bytes (map rev_words fs) = concat (map SWAP32 ws)) as ->.
  { unfold ws. clear H ws E. induction fs as [|f fs IH]; [done|]. cbn [flat_map map].
    rewrite bytes_cons, map_app, concat_app, IH. f_equal. by destruct f. }
  assert (Forall (fun w => lenZ w = 4) ws) as Hws.
  { unfold ws. clear E ws. induction H as [|f fs [Hf _] _ IH]; [constructor|]. cbn [flat_map].
    by apply Forall_app. }
  rewrite E. pose proof (flipEndianess32_ok ws [] [] Hws) as F. cbn [app] in F.
  rewrite !app_nil_r in F. exact F.
Qed.

Lemma swap_in_steps f :
  field_ok f -> (if is_string (swap_double (rev_words f)) then rev_string (swap_double (rev_words f))
                 else swap_double (rev_words f)) = swap_field f.
Proof.
  destruct f as [| |ws]; try done. intros _. cbn. f_equal. rewrite map_map.
  rewrite <- (map_id ws) at 2. apply map_ext. intros w. apply rev_involutive.
Qed.

(** The structure with [g] on the fields of its part. *)
Lemma whole_alike pre fs post (g : field -> field) :
  Forall field_ok (pre ++ fs ++ post) ->
  (forall f, field_ok f -> field_ok (g f) /\ alike f (g f)) ->
  Forall field_ok (pre ++ map g fs ++ post) /\ Forall2 alike fs (map g fs) /\
  Forall2 alike (pre ++ fs ++ post) (pre ++ map g fs ++ post).
Proof.
  rewrite !Forall_app. intros (Hpre & Hfs & Hpost) Hg.
  assert (Forall field_ok (map g fs) /\ Forall2 alike fs (map g fs)) as [H1 H2].
  { clear Hpre Hpost. induction Hfs as [|f fs Hf _ [IH1 IH2]]; [done|]. cbn [map].
    destruct (Hg f Hf). by split; constructor. }
  split_and!; try done. by apply Forall2_app; [|apply Forall2_app].
Qed.

Lemma update_nil hit g base fs : update hit g [] base fs = fs.
Proof.
  revert base. induction fs as [|f fs IH]; intros base; [done|]. cbn [update]. rewrite IH.
  rewrite bool_decide_eq_false_2 by apply not_elem_of_nil. by rewrite andb_false_r.
Qed.

Lemma places_part hit pre fs post p :
  p ∈ places hit (lenZ (bytes pre)) fs -> p ∈ places hit 0 (pre ++ fs ++ post).
Proof. intros Hp. rewrite !places_app, !elem_of_app. tauto. Qed.

(** The loops on the whole tables. *)
Lemma flip_all_doubles pre fs post offs :
  let whole := pre ++ fs ++ post in
  Forall field_ok whole -> lenZ (bytes whole) <= 32768 ->
  Permutation offs (places is_double 0 whole) ->
  flipDoubles (bytes fs) (lenZ (bytes fs)) (lenZ (bytes pre)) offs (lenZ offs) =
    Some (bytes (map swap_double fs)).
Proof.
  intros whole Hok Hmax Hperm. destruct (places_NoDup is_double 0 whole Hok) as [Hnd _].
  pose proof (flip_doubles_ok pre fs post Hok offs [] [] Hmax) as F.
  rewrite update_nil, !app_nil_r in F. unfold flipDoubles.
  replace (Z.to_nat (lenZ offs)) with (length offs) by (unfold lenZ; lia). rewrite F.
  - rewrite update_all; [done|]. intros p Hp. apply list_elem_of_In, in_rev.
    rewrite rev_involutive. apply list_elem_of_In. rewrite Hperm. by apply places_part.
  - by rewrite Hperm.
  - intros p Hp. rewrite Hperm in Hp. split; [done|apply not_elem_of_nil].
Qed.

Definition flat (soffs : list (Z * Z)) : list Z := flat_map (fun '(p, n) => [p; n]) soffs.

Lemma flip_all_strings pre fs post soffs :
  let whole := pre ++ fs ++ post in
  Forall field_ok whole -> Permutation soffs (string_entries 0 whole) ->
  flipStrings (bytes fs) (lenZ (bytes fs)) (lenZ (bytes pre)) (flat soffs) (2 * lenZ soffs) =
    Some (bytes (map (fun f => if is_string f then rev_string f else f) fs)).
Proof.
  intros whole Hok Hperm. destruct (places_NoDup is_string 0 whole Hok) as [Hnd _].
  assert (Permutation (map fst soffs) (places is_string 0 whole)) as Hfst
    by (rewrite <- string_entries_places; by apply Permutation_map).
  pose proof (flip_strings_ok pre fs post Hok soffs [] []) as F.
  rewrite update_nil, !app_nil_r in F. unfold flipStrings.
  replace (Z.to_nat (2 * lenZ soffs)) with (2 * length soffs)%nat by (unfold lenZ; lia).
  unfold flat. rewrite F.
  - rewrite update_all; [done|]. intros p Hp. apply list_elem_of_In, in_rev.
    rewrite rev_involutive. apply list_elem_of_In. rewrite Hfst. by apply places_part.
  - by rewrite Hfst.
  - intros e He. rewrite Hperm in He. apply string_entries_at in He as (l & ws & r & E & ->).
    split; [|apply not_elem_of_nil]. by exists l, ws, r.
Qed.

(** C37: For a structure of at most 32768 bytes with four-byte members, eight-byte members
    and strings of whole words, and tables that list all of its eight-byte members and
    strings, and a part of it that begins and ends at members: swapping the words, the
    halves of the listed doubles and the listed strings reverses the bytes of each member
    and keeps the strings. *)
Theorem byte_order_conversion pre fs post offs soffs :
  let whole := pre ++ fs ++ post in
  let offset := lenZ (bytes pre) in let dataLength := lenZ (bytes fs) in
  Forall field_ok whole -> lenZ (bytes whole) <= 32768 ->
  Permutation offs (places is_double 0 whole) -> Permutation soffs (string_entries 0 whole) ->
  exists d1 d2,
    flipEndianess32 (bytes fs) 0 dataLength = Some d1 /\
    flipDoubles d1 dataLength offset offs (lenZ offs) = Some d2 /\
    flipStrings d2 dataLength offset (flat soffs) (2 * lenZ soffs) =
      Some (bytes (map swap_field fs)).
Proof.
  intros whole offset dataLength Hok Hmax Hoffs Hsoffs. pose proof (fs_ok _ _ _ Hok) as Hfs.
  destruct (whole_alike pre fs post rev_words Hok) as (Hok1 & Ha1 & Hw1).
  { intros f Hf. split; [by apply rev_words_ok|by apply rev_words_alike]. }
  destruct (whole_alike pre (map rev_words fs) post swap_double Hok1) as (Hok2 & Ha2 & Hw2).
  { intros f Hf. split; [by apply swap_double_ok|by apply swap_double_alike]. }
  apply alike_places in Ha1 as [Hl1 _], Ha2 as [Hl2 _], Hw1 as [Hm1 Hp1], Hw2 as [Hm2 Hp2].
  destruct (Hp1 0) as [Hd1 Hs1], (Hp2 0) as [_ Hs2].
  exists (bytes (map rev_words fs)), (bytes (map swap_double (map rev_words fs))).
  split; [by apply flip_all_words|]. unfold dataLength, offset. rewrite <- Hl1. split.
  - apply (flip_all_doubles pre _ post); [done|unfold whole in *; lia|]. by rewrite Hd1.
  - rewrite <- Hl2, (flip_all_strings pre _ post) by (rewrite ?Hs2, ?Hs1; done).
    do 2 f_equal. rewrite !map_map. apply map_ext_Forall. eapply Forall_impl; [|exact Hfs].
    intros f Hf. by apply swap_in_steps.
Qed.

(** ** The tables *)

(** The offsets of the doubles of a structure, from its layout. *)
Fixpoint doubles_from (offset : Z) (l : layout) : list Z :=
  match l with
  | [] => []
  | (_, t, count) :: l =>
    (if decide (t = F64) then map (fun i => offset + 8 * i) (seqZ 0 count) else []) ++
    doubles_from (offset + sizeof t * count) l
  end.
Definition doubles_of (l : layout) : list Z := doubles_from 0 l.

(** Data sets and their structures, as documented in data_sets.h. *)
Definition documented : list (Z * layout) :=
  [(DID_PIMU, pimu_t); (DID_REFERENCE_PIMU, pimu_t); (DID_IMU, imu_t); (DID_IMU_RAW, imu_t);
   (DID_REFERENCE_IMU, imu_t); (DID_MAGNETOMETER, magnetometer_t);
   (DID_REFERENCE_MAGNETOMETER, magnetometer_t); (DID_IMU_MAG, imu_mag_t);
   (DID_PIMU_MAG, pimu_mag_t); (DID_INS_1, ins_1_t); (DID_INS_2, ins_2_t); (DID_INS_3, ins_3_t);
   (DID_INS_4, ins_4_t); (DID_GPS1_RCVR_POS, gps_pos_t); (DID_GPS1_POS, gps_pos_t);
   (DID_GPS2_POS, gps_pos_t); (DID_GPS1_TIMEPULSE, gps_timepulse_t);
   (DID_GPS1_RTK_POS_MISC, gps_rtk_misc_t); (DID_GPS2_RTK_CMP_MISC, gps_rtk_misc_t);
   (DID_FLASH_CONFIG, nvm_flash_cfg_t); (DID_SURVEY_IN, survey_in_t);
   (DID_INL2_STATES, inl2_states_t); (DID_DEBUG_ARRAY, debug_array_t);
   (DID_EVB_DEBUG_ARRAY, debug_array_t); (DID_GPX_DEBUG_ARRAY, debug_array_t)].

Lemma sorted_Permutation l l' : merge_sort Z.le l = merge_sort Z.le l' -> Permutation l l'.
Proof. intros H. by rewrite <- (merge_sort_Permutation Z.le l), H, merge_sort_Permutation. Qed.

Definition table_exact (did : Z) (l : layout) : bool :=
  match getDoubleOffsets did with
  | Some (n, offs) =>
    (n =? lenZ offs) && (sizeof_layout l <=? 32768) &&
    bool_decide (merge_sort Z.le offs = merge_sort Z.le (doubles_of l))
  | None => false
  end.

(** for each data set of the list, the table of [getDoubleOffsets] names exactly
    the doubles of the structure data_sets.h documents for it, each once, and all of
    them are within the range the table's entries can express. *)
Theorem double_tables_exact did l :
  In (did, l) documented ->
  exists offs, getDoubleOffsets did = Some (lenZ offs, offs) /\
    Permutation offs (doubles_of l) /\ Forall (fun o => 0 <= o < 32768) offs.
Proof.
  assert (forallb (fun '(did, l) => table_exact did l) documented = true) as H
    by (vm_compute; reflexivity).
  assert (forallb (fun '(did, l) => forallb (fun o => (0 <=? o) && (o <? 32768)) (doubles_of l))
            documented = true) as H2 by (vm_compute; reflexivity).
  rewrite forallb_forall in H, H2. intros Hin. specialize (H _ Hin). specialize (H2 _ Hin).
  cbv beta iota in H, H2. unfold table_exact in H.
  destruct (getDoubleOffsets did) as [[n offs]|]; [|done]. rewrite !andb_true_iff in H.
  destruct H as [[->%Z.eqb_eq _] Hs%bool_decide_eq_true_1]. apply sorted_Permutation in Hs.
  exists offs. split_and!; try done. rewrite Hs. apply List.Forall_forall. intros o Ho.
  rewrite forallb_forall in H2. specialize (H2 _ Ho). lia.
Qed.

(** The double [upTime] of [sys_params_t] is missing in its table. *)
Example sys_params_upTime :
  doubles_of sys_params_t = [36; 56] /\ getDoubleOffsets DID_SYS_PARAMS = Some (1, [36]).
Proof. by vm_compute. Qed.

(** [DID_GPS1_RTK_POS] is a [gps_pos_t], yet has no table. *)
Example gps1_rtk_pos_no_table :
  getDoubleOffsets DID_GPS1_RTK_POS = None /\
  exists offs, getDoubleOffsets DID_GPS1_POS = Some (7, offs).
Proof. split; [done|]. by eexists. Qed.

(** The 64-bit integer of [rmc_t]: after the words, [SWAP64] swaps the bytes of the
    words back, and only the halves are exchanged. *)
Example rmc_bits_not_converted :
  (d ← flipEndianess32 [1; 2; 3; 4; 5; 6; 7; 8; 9; 10; 11; 12] 0 12;
   '(n, offs) ← getDoubleOffsets DID_RMC;
   flipDoubles d 12 0 offs n) = Some [5; 6; 7; 8; 1; 2; 3; 4; 12; 11; 10; 9].
Proof. by vm_compute. Qed.

(** ** Stream bits *)

(** Each data set with an entry has a bit of its own within [RMC_BITS_MASK]. *)
Lemma rmc_bits_distinct did did' b :
  nthZ g_didToRmcBit did = Some b -> nthZ g_didToRmcBit did' = Some b -> b <> 0 ->
  did = did' /\ exists k, 0 <= k < 60 /\ b = 2 ^ k.
Proof.
  assert (forallb (fun p => forallb (fun q => (p.2 =? 0) || negb (p.2 =? q.2) || (p.1 =? q.1))
    (zip (seqZ 0 132) g_didToRmcBit)) (zip (seqZ 0 132) g_didToRmcBit) = true) as H
    by (vm_compute; reflexivity).
  assert (forallb (fun b => (b =? 0) || existsb (fun k => b =? 2 ^ k) (seqZ 0 60)) g_didToRmcBit
    = true) as H2 by (vm_compute; reflexivity).
  rewrite forallb_forall in H, H2.
  assert (forall i b, nthZ g_didToRmcBit i = Some b -> In (i, b) (zip (seqZ 0 132) g_didToRmcBit)
    /\ In b g_didToRmcBit) as Hz.
  { intros i x Hi. unfold nthZ in Hi. destruct (Z.leb_spec 0 i); [|done].
    pose proof (lookup_lt_Some _ _ _ Hi) as Hlt. change (length g_didToRmcBit) with 132%nat in Hlt.
    rewrite <- !list_elem_of_In, !list_elem_of_lookup. split; [|by eexists].
    exists (Z.to_nat i). apply lookup_zip_with_Some. exists i, x. split_and!; try done.
    apply lookup_seqZ. lia. }
  intros Hi Hj Hb. destruct (Hz _ _ Hi) as [Hi' Hin], (Hz _ _ Hj) as [Hj' _].
  specialize (H _ Hi'). rewrite forallb_forall in H. specialize (H _ Hj'). cbn [fst snd] in H.
  specialize (H2 _ Hin). rewrite (proj2 (Z.eqb_neq b 0) Hb), ?Z.eqb_refl in *. cbn in H, H2.
  split; [by apply Z.eqb_eq in H|]. apply existsb_exists in H2 as (k & Hk & ->%Z.eqb_eq).
  apply list_elem_of_In, elem_of_seqZ in Hk. exists k. split; [lia|done].
Qed.
