(* ===== verification/ImxDefaults.v ===== *)
(** * Default I/O configuration of the IMX carrier boards (src/src/imx_defaults.c)

    The functions that check a platform configuration and derive the I/O configuration
    of the flash memory from it, and the properties of what is derived.  All values are
    32-bit words. *)

From S2P Require Import Prelude.

(** ** Constants (data_sets.h) *)

Definition PLATFORM_CFG_TYPE_MASK : Z := 0x0000003F.
Definition PLATFORM_CFG_TYPE_NONE : Z := 0.
Definition PLATFORM_CFG_TYPE_NONE_ONBOARD_G2 : Z := 1.
Definition PLATFORM_CFG_TYPE_RUG1 : Z := 2.
Definition PLATFORM_CFG_TYPE_RUG2_0_G1 : Z := 3.
Definition PLATFORM_CFG_TYPE_RUG2_0_G2 : Z := 4.
Definition PLATFORM_CFG_TYPE_RUG2_1_G0 : Z := 5.
Definition PLATFORM_CFG_TYPE_RUG2_1_G1 : Z := 6.
Definition PLATFORM_CFG_TYPE_RUG2_1_G2 : Z := 7.
Definition PLATFORM_CFG_TYPE_RUG3_G0 : Z := 8.
Definition PLATFORM_CFG_TYPE_RUG3_G1 : Z := 9.
Definition PLATFORM_CFG_TYPE_RUG3_G2 : Z := 10.
Definition PLATFORM_CFG_TYPE_EVB2_G2 : Z := 11.
Definition PLATFORM_CFG_TYPE_TBED3 : Z := 12.
Definition PLATFORM_CFG_TYPE_IG1_0_G2 : Z := 13.
Definition PLATFORM_CFG_TYPE_IG1_G1 : Z := 14.
Definition PLATFORM_CFG_TYPE_IG1_G2 : Z := 15.
Definition PLATFORM_CFG_TYPE_IG2 : Z := 16.
Definition PLATFORM_CFG_TYPE_LAMBDA_G1 : Z := 17.
Definition PLATFORM_CFG_TYPE_LAMBDA_G2 : Z := 18.
Definition PLATFORM_CFG_TYPE_TBED2_G1_W_LAMBDA : Z := 19.
Definition PLATFORM_CFG_TYPE_TBED2_G2_W_LAMBDA : Z := 20.
Definition PLATFORM_CFG_TYPE_COUNT : Z := 21.
Definition PLATFORM_CFG_PRESET_MASK : Z := 0x0000FF00.
Definition PLATFORM_CFG_PRESET_OFFSET : Z := 8.
Definition PLATFORM_CFG_RUG3_PRESET__0__PRESETS_DISABLED : Z := 0.
Definition PLATFORM_CFG_RUG3_PRESET__1__S0_RS232_7_9___CAN_11_12______S1_GPS1 : Z := 1.
Definition PLATFORM_CFG_RUG3_PRESET__2__S0_TTL_7_9_____CAN_11_12______S1_GPS1 : Z := 2.
Definition PLATFORM_CFG_RUG3_PRESET__3__S0_TTL_7_9_____S2_TTL_8_10____S1_GPS1 : Z := 3.
Definition PLATFORM_CFG_RUG3_PRESET__4__S0_RS232_7_9___S1_RS232_8_10__S2_GPS1 : Z := 4.
Definition PLATFORM_CFG_RUG3_PRESET__5__S1_RS485_7_8_9_10_____________S2_GPS1__S0_GPS2 : Z := 5.
Definition PLATFORM_CFG_RUG3_PRESET__6__SPI_7_8_9_10__________________S2_GPS1__S0_GPS2 : Z := 6.
Definition PLATFORM_CFG_RUG3_PRESET__7__S1_RS232_8_10_________________S2_GPS1__S0_GPS2 : Z := 7.
Definition PLATFORM_CFG_RUG3_PRESET__8_________________CAN_11_12______S1_GPS1__S0_GPS2 : Z := 8.
Definition PLATFORM_CFG_RUG3_PRESET__9__S2_TTL_8_10___________________S1_GPS1__S0_GPS2 : Z := 9.
Definition PLATFORM_CFG_RUG3_PRESET__COUNT : Z := 10.
Definition IO_CONFIG_G1G2_CAN_BUS : Z := 0x00000004.
Definition IO_CONFIG_G1G2_COM2 : Z := 0x00000006.
Definition IO_CONFIG_G1G2_MASK : Z := 0x0000000E.
Definition IO_CONFIG_G5G8_G6G7_SPI_ENABLE : Z := 0x00000400.
Definition IO_CONFIG_G5G8_MASK : Z := 0x00000700.
Definition IO_CONFIG_G5G8_DEFAULT : Z := 0.
Definition IO_CFG_GPS_TIMEPUSE_SOURCE_OFFSET : Z := 13.
Definition IO_CFG_GPS_TIMEPUSE_SOURCE_MASK : Z := 0x00000007.
Definition IO_CFG_GPS_TIMEPUSE_SOURCE_GNSS_PPS_PIN20 : Z := 1.
Definition IO_CFG_GPS_TIMEPUSE_SOURCE_STROBE_G5_PIN9 : Z := 4.
Definition IO_CFG_GPS_TIMEPUSE_SOURCE_STROBE_G8_PIN12 : Z := 5.
Definition IO_CFG_GPS_TIMEPUSE_SOURCE_STROBE_G9_PIN13 : Z := 6.
Definition IO_CONFIG_GPS1_SOURCE_OFFSET : Z := 16.
Definition IO_CONFIG_GPS2_SOURCE_OFFSET : Z := 19.
Definition IO_CONFIG_GPS1_TYPE_OFFSET : Z := 22.
Definition IO_CONFIG_GPS2_TYPE_OFFSET : Z := 25.
Definition IO_CONFIG_GPS1_NO_INIT : Z := 0x00001000.
Definition IO_CONFIG_GPS2_NO_INIT : Z := 0x10000000.
Definition IO_CONFIG_GPS_SOURCE_MASK : Z := 0x00000007.
Definition IO_CONFIG_GPS_SOURCE_DISABLE : Z := 0.
Definition IO_CONFIG_GPS_SOURCE_ONBOARD_1 : Z := 1.
Definition IO_CONFIG_GPS_SOURCE_ONBOARD_2 : Z := 2.
Definition IO_CONFIG_GPS_SOURCE_SER0 : Z := 3.
Definition IO_CONFIG_GPS_SOURCE_SER1 : Z := 4.
Definition IO_CONFIG_GPS_SOURCE_SER2 : Z := 5.
Definition IO_CONFIG_GPS_TYPE_MASK : Z := 0x00000007.
Definition IO_CONFIG_GPS_TYPE_UBX_M8 : Z := 0.
Definition IO_CONFIG_GPS_TYPE_UBX_F9P : Z := 1.
Definition IO_CONFIG_GPS_TYPE_GPX : Z := 3.
Definition SYS_CFG_BITS_DISABLE_MAGNETOMETER_FUSION : Z := 0x00001000.
Definition SYS_CFG_BITS_DISABLE_GPS1_FUSION : Z := 0x00004000.
Definition SYS_CFG_BITS_DISABLE_GPS2_FUSION : Z := 0x00008000.
Definition SYS_CFG_BITS_DISABLE_AUTO_ZERO_ANGULAR_RATE_UPDATES : Z := 0x00020000.
Definition SYS_CFG_BITS_DISABLE_INS_EKF : Z := 0x00040000.
Definition PLATFORM_CFG_RUG3_PRESET__G0_DEFAULT : Z :=
  PLATFORM_CFG_RUG3_PRESET__1__S0_RS232_7_9___CAN_11_12______S1_GPS1.
Definition PLATFORM_CFG_RUG3_PRESET__G2_DEFAULT : Z :=
  PLATFORM_CFG_RUG3_PRESET__7__S1_RS232_8_10_________________S2_GPS1__S0_GPS2.
Definition IO_CFG_GPS_TIMEPUSE_SOURCE_BITMASK : Z :=
  Z.shiftl IO_CFG_GPS_TIMEPUSE_SOURCE_MASK IO_CFG_GPS_TIMEPUSE_SOURCE_OFFSET.

Module ImxDefaults.

(** ** Fields of the configuration word *)

Definition SET_STATUS_OFFSET_MASK (result val offset mask : Z) : Z :=
  Z.lor (Z.land result (Z.lnot (Z.shiftl mask offset))) (Z.shiftl val offset).
Definition SET_IO_CFG_GPS1_SOURCE (result val : Z) : Z :=
  SET_STATUS_OFFSET_MASK result val IO_CONFIG_GPS1_SOURCE_OFFSET IO_CONFIG_GPS_SOURCE_MASK.
Definition SET_IO_CFG_GPS2_SOURCE (result val : Z) : Z :=
  SET_STATUS_OFFSET_MASK result val IO_CONFIG_GPS2_SOURCE_OFFSET IO_CONFIG_GPS_SOURCE_MASK.
Definition SET_IO_CFG_GPS1_TYPE (result val : Z) : Z :=
  SET_STATUS_OFFSET_MASK result val IO_CONFIG_GPS1_TYPE_OFFSET IO_CONFIG_GPS_TYPE_MASK.
Definition SET_IO_CFG_GPS2_TYPE (result val : Z) : Z :=
  SET_STATUS_OFFSET_MASK result val IO_CONFIG_GPS2_TYPE_OFFSET IO_CONFIG_GPS_TYPE_MASK.
Definition IO_CONFIG_GPS1_SOURCE (ioConfig : Z) : Z :=
  Z.land (Z.shiftr ioConfig IO_CONFIG_GPS1_SOURCE_OFFSET) IO_CONFIG_GPS_SOURCE_MASK.
Definition IO_CONFIG_GPS2_SOURCE (ioConfig : Z) : Z :=
  Z.land (Z.shiftr ioConfig IO_CONFIG_GPS2_SOURCE_OFFSET) IO_CONFIG_GPS_SOURCE_MASK.
Definition IO_CONFIG_GPS1_TYPE (ioConfig : Z) : Z :=
  Z.land (Z.shiftr ioConfig IO_CONFIG_GPS1_TYPE_OFFSET) IO_CONFIG_GPS_TYPE_MASK.
Definition IO_CONFIG_GPS2_TYPE (ioConfig : Z) : Z :=
  Z.land (Z.shiftr ioConfig IO_CONFIG_GPS2_TYPE_OFFSET) IO_CONFIG_GPS_TYPE_MASK.

(** A case of a switch with several labels. *)
Definition one_of (x : Z) (labels : list Z) : bool := existsb (Z.eqb x) labels.

Definition cfg_type (platformConfig : Z) : Z := Z.land platformConfig PLATFORM_CFG_TYPE_MASK.
Definition cfg_preset (platformConfig : Z) : Z :=
  Z.shiftr (Z.land platformConfig PLATFORM_CFG_PRESET_MASK) PLATFORM_CFG_PRESET_OFFSET.

(** ** Checks *)

Definition imxPlatformConfigTypeValid (platformConfig : Z) : Z :=
  let platformType := cfg_type platformConfig in
  if (0 <? platformType) && (platformType <? PLATFORM_CFG_TYPE_COUNT) then 1 else 0.

Definition imxPlatformConfigErrorCheck (platformConfig : Z) : Z :=
  let type := cfg_type platformConfig in
  let preset := cfg_preset platformConfig in
  let type := if PLATFORM_CFG_TYPE_COUNT <? type then PLATFORM_CFG_TYPE_NONE else type in
  let preset :=
    if one_of type [PLATFORM_CFG_TYPE_RUG2_1_G0; PLATFORM_CFG_TYPE_RUG3_G0] then
      if PLATFORM_CFG_RUG3_PRESET__COUNT <? preset then PLATFORM_CFG_RUG3_PRESET__G0_DEFAULT
      else preset
    else if one_of type [PLATFORM_CFG_TYPE_RUG2_1_G1; PLATFORM_CFG_TYPE_RUG2_1_G2;
                         PLATFORM_CFG_TYPE_RUG3_G1; PLATFORM_CFG_TYPE_RUG3_G2] then
      if PLATFORM_CFG_RUG3_PRESET__COUNT <? preset then PLATFORM_CFG_RUG3_PRESET__G0_DEFAULT
      else preset
    else preset in
  let platformConfig :=
    Z.land platformConfig (Z.lor PLATFORM_CFG_TYPE_MASK PLATFORM_CFG_PRESET_MASK) in
  Z.lor platformConfig (Z.lor type (u32 (Z.shiftl preset PLATFORM_CFG_PRESET_OFFSET))).

(** ** The I/O configuration *)

Definition imxPlatformConfigToRug3FlashCfgIoConfig (ioConfig platformConfig : Z) : Z :=
  let type := cfg_type platformConfig in
  let preset := cfg_preset platformConfig in
  if negb (one_of type
       [PLATFORM_CFG_TYPE_RUG2_1_G0; PLATFORM_CFG_TYPE_RUG2_1_G1; PLATFORM_CFG_TYPE_RUG2_1_G2;
        PLATFORM_CFG_TYPE_RUG3_G0; PLATFORM_CFG_TYPE_RUG3_G1; PLATFORM_CFG_TYPE_RUG3_G2])
  then ioConfig else
  let ioConfig := Z.land ioConfig (Z.lnot IO_CONFIG_G1G2_MASK) in
  let ioConfig :=
    if one_of preset
         [PLATFORM_CFG_RUG3_PRESET__1__S0_RS232_7_9___CAN_11_12______S1_GPS1;
          PLATFORM_CFG_RUG3_PRESET__2__S0_TTL_7_9_____CAN_11_12______S1_GPS1;
          PLATFORM_CFG_RUG3_PRESET__8_________________CAN_11_12______S1_GPS1__S0_GPS2]
    then Z.lor ioConfig IO_CONFIG_G1G2_CAN_BUS
    else if one_of preset
         [PLATFORM_CFG_RUG3_PRESET__3__S0_TTL_7_9_____S2_TTL_8_10____S1_GPS1;
          PLATFORM_CFG_RUG3_PRESET__5__S1_RS485_7_8_9_10_____________S2_GPS1__S0_GPS2;
          PLATFORM_CFG_RUG3_PRESET__9__S2_TTL_8_10___________________S1_GPS1__S0_GPS2]
    then Z.lor ioConfig IO_CONFIG_G1G2_COM2
    else ioConfig in
  let ioConfig := Z.land ioConfig (Z.lnot IO_CONFIG_G5G8_MASK) in
  let ioConfig :=
    if one_of preset
         [PLATFORM_CFG_RUG3_PRESET__6__SPI_7_8_9_10__________________S2_GPS1__S0_GPS2]
    then Z.lor ioConfig IO_CONFIG_G5G8_G6G7_SPI_ENABLE
    else Z.lor ioConfig IO_CONFIG_G5G8_DEFAULT in
  let ioConfig :=
    if one_of preset
         [PLATFORM_CFG_RUG3_PRESET__1__S0_RS232_7_9___CAN_11_12______S1_GPS1;
          PLATFORM_CFG_RUG3_PRESET__2__S0_TTL_7_9_____CAN_11_12______S1_GPS1;
          PLATFORM_CFG_RUG3_PRESET__3__S0_TTL_7_9_____S2_TTL_8_10____S1_GPS1;
          PLATFORM_CFG_RUG3_PRESET__4__S0_RS232_7_9___S1_RS232_8_10__S2_GPS1] then
      SET_IO_CFG_GPS2_SOURCE (SET_IO_CFG_GPS1_SOURCE ioConfig IO_CONFIG_GPS_SOURCE_SER1)
        IO_CONFIG_GPS_SOURCE_DISABLE
    else if one_of preset
         [PLATFORM_CFG_RUG3_PRESET__5__S1_RS485_7_8_9_10_____________S2_GPS1__S0_GPS2;
          PLATFORM_CFG_RUG3_PRESET__6__SPI_7_8_9_10__________________S2_GPS1__S0_GPS2;
          PLATFORM_CFG_RUG3_PRESET__7__S1_RS232_8_10_________________S2_GPS1__S0_GPS2] then
      SET_IO_CFG_GPS2_SOURCE (SET_IO_CFG_GPS1_SOURCE ioConfig IO_CONFIG_GPS_SOURCE_SER2)
        IO_CONFIG_GPS_SOURCE_SER0
    else if one_of preset
         [PLATFORM_CFG_RUG3_PRESET__8_________________CAN_11_12______S1_GPS1__S0_GPS2;
          PLATFORM_CFG_RUG3_PRESET__9__S2_TTL_8_10___________________S1_GPS1__S0_GPS2] then
      SET_IO_CFG_GPS2_SOURCE (SET_IO_CFG_GPS1_SOURCE ioConfig IO_CONFIG_GPS_SOURCE_SER1)
        IO_CONFIG_GPS_SOURCE_SER0
    else ioConfig in
  let ioConfig :=
    if one_of type [PLATFORM_CFG_TYPE_RUG2_1_G0; PLATFORM_CFG_TYPE_RUG3_G0]
    then SET_IO_CFG_GPS1_SOURCE ioConfig IO_CONFIG_GPS_SOURCE_DISABLE else ioConfig in
  let ioConfig :=
    if one_of type [PLATFORM_CFG_TYPE_RUG2_1_G0; PLATFORM_CFG_TYPE_RUG3_G0;
                    PLATFORM_CFG_TYPE_RUG2_1_G1; PLATFORM_CFG_TYPE_RUG3_G1]
    then SET_IO_CFG_GPS2_SOURCE ioConfig IO_CONFIG_GPS_SOURCE_DISABLE else ioConfig in
  SET_IO_CFG_GPS2_TYPE (SET_IO_CFG_GPS1_TYPE ioConfig IO_CONFIG_GPS_TYPE_UBX_F9P)
    IO_CONFIG_GPS_TYPE_UBX_F9P.

(** The four assignments most cases of the switch consist of. *)
Definition set_gps (ioConfig source1 source2 type : Z) : Z :=
  let ioConfig := SET_IO_CFG_GPS1_SOURCE ioConfig source1 in
  let ioConfig := SET_IO_CFG_GPS2_SOURCE ioConfig source2 in
  let ioConfig := SET_IO_CFG_GPS1_TYPE ioConfig type in
  SET_IO_CFG_GPS2_TYPE ioConfig type.

Definition set_timepulse (ioConfig source : Z) : Z :=
  Z.lor ioConfig (Z.shiftl source IO_CFG_GPS_TIMEPUSE_SOURCE_OFFSET).

Definition imxPlatformConfigToFlashCfgIoConfig (ioConfig platformConfig : Z) : Z :=
  let type := cfg_type platformConfig in
  let ioConfig :=
    if one_of type [PLATFORM_CFG_TYPE_NONE_ONBOARD_G2; PLATFORM_CFG_TYPE_RUG1] then
      set_gps ioConfig IO_CONFIG_GPS_SOURCE_ONBOARD_1 IO_CONFIG_GPS_SOURCE_ONBOARD_2
        IO_CONFIG_GPS_TYPE_UBX_M8
    else if one_of type [PLATFORM_CFG_TYPE_EVB2_G2] then
      set_gps ioConfig IO_CONFIG_GPS_SOURCE_SER1 IO_CONFIG_GPS_SOURCE_SER2
        IO_CONFIG_GPS_TYPE_UBX_F9P
    else if one_of type [PLATFORM_CFG_TYPE_RUG2_0_G1] then
      set_gps ioConfig IO_CONFIG_GPS_SOURCE_SER1 IO_CONFIG_GPS_SOURCE_DISABLE
        IO_CONFIG_GPS_TYPE_UBX_F9P
    else if one_of type [PLATFORM_CFG_TYPE_RUG2_0_G2] then
      set_gps ioConfig IO_CONFIG_GPS_SOURCE_SER1 IO_CONFIG_GPS_SOURCE_SER0
        IO_CONFIG_GPS_TYPE_UBX_F9P
    else if one_of type [PLATFORM_CFG_TYPE_RUG2_1_G1; PLATFORM_CFG_TYPE_RUG2_1_G2;
                         PLATFORM_CFG_TYPE_RUG3_G1; PLATFORM_CFG_TYPE_RUG3_G2] then
      imxPlatformConfigToRug3FlashCfgIoConfig ioConfig platformConfig
    else if one_of type [PLATFORM_CFG_TYPE_IG1_G1] then
      set_gps ioConfig IO_CONFIG_GPS_SOURCE_SER0 IO_CONFIG_GPS_SOURCE_DISABLE
        IO_CONFIG_GPS_TYPE_UBX_F9P
    else if one_of type [PLATFORM_CFG_TYPE_IG1_0_G2; PLATFORM_CFG_TYPE_IG1_G2] then
      set_gps ioConfig IO_CONFIG_GPS_SOURCE_SER0 IO_CONFIG_GPS_SOURCE_SER2
        IO_CONFIG_GPS_TYPE_UBX_F9P
    else if one_of type [PLATFORM_CFG_TYPE_IG2; PLATFORM_CFG_TYPE_TBED3] then
      set_gps ioConfig IO_CONFIG_GPS_SOURCE_SER0 IO_CONFIG_GPS_SOURCE_SER0
        IO_CONFIG_GPS_TYPE_GPX
    else if one_of type [PLATFORM_CFG_TYPE_LAMBDA_G1] then
      set_gps ioConfig IO_CONFIG_GPS_SOURCE_SER1 IO_CONFIG_GPS_SOURCE_DISABLE
        IO_CONFIG_GPS_TYPE_UBX_F9P
    else if one_of type [PLATFORM_CFG_TYPE_LAMBDA_G2] then
      set_gps ioConfig IO_CONFIG_GPS_SOURCE_SER1 IO_CONFIG_GPS_SOURCE_SER2
        IO_CONFIG_GPS_TYPE_UBX_F9P
    else if one_of type
        [PLATFORM_CFG_TYPE_TBED2_G1_W_LAMBDA; PLATFORM_CFG_TYPE_TBED2_G2_W_LAMBDA] then
      let ioConfig := set_gps ioConfig IO_CONFIG_GPS_SOURCE_SER2 IO_CONFIG_GPS_SOURCE_DISABLE
        IO_CONFIG_GPS_TYPE_UBX_F9P in
      Z.lor (Z.lor ioConfig IO_CONFIG_GPS1_NO_INIT) IO_CONFIG_GPS2_NO_INIT
    else
      set_gps ioConfig IO_CONFIG_GPS_SOURCE_DISABLE IO_CONFIG_GPS_SOURCE_DISABLE
        IO_CONFIG_GPS_TYPE_UBX_M8 in
  let ioConfig := Z.land ioConfig (Z.lnot IO_CFG_GPS_TIMEPUSE_SOURCE_BITMASK) in
  if one_of type [PLATFORM_CFG_TYPE_RUG2_1_G0; PLATFORM_CFG_TYPE_RUG3_G0; PLATFORM_CFG_TYPE_NONE]
  then ioConfig
  else if one_of type [PLATFORM_CFG_TYPE_EVB2_G2; PLATFORM_CFG_TYPE_RUG2_0_G1;
                       PLATFORM_CFG_TYPE_RUG2_0_G2; PLATFORM_CFG_TYPE_IG1_0_G2]
  then set_timepulse ioConfig IO_CFG_GPS_TIMEPUSE_SOURCE_STROBE_G8_PIN12
  else if one_of type [PLATFORM_CFG_TYPE_TBED3]
  then set_timepulse ioConfig IO_CFG_GPS_TIMEPUSE_SOURCE_STROBE_G5_PIN9
  else if one_of type [PLATFORM_CFG_TYPE_RUG2_1_G1; PLATFORM_CFG_TYPE_RUG2_1_G2]
  then set_timepulse ioConfig IO_CFG_GPS_TIMEPUSE_SOURCE_STROBE_G9_PIN13
  else set_timepulse ioConfig IO_CFG_GPS_TIMEPUSE_SOURCE_GNSS_PPS_PIN20.

(** ** Defaults *)

Definition imxPlatformConfigTypeToDefaultPlatformPreset (platformType : Z) : Z :=
  if one_of platformType [PLATFORM_CFG_TYPE_RUG2_1_G0; PLATFORM_CFG_TYPE_RUG3_G0]
  then PLATFORM_CFG_RUG3_PRESET__G0_DEFAULT
  else if one_of platformType [PLATFORM_CFG_TYPE_RUG2_1_G1; PLATFORM_CFG_TYPE_RUG2_1_G2;
                               PLATFORM_CFG_TYPE_RUG3_G1; PLATFORM_CFG_TYPE_RUG3_G2]
  then PLATFORM_CFG_RUG3_PRESET__G2_DEFAULT
  else 0.
Definition imxPlatformConfigTypeToDefaultPlatformConfig (platformType : Z) : Z :=
  Z.lor platformType
    (Z.shiftl (imxPlatformConfigTypeToDefaultPlatformPreset platformType)
       PLATFORM_CFG_PRESET_OFFSET).
Definition imxPlatformConfigTypeToFlashCfgIoConfig (ioConfig platformType : Z) : Z :=
  imxPlatformConfigToFlashCfgIoConfig ioConfig
    (imxPlatformConfigTypeToDefaultPlatformConfig platformType).

(** The shortest navigation period; the three periods depend on the build. *)
Record nav_periods := NavPeriods {
  tNAV_MIN_PERIOD_MS_NAV_MODE : Z;
  tNAV_MIN_PERIOD_MS_AHRS_MODE : Z;
  tNAV_MIN_PERIOD_MS_VRS_MODE : Z
}.
Definition imx5_periods : nav_periods := NavPeriods 7 5 4.
Definition uins3_periods : nav_periods := NavPeriods 2 2 2.

Definition imxMinNavOutputMs (periods : nav_periods) (sysCfgBits : Z) : Z :=
  let set bit := negb (Z.land sysCfgBits bit =? 0) in
  if set SYS_CFG_BITS_DISABLE_INS_EKF then 4
  else if negb (set SYS_CFG_BITS_DISABLE_GPS1_FUSION) ||
          negb (set SYS_CFG_BITS_DISABLE_GPS2_FUSION)
  then tNAV_MIN_PERIOD_MS_NAV_MODE periods
  else if negb (set SYS_CFG_BITS_DISABLE_MAGNETOMETER_FUSION) ||
          negb (set SYS_CFG_BITS_DISABLE_AUTO_ZERO_ANGULAR_RATE_UPDATES)
  then tNAV_MIN_PERIOD_MS_AHRS_MODE periods
  else tNAV_MIN_PERIOD_MS_VRS_MODE periods.
End ImxDefaults.
Export ImxDefaults.

(** * Properties *)

Module ImxProps.

(** ** Operations bit by bit *)

(** Each bit of the result is a function of the same bit of the argument; [-1] has all
    bits set. *)
Definition bitwise (g : Z -> Z) : Prop :=
  forall x i, 0 <= i ->
    Z.testbit (g x) i = if Z.testbit x i then Z.testbit (g (-1)) i else Z.testbit (g 0) i.

Lemma bitwise_id : bitwise (fun x => x).
Proof. intros x i Hi. rewrite Z.bits_m1, Z.bits_0 by done. by destruct (Z.testbit x i). Qed.

Lemma bitwise_land g m : bitwise g -> bitwise (fun x => Z.land (g x) m).
Proof. intros H x i Hi. rewrite !Z.land_spec, (H x i Hi). by destruct (Z.testbit x i). Qed.

Lemma bitwise_lor g v : bitwise g -> bitwise (fun x => Z.lor (g x) v).
Proof. intros H x i Hi. rewrite !Z.lor_spec, (H x i Hi). by destruct (Z.testbit x i). Qed.

Lemma bitwise_set g v o m : bitwise g -> bitwise (fun x => SET_STATUS_OFFSET_MASK (g x) v o m).
Proof. intros H. by apply (bitwise_lor _ _), bitwise_land. Qed.

Lemma bitwise_if (b : bool) g h : bitwise g -> bitwise h -> bitwise (fun x => if b then g x else h x).
Proof. by destruct b. Qed.

Lemma bitwise_comp g h : bitwise g -> bitwise h -> bitwise (fun x => let y := g x in h y).
Proof.
  intros Hg Hh x i Hi. cbv zeta. rewrite (Hh (g x)), (Hh (g (-1))), (Hh (g 0)), (Hg x) by done.
  by destruct (Z.testbit x i).
Qed.

Lemma bitwise_source1 g v : bitwise g -> bitwise (fun x => SET_IO_CFG_GPS1_SOURCE (g x) v).
Proof. apply bitwise_set. Qed.
Lemma bitwise_source2 g v : bitwise g -> bitwise (fun x => SET_IO_CFG_GPS2_SOURCE (g x) v).
Proof. apply bitwise_set. Qed.
Lemma bitwise_type1 g v : bitwise g -> bitwise (fun x => SET_IO_CFG_GPS1_TYPE (g x) v).
Proof. apply bitwise_set. Qed.
Lemma bitwise_type2 g v : bitwise g -> bitwise (fun x => SET_IO_CFG_GPS2_TYPE (g x) v).
Proof. apply bitwise_set. Qed.
Lemma bitwise_timepulse g v : bitwise g -> bitwise (fun x => set_timepulse (g x) v).
Proof. apply bitwise_lor. Qed.

(** Goes through the assignments of a function in order. *)
Ltac bitwise :=
  cbv beta;
  lazymatch goal with
  | |- bitwise (fun x => let y := @?g x in @?h y) => apply (bitwise_comp g h); bitwise
  | |- bitwise (fun x => let y := ?c in @?h y x) => change (bitwise (h c)); bitwise
  | |- bitwise (fun x => if ?b then @?g x else @?h x) => apply (bitwise_if b g h); bitwise
  | |- bitwise (fun x => Z.lor (@?g x) ?v) => apply (bitwise_lor g v); bitwise
  | |- bitwise (fun x => Z.land (@?g x) ?v) => apply (bitwise_land g v); bitwise
  | |- bitwise (fun x => SET_IO_CFG_GPS1_SOURCE (@?g x) ?v) => apply (bitwise_source1 g v); bitwise
  | |- bitwise (fun x => SET_IO_CFG_GPS2_SOURCE (@?g x) ?v) => apply (bitwise_source2 g v); bitwise
  | |- bitwise (fun x => SET_IO_CFG_GPS1_TYPE (@?g x) ?v) => apply (bitwise_type1 g v); bitwise
  | |- bitwise (fun x => SET_IO_CFG_GPS2_TYPE (@?g x) ?v) => apply (bitwise_type2 g v); bitwise
  | |- bitwise (fun x => set_timepulse (@?g x) ?v) => apply (bitwise_timepulse g v); bitwise
  | |- bitwise (fun x => x) => apply bitwise_id
  | |- _ => auto with bitwise
  end.
Create HintDb bitwise discriminated.

Lemma bitwise_rug3 pc : bitwise (fun x => imxPlatformConfigToRug3FlashCfgIoConfig x pc).
Proof. cbv delta [imxPlatformConfigToRug3FlashCfgIoConfig]. bitwise. Qed.
Lemma bitwise_set_gps s1 s2 t : bitwise (fun x => set_gps x s1 s2 t).
Proof. cbv delta [set_gps]. bitwise. Qed.
#[export] Hint Resolve bitwise_rug3 bitwise_set_gps : bitwise.

Lemma bitwise_io_config pc : bitwise (fun x => imxPlatformConfigToFlashCfgIoConfig x pc).
Proof. cbv delta [imxPlatformConfigToFlashCfgIoConfig]. bitwise. Qed.

(** ** Consequences, decided by the results for [0] and [-1] *)

Lemma bitwise_ext g h :
  bitwise g -> bitwise h -> g 0 = h 0 -> g (-1) = h (-1) -> forall x, g x = h x.
Proof.
  intros Hg Hh H0 H1 x. apply Z.bits_inj'. intros i Hi.
  by rewrite (Hg x), (Hh x), H0, H1 by done.
Qed.

(** A configuration is determined by its type and its preset. *)
Definition canonical (pc : Z) : Z := Z.lor (cfg_type pc) (Z.shiftl (cfg_preset pc) 8).

Lemma canonical_ok pc : 0 <= cfg_type pc < 64 /\ 0 <= cfg_preset pc < 256 /\
  cfg_type (canonical pc) = cfg_type pc /\ cfg_preset (canonical pc) = cfg_preset pc.
Proof.
  unfold canonical, cfg_type, cfg_preset.
  change PLATFORM_CFG_TYPE_MASK with (Z.ones 6).
  change PLATFORM_CFG_PRESET_MASK with (Z.shiftl (Z.ones 8) 8).
  change PLATFORM_CFG_PRESET_OFFSET with 8.
  assert (Z.shiftr (Z.land pc (Z.shiftl (Z.ones 8) 8)) 8 = Z.land (Z.shiftr pc 8) (Z.ones 8)) as ->.
  { rewrite Z.shiftr_land. f_equal. }
  assert (0 <= Z.land pc (Z.ones 6) < 64) by (rewrite Z.land_ones by lia; apply Z.mod_pos_bound; lia).
  assert (0 <= Z.land (Z.shiftr pc 8) (Z.ones 8) < 256)
    by (rewrite Z.land_ones by lia; apply Z.mod_pos_bound; lia).
  set (t := Z.land pc (Z.ones 6)) in *. set (p := Z.land (Z.shiftr pc 8) (Z.ones 8)) in *.
  split_and!; try lia.
  - apply Z.bits_inj'. intros i Hi. rewrite Z.land_spec, Z.lor_spec.
    destruct (Z.ltb_spec i 6).
    + rewrite Z.shiftl_spec_low, Z.ones_spec_low by lia. by rewrite orb_false_r, andb_true_r.
    + rewrite Z.ones_spec_high, andb_false_r by lia. symmetry. unfold t.
      by rewrite Z.land_spec, Z.ones_spec_high, andb_false_r by lia.
  - rewrite Z.shiftr_land, Z.shiftr_lor, Z.shiftr_shiftl_l, Z.sub_diag, Z.shiftl_0_r by lia.
    replace (Z.shiftr t 8) with 0 by (rewrite Z.shiftr_div_pow2 by lia; symmetry; apply Z.div_small; lia).
    rewrite Z.lor_0_l. change (Z.shiftr (Z.shiftl (Z.ones 8) 8) 8) with (Z.ones 8).
    unfold p. by rewrite <- Z.land_assoc, Z.land_diag.
Qed.

Lemma io_config_canonical io pc :
  imxPlatformConfigToFlashCfgIoConfig io pc = imxPlatformConfigToFlashCfgIoConfig io (canonical pc).
Proof.
  destruct (canonical_ok pc) as (_ & _ & Et & Ep).
  unfold imxPlatformConfigToFlashCfgIoConfig, imxPlatformConfigToRug3FlashCfgIoConfig.
  by rewrite Et, Ep.
Qed.

Definition all_boards : list Z :=
  flat_map (fun p => map (fun t => Z.lor t (Z.shiftl p 8)) (seqZ 0 64)) (seqZ 0 256).

Lemma decide_boards (P : Z -> bool) : forallb P all_boards = true -> forall pc, P (canonical pc) = true.
Proof.
  rewrite forallb_forall. intros H pc. apply H. destruct (canonical_ok pc) as (Ht & Hp & _).
  apply in_flat_map. exists (cfg_preset pc). split; [apply list_elem_of_In, elem_of_seqZ; lia|].
  apply in_map_iff. exists (cfg_type pc). split; [done|apply list_elem_of_In, elem_of_seqZ; lia].
Qed.

(** The bits the function may change: G1/G2, G5/G8, the timepulse source, and the
    sources, types and no-init flags of the two receivers. *)
Definition managed_bits : Z := 0x1FFFF70E.

(** The ports of the two receivers of a RUG-3 preset, as the name of the preset says;
    preset 4 is left out. *)
Definition preset_ports (preset : Z) : option (Z * Z) :=
  if one_of preset [1; 2; 3] then Some (IO_CONFIG_GPS_SOURCE_SER1, IO_CONFIG_GPS_SOURCE_DISABLE)
  else if one_of preset [5; 6; 7] then Some (IO_CONFIG_GPS_SOURCE_SER2, IO_CONFIG_GPS_SOURCE_SER0)
  else if one_of preset [8; 9] then Some (IO_CONFIG_GPS_SOURCE_SER1, IO_CONFIG_GPS_SOURCE_SER0)
  else None.
Definition one_receiver : list Z := [PLATFORM_CFG_TYPE_RUG2_1_G1; PLATFORM_CFG_TYPE_RUG3_G1].
Definition two_receivers : list Z := [PLATFORM_CFG_TYPE_RUG2_1_G2; PLATFORM_CFG_TYPE_RUG3_G2].

Definition has_ports (pc r : Z) : bool :=
  match preset_ports (cfg_preset pc) with
  | Some (s1, s2) =>
    if one_of (cfg_type pc) one_receiver then
      (IO_CONFIG_GPS1_SOURCE r =? s1) && (IO_CONFIG_GPS2_SOURCE r =? IO_CONFIG_GPS_SOURCE_DISABLE)
    else if one_of (cfg_type pc) two_receivers then
      (IO_CONFIG_GPS1_SOURCE r =? s1) && (IO_CONFIG_GPS2_SOURCE r =? s2)
    else true
  | None => true
  end.

Definition conditions (f : Z -> Z) (pc : Z) : bool :=
  (Z.land (f 0) (Z.lnot managed_bits) =? 0) &&
  (Z.land (f (-1)) (Z.lnot managed_bits) =? Z.lnot managed_bits) &&
  (f (f 0) =? f 0) && (f (f (-1)) =? f (-1)) &&
  has_ports pc (f 0) && has_ports pc (f (-1)).
Definition board_ok (pc : Z) : bool :=
  conditions (fun x => imxPlatformConfigToFlashCfgIoConfig x pc) pc.

Lemma all_boards_ok pc : board_ok (canonical pc) = true.
Proof. revert pc. apply decide_boards. vm_compute. reflexivity. Qed.

(** A field that is the same for all zeros and all ones is the same for all words. *)
Lemma bitwise_field g o m v :
  bitwise g -> 0 <= o -> Z.land (Z.shiftr (g 0) o) m = v -> Z.land (Z.shiftr (g (-1)) o) m = v ->
  forall x, Z.land (Z.shiftr (g x) o) m = v.
Proof.
  intros Hg Ho H0 H1 x. apply Z.bits_inj'. intros i Hi. rewrite Z.land_spec, Z.shiftr_spec by done.
  rewrite Hg by lia.
  destruct (Z.testbit x (i + o));
    [rewrite <- H1|rewrite <- H0]; by rewrite Z.land_spec, Z.shiftr_spec.
Qed.

Lemma has_ports_all pc g :
  bitwise g -> has_ports pc (g 0) = true -> has_ports pc (g (-1)) = true ->
  forall x, has_ports pc (g x) = true.
Proof.
  intros Hg H0 H1 x. unfold has_ports in *. destruct (preset_ports _) as [[s1 s2]|]; [|done].
  unfold IO_CONFIG_GPS1_SOURCE, IO_CONFIG_GPS2_SOURCE in *.
  destruct (one_of _ one_receiver); [|destruct (one_of _ two_receivers); [|done]];
    rewrite !andb_true_iff, !Z.eqb_eq in *; destruct H0 as [H0 H0'], H1 as [H1 H1'];
    split; by apply bitwise_field.
Qed.

(** C38: Deriving the I/O configuration keeps the bits outside of the managed fields and is
    idempotent; on RUG-2.1 and RUG-3 boards with receivers and a preset from 1 to 9 other
    than 4, the receivers the board has are on the ports that the name of the preset says,
    and a second receiver that the board or the preset does not have is disabled. *)
Theorem io_config_spec io pc :
  let r := imxPlatformConfigToFlashCfgIoConfig io pc in
  Z.land r (Z.lnot managed_bits) = Z.land io (Z.lnot managed_bits) /\
  imxPlatformConfigToFlashCfgIoConfig r pc = r /\
  forall s1 s2, preset_ports (cfg_preset pc) = Some (s1, s2) ->
    (In (cfg_type pc) one_receiver ->
       IO_CONFIG_GPS1_SOURCE r = s1 /\ IO_CONFIG_GPS2_SOURCE r = IO_CONFIG_GPS_SOURCE_DISABLE) /\
    (In (cfg_type pc) two_receivers ->
       IO_CONFIG_GPS1_SOURCE r = s1 /\ IO_CONFIG_GPS2_SOURCE r = s2).
Proof.
  intros r. unfold r. clear r. rewrite !(io_config_canonical _ pc).
  pose proof (all_boards_ok pc) as H. destruct (canonical_ok pc) as (_ & _ & <- & <-).
  set (c := canonical pc) in *. pose proof (bitwise_io_config c) as Hb. cbv beta in Hb.
  unfold board_ok in H. set (f := fun x => imxPlatformConfigToFlashCfgIoConfig x c) in *.
  change (imxPlatformConfigToFlashCfgIoConfig io c) with (f io).
  change (imxPlatformConfigToFlashCfgIoConfig (f io) c) with (f (f io)). clearbody f.
  unfold conditions in H. rewrite !andb_true_iff, !Z.eqb_eq in H.
  destruct H as (((((Hf0 & Hf1) & Hi0) & Hi1) & Hp0) & Hp1). split_and!.
  - apply (bitwise_ext (fun x => Z.land (f x) (Z.lnot managed_bits))
      (fun x => Z.land x (Z.lnot managed_bits))).
    + by apply bitwise_land.
    + apply bitwise_land, bitwise_id.
    + exact Hf0.
    + exact Hf1.
  - by apply (bitwise_ext (fun x => let y := f x in f y) f); [apply bitwise_comp| | |].
  - intros s1 s2 Hs. pose proof (has_ports_all c f Hb Hp0 Hp1 io) as H. unfold has_ports in H.
    rewrite Hs in H. split; intros Hin; cbn [In one_receiver two_receivers] in Hin.
    all: destruct Hin as [Hin|[Hin|[]]]; rewrite <- Hin in H; cbn in H; apply andb_true_iff in H; by rewrite !Z.eqb_eq in H.
Qed.

(** ** Deviations *)

(** The name of preset 4 says the first receiver is on serial port 2; the code selects
    serial port 1. *)
Example preset_4_port :
  IO_CONFIG_GPS1_SOURCE (imxPlatformConfigToFlashCfgIoConfig 0
    (Z.lor PLATFORM_CFG_TYPE_RUG3_G2
       (Z.shiftl PLATFORM_CFG_RUG3_PRESET__4__S0_RS232_7_9___S1_RS232_8_10__S2_GPS1 8))) =
  IO_CONFIG_GPS_SOURCE_SER1.
Proof. reflexivity. Qed.

(** The boards without receivers never get the I/O settings of their preset: preset 1
    asks for CAN on G1/G2, but the old setting stays. *)
Example g0_board_no_can :
  Z.land (imxPlatformConfigTypeToFlashCfgIoConfig IO_CONFIG_G1G2_COM2 PLATFORM_CFG_TYPE_RUG3_G0)
    IO_CONFIG_G1G2_MASK = IO_CONFIG_G1G2_COM2 /\
  Z.land (imxPlatformConfigToRug3FlashCfgIoConfig IO_CONFIG_G1G2_COM2
    (imxPlatformConfigTypeToDefaultPlatformConfig PLATFORM_CFG_TYPE_RUG3_G0))
    IO_CONFIG_G1G2_MASK = IO_CONFIG_G1G2_CAN_BUS.
Proof. done. Qed.

(** The check never clears an invalid type or preset; it only clears the other bits. *)
Example error_check_keeps_errors :
  imxPlatformConfigErrorCheck 0x0000003F = 0x0000003F /\
  imxPlatformConfigErrorCheck 0x00FFFF09 = 0x0000FF09.
Proof. done. Qed.

End ImxProps.
Export ImxProps.
