(* ===== verification/Ihex.v ===== *)
(** * Intel HEX files (src/src/ihex.c, ihex.h)

    The reader of firmware images: lines into records, records into sections.
    Character arrays are lists; an access outside of one has no result.  The file is
    its contents and a position, [malloc] a parameter that says which requests succeed,
    and the values of uninitialised local variables are the parameter [stack]. *)

From S2P Require Import Prelude CommRx CommTx.

Definition MAX_IHEX_SECTION_LEN : Z := 0x020000.

Record ihex_image_section_t := Section_ {
  sec_address : Z;
  sec_image : option (list Z);
  sec_len : Z
}.

(** The local variables before their first assignment. *)
Record stack := Stack {
  st_line : list Z; st_bytes : list Z; st_addr : Z; st_code : Z; st_len : Z; st_cksum : Z
}.

(** An open file: what follows the position [f_pos], and the end-of-file flag. *)
Record file := File { f_contents : list Z; f_pos : Z; f_eof : bool }.

Module Ihex.

(** ** Character strings of the C library *)

(** The characters up to the terminating zero. *)
Fixpoint chars_to_nul (l : list Z) : option (list Z) :=
  match l with
  | [] => None
  | c :: l => if c =? 0 then Some [] else cons c <$> chars_to_nul l
  end.
Definition cstr (buf : list Z) (p : Z) : option (list Z) :=
  if p <? 0 then None else chars_to_nul (dropZ p buf).
Definition strlen (buf : list Z) : option Z := lenZ <$> cstr buf 0.

Definition isspace (c : Z) : bool := (c =? 0x20) || ((0x09 <=? c) && (c <=? 0x0D)).
Fixpoint skip_spaces (s : list Z) : list Z :=
  match s with [] => [] | c :: s' => if isspace c then skip_spaces s' else s end.

Definition hex_digit (c : Z) : option Z :=
  if (0x30 <=? c) && (c <=? 0x39) then Some (c - 0x30)
  else if (0x41 <=? c) && (c <=? 0x46) then Some (c - 0x41 + 10)
  else if (0x61 <=? c) && (c <=? 0x66) then Some (c - 0x61 + 10)
  else None.
(** The value of the leading hexadecimal digits, after [acc]; [None] without a digit. *)
Fixpoint hex_digits (s : list Z) (acc : option Z) : option Z :=
  match s with
  | [] => acc
  | c :: s =>
    match hex_digit c with
    | Some d => hex_digits s (Some (default 0 acc * 16 + d))
    | None => acc
    end
  end.

Definition scan_digits (s : list Z) : option Z :=
  match s with
  | c :: x :: rest =>
    if (c =? 0x30) && ((x =? 0x78) || (x =? 0x58)) then hex_digits rest None
    else hex_digits s None
  | _ => hex_digits s None
  end.
(** An optional sign and the digits; a negative number wraps. *)
Definition scan_number (s : list Z) : option Z :=
  match s with
  | c :: s' =>
    if c =? 0x2D then (fun v => u32 (- v)) <$> scan_digits s'
    else if c =? 0x2B then scan_digits s'
    else scan_digits s
  | [] => None
  end.
(** The conversion [%nx] of [sscanf]: [None] for a matching failure, [Some None] at the
    end of the string. *)
Definition sscanf_hex (n : Z) (s : list Z) : option (option Z) :=
  match skip_spaces s with
  | [] => Some None
  | s => Some <$> scan_number (takeZ n s)
  end.

(** ** One line *)

(** The result of [!sscanf(...)] and the variable, which keeps its value [old] at the
    end of the string. *)
Definition scan (cast : Z -> Z) (n : Z) (theline : list Z) (ptr old : Z) : option (bool * Z) :=
  s ← cstr theline ptr;
  Some (match sscanf_hex n s with
        | None => (true, old)
        | Some None => (false, old)
        | Some (Some v) => (false, cast v)
        end).

(** The loop over the data bytes: the remaining state, and whether it returned. *)
Fixpoint parse_bytes (fuel : nat) (theline bytes : list Z) (ptr num len sum : Z)
    : option (bool * list Z * Z * Z * Z) :=
  if num =? len then Some (false, bytes, ptr, num, sum) else
  match fuel with
  | O => None
  | S fuel =>
    old ← nthZ bytes num;
    '(failed, b) ← scan u8 2 theline ptr old;
    if failed : bool then Some (true, bytes, ptr, num, sum) else
    let bytes := updZ num [b] bytes in
    let num := num + 1 in
    if 256 <=? num then Some (true, bytes, ptr + 2, num, sum + b)
    else parse_bytes fuel theline bytes (ptr + 2) num len (sum + b)
  end.

(** The result, [bytes], [addr], [num] and [code]. *)
Definition parse_hex_line (st : stack) (theline bytes : list Z) (addr code : Z)
    : option (Z * list Z * Z * Z * Z) :=
  let num := 0 in
  c ← nthZ theline 0;
  if negb (c =? 0x3A) then Some (0, bytes, addr, num, code) else
  n ← strlen theline;
  if n <? 11 then Some (0, bytes, addr, num, code) else
  '(failed, len) ← scan s32 2 theline 1 (st_len st);
  if failed : bool then Some (0, bytes, addr, num, code) else
  if n <? (11 + len * 2) mod 2 ^ 64 then Some (0, bytes, addr, num, code) else
  '(failed, addr) ← scan s32 4 theline 3 addr;
  if failed : bool then Some (0, bytes, addr, num, code) else
  '(failed, code) ← scan s32 2 theline 7 code;
  if failed : bool then Some (0, bytes, addr, num, code) else
  let sum := Z.land len 255 + Z.land (Z.shiftr addr 8) 255 + Z.land addr 255
             + Z.land code 255 in
  '(returned, bytes, ptr, num, sum) ← parse_bytes 256 theline bytes 9 num len sum;
  if returned : bool then Some (0, bytes, addr, num, code) else
  '(failed, cksum) ← scan s32 2 theline ptr (st_cksum st);
  if failed : bool then Some (0, bytes, addr, num, code) else
  if negb (Z.land (Z.land sum 255 + Z.land cksum 255) 255 =? 0)
  then Some (0, bytes, addr, num, code)
  else Some (1, bytes, addr, num, code).

(** ** Lines of a file *)

(** The characters up to and with the next line feed, at most [n]. *)
Fixpoint take_line (n : nat) (l : list Z) : list Z :=
  match n, l with
  | S n, c :: l => c :: (if c =? 0x0A then [] else take_line n l)
  | _, _ => []
  end.
(** [fgets(line, 512, f)]. *)
Definition fgets (line : list Z) (f : file) : option (list Z * file) :=
  match take_line 511 (dropZ (f_pos f) (f_contents f)) with
  | [] => Some (line, File (f_contents f) (f_pos f) true)
  | s =>
    line ← memcpy line 0 (s ++ [0]) (lenZ s + 1);
    let pos := f_pos f + lenZ s in
    Some (line, File (f_contents f) pos
                  ((lenZ (f_contents f) <=? pos) && (lenZ s <? 511) &&
                   negb (List.last s 0 =? 0x0A)))
  end.

(** [if (line[strlen(line) - 1] == c) line[strlen(line) - 1] = '\0'] *)
Definition strip_last (c : Z) (line : list Z) : option (list Z) :=
  n ← strlen line;
  x ← nthZ line (n - 1);
  Some (if x =? c then updZ (n - 1) [0] line else line).

(** ** One section *)

(** The loop's variables; [ls_image] is the buffer of [MAX_IHEX_SECTION_LEN] bytes. *)
Record load_state := LoadState {
  ls_file : file; ls_line : list Z; ls_bytes : list Z; ls_addr : Z; ls_code : Z;
  ls_image : Z -> Z; ls_minaddr : Z; ls_maxaddr : Z; ls_alreadysetaddr : bool;
  ls_address : Z; ls_end : bool
}.

(** The copy of the data bytes: [addr] and the buffer with its bounds, or [None] inside
    when the buffer is exceeded. *)
Fixpoint copy_bytes (data : list Z) (addr : Z) (image : Z -> Z) (minaddr maxaddr : Z)
    : option (option (Z * (Z -> Z) * Z * Z)) :=
  match data with
  | [] => Some (Some (addr, image, minaddr, maxaddr))
  | b :: data =>
    if (addr <? 0) || (MAX_IHEX_SECTION_LEN <=? addr) then None else
    let image := fun a => if a =? addr then b else image a in
    let minaddr := if addr <? minaddr then addr else minaddr in
    let maxaddr := if maxaddr <? addr then addr else maxaddr in
    if MAX_IHEX_SECTION_LEN <? addr + 1 then Some None
    else copy_bytes data (addr + 1) image minaddr maxaddr
  end.

(** How a turn of the loop goes on. *)
Inductive turn := Continue (s : load_state) | Break (s : load_state) | Return (f : file) (r : Z).

(** The body of the loop behind a parsed record with [n] data bytes of type [status]. *)
Definition handle_record (s : load_state) (line : list Z) (last_line : Z) (f : file)
    (bytes : list Z) (addr n status : Z) : option turn :=
  let state f addr image minaddr maxaddr set address last :=
    LoadState f line bytes addr status image minaddr maxaddr set address last in
  if status =? 0 then
    r ← copy_bytes (takeZ n bytes) addr (ls_image s) (ls_minaddr s) (ls_maxaddr s);
    Some (match r with
          | Some (addr, image, minaddr, maxaddr) =>
            Continue (state f addr image minaddr maxaddr (ls_alreadysetaddr s) (ls_address s) false)
          | None => Return f (-1)
          end)
  else if status =? 1 then
    Some (Break (state f addr (ls_image s) (ls_minaddr s) (ls_maxaddr s) (ls_alreadysetaddr s)
                   (ls_address s) true))
  else if status =? 4 then
    if ls_alreadysetaddr s then
      Some (Break (state (File (f_contents f) last_line false) addr (ls_image s) (ls_minaddr s)
                     (ls_maxaddr s) true (ls_address s) false))
    else
      b0 ← nthZ bytes 0;
      b1 ← nthZ bytes 1;
      Some (Continue (state f addr (ls_image s) (ls_minaddr s) (ls_maxaddr s) true
                        (u32 (Z.lor (Z.shiftl b1 16) (Z.shiftl b0 24))) false))
  else Some (Continue (state f addr (ls_image s) (ls_minaddr s) (ls_maxaddr s)
                         (ls_alreadysetaddr s) (ls_address s) false)).

Definition load_line (st : stack) (s : load_state) : option turn :=
  let line := updZ 0 [0] (ls_line s) in
  let last_line := f_pos (ls_file s) in
  '(line, f) ← fgets line (ls_file s);
  line ← strip_last 0x0A line;
  line ← strip_last 0x0D line;
  '(ok, bytes, addr, n, status) ← parse_hex_line st line (ls_bytes s) (ls_addr s) (ls_code s);
  if ok =? 0 then Some (Return f (-2))
  else handle_record s line last_line f bytes addr n status.

(** The loop: the state behind it, or the result of a return inside. *)
Fixpoint load_loop (fuel : nat) (st : stack) (s : load_state) : option (load_state + file * Z) :=
  if f_eof (ls_file s) then Some (inl s) else
  match fuel with
  | O => None
  | S fuel =>
    t ← load_line st s;
    match t with
    | Continue s => load_loop fuel st s
    | Break s => Some (inl s)
    | Return f r => Some (inr (f, r))
    end
  end.

Definition ihex_load_section (malloc : Z -> bool) (st : stack) (f : file)
    (section : ihex_image_section_t) : option (file * ihex_image_section_t * Z) :=
  if negb (malloc MAX_IHEX_SECTION_LEN) then None else
  r ← load_loop (S (length (f_contents f))) st
        (LoadState f (st_line st) (st_bytes st) (st_addr st) (st_code st) (fun _ => 0xFF)
           65536 0 false 0 false);
  match r with
  | inr (f, r) => Some (f, section, r)
  | inl s =>
    let len := u32 (ls_maxaddr s - ls_minaddr s + 1) in
    if malloc len && negb (len =? 0) then
      if (ls_minaddr s <? 0) || (MAX_IHEX_SECTION_LEN <? ls_minaddr s + len) then None else
      Some (ls_file s,
            Section_ (ls_address s) (Some (map (ls_image s) (seqZ (ls_minaddr s) len))) len,
            if ls_end s then 1 else 0)
    else Some (ls_file s, Section_ (sec_address section) (if malloc len then Some [] else None) len, -1)
  end.

(** ** All sections *)

(** The sections from [iter] on; [n] bounds the turns that are left. *)
Fixpoint load_sections_loop (n : nat) (malloc : Z -> bool) (st : stack) (f : file)
    (image : list ihex_image_section_t) (iter numSections num_slots : Z)
    : option (list ihex_image_section_t * Z) :=
  match n with
  | O => None
  | S n =>
    section ← nthZ image iter;
    '(f, section, ret) ← ihex_load_section malloc st f section;
    let image := updZ iter [section] image in
    if ret <? 0 then Some (image, numSections) else
    let numSections := numSections + 1 in
    if ret =? 1 then Some (image, numSections) else
    let iter := iter + 1 in
    if iter <? num_slots
    then load_sections_loop n malloc st f image iter numSections num_slots
    else Some (image, numSections)
  end.

(** The contents of the file, [None] if it cannot be opened. *)
Definition ihex_load_sections (malloc : Z -> bool) (st : stack) (contents : option (list Z))
    (image : list ihex_image_section_t) (num_slots : Z)
    : option (list ihex_image_section_t * Z) :=
  match contents with
  | None => Some (image, 0)
  | Some contents =>
    load_sections_loop (S (Z.to_nat num_slots)) malloc st (File contents 0 false) image 0 0
      num_slots
  end.

Definition ihex_unload_section (section : ihex_image_section_t) : ihex_image_section_t :=
  match sec_image section with
  | Some _ => Section_ 0 None 0
  | None => section
  end.
Definition ihex_unload_sections (image : list ihex_image_section_t) (num : Z)
    : option (list ihex_image_section_t) :=
  if lenZ image <? num then None else
  let sections := takeZ num image in
  Some (map ihex_unload_section sections ++ dropZ num image).
End Ihex.
Export Ihex.
