(* ===== verification/IhexProps.v ===== *)
(** * Properties of the Intel HEX reader

    A printed record is parsed back, and the sections of a printed file are loaded
    with their addresses and contents. *)

From S2P Require Import Prelude CommRx CommTx CommTxProps Ihex.

(** ** Printing *)

Definition hex_char_of (d : Z) : Z := if d <? 10 then 0x30 + d else 0x41 + (d - 10).
Definition hex2 (b : Z) : list Z := [hex_char_of (b / 16); hex_char_of (b mod 16)].
Definition hex4 (a : Z) : list Z := hex2 (a / 256) ++ hex2 (a mod 256).
Definition hexs (data : list Z) : list Z := flat_map hex2 data.
Definition sumZ (l : list Z) : Z := fold_right Z.add 0 l.

(** A record: its type, its address and its data. *)
Record record := Rec { rec_code : Z; rec_addr : Z; rec_data : list Z }.
Definition rec_cksum (r : record) : Z :=
  (- (lenZ (rec_data r) + rec_addr r / 256 + rec_addr r mod 256 + rec_code r
      + sumZ (rec_data r))) mod 256.
Definition print_record (r : record) : list Z :=
  0x3A :: hex2 (lenZ (rec_data r)) ++ hex4 (rec_addr r) ++ hex2 (rec_code r) ++
  hexs (rec_data r) ++ hex2 (rec_cksum r).

(** What fits in the line buffer. *)
Definition rec_ok (r : record) : Prop :=
  0 <= rec_code r < 256 /\ 0 <= rec_addr r < 65536 /\ Forall byte (rec_data r) /\
  lenZ (rec_data r) <= 249.

(** ** Scanning *)

Lemma hex_chars : forall b, 0 <= b < 256 ->
  scan_number (hex2 b) = Some b /\ Forall (fun c => 0x20 < c < 0x80) (hex2 b).
Proof.
  assert (forallb (fun b => bool_decide (scan_number (hex2 b) = Some b) &&
    forallb (fun c => (0x20 <? c) && (c <? 0x80)) (hex2 b)) (seqZ 0 256) = true) as H
    by (vm_compute; reflexivity).
  intros b Hb. rewrite forallb_forall in H. specialize (H b).
  rewrite andb_true_iff, forallb_forall in H.
  destruct H as [H1 H2]; [apply list_elem_of_In, elem_of_seqZ; lia|].
  split; [by apply bool_decide_eq_true_1 in H1|]. apply List.Forall_forall. intros c Hc.
  specialize (H2 c Hc). lia.
Qed.

Lemma hex_char_digit d :
  0 <= d < 16 -> hex_digit (hex_char_of d) = Some d /\ 0x30 <= hex_char_of d <= 0x46.
Proof.
  intros Hd. unfold hex_char_of, hex_digit.
  destruct (Z.ltb_spec d 10); (split; [|lia]).
  - rewrite (proj2 (Z.leb_le _ _)), (proj2 (Z.leb_le _ 57)) by lia. cbn [andb]. f_equal. lia.
  - rewrite (proj2 (Z.leb_gt _ 57)), andb_false_r by lia.
    rewrite (proj2 (Z.leb_le 65 _)), (proj2 (Z.leb_le _ 70)) by lia. cbn [andb]. f_equal. lia.
Qed.

Lemma hex_digits2 b s acc :
  0 <= b < 256 -> hex_digits (hex2 b ++ s) acc = hex_digits s (Some (default 0 acc * 256 + b)).
Proof.
  intros Hb. cbn [hex2 app hex_digits].
  destruct (hex_char_digit (b / 16)) as [-> _].
  { split; [apply Z.div_pos; lia|apply Z.div_lt_upper_bound; lia]. }
  destruct (hex_char_digit (b mod 16)) as [-> _]; [apply Z.mod_pos_bound; lia|].
  f_equal. f_equal. cbn [from_option default id]. pose proof (Z.div_mod b 16 ltac:(lia)). unfold id. lia.
Qed.

Lemma split_bytes a : 0 <= a < 65536 -> 0 <= a / 256 < 256 /\ 0 <= a mod 256 < 256.
Proof.
  intros Ha. split; [|apply Z.mod_pos_bound; lia].
  split; [apply Z.div_pos; lia|apply Z.div_lt_upper_bound; lia].
Qed.

Lemma hex4_number a : 0 <= a < 65536 -> scan_number (hex4 a) = Some a.
Proof.
  intros Ha. destruct (split_bytes a Ha) as [Hh Hl].
  assert (scan_number (hex4 a) = hex_digits (hex4 a) None) as ->.
  { unfold hex4, hex2. cbn [app scan_number scan_digits].
    destruct (hex_char_digit (a / 256 / 16)) as [_ ?].
    { split; [apply Z.div_pos; lia|apply Z.div_lt_upper_bound; lia]. }
    destruct (hex_char_digit ((a / 256) mod 16)) as [_ ?]; [apply Z.mod_pos_bound; lia|].
    rewrite (proj2 (Z.eqb_neq _ 0x2D)), (proj2 (Z.eqb_neq _ 0x2B)) by lia.
    rewrite (proj2 (Z.eqb_neq (hex_char_of ((a / 256) mod 16)) 0x78)) by lia.
    rewrite (proj2 (Z.eqb_neq (hex_char_of ((a / 256) mod 16)) 0x58)) by lia.
    by rewrite andb_false_r. }
  unfold hex4. rewrite hex_digits2 by done. rewrite <- (app_nil_r (hex2 (a mod 256))).
  rewrite hex_digits2 by done. cbn [default hex_digits]. f_equal. unfold id.
  pose proof (Z.div_mod a 256 ltac:(lia)). cbn [from_option]. unfold id. lia.
Qed.

(** The characters of a printed record are graphic characters. *)
Definition graphic (c : Z) : Prop := 0x20 < c < 0x80.

Lemma hexs_graphic data : Forall byte data -> Forall graphic (hexs data).
Proof.
  induction 1 as [|b data Hb _ IH]; [constructor|]. cbn [hexs flat_map]. apply Forall_app.
  split; [by apply hex_chars|done].
Qed.

Lemma hex4_graphic a : 0 <= a < 65536 -> Forall graphic (hex4 a).
Proof.
  intros Ha. destruct (split_bytes a Ha). apply Forall_app. split; by apply hex_chars.
Qed.

Lemma print_graphic r : rec_ok r -> Forall graphic (print_record r).
Proof.
  intros (Hc & Ha & Hd & Hl). unfold print_record. constructor; [done|].
  pose proof (lenZ_nonneg (rec_data r)). rewrite !Forall_app. split_and!.
  - apply hex_chars. lia.
  - by apply hex4_graphic.
  - by apply hex_chars.
  - by apply hexs_graphic.
  - apply hex_chars, Z.mod_pos_bound. lia.
Qed.

Lemma sscanf_hex_ok n s rest v :
  s <> [] -> Forall graphic s -> lenZ s = n -> scan_number s = Some v ->
  sscanf_hex n (s ++ rest) = Some (Some v).
Proof.
  intros Hne Hg Hl Hs. unfold sscanf_hex.
  assert (skip_spaces (s ++ rest) = s ++ rest) as ->.
  { destruct s as [|c s]; [done|]. cbn [app skip_spaces]. apply Forall_cons_iff in Hg as [Hc _].
    unfold isspace, graphic in *. by destruct (Z.eqb_spec c 0x20), (Z.leb_spec c 0x0D); try lia;
      rewrite ?andb_false_r. }
  assert (takeZ n (s ++ rest) = s) as E.
  { rewrite <- Hl. unfold takeZ, lenZ. rewrite Nat2Z.id. apply take_app_length. }
  destruct s as [|c s]; [done|]. cbn [app] in *. by rewrite E, Hs.
Qed.

(** ** Strings in a character array *)

(** The array holds the string: every tail of it is found at its place. *)
Definition holds (line text : list Z) : Prop :=
  forall p, 0 <= p <= lenZ text -> cstr line p = Some (dropZ p text).

Definition nonzero (c : Z) : Prop := c <> 0.
Lemma graphic_nonzero text : Forall graphic text -> Forall nonzero text.
Proof. apply Forall_impl. unfold graphic, nonzero. lia. Qed.

Lemma chars_to_nul_ok text rest :
  Forall nonzero text -> chars_to_nul (text ++ 0 :: rest) = Some text.
Proof.
  induction 1 as [|c text Hc _ IH]; [done|]. cbn [app chars_to_nul].
  rewrite (proj2 (Z.eqb_neq c 0)) by done. by rewrite IH.
Qed.

Lemma holds_app text rest : Forall nonzero text -> holds (text ++ 0 :: rest) text.
Proof.
  intros Hg p Hp. unfold cstr. rewrite (proj2 (Z.ltb_ge p 0)) by lia.
  assert (dropZ p (text ++ 0 :: rest) = dropZ p text ++ 0 :: rest) as ->.
  { unfold dropZ, lenZ in *. rewrite drop_app_le by lia. done. }
  apply chars_to_nul_ok. by apply Forall_drop.
Qed.

Lemma scan_ok cast n line text pre s rest v old :
  holds line text -> text = pre ++ s ++ rest -> s <> [] -> Forall graphic s -> lenZ s = n ->
  scan_number s = Some v -> scan cast n line (lenZ pre) old = Some (false, cast v).
Proof.
  intros Hh -> Hne Hg Hl Hs. unfold scan. rewrite Hh.
  2: { rewrite lenZ_app. pose proof (lenZ_nonneg pre). pose proof (lenZ_nonneg (s ++ rest)). lia. }
  assert (dropZ (lenZ pre) (pre ++ s ++ rest) = s ++ rest) as ->
    by (unfold dropZ, lenZ; rewrite Nat2Z.id; apply drop_app_length).
  cbn [mbind option_bind]. by rewrite (sscanf_hex_ok n s rest v).
Qed.

(** ** One record *)

Lemma parse_data_ok data : forall fuel line bytes text pre rest num sum,
  holds line text -> text = pre ++ hexs data ++ rest -> Forall byte data ->
  0 <= num -> num + lenZ data <= 255 -> lenZ bytes = 256 -> (length data <= fuel)%nat ->
  parse_bytes fuel line bytes (lenZ pre) num (num + lenZ data) sum =
    Some (false, updZ num data bytes, lenZ pre + 2 * lenZ data, num + lenZ data, sum + sumZ data).
Proof.
  induction data as [|b data IH]; intros fuel line bytes text pre rest num sum Hh Ht Hd Hn Hl Hb Hf.
  - change (lenZ []) with 0 in *. rewrite updZ_nil by lia. rewrite !Z.mul_0_r, !Z.add_0_r.
    change (sumZ []) with 0. rewrite ?Z.add_0_r.
    destruct fuel; cbn [parse_bytes]; by rewrite Z.eqb_refl.
  - apply Forall_cons_iff in Hd as [Hb' Hd]. rewrite lenZ_cons in *. pose proof (lenZ_nonneg data).
    destruct fuel as [|fuel]; cbn [length] in Hf; [lia|]. cbn [parse_bytes].
    rewrite (proj2 (Z.eqb_neq _ _)) by lia.
    destruct (nthZ_Some bytes num ltac:(lia)) as [old ->]. cbn [mbind option_bind].
    destruct (hex_chars b Hb') as [Hs Hg]. cbn [hexs flat_map] in Ht. rewrite <- app_assoc in Ht.
    rewrite (scan_ok u8 2 line text pre (hex2 b) (hexs data ++ rest) b) by done.
    cbn [mbind option_bind]. unfold u8. rewrite Z.mod_small by done.
    rewrite (proj2 (Z.leb_gt _ _)) by lia. rewrite app_assoc in Ht.
    specialize (IH fuel line (updZ num [b] bytes) text (pre ++ hex2 b) rest (num + 1) (sum + b)
      Hh Ht Hd ltac:(lia) ltac:(lia)).
    rewrite lenZ_app in IH. change (lenZ (hex2 b)) with 2 in IH.
    replace (num + (1 + lenZ data)) with (num + 1 + lenZ data) by lia.
    rewrite IH; [|rewrite lenZ_updZ; [done|lia|change (lenZ [b]) with 1; lia]|lia].
    rewrite updZ_cons by lia. change (sumZ (b :: data)) with (b + sumZ data). 
    replace (lenZ pre + 2 * (1 + lenZ data)) with (lenZ pre + 2 + 2 * lenZ data) by lia.
    by replace (sum + (b + sumZ data)) with (sum + b + sumZ data) by lia.
Qed.

Lemma hexs_length data : lenZ (hexs data) = 2 * lenZ data.
Proof.
  induction data as [|b data IH]; [done|]. cbn [hexs flat_map]. rewrite lenZ_app, lenZ_cons.
  change (lenZ (hex2 b)) with 2. unfold hexs in IH. lia.
Qed.

Lemma print_length r : lenZ (print_record r) = 11 + 2 * lenZ (rec_data r).
Proof.
  unfold print_record. rewrite lenZ_cons, !lenZ_app, hexs_length.
  change (lenZ (hex2 _)) with 2. change (lenZ (hex4 _)) with 4. lia.
Qed.

(** The sum of all bytes of a record, its checksum included, is a multiple of 256. *)
Lemma cksum_ok r sum :
  rec_ok r -> sum = lenZ (rec_data r) + rec_addr r / 256 + rec_addr r mod 256 + rec_code r
                    + sumZ (rec_data r) ->
  Z.land (Z.land sum 255 + Z.land (rec_cksum r) 255) 255 = 0.
Proof.
  intros Hr ->. unfold rec_cksum. set (x := _ + sumZ _). change 255 with (Z.ones 8).
  rewrite !Z.land_ones by lia. change (2 ^ 8) with 256. rewrite Z.mod_mod by lia.
  rewrite <- Z.add_mod by lia. by rewrite Z.add_opp_diag_r.
Qed.

Lemma small_s32 x : 0 <= x < 2147483648 -> s32 x = x.
Proof. intros Hx. unfold s32. rewrite Z.mod_small; lia. Qed.

Lemma land_byte x : byte x -> Z.land x 255 = x.
Proof. intros Hx. change 255 with (Z.ones 8). rewrite Z.land_ones by lia. by apply Z.mod_small. Qed.

(** The parts of a printed record, for each field the text in front and behind. *)
Lemma print_parts r :
  let d := rec_data r in let t := print_record r in
  let a := 0x3A :: hex2 (lenZ d) in
  let b := a ++ hex4 (rec_addr r) in let c := b ++ hex2 (rec_code r) in
  t = [0x3A] ++ hex2 (lenZ d) ++ (hex4 (rec_addr r) ++ hex2 (rec_code r) ++ hexs d ++ hex2 (rec_cksum r)) /\
  t = a ++ hex4 (rec_addr r) ++ (hex2 (rec_code r) ++ hexs d ++ hex2 (rec_cksum r)) /\
  t = b ++ hex2 (rec_code r) ++ (hexs d ++ hex2 (rec_cksum r)) /\
  t = c ++ hexs d ++ hex2 (rec_cksum r) /\
  t = (c ++ hexs d) ++ hex2 (rec_cksum r) ++ [].
Proof. cbv zeta. unfold print_record. rewrite !app_nil_r, <- !app_assoc. done. Qed.

(** The record in the line buffer. *)
Lemma parse_print r st line bytes addr code :
  rec_ok r -> lenZ bytes = 256 -> holds line (print_record r) -> nthZ line 0 = Some 0x3A ->
  parse_hex_line st line bytes addr code =
    Some (1, updZ 0 (rec_data r) bytes, rec_addr r, lenZ (rec_data r), rec_code r).
Proof.
  intros Hr Hb Hh H0. pose proof Hr as (Hc & Ha & Hd & Hl). pose proof (lenZ_nonneg (rec_data r)).
  destruct (print_parts r) as (E1 & E2 & E3 & E4 & E5). cbv zeta in *.
  destruct (hex_chars (lenZ (rec_data r)) ltac:(lia)) as [Hs1 Hg1].
  destruct (hex_chars (rec_code r) Hc) as [Hs3 Hg3].
  assert (byte (rec_cksum r)) as Hk by (unfold byte; apply Z.mod_pos_bound; lia).
  destruct (hex_chars _ Hk) as [Hs5 Hg5]. unfold parse_hex_line, strlen.
  rewrite H0, Hh by (rewrite print_length; lia). cbn [mbind option_bind].
  change (negb (0x3A =? 0x3A)) with false. cbv iota.
  change (dropZ 0 (print_record r)) with (print_record r).
  cbn [fmap option_fmap option_map mbind option_bind]. rewrite print_length.
  rewrite (proj2 (Z.ltb_ge _ 11)) by lia.
  assert (scan s32 2 line 1 (st_len st) = Some (false, lenZ (rec_data r))) as ->.
  { rewrite <- (small_s32 (lenZ (rec_data r))) by lia. by apply (scan_ok _ _ _ _ _ _ _ _ _ Hh E1). }
  cbn [mbind option_bind]. rewrite (proj2 (Z.ltb_ge _ (_ mod _))) by (rewrite Z.mod_small; lia).
  assert (scan s32 4 line 3 addr = Some (false, rec_addr r)) as ->.
  { rewrite <- (small_s32 (rec_addr r)) by lia.
    apply (scan_ok _ _ _ _ _ _ _ _ _ Hh E2); [done|by apply hex4_graphic|done|by apply hex4_number]. }
  cbn [mbind option_bind].
  assert (scan s32 2 line 7 code = Some (false, rec_code r)) as ->.
  { rewrite <- (small_s32 (rec_code r)) by lia. by apply (scan_ok _ _ _ _ _ _ _ _ _ Hh E3). }
  cbn [mbind option_bind].
  pose proof (parse_data_ok (rec_data r) 256 line bytes _ _ _ 0
    (Z.land (lenZ (rec_data r)) 255 + Z.land (Z.shiftr (rec_addr r) 8) 255 +
     Z.land (rec_addr r) 255 + Z.land (rec_code r) 255) Hh E4 Hd) as F.
  change (lenZ (_ ++ hex2 (rec_code r))) with 9 in F. rewrite Z.add_0_l in F.
  rewrite F by (unfold lenZ in *; lia). cbn [mbind option_bind]. clear F.
  match goal with |- context [scan s32 2 line ?p ?o] =>
    assert (scan s32 2 line p o = Some (false, rec_cksum r)) as -> end.
  { rewrite <- (small_s32 (rec_cksum r)) by (unfold byte in Hk; lia).
    rewrite <- hexs_length, <- (scan_ok _ _ _ _ _ _ _ _ (st_cksum st) Hh E5 ltac:(done) Hg5 eq_refl Hs5).
    by rewrite lenZ_app. }
  cbn [mbind option_bind]. rewrite cksum_ok; [done|done|].
  assert (Z.land (rec_addr r) 255 = rec_addr r mod 256 /\
          Z.land (Z.shiftr (rec_addr r) 8) 255 = rec_addr r / 256) as [-> ->].
  { change 255 with (Z.ones 8). rewrite !Z.land_ones, Z.shiftr_div_pow2 by lia.
    destruct (split_bytes _ Ha). change (2 ^ 8) with 256. split; [done|by apply Z.mod_small]. }
  rewrite !land_byte by (unfold byte; lia). lia.
Qed.

(** ** One line of a file *)

Lemma strip_last_ok c text x rest :
  Forall nonzero (text ++ [x]) ->
  strip_last c (text ++ x :: 0 :: rest) =
    Some (if x =? c then text ++ 0 :: 0 :: rest else text ++ x :: 0 :: rest).
Proof.
  intros Hnz. unfold strip_last, strlen.
  replace (text ++ x :: 0 :: rest) with ((text ++ [x]) ++ 0 :: rest) by by rewrite <- app_assoc.
  rewrite holds_app by (done || (pose proof (lenZ_nonneg (text ++ [x])); lia)).
  change (dropZ 0 (text ++ [x])) with (text ++ [x]).
  cbn [fmap option_fmap option_map mbind option_bind]. rewrite lenZ_app. change (lenZ [x]) with 1.
  replace (lenZ text + 1 - 1) with (lenZ text) by lia. rewrite <- app_assoc. cbn [app].
  rewrite nthZ_middle. cbn [mbind option_bind]. destruct (x =? c); [|done]. f_equal.
  unfold updZ. change (lenZ [0]) with 1. cbn [app]. f_equal.
  - unfold takeZ, lenZ. rewrite Nat2Z.id. apply take_app_length.
  - f_equal. replace (text ++ x :: 0 :: rest) with ((text ++ [x]) ++ 0 :: rest)
      by by rewrite <- app_assoc.
    unfold dropZ. replace (Z.to_nat (lenZ text + 1)) with (length (text ++ [x]))
      by (rewrite length_app; unfold lenZ; cbn [length]; lia). apply drop_app_length.
Qed.

(** The two line ends. *)
Definition eol (l : list Z) : Prop := l = [0x0A] \/ l = [0x0D; 0x0A].

Lemma take_line_ok n text e after :
  Forall graphic text -> eol e -> (length text + length e <= n)%nat ->
  take_line n (text ++ e ++ after) = text ++ e.
Proof.
  intros Hg He. revert n. induction Hg as [|c text Hc _ IH]; intros n Hn.
  - destruct He as [->| ->]; cbn [app length] in *; destruct n as [|[|n]]; try lia; done.
  - destruct n as [|n]; cbn [app length take_line] in *; [lia|]. unfold graphic in Hc.
    rewrite (proj2 (Z.eqb_neq c 0x0A)) by lia. by rewrite IH by lia.
Qed.

Lemma fgets_some line f s :
  take_line 511 (dropZ (f_pos f) (f_contents f)) = s -> s <> [] -> lenZ s + 1 <= lenZ line ->
  fgets line f =
    Some ((s ++ [0]) ++ dropZ (lenZ s + 1) line,
          File (f_contents f) (f_pos f + lenZ s)
            ((lenZ (f_contents f) <=? f_pos f + lenZ s) && (lenZ s <? 511) &&
             negb (List.last s 0 =? 0x0A))).
Proof.
  intros E Hne Hl. unfold fgets. rewrite E. destruct s as [|c s]; [done|].
  assert (lenZ ((c :: s) ++ [0]) = lenZ (c :: s) + 1) as El by (rewrite lenZ_app; done).
  pose proof (lenZ_nonneg s). rewrite memcpy_ok, takeZ_all by (rewrite ?El, ?lenZ_cons in *; lia).
  cbn [mbind option_bind]. do 2 f_equal. unfold updZ. by rewrite El.
Qed.

(** Reading a line leaves the text in the buffer and the position behind the line. *)
Lemma fgets_strip_ok before text e after line ef :
  Forall graphic text -> text <> [] -> eol e -> lenZ line = 512 -> lenZ text <= 509 ->
  exists line1 line2 rest,
    fgets line (File (before ++ text ++ e ++ after) (lenZ before) ef) =
      Some (line1, File (before ++ text ++ e ++ after) (lenZ (before ++ text ++ e)) false) /\
    strip_last 0x0A line1 = Some line2 /\
    strip_last 0x0D line2 = Some (text ++ 0 :: rest) /\ lenZ (text ++ 0 :: rest) = 512.
Proof.
  intros Hg Hne He Hl Ht.
  assert (1 <= lenZ e <= 2) as Hle by (destruct He as [->| ->]; done).
  assert (lenZ (text ++ e) = lenZ text + lenZ e) as Hte by apply lenZ_app.
  pose proof (lenZ_nonneg text). pose proof (graphic_nonzero _ Hg) as Hnz.
  assert (List.last (text ++ e) 0 = 0x0A) as Hlast
    by (destruct He as [->| ->]; [|change [13; 10] with ([13] ++ [10]); rewrite app_assoc];
        apply List.last_last).
  set (tail := dropZ (lenZ (text ++ e) + 1) line).
  assert (lenZ tail = 512 - lenZ (text ++ e) - 1) as Htail
    by (unfold tail; rewrite lenZ_dropZ; lia).
  assert (fgets line (File (before ++ text ++ e ++ after) (lenZ before) ef) =
    Some ((text ++ e) ++ 0 :: tail,
          File (before ++ text ++ e ++ after) (lenZ (before ++ text ++ e)) false)) as ->.
  { rewrite (fgets_some _ _ (text ++ e)).
    - cbn [f_pos f_contents]. rewrite Hlast, andb_false_r, <- app_assoc.
      by rewrite (lenZ_app before (text ++ e)).
    - cbn [f_pos f_contents].
      assert (dropZ (lenZ before) (before ++ text ++ e ++ after) = text ++ e ++ after) as ->
        by (unfold dropZ, lenZ; rewrite Nat2Z.id; apply drop_app_length).
      apply take_line_ok; try done. unfold lenZ in *. lia.
    - by destruct text.
    - lia. }
  destruct He as [-> | ->]; rewrite <- !app_assoc; cbn [app].
  - eexists _, (text ++ 0 :: 0 :: tail), (0 :: tail). split; [done|].
    rewrite strip_last_ok by (apply Forall_app; by repeat constructor). split; [done|].
    destruct text as [|x text _] using rev_ind; [done|]. rewrite <- !app_assoc. cbn [app].
    rewrite strip_last_ok by done. apply Forall_app in Hg as [_ Hx%Forall_cons_iff].
    destruct Hx as [Hx _]. unfold graphic in Hx. rewrite (proj2 (Z.eqb_neq x 0x0D)) by lia.
    split; [done|]. unfold lenZ in *. rewrite !length_app in *. cbn [length] in *. lia.
  - eexists _, (text ++ 0x0D :: 0 :: 0 :: tail), (0 :: 0 :: tail). split; [done|].
    change (text ++ 13 :: 10 :: 0 :: tail) with (text ++ [13] ++ 10 :: 0 :: tail).
    rewrite app_assoc, strip_last_ok
      by (rewrite <- app_assoc; apply Forall_app; by repeat constructor).
    rewrite <- app_assoc. split; [done|].
    rewrite strip_last_ok by (apply Forall_app; by repeat constructor). split; [done|].
    unfold lenZ in *. rewrite !length_app in *. cbn [length] in *. lia.
Qed.

(** a line of a file that holds a printed record and a line end is read and parsed:
    the result is 1, the data bytes, the address, the count and the type are those of
    the record, and the file is behind the line. *)
Theorem hex_record_roundtrip r e before after st line bytes addr code ef :
  rec_ok r -> eol e -> lenZ line = 512 -> lenZ bytes = 256 ->
  let contents := before ++ print_record r ++ e ++ after in
  exists line1 line2 line3 f,
    fgets line (File contents (lenZ before) ef) = Some (line1, f) /\
    f_pos f = lenZ before + lenZ (print_record r ++ e) /\
    strip_last 0x0A line1 = Some line2 /\ strip_last 0x0D line2 = Some line3 /\
    parse_hex_line st line3 bytes addr code =
      Some (1, updZ 0 (rec_data r) bytes, rec_addr r, lenZ (rec_data r), rec_code r).
Proof.
  intros Hr He Hl Hb contents. pose proof (print_graphic r Hr) as Hg. pose proof Hr as (_ & _ & _ & Hd).
  destruct (fgets_strip_ok before (print_record r) e after line ef) as (l1 & l2 & rest & E1 & E2 & E3 & _);
    try done; [rewrite print_length; lia|].
  exists l1, l2, (print_record r ++ 0 :: rest). eexists. split_and!; try done.
  - cbn [f_pos]. by rewrite lenZ_app.
  - apply parse_print; try done. apply holds_app. by apply graphic_nonzero.
Qed.

(** ** The loop over the lines of a section *)

Lemma load_line_record r e before after st s :
  rec_ok r -> eol e -> lenZ (ls_line s) = 512 -> lenZ (ls_bytes s) = 256 ->
  f_contents (ls_file s) = before ++ print_record r ++ e ++ after ->
  f_pos (ls_file s) = lenZ before ->
  exists line, lenZ line = 512 /\
  load_line st s = handle_record s line (lenZ before)
    (File (f_contents (ls_file s)) (lenZ (before ++ print_record r ++ e)) false)
    (updZ 0 (rec_data r) (ls_bytes s)) (rec_addr r) (lenZ (rec_data r)) (rec_code r).
Proof.
  intros Hr He Hl Hb Hc Hp. pose proof (print_graphic r Hr) as Hg. pose proof Hr as (_ & _ & _ & Hd).
  unfold load_line. destruct (ls_file s) as [c p ef]. cbn [f_contents f_pos] in *. subst c p.
  destruct (fgets_strip_ok before (print_record r) e after (updZ 0 [0] (ls_line s)) ef)
    as (l1 & l2 & rest & E1 & E2 & E3 & E4); try done.
  { rewrite lenZ_updZ; [done|lia|change (lenZ [0]) with 1; lia]. }
  { rewrite print_length. lia. }
  exists (print_record r ++ 0 :: rest). split; [done|].
  rewrite E1. cbn [mbind option_bind]. rewrite E2. cbn [mbind option_bind]. rewrite E3.
  cbn [mbind option_bind]. rewrite (parse_print r); try done. apply holds_app. by apply graphic_nonzero.
Qed.

(** Writing data into the image, and its bounds. *)
Definition write (image : Z -> Z) (r : record) : Z -> Z :=
  fun a => if (rec_addr r <=? a) && (a <? rec_addr r + lenZ (rec_data r))
           then default 0 (nthZ (rec_data r) (a - rec_addr r)) else image a.
Definition low (m : Z) (r : record) : Z :=
  match rec_data r with [] => m | _ => Z.min m (rec_addr r) end.
Definition high (m : Z) (r : record) : Z :=
  match rec_data r with [] => m | _ => Z.max m (rec_addr r + lenZ (rec_data r) - 1) end.

Lemma low_cons addr lo b data :
  low (if addr <? lo then addr else lo) (Rec 0 (addr + 1) data) = low lo (Rec 0 addr (b :: data)).
Proof. unfold low. cbn [rec_data rec_addr]. destruct data, (Z.ltb_spec addr lo); lia. Qed.
Lemma high_cons addr hi b data :
  high (if hi <? addr then addr else hi) (Rec 0 (addr + 1) data) = high hi (Rec 0 addr (b :: data)).
Proof.
  unfold high. cbn [rec_data rec_addr]. rewrite (lenZ_cons b). pose proof (lenZ_nonneg data).
  destruct data as [|x data], (Z.ltb_spec hi addr); rewrite ?lenZ_cons in *;
    change (lenZ []) with 0 in *; lia.
Qed.

Lemma copy_bytes_ok data : forall addr image lo hi,
  0 <= addr -> addr + lenZ data <= MAX_IHEX_SECTION_LEN ->
  exists image', copy_bytes data addr image lo hi =
      Some (Some (addr + lenZ data, image', low lo (Rec 0 addr data), high hi (Rec 0 addr data))) /\
    forall a, image' a = write image (Rec 0 addr data) a.
Proof.
  induction data as [|b data IH]; intros addr image lo hi Ha Hm.
  - exists image. cbn [copy_bytes]. change (lenZ []) with 0. rewrite Z.add_0_r. split; [done|].
    intros a. unfold write. cbn [rec_addr rec_data]. change (lenZ []) with 0.
    destruct (Z.leb_spec addr a), (Z.ltb_spec a (addr + 0)); try lia; done.
  - rewrite lenZ_cons in *. pose proof (lenZ_nonneg data). cbn [copy_bytes].
    rewrite (proj2 (Z.ltb_ge addr 0)), (proj2 (Z.leb_gt _ addr)), (proj2 (Z.ltb_ge _ (addr + 1))) by lia.
    cbn [orb]. set (im := fun a => if a =? addr then b else image a).
    destruct (IH (addr + 1) im (if addr <? lo then addr else lo) (if hi <? addr then addr else hi))
      as (image' & -> & Hi); [lia|lia|]. exists image'. split.
    + assert (addr + 1 + lenZ data = addr + (1 + lenZ data)) as -> by lia.
      by rewrite (low_cons addr lo b), (high_cons addr hi b).
    + intros a. rewrite Hi. unfold write, im. cbn [rec_addr rec_data]. rewrite lenZ_cons, nthZ_cons by lia.
      split_cmp; try lia; try done; do 2 f_equal; lia.
Qed.

(** ** The data records of a section *)

Definition data_rec (r : record) : Prop := rec_ok r /\ rec_code r = 0.
Definition print_line (e : list Z) (r : record) : list Z := print_record r ++ e.
Definition print_lines (e : list Z) (rs : list record) : list Z := flat_map (print_line e) rs.

Lemma write_ext rs : forall im im', (forall a, im a = im' a) ->
  forall a, fold_left write rs im a = fold_left write rs im' a.
Proof.
  induction rs as [|r rs IH]; intros im im' H a; [apply H|]. cbn [fold_left]. apply IH.
  intros b. unfold write. by rewrite H.
Qed.

(** The state [s] reads the file [contents] from [pos] on. *)
Definition reads (s : load_state) (contents : list Z) (pos : Z) : Prop :=
  ls_file s = File contents pos false /\ lenZ (ls_line s) = 512 /\ lenZ (ls_bytes s) = 256.

Lemma updZ_bytes r (bytes : list Z) :
  rec_ok r -> lenZ bytes = 256 ->
  lenZ (updZ 0 (rec_data r) bytes) = 256 /\
  takeZ (lenZ (rec_data r)) (updZ 0 (rec_data r) bytes) = rec_data r.
Proof.
  intros (_ & _ & _ & Hl) Hb. split; [rewrite lenZ_updZ; lia|]. unfold updZ.
  rewrite takeZ_0. cbn [app]. unfold takeZ, lenZ. rewrite Nat2Z.id. apply take_app_length.
Qed.

Section Lines.
Context (st : stack) (e : list Z) (He : eol e).

Lemma data_line_ok fuel s before r after :
  data_rec r -> reads s (before ++ print_line e r ++ after) (lenZ before) ->
  exists s', load_loop (S fuel) st s = load_loop fuel st s' /\
    reads s' (before ++ print_line e r ++ after) (lenZ (before ++ print_line e r)) /\
    (forall a, ls_image s' a = write (ls_image s) r a) /\
    ls_minaddr s' = low (ls_minaddr s) r /\ ls_maxaddr s' = high (ls_maxaddr s) r /\
    ls_alreadysetaddr s' = ls_alreadysetaddr s /\ ls_address s' = ls_address s.
Proof.
  intros [Hr Hcode] (Hf & Hl & Hb). cbn [load_loop]. rewrite Hf. cbn [f_eof].
  unfold print_line in *. rewrite <- app_assoc in Hf.
  destruct (load_line_record r e before after st s Hr He Hl Hb) as (line & Hline & E);
    [by rewrite Hf|by rewrite Hf|].
  rewrite E. unfold handle_record. rewrite Hcode. change (0 =? 0) with true. cbv iota.
  destruct (updZ_bytes r (ls_bytes s) Hr Hb) as [Hbl Hbt]. rewrite Hbt.
  destruct r as [code addr data]. cbn [rec_code rec_addr rec_data] in *. subst code.
  destruct Hr as (_ & Ha & _ & Hd). cbn [rec_addr rec_data] in *.
  destruct (copy_bytes_ok data addr (ls_image s) (ls_minaddr s) (ls_maxaddr s)) as (im & -> & Him);
    [lia|unfold MAX_IHEX_SECTION_LEN; lia|].
  cbn [mbind option_bind]. eexists. split; [reflexivity|].
  unfold reads. cbn [ls_file ls_line ls_bytes ls_image ls_minaddr ls_maxaddr ls_alreadysetaddr ls_address].
  rewrite Hf. cbn [f_contents]. rewrite <- !app_assoc. split_and!; try done.
Qed.

Lemma data_lines_ok rs : forall fuel s before after,
  Forall data_rec rs -> reads s (before ++ print_lines e rs ++ after) (lenZ before) ->
  exists s', load_loop (length rs + fuel) st s = load_loop fuel st s' /\
    reads s' (before ++ print_lines e rs ++ after) (lenZ (before ++ print_lines e rs)) /\
    (forall a, ls_image s' a = fold_left write rs (ls_image s) a) /\
    ls_minaddr s' = fold_left low rs (ls_minaddr s) /\
    ls_maxaddr s' = fold_left high rs (ls_maxaddr s) /\
    ls_alreadysetaddr s' = ls_alreadysetaddr s /\ ls_address s' = ls_address s.
Proof.
  induction rs as [|r rs IH]; intros fuel s before after Hrs Hs.
  - exists s. cbn [print_lines flat_map]. rewrite app_nil_r. by split_and!.
  - apply Forall_cons_iff in Hrs as [Hr Hrs]. cbn [print_lines flat_map] in *.
    rewrite <- app_assoc in Hs.
    destruct (data_line_ok (length rs + fuel) s before r (print_lines e rs ++ after) Hr Hs)
      as (s1 & E1 & Hs1 & Hi1 & Hlo1 & Hhi1 & Hset1 & Had1).
    rewrite (app_assoc before) in Hs1.
    destruct (IH fuel s1 (before ++ print_line e r) after Hrs Hs1)
      as (s2 & E2 & Hs2 & Hi2 & Hlo2 & Hhi2 & Hset2 & Had2).
    exists s2. cbn [length plus fold_left]. rewrite E1, E2. split; [done|].
    rewrite <- !app_assoc in *. fold (print_lines e rs). split_and!; try congruence.
    intros a. rewrite Hi2. by apply write_ext.
Qed.
End Lines.

(** ** Sections and files *)

(** A section to be printed: the upper half of its address and its data records. *)
Record firmware := Firmware { fw_high : Z; fw_records : list record }.
Definition fw_ok (x : firmware) : Prop :=
  0 <= fw_high x < 65536 /\ Forall data_rec (fw_records x) /\
  Exists (fun r => rec_data r <> []) (fw_records x).

Definition address_record (high : Z) : record := Rec 4 0 [high / 256; high mod 256].
Definition eof_record : record := Rec 1 0 [].
Definition print_section (e : list Z) (x : firmware) : list Z :=
  print_line e (address_record (fw_high x)) ++ print_lines e (fw_records x).
Definition print_file (e : list Z) (xs : list firmware) : list Z :=
  flat_map (print_section e) xs ++ print_line e eof_record.

(** The section the reader is to produce: the bytes from the lowest to the highest
    address, [0xFF] where no record has one; a later record overwrites an earlier one. *)
Definition fw_lo (x : firmware) : Z := fold_left low (fw_records x) 65536.
Definition fw_hi (x : firmware) : Z := fold_left high (fw_records x) 0.
Definition fw_image (x : firmware) : Z -> Z := fold_left write (fw_records x) (fun _ => 0xFF).
Definition section_of (x : firmware) : ihex_image_section_t :=
  let len := fw_hi x - fw_lo x + 1 in
  Section_ (fw_high x * 65536) (Some (map (fw_image x) (seqZ (fw_lo x) len))) len.

Lemma fold_bounds rs : forall m M,
  Forall data_rec rs -> 0 <= m -> M < 65784 ->
  0 <= fold_left low rs m <= m /\ M <= fold_left high rs M < 65784.
Proof.
  induction rs as [|r rs IH]; intros m M Hrs Hm HM; [cbn; lia|].
  apply Forall_cons_iff in Hrs as [[(_ & Ha & _ & Hl) _] Hrs]. cbn [fold_left].
  pose proof (lenZ_nonneg (rec_data r)).
  assert (0 <= low m r <= m /\ M <= high M r < 65784) as [? ?]
    by (unfold low, high; destruct (rec_data r); lia).
  destruct (IH (low m r) (high M r) Hrs); lia.
Qed.

Lemma fold_nonempty rs : forall m M,
  Forall data_rec rs -> 0 <= m -> M < 65784 -> Exists (fun r => rec_data r <> []) rs ->
  fold_left low rs m <= fold_left high rs M.
Proof.
  induction rs as [|r rs IH]; intros m M Hrs Hm HM Hex; [by inversion Hex|].
  apply Forall_cons_iff in Hrs as [Hr Hrs]. cbn [fold_left]. pose proof Hr as [(_ & Ha & _ & Hl) _].
  pose proof (lenZ_nonneg (rec_data r)).
  assert (0 <= low m r /\ high M r < 65784) as [? ?]
    by (unfold low, high; destruct (rec_data r); lia).
  apply Exists_cons in Hex as [Hne|Hex]; [|by apply IH].
  assert (low m r <= high M r).
  { unfold low, high. destruct (rec_data r) as [|x d]; [done|]. rewrite lenZ_cons in *.
    pose proof (lenZ_nonneg d). lia. }
  destruct (fold_bounds rs (low m r) (high M r) Hrs); lia.
Qed.

Lemma fw_bounds x : fw_ok x -> 0 <= fw_lo x <= fw_hi x /\ fw_hi x < 65784.
Proof.
  intros (_ & Hrs & Hex). unfold fw_lo, fw_hi.
  destruct (fold_bounds _ 65536 0 Hrs) as [? ?]; [lia|lia|].
  pose proof (fold_nonempty _ 65536 0 Hrs ltac:(lia) ltac:(lia) Hex). lia.
Qed.

Lemma address_record_ok high : 0 <= high < 65536 -> rec_ok (address_record high).
Proof.
  intros Hh. destruct (split_bytes high Hh). unfold rec_ok. split; [done|split; [done|split; [|done]]].
  by repeat (constructor; [done|]).
Qed.
Lemma eof_record_ok : rec_ok eof_record.
Proof. unfold rec_ok. by split_and!. Qed.

Lemma print_lines_length e rs : (length rs <= length (print_lines e rs))%nat.
Proof.
  induction rs as [|r rs IH]; [done|]. cbn [print_lines flat_map length].
  rewrite length_app. fold (print_lines e rs).
  assert (1 <= length (print_line e r))%nat by (cbn [print_line print_record app length]; lia). lia.
Qed.

Lemma high_address h :
  0 <= h < 65536 -> u32 (Z.lor (Z.shiftl (h mod 256) 16) (Z.shiftl (h / 256) 24)) = h * 65536.
Proof.
  intros Hh. destruct (split_bytes h Hh) as [H1 H2]. pose proof (Z.div_mod h 256 ltac:(lia)).
  rewrite (Z.shiftl_mul_pow2 _ 16) by lia. change (2 ^ 16) with 65536.
  rewrite lor_shiftl by (change (2 ^ 24) with 16777216; lia). change (2 ^ 24) with 16777216.
  unfold u32. rewrite Z.mod_small; lia.
Qed.

Section Files.
Context (malloc : Z -> bool) (st : stack) (e : list Z).
Context (Hmalloc : forall n, n <= MAX_IHEX_SECTION_LEN -> malloc n = true).
Context (He : eol e) (Hline : lenZ (st_line st) = 512) (Hbytes : lenZ (st_bytes st) = 256).

Lemma address_line_ok fuel s before high after :
  0 <= high < 65536 -> ls_alreadysetaddr s = false ->
  let contents := before ++ print_line e (address_record high) ++ after in
  reads s contents (lenZ before) ->
  exists s', load_loop (S fuel) st s = load_loop fuel st s' /\
    reads s' contents (lenZ (before ++ print_line e (address_record high))) /\
    ls_image s' = ls_image s /\ ls_minaddr s' = ls_minaddr s /\ ls_maxaddr s' = ls_maxaddr s /\
    ls_alreadysetaddr s' = true /\ ls_address s' = high * 65536.
Proof.
  intros Hh Hset contents (Hf & Hl & Hb). cbn [load_loop]. rewrite Hf. cbn [f_eof].
  unfold contents, print_line in *. rewrite <- app_assoc in Hf.
  pose proof (address_record_ok high Hh) as Hr.
  destruct (load_line_record _ e before after st s Hr He Hl Hb) as (line & Hline' & ->);
    [by rewrite Hf|by rewrite Hf|].
  unfold handle_record. cbn [rec_code address_record].
  change (4 =? 0) with false. change (4 =? 1) with false. change (4 =? 4) with true. cbv iota.
  rewrite Hset. destruct (updZ_bytes _ (ls_bytes s) Hr Hb) as [Hbl _].
  set (bs := updZ 0 _ _) in *.
  assert (nthZ bs 0 = Some (high / 256) /\ nthZ bs 1 = Some (high mod 256)) as [-> ->].
  { unfold bs. cbn [rec_data address_record]. assert (lenZ [high / 256; high mod 256] = 2) as H2 by done.
    rewrite !nthZ_updZ, H2 by lia. done. }
  cbn [mbind option_bind]. rewrite high_address by done. eexists. split; [reflexivity|].
  unfold reads. cbn [ls_file ls_line ls_bytes ls_image ls_minaddr ls_maxaddr ls_alreadysetaddr ls_address].
  rewrite Hf. cbn [f_contents]. rewrite <- !app_assoc. by split_and!.
Qed.

(** The line behind a section: the end of the file, or the address of the next one, in
    front of which the file is left. *)
Lemma last_line_ok fuel s before r after :
  r = eof_record \/ (exists high, 0 <= high < 65536 /\ r = address_record high) ->
  ls_alreadysetaddr s = true ->
  let contents := before ++ print_line e r ++ after in
  reads s contents (lenZ before) ->
  exists s', load_loop (S fuel) st s = Some (inl s') /\
    ls_file s' = File contents (lenZ (if rec_code r =? 1 then before ++ print_line e r else before)) false /\
    ls_image s' = ls_image s /\ ls_minaddr s' = ls_minaddr s /\ ls_maxaddr s' = ls_maxaddr s /\
    ls_address s' = ls_address s /\ ls_end s' = (rec_code r =? 1).
Proof.
  intros Hr Hset contents (Hf & Hl & Hb). cbn [load_loop]. rewrite Hf. cbn [f_eof].
  unfold contents, print_line in *. rewrite <- app_assoc in Hf.
  assert (rec_ok r) as Hok
    by (destruct Hr as [->|(h & Hh & ->)]; [apply eof_record_ok|by apply address_record_ok]).
  destruct (load_line_record _ e before after st s Hok He Hl Hb) as (line & Hline' & ->);
    [by rewrite Hf|by rewrite Hf|].
  unfold handle_record. rewrite Hset, Hf. cbn [f_contents].
  destruct Hr as [->|(h & Hh & ->)]; cbn [rec_code eof_record address_record].
  - change (1 =? 0) with false. change (1 =? 1) with true. cbv iota. cbn [mbind option_bind].
    eexists. split; [reflexivity|].
    cbn [ls_file ls_image ls_minaddr ls_maxaddr ls_address ls_end f_contents].
    by rewrite <- ?app_assoc.
  - change (4 =? 0) with false. change (4 =? 1) with false. change (4 =? 4) with true. cbv iota.
    cbn [mbind option_bind]. eexists. split; [reflexivity|].
    cbn [ls_file ls_image ls_minaddr ls_maxaddr ls_address ls_end f_contents].
    by rewrite <- ?app_assoc.
Qed.

Lemma load_section_ok before x r after section0 :
  fw_ok x -> r = eof_record \/ (exists high, 0 <= high < 65536 /\ r = address_record high) ->
  let contents := before ++ print_section e x ++ print_line e r ++ after in
  let behind := before ++ print_section e x in
  ihex_load_section malloc st (File contents (lenZ before) false) section0 =
    Some (File contents (lenZ (if rec_code r =? 1 then behind ++ print_line e r else behind)) false,
          section_of x, if rec_code r =? 1 then 1 else 0).
Proof.
  intros Hx Hr contents behind. pose proof Hx as (Hh & Hrs & _). pose proof (fw_bounds x Hx) as [Hb1 Hb2].
  assert (contents = before ++ print_line e (address_record (fw_high x)) ++
    print_lines e (fw_records x) ++ print_line e r ++ after) as Ec
    by (unfold contents, print_section; by rewrite <- !app_assoc).
  unfold ihex_load_section. rewrite Hmalloc by lia. cbn [negb f_contents]. clearbody contents. subst contents.
  set (s0 := LoadState _ _ _ _ _ _ _ _ _ _ _).
  match goal with |- context [load_loop (S (length ?c))] =>
    assert (exists fuel, S (length c) = S (length (fw_records x) + S fuel)) as [fuel ->] end.
  { match goal with |- exists fuel, S (length ?c) = _ =>
      exists (length c - length (fw_records x) - 1)%nat;
      assert (length (fw_records x) + 1 <= length c)%nat; [|lia] end.
    rewrite !length_app. pose proof (print_lines_length e (fw_records x)).
    assert (1 <= length (print_line e r))%nat by (cbn [print_line print_record app length]; lia). lia. }
  unfold behind, print_section.
  destruct (address_line_ok (length (fw_records x) + S fuel) s0 before (fw_high x)
    (print_lines e (fw_records x) ++ print_line e r ++ after) Hh eq_refl)
    as (s1 & -> & Hs1 & Hi1 & Hlo1 & Hhi1 & Hset1 & Had1); [by split_and!|].
  rewrite (app_assoc before) in Hs1.
  destruct (data_lines_ok st e He (fw_records x) (S fuel) s1 _ (print_line e r ++ after) Hrs Hs1)
    as (s2 & -> & Hs2 & Hi2 & Hlo2 & Hhi2 & Hset2 & Had2).
  rewrite (app_assoc (before ++ _)) in Hs2.
  destruct (last_line_ok fuel s2 _ r after Hr ltac:(congruence) Hs2)
    as (s3 & -> & Hf3 & Hi3 & Hlo3 & Hhi3 & Had3 & Hend3).
  cbn [mbind option_bind].
  assert (ls_minaddr s3 = fw_lo x) as -> by (rewrite Hlo3, Hlo2, Hlo1; done).
  assert (ls_maxaddr s3 = fw_hi x) as -> by (rewrite Hhi3, Hhi2, Hhi1; done).
  assert (u32 (fw_hi x - fw_lo x + 1) = fw_hi x - fw_lo x + 1) as ->
    by (unfold u32; apply Z.mod_small; lia).
  rewrite Hmalloc by (unfold MAX_IHEX_SECTION_LEN; lia). rewrite (proj2 (Z.eqb_neq _ 0)) by lia.
  cbn [andb negb]. rewrite (proj2 (Z.ltb_ge _ 0)), (proj2 (Z.ltb_ge MAX_IHEX_SECTION_LEN _))
    by (unfold MAX_IHEX_SECTION_LEN; lia). cbn [orb]. rewrite Hend3, Had3, Had2, Had1, Hf3.
  unfold section_of. rewrite <- !app_assoc. do 4 f_equal. f_equal. apply map_ext. intros a.
  rewrite Hi3, Hi2. unfold fw_image. apply write_ext. intros b. by rewrite Hi1.
Qed.

Lemma load_sections_ok xs : forall n before x image iter num num_slots,
  Forall fw_ok (x :: xs) -> (length (x :: xs) <= n)%nat -> 0 <= iter ->
  iter + lenZ (x :: xs) <= num_slots -> num_slots <= lenZ image ->
  load_sections_loop n malloc st (File (before ++ print_file e (x :: xs)) (lenZ before) false)
      image iter num num_slots =
    Some (updZ iter (map section_of (x :: xs)) image, num + lenZ (x :: xs)).
Proof.
  induction xs as [|y xs IH]; intros n before x image iter num num_slots Hok Hn Hi Hslots Himage;
    apply Forall_cons_iff in Hok as [Hx Hxs]; rewrite !lenZ_cons in *;
    (destruct n as [|n]; cbn [length] in Hn; [lia|]); cbn [load_sections_loop].
  - change (lenZ []) with 0 in *. destruct (nthZ_Some image iter ltac:(lia)) as [section ->].
    cbn [mbind option_bind]. unfold print_file. cbn [flat_map]. rewrite app_nil_r.
    pose proof (load_section_ok before x eof_record [] section Hx (or_introl eq_refl)) as E.
    rewrite app_nil_r in E. cbv zeta in E. rewrite E. by cbn [mbind option_bind].
  - pose proof (lenZ_nonneg xs). destruct (nthZ_Some image iter ltac:(lia)) as [section ->].
    cbn [mbind option_bind]. apply Forall_cons_iff in Hxs as Hy. destruct Hy as [[Hy _] _].
    pose proof (load_section_ok before x (address_record (fw_high y))
      (print_lines e (fw_records y) ++ flat_map (print_section e) xs ++ print_line e eof_record)
      section Hx (or_intror (ex_intro _ _ (conj Hy eq_refl)))) as E. cbv zeta in E.
    assert (print_file e (x :: y :: xs) = print_section e x ++ print_file e (y :: xs)) as ->
      by (unfold print_file; cbn [flat_map]; by rewrite <- !app_assoc).
    assert (print_file e (y :: xs) = print_line e (address_record (fw_high y)) ++
      print_lines e (fw_records y) ++ flat_map (print_section e) xs ++ print_line e eof_record) as Ey
      by (unfold print_file, print_section; cbn [flat_map]; by rewrite <- !app_assoc).
    rewrite Ey, E, <- Ey. cbn [mbind option_bind rec_code address_record].
    change (4 =? 1) with false. cbv iota. change (0 <? 0) with false. change (0 =? 1) with false.
    cbv iota. rewrite (proj2 (Z.ltb_lt _ num_slots)) by lia. rewrite app_assoc.
    rewrite (IH n (before ++ print_section e x) y); try done.
    + cbn [map]. rewrite updZ_cons; [f_equal; f_equal; rewrite !lenZ_cons; lia|lia|].
      rewrite lenZ_cons, lenZ_map. lia.
    + cbn [length] in *. lia.
    + lia.
    + rewrite lenZ_cons. lia.
    + rewrite lenZ_updZ; change (lenZ [section_of x]) with 1; lia.
Qed.

(** C35: a printed firmware file, any number of sections with their address records, data
    records in any order and overlap and an end-of-file record, is loaded section by
    section: with slots for all of them and the memory available, the reader returns
    their number and fills the first slots with their addresses, lengths and contents,
    and leaves the others alone. *)
Theorem ihex_load_sections_spec x xs image num_slots :
  Forall fw_ok (x :: xs) -> lenZ (x :: xs) <= num_slots -> num_slots <= lenZ image ->
  ihex_load_sections malloc st (Some (print_file e (x :: xs))) image num_slots =
    Some (map section_of (x :: xs) ++ dropZ (lenZ (x :: xs)) image, lenZ (x :: xs)).
Proof.
  intros Hok Hs Hi. unfold ihex_load_sections.
  rewrite (load_sections_ok xs _ [] x) by (done || (unfold lenZ in *; lia)).
  do 2 f_equal. unfold updZ. rewrite takeZ_0. cbn [app]. f_equal. by rewrite lenZ_map.
Qed.
End Files.

(** ** Deviations *)

Definition zero_stack : stack := Stack (repeat 0 512) (repeat 0 256) 0 0 0 0.
Definition empty_slot : ihex_image_section_t := Section_ 0 None 0.

(** A file that ends behind a data record: the next turn reads no line, and looks at the
    character in front of the line buffer. *)
Example ihex_missing_end :
  ihex_load_sections (fun _ => true) zero_stack (Some (print_line [0x0A] (Rec 0 0 [1; 2; 3])))
    [empty_slot] 1 = None.
Proof. by vm_compute. Qed.

(** A file without data: the length of the section wraps.  When the memory can be had
    the copy runs out of the buffer; otherwise the length stays in the slot. *)
Example ihex_no_data :
  ihex_load_sections (fun _ => true) zero_stack (Some (print_line [0x0A] eof_record))
    [empty_slot] 1 = None /\
  ihex_load_sections (fun n => n <? 1000000) zero_stack (Some (print_line [0x0A] eof_record))
    [empty_slot] 1 = Some ([Section_ 0 None 4294901761], 0).
Proof. by vm_compute. Qed.

(** At the end of the string [sscanf] returns -1, which is taken for success: a line of
    a colon and spaces is a valid record made of whatever the variables held. *)
Example ihex_spaces_accepted :
  parse_hex_line zero_stack (0x3A :: repeat 0x20 12 ++ [0]) (repeat 0 256) 0 0 =
    Some (1, repeat 0 256, 0, 0, 0).
Proof. by vm_compute. Qed.

(** A length of "-1" passes the length check and lets the data bytes run past the end
    of the line. *)
Example ihex_negative_length :
  parse_hex_line zero_stack (0x3A :: 0x2D :: 0x31 :: repeat 0x30 6 ++ [0x41; 0x41] ++ repeat 0 501)
    (repeat 0 256) 0 0 = None.
Proof. by vm_compute. Qed.
