(* ===== verification/LibWitnesses.v ===== *)
(** * Witnesses for the utility components

    The theorems about the linked list, the serial port, the byte order tables, the I/O
    configuration and the Intel HEX reader at concrete inputs. *)

From stdpp Require Import gmap.
From S2P Require Import Prelude CommRx CommTx LinkedList SerialPort SerialProps.
From S2P Require Import DataIds Layouts DataSets DataSetsProps ImxDefaults Ihex IhexProps.
#[local] Open Scope Z_scope.

(** ** Linked list *)

Definition demo_heap : gmap Z linked_list_node_t :=
  <[4 := Node 0 0]> (<[8 := Node 0 0]> (<[12 := Node 0 0]> ∅)).
Definition demo_ops : list ll_op := [OpHead 8; OpHead 4; OpBefore 8 12; OpRemove 4].

Lemma linked_list_witness :
  exists h' ll', ll_run demo_ops demo_heap (linkedListClear (LinkedList 1 2)) = Some (h', ll') /\
    dlist h' ll' [12; 8].
Proof.
  apply (linked_list_refines_sequence demo_ops demo_heap (LinkedList 1 2) [12; 8]).
  - decided.
  - intros x Hx. cbn in Hx. rewrite !elem_of_cons, elem_of_nil in Hx.
    destruct Hx as [->|[->|[->|[]]]]; (split; [lia|reflexivity]).
  - reflexivity.
Defined.

(** ** Serial port *)

Definition queue_read (n t : Z) (s : serial_port_t (list Z))
    : serial_port_t (list Z) * list Z * Z :=
  let q := sp_dev s in let k := Z.min n (lenZ q) in
  (set_dev (dropZ k q) s, takeZ k q, k).
Definition queue_write (bs : list Z) (s : serial_port_t (list Z)) : serial_port_t (list Z) * Z :=
  (set_dev (sp_dev s ++ bs) s, lenZ bs).
Definition queue_fns : serial_fns (list Z) :=
  SerialFns (list Z) None None (Some queue_read) None (Some queue_write) None None None None None None.
Definition queue_port (q : list Z) : serial_port_t (list Z) := SerialPort 1 (repeat 0 64) 0 0 0 q.

Lemma serial_read_line_witness :
  exists s' buf' r,
    serialPortReadLineTimeout queue_fns (Some (queue_port [1; 2; 13; 10; 3])) (Some (repeat 0 16))
      16 0 = Some (Some s', Some buf', r) /\
    lenZ buf' = 16 /\ -1 <= r /\ (r = 0 \/ r + 1 < 16).
Proof.
  apply (serialPortReadLineTimeout_safe queue_fns queue_read (queue_port [1; 2; 13; 10; 3])
    (repeat 0 16) 0).
  - reflexivity.
  - intros n t s Hn. unfold queue_read. pose proof (lenZ_nonneg (sp_dev s)).
    rewrite lenZ_takeZ. lia.
Defined.

Lemma queue_loopback :
  loopback queue_fns (fun q => q) (fun bs q => q ++ bs) (fun q => dropZ 1 q).
Proof.
  split.
  - exists queue_write. by split.
  - exists queue_read. split; [done|]. intros t s x q E. unfold queue_read. rewrite E.
    rewrite lenZ_cons. pose proof (lenZ_nonneg q). by rewrite Z.min_l by lia.
  - done.
  - by intros d x q ->.
Qed.

Lemma serial_roundtrip_witness :
  exists s1 s2 buf',
    serialPortWriteAscii queue_fns (Some (queue_port [])) (Some [73; 78; 70; 79]) 4 =
      Some (Some s1, 10) /\
    serialPortReadAsciiTimeout queue_fns (Some s1) (Some (repeat 0 16)) 16 0 =
      Some (Some s2, Some buf', Some 0, 8) /\
    nthZ buf' 0 = Some 0x24 /\ subZ 1 4 buf' = [73; 78; 70; 79] /\ sp_dev s2 = [].
Proof.
  apply (serial_ascii_roundtrip queue_fns (fun q => q) (fun bs q => q ++ bs) (fun q => dropZ 1 q)
    queue_loopback (queue_port []) [73; 78; 70; 79] (repeat 0 16) 0).
  - done.
  - reflexivity.
  - repeat constructor; lia.
  - done.
  - done.
  - done.
Defined.

(** ** Byte order *)

(** A time of week, a diagnostic text of eight characters and a count, in a part that
    starts behind the first member. *)
Definition demo_pre : list field := [Word [1; 2; 3; 4]].
Definition demo_part : list field :=
  [Dbl [1; 2; 3; 4] [5; 6; 7; 8]; Str [[65; 66; 67; 68]; [69; 70; 71; 72]]; Word [9; 10; 11; 12]].

Lemma byte_order_witness :
  exists d1 d2,
    flipEndianess32 (bytes demo_part) 0 20 = Some d1 /\
    flipDoubles d1 20 4 [4] 1 = Some d2 /\
    flipStrings d2 20 4 [12; 8] 2 =
      Some [8; 7; 6; 5; 4; 3; 2; 1; 65; 66; 67; 68; 69; 70; 71; 72; 12; 11; 10; 9].
Proof.
  apply (byte_order_conversion demo_pre demo_part [] [4] [(12, 8)]).
  - repeat constructor; done.
  - done.
  - reflexivity.
  - reflexivity.
Defined.

Lemma double_tables_witness :
  exists offs, getDoubleOffsets DID_INS_1 = Some (lenZ offs, offs) /\
    Permutation offs (doubles_of ins_1_t) /\ Forall (fun o => 0 <= o < 32768) offs.
Proof.
  apply (double_tables_exact DID_INS_1 ins_1_t). unfold documented.
  repeat (first [left; reflexivity|right]).
Defined.

(** ** I/O configuration *)

Definition demo_platform : Z := Z.lor PLATFORM_CFG_TYPE_RUG3_G2 (Z.shiftl 5 8).
Lemma io_config_witness :
  let r := imxPlatformConfigToFlashCfgIoConfig 0xFFFFFFFF demo_platform in
  IO_CONFIG_GPS1_SOURCE r = IO_CONFIG_GPS_SOURCE_SER2 /\
  IO_CONFIG_GPS2_SOURCE r = IO_CONFIG_GPS_SOURCE_SER0.
Proof.
  destruct (io_config_spec 0xFFFFFFFF demo_platform) as (_ & _ & H).
  destruct (H IO_CONFIG_GPS_SOURCE_SER2 IO_CONFIG_GPS_SOURCE_SER0 eq_refl) as [_ H2].
  apply H2. right. left. reflexivity.
Defined.

(** ** Intel HEX *)

Definition demo_rec : record := Rec 0 0x1F0 [1; 2; 254; 255].
Lemma demo_rec_ok : rec_ok demo_rec.
Proof. repeat split; try done. repeat (constructor; [done|]). constructor. Qed.

Lemma hex_record_witness :
  exists line1 line2 line3 f,
    fgets (repeat 0 512) (File ([0x2A] ++ print_record demo_rec ++ [0x0A] ++ [0x3A]) 1 false) =
      Some (line1, f) /\
    f_pos f = 1 + 20 /\
    strip_last 0x0A line1 = Some line2 /\ strip_last 0x0D line2 = Some line3 /\
    parse_hex_line zero_stack line3 (repeat 0 256) 7 7 =
      Some (1, [1; 2; 254; 255] ++ repeat 0 252, 0x1F0, 4, 0).
Proof.
  apply (hex_record_roundtrip demo_rec [0x0A] [0x2A] [0x3A] zero_stack (repeat 0 512)
    (repeat 0 256) 7 7 false).
  - exact demo_rec_ok.
  - by left.
  - reflexivity.
  - reflexivity.
Defined.

Definition demo_firmware : list firmware :=
  [Firmware 0x0800 [Rec 0 2 [3; 4]; Rec 0 0 [1; 2]]; Firmware 0x0801 [Rec 0 0x10 [5]; Rec 0 0x12 [6]]].

Lemma ihex_load_sections_witness :
  ihex_load_sections (fun _ => true) zero_stack (Some (print_file [0x0D; 0x0A] demo_firmware))
    (repeat empty_slot 3) 3 =
  Some ([Section_ 0x08000000 (Some [1; 2; 3; 4]) 4; Section_ 0x08010000 (Some [5; 255; 6]) 3;
         empty_slot], 2).
Proof.
  apply (ihex_load_sections_spec (fun _ => true) zero_stack [0x0D; 0x0A] (fun _ _ => eq_refl)
    (or_intror eq_refl) eq_refl eq_refl (Firmware 0x0800 [Rec 0 2 [3; 4]; Rec 0 0 [1; 2]])
    [Firmware 0x0801 [Rec 0 0x10 [5]; Rec 0 0x12 [6]]] (repeat empty_slot 3) 3).
  - assert (forall a d, 0 <= a < 65536 -> Forall byte d -> lenZ d <= 249 -> data_rec (Rec 0 a d)) as R
      by (intros a d Ha Hd Hl; repeat split; try done; cbn; lia).
    assert (forall x, 0 <= x < 256 -> byte x) as B by done.
    repeat constructor; try done; apply R; try done; repeat constructor; done.
  - done.
  - done.
Defined.
