(* ===== verification/NmeaText.v ===== *)
(** * Text of NMEA sentences (src/src/protocol_nmea.cpp)

    The fields of sentences: printing them into a buffer of a given size, with the checksum
    at the end, and reading them one after the other.  A buffer is the list of its bytes; a
    sentence to be read is a C string, the list of the characters before its terminating
    zero, and a pointer into it is what follows.  A function has no result when it would
    read or write outside of its buffer. *)

From Stdlib Require Import String.
From S2P Require Import Prelude Printf CommRx CommTx.
#[local] Open Scope Z_scope.

Module NmeaText.

(** ** Printing *)

(** [vsnprintf(buf, size, ...)] at a position of a buffer. *)
Definition vsnprintf (buf : list Z) (at_ size : Z) (s : list Z) : option (list Z * Z) :=
  let out := snprintf size s in
  buf ← memcpy buf at_ out (lenZ out); Some (buf, lenZ s).

(** The number of characters the text has, also when they do not fit. *)
Definition ssnprintf (buf : list Z) (at_ bufSize : Z) (s : list Z) : option (list Z * Z) :=
  if bufSize <=? 0 then Some (buf, 0) else vsnprintf buf at_ bufSize s.

Definition nmea_sprint (buf : list Z) (bufSize offset : Z) (s : list Z) : option (list Z * Z) :=
  let bufSize := bufSize - offset in
  if bufSize <=? 0 then Some (buf, offset) else
  '(buf, l) ← vsnprintf buf offset bufSize s; Some (buf, offset + l).

(** Zero is an empty field. *)
Definition nmea_print_u32 (buf : list Z) (bufSize offset : Z) (precision : nat) (value : Z)
    : option (list Z * Z) :=
  let bufSize := bufSize - offset in
  if bufSize <=? 0 then Some (buf, offset) else
  if negb (value =? 0) then
    '(buf, l) ← ssnprintf buf offset bufSize (0x2C :: dec_text precision value); Some (buf, offset + l)
  else buf ← memcpy buf offset [0x2C] 1; Some (buf, offset + 1).

(** The parameter is unsigned, and printed as a [long]. *)
Definition nmea_print_i32 (buf : list Z) (bufSize offset : Z) (precision : nat) (value : Z)
    : option (list Z * Z) :=
  let bufSize := bufSize - offset in
  if bufSize <=? 0 then Some (buf, offset) else
  if negb (value =? 0) then
    '(buf, l) ← ssnprintf buf offset bufSize (0x2C :: int_text precision value); Some (buf, offset + l)
  else buf ← memcpy buf offset [0x2C] 1; Some (buf, offset + 1).

Definition nmea_compute_checksum (str : list Z) : Z := fold_left Z.lxor str 0.

Definition nmea_sprint_footer (a : list Z) (aSize n : Z) : option (list Z * Z) :=
  body ← take_exact (Z.max 0 (n - 1)) (dropZ 1 a);
  '(a, l) ← ssnprintf a n (aSize - n) (0x2A :: hex_text 2 (nmea_compute_checksum body) ++ [0x0D; 0x0A]);
  Some (a, n + l).

(** ** Reading *)

Fixpoint ASCII_find_next_field (str : list Z) : list Z :=
  match str with
  | [] => []
  | c :: r =>
    if (c =? 0) || (c =? 0x2A) then str
    else if c =? 0x2C then r
    else ASCII_find_next_field r
  end.

Definition ASCII_to_u8 (ptr : list Z) : Z * list Z := (u8 (atoi ptr), ASCII_find_next_field ptr).
Definition ASCII_to_u16 (ptr : list Z) : Z * list Z := (u16 (atoi ptr), ASCII_find_next_field ptr).
Definition ASCII_to_u32 (ptr : list Z) : Z * list Z := (u32 (atoi ptr), ASCII_find_next_field ptr).
Definition ASCII_to_i32 (ptr : list Z) : Z * list Z := (atoi ptr, ASCII_find_next_field ptr).

(** [v] is the uninitialised array. *)
Definition ASCII_to_ver4u8 (v ptr : list Z) : list Z * list Z :=
  (map u8 (assign (sscanf ptr [Cu 0; Lit 0x2E; Cu 0; Lit 0x2E; Cu 0; Lit 0x2E; Cu 0]) v),
   ASCII_find_next_field ptr).

Definition ASCII_to_char_array (dst ptr : list Z) (max_len : Z) : option (list Z * list Z) :=
  let ptr2 := ASCII_find_next_field ptr in
  let len := Z.max 0 (Z.min max_len (lenZ ptr - lenZ ptr2) - 1) in
  dst ← memcpy dst 0 (takeZ len ptr ++ [0]) (len + 1);
  Some (dst, ptr2).

(** The character at a pointer. *)
Definition char_at (ptr : list Z) : Z := hd 0 ptr.

(** ** Sentences *)

(** A sentence: its body, between the dollar sign and the star, and its checksum. *)
Definition footer (body : list Z) : list Z :=
  0x2A :: hex_text 2 (nmea_compute_checksum body) ++ [0x0D; 0x0A].
Definition sentence (body : list Z) : list Z := 0x24 :: body ++ footer body.

(** Fields behind the name of a sentence. *)
Definition fields_text (fields : list (list Z)) : list Z := concat (map (cons 0x2C) fields).

Definition plain (c : Z) : Prop := c <> 0 /\ c <> 0x2A /\ c <> 0x2C.

Lemma next_field f rest : Forall plain f -> ASCII_find_next_field (f ++ 0x2C :: rest) = rest.
Proof.
  induction 1 as [|c f (H1 & H2 & H3) Hf IH]; [done|]. cbn [app ASCII_find_next_field].
  rewrite (proj2 (Z.eqb_neq _ _) H1), (proj2 (Z.eqb_neq _ _) H2), (proj2 (Z.eqb_neq _ _) H3). exact IH.
Qed.

Lemma next_field_star f rest : Forall plain f ->
  ASCII_find_next_field (f ++ 0x2A :: rest) = 0x2A :: rest.
Proof.
  induction 1 as [|c f (H1 & H2 & H3) Hf IH]; [done|]. cbn [app ASCII_find_next_field].
  rewrite (proj2 (Z.eqb_neq _ _) H1), (proj2 (Z.eqb_neq _ _) H2), (proj2 (Z.eqb_neq _ _) H3). exact IH.
Qed.

Lemma digits_plain l : Forall (fun c => isdigit c = true) l -> Forall plain l.
Proof. apply Forall_impl. unfold isdigit, plain. intros c Hc. lia. Qed.

Lemma dec_text_plain w x : Forall plain (dec_text w x).
Proof. apply digits_plain, dec_fixed_digits. Qed.

Lemma int_text_plain w x : Forall plain (int_text w x).
Proof.
  unfold int_text. destruct (x <? 0); [|apply dec_text_plain].
  apply Forall_cons_2; [unfold plain; lia|apply dec_text_plain].
Qed.

(** ** What is printed when it fits *)

Lemma vsnprintf_fits pre rest size s : lenZ s < size -> lenZ s < lenZ rest ->
  vsnprintf (pre ++ rest) (lenZ pre) size s = Some (pre ++ s ++ 0 :: dropZ (lenZ s + 1) rest, lenZ s).
Proof.
  intros Hs Hr. pose proof (lenZ_nonneg s). pose proof (lenZ_nonneg pre).
  unfold vsnprintf, snprintf. rewrite takeZ_all by lia.
  assert (lenZ (s ++ [0]) = lenZ s + 1) as E by (rewrite lenZ_app; done).
  rewrite memcpy_ok by (rewrite ?E, ?lenZ_app; lia). cbn [mbind option_bind].
  rewrite takeZ_all by lia.
  assert (pre ++ rest = pre ++ takeZ (lenZ s + 1) rest ++ dropZ (lenZ s + 1) rest) as ->
    by (by rewrite takeZ_dropZ).
  rewrite updZ_middle; [by rewrite <- app_assoc|]. rewrite E, lenZ_takeZ. lia.
Qed.

Lemma ssnprintf_fits pre rest size s : 0 < size -> lenZ s < size -> lenZ s < lenZ rest ->
  ssnprintf (pre ++ rest) (lenZ pre) size s = Some (pre ++ s ++ 0 :: dropZ (lenZ s + 1) rest, lenZ s).
Proof.
  intros H Hs Hr. unfold ssnprintf. rewrite (proj2 (Z.leb_gt size 0)) by lia. by apply vsnprintf_fits.
Qed.

Lemma nmea_sprint_fits pre rest size s : lenZ pre + lenZ s < size -> lenZ s < lenZ rest ->
  nmea_sprint (pre ++ rest) size (lenZ pre) s =
  Some (pre ++ s ++ 0 :: dropZ (lenZ s + 1) rest, lenZ pre + lenZ s).
Proof.
  intros Hs Hr. pose proof (lenZ_nonneg s). unfold nmea_sprint.
  rewrite (proj2 (Z.leb_gt _ 0)) by lia. by rewrite vsnprintf_fits by lia.
Qed.

(** The footer, behind a body that is complete. *)
Lemma footer_fits body rest size : lenZ (sentence body) < size -> lenZ (footer body) < lenZ rest ->
  nmea_sprint_footer ((0x24 :: body) ++ rest) size (1 + lenZ body) =
  Some (sentence body ++ 0 :: dropZ (lenZ (footer body) + 1) rest, lenZ (sentence body)).
Proof.
  intros Hs Hr. unfold nmea_sprint_footer. pose proof (lenZ_nonneg body). pose proof (lenZ_nonneg rest).
  replace (Z.max 0 (1 + lenZ body - 1)) with (lenZ body) by lia.
  change (dropZ 1 ((0x24 :: body) ++ rest)) with (body ++ rest).
  rewrite take_exact_ok by (rewrite lenZ_app; lia). cbn [mbind option_bind].
  assert (takeZ (lenZ body) (body ++ rest) = body) as -> by apply takeZ_app_len.
  fold (footer body). replace (1 + lenZ body) with (lenZ (0x24 :: body)) by (rewrite lenZ_cons; lia).
  unfold sentence in *. rewrite lenZ_cons, lenZ_app in Hs. pose proof (lenZ_nonneg (footer body)).
  rewrite ssnprintf_fits by (rewrite ?lenZ_cons; lia). cbn [mbind option_bind].
  rewrite !lenZ_cons, lenZ_app. do 2 f_equal; [|lia]. cbn [app]. by rewrite <- app_assoc.
Qed.

(** A sentence that is printed at once. *)
Lemma sentence_printed body buf size : lenZ (sentence body) < size <= lenZ buf ->
  ('(a, n) ← ssnprintf buf 0 size (0x24 :: body); nmea_sprint_footer a size n) =
  Some (sentence body ++ 0 :: dropZ (lenZ (sentence body) + 1) buf, lenZ (sentence body)).
Proof.
  intros Hs. pose proof (lenZ_nonneg (footer body)). pose proof (lenZ_nonneg body).
  assert (lenZ (sentence body) = 1 + lenZ body + lenZ (footer body)) as E
    by (unfold sentence; rewrite lenZ_cons, lenZ_app; lia).
  assert (3 <= lenZ (footer body)) as Hf.
  { unfold footer. rewrite lenZ_cons, lenZ_app. change (lenZ [0x0D; 0x0A]) with 2.
    pose proof (lenZ_nonneg (hex_text 2 (nmea_compute_checksum body))). lia. }
  change buf with ([] ++ buf) at 1. change 0 with (lenZ (@nil Z)) at 1.
  rewrite ssnprintf_fits by (rewrite ?lenZ_cons; lia). cbn [mbind option_bind app].
  change (0x24 :: body ++ ?l) with ((0x24 :: body) ++ l). rewrite lenZ_cons.
  rewrite footer_fits; [|lia|rewrite lenZ_cons, lenZ_dropZ; lia]. do 4 f_equal.
  rewrite E. list_ext.
Qed.

Lemma sentence_long n body : n <= lenZ body -> (lenZ (sentence body) <? n + 4) = false.
Proof.
  intros H. apply Z.ltb_ge. unfold sentence, footer. rewrite lenZ_cons, lenZ_app, lenZ_cons, lenZ_app.
  change (lenZ [0x0D; 0x0A]) with 2. pose proof (lenZ_nonneg (hex_text 2 (nmea_compute_checksum body))). lia.
Qed.

Lemma text_app l rest : Forall (fun c => c <> 0) l -> text (l ++ 0 :: rest) = l.
Proof.
  induction 1 as [|c l Hc Hl IH]; [done|]. cbn [app text]. by rewrite (proj2 (Z.eqb_neq c 0) Hc), IH.
Qed.

Lemma nonzero_plain l : Forall plain l -> Forall (fun c => c <> 0) l.
Proof. apply Forall_impl. by intros c (Hc & _). Qed.

Lemma hex_fixed_nonzero n x : Forall (fun c => c <> 0) (hex_fixed n x).
Proof.
  revert x. induction n as [|n IH]; intros x; [constructor|]. cbn [hex_fixed]. apply Forall_app_2; [apply IH|].
  apply Forall_cons_2; [|constructor]. unfold upper_digit. pose proof (Z.mod_pos_bound x 16 ltac:(lia)).
  destruct (_ <? _); lia.
Qed.

Lemma sentence_nonzero body : Forall (fun c => c <> 0) body -> Forall (fun c => c <> 0) (sentence body).
Proof.
  intros Hb. unfold sentence, footer. apply Forall_cons_2; [done|]. apply Forall_app_2; [done|].
  apply Forall_cons_2; [done|]. apply Forall_app_2; [apply hex_fixed_nonzero|]. by repeat apply Forall_cons_2.
Qed.

Lemma fields_nonzero fields : Forall (Forall (fun c => c <> 0)) fields -> Forall (fun c => c <> 0) (fields_text fields).
Proof.
  unfold fields_text. induction 1 as [|f fields Hf Hfs IH]; [constructor|]. cbn [map concat].
  apply Forall_app_2; [by apply Forall_cons_2|done].
Qed.

End NmeaText.
Export NmeaText.
