(* ===== verification/NmeaInfo.v ===== *)
(** * Device information as a sentence (src/src/protocol_nmea.cpp)

    [nmea_dev_info] and [nmea_parse_info], and the proof that what the first prints is what
    the second reads. *)

From Stdlib Require Import String.
From S2P Require Import Prelude Printf CommRx CommTx Layouts DataSets NmeaText.
#[local] Open Scope string_scope.
#[local] Open Scope list_scope.
#[local] Open Scope Z_scope.

Module NmeaInfo.

(** The members of [dev_info_t]; the strings are their arrays. *)
Record info_t := Info {
  reserved : Z; i_hardwareType : Z; serialNumber : Z; i_hardwareVer : list Z; firmwareVer : list Z;
  buildNumber : Z; protocolVer : list Z; repoRevision : Z; manufacturer : list Z; buildType : Z;
  i_buildYear : Z; buildMonth : Z; buildDay : Z; buildHour : Z; buildMinute : Z; buildSecond : Z;
  buildMillisecond : Z; addInfo : list Z
}.

(** [%s] of an array, whose terminating zero must be there. *)
Definition c_string (l : list Z) : option (list Z) := if bool_decide (0 ∈ l) then Some (text l) else None.

Definition version_text (v : list Z) : list Z :=
  match v with
  | [a; b; c; d] =>
    int_text 0 a ++ 0x2E :: int_text 0 b ++ 0x2E :: int_text 0 c ++ 0x2E :: int_text 0 d
  | _ => []
  end.

(** The fields that the format prints. *)
Definition info_fields (i : info_t) (maker add : list Z) : list (list Z) :=
  [ int_text 0 (s32 (serialNumber i));
    version_text (i_hardwareVer i);
    version_text (firmwareVer i);
    int_text 0 (s32 (buildNumber i));
    version_text (protocolVer i);
    int_text 0 (s32 (repoRevision i));
    maker;
    int_text 4 (i_buildYear i + 2000) ++ 0x2D :: int_text 2 (buildMonth i) ++ 0x2D :: int_text 2 (buildDay i);
    int_text 2 (buildHour i) ++ 0x3A :: int_text 2 (buildMinute i) ++ 0x3A :: int_text 2 (buildSecond i)
      ++ 0x2E :: int_text 2 (buildMillisecond i);
    add;
    int_text 0 (i_hardwareType i);
    int_text 0 (reserved i);
    [if buildType i =? 0 then 0x20 else buildType i] ].

Definition nmea_dev_info (a : list Z) (aSize : Z) (info : info_t) : option (list Z * Z) :=
  maker ← c_string (manufacturer info);
  add ← c_string (addInfo info);
  '(a, n) ← ssnprintf a 0 aSize (chars "$INFO" ++ fields_text (info_fields info maker add));
  nmea_sprint_footer a aSize n.

(** The members the hardware type is derived from. *)
Definition populate (i : info_t) : option info_t :=
  d ← devInfoPopulateMissingHardware (DevInfo (i_hardwareType i) (i_hardwareVer i) (i_buildYear i));
  Some (Info (reserved i) (hardwareType d) (serialNumber i) (i_hardwareVer i) (firmwareVer i)
          (buildNumber i) (protocolVer i) (repoRevision i) (manufacturer i) (buildType i) (i_buildYear i)
          (buildMonth i) (buildDay i) (buildHour i) (buildMinute i) (buildSecond i) (buildMillisecond i)
          (addInfo i)).

(** [stack] gives the uninitialised variables of each conversion. *)
Definition nmea_parse_info (stack : Z -> list Z) (info : info_t) (a : list Z) : option info_t :=
  if lenZ a <? 6 then None else
  let ptr := dropZ 6 a in
  let '(sn, ptr) := ASCII_to_u32 ptr in
  let '(hw, ptr) := ASCII_to_ver4u8 (stack 0) ptr in
  let '(fw, ptr) := ASCII_to_ver4u8 (stack 1) ptr in
  let '(bn, ptr) := ASCII_to_u32 ptr in
  let '(pv, ptr) := ASCII_to_ver4u8 (stack 2) ptr in
  let '(repo, ptr) := ASCII_to_u32 ptr in
  '(maker, ptr) ← ASCII_to_char_array (manufacturer info) ptr DEVINFO_MANUFACTURER_STRLEN;
  let date := assign (sscanf ptr [Cd 4; Lit 0x2D; Cu 2; Lit 0x2D; Cu 2]) (stack 3) in
  year ← nthZ date 0; month ← nthZ date 1; day ← nthZ date 2;
  let year := u32 year in
  let year := u8 (if 2000 <=? year then year - 2000 else year) in
  let ptr := ASCII_find_next_field ptr in
  let time := assign (sscanf ptr [Cu 2; Lit 0x3A; Cu 2; Lit 0x3A; Cu 3; Lit 0x2E; Cu 2]) (stack 4) in
  hour ← nthZ time 0; minute ← nthZ time 1; second ← nthZ time 2; ms ← nthZ time 3;
  let ptr := ASCII_find_next_field ptr in
  '(add, ptr) ← ASCII_to_char_array (addInfo info) ptr DEVINFO_ADDINFO_STRLEN;
  let '(type, ptr) := ASCII_to_u8 ptr in
  let '(res, ptr) := ASCII_to_u16 ptr in
  let build := if u8 (char_at ptr) =? 0 then 0x20 else u8 (char_at ptr) in
  populate (Info res type sn hw fw bn pv repo maker build year (u8 month) (u8 day) (u8 hour)
              (u8 minute) (u8 second) (u8 ms) add).

End NmeaInfo.
Export NmeaInfo.

Module NmeaInfoProps.

Definition version_ok (v : list Z) : Prop := lenZ v = 4 /\ Forall byte v.

(** A string in an array of 24 characters, without characters that end a field. *)
Definition name_ok (l : list Z) : Prop := lenZ l = 24 /\ 0 ∈ l /\ Forall plain (text l).

Record info_ok (i : info_t) : Prop := {
  ok_reserved : 0 <= reserved i < 65536; ok_type : 0 < i_hardwareType i < 256;
  ok_serial : 0 <= serialNumber i < 4294967296; ok_build : 0 <= buildNumber i < 4294967296;
  ok_repo : 0 <= repoRevision i < 4294967296;
  ok_hw : version_ok (i_hardwareVer i); ok_fw : version_ok (firmwareVer i);
  ok_proto : version_ok (protocolVer i);
  ok_maker : name_ok (manufacturer i); ok_add : name_ok (addInfo i); ok_btype : byte (buildType i);
  ok_year : byte (i_buildYear i); ok_month : 0 <= buildMonth i < 100; ok_day : 0 <= buildDay i < 100;
  ok_hour : 0 <= buildHour i < 100; ok_minute : 0 <= buildMinute i < 100; ok_second : byte (buildSecond i);
  ok_ms : 0 <= buildMillisecond i < 100
}.

(** The same information: the arrays agree up to the end of the string, and a build type
    of zero is a space. *)
Record same_info (i j : info_t) : Prop := {
  eq_numbers : (reserved i, i_hardwareType i, serialNumber i, buildNumber i, repoRevision i) =
    (reserved j, i_hardwareType j, serialNumber j, buildNumber j, repoRevision j);
  eq_versions : (i_hardwareVer i, firmwareVer i, protocolVer i) =
    (i_hardwareVer j, firmwareVer j, protocolVer j);
  eq_date : (i_buildYear i, buildMonth i, buildDay i) = (i_buildYear j, buildMonth j, buildDay j);
  eq_time : (buildHour i, buildMinute i, buildSecond i, buildMillisecond i) =
    (buildHour j, buildMinute j, buildSecond j, buildMillisecond j);
  eq_maker : text (manufacturer i) = text (manufacturer j);
  eq_add : text (addInfo i) = text (addInfo j);
  eq_btype : buildType j = if buildType i =? 0 then 0x20 else buildType i
}.

(** ** One field *)

Lemma u32_s32 x : 0 <= x < 4294967296 -> u32 (s32 x) = x.
Proof. intros H. unfold u32, s32. zlia. Qed.

Lemma s32_range x : -2147483648 <= s32 x < 2147483648.
Proof. unfold s32. zlia. Qed.

Lemma next_int w x rest : ASCII_find_next_field (int_text w x ++ 0x2C :: rest) = rest.
Proof. apply next_field, int_text_plain. Qed.

Lemma atoi_field x rest : -2147483648 <= x < 2147483648 -> atoi (int_text 0 x ++ 0x2C :: rest) = x.
Proof. intros H. by apply atoi_int_text. Qed.

Lemma field_u32 x rest : 0 <= x < 4294967296 ->
  ASCII_to_u32 (int_text 0 (s32 x) ++ 0x2C :: rest) = (x, rest).
Proof.
  intros H. unfold ASCII_to_u32. rewrite atoi_field by apply s32_range. by rewrite next_int, u32_s32.
Qed.

Lemma field_u16 x rest : 0 <= x < 65536 -> ASCII_to_u16 (int_text 0 x ++ 0x2C :: rest) = (x, rest).
Proof.
  intros H. unfold ASCII_to_u16. rewrite atoi_field by lia. rewrite next_int. unfold u16.
  by rewrite Z.mod_small by lia.
Qed.

Lemma field_u8 x rest : byte x -> ASCII_to_u8 (int_text 0 x ++ 0x2C :: rest) = (x, rest).
Proof.
  intros H. unfold byte in H. unfold ASCII_to_u8. rewrite atoi_field by lia. rewrite next_int. unfold u8.
  by rewrite Z.mod_small by lia.
Qed.

Lemma int_text_dec w x : 0 <= x -> int_text w x = dec_text w x.
Proof. intros H. unfold int_text. by rewrite (proj2 (Z.ltb_ge x 0)) by lia. Qed.

(** A number of a format with a width. *)
Lemma scan_width w n x rest : 0 <= x < 10 ^ Z.of_nat n -> (1 <= n)%nat -> (w <= n <= 20)%nat ->
  w = n \/ no_digit rest -> scan_int n (int_text w x ++ rest) = Some (x, rest).
Proof.
  intros Hx Hn Hw Hr. rewrite int_text_dec by lia.
  assert (10 ^ Z.of_nat n <= 10 ^ 20) by (apply Z.pow_le_mono_r; lia).
  pose proof (length_dec_text w x n Hn Hx). apply scan_dec; [lia|lia|].
  destruct Hr as [->|Hr]; [left|by right]. unfold dec_text in *. rewrite length_dec_fixed in *. lia.
Qed.

Lemma sscanf_u x l format : 0 <= x < 4294967296 -> no_digit l ->
  sscanf (int_text 0 x ++ l) (Cu 0 :: format) = x :: sscanf l format.
Proof.
  intros Hx Hl. cbn [sscanf]. rewrite scan_int_text; [by rewrite to_uint_small|lia| |done].
  rewrite length_app. lia.
Qed.

Lemma sscanf_uw w n x l format : 0 <= x < 10 ^ Z.of_nat n -> (1 <= n <= 9)%nat -> (w <= n)%nat ->
  w = n \/ no_digit l -> sscanf (int_text w x ++ l) (Cu n :: format) = x :: sscanf l format.
Proof.
  intros Hx Hn Hw Hl. assert (10 ^ Z.of_nat n <= 10 ^ 9) by (apply Z.pow_le_mono_r; lia).
  destruct n as [|n]; [lia|]. cbn [sscanf]. rewrite scan_width by (done || lia). by rewrite to_uint_small by lia.
Qed.

Lemma sscanf_dw n x l format : 0 <= x < 10 ^ Z.of_nat n -> (1 <= n <= 9)%nat ->
  sscanf (int_text n x ++ l) (Cd n :: format) = x :: sscanf l format.
Proof.
  intros Hx Hn. assert (10 ^ Z.of_nat n <= 10 ^ 9) by (apply Z.pow_le_mono_r; lia).
  destruct n as [|n]; [lia|]. cbn [sscanf]. rewrite scan_width by (lia || by left).
  by rewrite to_int_small by lia.
Qed.

Lemma sscanf_lit c l format : sscanf (c :: l) (Lit c :: format) = sscanf l format.
Proof. cbn [sscanf]. by rewrite Z.eqb_refl. Qed.

Lemma map_u8 v : Forall byte v -> map u8 v = v.
Proof.
  induction 1 as [|x v Hx Hv IH]; [done|]. cbn. rewrite IH. unfold u8, byte in *. by rewrite Z.mod_small.
Qed.

Lemma version_plain v : Forall plain (version_text v).
Proof.
  assert (plain 0x2E) as Hd by (unfold plain; lia).
  unfold version_text. repeat case_match; try constructor.
  repeat (apply Forall_app_2 || apply Forall_cons_2 || apply int_text_plain || exact Hd).
Qed.

Lemma field_version stack v rest : version_ok v -> (length stack <= 4)%nat ->
  ASCII_to_ver4u8 stack (version_text v ++ 0x2C :: rest) = (v, rest).
Proof.
  intros [Hl Hv] Hs. unfold ASCII_to_ver4u8. rewrite next_field by apply version_plain. f_equal.
  destruct v as [|a [|b [|c [|d [|e v]]]]]; try done.
  2:{ rewrite !lenZ_cons in Hl. pose proof (lenZ_nonneg v). lia. }
  assert (Forall byte [a; b; c; d]) as Hb by done. rewrite !Forall_cons_iff in Hv. unfold byte in Hv.
  destruct Hv as (Ha & Hb' & Hc & Hd & _). unfold version_text. repeat (rewrite <- app_assoc; cbn [app]).
  repeat (first [rewrite sscanf_u; [|lia|done]|rewrite sscanf_lit]). cbn [sscanf]. unfold assign.
  rewrite map_app, map_u8 by done. change (length [a; b; c; d]) with 4%nat.
  by rewrite drop_ge, app_nil_r by lia.
Qed.

(** A string is copied up to the end of its field. *)
Lemma field_name dst l rest : lenZ dst = 24 -> name_ok l -> exists dst',
  ASCII_to_char_array dst (text l ++ 0x2C :: rest) 24 = Some (dst', rest) /\ text dst' = text l.
Proof.
  intros Hd (Hl & H0 & Hp). unfold ASCII_to_char_array. rewrite next_field by done.
  pose proof (lenZ_nonneg (text l)). pose proof (lenZ_nonneg rest).
  assert (lenZ (text l) < 24) as Ht.
  { rewrite <- Hl. clear -H0. induction l as [|c l IH]; [by apply not_elem_of_nil in H0|]. cbn [text].
    rewrite lenZ_cons. pose proof (lenZ_nonneg l). destruct (Z.eqb_spec c 0) as [->|Hne]; [rewrite lenZ_nil; lia|].
    rewrite lenZ_cons. apply elem_of_cons in H0 as [|H0]; [congruence|]. specialize (IH H0). lia. }
  rewrite lenZ_app, lenZ_cons.
  replace (Z.max 0 (Z.min 24 (lenZ (text l) + (1 + lenZ rest) - lenZ rest) - 1)) with (lenZ (text l)) by lia.
  assert (takeZ (lenZ (text l)) (text l ++ 0x2C :: rest) = text l) as ->
    by apply takeZ_app_len.
  assert (lenZ (text l ++ [0]) = lenZ (text l) + 1) as E by (rewrite lenZ_app; done).
  rewrite memcpy_ok by (rewrite ?E; lia). cbn [mbind option_bind]. eexists. split; [done|].
  rewrite takeZ_all by lia. unfold updZ. rewrite takeZ_0. cbn [app]. rewrite <- app_assoc. by apply text_app, nonzero_plain.
Qed.

Lemma field_date stack y m d rest : byte y -> 0 <= m < 100 -> 0 <= d < 100 ->
  let f := int_text 4 (y + 2000) ++ 0x2D :: int_text 2 m ++ 0x2D :: int_text 2 d in
  let date := assign (sscanf (f ++ 0x2C :: rest) [Cd 4; Lit 0x2D; Cu 2; Lit 0x2D; Cu 2]) stack in
  (nthZ date 0 = Some (y + 2000) /\ nthZ date 1 = Some m /\ nthZ date 2 = Some d) /\
  ASCII_find_next_field (f ++ 0x2C :: rest) = rest.
Proof.
  intros Hy Hm Hd f. unfold byte in Hy. split.
  - unfold f. repeat (rewrite <- app_assoc; cbn [app]). rewrite (sscanf_dw 4) by (lia || (cbn; lia)).
    rewrite sscanf_lit, (sscanf_uw 2 2) by (lia || by left). rewrite sscanf_lit, (sscanf_uw 2 2) by (lia || by left).
    done.
  - apply next_field. assert (plain 0x2D) as Hp by (unfold plain; lia). unfold f.
    repeat (apply Forall_app_2 || apply Forall_cons_2 || apply int_text_plain || exact Hp).
Qed.

Lemma field_time stack h m s ms rest : 0 <= h < 100 -> 0 <= m < 100 -> byte s -> 0 <= ms < 100 ->
  let f := int_text 2 h ++ 0x3A :: int_text 2 m ++ 0x3A :: int_text 2 s ++ 0x2E :: int_text 2 ms in
  let time := assign (sscanf (f ++ 0x2C :: rest) [Cu 2; Lit 0x3A; Cu 2; Lit 0x3A; Cu 3; Lit 0x2E; Cu 2]) stack in
  (nthZ time 0 = Some h /\ nthZ time 1 = Some m /\ nthZ time 2 = Some s /\ nthZ time 3 = Some ms) /\
  ASCII_find_next_field (f ++ 0x2C :: rest) = rest.
Proof.
  intros Hh Hm Hs Hms f. unfold byte in Hs. split.
  - unfold f. repeat (rewrite <- app_assoc; cbn [app]). rewrite (sscanf_uw 2 2) by (lia || by left).
    rewrite sscanf_lit, (sscanf_uw 2 2) by (lia || by left). rewrite sscanf_lit, (sscanf_uw 2 3) by (lia || by right).
    rewrite sscanf_lit, (sscanf_uw 2 2) by (lia || by left). done.
  - apply next_field. assert (plain 0x3A /\ plain 0x2E) as [Hp Hq] by (unfold plain; lia). unfold f.
    repeat (apply Forall_app_2 || apply Forall_cons_2 || apply int_text_plain || exact Hp || exact Hq).
Qed.

(** ** The sentence *)

Definition info_body (i : info_t) : list Z :=
  chars "INFO" ++ fields_text (info_fields i (text (manufacturer i)) (text (addInfo i))).

Lemma info_nonzero i : info_ok i -> Forall (fun c => c <> 0) (info_body i).
Proof.
  intros Hi. unfold info_body. apply Forall_app_2; [by repeat apply Forall_cons_2|]. apply fields_nonzero.
  assert (plain 0x2D /\ plain 0x3A /\ plain 0x2E) as (Hp & Hq & Hr) by (unfold plain; lia).
  pose proof (ok_maker _ Hi) as (_ & _ & Hm). pose proof (ok_add _ Hi) as (_ & _ & Ha).
  unfold info_fields. repeat apply Forall_cons_2; try apply Forall_nil_2; try (destruct (_ =? 0) eqn:E; lia);
    apply nonzero_plain;
    repeat (apply Forall_app_2 || apply Forall_cons_2 || apply int_text_plain || apply version_plain || assumption).
Qed.

Lemma c_string_ok l : name_ok l -> c_string l = Some (text l).
Proof. intros (_ & H0 & _). unfold c_string. by rewrite bool_decide_eq_true_2. Qed.

Lemma info_printed i buf size : info_ok i -> lenZ (sentence (info_body i)) < size <= lenZ buf ->
  exists buf', nmea_dev_info buf size i = Some (buf', lenZ (sentence (info_body i))) /\
    text buf' = sentence (info_body i).
Proof.
  intros Hi Hs. eexists. split.
  - unfold nmea_dev_info. rewrite (c_string_ok _ (ok_maker _ Hi)), (c_string_ok _ (ok_add _ Hi)).
    exact (sentence_printed (info_body i) buf size Hs).
  - apply text_app, sentence_nonzero, info_nonzero, Hi.
Qed.

Lemma populate_known i : 0 < i_hardwareType i -> populate i = Some i.
Proof.
  intros H. unfold populate, devInfoPopulateMissingHardware. cbn [hardwareType].
  unfold IS_HARDWARE_TYPE_UNKNOWN. rewrite (proj2 (Z.eqb_neq _ 0)) by lia. by destruct i.
Qed.

Lemma fields_cons f fs k : fields_text (f :: fs) ++ k = 0x2C :: f ++ fields_text fs ++ k.
Proof. unfold fields_text. cbn [map concat]. by rewrite <- app_assoc. Qed.

Lemma info_start i f fs k : chars "INFO" ++ fields_text (f :: fs) = i ->
  dropZ 6 (0x24 :: i ++ k) = f ++ fields_text fs ++ k.
Proof. intros <-. rewrite <- app_assoc, fields_cons. reflexivity. Qed.

(** The fields are read one after the other. *)
Lemma info_read stack i0 i : info_ok i -> lenZ (manufacturer i0) = 24 -> lenZ (addInfo i0) = 24 ->
  (forall k, length (stack k) <= 4)%nat ->
  exists i', nmea_parse_info stack i0 (sentence (info_body i)) = Some i' /\ same_info i i'.
Proof.
  intros Hi Hm Ha Hst. unfold nmea_parse_info.
  rewrite (sentence_long 2) by (unfold info_body; rewrite lenZ_app; change (lenZ (chars "INFO")) with 4;
    match goal with |- context [4 + lenZ ?l] => pose proof (lenZ_nonneg l) end; lia).
  unfold sentence.
  erewrite info_start by (unfold info_body, info_fields; reflexivity).
  rewrite fields_cons, field_u32 by apply Hi. cbv iota beta.
  rewrite fields_cons, field_version by (apply Hi || apply Hst). cbv iota beta.
  rewrite fields_cons, field_version by (apply Hi || apply Hst). cbv iota beta.
  rewrite fields_cons, field_u32 by apply Hi. cbv iota beta.
  rewrite fields_cons, field_version by (apply Hi || apply Hst). cbv iota beta.
  rewrite fields_cons, field_u32 by apply Hi. cbv iota beta. rewrite fields_cons.
  match goal with |- context [ASCII_to_char_array _ (_ ++ 0x2C :: ?r) _] =>
    destruct (field_name _ _ r Hm (ok_maker _ Hi)) as (mk & Emk & Tmk) end.
  unfold DEVINFO_MANUFACTURER_STRLEN. rewrite Emk. cbn [mbind option_bind]. rewrite fields_cons.
  match goal with |- context [sscanf (_ ++ 0x2C :: ?r) _] =>
    destruct (field_date (stack 3) _ _ _ r (ok_year _ Hi) (ok_month _ Hi) (ok_day _ Hi))
      as ((Ey & Emo & Ed) & Nd) end.
  cbv zeta in Ey, Emo, Ed, Nd. rewrite Ey, Emo, Ed, Nd. cbn [mbind option_bind]. rewrite fields_cons.
  match goal with |- context [sscanf (_ ++ 0x2C :: ?r) _] =>
    destruct (field_time (stack 4) _ _ _ _ r (ok_hour _ Hi) (ok_minute _ Hi) (ok_second _ Hi) (ok_ms _ Hi))
      as ((Eh & Emi & Es & Ems) & Nt) end.
  cbv zeta in Eh, Emi, Es, Ems, Nt. rewrite Eh, Emi, Es, Ems, Nt. cbn [mbind option_bind]. rewrite fields_cons.
  match goal with |- context [ASCII_to_char_array _ (_ ++ 0x2C :: ?r) _] =>
    destruct (field_name _ _ r Ha (ok_add _ Hi)) as (ad & Ead & Tad) end.
  unfold DEVINFO_ADDINFO_STRLEN. rewrite Ead. cbn [mbind option_bind].
  destruct Hi. rewrite fields_cons, field_u8 by (unfold byte; lia). cbv iota beta.
  rewrite fields_cons, field_u16 by done. cbv iota beta. unfold byte in *.
  rewrite populate_known by (cbn [i_hardwareType]; lia). eexists. split; [reflexivity|].
  assert (u32 (i_buildYear i + 2000) = i_buildYear i + 2000) as -> by (unfold u32; rewrite Z.mod_small by lia; done).
  rewrite (proj2 (Z.leb_le 2000 _)) by lia.
  constructor; cbn [reserved i_hardwareType serialNumber buildNumber repoRevision i_hardwareVer firmwareVer protocolVer
    i_buildYear buildMonth buildDay buildHour buildMinute buildSecond buildMillisecond manufacturer addInfo buildType];
    unfold u8; try done.
  - replace (i_buildYear i + 2000 - 2000) with (i_buildYear i) by lia. by rewrite !Z.mod_small by lia.
  - by rewrite !Z.mod_small by lia.
  - cbn [char_at hd app]. destruct (Z.eqb_spec (buildType i) 0) as [_|Hne]; [done|].
    by rewrite Z.mod_small, (proj2 (Z.eqb_neq _ _) Hne) by lia.
Qed.

(** C21: Device information with a nonzero hardware type, two-digit date and time members
    with milliseconds below 100, and names without a comma or a star, printed as the
    sentence INFO into a buffer that is large enough, is read as the same information (names
    up to their terminating zero, a build type of zero as a space), whatever the
    uninitialised variables and the previous contents of the structure are. *)
Theorem info_roundtrip i i0 buf size stack : info_ok i -> lenZ (sentence (info_body i)) < size <= lenZ buf ->
  lenZ (manufacturer i0) = 24 -> lenZ (addInfo i0) = 24 -> (forall k, length (stack k) <= 4)%nat ->
  exists buf' i', nmea_dev_info buf size i = Some (buf', lenZ (sentence (info_body i))) /\
    nmea_parse_info stack i0 (text buf') = Some i' /\ same_info i i'.
Proof.
  intros Hi Hs Hm Ha Hst. destruct (info_printed i buf size Hi Hs) as (buf' & E & Et).
  destruct (info_read stack i0 i Hi Hm Ha Hst) as (i' & Er & Hsame). exists buf', i'. by rewrite Et.
Qed.
End NmeaInfoProps.
