(* ===== verification/NmeaAsce.v ===== *)
(** * Message streams as sentences (src/src/protocol_nmea.cpp)

    The sentence ASCE, which lists the NMEA messages that are enabled with their periods: it
    is printed by [nmea_ASCE], and enables and disables streams when it is read.  The
    filters of satellite signals, which some of its messages set, are the mask [constMask]
    of nine bytes.  The enabled messages are read back as they were printed. *)

From Stdlib Require Import String.
From S2P Require Import Prelude Printf Nmea CommRx CommTx NmeaText.
#[local] Open Scope string_scope.
#[local] Open Scope list_scope.
#[local] Open Scope Z_scope.

Module NmeaAsce.

Definition NUM_COM_PORTS : Z := 4.
Definition MAX_nmeaBroadcastMsgPairs : Z := 20.
Definition RMC_OPTIONS_PORT_MASK : Z := 0xFF.
Definition RMC_OPTIONS_PORT_ALL : Z := RMC_OPTIONS_PORT_MASK.
Definition RMC_OPTIONS_PORT_CURRENT : Z := 0.
Definition RMC_OPTIONS_PORT_SER0 : Z := 1.
Definition RMC_OPTIONS_PORT_SER1 : Z := 2.
Definition RMC_OPTIONS_PORT_SER2 : Z := 4.
Definition RMC_OPTIONS_PORT_USB : Z := 8.
Definition RMC_OPTIONS_PERSISTENT : Z := 0x200.
Definition NMEA_MSG_ID_SPECIAL_CASE_START : Z := 256.
Definition NMEA_MSG_ID_GNGSV_5_3_2_1 : Z := Z.lor NMEA_MSG_ID_GNGSV_START 15.
Definition NMEA_MSG_ID_GNGSV_END : Z := NMEA_MSG_ID_GNGSV_5_3_2_1 + NMEA_GNGSV_GLO_OFFSET.

Definition SAT_SV_GNSS_ID_GNSS : Z := 0.
Definition SAT_SV_GNSS_ID_GPS : Z := 1.
Definition SAT_SV_GNSS_ID_SBS : Z := 2.
Definition SAT_SV_GNSS_ID_GAL : Z := 3.
Definition SAT_SV_GNSS_ID_BEI : Z := 4.
Definition SAT_SV_GNSS_ID_QZS : Z := 5.
Definition SAT_SV_GNSS_ID_GLO : Z := 6.
Definition SAT_SV_GNSS_ID_IRN : Z := 7.
Definition SAT_SV_GNSS_ID_IME : Z := 8.
Definition SAT_SV_GNSS_ID_COUNT : Z := 9.

(** ** Filters *)

(** A position of a mask, when it is there. *)
Definition set_mask (i x : Z) (mask : list Z) : list Z := updZ i [x] mask.

Definition nmea_setGsvFilter (constellation filter : Z) (mask : list Z) : list Z :=
  if (SAT_SV_GNSS_ID_GNSS <=? constellation) && (constellation <? SAT_SV_GNSS_ID_COUNT)
  then set_mask constellation filter mask else mask.
(** The overloads for all filters; [None] is a null pointer. *)
Definition nmea_setGsvFilters (filters : option (list Z)) (mask : list Z) : option (list Z) :=
  match filters with None => Some mask | Some f => take_exact SAT_SV_GNSS_ID_COUNT f end.
Definition nmea_getGsvFilter (constellation : Z) (mask : list Z) : option Z :=
  if (SAT_SV_GNSS_ID_GNSS <=? constellation) && (constellation <? SAT_SV_GNSS_ID_COUNT)
  then nthZ mask constellation else Some (-1).
Definition nmea_getGsvFilters (filters : option (list Z)) (mask : list Z) : option (option (list Z)) :=
  match filters with
  | None => Some None
  | Some f => f ← memcpy f 0 mask SAT_SV_GNSS_ID_COUNT; Some (Some f)
  end.
Definition gsv_clear_const_mask : list Z := repeat 0 9.

(** The constellations whose filter a message sets, all but the navigation system of India
    for the first. *)
Definition gsv_targets (constTarget : Z) : option (list Z) :=
  if constTarget =? SAT_SV_GNSS_ID_GNSS then Some [0; 1; 2; 3; 4; 5; 6]
  else if bool_decide (constTarget ∈ [SAT_SV_GNSS_ID_GPS; SAT_SV_GNSS_ID_GAL; SAT_SV_GNSS_ID_BEI;
                                       SAT_SV_GNSS_ID_QZS; SAT_SV_GNSS_ID_GLO])
  then Some [constTarget] else None.

(** The mask, and the message to enable: zero for a number that is not known. *)
Definition parseASCE_GSV (inId period : Z) (mask : list Z) : list Z * Z :=
  let constTarget := Z.shiftr (Z.land inId 0xF0) 4 in
  let freqMask := Z.land inId 0x0F in
  if (inId <? NMEA_MSG_ID_GNGSV_START) || (NMEA_MSG_ID_GNGSV_END <? inId) then (mask, 0) else
  if negb (period =? 0) then
    match gsv_targets constTarget with
    | Some l => (fold_left (fun mask i => set_mask i freqMask mask) l mask, NMEA_MSG_ID_GNGSV)
    | None => (mask, 0)
    end
  else (mask, NMEA_MSG_ID_GNGSV).

(** ** Streams *)

Record rmcNmea_t := RmcNmea { nmeaBits : Z; nmeaPeriod : list Z }.

(** The members of [rmci_t] and [grmci_t] that are used. *)
Record rmci_t := Rmci { rmc_options : Z; rmcNmea : rmcNmea_t }.

(** The number of the message is not checked: one behind the last is outside the array. *)
Definition nmea_enable_stream (r : rmcNmea_t) (nmeaId periodMultiple : Z) : option rmcNmea_t :=
  let bit := Z.shiftl 1 nmeaId in
  period ← memcpy (nmeaPeriod r) nmeaId [periodMultiple] 1;
  Some (RmcNmea (if negb (periodMultiple =? 0) then Z.lor (nmeaBits r) bit
                 else Z.land (nmeaBits r) (Z.lnot bit)) period).

(** ** Printing *)

(** The pairs of number and period, from message [i] on. *)
Fixpoint asce_pairs (n : nat) (i activeRMC : Z) (r : rmcNmea_t) : list (Z * Z) :=
  match n with
  | O => []
  | S n =>
    if activeRMC <? MAX_nmeaBroadcastMsgPairs then
      let period := default 0 (nthZ (nmeaPeriod r) i) in
      if negb (Z.land (nmeaBits r) (Z.shiftl 1 i) =? 0) && (0 <? period)
      then (i, period) :: asce_pairs n (i + 1) (activeRMC + 1) r
      else asce_pairs n (i + 1) activeRMC r
    else []
  end.

Fixpoint print_pairs (a : list Z) (aSize n : Z) (pairs : list (Z * Z)) : option (list Z * Z) :=
  match pairs with
  | [] => Some (a, n)
  | (id, period) :: pairs =>
    '(a, l) ← ssnprintf a n (aSize - n) (fields_text [int_text 0 id; int_text 0 period]);
    print_pairs a aSize (n + l) pairs
  end.

Definition nmea_ASCE (a : list Z) (aSize : Z) (nRMC : rmcNmea_t) : option (list Z * Z) :=
  let pairs := asce_pairs (Z.to_nat NMEA_MSG_ID_COUNT) 0 0 nRMC in
  '(a, n) ← ssnprintf a 0 aSize (chars "$ASCE,0");
  '(a, n) ← print_pairs a aSize n pairs;
  nmea_sprint_footer a aSize n.

(** ** Reading *)

(** The number of the message a field names: [a] is the whole sentence and [ptr] the rest
    from the field on. *)
Definition asce_id (a : list Z) (aSize : Z) (ptr : list Z) : option Z :=
  if isdigit (char_at ptr) then Some (u32 (if char_at ptr =? 0x2C then 0 else atoi ptr)) else
  let ptr2 := lenZ a - lenZ ptr - 1 in
  id ← getNmeaMsgId (Region 0 (a ++ [0])) ptr2 (aSize - ptr2);
  Some (u32 id).

Definition on_rmci (ports : list rmci_t) (k : Z) (f : rmci_t -> option rmci_t) : option (list rmci_t) :=
  r ← nthZ ports k; r ← f r; Some (updZ k [r] ports).

(** The ports that the options name, in the order in which they are changed. *)
Definition asce_ports (ports pHandle : Z) : list Z :=
  if ports =? RMC_OPTIONS_PORT_CURRENT then [pHandle]
  else if ports =? RMC_OPTIONS_PORT_ALL then [0; 1; 2; 3]
  else (if negb (Z.land ports RMC_OPTIONS_PORT_SER0 =? 0) then [0] else []) ++
       (if negb (Z.land ports RMC_OPTIONS_PORT_SER1 =? 0) then [1] else []) ++
       (if negb (Z.land ports RMC_OPTIONS_PORT_SER2 =? 0) then [2] else []) ++
       (if negb (Z.land ports RMC_OPTIONS_PORT_USB =? 0) then [3] else []).

Fixpoint on_ports (l : list Z) (f : rmci_t -> option rmci_t) (rmci : list rmci_t) : option (list rmci_t) :=
  match l with [] => Some rmci | k :: l => rmci ← on_rmci rmci k f; on_ports l f rmci end.

Section Reading.
(** What a message of the special cases does, and what is done to a port. *)
Context (gsv : Z -> Z -> list Z -> list Z * Z) (enable : Z -> Z -> rmci_t -> option rmci_t).
Context (pHandle : Z) (a : list Z) (aSize ports : Z).

Fixpoint asce_loop (n : nat) (ptr : list Z) (rmci : list rmci_t) (mask : list Z)
    : option (list rmci_t * list Z) :=
  match n with
  | O => Some (rmci, mask)
  | S n =>
    if char_at ptr =? 0x2A then Some (rmci, mask) else
    id ← asce_id a aSize ptr;
    let ptr := ASCII_find_next_field ptr in
    if char_at ptr =? 0x2A then Some (rmci, mask) else
    let period := if char_at ptr =? 0x2C then 0 else u8 (atoi ptr) in
    let ptr := ASCII_find_next_field ptr in
    let '(mask, id) := gsv id period mask in
    rmci ← on_ports (asce_ports ports pHandle) (enable id period) rmci;
    let mask := if (ports =? RMC_OPTIONS_PORT_ALL) && (id =? NMEA_MSG_ID_GNGSV) && (period =? 0)
                then gsv_clear_const_mask else mask in
    asce_loop n ptr rmci mask
  end.
End Reading.

Definition asce_gsv (id period : Z) (mask : list Z) : list Z * Z :=
  if id =? NMEA_MSG_ID_GNGSV then (fst (parseASCE_GSV NMEA_MSG_ID_GNGSV_5_3_2_1 period mask), id)
  else if (NMEA_MSG_ID_GNGSV_START <=? id) && (id <=? NMEA_MSG_ID_GNGSV_END) then parseASCE_GSV id period mask
  else (mask, id).

(** As an [int], a number of 2^31 or more is negative. *)
Definition grmci_gsv (id period : Z) (mask : list Z) : list Z * Z :=
  if id =? NMEA_MSG_ID_GNGSV then (fst (parseASCE_GSV NMEA_MSG_ID_GNGSV period mask), id)
  else if NMEA_MSG_ID_SPECIAL_CASE_START <=? id then parseASCE_GSV (s32 id) period mask
  else (mask, id).

Definition asce_enable (id period : Z) (r : rmci_t) : option rmci_t :=
  n ← nmea_enable_stream (rmcNmea r) id period; Some (Rmci (rmc_options r) n).
Definition grmci_enable (options id period : Z) (r : rmci_t) : option rmci_t :=
  n ← nmea_enable_stream (rmcNmea r) id period;
  Some (Rmci (Z.lor (rmc_options r) (Z.land options RMC_OPTIONS_PERSISTENT)) n).

(** The structures of the ports, the mask, and the options. *)
Definition nmea_parse_asce (pHandle : Z) (a : list Z) (aSize : Z) (rmci : list rmci_t) (mask : list Z)
    : option (list rmci_t * list Z * Z) :=
  if NUM_COM_PORTS <=? pHandle then Some (rmci, mask, 0) else
  if lenZ a <? 6 then None else
  let '(options, ptr) := ASCII_to_u32 (dropZ 6 a) in
  let ports := Z.land options RMC_OPTIONS_PORT_MASK in
  '(rmci, mask) ← asce_loop asce_gsv asce_enable pHandle a aSize ports 20 ptr rmci mask;
  Some (rmci, mask, options).

Definition nmea_parse_asce_grmci (pHandle : Z) (a : list Z) (aSize : Z) (rmci : list rmci_t) (mask : list Z)
    : option (list rmci_t * list Z * Z) :=
  if NUM_COM_PORTS <=? pHandle then Some (rmci, mask, 0) else
  if lenZ a <? 6 then None else
  let '(options, ptr) := ASCII_to_u32 (dropZ 6 a) in
  let ports := Z.land options RMC_OPTIONS_PORT_MASK in
  '(rmci, mask) ← asce_loop grmci_gsv (grmci_enable options) pHandle a aSize ports 20 ptr rmci mask;
  Some (rmci, mask, options).

End NmeaAsce.
Export NmeaAsce.

Module NmeaAsceProps.

(** The streams of a port: a period for each message, which is not zero when the bit of the
    message is set. *)
Record streams_ok (r : rmcNmea_t) : Prop := {
  st_periods : lenZ (nmeaPeriod r) = NMEA_MSG_ID_COUNT;
  st_bytes : Forall byte (nmeaPeriod r);
  st_bits : 0 <= nmeaBits r < 2 ^ NMEA_MSG_ID_COUNT;
  st_enabled : forall i p, nthZ (nmeaPeriod r) i = Some p -> Z.testbit (nmeaBits r) i = (0 <? p)
}.

Definition no_streams : rmcNmea_t := RmcNmea 0 (repeat 0 18).

(** ** Bits *)

Lemma land_bit x i : 0 <= i -> (Z.land x (Z.shiftl 1 i) =? 0) = negb (Z.testbit x i).
Proof.
  intros Hi. rewrite Z.shiftl_1_l. destruct (Z.testbit x i) eqn:E; cbn [negb].
  - apply Z.eqb_neq. intros H. apply (f_equal (fun y => Z.testbit y i)) in H.
    rewrite Z.land_spec, E, Z.pow2_bits_true, Z.bits_0 in H by lia. done.
  - apply Z.eqb_eq, Z.bits_inj'. intros k Hk. rewrite Z.land_spec, Z.bits_0.
    destruct (decide (k = i)) as [->|Hne]; [by rewrite E|].
    rewrite Z.pow2_bits_false by lia. apply andb_false_r.
Qed.

(** The bits below [i]. *)
Lemma bits_below_true x i : 0 <= i -> Z.testbit x i = true ->
  Z.lor (Z.land x (Z.ones i)) (Z.shiftl 1 i) = Z.land x (Z.ones (i + 1)).
Proof.
  intros Hi Hx. apply Z.bits_inj'. intros k Hk. rewrite Z.shiftl_1_l, Z.lor_spec, !Z.land_spec.
  rewrite !Z.testbit_ones_nonneg by lia. destruct (decide (k = i)) as [->|Hne].
  - rewrite Z.pow2_bits_true, Hx, (proj2 (Z.ltb_lt i (i + 1))) by lia. by rewrite orb_true_r.
  - rewrite Z.pow2_bits_false, orb_false_r by lia. f_equal. split_cmp; done.
Qed.

Lemma bits_below_false x i : 0 <= i -> Z.testbit x i = false ->
  Z.land x (Z.ones i) = Z.land x (Z.ones (i + 1)).
Proof.
  intros Hi Hx. apply Z.bits_inj'. intros k Hk. rewrite !Z.land_spec, !Z.testbit_ones_nonneg by lia.
  destruct (decide (k = i)) as [->|Hne]; [by rewrite Hx|]. f_equal. split_cmp; done.
Qed.

(** ** Printing *)

Definition pairs_fields (pairs : list (Z * Z)) : list (list Z) :=
  concat (map (fun '(id, period) => [int_text 0 id; int_text 0 period]) pairs).

Lemma fields_app l k : fields_text (l ++ k) = fields_text l ++ fields_text k.
Proof. unfold fields_text. by rewrite map_app, concat_app. Qed.

Lemma pairs_printed pairs : forall pre rest size,
  lenZ pre + lenZ (fields_text (pairs_fields pairs)) < size ->
  lenZ (fields_text (pairs_fields pairs)) < lenZ rest ->
  exists rest', print_pairs (pre ++ rest) size (lenZ pre) pairs =
    Some ((pre ++ fields_text (pairs_fields pairs)) ++ rest', lenZ pre + lenZ (fields_text (pairs_fields pairs))) /\
    lenZ rest' = lenZ rest - lenZ (fields_text (pairs_fields pairs)).
Proof.
  induction pairs as [|[id period] pairs IH]; intros pre rest size Hs Hr.
  - exists rest. cbn [print_pairs]. change (fields_text (pairs_fields [])) with (@nil Z).
    rewrite app_nil_r, lenZ_nil, Z.add_0_r. split; [done|lia].
  - set (s := fields_text [int_text 0 id; int_text 0 period]).
    assert (fields_text (pairs_fields ((id, period) :: pairs)) = s ++ fields_text (pairs_fields pairs)) as E
      by (unfold pairs_fields; cbn [map concat]; apply fields_app).
    rewrite E in *. rewrite lenZ_app in *. pose proof (lenZ_nonneg s). pose proof (lenZ_nonneg pre).
    pose proof (lenZ_nonneg (fields_text (pairs_fields pairs))). cbn [print_pairs].
    fold s. rewrite ssnprintf_fits by lia. cbn [mbind option_bind].
    destruct (IH (pre ++ s) (0 :: dropZ (lenZ s + 1) rest) size) as (rest' & E' & Hr').
    { rewrite lenZ_app. lia. }
    { rewrite lenZ_cons, lenZ_dropZ. lia. }
    exists rest'. rewrite lenZ_app, <- app_assoc in E'. rewrite E'. rewrite <- !app_assoc.
    split; [do 2 f_equal; lia|]. rewrite Hr', lenZ_cons, lenZ_dropZ. lia.
Qed.

Definition asce_body (r : rmcNmea_t) : list Z :=
  chars "ASCE" ++ fields_text ([0x30] :: pairs_fields (asce_pairs 18 0 0 r)).

Lemma asce_printed r buf size : lenZ (sentence (asce_body r)) < size <= lenZ buf ->
  exists rest, nmea_ASCE buf size r = Some (sentence (asce_body r) ++ 0 :: rest, lenZ (sentence (asce_body r))).
Proof.
  intros Hs. unfold nmea_ASCE. change (Z.to_nat NMEA_MSG_ID_COUNT) with 18%nat.
  set (pairs := asce_pairs 18 0 0 r) in *. set (s := chars "$ASCE,0").
  assert (0x24 :: asce_body r = s ++ fields_text (pairs_fields pairs)) as Eb by reflexivity.
  assert (lenZ (asce_body r) = 6 + lenZ (fields_text (pairs_fields pairs))) as El.
  { apply (f_equal lenZ) in Eb. rewrite lenZ_cons, lenZ_app in Eb. change (lenZ s) with 7 in Eb. lia. }
  pose proof (lenZ_nonneg (fields_text (pairs_fields pairs))). pose proof (lenZ_nonneg (footer (asce_body r))).
  assert (lenZ (sentence (asce_body r)) = 1 + lenZ (asce_body r) + lenZ (footer (asce_body r))) as Et
    by (unfold sentence; rewrite lenZ_cons, lenZ_app; lia).
  change buf with ([] ++ buf) at 1. change 0 with (lenZ (@nil Z)) at 1.
  rewrite ssnprintf_fits by (change (lenZ s) with 7; lia). cbn [mbind option_bind app].
  destruct (pairs_printed pairs s (0 :: dropZ (lenZ s + 1) buf) size) as (rest & E & Hr).
  { change (lenZ s) with 7. lia. }
  { rewrite lenZ_cons, lenZ_dropZ. change (lenZ s) with 7. lia. }
  rewrite E. cbn [mbind option_bind]. rewrite <- Eb.
  replace (lenZ s + lenZ (fields_text (pairs_fields pairs))) with (1 + lenZ (asce_body r))
    by (change (lenZ s) with 7; lia).
  rewrite footer_fits; [by eexists|lia|]. rewrite Hr, lenZ_cons, lenZ_dropZ. change (lenZ s) with 7. lia.
Qed.

(** ** Reading *)

(** Where the pointer is before a field, and before what follows the last one. *)
Definition ptr_of (fs : list (list Z)) (k : list Z) : list Z :=
  match fs with [] => k | f :: fs => f ++ fields_text fs ++ k end.

Lemma next_ptr f fs k : Forall plain f -> ASCII_find_next_field (f ++ fields_text fs ++ 0x2A :: k) = ptr_of fs (0x2A :: k).
Proof.
  intros Hf. destruct fs as [|g fs]; [by apply next_field_star|]. cbn [ptr_of].
  unfold fields_text. cbn [map concat app]. rewrite <- app_assoc. by apply next_field.
Qed.

Lemma no_digit_fields fs k : no_digit k -> no_digit (fields_text fs ++ k).
Proof. by destruct fs. Qed.

(** A number in front of the pointer. *)
Lemma number_at x fs k : 0 <= x < 2147483648 -> no_digit k ->
  let ptr := int_text 0 x ++ fields_text fs ++ k in
  isdigit (char_at ptr) = true /\ char_at ptr <> 0x2A /\ char_at ptr <> 0x2C /\ atoi ptr = x.
Proof.
  intros Hx Hk ptr. assert (atoi ptr = x) by (by apply atoi_int_text; [lia|apply no_digit_fields]).
  unfold ptr, int_text in *. rewrite (proj2 (Z.ltb_ge x 0)) in * by lia.
  destruct (dec_text_cons 0 x) as (c & l & E & Hc). rewrite E in *. cbn [app char_at hd] in *. split; [done|].
  unfold isdigit in Hc. repeat split; [lia|lia|done].
Qed.

Definition gsv_enabled (mask : list Z) : list Z := fst (parseASCE_GSV NMEA_MSG_ID_GNGSV_5_3_2_1 1 mask).

(** One pair: a message of the table with a period. *)
Lemma pair_read n pHandle a aSize id period fs k rmci rmci' mask :
  0 <= id < NMEA_MSG_ID_COUNT -> 0 < period < 256 ->
  on_ports [pHandle] (asce_enable id period) rmci = Some rmci' ->
  asce_loop asce_gsv asce_enable pHandle a aSize 0 (S n)
    (ptr_of (int_text 0 id :: int_text 0 period :: fs) (0x2A :: k)) rmci mask =
  asce_loop asce_gsv asce_enable pHandle a aSize 0 n (ptr_of fs (0x2A :: k)) rmci'
    (if id =? NMEA_MSG_ID_GNGSV then gsv_enabled mask else mask).
Proof.
  unfold NMEA_MSG_ID_COUNT. intros Hid Hp Hon. cbn [ptr_of asce_loop].
  destruct (number_at id (int_text 0 period :: fs) (0x2A :: k)) as (Hd & H1 & H2 & E); [lia|done|].
  cbv zeta in *. rewrite (proj2 (Z.eqb_neq _ _) H1). unfold asce_id. rewrite Hd, (proj2 (Z.eqb_neq _ _) H2), E.
  assert (u32 id = id) as -> by (unfold u32; rewrite Z.mod_small by lia; done). cbn [mbind option_bind].
  rewrite next_ptr by apply int_text_plain. cbn [ptr_of].
  destruct (number_at period fs (0x2A :: k)) as (_ & H3 & H4 & E'); [lia|done|].
  cbv zeta in *. rewrite (proj2 (Z.eqb_neq _ _) H3), (proj2 (Z.eqb_neq _ _) H4), E'.
  rewrite next_ptr by apply int_text_plain.
  assert (u8 period = period) as -> by (unfold u8; rewrite Z.mod_small by lia; done).
  assert (asce_gsv id period mask = (if id =? NMEA_MSG_ID_GNGSV then gsv_enabled mask else mask, id)) as ->.
  { unfold asce_gsv. destruct (id =? NMEA_MSG_ID_GNGSV).
    - f_equal. unfold gsv_enabled, parseASCE_GSV. by rewrite (proj2 (Z.eqb_neq period 0)) by lia.
    - rewrite (proj2 (Z.leb_gt NMEA_MSG_ID_GNGSV_START id)); [done|]. change NMEA_MSG_ID_GNGSV_START with 3840. lia. }
  change (asce_ports 0 pHandle) with [pHandle]. cbv iota beta. rewrite Hon. cbn [mbind option_bind].
  done.
Qed.

(** The state of a port when the periods [past] have been read. *)
Definition port_at (opts : Z) (r : rmcNmea_t) (past todo : list Z) : rmci_t :=
  Rmci opts (RmcNmea (Z.land (nmeaBits r) (Z.ones (lenZ past))) (past ++ repeat 0 (length todo))).

Lemma port_enabled pre post opts r past p todo : Z.testbit (nmeaBits r) (lenZ past) = true -> 0 < p ->
  on_ports [lenZ pre] (asce_enable (lenZ past) p) (pre ++ port_at opts r past (p :: todo) :: post) =
  Some (pre ++ port_at opts r (past ++ [p]) todo :: post).
Proof.
  intros Hb Hp. pose proof (lenZ_nonneg past). pose proof (lenZ_nonneg todo). cbn [on_ports]. unfold on_rmci. rewrite nthZ_middle.
  cbn [mbind option_bind]. unfold asce_enable, nmea_enable_stream.
  change (nmeaPeriod (rmcNmea (port_at opts r past (p :: todo)))) with (past ++ 0 :: repeat 0 (length todo)).
  change (nmeaBits (rmcNmea (port_at opts r past (p :: todo)))) with (Z.land (nmeaBits r) (Z.ones (lenZ past))).
  change (rmc_options (port_at opts r past (p :: todo))) with opts.
  pose proof (lenZ_nonneg (repeat 0 (length todo))).
  assert (lenZ [p] = 1) as L1 by done.
  assert (lenZ (past ++ 0 :: repeat 0 (length todo)) = lenZ past + 1 + lenZ (repeat 0 (length todo))) as L2
    by (rewrite lenZ_app, lenZ_cons; lia).
  rewrite memcpy_ok by lia.
  cbn [mbind option_bind]. change (takeZ 1 [p]) with [p].
  change (0 :: repeat 0 (length todo)) with ([0] ++ repeat 0 (length todo)). rewrite updZ_middle by done.
  rewrite (proj2 (Z.eqb_neq p 0)) by lia. cbn [negb]. rewrite bits_below_true by done.
  change (port_at opts r past (p :: todo) :: post) with ([port_at opts r past (p :: todo)] ++ post).
  rewrite updZ_middle by done. unfold port_at. rewrite lenZ_app. change (lenZ [p]) with 1.
  by rewrite <- app_assoc.
Qed.

Lemma port_skipped opts r past todo : Z.testbit (nmeaBits r) (lenZ past) = false ->
  port_at opts r past (0 :: todo) = port_at opts r (past ++ [0]) todo.
Proof.
  intros Hb. pose proof (lenZ_nonneg past). unfold port_at. rewrite bits_below_false by done.
  rewrite lenZ_app. change (lenZ [0]) with 1. by rewrite <- app_assoc.
Qed.

Lemma asce_read r k pre post opts a aSize todo : streams_ok r -> forall past active fuel mask,
  nmeaPeriod r = past ++ todo -> (length todo <= fuel)%nat -> active + lenZ todo <= 20 ->
  asce_loop asce_gsv asce_enable (lenZ pre) a aSize 0 fuel
    (ptr_of (pairs_fields (asce_pairs (length todo) (lenZ past) active r)) (0x2A :: k))
    (pre ++ port_at opts r past todo :: post) mask =
  Some (pre ++ Rmci opts r :: post,
        if (lenZ past <=? NMEA_MSG_ID_GNGSV) && Z.testbit (nmeaBits r) NMEA_MSG_ID_GNGSV
        then gsv_enabled mask else mask).
Proof.
  intros Hr. induction todo as [|p todo IH]; intros past active fuel mask Ep Hf Ha.
  - rewrite app_nil_r in Ep. assert (lenZ past = 18) as Hl by (rewrite <- Ep; apply Hr).
    assert (port_at opts r past [] = Rmci opts r) as ->.
    { unfold port_at. cbn [length repeat]. rewrite app_nil_r, Hl, Z.land_ones by lia.
      rewrite Z.mod_small by apply Hr. rewrite <- Ep. by destruct r. }
    rewrite Hl. by destruct fuel.
  - pose proof (lenZ_nonneg past). pose proof (lenZ_nonneg todo). rewrite lenZ_cons in Ha.
    assert (nthZ (nmeaPeriod r) (lenZ past) = Some p) as En by (rewrite Ep; apply nthZ_middle).
    assert (nmeaPeriod r = (past ++ [p]) ++ todo) as Ep' by (by rewrite <- app_assoc).
    assert (0 <= lenZ past < NMEA_MSG_ID_COUNT /\ byte p) as [Hi Hb].
    { destruct Hr as [Hl Hby _ _]. rewrite Ep in Hl, Hby. rewrite lenZ_app, lenZ_cons in Hl.
      apply Forall_app in Hby as [_ Hby]. apply Forall_cons_1 in Hby as [Hby _].
      unfold NMEA_MSG_ID_COUNT in *. split; [lia|done]. }
    unfold byte in Hb. pose proof (st_enabled _ Hr _ _ En) as Hbit. cbn [length asce_pairs].
    unfold MAX_nmeaBroadcastMsgPairs. rewrite (proj2 (Z.ltb_lt active 20)) by lia. rewrite En.
    change (default 0 (Some p)) with p. rewrite land_bit, Hbit, negb_involutive, andb_diag by lia.
    assert (lenZ (past ++ [p]) = lenZ past + 1) as El by (rewrite lenZ_app; done).
    destruct (Z.ltb_spec 0 p) as [Hp|Hp].
    + destruct fuel as [|fuel]; [cbn in Hf; lia|]. unfold pairs_fields. cbn [map concat app].
      rewrite (pair_read fuel _ _ _ _ _ _ _ _ _ _ Hi (conj Hp (proj2 Hb)) (port_enabled pre post opts r past p todo Hbit Hp)).
      specialize (IH (past ++ [p]) (active + 1) fuel
        (if lenZ past =? NMEA_MSG_ID_GNGSV then gsv_enabled mask else mask) Ep' ltac:(cbn in Hf; lia) ltac:(lia)).
      rewrite El in IH. unfold pairs_fields in IH. rewrite IH. do 2 f_equal. unfold NMEA_MSG_ID_GNGSV in *.
      destruct (Z.eqb_spec (lenZ past) 15) as [E|Hne].
      * rewrite E in Hbit. by rewrite E, Hbit.
      * replace (lenZ past + 1 <=? 15) with (lenZ past <=? 15) by (split_cmp; done). done.
    + assert (p = 0) as -> by lia. rewrite port_skipped by done.
      specialize (IH (past ++ [0]) active fuel mask Ep' ltac:(cbn in Hf; lia) ltac:(lia)).
      rewrite El in IH. rewrite IH. do 2 f_equal. unfold NMEA_MSG_ID_GNGSV in *.
      destruct (Z.eqb_spec (lenZ past) 15) as [E|Hne].
      * rewrite E in Hbit. by rewrite E, Hbit.
      * replace (lenZ past + 1 <=? 15) with (lenZ past <=? 15) by (split_cmp; done). done.
Qed.

Lemma asce_nonzero r : Forall (fun c => c <> 0) (asce_body r).
Proof.
  unfold asce_body. apply Forall_app_2; [by repeat apply Forall_cons_2|]. apply fields_nonzero.
  apply Forall_cons_2; [by apply Forall_cons_2|]. unfold pairs_fields.
  induction (asce_pairs 18 0 0 r) as [|[id period] l IH]; [constructor|]. cbn [map concat].
  repeat apply Forall_cons_2; [apply nonzero_plain, int_text_plain..|exact IH].
Qed.

(** C22: The sentence ASCE printed for the streams of a port into a large enough buffer
    enables, when it is read on a port without streams, exactly these messages with their
    periods, changes no other port, and opens all filters of satellite signals when GNGSV is
    among the messages. *)
Theorem asce_roundtrip r buf size pre post opts mask aSize :
  streams_ok r -> lenZ (sentence (asce_body r)) < size <= lenZ buf -> lenZ pre < NUM_COM_PORTS ->
  exists buf', nmea_ASCE buf size r = Some (buf', lenZ (sentence (asce_body r))) /\
    nmea_parse_asce (lenZ pre) (text buf') aSize (pre ++ Rmci opts no_streams :: post) mask =
      Some (pre ++ Rmci opts r :: post,
            if Z.testbit (nmeaBits r) NMEA_MSG_ID_GNGSV then gsv_enabled mask else mask, 0).
Proof.
  intros Hr Hs Hp. destruct (asce_printed r buf size Hs) as [rest E]. eexists. split; [exact E|].
  rewrite text_app by apply sentence_nonzero, asce_nonzero. unfold nmea_parse_asce.
  rewrite (proj2 (Z.leb_gt NUM_COM_PORTS _)) by lia.
  rewrite (sentence_long 2) by (unfold asce_body; rewrite lenZ_app; change (lenZ (chars "ASCE")) with 4;
    match goal with |- context [4 + lenZ ?l] => pose proof (lenZ_nonneg l) end; lia).
  unfold sentence at 1.
  set (fs := pairs_fields (asce_pairs 18 0 0 r)).
  assert (dropZ 6 (0x24 :: asce_body r ++ footer (asce_body r)) =
    int_text 0 0 ++ fields_text fs ++ footer (asce_body r)) as ->.
  { unfold asce_body at 1. rewrite <- app_assoc. unfold fields_text at 1. cbn [map concat].
    rewrite <- app_assoc. reflexivity. }
  unfold ASCII_to_u32. destruct (number_at 0 fs (footer (asce_body r)) ltac:(lia) ltac:(done)) as (_ & _ & _ & Ea).
  cbv zeta in Ea. rewrite Ea. unfold footer at 1. rewrite next_ptr by apply int_text_plain.
  change (u32 0) with 0. cbv iota beta. change (Z.land 0 RMC_OPTIONS_PORT_MASK) with 0.
  assert (length (nmeaPeriod r) = 18%nat) as Hl by (pose proof (st_periods _ Hr) as H; unfold lenZ in H; 
    change NMEA_MSG_ID_COUNT with 18 in H; lia).
  pose proof (asce_read r (hex_text 2 (nmea_compute_checksum (asce_body r)) ++ [0x0D; 0x0A]) pre post opts
    (sentence (asce_body r)) aSize (nmeaPeriod r) Hr [] 0 20 mask eq_refl ltac:(lia) ltac:(unfold lenZ; lia)) as H.
  rewrite Hl in H. unfold port_at in H. change (lenZ []) with 0 in H. rewrite Hl, Z.land_0_r in H.
  change ([] ++ repeat 0 18) with (repeat 0 18) in H. fold no_streams fs in H.
  unfold sentence in H |- *. rewrite H. reflexivity.
Qed.
End NmeaAsceProps.
