(* ===== verification/NmeaGsv.v ===== *)
(** * Satellites in view as sentences (src/src/protocol_nmea.cpp)

    The identifiers of signals in NMEA, the sentences GSV that are printed for the satellite
    and signal lists of a receiver, and the reading of a sentence into these lists.  The
    lists are arrays with a count; a read or a write outside of the array has no result. *)

From Stdlib Require Import String.
From S2P Require Import Prelude Printf Nmea CommRx CommTx NmeaText NmeaAsce.
#[local] Open Scope string_scope.
#[local] Open Scope list_scope.
#[local] Open Scope Z_scope.

Module NmeaGsv.

Definition NMEA_PROTOCOL_4P10 : Z := 410.
Definition MAX_NUM_SATELLITES : Z := 50.
Definition MAX_NUM_SAT_SIGNALS : Z := 100.
Definition SAT_SV_GNSS_ID_UNKNOWN : Z := 0.

Definition SAT_SV_SIG_ID_GPS_L1CA : Z := 0.
Definition SAT_SV_SIG_ID_GPS_L2CL : Z := 3.
Definition SAT_SV_SIG_ID_GPS_L2CM : Z := 4.
Definition SAT_SV_SIG_ID_GPS_L5I : Z := 6.
Definition SAT_SV_SIG_ID_GPS_L5Q : Z := 7.
Definition SAT_SV_SIG_ID_SBAS_L1CA : Z := 0.
Definition SAT_SV_SIG_ID_SBAS_L2 : Z := 1.
Definition SAT_SV_SIG_ID_SBAS_L5 : Z := 2.
Definition SAT_SV_SIG_ID_Galileo_E1C2 : Z := 0.
Definition SAT_SV_SIG_ID_Galileo_E1B2 : Z := 1.
Definition SAT_SV_SIG_ID_Galileo_E5aI : Z := 3.
Definition SAT_SV_SIG_ID_Galileo_E5aQ : Z := 4.
Definition SAT_SV_SIG_ID_Galileo_E5a : Z := SAT_SV_SIG_ID_Galileo_E5aQ.
Definition SAT_SV_SIG_ID_Galileo_E5bI : Z := 5.
Definition SAT_SV_SIG_ID_Galileo_E5bQ : Z := 6.
Definition SAT_SV_SIG_ID_Galileo_E5 : Z := SAT_SV_SIG_ID_Galileo_E5bQ.
Definition SAT_SV_SIG_ID_BeiDou_B1D1 : Z := 0.
Definition SAT_SV_SIG_ID_BeiDou_B1D2 : Z := 1.
Definition SAT_SV_SIG_ID_BeiDou_B2D1 : Z := 2.
Definition SAT_SV_SIG_ID_BeiDou_B2D2 : Z := 3.
Definition SAT_SV_SIG_ID_BeiDou_B2 : Z := SAT_SV_SIG_ID_BeiDou_B2D1.
Definition SAT_SV_SIG_ID_BeiDou_B1C : Z := 5.
Definition SAT_SV_SIG_ID_BeiDou_B2a : Z := 7.
Definition SAT_SV_SIG_ID_QZSS_L1CA : Z := 0.
Definition SAT_SV_SIG_ID_QZSS_L1S : Z := 1.
Definition SAT_SV_SIG_ID_QZSS_L2CM : Z := 4.
Definition SAT_SV_SIG_ID_QZSS_L2CL : Z := 5.
Definition SAT_SV_SIG_ID_QZSS_L2 : Z := SAT_SV_SIG_ID_QZSS_L2CL.
Definition SAT_SV_SIG_ID_QZSS_L5I : Z := 8.
Definition SAT_SV_SIG_ID_QZSS_L5Q : Z := 9.
Definition SAT_SV_SIG_ID_QZSS_L5 : Z := SAT_SV_SIG_ID_QZSS_L5Q.
Definition SAT_SV_SIG_ID_GLONASS_L1OF : Z := 0.
Definition SAT_SV_SIG_ID_GLONASS_L2OF : Z := 2.
Definition SAT_SV_SIG_ID_NAVIC_L5A : Z := 0.

Record gps_sat_sv_t := SatSv {
  sat_gnssId : Z; sat_svId : Z; sat_elev : Z; sat_azim : Z; sat_cno : Z; sat_status : Z
}.
Record gps_sig_sv_t := SigSv {
  sig_gnssId : Z; sig_svId : Z; sig_sigId : Z; sig_cno : Z; sig_quality : Z; sig_status : Z
}.
Record gps_sat_t := GpsSat { numSats : Z; sats : list gps_sat_sv_t }.
Record gps_sig_t := GpsSig { numSigs : Z; sigs : list gps_sig_sv_t }.

(** ** Identifiers *)

(** A [switch] in a [switch]: the entries of a constellation, and of a signal. *)
Definition cases (g s : Z) (table : list (Z * list (Z * Z))) : option Z :=
  l ← snd <$> find (fun e => fst e =? g) table;
  snd <$> find (fun e => fst e =? s) l.

Definition gnssId_to_talkerId (gnssId : Z) : list Z :=
  0x47 ::
  [if (gnssId =? SAT_SV_GNSS_ID_GPS) || (gnssId =? SAT_SV_GNSS_ID_SBS) then 0x50
   else if gnssId =? SAT_SV_GNSS_ID_GAL then 0x41
   else if gnssId =? SAT_SV_GNSS_ID_BEI then 0x42
   else if (gnssId =? SAT_SV_GNSS_ID_QZS) || (gnssId =? SAT_SV_GNSS_ID_IME) then 0x51
   else if gnssId =? SAT_SV_GNSS_ID_GLO then 0x4C
   else if gnssId =? SAT_SV_GNSS_ID_IRN then 0x49
   else 0x4E].

Definition nmea4p11_signals : list (Z * list (Z * Z)) := [
  (SAT_SV_GNSS_ID_GPS, [(SAT_SV_SIG_ID_GPS_L1CA, 0x31); (SAT_SV_SIG_ID_GPS_L2CL, 0x36);
    (SAT_SV_SIG_ID_GPS_L2CM, 0x35); (SAT_SV_SIG_ID_GPS_L5I, 0x37); (SAT_SV_SIG_ID_GPS_L5Q, 0x38)]);
  (SAT_SV_GNSS_ID_GAL, [(SAT_SV_SIG_ID_Galileo_E1C2, 0x37); (SAT_SV_SIG_ID_Galileo_E1B2, 0x37);
    (SAT_SV_SIG_ID_Galileo_E5aI, 0x31); (SAT_SV_SIG_ID_Galileo_E5aQ, 0x31);
    (SAT_SV_SIG_ID_Galileo_E5bI, 0x32); (SAT_SV_SIG_ID_Galileo_E5bQ, 0x32)]);
  (SAT_SV_GNSS_ID_BEI, [(SAT_SV_SIG_ID_BeiDou_B1D1, 0x31); (SAT_SV_SIG_ID_BeiDou_B1D2, 0x31);
    (SAT_SV_SIG_ID_BeiDou_B2D1, 0x42); (SAT_SV_SIG_ID_BeiDou_B2D2, 0x42);
    (SAT_SV_SIG_ID_BeiDou_B1C, 0x33); (SAT_SV_SIG_ID_BeiDou_B2a, 0x35)]);
  (SAT_SV_GNSS_ID_QZS, [(SAT_SV_SIG_ID_QZSS_L1CA, 0x31); (SAT_SV_SIG_ID_QZSS_L1S, 0x34);
    (SAT_SV_SIG_ID_QZSS_L2CM, 0x35); (SAT_SV_SIG_ID_QZSS_L2CL, 0x36); (SAT_SV_SIG_ID_QZSS_L5I, 0x37);
    (SAT_SV_SIG_ID_QZSS_L5Q, 0x38)]);
  (SAT_SV_GNSS_ID_GLO, [(SAT_SV_SIG_ID_GLONASS_L1OF, 0x31); (SAT_SV_SIG_ID_GLONASS_L2OF, 0x33)]);
  (SAT_SV_GNSS_ID_IRN, [(SAT_SV_SIG_ID_NAVIC_L5A, 0x37)])].

Definition sigId_to_nmea4p11_signalId (gnssId sigId : Z) : Z :=
  if gnssId =? SAT_SV_GNSS_ID_SBS then 1 else default 0x30 (cases gnssId sigId nmea4p11_signals).

Definition nmea4p11_sigIds : list (Z * list (Z * Z)) := [
  (SAT_SV_GNSS_ID_GPS, [(0x31, SAT_SV_SIG_ID_GPS_L1CA); (0x36, SAT_SV_SIG_ID_GPS_L2CL);
    (0x35, SAT_SV_SIG_ID_GPS_L2CM); (0x37, SAT_SV_SIG_ID_GPS_L5I); (0x38, SAT_SV_SIG_ID_GPS_L5Q)]);
  (SAT_SV_GNSS_ID_GAL, [(0x37, SAT_SV_SIG_ID_Galileo_E1C2); (0x31, SAT_SV_SIG_ID_Galileo_E5aI);
    (0x32, SAT_SV_SIG_ID_Galileo_E5bQ)]);
  (SAT_SV_GNSS_ID_BEI, [(0x31, SAT_SV_SIG_ID_BeiDou_B1D1); (0x42, SAT_SV_SIG_ID_BeiDou_B2D1);
    (0x33, SAT_SV_SIG_ID_BeiDou_B1C); (0x35, SAT_SV_SIG_ID_BeiDou_B2a)]);
  (SAT_SV_GNSS_ID_QZS, [(0x31, SAT_SV_SIG_ID_QZSS_L1CA); (0x34, SAT_SV_SIG_ID_QZSS_L1S);
    (0x35, SAT_SV_SIG_ID_QZSS_L2CM); (0x36, SAT_SV_SIG_ID_QZSS_L2CL); (0x37, SAT_SV_SIG_ID_QZSS_L5I);
    (0x38, SAT_SV_SIG_ID_QZSS_L5Q)]);
  (SAT_SV_GNSS_ID_GLO, [(0x31, SAT_SV_SIG_ID_GLONASS_L1OF); (0x33, SAT_SV_SIG_ID_GLONASS_L2OF)]);
  (SAT_SV_GNSS_ID_IRN, [(0x37, SAT_SV_SIG_ID_NAVIC_L5A)])].

Definition nmea4p11_signalId_to_sigId (gnssId nmeaSignalId : Z) : Z :=
  if gnssId =? SAT_SV_GNSS_ID_SBS then 0 else default 0x30 (cases gnssId nmeaSignalId nmea4p11_sigIds).

(** What is added to the number of the satellite. *)
Definition nmea2p3_offsets : list (Z * list (Z * Z)) := [
  (SAT_SV_GNSS_ID_GPS, [(SAT_SV_SIG_ID_GPS_L1CA, 0); (SAT_SV_SIG_ID_GPS_L2CL, 256);
    (SAT_SV_SIG_ID_GPS_L2CM, 256); (SAT_SV_SIG_ID_GPS_L5I, 512); (SAT_SV_SIG_ID_GPS_L5Q, 512)]);
  (SAT_SV_GNSS_ID_GAL, [(SAT_SV_SIG_ID_Galileo_E1C2, 0); (SAT_SV_SIG_ID_Galileo_E1B2, 0);
    (SAT_SV_SIG_ID_Galileo_E5aI, 256); (SAT_SV_SIG_ID_Galileo_E5aQ, 256);
    (SAT_SV_SIG_ID_Galileo_E5bI, 512); (SAT_SV_SIG_ID_Galileo_E5bQ, 512)]);
  (SAT_SV_GNSS_ID_BEI, [(SAT_SV_SIG_ID_BeiDou_B1D1, 0); (SAT_SV_SIG_ID_BeiDou_B1D2, 0);
    (SAT_SV_SIG_ID_BeiDou_B2D1, 256); (SAT_SV_SIG_ID_BeiDou_B2D2, 256);
    (SAT_SV_SIG_ID_BeiDou_B1C, 0); (SAT_SV_SIG_ID_BeiDou_B2a, 512)]);
  (SAT_SV_GNSS_ID_QZS, [(SAT_SV_SIG_ID_QZSS_L1CA, 0); (SAT_SV_SIG_ID_QZSS_L1S, 0);
    (SAT_SV_SIG_ID_QZSS_L2CM, 256); (SAT_SV_SIG_ID_QZSS_L2CL, 256); (SAT_SV_SIG_ID_QZSS_L5I, 512);
    (SAT_SV_SIG_ID_QZSS_L5Q, 512)]);
  (SAT_SV_GNSS_ID_GLO, [(SAT_SV_SIG_ID_GLONASS_L1OF, 0); (SAT_SV_SIG_ID_GLONASS_L2OF, 256)]);
  (SAT_SV_GNSS_ID_IRN, [(SAT_SV_SIG_ID_NAVIC_L5A, 512)])].

Definition sigId_to_nmea2p3_svId (gnssId sigId svId : Z) : Z :=
  if gnssId =? SAT_SV_GNSS_ID_SBS then 1 else
  match cases gnssId sigId nmea2p3_offsets with Some d => u16 (svId + d) | None => 0 end.

(** The most common signals of the bands L5 and L2. *)
Definition nmea2p3_L5 : list (Z * Z) := [
  (SAT_SV_GNSS_ID_GPS, SAT_SV_SIG_ID_GPS_L5Q); (SAT_SV_GNSS_ID_SBS, 0);
  (SAT_SV_GNSS_ID_GAL, SAT_SV_SIG_ID_Galileo_E5); (SAT_SV_GNSS_ID_BEI, SAT_SV_SIG_ID_BeiDou_B2a);
  (SAT_SV_GNSS_ID_QZS, SAT_SV_SIG_ID_QZSS_L5); (SAT_SV_GNSS_ID_GLO, SAT_SV_SIG_ID_GLONASS_L2OF);
  (SAT_SV_GNSS_ID_IRN, SAT_SV_SIG_ID_NAVIC_L5A)].
Definition nmea2p3_L2 : list (Z * Z) := [
  (SAT_SV_GNSS_ID_GPS, SAT_SV_SIG_ID_GPS_L2CL); (SAT_SV_GNSS_ID_SBS, 0);
  (SAT_SV_GNSS_ID_GAL, SAT_SV_SIG_ID_Galileo_E5a); (SAT_SV_GNSS_ID_BEI, SAT_SV_SIG_ID_BeiDou_B2);
  (SAT_SV_GNSS_ID_QZS, SAT_SV_SIG_ID_QZSS_L2); (SAT_SV_GNSS_ID_GLO, SAT_SV_SIG_ID_GLONASS_L2OF);
  (SAT_SV_GNSS_ID_IRN, SAT_SV_SIG_ID_NAVIC_L5A)].

Definition nmea2p3_svid_to_sigId (gnssId svId : Z) : Z :=
  if svId <? 256 then 0 else
  default 0 (snd <$> find (fun e => fst e =? gnssId) (if 512 <=? svId then nmea2p3_L5 else nmea2p3_L2)).

(** The constellation, the number of the satellite and the signal: [sigId] is what the
    signal was, which is overwritten. *)
Definition talkerId_to_gnssId (version : Z) (a : list Z) (svId : Z) : Z * Z * Z :=
  let svIdLast := svId in
  let svId := if version <? NMEA_PROTOCOL_4P10 then
                if 512 <=? svId then svId - 512 else if 256 <=? svId then svId - 256 else svId
              else svId in
  let c := default 0 (nthZ a 2) in
  let '(gnssId, svId) :=
    if c =? 0x50 then
      if 193 <=? svId then (SAT_SV_GNSS_ID_QZS, svId - 192)
      else if 32 <? svId then (SAT_SV_GNSS_ID_SBS, if svId <=? 64 then svId + 87 else svId)
      else (SAT_SV_GNSS_ID_GPS, svId)
    else if c =? 0x41 then (SAT_SV_GNSS_ID_GAL, svId)
    else if c =? 0x42 then (SAT_SV_GNSS_ID_BEI, svId)
    else if c =? 0x4C then (SAT_SV_GNSS_ID_GLO, svId)
    else if c =? 0x49 then (SAT_SV_GNSS_ID_IRN, svId)
    else if c =? 0x51 then (SAT_SV_GNSS_ID_QZS, svId)
    else (SAT_SV_GNSS_ID_UNKNOWN, svId) in
  (gnssId, svId, nmea2p3_svid_to_sigId gnssId svIdLast).

(** ** Filters *)

Definition gsv_get_const_mask (constellation : Z) (mask : list Z) : option Z :=
  if constellation <? SAT_SV_GNSS_ID_COUNT then nthZ mask constellation else Some 0.

Definition gsv_bands : list (Z * list (Z * Z)) := [
  (SAT_SV_GNSS_ID_GPS, [(SAT_SV_SIG_ID_GPS_L1CA, NMEA_GNGSV_FREQ_BAND1_BIT);
    (SAT_SV_SIG_ID_GPS_L2CL, NMEA_GNGSV_FREQ_BAND2_BIT); (SAT_SV_SIG_ID_GPS_L2CM, NMEA_GNGSV_FREQ_BAND2_BIT);
    (SAT_SV_SIG_ID_GPS_L5I, NMEA_GNGSV_FREQ_5_BIT); (SAT_SV_SIG_ID_GPS_L5Q, NMEA_GNGSV_FREQ_5_BIT)]);
  (SAT_SV_GNSS_ID_SBS, [(SAT_SV_SIG_ID_SBAS_L1CA, NMEA_GNGSV_FREQ_BAND1_BIT);
    (SAT_SV_SIG_ID_SBAS_L2, NMEA_GNGSV_FREQ_BAND2_BIT); (SAT_SV_SIG_ID_SBAS_L5, NMEA_GNGSV_FREQ_5_BIT)]);
  (SAT_SV_GNSS_ID_GAL, [(SAT_SV_SIG_ID_Galileo_E1C2, NMEA_GNGSV_FREQ_BAND1_BIT);
    (SAT_SV_SIG_ID_Galileo_E1B2, NMEA_GNGSV_FREQ_BAND1_BIT); (SAT_SV_SIG_ID_Galileo_E5aI, NMEA_GNGSV_FREQ_5_BIT);
    (SAT_SV_SIG_ID_Galileo_E5aQ, NMEA_GNGSV_FREQ_5_BIT); (SAT_SV_SIG_ID_Galileo_E5bI, NMEA_GNGSV_FREQ_5_BIT);
    (SAT_SV_SIG_ID_Galileo_E5bQ, NMEA_GNGSV_FREQ_5_BIT)]);
  (SAT_SV_GNSS_ID_BEI, [(SAT_SV_SIG_ID_BeiDou_B1D1, NMEA_GNGSV_FREQ_BAND1_BIT);
    (SAT_SV_SIG_ID_BeiDou_B1D2, NMEA_GNGSV_FREQ_BAND1_BIT); (SAT_SV_SIG_ID_BeiDou_B1C, NMEA_GNGSV_FREQ_BAND1_BIT);
    (SAT_SV_SIG_ID_BeiDou_B2D1, NMEA_GNGSV_FREQ_BAND2_BIT); (SAT_SV_SIG_ID_BeiDou_B2D2, NMEA_GNGSV_FREQ_BAND2_BIT);
    (SAT_SV_SIG_ID_BeiDou_B2a, NMEA_GNGSV_FREQ_BAND2_BIT)]);
  (SAT_SV_GNSS_ID_QZS, [(SAT_SV_SIG_ID_QZSS_L1CA, NMEA_GNGSV_FREQ_BAND1_BIT);
    (SAT_SV_SIG_ID_QZSS_L1S, NMEA_GNGSV_FREQ_BAND1_BIT); (SAT_SV_SIG_ID_QZSS_L2CM, NMEA_GNGSV_FREQ_BAND2_BIT);
    (SAT_SV_SIG_ID_QZSS_L2CL, NMEA_GNGSV_FREQ_BAND2_BIT); (SAT_SV_SIG_ID_QZSS_L5I, NMEA_GNGSV_FREQ_5_BIT);
    (SAT_SV_SIG_ID_QZSS_L5Q, NMEA_GNGSV_FREQ_5_BIT)]);
  (SAT_SV_GNSS_ID_GLO, [(SAT_SV_SIG_ID_GLONASS_L1OF, NMEA_GNGSV_FREQ_BAND1_BIT);
    (SAT_SV_SIG_ID_GLONASS_L2OF, NMEA_GNGSV_FREQ_BAND2_BIT)])].

Definition gsv_freq_ena (mask : list Z) (s : gps_sig_sv_t) : option bool :=
  if SAT_SV_GNSS_ID_COUNT <=? sig_gnssId s then Some false else
  m ← nthZ mask (sig_gnssId s);
  Some match cases (sig_gnssId s) (sig_sigId s) gsv_bands with
       | Some bit => negb (Z.land m bit =? 0)
       | None => false
       end.

Definition prnToSvId (gnssId prn : Z) : Z := if gnssId =? SAT_SV_GNSS_ID_SBS then prn - 87 else prn.

Definition gsv_sig_match (gnssId sigId : Z) (s : gps_sig_sv_t) (noCno : bool) : bool :=
  if negb (Bool.eqb (sig_cno s =? 0) noCno) then false else
  if gnssId =? SAT_SV_GNSS_ID_GPS then
    if negb (sig_gnssId s =? gnssId) && negb (sig_gnssId s =? SAT_SV_GNSS_ID_SBS) then false
    else (sigId =? 0xFF) || (sig_sigId s =? sigId)
  else if gnssId =? SAT_SV_GNSS_ID_SBS then false
  else if negb (sig_gnssId s =? gnssId) then false
  else (sigId =? 0xFF) || (sig_sigId s =? sigId).

Section Gsv.
(** The protocol version, and the filters. *)
Context (s_protocol_version : Z) (mask : list Z).

Definition listed (gnssId sigId : Z) (noCno : bool) (s : gps_sig_sv_t) : option bool :=
  e ← gsv_freq_ena mask s; Some (e && gsv_sig_match gnssId sigId s noCno).

Fixpoint count_sigs (n : nat) (gnssId sigId : Z) (sig : gps_sig_t) (noCno : bool) : option Z :=
  match n with
  | O => Some 0
  | S n =>
    k ← count_sigs n gnssId sigId sig noCno;
    s ← nthZ (sigs sig) (Z.of_nat n);
    b ← listed gnssId sigId noCno s;
    Some (if b : bool then k + 1 else k)
  end.
Definition nmea_gsv_num_sat_sigs (gnssId sigId : Z) (sig : gps_sig_t) (noCno : bool) : option Z :=
  count_sigs (Z.to_nat (numSigs sig)) gnssId sigId sig noCno.

(** ** Printing *)

(** Three characters are written to a buffer of two, without a terminating zero. *)
Definition nmea_talker (a : list Z) (aSize gnssId : Z) : option (list Z * Z) :=
  if aSize <? 2 then Some (a, 0) else
  a ← memcpy a 0 (0x24 :: gnssId_to_talkerId gnssId) 3; Some (a, 3).

(** The satellite of a signal, from position [j] on: one behind the last is looked at. *)
Fixpoint find_sat (n : nat) (j : Z) (gsat : gps_sat_t) (s : gps_sig_sv_t) : option (option gps_sat_sv_t) :=
  match n with
  | O => Some None
  | S n =>
    if j <=? numSats gsat then
      sat ← nthZ (sats gsat) j;
      if (sat_gnssId sat =? sig_gnssId s) && (sat_svId sat =? sig_svId s) then Some (Some sat)
      else find_sat n (j + 1) gsat s
    else Some None
  end.

Definition print_sat (a : list Z) (aSize n gnssId : Z) (s : gps_sig_sv_t) (sat : gps_sat_sv_t)
    : option (list Z * Z) :=
  let svId := u16 (prnToSvId (sig_gnssId s) (sig_svId s)) in
  let svId := if s_protocol_version <? NMEA_PROTOCOL_4P10
              then sigId_to_nmea2p3_svId gnssId (sig_sigId s) svId else svId in
  '(a, n) ← nmea_sprint a aSize n (0x2C :: dec_text 2 svId);
  '(a, n) ← nmea_print_i32 a aSize n 2 (u32 (sat_elev sat));
  '(a, n) ← nmea_print_i32 a aSize n 3 (u32 (sat_azim sat));
  nmea_print_u32 a aSize n 2 (sig_cno s).

(** The signals of a sentence, from position [i] on; the position behind the last one is
    the first of the next sentence. *)
Fixpoint print_sats (fuel : nat) (a : list Z) (aSize n i cnt gnssId sigId : Z) (noCno : bool)
    (gsat : gps_sat_t) (gsig : gps_sig_t) : option (list Z * Z * Z) :=
  match fuel with
  | O => Some (a, n, i)
  | S fuel =>
    if (cnt <? 4) && (i <=? numSigs gsig) then
      s ← nthZ (sigs gsig) i;
      b ← listed gnssId sigId noCno s;
      if b : bool then
        found ← find_sat (Z.to_nat (numSats gsat + 1)) 0 gsat s;
        match found with
        | Some sat =>
          '(a, n) ← print_sat a aSize n gnssId s sat;
          print_sats fuel a aSize n (i + 1) (cnt + 1) gnssId sigId noCno gsat gsig
        | None => print_sats fuel a aSize n (i + 1) cnt gnssId sigId noCno gsat gsig
        end
      else print_sats fuel a aSize n (i + 1) cnt gnssId sigId noCno gsat gsig
    else Some (a, n, i)
  end.

(** One sentence, [msgNum] of [numMsgs]. *)
Definition gsv_message (a : list Z) (aSize numMsgs msgNum num i gnssId sigId : Z) (noCno : bool)
    (gsat : gps_sat_t) (gsig : gps_sig_t) : option (list Z * Z * Z) :=
  '(a, n) ← nmea_talker a aSize gnssId;
  '(a, n) ← nmea_sprint a aSize n (chars "GSV");
  '(a, n) ← nmea_sprint a aSize n
    (0x2C :: dec_text 0 numMsgs ++ 0x2C :: dec_text 0 msgNum ++ 0x2C :: dec_text 2 num);
  '(a, n, i) ← print_sats (Z.to_nat (numSigs gsig + 1)) a aSize n i 0 gnssId sigId noCno gsat gsig;
  '(a, n) ← (if NMEA_PROTOCOL_4P10 <=? s_protocol_version
             then nmea_sprint a aSize n [0x2C; sigId_to_nmea4p11_signalId gnssId sigId] else Some (a, n));
  '(a, n) ← nmea_sprint_footer a aSize n;
  Some (a, n, i).

(** The sentences, one behind the other. *)
Fixpoint gsv_messages (fuel : nat) (a : list Z) (aSize sigNum num i gnssId sigId : Z) (noCno : bool)
    (gsat : gps_sat_t) (gsig : gps_sig_t) : option (list Z * Z) :=
  match fuel with
  | O => Some (a, 0)
  | S fuel =>
    if sigNum <? num then
      '(a, n, i) ← gsv_message a aSize (Z.shiftr (num + 3) 2) (Z.shiftr sigNum 2 + 1) num i gnssId sigId
                     noCno gsat gsig;
      '(rest, m) ← gsv_messages fuel (dropZ n a) (aSize - n) (sigNum + 4) num i gnssId sigId noCno gsat gsig;
      Some (takeZ n a ++ rest, n + m)
    else Some (a, 0)
  end.

Definition nmea_gsv_group (a : list Z) (aSize : Z) (gsat : gps_sat_t) (gsig : gps_sig_t)
    (gnssId sigId : Z) (noCno : bool) : option (list Z * Z) :=
  num ← nmea_gsv_num_sat_sigs gnssId sigId gsig false;
  gsv_messages (Z.to_nat num) a aSize 0 num 0 gnssId sigId noCno gsat gsig.

Definition gsv_sigIds (gnssId : Z) : list Z :=
  if gnssId =? SAT_SV_GNSS_ID_GPS then
    [SAT_SV_SIG_ID_GPS_L1CA; SAT_SV_SIG_ID_GPS_L2CL; SAT_SV_SIG_ID_GPS_L2CM; SAT_SV_SIG_ID_GPS_L5I;
     SAT_SV_SIG_ID_GPS_L5Q]
  else if gnssId =? SAT_SV_GNSS_ID_GAL then
    [SAT_SV_SIG_ID_Galileo_E1C2; SAT_SV_SIG_ID_Galileo_E1B2; SAT_SV_SIG_ID_Galileo_E5aI;
     SAT_SV_SIG_ID_Galileo_E5aQ; SAT_SV_SIG_ID_Galileo_E5bI; SAT_SV_SIG_ID_Galileo_E5bQ]
  else if gnssId =? SAT_SV_GNSS_ID_BEI then
    [SAT_SV_SIG_ID_BeiDou_B1D1; SAT_SV_SIG_ID_BeiDou_B1D2; SAT_SV_SIG_ID_BeiDou_B2D1;
     SAT_SV_SIG_ID_BeiDou_B2D2; SAT_SV_SIG_ID_BeiDou_B1C; SAT_SV_SIG_ID_BeiDou_B2a]
  else if gnssId =? SAT_SV_GNSS_ID_QZS then
    [SAT_SV_SIG_ID_QZSS_L1CA; SAT_SV_SIG_ID_QZSS_L1S; SAT_SV_SIG_ID_QZSS_L2CM; SAT_SV_SIG_ID_QZSS_L2CL;
     SAT_SV_SIG_ID_QZSS_L5I; SAT_SV_SIG_ID_QZSS_L5Q]
  else if gnssId =? SAT_SV_GNSS_ID_GLO then [SAT_SV_SIG_ID_GLONASS_L1OF; SAT_SV_SIG_ID_GLONASS_L2OF]
  else if gnssId =? SAT_SV_GNSS_ID_IRN then [SAT_SV_SIG_ID_NAVIC_L5A]
  else [].

Fixpoint gsv_groups (a : list Z) (aSize : Z) (gsat : gps_sat_t) (gsig : gps_sig_t) (gnssId : Z)
    (sigIds : list Z) : option (list Z * Z) :=
  match sigIds with
  | [] => Some (a, 0)
  | sigId :: sigIds =>
    '(a, n) ← nmea_gsv_group a aSize gsat gsig gnssId sigId false;
    '(rest, m) ← gsv_groups (dropZ n a) (aSize - n) gsat gsig gnssId sigIds;
    Some (takeZ n a ++ rest, n + m)
  end.

Definition nmea_gsv_gnss (a : list Z) (aSize : Z) (gsat : gps_sat_t) (gsig : gps_sig_t) (gnssId : Z)
    : option (list Z * Z) :=
  if s_protocol_version <? NMEA_PROTOCOL_4P10 then nmea_gsv_group a aSize gsat gsig gnssId 0xFF false
  else gsv_groups a aSize gsat gsig gnssId (gsv_sigIds gnssId).

Fixpoint gsv_constellations (l : list Z) (a : list Z) (aSize : Z) (gsat : gps_sat_t) (gsig : gps_sig_t)
    : option (list Z * Z) :=
  match l with
  | [] => Some (a, 0)
  | gnssId :: l =>
    m ← nthZ mask gnssId;
    if negb (gnssId =? SAT_SV_GNSS_ID_SBS) && negb (m =? 0) then
      if 0 <? aSize then
        '(a, n) ← nmea_gsv_gnss a aSize gsat gsig gnssId;
        '(rest, m) ← gsv_constellations l (dropZ n a) (aSize - n) gsat gsig;
        Some (takeZ n a ++ rest, n + m)
      else Some (a, 0)
    else gsv_constellations l a aSize gsat gsig
  end.
Definition nmea_gsv (a : list Z) (aSize : Z) (gsat : gps_sat_t) (gsig : gps_sig_t) : option (list Z * Z) :=
  gsv_constellations [1; 2; 3; 4; 5; 6; 7] a aSize gsat gsig.

(** ** Reading *)

Definition s8 (x : Z) : Z := (x + 128) mod 256 - 128.

(** Whether a satellite is among the first [n], counted down. *)
Fixpoint has_sat (n : nat) (gnssId svId : Z) (l : list gps_sat_sv_t) : option bool :=
  match n with
  | O => Some false
  | S n =>
    b ← has_sat n gnssId svId l;
    if b : bool then Some true else
    s ← nthZ l (Z.of_nat n);
    Some ((gnssId =? sat_gnssId s) && (svId =? sat_svId s))
  end.

Definition add_sat (gnssId svId elev azim cno : Z) (t : gps_sat_t) : option gps_sat_t :=
  b ← has_sat (Z.to_nat (numSats t)) gnssId svId (sats t);
  if b : bool then Some t
  else if numSats t <? MAX_NUM_SATELLITES then
    _ ← nthZ (sats t) (numSats t);
    Some (GpsSat (numSats t + 1)
      (updZ (numSats t) [SatSv gnssId (u8 svId) (s8 elev) (s16 azim) cno 0x1F] (sats t)))
  else Some t.

(** A signal is added whether it is in the list or not; its position is remembered. *)
Definition add_sig (gnssId svId sigId cno : Z) (t : gps_sig_t) : option (gps_sig_t * list Z) :=
  if numSigs t <? MAX_NUM_SAT_SIGNALS then
    _ ← nthZ (sigs t) (numSigs t);
    Some (GpsSig (numSigs t + 1) (updZ (numSigs t) [SigSv gnssId (u8 svId) sigId cno 7 5] (sigs t)),
          [numSigs t])
  else Some (t, []).

Fixpoint read_sats (n : nat) (a ptr : list Z) (gnssId : Z) (gsat : gps_sat_t) (gsig : gps_sig_t)
    (added : list Z) (cnoSum cnoCount : Z)
    : option (list Z * Z * gps_sat_t * gps_sig_t * list Z * Z * Z) :=
  match n with
  | O => Some (ptr, gnssId, gsat, gsig, added, cnoSum, cnoCount)
  | S n =>
    let '(svId, ptr) := ASCII_to_u16 ptr in
    let '(elev, ptr) := ASCII_to_u8 ptr in
    let '(azim, ptr) := ASCII_to_u16 ptr in
    let '(cno, ptr) := ASCII_to_u8 ptr in
    let '(gnssId, svId, sigId) := talkerId_to_gnssId s_protocol_version a svId in
    gsat ← add_sat gnssId svId elev azim cno gsat;
    '(gsig, new) ← add_sig gnssId svId sigId cno gsig;
    let '(cnoSum, cnoCount) := if negb (cno =? 0) then (u32 (cnoSum + cno), u32 (cnoCount + 1))
                               else (cnoSum, cnoCount) in
    read_sats n a ptr gnssId gsat gsig (added ++ new) cnoSum cnoCount
  end.

Definition set_sigId (sigId i : Z) (l : list gps_sig_sv_t) : option (list gps_sig_sv_t) :=
  s ← nthZ l i;
  Some (updZ i [SigSv (sig_gnssId s) (sig_svId s) sigId (sig_cno s) (sig_quality s) (sig_status s)] l).

Fixpoint set_sigIds (sigId : Z) (added : list Z) (l : list gps_sig_sv_t) : option (list gps_sig_sv_t) :=
  match added with [] => Some l | i :: added => l ← set_sigId sigId i l; set_sigIds sigId added l end.

(** The lists, the sum and the count, and what follows the sentence. *)
Definition nmea_parse_gsv (a : list Z) (gpsSat : gps_sat_t) (gpsSig : gps_sig_t) (cnoSum cnoCount : Z)
    : option (list Z * gps_sat_t * gps_sig_t * Z * Z) :=
  if lenZ a <? 7 then None else
  let ptr := dropZ 7 a in
  let '(numMsgs, ptr) := ASCII_to_i32 ptr in
  let '(msgNum, ptr) := ASCII_to_i32 ptr in
  let '(num, ptr) := ASCII_to_i32 ptr in
  let satCnt := Z.min (s32 (num - s32 (s32 (msgNum - 1) * 4))) 4 in
  '(ptr, gnssId, gpsSat, gpsSig, added, cnoSum, cnoCount) ←
    read_sats (Z.to_nat satCnt) a ptr SAT_SV_GNSS_ID_UNKNOWN gpsSat gpsSig [] cnoSum cnoCount;
  if NMEA_PROTOCOL_4P10 <=? s_protocol_version then
    let sigId := nmea4p11_signalId_to_sigId gnssId (char_at ptr) in
    let ptr := ASCII_find_next_field ptr in
    l ← set_sigIds sigId added (sigs gpsSig);
    Some (dropZ 5 ptr, gpsSat, GpsSig (numSigs gpsSig) l, cnoSum, cnoCount)
  else Some (dropZ 5 ptr, gpsSat, gpsSig, cnoSum, cnoCount).

End Gsv.
End NmeaGsv.

(** * The lists of satellites and signals stay in their arrays

    Whatever a sentence says, reading it changes the lists only behind what they hold. *)

Module NmeaGsvProps.
Import NmeaGsv.

(** An array with [n] entries in use, of [m]. *)
Definition in_array {A} (m n : Z) (l : list A) : Prop := 0 <= n <= m /\ lenZ l = m.

(** Entries from [n] on up to [n'] may have been written. *)
Definition grown {A} (n : Z) (l : list A) (n' : Z) (l' : list A) : Prop :=
  n <= n' /\ lenZ l' = lenZ l /\ forall i, i < n \/ n' <= i -> nthZ l' i = nthZ l i.

Lemma grown_refl {A} n (l : list A) : grown n l n l.
Proof. by split. Qed.

Lemma grown_trans {A} n (l : list A) n1 l1 n2 l2 : grown n l n1 l1 -> grown n1 l1 n2 l2 -> grown n l n2 l2.
Proof.
  intros (H1 & H2 & H3) (H4 & H5 & H6). repeat split; [lia|congruence|].
  intros i Hi. rewrite H6 by lia. apply H3. lia.
Qed.

Lemma nthZ_set {A} (l : list A) i x : 0 <= i < lenZ l ->
  lenZ (updZ i [x] l) = lenZ l /\ forall j, j <> i -> nthZ (updZ i [x] l) j = nthZ l j.
Proof.
  intros Hi. change 1 with (lenZ [x]) in *. assert (lenZ [x] = 1) as L by done. split; [rewrite lenZ_updZ; lia|].
  intros j Hj. rewrite nthZ_updZ by lia. split_cmp; try done.
Qed.

Lemma grown_set {A} m n (l : list A) x : in_array m n l -> n < m ->
  in_array m (n + 1) (updZ n [x] l) /\ grown n l (n + 1) (updZ n [x] l).
Proof.
  intros (H1 & H2) Hn. destruct (nthZ_set l n x ltac:(lia)) as (Hl & Hj). unfold in_array, grown.
  repeat split; try lia. intros i Hi. apply Hj. lia.
Qed.

Definition sats_ok (t : gps_sat_t) : Prop := in_array MAX_NUM_SATELLITES (numSats t) (sats t).
Definition sigs_ok (t : gps_sig_t) : Prop := in_array MAX_NUM_SAT_SIGNALS (numSigs t) (sigs t).
Definition sats_grown (t t' : gps_sat_t) : Prop := grown (numSats t) (sats t) (numSats t') (sats t').
Definition sigs_grown (t t' : gps_sig_t) : Prop := grown (numSigs t) (sigs t) (numSigs t') (sigs t').

Lemma has_sat_total n gnssId svId l : Z.of_nat n <= lenZ l -> is_Some (has_sat n gnssId svId l).
Proof.
  induction n as [|n IH]; intros Hn; cbn [has_sat]; [by eexists|].
  destruct IH as [b ->]; [lia|]. cbn [mbind option_bind]. destruct b; [by eexists|].
  destruct (nthZ_Some l (Z.of_nat n)) as [s ->]; [lia|]. by eexists.
Qed.

Lemma add_sat_safe gnssId svId elev azim cno t : sats_ok t -> exists t',
  add_sat gnssId svId elev azim cno t = Some t' /\ sats_ok t' /\ sats_grown t t' /\ numSats t' <= numSats t + 1.
Proof.
  intros Ht. pose proof Ht as [Hn Hl]. unfold add_sat.
  destruct (has_sat_total (Z.to_nat (numSats t)) gnssId svId (sats t)) as [b ->]; [lia|]. cbn [mbind option_bind].
  assert (exists t', Some t = Some t' /\ sats_ok t' /\ sats_grown t t' /\ numSats t' <= numSats t + 1) as Hsame.
  { exists t. split; [done|]. split; [done|]. split; [apply grown_refl|lia]. }
  destruct b; [exact Hsame|]. destruct (Z.ltb_spec (numSats t) MAX_NUM_SATELLITES) as [Hlt|Hge]; [|exact Hsame].
  destruct (nthZ_Some (sats t) (numSats t)) as [s ->]; [lia|]. cbn [mbind option_bind]. eexists. split; [done|].
  unfold sats_ok, sats_grown. cbn [numSats sats].
  match goal with |- context [updZ _ [?x] _] => destruct (grown_set _ _ _ x Ht Hlt) end. split_and!; (done || lia).
Qed.

(** The positions that are remembered are among the new ones. *)
Lemma add_sig_safe gnssId svId sigId cno t : sigs_ok t -> exists t' new,
  add_sig gnssId svId sigId cno t = Some (t', new) /\ sigs_ok t' /\ sigs_grown t t' /\
  numSigs t' = Z.min MAX_NUM_SAT_SIGNALS (numSigs t + 1) /\
  Forall (fun i => numSigs t <= i < numSigs t') new.
Proof.
  intros Ht. pose proof Ht as [Hn Hl]. unfold add_sig.
  destruct (Z.ltb_spec (numSigs t) MAX_NUM_SAT_SIGNALS) as [Hlt|Hge].
  - destruct (nthZ_Some (sigs t) (numSigs t)) as [s ->]; [lia|]. cbn [mbind option_bind]. eexists _, _.
    split; [done|]. unfold sigs_ok, sigs_grown. cbn [numSigs sigs].
    match goal with |- context [updZ _ [?x] _] => destruct (grown_set _ _ _ x Ht Hlt) end.
    split_and!; try (done || lia). constructor; [lia|constructor].
  - exists t, []. split; [done|]. split; [done|]. split; [apply grown_refl|]. split; [lia|constructor].
Qed.

Lemma read_sats_safe version n : forall a ptr gnssId gsat gsig added cnoSum cnoCount,
  sats_ok gsat -> sigs_ok gsig -> exists ptr' gnssId' gsat' gsig' new cnoSum' cnoCount',
  read_sats version n a ptr gnssId gsat gsig added cnoSum cnoCount =
    Some (ptr', gnssId', gsat', gsig', added ++ new, cnoSum', cnoCount') /\
  (sats_ok gsat' /\ sats_grown gsat gsat' /\ numSats gsat' <= numSats gsat + Z.of_nat n) /\
  (sigs_ok gsig' /\ sigs_grown gsig gsig' /\
   numSigs gsig' = Z.min MAX_NUM_SAT_SIGNALS (numSigs gsig + Z.of_nat n)) /\
  Forall (fun i => numSigs gsig <= i < numSigs gsig') new.
Proof.
  induction n as [|n IH]; intros a ptr gnssId gsat gsig added cnoSum cnoCount Hsat Hsig.
  - exists ptr, gnssId, gsat, gsig, [], cnoSum, cnoCount. cbn [read_sats]. rewrite app_nil_r.
    pose proof Hsig as [H _]. split; [done|]. split; [split; [done|split; [apply grown_refl|lia]]|].
    split; [split; [done|split; [apply grown_refl|lia]]|constructor].
  - cbn [read_sats]. unfold ASCII_to_u16, ASCII_to_u8. cbv beta iota zeta.
    destruct (talkerId_to_gnssId version a _) as [[g sv] sg].
    match goal with |- context [add_sat g sv ?e ?z ?c gsat] =>
      destruct (add_sat_safe g sv e z c gsat Hsat) as (gsat1 & -> & Hsat1 & Hg1 & Hn1);
      destruct (add_sig_safe g sv sg c gsig Hsig) as (gsig1 & new1 & -> & Hsig1 & Hg2 & Hn2 & Hnew1) end.
    cbn [mbind option_bind].
    match goal with |- context [let '(x, y) := ?e in _] => destruct e as [s1 k1] end.
    match goal with |- context [read_sats version n a ?p g gsat1 gsig1 ?ad s1 k1] =>
      destruct (IH a p g gsat1 gsig1 ad s1 k1 Hsat1 Hsig1)
        as (p' & g' & gsat2 & gsig2 & new2 & s' & k' & -> & (Hsat2 & Hg3 & Hn3) & (Hsig2 & Hg4 & Hn4) & Hnew2) end.
    exists p', g', gsat2, gsig2, (new1 ++ new2), s', k'. rewrite app_assoc. split; [done|].
    split; [split; [done|]; split; [by eapply grown_trans|lia]|].
    split; [split; [done|]; split; [by eapply grown_trans|lia]|].
    pose proof Hg2 as [? _]. pose proof Hg4 as [? _]. apply Forall_app. split;
      [revert Hnew1|revert Hnew2]; apply Forall_impl; lia.
Qed.

Lemma set_sigIds_safe sigId n n' added : forall l, 0 <= n -> n' <= lenZ l ->
  Forall (fun i => n <= i < n') added ->
  exists l', set_sigIds sigId added l = Some l' /\ lenZ l' = lenZ l /\
    forall i, i < n \/ n' <= i -> nthZ l' i = nthZ l i.
Proof.
  induction added as [|i added IH]; intros l Hn Hn' H; cbn [set_sigIds]; [by exists l|].
  apply Forall_cons_iff in H as [Hi H]. unfold set_sigId.
  destruct (nthZ_Some l i) as [s ->]; [lia|]. cbn [mbind option_bind].
  match goal with |- context [updZ _ [?x] _] => destruct (nthZ_set l i x ltac:(lia)) as (Hl & Hj);
    destruct (IH (updZ i [x] l) Hn ltac:(lia) H) as (l' & -> & Hl' & Hj') end.
  exists l'. split; [done|]. split; [lia|]. intros j Hjr. rewrite Hj' by done. apply Hj. lia.
Qed.

(** C20: whatever a sentence of satellites says, whatever the protocol version is and
    however full the lists are, [nmea_parse_gsv] stays inside of the arrays: the
    satellites and signals the lists hold are unchanged, and so are the unused entries;
    at most four satellites are added, and as many signals as the sentence has, up to
    the size of the array. *)
Theorem parse_gsv_safe version a gsat gsig cnoSum cnoCount :
  7 <= lenZ a -> sats_ok gsat -> sigs_ok gsig ->
  exists rest gsat' gsig' cnoSum' cnoCount',
    nmea_parse_gsv version a gsat gsig cnoSum cnoCount = Some (rest, gsat', gsig', cnoSum', cnoCount') /\
    (sats_ok gsat' /\ sats_grown gsat gsat' /\ numSats gsat' <= numSats gsat + 4) /\
    (sigs_ok gsig' /\ sigs_grown gsig gsig' /\ numSigs gsig' <= numSigs gsig + 4).
Proof.
  intros Ha Hsat Hsig. unfold nmea_parse_gsv. rewrite (proj2 (Z.ltb_ge _ 7)) by lia. unfold ASCII_to_i32.
  cbv beta iota zeta. match goal with |- context [read_sats version ?n a ?p ?g gsat gsig [] ?s ?k] =>
    assert (Z.of_nat n <= 4) as Hn by lia;
    destruct (read_sats_safe version n a p g gsat gsig [] s k Hsat Hsig)
      as (p' & g' & gsat' & gsig' & new & s' & k' & -> & (H1 & H2 & H3) & (H4 & H5 & H6) & Hnew) end.
  cbn [mbind option_bind app]. pose proof Hsig as [H7 _]. pose proof H4 as [H8 H9]. destruct (_ <=? version).
  - destruct (set_sigIds_safe (nmea4p11_signalId_to_sigId g' (char_at p')) (numSigs gsig) (numSigs gsig') new
      (sigs gsig')) as (l & -> & Hl & Hj); [lia|lia|done|]. cbn [mbind option_bind].
    eexists _, gsat', _, s', k'. split; [done|]. split; [split_and!; (done || lia)|].
    unfold sigs_ok, sigs_grown, in_array, grown. cbn [numSigs sigs]. destruct H5 as (H10 & H11 & H12).
    split_and!; try lia. intros i Hi. rewrite Hj by done. by apply H12.
  - eexists _, gsat', gsig', s', k'. split; [done|]. split_and!; (done || lia).
Qed.
End NmeaGsvProps.
