(* ===== verification/NmeaGsvRoundtrip.v ===== *)
(** * The sentences of a group of signals

    What [nmea_gsv_group] prints: the signals of a constellation and a frequency that the
    filters let pass, four in each sentence, with the elevation and azimuth of their
    satellites.  From version 4.10 of the protocol on, [nmea_parse_gsv] reads the
    sentences, one after the other, as the same signals. *)

From Stdlib Require Import String.
From S2P Require Import Prelude Printf CommRx CommTx NmeaText NmeaInfo NmeaAsce NmeaGsv Checksum Nmea.
Import NmeaInfoProps NmeaAsceProps NmeaGsv NmeaGsvProps.
#[local] Open Scope string_scope.
#[local] Open Scope list_scope.
#[local] Open Scope Z_scope.

Module NmeaGsvPrint.

(** ** Printing at the end of a text *)

(** [f] appends [s] to the text in a buffer, when it fits. *)
Definition prints (f : list Z -> Z -> Z -> option (list Z * Z)) (s : list Z) : Prop :=
  forall pre rest size, lenZ pre + lenZ s < size -> lenZ s < lenZ rest ->
  exists rest', f (pre ++ rest) size (lenZ pre) = Some ((pre ++ s) ++ rest', lenZ (pre ++ s)) /\
    lenZ rest' = lenZ rest - lenZ s.

Lemma prints_bind f g s t : prints f s -> prints g t ->
  prints (fun a size n => '(a, n) ← f a size n; g a size n) (s ++ t).
Proof.
  intros Hf Hg pre rest size H1 H2. rewrite lenZ_app in *. pose proof (lenZ_nonneg s). pose proof (lenZ_nonneg t).
  destruct (Hf pre rest size) as (r1 & -> & L1); [lia|lia|]. cbn [mbind option_bind].
  destruct (Hg (pre ++ s) r1 size) as (r2 & -> & L2); [rewrite lenZ_app; lia|lia|].
  exists r2. rewrite <- !app_assoc, !lenZ_app. split; [do 2 f_equal|]; lia.
Qed.

Lemma prints_sprint s : prints (fun a size n => nmea_sprint a size n s) s.
Proof.
  intros pre rest size H1 H2. pose proof (lenZ_nonneg s). rewrite nmea_sprint_fits by lia.
  exists (0 :: dropZ (lenZ s + 1) rest). rewrite <- app_assoc, lenZ_app, lenZ_cons, lenZ_dropZ. split; [done|lia].
Qed.

(** Zero is an empty field. *)
Definition num_field (w : nat) (x : Z) : list Z := if x =? 0 then [] else int_text w x.

Lemma prints_i32 w x : prints (fun a size n => nmea_print_i32 a size n w x) (0x2C :: num_field w x).
Proof.
  intros pre rest size H1 H2. pose proof (lenZ_nonneg pre). unfold nmea_print_i32, num_field in *.
  destruct (x =? 0); cbn [negb] in *; rewrite lenZ_cons in *.
  - rewrite lenZ_nil in *. rewrite (proj2 (Z.leb_gt _ 0)) by lia. destruct rest as [|c rest]; [rewrite lenZ_nil in *; lia|].
    assert (lenZ [0x2C] = 1) as L by done. pose proof (lenZ_nonneg rest).
    rewrite memcpy_ok by (rewrite ?lenZ_app, ?lenZ_cons in *; lia). cbn [mbind option_bind]. change (takeZ 1 [0x2C]) with [0x2C].
    change (pre ++ c :: rest) with (pre ++ [c] ++ rest). rewrite updZ_middle by done.
    exists rest. rewrite <- app_assoc, lenZ_app, !lenZ_cons, lenZ_nil. split; [done|lia].
  - pose proof (lenZ_nonneg (int_text w x)). rewrite (proj2 (Z.leb_gt _ 0)) by lia.
    rewrite ssnprintf_fits by (rewrite ?lenZ_cons; lia). cbn [mbind option_bind].
    exists (0 :: dropZ (lenZ (0x2C :: int_text w x) + 1) rest).
    rewrite <- app_assoc, lenZ_app, !lenZ_cons, lenZ_dropZ. split; [done|lia].
Qed.

Lemma print_u32_i32 a size n w x : 0 <= x -> nmea_print_u32 a size n w x = nmea_print_i32 a size n w x.
Proof. intros Hx. unfold nmea_print_u32, nmea_print_i32. by rewrite int_text_dec. Qed.

Lemma prints_u32 w x : 0 <= x -> prints (fun a size n => nmea_print_u32 a size n w x) (0x2C :: num_field w x).
Proof.
  intros Hx pre rest size H1 H2. destruct (prints_i32 w x pre rest size H1 H2) as (r & E & L).
  exists r. by rewrite print_u32_i32.
Qed.

(** ** The signals of a group *)

(** The fields of a signal and its satellite. *)
Definition pick_fields (p : gps_sig_sv_t * gps_sat_sv_t) : list (list Z) :=
  [ dec_text 2 (u16 (prnToSvId (sig_gnssId (fst p)) (sig_svId (fst p))));
    num_field 2 (u32 (sat_elev (snd p))); num_field 3 (u32 (sat_azim (snd p))); num_field 2 (sig_cno (fst p)) ].
Definition picks_text (ps : list (gps_sig_sv_t * gps_sat_sv_t)) : list Z :=
  fields_text (concat (map pick_fields ps)).

Lemma picks_text_cons p ps : picks_text (p :: ps) = fields_text (pick_fields p) ++ picks_text ps.
Proof. unfold picks_text. cbn [map concat]. apply fields_app. Qed.

Section Group.
Context (version : Z) (mask : list Z) (gnssId sigId : Z) (gsat : gps_sat_t) (gsig : gps_sig_t).
Context (Hversion : NMEA_PROTOCOL_4P10 <= version).

Definition listedb (s : gps_sig_sv_t) : bool := default false (listed mask gnssId sigId false s).
Definition same_sat (s : gps_sig_sv_t) (t : gps_sat_sv_t) : bool :=
  (sat_gnssId t =? sig_gnssId s) && (sat_svId t =? sig_svId s).
Definition sat_of (s : gps_sig_sv_t) : option gps_sat_sv_t := find (same_sat s) (takeZ (numSats gsat + 1) (sats gsat)).
Definition pick (s : gps_sig_sv_t) : option (gps_sig_sv_t * gps_sat_sv_t) :=
  if listedb s then t ← sat_of s; Some (s, t) else None.
Definition picks (l : list gps_sig_sv_t) : list (gps_sig_sv_t * gps_sat_sv_t) := omap pick l.

(** The signals [ps] of a group: each signal that is listed has its satellite, and the entry
    behind the last signal is not listed. *)
Record group (ps : list (gps_sig_sv_t * gps_sat_sv_t)) : Prop := {
  gr_mask : lenZ mask = SAT_SV_GNSS_ID_COUNT;
  gr_sats : 0 <= numSats gsat < lenZ (sats gsat);
  gr_sigs : 0 <= numSigs gsig < lenZ (sigs gsig);
  gr_bytes : Forall (fun s => byte (sig_gnssId s) /\ byte (sig_cno s)) (takeZ (numSigs gsig + 1) (sigs gsig));
  gr_found : Forall (fun s => listedb s = true -> is_Some (sat_of s)) (takeZ (numSigs gsig) (sigs gsig));
  gr_behind : forall s, nthZ (sigs gsig) (numSigs gsig) = Some s -> listedb s = false;
  gr_picks : picks (takeZ (numSigs gsig) (sigs gsig)) = ps
}.

Lemma listed_total s : lenZ mask = SAT_SV_GNSS_ID_COUNT -> byte (sig_gnssId s) ->
  listed mask gnssId sigId false s = Some (listedb s).
Proof.
  intros Hm Hs. unfold listedb. enough (is_Some (listed mask gnssId sigId false s)) as [b ->] by done.
  unfold listed, gsv_freq_ena. destruct (Z.leb_spec SAT_SV_GNSS_ID_COUNT (sig_gnssId s)) as [H|H]; [by eexists|].
  unfold byte in Hs. destruct (nthZ_Some mask (sig_gnssId s)) as [m ->]; [lia|]. by eexists.
Qed.

Lemma nthZ_dropZ_cons {A} (l : list A) i : 0 <= i < lenZ l ->
  exists x, nthZ l i = Some x /\ dropZ i l = x :: dropZ (i + 1) l.
Proof.
  intros Hi. destruct (nthZ_Some l i Hi) as [x Hx]. exists x. split; [done|].
  unfold nthZ in Hx. rewrite (proj2 (Z.leb_le 0 i)) in Hx by lia. unfold dropZ.
  rewrite Z2Nat.inj_add by lia. rewrite Nat.add_1_r. by apply drop_S.
Qed.

Lemma find_sat_find s n : forall j, 0 <= j -> 0 <= numSats gsat < lenZ (sats gsat) ->
  numSats gsat + 1 - j <= Z.of_nat n ->
  find_sat n j gsat s = Some (find (same_sat s) (dropZ j (takeZ (numSats gsat + 1) (sats gsat)))).
Proof.
  induction n as [|n IH]; intros j Hj Hn Hf; cbn [find_sat].
  - unfold dropZ, takeZ. rewrite drop_ge by (rewrite length_take; lia). done.
  - destruct (Z.leb_spec j (numSats gsat)) as [H|H].
    + destruct (nthZ_dropZ_cons (takeZ (numSats gsat + 1) (sats gsat)) j) as (t & Ht & ->); [rewrite lenZ_takeZ; lia|].
      rewrite nthZ_takeZ in Ht. revert Ht. split_cmp; intros Ht; try done; try lia.
      rewrite Ht. cbn [mbind option_bind find]. unfold same_sat at 1.
      destruct (_ && _); [done|]. apply IH; lia.
    + unfold dropZ, takeZ. rewrite drop_ge by (rewrite length_take; lia). done.
Qed.

Lemma sat_printed s t : byte (sig_cno s) ->
  prints (fun a size n => print_sat version a size n gnssId s t) (fields_text (pick_fields (s, t))).
Proof.
  intros Hs. unfold print_sat. rewrite (proj2 (Z.ltb_ge _ _) Hversion).
  assert (fields_text (pick_fields (s, t)) =
    (0x2C :: dec_text 2 (u16 (prnToSvId (sig_gnssId s) (sig_svId s)))) ++
    (0x2C :: num_field 2 (u32 (sat_elev t))) ++ (0x2C :: num_field 3 (u32 (sat_azim t))) ++
    (0x2C :: num_field 2 (sig_cno s))) as ->.
  { unfold fields_text, pick_fields. cbn [map concat fst snd]. by rewrite app_nil_r. }
  apply (prints_bind (fun a size n => nmea_sprint a size n _)
    (fun a size n => '(a, n) ← nmea_print_i32 a size n 2 _; '(a, n) ← nmea_print_i32 a size n 3 _;
                     nmea_print_u32 a size n 2 _)); [apply prints_sprint|].
  apply (prints_bind (fun a size n => nmea_print_i32 a size n 2 _)
    (fun a size n => '(a, n) ← nmea_print_i32 a size n 3 _; nmea_print_u32 a size n 2 _)); [apply prints_i32|].
  apply (prints_bind (fun a size n => nmea_print_i32 a size n 3 _) (fun a size n => nmea_print_u32 a size n 2 _));
    [apply prints_i32|]. apply prints_u32. unfold byte in Hs. lia.
Qed.

(** The signals with the one behind the last. *)
Definition seen : list gps_sig_sv_t := takeZ (numSigs gsig + 1) (sigs gsig).

Lemma seen_behind i : numSigs gsig < i -> dropZ i seen = [].
Proof. intros H. unfold seen, dropZ, takeZ. apply drop_ge. rewrite length_take. lia. Qed.

Lemma seen_at ps i : group ps -> 0 <= i <= numSigs gsig -> exists s,
  nthZ (sigs gsig) i = Some s /\ dropZ i seen = s :: dropZ (i + 1) seen /\ byte (sig_gnssId s) /\ byte (sig_cno s).
Proof.
  intros [Hm Hsat Hsig Hb _ _ _] Hi. destruct (nthZ_dropZ_cons seen i) as (s & Hs & E).
  { unfold seen. rewrite lenZ_takeZ. lia. }
  exists s. unfold seen in Hs. pose proof Hs as Hs'. rewrite nthZ_takeZ in Hs.
  assert (nthZ (sigs gsig) i = Some s) as En by (revert Hs; split_cmp; intros Hs; done || lia).
  split; [done|]. split; [done|]. unfold nthZ in Hs'. rewrite (proj2 (Z.leb_le 0 i)) in Hs' by lia.
  exact (Forall_lookup_1 _ _ _ _ Hb Hs').
Qed.

Lemma sats_printed ps fuel : group ps -> forall i cnt pre rest size,
  0 <= i -> 0 <= cnt <= 4 -> numSigs gsig + 1 - i <= Z.of_nat fuel ->
  let s := picks_text (take (Z.to_nat (4 - cnt)) (picks (dropZ i seen))) in
  lenZ pre + lenZ s < size -> lenZ s < lenZ rest ->
  exists rest' i', print_sats version mask fuel (pre ++ rest) size (lenZ pre) i cnt gnssId sigId false gsat gsig =
    Some ((pre ++ s) ++ rest', lenZ (pre ++ s), i') /\ lenZ rest' = lenZ rest - lenZ s /\
    0 <= i' /\ picks (dropZ i' seen) = drop (Z.to_nat (4 - cnt)) (picks (dropZ i seen)).
Proof.
  intros Hg. induction fuel as [|fuel IH]; intros i cnt pre rest size Hi Hc Hf s H1 H2; cbn [print_sats].
  { exists rest, i. subst s. rewrite seen_behind by lia. change (picks []) with (@nil (gps_sig_sv_t * gps_sat_sv_t)).
    rewrite take_nil, drop_nil. change (picks_text []) with (@nil Z). rewrite app_nil_r, (@lenZ_nil Z). split_and!; (done || lia). }
  destruct (Z.ltb_spec cnt 4) as [Hlt|Hge]; cbn [andb].
  2:{ exists rest, i. subst s. assert (cnt = 4) as -> by lia. change (Z.to_nat (4 - 4)) with 0%nat. rewrite take_0, drop_0.
      change (picks_text []) with (@nil Z). rewrite app_nil_r, (@lenZ_nil Z). split_and!; (done || lia). }
  destruct (Z.leb_spec i (numSigs gsig)) as [Hle|Hgt].
  2:{ exists rest, i. subst s. rewrite seen_behind by lia. change (picks []) with (@nil (gps_sig_sv_t * gps_sat_sv_t)).
      rewrite take_nil, drop_nil. change (picks_text []) with (@nil Z). rewrite app_nil_r, (@lenZ_nil Z). split_and!; (done || lia). }
  destruct (seen_at ps i Hg (conj Hi Hle)) as (x & En & Ed & Hx & Hcno). rewrite En. cbn [mbind option_bind].
  rewrite listed_total by (apply Hg || done). cbn [mbind option_bind]. subst s. rewrite Ed in *.
  assert (picks (x :: dropZ (i + 1) seen) =
    match pick x with Some p => p :: picks (dropZ (i + 1) seen) | None => picks (dropZ (i + 1) seen) end) as Ep
    by reflexivity.
  rewrite Ep in *. unfold pick in *. destruct (listedb x); [|by apply IH; lia].
  rewrite find_sat_find by (lia || apply Hg). cbn [mbind option_bind]. rewrite dropZ_0. fold (sat_of x).
  destruct (sat_of x) as [t|]; cbn [mbind option_bind] in *; [|by apply IH; lia].
  replace (Z.to_nat (4 - cnt)) with (S (Z.to_nat (4 - (cnt + 1)))) in * by lia. cbn [take drop] in *.
  rewrite picks_text_cons, lenZ_app in *. set (f := fields_text (pick_fields (x, t))) in *.
  set (tl := picks_text _) in *. pose proof (lenZ_nonneg f). pose proof (lenZ_nonneg tl).
  destruct (sat_printed x t Hcno pre rest size) as (r1 & -> & L1); [fold f; lia|fold f; lia|]. fold f in L1 |- *.
  cbn [mbind option_bind].
  destruct (IH (i + 1) (cnt + 1) (pre ++ f) r1 size) as (r2 & i' & -> & L2 & Hi' & Ei'); try lia.
  { fold tl. rewrite lenZ_app. lia. } { fold tl. lia. }
  exists r2, i'. fold tl in L2 |- *. rewrite <- !app_assoc. split; [by rewrite !lenZ_app|]. split; [rewrite lenZ_app; lia|]. by split.
Qed.

(** ** One sentence *)

Definition gsv_body (numMsgs msgNum num : Z) (ps : list (gps_sig_sv_t * gps_sat_sv_t)) : list Z :=
  gnssId_to_talkerId gnssId ++ chars "GSV" ++
  (fields_text [dec_text 0 numMsgs; dec_text 0 msgNum; dec_text 2 num] ++ picks_text ps ++
   fields_text [[sigId_to_nmea4p11_signalId gnssId sigId]]).

Lemma header_printed numMsgs msgNum num :
  prints (fun a size n => '(a, n) ← nmea_sprint a size n (chars "GSV");
    nmea_sprint a size n (0x2C :: dec_text 0 numMsgs ++ 0x2C :: dec_text 0 msgNum ++ 0x2C :: dec_text 2 num))
    (chars "GSV" ++ fields_text [dec_text 0 numMsgs; dec_text 0 msgNum; dec_text 2 num]).
Proof.
  replace (fields_text [dec_text 0 numMsgs; dec_text 0 msgNum; dec_text 2 num]) with
    (0x2C :: dec_text 0 numMsgs ++ 0x2C :: dec_text 0 msgNum ++ 0x2C :: dec_text 2 num)
    by (unfold fields_text; cbn [map concat]; by rewrite app_nil_r).
  apply (prints_bind (fun a size n => nmea_sprint a size n _) (fun a size n => nmea_sprint a size n _));
    apply prints_sprint.
Qed.

Definition chunk (i : Z) : list (gps_sig_sv_t * gps_sat_sv_t) := take 4 (picks (dropZ i seen)).

Lemma message_printed ps buf size numMsgs msgNum num i : group ps -> 0 <= i ->
  let s := sentence (gsv_body numMsgs msgNum num (chunk i)) in lenZ s < size <= lenZ buf ->
  exists rest' i', gsv_message version mask buf size numMsgs msgNum num i gnssId sigId false gsat gsig =
    Some (s ++ rest', lenZ s, i') /\ lenZ rest' = lenZ buf - lenZ s /\
    0 <= i' /\ picks (dropZ i' seen) = drop 4 (picks (dropZ i seen)).
Proof.
  intros Hg Hi s Hs. set (h := chars "GSV" ++ fields_text [dec_text 0 numMsgs; dec_text 0 msgNum; dec_text 2 num]).
  set (p := picks_text (chunk i)). set (e := fields_text [[sigId_to_nmea4p11_signalId gnssId sigId]]).
  set (tk := 0x24 :: gnssId_to_talkerId gnssId).
  assert (0x24 :: gsv_body numMsgs msgNum num (chunk i) = ((tk ++ h) ++ p) ++ e) as Eb
    by (unfold gsv_body, tk, h; by rewrite <- !app_assoc).
  pose proof (lenZ_nonneg h). pose proof (lenZ_nonneg p). pose proof (lenZ_nonneg (gsv_body numMsgs msgNum num (chunk i))).
  pose proof (lenZ_nonneg e). assert (lenZ tk = 3) as Lt by reflexivity.
  pose proof (lenZ_nonneg (footer (gsv_body numMsgs msgNum num (chunk i)))).
  assert (lenZ s = 3 + lenZ h + lenZ p + lenZ e + lenZ (footer (gsv_body numMsgs msgNum num (chunk i)))) as Ls.
  { apply (f_equal lenZ) in Eb. rewrite !lenZ_app, lenZ_cons in Eb. subst s. unfold sentence.
    rewrite lenZ_cons, lenZ_app. lia. }
  unfold gsv_message, nmea_talker. rewrite (proj2 (Z.ltb_ge size 2)) by lia. fold tk.
  assert (memcpy buf 0 tk 3 = Some (tk ++ dropZ 3 buf)) as ->.
  { rewrite memcpy_ok by lia. rewrite takeZ_all by lia. unfold updZ. by rewrite takeZ_0, Z.add_0_l, Lt. }
  cbn [mbind option_bind]. change (nmea_sprint (tk ++ dropZ 3 buf) size 3) with (nmea_sprint (tk ++ dropZ 3 buf) size (lenZ tk)).
  destruct (header_printed numMsgs msgNum num tk (dropZ 3 buf) size) as (r1 & E1 & L1);
    [fold h; lia|fold h; rewrite lenZ_dropZ; lia|]. fold h in E1, L1. rewrite lenZ_dropZ in L1.
  destruct (sats_printed ps (Z.to_nat (numSigs gsig + 1)) Hg i 0 (tk ++ h) r1 size) as (r2 & i' & E2 & L2 & Hi' & Ei');
    try (change (Z.to_nat (4 - 0)) with 4%nat; fold (chunk i); fold p; rewrite ?lenZ_app); try lia.
  change (Z.to_nat (4 - 0)) with 4%nat in *. fold (chunk i) in E2, L2. fold p in E2, L2.
  destruct (prints_sprint e ((tk ++ h) ++ p) r2 size) as (r3 & E3 & L3); [rewrite !lenZ_app; lia|lia|].
  destruct (nmea_sprint _ _ _ (chars "GSV")) as [[a1 n1]|]; [|done]. cbn [mbind option_bind] in E1 |- *.
  rewrite E1. cbn [mbind option_bind]. rewrite E2. cbn [mbind option_bind].
  rewrite (proj2 (Z.leb_le _ _) Hversion). change [0x2C; sigId_to_nmea4p11_signalId gnssId sigId] with e.
  rewrite E3. cbn [mbind option_bind]. rewrite <- Eb, lenZ_cons. rewrite footer_fits; [|exact (proj1 Hs)|lia].
  cbn [mbind option_bind]. eexists _, i'. split; [done|]. rewrite lenZ_cons, lenZ_dropZ. split; [|done]. lia.
Qed.

(** ** All sentences *)

(** The sentences from the signal number [sigNum] on. *)
Fixpoint texts (fuel : nat) (sigNum num : Z) (ps : list (gps_sig_sv_t * gps_sat_sv_t)) : list Z :=
  match fuel, ps with
  | S fuel, _ :: _ =>
    sentence (gsv_body (Z.shiftr (num + 3) 2) (Z.shiftr sigNum 2 + 1) num (take 4 ps)) ++
    texts fuel (sigNum + 4) num (drop 4 ps)
  | _, _ => []
  end.

Lemma texts_cons fuel sigNum num ps : ps <> [] -> texts (S fuel) sigNum num ps =
  sentence (gsv_body (Z.shiftr (num + 3) 2) (Z.shiftr sigNum 2 + 1) num (take 4 ps)) ++
  texts fuel (sigNum + 4) num (drop 4 ps).
Proof. by destruct ps. Qed.

Lemma messages_printed ps fuel : group ps -> forall sigNum num i buf size, 0 <= i ->
  let ps := picks (dropZ i seen) in
  lenZ ps = Z.max 0 (num - sigNum) -> (length ps <= fuel)%nat ->
  let out := texts fuel sigNum num ps in
  lenZ out < size <= lenZ buf ->
  exists rest', gsv_messages version mask fuel buf size sigNum num i gnssId sigId false gsat gsig =
    Some (out ++ rest', lenZ out).
Proof.
  intros Hg. induction fuel as [|fuel IH]; intros sigNum num i buf size Hi rem Hn Hf out Hs.
  { by exists buf. }
  cbn [gsv_messages]. destruct (Z.ltb_spec sigNum num) as [Hlt|Hge].
  2:{ exists buf. subst out. destruct rem as [|p rem]; [done|]. rewrite lenZ_cons in Hn. pose proof (lenZ_nonneg rem). lia. }
  assert (rem <> []) as Hne by (intros E; rewrite E, lenZ_nil in Hn; lia).
  subst out. rewrite texts_cons, lenZ_app in * by done. set (s := sentence _) in *.
  set (tl := texts fuel _ _ _) in *. pose proof (lenZ_nonneg s). pose proof (lenZ_nonneg tl).
  destruct (message_printed ps buf size (Z.shiftr (num + 3) 2) (Z.shiftr sigNum 2 + 1) num i Hg Hi)
    as (r & i' & -> & Lr & Hi' & Ei'); [change (lenZ s < size <= lenZ buf); lia|].
  unfold chunk in Lr |- *. fold rem s in Lr, Ei' |- *. cbn [mbind option_bind]. rewrite dropZ_app_len, takeZ_app_len.
  destruct (IH (sigNum + 4) num i' r (size - lenZ s) Hi') as (r' & E).
  - rewrite Ei'. unfold lenZ in *. rewrite length_drop. lia.
  - rewrite Ei', length_drop. destruct rem; [done|]. cbn [length] in *. lia.
  - rewrite Ei'. fold tl. lia.
  - rewrite Ei' in E. fold tl in E. rewrite E. cbn [mbind option_bind]. exists r'. by rewrite <- app_assoc.
Qed.

Lemma sigs_counted ps n : group ps -> (n <= Z.to_nat (numSigs gsig))%nat ->
  count_sigs mask n gnssId sigId gsig false = Some (lenZ (picks (take n (sigs gsig)))).
Proof.
  intros Hg. induction n as [|n IH]; intros Hn; [done|]. cbn [count_sigs]. rewrite IH by lia. cbn [mbind option_bind].
  destruct (seen_at ps (Z.of_nat n) Hg) as (x & En & _ & Hx & _); [lia|]. rewrite En. cbn [mbind option_bind].
  rewrite listed_total by (apply Hg || done). cbn [mbind option_bind].
  unfold nthZ in En. rewrite (proj2 (Z.leb_le 0 _)), Nat2Z.id in En by lia.
  rewrite (take_S_r _ _ _ En). unfold picks. rewrite omap_app, lenZ_app. cbn [omap list_omap]. unfold pick.
  destruct (listedb x) eqn:El; [|by rewrite lenZ_nil, Z.add_0_r].
  assert (is_Some (sat_of x)) as [t ->].
  { refine (Forall_lookup_1 _ _ n x (gr_found _ Hg) _ El). unfold takeZ. by rewrite lookup_take_lt by lia. }
  done.
Qed.

Lemma picks_seen ps : group ps -> picks seen = ps.
Proof.
  intros Hg. pose proof (gr_sigs _ Hg). destruct (nthZ_Some (sigs gsig) (numSigs gsig)) as [x Hx]; [lia|].
  pose proof (gr_behind _ Hg x Hx) as Hb. unfold nthZ in Hx. rewrite (proj2 (Z.leb_le 0 _)) in Hx by lia.
  unfold seen, takeZ. rewrite Z2Nat.inj_add, Nat.add_1_r by lia. rewrite (take_S_r _ _ _ Hx).
  unfold picks. rewrite omap_app. cbn [omap list_omap]. unfold pick at 2. rewrite Hb, app_nil_r. apply Hg.
Qed.

Definition group_text (ps : list (gps_sig_sv_t * gps_sat_sv_t)) : list Z := texts (length ps) 0 (lenZ ps) ps.

Lemma group_printed ps buf size : group ps -> lenZ (group_text ps) < size <= lenZ buf -> exists rest',
  nmea_gsv_group version mask buf size gsat gsig gnssId sigId false =
  Some (group_text ps ++ rest', lenZ (group_text ps)).
Proof.
  intros Hg Hs. unfold nmea_gsv_group, nmea_gsv_num_sat_sigs. rewrite (sigs_counted ps) by done.
  change (take (Z.to_nat (numSigs gsig)) (sigs gsig)) with (takeZ (numSigs gsig) (sigs gsig)).
  rewrite (gr_picks _ Hg). cbn [mbind option_bind]. pose proof (lenZ_nonneg ps).
  destruct (messages_printed ps (length ps) Hg 0 (lenZ ps) 0 buf size) as (r & E);
    rewrite ?dropZ_0, ?(picks_seen ps Hg) in *; [lia|lia|done|exact Hs|].
  exists r. unfold group_text. rewrite <- E. f_equal. unfold lenZ. lia.
Qed.
End Group.
End NmeaGsvPrint.
Import NmeaGsvPrint.

Module NmeaGsvRoundtrip.

#[local] Abbreviation reading := (gps_sig_sv_t * gps_sat_sv_t)%type.

(** A satellite of a constellation; those of SBAS are listed with the ones of GPS. *)
Definition known (gnssId : Z) (s : gps_sig_sv_t) : Prop :=
  (sig_gnssId s = gnssId /\ gnssId ∈ [SAT_SV_GNSS_ID_GAL; SAT_SV_GNSS_ID_BEI; SAT_SV_GNSS_ID_QZS; SAT_SV_GNSS_ID_GLO]
   /\ byte (sig_svId s)) \/
  (sig_gnssId s = gnssId /\ gnssId = SAT_SV_GNSS_ID_GPS /\ 1 <= sig_svId s <= 32) \/
  (sig_gnssId s = SAT_SV_GNSS_ID_SBS /\ gnssId = SAT_SV_GNSS_ID_GPS /\ 120 <= sig_svId s <= 151).

Record pick_ok (gnssId : Z) (p : reading) : Prop := {
  pk_known : known gnssId (fst p);
  pk_cno : byte (sig_cno (fst p));
  pk_elev : -128 <= sat_elev (snd p) < 128;
  pk_azim : -32768 <= sat_azim (snd p) < 32768
}.

(** What is read of a signal. *)
Definition read_sat (p : reading) : gps_sat_sv_t :=
  SatSv (sig_gnssId (fst p)) (sig_svId (fst p)) (sat_elev (snd p)) (sat_azim (snd p)) (sig_cno (fst p)) 0x1F.
Definition read_sig (sigId : Z) (p : reading) : gps_sig_sv_t :=
  SigSv (sig_gnssId (fst p)) (sig_svId (fst p)) sigId (sig_cno (fst p)) 7 5.

(** A satellite that is in the list is not added again. *)
Definition see (l : list gps_sat_sv_t) (p : reading) : list gps_sat_sv_t :=
  if existsb (fun t => (sig_gnssId (fst p) =? sat_gnssId t) && (sig_svId (fst p) =? sat_svId t)) l
  then l else l ++ [read_sat p].
Definition add_cno (n : Z * Z) (p : reading) : Z * Z :=
  if negb (sig_cno (fst p) =? 0) then (u32 (fst n + sig_cno (fst p)), u32 (snd n + 1)) else n.

(** ** Fields *)

Lemma to_int_32 x : 0 <= x < 4294967296 -> to_int x = s32 x.
Proof. intros H. unfold to_int. by rewrite Z.min_r, Z.max_r by lia. Qed.

Lemma atoi_dec w x rest : (w <= 10)%nat -> 0 <= x < 4294967296 -> no_digit rest -> atoi (dec_text w x ++ rest) = s32 x.
Proof.
  intros Hw Hx Hr. unfold atoi. rewrite scan_dec; [by rewrite to_int_32|lia|rewrite length_app; lia|by right].
Qed.

Lemma num_field_at w x fs k : (w <= 10)%nat -> 0 <= x < 4294967296 ->
  atoi (num_field w x ++ fields_text fs ++ 0x2A :: k) = s32 x /\
  ASCII_find_next_field (num_field w x ++ fields_text fs ++ 0x2A :: k) = ptr_of fs (0x2A :: k).
Proof.
  intros Hw Hx. unfold num_field. destruct (Z.eqb_spec x 0) as [->|Hne].
  - split; [by destruct fs|by apply (next_ptr [])].
  - split; [|apply next_ptr, int_text_plain]. rewrite int_text_dec by lia.
    apply atoi_dec; [done|done|by apply no_digit_fields].
Qed.

Lemma dec_field_at w x fs k : (w <= 10)%nat -> 0 <= x < 2147483648 ->
  atoi (dec_text w x ++ fields_text fs ++ 0x2A :: k) = x /\
  ASCII_find_next_field (dec_text w x ++ fields_text fs ++ 0x2A :: k) = ptr_of fs (0x2A :: k).
Proof.
  intros Hw Hx. split; [|apply next_ptr, dec_text_plain].
  rewrite atoi_dec; [unfold s32; rewrite Z.mod_small; lia|done|lia|by apply no_digit_fields].
Qed.

(** ** One signal *)

Definition talker_of (gnssId : Z) : Z := default 0 (nthZ (gnssId_to_talkerId gnssId) 1).

(** The number that is printed names the satellite. *)
Lemma talker_known version a gnssId s : NMEA_PROTOCOL_4P10 <= version -> known gnssId s ->
  nthZ a 2 = Some (talker_of gnssId) ->
  talkerId_to_gnssId version a (u16 (prnToSvId (sig_gnssId s) (sig_svId s))) = (sig_gnssId s, sig_svId s, 0) /\
  0 <= u16 (prnToSvId (sig_gnssId s) (sig_svId s)) < 256.
Proof.
  intros Hv Hk Ha. unfold talkerId_to_gnssId. rewrite (proj2 (Z.ltb_ge version _)) by done. rewrite Ha.
  destruct Hk as [(E & Hg & Hs)|[(E & -> & Hs)|(E & -> & Hs)]]; rewrite E.
  - unfold u16, byte in *. rewrite !elem_of_cons, elem_of_nil in Hg.
    destruct Hg as [->|[->|[->|[->|[]]]]];
      match goal with |- context [prnToSvId ?g ?sv] => change (prnToSvId g sv) with sv end;
      rewrite Z.mod_small by lia; (split; [|lia]); cbn; unfold nmea2p3_svid_to_sigId;
      by rewrite (proj2 (Z.ltb_lt _ 256)) by lia.
  - match goal with |- context [prnToSvId ?g ?sv] => change (prnToSvId g sv) with sv end.
    unfold u16. rewrite Z.mod_small by lia. split; [|lia]. cbn.
    rewrite (proj2 (Z.leb_gt 193 _)), (proj2 (Z.ltb_ge 32 _)) by lia.
    unfold nmea2p3_svid_to_sigId. by rewrite (proj2 (Z.ltb_lt _ 256)) by lia.
  - match goal with |- context [prnToSvId ?g ?sv] => change (prnToSvId g sv) with (sv - 87) end.
    unfold u16. rewrite Z.mod_small by lia. split; [|lia]. cbn.
    rewrite (proj2 (Z.leb_gt 193 _)), (proj2 (Z.ltb_lt 32 _)), (proj2 (Z.leb_le _ 64)) by lia.
    unfold nmea2p3_svid_to_sigId. rewrite (proj2 (Z.ltb_lt _ 256)) by lia. f_equal. f_equal. lia.
Qed.

(** ** Lists in arrays *)

(** The first [n] entries of an array of [m] are the list. *)
Definition holds {A} (m : Z) (l : list A) (n : Z) (a : list A) : Prop := n = lenZ l /\ lenZ a = m /\ takeZ n a = l.

Lemma holds_push {A} m (l : list A) n a x : holds m l n a -> lenZ l < m ->
  is_Some (nthZ a n) /\ holds m (l ++ [x]) (n + 1) (updZ n [x] a).
Proof.
  intros (-> & Hm & Ht) Hl. pose proof (lenZ_nonneg l). split; [apply nthZ_Some; lia|].
  assert (lenZ [x] = 1) as L by done. unfold holds. rewrite lenZ_app, L, lenZ_updZ by lia.
  split; [done|]. split; [lia|]. unfold updZ. rewrite Ht, app_assoc.
  replace (lenZ l + 1) with (lenZ (l ++ [x])) by (rewrite lenZ_app; lia). apply takeZ_app_len.
Qed.

Definition holds_sats (l : list gps_sat_sv_t) (t : gps_sat_t) : Prop := holds MAX_NUM_SATELLITES l (numSats t) (sats t).
Definition holds_sigs (l : list gps_sig_sv_t) (t : gps_sig_t) : Prop := holds MAX_NUM_SAT_SIGNALS l (numSigs t) (sigs t).

Lemma has_sat_existsb n g sv l : (n <= length l)%nat ->
  has_sat n g sv l = Some (existsb (fun t => (g =? sat_gnssId t) && (sv =? sat_svId t)) (take n l)).
Proof.
  induction n as [|n IH]; intros Hn; [done|]. cbn [has_sat]. rewrite IH by lia. cbn [mbind option_bind].
  destruct (lookup_lt_is_Some_2 l n) as [t Ht]; [lia|]. rewrite (take_S_r _ _ _ Ht), existsb_app.
  destruct (existsb _ (take n l)); [done|]. unfold nthZ. rewrite (proj2 (Z.leb_le 0 _)), Nat2Z.id, Ht by lia.
  cbn [mbind option_bind existsb orb]. by rewrite orb_false_r.
Qed.

Lemma lenZ_see l p : lenZ l <= lenZ (see l p) <= lenZ l + 1.
Proof. unfold see. destruct (existsb _ l); [lia|]. rewrite lenZ_app. change (lenZ [read_sat p]) with 1. lia. Qed.

Lemma add_sat_seen gnssId l p t : holds_sats l t -> lenZ l < MAX_NUM_SATELLITES -> pick_ok gnssId p ->
  byte (sig_svId (fst p)) -> exists t',
  add_sat (sig_gnssId (fst p)) (sig_svId (fst p)) (u8 (s32 (u32 (sat_elev (snd p))))) (u16 (s32 (u32 (sat_azim (snd p)))))
    (u8 (sig_cno (fst p))) t = Some t' /\ holds_sats (see l p) t'.
Proof.
  intros Ht Hl [Hk Hc He Ha] Hsv. unfold byte in *. pose proof Ht as (En & Em & Et). unfold add_sat.
  rewrite has_sat_existsb by (unfold MAX_NUM_SATELLITES in *; unfold lenZ in *; lia). cbn [mbind option_bind].
  unfold takeZ in Et. rewrite Et. unfold see. destruct (existsb _ l); [by exists t|].
  rewrite (proj2 (Z.ltb_lt _ _)) by lia.
  assert (SatSv (sig_gnssId (fst p)) (u8 (sig_svId (fst p))) (s8 (u8 (s32 (u32 (sat_elev (snd p))))))
    (s16 (u16 (s32 (u32 (sat_azim (snd p)))))) (u8 (sig_cno (fst p))) 0x1F = read_sat p) as ->.
  { unfold read_sat, u8, s8, s16, u16, s32, u32. f_equal; zlia. }
  destruct (holds_push _ _ _ _ (read_sat p) Ht Hl) as [[x ->] Hp]. cbn [mbind option_bind]. by eexists.
Qed.

Lemma add_sig_read l p t : holds_sigs l t -> lenZ l < MAX_NUM_SAT_SIGNALS ->
  byte (sig_svId (fst p)) -> byte (sig_cno (fst p)) -> exists t',
  add_sig (sig_gnssId (fst p)) (sig_svId (fst p)) 0 (u8 (sig_cno (fst p))) t = Some (t', [lenZ l]) /\
  holds_sigs (l ++ [read_sig 0 p]) t'.
Proof.
  intros Ht Hl Hs Hc. unfold byte in *. pose proof Ht as (En & Em & Et). unfold add_sig.
  rewrite (proj2 (Z.ltb_lt _ _)) by lia.
  assert (SigSv (sig_gnssId (fst p)) (u8 (sig_svId (fst p))) 0 (u8 (sig_cno (fst p))) 7 5 = read_sig 0 p) as ->.
  { unfold read_sig, u8. by rewrite !Z.mod_small by lia. }
  destruct (holds_push _ _ _ _ (read_sig 0 p) Ht Hl) as [[x ->] Hp]. cbn [mbind option_bind].
  rewrite <- En. by eexists.
Qed.

(** ** One sentence *)

Lemma known_byte gnssId s : known gnssId s -> byte (sig_svId s).
Proof. unfold known, byte. intuition lia. Qed.

(** The constellation of the last signal. *)
Definition last_gnss (gnssId : Z) (ps : list reading) : Z := fold_left (fun _ p => sig_gnssId (fst p)) ps gnssId.

Lemma chunk_read version gnssId a ps : NMEA_PROTOCOL_4P10 <= version -> nthZ a 2 = Some (talker_of gnssId) ->
  Forall (pick_ok gnssId) ps -> forall fs k gn tsat tsig lsat lsig added sum cnt,
  holds_sats lsat tsat -> holds_sigs lsig tsig ->
  lenZ lsat + lenZ ps <= MAX_NUM_SATELLITES -> lenZ lsig + lenZ ps <= MAX_NUM_SAT_SIGNALS ->
  exists tsat' tsig',
  read_sats version (length ps) a (ptr_of (concat (map pick_fields ps) ++ fs) (0x2A :: k)) gn tsat tsig added sum cnt =
    Some (ptr_of fs (0x2A :: k), last_gnss gn ps, tsat', tsig', added ++ seqZ (lenZ lsig) (lenZ ps),
          fst (fold_left add_cno ps (sum, cnt)), snd (fold_left add_cno ps (sum, cnt))) /\
  holds_sats (fold_left see ps lsat) tsat' /\ holds_sigs (lsig ++ map (read_sig 0) ps) tsig'.
Proof.
  intros Hv Ha. induction 1 as [|p ps Hp Hps IH]; intros fs k gn tsat tsig lsat lsig added sum cnt Hsat Hsig H1 H2.
  - exists tsat, tsig. cbn [read_sats length map concat app fold_left]. rewrite !app_nil_r. done.
  - rewrite lenZ_cons in *. pose proof (lenZ_nonneg ps). pose proof Hp as [Hk Hc He Haz]. unfold byte in Hc.
    destruct (talker_known version a gnssId (fst p) Hv Hk Ha) as [Etk Hb]. pose proof (known_byte _ _ Hk) as Hsv.
    cbn [length read_sats map concat]. rewrite <- app_assoc. unfold pick_fields at 1. cbn [app ptr_of].
    set (fs' := concat (map pick_fields ps) ++ fs). unfold ASCII_to_u16, ASCII_to_u8.
    set (v := u16 (prnToSvId _ _)) in *.
    destruct (dec_field_at 2 v (num_field 2 (u32 (sat_elev (snd p))) :: num_field 3 (u32 (sat_azim (snd p))) ::
      num_field 2 (sig_cno (fst p)) :: fs') k ltac:(lia) ltac:(lia)) as [-> ->]. cbn [ptr_of].
    destruct (num_field_at 2 (u32 (sat_elev (snd p))) (num_field 3 (u32 (sat_azim (snd p))) ::
      num_field 2 (sig_cno (fst p)) :: fs') k ltac:(lia)) as [-> ->]; [unfold u32; zlia|]. cbn [ptr_of].
    destruct (num_field_at 3 (u32 (sat_azim (snd p))) (num_field 2 (sig_cno (fst p)) :: fs') k ltac:(lia))
      as [-> ->]; [unfold u32; zlia|]. cbn [ptr_of].
    destruct (num_field_at 2 (sig_cno (fst p)) fs' k ltac:(lia)) as [-> ->]; [lia|].
    assert (s32 (sig_cno (fst p)) = sig_cno (fst p)) as -> by (unfold s32; zlia).
    assert (forall x, 0 <= x < 256 -> u16 x = x) as Hu by (intros x Hx; unfold u16; zlia).
    rewrite (Hu _ Hb), Etk. cbv iota beta.
    destruct (add_sat_seen gnssId lsat p tsat Hsat ltac:(lia) Hp Hsv) as (tsat1 & -> & Hsat1). cbn [mbind option_bind].
    destruct (add_sig_read lsig p tsig Hsig ltac:(lia) Hsv Hc) as (tsig1 & -> & Hsig1). cbn [mbind option_bind].
    assert (u8 (sig_cno (fst p)) = sig_cno (fst p)) as -> by (unfold u8; zlia).
    pose proof (lenZ_see lsat p).
    assert (lenZ (lsig ++ [read_sig 0 p]) = lenZ lsig + 1) as Ll by (rewrite lenZ_app; done).
    destruct (IH fs k (sig_gnssId (fst p)) tsat1 tsig1 _ _ (added ++ [lenZ lsig]) (fst (add_cno (sum, cnt) p))
      (snd (add_cno (sum, cnt) p)) Hsat1 Hsig1 ltac:(lia) ltac:(lia)) as (tsat2 & tsig2 & E & Hsat2 & Hsig2).
    exists tsat2, tsig2. cbn [fold_left map]. rewrite <- app_assoc in Hsig2. split; [|done].
    rewrite <- surjective_pairing in E. unfold last_gnss in *. cbn [fold_left]. fold fs' in E.
    rewrite seqZ_cons by lia. unfold Z.succ. rewrite Ll, <- app_assoc in E. cbn [app] in E.
    replace (Z.pred (1 + lenZ ps)) with (lenZ ps) by lia. rewrite <- E.
    unfold add_cno. cbn [fst snd]. by destruct (negb _).
Qed.

Lemma sigIds_set sigId ps : forall l rest,
  set_sigIds sigId (seqZ (lenZ l) (lenZ ps)) (l ++ map (read_sig 0) ps ++ rest) =
  Some (l ++ map (read_sig sigId) ps ++ rest).
Proof.
  induction ps as [|p ps IH]; intros l rest; [done|]. pose proof (lenZ_nonneg ps). rewrite lenZ_cons.
  rewrite seqZ_cons by lia. unfold Z.succ. replace (Z.pred (1 + lenZ ps)) with (lenZ ps) by lia.
  cbn [set_sigIds map app]. unfold set_sigId. rewrite nthZ_middle. cbn [mbind option_bind].
  change (read_sig 0 p :: ?r) with ([read_sig 0 p] ++ r). rewrite updZ_middle by done.
  change (SigSv _ _ sigId _ _ _) with (read_sig sigId p).
  specialize (IH (l ++ [read_sig sigId p]) rest). rewrite lenZ_app in IH. change (lenZ [read_sig sigId p]) with 1 in IH.
  rewrite <- !app_assoc in IH. exact IH.
Qed.

(** A signal of a group that its sentence identifier stands for; there is only one of each
    frequency of Galileo and BeiDou. *)
Record canonical (gnssId sigId : Z) : Prop := {
  cn_gnss : gnssId ∈ [SAT_SV_GNSS_ID_GPS; SAT_SV_GNSS_ID_GAL; SAT_SV_GNSS_ID_BEI; SAT_SV_GNSS_ID_QZS; SAT_SV_GNSS_ID_GLO];
  cn_sig : sigId ∈ gsv_sigIds gnssId;
  cn_id : nmea4p11_signalId_to_sigId gnssId (sigId_to_nmea4p11_signalId gnssId sigId) = sigId
}.

Lemma canonical_char gnssId sigId : canonical gnssId sigId ->
  plain (sigId_to_nmea4p11_signalId gnssId sigId) /\ byte (sigId_to_nmea4p11_signalId gnssId sigId).
Proof.
  intros [Hg Hs _]. unfold plain, byte. rewrite !elem_of_cons, elem_of_nil in Hg.
  destruct Hg as [->|[->|[->|[->|[->|[]]]]]]; cbn in Hs; rewrite !elem_of_cons, elem_of_nil in Hs;
    repeat destruct Hs as [->|Hs]; try done; vm_compute; intuition congruence.
Qed.

Lemma checksum_byte l : Forall byte l -> byte (nmea_compute_checksum l).
Proof.
  unfold nmea_compute_checksum. assert (byte 0) as H by (unfold byte; lia). revert H. generalize 0.
  induction l as [|c l IH]; intros x Hx Hl; [done|]. apply Forall_cons_iff in Hl as [Hc Hl]. cbn [fold_left].
  apply IH; [|done]. apply (lxor_bound 8); unfold byte in *; lia.
Qed.

Lemma fields_bytes fields : Forall (Forall byte) fields -> Forall byte (fields_text fields).
Proof.
  unfold fields_text. induction 1 as [|f fields Hf Hfs IH]; [constructor|]. cbn [map concat].
  apply Forall_app_2; [|done]. apply Forall_cons_2; [unfold byte; lia|done].
Qed.

Lemma dec_text_bytes w x : Forall byte (dec_text w x).
Proof. generalize (dec_fixed_digits (max w (ndigits 20 x)) x). apply Forall_impl. unfold isdigit, byte. intros c Hc. lia. Qed.

Lemma num_field_bytes w x : Forall byte (num_field w x).
Proof.
  unfold num_field, int_text. destruct (x =? 0); [constructor|]. destruct (x <? 0); [|apply dec_text_bytes].
  apply Forall_cons_2; [unfold byte; lia|apply dec_text_bytes].
Qed.

Lemma body_bytes gnssId sigId numMsgs msgNum num ps : canonical gnssId sigId ->
  Forall byte (gsv_body gnssId sigId numMsgs msgNum num ps).
Proof.
  intros Hc. destruct (canonical_char _ _ Hc) as [_ Hb]. destruct Hc as [Hg _ _]. unfold gsv_body.
  assert (Forall byte (gnssId_to_talkerId gnssId)) as Ht.
  { rewrite !elem_of_cons, elem_of_nil in Hg.
    destruct Hg as [->|[->|[->|[->|[->|[]]]]]]; unfold byte; repeat apply Forall_cons_2; try apply Forall_nil_2; cbn; lia. }
  apply Forall_app_2; [done|]. apply Forall_app_2; [|apply Forall_app_2; [|apply Forall_app_2]].
  - change (chars "GSV") with [0x47; 0x53; 0x56]. unfold byte.
    repeat apply Forall_cons_2; try apply Forall_nil_2; lia.
  - apply fields_bytes. repeat apply Forall_cons_2; try apply Forall_nil_2; apply dec_text_bytes.
  - apply fields_bytes. induction ps as [|p ps IH]; [constructor|]. cbn [map concat]. apply Forall_app_2; [|done].
    unfold pick_fields. repeat apply Forall_cons_2; try apply Forall_nil_2; apply dec_text_bytes || apply num_field_bytes.
  - apply fields_bytes. by repeat apply Forall_cons_2.
Qed.

Lemma sentence_start gnssId sigId numMsgs msgNum num ps k :
  sentence (gsv_body gnssId sigId numMsgs msgNum num ps) ++ k =
    [0x24; 0x47; talker_of gnssId; 0x47; 0x53; 0x56; 0x2C] ++
    ptr_of ([dec_text 0 numMsgs; dec_text 0 msgNum; dec_text 2 num] ++ concat (map pick_fields ps) ++
            [[sigId_to_nmea4p11_signalId gnssId sigId]])
      (footer (gsv_body gnssId sigId numMsgs msgNum num ps) ++ k).
Proof.
  set (ft := footer _). unfold sentence. fold ft. unfold gsv_body, picks_text. rewrite <- !fields_app.
  set (fs := concat _ ++ _). cbn [ptr_of app].
  change (fields_text (?f :: ?l)) with (0x2C :: f ++ fields_text l) at 1.
  rewrite <- !app_assoc. cbn [app]. change (chars "GSV") with [0x47; 0x53; 0x56]. cbn [app].
  rewrite <- !app_assoc. reflexivity.
Qed.

Lemma message_read version gnssId sigId numMsgs msgNum num ps tail tsat tsig lsat lsig sum cnt :
  NMEA_PROTOCOL_4P10 <= version -> canonical gnssId sigId -> Forall (pick_ok gnssId) ps ->
  (last_gnss gnssId ps = SAT_SV_GNSS_ID_SBS -> sigId = 0) -> (last_gnss gnssId ps = gnssId \/ last_gnss gnssId ps = SAT_SV_GNSS_ID_SBS) ->
  ps <> [] ->
  0 <= numMsgs < 1000 -> 0 <= msgNum < 1000 -> 0 <= num < 1000 -> lenZ ps = Z.min (num - (msgNum - 1) * 4) 4 ->
  holds_sats lsat tsat -> holds_sigs lsig tsig ->
  lenZ lsat + lenZ ps <= MAX_NUM_SATELLITES -> lenZ lsig + lenZ ps <= MAX_NUM_SAT_SIGNALS ->
  exists tsat' tsig',
  nmea_parse_gsv version (sentence (gsv_body gnssId sigId numMsgs msgNum num ps) ++ tail) tsat tsig sum cnt =
    Some (tail, tsat', tsig', fst (fold_left add_cno ps (sum, cnt)), snd (fold_left add_cno ps (sum, cnt))) /\
  holds_sats (fold_left see ps lsat) tsat' /\ holds_sigs (lsig ++ map (read_sig sigId) ps) tsig'.
Proof.
  intros Hv Hcn Hps Hsbs Hlast Hne Hm Hk Hn Hl Hsat Hsig H1 H2.
  pose proof (canonical_char _ _ Hcn) as [Hplain _].
  pose proof (checksum_byte _ (body_bytes gnssId sigId numMsgs msgNum num ps Hcn)) as Hck.
  rewrite sentence_start. set (fs := concat (map pick_fields ps) ++ _). set (a := _ ++ ptr_of _ _).
  assert (nthZ a 2 = Some (talker_of gnssId)) as Ha by reflexivity.
  assert (forall k, footer (gsv_body gnssId sigId numMsgs msgNum num ps) ++ k =
    0x2A :: hex_text 2 (nmea_compute_checksum (gsv_body gnssId sigId numMsgs msgNum num ps)) ++ 0x0D :: 0x0A :: k) as Ef.
  { intros k. unfold footer. cbn [app]. by rewrite <- app_assoc. }
  unfold nmea_parse_gsv. assert ((lenZ a <? 7) = false) as ->.
  { apply Z.ltb_ge. unfold a. rewrite lenZ_app. match goal with |- context [lenZ (ptr_of ?l ?k)] => pose proof (lenZ_nonneg (ptr_of l k)) end.
    change (lenZ [0x24; 0x47; talker_of gnssId; 0x47; 0x53; 0x56; 0x2C]) with 7. lia. }
  assert (dropZ 7 a = ptr_of ([dec_text 0 numMsgs; dec_text 0 msgNum; dec_text 2 num] ++ fs)
    (footer (gsv_body gnssId sigId numMsgs msgNum num ps) ++ tail)) as -> by reflexivity.
  rewrite Ef. set (hx := hex_text 2 _ ++ _). cbn [app ptr_of]. unfold ASCII_to_i32.
  destruct (dec_field_at 0 numMsgs (dec_text 0 msgNum :: dec_text 2 num :: fs) hx ltac:(lia) ltac:(lia)) as [_ ->].
  cbn [ptr_of].
  destruct (dec_field_at 0 msgNum (dec_text 2 num :: fs) hx ltac:(lia) ltac:(lia)) as [-> ->]. cbn [ptr_of].
  destruct (dec_field_at 2 num fs hx ltac:(lia) ltac:(lia)) as [-> ->].
  assert (Z.to_nat (Z.min (s32 (num - s32 (s32 (msgNum - 1) * 4))) 4) = length ps) as ->.
  { assert (forall x, -10000 < x < 10000 -> s32 x = x) as Hs by (intros x Hx; unfold s32; zlia).
    rewrite (Hs (msgNum - 1)), (Hs ((msgNum - 1) * 4)), (Hs (num - (msgNum - 1) * 4)) by lia.
    rewrite <- Hl. unfold lenZ. lia. }
  unfold fs. destruct (chunk_read version gnssId a ps Hv Ha Hps [[sigId_to_nmea4p11_signalId gnssId sigId]] hx SAT_SV_GNSS_ID_UNKNOWN
    tsat tsig lsat lsig [] sum cnt Hsat Hsig H1 H2) as (tsat' & tsig' & -> & Hsat' & Hsig'). cbn [mbind option_bind app].
  rewrite (proj2 (Z.leb_le _ _) Hv).
  assert (last_gnss SAT_SV_GNSS_ID_UNKNOWN ps = last_gnss gnssId ps) as -> by (by destruct ps).
  assert (nmea4p11_signalId_to_sigId (last_gnss gnssId ps)
    (char_at (ptr_of [[sigId_to_nmea4p11_signalId gnssId sigId]] (0x2A :: hx))) = sigId) as ->.
  { change (char_at _) with (sigId_to_nmea4p11_signalId gnssId sigId).
    destruct Hlast as [->|E]; [by apply Hcn|]. rewrite E. by rewrite Hsbs. }
  pose proof Hsig' as (En & Em & Et).
  assert (sigs tsig' = lsig ++ map (read_sig 0) ps ++ dropZ (numSigs tsig') (sigs tsig')) as Es.
  { rewrite app_assoc. rewrite <- Et at 1. by rewrite takeZ_dropZ. }
  rewrite Es, sigIds_set. cbn [mbind option_bind]. eexists tsat', _. split.
  - do 5 f_equal. pose proof (next_field_star [sigId_to_nmea4p11_signalId gnssId sigId] hx) as E.
    cbn [ptr_of fields_text map concat app] in *. rewrite E by (by constructor).
    unfold hx. change (dropZ 5 (0x2A :: ?l)) with (dropZ 4 l).
    pose proof (lenZ_hex2 _ Hck) as L2. set (h := hex_text 2 _) in *.
    replace 4 with (lenZ (h ++ [0x0D; 0x0A])) by (rewrite lenZ_app, L2; done).
    trans (dropZ (lenZ (h ++ [0x0D; 0x0A])) ((h ++ [0x0D; 0x0A]) ++ tail)); [by rewrite <- app_assoc|apply dropZ_app_len].
  - split; [done|]. unfold holds_sigs, holds. cbn [numSigs sigs].
    assert (lenZ (lsig ++ map (read_sig 0) ps) = lenZ (lsig ++ map (read_sig sigId) ps)) as L
      by (by rewrite !lenZ_app, !lenZ_map).
    split; [congruence|]. split.
    + rewrite <- Em. rewrite Es at 2. by rewrite !lenZ_app, !lenZ_map.
    + rewrite En, L, app_assoc. apply takeZ_app_len.
Qed.

(** ** All sentences *)

(** [n] sentences, each from where the one before has ended. *)
Fixpoint read_all (version : Z) (n : nat) (a : list Z) (gsat : gps_sat_t) (gsig : gps_sig_t) (cnoSum cnoCount : Z)
    : option (list Z * gps_sat_t * gps_sig_t * Z * Z) :=
  match n with
  | O => Some (a, gsat, gsig, cnoSum, cnoCount)
  | S n =>
    '(a, gsat, gsig, cnoSum, cnoCount) ← nmea_parse_gsv version a gsat gsig cnoSum cnoCount;
    read_all version n a gsat gsig cnoSum cnoCount
  end.

Lemma last_gnss_ok gnssId sigId ps : Forall (pick_ok gnssId) ps ->
  Forall (fun p => sig_gnssId (fst p) = SAT_SV_GNSS_ID_SBS -> sigId = 0) ps ->
  last_gnss gnssId ps = gnssId \/ last_gnss gnssId ps = SAT_SV_GNSS_ID_SBS /\ sigId = 0.
Proof.
  intros Hps Hsbs. unfold last_gnss.
  assert (forall g, g = gnssId \/ g = SAT_SV_GNSS_ID_SBS /\ sigId = 0 ->
    fold_left (fun _ p => sig_gnssId (fst p)) ps g = gnssId \/
    fold_left (fun _ p => sig_gnssId (fst p)) ps g = SAT_SV_GNSS_ID_SBS /\ sigId = 0) as H; [|apply H; by left].
  induction Hps as [|p ps Hp Hps IH]; intros g Hg; [done|]. apply Forall_cons_iff in Hsbs as [H Hsbs]. cbn [fold_left].
  apply (IH Hsbs). destruct (pk_known _ _ Hp) as [(? & _)|[(? & _)|(E & _)]]; [by left..|right]. by rewrite E, H.
Qed.

Lemma lenZ_fold_see ps : forall l, lenZ (fold_left see ps l) <= lenZ l + lenZ ps.
Proof.
  induction ps as [|p ps IH]; intros l; cbn [fold_left]; [rewrite lenZ_nil; lia|].
  rewrite lenZ_cons. pose proof (lenZ_see l p). specialize (IH (see l p)). lia.
Qed.

Lemma group_read version gnssId sigId fuel : NMEA_PROTOCOL_4P10 <= version -> canonical gnssId sigId ->
  forall ps sigNum num tail tsat tsig lsat lsig sum cnt,
  Forall (pick_ok gnssId) ps -> Forall (fun p => sig_gnssId (fst p) = SAT_SV_GNSS_ID_SBS -> sigId = 0) ps ->
  (length ps <= fuel)%nat -> 0 <= sigNum -> sigNum mod 4 = 0 -> 0 <= num < 1000 ->
  lenZ ps = Z.max 0 (num - sigNum) ->
  holds_sats lsat tsat -> holds_sigs lsig tsig ->
  lenZ lsat + lenZ ps <= MAX_NUM_SATELLITES -> lenZ lsig + lenZ ps <= MAX_NUM_SAT_SIGNALS ->
  exists tsat' tsig',
  read_all version (Z.to_nat ((lenZ ps + 3) / 4)) (texts gnssId sigId fuel sigNum num ps ++ tail) tsat tsig sum cnt =
    Some (tail, tsat', tsig', fst (fold_left add_cno ps (sum, cnt)), snd (fold_left add_cno ps (sum, cnt))) /\
  holds_sats (fold_left see ps lsat) tsat' /\ holds_sigs (lsig ++ map (read_sig sigId) ps) tsig'.
Proof.
  intros Hv Hcn. induction fuel as [|fuel IH];
    intros ps sigNum num tail tsat tsig lsat lsig sum cnt Hps Hsbs Hf Hs0 Hs4 Hn Hl Hsat Hsig H1 H2;
    [destruct ps; [|cbn in Hf; lia]|destruct (decide (ps = [])) as [->|Hne]].
  1,2: exists tsat, tsig; cbn [map fold_left]; rewrite app_nil_r; done.
  rewrite texts_cons by done. set (c := take 4 ps). set (d := drop 4 ps).
  assert (c ++ d = ps) as Ec by apply take_drop.
  assert (c <> []) as Hc by (unfold c; by destruct ps).
  assert (lenZ ps = lenZ c + lenZ d) as El by (by rewrite <- Ec, lenZ_app).
  assert (lenZ c = Z.min (lenZ ps) 4) as Elc by (unfold c, lenZ; rewrite length_take; lia).
  pose proof (lenZ_nonneg d).
  rewrite <- Ec in Hps, Hsbs. apply Forall_app in Hps as [Hpc Hpd]. apply Forall_app in Hsbs as [Hsc Hsd].
  assert (0 < lenZ ps) as Hpos by (destruct ps; [done|rewrite lenZ_cons; pose proof (lenZ_nonneg ps); lia]).
  assert (gnssId <> SAT_SV_GNSS_ID_SBS) as Hg.
  { intros E. pose proof (cn_gnss _ _ Hcn) as Hin. rewrite E in Hin. revert Hin. by apply (bool_decide_unpack _). }
  pose proof (last_gnss_ok _ _ _ Hpc Hsc) as Hlast.
  destruct (message_read version gnssId sigId (Z.shiftr (num + 3) 2) (Z.shiftr sigNum 2 + 1) num c
    (texts gnssId sigId fuel (sigNum + 4) num d ++ tail) tsat tsig lsat lsig sum cnt) as (tsat1 & tsig1 & E & Hsat1 & Hsig1);
    try done; try lia.
  1-3: rewrite !Z.shiftr_div_pow2 by lia; change (2 ^ 2) with 4; zlia.
  pose proof (lenZ_fold_see c lsat).
  destruct (IH d (sigNum + 4) num tail tsat1 tsig1 (fold_left see c lsat) (lsig ++ map (read_sig sigId) c) (fst (fold_left add_cno c (sum, cnt)))
    (snd (fold_left add_cno c (sum, cnt))) Hpd Hsd) as (tsat2 & tsig2 & E2 & Hsat2 & Hsig2);
    [unfold d; rewrite length_drop; lia|lia|zlia|lia|lia|done|done|lia|rewrite lenZ_app, lenZ_map; lia|].
  exists tsat2, tsig2. rewrite <- surjective_pairing in E2. rewrite <- app_assoc in Hsig2. rewrite <- map_app, Ec in Hsig2.
  rewrite <- fold_left_app, Ec in E2, Hsat2. split; [|done].
  replace (Z.to_nat ((lenZ ps + 3) / 4)) with (S (Z.to_nat ((lenZ d + 3) / 4))) by zlia.
  cbn [read_all]. rewrite <- app_assoc, E. cbn [mbind option_bind]. exact E2.
Qed.

Lemma listed_sbs mask gnssId sigId s : canonical gnssId sigId -> listedb mask gnssId sigId s = true ->
  sig_gnssId s = SAT_SV_GNSS_ID_SBS -> sigId = 0.
Proof.
  intros [Hg Hs _] Hl E. unfold listedb, listed, gsv_freq_ena in Hl. rewrite E in Hl.
  change (SAT_SV_GNSS_ID_COUNT <=? SAT_SV_GNSS_ID_SBS) with false in Hl. cbv iota in Hl.
  destruct (nthZ mask _) as [m|]; [|done]. cbn [mbind option_bind default] in Hl. apply andb_prop in Hl as [Hb Hm].
  unfold gsv_sig_match in Hm. rewrite E in Hm. destruct (negb (Bool.eqb _ _)); [done|].
  rewrite !elem_of_cons, elem_of_nil in Hg. destruct Hg as [->|[->|[->|[->|[->|[]]]]]]; try done.
  cbn in Hm. change (sigId ∈ [0; 3; 4; 6; 7]) in Hs. rewrite !elem_of_cons, elem_of_nil in Hs.
  assert (sig_sigId s = 0 \/ sig_sigId s = 1 \/ sig_sigId s = 2) as Hr.
  { change (cases _ _ gsv_bands) with (snd <$> find (fun e => fst e =? sig_sigId s) [(0, NMEA_GNGSV_FREQ_BAND1_BIT);
      (1, NMEA_GNGSV_FREQ_BAND2_BIT); (2, NMEA_GNGSV_FREQ_5_BIT)]) in Hb. cbn [find fst] in Hb. destruct (Z.eqb_spec 0 (sig_sigId s)); [lia|].
    destruct (Z.eqb_spec 1 (sig_sigId s)); [lia|]. destruct (Z.eqb_spec 2 (sig_sigId s)); [lia|done]. }
  destruct (Z.eqb_spec (sig_sigId s) sigId) as [Eq|Hne]; [lia|]. rewrite orb_false_r in Hm. apply Z.eqb_eq in Hm. lia.
Qed.

Lemma picks_listed mask gnssId sigId gsat l :
  Forall (fun p => listedb mask gnssId sigId (fst p) = true) (picks mask gnssId sigId gsat l).
Proof.
  unfold picks. induction l as [|s l IH]; [constructor|]. cbn [omap list_omap]. unfold pick at 1.
  destruct (listedb _ _ _ s) eqn:E; [|done]. destruct (sat_of gsat s); [|done]. by constructor.
Qed.

(** C19: For a protocol from 4.10 on, a GPS, Galileo, BeiDou, QZSS or GLONASS signal whose
    identifier is the one its character is read as, and lists in which each signal that
    passes the filters has its satellite, with numbers of its constellation, and the entry
    behind the last signal does not pass: the sentences GSV printed into a large enough
    buffer contain the signals that pass; reading them one after the other adds, to lists
    with enough room, exactly these signals in order, and their satellites unless they are
    there already. *)
Theorem gsv_roundtrip version mask gnssId sigId gsat gsig ps buf size tsat tsig sum cnt :
  NMEA_PROTOCOL_4P10 <= version -> canonical gnssId sigId ->
  group mask gnssId sigId gsat gsig ps -> Forall (pick_ok gnssId) ps ->
  lenZ (group_text gnssId sigId ps) < size <= lenZ buf ->
  sats_ok tsat -> sigs_ok tsig ->
  numSats tsat + lenZ ps <= MAX_NUM_SATELLITES -> numSigs tsig + lenZ ps <= MAX_NUM_SAT_SIGNALS ->
  exists buf' n tsat' tsig',
  nmea_gsv_group version mask buf size gsat gsig gnssId sigId false = Some (buf', n) /\
  read_all version (Z.to_nat ((lenZ ps + 3) / 4)) (takeZ n buf') tsat tsig sum cnt =
    Some ([], tsat', tsig', fst (fold_left add_cno ps (sum, cnt)), snd (fold_left add_cno ps (sum, cnt))) /\
  takeZ (numSats tsat') (sats tsat') = fold_left see ps (takeZ (numSats tsat) (sats tsat)) /\
  takeZ (numSigs tsig') (sigs tsig') = takeZ (numSigs tsig) (sigs tsig) ++ map (read_sig sigId) ps.
Proof.
  intros Hv Hcn Hg Hps Hs [Hs1 Hs2] [Hg1 Hg2] H1 H2.
  destruct (group_printed version mask gnssId sigId gsat gsig Hv ps buf size Hg Hs) as [rest E].
  assert (Forall (fun p => sig_gnssId (fst p) = SAT_SV_GNSS_ID_SBS -> sigId = 0) ps) as Hsbs.
  { pose proof (picks_listed mask gnssId sigId gsat (takeZ (numSigs gsig) (sigs gsig))) as Hl. rewrite (gr_picks _ _ _ _ _ _ Hg) in Hl.
    revert Hl. apply Forall_impl. intros p Hp. by eapply listed_sbs. }
  assert (holds_sats (takeZ (numSats tsat) (sats tsat)) tsat) as Hsat
    by (unfold holds_sats, holds; rewrite lenZ_takeZ; split; [lia|done]).
  assert (holds_sigs (takeZ (numSigs tsig) (sigs tsig)) tsig) as Hsig
    by (unfold holds_sigs, holds; rewrite lenZ_takeZ; split; [lia|done]).
  pose proof (lenZ_nonneg ps).
  destruct (group_read version gnssId sigId (length ps) Hv Hcn ps 0 (lenZ ps) [] tsat tsig
    (takeZ (numSats tsat) (sats tsat)) (takeZ (numSigs tsig) (sigs tsig)) sum cnt Hps Hsbs
    ltac:(done) ltac:(lia) ltac:(done)) as (tsat' & tsig' & Er & (_ & _ & Ht1) & (_ & _ & Ht2));
    rewrite ?lenZ_takeZ; try done; try lia.
  { unfold MAX_NUM_SATELLITES in *. lia. }
  exists (group_text gnssId sigId ps ++ rest), (lenZ (group_text gnssId sigId ps)), tsat', tsig'. split; [done|].
  rewrite takeZ_app_len. rewrite app_nil_r in Er. done.
Qed.
End NmeaGsvRoundtrip.
