(* ===== verification/NmeaExamples.v ===== *)
(** * Sentences of concrete data

    The round trips of sentences at concrete inputs, and the sentences for which the code
    deviates from what it means to do. *)

From Stdlib Require Import String.
From S2P Require Import Prelude Printf Nmea CommRx CommTx DataSets NmeaText NmeaInfo NmeaAsce NmeaGsv NmeaGsvRoundtrip.
Import NmeaInfoProps NmeaAsceProps NmeaGsv NmeaGsvProps NmeaGsvPrint NmeaGsvRoundtrip.
#[local] Open Scope string_scope.
#[local] Open Scope list_scope.
#[local] Open Scope Z_scope.

Module NmeaExamples.

Definition crlf : list Z := [0x0D; 0x0A].
Definition padded (n : nat) (l : list Z) : list Z := l ++ repeat 0 (n - length l).

(** ** Device information *)

Definition unit_info (ms : Z) : info_t :=
  Info 0 3 60123 [5; 0; 5; 0] [1; 11; 0; 255] 2147483650 [1; 3; 0; 0] 77 (padded 24 (chars "InertialSense INC"))
    0 23 11 9 7 5 200 ms (padded 24 (chars "bench")).
Definition empty_info : info_t :=
  Info 0 0 0 [] [] 0 [] 0 (repeat 0 24) 0 0 0 0 0 0 0 0 (repeat 0 24).

Lemma name_concrete l : (length l < 24)%nat -> Forall plain l -> name_ok (padded 24 l).
Proof.
  intros Hn Hp. unfold name_ok, padded. assert (24 - length l = S (23 - length l))%nat as E by lia. rewrite E.
  cbn [repeat]. split; [unfold lenZ; rewrite length_app; cbn [length]; rewrite repeat_length; lia|].
  split; [apply elem_of_app; right; apply elem_of_cons; by left|]. by rewrite text_app by by apply nonzero_plain.
Qed.

Lemma unit_info_ok : info_ok (unit_info 42).
Proof.
  assert (Forall plain (chars "InertialSense INC")) as Hm by (unfold plain; decided).
  assert (Forall plain (chars "bench")) as Hb by (unfold plain; decided).
  constructor; try (apply name_concrete; [cbn; lia|assumption]); unfold byte, version_ok, byte; cbn; try lia;
    (split; [done|repeat constructor; lia]).
Qed.

Lemma info_roundtrip_witness : exists buf' i',
  nmea_dev_info (repeat 0 256) 256 (unit_info 42) = Some (buf', lenZ (sentence (info_body (unit_info 42)))) /\
  nmea_parse_info (fun _ => []) empty_info (text buf') = Some i' /\ same_info (unit_info 42) i'.
Proof.
  apply info_roundtrip; [exact unit_info_ok|split; [reflexivity|discriminate]|reflexivity|reflexivity|].
  intros k. apply Nat.le_0_l.
Defined.

(** A millisecond of three digits is cut to two. *)
Definition info_again (i : info_t) : option Z :=
  '(buf, _) ← nmea_dev_info (repeat 0 256) 256 i;
  j ← nmea_parse_info (fun _ => []) empty_info (text buf); Some (buildMillisecond j).
Example millisecond_cut : info_again (unit_info 42) = Some 42 /\ info_again (unit_info 123) = Some 12.
Proof. split; vm_compute; reflexivity. Qed.

(** The last character of a string that is the last field is lost. *)
Example last_field_cut : ASCII_to_char_array (repeat 0 8) (chars "abc*00") 8 =
    Some (chars "ab" ++ [0; 0; 0; 0; 0; 0], chars "*00") /\
  ASCII_to_char_array (repeat 0 8) (chars "abc,1*00") 8 = Some (chars "abc" ++ [0; 0; 0; 0; 0], chars "1*00").
Proof. split; vm_compute; reflexivity. Qed.

(** The footer of a sentence that does not fit is computed from behind the buffer. *)
Example footer_beyond : nmea_dev_info (repeat 0 40) 40 (unit_info 42) = None.
Proof. vm_compute. reflexivity. Qed.

(** ** Streams *)

Definition streams : rmcNmea_t := RmcNmea 0x8041 ([5] ++ repeat 0 5 ++ [1] ++ repeat 0 8 ++ [10; 0; 0]).

Lemma streams_concrete : streams_ok streams.
Proof.
  constructor; [reflexivity| |split; [discriminate|reflexivity]|].
  - unfold byte. cbn. repeat constructor; lia.
  - intros i p Hp. pose proof (nthZ_Some_range _ _ _ Hp) as Hr. change (lenZ (nmeaPeriod streams)) with 18 in Hr.
    assert (i ∈ seqZ 0 18) as Hi by (apply elem_of_seqZ; lia). revert Hi p Hp.
    change (seqZ 0 18) with [0; 1; 2; 3; 4; 5; 6; 7; 8; 9; 10; 11; 12; 13; 14; 15; 16; 17].
    rewrite !elem_of_cons, elem_of_nil. intros Hi p Hp. clear Hr.
    repeat destruct Hi as [->|Hi]; try done; cbn in Hp; injection Hp as <-; reflexivity.
Qed.

Lemma asce_roundtrip_witness : exists buf',
  nmea_ASCE (repeat 0 64) 64 streams = Some (buf', lenZ (sentence (asce_body streams))) /\
  nmea_parse_asce 1 (text buf') 64 [Rmci 7 no_streams; Rmci 0 no_streams; Rmci 0 no_streams; Rmci 0 no_streams] (repeat 0 9) =
    Some ([Rmci 7 no_streams; Rmci 0 streams; Rmci 0 no_streams; Rmci 0 no_streams],
          if Z.testbit (nmeaBits streams) NMEA_MSG_ID_GNGSV then gsv_enabled (repeat 0 9) else repeat 0 9, 0).
Proof.
  apply (asce_roundtrip streams (repeat 0 64) 64 [Rmci 7 no_streams] [Rmci 0 no_streams; Rmci 0 no_streams] 0);
    [exact streams_concrete|split; [reflexivity|discriminate]|reflexivity].
Defined.

Definition ports : list rmci_t := repeat (Rmci 0 no_streams) 4.
Definition asce (s : string) : option (list rmci_t * list Z * Z) :=
  nmea_parse_asce 0 (chars s ++ crlf) (lenZ (chars s) + 2) ports (repeat 0 9).
Definition asce_grmci (s : string) : option (list rmci_t * list Z * Z) :=
  nmea_parse_asce_grmci 0 (chars s ++ crlf) (lenZ (chars s) + 2) ports (repeat 0 9).

(** A number that is not in the table, and a name that is not known, are written outside of
    the periods; so does a sentence without a star. *)
Example unknown_messages : is_Some (asce "$ASCE,0,17,1*00") /\ asce "$ASCE,0,18,1*00" = None /\
  asce "$ASCE,0,XXXXX,1*00" = None /\ asce_grmci "$ASCE,0,200,1*00" = None.
Proof. split; [by eexists|]. repeat split; vm_compute; reflexivity. Qed.

(** The same sentence opens all filters in one version, and none in the other. *)
Example filters_differ :
  (snd ∘ fst <$> asce "$ASCE,0,15,1*00") = Some [15; 15; 15; 15; 15; 15; 15; 0; 0] /\
  (snd ∘ fst <$> asce_grmci "$ASCE,0,15,1*00") = Some [0; 0; 0; 0; 0; 0; 0; 0; 0].
Proof. split; vm_compute; reflexivity. Qed.

(** ** Satellites *)

Definition no_sat : gps_sat_sv_t := SatSv 0 0 0 0 0 0.
Definition no_sig : gps_sig_sv_t := SigSv 0 0 0 0 0 0.
Definition sat_list (l : list gps_sat_sv_t) : gps_sat_t := GpsSat (lenZ l) (l ++ repeat no_sat (50 - length l)).
Definition sig_list (l : list gps_sig_sv_t) : gps_sig_t := GpsSig (lenZ l) (l ++ repeat no_sig (100 - length l)).

(** Satellites of GPS and SBAS, one of them below the horizon, and their signals. *)
Definition sky : gps_sat_t :=
  sat_list [SatSv 1 3 45 270 0 0; SatSv 1 12 0 0 0 0; SatSv 2 131 30 180 0 0; SatSv 1 25 (-2) (-90) 0 0;
            SatSv 1 31 12 5 0 0].
Definition heard : gps_sig_t :=
  sig_list [SigSv 1 3 0 41 7 5; SigSv 1 12 0 38 7 5; SigSv 1 3 7 44 7 5; SigSv 2 131 0 35 7 5; SigSv 1 25 0 9 7 5;
            SigSv 1 31 0 22 7 5; SigSv 3 3 0 30 7 5].
Definition open_filters : list Z := repeat 15 9.
Definition heard_L1 : list (gps_sig_sv_t * gps_sat_sv_t) :=
  picks open_filters 1 0 sky (takeZ (numSigs heard) (sigs heard)).

Lemma heard_group : group open_filters 1 0 sky heard heard_L1.
Proof.
  constructor; try reflexivity; [split; [discriminate|reflexivity]..| | |].
  - unfold byte. decided.
  - decided.
  - intros s Hs. vm_compute in Hs. injection Hs as <-. reflexivity.
Qed.

Lemma heard_ok : Forall (pick_ok 1) heard_L1.
Proof.
  assert (forall p, known 1 (fst p) /\ byte (sig_cno (fst p)) /\ (-128 <= sat_elev (snd p) < 128) /\
    (-32768 <= sat_azim (snd p) < 32768) -> pick_ok 1 p) as H by (by intros p (? & ? & ? & ?); constructor).
  assert (Forall (fun p => known 1 (fst p) /\ byte (sig_cno (fst p)) /\ (-128 <= sat_elev (snd p) < 128) /\
    (-32768 <= sat_azim (snd p) < 32768)) heard_L1) as Hf by (unfold known, byte; decided).
  revert Hf. by apply Forall_impl.
Qed.

Lemma gsv_roundtrip_witness : exists buf' n tsat' tsig',
  nmea_gsv_group 410 open_filters (repeat 0 256) 256 sky heard 1 0 false = Some (buf', n) /\
  read_all 410 2 (takeZ n buf') (sat_list [SatSv 1 12 1 1 1 31]) (sig_list []) 0 0 =
    Some ([], tsat', tsig', 145, 5) /\
  takeZ (numSats tsat') (sats tsat') = fold_left see heard_L1 [SatSv 1 12 1 1 1 31] /\
  takeZ (numSigs tsig') (sigs tsig') = [] ++ map (read_sig 0) heard_L1.
Proof.
  refine (gsv_roundtrip 410 open_filters 1 0 sky heard heard_L1 (repeat 0 256) 256 (sat_list [SatSv 1 12 1 1 1 31])
    (sig_list []) 0 0 _ _ heard_group heard_ok _ _ _ _ _).
  - discriminate.
  - constructor; [decided|decided|reflexivity].
  - decided.
  - split; [split; discriminate|reflexivity].
  - split; [split; discriminate|reflexivity].
  - discriminate.
  - discriminate.
Defined.

Lemma parse_gsv_safe_witness : exists rest gsat' gsig' cnoSum' cnoCount',
  nmea_parse_gsv 410 (chars "$GPGSV,9,1,99,,,x,-7,300*") (sat_list []) heard 0 0 =
    Some (rest, gsat', gsig', cnoSum', cnoCount') /\
  (sats_ok gsat' /\ sats_grown (sat_list []) gsat' /\ numSats gsat' <= numSats (sat_list []) + 4) /\
  (sigs_ok gsig' /\ sigs_grown heard gsig' /\ numSigs gsig' <= numSigs heard + 4).
Proof.
  apply parse_gsv_safe; [discriminate|split; [split; discriminate|reflexivity]|split; [split; discriminate|reflexivity]].
Defined.

(** A list that is full is read one entry behind its end. *)
Definition full_sigs : gps_sig_t := GpsSig 100 (SigSv 1 3 0 41 7 5 :: repeat no_sig 99).
Definition full_sats : gps_sat_t := GpsSat 50 (repeat no_sat 50).
Example full_list_overrun :
  nmea_gsv_group 410 open_filters (repeat 0 256) 256 sky full_sigs 1 0 false = None /\
  nmea_gsv_group 410 open_filters (repeat 0 256) 256 full_sats (sig_list [SigSv 1 3 0 41 7 5]) 1 0 false = None.
Proof. split; vm_compute; reflexivity. Qed.

(** An entry behind the last one of the list is printed in a sentence that has room. *)
Definition stale : gps_sig_t := GpsSig 1 ([SigSv 1 3 0 41 7 5; SigSv 1 31 0 22 7 5] ++ repeat no_sig 98).
Example stale_entry_printed :
  (fun '(a, n) => takeZ n a) <$> nmea_gsv_group 410 open_filters (repeat 0 256) 256 sky stale 1 0 false =
  Some (sentence (chars "GPGSV,1,1,01,03,45,270,41,31,12,005,22,1")).
Proof. vm_compute. reflexivity. Qed.

(** The dollar sign and the two characters of the talker need three bytes. *)
Example talker_overrun : nmea_talker [0; 0] 2 1 = None.
Proof. reflexivity. Qed.

(** A number from 256 on is stored in a byte, and is added again by each sentence. *)
Definition twice (s : list Z) : option (list gps_sat_sv_t) :=
  '(_, t, g, _, _) ← nmea_parse_gsv 410 s (sat_list []) (sig_list []) 0 0;
  '(_, t, g, _, _) ← nmea_parse_gsv 410 s t g 0 0;
  Some (takeZ (numSats t) (sats t)).
Example satellite_again :
  twice (sentence (chars "GAGSV,1,1,01,257,10,100,40,7")) = Some [SatSv 3 1 10 100 40 31; SatSv 3 1 10 100 40 31] /\
  twice (sentence (chars "GAGSV,1,1,01,001,10,100,40,7")) = Some [SatSv 3 1 10 100 40 31].
Proof. split; vm_compute; reflexivity. Qed.

(** A signal that is in the list already is added again. *)
Example signal_again :
  ('(_, _, g, _, _) ← nmea_parse_gsv 410 (sentence (chars "GPGSV,1,1,01,03,45,270,41,1")) (sat_list []) heard 0 0;
   Some (numSigs heard, numSigs g)) = Some (7, 8).
Proof. vm_compute. reflexivity. Qed.

(** The signals of NavIC pass no filter. *)
Example navic_never : gsv_freq_ena (repeat 255 9) (SigSv 7 1 0 40 7 5) = Some false.
Proof. reflexivity. Qed.
End NmeaExamples.
