(* ===== verification/Md5.v ===== *)
(** * MD5 digests (src/src/util/md5.cpp, md5.h)

    The digest of firmware images: the incremental one, the older one that is kept for
    devices that still use it, and the text form.  A digest is four 32-bit words; bytes
    are appended to a context in pieces.  A function has no result when it would access
    memory outside of its arrays or not return. *)

From S2P Require Import Prelude CommTx.

(** The view of [md5hash_t] as four words. *)
Record md5hash_t := Md5Hash { dword0 : Z; dword1 : Z; dword2 : Z; dword3 : Z }.
Record md5Context_t := Md5Context {
  md5_state : md5hash_t; count0 : Z; count1 : Z; md5_buffer : list Z
}.

Module Md5.

(** The view of [md5hash_t] as 16 bytes. *)
Definition hash_bytes (h : md5hash_t) : list Z :=
  le32_bytes (dword0 h) ++ le32_bytes (dword1 h) ++ le32_bytes (dword2 h) ++ le32_bytes (dword3 h).

(** ** The transformation of a block *)

Definition S11 : Z := 7.
Definition S12 : Z := 12.
Definition S13 : Z := 17.
Definition S14 : Z := 22.
Definition S21 : Z := 5.
Definition S22 : Z := 9.
Definition S23 : Z := 14.
Definition S24 : Z := 20.
Definition S31 : Z := 4.
Definition S32 : Z := 11.
Definition S33 : Z := 16.
Definition S34 : Z := 23.
Definition S41 : Z := 6.
Definition S42 : Z := 10.
Definition S43 : Z := 15.
Definition S44 : Z := 21.

(** [~x] of a 32-bit word. *)
Definition not32 (x : Z) : Z := u32 (Z.lnot x).
Definition F (x y z : Z) : Z := Z.lor (Z.land x y) (Z.land (not32 x) z).
Definition G (x y z : Z) : Z := Z.lor (Z.land x z) (Z.land y (not32 z)).
Definition H (x y z : Z) : Z := Z.lxor (Z.lxor x y) z.
Definition I (x y z : Z) : Z := Z.lxor y (Z.lor x (not32 z)).
Definition ROTATE_LEFT (x n : Z) : Z := Z.lor (u32 (Z.shiftl x n)) (Z.shiftr x (32 - n)).

(** The macros FF, GG, HH and II applied to the variables [a] to [d], a word of the
    block, a shift and a constant are instructions on the four variables. *)
Inductive md5_macro := FF | GG | HH | II.
Inductive md5_var := A | B | C | D.
Record md5_instr := Instr {
  i_macro : md5_macro; i_a : md5_var; i_b : md5_var; i_c : md5_var; i_d : md5_var;
  i_x : Z; i_s : Z; i_ac : Z
}.

Definition get_var (v : md5_var) (r : md5hash_t) : Z :=
  match v with A => dword0 r | B => dword1 r | C => dword2 r | D => dword3 r end.
Definition set_var (v : md5_var) (x : Z) (r : md5hash_t) : md5hash_t :=
  match v with
  | A => Md5Hash x (dword1 r) (dword2 r) (dword3 r)
  | B => Md5Hash (dword0 r) x (dword2 r) (dword3 r)
  | C => Md5Hash (dword0 r) (dword1 r) x (dword3 r)
  | D => Md5Hash (dword0 r) (dword1 r) (dword2 r) x
  end.

Definition macro_fn (m : md5_macro) : Z -> Z -> Z -> Z :=
  match m with FF => F | GG => G | HH => H | II => I end.

Definition exec_instr (x : list Z) (r : md5hash_t) (i : md5_instr) : md5hash_t :=
  let b := get_var (i_b i) r in
  let c := get_var (i_c i) r in
  let d := get_var (i_d i) r in
  let a := u32 (get_var (i_a i) r + macro_fn (i_macro i) b c d +
                nth (Z.to_nat (i_x i)) x 0 + i_ac i) in
  let a := ROTATE_LEFT a (i_s i) in
  set_var (i_a i) (u32 (a + b)) r.

Definition MD5Transform_instrs : list md5_instr := [
  Instr FF A B C D 0 S11 0xd76aa478;
  Instr FF D A B C 1 S12 0xe8c7b756;
  Instr FF C D A B 2 S13 0x242070db;
  Instr FF B C D A 3 S14 0xc1bdceee;
  Instr FF A B C D 4 S11 0xf57c0faf;
  Instr FF D A B C 5 S12 0x4787c62a;
  Instr FF C D A B 6 S13 0xa8304613;
  Instr FF B C D A 7 S14 0xfd469501;
  Instr FF A B C D 8 S11 0x698098d8;
  Instr FF D A B C 9 S12 0x8b44f7af;
  Instr FF C D A B 10 S13 0xffff5bb1;
  Instr FF B C D A 11 S14 0x895cd7be;
  Instr FF A B C D 12 S11 0x6b901122;
  Instr FF D A B C 13 S12 0xfd987193;
  Instr FF C D A B 14 S13 0xa679438e;
  Instr FF B C D A 15 S14 0x49b40821;
  Instr GG A B C D 1 S21 0xf61e2562;
  Instr GG D A B C 6 S22 0xc040b340;
  Instr GG C D A B 11 S23 0x265e5a51;
  Instr GG B C D A 0 S24 0xe9b6c7aa;
  Instr GG A B C D 5 S21 0xd62f105d;
  Instr GG D A B C 10 S22 0x2441453;
  Instr GG C D A B 15 S23 0xd8a1e681;
  Instr GG B C D A 4 S24 0xe7d3fbc8;
  Instr GG A B C D 9 S21 0x21e1cde6;
  Instr GG D A B C 14 S22 0xc33707d6;
  Instr GG C D A B 3 S23 0xf4d50d87;
  Instr GG B C D A 8 S24 0x455a14ed;
  Instr GG A B C D 13 S21 0xa9e3e905;
  Instr GG D A B C 2 S22 0xfcefa3f8;
  Instr GG C D A B 7 S23 0x676f02d9;
  Instr GG B C D A 12 S24 0x8d2a4c8a;
  Instr HH A B C D 5 S31 0xfffa3942;
  Instr HH D A B C 8 S32 0x8771f681;
  Instr HH C D A B 11 S33 0x6d9d6122;
  Instr HH B C D A 14 S34 0xfde5380c;
  Instr HH A B C D 1 S31 0xa4beea44;
  Instr HH D A B C 4 S32 0x4bdecfa9;
  Instr HH C D A B 7 S33 0xf6bb4b60;
  Instr HH B C D A 10 S34 0xbebfbc70;
  Instr HH A B C D 13 S31 0x289b7ec6;
  Instr HH D A B C 0 S32 0xeaa127fa;
  Instr HH C D A B 3 S33 0xd4ef3085;
  Instr HH B C D A 6 S34 0x4881d05;
  Instr HH A B C D 9 S31 0xd9d4d039;
  Instr HH D A B C 12 S32 0xe6db99e5;
  Instr HH C D A B 15 S33 0x1fa27cf8;
  Instr HH B C D A 2 S34 0xc4ac5665;
  Instr II A B C D 0 S41 0xf4292244;
  Instr II D A B C 7 S42 0x432aff97;
  Instr II C D A B 14 S43 0xab9423a7;
  Instr II B C D A 5 S44 0xfc93a039;
  Instr II A B C D 12 S41 0x655b59c3;
  Instr II D A B C 3 S42 0x8f0ccc92;
  Instr II C D A B 10 S43 0xffeff47d;
  Instr II B C D A 1 S44 0x85845dd1;
  Instr II A B C D 8 S41 0x6fa87e4f;
  Instr II D A B C 15 S42 0xfe2ce6e0;
  Instr II C D A B 6 S43 0xa3014314;
  Instr II B C D A 13 S44 0x4e0811a1;
  Instr II A B C D 4 S41 0xf7537e82;
  Instr II D A B C 11 S42 0xbd3af235;
  Instr II C D A B 2 S43 0x2ad7d2bb;
  Instr II B C D A 9 S44 0xeb86d391
].

(** Little-endian words of a byte string whose length is a multiple of four. *)
Fixpoint Decode (input : list Z) : list Z :=
  match input with
  | b0 :: b1 :: b2 :: b3 :: input =>
    Z.lor (Z.lor (Z.lor b0 (Z.shiftl b1 8)) (Z.shiftl b2 16)) (Z.shiftl b3 24) :: Decode input
  | _ => []
  end.

Definition encode_word (x : Z) : list Z :=
  [Z.land x 0xff; Z.land (Z.shiftr x 8) 0xff; Z.land (Z.shiftr x 16) 0xff;
   Z.land (Z.shiftr x 24) 0xff].
Definition Encode (input : list Z) : list Z := flat_map encode_word input.

(** The digest [h] with the words of [r] added. *)
Definition add_hash (h r : md5hash_t) : md5hash_t :=
  Md5Hash (u32 (dword0 h + dword0 r)) (u32 (dword1 h + dword1 r))
    (u32 (dword2 h + dword2 r)) (u32 (dword3 h + dword3 r)).

Definition MD5Transform (state : md5hash_t) (block : list Z) : md5hash_t :=
  add_hash state (fold_left (exec_instr (Decode block)) MD5Transform_instrs state).

(** ** The running digest *)

Definition magic : md5hash_t := Md5Hash 0x67452301 0xefcdab89 0x98badcfe 0x10325476.

Definition md5_init (context : md5Context_t) : md5Context_t :=
  Md5Context magic 0 0 (md5_buffer context).

(** The loop from [i] on; also returns where it ends. *)
Fixpoint transform_loop (fuel : nat) (state : md5hash_t) (input : list Z) (i inputLen : Z)
    : option (md5hash_t * Z) :=
  if u32 (i + 63) <? inputLen then
    match fuel with
    | O => None
    | S fuel =>
      block ← take_exact 64 (dropZ i input);
      transform_loop fuel (MD5Transform state block) input (u32 (i + 64)) inputLen
    end
  else Some (state, i).

Definition md5_update (context : md5Context_t) (input : list Z) (inputLen : Z)
    : option md5Context_t :=
  if inputLen =? 0 then Some context else
  let index := Z.land (Z.shiftr (count0 context) 3) 0x3F in
  let added := u32 (Z.shiftl inputLen 3) in
  let c0 := u32 (count0 context + added) in
  let c1 := if c0 <? added then u32 (count1 context + 1) else count1 context in
  let c1 := u32 (c1 + Z.shiftr inputLen 29) in
  let partLen := 64 - index in
  '(state, buffer, index, i) ←
    (if partLen <=? inputLen then
       buffer ← memcpy (md5_buffer context) index input partLen;
       '(state, i) ← transform_loop (Z.to_nat inputLen) (MD5Transform (md5_state context) buffer)
                       input partLen inputLen;
       Some (state, buffer, 0, i)
     else Some (md5_state context, md5_buffer context, index, 0));
  buffer ← memcpy buffer index (dropZ i input) (inputLen - i);
  Some (Md5Context state c0 c1 buffer).

Definition PADDING : list Z := 0x80 :: repeat 0 63.

Definition md5_final (context : md5Context_t) : option (md5Context_t * md5hash_t) :=
  let bits := Encode [count0 context; count1 context] in
  let index := Z.land (Z.shiftr (count0 context) 3) 0x3f in
  let padLen := if index <? 56 then 56 - index else 120 - index in
  context ← md5_update context PADDING padLen;
  context ← md5_update context bits 8;
  Some (context, md5_state context).

(** [stack] is the uninitialised context. *)
Definition md5_hash (stack : md5Context_t) (data_len : Z) (data : list Z) : option md5hash_t :=
  let context := md5_init stack in
  context ← md5_update context data data_len;
  '(_, hash) ← md5_final context;
  Some hash.

(** ** The older digest *)

Definition alt_r : list Z :=
  [7; 12; 17; 22; 7; 12; 17; 22; 7; 12; 17; 22; 7; 12; 17; 22;
   5; 9; 14; 20; 5; 9; 14; 20; 5; 9; 14; 20; 5; 9; 14; 20;
   4; 11; 16; 23; 4; 11; 16; 23; 4; 11; 16; 23; 4; 11; 16; 23;
   6; 10; 15; 21; 6; 10; 15; 21; 6; 10; 15; 21; 6; 10; 15; 21].
Definition alt_k : list Z :=
  [0xd76aa478; 0xe8c7b756; 0x242070db; 0xc1bdceee; 0xf57c0faf; 0x4787c62a; 0xa8304613; 0xfd469501;
   0x698098d8; 0x8b44f7af; 0xffff5bb1; 0x895cd7be; 0x6b901122; 0xfd987193; 0xa679438e; 0x49b40821;
   0xf61e2562; 0xc040b340; 0x265e5a51; 0xe9b6c7aa; 0xd62f105d; 0x02441453; 0xd8a1e681; 0xe7d3fbc8;
   0x21e1cde6; 0xc33707d6; 0xf4d50d87; 0x455a14ed; 0xa9e3e905; 0xfcefa3f8; 0x676f02d9; 0x8d2a4c8a;
   0xfffa3942; 0x8771f681; 0x6d9d6122; 0xfde5380c; 0xa4beea44; 0x4bdecfa9; 0xf6bb4b60; 0xbebfbc70;
   0x289b7ec6; 0xeaa127fa; 0xd4ef3085; 0x04881d05; 0xd9d4d039; 0xe6db99e5; 0x1fa27cf8; 0xc4ac5665;
   0xf4292244; 0x432aff97; 0xab9423a7; 0xfc93a039; 0x655b59c3; 0x8f0ccc92; 0xffeff47d; 0x85845dd1;
   0x6fa87e4f; 0xfe2ce6e0; 0xa3014314; 0x4e0811a1; 0xf7537e82; 0xbd3af235; 0x2ad7d2bb; 0xeb86d391].

(** One turn of the main loop over the 16 words [w] of a chunk. *)
Definition alt_step (w : list Z) (r : md5hash_t) (i : nat) : md5hash_t :=
  let '(Md5Hash a b c d) := r in
  let n := Z.of_nat i in
  let '(f, g) :=
    if n <? 16 then (Z.lor (Z.land b c) (Z.land (not32 b) d), n)
    else if n <? 32 then (Z.lor (Z.land d b) (Z.land (not32 d) c), (5 * n + 1) mod 16)
    else if n <? 48 then (Z.lxor (Z.lxor b c) d, (3 * n + 5) mod 16)
    else (Z.lxor c (Z.lor b (not32 d)), (7 * n) mod 16) in
  let sum := u32 (a + f + nth i alt_k 0 + nth (Z.to_nat g) w 0) in
  let s := nth i alt_r 0 in
  let rotated := Z.lor (u32 (Z.shiftl sum s)) (Z.shiftr sum (32 - s)) in
  Md5Hash d (u32 (b + rotated)) b c.

Definition alt_chunk (h : md5hash_t) (chunk : list Z) : md5hash_t :=
  add_hash h (fold_left (alt_step (Decode chunk)) (seq 0 64) h).

(** The loop over the chunks of [msg]; [n] of them are left. *)
Fixpoint alt_loop (n : nat) (h : md5hash_t) (msg : list Z) : md5hash_t :=
  match n with
  | O => h
  | S n => alt_loop n (alt_chunk h (takeZ 64 msg)) (dropZ 64 msg)
  end.

(** The message with its padding, as it is in memory when the main loop begins. *)
Definition alt_message (new_len data_len : Z) (data : list Z) : option (list Z) :=
  let msg := repeat 0 (Z.to_nat (new_len + 64)) in
  msg ← memcpy msg 0 data data_len;
  msg ← memcpy msg data_len [128] 1;
  memcpy msg new_len (le32_bytes (u32 (8 * data_len))) 4.

Definition altMD5_hash (g_md5hash : md5hash_t) (data_len : Z) (data : list Z) : option md5hash_t :=
  if data_len =? 0 then Some g_md5hash else
  let new_len := s32 (((data_len + 8) / 64 + 1) * 64 - 8) in
  msg ← alt_message new_len data_len data;
  Some (alt_loop (Z.to_nat ((new_len + 63) / 64)) g_md5hash msg).

Definition altMD5_reset : md5hash_t := magic.
Definition altMD5_getHash (g_md5hash : md5hash_t) : md5hash_t := g_md5hash.

(** ** Files *)

(** An input stream of the C++ library: its contents, position and the end and failure
    bits.  The loops below call only [good], [eof], [fail], [clear], [tellg], [seekg],
    [read] and [gcount]. *)
Record istream := IStream { is_contents : list Z; is_pos : Z; is_eof : bool; is_fail : bool }.

Definition is_good (s : istream) : bool := negb (is_eof s) && negb (is_fail s).
Definition is_tellg (s : istream) : Z := if is_fail s then -1 else is_pos s.
Definition is_seekg (pos : Z) (s : istream) : istream :=
  if is_fail s then IStream (is_contents s) (is_pos s) false true
  else IStream (is_contents s) pos false false.
(** The bytes read; their number is [gcount]. *)
Definition is_read (n : Z) (s : istream) : istream * list Z :=
  if is_good s then
    let bytes := subZ (is_pos s) n (is_contents s) in
    let short := lenZ bytes <? n in
    (IStream (is_contents s) (is_pos s + lenZ bytes) short short, bytes)
  else (IStream (is_contents s) (is_pos s) (is_eof s) true, []).

Definition MD5_BUFF_SIZE : Z := 512.

(** The loop that reads the stream in pieces: [add] takes each piece.  Returns the
    stream, what [add] has made of the pieces, and the size. *)
Fixpoint read_loop {X} (fuel : nat) (add : X -> list Z -> Z -> option X) (strm : istream) (x : X)
    (filesize : Z) : option (istream * X * Z) :=
  if is_tellg strm =? -1 then Some (strm, x, filesize) else
  match fuel with
  | O => None
  | S fuel =>
    let '(strm, bytes) := is_read MD5_BUFF_SIZE strm in
    let buff := bytes ++ repeat 0 (Z.to_nat (MD5_BUFF_SIZE - lenZ bytes)) in
    let len := lenZ bytes in
    x ← add x buff len;
    if is_eof strm then Some (strm, x, filesize + len)
    else
      let tell := s32 (is_tellg strm) in
      read_loop fuel add strm x (if tell =? -1 then filesize else tell)
  end.

Definition is_rewind (strm : istream) : istream :=
  is_seekg 0 (if is_fail strm then IStream (is_contents strm) (is_pos strm) false false else strm).

Definition EINVAL : Z := 22.

(** Results: the stream, the size and the digest, and the code the function returns; a
    stream that is not good leaves the size and the digest alone. *)
Definition md5_file_details (stack : md5Context_t) (errno : Z) (strm : option istream)
    (filesize : Z) (md5 : md5hash_t) : option (option istream * Z * md5hash_t * Z) :=
  match strm with
  | None => Some (None, filesize, md5, - EINVAL)
  | Some strm =>
    if negb (is_good strm) then Some (Some strm, filesize, md5, - errno) else
    let context := md5_init stack in
    let strm := is_seekg 0 strm in
    '(strm, context, filesize) ←
      read_loop (S (length (is_contents strm))) md5_update strm context 0;
    '(_, md5) ← md5_final context;
    Some (Some (is_rewind strm), filesize, md5, 0)
  end.

(** The same with the older digest, which is a global variable. *)
Definition altMD5_file_details (errno : Z) (strm : option istream) (g_md5hash : md5hash_t)
    (filesize : Z) (md5 : md5hash_t)
    : option (option istream * md5hash_t * Z * md5hash_t * Z) :=
  match strm with
  | None => Some (None, g_md5hash, filesize, md5, - EINVAL)
  | Some strm =>
    if negb (is_good strm) then Some (Some strm, g_md5hash, filesize, md5, - errno) else
    let g_md5hash := altMD5_reset in
    let strm := is_seekg 0 strm in
    '(strm, g_md5hash, filesize) ←
      read_loop (S (length (is_contents strm))) (fun g data len => altMD5_hash g len data) strm g_md5hash 0;
    Some (Some (is_rewind strm), g_md5hash, filesize, altMD5_getHash g_md5hash, 0)
  end.

(** ** Text *)

Definition hex_value (a : Z) : Z := if a <=? 0x39 then a - 0x30 else Z.land a 7 + 9.

(** The 16 bytes read from 32 characters; [md5.bytes[i]] has 8 bits. *)
Fixpoint bytes_from_chars (n : nat) (hashStr : list Z) : option (list Z) :=
  match n with
  | O => Some []
  | S n =>
    match hashStr with
    | a :: b :: hashStr =>
      rest ← bytes_from_chars n hashStr;
      Some (u8 (Z.lor (u8 (Z.shiftl (u8 (hex_value a)) 4)) (hex_value b)) :: rest)
    | _ => None
    end
  end.

Definition hash_of_bytes (l : list Z) : md5hash_t :=
  match Decode l with
  | [d0; d1; d2; d3] => Md5Hash d0 d1 d2 d3
  | _ => Md5Hash 0 0 0 0
  end.

Definition md5_from_char_array (hashStr : list Z) : option md5hash_t :=
  l ← bytes_from_chars 16 hashStr; Some (hash_of_bytes l).

(** [%02x] of a byte. *)
Definition nibble_char (d : Z) : Z := if d <? 10 then 0x30 + d else 0x61 + (d - 10).
Definition byte_text (b : Z) : list Z := [nibble_char (b / 16); nibble_char (b mod 16)].

(** The text with its terminating zero, in front of the rest of the array. *)
Definition md5_to_char_array (md5 : md5hash_t) (hashStr : list Z) (hashStrMaxLen : Z)
    : option (list Z * bool) :=
  if hashStrMaxLen <=? 32 then Some (hashStr, false) else
  hashStr ← memcpy hashStr 0 (flat_map byte_text (hash_bytes md5) ++ [0]) 33;
  Some (hashStr, true).

Definition md5_from_string (hashStr : list Z) : option md5hash_t :=
  if lenZ hashStr <? 32 then Some (Md5Hash 0 0 0 0) else md5_from_char_array (hashStr ++ [0]).

Definition md5_to_string (md5hash : md5hash_t) (stack : list Z) : option (list Z) :=
  '(array, _) ← md5_to_char_array md5hash stack 33;
  take_exact 32 array.

(** [md5_matches] of two digests. *)
Definition md5_matches (a b : md5hash_t) : bool :=
  (dword0 a =? dword0 b) && (dword1 a =? dword1 b) && (dword2 a =? dword2 b) &&
  (dword3 a =? dword3 b).

End Md5.
