(* ===== verification/Md5Props.v ===== *)
(** * Properties of the MD5 digests

    The incremental digest against the digest of the padded message, for any division
    into pieces; the older digest; files; the text form. *)

From S2P Require Import Prelude CommTx Md5.
Import Md5.

(** ** The transformation of a block *)

(** The instructions of MD5Transform as a table: macro, variables and word of step [n]. *)
Definition macro_at (n : Z) : md5_macro :=
  if n <? 16 then FF else if n <? 32 then GG else if n <? 48 then HH else II.
Definition word_at (n : Z) : Z :=
  if n <? 16 then n else if n <? 32 then (5 * n + 1) mod 16
  else if n <? 48 then (3 * n + 5) mod 16 else (7 * n) mod 16.
Definition vars_at (n : Z) : md5_var * md5_var * md5_var * md5_var :=
  match n mod 4 with 0 => (A, B, C, D) | 1 => (D, A, B, C) | 2 => (C, D, A, B) | _ => (B, C, D, A) end.
Definition instr_at (i : nat) : md5_instr :=
  let n := Z.of_nat i in
  let '(a, b, c, d) := vars_at n in
  Instr (macro_at n) a b c d (word_at n) (nth i alt_r 0) (nth i alt_k 0).

Lemma instrs_table : MD5Transform_instrs = map instr_at (seq 0 64).
Proof. vm_compute. reflexivity. Qed.

(** The variables in the order the older code keeps them in before step [n]. *)
Definition rot (n : Z) (r : md5hash_t) : md5hash_t :=
  let '(a, b, c, d) := vars_at n in
  Md5Hash (get_var a r) (get_var b r) (get_var c r) (get_var d r).

Lemma alt_step_macro w a b c d i : alt_step w (Md5Hash a b c d) i =
  let n := Z.of_nat i in
  Md5Hash d (u32 (ROTATE_LEFT (u32 (a + macro_fn (macro_at n) b c d +
      nth (Z.to_nat (word_at n)) w 0 + nth i alt_k 0)) (nth i alt_r 0) + b)) b c.
Proof.
  unfold alt_step, macro_at, word_at, ROTATE_LEFT. cbv zeta.
  destruct (Z.of_nat i <? 16), (Z.of_nat i <? 32), (Z.of_nat i <? 48); cbn [macro_fn];
    unfold F, G, H, I; rewrite 1?(Z.land_comm d b), 1?(Z.land_comm (not32 d) c);
    rewrite (Z.add_comm b), <- (Z.add_assoc _ (nth i alt_k 0)), (Z.add_comm (nth i alt_k 0)), Z.add_assoc;
    reflexivity.
Qed.

Lemma alt_step_rot w i r : alt_step w (rot (Z.of_nat i) r) i =
  rot (Z.of_nat (S i)) (exec_instr w r (instr_at i)).
Proof.
  rewrite Nat2Z.inj_succ. unfold rot, instr_at, vars_at.
  pose proof (Z.mod_pos_bound (Z.of_nat i) 4) as Hm.
  assert (Z.succ (Z.of_nat i) mod 4 = (Z.of_nat i mod 4 + 1) mod 4) as ->
    by (unfold Z.succ; by rewrite Z.add_mod_idemp_l).
  destruct r as [a b c d].
  assert (Z.of_nat i mod 4 = 0 \/ Z.of_nat i mod 4 = 1 \/ Z.of_nat i mod 4 = 2 \/ Z.of_nat i mod 4 = 3)
    as [E|[E|[E|E]]] by lia; rewrite E; rewrite alt_step_macro; reflexivity.
Qed.

Lemma alt_steps_rot w r n i :
  fold_left (alt_step w) (seq i n) (rot (Z.of_nat i) r) =
  rot (Z.of_nat (i + n)) (fold_left (exec_instr w) (map instr_at (seq i n)) r).
Proof.
  revert i r. induction n as [|n IH]; intros i r; [by rewrite Nat.add_0_r|].
  cbn [seq map fold_left]. rewrite alt_step_rot, IH. f_equal. lia.
Qed.

(** The unrolled code is the loop. *)
Lemma transform_chunk h block : MD5Transform h block = alt_chunk h block.
Proof.
  unfold MD5Transform, alt_chunk. f_equal. rewrite instrs_table.
  pose proof (alt_steps_rot (Decode block) h 64 0) as E. destruct h as [a b c d].
  cbn [Nat.add] in E. change (rot (Z.of_nat 0) (Md5Hash a b c d)) with (Md5Hash a b c d) in E.
  rewrite E. by destruct (fold_left (exec_instr _) _ _).
Qed.

(** ** The reference digest *)

Lemma alt_loop_app n m h l r : lenZ l = 64 * Z.of_nat n ->
  alt_loop (n + m) h (l ++ r) = alt_loop m (alt_loop n h l) r.
Proof.
  revert h l. induction n as [|n IH]; intros h l Hl.
  - apply lenZ_0_nil in Hl as ->. done.
  - cbn [Nat.add alt_loop].
    assert (takeZ 64 (l ++ r) = takeZ 64 l) as ->
      by (unfold takeZ; rewrite take_app_le; [done|unfold lenZ in *; lia]).
    assert (dropZ 64 (l ++ r) = dropZ 64 l ++ r) as ->
      by (unfold dropZ; rewrite drop_app_le; [done|unfold lenZ in *; lia]).
    apply IH. rewrite lenZ_dropZ. lia.
Qed.

Lemma alt_loop_prefix n h l r : lenZ l = 64 * Z.of_nat n -> alt_loop n h (l ++ r) = alt_loop n h l.
Proof. intros Hl. by rewrite <- (Nat.add_0_r n), alt_loop_app, Nat.add_0_r. Qed.

(** The message behind which its padding stands: a bit, zeros up to eight bytes in front
    of a multiple of 64, and the length in bits modulo 2^64. *)
Definition bit_length (l : list Z) : Z := 8 * lenZ l.
Definition md5_padding (l : list Z) : list Z :=
  0x80 :: repeat 0 (Z.to_nat ((55 - lenZ l) mod 64)) ++
  le32_bytes (u32 (bit_length l)) ++ le32_bytes (u32 (bit_length l / 4294967296)).

(** The digest of a message: the chunks of the padded message, one after the other. *)
Definition md5_spec (l : list Z) : md5hash_t :=
  let m := l ++ md5_padding l in alt_loop (Z.to_nat (lenZ m / 64)) magic m.

(** What a context knows of the bytes [msg] it has been given. *)
Definition running (ctx : md5Context_t) (msg : list Z) : Prop :=
  count0 ctx = u32 (bit_length msg) /\ count1 ctx = u32 (bit_length msg / 4294967296) /\
  lenZ (md5_buffer ctx) = 64 /\
  exists n pre rest, msg = pre ++ rest /\ lenZ pre = 64 * Z.of_nat n /\ lenZ rest < 64 /\
    md5_state ctx = alt_loop n magic pre /\ takeZ (lenZ rest) (md5_buffer ctx) = rest.

Lemma transform_loop_ok fuel : forall state input i inputLen,
  0 <= i <= inputLen -> inputLen <= lenZ input -> inputLen <= 4294967232 ->
  inputLen - i <= Z.of_nat fuel ->
  exists k, i + 64 * Z.of_nat k <= inputLen < i + 64 * Z.of_nat k + 64 /\
    transform_loop fuel state input i inputLen =
      Some (alt_loop k state (subZ i (64 * Z.of_nat k) input), i + 64 * Z.of_nat k).
Proof.
  induction fuel as [|fuel IH]; intros state input i inputLen Hi Hl Hmax Hf; cbn [transform_loop];
    unfold u32 at 1; rewrite Z.mod_small by lia.
  - rewrite (proj2 (Z.ltb_ge _ _)) by lia. exists O. split; [lia|]. cbn [alt_loop]. do 2 f_equal. lia.
  - destruct (Z.ltb_spec (i + 63) inputLen).
    2:{ exists O. split; [lia|]. cbn [alt_loop]. do 2 f_equal. lia. }
    rewrite take_exact_ok by (rewrite lenZ_dropZ; lia). cbn [mbind option_bind].
    unfold u32. rewrite Z.mod_small by lia.
    destruct (IH (MD5Transform state (takeZ 64 (dropZ i input))) input (i + 64) inputLen)
      as (k & Hk & ->); [lia..|].
    exists (S k). split; [lia|]. rewrite transform_chunk. cbn [alt_loop]. do 2 f_equal; [|lia].
    f_equal; [f_equal|].
    + unfold subZ, takeZ. rewrite take_take. f_equal. lia.
    + unfold subZ, takeZ, dropZ. rewrite skipn_firstn_comm, drop_drop. f_equal; [lia|f_equal; lia].
Qed.

Lemma count_update a b : 0 <= a -> 0 <= b ->
  let c0 := u32 (u32 a + u32 b) in
  let c1 := if c0 <? u32 b then u32 (u32 (a / 4294967296) + 1) else u32 (a / 4294967296) in
  c0 = u32 (a + b) /\ u32 (c1 + b / 4294967296) = u32 ((a + b) / 4294967296).
Proof.
  intros Ha Hb c0 c1. split; [unfold c0, u32; by rewrite <- Z.add_mod|].
  set (M := 4294967296) in *.
  assert ((a + b) / M = a / M + b / M + (if c0 <? u32 b then 1 else 0)) as ->.
  { unfold c0, u32. fold M. pose proof (Z.mod_pos_bound a M ltac:(done)).
    pose proof (Z.mod_pos_bound b M ltac:(done)).
    pose proof (Z.div_mod a M ltac:(done)). pose proof (Z.div_mod b M ltac:(done)).
    destruct (Z.le_gt_cases M (a mod M + b mod M)) as [Hc|Hc].
    - assert ((a mod M + b mod M) mod M = a mod M + b mod M - M) as ->
        by (symmetry; apply Z.mod_unique with 1; lia).
      rewrite (proj2 (Z.ltb_lt _ _)) by lia.
      symmetry. apply Z.div_unique with (a mod M + b mod M - M); lia.
    - rewrite (Z.mod_small (a mod M + b mod M)) by lia. rewrite (proj2 (Z.ltb_ge _ _)) by lia.
      symmetry. apply Z.div_unique with (a mod M + b mod M); lia. }
  unfold c1, u32. fold M. destruct (_ <? _).
  - rewrite Z.add_mod_idemp_l, <- Z.add_assoc, Z.add_mod_idemp_l by done. f_equal. lia.
  - rewrite Z.add_mod_idemp_l by done. f_equal. lia.
Qed.

Lemma buffer_index l : Z.land (Z.shiftr (u32 (bit_length l)) 3) 0x3F = lenZ l mod 64.
Proof.
  change 0x3F with (Z.ones 6). rewrite Z.land_ones, Z.shiftr_div_pow2 by lia.
  unfold u32, bit_length. change (2 ^ 3) with 8. change (2 ^ 6) with 64.
  pose proof (lenZ_nonneg l). zlia.
Qed.

Lemma takeZ_updZ off (bs l : list Z) : 0 <= off <= lenZ l ->
  takeZ (off + lenZ bs) (updZ off bs l) = takeZ off l ++ bs.
Proof.
  intros Ho. unfold updZ. rewrite app_assoc. unfold takeZ at 1.
  rewrite take_app_le, take_ge; [done|..];
    pose proof (lenZ_takeZ off l); unfold lenZ in *; rewrite length_app; lia.
Qed.

Lemma lenZ_updZ_in off (bs l : list Z) : 0 <= off -> off + lenZ bs <= lenZ l ->
  lenZ (updZ off bs l) = lenZ l.
Proof. intros. apply lenZ_updZ; lia. Qed.

(** The first [n] elements, in three parts. *)
Lemma split_input {Y} a b n (l : list Y) : 0 <= a -> 0 <= b -> a + b <= n ->
  takeZ n l = takeZ a l ++ subZ a b l ++ takeZ (n - (a + b)) (dropZ (a + b) l).
Proof.
  intros Ha Hb Hn. rewrite app_assoc. unfold subZ, takeZ, dropZ.
  rewrite take_take_drop, <- Z2Nat.inj_add, take_take_drop, <- Z2Nat.inj_add by lia. do 2 f_equal. lia.
Qed.

(** The state covers all complete chunks of [msg], the buffer begins with the rest. *)
Definition hashed (state : md5hash_t) (buffer msg : list Z) (n : nat) (pre rest : list Z) : Prop :=
  msg = pre ++ rest /\ lenZ pre = 64 * Z.of_nat n /\ lenZ rest < 64 /\
  state = alt_loop n magic pre /\ takeZ (lenZ rest) buffer = rest.

(** Input that completes a chunk: the chunk, the chunks behind it, and a new rest. *)
Lemma input_chunks state buffer msg n pre rest input inputLen :
  hashed state buffer msg n pre rest -> lenZ buffer = 64 -> 64 - lenZ rest <= inputLen <= lenZ input ->
  inputLen <= 4294967232 ->
  let part := 64 - lenZ rest in
  exists block k state' buffer' n' pre' rest',
    memcpy buffer (lenZ rest) input part = Some block /\ lenZ block = 64 /\
    transform_loop (Z.to_nat inputLen) (MD5Transform state block) input part inputLen =
      Some (state', part + k) /\
    memcpy block 0 (dropZ (part + k) input) (inputLen - (part + k)) = Some buffer' /\
    lenZ buffer' = 64 /\ hashed state' buffer' (msg ++ takeZ inputLen input) n' pre' rest'.
Proof.
  intros (-> & Hpre & Hrest & -> & Ebuf) Hb Hi Hmax part. pose proof (lenZ_nonneg rest).
  rewrite memcpy_ok by lia. set (first := takeZ part input).
  assert (lenZ first = part) as Hfirst by (unfold first; rewrite lenZ_takeZ; lia).
  assert (updZ (lenZ rest) first buffer = rest ++ first) as ->.
  { rewrite <- (takeZ_all 64 (updZ _ _ _)) by (rewrite lenZ_updZ_in; lia).
    replace 64 with (lenZ rest + lenZ first) by lia. rewrite takeZ_updZ by lia. by rewrite Ebuf. }
  assert (lenZ (rest ++ first) = 64) as Hl by (rewrite lenZ_app; lia).
  destruct (transform_loop_ok (Z.to_nat inputLen)
    (MD5Transform (alt_loop n magic pre) (rest ++ first)) input part inputLen) as (k & Hk & E); [lia..|].
  set (blocks := subZ part (64 * Z.of_nat k) input) in *.
  assert (lenZ blocks = 64 * Z.of_nat k) as Hblocks by (unfold blocks; rewrite lenZ_subZ; lia).
  set (o := part + 64 * Z.of_nat k) in *. set (rest' := takeZ (inputLen - o) (dropZ o input)).
  assert (lenZ rest' = inputLen - o) as Hrest' by (unfold rest'; rewrite lenZ_takeZ, lenZ_dropZ; lia).
  exists (rest ++ first), (64 * Z.of_nat k). eexists _, (updZ 0 rest' (rest ++ first)),
    (n + (1 + k))%nat, (pre ++ (rest ++ first) ++ blocks), rest'.
  split; [done|]. split; [done|]. split; [exact E|].
  split; [apply memcpy_ok; rewrite ?lenZ_dropZ; lia|]. split; [rewrite lenZ_updZ_in; lia|]. split_and!.
  - rewrite <- !app_assoc. do 2 f_equal. apply split_input; lia.
  - rewrite !lenZ_app in *. lia.
  - lia.
  - rewrite alt_loop_app, transform_chunk by done.
    rewrite (alt_loop_app 1 k) by (change (Z.of_nat 1) with 1; lia).
    cbn [alt_loop]. do 2 f_equal. by rewrite takeZ_all by lia.
  - replace (lenZ rest') with (0 + lenZ rest') by lia. rewrite takeZ_updZ by lia. by rewrite takeZ_0.
Qed.

(** Less input is kept in the buffer. *)
Lemma input_kept state buffer msg n pre rest input inputLen :
  hashed state buffer msg n pre rest -> lenZ buffer = 64 -> 0 <= inputLen < 64 - lenZ rest ->
  inputLen <= lenZ input ->
  exists buffer', memcpy buffer (lenZ rest) input inputLen = Some buffer' /\ lenZ buffer' = 64 /\
    hashed state buffer' (msg ++ takeZ inputLen input) n pre (rest ++ takeZ inputLen input).
Proof.
  intros (-> & Hpre & Hrest & -> & Ebuf) Hb Hi Hl. pose proof (lenZ_nonneg rest).
  assert (lenZ (takeZ inputLen input) = inputLen) as Hnew by (rewrite lenZ_takeZ; lia).
  rewrite memcpy_ok by lia. eexists. split; [done|]. split; [rewrite lenZ_updZ_in; lia|].
  split_and!; [by rewrite app_assoc|done|rewrite lenZ_app; lia|done|].
  rewrite lenZ_app, takeZ_updZ by lia. by rewrite Ebuf.
Qed.

(** Bytes added to a context, from the first [inputLen] of [input]. *)
Lemma md5_update_ok ctx msg input inputLen :
  running ctx msg -> 0 <= inputLen <= lenZ input -> inputLen <= 4294967232 ->
  exists ctx', md5_update ctx input inputLen = Some ctx' /\ running ctx' (msg ++ takeZ inputLen input).
Proof.
  intros (E0 & E1 & Hb & n & pre & rest & Hh) Hi Hmax.
  unfold md5_update. destruct (Z.eqb_spec inputLen 0) as [->|Hpos].
  { exists ctx. split; [done|]. rewrite takeZ_0, app_nil_r. repeat split; try done.
    by exists n, pre, rest. }
  pose proof Hh as (Em & Hpre & Hrest & _). pose proof (lenZ_nonneg rest). pose proof (lenZ_nonneg msg).
  rewrite E0, buffer_index.
  assert (lenZ msg mod 64 = lenZ rest) as ->.
  { rewrite Em, lenZ_app, Hpre. rewrite (Z.add_comm (64 * _)), Z.mul_comm, Z.mod_add by done.
    by apply Z.mod_small. }
  assert (bit_length (msg ++ takeZ inputLen input) = bit_length msg + 8 * inputLen) as Hbits
    by (unfold bit_length; rewrite lenZ_app, lenZ_takeZ; lia).
  destruct (count_update (bit_length msg) (8 * inputLen)) as [Hc0 Hc1]; [unfold bit_length; lia|lia|].
  rewrite Z.shiftl_mul_pow2, Z.shiftr_div_pow2, (Z.mul_comm inputLen) by lia.
  change (2 ^ 3) with 8. rewrite <- (Z.div_mul_cancel_l inputLen (2 ^ 29) 8) by done.
  change (8 * 2 ^ 29) with 4294967296. rewrite E1.
  destruct (Z.leb_spec (64 - lenZ rest) inputLen).
  - destruct (input_chunks _ _ _ _ _ _ input inputLen Hh Hb)
      as (block & k & state' & buffer' & n' & pre' & rest' & -> & _ & E & E' & Hb' & Hh'); [lia|lia|].
    cbn [mbind option_bind]. rewrite E. cbn [mbind option_bind]. rewrite E'. cbn [mbind option_bind].
    eexists. split; [reflexivity|]. split; [by rewrite Hbits, <- Hc0|]. split; [by rewrite Hbits, <- Hc1|].
    split; [done|]. by exists n', pre', rest'.
  - cbn [mbind option_bind]. rewrite dropZ_0, Z.sub_0_r.
    destruct (input_kept _ _ _ _ _ _ input inputLen Hh Hb) as (buffer' & -> & Hb' & Hh'); [lia|lia|].
    cbn [mbind option_bind]. eexists. split; [reflexivity|].
    split; [by rewrite Hbits, <- Hc0|]. split; [by rewrite Hbits, <- Hc1|].
    split; [done|]. by eexists n, pre, _.
Qed.

Lemma init_running ctx : lenZ (md5_buffer ctx) = 64 -> running (md5_init ctx) [].
Proof.
  intros Hb. split_and!; try done. by exists O, [], [].
Qed.

Lemma encode_word_le x : 0 <= x < 4294967296 -> encode_word x = le32_bytes x.
Proof.
  intros Hx. unfold encode_word, le32_bytes. change 0xff with (Z.ones 8).
  rewrite !Z.land_ones, !Z.shiftr_div_pow2 by lia. reflexivity.
Qed.

Lemma Encode_counts a b : Encode [u32 a; u32 b] = le32_bytes (u32 a) ++ le32_bytes (u32 b).
Proof.
  unfold Encode. cbn [flat_map]. rewrite app_nil_r.
  rewrite !encode_word_le by (unfold u32; apply Z.mod_pos_bound; done). done.
Qed.

Lemma take_repeat {X} (x : X) m k : take m (repeat x (m + k)) = repeat x m.
Proof. induction m as [|m IH]; cbn; by rewrite ?take_0, ?IH. Qed.

Lemma takeZ_padding n : 1 <= n <= 64 -> takeZ n PADDING = 0x80 :: repeat 0 (Z.to_nat (n - 1)).
Proof.
  intros Hn. unfold takeZ, PADDING. replace (Z.to_nat n) with (S (Z.to_nat (n - 1))) by lia.
  change (take (S ?m) (?x :: ?l)) with (x :: take m l). f_equal.
  replace 63%nat with (Z.to_nat (n - 1) + (63 - Z.to_nat (n - 1)))%nat by lia.
  apply take_repeat.
Qed.

Lemma md5_final_ok ctx msg : running ctx msg ->
  exists ctx', md5_final ctx = Some (ctx', md5_spec msg) /\ lenZ (md5_buffer ctx') = 64.
Proof.
  intros Hrun. pose proof Hrun as (E0 & E1 & Hb & _). unfold md5_final.
  rewrite E0, buffer_index, E1, Encode_counts. pose proof (lenZ_nonneg msg) as Hm.
  set (index := lenZ msg mod 64). pose proof (Z.mod_pos_bound (lenZ msg) 64 ltac:(done)) as Hx.
  fold index in Hx.
  set (padLen := if index <? 56 then 56 - index else 120 - index).
  assert (padLen = (55 - lenZ msg) mod 64 + 1) as Ep.
  { unfold padLen. assert ((55 - lenZ msg) mod 64 = (55 - index) mod 64) as ->
      by (unfold index; by rewrite Zminus_mod_idemp_r).
    destruct (Z.ltb_spec index 56); [rewrite Z.mod_small; lia|].
    rewrite <- (Z.mod_unique (55 - index) 64 (-1) (119 - index)); lia. }
  pose proof (Z.mod_pos_bound (55 - lenZ msg) 64 ltac:(done)) as Hp.
  set (bits := le32_bytes _ ++ le32_bytes _).
  destruct (md5_update_ok ctx msg PADDING padLen Hrun) as (c1 & -> & Hrun1);
    [change (lenZ PADDING) with 64; lia|lia|].
  cbn [mbind option_bind].
  destruct (md5_update_ok c1 _ bits 8 Hrun1) as (c2 & -> & Hrun2); [done|done|].
  cbn [mbind option_bind]. exists c2. split; [|apply Hrun2]. do 2 f_equal.
  rewrite takeZ_padding in Hrun2 by lia. rewrite (takeZ_all 8 bits) in Hrun2 by done.
  destruct Hrun2 as (_ & _ & _ & n & pre & rest & Em & Hpre & Hrest & -> & _).
  replace (padLen - 1) with ((55 - lenZ msg) mod 64) in Em by lia.
  assert (msg ++ md5_padding msg = pre ++ rest) as Eall
    by (rewrite <- Em; unfold md5_padding; by rewrite <- !app_assoc).
  assert (lenZ (msg ++ md5_padding msg) mod 64 = 0) as Hall.
  { unfold md5_padding. rewrite lenZ_app, lenZ_cons, lenZ_app. change (lenZ (le32_bytes _ ++ _)) with 8.
    unfold lenZ at 2. rewrite repeat_length, Z2Nat.id by lia.
    assert ((55 - lenZ msg) mod 64 = (55 - index) mod 64) as E55
      by (unfold index; by rewrite Zminus_mod_idemp_r).
    zlia. }
  pose proof (lenZ_nonneg rest). rewrite Eall, lenZ_app, Hpre in Hall.
  assert (rest = []) as -> by (apply lenZ_0_nil; zlia).
  unfold md5_spec. rewrite Eall, app_nil_r, Hpre. f_equal.
  rewrite (Z.mul_comm 64), Z.div_mul by done. lia.
Qed.

(** Pieces given to a context one after the other. *)
Fixpoint md5_pieces (ctx : md5Context_t) (pieces : list (list Z)) : option md5Context_t :=
  match pieces with
  | [] => Some ctx
  | p :: pieces => ctx ← md5_update ctx p (lenZ p); md5_pieces ctx pieces
  end.

(** The sizes that a call of [md5_update] handles. *)
Definition piece_ok (p : list Z) : Prop := lenZ p <= 4294967232.

Lemma md5_pieces_ok pieces : forall ctx msg, running ctx msg -> Forall piece_ok pieces ->
  exists ctx', md5_pieces ctx pieces = Some ctx' /\ running ctx' (msg ++ concat pieces).
Proof.
  induction pieces as [|p pieces IH]; intros ctx msg Hrun Hok; cbn [md5_pieces concat].
  { exists ctx. by rewrite app_nil_r. }
  apply Forall_cons_iff in Hok as [Hp Hok]. pose proof (lenZ_nonneg p).
  destruct (md5_update_ok ctx msg p (lenZ p) Hrun) as (c1 & -> & Hrun1); [lia|done|].
  cbn [mbind option_bind]. rewrite takeZ_all in Hrun1 by lia.
  destruct (IH c1 _ Hrun1 Hok) as (c2 & E2 & Hrun2). exists c2. split; [done|].
  by rewrite <- app_assoc in Hrun2.
Qed.

(** C39: a message given to a fresh context in pieces of any sizes, each below 2^32 - 64
    bytes, has the digest of the whole: the 64-byte chunks of the message with its
    padding and 64-bit length, put through the looped form of the transformation.  In
    particular the digest does not depend on the division into pieces. *)
Theorem md5_incremental stack pieces :
  lenZ (md5_buffer stack) = 64 -> Forall piece_ok pieces ->
  exists ctx ctx', md5_pieces (md5_init stack) pieces = Some ctx /\
    md5_final ctx = Some (ctx', md5_spec (concat pieces)).
Proof.
  intros Hb Hok. destruct (md5_pieces_ok pieces _ [] (init_running stack Hb) Hok) as (ctx & E & Hrun).
  destruct (md5_final_ok ctx _ Hrun) as (ctx' & E' & _). by exists ctx, ctx'.
Qed.

(** ** The older digest *)

Definition zerosZ (n : Z) : list Z := repeat 0 (Z.to_nat n).

Lemma lenZ_zerosZ n : 0 <= n -> lenZ (zerosZ n) = n.
Proof. intros. unfold zerosZ, lenZ. rewrite repeat_length. lia. Qed.

Lemma zerosZ_app n m : 0 <= n -> 0 <= m -> zerosZ (n + m) = zerosZ n ++ zerosZ m.
Proof. intros. unfold zerosZ. by rewrite <- repeat_app, Z2Nat.inj_add. Qed.

Lemma memcpy_zeros (pre src : list Z) n m :
  m = lenZ pre -> lenZ src <= n ->
  memcpy (pre ++ zerosZ n) m src (lenZ src) = Some (pre ++ src ++ zerosZ (n - lenZ src)).
Proof.
  intros -> Hn. pose proof (lenZ_nonneg src). pose proof (lenZ_nonneg pre).
  rewrite memcpy_ok by (rewrite ?lenZ_app, ?lenZ_zerosZ; lia). rewrite takeZ_all by lia.
  replace n with (lenZ src + (n - lenZ src)) at 1 by lia. rewrite zerosZ_app by lia.
  by rewrite updZ_middle by (rewrite lenZ_zerosZ; lia).
Qed.

Lemma alt_message_ok data new_len :
  0 < lenZ data -> lenZ data < new_len -> alt_message new_len (lenZ data) data =
  Some (data ++ 128 :: zerosZ (new_len - lenZ data - 1) ++ le32_bytes (u32 (bit_length data)) ++ zerosZ 60).
Proof.
  intros Hd Hn. unfold alt_message. fold (zerosZ (new_len + 64)).
  change (zerosZ (new_len + 64)) with ([] ++ zerosZ (new_len + 64)).
  rewrite memcpy_zeros by (done || lia). cbn [mbind option_bind app].
  rewrite (memcpy_zeros data [128]) by (change (lenZ [128]) with 1; lia).
  cbn [mbind option_bind]. change (lenZ [128]) with 1.
  replace (new_len + 64 - lenZ data - 1) with ((new_len - lenZ data - 1) + 64) by lia.
  rewrite zerosZ_app by lia. set (bits := le32_bytes _).
  replace (data ++ [128] ++ zerosZ (new_len - lenZ data - 1) ++ zerosZ 64)
    with ((data ++ 128 :: zerosZ (new_len - lenZ data - 1)) ++ zerosZ 64)
    by (rewrite <- app_assoc; reflexivity).
  rewrite (memcpy_zeros _ bits 64); [|rewrite lenZ_app, lenZ_cons, lenZ_zerosZ; lia|done].
  f_equal. rewrite <- app_assoc. reflexivity.
Qed.

(** for a single piece below 2^29 - 64 bytes, not empty, the older digest is the digest. *)
Theorem altMD5_one_piece data :
  0 < lenZ data -> lenZ data < 536870848 ->
  altMD5_hash altMD5_reset (lenZ data) data = Some (md5_spec data).
Proof.
  intros Hd Hmax. unfold altMD5_hash. rewrite (proj2 (Z.eqb_neq _ 0)) by lia.
  set (L := lenZ data) in *. set (N := (L + 8) / 64 + 1).
  assert (s32 (N * 64 - 8) = N * 64 - 8) as -> by (unfold s32, N; rewrite Z.mod_small; zlia).
  assert (L < N * 64 - 8) as HN by (unfold N; zlia).
  unfold L at 1. rewrite alt_message_ok by done. cbn [mbind option_bind]. fold L.
  assert ((N * 64 - 8 + 63) / 64 = N) as -> by zlia. f_equal.
  assert (md5_padding data = 128 :: zerosZ (N * 64 - 8 - L - 1) ++ le32_bytes (u32 (bit_length data)) ++ zerosZ 4)
    as Epad.
  { unfold md5_padding. fold L. do 2 f_equal; [|f_equal].
    - unfold zerosZ. do 2 f_equal. unfold N. zlia.
    - unfold bit_length. fold L. rewrite Z.div_small by lia. reflexivity. }
  unfold md5_spec. rewrite Epad.
  set (m := data ++ 128 :: zerosZ _ ++ _ ++ zerosZ 4).
  assert (lenZ m = 64 * N) as Hm.
  { unfold m. rewrite lenZ_app, lenZ_cons, !lenZ_app, lenZ_zerosZ by lia.
    change (lenZ (le32_bytes _)) with 4. change (lenZ (zerosZ 4)) with 4. fold L. lia. }
  rewrite Hm, (Z.mul_comm 64), Z.div_mul by done.
  change (zerosZ 60) with (zerosZ 4 ++ zerosZ 56).
  rewrite <- (alt_loop_prefix _ _ m (zerosZ 56)) by lia. f_equal. unfold m.
  rewrite <- app_assoc. cbn [app]. by rewrite <- !app_assoc.
Qed.

(** ** Files *)

Lemma takeZ_subZ {Y} o n (l : list Y) : 0 <= o -> 0 <= n -> takeZ o l ++ subZ o n l = takeZ (o + n) l.
Proof.
  intros. unfold subZ, takeZ, dropZ. rewrite Z2Nat.inj_add by done. apply take_take_drop.
Qed.

Section Files.
Context {X : Type} (add : X -> list Z -> Z -> option X) (inv : X -> list Z -> Prop).
Hypothesis add_ok : forall x msg input n, inv x msg -> 0 <= n <= lenZ input -> n <= MD5_BUFF_SIZE ->
  exists x', add x input n = Some x' /\ inv x' (msg ++ takeZ n input).

(** The loop over a file: every byte is added once, in order, and counted. *)
Lemma read_loop_ok fuel : forall s x,
  is_good s = true -> 0 <= is_pos s <= lenZ (is_contents s) -> lenZ (is_contents s) < 2147483648 ->
  lenZ (is_contents s) - is_pos s < Z.of_nat fuel -> inv x (takeZ (is_pos s) (is_contents s)) ->
  exists x', read_loop fuel add s x (is_pos s) =
    Some (IStream (is_contents s) (lenZ (is_contents s)) true true, x', lenZ (is_contents s)) /\
    inv x' (is_contents s).
Proof.
  induction fuel as [|fuel IH]; intros s x Hg Hp Hlen Hf Hx; [lia|].
  destruct s as [l pos eof fail]. unfold is_good in Hg. cbn [is_eof is_fail is_pos is_contents] in *.
  apply andb_true_iff in Hg as [->%negb_true_iff ->%negb_true_iff].
  cbn [read_loop is_tellg is_fail is_pos]. rewrite (proj2 (Z.eqb_neq _ _)) by lia.
  unfold is_read. cbn [is_good is_eof is_fail negb andb is_pos is_contents].
  set (bytes := subZ pos MD5_BUFF_SIZE l).
  assert (lenZ bytes = Z.min MD5_BUFF_SIZE (lenZ l - pos)) as Hb
    by (unfold bytes, MD5_BUFF_SIZE; rewrite lenZ_subZ; lia).
  fold (zerosZ (MD5_BUFF_SIZE - lenZ bytes)). unfold MD5_BUFF_SIZE in *.
  destruct (add_ok x _ (bytes ++ zerosZ (512 - lenZ bytes)) (lenZ bytes) Hx) as (x' & -> & Hx');
    [rewrite lenZ_app, lenZ_zerosZ; lia|unfold MD5_BUFF_SIZE; lia|].
  cbn [mbind option_bind is_eof].
  assert (takeZ pos l ++ takeZ (lenZ bytes) (bytes ++ zerosZ (512 - lenZ bytes)) = takeZ (pos + lenZ bytes) l) as E.
  { assert (takeZ (lenZ bytes) (bytes ++ zerosZ (512 - lenZ bytes)) = bytes) as ->
      by (unfold takeZ, lenZ; rewrite Nat2Z.id; apply take_app_length).
    unfold bytes at 1. rewrite takeZ_subZ by lia.
    destruct (Z.le_gt_cases 512 (lenZ l - pos)); [f_equal; lia|]. rewrite !takeZ_all by lia. done. }
  rewrite E in Hx'. destruct (Z.ltb_spec (lenZ bytes) 512) as [Hshort|Hfull].

  - exists x'. rewrite takeZ_all in Hx' by lia. split; [|done]. by replace (pos + lenZ bytes) with (lenZ l) by lia.
  - cbn [is_tellg is_fail is_pos]. cbv zeta.
    assert (s32 (pos + lenZ bytes) = pos + lenZ bytes) as -> by (unfold s32; rewrite Z.mod_small; lia).
    rewrite (proj2 (Z.eqb_neq _ _)) by lia.
    apply (IH (IStream l (pos + lenZ bytes) false false)); cbn [is_pos is_contents]; done || lia.
Qed.
End Files.

(** The details of a readable file below 2 GiB: its size and the digest of its contents,
    with the stream back at the start and usable again. *)
Lemma file_details_ok stack errno s filesize md5 :
  lenZ (md5_buffer stack) = 64 -> is_good s = true -> lenZ (is_contents s) < 2147483648 ->
  md5_file_details stack errno (Some s) filesize md5 =
    Some (Some (IStream (is_contents s) 0 false false), lenZ (is_contents s),
          md5_spec (is_contents s), 0).
Proof.
  intros Hb Hg Hlen. unfold md5_file_details. rewrite Hg. cbn [negb].
  destruct s as [l pos eof fail]. unfold is_good in Hg. cbn [is_eof is_fail is_contents] in *.
  apply andb_true_iff in Hg as [->%negb_true_iff ->%negb_true_iff].
  cbn [is_seekg is_fail is_contents]. pose proof (lenZ_nonneg l).
  destruct (read_loop_ok md5_update running) with (fuel := S (length l)) (s := IStream l 0 false false)
    (x := md5_init stack) as (ctx & E & Hrun); cbn [is_pos is_contents]; try done || (unfold lenZ; lia).
  - intros x msg input n Hx Hn Hmax. apply md5_update_ok; [done|done|unfold MD5_BUFF_SIZE in *; lia].
  - rewrite takeZ_0. by apply init_running.
  - cbn [is_pos is_contents] in E. rewrite E. cbn [mbind option_bind].
    destruct (md5_final_ok ctx l Hrun) as (ctx' & -> & _). reflexivity.
Qed.

(** ** Text *)

Definition hash_ok (h : md5hash_t) : Prop :=
  0 <= dword0 h < 4294967296 /\ 0 <= dword1 h < 4294967296 /\
  0 <= dword2 h < 4294967296 /\ 0 <= dword3 h < 4294967296.

Lemma le32_bytes_byte x : Forall byte (le32_bytes x).
Proof. repeat constructor; apply Z.mod_pos_bound; done. Qed.

Lemma Decode_le32 x rest : 0 <= x < 4294967296 -> Decode (le32_bytes x ++ rest) = x :: Decode rest.
Proof.
  intros Hx. cbn [le32_bytes app Decode]. f_equal.
  rewrite lor_le32 by (apply Z.mod_pos_bound; done). zlia.
Qed.

Lemma hash_bytes_roundtrip h : hash_ok h -> hash_of_bytes (hash_bytes h) = h.
Proof.
  intros (H0 & H1 & H2 & H3). unfold hash_of_bytes, hash_bytes.
  rewrite !Decode_le32 by done. rewrite <- (app_nil_r (le32_bytes (dword3 h))).
  rewrite Decode_le32 by done. by destruct h.
Qed.

Lemma byte_text_value : forall b, 0 <= b < 256 ->
  match byte_text b with
  | [c; d] => u8 (Z.lor (u8 (Z.shiftl (u8 (hex_value c)) 4)) (hex_value d)) = b
  | _ => False
  end.
Proof.
  intros b Hb.
  assert (forallb (fun b => match byte_text b with
    | [c; d] => u8 (Z.lor (u8 (Z.shiftl (u8 (hex_value c)) 4)) (hex_value d)) =? b
    | _ => false end) (map Z.of_nat (seq 0 256)) = true) as Hall by (vm_compute; reflexivity).
  rewrite forallb_forall in Hall. specialize (Hall b).
  rewrite in_map_iff in Hall. unfold byte_text in *. apply Z.eqb_eq, Hall.
  exists (Z.to_nat b). split; [lia|]. apply in_seq. lia.
Qed.

Lemma bytes_from_text l rest : Forall byte l ->
  bytes_from_chars (length l) (flat_map byte_text l ++ rest) = Some l.
Proof.
  induction 1 as [|b l Hb _ IH]; [done|]. pose proof (byte_text_value b Hb) as E.
  cbn [length flat_map bytes_from_chars]. unfold byte_text in *. cbn [app].
  rewrite IH. cbn [mbind option_bind]. by rewrite E.
Qed.

Lemma hash_bytes_byte h : Forall byte (hash_bytes h).
Proof. unfold hash_bytes. repeat (apply Forall_app; split); apply le32_bytes_byte. Qed.

(** a digest printed as text is read back, from any buffer for the text. *)
Theorem md5_text_roundtrip h stack :
  hash_ok h -> 33 <= lenZ stack ->
  exists text, md5_to_string h stack = Some text /\ lenZ text = 32 /\
    md5_from_string text = Some h.
Proof.
  intros Hh Hs. unfold md5_to_string, md5_to_char_array. cbn [Z.leb Z.compare Pos.compare Pos.compare_cont].
  set (text := flat_map byte_text (hash_bytes h)).
  assert (lenZ text = 32) as Ht by done.
  rewrite memcpy_ok by (rewrite ?lenZ_app, ?Ht; change (lenZ [0]) with 1; lia).
  rewrite (takeZ_all 33) by (rewrite lenZ_app, Ht; done). cbn [mbind option_bind].
  rewrite take_exact_ok
    by (rewrite lenZ_updZ_in; rewrite ?lenZ_app, ?Ht; change (lenZ [0]) with 1; lia).
  exists text. split; [|split; [done|]].
  - apply (f_equal Some). unfold updZ. rewrite takeZ_0, <- app_assoc. cbn [app]. unfold takeZ.
    apply take_app_length'. unfold lenZ in Ht. lia.
  - unfold md5_from_string, md5_from_char_array. rewrite Ht. cbn [Z.ltb Z.compare Pos.compare Pos.compare_cont].
    change 16%nat with (length (hash_bytes h)). unfold text.
    rewrite bytes_from_text by apply hash_bytes_byte. cbn [mbind option_bind].
    by rewrite hash_bytes_roundtrip.
Qed.

(** The comparison of digests. *)
Lemma md5_matches_eq a b : md5_matches a b = true <-> a = b.
Proof.
  unfold md5_matches. rewrite !andb_true_iff, !Z.eqb_eq. destruct a, b; cbn. split; [|by intros [= -> -> -> ->]].
  by intros [[[-> ->] ->] ->].
Qed.

Lemma alt_loop_hash_ok n : forall h m, hash_ok h -> hash_ok (alt_loop n h m).
Proof.
  induction n as [|n IH]; intros h m Hh; [done|]. cbn [alt_loop]. apply IH. unfold alt_chunk, add_hash.
  split_and!; apply Z.mod_pos_bound; done.
Qed.

(** Digests are 32-bit words. *)
Lemma md5_spec_ok l : hash_ok (md5_spec l).
Proof. apply alt_loop_hash_ok. done. Qed.

Lemma hash_bytes_bytes h : Forall byte (hash_bytes h).
Proof. unfold hash_bytes. repeat (apply Forall_app; split); apply le32_bytes_byte. Qed.
