(* ===== verification/Utilities.v ===== *)
(** * Text utilities (src/src/ISUtilities.cpp, ISFileManager.cpp)

    Splitting and joining of strings, the directory of a path, and the functions of the C
    and C++ libraries the commands of the firmware updater use on strings: [strtol],
    [sscanf], [rfind], [c_str].  A [long] has 64 bits. *)

From Stdlib Require Import Ascii.
From stdpp Require Import strings pretty.
From S2P Require Import Prelude.
#[local] Open Scope string_scope.
#[local] Open Scope Z_scope.

Module Utilities.

(** [getline] until the stream is at its end: a delimiter at the end begins no piece. *)
Fixpoint splitString (str : string) (delimiter : ascii) : list string :=
  match str with
  | EmptyString => []
  | String x str =>
    if bool_decide (x = delimiter) then ""%string :: splitString str delimiter else
    match splitString str delimiter with
    | [] => [String x ""]
    | p :: result => String x p :: result
    end
  end.

Fixpoint joinStrings (v : list string) (c : ascii) : string :=
  match v with
  | [] => ""
  | [p] => p
  | p :: v => (p ++ String c (joinStrings v c))%string
  end.

(** The characters before the first null character. *)
Fixpoint c_str (s : string) : string :=
  match s with
  | EmptyString => ""
  | String x s => if bool_decide (x = "000"%char) then "" else String x (c_str s)
  end.

(** Where the last [c] is. *)
Fixpoint rfind (c : ascii) (s : string) : option nat :=
  match s with
  | EmptyString => None
  | String x s =>
    match rfind c s with
    | Some n => Some (S n)
    | None => if bool_decide (x = c) then Some 0%nat else None
    end
  end.

(** ** Decimal numbers *)

Definition is_space (x : ascii) : bool :=
  let n := nat_of_ascii x in (n =? 32)%nat || ((9 <=? n)%nat && (n <=? 13)%nat).

Definition digit_of (x : ascii) : option Z :=
  let n := Z.of_nat (nat_of_ascii x) in
  if (48 <=? n) && (n <=? 57) then Some (n - 48) else None.

Fixpoint skip_spaces (s : string) : string :=
  match s with
  | String x s' => if is_space x then skip_spaces s' else s
  | EmptyString => ""
  end.

Fixpoint digits (acc : Z) (s : string) : Z * string :=
  match s with
  | String x s' => match digit_of x with Some n => digits (10 * acc + n) s' | None => (acc, s) end
  | EmptyString => (acc, ""%string)
  end.

Definition scan_digits (s : string) : option (Z * string) :=
  match s with
  | String x _ => match digit_of x with Some _ => Some (digits 0 s) | None => None end
  | EmptyString => None
  end.

(** The number at the start of a string and what follows it: numbers too large for a
    [long] become the largest ones. *)
Definition scan_int (s : string) : option (Z * string) :=
  match skip_spaces s with
  | String x s' =>
    if bool_decide (x = "-"%char)
    then '(n, r) ← scan_digits s'; Some (Z.max (-9223372036854775808) (- n), r)
    else
      '(n, r) ← scan_digits (if bool_decide (x = "+"%char) then s' else String x s');
      Some (Z.min 9223372036854775807 n, r)
  | EmptyString => None
  end.

(** [strtol(s, nullptr, 10)]. *)
Definition strtol10 (s : string) : Z := match scan_int s with Some (n, _) => n | None => 0 end.

(** [sscanf] with a format of [%d] and other characters: the values that are converted. *)
Inductive scan_item := ScanInt | ScanChar (c : ascii).

Fixpoint sscanf (s : string) (format : list scan_item) : list Z :=
  match format with
  | [] => []
  | ScanInt :: format =>
    match scan_int s with Some (n, s) => s32 n :: sscanf s format | None => [] end
  | ScanChar c :: format =>
    match s with
    | String x s => if bool_decide (x = c) then sscanf s format else []
    | EmptyString => []
    end
  end.

(** ** Paths, of a system whose separator is [/] *)

Definition path_seperator : ascii := "/".

Definition isPathAbsolute (path : string) : bool :=
  match path with String x _ => bool_decide (x = path_seperator) | EmptyString => false end.

(** [cwd] is [CurrentWorkingDirectory()].  The parent is cut from [path], at the position
    of the last separator of [realPath]. *)
Definition getParentDirectory (cwd path : string) : option string :=
  let realPath := if isPathAbsolute path then path
                  else (cwd ++ String path_seperator path)%string in
  pos ← rfind path_seperator realPath;
  Some (String.substring 0 pos path).

(** ** Splitting what was joined *)

Fixpoint free_of (c : ascii) (s : string) : bool :=
  match s with
  | EmptyString => true
  | String x s => negb (bool_decide (x = c)) && free_of c s
  end.

Lemma splitString_piece s c : free_of c s = true -> s <> ""%string -> splitString s c = [s].
Proof.
  induction s as [|x s IH]; [done|]. cbn [splitString free_of]. intros Hf _. apply andb_true_iff in Hf as [Hx Hf].
  destruct (bool_decide (x = c)); [done|]. destruct s as [|y s]; [done|]. by rewrite IH.
Qed.

Lemma splitString_app s c r :
  free_of c s = true -> splitString (s ++ String c r)%string c = s :: splitString r c.
Proof.
  induction s as [|x s IH]; intros Hf.
  - change ("" ++ String c r)%string with (String c r). cbn [splitString].
    by rewrite bool_decide_eq_true_2.
  - change (String x s ++ String c r)%string with (String x (s ++ String c r)%string).
    cbn [splitString free_of] in Hf |- *. apply andb_true_iff in Hf as [Hx Hf].
    destruct (bool_decide (x = c)); [done|]. by rewrite IH.
Qed.

Lemma split_join v c :
  Forall (fun p => free_of c p = true) v -> list.last v <> Some ""%string ->
  splitString (joinStrings v c) c = v.
Proof.
  induction v as [|p v IH]; [done|]. intros [Hp Hv]%Forall_cons_1 Hl.
  destruct v as [|q v].
  - apply splitString_piece; [done|]. intros ->. by apply Hl.
  - change (joinStrings (p :: q :: v) c) with (p ++ String c (joinStrings (q :: v) c))%string.
    rewrite splitString_app by done. f_equal. by apply IH.
Qed.

(** ** Printed numbers *)

Lemma digit_of_char (n : N) : (n < 10)%N -> digit_of (pretty_N_char n) = Some (Z.of_N n).
Proof.
  intros H. assert (forallb (fun k => bool_decide (digit_of (pretty_N_char (N.of_nat k)) = Some (Z.of_nat k))) (seq 0 10)
    = true) as D by reflexivity.
  rewrite forallb_forall in D. specialize (D (N.to_nat n) ltac:(apply in_seq; lia)). apply bool_decide_eq_true_1 in D.
  by rewrite N2Nat.id, N_nat_Z in D.
Qed.

Lemma digits_pretty n s : digits 0 (pretty_N_go n s) = digits (Z.of_N n) s.
Proof.
  revert s. induction (N.lt_wf_0 n) as [n _ IH]; intros s.
  destruct (decide (n = 0)%N) as [->|Hn]; [done|].
  rewrite pretty_N_go_step by lia. rewrite IH by (apply N.div_lt; lia). cbn [digits].
  rewrite digit_of_char by (apply N.mod_lt; lia). f_equal.
  rewrite N2Z.inj_div, N2Z.inj_mod. pose proof (Z.div_mod (Z.of_N n) 10). lia.
Qed.

Lemma pretty_first n s :
  exists c r k, (k < 10)%N /\ c = pretty_N_char k /\ pretty_N_go n s = (if (n =? 0)%N then s else String c r).
Proof.
  revert s. induction (N.lt_wf_0 n) as [n _ IH]; intros s.
  destruct (decide (n = 0)%N) as [->|Hn]; [by exists (pretty_N_char 0), ""%string, 0%N|].
  rewrite pretty_N_go_step, (proj2 (N.eqb_neq n 0)) by lia.
  destruct (IH (n / 10)%N ltac:(apply N.div_lt; lia) (String (pretty_N_char (n mod 10)) s))
    as (c & r & k & Hk & Hc & ->).
  destruct (N.eqb_spec (n / 10) 0); [|by exists c, r, k].
  exists (pretty_N_char (n mod 10)), s, (n mod 10)%N. split; [apply N.mod_lt; lia|done].
Qed.

Lemma scan_pretty n : scan_digits (pretty n) = Some (Z.of_N n, ""%string) /\
  exists c r, pretty n = String c r /\ is_space c = false /\ c <> "-"%char /\ c <> "+"%char.
Proof.
  unfold pretty, pretty_N. destruct (decide (n = 0)%N) as [->|Hn].
  - split; [done|]. by exists "0"%char, ""%string.
  - destruct (pretty_first n "") as (c & r & k & Hk & -> & E).
    rewrite (proj2 (N.eqb_neq n 0)) in E by lia. split.
    + unfold scan_digits. rewrite E, digit_of_char, <- E, digits_pretty by done. done.
    + exists (pretty_N_char k), r. split; [done|].
      assert (k = 0 \/ k = 1 \/ k = 2 \/ k = 3 \/ k = 4 \/ k = 5 \/ k = 6 \/ k = 7 \/ k = 8 \/ k = 9)%N
        as D by lia. by repeat (destruct D as [->|D]; [done|]); subst.
Qed.

Lemma strtol_pretty n : -9223372036854775808 <= n <= 9223372036854775807 -> strtol10 (pretty n) = n.
Proof.
  intros Hn. unfold strtol10, scan_int. destruct n as [|p|p].
  - done.
  - change (pretty (Z.pos p)) with (pretty (N.pos p)).
    destruct (scan_pretty (N.pos p)) as (E & c & r & Ep & Hs & Hm & Hpl). rewrite Ep. cbn [skip_spaces].
    rewrite Hs, !bool_decide_eq_false_2 by done. rewrite <- Ep, E. cbn [mbind option_bind]. lia.
  - change (pretty (Z.neg p)) with ("-" ++ pretty (N.pos p))%string.
    destruct (scan_pretty (N.pos p)) as (E & _).
    change ("-" ++ pretty (N.pos p))%string with (String "-" (pretty (N.pos p))).
    cbn [skip_spaces]. change (is_space "-") with false. cbv iota.
    rewrite bool_decide_eq_true_2 by done. rewrite E. cbn [mbind option_bind]. lia.
Qed.

Lemma free_pretty_N c n s : (forall k, (k < 10)%N -> pretty_N_char k <> c) -> free_of c s = true ->
  free_of c (pretty_N_go n s) = true.
Proof.
  intros Hc. revert s. induction (N.lt_wf_0 n) as [n _ IH]; intros s Hs.
  destruct (decide (n = 0)%N) as [->|Hn]; [done|]. rewrite pretty_N_go_step by lia.
  apply IH; [apply N.div_lt; lia|]. cbn [free_of]. rewrite Hs, andb_true_r, bool_decide_eq_false_2; [done|].
  apply Hc, N.mod_lt. lia.
Qed.

Lemma free_pretty (c : ascii) (n : Z) : digit_of c = None -> c <> "-"%char -> free_of c (pretty n) = true.
Proof.
  intros Hd Hm. assert (forall k, (k < 10)%N -> pretty_N_char k <> c) as Hc
    by (intros k Hk E; by rewrite <- E, digit_of_char in Hd).
  assert (forall m : N, free_of c (pretty m) = true) as HN.
  { intros m. unfold pretty, pretty_N. destruct (decide (m = 0)%N); [|by apply free_pretty_N].
    cbn [free_of]. rewrite bool_decide_eq_false_2; [done|]. by apply (Hc 0%N). }
  destruct n as [|p|p]; [apply (HN 0%N)|apply (HN (N.pos p))|].
  change (pretty (Z.neg p)) with (String "-" (pretty (N.pos p))). cbn [free_of].
  rewrite HN, bool_decide_eq_false_2; [done|]. congruence.
Qed.

End Utilities.
Export Utilities.
