(* ===== verification/FirmwareTypes.v ===== *)
(** * Messages and state of the firmware update protocol (src/src/protocol/FirmwareUpdate.h)

    The constants, the layouts of the messages, and the members of the classes.  A
    message is the bytes from its address on: the union of the message types is read
    and written through the layout of one of its members. *)

From stdpp Require Import strings.
From S2P Require Import Prelude Layouts Md5.
#[local] Open Scope string_scope.
#[local] Open Scope list_scope.

Definition FWUPDATE__MAX_CHUNK_SIZE : Z := 512.
Definition FWUPDATE__MAX_PAYLOAD_SIZE : Z := (FWUPDATE__MAX_CHUNK_SIZE + 92)%Z.

Definition TARGET_TYPE_MASK : Z := 0xFFF0.
Definition TARGET_HOST : Z := 0x00.
Definition TARGET_IMX5 : Z := 0x10.
Definition TARGET_GPX1 : Z := 0x20.
Definition TARGET_VPX : Z := 0x30.
Definition TARGET_UBLOX_F9P : Z := 0x110.
Definition TARGET_SONY_CXD5610 : Z := 0x120.

(** ** Message types, states and reasons *)

Definition MSG_UNKNOWN : Z := 0.
Definition MSG_REQ_RESET : Z := 1.
Definition MSG_RESET_RESP : Z := 2.
Definition MSG_REQ_UPDATE : Z := 3.
Definition MSG_UPDATE_RESP : Z := 4.
Definition MSG_UPDATE_CHUNK : Z := 5.
Definition MSG_UPDATE_PROGRESS : Z := 6.
Definition MSG_REQ_RESEND_CHUNK : Z := 7.
Definition MSG_UPDATE_DONE : Z := 8.
Definition MSG_REQ_VERSION_INFO : Z := 9.
Definition MSG_VERSION_INFO_RESP : Z := 10.

Definition FINISHED : Z := 5.
Definition FINALIZING : Z := 4.
Definition IN_PROGRESS : Z := 3.
Definition READY : Z := 2.
Definition INITIALIZING : Z := 1.
Definition NOT_STARTED : Z := 0.
Definition ERR_INVALID_SESSION : Z := -1.
Definition ERR_MAX_CHUNK_SIZE : Z := -6.
Definition ERR_TIMEOUT : Z := -7.
Definition ERR_CHECKSUM_MISMATCH : Z := -8.
Definition ERR_FLASH_WRITE_FAILURE : Z := -11.
Definition ERR_INVALID_CHUNK : Z := -16.
Definition ERR_UNKNOWN : Z := -18.

Definition REASON_NONE : Z := 0.
Definition REASON_INVALID_SEQID : Z := 1.
Definition REASON_WRITE_ERROR : Z := 2.
Definition REASON_INVALID_SIZE : Z := 3.

Definition RESET_SOFT : Z := 0.

(** ** Layouts *)

Definition msg_header_t : layout := [("target_device", U32, 1); ("msg_type", U32, 1)].

Definition req_reset_t : layout := [("reset_flags", U16, 1)].
Definition rpl_reset_t : layout := [("target", U32, 1); ("status", U16, 1)].
(** An empty structure has the size 1. *)
Definition req_version_t : layout := [("", U8, 1)].
Definition req_update_t : layout :=
  [("session_id", U16, 1); ("image_slot", U8, 1); ("image_flags", U8, 1); ("file_size", U32, 1);
   ("chunk_size", U16, 1); ("progress_rate", U16, 1); ("md5_hash", U8, 16)].
Definition update_resp_t : layout :=
  [("session_id", U16, 1); ("totl_chunks", U16, 1); ("status", I16, 1)].
Definition chunk_t : layout :=
  [("session_id", U16, 1); ("chunk_id", U16, 1); ("data_len", U16, 1); ("data", U8, 1)].
Definition req_resend_t : layout :=
  [("session_id", U16, 1); ("chunk_id", U16, 1); ("reason", I16, 1)].
Definition progress_t : layout :=
  [("session_id", U16, 1); ("status", I16, 1); ("num_chunks", U16, 1); ("totl_chunks", U16, 1);
   ("msg_level", U8, 1); ("msg_len", U8, 1); ("message", U8, 1)].
Definition resp_done_t : layout := [("session_id", U16, 1); ("status", I16, 1)].
Definition version_resp_t : layout :=
  [("resTarget", U32, 1); ("serialNumber", U32, 1); ("reserved", U8, 1); ("hardwareType", U8, 1);
   ("hardwareVer", U8, 4); ("firmwareVer", U8, 4); ("buildHash", U8, 4); ("buildNumber", U32, 1);
   ("buildType", U8, 1); ("buildYear", U8, 1); ("buildMonth", U8, 1); ("buildDay", U8, 1);
   ("buildHour", U8, 1); ("buildMinute", U8, 1); ("buildSecond", U8, 1); ("buildMillis", U8, 1)].

(** [payload_t] with one member of its union. *)
Definition payload (data : layout) : layout := msg_header_t ++ data.

(** The size of [payload_t]: the header and the largest member. *)
Definition sizeof_payload_t : Z :=
  (sizeof_layout msg_header_t +
  fold_right Z.max 0 (map sizeof_layout
    [req_reset_t; rpl_reset_t; req_version_t; req_update_t; update_resp_t; chunk_t; req_resend_t;
     progress_t; resp_done_t; version_resp_t]))%Z.

(** ** Members of the classes *)

(** FirmwareUpdateBase. *)
Record fw_base := FwBase {
  build_buffer : list Z;
  last_message : Z;
  timeout_duration : Z;
  resend_count : Z;
  session_target : Z;
  session_status : Z;
  session_id : Z;
  session_chunk_size : Z;
  session_total_chunks : Z;
  session_image_size : Z;
  session_progress_rate : Z;
  session_image_slot : Z;
  session_image_flags : Z;
  session_md5 : md5hash_t;
  md5Context : md5Context_t
}.

(** FirmwareUpdateDevice. *)
Record fw_device := FwDevice {
  dv_base : fw_base; progress_interval : Z; nextProgressReport : Z; last_chunk_id : Z
}.

(** FirmwareUpdateHost. *)
Record fw_host := FwHost { hs_base : fw_base; next_chunk_id : Z; chunks_sent : Z }.

Module FirmwareTypes.

Definition set_build_buffer (x : list Z) (b : fw_base) : fw_base :=
  FwBase x (last_message b) (timeout_duration b) (resend_count b) (session_target b)
    (session_status b) (session_id b) (session_chunk_size b) (session_total_chunks b)
    (session_image_size b) (session_progress_rate b) (session_image_slot b) (session_image_flags b)
    (session_md5 b) (md5Context b).
Definition set_last_message (x : Z) (b : fw_base) : fw_base :=
  FwBase (build_buffer b) x (timeout_duration b) (resend_count b) (session_target b)
    (session_status b) (session_id b) (session_chunk_size b) (session_total_chunks b)
    (session_image_size b) (session_progress_rate b) (session_image_slot b) (session_image_flags b)
    (session_md5 b) (md5Context b).
Definition set_timeout_duration (x : Z) (b : fw_base) : fw_base :=
  FwBase (build_buffer b) (last_message b) x (resend_count b) (session_target b) (session_status b)
    (session_id b) (session_chunk_size b) (session_total_chunks b) (session_image_size b)
    (session_progress_rate b) (session_image_slot b) (session_image_flags b) (session_md5 b)
    (md5Context b).
Definition set_resend_count (x : Z) (b : fw_base) : fw_base :=
  FwBase (build_buffer b) (last_message b) (timeout_duration b) x (session_target b)
    (session_status b) (session_id b) (session_chunk_size b) (session_total_chunks b)
    (session_image_size b) (session_progress_rate b) (session_image_slot b) (session_image_flags b)
    (session_md5 b) (md5Context b).
Definition set_session_target (x : Z) (b : fw_base) : fw_base :=
  FwBase (build_buffer b) (last_message b) (timeout_duration b) (resend_count b) x
    (session_status b) (session_id b) (session_chunk_size b) (session_total_chunks b)
    (session_image_size b) (session_progress_rate b) (session_image_slot b) (session_image_flags b)
    (session_md5 b) (md5Context b).
Definition set_session_status (x : Z) (b : fw_base) : fw_base :=
  FwBase (build_buffer b) (last_message b) (timeout_duration b) (resend_count b) (session_target b)
    x (session_id b) (session_chunk_size b) (session_total_chunks b) (session_image_size b)
    (session_progress_rate b) (session_image_slot b) (session_image_flags b) (session_md5 b)
    (md5Context b).
Definition set_session_id (x : Z) (b : fw_base) : fw_base :=
  FwBase (build_buffer b) (last_message b) (timeout_duration b) (resend_count b) (session_target b)
    (session_status b) x (session_chunk_size b) (session_total_chunks b) (session_image_size b)
    (session_progress_rate b) (session_image_slot b) (session_image_flags b) (session_md5 b)
    (md5Context b).
Definition set_session_chunk_size (x : Z) (b : fw_base) : fw_base :=
  FwBase (build_buffer b) (last_message b) (timeout_duration b) (resend_count b) (session_target b)
    (session_status b) (session_id b) x (session_total_chunks b) (session_image_size b)
    (session_progress_rate b) (session_image_slot b) (session_image_flags b) (session_md5 b)
    (md5Context b).
Definition set_session_total_chunks (x : Z) (b : fw_base) : fw_base :=
  FwBase (build_buffer b) (last_message b) (timeout_duration b) (resend_count b) (session_target b)
    (session_status b) (session_id b) (session_chunk_size b) x (session_image_size b)
    (session_progress_rate b) (session_image_slot b) (session_image_flags b) (session_md5 b)
    (md5Context b).
Definition set_session_image_size (x : Z) (b : fw_base) : fw_base :=
  FwBase (build_buffer b) (last_message b) (timeout_duration b) (resend_count b) (session_target b)
    (session_status b) (session_id b) (session_chunk_size b) (session_total_chunks b) x
    (session_progress_rate b) (session_image_slot b) (session_image_flags b) (session_md5 b)
    (md5Context b).
Definition set_session_progress_rate (x : Z) (b : fw_base) : fw_base :=
  FwBase (build_buffer b) (last_message b) (timeout_duration b) (resend_count b) (session_target b)
    (session_status b) (session_id b) (session_chunk_size b) (session_total_chunks b)
    (session_image_size b) x (session_image_slot b) (session_image_flags b) (session_md5 b)
    (md5Context b).
Definition set_session_image_slot (x : Z) (b : fw_base) : fw_base :=
  FwBase (build_buffer b) (last_message b) (timeout_duration b) (resend_count b) (session_target b)
    (session_status b) (session_id b) (session_chunk_size b) (session_total_chunks b)
    (session_image_size b) (session_progress_rate b) x (session_image_flags b) (session_md5 b)
    (md5Context b).
Definition set_session_image_flags (x : Z) (b : fw_base) : fw_base :=
  FwBase (build_buffer b) (last_message b) (timeout_duration b) (resend_count b) (session_target b)
    (session_status b) (session_id b) (session_chunk_size b) (session_total_chunks b)
    (session_image_size b) (session_progress_rate b) (session_image_slot b) x (session_md5 b)
    (md5Context b).
Definition set_session_md5 (x : md5hash_t) (b : fw_base) : fw_base :=
  FwBase (build_buffer b) (last_message b) (timeout_duration b) (resend_count b) (session_target b)
    (session_status b) (session_id b) (session_chunk_size b) (session_total_chunks b)
    (session_image_size b) (session_progress_rate b) (session_image_slot b) (session_image_flags b)
    x (md5Context b).
Definition set_md5Context (x : md5Context_t) (b : fw_base) : fw_base :=
  FwBase (build_buffer b) (last_message b) (timeout_duration b) (resend_count b) (session_target b)
    (session_status b) (session_id b) (session_chunk_size b) (session_total_chunks b)
    (session_image_size b) (session_progress_rate b) (session_image_slot b) (session_image_flags b)
    (session_md5 b) x.

Definition set_dv_base (x : fw_base) (d : fw_device) : fw_device :=
  FwDevice x (progress_interval d) (nextProgressReport d) (last_chunk_id d).
Definition set_nextProgressReport (x : Z) (d : fw_device) : fw_device :=
  FwDevice (dv_base d) (progress_interval d) x (last_chunk_id d).
Definition set_last_chunk_id (x : Z) (d : fw_device) : fw_device :=
  FwDevice (dv_base d) (progress_interval d) (nextProgressReport d) x.
Definition set_hs_base (x : fw_base) (h : fw_host) : fw_host :=
  FwHost x (next_chunk_id h) (chunks_sent h).
Definition set_next_chunk_id (x : Z) (h : fw_host) : fw_host := FwHost (hs_base h) x (chunks_sent h).
Definition set_chunks_sent (x : Z) (h : fw_host) : fw_host := FwHost (hs_base h) (next_chunk_id h) x.

End FirmwareTypes.
Export FirmwareTypes.
