(* ===== verification/FirmwareUpdate.v ===== *)
(** * The firmware update protocol (src/src/protocol/FirmwareUpdate.cpp, FirmwareUpdate.h)

    The messages, the device that receives an image in chunks, and the host that sends
    it.  The functions a derived class implements are the classes [wire_functions],
    [device_functions] and [host_functions]: they act on a state [St] of their own.  A
    function has no result when it would read or write outside of a buffer, divide by
    zero, or convert a number that does not fit. *)

From stdpp Require Import strings.
From S2P Require Import Prelude CommTx Layouts Md5 FirmwareTypes.
#[local] Open Scope string_scope.
#[local] Open Scope list_scope.
#[local] Open Scope Z_scope.

(** What both sides are given: the transmission of bytes to a target, and the clock. *)
Class wire_functions (St : Type) := {
  fwUpdate_writeToWire : Z -> list Z -> St -> St * bool;
  current_timeMs : St -> St * Z
}.

(** A device: the reset, the version (whether it is known, and the bytes of the
    [dev_info_t]), the start of an update, the write of a chunk (target, slot, offset,
    data), the end of the update, and the periodic step. *)
Class device_functions (St : Type) := {
  device_wire :: wire_functions St;
  fwUpdate_performReset : Z -> Z -> St -> St * Z;
  fwUpdate_queryVersionInfo : Z -> St -> St * list Z * bool;
  fwUpdate_startUpdate : list Z -> St -> St * Z;
  fwUpdate_writeImageChunk : Z -> Z -> Z -> list Z -> St -> St * Z;
  fwUpdate_finishUpdate : Z -> Z -> Z -> St -> St * Z;
  fwUpdate_device_step : Z -> bool -> St -> St * bool
}.

(** A host: a random number, and a chunk of the image (offset, length; its bytes and the
    result).  They may look at the session. *)
Class host_source (St : Type) := {
  host_wire :: wire_functions St;
  host_rand : St -> St * Z;
  fwUpdate_getImageChunk : fw_host -> Z -> Z -> St -> St * list Z * Z
}.

(** The handlers of the messages, which may also change the session. *)
Class host_functions (St : Type) := {
  source_of_host :: host_source St;
  fwUpdate_handleVersionResponse : list Z -> fw_host -> St -> option (fw_host * St * bool);
  fwUpdate_handleUpdateResponse : list Z -> fw_host -> St -> option (fw_host * St * bool);
  fwUpdate_handleResendChunk : list Z -> fw_host -> St -> option (fw_host * St * bool);
  fwUpdate_handleUpdateProgress : list Z -> fw_host -> St -> option (fw_host * St * bool);
  fwUpdate_handleDone : list Z -> fw_host -> St -> option (fw_host * St * bool)
}.

Module FirmwareUpdate.

(** ** Messages *)

Definition msg_type (p : list Z) : option Z := get_member (payload []) "msg_type" 0 p.
Definition target_device (p : list Z) : option Z := get_member (payload []) "target_device" 0 p.

Definition sizeof_hdr : Z := sizeof_layout msg_header_t.

Definition fwUpdate_getPayloadSize (p : list Z) (include_aux : bool) : option Z :=
  t ← msg_type p;
  if t =? MSG_REQ_RESET then Some (sizeof_hdr + sizeof_layout req_reset_t)
  else if t =? MSG_RESET_RESP then Some (sizeof_hdr + sizeof_layout rpl_reset_t)
  else if t =? MSG_REQ_UPDATE then Some (sizeof_hdr + sizeof_layout req_update_t)
  else if t =? MSG_UPDATE_RESP then Some (sizeof_hdr + sizeof_layout update_resp_t)
  else if t =? MSG_UPDATE_CHUNK then
    if include_aux then
      data_len ← get_member (payload chunk_t) "data_len" 0 p;
      Some (sizeof_hdr + sizeof_layout chunk_t + (data_len - 1))
    else Some (sizeof_hdr + sizeof_layout chunk_t + -1)
  else if t =? MSG_REQ_RESEND_CHUNK then Some (sizeof_hdr + sizeof_layout req_resend_t)
  else if t =? MSG_UPDATE_PROGRESS then
    if include_aux then
      msg_len ← get_member (payload progress_t) "msg_len" 0 p;
      Some (sizeof_hdr + sizeof_layout progress_t + (msg_len - 1))
    else Some (sizeof_hdr + sizeof_layout progress_t + -1)
  else if t =? MSG_UPDATE_DONE then Some (sizeof_hdr + sizeof_layout resp_done_t)
  else if t =? MSG_REQ_VERSION_INFO then Some (sizeof_hdr + sizeof_layout req_version_t)
  else if t =? MSG_VERSION_INFO_RESP then Some (sizeof_hdr + sizeof_layout version_resp_t)
  else Some 0.

(** The length of the data behind a message, and where it is. *)
Definition aux_data_of (p : list Z) : option (Z * option Z) :=
  t ← msg_type p;
  if t =? MSG_UPDATE_CHUNK then
    n ← get_member (payload chunk_t) "data_len" 0 p;
    Some (n, Some (offsetof (payload chunk_t) "data" 0))
  else if t =? MSG_UPDATE_PROGRESS then
    n ← get_member (payload progress_t) "msg_len" 0 p;
    Some (n, Some (offsetof (payload progress_t) "message" 0))
  else Some (0, None).

(** The buffer with the message and the data behind it, and the length or an error. *)
Definition fwUpdate_packPayload (buffer : list Z) (max_len : Z) (p : list Z)
    (aux_data : option (list Z)) : option (list Z * Z) :=
  payload_size ← fwUpdate_getPayloadSize p false;
  if max_len <? payload_size then Some (buffer, -1)
  else if payload_size =? 0 then Some (buffer, -2)
  else
    buffer ← memcpy buffer 0 p payload_size;
    '(aux_len, _) ← aux_data_of p;
    buffer ← match aux_data with
             | Some aux => if 0 <? aux_len then memcpy buffer payload_size aux aux_len else Some buffer
             | None => Some buffer
             end;
    Some (buffer, payload_size + aux_len).

(** The message and the data copied out of a buffer, and their length or an error. *)
Definition fwUpdate_unpackPayload (buffer : list Z) (buf_len : Z) (p : list Z)
    (aux_data : option (list Z)) (max_aux : Z) : option (list Z * option (list Z) * Z) :=
  payload_size ← fwUpdate_getPayloadSize buffer false;
  '(aux_len, aux_ptr) ← aux_data_of buffer;
  if buf_len <? payload_size + aux_len then Some (p, aux_data, -1)
  else
    p ← memcpy p 0 buffer payload_size;
    aux_data ← match aux_data, aux_ptr with
               | Some aux, Some o =>
                 if aux_len <=? max_aux
                 then aux ← memcpy aux 0 (dropZ o buffer) aux_len; Some (Some aux)
                 else Some (Some aux)
               | _, _ => Some aux_data
               end;
    Some (p, aux_data, payload_size + aux_len).

(** The buffer, with the upper half of the message type cleared, is the message; also
    returns where the data is, and the length of the message with its data. *)
Definition fwUpdate_mapBufferToPayload (buffer : list Z) : option (list Z * option Z * Z) :=
  t ← msg_type buffer;
  buffer ← set_member (payload []) "msg_type" 0 (Z.land t 0xFFFF) buffer;
  payload_size ← fwUpdate_getPayloadSize buffer false;
  '(aux_len, aux_ptr) ← aux_data_of buffer;
  Some (buffer, aux_ptr, payload_size + aux_len).

(** Names for the user: the tables have 24 entries, from the last error on. *)
Definition status_index (status : Z) : Z :=
  if 0 <=? status then status + Z.abs ERR_UNKNOWN else status - ERR_UNKNOWN.

(** ** Base of both sides *)

Section Base.
Context {St : Type} `{!wire_functions St}.
Implicit Types (b : fw_base) (s : St).

Definition fwUpdate_resetTimeout b s : fw_base * St :=
  let '(s, now) := current_timeMs s in (set_last_message now b, s).

Definition fwUpdate_getLastMessageAge b s : St * Z :=
  let '(s, now) := current_timeMs s in (s, u32 (now - last_message b)).

Definition fwUpdate_sendPayload (p : list Z) (aux_data : option (list Z)) b s
    : option (fw_base * St * bool) :=
  '(buffer, payload_len) ←
    fwUpdate_packPayload (build_buffer b) FWUPDATE__MAX_PAYLOAD_SIZE p aux_data;
  let b := set_build_buffer buffer b in
  target ← target_device p;
  let '(s, ok) := fwUpdate_writeToWire target (takeZ payload_len buffer) s in
  Some (b, s, ok).
End Base.

(** ** Single precision division

    [ceil((float)a / (float)b)] of non-negative integers: the quotient has 24
    significant bits, rounded to nearest, ties to even. *)

Definition round_div (n d : Z) : Z :=
  let q := n / d in
  let r := n mod d in
  if 2 * r <? d then q else if d <? 2 * r then q + 1 else if Z.even q then q else q + 1.

Definition f32_of_Z (n : Z) : Z :=
  if n <? 2 ^ 24 then n
  else let e := Z.log2 n - 23 in round_div n (2 ^ e) * 2 ^ e.

(** [log2] of the quotient, rounded down. *)
Definition log2_quotient (a b : Z) : Z :=
  let l := Z.log2 a - Z.log2 b in
  if (if 0 <=? l then b * 2 ^ l <=? a else b <=? a * 2 ^ (- l)) then l else l - 1.

Definition f32_ceil_quotient (a b : Z) : Z :=
  if a =? 0 then 0 else
  let e := log2_quotient a b - 23 in
  if 0 <=? e then round_div a (b * 2 ^ e) * 2 ^ e
  else let q := round_div (a * 2 ^ (- e)) b in (q + 2 ^ (- e) - 1) / 2 ^ (- e).

(** The conversion to [uint16_t] has no result for values that do not fit. *)
Definition total_chunks (image_size chunk_size : Z) : option Z :=
  if chunk_size =? 0 then None else
  let n := f32_ceil_quotient (f32_of_Z image_size) (f32_of_Z chunk_size) in
  if n <? 65536 then Some n else None.

(** ** The device *)

Section Device.
Context {St : Type} `{!device_functions St}.
(** The uninitialised [payload_t] a function has on its stack. *)
Context (stack : list Z).

Record dev_env := DevEnv { dv : fw_device; dv_st : St }.
Implicit Types e : dev_env.

Definition with_dv (f : fw_device -> fw_device) e : dev_env := DevEnv (f (dv e)) (dv_st e).
Definition with_base (f : fw_base -> fw_base) e : dev_env :=
  with_dv (fun d => set_dv_base (f (dv_base d)) d) e.
Definition with_st {A} (f : St -> St * A) e : dev_env * A :=
  let '(s, x) := f (dv_st e) in (DevEnv (dv e) s, x).
Definition base e : fw_base := dv_base (dv e).

Definition dev_sendPayload (p : list Z) (aux_data : option (list Z)) e : option (dev_env * bool) :=
  '(b, s, ok) ← fwUpdate_sendPayload p aux_data (base e) (dv_st e);
  Some (DevEnv (set_dv_base b (dv e)) s, ok).

(** A message to the host of the given type. *)
Definition to_host (type : Z) : option (list Z) :=
  p ← set_member (payload []) "target_device" 0 TARGET_HOST stack;
  set_member (payload []) "msg_type" 0 type p.

Definition dev_resetEngine e : dev_env * bool :=
  let e := with_base (set_resend_count 0) e in
  let e := with_base (set_session_id 0) e in
  let e := with_dv (set_last_chunk_id (-1)) e in
  let e := with_base (set_session_status NOT_STARTED) e in
  let e := with_base (fun b => set_md5Context (Md5.md5_init (md5Context b)) b) e in
  (e, true).

(** The constructor: [e] is the object as its members are initialised. *)
Definition FirmwareUpdateDevice (tid : Z) e : dev_env :=
  fst (dev_resetEngine (with_base (set_session_target tid) e)).

(** [message] is the text the format string and its arguments give. *)
Definition fwUpdate_sendProgressFormatted (level : Z) (message : option (list Z)) e
    : option (dev_env * bool) :=
  if (session_id (base e) =? 0) || (session_status (base e) =? NOT_STARTED) then Some (e, false) else
  let text := default [] message in
  let msg_len := lenZ text in
  if 256 - 1 <=? msg_len then Some (e, false) else
  let set := set_member (payload progress_t) in
  msg ← to_host MSG_UPDATE_PROGRESS;
  msg ← set "session_id" 0 (session_id (base e)) msg;
  msg ← set "status" 0 (session_status (base e)) msg;
  msg ← set "totl_chunks" 0 (session_total_chunks (base e)) msg;
  msg ← set "num_chunks" 0
          (Z.max 0 (Z.min (session_total_chunks (base e)) (s32 (last_chunk_id (dv e) + 1)))) msg;
  msg ← set "msg_level" 0 level msg;
  msg ← set "msg_len" 0 msg_len msg;
  msg ← set "message" 0 0 msg;
  '(buffer, n) ← fwUpdate_packPayload (build_buffer (base e)) FWUPDATE__MAX_PAYLOAD_SIZE msg
                   (Some (text ++ [0]));
  let e := with_base (set_build_buffer buffer) e in
  Some (with_st (fwUpdate_writeToWire TARGET_HOST (takeZ n buffer)) e).

Definition fwUpdate_sendProgress e : option (dev_env * bool) :=
  let '(e, now) := with_st current_timeMs e in
  let e := with_dv (fun d => set_nextProgressReport (u32 (now + progress_interval d)) d) e in
  fwUpdate_sendProgressFormatted 99 None e.

Definition dev_isUpdating e : bool :=
  negb (session_id (base e) =? 0) && (NOT_STARTED <? session_status (base e)).

Definition fwUpdate_sendDone (reason : Z) (clear_session reset_device : bool) e
    : option (dev_env * bool) :=
  let set := set_member (payload resp_done_t) in
  response ← to_host MSG_UPDATE_DONE;
  response ← set "session_id" 0 (session_id (base e)) response;
  let e := with_base (set_session_status reason) e in
  response ← set "status" 0 reason response;
  '(e, _) ← dev_sendPayload response None e;
  let '(e, result) := if clear_session then dev_resetEngine e else (e, true) in
  let '(e, result) :=
    if reset_device then
      let '(e, r) := with_st (fwUpdate_performReset (session_target (base e)) RESET_SOFT) e in
      (e, negb (r =? 0))
    else (e, result) in
  Some (e, result).

Definition fwUpdate_sendRetry (reason : Z) e : option (dev_env * bool) :=
  let set := set_member (payload req_resend_t) in
  response ← to_host MSG_REQ_RESEND_CHUNK;
  response ← set "session_id" 0 (session_id (base e)) response;
  response ← set "chunk_id" 0 (last_chunk_id (dv e) + 1) response;
  response ← set "reason" 0 reason response;
  dev_sendPayload response None e.

Definition fwUpdate_handleInitialize (p : list Z) e : option (dev_env * bool) :=
  t ← msg_type p;
  if negb (t =? MSG_REQ_UPDATE) then Some (e, false) else
  let get m := get_member (payload req_update_t) m 0 p in
  id ← get "session_id";
  let e := if id =? 0 then with_base (set_session_status ERR_INVALID_SESSION) e else e in
  let '(e, _) := dev_resetEngine e in
  let '(e, status) := with_st (fwUpdate_startUpdate p) e in
  let e := with_base (set_session_status status) e in
  let e := with_base (set_session_id id) e in
  file_size ← get "file_size";
  let e := with_base (set_session_image_size file_size) e in
  chunk_size ← get "chunk_size";
  let e := with_base (set_session_chunk_size chunk_size) e in
  e ← (if NOT_STARTED <? status then
         slot ← get "image_slot";
         flags ← get "image_flags";
         total ← total_chunks file_size chunk_size;
         md5 ← get_bytes (payload req_update_t) "md5_hash" 16 p;
         let e := with_base (set_session_image_slot slot) e in
         let e := with_base (set_session_image_flags flags) e in
         let e := with_base (set_session_total_chunks total) e in
         Some (with_base (set_session_md5 (Md5.hash_of_bytes md5)) e)
       else Some e);
  let set := set_member (payload update_resp_t) in
  response ← to_host MSG_UPDATE_RESP;
  response ← set "session_id" 0 (session_id (base e)) response;
  response ← set "totl_chunks" 0 (session_total_chunks (base e)) response;
  response ← set "status" 0 (session_status (base e)) response;
  dev_sendPayload response None e.

(** The checksum, the final status and its message, when the last chunk is there. *)
Definition finish_image e : option dev_env :=
  '(e, _) ← fwUpdate_sendProgress e;
  '(context, md5) ← Md5.md5_final (md5Context (base e));
  let e := with_base (set_md5Context context) e in
  let e :=
    if negb (Md5.md5_matches (session_md5 (base e)) md5)
    then with_base (set_session_status ERR_CHECKSUM_MISMATCH) e
    else
      let '(e, status) :=
        with_st (fwUpdate_finishUpdate (session_target (base e)) (session_image_slot (base e))
                   (session_image_flags (base e))) e in
      with_base (set_session_status status) e in
  if negb (session_status (base e) =? FINALIZING)
  then '(e, _) ← fwUpdate_sendDone (session_status (base e)) false false e; Some e
  else Some e.

(** The chunk [id] with its data, accepted. *)
Definition accept_chunk (id : Z) (data : list Z) e : option dev_env :=
  let e := with_base (set_session_status IN_PROGRESS) e in
  let e := with_dv (set_last_chunk_id id) e in
  context ← Md5.md5_update (md5Context (base e)) data (lenZ data);
  let e := with_base (set_md5Context context) e in
  if session_total_chunks (base e) - 1 <=? last_chunk_id (dv e) then finish_image e else Some e.

Definition fwUpdate_handleChunk (p : list Z) e : option (dev_env * bool) :=
  t ← msg_type p;
  if negb (t =? MSG_UPDATE_CHUNK) then Some (e, false) else
  let get m := get_member (payload chunk_t) m 0 p in
  let b := base e in
  sid ← get "session_id";
  if negb (sid =? session_id b) then Some (e, false) else
  chunk_id ← get "chunk_id";
  if negb (chunk_id =? u16 (last_chunk_id (dv e) + 1)) then
    '(e, _) ← fwUpdate_sendRetry REASON_INVALID_SEQID e; Some (e, false)
  else
  if session_chunk_size b =? 0 then None else
  let mod_size := u16 (session_image_size b mod session_chunk_size b) in
  let expected_size :=
    if (chunk_id =? session_total_chunks b - 1) && negb (mod_size =? 0)
    then mod_size else session_chunk_size b in
  data_len ← get "data_len";
  if negb (data_len =? expected_size) then
    '(e, _) ← fwUpdate_sendRetry REASON_INVALID_SIZE e; Some (e, false)
  else
  let chnk_offset := chunk_id * session_chunk_size b in
  if 2147483647 <? chnk_offset then None else
  target ← target_device p;
  data ← get_bytes (payload chunk_t) "data" data_len p;
  let '(e, status) :=
    with_st (fwUpdate_writeImageChunk target (session_image_slot b) chnk_offset data) e in
  if status <? NOT_STARTED then
    '(e, _) ← fwUpdate_sendRetry REASON_WRITE_ERROR e; Some (e, false)
  else
  e ← accept_chunk chunk_id data e;
  Some (e, true).

Definition fwUpdate_handleReset (p : list Z) e : option (dev_env * bool) :=
  t ← msg_type p;
  if negb (t =? MSG_REQ_RESET) then Some (e, false) else
  response ← to_host MSG_RESET_RESP;
  '(e, _) ← dev_sendPayload response None e;
  flags ← get_member (payload req_reset_t) "reset_flags" 0 p;
  let '(e, r) := with_st (fwUpdate_performReset (session_target (base e)) flags) e in
  Some (e, negb (r =? 0)).

(** Members of [version_resp] copied from members of [dev_info_t]. *)
Fixpoint copy_members (l : list (string * string * Z)) (devInfo p : list Z) : option (list Z) :=
  match l with
  | [] => Some p
  | (m, m', i) :: l =>
    v ← get_member dev_info_layout m' i devInfo;
    p ← set_member (payload version_resp_t) m i v p;
    copy_members l devInfo p
  end.

Definition version_members : list (string * string * Z) :=
  [("serialNumber", "serialNumber", 0); ("hardwareType", "hardwareType", 0)] ++
  map (fun i => ("hardwareVer", "hardwareVer", i)) [0; 1; 2; 3] ++
  map (fun i => ("firmwareVer", "firmwareVer", i)) [0; 1; 2; 3] ++
  [("buildYear", "buildYear", 0); ("buildMonth", "buildMonth", 0); ("buildDay", "buildDay", 0);
   ("buildHour", "buildHour", 0); ("buildMinute", "buildMinute", 0);
   ("buildSecond", "buildSecond", 0); ("buildMillis", "buildMillisecond", 0);
   ("buildType", "buildType", 0); ("buildNumber", "buildNumber", 0)].

Definition fwUpdate_handleVersionInfo (p : list Z) e : option (dev_env * bool) :=
  t ← msg_type p;
  if negb (t =? MSG_REQ_VERSION_INFO) then Some (e, false) else
  target ← target_device p;
  let '(s, devInfo, known) := fwUpdate_queryVersionInfo target (dv_st e) in
  let e := DevEnv (dv e) s in
  let devInfo := if known : bool then devInfo
                 else repeat 0xFF (Z.to_nat (sizeof_layout dev_info_layout)) in
  response ← to_host MSG_VERSION_INFO_RESP;
  response ← set_member (payload version_resp_t) "resTarget" 0 target response;
  response ← copy_members version_members devInfo response;
  dev_sendPayload response None e.

(** The handler of a message. *)
Definition dev_handle (p : list Z) e : option (dev_env * bool) :=
  t ← msg_type p;
  if t =? MSG_REQ_UPDATE then fwUpdate_handleInitialize p e
  else if t =? MSG_UPDATE_CHUNK then fwUpdate_handleChunk p e
  else if t =? MSG_REQ_RESET then fwUpdate_handleReset p e
  else if t =? MSG_REQ_VERSION_INFO then fwUpdate_handleVersionInfo p e
  else Some (e, false).

(** The progress message that is due. *)
Definition dev_report e : option dev_env :=
  if 0 <? progress_interval (dv e) then
    let '(e, now) := with_st current_timeMs e in
    if nextProgressReport (dv e) <? now then
      let '(e, now) := with_st current_timeMs e in
      let e := with_dv (fun d => set_nextProgressReport (u32 (now + progress_interval d)) d) e in
      '(e, _) ← fwUpdate_sendProgress e; Some e
    else Some e
  else Some e.

Definition dev_processMessage (p : list Z) e : option (dev_env * bool) :=
  target_masked ← target_device p;
  if negb (target_masked =? session_target (base e)) then Some (e, false) else
  let '(b, s) := fwUpdate_resetTimeout (base e) (dv_st e) in
  let e := DevEnv (set_dv_base b (dv e)) s in
  '(e, result) ← dev_handle p e;
  e ← dev_report e;
  t ← msg_type p;
  let '(e, _) := with_st (fwUpdate_device_step t result) e in
  Some (e, result).

(** [buf_len] is not used. *)
Definition dev_processBuffer (buffer : list Z) (buf_len : Z) e : option (dev_env * bool) :=
  '(p, _, payload_len) ← fwUpdate_mapBufferToPayload buffer;
  if payload_len <=? 0 then Some (e, false) else dev_processMessage p e.
End Device.

(** ** The host *)

Section Host.
Context {St : Type} `{!host_source St}.
Context (stack : list Z).
Implicit Types (h : fw_host) (s : St).

Definition on_base (f : fw_base -> fw_base) h : fw_host := set_hs_base (f (hs_base h)) h.

Definition host_sendPayload (p : list Z) (aux_data : option (list Z)) h s
    : option (fw_host * St * bool) :=
  '(b, s, ok) ← fwUpdate_sendPayload p aux_data (hs_base h) s;
  Some (set_hs_base b h, s, ok).

Definition host_resetEngine h : fw_host :=
  let h := on_base (set_resend_count 0) h in
  let h := on_base (set_session_status NOT_STARTED) h in
  let h := on_base (set_session_id 0) h in
  let h := on_base (set_session_chunk_size 512) h in
  let h := on_base (set_session_image_size 0) h in
  let h := on_base (set_session_image_slot 0) h in
  let h := set_next_chunk_id 0 h in
  on_base (fun b => set_md5Context (Md5.md5_init (md5Context b)) b) h.

Definition host_isUpdating h : bool :=
  (READY <=? session_status (hs_base h)) && negb (session_id (hs_base h) =? 0).

(** The request message for the session in [h]. *)
Definition request_message h : option (list Z) :=
  let b := hs_base h in
  let set := set_member (payload req_update_t) in
  p ← set "target_device" 0 (session_target b) stack;
  p ← set "msg_type" 0 MSG_REQ_UPDATE p;
  p ← set "session_id" 0 (session_id b) p;
  p ← set "image_slot" 0 (session_image_slot b) p;
  p ← set "image_flags" 0 (session_image_flags b) p;
  p ← set "chunk_size" 0 (session_chunk_size b) p;
  p ← set "file_size" 0 (session_image_size b) p;
  p ← set "progress_rate" 0 (session_progress_rate b) p;
  memcpy p (offsetof (payload req_update_t) "md5_hash" 0) (Md5.hash_bytes (session_md5 b)) 16.

Definition fwUpdate_requestUpdate (target_id image_slot image_flags chunk_size image_size : Z)
    (image_md5 : md5hash_t) (progress_rate : Z) h s : option (fw_host * St * bool) :=
  let h := host_resetEngine h in
  let '(b, s) := fwUpdate_resetTimeout (hs_base h) s in
  let h := set_hs_base b h in
  let '(s, r) := host_rand s in
  let h := on_base (set_session_id (u16 r)) h in
  let h := on_base (set_session_status NOT_STARTED) h in
  let h := on_base (set_session_target target_id) h in
  let h := on_base (set_session_image_slot (u8 image_slot)) h in
  let h := on_base (set_session_image_flags (u8 image_flags)) h in
  let h := on_base (set_session_chunk_size chunk_size) h in
  let h := on_base (set_session_image_size image_size) h in
  let h := on_base (set_session_progress_rate (u16 progress_rate)) h in
  let h := on_base (set_session_md5 image_md5) h in
  request ← request_message h;
  host_sendPayload request None h s.

(** The request sent again. *)
Definition fwUpdate_requestUpdate_again h s : option (fw_host * St * bool) :=
  if (READY <=? session_status (hs_base h)) || (session_id (hs_base h) =? 0) then Some (h, s, false)
  else request ← request_message h; host_sendPayload request None h s.

Definition fwUpdate_requestReset (target reset_flags : Z) h s : option (fw_host * St * bool) :=
  request ← set_member (payload req_reset_t) "target_device" 0 target stack;
  request ← set_member (payload req_reset_t) "msg_type" 0 MSG_REQ_RESET request;
  request ← set_member (payload req_reset_t) "reset_flags" 0 reset_flags request;
  host_sendPayload request None h s.

Definition fwUpdate_requestVersionInfo (target : Z) h s : option (fw_host * St * bool) :=
  request ← set_member (payload []) "target_device" 0 target stack;
  request ← set_member (payload []) "msg_type" 0 MSG_REQ_VERSION_INFO request;
  host_sendPayload request None h s.

(** The chunk message built in the host's buffer, without its data. *)
Definition chunk_message h : option (list Z) :=
  let b := hs_base h in
  let set := set_member (payload chunk_t) in
  msg ← set "target_device" 0 (session_target b) (build_buffer b);
  msg ← set "msg_type" 0 MSG_UPDATE_CHUNK msg;
  msg ← set "session_id" 0 (session_id b) msg;
  msg ← set "chunk_id" 0 (next_chunk_id h) msg;
  data_len ← (if next_chunk_id h =? session_total_chunks b - 1 then
                if session_chunk_size b =? 0 then None else
                let rest := session_image_size b mod session_chunk_size b in
                Some (if negb (rest =? 0) then rest else session_chunk_size b)
              else Some (session_chunk_size b));
  set "data_len" 0 data_len msg.

Definition fwUpdate_sendNextChunk h s : option (fw_host * St * Z) :=
  let b := hs_base h in
  if session_total_chunks b <=? next_chunk_id h then Some (h, s, 0) else
  msg ← chunk_message h;
  '(msg, chunk_data, msg_len) ← fwUpdate_mapBufferToPayload msg;
  chunk_data ← chunk_data;
  let get m := get_member (payload chunk_t) m 0 msg in
  id ← get "chunk_id";
  data_len ← get "data_len";
  let offset := id * session_chunk_size b in
  if 2147483647 <? offset then None else
  let '(s, bytes, chunk_len) := fwUpdate_getImageChunk (on_base (set_build_buffer msg) h) offset data_len s in
  msg ← memcpy msg chunk_data bytes (lenZ bytes);
  let h := on_base (set_build_buffer msg) h in
  '(h, s) ←
    (if chunk_len =? data_len then
       let h := set_chunks_sent (u16 (chunks_sent h + 1)) h in
       target ← target_device msg;
       let '(s, ok) := fwUpdate_writeToWire target (takeZ msg_len msg) s in
       Some (if ok : bool then set_next_chunk_id (u16 (id + 1)) h else h, s)
     else Some (h, s));
  Some (h, s, session_total_chunks b - next_chunk_id h).
End Host.

Section HostMessages.
Context {St : Type} `{!host_functions St}.
Implicit Types (h : fw_host) (s : St).

Definition host_processMessage (p : list Z) h s : option (fw_host * St * bool) :=
  target ← target_device p;
  if negb (target =? TARGET_HOST) then Some (h, s, false) else
  let '(b, s) := fwUpdate_resetTimeout (hs_base h) s in
  let h := set_hs_base b h in
  t ← msg_type p;
  if t =? MSG_UPDATE_RESP then
    id ← get_member (payload update_resp_t) "session_id" 0 p;
    if id =? session_id (hs_base h) then fwUpdate_handleUpdateResponse p h s
    else Some (h, s, false)
  else if t =? MSG_UPDATE_PROGRESS then
    id ← get_member (payload progress_t) "session_id" 0 p;
    if id =? session_id (hs_base h) then fwUpdate_handleUpdateProgress p h s
    else Some (h, s, false)
  else if t =? MSG_REQ_RESEND_CHUNK then
    id ← get_member (payload req_resend_t) "session_id" 0 p;
    if id =? session_id (hs_base h) then
      chunk ← get_member (payload req_resend_t) "chunk_id" 0 p;
      let h := on_base (set_resend_count
                 (u32 (resend_count (hs_base h) + (next_chunk_id h - chunk)))) h in
      let h := set_next_chunk_id chunk h in
      fwUpdate_handleResendChunk p h s
    else Some (h, s, false)
  else if t =? MSG_UPDATE_DONE then
    id ← get_member (payload resp_done_t) "session_id" 0 p;
    if id =? session_id (hs_base h) then
      status ← get_member (payload resp_done_t) "status" 0 p;
      let h := on_base (set_session_status status) h in
      fwUpdate_handleDone p h s
    else Some (h, s, false)
  else if t =? MSG_VERSION_INFO_RESP then fwUpdate_handleVersionResponse p h s
  else Some (h, s, false).

Definition host_processBuffer (buffer : list Z) (buf_len : Z) h s : option (fw_host * St * bool) :=
  '(p, _, msg_len) ← fwUpdate_mapBufferToPayload buffer;
  if msg_len <=? 0 then Some (h, s, false) else host_processMessage p h s.

End HostMessages.
End FirmwareUpdate.
