(* ===== verification/FirmwareUpdater.v ===== *)
(** * The updater of the SDK (src/src/ISFirmwareUpdater.cpp, ISFirmwareUpdater.h)

    The class that sends the image in a file to a device: its members that take part in
    the transfer, and its implementations of the functions of a host.  The port, the clock
    and the random numbers are the class [platform].  The callbacks that report progress
    to the user are left out, and [dfuUpdater] is a null pointer: messages go to the port. *)

From stdpp Require Import strings.
From S2P Require Import Prelude CommTx Layouts Md5 FirmwareTypes FirmwareUpdate.
Import FirmwareUpdate.
#[local] Open Scope string_scope.
#[local] Open Scope list_scope.
#[local] Open Scope Z_scope.

Class platform (P : Type) := {
  (** [comManagerSendData] of [DID_FIRMWARE_UPDATE] on the port of the device. *)
  send_data : list Z -> P -> P * Z;
  platform_timeMs : P -> P * Z;
  platform_rand : P -> P * Z
}.

Module ISFirmwareUpdater.

Definition TARGET_MAXNUM : Z := 0x130.
Definition ERR_INVALID_SLOT : Z := -2.
Definition ERR_NOT_ALLOWED : Z := -3.
Definition ERR_NOT_ENOUGH_MEMORY : Z := -4.
Definition ERR_OLDER_FIRMWARE : Z := -5.
Definition ERR_COMMS : Z := -9.
Definition ERR_NOT_SUPPORTED : Z := -10.
Definition ERR_FLASH_OPEN_FAILURE : Z := -12.
Definition ERR_FLASH_INVALID : Z := -13.
Definition ERR_INVALID_IMAGE : Z := -15.
Definition IMG_FLAG_useAlternateMD5 : Z := Z.shiftl 1 7.

(** The values the members are initialised with and keep. *)
Definition attemptInterval : Z := 350.
Definition chunkDelay : Z := 15.
Definition nextChunkDelay : Z := 250.

Section Updater.
Context {P : Type} `{!platform P}.

Record updater := Updater {
  srcFile : option Md5.istream;
  nextStartAttempt : Z;
  last_resent_chunk : Z;
  resent_chunkid_count : Z;
  resent_chunkid_time : Z;
  nextChunkSend : Z;
  updateStartTime : Z;
  pauseUntil : Z;
  target : Z;
  remoteDevInfo : list Z;
  target_devInfo : bool;
  g_md5hash : md5hash_t;
  port : P
}.
Implicit Types (u : updater) (h : fw_host).

Definition set_srcFile (x : option Md5.istream) u : updater :=
  Updater x (nextStartAttempt u) (last_resent_chunk u) (resent_chunkid_count u)
    (resent_chunkid_time u) (nextChunkSend u) (updateStartTime u) (pauseUntil u) (target u)
    (remoteDevInfo u) (target_devInfo u) (g_md5hash u) (port u).
Definition set_resent (count time : Z) u : updater :=
  Updater (srcFile u) (nextStartAttempt u) (last_resent_chunk u) count time (nextChunkSend u)
    (updateStartTime u) (pauseUntil u) (target u) (remoteDevInfo u) (target_devInfo u) (g_md5hash u)
    (port u).
Definition set_nextChunkSend (x : Z) u : updater :=
  Updater (srcFile u) (nextStartAttempt u) (last_resent_chunk u) (resent_chunkid_count u)
    (resent_chunkid_time u) x (updateStartTime u) (pauseUntil u) (target u) (remoteDevInfo u)
    (target_devInfo u) (g_md5hash u) (port u).
Definition set_start (start attempt : Z) u : updater :=
  Updater (srcFile u) attempt (last_resent_chunk u) (resent_chunkid_count u)
    (resent_chunkid_time u) (nextChunkSend u) start (pauseUntil u) (target u) (remoteDevInfo u)
    (target_devInfo u) (g_md5hash u) (port u).
Definition set_nextStartAttempt (x : Z) u : updater :=
  Updater (srcFile u) x (last_resent_chunk u) (resent_chunkid_count u)
    (resent_chunkid_time u) (nextChunkSend u) (updateStartTime u) (pauseUntil u) (target u)
    (remoteDevInfo u) (target_devInfo u) (g_md5hash u) (port u).
Definition set_pauseUntil (x : Z) u : updater :=
  Updater (srcFile u) (nextStartAttempt u) (last_resent_chunk u) (resent_chunkid_count u)
    (resent_chunkid_time u) (nextChunkSend u) (updateStartTime u) x (target u)
    (remoteDevInfo u) (target_devInfo u) (g_md5hash u) (port u).
Definition set_target (x : Z) u : updater :=
  Updater (srcFile u) (nextStartAttempt u) (last_resent_chunk u) (resent_chunkid_count u)
    (resent_chunkid_time u) (nextChunkSend u) (updateStartTime u) (pauseUntil u) x
    (remoteDevInfo u) (target_devInfo u) (g_md5hash u) (port u).
Definition set_target_of (t pause : Z) u : updater :=
  Updater (srcFile u) (nextStartAttempt u) (last_resent_chunk u) (resent_chunkid_count u)
    (resent_chunkid_time u) (nextChunkSend u) (updateStartTime u) pause t (remoteDevInfo u) false
    (g_md5hash u) (port u).
Definition set_remote (info : list Z) (known : bool) u : updater :=
  Updater (srcFile u) (nextStartAttempt u) (last_resent_chunk u) (resent_chunkid_count u)
    (resent_chunkid_time u) (nextChunkSend u) (updateStartTime u) (pauseUntil u) (target u)
    info known (g_md5hash u) (port u).
Definition set_hash (x : md5hash_t) u : updater :=
  Updater (srcFile u) (nextStartAttempt u) (last_resent_chunk u) (resent_chunkid_count u)
    (resent_chunkid_time u) (nextChunkSend u) (updateStartTime u) (pauseUntil u) (target u)
    (remoteDevInfo u) (target_devInfo u) x (port u).
Definition set_port (x : P) u : updater :=
  Updater (srcFile u) (nextStartAttempt u) (last_resent_chunk u) (resent_chunkid_count u)
    (resent_chunkid_time u) (nextChunkSend u) (updateStartTime u) (pauseUntil u) (target u)
    (remoteDevInfo u) (target_devInfo u) (g_md5hash u) x.

Definition on_port {A} (f : P -> P * A) u : updater * A :=
  let '(p, x) := f (port u) in (set_port p u, x).

(** ** The functions of a host *)

(** The firmware versions 2.0.0.0 to 2.0.0.10 are sent no image flags. *)
Definition without_flags u (buffer : list Z) : list Z :=
  match subZ (offsetof dev_info_layout "firmwareVer" 0) 4 (remoteDevInfo u) with
  | [2; 0; 0; v] =>
    if v <=? 10 then
      match msg_type buffer with
      | Some 3 => updZ (offsetof (payload req_update_t) "image_flags" 0) [0] buffer
      | _ => buffer
      end
    else buffer
  | _ => buffer
  end.

Definition writeToWire (_ : Z) (buffer : list Z) u : updater * bool :=
  let buffer := without_flags u buffer in
  let '(u, now) := on_port platform_timeMs u in
  let u := set_nextChunkSend (u32 (now + chunkDelay)) u in
  let '(u, result) := on_port (send_data buffer) u in
  (u, result =? 0).

Definition getImageChunk h (offset len : Z) u : updater * list Z * Z :=
  match srcFile u with
  | Some f =>
    if Md5.is_good f then
      let f := Md5.is_seekg offset f in
      let rest := u32 (session_image_size (hs_base h) - u32 (Md5.is_tellg f)) in
      let '(f, bytes) := Md5.is_read (if len <? rest then len else rest) f in
      (set_srcFile (Some f) u, bytes, lenZ bytes)
    else (u, [], -1)
  | None => (u, [], -1)
  end.

#[global] Instance updater_wire : wire_functions updater :=
  {| fwUpdate_writeToWire := writeToWire; current_timeMs := on_port platform_timeMs |}.
#[global] Instance updater_source : host_source updater :=
  {| host_rand := on_port platform_rand; fwUpdate_getImageChunk := getImageChunk |}.

(** The uninitialised [payload_t] on the stack. *)
Context (stack : list Z).

(** Members of [remoteDevInfo] copied from members of [version_resp]. *)
Fixpoint copy_version (l : list (string * string * Z)) (p info : list Z) : option (list Z) :=
  match l with
  | [] => Some info
  | (m, m', i) :: l =>
    v ← get_member (payload version_resp_t) m i p;
    info ← set_member dev_info_layout m' i v info;
    copy_version l p info
  end.

Definition remote_members : list (string * string * Z) :=
  [("serialNumber", "serialNumber", 0); ("hardwareType", "hardwareType", 0)] ++
  map (fun i => ("hardwareVer", "hardwareVer", i)) [0; 1; 2; 3] ++
  map (fun i => ("firmwareVer", "firmwareVer", i)) [0; 1; 2; 3] ++
  [("buildYear", "buildYear", 0); ("buildMonth", "buildMonth", 0); ("buildDay", "buildDay", 0);
   ("buildHour", "buildHour", 0); ("buildMinute", "buildMinute", 0);
   ("buildSecond", "buildSecond", 0); ("buildMillis", "buildMillisecond", 0);
   ("buildType", "buildType", 0)].

Definition handleVersionResponse (p : list Z) h u : option (fw_host * updater * bool) :=
  let zero := repeat 0 (Z.to_nat (sizeof_layout dev_info_layout)) in
  let u := set_remote zero (target_devInfo u) u in
  res ← get_member (payload version_resp_t) "resTarget" 0 p;
  if (TARGET_HOST <? res) && (res <=? TARGET_MAXNUM) && negb (res =? target u)
  then Some (h, u, false)
  else
    info ← copy_version remote_members p zero;
    Some (h, set_remote info true u, true).

Definition handleUpdateResponse (p : list Z) h u : option (fw_host * updater * bool) :=
  let get m := get_member (payload update_resp_t) m 0 p in
  id ← get "session_id";
  if negb (session_id (hs_base h) =? id) then Some (h, u, false) else
  status ← get "status";
  if (session_status (hs_base h) =? status) && negb (session_status (hs_base h) =? INITIALIZING)
  then Some (h, u, true)
  else
  total ← get "totl_chunks";
  let h := on_base (set_session_total_chunks total) (on_base (set_session_status status) h) in
  let b := hs_base h in
  if status =? ERR_MAX_CHUNK_SIZE then
    fwUpdate_requestUpdate stack (session_target b) (session_image_slot b) (session_image_flags b)
      (session_chunk_size b / 2) (session_image_size b) (session_md5 b) 500 h u
  else if bool_decide (status ∈ [ERR_INVALID_SESSION; ERR_INVALID_SLOT; ERR_NOT_ALLOWED;
    ERR_NOT_ENOUGH_MEMORY; ERR_OLDER_FIRMWARE; ERR_TIMEOUT; ERR_CHECKSUM_MISMATCH; ERR_COMMS;
    ERR_NOT_SUPPORTED; ERR_FLASH_WRITE_FAILURE; ERR_FLASH_OPEN_FAILURE; ERR_FLASH_INVALID])
  then Some (h, u, false)
  else if status =? READY then Some (set_next_chunk_id 0 h, u, true)
  else Some (h, u, true).

Definition handleResendChunk (p : list Z) h u : option (fw_host * updater * bool) :=
  let get m := get_member (payload req_resend_t) m 0 p in
  let '(u, current_ms) := on_port platform_timeMs u in
  chunk_id ← get "chunk_id";
  reason ← get "reason";
  let again := chunk_id =? last_resent_chunk u in
  let u := if again then set_resent (u16 (resent_chunkid_count u + 1)) (resent_chunkid_time u) u
           else set_resent 0 current_ms u in
  if again && (10 <? resent_chunkid_count u) && (5000 <? u32 (current_ms - resent_chunkid_time u))
  then
    let h :=
      if reason =? REASON_WRITE_ERROR then on_base (set_session_status ERR_FLASH_WRITE_FAILURE) h
      else if (reason =? REASON_INVALID_SEQID) || (reason =? REASON_INVALID_SIZE)
      then on_base (set_session_status ERR_INVALID_CHUNK) h
      else h in
    Some (h, u, false)
  else
    let '(u, now) := on_port platform_timeMs u in
    let u := set_nextChunkSend (u32 (now + nextChunkDelay)) u in
    '(h, u, n) ← fwUpdate_sendNextChunk h u;
    Some (h, u, negb (n =? 0)).

Definition handleUpdateProgress (p : list Z) h u : option (fw_host * updater * bool) :=
  status ← get_member (payload progress_t) "status" 0 p;
  let h := if NOT_STARTED <=? session_status (hs_base h)
           then on_base (set_session_status status) h else h in
  Some (h, u, true).

Definition handleDone (p : list Z) h u : option (fw_host * updater * bool) :=
  status ← get_member (payload resp_done_t) "status" 0 p;
  Some (on_base (set_session_status status) h, u, true).

#[global] Instance updater_host : host_functions updater :=
  {| fwUpdate_handleVersionResponse := handleVersionResponse;
     fwUpdate_handleUpdateResponse := handleUpdateResponse;
     fwUpdate_handleResendChunk := handleResendChunk;
     fwUpdate_handleUpdateProgress := handleUpdateProgress;
     fwUpdate_handleDone := handleDone |}.

(** ** The start of an update *)

Definition setTarget (t : Z) h u : fw_host * updater :=
  let h := on_base (set_session_image_slot 0) (on_base (set_session_target t) h) in
  let '(u, now) := on_port platform_timeMs u in
  (h, set_target_of t (u32 (now + 2000)) u).

(** The file is opened: [f] is the stream, a null stream cannot be read.  [context] is the
    digest context on the stack, [errno] the error number. *)
Definition initializeUpdate (context : md5Context_t) (errno : Z) (f : Md5.istream)
    (_target slot flags chunkSize progressRate : Z) h u : option (fw_host * updater * Z) :=
  let md5 := session_md5 (hs_base h) in
  '(f, hash, fileSize, md5, hashError) ←
    (if negb (Z.land flags IMG_FLAG_useAlternateMD5 =? 0)
     then Md5.altMD5_file_details errno (Some f) (g_md5hash u) 0 md5
     else
       '(f, fileSize, md5, hashError) ← Md5.md5_file_details context errno (Some f) 0 md5;
       Some (f, g_md5hash u, fileSize, md5, hashError));
  let u := set_hash hash (set_srcFile f u) in
  let h := on_base (set_session_md5 md5) h in
  if negb (hashError =? 0) then Some (h, u, ERR_INVALID_IMAGE) else
  let '(u, start) := on_port platform_timeMs u in
  let '(u, now) := on_port platform_timeMs u in
  let u := set_start start (u32 (now + attemptInterval)) u in
  '(h, u, ok) ← fwUpdate_requestUpdate stack _target slot flags (u16 chunkSize) (u32 fileSize) md5
                  progressRate h u;
  Some (h, u, if ok : bool then NOT_STARTED else ERR_UNKNOWN).
End Updater.
#[global] Arguments updater : clear implicits.
End ISFirmwareUpdater.
