(* ===== verification/FirmwarePackage.v ===== *)
(** * Firmware packages (src/src/ISFirmwareUpdater.cpp)

    A manifest lists images and, for each target, the actions of a step; it becomes the
    commands of a script.  The YAML library, the zip reader and the files are the class
    [package_env]; an accessor of a node that raises an exception has no result. *)

From stdpp Require Import strings pretty.
From S2P Require Import Prelude Utilities Md5.
#[local] Open Scope string_scope.
#[local] Open Scope list_scope.
#[local] Open Scope Z_scope.

Class package_env (P : Type) := {
  (** [YAML::Node]: the kinds of a node, the entry of a map for a key, the elements of a
      sequence, the pairs of a map, and conversions of a scalar. *)
  node : Type;
  IsDefined : node -> bool;
  IsNull : node -> bool;
  IsMap : node -> bool;
  IsSequence : node -> bool;
  IsScalar : node -> bool;
  node_at : node -> string -> option node;
  elements : node -> list node;
  entries : node -> option (list (node * node));
  as_string : node -> option string;
  as_int : node -> option Z;
  (** Trees read from a file or from a string, or an exception. *)
  YAML_LoadFile : string -> P -> option node;
  YAML_Load : list Z -> option node;
  (** An open archive: opening a file, the contents of an entry, the size of an entry. *)
  archive : Type;
  mz_zip_reader_init_file : string -> P -> option archive;
  mz_zip_reader_extract_file_to_heap : archive -> string -> option (list Z);
  mz_zip_reader_locate_file : archive -> string -> option Z;
  (** Files, and the working directory. *)
  open_file : string -> P -> Md5.istream;
  CurrentWorkingDirectory : P -> string;
  chdir : string -> P -> P
}.

Module FirmwarePackage.

Definition PKG_SUCCESS : Z := 0.
Definition PKG_ERR_PACKAGE_FILE_ERROR : Z := -1.
Definition PKG_ERR_INVALID_IMAGES : Z := -2.
Definition PKG_ERR_INVALID_STEPS : Z := -3.
Definition PKG_ERR_INVALID_TARGET : Z := -4.
Definition PKG_ERR_UNSUPPORTED_TARGET : Z := -5.
Definition PKG_ERR_NO_ACTIONS : Z := -6.
Definition PKG_ERR_IMAGE_INVALID_REFERENCE : Z := -7.
Definition PKG_ERR_IMAGE_UNKNOWN_PATH : Z := -8.
Definition PKG_ERR_IMAGE_FILE_NOT_FOUND : Z := -9.
Definition PKG_ERR_IMAGE_FILE_SIZE_MISMATCH : Z := -10.
Definition PKG_ERR_IMAGE_FILE_MD5_MISMATCH : Z := -11.

(** ** The functions that add commands

    The queue grows while a manifest is read; the reading goes on, stops with an error
    code, or raises an exception.  It has no result where the digest has none. *)

Inductive outcome (A : Type) := Ret (x : A) | Stop (err : Z) | Throw.
#[global] Arguments Ret {A}. #[global] Arguments Stop {A}. #[global] Arguments Throw {A}.

Definition M (A : Type) : Type := list string -> option (list string * outcome A).

Definition ret {A} (x : A) : M A := fun commands => Some (commands, Ret x).
Definition stop {A} (err : Z) : M A := fun commands => Some (commands, Stop err).
Definition bind {A B} (m : M A) (f : A -> M B) : M B := fun commands =>
  match m commands with
  | Some (commands, Ret x) => f x commands
  | Some (commands, Stop err) => Some (commands, Stop err)
  | Some (commands, Throw) => Some (commands, Throw)
  | None => None
  end.
#[export] Instance M_bind : MBind M := fun A B f m => bind m f.

Definition push_back (cmd : string) : M unit := fun commands => Some (commands ++ [cmd], Ret tt).
Definition yaml {A} (x : option A) : M A := fun commands =>
  Some (commands, match x with Some x => Ret x | None => Throw end).
Definition defined {A} (x : option A) : M A := fun commands => x ← x; Some (commands, Ret x).

Fixpoint for_each {A} (l : list A) (f : A -> M unit) : M unit :=
  match l with [] => ret tt | x :: l => _ ← f x; for_each l f end.

Section Package.
Context {P : Type} `{!package_env P}.
(** The digest context on the stack, and the error number. *)
Context (stack : md5Context_t) (errno : Z).

Definition zero_hash : md5hash_t := Md5Hash 0 0 0 0.

Definition guard_eq (n m err : Z) : M unit := if n =? m then ret tt else stop err.

(** An optional scalar of an image. *)
Definition optional (image : node) (key : string) (f : node -> M unit) : M unit :=
  x ← yaml (node_at image key);
  if IsDefined x && IsScalar x then f x else ret tt.

Definition image_command (p : P) (images : node) (zip : option archive) (cmd_arg : string) : M unit :=
  image ← yaml (node_at images cmd_arg);
  if negb (IsDefined image) || negb (IsMap image) then stop PKG_ERR_IMAGE_INVALID_REFERENCE else
  name ← yaml (node_at image "filename");
  if negb (IsDefined name) && negb (IsScalar name) then stop PKG_ERR_IMAGE_UNKNOWN_PATH else
  filename ← yaml (as_string name);
  '(filename, file_size, file_hash) ←
    match zip with
    | Some zip =>
      match mz_zip_reader_locate_file zip (c_str filename) with
      | Some file_size => ret (("pkg://" ++ filename)%string, file_size, zero_hash)
      | None => stop PKG_ERR_IMAGE_FILE_NOT_FOUND
      end
    | None =>
      '(_, file_size, file_hash, err) ←
        defined (Md5.md5_file_details stack errno (Some (open_file filename p)) 0 zero_hash);
      if negb (err =? 0) then stop PKG_ERR_IMAGE_FILE_NOT_FOUND
      else ret (filename, file_size, file_hash)
    end;
  _ ← optional image "size" (fun x =>
        image_size ← yaml (as_int x);
        guard_eq (u32 image_size) file_size PKG_ERR_IMAGE_FILE_SIZE_MISMATCH);
  _ ← match zip with
      | Some _ => ret tt
      | None =>
        optional image "md5sum" (fun x =>
          hash_str ← yaml (as_string x);
          image_hash ← defined (Md5.md5_from_string (chars hash_str));
          if bool_decide (Md5.hash_bytes image_hash = Md5.hash_bytes file_hash) then ret tt
          else stop PKG_ERR_IMAGE_FILE_MD5_MISMATCH)
      end;
  slot ← yaml (node_at image "slot");
  image_slot ← (if IsDefined slot && IsScalar slot then yaml (as_int slot) else ret 0);
  _ ← push_back ("slot=" ++ pretty image_slot)%string;
  push_back ("upload=" ++ filename)%string.

Definition target_names : list string := ["IMX5"; "GPX1"; "GNSS1"; "GNSS2"].

Definition action (p : P) (images : node) (zip : option archive) (cmd : node * node) : M unit :=
  cmd_name ← yaml (as_string (fst cmd));
  cmd_arg ← yaml (as_string (snd cmd));
  if bool_decide (cmd_name = "target"%string) then
    if bool_decide (cmd_arg ∈ target_names) then push_back ("target=" ++ cmd_arg)%string
    else stop PKG_ERR_UNSUPPORTED_TARGET
  else if bool_decide (cmd_name = "image"%string) then image_command p images zip cmd_arg
  else push_back (cmd_name ++ "=" ++ cmd_arg)%string.

(** The actions of a target. *)
Definition target_step (p : P) (images : node) (zip : option archive) (target : node * node) : M unit :=
  let '(key, actions) := target in
  if negb (IsScalar key) then stop PKG_ERR_INVALID_TARGET else
  if negb (IsSequence actions) then stop PKG_ERR_NO_ACTIONS else
  step_name ← yaml (as_string key);
  _ ← push_back (":" ++ step_name)%string;
  for_each (elements actions) (fun actions_iv =>
    cmds ← yaml (entries actions_iv);
    for_each cmds (action p images zip)).

Definition process_manifest (p : P) (manifest : node) (zip : option archive) : M unit :=
  images ← yaml (node_at manifest "images");
  if negb (IsMap images) then stop PKG_ERR_INVALID_IMAGES else
  steps ← yaml (node_at manifest "steps");
  if negb (IsSequence steps) then stop PKG_ERR_INVALID_STEPS else
  for_each (elements steps) (fun steps_iv =>
    targets ← yaml (entries steps_iv);
    for_each targets (target_step p images zip)).

(** The manifest of a file: every exception is caught. *)
Definition processPackageManifest (manifest_file : string) (p : P) (commands : list string)
    : option (P * list string * Z) :=
  match YAML_LoadFile manifest_file p with
  | None => Some (p, commands, PKG_ERR_PACKAGE_FILE_ERROR)
  | Some manifest =>
    if IsNull manifest then Some (p, commands, PKG_ERR_PACKAGE_FILE_ERROR) else
    let p := match getParentDirectory (CurrentWorkingDirectory p) manifest_file with
             | Some parentDir => chdir (c_str parentDir) p
             | None => p
             end in
    '(commands, result) ← process_manifest p manifest None commands;
    Some (p, commands, match result with
                       | Ret _ => PKG_SUCCESS
                       | Stop err => err
                       | Throw => PKG_ERR_PACKAGE_FILE_ERROR
                       end)
  end.

(** [zip_archive]: a null pointer, a cleared structure, or an open archive. *)
Inductive zip_state := ZipNull | ZipCleared | ZipOpen (zip : archive).

(** An exception is not caught here. *)
Definition openFirmwarePackage (pkg_file : string) (p : P) (commands : list string)
    : option (zip_state * list string * Z) :=
  match mz_zip_reader_init_file (c_str pkg_file) p with
  | None => Some (ZipCleared, commands, PKG_ERR_PACKAGE_FILE_ERROR)
  | Some zip =>
    match mz_zip_reader_extract_file_to_heap zip "manifest.yaml" with
    | Some (x :: bytes) =>
      manifest ← YAML_Load (x :: bytes);
      if IsDefined manifest then
        '(commands, result) ← process_manifest p manifest (Some zip) commands;
        match result with
        | Ret _ => Some (ZipOpen zip, commands, PKG_SUCCESS)
        | Stop err => Some (ZipOpen zip, commands, err)
        | Throw => None
        end
      else Some (ZipOpen zip, commands, PKG_SUCCESS)
    | _ => Some (ZipOpen zip, commands, PKG_SUCCESS)
    end
  end.
End Package.
#[global] Arguments zip_state P {_}.
End FirmwarePackage.
