(* ===== verification/FirmwareCommands.v ===== *)
(** * The script of a firmware update (src/src/ISFirmwareUpdater.cpp)

    The queue of commands of an updater, the commands, the recovery from an error, and
    the periodic step that runs the commands and drives the transfer.  The text of messages
    for the user is left out; whether their callback is set is a member, because one call
    does not look.  There is no result where the code leaves defined behaviour or where an
    exception is not caught. *)

From Stdlib Require Import Ascii.
From stdpp Require Import strings pretty.
From S2P Require Import Prelude CommTx Layouts DataSets Utilities Md5 FirmwareTypes FirmwareUpdate.
From S2P Require Import FirmwareUpdater FirmwarePackage.
Import FirmwareUpdate ISFirmwareUpdater FirmwarePackage.
#[local] Open Scope string_scope.
#[local] Open Scope list_scope.
#[local] Open Scope Z_scope.

Module FirmwareCommands.

Definition TARGET_SONY_CXD5610__1 : Z := 0x121.
Definition TARGET_SONY_CXD5610__2 : Z := 0x122.
Definition IMG_FLAG_imageNotEncrypted : Z := Z.shiftl 1 0.
Definition RESET_HARD : Z := 1.
Definition IS_HARDWARE_TYPE_GPX : Z := 4.
Definition maxAttempts : Z := 5.

(** The members of [ISFirmwareUpdater] the commands use. *)
Record script {P} `{!package_env P} := Script {
  commands : list string;
  activeStep : string;
  activeCommand : string;
  failLabel : string;
  requestPending : bool;
  slotNum : Z; chunkSize : Z; progressRate : Z;
  forceUpdate : bool;
  startAttempts : Z;
  pingInterval : Z; pingNextRetry : Z; pingTimeout : Z;
  filename : string;
  zip_archive : zip_state P;
  stepErrors : list (string * string);
  pfnInfoProgress_cb : bool
}.
#[global] Arguments script P {_}.

Section Commands.
Context {P : Type} `{!platform P, !package_env P}.
(** Uninitialised objects on the stack, the error number, and [*devInfo]. *)
Context (stack : list Z) (context : md5Context_t) (errno : Z) (devInfo : list Z).

Definition set_commands (x : list string) (s : script P) : script P :=
  Script _ _ x (activeStep s) (activeCommand s) (failLabel s) (requestPending s) (slotNum s)
    (chunkSize s) (progressRate s) (forceUpdate s) (startAttempts s) (pingInterval s)
    (pingNextRetry s) (pingTimeout s) (filename s) (zip_archive s) (stepErrors s)
    (pfnInfoProgress_cb s).
Definition set_activeStep (x : string) (s : script P) : script P :=
  Script _ _ (commands s) x (activeCommand s) (failLabel s) (requestPending s) (slotNum s)
    (chunkSize s) (progressRate s) (forceUpdate s) (startAttempts s) (pingInterval s)
    (pingNextRetry s) (pingTimeout s) (filename s) (zip_archive s) (stepErrors s)
    (pfnInfoProgress_cb s).
Definition set_activeCommand (x : string) (s : script P) : script P :=
  Script _ _ (commands s) (activeStep s) x (failLabel s) (requestPending s) (slotNum s)
    (chunkSize s) (progressRate s) (forceUpdate s) (startAttempts s) (pingInterval s)
    (pingNextRetry s) (pingTimeout s) (filename s) (zip_archive s) (stepErrors s)
    (pfnInfoProgress_cb s).
Definition set_failLabel (x : string) (s : script P) : script P :=
  Script _ _ (commands s) (activeStep s) (activeCommand s) x (requestPending s) (slotNum s)
    (chunkSize s) (progressRate s) (forceUpdate s) (startAttempts s) (pingInterval s)
    (pingNextRetry s) (pingTimeout s) (filename s) (zip_archive s) (stepErrors s)
    (pfnInfoProgress_cb s).
Definition set_requestPending (x : bool) (s : script P) : script P :=
  Script _ _ (commands s) (activeStep s) (activeCommand s) (failLabel s) x (slotNum s)
    (chunkSize s) (progressRate s) (forceUpdate s) (startAttempts s) (pingInterval s)
    (pingNextRetry s) (pingTimeout s) (filename s) (zip_archive s) (stepErrors s)
    (pfnInfoProgress_cb s).
(** Slot number, chunk size and progress rate. *)
Definition set_numbers (slot chunk rate : Z) (s : script P) : script P :=
  Script _ _ (commands s) (activeStep s) (activeCommand s) (failLabel s) (requestPending s) slot
    chunk rate (forceUpdate s) (startAttempts s) (pingInterval s) (pingNextRetry s)
    (pingTimeout s) (filename s) (zip_archive s) (stepErrors s) (pfnInfoProgress_cb s).
Definition set_forceUpdate (x : bool) (s : script P) : script P :=
  Script _ _ (commands s) (activeStep s) (activeCommand s) (failLabel s) (requestPending s)
    (slotNum s) (chunkSize s) (progressRate s) x (startAttempts s) (pingInterval s)
    (pingNextRetry s) (pingTimeout s) (filename s) (zip_archive s) (stepErrors s)
    (pfnInfoProgress_cb s).
Definition set_startAttempts (x : Z) (s : script P) : script P :=
  Script _ _ (commands s) (activeStep s) (activeCommand s) (failLabel s) (requestPending s)
    (slotNum s) (chunkSize s) (progressRate s) (forceUpdate s) x (pingInterval s)
    (pingNextRetry s) (pingTimeout s) (filename s) (zip_archive s) (stepErrors s)
    (pfnInfoProgress_cb s).
(** Interval, time of the next request, and time of the last one. *)
Definition set_ping (interval next timeout : Z) (s : script P) : script P :=
  Script _ _ (commands s) (activeStep s) (activeCommand s) (failLabel s) (requestPending s)
    (slotNum s) (chunkSize s) (progressRate s) (forceUpdate s) (startAttempts s) interval next
    timeout (filename s) (zip_archive s) (stepErrors s) (pfnInfoProgress_cb s).
Definition set_filename (x : string) (s : script P) : script P :=
  Script _ _ (commands s) (activeStep s) (activeCommand s) (failLabel s) (requestPending s)
    (slotNum s) (chunkSize s) (progressRate s) (forceUpdate s) (startAttempts s)
    (pingInterval s) (pingNextRetry s) (pingTimeout s) x (zip_archive s) (stepErrors s)
    (pfnInfoProgress_cb s).
Definition set_zip_archive (x : zip_state P) (s : script P) : script P :=
  Script _ _ (commands s) (activeStep s) (activeCommand s) (failLabel s) (requestPending s)
    (slotNum s) (chunkSize s) (progressRate s) (forceUpdate s) (startAttempts s)
    (pingInterval s) (pingNextRetry s) (pingTimeout s) (filename s) x (stepErrors s)
    (pfnInfoProgress_cb s).
Definition set_stepErrors (x : list (string * string)) (s : script P) : script P :=
  Script _ _ (commands s) (activeStep s) (activeCommand s) (failLabel s) (requestPending s)
    (slotNum s) (chunkSize s) (progressRate s) (forceUpdate s) (startAttempts s)
    (pingInterval s) (pingNextRetry s) (pingTimeout s) (filename s) (zip_archive s) x
    (pfnInfoProgress_cb s).

(** The object: its script, the host of the protocol, and the rest of the updater. *)
Record host_state := Host { sc : script P; ho : fw_host; up : updater P }.
Implicit Types (e : host_state).

Definition on_sc (f : script P -> script P) e : host_state := Host (f (sc e)) (ho e) (up e).
Definition on_ho (f : fw_host -> fw_host) e : host_state := Host (sc e) (f (ho e)) (up e).
Definition on_up (f : updater P -> updater P) e : host_state := Host (sc e) (ho e) (f (up e)).
Definition status e : Z := session_status (hs_base (ho e)).

Definition now e : host_state * Z :=
  let '(u, x) := current_timeMs (up e) in (Host (sc e) (ho e) u, x).
Definition messageAge e : host_state * Z :=
  let '(u, x) := fwUpdate_getLastMessageAge (hs_base (ho e)) (up e) in (Host (sc e) (ho e) u, x).
(** A function of the host that sends a message. *)
Definition sending (f : fw_host -> updater P -> option (fw_host * updater P * bool)) e
    : option (host_state * bool) :=
  '(h, u, ok) ← f (ho e) (up e); Some (Host (sc e) h u, ok).

Definition setCommands (cmds : list string) e : host_state * bool := (on_sc (set_commands cmds) e, true).
Definition clearAllCommands e : host_state := on_sc (set_commands []) e.
Definition hasPendingCommands e : bool := match commands (sc e) with [] => false | _ => true end.
Definition hasErrors e : bool := match stepErrors (sc e) with [] => false | _ => true end.

(** [find_first_of] finds the first of the characters, not the word. *)
Definition getPendingUploads e : Z :=
  lenZ (List.filter (fun cmd => match cmd with
                                | String x _ => bool_decide (x ∈ String.list_ascii_of_string "upload")
                                | EmptyString => false
                                end) (commands (sc e))).

(** ** Errors *)

(** The commands from the label on. *)
Fixpoint skip_to (label : string) (cmds : list string) : list string :=
  match cmds with
  | [] => []
  | c :: cs => if bool_decide (c = label) then cmds else skip_to label cs
  end.

Definition handleCommandError (cmd : string) e : host_state :=
  let e := if hasPendingCommands e then on_ho host_resetEngine (on_sc (set_requestPending false) e)
           else e in
  let e := on_sc (fun s => set_stepErrors (stepErrors s ++ [(activeStep s, cmd)]) s) e in
  if bool_decide (failLabel (sc e) = ""%string)
  then on_up (set_target TARGET_HOST) (on_sc (set_commands []) e)
  else on_sc (fun s => set_commands (skip_to (failLabel s) (commands s)) s) e.

(** The file and the archive are closed. *)
Definition cleanupFirmwarePackage e : host_state * Z :=
  (on_sc (set_zip_archive ZipNull) (on_up (set_srcFile None) e), PKG_SUCCESS).

(** ** Commands

    [args] are the arguments; a command returns whether it is done with, or else is run
    again. *)

Definition set_target_device (t : Z) e : host_state :=
  let '(h, u) := setTarget t (ho e) (up e) in Host (sc e) h u.

Definition named_target (name : string) : option Z :=
  if bool_decide (name = "IMX5"%string) then Some TARGET_IMX5
  else if bool_decide (name = "GPX1"%string) then Some TARGET_GPX1
  else if bool_decide (name = "GNSS1"%string) then Some TARGET_SONY_CXD5610__1
  else if bool_decide (name = "GNSS2"%string) then Some TARGET_SONY_CXD5610__2
  else None.

Definition on_platform (p : P) e : host_state := on_up (set_port p) e.

Definition ends_with (suffix s : string) : bool :=
  let n := String.length s in let m := String.length suffix in
  (m <=? n)%nat && bool_decide (String.substring (n - m) m s = suffix).

Definition cmd_package (arg : string) e : option host_state :=
  '(e, err_result) ←
    (if ends_with ".yaml" arg then
       '(p, cmds, r) ← processPackageManifest context errno arg (port (up e)) (commands (sc e));
       Some (on_platform p (on_sc (set_commands cmds) e), r)
     else
       '(zip, cmds, r) ← openFirmwarePackage context errno arg (port (up e)) (commands (sc e));
       Some (on_sc (set_zip_archive zip) (on_sc (set_commands cmds) e), r));
  Some (if negb (err_result =? PKG_SUCCESS) then handleCommandError (activeCommand (sc e)) e else e).

Definition cmd_label e : host_state :=
  let label := activeCommand (sc e) in
  let name := String.substring 1 (String.length label - 1) label in
  let e := on_sc (set_activeStep (c_str name)) e in
  let e := match named_target name with
           | Some t => set_target_device t e
           | None => on_up (set_target TARGET_HOST) (on_ho (on_base (set_session_target TARGET_HOST)) e)
           end in
  let e := on_sc (fun s => set_numbers 0 (chunkSize s) (progressRate s) s) e in
  on_sc (set_failLabel "") (on_ho (on_base (set_session_image_slot 0)) e).

Definition cmd_target (arg : string) e : host_state :=
  match named_target arg with
  | Some t => set_target_device t e
  | None => handleCommandError (activeCommand (sc e)) e
  end.

Definition starts_with_colon (s : string) : bool :=
  match s with String x _ => bool_decide (x = ":"%char) | EmptyString => false end.

Definition cmd_on_error (arg : string) e : host_state :=
  let e := on_sc (set_failLabel (c_str arg)) e in
  if starts_with_colon (failLabel (sc e)) then e
  else handleCommandError (activeCommand (sc e)) (on_sc (set_failLabel "") e).

(** A sum of type [long]. *)
Definition add_long (x y : Z) : option Z :=
  if (-9223372036854775808 <=? x + y) && (x + y <=? 9223372036854775807) then Some (x + y) else None.

Definition cmd_delay (arg : string) e : option host_state :=
  let '(e, t) := now e in
  until ← add_long t (strtol10 arg);
  Some (on_up (set_pauseUntil (u32 until)) e).

(** [waitfor=timeout,interval,force]. *)
Definition waitfor_force (args : list string) e : option host_state :=
  match args with
  | [timeout; interval; force] =>
    if bool_decide (force = "true"%string) then
      match commands (sc e) with
      | [] => None
      | _ :: cmds =>
        let cmd := (activeCommand (sc e) ++ "=" ++ timeout ++ "," ++ interval)%string in
        let e := on_sc (set_commands (cmd :: cmds)) e in
        let e := on_sc (fun s => set_ping 1000 (pingNextRetry s) 0 s) e in
        Some (on_up (fun u => set_remote (remoteDevInfo u) false u) e)
      end
    else Some e
  | _ => Some e
  end.

Definition waitfor_query (args : list string) e : option host_state :=
  if pingTimeout (sc e) =? 0 then
    timeout ← args !! 0%nat;
    let '(e, t) := now e in
    until ← add_long t (strtol10 timeout);
    let interval := match args !! 1%nat with
                    | Some a => u32 (strtol10 a)
                    | None => pingInterval (sc e)
                    end in
    Some (on_sc (fun s => set_ping interval (pingNextRetry s) (u32 until) s) e)
  else
    let '(e, t) := now e in
    if pingTimeout (sc e) <? t then
      Some (handleCommandError (activeCommand (sc e))
              (on_sc (fun s => set_ping (pingInterval s) 0 0 s) e))
    else
      let '(e, t) := now e in
      if pingNextRetry (sc e) <? t then
        let '(e, t) := now e in
        let e := on_sc (fun s => set_ping (pingInterval s) (u32 (t + pingInterval s)) (pingTimeout s) s) e in
        let e := on_up (fun u => set_remote (remoteDevInfo u) false u) e in
        '(e, _) ← sending (fwUpdate_requestVersionInfo stack (target (up e))) e;
        Some e
      else Some e.

Definition cmd_waitfor (args : list string) e : option (host_state * bool) :=
  e ← waitfor_force args e;
  if target_devInfo (up e) then Some (e, true)
  else e ← waitfor_query args e; Some (e, false).

(** *** The upload *)

(** The file extension: what follows the last point, or the whole name. *)
Definition extension (name : string) : string :=
  match rfind "."%char name with
  | Some n => String.substring (S n) (String.length name) name
  | None => name
  end.

Definition not_encrypted (target slot : Z) (name : string) : bool :=
  (Z.land target TARGET_SONY_CXD5610 =? TARGET_SONY_CXD5610) &&
  ((slot =? 4) || ((slot =? 2) && bool_decide (extension name = "fpk"%string))).

Definition set_members (l : list (string * Z * Z)) (info : list Z) : option (list Z) :=
  foldl (fun info '(m, i, v) => info ← info; set_member dev_info_layout m i v info) (Some info) l.

(** The text of [addInfo]; there is no result when it has no end. *)
Fixpoint text_of (bytes : list Z) : option string :=
  match bytes with
  | [] => None
  | b :: bytes =>
    if b =? 0 then Some ""%string
    else s ← text_of bytes; Some (String (ascii_of_nat (Z.to_nat b)) s)
  end.

(** The version of the GPX in the text of an IMX: four numbers and a build number, or
    three. *)
Definition gpx_version (addInfo : string) : option (list Z) :=
  n ← String.index 0 "G2." addInfo;
  let s := String.substring n (String.length addInfo) addInfo in
  match sscanf s [ScanChar "G"; ScanInt; ScanChar "."; ScanInt; ScanChar "."; ScanInt;
                  ScanChar "."; ScanInt; ScanChar "-"; ScanInt] with
  | [v1; v2; v3; v4; _] => Some [v1; v2; v3; v4]
  | l5 =>
    match sscanf s [ScanChar "G"; ScanInt; ScanChar "."; ScanInt; ScanChar "."; ScanInt;
                    ScanChar "-"; ScanInt] with
    | [v1; v2; v3; _] => Some [v1; v2; v3; nth 3 l5 0]
    | _ => None
    end
  end.

Definition devInfo_hardwareType : option Z := get_member dev_info_layout "hardwareType" 0 devInfo.

(** The device information and the flags of the upload. *)
Definition target_info (flags : Z) (u : updater P) : option (updater P * Z) :=
  if target_devInfo u then Some (u, flags) else
  hardware ← devInfo_hardwareType;
  let is_for t := negb (Z.land (target u) t =? 0) in
  if (is_for TARGET_IMX5 && (hardware =? IS_HARDWARE_TYPE_IMX)) ||
     (is_for TARGET_GPX1 && (hardware =? IS_HARDWARE_TYPE_GPX))
  then Some (set_remote devInfo true u, flags)
  else if is_for TARGET_GPX1 && (hardware =? IS_HARDWARE_TYPE_IMX) then
    addInfo ← text_of (dropZ (offsetof dev_info_layout "addInfo" 0) devInfo);
    match gpx_version addInfo with
    | Some [v1; v2; v3; v4] =>
      info ← set_members
        [("hardwareType", 0, IS_HARDWARE_TYPE_GPX); ("hardwareVer", 0, 1); ("hardwareVer", 1, 0);
         ("hardwareVer", 2, 3); ("hardwareVer", 3, 0); ("firmwareVer", 0, v1);
         ("firmwareVer", 1, v2); ("firmwareVer", 2, v3); ("firmwareVer", 3, v4)] (remoteDevInfo u);
      let old := (v1 =? 2) && (v2 =? 0) && (v3 =? 0) in
      Some (set_remote info true u, if old then Z.lor flags IMG_FLAG_useAlternateMD5 else flags)
    | _ => Some (u, flags)
    end
  else Some (u, Z.lor flags IMG_FLAG_useAlternateMD5).

(** The stream of the image; an entry that the archive does not have has none. *)
Definition open_image (name : string) e : option Md5.istream :=
  let file := open_file name (port (up e)) in
  let in_package := bool_decide (String.substring 0 6 name = "pkg://"%string) in
  let path := c_str (String.substring 6 (String.length name) name) in
  match zip_archive (sc e) with
  | ZipNull => Some file
  | ZipCleared => if in_package then None else Some file
  | ZipOpen zip =>
    if in_package then
      data ← mz_zip_reader_extract_file_to_heap zip path; Some (Md5.IStream data 0 false false)
    else Some file
  end.

Definition cmd_upload (arg : string) e : option host_state :=
  let e := on_ho host_resetEngine (on_sc (set_filename arg) e) in
  let s := sc e in
  let flags := if not_encrypted (target (up e)) (slotNum s) arg then IMG_FLAG_imageNotEncrypted else 0 in
  '(u, flags) ← target_info flags (up e);
  let e := on_up (fun _ => u) e in
  '(e, result) ←
    match open_image arg e with
    | None => Some (e, ERR_INVALID_IMAGE)
    | Some f =>
      '(h, u, result) ← initializeUpdate stack context errno f (target u) (slotNum s) flags
                          (chunkSize s) (progressRate s) (ho e) (up e);
      Some (Host (sc e) h u, result)
    end;
  if result <? NOT_STARTED then Some (handleCommandError (activeCommand (sc e)) e)
  else
    let e := on_sc (set_requestPending true) e in
    let '(e, t) := now e in
    Some (on_up (set_nextStartAttempt (u32 (t + attemptInterval))) e).

Definition cmd_reset (args : list string) e : option host_state :=
  let hard := bool_decide (args = ["hard"%string]) in
  '(e, _) ← sending (fwUpdate_requestReset stack (target (up e)) (if hard then RESET_HARD else RESET_SOFT)) e;
  Some e.

(** *** Running a command *)

(** The name and the arguments: without an argument the name stands for it. *)
Definition parse_command (cmd : string) : option (string * list string) :=
  match splitString cmd "=" with
  | [] => None
  | [name] => Some (name, [name])
  | name :: arg :: _ => Some (name, splitString arg ",")
  end.

Inductive command :=
  | Package (arg : string) | Label | Target (arg : string) | OnError (arg : string) | Echo
  | Slot (arg : string) | TimeoutDuration (arg : string) | Force (args : list string)
  | Chunk (arg : string) | Rate (arg : string) | Delay (arg : string)
  | Waitfor (args : list string) | Upload (arg : string) | ResetTarget (args : list string)
  | Finish | Unknown.

(** Which branch a command takes: most need exactly one argument. *)
Definition command_of (name : string) (args : list string) : command :=
  let named x := bool_decide (name = x) in
  let one f := match args with [arg] => f arg | _ => Unknown end in
  if named "package"%string && (length args =? 1)%nat then one Package
  else if starts_with_colon name then Label
  else if named "target"%string then one Target
  else if named "on-error"%string then one OnError
  else if named "echo"%string then one (fun _ => Echo)
  else if named "slot"%string then one Slot
  else if named "timeout"%string then one TimeoutDuration
  else if named "force"%string then Force args
  else if named "chunk"%string then one Chunk
  else if named "rate"%string then one Rate
  else if named "delay"%string then one Delay
  else if named "waitfor"%string && (1 <=? length args)%nat && (length args <=? 3)%nat then Waitfor args
  else if named "upload"%string then one Upload
  else if named "reset"%string then ResetTarget args
  else if named "finish"%string then Finish
  else Unknown.

Definition execute (c : command) e : option (host_state * bool) :=
  let s := sc e in
  let done e := Some (e, true) in
  match c with
  | Package arg => e ← cmd_package arg e; done e
  | Label => done (cmd_label e)
  | Target arg => done (cmd_target arg e)
  | OnError arg => done (cmd_on_error arg e)
  | Echo | Unknown => done e
  | Slot arg => done (on_sc (set_numbers (s32 (strtol10 arg)) (chunkSize s) (progressRate s)) e)
  | TimeoutDuration arg => done (on_ho (on_base (set_timeout_duration (u32 (strtol10 arg)))) e)
  | Force args =>
    arg ← args !! 0%nat;
    done (on_sc (set_forceUpdate (bool_decide (arg = "true"%string))) e)
  | Chunk arg => done (on_sc (set_numbers (slotNum s) (s32 (strtol10 arg)) (progressRate s)) e)
  | Rate arg => done (on_sc (set_numbers (slotNum s) (chunkSize s) (s32 (strtol10 arg))) e)
  | Delay arg => e ← cmd_delay arg e; done e
  | Waitfor args => cmd_waitfor args e
  | Upload arg => e ← cmd_upload arg e; done e
  | ResetTarget args => e ← cmd_reset args e; done e
  | Finish => done (on_sc (set_commands []) e)
  end.

(** The executed command is removed; an empty queue has no active command. *)
Definition pop_command e : host_state :=
  match commands (sc e) with
  | _ :: cmds => on_sc (set_commands cmds) e
  | [] => on_sc (set_activeCommand "") e
  end.

Definition runCommand (cmd : string) e : option host_state :=
  match parse_command cmd with
  | None => Some (pop_command e)
  | Some (name, args) =>
    let e := on_sc (set_activeCommand name) e in
    '(e, finished) ← execute (command_of name args) e;
    Some (if finished : bool then pop_command e else e)
  end.

(** ** The step *)

Definition in_progress e : bool := (NOT_STARTED <? status e) && (status e <? FINISHED).

Definition fwUpdate_isDone e : bool :=
  negb (hasPendingCommands e || requestPending (sc e) || in_progress e).

(** The request for the update, sent again from time to time; the number of attempts is
    an [int8_t].  The callback is called without a look at it. *)
Definition retry_request e : option host_state :=
  let '(e, lastMsgAge) := messageAge e in
  if 1500 <? lastMsgAge then
    if maxAttempts <=? startAttempts (sc e) then
      let e := on_sc (set_startAttempts 0) e in
      let '(e, t) := now e in
      Some (on_up (set_nextStartAttempt (u32 (t + attemptInterval * 10))) e)
    else
      let '(e, t) := now e in
      if nextStartAttempt (up e) <? t then
        let '(e, t) := now e in
        let e := on_up (set_nextStartAttempt (u32 (t + attemptInterval))) e in
        '(e, sent) ← sending (fwUpdate_requestUpdate_again stack) e;
        let e := if sent : bool then on_sc (fun s => set_startAttempts (startAttempts s + 1) s) e else e in
        if pfnInfoProgress_cb (sc e) then Some e else None
      else Some e
  else Some e.

(** The chunk size is halved, to a power of two: [1 << bits]. *)
Definition smaller_chunk_size (size : Z) : option Z :=
  if size <=? 0 then None else
  let lv := Z.log2 size in
  let bits := if 2 ^ lv =? size then lv - 1 else lv in
  if bits <? 0 then None else Some (u16 (Z.shiftl 1 bits)).

Definition retry_smaller e : option host_state :=
  let b := hs_base (ho e) in
  if session_id b =? 0 then Some e else
  size ← smaller_chunk_size (session_chunk_size b);
  let '(u, r) := host_rand (up e) in
  let h := on_base (set_session_id (u16 r)) (on_base (set_session_chunk_size size) (ho e)) in
  '(e, _) ← sending (fwUpdate_requestUpdate_again stack) (Host (sc e) h u);
  Some e.

(** The next command; [None] inside when the step returns at once. *)
Definition next_command e : option (host_state * bool) :=
  match commands (sc e) with
  | [] => Some (e, true)
  | cmd :: _ =>
    let '(e, paused) :=
      if pauseUntil (up e) =? 0 then (e, false)
      else let '(e, t) := now e in (e, t <? pauseUntil (up e)) in
    if paused : bool then Some (e, false) else
    e ← runCommand cmd (on_up (set_pauseUntil 0) e);
    Some (e, true)
  end.

Definition next_chunk e : option host_state :=
  let e := on_sc (set_requestPending false) e in
  let '(e, t) := now e in
  if nextChunkSend (up e) <? t then
    '(h, u, _) ← fwUpdate_sendNextChunk (ho e) (up e); Some (Host (sc e) h u)
  else Some e.

(** The image has been uploaded. *)
Definition finished_upload e : host_state :=
  if hasPendingCommands e then
    let e := on_ho (on_base (set_session_status NOT_STARTED)) (on_sc (set_requestPending false) e) in
    let '(e, t) := now e in
    on_up (set_nextStartAttempt (u32 (t + attemptInterval))) e
  else e.

(** What is done in the state of the session; [false] when the step returns at once. *)
Definition step_status e : option (host_state * bool) :=
  let continue (x : option host_state) := e ← x; Some (e, true) in
  let st := status e in
  if st =? NOT_STARTED then
    if requestPending (sc e) then continue (retry_request e) else next_command e
  else if (st =? INITIALIZING) || (st =? FINALIZING) then
    continue (Some (on_sc (set_requestPending false) e))
  else if (st =? READY) || (st =? IN_PROGRESS) then continue (next_chunk e)
  else if st =? FINISHED then
    let '(e, _) := if pfnInfoProgress_cb (sc e) then now e else (e, 0) in
    continue (Some (finished_upload e))
  else if st =? ERR_MAX_CHUNK_SIZE then continue (retry_smaller e)
  else if st <? NOT_STARTED then continue (Some (handleCommandError "upload" e))
  else continue (Some e).

(** A silent device is given up, and the file of a finished script is closed. *)
Definition step_end e : host_state :=
  let '(e, lastMsg) := messageAge e in
  let e := if (timeout_duration (hs_base (ho e)) <? lastMsg) && (requestPending (sc e) || in_progress e)
           then on_ho (on_base (set_session_status ERR_TIMEOUT)) e else e in
  if fwUpdate_isDone e then on_up (set_srcFile None) e else e.

Definition fwUpdate_step e : option (host_state * bool) :=
  '(e, go) ← step_status e;
  if go : bool then let e := step_end e in Some (e, negb (status e =? NOT_STARTED))
  else Some (e, false).
End Commands.
#[global] Arguments host_state P {_}.
End FirmwareCommands.
