(* ===== verification/FirmwareChunks.v ===== *)
(** * The number of chunks of an image

    The single-precision quotient the device computes is the exact one for images
    below 16 MiB. *)

From S2P Require Import Prelude FirmwareTypes FirmwareUpdate.
Import FirmwareUpdate.

Lemma round_div_near n d : 0 < d -> - d <= 2 * (round_div n d * d - n) <= d.
Proof.
  intros Hd. unfold round_div. pose proof (Z.div_mod n d ltac:(lia)) as E.
  pose proof (Z.mod_pos_bound n d Hd).
  destruct (Z.ltb_spec (2 * (n mod d)) d); [nia|].
  destruct (Z.ltb_spec d (2 * (n mod d))); [nia|]. destruct (Z.even (n / d)); nia.
Qed.

Lemma round_div_exact q d : 0 < d -> round_div (q * d) d = q.
Proof.
  intros Hd. unfold round_div. rewrite Z.mod_mul, Z.div_mul by lia.
  by rewrite (proj2 (Z.ltb_lt _ _)) by lia.
Qed.

Lemma f32_of_Z_small n : n < 16777216 -> f32_of_Z n = n.
Proof. intros H. unfold f32_of_Z. change (2 ^ 24) with 16777216. by rewrite (proj2 (Z.ltb_lt _ _)). Qed.

(** The quotient lies between two powers of two. *)
Lemma log2_quotient_le a b : 0 < a -> 0 < b ->
  let l := log2_quotient a b in
  if 0 <=? l then b * 2 ^ l <= a else b <= a * 2 ^ (- l).
Proof.
  intros Ha Hb. cbv zeta. unfold log2_quotient. set (l := Z.log2 a - Z.log2 b).
  destruct (Z.log2_spec a Ha) as [La _]. destruct (Z.log2_spec b Hb) as [_ Lb].
  destruct (if 0 <=? l then b * 2 ^ l <=? a else b <=? a * 2 ^ (- l)) eqn:E.
  - destruct (0 <=? l); lia.
  - clear E. pose proof (Z.log2_nonneg a). pose proof (Z.log2_nonneg b).
    destruct (Z.leb_spec 0 (l - 1)) as [Hl|Hl].
    + apply Z.le_trans with (2 ^ Z.log2 a); [|done].
      replace (Z.log2 a) with (Z.succ (Z.log2 b) + (l - 1)) by lia.
      rewrite Z.pow_add_r by lia. apply Z.mul_le_mono_nonneg_r; [apply Z.pow_nonneg; lia|lia].
    + apply Z.le_trans with (2 ^ Z.succ (Z.log2 b)); [lia|].
      replace (Z.succ (Z.log2 b)) with (Z.log2 a + - (l - 1)) by lia.
      rewrite Z.pow_add_r by lia. apply Z.mul_le_mono_nonneg_r; [apply Z.pow_nonneg; lia|lia].
Qed.

Lemma f32_ceil_quotient_exact a b :
  0 < a < 16777216 -> 0 < b -> f32_ceil_quotient a b = (a + b - 1) / b.
Proof.
  intros Ha Hb. unfold f32_ceil_quotient. rewrite (proj2 (Z.eqb_neq a 0)) by lia.
  pose proof (log2_quotient_le a b ltac:(lia) Hb) as Hl. cbv zeta in Hl.
  set (l := log2_quotient a b) in *.
  assert (l < 24) as Hl24.
  { destruct (Z.leb_spec 0 l); [|lia]. destruct (Z.lt_ge_cases l 24); [done|].
    assert (2 ^ 24 <= 2 ^ l) by (apply Z.pow_le_mono_r; lia). change (2 ^ 24) with 16777216 in *. nia. }
  destruct (Z.leb_spec 0 (l - 23)) as [He|He].
  - (* the quotient is 2^23 at least *)
    replace (l - 23) with 0 by lia. change (2 ^ 0) with 1. rewrite !Z.mul_1_r.
    assert (l = 23) as E by lia. rewrite E in Hl. change (0 <=? 23) with true in Hl. cbv iota in Hl.
    change (2 ^ 23) with 8388608 in Hl. assert (b = 1) as -> by nia.
    rewrite <- (Z.mul_1_r a) at 1. rewrite round_div_exact by lia. rewrite Z.div_1_r. lia.
  - set (s := 2 ^ (- (l - 23))).
    assert (0 < s) as Hs0 by (apply Z.pow_pos_nonneg; lia).
    assert (8388608 * b <= a * s) as Hs.
    { unfold s. change 8388608 with (2 ^ 23). destruct (Z.leb_spec 0 l).
      - assert (2 ^ 23 = 2 ^ l * 2 ^ (- (l - 23))) as -> by (rewrite <- Z.pow_add_r by lia; f_equal; lia).
        nia.
      - replace (- (l - 23)) with (- l + 23) by lia. rewrite Z.pow_add_r by lia. nia. }
    assert (b < 2 * s) as Hbs by nia.
    set (q := round_div (a * s) b). pose proof (round_div_near (a * s) b Hb) as Hq. fold q in Hq.
    pose proof (Z.div_mod a b ltac:(lia)) as E. pose proof (Z.mod_pos_bound a b Hb) as Hr.
    set (n := a / b) in *. destruct (Z.eq_dec (a mod b) 0) as [E0|E0].
    + assert (q = n * s) as ->.
      { unfold q. replace (a * s) with (n * s * b) by nia. by apply round_div_exact. }
      transitivity n; [symmetry; apply Z.div_unique with (s - 1); lia|apply Z.div_unique with (b - 1); lia].
    + assert (n * s < q) by nia. assert (q < (n + 1) * s) by nia.
      transitivity (n + 1); [symmetry; apply Z.div_unique with (q - n * s - 1); lia|].
      apply Z.div_unique with (a mod b - 1); lia.
Qed.

(** An image below 16 MiB in chunks of [chunk_size] has as many chunks as it needs. *)
Lemma total_chunks_exact size chunk_size total :
  0 < size < 16777216 -> 0 < chunk_size < 65536 -> total_chunks size chunk_size = Some total ->
  total = (size + chunk_size - 1) / chunk_size /\ 0 < total < 65536 /\
  (total - 1) * chunk_size < size <= total * chunk_size.
Proof.
  intros Hs Hc. unfold total_chunks. rewrite (proj2 (Z.eqb_neq _ _)) by lia.
  rewrite !f32_of_Z_small, f32_ceil_quotient_exact by lia.
  destruct (Z.ltb_spec ((size + chunk_size - 1) / chunk_size) 65536); [|done].
  intros [= <-]. split; [done|]. pose proof (Z.div_mod (size + chunk_size - 1) chunk_size ltac:(lia)).
  pose proof (Z.mod_pos_bound (size + chunk_size - 1) chunk_size ltac:(lia)). nia.
Qed.

(** Above, chunks can be missing: 2^24 + 1 is rounded to 2^24. *)
Example total_chunks_rounded :
  total_chunks 16777217 512 = Some 32768 /\ 32768 * 512 < 16777217.
Proof. split; vm_compute; reflexivity. Qed.
