(* ===== verification/FirmwareMessages.v ===== *)
(** * Messages of the firmware update protocol

    The members of a message that are known to hold a value, and the bytes of a message
    in the buffer it is sent from. *)

From stdpp Require Import strings.
From S2P Require Import Prelude CommTx CommTxProps Layouts Md5 Md5Props.
From S2P Require Import FirmwareTypes FirmwareUpdate.
Import FirmwareUpdate.
#[local] Open Scope string_scope.
#[local] Open Scope list_scope.
#[local] Open Scope Z_scope.

(** ** Members of messages *)

(** The integer types the messages use. *)
Definition int_type (t : ctype) : bool :=
  match t with U8 | CHAR | U16 | I16 | U32 | I32 => true | _ => false end.

(** The value a member of type [t] has after [v] is assigned to it. *)
Definition assigned (t : ctype) (v : Z) : Z :=
  match t with
  | U8 | CHAR => u8 v | U16 => u16 v | I16 => s16 v | U32 => u32 v | I32 => s32 v | _ => v
  end.

Lemma lenZ_encode t v : int_type t = true -> lenZ (encode t v) = sizeof t.
Proof. by destruct t. Qed.

Lemma sizeof_pos t : 0 < sizeof t.
Proof. by destruct t. Qed.

Lemma decode_encode t v : int_type t = true -> decode t (encode t v) = Some (assigned t v).
Proof.
  destruct t; try done; intros _; cbn [decode encode assigned]; unfold le16_bytes, le32_bytes, le16;
    f_equal; unfold lo8, hi8, s16, s32, u8, u16, u32; zlia.
Qed.

Lemma encode_bytes t v : int_type t = true -> Forall byte (encode t v).
Proof. destruct t; try done; intros _; repeat constructor; apply Z.mod_pos_bound; done. Qed.

Lemma bytes_updZ o (bs l : list Z) : Forall byte bs -> Forall byte l -> Forall byte (updZ o bs l).
Proof.
  intros Hb Hl. unfold updZ, takeZ, dropZ.
  apply Forall_app; split; [by apply Forall_take|]. apply Forall_app; split; [done|by apply Forall_drop].
Qed.

(** The bytes of [p] at [o] are those of [v]. *)
Definition holds_at (o : Z) (t : ctype) (v : Z) (p : list Z) : Prop :=
  int_type t = true /\ 0 <= o /\ o + sizeof t <= lenZ p /\ subZ o (sizeof t) p = encode t v.

Lemma get_holds l m p t o v : member_type l m = Some t -> offsetof l m 0 = o -> holds_at o t v p ->
  get_member l m 0 p = Some (assigned t v).
Proof.
  intros Ht Ho (Hi & Ho0 & Hp & E). unfold get_member. rewrite Ht. cbn [mbind option_bind].
  rewrite Ho. pose proof (sizeof_pos t). rewrite take_exact_ok by (rewrite lenZ_dropZ; lia).
  cbn [mbind option_bind]. fold (subZ o (sizeof t) p). by rewrite E, decode_encode.
Qed.

(** The values of a member. *)
Definition in_range (t : ctype) (v : Z) : Prop :=
  match t with
  | U8 | CHAR => 0 <= v < 256 | U16 => 0 <= v < 65536 | I16 => -32768 <= v < 32768
  | U32 => 0 <= v < 4294967296 | I32 => -2147483648 <= v < 2147483648 | _ => False
  end.

Lemma decode_ok t bs : int_type t = true -> lenZ bs = sizeof t ->
  exists v, decode t bs = Some v /\ (Forall byte bs -> in_range t v).
Proof.
  intros Hi Hl. assert (length bs = Z.to_nat (sizeof t)) as Hn by (unfold lenZ in Hl; lia).
  destruct t; try done; (destruct bs as [|b0 [|b1 [|b2 [|b3 [|]]]]]; try done);
    (eexists; split; [reflexivity|]; intros Hb; repeat (apply Forall_cons_1 in Hb as [? Hb]));
    unfold byte, in_range, le16, s16, s32 in *; zlia.
Qed.

(** A member that is there has a value. *)
Lemma get_ok l m i p t o : member_type l m = Some t -> offsetof l m i = o -> int_type t = true ->
  0 <= o -> o + sizeof t <= lenZ p ->
  exists v, get_member l m i p = Some v /\ (Forall byte p -> in_range t v).
Proof.
  intros Ht <- Hi Ho Hp. unfold get_member. rewrite Ht. cbn [mbind option_bind].
  pose proof (sizeof_pos t). rewrite take_exact_ok by (rewrite lenZ_dropZ; lia).
  cbn [mbind option_bind].
  destruct (decode_ok t (takeZ (sizeof t) (dropZ (offsetof l m i) p)) Hi) as (v & -> & Hv);
    [rewrite lenZ_takeZ, lenZ_dropZ; lia|].
  exists v. split; [done|]. intros Hb. apply Hv. unfold takeZ, dropZ. by apply Forall_take, Forall_drop.
Qed.

Lemma subZ_updZ_same o (bs p : list Z) n : n = lenZ bs -> 0 <= o -> o + n <= lenZ p ->
  subZ o n (updZ o bs p) = bs.
Proof.
  intros -> Ho Hp. apply nthZ_ext; [rewrite lenZ_subZ, lenZ_updZ by lia; pose proof (lenZ_nonneg bs); lia|].
  intros i Hi. rewrite lenZ_subZ, lenZ_updZ in Hi by lia. rewrite nthZ_subZ, nthZ_updZ by lia.
  pose proof (lenZ_nonneg bs). split_cmp; try lia; try (f_equal; lia).
Qed.

Lemma subZ_updZ_other o (bs p : list Z) o' n :
  0 <= o -> o + lenZ bs <= lenZ p -> 0 <= o' -> 0 <= n -> o' + n <= o \/ o + lenZ bs <= o' ->
  subZ o' n (updZ o bs p) = subZ o' n p.
Proof.
  intros Ho Hp Ho' Hn Hd. pose proof (lenZ_nonneg bs).
  apply nthZ_ext; [by rewrite !lenZ_subZ, lenZ_updZ by lia|].
  intros i Hi. rewrite lenZ_subZ, lenZ_updZ in Hi by lia. rewrite !nthZ_subZ, nthZ_updZ by lia.
  split_cmp; try lia; done.
Qed.

(** Setting a member: its value is there, and the others are where they were. *)
Lemma set_holds l m v p t o : member_type l m = Some t -> offsetof l m 0 = o -> int_type t = true ->
  0 <= o -> o + sizeof t <= lenZ p ->
  exists p', set_member l m 0 v p = Some p' /\ lenZ p' = lenZ p /\ holds_at o t v p' /\
    (forall o' t' v', holds_at o' t' v' p -> o' + sizeof t' <= o \/ o + sizeof t <= o' ->
      holds_at o' t' v' p') /\
    (Forall byte p -> Forall byte p').
Proof.
  intros Ht Ho Hi Ho0 Hp. unfold set_member. rewrite Ht. cbn [mbind option_bind]. rewrite Ho.
  rewrite (proj2 (Z.leb_le _ _)) by done. eexists. split; [done|].
  pose proof (lenZ_encode t v Hi) as Hl. pose proof (sizeof_pos t).
  assert (lenZ (updZ o (encode t v) p) = lenZ p) as E by (rewrite lenZ_updZ; lia).
  split; [done|]. split; [by split_and!; rewrite ?E, ?subZ_updZ_same by lia|].
  split; [|intros Hb; by apply bytes_updZ; [apply encode_bytes|]].
  intros o' t' v' (Hi' & Ho' & Hp' & E') Hd. pose proof (sizeof_pos t').
  split_and!; rewrite ?E; try done. by rewrite subZ_updZ_other by lia.
Qed.

Lemma holds_take o t v p n : holds_at o t v p -> o + sizeof t <= n -> holds_at o t v (takeZ n p).
Proof.
  intros (Hi & Ho & Hp & E) Hn. pose proof (sizeof_pos t).
  split_and!; try done; [rewrite lenZ_takeZ; lia|].
  rewrite <- E. unfold subZ, takeZ, dropZ. rewrite skipn_firstn_comm, take_take. f_equal. lia.
Qed.

(** The next assignment to a member in the goal, with what was known of the message. *)
Ltac set_next p' :=
  match goal with
  | |- context [set_member ?l ?m 0 ?v ?p] =>
    let t := eval vm_compute in (member_type l m) in
    let o := eval vm_compute in (offsetof l m 0) in
    match t with
    | Some ?t =>
      let E := fresh in let Hl := fresh "Hlen" in let Hk := fresh in let Hb := fresh in let Hh := fresh "Hat" in
      destruct (set_holds l m v p t o eq_refl eq_refl eq_refl) as (p' & E & Hl & Hh & Hk & Hb);
        [lia|cbn [sizeof]; lia|];
      rewrite E; cbn [mbind option_bind]; clear E;
      repeat match goal with
      | H : holds_at _ _ _ p |- _ => apply Hk in H; [|cbn [sizeof]; lia]
      end;
      repeat match goal with H : Forall byte p |- _ => apply Hb in H end;
      clear Hk Hb
    end
  end.

(** The next read of a member in the goal, with the value known for it. *)
Ltac get_next :=
  match goal with
  | |- context [get_member ?l ?m 0 ?p] =>
    let t := eval vm_compute in (member_type l m) in
    let o := eval vm_compute in (offsetof l m 0) in
    match t with
    | Some ?t =>
      match goal with
      | H : holds_at o t ?v p |- _ =>
        rewrite (get_holds l m p t o v eq_refl eq_refl H); cbn [mbind option_bind assigned]
      end
    end
  end.

(** A member with a value is there. *)
Lemma get_inv l m i p t o v : get_member l m i p = Some v -> member_type l m = Some t ->
  offsetof l m i = o -> int_type t = true -> 0 <= o ->
  o + sizeof t <= lenZ p /\ (Forall byte p -> in_range t v).
Proof.
  intros E Ht Eo Hi Ho. assert (o + sizeof t <= lenZ p) as Hp.
  { unfold get_member in E. rewrite Ht in E. cbn [mbind option_bind] in E. rewrite Eo in E.
    unfold take_exact in E. rewrite lenZ_dropZ in E. pose proof (sizeof_pos t).
    destruct ((0 <=? sizeof t) && (sizeof t <=? _)) eqn:C; [|done]. lia. }
  split; [done|]. destruct (get_ok l m i p t o) as (v' & E' & Hv); [done..|].
  rewrite E in E'. by injection E' as ->.
Qed.

(** The same for a member of which only the range is known. *)
Ltac get_some m v Hv :=
  match goal with
  | |- context [get_member ?l m ?i ?p] =>
    let t := eval vm_compute in (member_type l m) in
    let o := eval vm_compute in (offsetof l m i) in
    match t with
    | Some ?t =>
      let E := fresh "Eget" in
      destruct (get_ok l m i p t o eq_refl eq_refl eq_refl) as (v & E & Hv);
        [lia|cbn [sizeof]; lia|];
      rewrite E; cbn [mbind option_bind]
    end
  end.

(** ** Packed messages *)

(** The sizes of the messages without data behind them. *)
Definition plain_sizes : list (Z * Z) :=
  [(MSG_REQ_RESET, 10); (MSG_RESET_RESP, 14); (MSG_REQ_UPDATE, 36); (MSG_UPDATE_RESP, 14);
   (MSG_REQ_RESEND_CHUNK, 14); (MSG_UPDATE_DONE, 12); (MSG_REQ_VERSION_INFO, 9);
   (MSG_VERSION_INFO_RESP, 42)].

Lemma msg_type_holds p t : holds_at 4 U32 t p -> msg_type p = Some (u32 t).
Proof. intros H. unfold msg_type. by get_next. Qed.

Lemma target_holds p t : holds_at 0 U32 t p -> target_device p = Some (u32 t).
Proof. intros H. unfold target_device. by get_next. Qed.

Lemma plain_payload p t n : In (t, n) plain_sizes -> holds_at 4 U32 t p ->
  fwUpdate_getPayloadSize p false = Some n /\ aux_data_of p = Some (0, None) /\ 9 <= n <= 42.
Proof.
  intros Hin H. unfold fwUpdate_getPayloadSize, aux_data_of. rewrite (msg_type_holds p t H).
  repeat (destruct Hin as [[= <- <-]|Hin]; [split_and!; [vm_compute; reflexivity..|lia|lia]|]).
  destruct Hin.
Qed.

Lemma takeZ_updZ_0 (bs l : list Z) : lenZ bs <= lenZ l -> takeZ (lenZ bs) (updZ 0 bs l) = bs.
Proof.
  intros H. replace (lenZ bs) with (0 + lenZ bs) by lia. pose proof (lenZ_nonneg bs).
  rewrite takeZ_updZ by lia. by rewrite takeZ_0.
Qed.

(** A message without data is put in front of the buffer. *)
Lemma pack_plain buffer p aux t n :
  lenZ buffer = FWUPDATE__MAX_PAYLOAD_SIZE -> lenZ p = 42 -> In (t, n) plain_sizes ->
  holds_at 4 U32 t p ->
  exists buffer', fwUpdate_packPayload buffer FWUPDATE__MAX_PAYLOAD_SIZE p aux = Some (buffer', n) /\
    lenZ buffer' = FWUPDATE__MAX_PAYLOAD_SIZE /\ takeZ n buffer' = takeZ n p /\
    (Forall byte buffer -> Forall byte p -> Forall byte buffer').
Proof.
  intros Hb Hp Hin Ht. destruct (plain_payload p t n Hin Ht) as (E & Ea & Hn).
  unfold fwUpdate_packPayload. rewrite E. cbn [mbind option_bind].
  unfold FWUPDATE__MAX_PAYLOAD_SIZE, FWUPDATE__MAX_CHUNK_SIZE in *.
  rewrite (proj2 (Z.ltb_ge _ _)), (proj2 (Z.eqb_neq n 0)) by lia.
  rewrite memcpy_ok by lia. cbn [mbind option_bind]. rewrite Ea. cbn [mbind option_bind].
  assert (lenZ (takeZ n p) = n) as Hl by (rewrite lenZ_takeZ; lia).
  exists (updZ 0 (takeZ n p) buffer). split_and!.
  - destruct aux; cbn [Z.ltb Z.compare mbind option_bind]; by rewrite Z.add_0_r.
  - rewrite lenZ_updZ_in; lia.
  - rewrite <- Hl at 1. apply takeZ_updZ_0. lia.
  - intros Hbb Hpb. apply bytes_updZ; [by apply Forall_take|done].
Qed.
