(* ===== verification/FirmwareProps.v ===== *)
(** * What a device keeps while it answers

    The memory of a device, and the functions that send a message without a change of
    the session or the image. *)

From stdpp Require Import strings.
From S2P Require Import Prelude CommTx CommTxProps Layouts Md5 Md5Props.
From S2P Require Import FirmwareTypes FirmwareUpdate FirmwareMessages.
Import FirmwareUpdate.
#[local] Open Scope string_scope.
#[local] Open Scope list_scope.
#[local] Open Scope Z_scope.

(** ** What a device keeps *)

(** The image a device has in its flash memory: [written] are the bytes written since the
    update began, [accepted] the image that was first declared complete.  A chunk that is
    written without error is appended. *)
Class flash_device (St : Type) `{!device_functions St} := {
  written : St -> list Z;
  accepted : St -> option (list Z);
  keeps s s' := written s' = written s /\ accepted s' = accepted s;
  flash_wire t bytes s : keeps s (fst (fwUpdate_writeToWire t bytes s));
  flash_time s : keeps s (fst (current_timeMs s));
  flash_reset t f s : keeps s (fst (fwUpdate_performReset t f s));
  flash_version t s : keeps s (fst (fst (fwUpdate_queryVersionInfo t s)));
  flash_version_bytes t s :
    lenZ (snd (fst (fwUpdate_queryVersionInfo t s))) = sizeof_layout dev_info_layout;
  flash_step t r s : keeps s (fst (fwUpdate_device_step t r s));
  flash_start p s : let r := fwUpdate_startUpdate p s in
    NOT_STARTED < snd r -> written (fst r) = [] /\ accepted (fst r) = None;
  flash_write t slot data s : let r := fwUpdate_writeImageChunk t slot (lenZ (written s)) data s in
    accepted (fst r) = accepted s /\
    written (fst r) = (if snd r <? NOT_STARTED then written s else written s ++ data);
  flash_finish t slot f s : let r := fwUpdate_finishUpdate t slot f s in
    written (fst r) = written s /\ accepted (fst r) = Some (written s)
}.

Section Unchanged.
Context {St : Type} `{Hfl : flash_device St}.
Context (stack : list Z) (Hstack : lenZ stack = 42).
Implicit Types e : dev_env (St := St).

(** The members of a device that only a request or an accepted chunk changes. *)
Definition core e : fw_device :=
  FwDevice (set_build_buffer [] (set_last_message 0 (dv_base (dv e)))) (progress_interval (dv e)) 0
    (last_chunk_id (dv e)).

Definition same e e' : Prop :=
  core e' = core e /\ lenZ (build_buffer (base e')) = lenZ (build_buffer (base e)) /\
  keeps (dv_st e) (dv_st e').

#[export] Instance same_refl : Reflexive same.
Proof. by intros e. Qed.
#[export] Instance same_trans : Transitive same.
Proof. intros e1 e2 e3 (C1 & B1 & W1 & A1) (C2 & B2 & W2 & A2). repeat split; congruence. Qed.

(** Equal cores have equal sessions. *)
Lemma same_field {A} (f : fw_device -> A) e e' :
  (forall d, f d = f (FwDevice (set_build_buffer [] (set_last_message 0 (dv_base d)))
                        (progress_interval d) 0 (last_chunk_id d))) ->
  same e e' -> f (dv e') = f (dv e).
Proof.
  intros Hf (Hc & _). unfold core in Hc. rewrite (Hf (dv e')), (Hf (dv e)). by rewrite Hc.
Qed.

Definition buffer_ok e : Prop := lenZ (build_buffer (base e)) = FWUPDATE__MAX_PAYLOAD_SIZE.

Lemma same_buffer e e' : same e e' -> buffer_ok e -> buffer_ok e'.
Proof. intros (_ & H & _). unfold buffer_ok. congruence. Qed.

Lemma to_host_ok t : exists p, to_host stack t = Some p /\ lenZ p = 42 /\
  holds_at 0 U32 TARGET_HOST p /\ holds_at 4 U32 t p.
Proof.
  unfold to_host. set_next p1. set_next p2. exists p2. split; [done|]. split; [lia|]. by split.
Qed.

Lemma dev_send_same p t n aux e : buffer_ok e -> lenZ p = 42 -> In (t, n) plain_sizes ->
  holds_at 0 U32 TARGET_HOST p -> holds_at 4 U32 t p ->
  exists e' r, dev_sendPayload p aux e = Some (e', r) /\ same e e'.
Proof.
  intros Hb Hp Hin H0 Ht. unfold dev_sendPayload, fwUpdate_sendPayload.
  destruct (pack_plain _ p aux t n Hb Hp Hin Ht) as (buffer' & -> & Hb' & _).
  cbn [mbind option_bind]. rewrite (target_holds p _ H0). cbn [mbind option_bind].
  destruct (fwUpdate_writeToWire _ _ _) as [s ok] eqn:E. cbn [mbind option_bind].
  eexists _, _. split; [done|]. pose proof (flash_wire (u32 TARGET_HOST) (takeZ n buffer') (dv_st e)) as Hk.
  rewrite E in Hk. repeat split; [|apply Hk..]. cbn. unfold buffer_ok in Hb. lia.
Qed.

Lemma with_st_same {A} (f : St -> St * A) e : keeps (dv_st e) (fst (f (dv_st e))) ->
  exists e' x, with_st f e = (e', x) /\ same e e' /\ x = snd (f (dv_st e)) /\ dv e' = dv e.
Proof.
  intros Hk. unfold with_st. destruct (f (dv_st e)) as [s x]. by exists (DevEnv (dv e) s), x.
Qed.

Lemma time_same e : exists e' now, with_st current_timeMs e = (e', now) /\ same e e'.
Proof.
  destruct (with_st_same current_timeMs e) as (e' & x & E & Hs & _); [apply flash_time|]. by exists e', x.
Qed.

Lemma report_time_same x e :
  same e (with_dv (fun d => set_nextProgressReport (u32 (x + progress_interval d)) d) e).
Proof. by repeat split. Qed.

Lemma pack_progress buffer p text :
  lenZ buffer = FWUPDATE__MAX_PAYLOAD_SIZE -> lenZ p = 42 -> lenZ text < 255 ->
  holds_at 4 U32 MSG_UPDATE_PROGRESS p -> holds_at 17 U8 (lenZ text) p ->
  exists buffer', fwUpdate_packPayload buffer FWUPDATE__MAX_PAYLOAD_SIZE p (Some (text ++ [0])) =
      Some (buffer', 18 + lenZ text) /\
    lenZ buffer' = FWUPDATE__MAX_PAYLOAD_SIZE /\ takeZ 18 buffer' = takeZ 18 p.
Proof.
  intros Hb Hp Htext Ht Hlen. pose proof (lenZ_nonneg text).
  assert (fwUpdate_getPayloadSize p false = Some 18) as E
    by (unfold fwUpdate_getPayloadSize; rewrite (msg_type_holds p _ Ht); vm_compute; reflexivity).
  assert (aux_data_of p = Some (lenZ text, Some 18)) as Ea.
  { unfold aux_data_of. rewrite (msg_type_holds p _ Ht). cbn [mbind option_bind].
    change (u32 MSG_UPDATE_PROGRESS =? MSG_UPDATE_CHUNK) with false.
    change (u32 MSG_UPDATE_PROGRESS =? MSG_UPDATE_PROGRESS) with true. cbv iota. get_next.
    unfold u8. by rewrite Z.mod_small by lia. }
  unfold fwUpdate_packPayload. rewrite E. cbn [mbind option_bind].
  unfold FWUPDATE__MAX_PAYLOAD_SIZE, FWUPDATE__MAX_CHUNK_SIZE in *.
  change (512 + 92 <? 18) with false. change (18 =? 0) with false. cbv iota.
  rewrite memcpy_ok by lia. cbn [mbind option_bind]. rewrite Ea. cbn [mbind option_bind].
  assert (lenZ (takeZ 18 p) = 18) as Hl by (rewrite lenZ_takeZ; lia).
  assert (takeZ 18 (updZ 0 (takeZ 18 p) buffer) = takeZ 18 p) as E0
    by (rewrite <- Hl at 1; apply takeZ_updZ_0; lia).
  destruct (Z.ltb_spec 0 (lenZ text)).
  - rewrite memcpy_ok; [|rewrite lenZ_app; change (lenZ [0]) with 1; lia|lia|rewrite lenZ_updZ_in; lia].
    cbn [mbind option_bind]. eexists. split; [done|].
    set (aux := takeZ (lenZ text) (text ++ [0])).
    assert (lenZ aux = lenZ text) as Ha
      by (unfold aux; rewrite lenZ_takeZ, lenZ_app; change (lenZ [0]) with 1; lia).
    split; [rewrite !lenZ_updZ_in; rewrite ?lenZ_updZ_in; lia|].
    pose proof (subZ_updZ_other 18 aux (updZ 0 (takeZ 18 p) buffer) 0 18) as Ho.
    unfold subZ in Ho. rewrite !dropZ_0 in Ho.
    transitivity (takeZ 18 (updZ 0 (takeZ 18 p) buffer)); [apply Ho|exact E0];
      rewrite ?lenZ_updZ_in; lia.
  - cbn [mbind option_bind]. eexists. split; [done|]. split; [rewrite lenZ_updZ_in; lia|done].
Qed.

Lemma sendProgressFormatted_same level message e : buffer_ok e ->
  exists e' r, fwUpdate_sendProgressFormatted stack level message e = Some (e', r) /\ same e e'.
Proof.
  intros Hb. unfold fwUpdate_sendProgressFormatted.
  destruct ((session_id (base e) =? 0) || _); [by exists e, false|]. set (text := default [] message).
  destruct (Z.leb_spec (256 - 1) (lenZ text)); [by exists e, false|].
  destruct (to_host_ok MSG_UPDATE_PROGRESS) as (p & -> & Hp & H0 & H4). cbn [mbind option_bind].
  set_next p1. set_next p2. set_next p3. set_next p4. set_next p5. set_next p6. set_next p7.
  destruct (pack_progress (build_buffer (base e)) p7 text) as (buffer' & -> & Hb' & _);
    [done|lia|lia|done|done|].
  cbn [mbind option_bind].
  destruct (with_st_same (fwUpdate_writeToWire TARGET_HOST (takeZ (18 + lenZ text) buffer'))
    (with_base (set_build_buffer buffer') e)) as (e' & x & -> & Hs & _); [apply flash_wire|].
  exists e', x. split; [done|]. etrans; [|exact Hs]. repeat split. cbn. unfold buffer_ok in Hb. lia.
Qed.

Lemma sendProgress_same e : buffer_ok e ->
  exists e' r, fwUpdate_sendProgress stack e = Some (e', r) /\ same e e'.
Proof.
  intros Hb. unfold fwUpdate_sendProgress. destruct (time_same e) as (e1 & now & -> & H1).
  pose proof (report_time_same now e1) as H2. set (e2 := with_dv _ e1) in *.
  destruct (sendProgressFormatted_same 99 None e2) as (e' & r & E & H3);
    [exact (same_buffer _ _ H2 (same_buffer _ _ H1 Hb))|].
  exists e', r. split; [done|]. exact (same_trans _ _ _ (same_trans _ _ _ H1 H2) H3).
Qed.

Lemma report_same e : buffer_ok e -> exists e', dev_report stack e = Some e' /\ same e e'.
Proof.
  intros Hb. unfold dev_report. destruct (0 <? progress_interval (dv e)); [|by exists e].
  destruct (time_same e) as (e1 & now & -> & H1).
  destruct (nextProgressReport (dv e1) <? now); [|by exists e1].
  destruct (time_same e1) as (e2 & now2 & -> & H2).
  pose proof (report_time_same now2 e2) as H3. set (e3 := with_dv _ e2) in *.
  pose proof (same_trans _ _ _ (same_trans _ _ _ H1 H2) H3) as H.
  destruct (sendProgress_same e3) as (e' & r & -> & H4); [by eapply same_buffer|].
  exists e'. split; [done|]. exact (same_trans _ _ _ H H4).
Qed.

Lemma sendRetry_same reason e : buffer_ok e ->
  exists e' r, fwUpdate_sendRetry stack reason e = Some (e', r) /\ same e e'.
Proof.
  intros Hb. unfold fwUpdate_sendRetry.
  destruct (to_host_ok MSG_REQ_RESEND_CHUNK) as (p & -> & Hp & H0 & H4). cbn [mbind option_bind].
  set_next p1. set_next p2. set_next p3.
  apply (dev_send_same p3 MSG_REQ_RESEND_CHUNK 14); [done|lia| |done|done]. cbn. tauto.
Qed.

Lemma sendDone_same e : buffer_ok e ->
  exists e' r, fwUpdate_sendDone stack (session_status (base e)) false false e = Some (e', r) /\
    same e e'.
Proof.
  intros Hb. unfold fwUpdate_sendDone.
  destruct (to_host_ok MSG_UPDATE_DONE) as (p & -> & Hp & H0 & H4). cbn [mbind option_bind].
  set_next p1. set_next p2. set (e1 := with_base _ e).
  assert (same e e1) as H1 by (destruct e as [[[] ? ? ?] ?]; by repeat split).
  destruct (dev_send_same p2 MSG_UPDATE_DONE 12 None e1) as (e' & r & -> & H2);
    [by eapply same_buffer|lia|cbn; tauto|done|done|].
  cbn [mbind option_bind]. exists e', true. split; [done|]. by etrans.
Qed.

Lemma handleReset_same p flags e : buffer_ok e -> msg_type p = Some MSG_REQ_RESET ->
  get_member (payload req_reset_t) "reset_flags" 0 p = Some flags ->
  exists e' r, fwUpdate_handleReset stack p e = Some (e', r) /\ same e e'.
Proof.
  intros Hb Ht Hf. unfold fwUpdate_handleReset. rewrite Ht. cbn [mbind option_bind].
  change (MSG_REQ_RESET =? MSG_REQ_RESET) with true. cbn [negb].
  destruct (to_host_ok MSG_RESET_RESP) as (m & -> & Hp & H0 & H4). cbn [mbind option_bind].
  destruct (dev_send_same m MSG_RESET_RESP 14 None e) as (e1 & r & -> & H1);
    [done|lia|cbn; tauto|done|done|].
  cbn [mbind option_bind]. rewrite Hf. cbn [mbind option_bind].
  destruct (with_st_same (fwUpdate_performReset (session_target (base e1)) flags) e1)
    as (e2 & x & -> & H2 & _); [apply flash_reset|].
  eexists _, _. split; [done|]. by etrans.
Qed.

(** The members copied are members of both structures, behind the header. *)
Definition copy_ok (x : string * string * Z) : bool :=
  let '(m, m', i) := x in
  match member_type (payload version_resp_t) m, member_type dev_info_layout m' with
  | Some t, Some t' =>
    let o := offsetof (payload version_resp_t) m i in
    let o' := offsetof dev_info_layout m' i in
    int_type t && int_type t' && (8 <=? o) && (o + sizeof t <=? 42) && (0 <=? o') &&
    (o' + sizeof t' <=? sizeof_layout dev_info_layout)
  | _, _ => false
  end.

Lemma copy_members_ok l info : forallb copy_ok l = true -> lenZ info = sizeof_layout dev_info_layout ->
  forall p, lenZ p = 42 -> exists p', copy_members l info p = Some p' /\ lenZ p' = 42 /\
    forall o t v, holds_at o t v p -> o + sizeof t <= 8 -> holds_at o t v p'.
Proof.
  intros Hl Hi. induction l as [|[[m m'] i] l IH]; intros p Hp; [by exists p|].
  cbn [forallb] in Hl. apply andb_prop in Hl as [Hx Hl]. unfold copy_ok in Hx.
  destruct (member_type (payload version_resp_t) m) as [t|] eqn:E; [|done].
  destruct (member_type dev_info_layout m') as [t'|] eqn:E'; [|done].
  rewrite !andb_true_iff, !Z.leb_le in Hx. destruct Hx as (((((Hit & Hit') & Ho) & Hot) & Ho') & Hot').
  cbn [copy_members].
  destruct (get_ok dev_info_layout m' i info t' _ E' eq_refl) as (v & -> & _); [done|lia|lia|].
  cbn [mbind option_bind]. unfold set_member at 1. rewrite E. cbn [mbind option_bind].
  rewrite (proj2 (Z.leb_le _ _)) by lia. cbn [mbind option_bind].
  pose proof (lenZ_encode t v Hit) as Hlen. pose proof (sizeof_pos t).
  destruct (IH Hl (updZ (offsetof (payload version_resp_t) m i) (encode t v) p)) as (p' & Ep & Hp' & Hk);
    [rewrite lenZ_updZ; lia|].
  exists p'. split_and!; [done..|]. intros o0 t0 v0 (Hi0 & Ho0 & Hp0 & E0) Hlt. apply Hk; [|done].
  pose proof (sizeof_pos t0). split_and!; [done..|rewrite lenZ_updZ; lia|].
  rewrite subZ_updZ_other by lia. done.
Qed.

Lemma version_same p e : buffer_ok e -> msg_type p = Some MSG_REQ_VERSION_INFO -> 8 <= lenZ p ->
  exists e' r, fwUpdate_handleVersionInfo stack p e = Some (e', r) /\ same e e'.
Proof.
  intros Hb Ht Hp. unfold fwUpdate_handleVersionInfo. rewrite Ht. cbn [mbind option_bind].
  change (MSG_REQ_VERSION_INFO =? MSG_REQ_VERSION_INFO) with true. cbn [negb].
  unfold target_device.
  get_some "target_device" target Htarget.
  pose proof (flash_version target (dv_st e)) as Hk.
  pose proof (flash_version_bytes target (dv_st e)) as Hl.
  destruct (fwUpdate_queryVersionInfo target (dv_st e)) as [[s devInfo] known]. cbn [fst snd] in Hk, Hl.
  set (info := if known : bool then _ else _).
  assert (lenZ info = sizeof_layout dev_info_layout) as Hi by (unfold info; by destruct known).
  clearbody info.
  destruct (to_host_ok MSG_VERSION_INFO_RESP) as (m & -> & Hm & H0 & H4). cbn [mbind option_bind].
  set_next m1.
  destruct (copy_members_ok version_members info eq_refl Hi m1) as (m2 & E & Hm2 & Hk2); [lia|].
  rewrite E. cbn [mbind option_bind].
  destruct (dev_send_same m2 MSG_VERSION_INFO_RESP 42 None (DevEnv (dv e) s)) as (e' & r & -> & H);
    [done|lia|cbn; tauto|apply Hk2; [done|cbn; lia]|apply Hk2; [done|cbn; lia]|].
  exists e', r. split; [done|]. etrans; [|exact H]. repeat split; apply Hk.
Qed.

End Unchanged.
