(* ===== verification/FirmwareIntegrity.v ===== *)
(** * The integrity of a received image

    A device that received a request keeps, whatever messages follow, the chunks in
    order; it accepts an image only with the digest of the request. *)

From stdpp Require Import strings.
From S2P Require Import Prelude CommTx Layouts Md5 Md5Props.
From S2P Require Import FirmwareTypes FirmwareUpdate FirmwareChunks FirmwareMessages FirmwareProps.
Import FirmwareUpdate.
#[local] Open Scope string_scope.
#[local] Open Scope list_scope.
#[local] Open Scope Z_scope.

(** All the bytes of the message are there. *)
Definition complete (p : list Z) : Prop :=
  Forall byte p /\ 8 <= lenZ p /\ exists n, fwUpdate_getPayloadSize p true = Some n /\ n <= lenZ p.

(** The chunk [id] of the session [sid] with its data. *)
Definition chunk_of (sid : Z) (p : list Z) (id : Z) (data : list Z) : Prop :=
  msg_type p = Some MSG_UPDATE_CHUNK /\ get_member (payload chunk_t) "session_id" 0 p = Some sid /\
  get_member (payload chunk_t) "chunk_id" 0 p = Some id /\
  get_member (payload chunk_t) "data_len" 0 p = Some (lenZ data) /\
  get_bytes (payload chunk_t) "data" (lenZ data) p = Some data.

(** A request for an image. *)
Definition request_of (sid cs size : Z) (md5 : md5hash_t) (p : list Z) : Prop :=
  complete p /\ msg_type p = Some MSG_REQ_UPDATE /\
  get_member (payload req_update_t) "session_id" 0 p = Some sid /\
  get_member (payload req_update_t) "file_size" 0 p = Some size /\
  get_member (payload req_update_t) "chunk_size" 0 p = Some cs /\
  exists bytes, get_bytes (payload req_update_t) "md5_hash" 16 p = Some bytes /\
    Md5.hash_of_bytes bytes = md5.

(** The length of a chunk. *)
Definition chunk_len (cs size total id : Z) : Z :=
  if id =? total - 1 then size - (total - 1) * cs else cs.

(** ** Buffers *)

Lemma encode_decode_U32 bs v : Forall byte bs -> decode U32 bs = Some v -> encode U32 v = bs.
Proof.
  intros Hb. destruct bs as [|b0 [|b1 [|b2 [|b3 [|]]]]]; try done. cbn [decode]. intros [= <-].
  repeat (apply Forall_cons_1 in Hb as [? Hb]). unfold encode, le32_bytes, le16, u32, byte in *.
  repeat f_equal; zlia.
Qed.

Lemma msg_type_inv p t : Forall byte p -> msg_type p = Some t -> holds_at 4 U32 t p.
Proof.
  intros Hb Ht. destruct (get_inv _ _ _ _ U32 4 t Ht eq_refl eq_refl eq_refl) as [Hp _]; [lia|].
  cbn [sizeof] in Hp. split_and!; [done|lia|done|]. unfold msg_type, get_member in Ht.
  cbn [mbind option_bind] in Ht. change (offsetof (payload []) "msg_type" 0) with 4 in Ht.
  change (member_type (payload []) "msg_type") with (Some U32) in Ht. cbn [mbind option_bind] in Ht.
  rewrite take_exact_ok in Ht by (rewrite lenZ_dropZ; cbn [sizeof]; lia). cbn [mbind option_bind] in Ht.
  symmetry. apply encode_decode_U32; [|exact Ht]. unfold takeZ, dropZ. by apply Forall_take, Forall_drop.
Qed.

(** A complete message of a known type is where the buffer is, unchanged. *)
Lemma map_complete p t : complete p -> msg_type p = Some t -> 0 < t < 65536 ->
  In t [MSG_UPDATE_CHUNK; MSG_UPDATE_PROGRESS] \/ (exists n, In (t, n) plain_sizes) ->
  exists aux n, fwUpdate_mapBufferToPayload p = Some (p, aux, n) /\ 0 < n.
Proof.
  intros (Hb & Hp & m & Em & Hm) Ht Hr Hty. unfold fwUpdate_mapBufferToPayload. rewrite Ht.
  cbn [mbind option_bind]. pose proof (msg_type_inv p t Hb Ht) as (_ & _ & Hp4 & E4).
  cbn [sizeof] in Hp4, E4.
  assert (Z.land t 0xFFFF = t) as ->
    by (change 0xFFFF with (Z.ones 16); rewrite Z.land_ones, Z.mod_small; lia).
  assert (set_member (payload []) "msg_type" 0 t p = Some p) as ->.
  { unfold set_member. change (member_type (payload []) "msg_type") with (Some U32).
    change (offsetof (payload []) "msg_type" 0) with 4. cbn [mbind option_bind sizeof].
    rewrite (proj2 (Z.leb_le _ _)) by lia. f_equal. rewrite <- E4. unfold updZ.
    rewrite lenZ_subZ. replace (4 + Z.max 0 (Z.min 4 (Z.max 0 (lenZ p - Z.max 0 4)))) with (4 + 4) by lia.
    rewrite app_assoc, takeZ_subZ by lia. unfold takeZ, dropZ. apply take_drop. }
  cbn [mbind option_bind]. destruct Hty as [Hty|[n Hin]].
  - unfold fwUpdate_getPayloadSize in Em |- *. unfold aux_data_of. rewrite Ht in Em |- *.
    cbn [mbind option_bind] in Em |- *. destruct Hty as [<-|[<-|[]]].
    + destruct (get_member (payload chunk_t) "data_len" 0 p) as [len|] eqn:El; [|done].
      destruct (get_inv _ _ _ _ U16 12 len El eq_refl eq_refl eq_refl) as [_ Hlen]; [lia|].
      specialize (Hlen Hb). cbn in Hlen. eexists _, _. split; [reflexivity|].
      change (sizeof_hdr + sizeof_layout chunk_t) with 15. lia.
    + destruct (get_member (payload progress_t) "msg_len" 0 p) as [len|] eqn:El; [|done].
      destruct (get_inv _ _ _ _ U8 17 len El eq_refl eq_refl eq_refl) as [_ Hlen]; [lia|].
      specialize (Hlen Hb). cbn in Hlen. eexists _, _. split; [reflexivity|].
      change (sizeof_hdr + sizeof_layout progress_t) with 19. lia.
  - destruct (plain_payload p t n Hin (msg_type_inv p t Hb Ht)) as (-> & -> & Hn).
    cbn [mbind option_bind]. eexists _, _. split; [reflexivity|]. lia.
Qed.

Section Buffers.
Context {St : Type} `{!device_functions St} (stack : list Z).
Implicit Types e : dev_env (St := St).

(** A message in a buffer is processed as it is. *)
Lemma processBuffer_ok p t len e : complete p -> msg_type p = Some t -> 0 < t < 65536 ->
  In t [MSG_UPDATE_CHUNK; MSG_UPDATE_PROGRESS] \/ (exists n, In (t, n) plain_sizes) ->
  dev_processBuffer stack p len e = dev_processMessage stack p e.
Proof.
  intros Hp Ht Hr Hty. unfold dev_processBuffer.
  destruct (map_complete p t Hp Ht Hr Hty) as (aux & n & -> & Hn). cbn [mbind option_bind].
  by rewrite (proj2 (Z.leb_gt _ _)).
Qed.

Lemma chunk_buffer sid m id data e : complete m -> chunk_of sid m id data ->
  dev_processBuffer stack m (lenZ m) e = dev_processMessage stack m e.
Proof. intros Hm [Ht _]. by apply (processBuffer_ok m MSG_UPDATE_CHUNK _ e Hm Ht); [|left; left]. Qed.

Lemma request_buffer sid cs size md5 m e : request_of sid cs size md5 m ->
  dev_processBuffer stack m (lenZ m) e = dev_processMessage stack m e.
Proof.
  intros [Hm [Ht _]]. 
  apply (processBuffer_ok m MSG_REQ_UPDATE _ e Hm Ht); [done|right; exists 36; cbn; tauto].
Qed.
End Buffers.

Section Integrity.
Context {St : Type} `{Hfl : flash_device St}.
Context (stack : list Z) (Hstack : lenZ stack = 42).
Context (tgt sid cs size total : Z) (md5 : md5hash_t).
Context (Hcs : 0 < cs < 65536) (Hsize : 0 < size < 16777216).
Context (Htotal : total_chunks size cs = Some total).
Implicit Types e : dev_env (St := St).

Lemma total_range : 0 < total < 65536 /\ (total - 1) * cs < size <= total * cs.
Proof. by destruct (total_chunks_exact size cs total Hsize Hcs Htotal) as (_ & ? & ?). Qed.

(** The session of the request. *)
Definition session e : Prop :=
  session_target (base e) = tgt /\ session_id (base e) = sid /\ session_chunk_size (base e) = cs /\
  session_image_size (base e) = size /\ session_total_chunks (base e) = total /\
  session_md5 (base e) = md5 /\ buffer_ok e.

(** The chunks up to the last one are in the memory, and in the digest. *)
Definition receiving e : Prop :=
  session e /\ -1 <= last_chunk_id (dv e) < total - 1 /\
  lenZ (written (dv_st e)) = (last_chunk_id (dv e) + 1) * cs /\
  running (md5Context (base e)) (written (dv_st e)) /\ accepted (dv_st e) = None.

(** The image is there: it is accepted if its digest is that of the request. *)
Definition finished e : Prop :=
  session e /\ lenZ (md5_buffer (md5Context (base e))) = 64 /\
  last_chunk_id (dv e) = total - 1 /\ lenZ (written (dv_st e)) = size /\
  (md5_spec (written (dv_st e)) = md5 /\ accepted (dv_st e) = Some (written (dv_st e)) \/
   md5_spec (written (dv_st e)) <> md5 /\ accepted (dv_st e) = None /\
   session_status (base e) = ERR_CHECKSUM_MISMATCH).

Lemma same_session e e' : same e e' -> session e -> session e'.
Proof.
  intros H (H0 & H1 & H2 & H3 & H4 & H5 & H6). unfold session, base in *.
  rewrite <- (same_field (fun d => session_target (dv_base d)) e e') in H0 by done.
  rewrite <- (same_field (fun d => session_id (dv_base d)) e e') in H1 by done.
  rewrite <- (same_field (fun d => session_chunk_size (dv_base d)) e e') in H2 by done.
  rewrite <- (same_field (fun d => session_image_size (dv_base d)) e e') in H3 by done.
  rewrite <- (same_field (fun d => session_total_chunks (dv_base d)) e e') in H4 by done.
  rewrite <- (same_field (fun d => session_md5 (dv_base d)) e e') in H5 by done.
  pose proof (same_buffer _ _ H H6). by split_and!.
Qed.

Lemma same_last e e' : same e e' -> last_chunk_id (dv e') = last_chunk_id (dv e).
Proof. by apply (same_field last_chunk_id). Qed.

Lemma same_context e e' : same e e' -> md5Context (base e') = md5Context (base e).
Proof. by apply (same_field (fun d => md5Context (dv_base d))). Qed.

Lemma same_target e e' : same e e' -> session_target (base e') = session_target (base e).
Proof. by apply (same_field (fun d => session_target (dv_base d))). Qed.

Lemma same_status e e' : same e e' -> session_status (base e') = session_status (base e).
Proof. by apply (same_field (fun d => session_status (dv_base d))). Qed.

Lemma same_receiving e e' : same e e' -> receiving e -> receiving e'.
Proof.
  intros H (Hs & Hl & Hw & Hr & Ha). pose proof H as (_ & _ & Ew & Ea). unfold receiving.
  rewrite (same_last e e' H), (same_context e e' H), Ew, Ea. by split; [eapply same_session|].
Qed.

Lemma same_finished e e' : same e e' -> finished e -> finished e'.
Proof.
  intros H (Hs & Hm & Hl & Hw & Hc). pose proof H as (_ & _ & Ew & Ea). unfold finished.
  rewrite (same_last e e' H), (same_context e e' H), (same_status e e' H), Ew, Ea. by split; [eapply same_session|].
Qed.

(** ** The end of the image *)

Lemma done_same e : buffer_ok e ->
  exists e', (if negb (session_status (base e) =? FINALIZING)
    then '(e, _) ← fwUpdate_sendDone stack (session_status (base e)) false false e; Some e
    else Some e) = Some e' /\ same e e'.
Proof.
  intros Hb. destruct (session_status (base e) =? FINALIZING); [by exists e|]. cbn [negb].
  destruct (sendDone_same stack Hstack e Hb) as (e' & r & -> & H). by exists e'.
Qed.

Lemma finish_image_ok e : session e -> last_chunk_id (dv e) = total - 1 ->
  lenZ (written (dv_st e)) = size -> running (md5Context (base e)) (written (dv_st e)) ->
  accepted (dv_st e) = None ->
  exists e', finish_image stack e = Some e' /\ finished e' /\ written (dv_st e') = written (dv_st e).
Proof.
  intros Hs Hl Hw Hr Ha. unfold finish_image.
  destruct (sendProgress_same stack Hstack e) as (e1 & r & -> & H1); [apply Hs|].
  cbn [mbind option_bind]. pose proof H1 as (_ & _ & Ew & Ea).
  pose proof (same_session _ _ H1 Hs) as Hs1. pose proof (same_last _ _ H1) as El.
  destruct (Md5Props.md5_final_ok (md5Context (base e1)) (written (dv_st e))) as (ctx & -> & Hctx);
    [by rewrite (same_context _ _ H1)|].
  cbn [mbind option_bind]. set (e2 := with_base (set_md5Context ctx) e1).
  set (e3 := if negb (Md5.md5_matches _ _) then _ else _).
  assert (finished e3 /\ written (dv_st e3) = written (dv_st e)) as [Hf Ew3].
  { assert (session_md5 (base e2) = md5) as E5 by apply Hs1. unfold e3. rewrite E5.
    destruct (Md5.md5_matches md5 (md5_spec (written (dv_st e)))) eqn:Em; cbn [negb].
    - apply md5_matches_eq in Em. unfold with_st.
      pose proof (flash_finish (session_target (base e2)) (session_image_slot (base e2))
        (session_image_flags (base e2)) (dv_st e2)) as Hfin. cbv zeta in Hfin.
      destruct (fwUpdate_finishUpdate _ _ _ _) as [s status]. cbn [fst] in Hfin.
      destruct Hfin as [Efw Efa]. cbn in Efw, Efa. split; [|cbn; congruence].
      split; [exact Hs1|]. split; [exact Hctx|]. split; [cbn; lia|]. split; [cbn; rewrite Efw, Ew; done|].
      left. cbn. rewrite Efw, Efa, Ew. done.
    - split; [|cbn; congruence]. split; [exact Hs1|]. split; [exact Hctx|]. split; [cbn; lia|].
      split; [cbn; rewrite Ew; done|]. right. cbn. rewrite Ew, Ea. split; [|done].
      intros E. rewrite <- E in Em. by rewrite (proj2 (md5_matches_eq _ _) eq_refl) in Em. }
  destruct (done_same e3) as (e' & -> & H); [apply Hf|].
  exists e'. split; [done|]. split; [by eapply same_finished|]. destruct H as (_ & _ & E & _). congruence.
Qed.

(** ** Chunks *)

(** The chunk behind the last one is accepted. *)
Definition grows p e e' : Prop :=
  let id := last_chunk_id (dv e) + 1 in
  exists data, chunk_of sid p id data /\ lenZ data = chunk_len cs size total id /\
    written (dv_st e') = written (dv_st e) ++ data /\ last_chunk_id (dv e') = id /\
    (receiving e' \/ finished e').

Lemma chunk_end id : -1 <= id - 1 < total - 1 ->
  0 < chunk_len cs size total id <= cs /\
  id * cs + chunk_len cs size total id = if id =? total - 1 then size else (id + 1) * cs.
Proof.
  intros Hid. pose proof total_range as [Ht Hb]. unfold chunk_len.
  destruct (Z.eqb_spec id (total - 1)) as [->|]; lia.
Qed.

Lemma expected_size_ok id :
  (if (id =? total - 1) && negb (u16 (size mod cs) =? 0) then u16 (size mod cs) else cs) =
  chunk_len cs size total id.
Proof.
  pose proof total_range as [Ht Hb]. pose proof (Z.mod_pos_bound size cs ltac:(lia)).
  unfold chunk_len, u16. rewrite (Z.mod_small (size mod cs)) by lia.
  pose proof (Z.div_mod size cs ltac:(lia)). destruct (Z.eqb_spec id (total - 1)); [|done].
  set (q := size / cs) in *. destruct (Z.eqb_spec (size mod cs) 0); cbn [andb negb].
  - assert (q = total) as <- by nia. lia.
  - assert (q = total - 1) as <- by nia. lia.
Qed.

Lemma accept_chunk_ok pre id data e : session e -> accepted (dv_st e) = None ->
  -1 <= id - 1 < total - 1 -> lenZ data = chunk_len cs size total id ->
  running (md5Context (base e)) pre -> lenZ pre = id * cs -> written (dv_st e) = pre ++ data ->
  exists e', accept_chunk stack id data e = Some e' /\ last_chunk_id (dv e') = id /\
    written (dv_st e') = pre ++ data /\ (receiving e' \/ finished e').
Proof.
  intros Hs Ha Hid Hd Hr Hw Ew. pose proof total_range as [Ht Hb]. unfold accept_chunk.
  pose proof (chunk_end id Hid) as [Hlen Hend]. rewrite <- Hd in Hlen, Hend.
  set (e1 := with_dv (set_last_chunk_id id) _).
  destruct (md5_update_ok (md5Context (base e1)) _ data (lenZ data) Hr) as (ctx & -> & Hr'); [lia..|].
  cbn [mbind option_bind]. rewrite takeZ_all, <- Ew in Hr' by lia.
  set (e2 := with_base (set_md5Context ctx) e1).
  assert (session e2) as Hs2 by apply Hs.
  assert (lenZ (written (dv_st e2)) = if id =? total - 1 then size else (id + 1) * cs) as Hl.
  { change (dv_st e2) with (dv_st e). rewrite Ew, lenZ_app, Hw. exact Hend. }
  assert (session_total_chunks (base e2) = total) as -> by apply Hs.
  change (last_chunk_id (dv e2)) with id. destruct (Z.leb_spec (total - 1) id) as [Hge|Hlt].
  - rewrite (proj2 (Z.eqb_eq _ _)) in Hl by lia.
    destruct (finish_image_ok e2) as (e' & -> & Hf & E); [done|cbn; lia|done..|].
    exists e'. split_and!; [done|destruct Hf as (_ & _ & ? & _); lia|by rewrite E|by right].
  - exists e2. split_and!; [done..|]. left. rewrite (proj2 (Z.eqb_neq _ _)) in Hl by lia.
    split; [done|]. split; [cbn; lia|]. split; [exact Hl|]. by split.
Qed.

Lemma retry_same reason e : buffer_ok e ->
  exists e', ('(e', _) ← fwUpdate_sendRetry stack reason e; Some (e', false)) = Some (e', false) /\
    same e e'.
Proof.
  intros Hb. destruct (sendRetry_same stack Hstack reason e Hb) as (e' & r & -> & H). by exists e'.
Qed.

(** The chunk that is due is written, and accepted unless the write fails. *)
Lemma handleChunk_next p t data e : receiving e -> chunk_of sid p (last_chunk_id (dv e) + 1) data ->
  lenZ data = chunk_len cs size total (last_chunk_id (dv e) + 1) -> target_device p = Some t ->
  let r := fwUpdate_writeImageChunk t (session_image_slot (base e)) (lenZ (written (dv_st e))) data
             (dv_st e) in
  exists e', fwUpdate_handleChunk stack p e = Some (e', negb (snd r <? NOT_STARTED)) /\
    if snd r <? NOT_STARTED then same e e' else grows p e e'.
Proof.
  intros (Hs & Hl & Hw & Hr & Ha) Hchunk Hd Et. pose proof Hchunk as (Ht & Esid & Eid & Elen & Edata).
  pose proof total_range as [Ht0 Hb0]. pose proof Hs as (_ & Es & Ec & Ei & Ett & _ & Hbuf).
  set (cid := last_chunk_id (dv e) + 1) in *. unfold fwUpdate_handleChunk.
  rewrite Ht, Esid, Eid, Elen. cbn [mbind option_bind]. rewrite Es, Ec, Ei, Ett.
  fold cid. change (negb (MSG_UPDATE_CHUNK =? MSG_UPDATE_CHUNK)) with false. cbv iota.
  assert (u16 cid = cid) as -> by (unfold u16; rewrite Z.mod_small by lia; done).
  rewrite !Z.eqb_refl. cbn [negb]. rewrite (proj2 (Z.eqb_neq cs 0)) by lia. cbv zeta.
  rewrite expected_size_ok, Hd, Z.eqb_refl. cbn [negb].
  pose proof (chunk_end cid ltac:(lia)) as [Hc1 Hc2].
  assert (cid * cs <= size) by (destruct (cid =? total - 1); nia).
  rewrite (proj2 (Z.ltb_ge _ _)) by lia. rewrite Et. cbn [mbind option_bind]. rewrite <- Hd, Edata.
  cbn [mbind option_bind]. rewrite <- Hw. unfold with_st.
  pose proof (flash_write t (session_image_slot (base e)) data (dv_st e)) as Hfw. cbv zeta in Hfw.
  destruct (fwUpdate_writeImageChunk _ _ _ _ _) as [s status]. cbn [fst snd] in Hfw |- *.
  destruct Hfw as [Efa Efw]. destruct (Z.ltb_spec status NOT_STARTED).
  - destruct (retry_same REASON_WRITE_ERROR (DevEnv (dv e) s) Hbuf) as (e' & -> & H').
    exists e'. split; [done|]. etrans; [|exact H']. by repeat split.
  - destruct (accept_chunk_ok (written (dv_st e)) cid data (DevEnv (dv e) s))
      as (e' & -> & El & Ew & Hout); [done|cbn; congruence|lia|lia|done|lia|done|].
    cbn [mbind option_bind]. exists e'. split; [done|]. exists data. fold cid. by split_and!.
Qed.

(** Another chunk is not. *)
Lemma handleChunk_refused p sid' cid len e : session e -> -1 <= last_chunk_id (dv e) < total ->
  msg_type p = Some MSG_UPDATE_CHUNK ->
  get_member (payload chunk_t) "session_id" 0 p = Some sid' ->
  get_member (payload chunk_t) "chunk_id" 0 p = Some cid ->
  get_member (payload chunk_t) "data_len" 0 p = Some len ->
  (sid' = sid -> cid = last_chunk_id (dv e) + 1 -> len <> chunk_len cs size total cid) ->
  exists e', fwUpdate_handleChunk stack p e = Some (e', false) /\ same e e'.
Proof.
  intros (_ & Es & Ec & Ei & Et & _ & Hbuf) Hl Ht Esid Eid Elen Hbad.
  pose proof total_range as [Ht0 Hb0]. unfold fwUpdate_handleChunk.
  rewrite Ht, Esid, Eid, Elen. cbn [mbind option_bind]. rewrite Es, Ec, Ei, Et.
  change (negb (MSG_UPDATE_CHUNK =? MSG_UPDATE_CHUNK)) with false. cbv iota.
  destruct (Z.eqb_spec sid' sid) as [->|]; cbn [negb]; [|by exists e].
  assert (u16 (last_chunk_id (dv e) + 1) = last_chunk_id (dv e) + 1) as ->
    by (unfold u16; rewrite Z.mod_small by lia; done).
  destruct (Z.eqb_spec cid (last_chunk_id (dv e) + 1)) as [Eid'|]; cbn [negb];
    [|by apply retry_same].
  rewrite (proj2 (Z.eqb_neq cs 0)) by lia. cbv zeta. rewrite expected_size_ok.
  rewrite (proj2 (Z.eqb_neq _ _)) by (by apply Hbad). cbn [negb]. by apply retry_same.
Qed.

Lemma chunk_members p : complete p -> msg_type p = Some MSG_UPDATE_CHUNK ->
  exists sid' cid data t, chunk_of sid' p cid data /\ 0 <= cid < 65536 /\ target_device p = Some t.
Proof.
  intros (Hbytes & Hp & n & En & Hn) Ht.
  unfold fwUpdate_getPayloadSize in En. rewrite Ht in En. cbn [mbind option_bind] in En.
  destruct (get_member (payload chunk_t) "data_len" 0 p) as [len|] eqn:Elen; [|done].
  injection En as En. change (sizeof_hdr + sizeof_layout chunk_t) with 15 in En.
  destruct (get_inv _ _ _ _ U16 12 len Elen eq_refl eq_refl eq_refl) as [Hp14 Hlen]; [lia|].
  specialize (Hlen Hbytes). cbn in Hp14, Hlen.
  set (data := takeZ len (dropZ 14 p)).
  assert (lenZ data = len) as Hd by (unfold data; rewrite lenZ_takeZ, lenZ_dropZ; lia).
  unfold chunk_of, target_device.
  destruct (get_ok (payload chunk_t) "session_id" 0 p U16 8) as (sid' & Esid & _); [done..|lia|cbn; lia|].
  destruct (get_ok (payload chunk_t) "chunk_id" 0 p U16 10) as (cid & Eid & Hcid); [done..|lia|cbn; lia|].
  destruct (get_ok (payload []) "target_device" 0 p U32 0) as (t & Et & _); [done..|lia|cbn; lia|].
  exists sid', cid, data, t. split; [|split; [by apply Hcid|done]].
  rewrite Hd. split_and!; [done..|]. unfold get_bytes.
  change (offsetof (payload chunk_t) "data" 0) with 14. apply take_exact_ok. rewrite lenZ_dropZ; lia.
Qed.

Lemma handleChunk_ok p e : receiving e -> complete p -> msg_type p = Some MSG_UPDATE_CHUNK ->
  exists e' r, fwUpdate_handleChunk stack p e = Some (e', r) /\ (same e e' \/ grows p e e').
Proof.
  intros He Hp Ht. pose proof He as (Hs & Hl & _).
  destruct (chunk_members p Hp Ht) as (sid' & cid & data & t & Hchunk & _ & Et).
  pose proof Hchunk as (_ & Esid & Eid & Elen & _).
  destruct (decide (sid' = sid /\ cid = last_chunk_id (dv e) + 1 /\ lenZ data = chunk_len cs size total cid))
    as [(-> & -> & Hd)|Hbad].
  - destruct (handleChunk_next p t data e He Hchunk Hd Et) as (e' & E & H). cbv zeta in H.
    eexists e', _. split; [exact E|]. destruct (_ <? _) in H; [by left|by right].
  - destruct (handleChunk_refused p sid' cid (lenZ data) e) as (e' & E & H); [done|lia|done..|tauto|].
    exists e', false. split; [done|by left].
Qed.

(** ** Messages *)

Lemma grows_trans p e1 e2 e3 e4 : same e1 e2 -> grows p e2 e3 -> same e3 e4 -> grows p e1 e4.
Proof.
  intros H (data & Hp & Hd & Ew & El & Hout) H'. pose proof H as (_ & _ & Ew1 & _).
  pose proof H' as (_ & _ & Ew2 & _). rewrite (same_last _ _ H) in *. exists data.
  rewrite (same_last _ _ H'). split_and!; [done..|congruence|done|].
  destruct Hout; [left; by eapply same_receiving|right; by eapply same_finished].
Qed.

Lemma grows_buffer p e e' : grows p e e' -> buffer_ok e'.
Proof. intros (? & _ & _ & _ & _ & [[Hs _]|[Hs _]]); apply Hs. Qed.

(** A message that is not a request, while an image is received. *)
Lemma dev_handle_ok p e : receiving e -> complete p -> msg_type p <> Some MSG_REQ_UPDATE ->
  exists e' r, dev_handle stack p e = Some (e', r) /\ (same e e' \/ grows p e e').
Proof.
  intros He Hp Hreq. pose proof He as (Hs & _). pose proof Hs as (_ & _ & _ & _ & _ & _ & Hb).
  pose proof Hp as (Hbytes & Hlen & n & En & Hn). unfold dev_handle.
  destruct (msg_type p) as [t|] eqn:Et; [|unfold fwUpdate_getPayloadSize in En; by rewrite Et in En].
  cbn [mbind option_bind]. destruct (Z.eqb_spec t MSG_REQ_UPDATE) as [->|]; [done|].
  destruct (Z.eqb_spec t MSG_UPDATE_CHUNK) as [->|]; [by apply handleChunk_ok|].
  destruct (Z.eqb_spec t MSG_REQ_RESET) as [->|].
  { unfold fwUpdate_getPayloadSize in En. rewrite Et in En. vm_compute in En. injection En as <-.
    destruct (get_ok (payload req_reset_t) "reset_flags" 0 p U16 8 eq_refl eq_refl eq_refl)
      as (flags & Ef & _); [done|cbn; lia|].
    destruct (handleReset_same stack Hstack p flags e Hb Et Ef) as (e' & r & -> & H). eauto. }
  destruct (Z.eqb_spec t MSG_REQ_VERSION_INFO) as [->|]; [|exists e, false; by split; [|left]].
  destruct (version_same stack Hstack p e Hb Et Hlen) as (e' & r & -> & H). eauto.
Qed.

Lemma timeout_same e : let '(b, s) := fwUpdate_resetTimeout (base e) (dv_st e) in
  same e (DevEnv (set_dv_base b (dv e)) s).
Proof.
  unfold fwUpdate_resetTimeout. pose proof (flash_time (dv_st e)) as Hk.
  destruct (current_timeMs (dv_st e)) as [s now]. repeat split; apply Hk.
Qed.

(** The part of the processing behind the handler. *)
Lemma after_handler p r e : buffer_ok e -> 8 <= lenZ p ->
  exists e', (e ← dev_report stack e; t ← msg_type p;
              let '(e, _) := with_st (fwUpdate_device_step t r) e in Some (e, r)) = Some (e', r) /\
    same e e'.
Proof.
  intros Hb Hp. destruct (report_same stack Hstack e Hb) as (e1 & -> & H1). cbn [mbind option_bind].
  unfold msg_type. get_some "msg_type" t Ht.
  destruct (with_st_same (fwUpdate_device_step t r) e1) as (e2 & x & -> & H2 & _); [apply flash_step|].
  exists e2. split; [done|]. exact (same_trans _ _ _ H1 H2).
Qed.

(** A message for this device: what its handler does, between steps that change nothing. *)
Lemma process_handled (Q : dev_env -> dev_env -> Prop) p e : 8 <= lenZ p ->
  target_device p = Some (session_target (base e)) ->
  (forall e0, same e e0 ->
     exists e1 r, dev_handle stack p e0 = Some (e1, r) /\ buffer_ok e1 /\ Q e0 e1) ->
  exists e0 e1 e2 r, dev_processMessage stack p e = Some (e2, r) /\ same e e0 /\ Q e0 e1 /\ same e1 e2.
Proof.
  intros Hlen Ht HQ. unfold dev_processMessage. rewrite Ht. cbn [mbind option_bind].
  rewrite Z.eqb_refl. cbn [negb].
  pose proof (timeout_same e) as H0. destruct (fwUpdate_resetTimeout _ _) as [b s].
  set (e0 := DevEnv _ s) in *. destruct (HQ e0 H0) as (e1 & r & -> & Hb & H1). cbn [mbind option_bind].
  destruct (after_handler p r e1 Hb Hlen) as (e2 & -> & H2). by exists e0, e1, e2, r.
Qed.

Lemma process_other p t e : target_device p = Some t -> t <> session_target (base e) ->
  dev_processMessage stack p e = Some (e, false).
Proof.
  intros Ht Hne. unfold dev_processMessage. rewrite Ht. cbn [mbind option_bind].
  by rewrite (proj2 (Z.eqb_neq _ _)).
Qed.

Lemma has_target p : 8 <= lenZ p -> exists t, target_device p = Some t.
Proof.
  intros Hp. unfold target_device.
  destruct (get_ok (payload []) "target_device" 0 p U32 0) as (t & Et & _); [done..|lia|cbn; lia|].
  by exists t.
Qed.

Lemma processMessage_ok p e : receiving e -> complete p -> msg_type p <> Some MSG_REQ_UPDATE ->
  exists e' r, dev_processMessage stack p e = Some (e', r) /\ (same e e' \/ grows p e e').
Proof.
  intros He Hp Hreq. pose proof Hp as (_ & Hlen & _). destruct (has_target p Hlen) as (t & Et).
  destruct (decide (t = session_target (base e))) as [->|Hne].
  2: { exists e, false. split; [by eapply process_other|by left]. }
  destruct (process_handled (fun e0 e1 => same e0 e1 \/ grows p e0 e1) p e Hlen Et)
    as (e0 & e1 & e2 & r & E & H0 & H1 & H2).
  { intros e0 H0. destruct (dev_handle_ok p e0) as (e1 & r & E & H1); [by eapply same_receiving|done..|].
    exists e1, r. split; [done|]. split; [|done]. destruct H1 as [H1|H1]; [|by eapply grows_buffer].
    destruct He as [Hs _]. exact (same_buffer _ _ H1 (same_buffer _ _ H0 ltac:(apply Hs))). }
  exists e2, r. split; [done|]. destruct H1 as [H1|H1]; [left|right; by eapply grows_trans].
  exact (same_trans _ _ _ H0 (same_trans _ _ _ H1 H2)).
Qed.

(** ** The request *)

(** A request for this session, which the device starts. *)
Definition requests p : Prop :=
  request_of sid cs size md5 p /\ target_device p = Some tgt /\
  forall s, NOT_STARTED < snd (fwUpdate_startUpdate p s).

(** A device between two updates. *)
Definition idle e : Prop :=
  session_target (base e) = tgt /\ buffer_ok e /\ lenZ (md5_buffer (md5Context (base e))) = 64.

Lemma handleInitialize_ok p e : idle e -> requests p ->
  exists e' r, fwUpdate_handleInitialize stack p e = Some (e', r) /\ receiving e' /\
    written (dv_st e') = [] /\ last_chunk_id (dv e') = -1.
Proof.
  intros (Htgt & Hb & Hmd)
    [((_ & _ & n & En & Hn) & Ht & Esid & Esize & Ecs & bytes & Ebytes & Emd) [_ Hstart]].
  unfold fwUpdate_getPayloadSize in En. rewrite Ht in En. vm_compute in En. injection En as <-.
  unfold fwUpdate_handleInitialize. rewrite Ht. cbn [mbind option_bind].
  change (negb (MSG_REQ_UPDATE =? MSG_REQ_UPDATE)) with false. cbv iota zeta.
  rewrite Esid, Esize, Ecs, Ebytes. cbn [mbind option_bind].
  set (e1 := if sid =? 0 then _ else e).
  assert (idle e1 /\ dv_st e1 = dv_st e) as [(Ht1 & Hb1 & Hmd1) _] by (unfold e1; by destruct (sid =? 0)).
  rewrite (surjective_pairing (dev_resetEngine e1)). set (e2 := fst (dev_resetEngine e1)).
  unfold with_st.
  pose proof (flash_start p (dv_st e2)) as Hfs. pose proof (Hstart (dv_st e2)) as Hst. cbv zeta in Hfs.
  destruct (fwUpdate_startUpdate p (dv_st e2)) as [s status]. cbn [fst snd] in Hfs, Hst.
  destruct (Hfs Hst) as [Efw Efa]. rewrite (proj2 (Z.ltb_lt _ _)) by done.
  get_some "image_slot" slot Hslot. get_some "image_flags" flags Hflags.
  rewrite Htotal. cbn [mbind option_bind]. rewrite Emd. set (e3 := with_base (set_session_md5 md5) _).
  destruct (to_host_ok stack Hstack MSG_UPDATE_RESP) as (m & -> & Hm & H0 & H4).
  cbn [mbind option_bind]. set_next m1. set_next m2. set_next m3.
  destruct (dev_send_same m3 MSG_UPDATE_RESP 14 None e3) as (e' & r & E & H);
    [exact Hb1|lia|cbn; tauto|done|done|].
  exists e', r. split; [exact E|]. pose proof total_range as [? _]. pose proof H as (_ & _ & Ew & _).
  split; [|split; [by rewrite Ew|by rewrite (same_last _ _ H)]].
  eapply same_receiving; [exact H|]. split; [|split; [cbn; lia|]].
  - split_and!; [exact Ht1|done..|exact Hb1].
  - split; [change (lenZ (written s) = 0); by rewrite Efw|]. split; [|done].
    change (running (Md5.md5_init (md5Context (base e1))) (written s)). rewrite Efw.
    apply init_running, Hmd1.
Qed.

(** ** Sequences of messages *)

Fixpoint dev_messages (ms : list (list Z)) e : option dev_env :=
  match ms with
  | [] => Some e
  | p :: ms => '(e, _) ← dev_processMessage stack p e; dev_messages ms e
  end.

(** The data of some of the messages, which are chunks numbered from [id] on. *)
Inductive chunks_from : Z -> list (list Z) -> list Z -> Prop :=
| chunks_nil id : chunks_from id [] []
| chunks_skip id p ms image : chunks_from id ms image -> chunks_from id (p :: ms) image
| chunks_take id p data ms image : chunk_of sid p id data -> chunks_from (id + 1) ms image ->
    chunks_from id (p :: ms) (data ++ image).

(** What the messages [ms] have led to, from [e]. *)
Definition outcome (Q : dev_env -> Prop) ms e : Prop :=
  exists e' image, dev_messages ms e = Some e' /\ Q e' /\
    written (dv_st e') = written (dv_st e) ++ image /\ chunks_from (last_chunk_id (dv e) + 1) ms image.

Lemma outcome_cons Q p ms e e1 r : dev_processMessage stack p e = Some (e1, r) ->
  same e e1 \/ grows p e e1 -> outcome Q ms e1 -> outcome Q (p :: ms) e.
Proof.
  intros E H (e' & image & Em & HQ & Ew & Hc). unfold outcome. cbn [dev_messages]. rewrite E.
  cbn [mbind option_bind]. destruct H as [H|(data & Hp & _ & Ew1 & El & _)].
  - exists e', image. pose proof H as (_ & _ & Ew1 & _). rewrite (same_last _ _ H) in Hc.
    rewrite <- Ew1. by split_and!; [..|constructor].
  - exists e', (data ++ image). rewrite El in Hc. rewrite Ew, Ew1, app_assoc.
    by split_and!; [..|constructor].
Qed.

Lemma messages_ok ms : forall e, receiving e ->
  Forall (fun p => complete p /\ msg_type p <> Some MSG_REQ_UPDATE) ms ->
  outcome receiving ms e \/ exists ms1 ms2, ms = ms1 ++ ms2 /\ outcome finished ms1 e.
Proof.
  induction ms as [|p ms IH]; intros e He Hms.
  - left. exists e, []. rewrite app_nil_r. by split_and!; [..|constructor].
  - apply Forall_cons_1 in Hms as [[Hp Hreq] Hms].
    destruct (processMessage_ok p e He Hp Hreq) as (e1 & r & E & H).
    assert (receiving e1 \/ finished e1) as [He1|He1].
    { destruct H as [H|(? & _ & _ & _ & _ & H)]; [left; by eapply same_receiving|done]. }
    + destruct (IH e1 He1 Hms) as [Ho|(ms1 & ms2 & -> & Ho)].
      * left. by eapply outcome_cons.
      * right. exists (p :: ms1), ms2. split; [done|]. by eapply outcome_cons.
    + right. exists [p], ms. split; [done|]. eapply outcome_cons; [done|done|].
      exists e1, []. rewrite app_nil_r. by split_and!; [..|constructor].
Qed.

Lemma request_received req e : idle e -> requests req ->
  exists e' r, dev_processMessage stack req e = Some (e', r) /\ receiving e' /\
    written (dv_st e') = [] /\ last_chunk_id (dv e') = -1.
Proof.
  intros (Htgt & Hb & Hmd) Hreq. pose proof Hreq as [((_ & Hlen & _) & Et & _) [Ht _]].
  rewrite <- Htgt in Ht.
  destruct (process_handled (fun _ e1 => receiving e1 /\ written (dv_st e1) = [] /\
    last_chunk_id (dv e1) = -1) req e Hlen Ht) as (e0 & e1 & e2 & r & E & _ & (H1 & Hw & Hl) & H2).
  { intros e0 H0. unfold dev_handle. rewrite Et. cbn [mbind option_bind].
    change (MSG_REQ_UPDATE =? MSG_REQ_UPDATE) with true. cbv iota.
    destruct (handleInitialize_ok req e0) as (e1 & r & E & H1 & Hw); [|done|].
    - split; [by rewrite (same_target _ _ H0)|]. split; [by eapply same_buffer|].
      by rewrite (same_context _ _ H0).
    - exists e1, r. split; [done|]. split; [apply H1|done]. }
  exists e2, r. split; [done|]. split; [by eapply same_receiving|].
  pose proof H2 as (_ & _ & Ew & _). by rewrite Ew, (same_last _ _ H2).
Qed.

(** C6: From a request that an idle device starts, for an image below 2^24 bytes, until all
    chunks of the image have arrived, whatever complete messages other than update requests
    it receives: it does not fail, its memory holds the data of chunks of the session
    numbered 0, 1, ... in order, and when all of them are there the image has the size of
    the request and is accepted exactly if it has the digest of the request, and otherwise
    refused with the status for a checksum mismatch. Nothing is stated about messages after
    that. *)
Theorem device_integrity req ms e : idle e -> requests req ->
  Forall (fun p => complete p /\ msg_type p <> Some MSG_REQ_UPDATE) ms ->
  (exists e' image, dev_messages (req :: ms) e = Some e' /\ receiving e' /\
     written (dv_st e') = image /\ chunks_from 0 ms image) \/
  (exists ms1 ms2 e' image, ms = ms1 ++ ms2 /\ dev_messages (req :: ms1) e = Some e' /\
     written (dv_st e') = image /\ chunks_from 0 ms1 image /\ lenZ image = size /\
     (md5_spec image = md5 /\ accepted (dv_st e') = Some image \/
      md5_spec image <> md5 /\ accepted (dv_st e') = None /\
      session_status (base e') = ERR_CHECKSUM_MISMATCH)).
Proof.
  intros He Hreq Hms.
  destruct (request_received req e He Hreq) as (e1 & r & E & He1 & Ew & El).
  cbn [dev_messages]. rewrite E. cbn [mbind option_bind].
  destruct (messages_ok ms e1 He1 Hms) as [Ho|(ms1 & ms2 & -> & Ho)];
    destruct Ho as (e' & image & Em & He' & Ew' & Hc); rewrite Ew in Ew'; rewrite El in Hc.
  - left. by exists e', image.
  - right. exists ms1, ms2, e', image. destruct He' as (_ & _ & _ & Hlen & Hout). cbn [app] in Ew'.
    rewrite Ew' in Hlen, Hout. by split_and!.
Qed.
End Integrity.
