(* ===== verification/FirmwareTransfer.v ===== *)
(** * The transfer of an image from the updater to a device

    The updater sends the chunks of its file; whatever the network does to the messages,
    the device writes the image of the file and no other; and it writes all of it when
    nothing is lost. *)

From stdpp Require Import strings.
From S2P Require Import Prelude CommTx CommTxProps Layouts Md5 Md5Props.
From S2P Require Import FirmwareTypes FirmwareUpdate FirmwareUpdater FirmwareChunks FirmwareMessages.
From S2P Require Import FirmwareProps FirmwareIntegrity.
Import FirmwareUpdate ISFirmwareUpdater.
#[local] Open Scope string_scope.
#[local] Open Scope list_scope.
#[local] Open Scope Z_scope.

(** The messages given to a port. *)
Class logged_platform (P : Type) `{!platform P} := {
  sent : P -> list (list Z);
  sent_data m s : sent (fst (send_data m s)) = sent s ++ [m];
  sent_time s : sent (fst (platform_timeMs s)) = sent s;
  sent_rand s : sent (fst (platform_rand s)) = sent s
}.

Lemma without_flags_other {P} (u : updater P) m :
  msg_type m <> Some MSG_REQ_UPDATE -> without_flags u m = m.
Proof. intros H. unfold without_flags. by repeat case_match. Qed.

(** Reads that end before the end of a file leave it good. *)
Lemma read_inside f o n : Md5.is_good f = true -> 0 <= o -> 0 <= n ->
  o + n <= lenZ (Md5.is_contents f) ->
  Md5.is_read n (Md5.is_seekg o f) =
    (Md5.IStream (Md5.is_contents f) (o + n) false false, subZ o n (Md5.is_contents f)).
Proof.
  destruct f as [l pos [] []]; try done. intros _ Ho Hn Hl. unfold Md5.is_read, Md5.is_seekg. cbn in *.
  assert (lenZ (subZ o n l) = n) as -> by (rewrite lenZ_subZ; lia). by rewrite Z.ltb_irrefl.
Qed.

(** The chunk [id] of the image. *)
Definition image_chunk (image : list Z) (cs total id : Z) : list Z :=
  subZ (id * cs) (chunk_len cs (lenZ image) total id) image.

Section Image.
Context (image : list Z) (cs total : Z).
Context (Hcs : 0 < cs <= FWUPDATE__MAX_CHUNK_SIZE) (Hsize : 0 < lenZ image < 16777216).
Context (Htotal : total_chunks (lenZ image) cs = Some total).

Abbreviation size := (lenZ image).
Abbreviation image_chunk := (image_chunk image cs total).

Lemma cs_range : 0 < cs < 65536.
Proof. unfold FWUPDATE__MAX_CHUNK_SIZE in Hcs. lia. Qed.

Lemma chunk_inside id : 0 <= id < total ->
  0 < chunk_len cs size total id <= cs /\ id * cs + chunk_len cs size total id <= size /\
  lenZ (image_chunk id) = chunk_len cs size total id.
Proof.
  intros Hid. pose proof (total_range cs size total cs_range Hsize Htotal) as [Ht Hb].
  destruct (chunk_end cs size total cs_range Hsize Htotal id ltac:(lia)) as [H1 H2].
  assert (id * cs + chunk_len cs size total id <= size) as H3
    by (rewrite H2; destruct (Z.eqb_spec id (total - 1)); nia).
  pose proof cs_range. split; [done|]. split; [done|]. unfold FirmwareTransfer.image_chunk.
  rewrite lenZ_subZ by nia. nia.
Qed.

(** The pieces written one behind the other are the image. *)
Lemma image_chunk_next id : 0 <= id < total ->
  takeZ (id * cs) image ++ image_chunk id = takeZ (id * cs + chunk_len cs size total id) image.
Proof.
  intros Hid. destruct (chunk_inside id Hid) as (Hl & Hin & _). pose proof cs_range.
  unfold FirmwareTransfer.image_chunk. apply takeZ_subZ; nia.
Qed.
End Image.

Section Host.
Context {P : Type} `{Hlog : logged_platform P}.
Context (image : list Z) (tgt sid cs total : Z).
Context (Hcs : 0 < cs <= FWUPDATE__MAX_CHUNK_SIZE) (Hsize : 0 < lenZ image < 16777216).
Context (Himage : Forall byte image) (Htotal : total_chunks (lenZ image) cs = Some total).
Context (Hsid : 0 <= sid < 65536) (Htgt : 0 <= tgt < 4294967296).
Implicit Types (h : fw_host) (u : updater P).

Abbreviation size := (lenZ image).
Abbreviation image_chunk := (image_chunk image cs total).
Abbreviation cs_range := (cs_range cs Hcs).
Abbreviation chunk_inside := (chunk_inside image cs total Hcs Hsize Htotal).

(** The session of an update of this image, in the updater. *)
Definition host_session h u : Prop :=
  session_id (hs_base h) = sid /\ session_target (hs_base h) = tgt /\
  session_chunk_size (hs_base h) = cs /\ session_image_size (hs_base h) = size /\
  session_total_chunks (hs_base h) = total /\ 0 <= next_chunk_id h < 65536 /\
  lenZ (build_buffer (hs_base h)) = FWUPDATE__MAX_PAYLOAD_SIZE /\
  Forall byte (build_buffer (hs_base h)) /\
  exists f, srcFile u = Some f /\ Md5.is_good f = true /\ Md5.is_contents f = image.

Lemma getImageChunk_ok h u id : host_session h u -> 0 <= id < total ->
  exists f, getImageChunk h (id * cs) (chunk_len cs size total id) u =
      (set_srcFile (Some f) u, image_chunk id, chunk_len cs size total id) /\
    Md5.is_good f = true /\ Md5.is_contents f = image.
Proof.
  intros (_ & _ & _ & Es & _ & _ & _ & _ & f & Ef & Hg & Ec) Hid.
  destruct (chunk_inside id Hid) as (Hl & Hin & Hlen). pose proof cs_range.
  unfold getImageChunk. rewrite Ef, Hg, Es. cbv zeta. assert (0 <= id * cs) as Ho by nia.
  set (o := id * cs) in *.
  assert (Md5.is_tellg (Md5.is_seekg o f) = o) as ->
    by (destruct f as [l pos [] []]; done).
  assert (u32 (size - u32 o) = size - o) as ->
    by (unfold u32; rewrite (Z.mod_small o), Z.mod_small; lia).
  assert ((if chunk_len cs size total id <? size - o then chunk_len cs size total id
           else size - o) = chunk_len cs size total id) as ->
    by (destruct (Z.ltb_spec (chunk_len cs size total id) (size - o)); lia).
  rewrite read_inside; [|done|lia|lia|rewrite Ec; lia]. rewrite Ec.
  change (subZ o (chunk_len cs size total id) image) with (image_chunk id). rewrite Hlen.
  eexists. split; [done|]. by split.
Qed.

(** The header of the message for the next chunk. *)
Lemma chunk_message_ok h u : host_session h u -> next_chunk_id h < total ->
  exists m, chunk_message h = Some m /\ lenZ m = FWUPDATE__MAX_PAYLOAD_SIZE /\ Forall byte m /\
    holds_at 0 U32 tgt m /\ holds_at 4 U32 MSG_UPDATE_CHUNK m /\ holds_at 8 U16 sid m /\
    holds_at 10 U16 (next_chunk_id h) m /\
    holds_at 12 U16 (chunk_len cs size total (next_chunk_id h)) m.
Proof.
  intros (Esid & Et & Ec & Es & Ett & Hn & Hb & Hbytes & _) Hlt. unfold chunk_message.
  rewrite Esid, Et, Ec, Es, Ett. unfold FWUPDATE__MAX_PAYLOAD_SIZE, FWUPDATE__MAX_CHUNK_SIZE in *.
  set_next m1. set_next m2. set_next m3. set_next m4. rewrite (proj2 (Z.eqb_neq cs 0)) by lia.
  assert ((if next_chunk_id h =? total - 1
           then Some (if negb (size mod cs =? 0) then size mod cs else cs) else Some cs) =
          Some (chunk_len cs size total (next_chunk_id h))) as ->.
  { pose proof (Z.mod_pos_bound size cs ltac:(lia)).
    rewrite <- (expected_size_ok cs size total cs_range Hsize Htotal (next_chunk_id h)).
    unfold u16. rewrite (Z.mod_small (size mod cs)) by lia.
    destruct (next_chunk_id h =? total - 1), (size mod cs =? 0); done. }
  cbn [mbind option_bind]. set_next m5. exists m5. by split_and!; try lia.
Qed.

(** The message with the data of the chunk behind it. *)
Lemma chunk_sent id m data : 0 <= id < 65536 -> lenZ data <= FWUPDATE__MAX_CHUNK_SIZE ->
  lenZ m = FWUPDATE__MAX_PAYLOAD_SIZE -> Forall byte m -> Forall byte data ->
  holds_at 0 U32 tgt m -> holds_at 4 U32 MSG_UPDATE_CHUNK m -> holds_at 8 U16 sid m ->
  holds_at 10 U16 id m -> holds_at 12 U16 (lenZ data) m ->
  let msg := takeZ (14 + lenZ data) (updZ 14 data m) in
  complete msg /\ target_device msg = Some tgt /\ chunk_of sid msg id data.
Proof.
  intros Hid Hd Hm Hbytes Hdb H0 H4 H8 H10 H12 msg.
  unfold FWUPDATE__MAX_PAYLOAD_SIZE, FWUPDATE__MAX_CHUNK_SIZE in *. pose proof (lenZ_nonneg data).
  assert (lenZ msg = 14 + lenZ data) as Hlen
    by (unfold msg; rewrite lenZ_takeZ, lenZ_updZ_in; lia).
  assert (forall o t v, holds_at o t v m -> o + sizeof t <= 14 -> holds_at o t v msg) as Hk.
  { intros o t v (Hi & Ho & Hp & E) Hlt. pose proof (sizeof_pos t). unfold msg. apply holds_take; [|lia].
    split_and!; [done..|rewrite lenZ_updZ_in; lia|]. rewrite subZ_updZ_other by lia. done. }
  apply Hk in H0, H4, H8, H10, H12; try (cbn [sizeof]; lia).
  assert (msg_type msg = Some MSG_UPDATE_CHUNK) as Et by apply (msg_type_holds _ _ H4).
  assert (get_member (payload chunk_t) "data_len" 0 msg = Some (lenZ data)) as El
    by (get_next; unfold u16; by rewrite Z.mod_small by lia).
  assert (Forall byte msg) as Hb
    by (unfold msg, takeZ; apply Forall_take; by apply bytes_updZ).
  split; [|split].
  - split; [done|]. split; [lia|]. unfold fwUpdate_getPayloadSize. rewrite Et, El.
    cbn [mbind option_bind]. eexists. split; [reflexivity|].
    change (sizeof_hdr + sizeof_layout chunk_t) with 15. lia.
  - rewrite (target_holds _ _ H0). unfold u32. by rewrite Z.mod_small by lia.
  - split; [done|]. split; [get_next; unfold u16; by rewrite Z.mod_small by lia|].
    split; [get_next; unfold u16; by rewrite Z.mod_small by lia|]. split; [done|].
    unfold get_bytes. change (offsetof (payload chunk_t) "data" 0) with 14.
    rewrite take_exact_ok by (rewrite lenZ_dropZ; lia). f_equal.
    transitivity (subZ 14 (lenZ data) (updZ 14 data m)); [|apply subZ_updZ_same; lia].
    unfold msg, subZ, takeZ, dropZ. rewrite skipn_firstn_comm, take_take. f_equal. lia.
Qed.

Lemma map_chunk m id len : lenZ m = FWUPDATE__MAX_PAYLOAD_SIZE -> Forall byte m -> 0 <= len < 65536 ->
  holds_at 0 U32 tgt m -> holds_at 4 U32 MSG_UPDATE_CHUNK m -> holds_at 8 U16 sid m ->
  holds_at 10 U16 id m -> holds_at 12 U16 len m ->
  exists m', fwUpdate_mapBufferToPayload m = Some (m', Some 14, 14 + len) /\
    lenZ m' = FWUPDATE__MAX_PAYLOAD_SIZE /\ Forall byte m' /\
    holds_at 0 U32 tgt m' /\ holds_at 4 U32 MSG_UPDATE_CHUNK m' /\ holds_at 8 U16 sid m' /\
    holds_at 10 U16 id m' /\ holds_at 12 U16 len m'.
Proof.
  intros Hm Hb Hlen H0 H4 H8 H10 H12. unfold fwUpdate_mapBufferToPayload.
  rewrite (msg_type_holds _ _ H4). cbn [mbind option_bind].
  change (Z.land (u32 MSG_UPDATE_CHUNK) 65535) with MSG_UPDATE_CHUNK.
  unfold FWUPDATE__MAX_PAYLOAD_SIZE, FWUPDATE__MAX_CHUNK_SIZE in *.
  clear H4. set_next m'. unfold fwUpdate_getPayloadSize, aux_data_of.
  rewrite (msg_type_holds m' MSG_UPDATE_CHUNK) by done. cbn [mbind option_bind].
  change (u32 MSG_UPDATE_CHUNK =? MSG_UPDATE_CHUNK) with true. cbv iota.
  get_next. exists m'. unfold u16. rewrite Z.mod_small by lia. by split_and!; try lia.
Qed.

Lemma writeToWire_ok t m u : exists u' ok, writeToWire t m u = (u', ok) /\ srcFile u' = srcFile u /\
  sent (port u') = sent (port u) ++ [without_flags u m] /\
  ((forall m s, snd (send_data m s) = 0) -> ok = true).
Proof.
  unfold writeToWire. set (m' := without_flags u m).
  unfold on_port. pose proof (sent_time (port u)) as E1. destruct (platform_timeMs (port u)) as [s now].
  cbn [port set_port set_nextChunkSend]. pose proof (sent_data m' s) as E2.
  destruct (send_data m' s) as [s' r] eqn:E. cbn [fst] in *. eexists _, _. split; [done|].
  split; [done|]. split; [cbn; congruence|]. intros Hok. specialize (Hok m' s). rewrite E in Hok.
  cbn in Hok. by subst.
Qed.

(** The next chunk is sent with the bytes of the image; nothing else changes. *)
Lemma sendNextChunk_ok h u : host_session h u ->
  exists h' u' n, fwUpdate_sendNextChunk h u = Some (h', u', n) /\ host_session h' u' /\
    if next_chunk_id h <? total then
      exists m, sent (port u') = sent (port u) ++ [m] /\ complete m /\
        target_device m = Some tgt /\
        chunk_of sid m (next_chunk_id h) (image_chunk (next_chunk_id h)) /\
        ((forall m s, snd (send_data m s) = 0) -> next_chunk_id h' = next_chunk_id h + 1)
    else sent (port u') = sent (port u) /\ h' = h.
Proof.
  intros Hs. pose proof Hs as (Esid & Et & Ec & Es & Ett & Hn & Hbuf & _ & _).
  unfold fwUpdate_sendNextChunk. rewrite Ett. destruct (Z.leb_spec total (next_chunk_id h)) as [Hge|Hlt].
  { exists h, u, 0. rewrite (proj2 (Z.ltb_ge _ _)) by lia. done. }
  rewrite (proj2 (Z.ltb_lt _ _)) by done. set (id := next_chunk_id h) in *.
  destruct (chunk_inside id ltac:(lia)) as (Hl & Hin & Hlen).
  destruct (chunk_message_ok h u Hs Hlt) as (m & -> & Hm & Hb & H0 & H4 & H8 & H10 & H12).
  fold id in H10, H12. cbn [mbind option_bind].
  pose proof (total_range cs size total cs_range Hsize Htotal) as [Ht _].
  unfold FWUPDATE__MAX_CHUNK_SIZE in Hcs.
  destruct (map_chunk m id (chunk_len cs size total id) Hm Hb ltac:(lia) H0 H4 H8 H10 H12)
    as (m' & -> & Hm' & Hb' & H0' & H4' & H8' & H10' & H12'). clear m Hm Hb H0 H4 H8 H10 H12.
  cbn [mbind option_bind]. get_next. get_next. rewrite Ec. unfold u16.
  rewrite !(Z.mod_small _ 65536) by lia. rewrite (proj2 (Z.ltb_ge _ _)) by nia.
  set (hm := on_base (set_build_buffer m') h).
  assert (host_session hm u) as Hsm by (split_and!; try apply Hs; try done; apply Hs).
  destruct (getImageChunk_ok hm u id Hsm ltac:(lia)) as (f & Ef & Hg & Hc).
  change (fwUpdate_getImageChunk ?x ?y ?z ?w) with (getImageChunk x y z w).
  rewrite Ef. rewrite <- Hlen in H12' |- *. set (data := image_chunk id) in *.
  unfold FWUPDATE__MAX_PAYLOAD_SIZE, FWUPDATE__MAX_CHUNK_SIZE in *.
  assert (Forall byte data) as Hd
    by (unfold data, FirmwareTransfer.image_chunk, subZ, takeZ, dropZ; by apply Forall_take, Forall_drop).
  destruct (chunk_sent id m' data) as (Hcomp & Htd & Hchunk);
    [lia|unfold FWUPDATE__MAX_CHUNK_SIZE; lia|done..|].
  rewrite memcpy_ok by lia. cbn [mbind option_bind]. rewrite (takeZ_all (lenZ data) data) by lia.
  rewrite Z.eqb_refl. set (msg := takeZ (14 + lenZ data) _) in *.
  assert (target_device (updZ 14 data m') = Some tgt) as ->.
  { destruct H0' as (Hi & Ho & Hp & E0). rewrite (target_holds _ tgt).
    - unfold u32. by rewrite Z.mod_small by lia.
    - split_and!; [done..|rewrite lenZ_updZ_in; cbn; lia|]. rewrite subZ_updZ_other by (cbn; lia). done. }
  cbn [mbind option_bind].
  destruct (writeToWire_ok tgt msg (set_srcFile (Some f) u)) as (u' & ok & Ew & Esrc & Esent & Hok).
  rewrite without_flags_other in Esent by (destruct Hchunk as [-> _]; done).
  change (fwUpdate_writeToWire ?x ?y ?z) with (writeToWire x y z). rewrite Ew. cbn [mbind option_bind].
  eexists _, u', _. split; [reflexivity|]. split.
  - destruct Hs as (? & ? & ? & ? & ? & _).
    split; [by destruct ok|]. split; [by destruct ok|]. split; [by destruct ok|].
    split; [by destruct ok|]. split; [by destruct ok|]. split.
    { destruct ok; [change (0 <= id + 1 < 65536)|change (0 <= id < 65536)]; lia. }
    assert (build_buffer (hs_base (if ok then _ else _)) = updZ 14 data m') as -> by (by destruct ok).
    split; [rewrite lenZ_updZ_in by lia; exact Hm'|]. split; [by apply bytes_updZ|].
    exists f. by rewrite Esrc.
  - exists msg. split_and!; [done..|]. intros Hsend. by rewrite (Hok Hsend).
Qed.

(** ** Messages to the updater *)

Lemma complete_size p t n : complete p -> msg_type p = Some t -> In (t, n) plain_sizes -> n <= lenZ p.
Proof.
  intros (_ & _ & m & E & Hm) Ht Hin. unfold fwUpdate_getPayloadSize in E. rewrite Ht in E.
  repeat (destruct Hin as [[= <- <-]|Hin]; [vm_compute in E; injection E as <-; done|]). destruct Hin.
Qed.

Definition copy_back_ok (x : string * string * Z) : bool :=
  let '(m, m', i) := x in
  match member_type (payload version_resp_t) m, member_type dev_info_layout m' with
  | Some t, Some t' =>
    let o := offsetof (payload version_resp_t) m i in
    let o' := offsetof dev_info_layout m' i in
    int_type t && int_type t' && (0 <=? o) && (o + sizeof t <=? 42) && (0 <=? o') &&
    (o' + sizeof t' <=? sizeof_layout dev_info_layout)
  | _, _ => false
  end.

Lemma copy_version_ok l p : forallb copy_back_ok l = true -> 42 <= lenZ p ->
  forall info, lenZ info = sizeof_layout dev_info_layout -> exists info', copy_version l p info = Some info'.
Proof.
  intros Hl Hp. induction l as [|[[m m'] i] l IH]; intros info Hi; [by exists info|].
  cbn [forallb] in Hl. apply andb_prop in Hl as [Hx Hl]. unfold copy_back_ok in Hx.
  destruct (member_type (payload version_resp_t) m) as [t|] eqn:E; [|done].
  destruct (member_type dev_info_layout m') as [t'|] eqn:E'; [|done].
  rewrite !andb_true_iff, !Z.leb_le in Hx. destruct Hx as (((((Hit & Hit') & Ho) & Hot) & Ho') & Hot').
  cbn [copy_version].
  destruct (get_ok (payload version_resp_t) m i p t _ E eq_refl) as (v & -> & _); [done|lia|lia|].
  cbn [mbind option_bind]. unfold set_member. rewrite E'. cbn [mbind option_bind].
  rewrite (proj2 (Z.leb_le _ _)) by lia. cbn [mbind option_bind].
  pose proof (lenZ_encode t' v Hit'). apply IH; [done|]. rewrite lenZ_updZ; lia.
Qed.

(** What a message may change in the updater. *)
Definition sends_chunks h u h' u' : Prop :=
  host_session h' u' /\
  (sent (port u') = sent (port u) \/
   exists m id, sent (port u') = sent (port u) ++ [m] /\ complete m /\ target_device m = Some tgt /\
     0 <= id < total /\ chunk_of sid m id (image_chunk id)).

Lemma port_time u : exists u' now, on_port platform_timeMs u = (u', now) /\
  srcFile u' = srcFile u /\ sent (port u') = sent (port u) /\
  resent_chunkid_count u' = resent_chunkid_count u.
Proof.
  unfold on_port. pose proof (sent_time (port u)) as E. destruct (platform_timeMs (port u)) as [s now].
  by eexists _, now.
Qed.

Lemma host_session_base (f : fw_base -> fw_base) h u u' :
  (forall b, session_id (f b) = session_id b /\ session_target (f b) = session_target b /\
    session_chunk_size (f b) = session_chunk_size b /\
    session_image_size (f b) = session_image_size b /\
    session_total_chunks (f b) = session_total_chunks b /\ build_buffer (f b) = build_buffer b) ->
  srcFile u' = srcFile u -> host_session h u -> host_session (on_base f h) u'.
Proof.
  intros Hf Hu Hs. destruct (Hf (hs_base h)) as (E1 & E2 & E3 & E4 & E5 & E6).
  unfold host_session. cbn. by rewrite E1, E2, E3, E4, E5, E6, Hu.
Qed.

Lemma host_session_next h u n : 0 <= n < 65536 -> host_session h u ->
  host_session (set_next_chunk_id n h) u.
Proof. by intros Hn (? & ? & ? & ? & ? & _ & ?). Qed.

Lemma host_session_src h u u' : srcFile u' = srcFile u -> host_session h u -> host_session h u'.
Proof. intros E. unfold host_session. by rewrite E. Qed.

Lemma sendNextChunk_sends h u : host_session h u ->
  exists h' u' n, fwUpdate_sendNextChunk h u = Some (h', u', n) /\ sends_chunks h u h' u'.
Proof.
  intros Hs. destruct (sendNextChunk_ok h u Hs) as (h' & u' & n & E & Hs' & Hsent).
  exists h', u', n. split; [done|]. split; [done|]. pose proof Hs as (_ & _ & _ & _ & _ & Hn & _).
  destruct (Z.ltb_spec (next_chunk_id h) total); [|by left; apply Hsent]. right.
  destruct Hsent as (m & Em & Hc & Ht & Hchunk & _). exists m, (next_chunk_id h).
  by split_and!; [..|lia|lia|].
Qed.

Lemma handleResendChunk_ok p h u : host_session h u -> 14 <= lenZ p ->
  exists h' u' r, handleResendChunk p h u = Some (h', u', r) /\ sends_chunks h u h' u'.
Proof.
  intros Hs Hp. unfold handleResendChunk.
  destruct (port_time u) as (u1 & now & -> & Esrc & Esent & _).
  get_some "chunk_id" cid Hcid. get_some "reason" reason Hreason.
  set (u2 := if cid =? last_resent_chunk u1 then _ else _).
  assert (srcFile u2 = srcFile u /\ sent (port u2) = sent (port u)) as [Es2 En2]
    by (unfold u2; by destruct (cid =? last_resent_chunk u1)).
  destruct ((cid =? last_resent_chunk u1) && _ && _).
  - eexists _, u2, false. split; [done|]. split; [|by left].
    destruct (reason =? REASON_WRITE_ERROR); [by eapply host_session_base|].
    destruct ((reason =? REASON_INVALID_SEQID) || _); [by eapply host_session_base|].
    by eapply host_session_src.
  - destruct (port_time u2) as (u3 & now3 & -> & Es3 & En3 & _).
    set (u4 := set_nextChunkSend _ u3).
    destruct (sendNextChunk_sends h u4) as (h' & u' & n & -> & Hs' & Hsent).
    { eapply host_session_src, Hs. change (srcFile u4) with (srcFile u3). congruence. }
    cbn [mbind option_bind]. eexists h', u', _. split; [done|]. split; [done|].
    change (sent (port u4)) with (sent (port u3)) in Hsent. by rewrite En3, En2 in Hsent.
Qed.

Lemma handleVersionResponse_ok p h u : host_session h u -> 42 <= lenZ p ->
  exists h' u' r, handleVersionResponse p h u = Some (h', u', r) /\ sends_chunks h u h' u'.
Proof.
  intros Hs Hp. unfold handleVersionResponse. cbv zeta.
  get_some "resTarget" res Hres. destruct (_ && _ && _).
  - eexists h, _, false. split; [done|]. split; [by eapply host_session_src|by left].
  - destruct (copy_version_ok remote_members p eq_refl Hp
      (repeat 0 (Z.to_nat (sizeof_layout dev_info_layout))) eq_refl) as (info & ->).
    cbn [mbind option_bind]. eexists h, _, true. split; [done|].
    split; [by eapply host_session_src|by left].
Qed.

(** A response with another number of chunks, or that asks for another session, starts
    another update. *)
Definition response_ok p : Prop :=
  get_member (payload update_resp_t) "totl_chunks" 0 p = Some total /\
  get_member (payload update_resp_t) "status" 0 p <> Some ERR_MAX_CHUNK_SIZE.

Context (stack : list Z).

Lemma handleUpdateResponse_ok p h u : host_session h u -> 14 <= lenZ p -> response_ok p ->
  exists h' u' r, handleUpdateResponse stack p h u = Some (h', u', r) /\ sends_chunks h u h' u'.
Proof.
  intros Hs Hp [Etotal Hstatus]. unfold handleUpdateResponse.
  get_some "session_id" id' Hid. destruct (negb _); [by exists h, u, false; split; [|split; [|left]]|].
  get_some "status" status Hst.
  destruct (_ && _); [by exists h, u, true; split; [|split; [|left]]|].
  rewrite Etotal. cbn [mbind option_bind].
  rewrite (proj2 (Z.eqb_neq status ERR_MAX_CHUNK_SIZE)) by congruence.
  assert (host_session (on_base (set_session_total_chunks total) (on_base (set_session_status status) h)) u)
    as Hs' by (by destruct Hs as (? & ? & ? & ? & ? & ?)).
  destruct (bool_decide _); [by eexists _, u, false; split; [|split; [|left]]|].
  destruct (status =? READY); [|by eexists _, u, true; split; [|split; [|left]]].
  eexists _, u, true. split; [done|]. split; [by apply host_session_next|by left].
Qed.

Lemma handleUpdateProgress_ok p h u : host_session h u -> 18 <= lenZ p ->
  exists h' u' r, handleUpdateProgress p h u = Some (h', u', r) /\ sends_chunks h u h' u'.
Proof.
  intros Hs Hp. unfold handleUpdateProgress. get_some "status" status Hst. eexists _, u, true.
  split; [done|]. split; [|by left]. destruct (NOT_STARTED <=? _); [by eapply host_session_base|done].
Qed.

Lemma handleDone_ok p h u : host_session h u -> 12 <= lenZ p ->
  exists h' u' r, handleDone p h u = Some (h', u', r) /\ sends_chunks h u h' u'.
Proof.
  intros Hs Hp. unfold handleDone. get_some "status" status Hst. eexists _, u, true.
  split; [done|]. split; [|by left]. by eapply host_session_base.
Qed.

Lemma progress_size p : complete p -> msg_type p = Some MSG_UPDATE_PROGRESS -> 18 <= lenZ p.
Proof.
  intros (_ & _ & n & En & Hn) Et. unfold fwUpdate_getPayloadSize in En. rewrite Et in En.
  cbn [mbind option_bind] in En.
  destruct (get_member (payload progress_t) "msg_len" 0 p) as [len|] eqn:Elen; [|done].
  by destruct (get_inv _ _ _ _ U8 17 len Elen eq_refl eq_refl eq_refl) as [Hp18 _].
Qed.

(** Any message but a response of another update keeps the session of the updater, and
    leads to nothing but messages with chunks of the image. *)
Lemma host_message_ok p h u : host_session h u -> complete p ->
  (msg_type p = Some MSG_UPDATE_RESP -> response_ok p) ->
  exists h' u' r, @host_processMessage _ (updater_host stack) p h u = Some (h', u', r) /\
    sends_chunks h u h' u'.
Proof.
  intros Hs Hp Hresp. pose proof Hp as (Hbytes & Hlen & n & En & Hn). unfold host_processMessage.
  unfold target_device. get_some "target_device" tdev Htdev.
  destruct (negb _); [by exists h, u, false; split; [|split; [|left]]|].
  unfold fwUpdate_resetTimeout. change (current_timeMs u) with (on_port platform_timeMs u).
  destruct (port_time u) as (u1 & now & -> & Esrc & Esent & _).
  set (h1 := set_hs_base _ h).
  assert (host_session h1 u1) as Hs1 by (by apply (host_session_base (set_last_message now) h u)).
  assert (forall h' u', sends_chunks h1 u1 h' u' -> sends_chunks h u h' u') as Hback
    by (intros h' u' [Hs' Hsent]; split; [done|]; by rewrite Esent in Hsent).
  destruct (msg_type p) as [t|] eqn:Et; [|unfold fwUpdate_getPayloadSize in En; by rewrite Et in En].
  cbn [mbind option_bind]. pose proof Hs1 as (_ & _ & _ & _ & _ & Hnext & _).
  assert (forall r : bool, exists h' u' (r' : bool), Some (h1, u1, r) = Some (h', u', r') /\ sends_chunks h u h' u') as Hquiet
    by (intros r; exists h1, u1, r; split; [done|]; apply Hback; by split; [|left]).
  destruct (Z.eqb_spec t MSG_UPDATE_RESP) as [->|].
  { pose proof (complete_size p _ 14 Hp Et ltac:(cbn; tauto)).
    get_some "session_id" id' Hid. destruct (id' =? _); [|by apply Hquiet].
    destruct (handleUpdateResponse_ok p h1 u1 Hs1) as (h' & u' & r & E & H'); [lia|by apply Hresp|].
    change (fwUpdate_handleUpdateResponse p h1 u1) with (handleUpdateResponse stack p h1 u1).
    rewrite E. eauto 6. }
  destruct (Z.eqb_spec t MSG_UPDATE_PROGRESS) as [->|].
  { pose proof (progress_size p Hp Et).
    get_some "session_id" id' Hid. destruct (id' =? _); [|by apply Hquiet].
    destruct (handleUpdateProgress_ok p h1 u1 Hs1) as (h' & u' & r & E & H'); [lia|].
    change (fwUpdate_handleUpdateProgress p h1 u1) with (handleUpdateProgress p h1 u1).
    rewrite E. eauto 6. }
  destruct (Z.eqb_spec t MSG_REQ_RESEND_CHUNK) as [->|].
  { pose proof (complete_size p _ 14 Hp Et ltac:(cbn; tauto)).
    get_some "session_id" id' Hid. destruct (id' =? _); [|by apply Hquiet].
    get_some "chunk_id" cid Hcid. specialize (Hcid Hbytes). set (h2 := set_next_chunk_id cid _).
    assert (host_session h2 u1) as Hs2
      by (apply host_session_next; [done|]; by eapply host_session_base).
    destruct (handleResendChunk_ok p h2 u1 Hs2) as (h' & u' & r & E & H'); [lia|].
    change (fwUpdate_handleResendChunk p h2 u1) with (handleResendChunk p h2 u1).
    rewrite E. exists h', u', r. split; [done|]. by apply Hback. }
  destruct (Z.eqb_spec t MSG_UPDATE_DONE) as [->|].
  { pose proof (complete_size p _ 12 Hp Et ltac:(cbn; tauto)).
    get_some "session_id" id' Hid. destruct (id' =? _); [|by apply Hquiet].
    get_some "status" status Hst. set (h2 := on_base _ h1).
    assert (host_session h2 u1) as Hs2 by (by eapply host_session_base).
    destruct (handleDone_ok p h2 u1 Hs2) as (h' & u' & r & E & H'); [lia|].
    change (fwUpdate_handleDone p h2 u1) with (handleDone p h2 u1). rewrite E. eauto 6. }
  destruct (Z.eqb_spec t MSG_VERSION_INFO_RESP) as [->|]; [|by apply Hquiet].
  pose proof (complete_size p _ 42 Hp Et ltac:(cbn; tauto)).
  destruct (handleVersionResponse_ok p h1 u1 Hs1) as (h' & u' & r & E & H'); [lia|].
  change (fwUpdate_handleVersionResponse p h1 u1) with (handleVersionResponse p h1 u1).
  rewrite E. exists h', u', r. split; [done|]. by apply Hback.
Qed.

End Host.
