(* ===== verification/FirmwareRequest.v ===== *)
(** * The request for an update

    The message the updater sends when an update of a file starts. *)

From stdpp Require Import strings.
From S2P Require Import Prelude CommTx CommTxProps Layouts Md5 Md5Props.
From S2P Require Import FirmwareTypes FirmwareUpdate FirmwareUpdater FirmwareChunks FirmwareMessages.
From S2P Require Import FirmwareProps FirmwareIntegrity FirmwareTransfer.
Import FirmwareUpdate ISFirmwareUpdater.
#[local] Open Scope string_scope.
#[local] Open Scope list_scope.
#[local] Open Scope Z_scope.

Section Request.
Context {P : Type} `{Hlog : logged_platform P}.
Context (stack : list Z) (Hstack : lenZ stack = 42) (Hbytes : Forall byte stack).
Implicit Types (h : fw_host) (u : updater P).

Lemma holds_other o t v p o' bs : holds_at o t v p -> 0 <= o' -> o' + lenZ bs <= lenZ p ->
  o + sizeof t <= o' \/ o' + lenZ bs <= o -> holds_at o t v (updZ o' bs p).
Proof.
  intros (Hi & Ho & Hp & E) Ho' Hp' Hd. pose proof (sizeof_pos t).
  split_and!; [done..|rewrite lenZ_updZ_in; lia|]. by rewrite subZ_updZ_other by lia.
Qed.

(** What a request says of the session. *)
Definition request_holds (sid tgt cs size : Z) (md5 : md5hash_t) (p : list Z) : Prop :=
  holds_at 0 U32 tgt p /\ holds_at 4 U32 MSG_REQ_UPDATE p /\ holds_at 8 U16 sid p /\
  holds_at 12 U32 size p /\ holds_at 16 U16 cs p /\ subZ 20 16 p = Md5.hash_bytes md5.

Lemma request_message_ok h : let b := hs_base h in
  exists p, request_message stack h = Some p /\ lenZ p = 42 /\ Forall byte p /\
    request_holds (session_id b) (session_target b) (session_chunk_size b) (session_image_size b)
      (session_md5 b) p.
Proof.
  cbv zeta. unfold request_message. pose proof Hbytes as Hb.
  set_next p1. set_next p2. set_next p3. set_next p4. set_next p5. set_next p6. set_next p7. set_next p8.
  set (hash := Md5.hash_bytes _). assert (lenZ hash = 16) as Hh by done.
  change (offsetof (payload req_update_t) "md5_hash" 0) with 20. rewrite memcpy_ok by lia.
  rewrite (takeZ_all 16 hash) by lia. eexists. split; [done|].
  split; [rewrite lenZ_updZ_in; lia|]. split; [apply bytes_updZ; [apply hash_bytes_bytes|done]|].
  split_and!; try (apply holds_other; [done|lia|lia|cbn [sizeof]; lia]).
  apply (subZ_updZ_same 20 hash p8 16); lia.
Qed.

(** The members a request is judged by do not include its flags. *)
Lemma request_flags sid tgt cs size md5 p u : 36 <= lenZ p -> request_holds sid tgt cs size md5 p ->
  request_holds sid tgt cs size md5 (without_flags u p) /\ lenZ (without_flags u p) = lenZ p /\
  (Forall byte p -> Forall byte (without_flags u p)).
Proof.
  intros Hp H. unfold without_flags. repeat case_match; try done.
  change (offsetof (payload req_update_t) "image_flags" 0) with 11.
  destruct H as (A0 & A4 & A8 & A12 & A16 & A20). assert (lenZ [0] = 1) as Hone by done.
  split; [|split].
  - split_and!; try (apply holds_other; [done|lia|lia|cbn [sizeof]; lia]).
    by rewrite subZ_updZ_other by lia.
  - apply lenZ_updZ_in; lia.
  - intros Hb. apply bytes_updZ; [by repeat constructor|done].
Qed.

Lemma request_of_holds sid tgt cs size md5 p : 0 <= sid < 65536 -> 0 <= tgt < 4294967296 ->
  0 <= size < 4294967296 -> 0 <= cs < 65536 -> hash_ok md5 -> Forall byte p -> 36 <= lenZ p ->
  request_holds sid tgt cs size md5 p ->
  request_of sid cs size md5 p /\ target_device p = Some tgt.
Proof.
  intros Hsid Htgt Hsize Hcs Hmd Hb Hp (A0 & A4 & A8 & A12 & A16 & A20).
  assert (msg_type p = Some MSG_REQ_UPDATE) as Et by apply (msg_type_holds _ _ A4).
  split; [|rewrite (target_holds _ _ A0); unfold u32; by rewrite Z.mod_small by lia].
  split_and!; [|done|get_next; unfold u16; by rewrite Z.mod_small by lia
    |get_next; unfold u32; by rewrite Z.mod_small by lia
    |get_next; unfold u16; by rewrite Z.mod_small by lia|].
  - split; [done|]. split; [lia|]. exists 36. split; [|done]. unfold fwUpdate_getPayloadSize.
    rewrite Et. vm_compute. reflexivity.
  - exists (Md5.hash_bytes md5). split; [|by apply hash_bytes_roundtrip].
    unfold get_bytes. change (offsetof (payload req_update_t) "md5_hash" 0) with 20.
    rewrite take_exact_ok by (rewrite lenZ_dropZ; lia). f_equal. exact A20.
Qed.

Lemma request_holds_take sid tgt cs size md5 p : request_holds sid tgt cs size md5 p ->
  request_holds sid tgt cs size md5 (takeZ 36 p).
Proof.
  intros (A0 & A4 & A8 & A12 & A16 & A20).
  split_and!; try (apply holds_take; [done|cbn; lia]). rewrite <- A20.
  unfold subZ, takeZ, dropZ. by rewrite skipn_firstn_comm, take_take.
Qed.

(** A request for the session in [h] is sent, which changes nothing but the buffer. *)
Lemma send_request_ok h u :
  lenZ (build_buffer (hs_base h)) = FWUPDATE__MAX_PAYLOAD_SIZE -> Forall byte (build_buffer (hs_base h)) ->
  0 <= session_id (hs_base h) < 65536 -> 0 <= session_target (hs_base h) < 4294967296 ->
  0 <= session_image_size (hs_base h) < 4294967296 -> 0 <= session_chunk_size (hs_base h) < 65536 ->
  hash_ok (session_md5 (hs_base h)) ->
  exists u' r m buffer,
    (request ← request_message stack h; host_sendPayload request None h u) =
      Some (on_base (set_build_buffer buffer) h, u', r) /\
    sent (port u') = sent (port u) ++ [m] /\ srcFile u' = srcFile u /\
    request_of (session_id (hs_base h)) (session_chunk_size (hs_base h))
      (session_image_size (hs_base h)) (session_md5 (hs_base h)) m /\
    target_device m = Some (session_target (hs_base h)) /\
    lenZ buffer = FWUPDATE__MAX_PAYLOAD_SIZE /\ Forall byte buffer.
Proof.
  intros Hbuf Hbb Hid Ht Hsize Hcs Hmd.
  destruct (request_message_ok h) as (p & -> & Hp & Hpb & Hholds). cbn [mbind option_bind].
  pose proof Hholds as (A0 & A4 & _). unfold host_sendPayload, fwUpdate_sendPayload.
  destruct (pack_plain (build_buffer (hs_base h)) p None MSG_REQ_UPDATE 36)
    as (buffer & -> & Hb' & Etake & Hbb'); [done|done|cbn; tauto|done|].
  cbn [mbind option_bind]. rewrite Etake, (target_holds _ _ A0). cbn [mbind option_bind].
  destruct (writeToWire_ok (u32 (session_target (hs_base h))) (takeZ 36 p) u)
    as (u3 & ok & E & Es3 & En3 & _).
  change (fwUpdate_writeToWire ?x ?y ?z) with (writeToWire x y z). rewrite E. cbn [mbind option_bind].
  destruct (request_flags _ _ _ _ _ (takeZ 36 p) u ltac:(rewrite lenZ_takeZ; lia)
    (request_holds_take _ _ _ _ _ _ Hholds)) as (Hh' & Hl' & Hbf).
  eapply request_of_holds in Hh' as [Hreq Htd]; try done;
    [|apply Hbf; by apply Forall_take|rewrite Hl', lenZ_takeZ; lia].
  exists u3, ok, (without_flags u (takeZ 36 p)), buffer.
  split; [done|]. split; [done|]. split; [done|]. split; [exact Hreq|]. split; [exact Htd|].
  split; [exact Hb'|]. by apply Hbb'.
Qed.

Lemma requestUpdate_ok t slot flags cs size md5 rate h u :
  lenZ (build_buffer (hs_base h)) = FWUPDATE__MAX_PAYLOAD_SIZE -> Forall byte (build_buffer (hs_base h)) ->
  0 <= t < 4294967296 -> 0 <= size < 4294967296 -> 0 <= cs < 65536 -> hash_ok md5 ->
  exists h' u' r m, fwUpdate_requestUpdate stack t slot flags cs size md5 rate h u = Some (h', u', r) /\
    sent (port u') = sent (port u) ++ [m] /\ srcFile u' = srcFile u /\
    request_of (session_id (hs_base h')) cs size md5 m /\ target_device m = Some t /\
    0 <= session_id (hs_base h') < 65536 /\ session_target (hs_base h') = t /\
    session_chunk_size (hs_base h') = cs /\ session_image_size (hs_base h') = size /\
    session_status (hs_base h') = NOT_STARTED /\ next_chunk_id h' = 0 /\ lenZ (build_buffer (hs_base h')) = FWUPDATE__MAX_PAYLOAD_SIZE /\
    Forall byte (build_buffer (hs_base h')).
Proof.
  intros Hbuf Hbb Ht Hsize Hcs Hmd. unfold fwUpdate_requestUpdate.
  unfold fwUpdate_resetTimeout. change (current_timeMs u) with (on_port platform_timeMs u).
  destruct (port_time u) as (u1 & now & -> & Es1 & En1 & _).
  change (host_rand u1) with (on_port platform_rand u1). unfold on_port.
  pose proof (sent_rand (port u1)) as En2. destruct (platform_rand (port u1)) as [s rnd]. cbn [fst] in En2.
  destruct h as [b next sent0]. destruct b as [bb b1 b2 b3 b4 b5 b6 b7 b8 b9 b10 b11 b12 b13 b14].
  cbn [hs_base build_buffer] in Hbuf, Hbb. pose proof (Z.mod_pos_bound rnd 65536 ltac:(lia)) as Hid.
  match goal with |- context [request_message stack ?h] =>
    let h' := eval cbv beta iota delta
      [host_resetEngine on_base set_hs_base hs_base next_chunk_id chunks_sent set_next_chunk_id
       set_resend_count set_session_status set_session_id set_session_chunk_size
       set_session_image_size set_session_image_slot set_md5Context set_last_message
       set_session_target set_session_image_flags set_session_progress_rate set_session_md5
       build_buffer last_message timeout_duration resend_count session_target session_status
       session_id session_chunk_size session_total_chunks session_image_size
       session_progress_rate session_image_slot session_image_flags session_md5 md5Context] in h in
    change h with h';
    destruct (send_request_ok h' (set_port s u1)) as (u' & r & m & buffer & E & Em & Es & Hreq & Htd & Hb & Hbb')
  end; cbn [hs_base build_buffer session_id session_target session_image_size session_chunk_size
            session_md5] in *; [done..|].
  eexists _, u', r, m. split; [exact E|]. split; [by rewrite Em; cbn; rewrite En2, En1|].
  split; [by rewrite Es|]. split; [exact Hreq|]. split; [exact Htd|]. split; [exact Hid|].
  do 5 (split; [reflexivity|]). by split.
Qed.

(** What the start of an update of a file leads to: the request for the file is sent, and
    the session is that of the request. *)
Lemma initializeUpdate_sends context errno f t slot flags cs rate h u :
  lenZ (md5_buffer context) = 64 -> Md5.is_good f = true ->
  0 < lenZ (Md5.is_contents f) < 16777216 -> 0 < cs <= FWUPDATE__MAX_CHUNK_SIZE ->
  0 <= t < 4294967296 -> Z.land flags IMG_FLAG_useAlternateMD5 = 0 ->
  lenZ (build_buffer (hs_base h)) = FWUPDATE__MAX_PAYLOAD_SIZE -> Forall byte (build_buffer (hs_base h)) ->
  let image := Md5.is_contents f in
  exists h' u' r m,
    initializeUpdate stack context errno f t slot flags cs rate h u = Some (h', u', r) /\
    sent (port u') = sent (port u) ++ [m] /\
    request_of (session_id (hs_base h')) cs (lenZ image) (md5_spec image) m /\
    target_device m = Some t /\ 0 <= session_id (hs_base h') < 65536 /\
    host_session image t (session_id (hs_base h')) cs (session_total_chunks (hs_base h')) h' u' /\
    session_status (hs_base h') = NOT_STARTED.
Proof.
  intros Hctx Hg Hl Hcs Ht Hflags Hbuf Hbb image. unfold initializeUpdate. rewrite Hflags.
  change (negb (0 =? 0)) with false. cbv iota zeta.
  rewrite file_details_ok by (done || lia). cbn [mbind option_bind]. fold image in Hl |- *.
  change (negb (0 =? 0)) with false. cbv iota.
  set (u1 := set_hash _ _). set (h1 := on_base (set_session_md5 _) h).
  destruct (port_time u1) as (u2 & now & -> & Es2 & En2 & _).
  destruct (port_time u2) as (u3 & now3 & -> & Es3 & En3 & _).
  set (u4 := set_start _ _ u3). unfold FWUPDATE__MAX_CHUNK_SIZE in Hcs.
  assert (u16 cs = cs) as -> by (unfold u16; rewrite Z.mod_small by lia; done).
  assert (u32 (lenZ image) = lenZ image) as -> by (unfold u32; rewrite Z.mod_small by lia; done).
  destruct (requestUpdate_ok t slot flags cs (lenZ image) (md5_spec image) rate h1 u4)
    as (h' & u' & r & m & E & Em & Es & Hreq & Htd & Hid & Et & Ec & Ez & Est & En & Hb & Hbb');
    [exact Hbuf|exact Hbb|done|lia|lia|apply md5_spec_ok|].
  rewrite E. cbn [mbind option_bind]. eexists h', u', _, m. split; [done|].
  split; [rewrite Em; change (port u4) with (port u3); by rewrite En3, En2|].
  split; [done|]. split; [done|]. split; [done|]. split; [|done].
  split_and!; try done; [lia|lia|].
  exists (Md5.IStream image 0 false false). split; [|done].
  rewrite Es. change (srcFile u4) with (srcFile u3). by rewrite Es3, Es2.
Qed.
End Request.
