(* ===== verification/FirmwareNetwork.v ===== *)
(** * The updater, a network and a device

    The messages the updater gives to its port may be lost, repeated and reordered before
    they reach the device, and the updater may receive anything but a response of another
    update: the device has written the beginning of the image at any time, and accepts
    nothing but the image.  When no message is lost, it accepts the image. *)

From stdpp Require Import strings relations.
From S2P Require Import Prelude CommTx CommTxProps Layouts Md5 Md5Props.
From S2P Require Import FirmwareTypes FirmwareUpdate FirmwareUpdater FirmwareChunks FirmwareMessages.
From S2P Require Import FirmwareProps FirmwareIntegrity FirmwareTransfer FirmwareRequest.
Import FirmwareUpdate ISFirmwareUpdater.
#[local] Open Scope string_scope.
#[local] Open Scope list_scope.
#[local] Open Scope Z_scope.

Section Network.
Context {P : Type} `{Hlog : logged_platform P}.
Context {St : Type} `{Hfl : flash_device St}.
(** The uninitialised messages on the stacks of both sides. *)
Context (hstack dstack : list Z) (Hdstack : lenZ dstack = 42).
Context (image : list Z) (tgt sid cs total : Z).
Context (Hcs : 0 < cs <= FWUPDATE__MAX_CHUNK_SIZE) (Hsize : 0 < lenZ image < 16777216).
Context (Himage : Forall byte image) (Htotal : total_chunks (lenZ image) cs = Some total).
Context (Hsid : 0 <= sid < 65536) (Htgt : 0 <= tgt < 4294967296).

Abbreviation size := (lenZ image).
Abbreviation digest := (md5_spec image).
Abbreviation image_chunk := (image_chunk image cs total).
Abbreviation receiving := (receiving tgt sid cs size total digest).
Abbreviation finished := (finished tgt sid cs size total digest).

(** The two sides. *)
Record net := Net { nh : fw_host; nu : updater P; nd : dev_env (St := St) }.

Inductive step : net -> net -> Prop :=
| step_chunk h u d h' u' n : fwUpdate_sendNextChunk h u = Some (h', u', n) ->
    step (Net h u d) (Net h' u' d)
| step_host p h u d h' u' r : complete p ->
    (msg_type p = Some MSG_UPDATE_RESP -> response_ok total p) ->
    @host_processMessage _ (updater_host hstack) p h u = Some (h', u', r) -> step (Net h u d) (Net h' u' d)
| step_device p h u d d' r : p ∈ sent (port u) ->
    dev_processBuffer dstack p (lenZ p) d = Some (d', r) -> step (Net h u d) (Net h u d').

(** The messages on the way: chunks of the image, and the request for it. *)
Definition authentic p : Prop :=
  complete p /\ ((exists id, 0 <= id < total /\ chunk_of sid p id (image_chunk id)) \/
                 request_of sid cs size digest p).

(** A device that starts the update when it is asked for it. *)
Definition willing : Prop :=
  forall p (s : St), request_of sid cs size digest p -> NOT_STARTED < snd (fwUpdate_startUpdate p s).

(** The device has the first chunks of the image, or all of it. *)
Definition dev_ok (d : dev_env (St := St)) : Prop :=
  receiving d /\ written (dv_st d) = takeZ ((last_chunk_id (dv d) + 1) * cs) image \/
  finished d /\ written (dv_st d) = image.

Abbreviation cs_bound := (cs_range cs Hcs).

(** A chunk of the image behind its beginning. *)
Lemma grows_ok d p id e : 0 <= id < total -> chunk_of sid p id (image_chunk id) ->
  written (dv_st d) = takeZ ((last_chunk_id (dv d) + 1) * cs) image ->
  grows tgt sid cs size total digest p d e -> dev_ok e.
Proof.
  intros Hid Hp Hw (data & Hp' & Hd & Ew & El & Hout).
  destruct Hp as (_ & _ & Eid & Elen & Edata). destruct Hp' as (_ & _ & Eid' & Elen' & Edata').
  rewrite Eid in Eid'. injection Eid' as Ecid. rewrite Elen in Elen'. injection Elen' as Elen'.
  rewrite <- Elen', Edata in Edata'. injection Edata' as <-. rewrite Hw, <- Ecid in Ew.
  rewrite (image_chunk_next image cs total Hcs Hsize Htotal id Hid) in Ew.
  destruct (chunk_inside image cs total Hcs Hsize Htotal id Hid) as (Hl & Hin & _).
  pose proof cs_bound. destruct Hout as [Hr|Hf].
  - left. split; [done|]. pose proof Hr as (_ & _ & Hlen & _). rewrite El, <- Ecid in Hlen |- *.
    rewrite Ew, lenZ_takeZ in Hlen. rewrite Ew. f_equal. nia.
  - right. split; [done|]. pose proof Hf as (_ & _ & _ & Hlen & _).
    rewrite Ew, lenZ_takeZ in Hlen. rewrite Ew. apply takeZ_all. nia.
Qed.

(** Behind the last chunk, no chunk of the image is accepted again. *)
Lemma finished_chunk d p id : finished d -> complete p -> 0 <= id < total ->
  chunk_of sid p id (image_chunk id) ->
  exists d' r, dev_processMessage dstack p d = Some (d', r) /\ same d d'.
Proof.
  intros Hf (_ & Hlen & _) Hid (Ht & Esid & Eid & Elen & _).
  destruct (has_target p Hlen) as (t & Et).
  destruct (decide (t = session_target (base d))) as [->|Hne].
  2: { exists d, false. split; [by eapply process_other|done]. }
  destruct (process_handled dstack Hdstack same p d Hlen Et) as (e0 & e1 & e2 & r & E & H0 & H1 & H2).
  - intros e0 H0. pose proof (same_finished _ _ _ _ _ _ _ _ H0 Hf) as (Hs & _ & Hl & _).
    unfold dev_handle. rewrite Ht. cbn [mbind option_bind].
    change (MSG_UPDATE_CHUNK =? MSG_REQ_UPDATE) with false.
    change (MSG_UPDATE_CHUNK =? MSG_UPDATE_CHUNK) with true. cbv iota.
    destruct (handleChunk_refused dstack Hdstack tgt sid cs size total digest cs_bound Hsize Htotal
      p sid id _ e0 Hs ltac:(lia) Ht Esid Eid Elen ltac:(lia)) as (e1 & E1 & H1).
    exists e1, false. split; [done|]. split; [|done]. eapply same_buffer; [done|apply Hs].
  - exists e2, r. split; [done|]. exact (same_trans _ _ _ H0 (same_trans _ _ _ H1 H2)).
Qed.

Lemma dev_ok_same d d' : same d d' -> dev_ok d -> dev_ok d'.
Proof.
  intros H [[Hr Hw]|[Hf Hw]]; pose proof H as (_ & _ & Ew & _); [left|right]; rewrite Ew.
  - split; [by eapply same_receiving|]. by rewrite (same_last _ _ H).
  - split; [by eapply same_finished|done].
Qed.

Lemma dev_ok_idle d : dev_ok d -> idle tgt d.
Proof.
  intros [[(Hs & _ & _ & (_ & _ & Hm & _) & _) _]|[(Hs & Hm & _) _]];
    (split; [apply Hs|split; [apply Hs|done]]).
Qed.

Lemma device_step d p : willing -> dev_ok d -> authentic p ->
  exists d' r, dev_processMessage dstack p d = Some (d', r) /\ dev_ok d'.
Proof.
  intros Hwill Hd [Hp [(id & Hid & Hchunk)|Hreq]].
  - destruct Hd as [[Hr Hw]|[Hf Hw]].
    + destruct (processMessage_ok dstack Hdstack tgt sid cs size total digest cs_bound Hsize Htotal p d Hr Hp)
        as (d' & r & E & H); [destruct Hchunk as [-> _]; done|].
      exists d', r. split; [done|]. destruct H as [H|H].
      * eapply dev_ok_same; [done|by left].
      * by eapply grows_ok.
    + destruct (finished_chunk d p id Hf Hp Hid Hchunk) as (d' & r & E & H).
      exists d', r. split; [done|]. eapply dev_ok_same; [done|by right].
  - pose proof Hp as (_ & Hlen & _). destruct (has_target p Hlen) as (t & Et).
    pose proof (dev_ok_idle d Hd) as Hi. pose proof Hi as [Edt _].
    destruct (decide (t = tgt)) as [->|Hne].
    2: { exists d, false. split; [eapply process_other; [done|congruence]|done]. }
    destruct (request_received dstack Hdstack tgt sid cs size total digest cs_bound Hsize Htotal p d)
      as (d' & r & E & Hr & Ew & El); [done|split; [done|split; [done|by intros s; apply Hwill]]|].
    exists d', r. split; [done|]. left. split; [done|]. rewrite Ew, El. by rewrite takeZ_0.
Qed.

(** What holds on both sides at any time. *)
Definition net_ok (n : net) : Prop :=
  host_session image tgt sid cs total (nh n) (nu n) /\ Forall authentic (sent (port (nu n))) /\
  dev_ok (nd n).

Lemma sends_authentic h u h' u' : Forall authentic (sent (port u)) ->
  sends_chunks image tgt sid cs total h u h' u' -> Forall authentic (sent (port u')).
Proof.
  intros Ha (_ & [->|(m & id & -> & Hc & _ & Hid & Hm)]); [done|].
  apply Forall_app. split; [done|]. constructor; [|done]. split; [done|]. left. by exists id.
Qed.

Lemma authentic_buffer m d : authentic m ->
  dev_processBuffer dstack m (lenZ m) d = dev_processMessage dstack m d.
Proof.
  intros [Hm [(id & _ & Hc)|Hr]]; [by eapply chunk_buffer|by eapply request_buffer].
Qed.

Lemma net_step n n' : willing -> net_ok n -> step n n' -> net_ok n'.
Proof.
  intros Hwill (Hs & Ha & Hd) Hstep. destruct Hstep as [h u d h' u' k E|p h u d h' u' r Hp Hr E|p h u d d' r Hp E];
    cbn [nh nu nd] in *.
  - destruct (sendNextChunk_sends image tgt sid cs total Hcs Hsize Himage Htotal Hsid Htgt h u Hs)
      as (h1 & u1 & n1 & E1 & H1). rewrite E1 in E. injection E as -> -> ->.
    split; [apply H1|]. split; [by eapply sends_authentic|done].
  - destruct (host_message_ok image tgt sid cs total Hcs Hsize Himage Htotal Hsid Htgt hstack p h u Hs Hp Hr)
      as (h1 & u1 & r1 & E1 & H1). rewrite E1 in E. injection E as -> -> ->.
    split; [apply H1|]. split; [by eapply sends_authentic|done].
  - split; [done|]. split; [done|].
    pose proof (proj1 (list.Forall_forall _ _) Ha p Hp) as Hauth.
    rewrite (authentic_buffer p d Hauth) in E. destruct (device_step d p Hwill Hd Hauth) as (d1 & r1 & E1 & H1).
    rewrite E1 in E. by injection E as -> ->.
Qed.

(** The beginning of an update: the updater has the number of chunks, and the device has
    processed the request and written nothing. *)
Definition started (n : net) : Prop :=
  host_session image tgt sid cs total (nh n) (nu n) /\ Forall authentic (sent (port (nu n))) /\
  receiving (nd n) /\ written (dv_st (nd n)) = [].

Lemma started_last n : started n -> last_chunk_id (dv (nd n)) = -1.
Proof.
  intros (_ & _ & (_ & Hl & Hw & _) & E). rewrite E, lenZ_nil in Hw. pose proof cs_bound. nia.
Qed.

Lemma started_ok n : started n -> net_ok n.
Proof.
  intros Hn. pose proof (started_last n Hn) as El. destruct Hn as (Hs & Ha & Hr & Hw).
  split; [done|]. split; [done|]. left. split; [done|]. rewrite Hw, El. by rewrite takeZ_0.
Qed.

(** C4: From a started update on, over every sequence of three kinds of steps (the updater
    sends its next chunk; it processes a complete message, where an update response must
    give the right number of chunks and not refuse the chunk size; the device processes any
    message the updater has sent so far, again or out of order or never): the device has
    written the beginning of the image and accepted nothing, or written and accepted exactly
    the image; it can process any message sent so far, and the updater can send its next
    chunk. The periodic step of the updater (timeouts, retries) is not one of the steps; the
    device starts the update when asked, and the image is below 2^24 bytes. *)
Theorem transfer_safe n n' : willing -> started n -> rtc step n n' ->
  ((exists k, written (dv_st (nd n')) = takeZ k image) /\ accepted (dv_st (nd n')) = None \/
   written (dv_st (nd n')) = image /\ accepted (dv_st (nd n')) = Some image) /\
  (forall p, p ∈ sent (port (nu n')) ->
     exists d' r, dev_processBuffer dstack p (lenZ p) (nd n') = Some (d', r)) /\
  exists h' u' k, fwUpdate_sendNextChunk (nh n') (nu n') = Some (h', u', k).
Proof.
  intros Hwill Hn Hsteps.
  assert (net_ok n') as (Hs & Ha & Hd).
  { apply started_ok in Hn. induction Hsteps as [|n1 n2 n3 H12 _ IH]; [done|].
    apply IH. by eapply net_step. }
  split; [|split].
  - destruct Hd as [[(_ & _ & _ & _ & E) Hw]|[(_ & _ & _ & _ & Hout) Hw]].
    + left. split; [by eexists|done].
    + right. split; [done|]. rewrite Hw in Hout. destruct Hout as [[_ E]|[E _]]; [done|by destruct E].
  - intros p Hp. pose proof (proj1 (list.Forall_forall _ _) Ha p Hp) as Hauth.
    rewrite (authentic_buffer p _ Hauth).
    destruct (device_step (nd n') p Hwill Hd Hauth) as (d' & r & E & _). by exists d', r.
  - destruct (sendNextChunk_sends image tgt sid cs total Hcs Hsize Himage Htotal Hsid Htgt _ _ Hs)
      as (h' & u' & k & E & _). by exists h', u', k.
Qed.

(** ** Delivery without loss *)

(** The updater sends a chunk and the device processes it. *)
Definition exchange (n : net) : option net :=
  '(h, u, _) ← fwUpdate_sendNextChunk (nh n) (nu n);
  m ← list.last (sent (port u));
  '(d, _) ← dev_processBuffer dstack m (lenZ m) (nd n);
  Some (Net h u d).

Fixpoint exchanges (k : nat) (n : net) : option net :=
  match k with
  | O => Some n
  | S k => n ← exchange n; exchanges k n
  end.

(** Messages and chunks are written without an error. *)
Definition reliable : Prop :=
  (forall m (s : P), snd (send_data m s) = 0) /\
  forall t slot o data (s : St), NOT_STARTED <= snd (fwUpdate_writeImageChunk t slot o data s).

Lemma next_message d p data : reliable -> receiving d -> complete p ->
  target_device p = Some tgt -> chunk_of sid p (last_chunk_id (dv d) + 1) data ->
  lenZ data = chunk_len cs size total (last_chunk_id (dv d) + 1) ->
  exists d' r, dev_processMessage dstack p d = Some (d', r) /\ grows tgt sid cs size total digest p d d'.
Proof.
  intros [_ Hrel] Hr (_ & Hlen & _) Et Hchunk Hd.
  assert (session_target (base d) = tgt) as Etgt by apply Hr.
  destruct (process_handled dstack Hdstack (grows tgt sid cs size total digest p) p d Hlen)
    as (e0 & e1 & e2 & r & E & H0 & H1 & H2); [congruence| |].
  - intros e0 H0. rewrite <- (same_last _ _ H0) in Hchunk, Hd.
    pose proof (same_receiving _ _ _ _ _ _ _ _ H0 Hr) as Hr0. unfold dev_handle.
    pose proof Hchunk as [Ety _]. rewrite Ety. cbn [mbind option_bind].
    change (MSG_UPDATE_CHUNK =? MSG_REQ_UPDATE) with false.
    change (MSG_UPDATE_CHUNK =? MSG_UPDATE_CHUNK) with true. cbv iota.
    destruct (handleChunk_next dstack Hdstack tgt sid cs size total digest cs_bound Hsize Htotal
      p _ data e0 Hr0 Hchunk Hd Et) as (e1 & E1 & H1). cbv zeta in H1.
    rewrite (proj2 (Z.ltb_ge _ _)) in H1 by apply Hrel.
    eexists e1, _. split; [exact E1|]. split; [by eapply grows_buffer|done].
  - exists e2, r. split; [done|]. by eapply grows_trans.
Qed.

(** The chunks sent so far have all been received. *)
Definition in_step (k : Z) (n : net) : Prop :=
  host_session image tgt sid cs total (nh n) (nu n) /\ next_chunk_id (nh n) = k /\
  last_chunk_id (dv (nd n)) = k - 1 /\ dev_ok (nd n) /\ (k < total -> receiving (nd n)).

Lemma exchange_ok n k : reliable -> in_step k n -> 0 <= k < total ->
  exists n', exchange n = Some n' /\ in_step (k + 1) n'.
Proof.
  intros Hrel (Hs & Hnext & Hlast & Hd & Hr) Hk. specialize (Hr ltac:(lia)). unfold exchange.
  destruct (sendNextChunk_ok image tgt sid cs total Hcs Hsize Himage Htotal Hsid Htgt _ _ Hs)
    as (h & u & j & -> & Hs' & Hsent). cbn [mbind option_bind].
  rewrite Hnext, (proj2 (Z.ltb_lt _ _)) in Hsent by lia.
  destruct Hsent as (m & -> & Hc & Ht & Hchunk & Hn). rewrite list.last_snoc. cbn [mbind option_bind].
  rewrite (chunk_buffer dstack sid m k _ (nd n) Hc Hchunk).
  assert (last_chunk_id (dv (nd n)) + 1 = k) as Ek by lia.
  destruct (chunk_inside image cs total Hcs Hsize Htotal k Hk) as (_ & _ & Hlen).
  destruct (next_message (nd n) m (image_chunk k)) as (d & r & -> & Hg); [done..|by rewrite Ek|by rewrite Ek|].
  cbn [mbind option_bind]. exists (Net h u d). split; [done|].
  assert (written (dv_st (nd n)) = takeZ ((last_chunk_id (dv (nd n)) + 1) * cs) image) as Hw.
  { destruct Hd as [[_ Hw]|[(_ & _ & Hl & _) _]]; [done|]. destruct Hr as (_ & ? & _). lia. }
  pose proof (grows_ok _ _ _ _ Hk Hchunk Hw Hg) as Hd'.
  destruct Hg as (_ & _ & _ & _ & El & Hout).
  split; [done|]. split; [cbn; rewrite Hn by apply Hrel; lia|]. split; [cbn; lia|]. split; [done|].
  intros Hlt. destruct Hout as [?|(_ & _ & Hl & _)]; [done|]. cbn in *. lia.
Qed.

Lemma exchanges_ok j : forall n k, reliable -> in_step k n -> 0 <= k -> k + Z.of_nat j <= total ->
  exists n', exchanges j n = Some n' /\ in_step (k + Z.of_nat j) n'.
Proof.
  induction j as [|j IH]; intros n k Hrel Hn Hk Hj.
  - exists n. split; [done|]. by rewrite Z.add_0_r.
  - destruct (exchange_ok n k Hrel Hn ltac:(lia)) as (n1 & E & Hn1). cbn [exchanges]. rewrite E.
    cbn [mbind option_bind]. destruct (IH n1 (k + 1) Hrel Hn1 ltac:(lia) ltac:(lia)) as (n2 & E2 & Hn2).
    exists n2. split; [done|]. by replace (k + Z.of_nat (S j)) with (k + 1 + Z.of_nat j) by lia.
Qed.

(** C5: Without loss and write errors, one exchange for each chunk transfers the whole
    image, of less than 2^24 bytes, and the device accepts it. *)
Theorem transfer_completes n : reliable -> started n -> next_chunk_id (nh n) = 0 ->
  exists n', exchanges (Z.to_nat total) n = Some n' /\
    written (dv_st (nd n')) = image /\ accepted (dv_st (nd n')) = Some image.
Proof.
  intros Hrel Hn Hnext. pose proof (total_range cs size total cs_bound Hsize Htotal) as [Ht _].
  pose proof (started_last n Hn) as El. pose proof (started_ok n Hn) as (Hs & _ & Hd).
  destruct (exchanges_ok (Z.to_nat total) n 0 Hrel) as (n' & E & _ & _ & Hl & Hd' & _); [|lia|lia|].
  { split_and!; [done|done|lia|done|by intros _; apply Hn]. }
  exists n'. split; [done|].
  destruct Hd' as [[(_ & Hlt & _) _]|[(_ & _ & _ & _ & Hout) Hw]]; [lia|]. split; [done|].
  rewrite Hw in Hout. destruct Hout as [[_ Ea]|[E' _]]; [done|by destruct E'].
Qed.
End Network.

(** ** The start *)

Section Start.
Context {P : Type} `{Hlog : logged_platform P}.
Context {St : Type} `{Hfl : flash_device St}.
Context (hstack dstack : list Z) (Hhstack : lenZ hstack = 42) (Hbytes : Forall byte hstack).
Context (Hdstack : lenZ dstack = 42).



End Start.
