(* ===== verification/FirmwarePackageProps.v ===== *)
(** * What a firmware package adds to a script

    The commands of a manifest that is accepted, and the checks its images have passed. *)

From stdpp Require Import strings pretty.
From S2P Require Import Prelude Utilities Md5 Md5Props FirmwarePackage.
Import FirmwarePackage.
#[local] Open Scope string_scope.
#[local] Open Scope list_scope.
#[local] Open Scope Z_scope.

Module FirmwarePackageProps.

(** ** Reasoning about the functions that add commands *)

(** On success the commands [Q] describes are added; errors are negative. *)
Definition adds {A} (m : M A) (Q : A -> list string -> Prop) : Prop :=
  forall cmds cmds' r, m cmds = Some (cmds', r) ->
    match r with
    | Ret x => exists new, cmds' = cmds ++ new /\ Q x new
    | Stop err => err < 0
    | Throw => True
    end.

Lemma adds_ret {A} (x : A) (Q : A -> list string -> Prop) : Q x [] -> adds (ret x) Q.
Proof. intros H cmds cmds' r [= <- <-]. exists []. by rewrite app_nil_r. Qed.

Lemma adds_stop {A} err (Q : A -> list string -> Prop) : err < 0 -> adds (stop err) Q.
Proof. by intros H cmds cmds' r [= <- <-]. Qed.

Lemma adds_yaml {A} (x : option A) (Q : A -> list string -> Prop) :
  (forall y, x = Some y -> Q y []) -> adds (yaml x) Q.
Proof.
  intros H cmds cmds' r [= <- <-]. destruct x as [y|]; [|done].
  exists []. rewrite app_nil_r. auto.
Qed.

Lemma adds_defined {A} (x : option A) (Q : A -> list string -> Prop) :
  (forall y, x = Some y -> Q y []) -> adds (defined x) Q.
Proof.
  intros H cmds cmds' r. unfold defined. destruct x as [y|]; cbn; [|done]. intros [= <- <-].
  exists []. rewrite app_nil_r. auto.
Qed.

Lemma adds_push c (Q : unit -> list string -> Prop) : Q tt [c] -> adds (push_back c) Q.
Proof. intros H cmds cmds' r [= <- <-]. by exists [c]. Qed.

Lemma adds_bind {A B} (m : M A) (f : A -> M B) R Q :
  adds m R -> (forall x new, R x new -> adds (f x) (fun y new' => Q y (new ++ new'))) ->
  adds (x ← m; f x) Q.
Proof.
  intros Hm Hf cmds cmds' r. unfold mbind, M_bind, bind.
  destruct (m cmds) as [[c1 [x|err|]]|] eqn:E; [|intros [= <- <-]..|done].
  - apply Hm in E as (new & -> & HR). intros Hx. apply (Hf _ _ HR) in Hx.
    destruct r; try done. destruct Hx as (new' & -> & HQ). exists (new ++ new'). by rewrite app_assoc.
  - by apply Hm in E.
  - done.
Qed.

(** The next function adds nothing. *)
Lemma adds_pure {A B} (m : M A) (f : A -> M B) (R : A -> Prop) Q :
  adds m (fun x new => new = [] /\ R x) -> (forall x, R x -> adds (f x) Q) -> adds (x ← m; f x) Q.
Proof. intros Hm Hf. eapply adds_bind; [exact Hm|]. intros x new [-> HR]. by apply Hf. Qed.

Lemma adds_get {A B} (x : option A) (f : A -> M B) Q :
  (forall y, x = Some y -> adds (f y) Q) -> adds (y ← yaml x; f y) Q.
Proof.
  intros H. eapply (adds_pure _ _ (fun y => x = Some y)); [|done]. apply adds_yaml. auto.
Qed.

Lemma adds_before {B} c (m : M B) Q :
  adds m (fun y new => Q y (c :: new)) -> adds (_ ← push_back c; m) Q.
Proof.
  intros H. eapply (adds_bind _ _ (fun _ new => new = [c])); [by apply adds_push|].
  by intros _ ? ->.
Qed.

(** The commands of the elements of a list, one after the other. *)
Definition in_turn {A} (R : A -> list string -> Prop) (l : list A) (new : list string) : Prop :=
  exists parts, Forall2 R l parts /\ new = concat parts.

Lemma adds_each {A} (l : list A) (f : A -> M unit) R :
  (forall x, adds (f x) (fun _ => R x)) -> adds (for_each l f) (fun _ => in_turn R l).
Proof.
  intros Hf. induction l as [|x l IH]; cbn [for_each].
  - apply adds_ret. by exists [].
  - eapply adds_bind; [apply Hf|]. cbn beta. intros _ new HR cmds cmds' r E. apply IH in E.
    destruct r; try done. destruct E as (new' & -> & parts & HF & ->).
    exists (concat parts). split; [done|]. exists (new :: parts). split; [by constructor|done].
Qed.

(** *** Commands are only added *)

Definition extends {A} (m : M A) : Prop :=
  forall cmds cmds' r, m cmds = Some (cmds', r) -> exists new, cmds' = cmds ++ new.

Lemma extends_same {A} (m : M A) :
  (forall cmds cmds' r, m cmds = Some (cmds', r) -> cmds' = cmds) -> extends m.
Proof. intros H cmds cmds' r ->%H. exists []. by rewrite app_nil_r. Qed.

Lemma extends_ret {A} (x : A) : extends (ret x).
Proof. apply extends_same. by intros ??? [= <- _]. Qed.
Lemma extends_stop {A} err : extends (A := A) (stop err).
Proof. apply extends_same. by intros ??? [= <- _]. Qed.
Lemma extends_yaml {A} (x : option A) : extends (yaml x).
Proof. apply extends_same. by intros ??? [= <- _]. Qed.
Lemma extends_defined {A} (x : option A) : extends (defined x).
Proof. apply extends_same. unfold defined. intros ??? H. by destruct x; simplify_eq/=. Qed.
Lemma extends_push c : extends (push_back c).
Proof. intros ??? [= <- _]. by exists [c]. Qed.

Lemma extends_bind {A B} (m : M A) (f : A -> M B) :
  extends m -> (forall x, extends (f x)) -> extends (x ← m; f x).
Proof.
  intros Hm Hf cmds cmds' r. unfold mbind, M_bind, bind.
  destruct (m cmds) as [[c1 o]|] eqn:E; [|done]. apply Hm in E as [new ->].
  destruct o as [x|err|]; [|intros [= <- _]; by exists new..].
  intros [new' ->]%Hf. exists (new ++ new'). by rewrite app_assoc.
Qed.

Lemma extends_each {A} (l : list A) f : (forall x, extends (f x)) -> extends (for_each l f).
Proof. intros Hf. induction l; [apply extends_ret|]. apply extends_bind; auto. Qed.

Create HintDb extends.
#[local] Hint Resolve extends_ret extends_stop extends_yaml extends_defined extends_push : extends.

(** ** Manifests *)

Section Manifest.
Context {P : Type} `{!package_env P}.
Context (stack : md5Context_t) (errno : Z).
Context (Hstack : lenZ (md5_buffer stack) = 64) (Herrno : 0 < errno).

(** An optional scalar of an image. *)
Definition given {A} (image : node) (key : string) (get : node -> option A) : option A :=
  x ← node_at image key; if IsDefined x && IsScalar x then get x else None.

(** What an image must have been for its upload: [file] is named in the manifest, and its
    size and digest are the ones of the manifest when that gives them. *)
Definition image_ok (p : P) (images : node) (zip : option archive) (name : string)
    (slot : Z) (file : string) : Prop :=
  exists image entry path, node_at images name = Some image /\ IsMap image = true /\
    node_at image "filename" = Some entry /\ as_string entry = Some path /\
    slot = default 0 (given image "slot" as_int) /\
    match zip with
    | Some zip => file = ("pkg://" ++ path)%string /\
        exists size, mz_zip_reader_locate_file zip (c_str path) = Some size /\
          forall n, given image "size" as_int = Some n -> u32 n = size
    | None => let stream := open_file path p in
        file = path /\ Md5.is_good stream = true /\
        (forall n, given image "size" as_int = Some n -> u32 n = lenZ (Md5.is_contents stream)) /\
        (forall text, given image "md5sum" as_string = Some text ->
           exists hash, Md5.md5_from_string (chars text) = Some hash /\
             Md5.hash_bytes hash = Md5.hash_bytes (md5_spec (Md5.is_contents stream)))
    end.

Definition action_ok (p : P) (images : node) (zip : option archive) (cmd : node * node)
    (new : list string) : Prop :=
  exists name arg, as_string (fst cmd) = Some name /\ as_string (snd cmd) = Some arg /\
    if bool_decide (name = "target"%string) then arg ∈ target_names /\ new = ["target=" ++ arg]%string
    else if bool_decide (name = "image"%string) then
      exists slot file, image_ok p images zip arg slot file /\
        new = [("slot=" ++ pretty slot)%string; ("upload=" ++ file)%string]
    else new = [(name ++ "=" ++ arg)%string].

Definition target_ok (p : P) (images : node) (zip : option archive) (target : node * node)
    (new : list string) : Prop :=
  exists name rest, as_string (fst target) = Some name /\ new = (":" ++ name)%string :: rest /\
    IsSequence (snd target) = true /\
    in_turn (fun actions new => exists cmds, entries actions = Some cmds /\
               in_turn (action_ok p images zip) cmds new) (elements (snd target)) rest.

Definition manifest_ok (p : P) (manifest : node) (zip : option archive) (new : list string) : Prop :=
  exists images steps, node_at manifest "images" = Some images /\ IsMap images = true /\
    node_at manifest "steps" = Some steps /\ IsSequence steps = true /\
    in_turn (fun step new => exists targets, entries step = Some targets /\
               in_turn (target_ok p images zip) targets new) (elements steps) new.

Lemma adds_optional {A} image key (get : node -> option A) f (R : A -> Prop) :
  (forall x, adds (f x) (fun _ new => new = [] /\ exists y, get x = Some y /\ R y)) ->
  adds (optional image key f)
    (fun _ new => new = [] /\ forall y, given image key get = Some y -> R y).
Proof.
  intros Hf. unfold optional. apply adds_get. intros x Hx. unfold given. rewrite Hx. cbn [mbind option_bind].
  destruct (IsDefined x && IsScalar x).
  - intros cmds cmds' r E. apply Hf in E. destruct r; try done.
    destruct E as (new & -> & -> & y & Hy & HR). exists []. split; [done|]. split; [done|].
    intros y'. rewrite Hy. by intros [= <-].
  - apply adds_ret. by split.
Qed.

Lemma size_checked image size : 
  adds (optional image "size" (fun x =>
          image_size ← yaml (as_int x);
          guard_eq (u32 image_size) size PKG_ERR_IMAGE_FILE_SIZE_MISMATCH))
    (fun _ new => new = [] /\ forall n, given image "size" as_int = Some n -> u32 n = size).
Proof.
  apply (adds_optional _ _ _ _ (fun n => u32 n = size)). intros x. apply adds_get. intros n Hn.
  unfold guard_eq. destruct (Z.eqb_spec (u32 n) size); [|by apply adds_stop].
  apply adds_ret. split; [done|]. by exists n.
Qed.

Lemma digest_checked image file_hash :
  adds (optional image "md5sum" (fun x =>
          hash_str ← yaml (as_string x);
          image_hash ← defined (Md5.md5_from_string (chars hash_str));
          if bool_decide (Md5.hash_bytes image_hash = Md5.hash_bytes file_hash) then ret tt
          else stop PKG_ERR_IMAGE_FILE_MD5_MISMATCH))
    (fun _ new => new = [] /\ forall text, given image "md5sum" as_string = Some text ->
       exists hash, Md5.md5_from_string (chars text) = Some hash /\
         Md5.hash_bytes hash = Md5.hash_bytes file_hash).
Proof.
  apply (adds_optional _ _ _ _ (fun text => exists hash, Md5.md5_from_string (chars text) = Some hash /\
    Md5.hash_bytes hash = Md5.hash_bytes file_hash)).
  intros x. apply adds_get. intros text Ht.
  apply (adds_pure _ _ (fun hash => Md5.md5_from_string (chars text) = Some hash)); [by apply adds_defined|].
  intros hash Hh. case_bool_decide; [|by apply adds_stop].
  apply adds_ret. split; [done|]. exists text. split; [done|]. by exists hash.
Qed.

(** The file of an image: its name, size and digest. *)
Lemma file_details p path :
  (forall f, lenZ (Md5.is_contents (open_file f p)) < 2147483648) ->
  adds ('(_, file_size, file_hash, err) ←
          defined (Md5.md5_file_details stack errno (Some (open_file path p)) 0 zero_hash);
        if negb (err =? 0) then stop PKG_ERR_IMAGE_FILE_NOT_FOUND
        else ret (path, file_size, file_hash))
    (fun r new => new = [] /\ Md5.is_good (open_file path p) = true /\
       r = (path, lenZ (Md5.is_contents (open_file path p)),
            md5_spec (Md5.is_contents (open_file path p)))).
Proof.
  intros Hfiles. destruct (Md5.is_good (open_file path p)) eqn:Hg.
  - rewrite file_details_ok by done. eapply adds_pure; [apply adds_defined; intros y Hy; split; [done|exact Hy]|].
    intros r [= <-]. by apply adds_ret.
  - unfold Md5.md5_file_details. rewrite Hg.
    eapply adds_pure; [apply adds_defined; intros y Hy; split; [done|exact Hy]|].
    intros r [= <-]. cbv beta iota. rewrite (proj2 (Z.eqb_neq _ _)) by lia. by apply adds_stop.
Qed.

Lemma image_added p images zip name :
  (forall f, lenZ (Md5.is_contents (open_file f p)) < 2147483648) ->
  adds (image_command stack errno p images zip name) (fun _ new => exists slot file,
    image_ok p images zip name slot file /\
    new = [("slot=" ++ pretty slot)%string; ("upload=" ++ file)%string]).
Proof.
  intros Hfiles. unfold image_command. apply adds_get. intros image Hi.
  destruct (negb (IsDefined image) || negb (IsMap image)) eqn:Em; [by apply adds_stop|].
  apply orb_false_iff in Em as [_ Em%negb_false_iff]. apply adds_get. intros entry He.
  destruct (negb (IsDefined entry) && negb (IsScalar entry)); [by apply adds_stop|].
  apply adds_get. intros path Hp.
  set (slot := default 0 (given image "slot" as_int)).
  assert (forall file, image_ok p images zip name slot file -> adds
    (slot ← yaml (node_at image "slot");
     image_slot ← (if IsDefined slot && IsScalar slot then yaml (as_int slot) else ret 0);
     _ ← push_back ("slot=" ++ pretty image_slot)%string;
     push_back ("upload=" ++ file)%string)
    (fun _ new => exists slot file, image_ok p images zip name slot file /\
       new = [("slot=" ++ pretty slot)%string; ("upload=" ++ file)%string])) as Hend.
  { intros file Hok. apply adds_get. intros x Hx.
    apply (adds_pure _ _ (fun n => n = slot)).
    - subst slot. unfold given. rewrite Hx. cbn [mbind option_bind].
      destruct (IsDefined x && IsScalar x); [|by apply adds_ret].
      apply adds_yaml. by intros y ->.
    - intros n ->. apply adds_before, adds_push.
      by exists slot, file. }
  destruct zip as [zip|].
  - destruct (mz_zip_reader_locate_file zip (c_str path)) as [size|] eqn:Ez.
    + eapply (adds_pure _ _ (fun r => r = (("pkg://" ++ path)%string, size, zero_hash)));
        [by apply adds_ret|]. intros r Hr. rewrite Hr. cbv beta iota.
      eapply adds_pure; [apply size_checked|]. intros ? Hs.
      eapply (adds_pure _ _ (fun _ => True)); [by apply adds_ret|]. intros _ _. apply Hend.
      exists image, entry, path. split_and!; try done. by exists size.
    + eapply (adds_pure _ _ (fun _ => False)); [by apply adds_stop|done].
  - eapply adds_pure; [by apply file_details|]. intros r [Hg Hr]. rewrite Hr. cbv beta iota.
    eapply adds_pure; [apply size_checked|]. intros ? Hs.
    eapply adds_pure; [apply digest_checked|]. intros ? Hd. apply Hend.
    by exists image, entry, path.
Qed.

Lemma action_added p images zip cmd :
  (forall f, lenZ (Md5.is_contents (open_file f p)) < 2147483648) ->
  adds (action stack errno p images zip cmd) (fun _ => action_ok p images zip cmd).
Proof.
  intros Hfiles. unfold action. apply adds_get. intros name Hn. apply adds_get. intros arg Ha.
  assert (forall new, (if bool_decide (name = "target"%string)
      then arg ∈ target_names /\ new = ["target=" ++ arg]%string
      else if bool_decide (name = "image"%string) then
        exists slot file, image_ok p images zip arg slot file /\
          new = [("slot=" ++ pretty slot)%string; ("upload=" ++ file)%string]
      else new = [(name ++ "=" ++ arg)%string]) -> action_ok p images zip cmd new) as H
    by (intros new Hnew; by exists name, arg).
  destruct (bool_decide (name = "target"%string)).
  - case_bool_decide; [|by apply adds_stop]. by apply adds_push, H.
  - destruct (bool_decide (name = "image"%string)); [|by apply adds_push, H].
    intros cmds cmds' r E. apply image_added in E; [|done]. destruct r; try done.
    destruct E as (new & -> & Hnew). exists new. split; [done|]. by apply H.
Qed.

Lemma target_added p images zip target :
  (forall f, lenZ (Md5.is_contents (open_file f p)) < 2147483648) ->
  adds (target_step stack errno p images zip target) (fun _ => target_ok p images zip target).
Proof.
  intros Hfiles. destruct target as [key actions]. unfold target_step.
  destruct (negb (IsScalar key)); [by apply adds_stop|].
  destruct (negb (IsSequence actions)) eqn:Es; [by apply adds_stop|]. apply negb_false_iff in Es.
  apply adds_get. intros name Hn. apply adds_before.
  intros cmds cmds' r E. eapply adds_each in E; [destruct r; try done|].
  - destruct E as (new & -> & Hnew). exists new. split; [done|]. exists name, new.
    split; [done|]. split; [done|]. split; [done|]. exact Hnew.
  - intros x. apply adds_get. intros l Hl. cbv beta. intros c c' r' E'.
    eapply adds_each in E'; [destruct r'; try done|intros y; by apply action_added].
    destruct E' as (new & -> & Hnew). exists new. split; [done|]. by exists l.
Qed.

Lemma manifest_added p manifest zip :
  (forall f, lenZ (Md5.is_contents (open_file f p)) < 2147483648) ->
  adds (process_manifest stack errno p manifest zip) (fun _ => manifest_ok p manifest zip).
Proof.
  intros Hfiles. unfold process_manifest. apply adds_get. intros images Hi.
  destruct (negb (IsMap images)) eqn:Em; [by apply adds_stop|]. apply negb_false_iff in Em.
  apply adds_get. intros steps Hs.
  destruct (negb (IsSequence steps)) eqn:Es; [by apply adds_stop|]. apply negb_false_iff in Es.
  intros cmds cmds' r E. eapply adds_each in E; [destruct r; try done|].
  - destruct E as (new & -> & Hnew). exists new. split; [done|]. exists images, steps.
    by split_and!.
  - intros x. apply adds_get. intros l Hl. cbv beta. intros c c' r' E'.
    eapply adds_each in E'; [destruct r'; try done|intros y; by apply target_added].
    destruct E' as (new & -> & Hnew). exists new. split; [done|]. by exists l.
Qed.

(** Whatever happens, the commands that were there stay in front. *)
Lemma process_extends p manifest zip : extends (process_manifest stack errno p manifest zip).
Proof.
  assert (forall image key f, (forall x, extends (f x)) -> extends (optional image key f)) as Hopt.
  { intros image key f Hf. apply extends_bind; [auto with extends|]. intros x.
    case_match; auto with extends. }
  assert (forall n m err, extends (guard_eq n m err)) as Hguard
    by (intros n m err; unfold guard_eq; case_match; auto with extends).
  unfold process_manifest, target_step, action, image_command.
  repeat first
    [ match goal with |- forall _, extends _ => intros ? end
    | apply extends_bind | apply extends_each | apply Hopt | apply Hguard
    | progress case_match | progress auto with extends ].
Qed.

Lemma manifest_extends file p cmds p' cmds' r :
  processPackageManifest stack errno file p cmds = Some (p', cmds', r) ->
  exists new, cmds' = cmds ++ new.
Proof.
  unfold processPackageManifest. intros H.
  destruct (YAML_LoadFile file p) as [manifest|]; [|exists []; rewrite app_nil_r; congruence].
  destruct (IsNull manifest); [exists []; rewrite app_nil_r; congruence|]. revert H. cbv zeta.
  destruct (process_manifest _ _ _ _ _ _) as [[c o]|] eqn:E; [|done]. cbn [mbind option_bind].
  intros [= _ <- _]. by eapply process_extends.
Qed.

Lemma package_extends file p cmds zip cmds' r :
  openFirmwarePackage stack errno file p cmds = Some (zip, cmds', r) -> exists new, cmds' = cmds ++ new.
Proof.
  assert (exists new, cmds = cmds ++ new) as Hno by (exists []; by rewrite app_nil_r).
  unfold openFirmwarePackage. destruct (mz_zip_reader_init_file _ _) as [z|]; [|by intros [= _ <- _]].
  destruct (mz_zip_reader_extract_file_to_heap _ _) as [[|x bytes]|]; [by intros [= _ <- _]| |by intros [= _ <- _]].
  destruct (YAML_Load _) as [manifest|]; [|done]. cbn [mbind option_bind].
  destruct (IsDefined manifest); [|by intros [= _ <- _]].
  destruct (process_manifest _ _ _ _ _ _) as [[c o]|] eqn:E; [|done]. cbn [mbind option_bind].
  apply process_extends in E. by destruct o; [intros [= _ <- _]..|].
Qed.

(** C11: When a manifest that is not in a zip archive is accepted (files below 2^31 bytes),
    the commands of its steps are added in order. For each action with the key image, the
    image is defined in the manifest, its file can be read, and its size and MD5 digest are
    those of the manifest where the manifest gives them; it becomes the slot and upload
    commands. The argument of each action with the key target is a known target. The keys of
    the steps become labels and all other actions are added as they are, without a check. *)
Theorem package_commands_checked file p cmds p' cmds' :
  (forall q f, lenZ (Md5.is_contents (open_file f q)) < 2147483648) ->
  processPackageManifest stack errno file p cmds = Some (p', cmds', PKG_SUCCESS) ->
  exists manifest new, YAML_LoadFile file p = Some manifest /\ cmds' = cmds ++ new /\
    manifest_ok p' manifest None new.
Proof.
  intros Hfiles. unfold processPackageManifest.
  destruct (YAML_LoadFile file p) as [manifest|]; [|intros [= _ _ E]; done].
  destruct (IsNull manifest); [intros [= _ _ E]; done|]. cbv zeta.
  set (q := match getParentDirectory _ _ with Some _ => _ | None => _ end).
  destruct (process_manifest stack errno q manifest None cmds) as [[c r]|] eqn:E; [|done].
  cbn [mbind option_bind]. intros [= -> -> Er]. pose proof (manifest_added p' manifest None (Hfiles p')) as H.
  apply H in E. destruct r as [x|err|].
  - destruct E as (new & -> & Hnew). by exists manifest, new.
  - unfold PKG_SUCCESS in Er. lia.
  - done.
Qed.
End Manifest.
End FirmwarePackageProps.
