(* ===== verification/FirmwareCommandsProps.v ===== *)
(** * What the commands of a script do to it

    A script goes forward: whatever a command does, the queue is afterwards a part of what
    followed it, unless the command waits, or brings in a package.  The commands a
    manifest adds are understood. *)

From Stdlib Require Import Ascii.
From stdpp Require Import strings pretty.
From S2P Require Import Prelude CommTx Layouts Utilities Md5 FirmwareTypes FirmwareUpdate.
From S2P Require Import FirmwareUpdater FirmwarePackage FirmwareCommands FirmwarePackageProps.
Import FirmwareUpdate ISFirmwareUpdater FirmwarePackage FirmwareCommands FirmwarePackageProps.
#[local] Open Scope string_scope.
#[local] Open Scope list_scope.
#[local] Open Scope Z_scope.

Module FirmwareCommandsProps.

Section Scripts.
Context {P : Type} `{!platform P, !package_env P}.
Context (stack : list Z) (context : md5Context_t) (errno : Z) (devInfo : list Z).
Implicit Types e : host_state P.

(** A label, when there is one, begins with a colon. *)
Definition label_ok e : Prop :=
  failLabel (sc e) = ""%string \/ starts_with_colon (failLabel (sc e)) = true.

(** The queue of [e'] is the end of [cmds], and its label is right when that of [e] is. *)
Definition ends (cmds : list string) e e' : Prop :=
  commands (sc e') `suffix_of` cmds /\ (label_ok e -> label_ok e').

Lemma ends_trans cmds e1 e2 e3 : ends cmds e1 e2 -> ends (commands (sc e2)) e2 e3 -> ends cmds e1 e3.
Proof. intros [S1 L1] [S2 L2]. split; [by etrans|auto]. Qed.

(** A change that is not one of the queue and the label. *)
Lemma ends_same e e' : commands (sc e') = commands (sc e) -> failLabel (sc e') = failLabel (sc e) ->
  ends (commands (sc e)) e e'.
Proof. intros Hc Hf. unfold ends, label_ok. by rewrite Hc, Hf. Qed.

Lemma sc_now e : sc (fst (now e)) = sc e.
Proof. unfold now. by destruct (current_timeMs (up e)). Qed.

Lemma sc_messageAge e : sc (fst (messageAge e)) = sc e.
Proof. unfold messageAge. by destruct (fwUpdate_getLastMessageAge _ _). Qed.

Lemma sc_sending f e e' ok : sending f e = Some (e', ok) -> sc e' = sc e.
Proof. unfold sending. destruct (f _ _) as [[[h u] r]|]; [|done]. by intros [= <- _]. Qed.

Lemma sc_target t e : sc (set_target_device t e) = sc e.
Proof. unfold set_target_device. by destruct (setTarget t (ho e) (up e)). Qed.

Lemma skip_to_suffix label cmds : skip_to label cmds `suffix_of` cmds.
Proof.
  induction cmds as [|c cmds IH]; [done|]. cbn [skip_to]. case_bool_decide; [done|].
  by apply suffix_cons_r.
Qed.

Lemma error_ends name e : ends (commands (sc e)) e (handleCommandError name e).
Proof.
  unfold handleCommandError. destruct (hasPendingCommands e); case_bool_decide as Hl; cbn in *;
    (split; [cbn; (apply suffix_nil || apply skip_to_suffix)|]); unfold label_ok; by cbn.
Qed.

Lemma pop_ends cmd cmds e e' : ends (cmd :: cmds) e e' -> ends cmds e (pop_command e').
Proof.
  intros [Hs Hl]. unfold pop_command. destruct (commands (sc e')) as [|c cs] eqn:E.
  - split; [cbn; rewrite E; apply suffix_nil|]. exact Hl.
  - split; [cbn|exact Hl]. destruct Hs as [[|k ks] Hk]; [injection Hk as _ ->; done|].
    injection Hk as _ ->. exists (ks ++ [c]). by rewrite <- app_assoc.
Qed.

(** Sending a message changes the buffer of the host, the port and the time of the next chunk. *)
Lemma sent_only p aux h (u : updater P) h' u' ok : host_sendPayload p aux h u = Some (h', u', ok) ->
  exists b q t, h' = on_base (set_build_buffer b) h /\ u' = set_port q (set_nextChunkSend t u).
Proof.
  unfold host_sendPayload, fwUpdate_sendPayload.
  destruct (fwUpdate_packPayload _ _ _ _) as [[buffer n]|]; [|done]. cbn [mbind option_bind].
  destruct (target_device p) as [t|]; [|done]. cbn [mbind option_bind].
  change (fwUpdate_writeToWire t (takeZ n buffer) u) with (writeToWire t (takeZ n buffer) u).
  unfold writeToWire, on_port. destruct (platform_timeMs _) as [p1 x]. cbn [port set_port set_nextChunkSend].
  destruct (send_data _ _) as [p2 r]. cbn [mbind option_bind]. intros [= <- <- _].
  by exists buffer, p2, (u32 (x + chunkDelay)).
Qed.

(** ** Each command *)

Lemma package_ends arg e e' : cmd_package context errno arg e = Some e' ->
  exists added, ends (commands (sc e) ++ added) e e'.
Proof.
  unfold cmd_package. intros H.
  assert (exists e1 added r, commands (sc e1) = commands (sc e) ++ added /\
    failLabel (sc e1) = failLabel (sc e) /\
    e' = (if negb (r =? PKG_SUCCESS) then handleCommandError (activeCommand (sc e1)) e1 else e1))
    as (e1 & added & r & Hc & Hf & ->).
  { destruct (ends_with ".yaml" arg).
    - destruct (processPackageManifest _ _ _ _ _) as [[[p cmds] r]|] eqn:E; [|done].
      cbn [mbind option_bind] in H. injection H as <-.
      apply manifest_extends in E as [added ->]. by exists (on_platform p (on_sc (set_commands (commands (sc e) ++ added)) e)), added, r.
    - destruct (openFirmwarePackage _ _ _ _ _) as [[[z cmds] r]|] eqn:E; [|done].
      cbn [mbind option_bind] in H. injection H as <-.
      apply package_extends in E as [added ->]. by exists (on_sc (set_zip_archive z) (on_sc (set_commands (commands (sc e) ++ added)) e)), added, r. }
  exists added. rewrite <- Hc. eapply ends_trans.
  - split; [reflexivity|]. intros Hl. unfold label_ok. rewrite Hf. exact Hl.
  - destruct (negb (r =? PKG_SUCCESS)); [apply error_ends|by apply ends_same].
Qed.

Lemma label_ends e : ends (commands (sc e)) e (cmd_label e).
Proof.
  unfold cmd_label. set (e1 := match named_target _ with Some _ => _ | None => _ end).
  assert (sc e1 = set_activeStep (c_str (String.substring 1 (String.length (activeCommand (sc e)) - 1)
    (activeCommand (sc e)))) (sc e)) as E.
  { subst e1. by destruct (named_target _); [rewrite sc_target|]. }
  split; [cbn; by rewrite E|]. intros _. by left.
Qed.

Lemma target_ends arg e : ends (commands (sc e)) e (cmd_target arg e).
Proof.
  unfold cmd_target. destruct (named_target arg); [|apply error_ends].
  by apply ends_same; rewrite sc_target.
Qed.

Lemma on_error_ends arg e : ends (commands (sc e)) e (cmd_on_error arg e).
Proof.
  unfold cmd_on_error. set (e1 := on_sc _ e). destruct (starts_with_colon _) eqn:E.
  - split; [done|]. intros _. by right.
  - set (e2 := on_sc (set_failLabel "") e1).
    apply (ends_trans _ _ e2); [|apply error_ends]. split; [done|]. intros _. by left.
Qed.

Lemma delay_ends arg e e' : cmd_delay arg e = Some e' -> ends (commands (sc e)) e e'.
Proof.
  unfold cmd_delay. pose proof (sc_now e) as En. destruct (now e) as [e1 t]. cbn [fst] in En.
  destruct (add_long _ _); [|done]. intros [= <-]. by apply ends_same; cbn; rewrite En.
Qed.

Lemma reset_ends args e e' : cmd_reset stack args e = Some e' -> ends (commands (sc e)) e e'.
Proof.
  unfold cmd_reset. destruct (sending _ e) as [[e1 ok]|] eqn:E; [|done]. intros [= <-].
  apply sc_sending in E. by apply ends_same; rewrite E.
Qed.

Lemma upload_ends arg e e' : cmd_upload stack context errno devInfo arg e = Some e' ->
  ends (commands (sc e)) e e'.
Proof.
  unfold cmd_upload. cbv zeta. destruct (target_info _ _ _) as [[u flags]|]; [|done].
  cbn [mbind option_bind]. set (e1 := on_up _ _).
  assert (forall e2 r, sc e2 = set_filename arg (sc e) ->
    (if r <? NOT_STARTED then Some (handleCommandError (activeCommand (sc e2)) e2) else
       let '(e, t) := now (on_sc (set_requestPending true) e2) in
       Some (on_up (set_nextStartAttempt (u32 (t + attemptInterval))) e)) = Some e' ->
    ends (commands (sc e)) e e') as Hend.
  { intros e2 r E2 H.
    assert (ends (commands (sc e)) e e2) as H2 by (by apply ends_same; rewrite E2).
    assert (commands (sc e2) = commands (sc e)) as Hc by (by rewrite E2).
    destruct (r <? NOT_STARTED).
    - injection H as <-. eapply ends_trans; [exact H2|apply error_ends].
    - pose proof (sc_now (on_sc (set_requestPending true) e2)) as En. destruct (now _) as [e3 t].
      cbn [fst] in En. injection H as <-. apply ends_same; cbn; rewrite En; cbn; by rewrite E2. }
  destruct (open_image arg e1) as [f|].
  - destruct (initializeUpdate _ _ _ _ _ _ _ _ _ _ _) as [[[h u'] r]|]; [|done].
    cbn [mbind option_bind]. by apply Hend.
  - cbn [mbind option_bind]. by apply Hend.
Qed.

(** A wait is over, fails, or leaves itself in front, perhaps without its third argument. *)
Definition waiting (cmd : string) (args cmds : list string) e : Prop :=
  target_devInfo (up e) = false /\ exists cmd', commands (sc e) = cmd' :: cmds /\
    (cmd' = cmd \/ exists t i, args = [t; i; "true"%string] /\ cmd' = ("waitfor=" ++ t ++ "," ++ i)%string).

Lemma force_waits args cmd cmds e e1 : commands (sc e) = cmd :: cmds -> label_ok e ->
  activeCommand (sc e) = "waitfor"%string -> waitfor_force args e = Some e1 ->
  label_ok e1 /\ exists cmd', commands (sc e1) = cmd' :: cmds /\
    (cmd' = cmd \/ exists t i, args = [t; i; "true"%string] /\ cmd' = ("waitfor=" ++ t ++ "," ++ i)%string).
Proof.
  intros Hc Hl Ha H.
  assert (e1 = e -> label_ok e1 /\ exists cmd', commands (sc e1) = cmd' :: cmds /\
    (cmd' = cmd \/ exists t i, args = [t; i; "true"%string] /\ cmd' = ("waitfor=" ++ t ++ "," ++ i)%string))
    as Hsame by (intros ->; split; [done|]; exists cmd; auto).
  unfold waitfor_force in H. destruct args as [|t [|i [|force [|]]]]; try (by injection H as <-; auto).
  case_bool_decide as Hf; [subst force|by injection H as <-; auto].
  rewrite Hc in H. injection H as <-. split; [done|]. rewrite Ha.
  eexists. split; [reflexivity|]. right. by exists t, i.
Qed.

(** After a query the queue is the same, or an error has been handled. *)
Lemma query_ends args e e' : waitfor_query stack args e = Some e' -> target_devInfo (up e) = false ->
  (commands (sc e') = commands (sc e) /\ failLabel (sc e') = failLabel (sc e) /\
   target_devInfo (up e') = false) \/
  exists e1, sc e1 = set_ping (pingInterval (sc e)) 0 0 (sc e) /\
    e' = handleCommandError (activeCommand (sc e)) e1.
Proof.
  intros H Ht. assert (forall e, target_devInfo (up (fst (now e))) = target_devInfo (up e)) as Hnow.
  { intros e0. unfold now. change (current_timeMs (up e0)) with (on_port platform_timeMs (up e0)).
    unfold on_port. by destruct (platform_timeMs _). }
  unfold waitfor_query in H. destruct (pingTimeout (sc e) =? 0).
  - destruct (args !! 0%nat) as [t|]; [|done]. cbn [mbind option_bind] in H.
    pose proof (sc_now e) as En. specialize (Hnow e). destruct (now e) as [e1 n]. cbn [fst] in *.
    destruct (add_long _ _); [|done]. injection H as <-. left. cbn. by rewrite En, Hnow.
  - pose proof (sc_now e) as En. pose proof (Hnow e) as Hn1. destruct (now e) as [e1 n]. cbn [fst] in *.
    destruct (pingTimeout (sc e1) <? n).
    + injection H as <-. right. rewrite En. eexists. by split; [|reflexivity]; cbn; rewrite En.
    + pose proof (sc_now e1) as En2. pose proof (Hnow e1) as Hn2. destruct (now e1) as [e2 n2].
      cbn [fst] in *. destruct (pingNextRetry (sc e2) <? n2).
      * pose proof (sc_now e2) as En3. destruct (now e2) as [e3 n3]. cbn [fst] in *.
        destruct (sending _ _) as [[e4 ok]|] eqn:E; [|done]. injection H as <-. left.
        unfold sending in E. destruct (fwUpdate_requestVersionInfo _ _ _ _) as [[[h u] r]|] eqn:Eq; [|done].
        injection E as <- _. cbn. rewrite En3, En2, En. split; [done|]. split; [done|].
        unfold fwUpdate_requestVersionInfo in Eq.
        destruct (set_member _ _ _ _ stack) as [m1|]; [|done]. cbn [mbind option_bind] in Eq.
        destruct (set_member _ _ _ _ m1) as [m2|]; [|done]. cbn [mbind option_bind] in Eq.
        by destruct (sent_only _ _ _ _ _ _ _ Eq) as (b & q & t & _ & ->).
      * injection H as <-. left. by rewrite En2, En, Hn2, Hn1.
Qed.
Lemma skip_colon label cmd cmds : starts_with_colon label = true -> starts_with_colon cmd = false ->
  skip_to label (cmd :: cmds) `suffix_of` cmds.
Proof.
  intros Hl Hc. cbn [skip_to]. rewrite bool_decide_eq_false_2; [apply skip_to_suffix|].
  intros <-. congruence.
Qed.

Lemma waitfor_ends args cmd cmds e e' fin :
  commands (sc e) = cmd :: cmds -> label_ok e -> activeCommand (sc e) = "waitfor"%string ->
  starts_with_colon cmd = false -> cmd_waitfor stack args e = Some (e', fin) ->
  label_ok e' /\ (if fin then exists cmd', commands (sc e') = cmd' :: cmds
                  else commands (sc e') `suffix_of` cmds \/ waiting cmd args cmds e').
Proof.
  intros Hc Hl Ha Hcol. unfold cmd_waitfor. destruct (waitfor_force args e) as [e1|] eqn:Ef; [|done].
  cbn [mbind option_bind]. destruct (force_waits _ _ _ _ _ Hc Hl Ha Ef) as (Hl1 & cmd' & Hc1 & Hw).
  destruct (target_devInfo (up e1)) eqn:Ht; [intros [= <- <-]; split; [done|by exists cmd']|].
  destruct (waitfor_query stack args e1) as [e2|] eqn:Eq; [|done]. cbn [mbind option_bind].
  intros [= <- <-]. destruct (query_ends _ _ _ Eq Ht) as [(Hc2 & Hf2 & Ht2)|(e3 & Hs3 & ->)].
  - split; [unfold label_ok; by rewrite Hf2|]. right. split; [done|]. exists cmd'.
    split; [by rewrite Hc2|done].
  - destruct (error_ends (activeCommand (sc e1)) e3) as [_ Hle].
    assert (label_ok e3) as Hl3 by (unfold label_ok; by rewrite Hs3). split; [by apply Hle|]. left.
    unfold handleCommandError. destruct (hasPendingCommands e3); case_bool_decide as Hlab; cbn in *;
      try apply suffix_nil; rewrite Hs3 in Hlab |- *; cbn in Hlab |- *; rewrite Hc1;
      (apply skip_colon; [destruct Hl1; [done|done]|]);
      (destruct Hw as [->|(t & i & _ & ->)]; [done|reflexivity]).
Qed.

(** The name of a command that begins with a colon does so too. *)
Lemma parse_colon cmd name args : parse_command cmd = Some (name, args) ->
  starts_with_colon cmd = true -> starts_with_colon name = true.
Proof.
  unfold parse_command. destruct cmd as [|x cmd]; [done|]. cbn [starts_with_colon].
  intros H Hx%bool_decide_eq_true. subst x. cbn [splitString] in H.
  rewrite bool_decide_eq_false_2 in H by done.
  destruct (splitString cmd "=") as [|p [|q l]]; by injection H as <- _.
Qed.

Lemma command_of_waitfor name args args' : command_of name args = Waitfor args' ->
  name = "waitfor"%string /\ args' = args.
Proof.
  unfold command_of. repeat case_match; try discriminate; intros [= <-].
  split; [|done]. repeat match goal with H : (_ && _) = true |- _ => apply andb_true_iff in H as [? ?] end.
  match goal with H : bool_decide (_ = "waitfor"%string) = true |- _ => by apply bool_decide_eq_true in H end.
Qed.

(** What a command leaves of the queue, after it has been removed when it is done with. *)
Lemma execute_ends name args cmd cmds e e' fin :
  commands (sc e) = cmd :: cmds -> label_ok e -> activeCommand (sc e) = name ->
  (name = "waitfor"%string -> starts_with_colon cmd = false) ->
  execute stack context errno devInfo (command_of name args) e = Some (e', fin) ->
  label_ok e' /\
  match command_of name args with
  | Package _ => fin = true /\ exists added, commands (sc e') `suffix_of` cmd :: cmds ++ added
  | Waitfor args => if fin then exists cmd', commands (sc e') = cmd' :: cmds
                    else commands (sc e') `suffix_of` cmds \/ waiting cmd args cmds e'
  | _ => fin = true /\ commands (sc e') `suffix_of` cmd :: cmds
  end.
Proof.
  intros Hc Hl Ha Hcol.
  assert (forall e1, ends (commands (sc e)) e e1 -> label_ok e1 /\ true = true /\
    commands (sc e1) `suffix_of` cmd :: cmds) as Hends
    by (intros e1 [Hs Hlab]; rewrite Hc in Hs; auto).
  destruct (command_of name args) eqn:Ecmd; cbn [execute]; try (intros [= <- <-]; apply Hends);
    try by apply ends_same.
  - destruct (cmd_package _ _ _ _) as [e1|] eqn:E; [|done]. intros [= <- <-].
    apply package_ends in E as (added & Hs & Hlab). rewrite Hc in Hs. split; [auto|]. split; [done|].
    by exists added.
  - apply label_ends.
  - apply target_ends.
  - apply on_error_ends.
  - destruct (args0 !! 0%nat); [|done]. intros [= <- <-]. apply Hends. by apply ends_same.
  - destruct (cmd_delay _ _) as [e1|] eqn:E; [|done]. intros [= <- <-]. by apply Hends; eapply delay_ends.
  - intros E. apply command_of_waitfor in Ecmd as [-> ->]. eapply waitfor_ends; eauto.
  - destruct (cmd_upload _ _ _ _ _ _) as [e1|] eqn:E; [|done]. intros [= <- <-].
    by apply Hends; eapply upload_ends.
  - destruct (cmd_reset _ _ _) as [e1|] eqn:E; [|done]. intros [= <- <-]. by apply Hends; eapply reset_ends.
  - split; [apply suffix_nil|done].
Qed.

(** C8: Running a command takes a script forward: the queue is afterwards an end of what
    followed the command, so that no command is run twice, with two exceptions.  A wait
    for a device that has not answered stays in front, without its third argument, and a
    package adds its commands behind the queue.  The label for errors keeps its colon. *)
Theorem script_progress cmd cmds e e' :
  commands (sc e) = cmd :: cmds -> label_ok e ->
  runCommand stack context errno devInfo cmd e = Some e' ->
  label_ok e' /\
  match parse_command cmd with
  | Some (name, args) =>
    match command_of name args with
    | Package _ => exists added, commands (sc e') `suffix_of` cmds ++ added
    | Waitfor args => commands (sc e') `suffix_of` cmds \/ waiting cmd args cmds e'
    | _ => commands (sc e') `suffix_of` cmds
    end
  | None => commands (sc e') = cmds
  end.
Proof.
  intros Hc Hl. unfold runCommand. destruct (parse_command cmd) as [[name args]|] eqn:Ep.
  - set (e1 := on_sc (set_activeCommand name) e).
    destruct (execute _ _ _ _ _ e1) as [[e2 fin]|] eqn:E; [|done]. cbn [mbind option_bind].
    intros [= <-]. eapply (execute_ends name args cmd cmds) in E as [Hl2 H]; [|done..|].
    + assert (label_ok (if fin then pop_command e2 else e2)) as Hl3.
      { destruct fin; [|done]. unfold pop_command. by destruct (commands (sc e2)). }
      split; [done|].
      assert (forall tail, commands (sc e2) `suffix_of` cmd :: tail ->
        commands (sc (pop_command e2)) `suffix_of` tail) as Hpop
        by (intros tail Hs; by apply (pop_ends cmd tail e2)).
      destruct (command_of name args); try (destruct H as [-> H]; by apply Hpop).
      * destruct H as [-> [added H]]. exists added. by apply Hpop.
      * destruct fin; [|done]. left. destruct H as [c H]. unfold pop_command. rewrite H. done.
    + intros ->. destruct (starts_with_colon cmd) eqn:Ecol; [|done].
      by apply (parse_colon _ _ _ Ep) in Ecol.
  - intros [= <-]. unfold pop_command. rewrite Hc. by split.
Qed.
(** ** The commands of a manifest *)

Lemma parse_one name arg : free_of "=" name = true -> free_of "=" arg = true ->
  free_of "," arg = true -> arg <> ""%string ->
  parse_command (name ++ String "=" arg)%string = Some (name, [arg]).
Proof.
  intros Hn He Hc Ha. unfold parse_command. rewrite splitString_app by done.
  rewrite splitString_piece by done. by rewrite splitString_piece.
Qed.

Lemma pretty_not_empty (n : Z) : pretty n <> ""%string.
Proof.
  destruct n as [|p|p]; [done| |done]. change (pretty (Z.pos p)) with (pretty (N.pos p)).
  by destruct (scan_pretty (N.pos p)) as (_ & c & r & -> & _).
Qed.

(** C12: For a file name that is not empty and has neither a comma nor an equals sign, the
    slot and upload commands that a manifest adds are understood by the script: any 32-bit
    slot number comes back, and the upload is that of the file. *)
Theorem image_commands_run slot file cmds e :
  -2147483648 <= slot < 2147483648 ->
  file <> ""%string -> free_of "=" file = true -> free_of "," file = true ->
  commands (sc e) = ("slot=" ++ pretty slot)%string :: ("upload=" ++ file)%string :: cmds ->
  let run cmd e := runCommand stack context errno devInfo cmd e in
  exists e1, run ("slot=" ++ pretty slot)%string e = Some e1 /\ slotNum (sc e1) = slot /\
    ho e1 = ho e /\ up e1 = up e /\ commands (sc e1) = ("upload=" ++ file)%string :: cmds /\
    run ("upload=" ++ file)%string e1 =
      (e2 ← cmd_upload stack context errno devInfo file (on_sc (set_activeCommand "upload") e1);
       Some (pop_command e2)).
Proof.
  intros Hs Hne He Hc Hq run. unfold run, runCommand.
  change ("slot=" ++ pretty slot)%string with ("slot" ++ String "=" (pretty slot))%string.
  change ("upload=" ++ file)%string with ("upload" ++ String "=" file)%string.
  rewrite !parse_one by first [done | apply pretty_not_empty | by apply free_pretty].
  change (command_of "slot" [pretty slot]) with (Slot (pretty slot)).
  change (command_of "upload" [file]) with (Upload file). cbn [execute mbind option_bind].
  eexists. split; [reflexivity|]. unfold pop_command. cbn. rewrite Hq. cbn.
  split; [|split; [done|split; [done|split; [done|]]]].
  - rewrite strtol_pretty by lia. unfold s32. rewrite Z.mod_small by lia. lia.
  - match goal with |- context [cmd_upload _ _ _ _ _ ?e] => destruct (cmd_upload stack context errno devInfo file e) end;
      reflexivity.
Qed.
End Scripts.
End FirmwareCommandsProps.
