(* ===== verification/FirmwareStepProps.v ===== *)
(** * The step of a firmware update

    An update that is not answered is given up in time, and the script goes on at its
    label for errors; a chunk size that is too large is halved. *)

From stdpp Require Import strings.
From S2P Require Import Prelude CommTx CommTxProps Layouts Utilities Md5 Md5Props FirmwareTypes.
From S2P Require Import FirmwareUpdate FirmwareUpdater FirmwareMessages FirmwareProps FirmwareIntegrity.
From S2P Require Import FirmwareTransfer FirmwareRequest FirmwarePackage FirmwareCommands.
From S2P Require Import FirmwareCommandsProps.
Import FirmwareUpdate ISFirmwareUpdater FirmwarePackage FirmwareCommands FirmwareCommandsProps.
#[local] Open Scope string_scope.
#[local] Open Scope list_scope.
#[local] Open Scope Z_scope.

(** A platform whose clock does not go back: [clock] has not wrapped around. *)
Class clocked_platform (P : Type) `{!platform P} := {
  clock : P -> Z;
  clock_reads p : snd (platform_timeMs p) = u32 (clock p);
  clock_time p : clock p <= clock (fst (platform_timeMs p));
  clock_send m p : clock p <= clock (fst (send_data m p));
  clock_rand p : clock p <= clock (fst (platform_rand p))
}.

Module FirmwareStepProps.

Section Silence.
Context {P : Type} `{!platform P, !clocked_platform P, !package_env P}.
Context (stack : list Z) (context : md5Context_t) (errno : Z) (devInfo : list Z).
Context (Hstack : lenZ stack = 42) (Hbytes : Forall byte stack).
Implicit Types e : host_state P.

Definition time e : Z := clock (port (up e)).

(** Nothing but the number of attempts, the buffer, the port and its times has changed. *)
Definition quiet e e' : Prop :=
  (exists n, sc e' = set_startAttempts n (sc e)) /\
  (exists b, lenZ b = lenZ (build_buffer (hs_base (ho e))) /\ ho e' = on_base (set_build_buffer b) (ho e)) /\
  time e <= time e'.

#[export] Instance quiet_refl : Reflexive quiet.
Proof.
  intros [[] [[] ? ?] u]. split; [by eexists|]. split; [|cbn; lia]. by eexists.
Qed.

#[export] Instance quiet_trans : Transitive quiet.
Proof.
  intros e1 e2 e3 ([n1 S1] & (b1 & L1 & B1) & T1) ([n2 S2] & (b2 & L2 & B2) & T2).
  split; [exists n2; by rewrite S2, S1|]. split; [|lia]. exists b2. rewrite B1 in L2. cbn in L2.
  split; [congruence|]. by rewrite B2, B1.
Qed.

Lemma now_quiet e : quiet e (fst (now e)) /\ snd (now e) = u32 (time e) /\
  up (fst (now e)) = set_port (port (up (fst (now e)))) (up e).
Proof.
  unfold now. change (current_timeMs (up e)) with (on_port platform_timeMs (up e)). unfold on_port, time.
  pose proof (clock_reads (port (up e))) as Hr. pose proof (clock_time (port (up e))) as Ht.
  destruct (platform_timeMs _) as [p t]. cbn [fst snd] in *. split; [|by split].
  destruct e as [s h u]. etrans; [apply quiet_refl|]. split; [|split; [|exact Ht]]; destruct (quiet_refl (Host s h u)) as (A & B & _); done.
Qed.

(** A change of the updater that leaves the port alone. *)
Lemma quiet_up f e : port (f (up e)) = port (up e) -> quiet e (on_up f e).
Proof.
  intros Hf. destruct (quiet_refl e) as (A & B & _). split; [done|]. split; [done|].
  unfold time. cbn. rewrite Hf. lia.
Qed.

Lemma quiet_attempts n e : quiet e (on_sc (set_startAttempts n) e).
Proof. destruct (quiet_refl e) as (_ & B & C). split; [by exists n|]. by split. Qed.

Lemma quiet_buffer e e' : quiet e e' ->
  lenZ (build_buffer (hs_base (ho e'))) = lenZ (build_buffer (hs_base (ho e))).
Proof. intros (_ & (b & Hb & ->) & _). exact Hb. Qed.

Lemma quiet_callback e e' : quiet e e' -> pfnInfoProgress_cb (sc e') = pfnInfoProgress_cb (sc e).
Proof. by intros ([n ->] & _). Qed.

Lemma age_quiet e : quiet e (fst (messageAge e)) /\
  snd (messageAge e) = u32 (u32 (time e) - last_message (hs_base (ho e))) /\
  ho (fst (messageAge e)) = ho e.
Proof.
  destruct (now_quiet e) as (Q & E & _). unfold messageAge, fwUpdate_getLastMessageAge.
  unfold now in Q, E. destruct (current_timeMs (up e)) as [u t]. cbn [fst snd] in *.
  by rewrite E.
Qed.

Lemma send_quiet p t n e : lenZ (build_buffer (hs_base (ho e))) = FWUPDATE__MAX_PAYLOAD_SIZE ->
  lenZ p = 42 -> In (t, n) plain_sizes -> (exists g, holds_at 0 U32 g p) -> holds_at 4 U32 t p ->
  exists e' ok, sending (host_sendPayload p None) e = Some (e', ok) /\ quiet e e'.
Proof.
  intros Hb Hp Hin [g Hg] Ht. unfold sending, host_sendPayload, fwUpdate_sendPayload.
  destruct (pack_plain (build_buffer (hs_base (ho e))) p None t n) as (buffer & -> & Hl & _); [done..|].
  cbn [mbind option_bind]. rewrite (target_holds _ _ Hg). cbn [mbind option_bind].
  match goal with |- context [fwUpdate_writeToWire ?t ?m ?u] =>
    change (fwUpdate_writeToWire t m u) with (writeToWire t m u) end.
  unfold writeToWire, on_port. set (m := without_flags _ _).
  pose proof (clock_time (port (up e))) as T1. destruct (platform_timeMs _) as [p1 x]. cbn [fst] in T1.
  cbn [port set_port set_nextChunkSend]. pose proof (clock_send m p1) as T2.
  destruct (send_data m p1) as [p2 r]. cbn [fst mbind option_bind] in *. eexists _, _. split; [reflexivity|].
  destruct (quiet_refl e) as (A & _ & _). split; [done|]. split; [|unfold time; cbn; lia].
  exists buffer. split; [congruence|done].
Qed.

Lemma again_quiet e : lenZ (build_buffer (hs_base (ho e))) = FWUPDATE__MAX_PAYLOAD_SIZE ->
  exists e' ok, sending (fwUpdate_requestUpdate_again stack) e = Some (e', ok) /\ quiet e e'.
Proof.
  intros Hb. unfold sending, fwUpdate_requestUpdate_again.
  destruct (_ || _); [by eexists _, _; split; [cbn; by destruct e|]|].
  destruct (request_message_ok stack Hstack Hbytes (ho e)) as (p & -> & Hp & _ & H0 & H4 & _).
  cbn [mbind option_bind].
  apply (send_quiet p MSG_REQ_UPDATE 36); [done|done|cbn; tauto|by eexists|done].
Qed.

(** The request is sent again, or not. *)
Lemma retry_quiet e : lenZ (build_buffer (hs_base (ho e))) = FWUPDATE__MAX_PAYLOAD_SIZE ->
  pfnInfoProgress_cb (sc e) = true -> exists e', retry_request stack e = Some e' /\ quiet e e'.
Proof.
  intros Hb Hcb. unfold retry_request. destruct (age_quiet e) as [Q1 _].
  destruct (messageAge e) as [e1 age]. cbn [fst] in Q1.
  destruct (1500 <? age); [|by exists e1].
  destruct (maxAttempts <=? startAttempts (sc e1)).
  - pose proof (quiet_attempts 0 e1) as Q2. destruct (now_quiet (on_sc (set_startAttempts 0) e1)) as [Q3 _].
    destruct (now (on_sc (set_startAttempts 0) e1)) as [e3 t]. cbn [fst] in Q3. eexists. split; [done|].
    rewrite Q1, Q2, Q3. by apply quiet_up.
  - destruct (now_quiet e1) as [Q2 _]. destruct (now e1) as [e2 t]. cbn [fst] in Q2.
    destruct (nextStartAttempt (up e2) <? t); [|exists e2; split; [done|by etrans]].
    destruct (now_quiet e2) as [Q3 _]. destruct (now e2) as [e3 t3]. cbn [fst] in Q3.
    set (e4 := on_up _ e3). assert (quiet e e4) as Q4 by (rewrite Q1, Q2, Q3; by apply quiet_up).
    destruct (again_quiet e4) as (e5 & ok & -> & Q5); [by rewrite (quiet_buffer _ _ Q4)|].
    cbn [mbind option_bind]. set (e6 := if ok then _ else _).
    assert (quiet e e6) as Q6.
    { etrans; [exact Q4|]. etrans; [exact Q5|]. subst e6. destruct ok; [apply quiet_attempts|done]. }
    exists e6. split; [|done]. by rewrite (quiet_callback _ _ Q6), Hcb.
Qed.

(** When nothing has been heard for too long, the update is given up. *)
Lemma end_timeout e t0 : last_message (hs_base (ho e)) = u32 t0 -> 0 <= timeout_duration (hs_base (ho e)) ->
  t0 + timeout_duration (hs_base (ho e)) < time e < t0 + 4294967296 ->
  requestPending (sc e) = true ->
  status (step_end e) = ERR_TIMEOUT /\ sc (step_end e) = sc e /\
  ho (step_end e) = on_base (set_session_status ERR_TIMEOUT) (ho e).
Proof.
  intros HL HT Ht Hp. unfold step_end. destruct (age_quiet e) as (_ & Ea & E1).
  pose proof (sc_messageAge e) as E2.
  destruct (messageAge e) as [e1 age]. cbn [fst snd] in *. rewrite E1, Ea, HL, E2, Hp. cbn [orb].
  assert (u32 (u32 (time e) - u32 t0) = time e - t0) as -> by (unfold u32; zlia).
  rewrite (proj2 (Z.ltb_lt _ _)) by lia. cbn [andb].
  unfold fwUpdate_isDone. cbn. rewrite E2, Hp, orb_true_r. cbn. by rewrite E1.
Qed.

(** An error while there are commands left. *)
Lemma error_script name e : commands (sc e) <> [] ->
  sc (handleCommandError name e) =
    set_commands (if bool_decide (failLabel (sc e) = ""%string) then []
                  else skip_to (failLabel (sc e)) (commands (sc e)))
      (set_stepErrors (stepErrors (sc e) ++ [(activeStep (sc e), name)])
        (set_requestPending false (sc e))) /\
  ho (handleCommandError name e) = host_resetEngine (ho e).
Proof.
  intros Hc. unfold handleCommandError, hasPendingCommands.
  destruct (commands (sc e)) as [|c cs] eqn:Ec; [done|]. cbn [on_sc on_ho sc ho failLabel set_stepErrors
    set_requestPending]. destruct (bool_decide (failLabel (sc e) = ""%string)); [done|].
  cbn -[skip_to]. by rewrite Ec.
Qed.

Lemma end_time e : time e <= time (step_end e).
Proof.
  unfold step_end. destruct (age_quiet e) as [(_ & _ & Ht) _]. destruct (messageAge e) as [e1 age].
  cbn [fst] in Ht. destruct (_ && _); destruct (fwUpdate_isDone _); exact Ht.
Qed.

(** Nothing is waited for. *)
Lemma end_idle e : requestPending (sc e) = false -> in_progress e = false ->
  sc (step_end e) = sc e /\ ho (step_end e) = ho e /\ fwUpdate_isDone (step_end e) = fwUpdate_isDone e.
Proof.
  intros Hp Hi. unfold step_end. pose proof (sc_messageAge e) as E1. destruct (age_quiet e) as (_ & _ & E2).
  destruct (messageAge e) as [e1 age]. cbn [fst] in *.
  assert (in_progress e1 = false) as Hi1 by (unfold in_progress, status in *; by rewrite E2).
  rewrite E1, Hp, Hi1, andb_false_r.
  assert (fwUpdate_isDone e1 = fwUpdate_isDone e) as Hd
    by (unfold fwUpdate_isDone, hasPendingCommands; by rewrite E1, Hi1, Hi).
  rewrite Hd. destruct (fwUpdate_isDone e) eqn:Hd'; [|by rewrite Hd].
  split; [done|]. split; [done|]. unfold fwUpdate_isDone, hasPendingCommands, in_progress, status in *.
  cbn. by rewrite Hd.
Qed.

(** C9: With a callback for progress, an upload that has been requested and is not answered
    is given up by the step that finds more than the timeout passed (and less than 2^32 ms
    since): the status becomes ERR_TIMEOUT and the commands stay. When commands are left,
    the next step records the error, ends the wait for the device and goes on at the label
    for errors; without a label, or without that label among them, no commands are left and
    the script is done. For an upload without commands behind it only the first step is
    stated. *)
Theorem unanswered_upload_ends e t0 :
  status e = NOT_STARTED -> requestPending (sc e) = true -> pfnInfoProgress_cb (sc e) = true ->
  lenZ (build_buffer (hs_base (ho e))) = FWUPDATE__MAX_PAYLOAD_SIZE ->
  last_message (hs_base (ho e)) = u32 t0 -> 0 <= timeout_duration (hs_base (ho e)) ->
  t0 + timeout_duration (hs_base (ho e)) < time e ->
  let step := fwUpdate_step stack context errno devInfo in
  exists e1 r, step e = Some (e1, r) /\
    (time e1 < t0 + 4294967296 -> status e1 = ERR_TIMEOUT /\ commands (sc e1) = commands (sc e) /\
    (commands (sc e) <> [] -> exists e2, step e1 = Some (e2, false) /\
       status e2 = NOT_STARTED /\ requestPending (sc e2) = false /\
       stepErrors (sc e2) = stepErrors (sc e) ++ [(activeStep (sc e), "upload"%string)] /\
       commands (sc e2) =
         (if bool_decide (failLabel (sc e) = ""%string) then []
          else skip_to (failLabel (sc e)) (commands (sc e))) /\
       fwUpdate_isDone e2 = match commands (sc e2) with [] => true | _ => false end)).
Proof.
  intros Hst Hp Hcb Hb HL HT Ht step.
  destruct (retry_quiet e Hb Hcb) as (e1 & E1 & Q). pose proof Q as ([n Hs] & (b & _ & Hh) & Htime).
  exists (step_end e1), (negb (status (step_end e1) =? NOT_STARTED)). split.
  { unfold step, fwUpdate_step, step_status. by rewrite Hst, Hp, E1. }
  intros Hend. pose proof (end_time e1) as He.
  destruct (end_timeout e1 t0) as (Hst1 & Hs1 & Hh1); [by rewrite Hh..|rewrite Hh; cbn; lia|by rewrite Hs|].
  split; [done|]. split; [by rewrite Hs1, Hs|]. intros Hc.
  set (e2 := handleCommandError "upload" (step_end e1)).
  assert (sc e2 = set_commands (if bool_decide (failLabel (sc e) = ""%string) then []
            else skip_to (failLabel (sc e)) (commands (sc e)))
          (set_stepErrors (stepErrors (sc e) ++ [(activeStep (sc e), "upload"%string)])
            (set_requestPending false (sc e1))) /\ status e2 = NOT_STARTED) as [Hs2 Hst2].
  { destruct (error_script "upload" (step_end e1)) as [E2 E3]; [by rewrite Hs1, Hs|].
    split; [|unfold status, e2; by rewrite E3]. unfold e2. by rewrite E2, Hs1, Hs. }
  destruct (end_idle e2) as (E2s & E2h & Hdone); [by rewrite Hs2|unfold in_progress; by rewrite Hst2|].
  exists (step_end e2). split_and!.
  - unfold step, fwUpdate_step, step_status. rewrite Hst1. cbn -[handleCommandError step_end]. fold e2.
    unfold status. rewrite E2h. fold (status e2). by rewrite Hst2.
  - unfold status. rewrite E2h. exact Hst2.
  - by rewrite E2s, Hs2.
  - by rewrite E2s, Hs2.
  - by rewrite E2s, Hs2.
  - rewrite Hdone, E2s. unfold fwUpdate_isDone, in_progress, hasPendingCommands.
    rewrite Hst2, Hs2. cbn [requestPending set_commands commands set_requestPending set_stepErrors].
    by destruct (if bool_decide _ then _ else _).
Qed.
End Silence.

Section ChunkSize.
Context {P : Type} `{Hlog : logged_platform P, !package_env P}.
Context (stack : list Z) (context : md5Context_t) (errno : Z) (devInfo : list Z).
Context (Hstack : lenZ stack = 42) (Hbytes : Forall byte stack).
Implicit Types e : host_state P.

Lemma smaller_ok size : 2 <= size < 65536 ->
  exists k, 0 <= k /\ smaller_chunk_size size = Some (2 ^ k) /\ 2 ^ k < size <= 2 * 2 ^ k.
Proof.
  intros Hs. unfold smaller_chunk_size. rewrite (proj2 (Z.leb_gt _ _)) by lia.
  pose proof (Z.log2_spec size ltac:(lia)) as [Hl Hu]. rewrite Z.pow_succ_r in Hu by apply Z.log2_nonneg.
  pose proof (Z.log2_le_mono 2 size ltac:(lia)) as H1. change (Z.log2 2) with 1 in H1.
  assert (forall k, 0 <= k -> 2 ^ k < size -> u16 (Z.shiftl 1 k) = 2 ^ k) as Hk.
  { intros k Hk Hlt. rewrite Z.shiftl_1_l. unfold u16. apply Z.mod_small. lia. }
  destruct (Z.eqb_spec (2 ^ Z.log2 size) size) as [E|E].
  - exists (Z.log2 size - 1). rewrite (proj2 (Z.ltb_ge _ _)) by lia.
    assert (2 ^ Z.log2 size = 2 * 2 ^ (Z.log2 size - 1)) as E2
      by (rewrite <- Z.pow_succ_r by lia; f_equal; lia).
    pose proof (Z.pow_pos_nonneg 2 (Z.log2 size - 1) ltac:(lia) ltac:(lia)).
    rewrite Hk by lia. split_and!; [lia|done|lia..].
  - exists (Z.log2 size). rewrite (proj2 (Z.ltb_ge _ _)) by lia. rewrite Hk by lia.
    split_and!; [lia|done|lia..].
Qed.

Lemma step_end_keeps e : sc (step_end e) = sc e /\
  (exists st, ho (step_end e) = on_base (set_session_status st) (ho e)) /\
  sent (port (up (step_end e))) = sent (port (up e)).
Proof.
  unfold step_end, messageAge, fwUpdate_getLastMessageAge.
  change (current_timeMs (up e)) with (on_port platform_timeMs (up e)). unfold on_port.
  pose proof (sent_time (port (up e))) as Ht. destruct (platform_timeMs _) as [p t]. cbn [fst] in Ht.
  assert (exists st, ho e = on_base (set_session_status st) (ho e)) as Hsame
    by (destruct e as [? [[] ? ?] ?]; by eexists).
  destruct (_ && _); destruct (fwUpdate_isDone _); split_and!; try done; by eexists.
Qed.

(** C10: A step that finds the status ERR_MAX_CHUNK_SIZE, in a session with a nonzero number
    and a chunk size of at least two bytes, starts a new session whose chunk size is the
    largest power of two below the session's chunk size as it is then, thus at least half of
    it, and keeps the image and the script; unless the number of the new session is zero,
    the request for the same image and target is sent with that size. *)
Theorem chunk_size_renegotiated e : let b := hs_base (ho e) in
  status e = ERR_MAX_CHUNK_SIZE -> session_id b <> 0 -> 2 <= session_chunk_size b < 65536 ->
  lenZ (build_buffer b) = FWUPDATE__MAX_PAYLOAD_SIZE -> Forall byte (build_buffer b) ->
  0 <= session_target b < 4294967296 -> 0 <= session_image_size b < 4294967296 ->
  hash_ok (session_md5 b) ->
  exists e' r n k, fwUpdate_step stack context errno devInfo e = Some (e', r) /\
    n = 2 ^ k /\ 0 <= k /\ n < session_chunk_size b <= 2 * n /\
    let b' := hs_base (ho e') in
    session_chunk_size b' = n /\ session_image_size b' = session_image_size b /\ sc e' = sc e /\
    if session_id b' =? 0 then sent (port (up e')) = sent (port (up e)) else
    exists m, sent (port (up e')) = sent (port (up e)) ++ [m] /\
      request_of (session_id b') n (session_image_size b) (session_md5 b) m /\
      target_device m = Some (session_target b).
Proof.
  intros b Hst Hid Hsize Hbuf Hbb Ht Hi Hh.
  destruct (smaller_ok _ Hsize) as (k & Hk & Ek & Hlt).
  unfold fwUpdate_step, step_status. rewrite Hst. cbn -[retry_smaller step_end].
  unfold retry_smaller. fold b. rewrite (proj2 (Z.eqb_neq _ _)) by done. rewrite Ek. cbn [mbind option_bind].
  change (host_rand (up e)) with (on_port platform_rand (up e)). unfold on_port.
  pose proof (sent_rand (port (up e))) as Er. destruct (platform_rand _) as [p rnd]. cbn [fst] in Er.
  set (u1 := set_port p (up e)).
  set (h1 := on_base (set_session_id (u16 rnd)) (on_base (set_session_chunk_size (2 ^ k)) (ho e))).
  unfold sending. cbn [ho up]. unfold fwUpdate_requestUpdate_again.
  assert (session_status (hs_base h1) = ERR_MAX_CHUNK_SIZE) as -> by exact Hst.
  cbn [Z.leb READY ERR_MAX_CHUNK_SIZE Z.compare orb]. change (session_id (hs_base h1)) with (u16 rnd).
  destruct (Z.eqb_spec (u16 rnd) 0) as [E0|E0].
  - cbn [mbind option_bind].
    destruct (step_end_keeps (Host (sc e) h1 u1)) as (Es & (st & Eh) & Ep).
    eexists _, _, (2 ^ k), k. split; [reflexivity|]. split; [done|]. split; [done|]. split; [done|].
    change (sc (Host (sc e) h1 u1)) with (sc e). rewrite Es, Eh, Ep. cbn. rewrite E0. cbn. by rewrite Er.
  - pose proof (Z.mod_pos_bound rnd 65536 ltac:(lia)) as Hr.
    destruct (send_request_ok stack Hstack Hbytes h1 u1) as (u' & r & m & buffer & -> & Em & _ & Hreq & Htd & _);
      [done..|exact Hr|done|done|cbn; lia|done|].
    cbn [mbind option_bind].
    destruct (step_end_keeps (Host (sc e) (on_base (set_build_buffer buffer) h1) u')) as (Es & (st & Eh) & Ep).
    eexists _, _, (2 ^ k), k. split; [reflexivity|]. split; [done|]. split; [done|]. split; [done|].
    change (sc (Host (sc e) h1 u1)) with (sc e). rewrite Es, Eh, Ep. cbn. rewrite (proj2 (Z.eqb_neq _ _)) by done.
    split; [done|]. split; [done|]. split; [done|]. exists m. rewrite Em. cbn. rewrite Er. by split.
Qed.
End ChunkSize.
End FirmwareStepProps.
