(* ===== verification/FirmwareWitnesses.v ===== *)
(** * Witnesses for the digests and the firmware update

    The theorems about MD5 and about the transfer of an image at concrete inputs: an image
    of five bytes in chunks of four, a port that logs, and a memory that is a list. *)

From stdpp Require Import strings relations.
From S2P Require Import Prelude CommTx Layouts Md5 Md5Props.
From S2P Require Import FirmwareTypes FirmwareUpdate FirmwareUpdater FirmwareChunks FirmwareMessages.
From S2P Require Import FirmwareProps FirmwareIntegrity FirmwareTransfer FirmwareRequest FirmwareNetwork.
Import FirmwareUpdate ISFirmwareUpdater.
#[local] Open Scope list_scope.
#[local] Open Scope Z_scope.

(** ** Digests *)

Definition demo_context : md5Context_t := Md5.md5_init (Md5Context (Md5Hash 0 0 0 0) 0 0 (repeat 0 64)).

Lemma md5_incremental_witness :
  exists ctx ctx', md5_pieces (Md5.md5_init demo_context) [[97]; []; [98; 99]] = Some ctx /\
    Md5.md5_final ctx = Some (ctx', md5_spec [97; 98; 99]).
Proof. apply (md5_incremental demo_context [[97]; []; [98; 99]]); [done|decided]. Defined.

Lemma altMD5_one_piece_witness :
  Md5.altMD5_hash Md5.altMD5_reset 3 [97; 98; 99] = Some (md5_spec [97; 98; 99]).
Proof. apply (altMD5_one_piece [97; 98; 99]); done. Defined.

Lemma md5_text_witness : exists text, Md5.md5_to_string Md5.magic (repeat 0 40) = Some text /\
  lenZ text = 32 /\ Md5.md5_from_string text = Some Md5.magic.
Proof. apply (md5_text_roundtrip Md5.magic (repeat 0 40)); [decided|done]. Defined.

(** ** A port and a device *)

#[global] Instance log_platform : platform (list (list Z)) :=
  {| send_data m s := (s ++ [m], 0); platform_timeMs s := (s, 1000); platform_rand s := (s, 4242) |}.
#[global] Program Instance log_logged : logged_platform (list (list Z)) := {| sent s := s |}.

Definition flash : Type := list Z * option (list Z).
#[global] Instance flash_wires : wire_functions flash :=
  {| fwUpdate_writeToWire _ _ s := (s, true); current_timeMs s := (s, 1000) |}.
#[global] Instance flash_functions : device_functions flash :=
  {| fwUpdate_performReset _ _ s := (s, 0);
     fwUpdate_queryVersionInfo _ s := (s, repeat 0 (Z.to_nat (sizeof_layout dev_info_layout)), true);
     fwUpdate_startUpdate _ _ := (([], None), READY);
     fwUpdate_writeImageChunk _ _ _ data s := ((fst s ++ data, snd s), 0);
     fwUpdate_finishUpdate _ _ _ s := ((fst s, Some (fst s)), FINISHED);
     fwUpdate_device_step _ _ s := (s, true) |}.
#[global] Program Instance flash_laws : flash_device flash := {| written := fst; accepted := snd |}.
Solve All Obligations with by repeat split.

Definition demo_image : list Z := [1; 2; 3; 4; 5].
Definition demo_md5 : md5hash_t := md5_spec demo_image.
Definition demo_stack : list Z := repeat 170 42.
Definition demo_buffer : list Z := repeat 0 604.
Definition demo_base : fw_base :=
  FwBase demo_buffer 0 20000 0 0 0 0 0 0 0 250 0 0 (Md5Hash 0 0 0 0) demo_context.
Definition demo_host : fw_host := FwHost demo_base 0 0.
Definition demo_updater : updater (list (list Z)) :=
  Updater None 0 0 0 0 0 0 0 0 (repeat 0 (Z.to_nat (sizeof_layout dev_info_layout))) false
    Md5.magic [].
Definition demo_dev : dev_env (St := flash) :=
  FirmwareUpdateDevice TARGET_IMX5 (DevEnv (FwDevice demo_base 0 0 (-1)) ([], None)).
Definition demo_file : Md5.istream := Md5.IStream demo_image 0 false false.

Lemma demo_idle : idle TARGET_IMX5 demo_dev.
Proof. by split_and!. Defined.


(** ** The transfer *)

(** The two sides when the device is ready. *)
Definition demo_response : list Z := [0; 0; 0; 0; 4; 0; 0; 0; 146; 16; 2; 0; 2; 0].
Definition demo_net : net (P := list (list Z)) (St := flash) :=
  match initializeUpdate demo_stack demo_context 0 demo_file TARGET_IMX5 0 0 4 500 demo_host
          demo_updater with
  | Some (h, u, _) =>
    match dev_processBuffer demo_stack (List.last (sent (port u)) []) 36 demo_dev,
          @host_processMessage _ (updater_host demo_stack) demo_response h u with
    | Some (d, _), Some (h, u, _) => Net h u d
    | _, _ => Net h u demo_dev
    end
  | None => Net demo_host demo_updater demo_dev
  end.

Lemma demo_request : request_of 4242 4 5 demo_md5 (List.last (sent (port (nu demo_net))) []).
Proof.
  split; [split; [decided|split; [decided|]]|].
  - exists 36. split; [vm_compute; reflexivity|decided].
  - split; [vm_compute; reflexivity|]. split; [vm_compute; reflexivity|].
    split; [vm_compute; reflexivity|]. split; [vm_compute; reflexivity|].
    exists (Md5.hash_bytes demo_md5). split; vm_compute; reflexivity.
Defined.

Lemma demo_receiving : receiving TARGET_IMX5 4242 4 5 2 demo_md5 (nd demo_net).
Proof.
  split; [|split; [decided|split; [vm_compute; reflexivity|split; [|vm_compute; reflexivity]]]].
  - split_and!; vm_compute; reflexivity.
  - split; [vm_compute; reflexivity|]. split; [vm_compute; reflexivity|].
    split; [vm_compute; reflexivity|]. exists 0%nat, [], []. by vm_compute.
Defined.

Lemma demo_started : started demo_image TARGET_IMX5 4242 4 2 demo_net.
Proof.
  split; [|split; [|split; [exact demo_receiving|vm_compute; reflexivity]]].
  - split_and!; try (vm_compute; reflexivity); try decided.
    exists demo_file. split_and!; vm_compute; reflexivity.
  - assert (sent (port (nu demo_net)) = [List.last (sent (port (nu demo_net))) []]) as ->
      by (vm_compute; reflexivity).
    constructor; [|constructor]. split; [apply demo_request|]. right. exact demo_request.
Defined.

Lemma transfer_completes_witness : exists n', exchanges demo_stack (Z.to_nat 2) demo_net = Some n' /\
  written (dv_st (nd n')) = demo_image /\ accepted (dv_st (nd n')) = Some demo_image.
Proof.
  apply (transfer_completes demo_stack eq_refl demo_image TARGET_IMX5 4242 4 2
    ltac:(decided) ltac:(decided) ltac:(decided) ltac:(vm_compute; reflexivity) ltac:(decided)
    ltac:(decided) demo_net).
  - by split.
  - exact demo_started.
  - vm_compute. reflexivity.
Defined.

(** A chunk is sent and reaches the device twice. *)
Definition send (n : net (P := list (list Z)) (St := flash)) : net :=
  match fwUpdate_sendNextChunk (nh n) (nu n) with Some (h, u, _) => Net h u (nd n) | None => n end.
Definition deliver (n : net (P := list (list Z)) (St := flash)) : net :=
  match list.last (sent (port (nu n))) with
  | Some m =>
    match dev_processBuffer demo_stack m (lenZ m) (nd n) with
    | Some (d, _) => Net (nh n) (nu n) d
    | None => n
    end
  | None => n
  end.

Lemma send_steps n : rtc (step demo_stack demo_stack 2) n (send n).
Proof.
  destruct n as [h u d]. unfold send. cbn [nh nu nd].
  destruct (fwUpdate_sendNextChunk h u) as [[[h' u'] k]|] eqn:E; [|reflexivity].
  apply rtc_once. by econstructor.
Defined.

Lemma deliver_steps n : rtc (step demo_stack demo_stack 2) n (deliver n).
Proof.
  destruct n as [h u d]. unfold deliver. cbn [nh nu nd].
  destruct (list.last (sent (port u))) as [m|] eqn:Em; [|reflexivity].
  destruct (dev_processBuffer demo_stack m (lenZ m) d) as [[d' r]|] eqn:E; [|reflexivity].
  apply rtc_once. eapply step_device; [|exact E]. by apply list.last_Some_elem_of.
Defined.

Lemma transfer_safe_witness :
  let n := deliver (deliver (send demo_net)) in
  ((exists k, written (dv_st (nd n)) = takeZ k demo_image) /\ accepted (dv_st (nd n)) = None \/
   written (dv_st (nd n)) = demo_image /\ accepted (dv_st (nd n)) = Some demo_image) /\
  (forall p, p ∈ sent (port (nu n)) ->
     exists d r, dev_processBuffer demo_stack p (lenZ p) (nd n) = Some (d, r)) /\
  exists h u k, fwUpdate_sendNextChunk (nh n) (nu n) = Some (h, u, k).
Proof.
  apply (transfer_safe demo_stack demo_stack eq_refl demo_image TARGET_IMX5 4242 4 2
    ltac:(decided) ltac:(decided) ltac:(decided) ltac:(vm_compute; reflexivity) ltac:(decided)
    ltac:(decided) demo_net); [by intros p s _|exact demo_started|].
  etrans; [apply send_steps|]. etrans; apply deliver_steps.
Defined.

(** The chunk has been written once. *)
Example demo_written : written (dv_st (nd (deliver (deliver (send demo_net))))) = [1; 2; 3; 4].
Proof. vm_compute. reflexivity. Qed.

(** ** Any messages *)

(** The second chunk, both chunks, and a message of an unknown type. *)
Definition demo_chunk (id : Z) (data : list Z) : list Z :=
  [16; 0; 0; 0; 5; 0; 0; 0; 146; 16; id; 0; lenZ data; 0] ++ data.
Definition demo_messages : list (list Z) :=
  [demo_chunk 1 [5]; demo_chunk 0 [1; 2; 3; 4]; [16; 0; 0; 0; 99; 0; 0; 0]; demo_chunk 1 [6]].

Lemma demo_complete : Forall (fun p => complete p /\ msg_type p <> Some MSG_REQ_UPDATE) demo_messages.
Proof.
  repeat constructor; try decided; try (vm_compute; discriminate);
    eexists; (split; [vm_compute; reflexivity|decided]).
Defined.

Lemma device_integrity_witness : let req := List.last (sent (port (nu demo_net))) [] in
  (exists e image, dev_messages demo_stack (req :: demo_messages) demo_dev = Some e /\
     receiving TARGET_IMX5 4242 4 5 2 demo_md5 e /\ written (dv_st e) = image /\
     chunks_from 4242 0 demo_messages image) \/
  (exists ms1 ms2 e image, demo_messages = ms1 ++ ms2 /\
     dev_messages demo_stack (req :: ms1) demo_dev = Some e /\
     written (dv_st e) = image /\ chunks_from 4242 0 ms1 image /\ lenZ image = 5 /\
     (md5_spec image = demo_md5 /\ accepted (dv_st e) = Some image \/
      md5_spec image <> demo_md5 /\ accepted (dv_st e) = None /\
      session_status (base e) = ERR_CHECKSUM_MISMATCH)).
Proof.
  apply (device_integrity demo_stack eq_refl TARGET_IMX5 4242 4 5 2 demo_md5 ltac:(decided)
    ltac:(decided) ltac:(vm_compute; reflexivity)).
  - exact demo_idle.
  - split; [exact demo_request|]. split; [vm_compute; reflexivity|done].
  - exact demo_complete.
Defined.

(** The wrong byte is found by the digest. *)
Example demo_mismatch :
  (e ← dev_messages demo_stack (List.last (sent (port (nu demo_net))) [] :: demo_messages) demo_dev;
   Some (written (dv_st e), accepted (dv_st e), session_status (base e))) =
  Some ([1; 2; 3; 4; 6], None, ERR_CHECKSUM_MISMATCH).
Proof. vm_compute. reflexivity. Qed.

(** ** Behaviour beyond the theorems *)

(** A chunk behind the last one is written behind the image, and the status of the finished
    update is lost. *)
Example beyond_image :
  (e ← dev_messages demo_stack [List.last (sent (port (nu demo_net))) []; demo_chunk 0 [1; 2; 3; 4];
         demo_chunk 1 [5]; demo_chunk 2 [9; 9; 9; 9]] demo_dev;
   Some (written (dv_st e), session_status (base e))) =
  Some ([1; 2; 3; 4; 5; 9; 9; 9; 9], ERR_CHECKSUM_MISMATCH).
Proof. vm_compute. reflexivity. Qed.

(** The older digest of two pieces is not the digest of the data. *)
Example altMD5_pieces :
  (h ← Md5.altMD5_hash Md5.altMD5_reset 40 (repeat 1 40); Md5.altMD5_hash h 40 (repeat 1 40)) <>
  Md5.altMD5_hash Md5.altMD5_reset 80 (repeat 1 80).
Proof. vm_compute. discriminate. Qed.

(** A request without a session is answered like any other. *)
Definition demo_no_session : list Z :=
  takeZ 8 (List.last (sent (port (nu demo_net))) []) ++ [0; 0] ++
  dropZ 10 (List.last (sent (port (nu demo_net))) []).
Example no_session_accepted :
  (e ← dev_messages demo_stack [demo_no_session] demo_dev; Some (session_status (base e))) = Some READY.
Proof. vm_compute. reflexivity. Qed.
