(* ===== verification/FirmwareCommandsExamples.v ===== *)
(** * Scripts of firmware updates at concrete inputs

    A platform with a clock that advances, two files, a manifest and an archive; the
    theorems about scripts there, and behaviour the theorems do not promise. *)

From stdpp Require Import strings pretty.
From S2P Require Import Prelude CommTx Layouts DataSets Utilities Md5 Md5Props FirmwareTypes FirmwareUpdate.
From S2P Require Import FirmwareUpdater FirmwareMessages FirmwareIntegrity FirmwareTransfer.
From S2P Require Import FirmwarePackage FirmwareCommands FirmwarePackageProps FirmwareCommandsProps.
From S2P Require Import FirmwareStepProps.
Import FirmwareUpdate ISFirmwareUpdater FirmwarePackage FirmwareCommands.
Import FirmwarePackageProps FirmwareCommandsProps FirmwareStepProps.
#[local] Open Scope string_scope.
#[local] Open Scope list_scope.
#[local] Open Scope Z_scope.

(** ** A platform *)

(** The time, and the messages sent. *)
Definition timed : Type := Z * list (list Z).

#[global] Instance timed_platform : platform timed :=
  {| send_data m s := ((fst s, snd s ++ [m]), 0); platform_timeMs s := ((fst s + 1, snd s), u32 (fst s));
     platform_rand s := (s, 4242) |}.
#[global] Program Instance timed_logged : logged_platform timed := {| sent s := snd s |}.
Solve All Obligations with done.
#[global] Program Instance timed_clocked : clocked_platform timed := {| clock s := fst s |}.
Solve All Obligations with (intros; cbn; lia).

#[warnings="-register-all"]
Inductive tree := Undefined | Null | Scalar (s : string) | Sequence (l : list tree) | Map (l : list (tree * tree)).

Definition tree_at (t : tree) (key : string) : option tree :=
  match t with
  | Map l =>
    Some (match List.find (fun kv => match fst kv with Scalar s => bool_decide (s = key) | _ => false end) l with
          | Some kv => snd kv
          | None => Undefined
          end)
  | Scalar _ => None
  | _ => Some Undefined
  end.

Definition fw_tree (size digest : string) : tree :=
  Map [(Scalar "images", Map [(Scalar "app", Map [(Scalar "filename", Scalar "fw.bin"); (Scalar "size", Scalar size);
         (Scalar "md5sum", Scalar digest); (Scalar "slot", Scalar "3")])]);
       (Scalar "steps", Sequence [Map [(Scalar "IMX5", Sequence [Map [(Scalar "timeout", Scalar "500")];
         Map [(Scalar "image", Scalar "app")]])]])].

Definition demo_digest : string := "7cfdd07889b3295d6a550914ab35e068".

#[global] Instance timed_package : package_env timed :=
  {| node := tree;
     IsDefined t := match t with Undefined => false | _ => true end;
     IsNull t := match t with Null => true | _ => false end;
     IsMap t := match t with Map _ => true | _ => false end;
     IsSequence t := match t with Sequence _ => true | _ => false end;
     IsScalar t := match t with Scalar _ => true | _ => false end;
     node_at := tree_at;
     elements t := match t with Sequence l => l | _ => [] end;
     entries t := match t with Map l => Some l | Sequence (_ :: _) => None | _ => Some [] end;
     as_string t := match t with Scalar s => Some s | _ => None end;
     as_int t := match t with Scalar s => Some (strtol10 s) | _ => None end;
     YAML_LoadFile name _ :=
       if bool_decide (name = "good.yaml"%string) then Some (fw_tree "5" demo_digest)
       else if bool_decide (name = "size.yaml"%string) then Some (fw_tree "6" demo_digest)
       else if bool_decide (name = "digest.yaml"%string)
       then Some (fw_tree "5" "00000000000000000000000000000000")
       else None;
     YAML_Load bytes :=
       match bytes with
       | [1] => Some (fw_tree "5" demo_digest)
       | [2] => Some (Map [(Scalar "images", Map []); (Scalar "steps", Sequence [Map [(Scalar "IMX5",
                  Sequence [Map [(Scalar "upload", Sequence [])]])]])])
       | _ => None
       end;
     archive := list (string * list Z);
     mz_zip_reader_init_file name _ :=
       if bool_decide (name = "fw.pkg"%string) then Some [("manifest.yaml", [1]); ("fw.bin", [1; 2; 3; 4; 5])]
       else if bool_decide (name = "bad.pkg"%string) then Some [("manifest.yaml", [2])]
       else if bool_decide (name = "empty.pkg"%string) then Some []
       else None;
     mz_zip_reader_extract_file_to_heap zip name :=
       match List.find (fun e => bool_decide (fst e = name)) zip with Some (_, bytes) => Some bytes | None => None end;
     mz_zip_reader_locate_file zip name :=
       match List.find (fun e => bool_decide (fst e = name)) zip with Some (_, bytes) => Some (lenZ bytes) | None => None end;
     open_file name _ :=
       if bool_decide (name = "fw.bin"%string) then Md5.IStream [1; 2; 3; 4; 5] 0 false false
       else Md5.IStream [] 0 false true;
     CurrentWorkingDirectory _ := "/home";
     chdir _ s := s |}.

Definition port0 : timed := (1000, []).
Definition stack0 : list Z := repeat 170 42.
Definition context0 : md5Context_t := Md5.md5_init (Md5Context (Md5Hash 0 0 0 0) 0 0 (repeat 0 64)).
(** The information of an IMX whose additional text is empty. *)
Definition info0 : list Z :=
  updZ 2 [IS_HARDWARE_TYPE_IMX] (repeat 0 (Z.to_nat (sizeof_layout dev_info_layout))).
Definition base0 : fw_base :=
  FwBase (repeat 0 604) 0 20000 0 0 0 0 512 0 0 250 0 0 (Md5Hash 0 0 0 0) context0.
Definition updater0 : updater timed :=
  Updater None 0 0 0 0 0 0 0 0 (repeat 0 (Z.to_nat (sizeof_layout dev_info_layout))) false Md5.magic port0.
Definition script0 (cmds : list string) (label : string) : script timed :=
  Script _ _ cmds "" "" label false 0 512 250 false 0 1000 0 0 "" ZipNull [] true.
Definition start (cmds : list string) (label : string) : host_state timed :=
  Host (script0 cmds label) (FwHost base0 0 0) updater0.

Definition step0 : host_state timed -> option (host_state timed * bool) :=
  fwUpdate_step stack0 context0 2 info0.
Definition run0 : string -> host_state timed -> option (host_state timed) :=
  runCommand stack0 context0 2 info0.

Fixpoint steps (n : nat) (e : host_state timed) : option (host_state timed) :=
  match n with O => Some e | S n => '(e, _) ← step0 e; steps n e end.

(** ** Manifests *)

Definition good_manifest : timed * list string * Z :=
  (port0, ["package=good.yaml"; ":IMX5"; "timeout=500"; "slot=3"; "upload=fw.bin"]%string, PKG_SUCCESS).

Example package_run :
  (processPackageManifest context0 2 "good.yaml" port0 ["package=good.yaml"%string],
   (fun r => snd r) <$> processPackageManifest context0 2 "size.yaml" port0 [],
   (fun r => snd r) <$> processPackageManifest context0 2 "digest.yaml" port0 [],
   (fun r => snd r) <$> processPackageManifest context0 2 "none.yaml" port0 []) =
  (Some good_manifest, Some PKG_ERR_IMAGE_FILE_SIZE_MISMATCH, Some PKG_ERR_IMAGE_FILE_MD5_MISMATCH,
   Some PKG_ERR_PACKAGE_FILE_ERROR).
Proof. vm_compute. reflexivity. Qed.

Lemma short_files : forall (q : timed) f, lenZ (Md5.is_contents (open_file f q)) < 2147483648.
Proof. intros q f. cbn. by case_bool_decide. Qed.

Lemma package_commands_witness : exists manifest new,
  YAML_LoadFile "good.yaml" port0 = Some manifest /\
  snd (fst good_manifest) = ["package=good.yaml"%string] ++ new /\ manifest_ok port0 manifest None new.
Proof.
  apply (package_commands_checked context0 2 ltac:(vm_compute; reflexivity) ltac:(lia) "good.yaml" port0
    ["package=good.yaml"%string] port0); [exact short_files|vm_compute; reflexivity].
Defined.

(** ** Commands *)

Definition package_state : host_state timed :=
  start ["waitfor=2000,100,true"; "slot=-7"; "upload=fw.bin"; "reset=hard"]%string "".

Definition queried : host_state timed :=
  default package_state (run0 "waitfor=2000,100,true" package_state).

Lemma script_progress_witness : run0 "waitfor=2000,100,true" package_state = Some queried /\
  label_ok queried /\
  (commands (sc queried) `suffix_of` ["slot=-7"; "upload=fw.bin"; "reset=hard"]%string \/
   waiting "waitfor=2000,100,true" ["2000"; "100"; "true"]%string
     ["slot=-7"; "upload=fw.bin"; "reset=hard"]%string queried).
Proof.
  assert (run0 "waitfor=2000,100,true" package_state = Some queried) as E by (vm_compute; reflexivity).
  destruct (script_progress stack0 context0 2 info0 "waitfor=2000,100,true"
    ["slot=-7"; "upload=fw.bin"; "reset=hard"]%string package_state queried) as [H1 H2];
    [reflexivity|by left|exact E|].
  split; [exact E|]. split; [exact H1|exact H2].
Defined.

Lemma image_commands_witness : exists e1,
  run0 "slot=-7" (start ["slot=-7"; "upload=fw.bin"]%string "") = Some e1 /\ slotNum (sc e1) = -7 /\
  run0 "upload=fw.bin" e1 =
    (e2 ← cmd_upload stack0 context0 2 info0 "fw.bin" (on_sc (set_activeCommand "upload") e1);
     Some (pop_command e2)).
Proof.
  destruct (image_commands_run stack0 context0 2 info0 (-7) "fw.bin" [] (start ["slot=-7"; "upload=fw.bin"]%string ""))
    as (e1 & E1 & Hs & _ & _ & _ & E2); [lia|done|reflexivity|reflexivity|reflexivity|].
  exists e1. split; [exact E1|]. split; [exact Hs|exact E2].
Defined.

(** ** The step *)

(** The upload has been requested, and 39 seconds have passed. *)
Definition unanswered : host_state timed :=
  match steps 1 (start ["upload=fw.bin"; "reset=soft"; ":END"; "echo=over"]%string ":END") with
  | Some e => on_platform (40000, snd (port (up e))) e
  | None => start [] ""
  end.

Lemma unanswered_upload_witness : exists e1 r, step0 unanswered = Some (e1, r) /\
  (time e1 < 1002 + 4294967296 -> status e1 = ERR_TIMEOUT /\
   commands (sc e1) = ["reset=soft"; ":END"; "echo=over"]%string /\
   (["reset=soft"; ":END"; "echo=over"]%string <> [] -> exists e2, step0 e1 = Some (e2, false) /\
      status e2 = NOT_STARTED /\ requestPending (sc e2) = false /\
      stepErrors (sc e2) = [(""%string, "upload"%string)] /\
      commands (sc e2) = [":END"; "echo=over"]%string /\ fwUpdate_isDone e2 = false)).
Proof.
  destruct (unanswered_upload_ends stack0 context0 2 info0 ltac:(vm_compute; reflexivity)
    ltac:(decided) unanswered 1002)
    as (e1 & r & E1 & H); [vm_compute; reflexivity..|vm_compute; discriminate|vm_compute; reflexivity|].
  exists e1, r. split; [exact E1|]. intros Ht. destruct (H Ht) as (Hst & Hc & H2). split; [exact Hst|].
  split; [rewrite Hc; vm_compute; reflexivity|]. intros Hne.
  destruct H2 as (e2 & E2 & Hst2 & Hp2 & He2 & Hc2 & Hd2); [vm_compute; discriminate|].
  exists e2. split; [exact E2|]. split; [exact Hst2|]. split; [exact Hp2|].
  split; [rewrite He2; vm_compute; reflexivity|].
  assert (commands (sc e2) = [":END"; "echo=over"]%string) as Hc3 by (rewrite Hc2; vm_compute; reflexivity).
  split; [exact Hc3|]. by rewrite Hd2, Hc3.
Defined.

(** A session with chunks of 384 bytes that are too large. *)
Definition too_large (size : Z) : host_state timed :=
  on_ho (on_base (fun b => set_session_status ERR_MAX_CHUNK_SIZE (set_session_id 7
    (set_session_chunk_size size (set_session_image_size 5 (set_session_target TARGET_IMX5 b))))))
    (start [] "").

Lemma chunk_size_witness : exists e' r n k, step0 (too_large 384) = Some (e', r) /\
  n = 2 ^ k /\ 0 <= k /\ n < 384 <= 2 * n /\ session_chunk_size (hs_base (ho e')) = n.
Proof.
  destruct (chunk_size_renegotiated stack0 context0 2 info0 ltac:(vm_compute; reflexivity)
    ltac:(decided) (too_large 384)) as (e' & r & n & k & E & Hn & Hk & Hlt & Hcs & _);
    [vm_compute; reflexivity|vm_compute; discriminate|decided|vm_compute; reflexivity|decided
    |decided|decided|decided|].
  exists e', r, n, k. split; [exact E|]. split; [exact Hn|]. split; [exact Hk|]. split; [exact Hlt|exact Hcs].
Defined.

(** ** A script that runs *)

(** The target of a manifest pauses the script for two seconds. *)
Example script_runs :
  (e ← steps 4 (start ["package=good.yaml"]%string "");
   Some (commands (sc e), session_target (hs_base (ho e)))) =
    Some (["timeout=500"; "slot=3"; "upload=fw.bin"]%string, TARGET_IMX5) /\
  (e ← steps 2 (start ["package=good.yaml"]%string "");
   e ← steps 3 (on_platform (4000, []) e);
   Some (commands (sc e), slotNum (sc e), timeout_duration (hs_base (ho e)), requestPending (sc e),
         lenZ (snd (port (up e))))) = Some ([], 3, 500, true, 1).
Proof. split; vm_compute; reflexivity. Qed.

(** ** Behaviour beyond the theorems *)

(** An error in a command that is not a wait removes the label it has found. *)
Example label_lost :
  (e ← run0 "target=NONE" (start ["target=NONE"; "reset=soft"; ":IMX5"; "upload=fw.bin"]%string ":IMX5");
   Some (commands (sc e), session_target (hs_base (ho e)))) = Some (["upload=fw.bin"]%string, TARGET_HOST).
Proof. vm_compute. reflexivity. Qed.

(** When the last upload of a script is not answered, every step adds an error, and the
    update is never done. *)
Definition last_unanswered : host_state timed :=
  match steps 1 (start ["upload=fw.bin"]%string "") with
  | Some e => on_platform (40000, snd (port (up e))) e
  | None => start [] ""
  end.
Example never_done :
  (e ← steps 5 last_unanswered; Some (length (stepErrors (sc e)), requestPending (sc e), status e, fwUpdate_isDone e)) =
  Some (4%nat, true, ERR_TIMEOUT, false).
Proof. vm_compute. reflexivity. Qed.

(** The time of the last request of a wait that was answered is kept: the next wait has
    already failed. *)
Example second_wait_fails :
  let known e := on_up (fun u => set_remote (remoteDevInfo u) true u) e in
  let unknown e := on_up (fun u => set_remote (remoteDevInfo u) false u) e in
  (e ← run0 "waitfor=2000" (start ["waitfor=2000"; "reset"; "waitfor=30000"]%string "");
   e ← run0 "waitfor=2000" (known e);
   e ← run0 "reset" (on_platform (5000, []) e);
   e ← run0 "waitfor=30000" (unknown e);
   Some (commands (sc e), stepErrors (sc e))) = Some ([], [(""%string, "waitfor"%string)]).
Proof. vm_compute. reflexivity. Qed.

(** The session keeps its error when a smaller size is requested: the next step asks for
    less again, down to a shift by a negative number. *)
Example size_halved_again :
  (e ← steps 9 (too_large 512); Some (status e, session_chunk_size (hs_base (ho e)))) =
    Some (ERR_MAX_CHUNK_SIZE, 1) /\
  (e ← steps 10 (too_large 512); Some (status e)) = None.
Proof. split; vm_compute; reflexivity. Qed.

(** A file whose name has a comma is not uploaded, and no error is recorded. *)
Example comma_in_name :
  (e ← run0 "upload=fw,v2.bin" (start ["upload=fw,v2.bin"]%string "");
   Some (commands (sc e), stepErrors (sc e), requestPending (sc e))) = Some ([], [], false).
Proof. vm_compute. reflexivity. Qed.

(** The first of no arguments is read. *)
Example force_without_argument : run0 "force==true" (start ["force==true"]%string "") = None.
Proof. vm_compute. reflexivity. Qed.

(** Commands that begin with a letter of the word are counted as uploads. *)
Example uploads_counted :
  getPendingUploads (start ["package=fw.pkg"; "delay=100"; "on-error=:END"; "reset"]%string "") = 3.
Proof. vm_compute. reflexivity. Qed.

(** The request is sent again without a callback, which is called all the same. *)
Example callback_missing :
  let silent e := on_sc (fun s => Script _ _ (commands s) (activeStep s) (activeCommand s) (failLabel s)
    (requestPending s) (slotNum s) (chunkSize s) (progressRate s) (forceUpdate s) (startAttempts s)
    (pingInterval s) (pingNextRetry s) (pingTimeout s) (filename s) (zip_archive s) (stepErrors s) false) e in
  (e ← steps 1 (start ["upload=fw.bin"]%string ""); step0 (silent (on_platform (3000, snd (port (up e))) e))) = None.
Proof. vm_compute. reflexivity. Qed.

(** The directory of a relative path is cut at a position of the absolute one. *)
Example relative_parent :
  (getParentDirectory "/home" "fw/m.yaml", getParentDirectory "/home" "/fw/m.yaml") =
  (Some "fw/m.yam"%string, Some "/fw"%string).
Proof. vm_compute. reflexivity. Qed.

(** A package without a manifest is a success without commands; the exception of a
    manifest that names no file is not caught. *)
Example package_archives :
  (fst <$> (fst <$> openFirmwarePackage context0 2 "fw.pkg" port0 []) = Some (ZipOpen [("manifest.yaml"%string, [1]); ("fw.bin"%string, [1; 2; 3; 4; 5])])) /\
  (e ← openFirmwarePackage context0 2 "fw.pkg" port0 []; Some (snd (fst e), snd e)) =
    Some ([":IMX5"; "timeout=500"; "slot=3"; "upload=pkg://fw.bin"]%string, PKG_SUCCESS) /\
  (e ← openFirmwarePackage context0 2 "empty.pkg" port0 []; Some (snd (fst e), snd e)) = Some ([], PKG_SUCCESS) /\
  openFirmwarePackage context0 2 "bad.pkg" port0 [] = None.
Proof. split_and!; vm_compute; reflexivity. Qed.
