(* ===== verification/LogFile.v ===== *)
(** * Log files (src/src/ISLogFile.cpp, ISLogFileFactory.h)

    [cISLogFile] wraps a stream of the C library.  The streams are on a disk of a given
    capacity: a write that does not fit is short and leaves the error indicator set, and
    a full disk opens no file for writing. *)

From stdpp Require Import gmap strings.
From S2P Require Import Prelude.

(** ** Streams of the C library *)

Inductive open_mode := RB | WB.

Record disk := Disk {
  disk_files : gmap string (list Z);
  disk_space : Z                    (* bytes that can still be written *)
}.

Record FILE := File {
  f_name : string;
  f_mode : open_mode;
  f_pos : Z;
  f_error : bool
}.

Module Stdio.

Definition file_content (d : disk) (name : string) : list Z := default [] (disk_files d !! name).

Definition fopen (name : string) (mode : open_mode) (d : disk) : disk * option FILE :=
  match mode with
  | RB => (d, match disk_files d !! name with Some _ => Some (File name RB 0 false) | None => None end)
  | WB =>
    if 0 <? disk_space d
    then (Disk (<[name := []]> (disk_files d)) (disk_space d), Some (File name WB 0 false))
    else (d, None)
  end.

(** The number of bytes written or read is the result. *)
Definition fwrite (bytes : list Z) (d : disk) (f : FILE) : disk * FILE * Z :=
  match f_mode f with
  | RB => (d, File (f_name f) RB (f_pos f) true, 0)
  | WB =>
    let n := Z.max 0 (Z.min (lenZ bytes) (disk_space d)) in
    let old := takeZ (f_pos f) (file_content d (f_name f)) in
    (Disk (<[f_name f := old ++ takeZ n bytes]> (disk_files d)) (disk_space d - n),
     File (f_name f) WB (f_pos f + n) (f_error f || (n <? lenZ bytes)), n)
  end.

Definition fread (len : Z) (d : disk) (f : FILE) : FILE * list Z :=
  match f_mode f with
  | WB => (File (f_name f) WB (f_pos f) true, [])
  | RB =>
    let bytes := subZ (f_pos f) len (file_content d (f_name f)) in
    (File (f_name f) RB (f_pos f + lenZ bytes) (f_error f), bytes)
  end.

End Stdio.
Export Stdio.

(** ** [cISLogFile] *)

Record cISLogFile := LogFile { m_file : option FILE }.

Module LogFile.

Definition isOpened (f : cISLogFile) : bool :=
  match m_file f with Some _ => true | None => false end.

Definition good (f : cISLogFile) : bool :=
  match m_file f with Some s => negb (f_error s) | None => false end.

Definition write (bytes : list Z) (d : disk) (f : cISLogFile) : disk * cISLogFile * Z :=
  match m_file f with
  | Some s => let '(d, s, n) := fwrite bytes d s in (d, LogFile (Some s), n)
  | None => (d, f, 0)
  end.

Definition read (len : Z) (d : disk) (f : cISLogFile) : cISLogFile * list Z :=
  match m_file f with
  | Some s => let '(s, bytes) := fread len d s in (LogFile (Some s), bytes)
  | None => (f, [])
  end.

(** The object is created whether or not the file could be opened. *)
Definition CreateISLogFile (filePath : string) (mode : open_mode) (d : disk)
    : disk * cISLogFile :=
  let '(d, s) := fopen filePath mode d in (d, LogFile s).

(** [fclose] has nothing left to write here. *)
Definition CloseISLogFile (logFile : option cISLogFile) : option cISLogFile := None.

End LogFile.
Export LogFile.
