(* ===== verification/LogStats.v ===== *)
(** * Log statistics (src/src/ISLogStats.cpp, ISLogStats.h)

    The counters of messages for each protocol and identifier, and the time stamps in
    double precision ([spec_float] with 53 bits).  The text of the statistics (a table with
    the names of the messages and formatted times) is a parameter. *)

From Stdlib Require Import SpecFloat.
From stdpp Require Import gmap strings.
From S2P Require Import Prelude CommTypes DataIds LogFile.

(** ** Doubles *)

Definition double : Type := spec_float.
Definition double_of_Z (n : Z) : double := binary_normalize 53 1024 n 0 false.
Definition dsub : double -> double -> double := SFsub 53 1024.
Definition dadd : double -> double -> double := SFadd 53 1024.
Definition dmul : double -> double -> double := SFmul 53 1024.
Definition ddiv : double -> double -> double := SFdiv 53 1024.
Definition dlt (a b : double) : bool := SFltb a b.
(** [a != b], true when one of them is not a number. *)
Definition dne (a b : double) : bool := negb (SFeqb a b).
Definition dzero : double := S754_zero false.
Definition dhalf : double := S754_finite false 4503599627370496 (-53).

#[export] Instance protocol_type_countable : Countable protocol_type_t.
Proof.
  refine (inj_countable' (fun p => match p with
    | PTYPE_NONE => 0%nat | PTYPE_PARSE_ERROR => 1%nat | PTYPE_INERTIAL_SENSE_ACK => 2%nat
    | PTYPE_INERTIAL_SENSE_CMD => 3%nat | PTYPE_INERTIAL_SENSE_DATA => 4%nat
    | PTYPE_NMEA => 5%nat | PTYPE_UBLOX => 6%nat | PTYPE_RTCM3 => 7%nat
    | PTYPE_SPARTN => 8%nat | PTYPE_SONY => 9%nat end)
    (fun n => match n with
    | 0 => PTYPE_NONE | 1 => PTYPE_PARSE_ERROR | 2 => PTYPE_INERTIAL_SENSE_ACK
    | 3 => PTYPE_INERTIAL_SENSE_CMD | 4 => PTYPE_INERTIAL_SENSE_DATA
    | 5 => PTYPE_NMEA | 6 => PTYPE_UBLOX | 7 => PTYPE_RTCM3
    | 8 => PTYPE_SPARTN | _ => PTYPE_SONY end%nat) _).
  by intros [].
Defined.

Record cLogStatMsgId := StatMsgId {
  st_count : Z;
  st_errors : Z;
  averageTimeDelta : double;
  totalTimeDelta : double;
  lastTimestamp : double;
  lastTimestampDelta : double;
  minTimestampDelta : double;
  maxTimestampDelta : double;
  timestampDeltaCount : Z;
  timestampIrregCount : Z
}.

Record sLogStatPType := StatPType {
  pt_stats : gmap Z cLogStatMsgId;
  pt_count : Z;
  pt_errors : Z
}.

(** [msgs]; the file of the statistics is open only inside of [WriteToFile]. *)
Definition cLogStats : Type := gmap protocol_type_t sLogStatPType.

Module LogStats.

(** The constructor. *)
Definition new_msg_id : cLogStatMsgId :=
  StatMsgId 0 0 dzero dzero dzero dzero (double_of_Z 1000000) dzero 0 0.

Definition LogTimestamp (timestamp : double) (s : cLogStatMsgId) : cLogStatMsgId :=
  if dne timestamp timestamp || dlt timestamp dzero || dlt (double_of_Z 999999999999) timestamp
  then s else
  if dlt dzero (lastTimestamp s) then
    let delta := SFabs (dsub timestamp (lastTimestamp s)) in
    let total := dadd (totalTimeDelta s) delta in
    let n := u32 (timestampDeltaCount s + 1) in
    let irregular := dne (lastTimestampDelta s) dzero &&
      dlt (dmul (lastTimestampDelta s) dhalf) (SFabs (dsub delta (lastTimestampDelta s))) in
    StatMsgId (st_count s) (st_errors s) (ddiv total (double_of_Z n)) total timestamp delta
      (if dlt delta (minTimestampDelta s) then delta else minTimestampDelta s)
      (if dlt (maxTimestampDelta s) delta then delta else maxTimestampDelta s)
      n (if irregular then u32 (timestampIrregCount s + 1) else timestampIrregCount s)
  else
    StatMsgId (st_count s) (st_errors s) (averageTimeDelta s) (totalTimeDelta s) timestamp
      (lastTimestampDelta s) (minTimestampDelta s) (maxTimestampDelta s)
      (timestampDeltaCount s) (timestampIrregCount s).

(** [msgs[ptype]] and [stats[id]] create the entry that is not there. *)
Definition msgs_at (ls : cLogStats) (ptype : protocol_type_t) : sLogStatPType :=
  default (StatPType ∅ 0 0) (ls !! ptype).
Definition stats_at (msg : sLogStatPType) (id : Z) : cLogStatMsgId :=
  default new_msg_id (pt_stats msg !! id).

Definition count_msg (s : cLogStatMsgId) : cLogStatMsgId :=
  StatMsgId (u32 (st_count s + 1)) (st_errors s) (averageTimeDelta s) (totalTimeDelta s)
    (lastTimestamp s) (lastTimestampDelta s) (minTimestampDelta s) (maxTimestampDelta s)
    (timestampDeltaCount s) (timestampIrregCount s).
Definition count_msg_error (s : cLogStatMsgId) : cLogStatMsgId :=
  StatMsgId (st_count s) (u32 (st_errors s + 1)) (averageTimeDelta s) (totalTimeDelta s)
    (lastTimestamp s) (lastTimestampDelta s) (minTimestampDelta s) (maxTimestampDelta s)
    (timestampDeltaCount s) (timestampIrregCount s).

Definition LogData (ptype : protocol_type_t) (id : Z) (timestamp : double) (ls : cLogStats)
    : cLogStats :=
  let msg := msgs_at ls ptype in
  let d := count_msg (stats_at msg id) in
  let d := if dne timestamp dzero then LogTimestamp timestamp d else d in
  <[ptype := StatPType (<[id := d]> (pt_stats msg)) (u32 (pt_count msg + 1)) (pt_errors msg)]> ls.

(** [hdr] is the identifier of the header, or NULL. *)
Definition LogError (hdr : option Z) (ptype : protocol_type_t) (ls : cLogStats) : cLogStats :=
  let msg := msgs_at ls ptype in
  let stats :=
    match hdr with
    | Some id => if id <? DID_COUNT then <[id := count_msg_error (stats_at msg id)]> (pt_stats msg)
                 else pt_stats msg
    | None => pt_stats msg
    end in
  <[ptype := StatPType stats (pt_count msg) (u32 (pt_errors msg + 1))]> ls.

(** Entries are reset for the identifiers below [DID_COUNT]. *)
Definition clear_stats (stats : gmap Z cLogStatMsgId) : gmap Z cLogStatMsgId :=
  fold_left (fun stats id => <[Z.of_nat id := new_msg_id]> stats) (seq 0 (Z.to_nat DID_COUNT)) stats.

Definition Clear (ls : cLogStats) : cLogStats :=
  (fun msg => StatPType (clear_stats (pt_stats msg)) 0 0) <$> ls.

Definition Count (ls : cLogStats) : Z := map_fold (fun _ msg n => u32 (n + pt_count msg)) 0 ls.
Definition Errors (ls : cLogStats) : Z := map_fold (fun _ msg n => u32 (n + pt_errors msg)) 0 ls.

(** [Stats] is the text. *)
Definition WriteToFile (Stats : cLogStats -> list Z) (file_name : string) (d : disk)
    (ls : cLogStats) : disk :=
  if Count ls =? 0 then d else
  let '(d, f) := CreateISLogFile file_name WB d in
  let '(d, _, _) := write (Stats ls) d f in d.

End LogStats.
