(* ===== verification/DataChunk.v ===== *)
(** * Chunks of log data (src/src/DataChunk.cpp, DataChunk.h)

    A chunk is a buffer of [DEFAULT_CHUNK_DATA_SIZE] bytes (16 KB or 128 KB, by the
    platform: a parameter), the part of it that holds data, and the header that is
    written in front of the data.  Positions are offsets from [m_buffHead]; a function
    that would copy from or to outside of the buffer has the result [None]. *)

From Stdlib Require Import String.
From S2P Require Import Prelude CommTypes CommTx LogFile.

Definition DATA_CHUNK_MARKER : Z := 0xFC05EA32.
Definition PROTOCOL_VERSION_CHAR0 : Z := 2.
Definition PROTOCOL_VERSION_CHAR1 : Z := 0.
Definition sizeof_sChunkHeader : Z := 40.

Record sChunkHeader := ChunkHeader {
  ch_marker : Z;
  ch_version : Z;
  ch_dataOffset : Z;
  ch_protocolVersion : list Z;      (* 2 bytes *)
  ch_name : list Z;                 (* 4 bytes *)
  ch_invName : list Z;
  ch_dataSize : Z;
  ch_invDataSize : Z;
  ch_grpNum : Z;
  ch_devSerialNum : Z;
  ch_pHandle : Z;
  ch_fwVersion : list Z             (* 4 bytes *)
}.

(** The structure in memory. *)
Definition header_bytes (h : sChunkHeader) : list Z :=
  le32_bytes (ch_marker h) ++ [ch_version h; ch_dataOffset h] ++ ch_protocolVersion h ++
  ch_name h ++ ch_invName h ++ le32_bytes (ch_dataSize h) ++ le32_bytes (ch_invDataSize h) ++
  le32_bytes (ch_grpNum h) ++ le32_bytes (ch_devSerialNum h) ++ le32_bytes (ch_pHandle h) ++
  ch_fwVersion h.

Definition word_at (l : list Z) (o : Z) : Z :=
  match dropZ o l with
  | b0 :: b1 :: b2 :: b3 :: _ => le16 b0 b1 + 65536 * le16 b2 b3
  | _ => 0
  end.
Definition byte_at (l : list Z) (o : Z) : Z := default 0 (nthZ l o).

Definition header_of (l : list Z) : sChunkHeader :=
  {| ch_marker := word_at l 0; ch_version := byte_at l 4; ch_dataOffset := byte_at l 5;
     ch_protocolVersion := subZ 6 2 l; ch_name := subZ 8 4 l; ch_invName := subZ 12 4 l;
     ch_dataSize := word_at l 16; ch_invDataSize := word_at l 20; ch_grpNum := word_at l 24;
     ch_devSerialNum := word_at l 28; ch_pHandle := word_at l 32; ch_fwVersion := subZ 36 4 l |}.

(** The structure after its first bytes were overwritten. *)
Definition header_read (h : sChunkHeader) (bytes : list Z) : sChunkHeader :=
  header_of (updZ 0 bytes (header_bytes h)).

Definition hdr_set_name (name : list Z) (h : sChunkHeader) : sChunkHeader :=
  ChunkHeader (ch_marker h) (ch_version h) (ch_dataOffset h) (ch_protocolVersion h) name
    (map (fun x => 255 - x) name) (ch_dataSize h) (ch_invDataSize h) (ch_grpNum h)
    (ch_devSerialNum h) (ch_pHandle h) (ch_fwVersion h).
Definition hdr_set_dataSize (n : Z) (h : sChunkHeader) : sChunkHeader :=
  ChunkHeader (ch_marker h) (ch_version h) (ch_dataOffset h) (ch_protocolVersion h) (ch_name h)
    (ch_invName h) n (ch_invDataSize h) (ch_grpNum h) (ch_devSerialNum h) (ch_pHandle h)
    (ch_fwVersion h).
Definition hdr_set_invDataSize (n : Z) (h : sChunkHeader) : sChunkHeader :=
  ChunkHeader (ch_marker h) (ch_version h) (ch_dataOffset h) (ch_protocolVersion h) (ch_name h)
    (ch_invName h) (ch_dataSize h) n (ch_grpNum h) (ch_devSerialNum h) (ch_pHandle h)
    (ch_fwVersion h).
Definition hdr_set_grpNum (n : Z) (h : sChunkHeader) : sChunkHeader :=
  ChunkHeader (ch_marker h) (ch_version h) (ch_dataOffset h) (ch_protocolVersion h) (ch_name h)
    (ch_invName h) (ch_dataSize h) (ch_invDataSize h) n (ch_devSerialNum h) (ch_pHandle h)
    (ch_fwVersion h).
Definition hdr_set_devSerialNum (n : Z) (h : sChunkHeader) : sChunkHeader :=
  ChunkHeader (ch_marker h) (ch_version h) (ch_dataOffset h) (ch_protocolVersion h) (ch_name h)
    (ch_invName h) (ch_dataSize h) (ch_invDataSize h) (ch_grpNum h) n (ch_pHandle h)
    (ch_fwVersion h).
Definition hdr_set_pHandle (n : Z) (h : sChunkHeader) : sChunkHeader :=
  ChunkHeader (ch_marker h) (ch_version h) (ch_dataOffset h) (ch_protocolVersion h) (ch_name h)
    (ch_invName h) (ch_dataSize h) (ch_invDataSize h) (ch_grpNum h) (ch_devSerialNum h) n
    (ch_fwVersion h).
Definition hdr_set_fwVersion (v : list Z) (h : sChunkHeader) : sChunkHeader :=
  ChunkHeader (ch_marker h) (ch_version h) (ch_dataOffset h) (ch_protocolVersion h) (ch_name h)
    (ch_invName h) (ch_dataSize h) (ch_invDataSize h) (ch_grpNum h) (ch_devSerialNum h)
    (ch_pHandle h) v.

Record cDataChunk := Chunk {
  m_hdr : sChunkHeader;
  m_buff : list Z;                  (* from [m_buffHead] to [m_buffTail] *)
  m_dataHead : Z;
  m_dataTail : Z
}.

(** [~x] of a [uint32_t]. *)
Definition inv32 (x : Z) : Z := 4294967295 - u32 x.

Module DataChunk.

Definition GetBuffSize (c : cDataChunk) : Z := s32 (lenZ (m_buff c)).
Definition GetBuffFree (c : cDataChunk) : Z := s32 (lenZ (m_buff c) - m_dataTail c).
Definition GetDataSize (c : cDataChunk) : Z := s32 (m_dataTail c - m_dataHead c).
Definition GetHeaderSize : Z := sizeof_sChunkHeader.

Definition set_hdr (h : sChunkHeader) (c : cDataChunk) : cDataChunk :=
  Chunk h (m_buff c) (m_dataHead c) (m_dataTail c).

Definition Clear (c : cDataChunk) : cDataChunk :=
  Chunk (hdr_set_invDataSize 4294967295 (hdr_set_dataSize 0 (m_hdr c))) (m_buff c) 0 0.

Definition SetName (name : list Z) (c : cDataChunk) : option cDataChunk :=
  name ← take_exact 4 name; Some (set_hdr (hdr_set_name name (m_hdr c)) c).

(** The constructor: [Clear], then the members of the header; [dataSize] becomes 34.
    [hdr0] holds the members that are not assigned, [buff] the memory. *)
Definition constructor (hdr0 : sChunkHeader) (buff : list Z) : cDataChunk :=
  let c := Clear (Chunk hdr0 buff 0 0) in
  let h := m_hdr c in
  let h := ChunkHeader DATA_CHUNK_MARKER 2 34 [PROTOCOL_VERSION_CHAR0; PROTOCOL_VERSION_CHAR1]
    (ch_name h) (ch_invName h) 34 (ch_invDataSize h) 0 0 (ch_pHandle h) [0; 0; 0; 0] in
  let name := chars "PDAT"%string in
  set_hdr (hdr_set_name name h) c.

Definition SetDevInfo (serialNumber : Z) (firmwareVer : list Z) (c : cDataChunk) : cDataChunk :=
  set_hdr (hdr_set_fwVersion firmwareVer (hdr_set_devSerialNum serialNumber (m_hdr c))) c.

(** One of the two copies of [PushBack]. *)
Definition push (d : list Z) (dSize : Z) (c : cDataChunk) : option cDataChunk :=
  if 0 <? dSize then
    buff ← memcpy (m_buff c) (m_dataTail c) d dSize;
    Some (Chunk (hdr_set_dataSize (u32 (ch_dataSize (m_hdr c) + dSize)) (m_hdr c)) buff
            (m_dataHead c) (m_dataTail c + dSize))
  else Some c.

(** The sum of the sizes is of type [int32_t]; it is undefined when it overflows. *)
Definition PushBack (d1 : list Z) (d1Size : Z) (d2 : list Z) (d2Size : Z) (c : cDataChunk)
    : option (cDataChunk * Z) :=
  let nBytes := d1Size + d2Size in
  if negb (s32 nBytes =? nBytes) then None else
  if GetBuffFree c <? nBytes then Some (c, 0) else
  c ← push d1 d1Size c;
  c ← push d2 d2Size c;
  Some (set_hdr (hdr_set_invDataSize (inv32 (ch_dataSize (m_hdr c))) (m_hdr c)) c, nBytes).

(** NULL is [None]. *)
Definition GetDataPtr (c : cDataChunk) : option Z :=
  if GetDataSize c <=? 0 then None else Some (m_dataHead c).

Definition PopFront (size : Z) (c : cDataChunk) : cDataChunk * bool :=
  if size <=? GetDataSize c then
    let n := u32 (ch_dataSize (m_hdr c) - size) in
    (Chunk (hdr_set_invDataSize (inv32 n) (hdr_set_dataSize n (m_hdr c))) (m_buff c)
       (m_dataHead c + size) (m_dataTail c), true)
  else (Clear c, false).

(** [n] bytes of the buffer from [o] on. *)
Definition buff_bytes (c : cDataChunk) (o n : Z) : option (list Z) :=
  load_range (Region 0 (m_buff c)) o n.

(** The additional headers are empty. *)
Definition WriteToFile (pFile : option cISLogFile) (groupNumber : Z) (writeHeader : bool)
    (d : disk) (c : cDataChunk) : option (disk * option cISLogFile * cDataChunk * Z) :=
  match pFile with
  | None => Some (d, None, c, -1)
  | Some f =>
    let c := set_hdr (hdr_set_grpNum (u32 groupNumber) (m_hdr c)) c in
    let '(d, f, nHeader) :=
      if writeHeader then write (header_bytes (m_hdr c)) d f else (d, f, 0) in
    bytes ← buff_bytes c (m_dataHead c) (ch_dataSize (m_hdr c));
    let '(d, f, nData) := write bytes d f in
    let nBytes := nHeader + nData in
    if writeHeader && negb (nBytes =? GetHeaderSize + s32 (ch_dataSize (m_hdr c)))
    then Some (d, Some f, c, -1)
    else Some (d, Some f, Clear c, nBytes)
  end.

(** The data is read behind [m_buffHead]: [None] when it is longer than the buffer. *)
Definition read_data (c : cDataChunk) (d : disk) (f : cISLogFile)
    : option (cISLogFile * cDataChunk) :=
  let '(f, bytes) := read (ch_dataSize (m_hdr c)) d f in
  buff ← memcpy (m_buff c) 0 bytes (lenZ bytes);
  Some (f, Chunk (m_hdr c) buff (m_dataHead c) (m_dataTail c + lenZ bytes)).

Definition ReadFromFile (pFile : option cISLogFile) (readHeader : bool) (d : disk)
    (c : cDataChunk) : option (option cISLogFile * cDataChunk * Z) :=
  match pFile with
  | None => Some (None, c, -1)
  | Some f =>
    let c := Clear c in
    if readHeader then
      let '(f, bytes) := read sizeof_sChunkHeader d f in
      let c := set_hdr (header_read (m_hdr c) bytes) c in
      if negb (ch_dataSize (m_hdr c) =? inv32 (ch_invDataSize (m_hdr c))) || (lenZ bytes <=? 0)
      then Some (Some f, c, -1)
      else
        '(f, c) ← read_data c d f;
        let nBytes := lenZ bytes + GetDataSize c in
        if (ch_marker (m_hdr c) =? DATA_CHUNK_MARKER) &&
           (nBytes =? s32 (GetHeaderSize + ch_dataSize (m_hdr c)))
        then Some (Some f, c, nBytes)
        else Some (Some f, Clear c, -1)
    else
      let c := set_hdr (hdr_set_dataSize (u32 (GetBuffFree c)) (m_hdr c)) c in
      '(f, c) ← read_data c d f;
      let nBytes := GetDataSize c in
      let c := set_hdr (hdr_set_dataSize (u32 nBytes) (m_hdr c)) c in
      Some (Some f, c, if 0 <? ch_dataSize (m_hdr c) then s32 (ch_dataSize (m_hdr c)) else -1)
  end.

End DataChunk.
Export DataChunk.
