(* ===== verification/DeviceLog.v ===== *)
(** * Device logs (src/src/DeviceLog.cpp, DeviceLogRaw.cpp, DeviceLogSerial.cpp)

    A log of a device is written to files of chunks and read back.  [cDeviceLogRaw] logs
    the bytes of the port and parses them again to find the data, [cDeviceLogSerial] logs
    each data set with its header.  The directory is listed by the operating system: the
    names of the files to read are given.  The table behind
    [cISDataMappings::TimestampOrCurrentTime] and the clock are parameters, as a time stamp
    only enters the statistics, and so is the text of the statistics. *)

From stdpp Require Import gmap strings pretty.
From S2P Require Import Prelude CommTypes CommRx CommTx DataIds Layouts LogFile LogStats.
From S2P Require Import DataChunk.

Definition IS_LOG_FILE_PREFIX : string := "LOG_SN".

(** The members of [ISDevice] a log uses. *)
Record ISDevice := Device {
  portHandle : Z;
  devInfo : list Z                  (* the bytes of [dev_info_t] *)
}.

Record cDeviceLog := DeviceLog {
  device : option ISDevice;
  m_devHdwId : Z;
  m_devSerialNo : Z;
  m_fileNames : list string;
  m_pFile : option cISLogFile;
  m_directory : string;
  m_timeStamp : string;
  m_fileName : string;
  m_writeMode : bool;
  m_showParseErrors : bool;
  m_fileSize : Z;
  m_logSize : Z;
  m_fileCount : Z;
  m_maxDiskSpace : Z;
  m_maxFileSize : Z;
  m_logStats : cLogStats
}.

(** [p_data_buf_t] *)
Record p_data_buf_t := DataBuf { db_hdr : p_data_hdr_t; db_buf : list Z }.

(** What the logs use that is not modelled. *)
Class log_env := {
  TimestampOrCurrentTime : p_data_hdr_t -> region -> Z -> double;
  Timestamp : p_data_hdr_t -> list Z -> double;
  current_timeSecD : Z -> double;   (* when the byte of the given index is processed *)
  Stats : cLogStats -> list Z       (* the text of the statistics *)
}.

Definition u64 (x : Z) : Z := x mod 18446744073709551616.

Module DeviceLog.

(** ** Assignments to one member *)

Definition set_device (v : option ISDevice) (l : cDeviceLog) : cDeviceLog :=
  DeviceLog v (m_devHdwId l) (m_devSerialNo l) (m_fileNames l) (m_pFile l) (m_directory l)
    (m_timeStamp l) (m_fileName l) (m_writeMode l) (m_showParseErrors l) (m_fileSize l)
    (m_logSize l) (m_fileCount l) (m_maxDiskSpace l) (m_maxFileSize l) (m_logStats l).
Definition set_devSerialNo (v : Z) (l : cDeviceLog) : cDeviceLog :=
  DeviceLog (device l) (m_devHdwId l) v (m_fileNames l) (m_pFile l) (m_directory l)
    (m_timeStamp l) (m_fileName l) (m_writeMode l) (m_showParseErrors l) (m_fileSize l)
    (m_logSize l) (m_fileCount l) (m_maxDiskSpace l) (m_maxFileSize l) (m_logStats l).
Definition set_pFile (v : option cISLogFile) (l : cDeviceLog) : cDeviceLog :=
  DeviceLog (device l) (m_devHdwId l) (m_devSerialNo l) (m_fileNames l) v (m_directory l)
    (m_timeStamp l) (m_fileName l) (m_writeMode l) (m_showParseErrors l) (m_fileSize l)
    (m_logSize l) (m_fileCount l) (m_maxDiskSpace l) (m_maxFileSize l) (m_logStats l).
Definition set_fileSize (v : Z) (l : cDeviceLog) : cDeviceLog :=
  DeviceLog (device l) (m_devHdwId l) (m_devSerialNo l) (m_fileNames l) (m_pFile l) (m_directory l)
    (m_timeStamp l) (m_fileName l) (m_writeMode l) (m_showParseErrors l) v
    (m_logSize l) (m_fileCount l) (m_maxDiskSpace l) (m_maxFileSize l) (m_logStats l).
Definition set_logSize (v : Z) (l : cDeviceLog) : cDeviceLog :=
  DeviceLog (device l) (m_devHdwId l) (m_devSerialNo l) (m_fileNames l) (m_pFile l) (m_directory l)
    (m_timeStamp l) (m_fileName l) (m_writeMode l) (m_showParseErrors l) (m_fileSize l)
    v (m_fileCount l) (m_maxDiskSpace l) (m_maxFileSize l) (m_logStats l).
Definition set_fileCount (v : Z) (l : cDeviceLog) : cDeviceLog :=
  DeviceLog (device l) (m_devHdwId l) (m_devSerialNo l) (m_fileNames l) (m_pFile l) (m_directory l)
    (m_timeStamp l) (m_fileName l) (m_writeMode l) (m_showParseErrors l) (m_fileSize l)
    (m_logSize l) v (m_maxDiskSpace l) (m_maxFileSize l) (m_logStats l).
Definition set_fileName (v : string) (l : cDeviceLog) : cDeviceLog :=
  DeviceLog (device l) (m_devHdwId l) (m_devSerialNo l) (m_fileNames l) (m_pFile l) (m_directory l)
    (m_timeStamp l) v (m_writeMode l) (m_showParseErrors l) (m_fileSize l)
    (m_logSize l) (m_fileCount l) (m_maxDiskSpace l) (m_maxFileSize l) (m_logStats l).
Definition set_logStats (v : cLogStats) (l : cDeviceLog) : cDeviceLog :=
  DeviceLog (device l) (m_devHdwId l) (m_devSerialNo l) (m_fileNames l) (m_pFile l) (m_directory l)
    (m_timeStamp l) (m_fileName l) (m_writeMode l) (m_showParseErrors l) (m_fileSize l)
    (m_logSize l) (m_fileCount l) (m_maxDiskSpace l) (m_maxFileSize l) v.

(** ** The base class *)

(** The default constructor; the members for disk space and file size have no value. *)
Definition new_log (dev : option ISDevice) (hdwId serialNo diskSpace0 fileSize0 : Z) : cDeviceLog :=
  DeviceLog dev hdwId serialNo [] None "" "" "" false false 0 0 0 diskSpace0 fileSize0
    (LogStats.Clear ∅).

Definition InitDeviceForWriting (timestamp directory : string) (maxDiskSpace maxFileSize : Z)
    (l : cDeviceLog) : cDeviceLog :=
  DeviceLog (device l) (m_devHdwId l) (m_devSerialNo l) (m_fileNames l) (m_pFile l) directory
    timestamp (m_fileName l) true (m_showParseErrors l) (m_fileSize l)
    0 0 maxDiskSpace maxFileSize (LogStats.Clear (m_logStats l)).

Definition InitDeviceForReading (l : cDeviceLog) : cDeviceLog :=
  DeviceLog (device l) (m_devHdwId l) (m_devSerialNo l) (m_fileNames l) (m_pFile l) (m_directory l)
    (m_timeStamp l) (m_fileName l) false (m_showParseErrors l) 0
    0 0 (m_maxDiskSpace l) (m_maxFileSize l) (LogStats.Clear (m_logStats l)).

Definition CloseAllFiles `{log_env} (d : disk) (l : cDeviceLog) : disk :=
  if m_writeMode l
  then LogStats.WriteToFile Stats (m_directory l ++ "/stats_SN" ++ pretty (m_devSerialNo l) ++ ".txt")
         d (m_logStats l)
  else d.

(** The statistics of [cDeviceLog::SaveData] for a data set. *)
Definition SaveDataStats `{log_env} (dataHdr : p_data_hdr_t) (m : region) (dataBuf : Z)
    (ptype : protocol_type_t) (l : cDeviceLog) : cDeviceLog :=
  let timestamp := if decide (ptype = PTYPE_INERTIAL_SENSE_DATA)
    then TimestampOrCurrentTime dataHdr m dataBuf else current_timeSecD 0 in
  set_logStats (LogStats.LogData ptype (dh_id dataHdr) timestamp (m_logStats l)) l.

(** [fileInfos] are the names that [GetDirectorySpaceUsed] lists, sorted by name;
    [SetSerialNumber] of the derived class is called before. *)
Definition SetupReadInfo (directory timeStamp : string) (fileInfos : list string)
    (l : cDeviceLog) : cDeviceLog :=
  DeviceLog (device l) (m_devHdwId l) (m_devSerialNo l) fileInfos (m_pFile l) directory
    timeStamp (match fileInfos with name :: _ => name | [] => m_fileName l end) (m_writeMode l)
    (m_showParseErrors l) (m_fileSize l)
    (m_logSize l) 0 (m_maxDiskSpace l) (m_maxFileSize l) (m_logStats l).

Definition digit (n : Z) : string := pretty (n mod 10).

(** The conversion [%04d] of a number below 10000. *)
Definition four_digits (n : Z) : string :=
  digit (n / 1000) ++ digit (n / 100) ++ digit (n / 10) ++ digit n.

Definition GetNewFileName (extension : string) (serialNumber fileCount : Z) (suffix : string)
    (l : cDeviceLog) : string :=
  m_directory l ++ "/" ++ IS_LOG_FILE_PREFIX ++ pretty (s32 serialNumber) ++ "_" ++
  m_timeStamp l ++ "_" ++ four_digits (fileCount mod 10000) ++
  (if decide (suffix = "") then "" else "_" ++ suffix) ++ extension.

(** The serial number in the bytes of a [dev_info_t]. *)
Definition dev_serialNumber (info : list Z) : Z := u32 (word_at info 4).

Definition OpenNewSaveFile (extension : string) (d : disk) (l : cDeviceLog)
    : disk * cDeviceLog * bool :=
  let l := set_pFile (CloseISLogFile (m_pFile l)) l in
  if decide (m_directory l = "") then (d, l, false) else
  let l := set_fileCount (u32 (m_fileCount l + 1)) l in
  let serNum := match device l with Some dev => dev_serialNumber (devInfo dev)
                | None => m_devSerialNo l end in
  if serNum =? 0 then (d, l, false) else
  let '(d, f) := CreateISLogFile (GetNewFileName extension serNum (m_fileCount l) "" l) WB d in
  let l := set_fileSize 0 (set_pFile (Some f) l) in
  (d, l, isOpened f).

Definition OpenNextReadFile (d : disk) (l : cDeviceLog) : cDeviceLog * bool :=
  let l := set_pFile (CloseISLogFile (m_pFile l)) l in
  match m_fileNames l !! Z.to_nat (m_fileCount l) with
  | None => (l, false)
  | Some name =>
    let l := set_fileCount (u32 (m_fileCount l + 1)) (set_fileName name l) in
    let '(_, f) := CreateISLogFile name RB d in
    (set_pFile (Some f) l, true)
  end.

Definition UpdateStatsFromFile `{log_env} (hdr : p_data_hdr_t) (buf : list Z) (l : cDeviceLog)
    : cDeviceLog :=
  set_logStats (LogStats.LogData PTYPE_INERTIAL_SENSE_DATA (dh_id hdr) (Timestamp hdr buf)
    (m_logStats l)) l.

(** ** Chunks of a log

    [WriteChunkToFile] and [ReadChunkFromFile] of the two classes differ in the header
    of the chunk, which only the serial log writes, and in the extension of the file. *)

Record chunk_log := ChunkLog { cl_log : cDeviceLog; cl_chunk : cDataChunk }.

Definition WriteChunkToFile (extension : string) (header : bool) (d : disk) (s : chunk_log)
    : option (disk * chunk_log * bool) :=
  let l := cl_log s in
  if GetDataSize (cl_chunk s) =? 0 then Some (d, s, false) else
  let '(d, l) := match m_pFile l with
    | None => let '(d, l, _) := OpenNewSaveFile extension d l in (d, l)
    | Some _ => (d, l)
    end in
  match m_pFile l with
  | None => Some (d, ChunkLog l (cl_chunk s), false)
  | Some f =>
    '(d, f, c, fileBytes) ← WriteToFile (Some f) 0 header d (cl_chunk s);
    let l := set_pFile f l in
    if negb (match f with Some f => good f | None => false end)
    then Some (d, ChunkLog l c, false)
    else Some (d, ChunkLog (set_fileSize (u64 (m_fileSize l + fileBytes)) l) c, true)
  end.

Definition FlushToFile (extension : string) (header : bool) (d : disk) (s : chunk_log)
    : option (disk * chunk_log * bool) :=
  if m_writeMode (cl_log s) then
    '(d, s, _) ← WriteChunkToFile extension header d s; Some (d, s, true)
  else Some (d, s, false).

Definition CloseAllChunkFiles `{log_env} (extension : string) (header : bool) (d : disk) (s : chunk_log)
    : option (disk * chunk_log) :=
  let d := CloseAllFiles d (cl_log s) in
  '(d, s, _) ← FlushToFile extension header d s;
  Some (d, ChunkLog (set_pFile (CloseISLogFile (m_pFile (cl_log s))) (cl_log s)) (cl_chunk s)).

(** The end of [SaveData]: room for [need] more bytes; [false] when the chunk could not
    be written. *)
Definition make_room `{log_env} (extension : string) (header : bool) (need : Z) (d : disk) (s : chunk_log)
    : option (disk * chunk_log * bool) :=
  if GetBuffFree (cl_chunk s) <? need then
    '(d, s, ok) ← WriteChunkToFile extension header d s;
    if negb ok then Some (d, s, false) else
    if m_maxFileSize (cl_log s) <=? m_fileSize (cl_log s) then
      '(d, s) ← CloseAllChunkFiles extension header d s; Some (d, s, true)
    else Some (d, s, true)
  else Some (d, s, true).

(** The file of the last turn may already be at its end; each further turn opens one. *)
Fixpoint read_chunk_loop (fuel : nat) (header : bool) (d : disk) (s : chunk_log)
    : option (chunk_log * bool) :=
  match fuel with
  | O => None
  | S fuel =>
    '(f, c, n) ← ReadFromFile (m_pFile (cl_log s)) header d (cl_chunk s);
    let l := set_pFile f (cl_log s) in
    if n <? 0 then
      let '(l, more) := OpenNextReadFile d l in
      if negb more then Some (ChunkLog l c, false)
      else read_chunk_loop fuel header d (ChunkLog l c)
    else Some (ChunkLog l c, true)
  end.

Definition ReadChunkFromFile (header : bool) (d : disk) (s : chunk_log)
    : option (chunk_log * bool) :=
  read_chunk_loop (length (m_fileNames (cl_log s)) + 2) header d s.

(** Fuel for [ReadData]: every chunk is read from at least one byte of a file. *)
Definition read_fuel (d : disk) (l : cDeviceLog) : nat :=
  foldr (fun name n => (length (file_content d name) + n)%nat) 2%nat (m_fileNames l).

(** The serial number from a received part of the device information: recorded in the
    header of the chunk when the part contains it.  [data] are the bytes received. *)
Definition record_dev_info (hdr : p_data_hdr_t) (data : list Z) (s : chunk_log)
    : option chunk_log :=
  let l := cl_log s in
  let info := match device l with
    | Some dev => devInfo dev
    | None => repeat 0 (Z.to_nat (sizeof_layout dev_info_layout))
    end in
  '(info, result) ← copyDataPToStructP2 info hdr data (sizeof_layout dev_info_layout);
  let l := match device l with
    | Some dev => set_device (Some (Device (portHandle dev) info)) l
    | None => l
    end in
  let start := dh_offset hdr in
  let e := dh_offset hdr + dh_size hdr in
  let snOffset := offsetof dev_info_layout "serialNumber" 0 in
  let c := cl_chunk s in
  if (result =? 0) && (start <=? snOffset) && (snOffset + 4 <=? e)
  then Some (ChunkLog l (set_hdr (hdr_set_devSerialNum (dev_serialNumber info) (m_hdr c)) c))
  else Some (ChunkLog l c).

End DeviceLog.
Export DeviceLog.
