(* ===== verification/DeviceLogRaw.v ===== *)
(** * Raw logs (src/src/DeviceLogRaw.cpp)

    The bytes of the port go to the log as they are.  While they are written they are
    parsed for the statistics and the serial number of the device; when they are read
    they are parsed for the data. *)

From stdpp Require Import gmap strings.
From S2P Require Import Prelude CommTypes CommRx CommTx DataIds Layouts LogFile LogStats.
From S2P Require Import DataChunk DeviceLog.

Record cDeviceLogRaw := DeviceLogRaw {
  r_log : chunk_log;
  m_commBuf : region;
  m_comm : is_comm_instance_t;
  m_pData : p_data_buf_t
}.

Module DeviceLogRaw.

Definition LogFileExtention : string := ".raw".

Definition set_log (s : chunk_log) (r : cDeviceLogRaw) : cDeviceLogRaw :=
  DeviceLogRaw s (m_commBuf r) (m_comm r) (m_pData r).
Definition set_comm (m : region) (c : is_comm_instance_t) (r : cDeviceLogRaw) : cDeviceLogRaw :=
  DeviceLogRaw (r_log r) m c (m_pData r).
Definition set_pData (p : p_data_buf_t) (r : cDeviceLogRaw) : cDeviceLogRaw :=
  DeviceLogRaw (r_log r) (m_commBuf r) (m_comm r) p.
Definition update_log (f : cDeviceLog -> cDeviceLog) (r : cDeviceLogRaw) : cDeviceLogRaw :=
  set_log (ChunkLog (f (cl_log (r_log r))) (cl_chunk (r_log r))) r.

(** The three constructors: [l] is the object of the base class. *)
Definition constructor (l : cDeviceLog) (c : cDataChunk) (commBuf : region) (pData : p_data_buf_t)
    : option cDeviceLogRaw :=
  '(m, c0) ← is_comm_init commBuf (base commBuf) (lenZ (cells commBuf));
  Some (DeviceLogRaw (ChunkLog l c) m c0 pData).

Definition InitDeviceForWriting (timestamp directory : string) (maxDiskSpace maxFileSize : Z)
    (r : cDeviceLogRaw) : cDeviceLogRaw :=
  let c := Clear (cl_chunk (r_log r)) in
  let handle := match device (cl_log (r_log r)) with
    | Some dev => portHandle dev | None => u32 (-1) end in
  let c := set_hdr (hdr_set_pHandle (u32 handle) (m_hdr c)) c in
  set_log (ChunkLog (DeviceLog.InitDeviceForWriting timestamp directory maxDiskSpace maxFileSize
    (cl_log (r_log r))) c) r.

(** The bytes of the packet the parser reports, for [copyDataPToStructP2]. *)
Definition packet_data (r : cDeviceLogRaw) : list Z :=
  default [] (load_range (m_commBuf r) (data_ptr (rxPkt (m_comm r)))
                (hdr_payloadSize (rxPkt (m_comm r)))).

(** [rxPkt.dataHdr] *)
Definition packet_hdr (r : cDeviceLogRaw) : p_data_hdr_t :=
  let p := rxPkt (m_comm r) in DataHdr (hdr_id p) (hdr_payloadSize p) (pkt_offset p).

Section Env.
Context `{log_env}.

Definition CloseAllFiles (d : disk) (r : cDeviceLogRaw) : option (disk * cDeviceLogRaw) :=
  '(d, s) ← CloseAllChunkFiles LogFileExtention false d (r_log r); Some (d, set_log s r).

(** The time stamp of a result of the parser in [SaveData]; [i] is the index of the byte.
    The device information is looked at for the serial number. *)
Definition save_timestamp (i : Z) (ptype : protocol_type_t) (r : cDeviceLogRaw)
    : option (cDeviceLogRaw * double) :=
  match ptype with
  | PTYPE_PARSE_ERROR => Some (r, dzero)
  | PTYPE_INERTIAL_SENSE_DATA | PTYPE_INERTIAL_SENSE_CMD =>
    let timestamp :=
      TimestampOrCurrentTime (packet_hdr r) (m_commBuf r) (data_ptr (rxPkt (m_comm r))) in
    if hdr_id (rxPkt (m_comm r)) =? DID_DEV_INFO then
      s ← record_dev_info (packet_hdr r) (packet_data r) (r_log r);
      Some (set_log s r, timestamp)
    else Some (r, timestamp)
  | _ => Some (r, current_timeSecD i)
  end.

Definition save_packet (i : Z) (ptype : protocol_type_t) (r : cDeviceLogRaw)
    (globalLogStats : cLogStats) : option (cDeviceLogRaw * cLogStats) :=
  '(r, timestamp) ← save_timestamp i ptype r;
  let id := pkt_id (rxPkt (m_comm r)) in
  Some (update_log (fun l => set_logStats (LogStats.LogData ptype id timestamp (m_logStats l)) l) r,
        LogStats.LogData ptype id timestamp globalLogStats).

Fixpoint save_loop (i : Z) (dataBuf : list Z) (r : cDeviceLogRaw) (globalLogStats : cLogStats)
    : option (cDeviceLogRaw * cLogStats) :=
  match dataBuf with
  | [] => Some (r, globalLogStats)
  | x :: dataBuf =>
    '(m, ptype, c) ← is_comm_parse_byte (m_commBuf r) (m_comm r) x;
    let r := set_comm m c r in
    '(r, globalLogStats) ←
      (if decide (ptype = PTYPE_NONE) then Some (r, globalLogStats)
       else save_packet i ptype r globalLogStats);
    save_loop (i + 1) dataBuf r globalLogStats
  end.

Definition SaveData (dataBuf : list Z) (globalLogStats : cLogStats) (d : disk) (r : cDeviceLogRaw)
    : option (disk * cDeviceLogRaw * cLogStats * bool) :=
  let dataSize := lenZ dataBuf in
  '(r, g) ← save_loop 0 dataBuf r globalLogStats;
  '(d, s, ok) ← make_room LogFileExtention false dataSize d (r_log r);
  if negb ok then Some (d, set_log s r, g, false) else
  let s := ChunkLog (set_logSize (u64 (m_logSize (cl_log s) + dataSize)) (cl_log s)) (cl_chunk s) in
  '(c, n) ← PushBack dataBuf dataSize [] 0 (cl_chunk s);
  Some (d, set_log (ChunkLog (cl_log s) c) r, g, negb (n =? 0)).

(** A result of the parser in [ReadDataFromChunk]: [true] when it is data to return.
    The offset of the data set is added to the pointer to the data. *)
Definition read_packet (ptype : protocol_type_t) (r : cDeviceLogRaw)
    : option (cDeviceLogRaw * bool) :=
  let id := pkt_id (rxPkt (m_comm r)) in
  let log (timestamp : double) :=
    update_log (fun l => set_logStats (LogStats.LogData ptype id timestamp (m_logStats l)) l) in
  match ptype with
  | PTYPE_PARSE_ERROR => Some (r, false)
  | PTYPE_INERTIAL_SENSE_DATA | PTYPE_INERTIAL_SENSE_CMD =>
    let hdr := packet_hdr r in
    let r := log (TimestampOrCurrentTime hdr (m_commBuf r) (data_ptr (rxPkt (m_comm r)))) r in
    src ← load_range (m_commBuf r) (data_ptr (rxPkt (m_comm r)) + dh_offset hdr) (dh_size hdr);
    buf ← memcpy (db_buf (m_pData r)) 0 src (dh_size hdr);
    Some (set_pData (DataBuf hdr buf) r, true)
  | _ => Some (log dzero r, false)
  end.

(** The bytes of the chunk one at a time; [None] as the second result is NULL. *)
Fixpoint read_data_loop (fuel : nat) (r : cDeviceLogRaw)
    : option (cDeviceLogRaw * option p_data_buf_t) :=
  match fuel with
  | O => None
  | S fuel =>
    let c := cl_chunk (r_log r) in
    if GetDataSize c =? 0 then Some (r, None) else
    match GetDataPtr c with
    | None => Some (r, None)
    | Some dataPtr =>
      data ← load (Region 0 (m_buff c)) dataPtr;
      let r := set_log (ChunkLog (cl_log (r_log r)) (fst (PopFront 1 c))) r in
      '(m, ptype, c) ← is_comm_parse_byte (m_commBuf r) (m_comm r) data;
      let r := set_comm m c r in
      '(r, found) ←
        (if decide (ptype = PTYPE_NONE) then Some (r, false) else read_packet ptype r);
      if found : bool then Some (r, Some (m_pData r)) else read_data_loop fuel r
    end
  end.

Definition ReadDataFromChunk (r : cDeviceLogRaw) : option (cDeviceLogRaw * option p_data_buf_t) :=
  let chunkSize := GetDataSize (cl_chunk (r_log r)) in
  if chunkSize <=? 0 then Some (r, None) else read_data_loop (Z.to_nat chunkSize + 1) r.

Fixpoint read_loop (fuel : nat) (d : disk) (r : cDeviceLogRaw)
    : option (cDeviceLogRaw * option p_data_buf_t) :=
  match fuel with
  | O => None
  | S fuel =>
    '(r, data) ← ReadDataFromChunk r;
    match data with
    | Some data => Some (r, Some data)
    | None =>
      '(s, more) ← ReadChunkFromFile false d (r_log r);
      let r := set_log s r in
      if negb more then Some (r, None) else read_loop fuel d r
    end
  end.

Definition ReadData (d : disk) (r : cDeviceLogRaw) : option (cDeviceLogRaw * option p_data_buf_t) :=
  read_loop (read_fuel d (cl_log (r_log r))) d r.

End Env.

Definition SetSerialNumber (serialNumber : Z) (r : cDeviceLogRaw) : cDeviceLogRaw :=
  let s := r_log r in
  set_log (ChunkLog (set_devSerialNo serialNumber (cl_log s))
    (set_hdr (hdr_set_devSerialNum serialNumber (m_hdr (cl_chunk s))) (cl_chunk s))) r.

(** [fflush] has nothing left to write here. *)
Definition Flush (d : disk) (r : cDeviceLogRaw) : option (disk * cDeviceLogRaw) :=
  '(d, s, _) ← WriteChunkToFile LogFileExtention false d (r_log r); Some (d, set_log s r).

End DeviceLogRaw.
