(* ===== verification/DeviceLogSerial.v ===== *)
(** * Serial logs (src/src/DeviceLogSerial.cpp)

    Each data set goes to the log with its header [p_data_hdr_t] of five bytes in front,
    in chunks with a header. *)

From stdpp Require Import gmap strings.
From S2P Require Import Prelude CommTypes CommTx DataIds Layouts LogFile LogStats.
From S2P Require Import DataChunk DeviceLog.

Module DeviceLogSerial.

Definition LogFileExtention : string := ".dat".

(** The structure in memory. *)
Definition data_hdr_bytes (h : p_data_hdr_t) : list Z :=
  [dh_id h] ++ le16_bytes (dh_size h) ++ le16_bytes (dh_offset h).
Definition data_hdr_of (l : list Z) : p_data_hdr_t :=
  DataHdr (byte_at l 0) (le16 (byte_at l 1) (byte_at l 2)) (le16 (byte_at l 3) (byte_at l 4)).

Definition InitDeviceForWriting (timestamp directory : string) (maxDiskSpace maxFileSize : Z)
    (s : chunk_log) : chunk_log :=
  let c := Clear (cl_chunk s) in
  let c := match device (cl_log s) with
    | Some dev =>
      set_hdr (hdr_set_pHandle (u32 (portHandle dev))
        (hdr_set_devSerialNum (dev_serialNumber (devInfo dev)) (m_hdr c))) c
    | None => c
    end in
  ChunkLog (DeviceLog.InitDeviceForWriting timestamp directory maxDiskSpace maxFileSize (cl_log s)) c.

(** The constructors of a log of a device and of a log of a serial number; the default
    constructor only clears the chunk. *)
Definition constructor (l : cDeviceLog) (c : cDataChunk) : chunk_log :=
  let c := Clear c in
  match device l with
  | Some dev =>
    let c := SetDevInfo (dev_serialNumber (devInfo dev)) (subZ 12 4 (devInfo dev)) c in
    ChunkLog l (set_hdr (hdr_set_devSerialNum (m_devSerialNo l) (m_hdr c)) c)
  | None => ChunkLog l (set_hdr (hdr_set_devSerialNum (m_devSerialNo l) (m_hdr c)) c)
  end.

Section Env.
Context `{log_env}.

Definition CloseAllFiles (d : disk) (s : chunk_log) : option (disk * chunk_log) :=
  CloseAllChunkFiles LogFileExtention true d s.

(** [dataBuf] are the bytes of the data set. *)
Definition SaveData (dataHdr : p_data_hdr_t) (dataBuf : list Z) (ptype : protocol_type_t)
    (d : disk) (s : chunk_log) : option (disk * chunk_log * bool) :=
  let s := ChunkLog (SaveDataStats dataHdr (Region 0 dataBuf) 0 ptype (cl_log s)) (cl_chunk s) in
  s ← (if dh_id dataHdr =? DID_DEV_INFO then record_dev_info dataHdr dataBuf s
       else Some (ChunkLog (cl_log s)
         (set_hdr (hdr_set_devSerialNum (m_devSerialNo (cl_log s)) (m_hdr (cl_chunk s))) (cl_chunk s))));
  let dataBytes := sizeof_p_data_hdr_t + dh_size dataHdr in
  '(d, s, ok) ← make_room LogFileExtention true dataBytes d s;
  if negb ok then Some (d, s, false) else
  let l := set_logSize (u64 (m_logSize (cl_log s) + dh_size dataHdr)) (cl_log s) in
  '(c, n) ← PushBack (data_hdr_bytes dataHdr) sizeof_p_data_hdr_t dataBuf (dh_size dataHdr)
              (cl_chunk s);
  Some (d, ChunkLog l c, negb (n =? 0)).

(** A pointer into the buffer of the chunk, or NULL. *)
Definition ReadDataFromChunk (s : chunk_log) : option (chunk_log * option Z) :=
  let c := cl_chunk s in
  if GetDataSize c <=? 0 then Some (s, None) else
  match GetDataPtr c with
  | None => Some (s, None)
  | Some data =>
    hdr ← buff_bytes c data sizeof_p_data_hdr_t;
    let size := dh_size (data_hdr_of hdr) + sizeof_p_data_hdr_t in
    let '(c, ok) := PopFront size c in
    Some (ChunkLog (cl_log s) c, if ok : bool then Some data else None)
  end.

Fixpoint read_loop (fuel : nat) (d : disk) (s : chunk_log) : option (chunk_log * option Z) :=
  match fuel with
  | O => None
  | S fuel =>
    '(s, data) ← ReadDataFromChunk s;
    match data with
    | Some data => Some (s, Some data)
    | None =>
      '(s, more) ← ReadChunkFromFile true d s;
      if negb more then Some (s, None) else read_loop fuel d s
    end
  end.

Definition ReadData (d : disk) (s : chunk_log) : option (chunk_log * option Z) :=
  '(s, data) ← read_loop (read_fuel d (cl_log s)) d s;
  match data with
  | None => Some (s, None)
  | Some data =>
    hdr ← buff_bytes (cl_chunk s) data sizeof_p_data_hdr_t;
    let buf := dropZ (data + sizeof_p_data_hdr_t) (m_buff (cl_chunk s)) in
    Some (ChunkLog (UpdateStatsFromFile (data_hdr_of hdr) buf (cl_log s)) (cl_chunk s), Some data)
  end.

End Env.

Definition SetSerialNumber (serialNumber : Z) (s : chunk_log) : chunk_log :=
  ChunkLog (set_devSerialNo serialNumber (cl_log s))
    (set_hdr (hdr_set_devSerialNum serialNumber (m_hdr (cl_chunk s))) (cl_chunk s)).

(** [fflush] has nothing left to write here. *)
Definition Flush (d : disk) (s : chunk_log) : option (disk * chunk_log) :=
  '(d, s, _) ← WriteChunkToFile LogFileExtention true d s; Some (d, s).

End DeviceLogSerial.
