(* ===== verification/DataChunkProps.v ===== *)
(** * What a chunk keeps

    The invariant of [cDataChunk] and what each operation does to the data of a chunk;
    a chunk written to a file is read back from it. *)

From stdpp Require Import gmap strings.
From S2P Require Import Prelude CommTypes CommTx LogFile DataChunk.

Lemma lenZ_pos {A} (l : list A) : l <> [] -> 0 < lenZ l.
Proof. destruct l; [done|]. intros _. unfold lenZ. cbn. lia. Qed.

(** ** Streams *)

(** The file is open for writing behind [content]. *)
Definition writing (d : disk) (f : cISLogFile) (name : string) (content : list Z) : Prop :=
  m_file f = Some (File name WB (lenZ content) false) /\ disk_files d !! name = Some content.

(** The file is open for reading in front of [rest]. *)
Definition reading (d : disk) (f : cISLogFile) (rest : list Z) : Prop :=
  exists name pos content, m_file f = Some (File name RB pos false) /\
    disk_files d !! name = Some content /\ 0 <= pos <= lenZ content /\ rest = dropZ pos content.

(** The other files are as they were. *)
Definition only_changes (name : string) (d d' : disk) : Prop :=
  forall n, n <> name -> disk_files d' !! n = disk_files d !! n.

Lemma only_changes_refl name d : only_changes name d d.
Proof. by intros n _. Qed.

Lemma only_changes_trans name d1 d2 d3 :
  only_changes name d1 d2 -> only_changes name d2 d3 -> only_changes name d1 d3.
Proof. intros H1 H2 n Hn. by rewrite H2, H1. Qed.

Lemma write_ok d f name content bytes :
  writing d f name content -> lenZ bytes <= disk_space d ->
  exists d' f', write bytes d f = (d', f', lenZ bytes) /\ writing d' f' name (content ++ bytes) /\
    good f' = true /\ disk_space d' = disk_space d - lenZ bytes /\ only_changes name d d'.
Proof.
  intros [Ef Ed] Hlen. pose proof (lenZ_nonneg bytes). unfold write. rewrite Ef. unfold fwrite.
  cbn [f_mode f_name f_pos f_error]. rewrite Z.min_l, Z.max_r, Z.ltb_irrefl by lia.
  unfold file_content. rewrite Ed. cbn [default]. unfold id. rewrite !takeZ_all by lia.
  eexists _, _. split; [done|]. split; [|split; [done|split; [done|]]].
  - split; cbn [m_file disk_files]; [by rewrite lenZ_app|by rewrite lookup_insert_eq].
  - intros n Hn. cbn [disk_files]. by rewrite lookup_insert_ne.
Qed.

Lemma read_ok d f rest len :
  reading d f rest -> 0 <= len ->
  exists f', read len d f = (f', takeZ len rest) /\ reading d f' (dropZ len rest).
Proof.
  intros (name & pos & content & Ef & Ed & Hpos & ->) Hlen. unfold read. rewrite Ef. unfold fread.
  cbn [f_mode f_name f_pos f_error]. unfold file_content. rewrite Ed. cbn [default]. unfold id.
  eexists. split; [reflexivity|]. eexists name, _, content. split; [done|]. split; [done|].
  rewrite lenZ_subZ. split; [lia|]. list_ext.
Qed.

(** ** The header *)

Definition word32 (x : Z) : Prop := 0 <= x < 4294967296.

Definition header_ok (h : sChunkHeader) : Prop :=
  word32 (ch_marker h) /\ word32 (ch_dataSize h) /\ word32 (ch_invDataSize h) /\
  word32 (ch_grpNum h) /\ word32 (ch_devSerialNum h) /\ word32 (ch_pHandle h) /\
  lenZ (ch_protocolVersion h) = 2 /\ lenZ (ch_name h) = 4 /\ lenZ (ch_invName h) = 4 /\
  lenZ (ch_fwVersion h) = 4.

Lemma list_of_2 (l : list Z) : lenZ l = 2 -> exists a b, l = [a; b].
Proof. unfold lenZ. destruct l as [|a [|b [|c l]]]; cbn; try lia. by exists a, b. Qed.

Lemma list_of_4 (l : list Z) : lenZ l = 4 -> exists a b c e, l = [a; b; c; e].
Proof. unfold lenZ. destruct l as [|a [|b [|c [|e [|x l]]]]]; cbn; try lia. by exists a, b, c, e. Qed.

Lemma le32_word x : word32 x ->
  le16 (x mod 256) ((x / 256) mod 256) + 65536 * le16 ((x / 65536) mod 256) ((x / 16777216) mod 256) = x.
Proof. unfold word32, le16. intros H. zlia. Qed.

Lemma header_bytes_length h : header_ok h -> lenZ (header_bytes h) = sizeof_sChunkHeader.
Proof.
  intros (_ & _ & _ & _ & _ & _ & H1 & H2 & H3 & H4). unfold header_bytes, le32_bytes.
  autorewrite with lenZ. rewrite H1, H2, H3, H4. reflexivity.
Qed.

(** The header is read back from its bytes. *)
Lemma header_roundtrip h : header_ok h -> header_of (header_bytes h) = h.
Proof.
  intros (W1 & W2 & W3 & W4 & W5 & W6 & H1 & H2 & H3 & H4).
  destruct h as [mk ver off pv nm inm ds ids gn sn ph fw]; cbn in *.
  apply list_of_2 in H1 as (? & ? & ->).
  apply list_of_4 in H2 as (? & ? & ? & ? & ->), H3 as (? & ? & ? & ? & ->), H4 as (? & ? & ? & ? & ->).
  unfold header_bytes, header_of. cbn [ch_marker ch_version ch_dataOffset ch_protocolVersion ch_name
    ch_invName ch_dataSize ch_invDataSize ch_grpNum ch_devSerialNum ch_pHandle ch_fwVersion
    le32_bytes app].
  f_equal; try reflexivity;
    unfold word_at, dropZ; cbn [Z.to_nat Pos.to_nat Pos.iter_op Nat.add drop]; by apply le32_word.
Qed.

(** Assignments to members of a header. *)
Lemma header_ok_sizes h n i :
  header_ok h -> word32 n -> word32 i -> header_ok (hdr_set_invDataSize i (hdr_set_dataSize n h)).
Proof. unfold header_ok. destruct h; cbn. intuition. Qed.

Lemma header_ok_dataSize h n : header_ok h -> word32 n -> header_ok (hdr_set_dataSize n h).
Proof. unfold header_ok. destruct h; cbn. intuition. Qed.

Lemma header_ok_grpNum h n : header_ok h -> word32 n -> header_ok (hdr_set_grpNum n h).
Proof. unfold header_ok. destruct h; cbn. intuition. Qed.

Lemma header_ok_devSerialNum h n : header_ok h -> word32 n -> header_ok (hdr_set_devSerialNum n h).
Proof. unfold header_ok. destruct h; cbn. intuition. Qed.

Lemma header_ok_pHandle h n : header_ok h -> word32 n -> header_ok (hdr_set_pHandle n h).
Proof. unfold header_ok. destruct h; cbn. intuition. Qed.

(** ** The invariant *)

(** The data is inside of the buffer. *)
Definition chunk_wf (c : cDataChunk) : Prop :=
  header_ok (m_hdr c) /\ 0 < lenZ (m_buff c) < 1073741824 /\
  0 <= m_dataHead c <= m_dataTail c /\ m_dataTail c <= lenZ (m_buff c).

(** The header agrees with the data.  This holds of a chunk that is written; after the
    constructor, and after a read without header, it does not. *)
Definition chunk_ok (c : cDataChunk) : Prop :=
  chunk_wf c /\ ch_dataSize (m_hdr c) = m_dataTail c - m_dataHead c /\
  ch_invDataSize (m_hdr c) = inv32 (ch_dataSize (m_hdr c)).

Definition chunk_data (c : cDataChunk) : list Z :=
  subZ (m_dataHead c) (m_dataTail c - m_dataHead c) (m_buff c).

(** The header is that of another chunk but for its sizes and the group. *)
Definition same_chunk (c c' : cDataChunk) : Prop :=
  lenZ (m_buff c') = lenZ (m_buff c) /\ ch_marker (m_hdr c') = ch_marker (m_hdr c).

#[export] Instance same_chunk_equiv : PreOrder same_chunk.
Proof. split; unfold same_chunk; [done|intros ? ? ?; intuition congruence]. Qed.

Lemma s32_small x : -2147483648 <= x < 2147483648 -> s32 x = x.
Proof. intros. unfold s32. rewrite Z.mod_small; lia. Qed.

Lemma u32_small x : word32 x -> u32 x = x.
Proof. unfold word32, u32. intros. by apply Z.mod_small. Qed.

Lemma u32_word x : word32 (u32 x).
Proof. unfold word32, u32. zlia. Qed.

Lemma inv32_word x : word32 (inv32 x).
Proof. unfold inv32, word32, u32. zlia. Qed.

Lemma inv32_inv32 x : word32 x -> inv32 (inv32 x) = x.
Proof. unfold inv32, word32. intros. rewrite (u32_small x), u32_small; unfold word32; lia. Qed.

Section Chunk.
Context (c : cDataChunk) (Hc : chunk_wf c).

Lemma chunk_data_length : lenZ (chunk_data c) = m_dataTail c - m_dataHead c.
Proof. unfold chunk_wf in Hc. unfold chunk_data. autorewrite with lenZ. lia. Qed.

Lemma GetDataSize_ok : GetDataSize c = lenZ (chunk_data c).
Proof. rewrite chunk_data_length. unfold chunk_wf in Hc. apply s32_small. lia. Qed.

Lemma GetBuffFree_ok : GetBuffFree c = lenZ (m_buff c) - m_dataTail c.
Proof. unfold chunk_wf in Hc. apply s32_small. lia. Qed.
End Chunk.

Lemma Clear_ok c :
  header_ok (m_hdr c) -> 0 < lenZ (m_buff c) < 1073741824 ->
  chunk_ok (Clear c) /\ chunk_data (Clear c) = [] /\ same_chunk c (Clear c) /\
  m_dataHead (Clear c) = 0.
Proof.
  intros H Hb. unfold chunk_ok, chunk_wf, same_chunk, Clear. cbn [m_hdr m_buff m_dataHead m_dataTail].
  split; [|done]. split; [|done]. split; [by apply header_ok_sizes|].
  cbn. split_and!; try done; lia.
Qed.

(** The part of the invariant that [push] keeps. *)
Lemma push_ok c d n :
  chunk_ok c -> 0 <= n <= lenZ d -> m_dataTail c + n <= lenZ (m_buff c) ->
  exists c', push d n c = Some c' /\
    chunk_ok (set_hdr (hdr_set_invDataSize (inv32 (ch_dataSize (m_hdr c'))) (m_hdr c')) c') /\
    chunk_data c' = chunk_data c ++ takeZ n d /\ same_chunk c c' /\
    m_dataTail c' = m_dataTail c + n /\ m_dataHead c' = m_dataHead c.
Proof.
  intros Hc Hn Hfit. pose proof Hc as [(Hh & Hb & Hd & Ht) [Es Ei]]. unfold push.
  destruct (Z.ltb_spec 0 n).
  2: { assert (n = 0) as -> by lia. exists c. split; [done|]. rewrite takeZ_0, app_nil_r, Z.add_0_r.
       split_and!; try done. unfold set_hdr. by rewrite <- Ei; destruct c as [[] ? ? ?]. }
  rewrite memcpy_ok by lia. cbn [mbind option_bind].
  assert (lenZ (takeZ n d) = n) as El by (autorewrite with lenZ; lia).
  assert (u32 (ch_dataSize (m_hdr c) + n) = m_dataTail c + n - m_dataHead c) as Eu
    by (rewrite u32_small; unfold word32; lia).
  eexists. split; [done|]. unfold chunk_ok, chunk_wf, chunk_data, same_chunk.
  cbn [set_hdr m_hdr m_buff m_dataHead m_dataTail]. rewrite Eu, lenZ_updZ by lia.
  split; [|split; [|done]].
  - split; [|done]. split; [|cbn; split_and!; (lia || done)].
    apply header_ok_sizes; [done| |apply inv32_word]. cbn. unfold word32. lia.
  - list_ext.
Qed.

Lemma set_hdr_data h c : chunk_data (set_hdr h c) = chunk_data c.
Proof. done. Qed.

(** [PushBack] appends both pieces, or nothing when they do not fit. *)
Lemma PushBack_ok c d1 d2 :
  chunk_ok c -> lenZ d1 + lenZ d2 < 2147483648 ->
  exists c' n, PushBack d1 (lenZ d1) d2 (lenZ d2) c = Some (c', n) /\ chunk_ok c' /\
    same_chunk c c' /\ m_dataHead c' = m_dataHead c /\
    if lenZ (m_buff c) - m_dataTail c <? lenZ d1 + lenZ d2
    then n = 0 /\ c' = c
    else n = lenZ d1 + lenZ d2 /\ chunk_data c' = chunk_data c ++ d1 ++ d2.
Proof.
  intros Hc Hlen. pose proof (lenZ_nonneg d1). pose proof (lenZ_nonneg d2).
  unfold PushBack. rewrite s32_small, Z.eqb_refl by lia. cbn [negb].
  rewrite GetBuffFree_ok by apply Hc.
  destruct (Z.ltb_spec (lenZ (m_buff c) - m_dataTail c) (lenZ d1 + lenZ d2)).
  { exists c, 0. by split_and!. }
  destruct (push_ok c d1 (lenZ d1) Hc) as (c1 & E1 & Hc1 & D1 & S1 & T1 & Eh1); [lia|lia|].
  rewrite E1. cbn [mbind option_bind]. rewrite takeZ_all in D1 by lia.
  assert (exists c2, push d2 (lenZ d2) c1 = Some c2 /\
    chunk_ok (set_hdr (hdr_set_invDataSize (inv32 (ch_dataSize (m_hdr c2))) (m_hdr c2)) c2) /\
    chunk_data c2 = chunk_data c1 ++ d2 /\ same_chunk c1 c2 /\ m_dataHead c2 = m_dataHead c1)
    as (c2 & -> & Hc2 & D2 & S2 & Eh2).
  { set (c1' := set_hdr _ c1) in Hc1.
    destruct (push_ok c1' d2 (lenZ d2) Hc1) as (c2 & E2 & Hc2 & D2 & S2 & _ & Eh2);
      [lia|destruct S1 as [S1 _]; cbn; lia|].
    rewrite takeZ_all in D2 by lia. unfold push in *.
    destruct (0 <? lenZ d2) eqn:E0; [|injection E2 as <-; by eexists].
    apply bind_Some in E2 as (buff & Eb & [= <-]). cbn [m_buff m_dataTail c1' set_hdr] in Eb.
    rewrite Eb. cbn [mbind option_bind]. eexists. split; [done|].
    split; [exact Hc2|]. split; [exact D2|]. by split. }
  eexists _, _. split; [done|]. split; [done|].
  split; [by etransitivity; [exact S1|]; destruct S2|].
  split; [cbn; by rewrite Eh2|]. split; [done|]. by rewrite set_hdr_data, D2, D1, app_assoc.
Qed.

Lemma updZ_whole (l l' : list Z) : lenZ l = lenZ l' -> updZ 0 l l' = l.
Proof. intros H. list_ext. Qed.

Lemma takeZ_app_exact {A} (l k : list A) n : n = lenZ l -> takeZ n (l ++ k) = l.
Proof. intros ->. unfold takeZ, lenZ. rewrite Nat2Z.id. apply take_app_length. Qed.

Lemma dropZ_app_exact {A} (l k : list A) n : n = lenZ l -> dropZ n (l ++ k) = k.
Proof. intros ->. unfold dropZ, lenZ. rewrite Nat2Z.id. apply drop_app_length. Qed.

(** A part of the data of a chunk. *)
Lemma buff_part c l0 l l' :
  chunk_wf c -> chunk_data c = l0 ++ l ++ l' ->
  buff_bytes c (m_dataHead c + lenZ l0) (lenZ l) = Some l.
Proof.
  intros Hc Ed. pose proof (chunk_data_length c Hc) as El. destruct Hc as (_ & Hb & Hh & Ht).
  rewrite Ed, !lenZ_app in El. pose proof (lenZ_nonneg l0). pose proof (lenZ_nonneg l).
  pose proof (lenZ_nonneg l').
  unfold buff_bytes. rewrite load_range_ok by (cbn [base cells]; lia). cbn [base cells].
  rewrite Z.sub_0_r. f_equal. transitivity (takeZ (lenZ l) (dropZ (lenZ l0) (chunk_data c))).
  - unfold chunk_data. list_ext.
  - rewrite Ed, dropZ_app_exact by done. by apply takeZ_app_exact.
Qed.

Lemma GetDataPtr_ok c : chunk_wf c ->
  GetDataPtr c = if decide (chunk_data c = []) then None else Some (m_dataHead c).
Proof.
  intros Hc. unfold GetDataPtr. rewrite GetDataSize_ok by done.
  destruct (decide (chunk_data c = [])) as [->|Hne]; [done|].
  destruct (Z.leb_spec (lenZ (chunk_data c)) 0) as [H|H]; [|done].
  destruct Hne. apply lenZ_0_nil. pose proof (lenZ_nonneg (chunk_data c)). lia.
Qed.

Lemma PopFront_wf c n :
  chunk_wf c -> 0 <= n <= lenZ (chunk_data c) ->
  exists c', PopFront n c = (c', true) /\ chunk_wf c' /\ chunk_data c' = dropZ n (chunk_data c) /\
    same_chunk c c' /\ m_buff c' = m_buff c /\ m_dataHead c' = m_dataHead c + n.
Proof.
  intros Hc Hn. pose proof Hc as (Hh & Hb & Hd & Ht).
  pose proof (chunk_data_length c Hc) as El. unfold PopFront.
  rewrite GetDataSize_ok, (proj2 (Z.leb_le n _)) by (done || lia).
  eexists. split; [reflexivity|]. unfold chunk_wf, chunk_data, same_chunk.
  cbn [m_hdr m_buff m_dataHead m_dataTail]. split_and!; try done; try lia.
  - apply header_ok_sizes; [done|apply u32_word|apply inv32_word].
  - list_ext.
Qed.

Lemma PopFront_ok c n :
  chunk_ok c -> 0 <= n <= lenZ (chunk_data c) -> chunk_ok (fst (PopFront n c)).
Proof.
  intros Hc Hn. destruct (PopFront_wf c n (proj1 Hc) Hn) as (c' & E & Hc' & _).
  rewrite E. split; [done|]. revert E. unfold PopFront.
  destruct Hc as [Hc [Es _]]. pose proof (chunk_data_length c Hc).
  destruct Hc as (_ & Hb & Hd & Ht). destruct (_ <=? _); [|done]. intros [= <-].
  cbn [fst m_hdr m_dataHead m_dataTail hdr_set_invDataSize hdr_set_dataSize ch_dataSize ch_invDataSize].
  split; [|done]. rewrite u32_small by (unfold word32; lia). cbn. lia.
Qed.

(** More than the chunk holds: the chunk is cleared. *)
Lemma PopFront_beyond c n :
  chunk_wf c -> lenZ (chunk_data c) < n -> PopFront n c = (Clear c, false).
Proof.
  intros Hc Hn. unfold PopFront. by rewrite GetDataSize_ok, (proj2 (Z.leb_gt n _)) by (done || lia).
Qed.

(** A chunk in a file: its header, when headers are written, and its data. *)
Definition encoded (header : bool) (h : sChunkHeader) (data : list Z) : list Z :=
  (if header then header_bytes h else []) ++ data.

Lemma lenZ_encoded header h data : header_ok h ->
  lenZ (encoded header h data) = (if header then sizeof_sChunkHeader else 0) + lenZ data.
Proof.
  intros Hh. unfold encoded. rewrite lenZ_app.
  destruct header; [by rewrite header_bytes_length|done].
Qed.

(** The header of a chunk written to a file. *)
Definition header_for (h : sChunkHeader) (data : list Z) : Prop :=
  header_ok h /\ ch_marker h = DATA_CHUNK_MARKER /\ ch_dataSize h = lenZ data /\
  ch_invDataSize h = inv32 (lenZ data).

Lemma WriteToFile_ok c d f name content header :
  chunk_ok c -> ch_marker (m_hdr c) = DATA_CHUNK_MARKER -> writing d f name content ->
  lenZ (chunk_data c) + sizeof_sChunkHeader <= disk_space d ->
  exists d' f' c' h, WriteToFile (Some f) 0 header d c =
      Some (d', Some f', c', lenZ (encoded header h (chunk_data c))) /\
    header_for h (chunk_data c) /\
    writing d' f' name (content ++ encoded header h (chunk_data c)) /\ good f' = true /\
    only_changes name d d' /\
    disk_space d' = disk_space d - lenZ (encoded header h (chunk_data c)) /\
    chunk_ok c' /\ chunk_data c' = [] /\ same_chunk c c' /\ m_dataHead c' = 0.
Proof.
  intros Hc Hm Hf Hsp. pose proof Hc as [(Hh & Hb & Hd & Ht) [Es Ei]].
  pose proof (chunk_data_length c (proj1 Hc)) as El. unfold WriteToFile. change (u32 0) with 0.
  set (h := hdr_set_grpNum 0 (m_hdr c)).
  assert (header_ok h) as Hh' by (apply header_ok_grpNum; [done|unfold word32; lia]).
  pose proof (header_bytes_length h Hh') as Elh. unfold sizeof_sChunkHeader in *.
  set (c0 := set_hdr h c).
  assert (buff_bytes c0 (m_dataHead c0) (ch_dataSize (m_hdr c0)) = Some (chunk_data c)) as Eb.
  { unfold buff_bytes. change (ch_dataSize (m_hdr c0)) with (ch_dataSize (m_hdr c)). rewrite Es.
    rewrite load_range_ok by (cbn [base cells c0 set_hdr m_buff m_dataHead]; lia).
    cbn [base cells]. by rewrite Z.sub_0_r. }
  assert (header_for h (chunk_data c)) as Hfor.
  { split; [done|]. split; [exact Hm|]. split; [exact (eq_trans Es (eq_sym El))|].
    rewrite El, <- Es. exact Ei. }
  assert (exists d1 f1, (if header then write (header_bytes h) d f else (d, f, 0)) =
      (d1, f1, lenZ (if header then header_bytes h else [])) /\
    writing d1 f1 name (content ++ if header then header_bytes h else []) /\
    disk_space d1 = disk_space d - lenZ (if header then header_bytes h else []) /\
    only_changes name d d1) as (d1 & f1 & E1 & Hf1 & Hs1 & Ho1).
  { destruct header.
    - destruct (write_ok d f name content (header_bytes h) Hf) as (d1 & f1 & E & ? & _ & ? & ?); [lia|].
      by exists d1, f1.
    - exists d, f. rewrite app_nil_r. split_and!; try done. change (lenZ []) with 0. lia. }
  cbn zeta. change (m_hdr c0) with h in *. rewrite E1, Eb. cbn [mbind option_bind].
  destruct (write_ok d1 f1 name _ (chunk_data c) Hf1) as (d2 & f2 & E2 & Hf2 & Hg2 & Hs2 & Ho2).
  { rewrite Hs1. destruct header; [|change (lenZ []) with 0]; lia. }
  rewrite E2. destruct (Clear_ok c0 Hh' Hb) as (Hc' & Hd' & Hs' & _).
  exists d2, f2, (Clear c0), h. split.
  - assert (header && negb (lenZ (if header then header_bytes h else []) + lenZ (chunk_data c) =?
      GetHeaderSize + s32 (ch_dataSize h)) = false) as ->.
    { destruct header; [|done]. rewrite Elh. change (ch_dataSize h) with (ch_dataSize (m_hdr c)).
      rewrite Es, s32_small, El by lia. unfold GetHeaderSize, sizeof_sChunkHeader.
      by rewrite Z.eqb_refl. }
    unfold encoded. by rewrite lenZ_app.
  - unfold encoded. rewrite app_assoc, lenZ_app.
    split_and!; try done; [by eapply only_changes_trans|lia].
Qed.

(** ** Reading *)

(** What [ReadFromFile] needs of the chunk it reads into. *)
Definition chunk_room (size : Z) (c : cDataChunk) : Prop :=
  header_ok (m_hdr c) /\ lenZ (m_buff c) = size /\ 0 < size < 1073741824.

Lemma chunk_wf_room c : chunk_wf c -> chunk_room (lenZ (m_buff c)) c.
Proof. intros (Hh & Hb & _). by split. Qed.

(** The data of a chunk whose header is already there. *)
Lemma read_data_ok c d f rest n size :
  chunk_room size c -> m_dataHead c = 0 -> m_dataTail c = 0 -> ch_dataSize (m_hdr c) = n ->
  reading d f rest -> 0 <= n -> lenZ (takeZ n rest) <= size ->
  exists f' c', read_data c d f = Some (f', c') /\ reading d f' (dropZ n rest) /\
    m_hdr c' = m_hdr c /\ lenZ (m_buff c') = size /\ m_dataHead c' = 0 /\
    m_dataTail c' = lenZ (takeZ n rest) /\ chunk_data c' = takeZ n rest.
Proof.
  intros (Hh & Hsz & Hpos) E0 E1 En Hf Hn Hfit. unfold read_data. rewrite En.
  destruct (read_ok d f rest n Hf Hn) as (f' & -> & Hf').
  pose proof (lenZ_nonneg (takeZ n rest)).
  rewrite memcpy_ok by lia. cbn [mbind option_bind].
  eexists f', _. split; [done|]. split; [done|]. rewrite takeZ_all by lia.
  cbn [m_hdr m_buff m_dataHead m_dataTail]. rewrite lenZ_updZ, E0, E1 by lia.
  split_and!; try done. unfold chunk_data. cbn [m_hdr m_buff m_dataHead m_dataTail].
  rewrite ?E0, ?E1, !Z.add_0_l, Z.sub_0_r. apply nthZ_ext; [rewrite lenZ_subZ, lenZ_updZ; lia|].
  intros i Hi. rewrite lenZ_subZ, lenZ_updZ in Hi by lia.
  rewrite nthZ_subZ, nthZ_updZ by lia. split_cmp. f_equal. lia.
Qed.

Lemma ReadFromFile_chunk c d f h data rest size :
  chunk_room size c -> header_for h data -> lenZ data <= size ->
  reading d f (encoded true h data ++ rest) ->
  exists f' c', ReadFromFile (Some f) true d c =
      Some (Some f', c', sizeof_sChunkHeader + lenZ data) /\
    reading d f' rest /\ chunk_ok c' /\ lenZ (m_buff c') = size /\ chunk_data c' = data.
Proof.
  intros (Hh & Hsz & Hpos) (Hh2 & Hm & Hds & Hinv) Hfit Hf. unfold ReadFromFile.
  pose proof (header_bytes_length h Hh2) as Elh. pose proof (lenZ_nonneg data).
  destruct (Clear_ok c Hh ltac:(lia)) as (((Hhc & _) & _) & _ & [Elc _] & _).
  pose proof (header_bytes_length _ Hhc) as Elc2. unfold encoded in Hf. rewrite <- app_assoc in Hf.
  unfold sizeof_sChunkHeader in *.
  destruct (read_ok d f _ 40 Hf ltac:(lia)) as (f1 & -> & Hf1).
  rewrite takeZ_app_exact, Elh by done. rewrite dropZ_app_exact in Hf1 by done.
  unfold header_read. rewrite updZ_whole, header_roundtrip by (done || lia).
  cbn zeta. set (c1 := set_hdr h (Clear c)). change (m_hdr c1) with h.
  rewrite Hinv, Hds, inv32_inv32, Z.eqb_refl by (unfold word32; lia). cbn [negb orb].
  change (40 <=? 0) with false. cbn iota.
  assert (takeZ (lenZ data) (data ++ rest) = data) as Etk by by apply takeZ_app_exact.
  destruct (read_data_ok c1 d f1 (data ++ rest) (lenZ data) size) as (f2 & c2 & -> & Hf2 & Eh & Eb & E0 & E1 & Ed);
    [by split|done|done|done|done|lia|by rewrite Etk|].
  cbn [mbind option_bind]. rewrite Etk in *. rewrite dropZ_app_exact in Hf2 by done.
  change (m_hdr c1) with h in Eh.
  assert (chunk_ok c2) as Hc2.
  { unfold chunk_ok, chunk_wf. rewrite Eh, Eb, E0, E1, Hds, Hinv. split_and!; try done; lia. }
  rewrite GetDataSize_ok, Ed, Eh, Hm, Hds by apply Hc2. unfold GetHeaderSize, sizeof_sChunkHeader.
  change (DATA_CHUNK_MARKER =? DATA_CHUNK_MARKER) with true. cbn [andb].
  rewrite s32_small, Z.eqb_refl by lia.
  by exists f2, c2.
Qed.

(** Without header the chunk is filled with as many bytes as there are. *)
Lemma ReadFromFile_bytes c d f rest size :
  chunk_room size c -> rest <> [] -> reading d f rest ->
  exists f' c', ReadFromFile (Some f) false d c = Some (Some f', c', lenZ (takeZ size rest)) /\
    0 < lenZ (takeZ size rest) /\ reading d f' (dropZ size rest) /\
    chunk_wf c' /\ lenZ (m_buff c') = size /\ chunk_data c' = takeZ size rest.
Proof.
  intros (Hh & Hsz & Hpos) Hne Hf. unfold ReadFromFile.
  apply lenZ_pos in Hne as Hr.
  assert (0 < lenZ (takeZ size rest) <= size) as Hl by (autorewrite with lenZ; lia).
  destruct (Clear_ok c Hh ltac:(lia)) as (Hcl & _ & [Elc _] & _).
  cbn zeta. rewrite GetBuffFree_ok by apply Hcl.
  change (m_dataTail (Clear c)) with 0. rewrite Z.sub_0_r, Elc, Hsz, u32_small by (unfold word32; lia).
  set (c1 := set_hdr _ (Clear c)).
  destruct (read_data_ok c1 d f rest size size) as (f2 & c2 & -> & Hf2 & Eh & Eb & E0 & E1 & Ed);
    [|done|done|done|done|lia|lia|].
  { split; [|split; [cbn; lia|lia]]. cbn [c1 set_hdr m_hdr].
    apply header_ok_dataSize; [apply Hcl|unfold word32; lia]. }
  cbn [mbind option_bind].
  assert (GetDataSize c2 = lenZ (takeZ size rest)) as ->
    by (unfold GetDataSize; rewrite E0, E1, Z.sub_0_r; apply s32_small; lia).
  rewrite u32_small by (unfold word32; lia). cbn [set_hdr m_hdr hdr_set_dataSize ch_dataSize].
  rewrite (proj2 (Z.ltb_lt _ _)), s32_small by lia.
  eexists f2, _. split; [done|]. split; [lia|]. split; [done|]. split; [|by split].
  unfold chunk_wf. cbn [set_hdr m_hdr m_buff m_dataHead m_dataTail]. rewrite Eb, E0, E1.
  split; [|cbn; lia]. rewrite Eh. cbn [c1 set_hdr m_hdr].
  apply header_ok_dataSize; [apply header_ok_dataSize; [apply Hcl|]|]; unfold word32; lia.
Qed.

(** At the end of a file, and without a file. *)
Lemma ReadFromFile_end c d f header size :
  chunk_room size c -> reading d f [] ->
  exists f' c', ReadFromFile (Some f) header d c = Some (Some f', c', -1) /\
    chunk_room size c' /\ chunk_wf c' /\ chunk_data c' = [].
Proof.
  intros (Hh & Hsz & Hpos) Hf. unfold ReadFromFile.
  destruct (Clear_ok c Hh ltac:(lia)) as (Hcl & Ed & [Elc _] & _). cbn zeta.
  pose proof Hcl as [(Hhc & Hrest) _].
  assert (chunk_room size (Clear c)) as Hroom by (split; [done|split; [lia|done]]).
  destruct header.
  - destruct (read_ok d f [] sizeof_sChunkHeader Hf) as (f' & -> & _); [done|].
    rewrite takeZ_nil. unfold header_read. change (updZ 0 [] ?l) with l.
    rewrite header_roundtrip by done. assert (set_hdr (m_hdr (Clear c)) (Clear c) = Clear c) as -> by done.
    change (lenZ [] <=? 0) with true. rewrite orb_true_r.
    exists f', (Clear c). by split_and!.
  - rewrite GetBuffFree_ok by apply Hcl.
    change (m_dataTail (Clear c)) with 0. rewrite Z.sub_0_r, Elc, Hsz, u32_small by (unfold word32; lia).
    set (c1 := set_hdr _ (Clear c)).
    assert (header_ok (m_hdr c1)) as Hh1.
    { cbn [c1 set_hdr m_hdr]. apply header_ok_dataSize; [done|unfold word32; lia]. }
    destruct (read_data_ok c1 d f [] size size) as (f2 & c2 & -> & Hf2 & Eh & Eb & E0 & E1 & Ed2);
      [split; [done|split; [cbn; lia|lia]]|done|done|done|done|lia|rewrite takeZ_nil; change (lenZ []) with 0; lia|].
    rewrite takeZ_nil in *. change (lenZ []) with 0 in E1. cbn [mbind option_bind].
    assert (GetDataSize c2 = 0) as -> by (unfold GetDataSize; by rewrite E0, E1).
    change (u32 0) with 0. cbn [set_hdr m_hdr hdr_set_dataSize ch_dataSize]. change (0 <? 0) with false.
    assert (header_ok (hdr_set_dataSize 0 (m_hdr c2))) as Hh2
      by (rewrite Eh; apply header_ok_dataSize; [done|unfold word32; lia]).
    eexists f2, _. split; [done|]. split; [split; [done|split; [exact Eb|done]]|].
    split; [|exact Ed2]. unfold chunk_wf. cbn [set_hdr m_hdr m_buff m_dataHead m_dataTail].
    rewrite Eb, E0, E1. split; [done|]. cbn. lia.
Qed.

(** The constructor of a chunk leaves a valid header, with the size of the header as the
    size of the data; [Clear] corrects that. *)
Lemma constructor_wf hdr0 buff :
  header_ok hdr0 -> 0 < lenZ buff < 1073741824 ->
  let c := DataChunk.constructor hdr0 buff in
  chunk_wf c /\ lenZ (m_buff c) = lenZ buff /\ chunk_data c = [].
Proof.
  intros Hh Hb c. split; [|done]. destruct Hh as (_ & _ & _ & _ & _ & Hp & _).
  split; [by split_and!|]. split; [exact Hb|]. cbn. lia.
Qed.

Lemma constructor_Clear hdr0 buff :
  header_ok hdr0 -> 0 < lenZ buff < 1073741824 ->
  let c := Clear (DataChunk.constructor hdr0 buff) in
  chunk_ok c /\ ch_marker (m_hdr c) = DATA_CHUNK_MARKER /\ lenZ (m_buff c) = lenZ buff /\
  m_dataHead c = 0 /\ chunk_data c = [].
Proof.
  intros Hh Hb c. destruct (constructor_wf hdr0 buff Hh Hb) as ((Hh' & _) & _).
  destruct (Clear_ok _ Hh' Hb) as (Hc & Ed & _ & E0). by split_and!.
Qed.

(** ** The life of a chunk that is written *)

Inductive chunk_step : cDataChunk -> cDataChunk -> Prop :=
| step_push c d1 d2 c' n :
    PushBack d1 (lenZ d1) d2 (lenZ d2) c = Some (c', n) -> chunk_step c c'
| step_pop c n : 0 <= n -> chunk_step c (fst (PopFront n c))
| step_clear c : chunk_step c (Clear c)
| step_write c f g header d d' f' c' n :
    WriteToFile f g header d c = Some (d', f', c', n) -> chunk_step c c'
| step_serial c n : word32 n -> chunk_step c (set_hdr (hdr_set_devSerialNum n (m_hdr c)) c)
| step_handle c n : word32 n -> chunk_step c (set_hdr (hdr_set_pHandle n (m_hdr c)) c).

Lemma chunk_ok_header c h :
  chunk_ok c -> header_ok h -> ch_dataSize h = ch_dataSize (m_hdr c) ->
  ch_invDataSize h = ch_invDataSize (m_hdr c) -> chunk_ok (set_hdr h c).
Proof.
  intros [(_ & Hb & Hh & Ht) [Es Ei]] Hok E1 E2. unfold chunk_ok, chunk_wf.
  cbn [set_hdr m_hdr m_buff m_dataHead m_dataTail]. by rewrite E1, E2.
Qed.

Lemma WriteToFile_invariant f g header d c d' f' c' n :
  chunk_ok c -> WriteToFile f g header d c = Some (d', f', c', n) -> chunk_ok c'.
Proof.
  intros Hc H. destruct f as [f|]; [|by injection H as _ _ <- _].
  unfold WriteToFile in H. cbn zeta in H. set (c0 := set_hdr _ c) in H.
  assert (header_ok (m_hdr c0)) as Hh.
  { apply header_ok_grpNum; [apply Hc|]. unfold word32, u32. zlia. }
  assert (chunk_ok c0) as Hc0 by (by apply chunk_ok_header).
  destruct (if header then _ else _) as [[d1 f1] nHeader].
  apply bind_Some in H as (bytes & _ & H). destruct (write bytes d1 f1) as [[d2 f2] nData].
  destruct (header && _); injection H as _ _ <- _; [done|].
  apply Clear_ok; [done|]. apply Hc0.
Qed.

Lemma chunk_step_ok c c' : chunk_step c c' -> chunk_ok c -> chunk_ok c'.
Proof.
  intros H Hc. pose proof Hc as [(Hh & Hb & _) _].
  destruct H as [c d1 d2 c' n H|c n Hn| |c f g header d d' f' c' n H|c n Hn|c n Hn].
  - assert (lenZ d1 + lenZ d2 < 2147483648) as Hlen.
    { unfold PushBack in H. destruct (negb _) eqn:E; [done|]. apply negb_false_iff, Z.eqb_eq in E.
      unfold s32 in E. zlia. }
    destruct (PushBack_ok c d1 d2 Hc Hlen) as (c1 & n1 & E & Hc1 & _).
    rewrite E in H. by injection H as <- _.
  - destruct (Z.le_gt_cases n (lenZ (chunk_data c))).
    + by apply PopFront_ok.
    + rewrite PopFront_beyond by (lia || apply Hc). by apply Clear_ok.
  - by apply Clear_ok.
  - by eapply WriteToFile_invariant.
  - apply chunk_ok_header; [done|by apply header_ok_devSerialNum|done|done].
  - apply chunk_ok_header; [done|by apply header_ok_pHandle|done|done].
Qed.

(** C28: from the constructor and [Clear] on, whatever a log does with a chunk ([PushBack]
    of any two pieces, [PopFront] of any size, [Clear], writing it to any file, full disks
    and missing files included, changing the serial number or the handle): the data stays
    inside of the buffer, and the size in the header and its complement are those of the
    data. *)
Theorem chunk_invariant hdr0 buff c :
  header_ok hdr0 -> 0 < lenZ buff < 1073741824 ->
  rtc chunk_step (Clear (DataChunk.constructor hdr0 buff)) c ->
  0 <= m_dataHead c <= m_dataTail c /\ m_dataTail c <= lenZ (m_buff c) /\
  ch_dataSize (m_hdr c) = m_dataTail c - m_dataHead c /\
  ch_invDataSize (m_hdr c) = inv32 (m_dataTail c - m_dataHead c).
Proof.
  intros Hh Hb H.
  assert (chunk_ok c) as [(_ & _ & Hd & Ht) [Es Ei]].
  { destruct (constructor_Clear hdr0 buff Hh Hb) as (Hc & _).
    revert Hc. induction H; [done|]. intros Hc. apply IHrtc. by eapply chunk_step_ok. }
  rewrite <- Es. done.
Qed.

(** ** A chunk in a file *)

(** a chunk written with its header behind anything in a file, on a disk with enough
    space, is read back by [ReadFromFile] of any chunk with as large a buffer: the same
    data, all bytes counted; the chunk that was written is empty then. *)
Theorem chunk_file_roundtrip c c1 d f name content g :
  chunk_ok c -> ch_marker (m_hdr c) = DATA_CHUNK_MARKER -> writing d f name content ->
  lenZ (chunk_data c) + sizeof_sChunkHeader <= disk_space d ->
  chunk_wf c1 -> lenZ (m_buff c1) = lenZ (m_buff c) ->
  exists d' f' c',
    WriteToFile (Some f) 0 true d c =
      Some (d', f', c', sizeof_sChunkHeader + lenZ (chunk_data c)) /\
    chunk_data c' = [] /\
    (m_file g = Some (File name RB (lenZ content) false) ->
     exists g' c1', ReadFromFile (Some g) true d' c1 =
         Some (Some g', c1', sizeof_sChunkHeader + lenZ (chunk_data c)) /\
       chunk_data c1' = chunk_data c /\ chunk_ok c1' /\ reading d' g' []).
Proof.
  intros Hc Hm Hw Hsp Hc1 Eb.
  destruct (WriteToFile_ok c d f name content true Hc Hm Hw Hsp)
    as (d' & f' & c' & h & -> & Hfor & Hw' & _ & _ & _ & _ & Ed & _).
  rewrite lenZ_encoded by apply Hfor. eexists d', _, c'. split; [done|]. split; [done|].
  intros Eg. destruct Hw' as [_ Ef].
  destruct (ReadFromFile_chunk c1 d' g h (chunk_data c) [] (lenZ (m_buff c)))
    as (g' & c1' & -> & Hr & Hc1' & _ & Ed').
  - rewrite <- Eb. by apply chunk_wf_room.
  - done.
  - pose proof (chunk_data_length c (proj1 Hc)). destruct Hc as [(_ & _ & ? & ?) _]. lia.
  - exists name, (lenZ content), (content ++ encoded true h (chunk_data c)).
    pose proof (lenZ_nonneg content). pose proof (lenZ_nonneg (encoded true h (chunk_data c))).
    split_and!; try done; [rewrite lenZ_app; lia|]. by rewrite app_nil_r, dropZ_app_exact.
  - by exists g', c1'.
Qed.
