(* ===== verification/DeviceLogProps.v ===== *)
(** * Writing and reading the chunks of a log

    What the files of a log contain while it is written ([written]), and what a reader
    that opens them one after the other finds ([to_read]).  Both classes of logs use these
    lemmas: the serial log with a header in front of each chunk, the raw log without. *)

From Stdlib Require Import Ascii.
From stdpp Require Import gmap strings pretty.
From S2P Require Import Prelude CommTypes CommTx Layouts LogFile LogStats DataChunk DeviceLog.
From S2P Require Import DataChunkProps.

(** ** File names *)

Lemma digit_char n : digit n = String (ascii_of_nat (48 + Z.to_nat (n mod 10))) "".
Proof.
  unfold digit. pose proof (Z.mod_pos_bound n 10 ltac:(lia)).
  generalize dependent (n mod 10). intros k Hk.
  assert (k = 0 \/ k = 1 \/ k = 2 \/ k = 3 \/ k = 4 \/ k = 5 \/ k = 6 \/ k = 7 \/ k = 8 \/ k = 9)
    as Hc by lia. repeat destruct Hc as [->|Hc]; try subst k; reflexivity.
Qed.

Lemma digit_inj a b (s t : string) :
  (digit a ++ s)%string = (digit b ++ t)%string -> a mod 10 = b mod 10 /\ s = t.
Proof.
  rewrite !digit_char. intros [= E Et]. split; [|exact Et].
  pose proof (Z.mod_pos_bound a 10 ltac:(lia)). pose proof (Z.mod_pos_bound b 10 ltac:(lia)).
  apply (f_equal nat_of_ascii) in E. rewrite !nat_ascii_embedding in E by lia. lia.
Qed.

Lemma string_app_assoc (a b c : string) : ((a ++ b) ++ c = a ++ (b ++ c))%string.
Proof. induction a as [|x a IH]; [done|]. exact (f_equal (String x) IH). Qed.

Lemma four_digits_inj a b (s : string) :
  0 <= a < 10000 -> 0 <= b < 10000 ->
  (four_digits a ++ s)%string = (four_digits b ++ s)%string -> a = b.
Proof.
  intros Ha Hb. unfold four_digits. rewrite !string_app_assoc.
  intros [E3 [E2 [E1 [E0 _]%digit_inj]%digit_inj]%digit_inj]%digit_inj. zlia.
Qed.

(** The name of file [k] of a log. *)
Definition log_name (ext dir ts : string) (sn k : Z) : string :=
  (dir ++ "/" ++ IS_LOG_FILE_PREFIX ++ pretty (s32 sn) ++ "_" ++ ts ++ "_" ++
   four_digits (k mod 10000) ++ "" ++ ext)%string.

Lemma log_name_inj ext dir ts sn a b :
  0 <= a < 10000 -> 0 <= b < 10000 ->
  log_name ext dir ts sn a = log_name ext dir ts sn b -> a = b.
Proof.
  intros Ha Hb E. unfold log_name in E.
  repeat (apply (inj (String.append _)) in E). rewrite !Z.mod_small in E by lia.
  by eapply four_digits_inj.
Qed.

Definition stats_name (dir : string) (sn : Z) : string :=
  (dir ++ "/stats_SN" ++ pretty sn ++ ".txt")%string.

Lemma log_name_stats ext dir ts sn sn' k : log_name ext dir ts sn k <> stats_name dir sn'.
Proof.
  unfold log_name, stats_name. intros E. apply (inj (String.append _)) in E. discriminate E.
Qed.

(** ** Files of chunks *)

Definition chunks : Type := list (sChunkHeader * list Z).

Definition content (header : bool) (cs : chunks) : list Z :=
  concat (map (fun '(h, data) => encoded header h data) cs).

(** The data of all chunks, in order. *)
Definition all_chunks (files : list (string * chunks)) : list (list Z) :=
  map snd (concat (map snd files)).

Lemma content_app header cs cs' : content header (cs ++ cs') = content header cs ++ content header cs'.
Proof. unfold content. by rewrite map_app, concat_app. Qed.

Lemma all_chunks_app fs fs' : all_chunks (fs ++ fs') = all_chunks fs ++ all_chunks fs'.
Proof. unfold all_chunks. by rewrite map_app, concat_app, map_app. Qed.

Lemma all_chunks_one name cs : all_chunks [(name, cs)] = map snd cs.
Proof. unfold all_chunks. cbn. by rewrite app_nil_r. Qed.

(** Chunks as [WriteToFile] leaves them. *)
Definition good_chunks (size : Z) (cs : chunks) : Prop :=
  Forall (fun '(h, data) => header_for h data /\ data <> [] /\ lenZ data <= size) cs.

(** ** A log that is written *)

Section Writing.
Context (ext dir ts : string) (sn : Z) (header : bool) (size : Z).

(** A log of a serial number, initialised for writing. *)
Definition log_open (l : cDeviceLog) : Prop :=
  device l = None /\ m_directory l = dir /\ dir <> ""%string /\ m_timeStamp l = ts /\
  m_devSerialNo l = sn /\ sn <> 0 /\ m_writeMode l = true.

Definition files_on (d : disk) (files : list (string * chunks)) : Prop :=
  forall i name cs, files !! i = Some (name, cs) ->
    name = log_name ext dir ts sn (Z.of_nat i + 1) /\
    disk_files d !! name = Some (content header cs) /\ good_chunks size cs.

(** The files hold the chunks written so far; the last one may be open. *)
Definition written (d : disk) (s : chunk_log) (files : list (string * chunks)) : Prop :=
  chunk_ok (cl_chunk s) /\ ch_marker (m_hdr (cl_chunk s)) = DATA_CHUNK_MARKER /\
  lenZ (m_buff (cl_chunk s)) = size /\ m_dataHead (cl_chunk s) = 0 /\
  log_open (cl_log s) /\ m_fileCount (cl_log s) = lenZ files /\ files_on d files /\
  match m_pFile (cl_log s) with
  | None => True
  | Some f => exists files0 name cs, files = files0 ++ [(name, cs)] /\
      writing d f name (content header cs)
  end.

Lemma files_on_names d files i j name cs cs' :
  files_on d files -> lenZ files < 10000 ->
  files !! i = Some (name, cs) -> files !! j = Some (name, cs') -> i = j.
Proof.
  intros H Hlen Hi Hj. destruct (H _ _ _ Hi) as [E _]. destruct (H _ _ _ Hj) as [E' _].
  apply lookup_lt_Some in Hi, Hj. unfold lenZ in Hlen. rewrite E in E'.
  apply log_name_inj in E'; lia.
Qed.

(** The last file grows. *)
Lemma files_on_grow d d' files0 name cs cs' :
  files_on d (files0 ++ [(name, cs)]) -> lenZ (files0 ++ [(name, cs)]) < 10000 ->
  only_changes name d d' -> disk_files d' !! name = Some (content header cs') ->
  good_chunks size cs' -> files_on d' (files0 ++ [(name, cs')]).
Proof.
  intros H Hlen Ho Hd' Hg i name1 cs1 Hi.
  destruct (decide (i = length files0)) as [->|Hne].
  - rewrite list_lookup_middle in Hi by done. injection Hi as <- <-.
    destruct (H (length files0) name cs) as [E _]; [by rewrite list_lookup_middle|]. done.
  - assert ((files0 ++ [(name, cs)]) !! i = Some (name1, cs1)) as Hi'.
    { pose proof (lookup_lt_Some _ _ _ Hi) as Hlt. rewrite length_app in Hlt. cbn in Hlt.
      rewrite lookup_app_l in Hi |- * by lia. done. }
    destruct (H _ _ _ Hi') as (E1 & E2 & E3). split; [done|]. split; [|done].
    rewrite Ho; [done|]. intros ->. apply Hne.
    eapply (files_on_names d (files0 ++ [(name, cs)])); [done|done|exact Hi'|by rewrite list_lookup_middle].
Qed.

(** A new file is created behind the others. *)
Lemma files_on_new d d' files name :
  files_on d files -> lenZ files < 9999 -> name = log_name ext dir ts sn (lenZ files + 1) ->
  only_changes name d d' -> disk_files d' !! name = Some [] ->
  files_on d' (files ++ [(name, [])]).
Proof.
  intros H Hlen En Ho Hd' i name1 cs1 Hi.
  destruct (decide (i = length files)) as [->|Hne].
  - rewrite list_lookup_middle in Hi by done. injection Hi as <- <-.
    split; [done|]. split; [done|]. constructor.
  - pose proof (lookup_lt_Some _ _ _ Hi) as Hlt. rewrite length_app in Hlt. cbn in Hlt.
    rewrite lookup_app_l in Hi by lia. destruct (H _ _ _ Hi) as (E1 & E2 & E3).
    split; [done|]. split; [|done]. rewrite Ho; [done|]. intros E. rewrite E1, En in E.
    unfold lenZ in *. apply log_name_inj in E; lia.
Qed.

Lemma log_open_set_pFile l f : log_open l -> log_open (set_pFile f l).
Proof. done. Qed.
Lemma log_open_set_fileSize l n : log_open l -> log_open (set_fileSize n l).
Proof. done. Qed.

(** A new file is opened when the disk has space. *)
Lemma OpenNewSaveFile_ok d l files :
  log_open l -> m_fileCount l = lenZ files -> files_on d files -> lenZ files < 9999 ->
  0 < disk_space d ->
  exists d' l' f name, OpenNewSaveFile ext d l = (d', l', true) /\ log_open l' /\
    m_fileCount l' = lenZ files + 1 /\ m_pFile l' = Some f /\
    writing d' f name (content header []) /\ disk_space d' = disk_space d /\
    files_on d' (files ++ [(name, [])]).
Proof.
  intros Hl Ec Hf Hlen Hsp. pose proof Hl as (Edev & Edir & Hdir & Ets & Esn & Hsn & Ew).
  pose proof (lenZ_nonneg files). unfold OpenNewSaveFile.
  set (l1 := set_fileCount _ _).
  assert (u32 (m_fileCount l + 1) = lenZ files + 1) as Eu
    by (rewrite Ec; apply u32_small; unfold word32; lia).
  assert (GetNewFileName ext sn (m_fileCount l1) "" l1 = log_name ext dir ts sn (lenZ files + 1)) as En.
  { unfold GetNewFileName, log_name. change (m_directory l1) with (m_directory l).
    change (m_timeStamp l1) with (m_timeStamp l).
    change (m_fileCount l1) with (u32 (m_fileCount l + 1)). by rewrite Eu, Edir, Ets. }
  change (m_directory (set_pFile (CloseISLogFile (m_pFile l)) l)) with (m_directory l).
  rewrite Edir, decide_False by done.
  change (device l1) with (device l). rewrite Edev. change (m_devSerialNo l1) with (m_devSerialNo l).
  rewrite Esn, (proj2 (Z.eqb_neq sn 0)), En by done.
  unfold CreateISLogFile, fopen. rewrite (proj2 (Z.ltb_lt 0 _)) by done.
  eexists _, _, _, (log_name ext dir ts sn (lenZ files + 1)).
  split; [reflexivity|]. split; [done|]. split; [exact Eu|]. split; [reflexivity|].
  split; [split; [done|cbn [disk_files]; by rewrite lookup_insert_eq]|]. split; [done|].
  apply (files_on_new d); try done; cbn [disk_files]; [|by rewrite lookup_insert_eq].
  intros n Hn. cbn [disk_files]. by rewrite lookup_insert_ne.
Qed.

(** The file that [WriteChunkToFile] appends to. *)
Lemma current_file d s files :
  written d s files -> lenZ files < 9999 -> 0 < disk_space d ->
  exists d1 l1 f files0 name cs,
    (match m_pFile (cl_log s) with
     | None => let '(d, l, _) := OpenNewSaveFile ext d (cl_log s) in (d, l)
     | Some _ => (d, cl_log s) end) = (d1, l1) /\ log_open l1 /\ m_pFile l1 = Some f /\
    m_fileCount l1 = lenZ (files0 ++ [(name, cs)]) /\ files_on d1 (files0 ++ [(name, cs)]) /\
    writing d1 f name (content header cs) /\ disk_space d1 = disk_space d /\
    lenZ (files0 ++ [(name, cs)]) <= lenZ files + 1 /\
    all_chunks (files0 ++ [(name, cs)]) = all_chunks files.
Proof.
  intros (_ & _ & _ & _ & Hl & Ecount & Hf & Hopen) Hlen Hsp.
  destruct (m_pFile (cl_log s)) as [f|] eqn:Epf.
  - destruct Hopen as (files0 & name & cs & -> & Hw).
    exists d, (cl_log s), f, files0, name, cs. split_and!; try done. lia.
  - destruct (OpenNewSaveFile_ok d (cl_log s) files Hl Ecount Hf Hlen Hsp)
      as (d1 & l1 & f & name & -> & Hl1 & Ec1 & Ep1 & Hw1 & Hs1 & Hf1).
    assert (lenZ (files ++ [(name, [])]) = lenZ files + 1) as El1 by by rewrite lenZ_app.
    exists d1, l1, f, files, name, []. split_and!; try done.
    + by rewrite Ec1.
    + by apply Z.eq_le_incl.
    + by rewrite all_chunks_app, all_chunks_one, app_nil_r.
Qed.

(** The data of the chunk becomes the last chunk of a file. *)
Lemma WriteChunkToFile_ok d s files :
  written d s files -> lenZ files < 9999 -> chunk_data (cl_chunk s) <> [] ->
  lenZ (chunk_data (cl_chunk s)) + sizeof_sChunkHeader <= disk_space d ->
  exists d' s' files', WriteChunkToFile ext header d s = Some (d', s', true) /\
    written d' s' files' /\ lenZ files' <= lenZ files + 1 /\
    all_chunks files' = all_chunks files ++ [chunk_data (cl_chunk s)] /\
    chunk_data (cl_chunk s') = [] /\
    disk_space d - lenZ (chunk_data (cl_chunk s)) - sizeof_sChunkHeader <= disk_space d'.
Proof.
  intros Hw Hlen Hne Hsp. pose proof Hw as (Hc & Hm & Hsz & Hh0 & _).
  pose proof (chunk_data_length _ (proj1 Hc)) as Edl. apply lenZ_pos in Hne as Hpos.
  unfold WriteChunkToFile. rewrite GetDataSize_ok, (proj2 (Z.eqb_neq _ 0)) by (apply Hc || lia).
  destruct (current_file d s files Hw Hlen)
    as (d1 & l1 & f & files0 & name & cs & -> & Hl1 & Epf & Ec1 & Hf1 & Hw1 & Hs1 & Hlen1 & Ead);
    [unfold sizeof_sChunkHeader in Hsp; lia|].
  rewrite Epf.
  destruct (WriteToFile_ok (cl_chunk s) d1 f name (content header cs) header Hc Hm Hw1)
    as (d2 & f2 & c2 & h & -> & Hfor & Hw2 & Hg2 & Ho2 & Hs2 & Hc2 & Ed2 & [Eb2 Em2] & Eh2); [lia|].
  cbn [mbind option_bind]. rewrite Hg2. cbn [negb].
  assert (content header (cs ++ [(h, chunk_data (cl_chunk s))]) =
    content header cs ++ encoded header h (chunk_data (cl_chunk s))) as Econ.
  { rewrite content_app. unfold content at 2. cbn. by rewrite app_nil_r. }
  destruct Hw2 as [Ew2 Ew2']. rewrite <- Econ in Ew2, Ew2'.
  set (cs2 := cs ++ [(h, chunk_data (cl_chunk s))]) in *.
  eexists d2, _, (files0 ++ [(name, cs2)]). split; [done|].
  assert (files_on d2 (files0 ++ [(name, cs2)])) as Hf2.
  { apply (files_on_grow d1 d2 files0 name cs cs2); try done; [lia|].
    apply Forall_app. split.
    - apply (Hf1 (length files0) name cs). by rewrite list_lookup_middle.
    - constructor; [|constructor]. split; [done|]. split; [done|]. destruct Hc as [(_ & _ & ? & ?) _]. lia. }
  split; [|split; [|split; [|split]]].
  - unfold written. cbn [cl_chunk cl_log].
    split; [done|]. split; [by rewrite Em2|]. split; [by rewrite Eb2|]. split; [done|].
    split; [done|]. split; [|split; [done|]].
    + cbn. rewrite Ec1, !lenZ_app. done.
    + cbn. by exists files0, name, cs2.
  - rewrite !lenZ_app in *. done.
  - rewrite <- Ead, !all_chunks_app, !all_chunks_one. subst cs2. by rewrite map_app, app_assoc.
  - done.
  - rewrite Hs2, Hs1, lenZ_encoded by apply Hfor. unfold sizeof_sChunkHeader. destruct header; lia.
Qed.

(** An empty chunk is not written. *)
Lemma WriteChunkToFile_empty d s :
  chunk_ok (cl_chunk s) -> chunk_data (cl_chunk s) = [] ->
  WriteChunkToFile ext header d s = Some (d, s, false).
Proof. intros Hc E. unfold WriteChunkToFile. rewrite GetDataSize_ok by apply Hc. by rewrite E. Qed.

(** [overhead] bounds what a call writes besides the data: the header of a chunk and the
    text of the statistics. *)
Context `{log_env} (overhead : Z) (Hoverhead : forall ls, sizeof_sChunkHeader + lenZ (Stats ls) <= overhead).

Lemma overhead_header : sizeof_sChunkHeader <= overhead.
Proof. pose proof (Hoverhead ∅). pose proof (lenZ_nonneg (Stats ∅)). lia. Qed.

(** The file of the statistics is another one. *)
Lemma CloseAllFiles_ok d s files :
  written d s files ->
  exists d', CloseAllFiles d (cl_log s) = d' /\ written d' s files /\
    disk_space d - (overhead - sizeof_sChunkHeader) <= disk_space d'.
Proof.
  intros (Hc & Hm & Hsz & Hh0 & Hl & Ecount & Hf & Hopen). eexists. split; [reflexivity|].
  pose proof Hl as (_ & Edir & _ & _ & Esn & _ & Ew). unfold CloseAllFiles.
  rewrite Ew, Edir, Esn. change (_ ++ _)%string with (stats_name dir sn).
  set (d' := LogStats.WriteToFile _ _ _ _).
  assert (only_changes (stats_name dir sn) d d' /\
    disk_space d - (overhead - sizeof_sChunkHeader) <= disk_space d') as [Ho Hs].
  { subst d'. pose proof overhead_header. pose proof (Hoverhead (m_logStats (cl_log s))).
    unfold LogStats.WriteToFile. destruct (LogStats.Count _ =? 0); [split; [apply only_changes_refl|lia]|].
    unfold CreateISLogFile, fopen. destruct (0 <? disk_space d); cbn; [|split; [apply only_changes_refl|lia]].
    split; [|cbn; lia]. intros n Hn. cbn. by rewrite !lookup_insert_ne. }
  split; [|done].
  assert (files_on d' files) as Hf'.
  { intros i name cs Hi. destruct (Hf _ _ _ Hi) as (En & Ed & Hg). split_and!; try done.
    rewrite Ho; [done|]. rewrite En. apply log_name_stats. }
  do 6 (split; [done|]). split; [done|].
  destruct (m_pFile (cl_log s)) as [f|]; [|done].
  destruct Hopen as (files0 & name & cs & -> & Ef & Ed). exists files0, name, cs.
  split; [done|]. split; [done|].
  by destruct (Hf' (length files0) name cs) as (_ & Ed' & _); [by rewrite list_lookup_middle|].
Qed.

(** ** The data that is saved

    [saved] are the pieces given to [PushBack] so far; each is in one of the chunks of the
    files or in the current chunk.  [nf] bounds the number of files, [room] the bytes
    left on the disk when the current chunk is written. *)
Definition logged (d : disk) (s : chunk_log) (saved : list (list Z)) (nf room : Z) : Prop :=
  exists files (dn : list (list (list Z))) (cur : list (list Z)),
    written d s files /\ all_chunks files = map (@concat Z) dn /\
    chunk_data (cl_chunk s) = concat cur /\ concat dn ++ cur = saved /\
    lenZ files <= nf /\ room <= disk_space d - lenZ (chunk_data (cl_chunk s)).

Lemma logged_weaken d s saved nf nf' room room' :
  logged d s saved nf room -> nf <= nf' -> room' <= room -> logged d s saved nf' room'.
Proof.
  intros (files & dn & cur & Hw & E1 & E2 & E3 & Hn & Hr) ? ?.
  exists files, dn, cur. split_and!; (done || lia).
Qed.

(** The chunk of a log that is written. *)
Lemma logged_chunk d s saved nf room :
  logged d s saved nf room ->
  chunk_ok (cl_chunk s) /\ lenZ (m_buff (cl_chunk s)) = size /\
  lenZ (chunk_data (cl_chunk s)) = m_dataTail (cl_chunk s).
Proof.
  intros (files & dn & cur & (Hc & _ & Hsz & Hh0 & _) & _). split_and!; try done.
  rewrite chunk_data_length, Hh0 by apply Hc. lia.
Qed.

Lemma WriteChunkToFile_logged d s saved nf room :
  logged d s saved nf room -> nf < 9999 -> sizeof_sChunkHeader <= room ->
  exists d' s' ok, WriteChunkToFile ext header d s = Some (d', s', ok) /\
    ok = negb (lenZ (chunk_data (cl_chunk s)) =? 0) /\ chunk_data (cl_chunk s') = [] /\
    logged d' s' saved (nf + 1) (room - sizeof_sChunkHeader).
Proof.
  intros Hlog Hnf Hroom. pose proof Hlog as (files & dn & cur & Hw & E1 & E2 & E3 & Hn & Hr).
  pose proof Hw as (Hc & _). destruct (decide (chunk_data (cl_chunk s) = [])) as [E|Hne].
  - exists d, s, false. rewrite WriteChunkToFile_empty, E by done. split_and!; try done.
    eapply logged_weaken; [exact Hlog|lia|unfold sizeof_sChunkHeader; lia].
  - apply lenZ_pos in Hne as Hpos.
    destruct (WriteChunkToFile_ok d s files Hw) as (d' & s' & files' & -> & Hw' & Hl' & Ea & Ed & Hs');
      [lia|done|lia|].
    exists d', s', true. rewrite (proj2 (Z.eqb_neq _ 0)) by lia. split_and!; try done.
    exists files', (dn ++ [cur]), []. split_and!; try done; [| |lia|].
    + by rewrite Ea, E1, E2, map_app.
    + by rewrite concat_app, app_nil_r; cbn; rewrite app_nil_r.
    + rewrite Ed. change (lenZ []) with 0. lia.
Qed.

Lemma CloseAllFiles_logged d s saved nf room :
  logged d s saved nf room ->
  logged (CloseAllFiles d (cl_log s)) s saved nf (room - (overhead - sizeof_sChunkHeader)).
Proof.
  intros (files & dn & cur & Hw & E1 & E2 & E3 & Hn & Hr).
  destruct (CloseAllFiles_ok d s files Hw) as (d' & -> & Hw' & Es). exists files, dn, cur.
  split_and!; try done. lia.
Qed.

Lemma logged_close d s saved nf room :
  logged d s saved nf room ->
  logged d (ChunkLog (set_pFile (CloseISLogFile (m_pFile (cl_log s))) (cl_log s)) (cl_chunk s))
    saved nf room.
Proof.
  intros (files & dn & cur & (H1 & H2 & H3 & H4 & H5 & H6 & H7 & _) & Hrest).
  exists files, dn, cur. by split.
Qed.

Lemma logged_writeMode d s saved nf room : logged d s saved nf room -> m_writeMode (cl_log s) = true.
Proof. by intros (? & ? & ? & (_ & _ & _ & _ & (_ & _ & _ & _ & _ & _ & ?) & _) & _). Qed.

(** The log is closed: all data is in the files. *)
Lemma CloseAllChunkFiles_logged d s saved nf room :
  logged d s saved nf room -> nf < 9999 -> overhead <= room ->
  exists d' s', CloseAllChunkFiles ext header d s = Some (d', s') /\
    chunk_data (cl_chunk s') = [] /\ logged d' s' saved (nf + 1) (room - overhead).
Proof.
  intros Hlog Hnf Hroom. unfold CloseAllChunkFiles, FlushToFile.
  rewrite (logged_writeMode _ _ _ _ _ Hlog). apply CloseAllFiles_logged in Hlog.
  apply WriteChunkToFile_logged in Hlog as (d' & s' & ok & -> & _ & Ed & Hlog'); [|done|lia].
  cbn [mbind option_bind]. eexists _, _. split; [done|]. split; [done|]. apply logged_close.
  eapply logged_weaken; [exact Hlog'|lia|lia].
Qed.

Lemma CloseAllChunkFiles_empty d s saved nf room :
  logged d s saved nf room -> chunk_data (cl_chunk s) = [] ->
  exists d' s', CloseAllChunkFiles ext header d s = Some (d', s') /\
    chunk_data (cl_chunk s') = [] /\
    logged d' s' saved nf (room - (overhead - sizeof_sChunkHeader)).
Proof.
  intros Hlog Ed. unfold CloseAllChunkFiles, FlushToFile.
  rewrite (logged_writeMode _ _ _ _ _ Hlog). apply CloseAllFiles_logged in Hlog.
  rewrite WriteChunkToFile_empty by (done || apply (logged_chunk _ _ _ _ _ Hlog)).
  cbn [mbind option_bind]. eexists _, _. split; [done|]. split; [done|]. by apply logged_close.
Qed.

(** Room for a piece that fits into a chunk. *)
Lemma make_room_ok d s saved nf room need :
  logged d s saved nf room -> nf < 9999 -> overhead <= room -> need <= size ->
  exists d' s', make_room ext header need d s = Some (d', s', true) /\
    logged d' s' saved (nf + 1) (room - overhead) /\
    need <= size - m_dataTail (cl_chunk s').
Proof.
  intros Hlog Hnf Hroom Hneed. destruct (logged_chunk _ _ _ _ _ Hlog) as (Hc & Hsz & El).
  pose proof overhead_header.
  unfold make_room. rewrite GetBuffFree_ok, Hsz by apply Hc.
  destruct (Z.ltb_spec (size - m_dataTail (cl_chunk s)) need) as [Hlt|Hge].
  - destruct (WriteChunkToFile_logged _ _ _ _ _ Hlog Hnf ltac:(lia))
      as (d1 & s1 & ok & -> & -> & Ed1 & Hlog1).
    rewrite (proj2 (Z.eqb_neq _ 0)) by lia. cbn [mbind option_bind negb].
    assert (forall d' s', logged d' s' saved (nf + 1) (room - overhead) ->
      chunk_data (cl_chunk s') = [] -> need <= size - m_dataTail (cl_chunk s')) as Hfit.
    { intros d' s' Hl' Ed'. destruct (logged_chunk _ _ _ _ _ Hl') as (_ & _ & El').
      rewrite Ed' in El'. change (lenZ []) with 0 in El'. lia. }
    destruct (_ <=? _).
    2: { assert (logged d1 s1 saved (nf + 1) (room - overhead)) by (eapply logged_weaken; [exact Hlog1|lia|lia]).
         exists d1, s1. split; [done|]. split; [done|by eapply Hfit]. }
    destruct (CloseAllChunkFiles_empty _ _ _ _ _ Hlog1 Ed1) as (d2 & s2 & -> & Ed2 & Hlog2).
    assert (logged d2 s2 saved (nf + 1) (room - overhead)) by (eapply logged_weaken; [exact Hlog2|lia|lia]).
    exists d2, s2. split; [done|]. split; [done|by eapply Hfit].
  - exists d, s. split_and!; [done| |lia].
    eapply logged_weaken; [exact Hlog|lia|unfold sizeof_sChunkHeader in *; lia].
Qed.

(** A step that appends [x] to the data of the chunk and leaves the file alone. *)
Lemma logged_step d s s' saved nf room x :
  logged d s saved nf room -> log_open (cl_log s') ->
  m_fileCount (cl_log s') = m_fileCount (cl_log s) -> m_pFile (cl_log s') = m_pFile (cl_log s) ->
  chunk_ok (cl_chunk s') -> same_chunk (cl_chunk s) (cl_chunk s') -> m_dataHead (cl_chunk s') = 0 ->
  chunk_data (cl_chunk s') = chunk_data (cl_chunk s) ++ concat x ->
  logged d s' (saved ++ x) nf (room - lenZ (concat x)).
Proof.
  intros (files & dn & cur & (Hc & Hm & Hsz & Hh0 & Hl & Ecount & Hf & Hopen) & E1 & E2 & E3 & Hn & Hr)
    Hl' Ec' Ep' Hc' [S1 S2] Eh' Ed'.
  exists files, dn, (cur ++ x). split; [|split; [done|split; [|split; [|split; [done|]]]]].
  - unfold written. rewrite S1, S2, Ec', Ep'. by split_and!.
  - by rewrite Ed', E2, concat_app.
  - by rewrite app_assoc, E3.
  - rewrite Ed', lenZ_app. lia.
Qed.

Lemma logged_open d s saved nf room :
  logged d s saved nf room -> log_open (cl_log s) /\ m_dataHead (cl_chunk s) = 0.
Proof. by intros (? & ? & ? & (_ & _ & _ & ? & ? & _) & _). Qed.

(** Members that do not matter for the files. *)
Lemma logged_frame d s s' saved nf room :
  logged d s saved nf room -> log_open (cl_log s') ->
  m_fileCount (cl_log s') = m_fileCount (cl_log s) -> m_pFile (cl_log s') = m_pFile (cl_log s) ->
  chunk_ok (cl_chunk s') -> same_chunk (cl_chunk s) (cl_chunk s') ->
  m_dataHead (cl_chunk s') = m_dataHead (cl_chunk s) ->
  chunk_data (cl_chunk s') = chunk_data (cl_chunk s) -> logged d s' saved nf room.
Proof.
  intros Hlog. intros. destruct (logged_open _ _ _ _ _ Hlog) as [_ E0].
  rewrite <- (app_nil_r saved). replace room with (room - lenZ (concat (@nil (list Z)))) by apply Z.sub_0_r.
  eapply logged_step; try done; [congruence|]. by rewrite app_nil_r.
Qed.

Lemma logged_log d s l saved nf room :
  logged d s saved nf room -> log_open l -> m_fileCount l = m_fileCount (cl_log s) ->
  m_pFile l = m_pFile (cl_log s) -> logged d (ChunkLog l (cl_chunk s)) saved nf room.
Proof.
  intros Hlog. intros. eapply logged_frame; [exact Hlog|done..| |done|done|done].
  apply (logged_chunk _ _ _ _ _ Hlog).
Qed.

Lemma logged_devSerialNum d s n saved nf room :
  logged d s saved nf room -> word32 n ->
  logged d (ChunkLog (cl_log s) (set_hdr (hdr_set_devSerialNum n (m_hdr (cl_chunk s))) (cl_chunk s)))
    saved nf room.
Proof.
  intros Hlog Hn. destruct (logged_chunk _ _ _ _ _ Hlog) as ([(Hh & Hrest) Hi] & _).
  eapply logged_frame; [exact Hlog|by apply logged_open in Hlog as []|done|done| |done|done|done].
  split; [|done]. split; [|done]. by apply header_ok_devSerialNum.
Qed.

(** The device information is only looked at. *)
Lemma record_dev_info_logged d s hdr data saved nf room :
  logged d s saved nf room -> 0 <= dh_offset hdr < 65536 -> 0 <= dh_size hdr < 65536 ->
  dh_size hdr <= lenZ data ->
  exists s', record_dev_info hdr data s = Some s' /\ logged d s' saved nf room.
Proof.
  intros Hlog Ho Hs Hd. destruct (logged_open _ _ _ _ _ Hlog) as [Hl _].
  unfold record_dev_info. destruct Hl as [Edev _]. rewrite Edev. unfold copyDataPToStructP2.
  assert (exists info r, (if u32 (dh_size hdr + dh_offset hdr) <=? sizeof_layout dev_info_layout then
    sptr ← memcpy (repeat 0 (Z.to_nat (sizeof_layout dev_info_layout))) (dh_offset hdr) data (dh_size hdr);
    Some (sptr, 0) else Some (repeat 0 (Z.to_nat (sizeof_layout dev_info_layout)), -1))
    = Some (info, r)) as (info & r & ->).
  { rewrite u32_small by (unfold word32; lia).
    assert (lenZ (repeat 0 (Z.to_nat (sizeof_layout dev_info_layout))) =
      sizeof_layout dev_info_layout) as El by reflexivity.
    destruct (Z.leb_spec (dh_size hdr + dh_offset hdr) (sizeof_layout dev_info_layout)); [|by eexists _, _].
    rewrite memcpy_ok by lia. by eexists _, _. }
  cbn [mbind option_bind]. destruct (_ && _); eexists; (split; [done|]).
  - apply logged_devSerialNum; [by destruct s|]. unfold dev_serialNumber, u32, word32. zlia.
  - by destruct s.
Qed.

(** The end of [SaveData] in both classes. *)
Lemma save_logged d s saved nf room need d1 d2 (f : cDeviceLog -> cDeviceLog) :
  logged d s saved nf room -> nf < 9999 -> overhead <= room ->
  0 < need <= size -> need = lenZ d1 + lenZ d2 ->
  (forall l, log_open l -> log_open (f l)) -> (forall l, m_fileCount (f l) = m_fileCount l) ->
  (forall l, m_pFile (f l) = m_pFile l) ->
  exists d' s' c, make_room ext header need d s = Some (d', s', true) /\
    PushBack d1 (lenZ d1) d2 (lenZ d2) (cl_chunk s') = Some (c, need) /\
    logged d' (ChunkLog (f (cl_log s')) c) (saved ++ [d1 ++ d2]) (nf + 1)
      (room - overhead - need).
Proof.
  intros Hlog Hnf Hroom Hneed En Hf1 Hf2 Hf3.
  destruct (make_room_ok _ _ _ _ _ need Hlog) as (d' & s' & E & Hlog' & Hfit); [lia..|].
  destruct (logged_chunk _ _ _ _ _ Hlog') as (Hc & Hsz & El).
  destruct (logged_open _ _ _ _ _ Hlog') as [Hl Eh].
  destruct (PushBack_ok (cl_chunk s') d1 d2 Hc) as (c & n & Ep & Hc' & Hs' & Eh' & Hres).
  { destruct Hc as [(_ & Hb & _) _]. lia. }
  rewrite (proj2 (Z.ltb_ge _ _)) in Hres by lia. destruct Hres as [-> Ed].
  exists d', s', c. rewrite <- En in Ep. split; [done|]. split; [done|].
  assert (lenZ (concat [d1 ++ d2]) = need) as Elc by (cbn; rewrite app_nil_r, lenZ_app; lia).
  rewrite <- Elc. eapply (logged_step d' s'); try done; cbn [cl_log cl_chunk].
  - by apply Hf1.
  - apply Hf2.
  - apply Hf3.
  - by rewrite Eh', Eh.
  - by rewrite Ed; cbn; rewrite app_nil_r.
Qed.

End Writing.

(** ** A log that is read *)

Section Reading.
Context (header : bool) (size : Z).

(** Bytes read without headers: all pieces but the last fill the chunk. *)
Fixpoint filling (ps : list (list Z)) : Prop :=
  match ps with
  | [] => True
  | p :: ps' => p <> [] /\ lenZ p <= size /\ (ps' <> [] -> lenZ p = size) /\ filling ps'
  end.

(** The pieces in which the bytes of a file are read. *)
Definition pieces (bytes : list Z) (ps : list (list Z)) : Prop :=
  if header then exists cs, bytes = content true cs /\ ps = map snd cs /\ good_chunks size cs
  else bytes = concat ps /\ filling ps.

Lemma filling_length ps : filling ps -> (length ps <= length (concat ps))%nat.
Proof.
  induction ps as [|p ps IH]; [done|]. intros (Hne & _ & _ & H). cbn. rewrite length_app.
  apply IH in H. destruct p; [done|]. cbn. lia.
Qed.

Lemma pieces_length bytes ps : pieces bytes ps -> (length ps <= length bytes)%nat.
Proof.
  unfold pieces. destruct header.
  - intros (cs & -> & -> & H). rewrite length_map. unfold content.
    induction H as [|[h x] cs (Hh & Hne & _) _ IH]; [done|].
    cbn [map concat length]. unfold encoded at 1. rewrite !length_app.
    destruct x; [done|]. cbn [length]. lia.
  - intros [-> H]. by apply filling_length.
Qed.

(** The bytes of a file have such pieces. *)
Lemma filling_exists bytes : 0 < size -> exists ps, concat ps = bytes /\ filling ps.
Proof.
  intros Hsz. remember (length bytes) as n eqn:En. revert bytes En.
  induction (lt_wf n) as [n _ IH]. intros bytes En.
  destruct (decide (bytes = [])) as [->|Hne]; [by exists []|].
  pose proof (lenZ_pos _ Hne) as Hpos.
  assert (length (dropZ size bytes) < n)%nat as Hlt
    by (unfold dropZ; rewrite length_drop; unfold lenZ in *; lia).
  destruct (IH _ Hlt (dropZ size bytes) eq_refl) as (ps & Ec & Hf).
  exists (takeZ size bytes :: ps). cbn. rewrite Ec. split; [apply take_drop|].
  split; [|split; [autorewrite with lenZ; lia|split; [|done]]].
  - intros E. apply (f_equal lenZ) in E. autorewrite with lenZ in E. change (lenZ []) with 0 in E. lia.
  - intros Hps. destruct (Z.le_gt_cases size (lenZ bytes)); [autorewrite with lenZ; lia|].
    assert (dropZ size bytes = []) as E0 by (apply lenZ_0_nil; autorewrite with lenZ; lia).
    rewrite E0 in Ec. destruct ps as [|[|? ?] ps]; [done|by destruct Hf|done].
Qed.

Definition readable (d : disk) (f : cISLogFile) (ps : list (list Z)) : Prop :=
  exists bytes, reading d f bytes /\ pieces bytes ps.

Lemma ReadFromFile_piece c d f p ps :
  chunk_room size c -> readable d f (p :: ps) ->
  exists f' c' n, ReadFromFile (Some f) header d c = Some (Some f', c', n) /\ 0 <= n /\
    readable d f' ps /\ chunk_wf c' /\ lenZ (m_buff c') = size /\ chunk_data c' = p.
Proof.
  intros Hc (bytes & Hr & Hp). unfold pieces in Hp. unfold readable, pieces. destruct header.
  - destruct Hp as ([|[h x] cs] & -> & E & Hg); [done|]. injection E as -> ->.
    apply Forall_cons_iff in Hg as [(Hh & Hne & Hl) Hg].
    destruct (ReadFromFile_chunk c d f h x (content true cs) size) as (f' & c' & -> & Hr' & Hc' & Hb & Hd);
      [done|done|done|exact Hr|].
    exists f', c', (sizeof_sChunkHeader + lenZ x).
    split; [done|]. split; [unfold sizeof_sChunkHeader; pose proof (lenZ_nonneg x); lia|].
    split; [exists (content true cs); split; [done|by exists cs]|].
    split; [apply Hc'|by split].
  - destruct Hp as [-> (Hne & Hl & Hfull & Hf)]. cbn in Hr.
    destruct (ReadFromFile_bytes c d f (p ++ concat ps) size) as (f' & c' & -> & Hpos & Hr' & Hc' & Hb & Hd);
      [done|by destruct p|done|].
    assert (takeZ size (p ++ concat ps) = p /\ dropZ size (p ++ concat ps) = concat ps) as [E1 E2].
    { destruct (decide (ps = [])) as [->|Hps].
      - cbn. rewrite app_nil_r, takeZ_all by done. split; [done|]. apply lenZ_0_nil.
        autorewrite with lenZ. lia.
      - rewrite takeZ_app_exact, dropZ_app_exact by (by rewrite Hfull). done. }
    rewrite E1, E2 in *. exists f', c', (lenZ p). split; [done|]. split; [lia|].
    split; [by exists (concat ps)|by split_and!].
Qed.

Lemma ReadFromFile_done c d f :
  chunk_room size c -> readable d f [] ->
  exists f' c', ReadFromFile (Some f) header d c = Some (Some f', c', -1) /\
    chunk_room size c' /\ chunk_wf c' /\ chunk_data c' = [].
Proof.
  intros Hc (bytes & Hr & Hp). assert (bytes = []) as ->.
  { unfold pieces in Hp. destruct header; [|by destruct Hp].
    destruct Hp as ([|? cs] & -> & E & _); [done|discriminate E]. }
  by apply ReadFromFile_end.
Qed.

(** The pieces still to be read: [cur] from the open file, [next] from the files to open. *)
Definition to_read (d : disk) (s : chunk_log) (cur : list (list Z)) (next : list (list (list Z))) : Prop :=
  chunk_room size (cl_chunk s) /\ chunk_wf (cl_chunk s) /\
  0 <= m_fileCount (cl_log s) /\ lenZ (m_fileNames (cl_log s)) < 4294967296 /\
  Forall2 (fun name ps => exists bytes, disk_files d !! name = Some bytes /\ pieces bytes ps)
    (drop (Z.to_nat (m_fileCount (cl_log s))) (m_fileNames (cl_log s))) next /\
  match m_pFile (cl_log s) with None => cur = [] | Some f => readable d f cur end.

Lemma OpenNextReadFile_ok d l c next :
  to_read d (ChunkLog l c) [] next ->
  match next with
  | [] => exists l', OpenNextReadFile d l = (l', false) /\ to_read d (ChunkLog l' c) [] [] /\
      m_fileNames l' = m_fileNames l
  | cur :: next => exists l', OpenNextReadFile d l = (l', true) /\ to_read d (ChunkLog l' c) cur next /\
      m_fileNames l' = m_fileNames l
  end.
Proof.
  intros (Hc & Hwf & H0 & Hlen & Hn & Hf). cbn [cl_log cl_chunk] in *. unfold OpenNextReadFile.
  set (l1 := set_pFile _ l). change (m_fileNames l1) with (m_fileNames l).
  change (m_fileCount l1) with (m_fileCount l).
  destruct (m_fileNames l !! Z.to_nat (m_fileCount l)) as [name|] eqn:En.
  - rewrite (drop_S _ _ _ En) in Hn. inversion Hn as [|? cur ? next' (bytes & Ed & Hp) Hn']. subst.
    eexists. split; [reflexivity|]. split; [|done].
    apply lookup_lt_Some in En. unfold lenZ in Hlen.
    assert (u32 (m_fileCount l + 1) = m_fileCount l + 1) as Eu by (apply u32_small; unfold word32; lia).
    unfold to_read. cbn. rewrite Eu.
    replace (Z.to_nat (m_fileCount l + 1)) with (S (Z.to_nat (m_fileCount l))) by lia.
    split_and!; try done; [lia|]. rewrite Ed. exists bytes. split; [|done].
    exists name, 0, bytes. pose proof (lenZ_nonneg bytes). by split_and!.
  - apply lookup_ge_None in En. rewrite drop_ge in Hn by done. inversion Hn. subst.
    exists l1. split; [done|]. split; [|done]. unfold to_read. cbn. rewrite drop_ge by done. by split_and!.
Qed.

(** One attempt to read a chunk. *)
Lemma ReadFromFile_to_read d l c cur next :
  to_read d (ChunkLog l c) cur next -> chunk_data c = [] ->
  exists f' c' n, ReadFromFile (m_pFile l) header d c = Some (f', c', n) /\
    match cur with
    | [] => n = -1 /\ to_read d (ChunkLog (set_pFile None l) c') [] next /\ chunk_data c' = []
    | p :: ps => 0 <= n /\ to_read d (ChunkLog (set_pFile f' l) c') ps next /\ chunk_data c' = p
    end.
Proof.
  intros (Hc & Hwf & H0 & Hlen & Hn & Hf) Ed. cbn [cl_log cl_chunk] in *.
  destruct (m_pFile l) as [f|] eqn:Ef.
  - destruct cur as [|p ps].
    + destruct (ReadFromFile_done c d f Hc Hf) as (f' & c' & -> & Hc' & Hwf' & Ed').
      eexists _, c', _. split; [done|]. by split_and!.
    + destruct (ReadFromFile_piece c d f p ps Hc Hf) as (f' & c' & n & -> & Hn0 & Hf' & Hwf' & Hb' & Ed').
      eexists _, c', n. split; [done|]. split; [done|]. split; [|done].
      split; [|by split_and!]. split; [apply Hwf'|split; [exact Hb'|apply Hc]].
  - subst cur. exists None, c, (-1). by split_and!.
Qed.

Lemma read_chunk_loop_ok next : forall fuel d s cur,
  to_read d s cur next -> chunk_data (cl_chunk s) = [] -> (length next < fuel)%nat ->
  match cur ++ concat next with
  | [] => exists s', read_chunk_loop fuel header d s = Some (s', false) /\ to_read d s' [] [] /\
      chunk_data (cl_chunk s') = [] /\ m_fileNames (cl_log s') = m_fileNames (cl_log s)
  | p :: ps => exists s' cur' next', read_chunk_loop fuel header d s = Some (s', true) /\
      to_read d s' cur' next' /\ cur' ++ concat next' = ps /\ chunk_data (cl_chunk s') = p /\
      m_fileNames (cl_log s') = m_fileNames (cl_log s)
  end.
Proof.
  induction next as [|ps next IH]; intros [|fuel] d [l c] cur Hr Ed Hfuel; try (cbn in Hfuel; lia);
    destruct (ReadFromFile_to_read d l c cur _ Hr Ed) as (f' & c' & n & E & Hn);
    cbn [read_chunk_loop cl_log cl_chunk]; rewrite E; cbn [mbind option_bind];
    (destruct cur as [|p ps0]; cbn [app];
     [|destruct Hn as (Hn & Hr' & Ed'); rewrite (proj2 (Z.ltb_ge _ _)) by done;
       by eexists _, ps0, _]);
    destruct Hn as (-> & Hr' & Ed'); change (-1 <? 0) with true; cbn iota;
    change (OpenNextReadFile d (set_pFile f' l)) with (OpenNextReadFile d (set_pFile None l));
    apply OpenNextReadFile_ok in Hr' as (l' & -> & Hr' & En); cbn [negb concat app].
  - eexists. split; [done|]. by split_and!.
  - specialize (IH fuel d (ChunkLog l' c') ps Hr' Ed' ltac:(cbn in Hfuel; lia)).
    change (m_fileNames (cl_log (ChunkLog l' c'))) with (m_fileNames l') in IH.
    rewrite En in IH. exact IH.
Qed.

Lemma ReadChunkFromFile_ok d s cur next :
  to_read d s cur next -> chunk_data (cl_chunk s) = [] ->
  match cur ++ concat next with
  | [] => exists s', ReadChunkFromFile header d s = Some (s', false) /\ to_read d s' [] [] /\
      chunk_data (cl_chunk s') = [] /\ m_fileNames (cl_log s') = m_fileNames (cl_log s)
  | p :: ps => exists s' cur' next', ReadChunkFromFile header d s = Some (s', true) /\
      to_read d s' cur' next' /\ cur' ++ concat next' = ps /\ chunk_data (cl_chunk s') = p /\
      m_fileNames (cl_log s') = m_fileNames (cl_log s)
  end.
Proof.
  intros Hr Ed. apply read_chunk_loop_ok; [done|done|].
  destruct Hr as (_ & _ & _ & _ & Hn & _). apply Forall2_length in Hn.
  rewrite length_drop in Hn. lia.
Qed.

(** The fuel of [ReadData] is enough for all pieces. *)
Lemma read_fuel_ok d l next :
  Forall2 (fun name ps => exists bytes, disk_files d !! name = Some bytes /\ pieces bytes ps)
    (m_fileNames l) next ->
  (length (concat next) + 2 <= read_fuel d l)%nat.
Proof.
  unfold read_fuel. induction 1 as [|name ps names next (bytes & Ed & Hp) _ IH]; [done|].
  cbn [concat foldr]. rewrite length_app. unfold file_content at 1. rewrite Ed.
  apply pieces_length in Hp. cbn [default]. unfold id. lia.
Qed.

(** A reader that is set up for the files of a log. *)
Lemma to_read_start d s next :
  chunk_room size (cl_chunk s) -> chunk_wf (cl_chunk s) -> m_fileCount (cl_log s) = 0 ->
  m_pFile (cl_log s) = None -> lenZ (m_fileNames (cl_log s)) < 4294967296 ->
  Forall2 (fun name ps => exists bytes, disk_files d !! name = Some bytes /\ pieces bytes ps)
    (m_fileNames (cl_log s)) next ->
  to_read d s [] next.
Proof. intros Hc Hwf E0 Ep Hlen Hn. unfold to_read. rewrite E0, Ep. by split_and!. Qed.

End Reading.

(** ** From the writer to the reader *)

Section Transfer.
Context (ext dir ts : string) (sn : Z) (header : bool) (size : Z).

Lemma logged_files d s saved nf room :
  logged ext dir ts sn header size d s saved nf room -> chunk_data (cl_chunk s) = [] ->
  Forall (fun x => x <> []) saved ->
  exists files (dn : list (list (list Z))), files_on ext dir ts sn header size d files /\
    all_chunks files = map (@concat Z) dn /\ concat dn = saved /\
    m_fileCount (cl_log s) = lenZ files /\ lenZ files <= nf.
Proof.
  intros (files & dn & cur & (_ & _ & _ & _ & _ & Ec & Hf & _) & E1 & E2 & E3 & Hn & _) Ed Hs.
  exists files, dn. split_and!; try done. rewrite <- E3 in *. apply Forall_app in Hs as [_ Hs].
  destruct cur as [|x cur]; [by rewrite app_nil_r|]. apply Forall_cons_iff in Hs as [Hx _].
  rewrite Ed in E2. by destruct x.
Qed.

(** The names of the first [n] files. *)
Definition log_names (n : nat) : list string :=
  map (fun i => log_name ext dir ts sn (Z.of_nat i + 1)) (seq 0 n).

Lemma files_on_Forall (files : list (string * chunks)) (P : string -> chunks -> Prop) k :
  (forall i name cs, files !! i = Some (name, cs) ->
     name = log_name ext dir ts sn (Z.of_nat (k + i) + 1) /\ P name cs) ->
  Forall2 P (map (fun i => log_name ext dir ts sn (Z.of_nat i + 1)) (seq k (length files)))
    (map snd files).
Proof.
  revert k. induction files as [|[name cs] files IH]; intros k H; [constructor|]. cbn. constructor.
  - destruct (H 0%nat name cs eq_refl) as [-> HP]. by rewrite Nat.add_0_r in *.
  - apply IH. intros i name' cs' Hi. destruct (H (S i) name' cs' Hi) as [-> HP].
    by rewrite Nat.add_succ_r in *.
Qed.
End Transfer.

(** Chunks with headers are read as they were written. *)
Lemma files_on_pieces ext dir ts sn size d files :
  files_on ext dir ts sn true size d files ->
  Forall2 (fun name ps => exists bytes, disk_files d !! name = Some bytes /\ pieces true size bytes ps)
    (log_names ext dir ts sn (length files)) (map (map snd) (map snd files)) /\
  concat (map (map snd) (map snd files)) = all_chunks files.
Proof.
  intros H. split; [|unfold all_chunks; by rewrite concat_map].
  unfold log_names. apply Forall2_fmap_r.
  apply (files_on_Forall ext dir ts sn files (fun name cs => exists bytes,
    disk_files d !! name = Some bytes /\ pieces true size bytes (map snd cs))).
  intros i name cs Hi. destruct (H _ _ _ Hi) as (-> & Ed & Hg). split; [done|].
  exists (content true cs). split; [done|]. by exists cs.
Qed.

(** Bytes without headers are read in pieces of the size of the chunk. *)
Lemma files_on_bytes ext dir ts sn size d files :
  0 < size -> files_on ext dir ts sn false size d files ->
  exists next,
  Forall2 (fun name ps => exists bytes, disk_files d !! name = Some bytes /\ pieces false size bytes ps)
    (log_names ext dir ts sn (length files)) next /\
  concat (concat next) = concat (all_chunks files).
Proof.
  intros Hsz H.
  assert (Forall2 (fun name cs => exists ps, concat ps = concat (map snd cs) /\ exists bytes,
    disk_files d !! name = Some bytes /\ pieces false size bytes ps)
    (log_names ext dir ts sn (length files)) (map snd files)) as Hf.
  { apply files_on_Forall. intros i name cs Hi. destruct (H _ _ _ Hi) as (-> & Ed & Hg).
    split; [done|]. destruct (filling_exists size (content false cs) Hsz) as (ps & E & Hp).
    assert (content false cs = concat (map snd cs)) as Ec
      by (unfold content; f_equal; apply map_ext; by intros [h x]).
    exists ps. split; [congruence|]. by exists (content false cs). }
  unfold all_chunks. clear H. revert Hf. generalize (log_names ext dir ts sn (length files)) as names.
  generalize (map snd files) as css. intros css names Hf.
  induction Hf as [|name cs names css (ps & Eps & Hp) _ (next & Hn & En)]; [by exists []|].
  exists (ps :: next). split; [by constructor|].
  cbn. by rewrite map_app, !concat_app, Eps, En.
Qed.

(** A log that is ready for writing has saved nothing. *)
Lemma logged_start ext dir ts sn header d s :
  chunk_ok (cl_chunk s) -> ch_marker (m_hdr (cl_chunk s)) = DATA_CHUNK_MARKER ->
  m_dataHead (cl_chunk s) = 0 -> chunk_data (cl_chunk s) = [] ->
  log_open dir ts sn (cl_log s) -> m_fileCount (cl_log s) = 0 -> m_pFile (cl_log s) = None ->
  logged ext dir ts sn header (lenZ (m_buff (cl_chunk s))) d s [] 0 (disk_space d).
Proof.
  intros Hc Hm Hh Ed Hl Ec Ep. exists [], [], []. rewrite Ed.
  split; [|split_and!; try done; change (lenZ []) with 0; lia].
  unfold written. rewrite Ep. split_and!; try done.
Qed.
