(* ===== verification/DeviceLogSerialProps.v ===== *)
(** * The data sets of a serial log

    What [SaveData] logs is what [ReadData] returns, data set by data set and in order,
    whatever the sizes of chunks and files. *)

From stdpp Require Import gmap strings.
From S2P Require Import Prelude CommTypes CommTx DataIds Layouts LogFile LogStats DataChunk DeviceLog.
From S2P Require Import DeviceLogSerial DataChunkProps DeviceLogProps.
Import DeviceLogSerial.

(** ** The header of a data set *)

Definition good_hdr (h : p_data_hdr_t) : Prop :=
  0 <= dh_id h < 256 /\ 0 <= dh_size h < 65536 /\ 0 <= dh_offset h < 65536.

Lemma data_hdr_length h : lenZ (data_hdr_bytes h) = sizeof_p_data_hdr_t.
Proof. done. Qed.

Lemma data_hdr_roundtrip h l : good_hdr h -> data_hdr_of (data_hdr_bytes h ++ l) = h.
Proof.
  intros (Hi & Hs & Ho). destruct h as [i s o]; cbn in *.
  unfold data_hdr_of, data_hdr_bytes, le16_bytes, byte_at, nthZ, le16.
  change (DataHdr i (lo8 s + 256 * hi8 s) (lo8 o + 256 * hi8 o) = DataHdr i s o).
  unfold lo8, hi8. f_equal; zlia.
Qed.

(** A data set and its bytes in the log. *)
Definition data_set : Type := p_data_hdr_t * list Z.
Definition entry (x : data_set) : list Z := data_hdr_bytes (fst x) ++ snd x.

(** A data set that fits into a chunk of [size] bytes. *)
Definition good_set (size : Z) (x : data_set) : Prop :=
  good_hdr (fst x) /\ lenZ (snd x) = dh_size (fst x) /\ lenZ (entry x) <= size.

Lemma lenZ_entry size x : good_set size x -> lenZ (entry x) = sizeof_p_data_hdr_t + dh_size (fst x).
Proof. intros (_ & E & _). unfold entry. by rewrite lenZ_app, data_hdr_length, E. Qed.

(** ** Saving *)

Section Env.
Context `{log_env}.

Fixpoint save_sets (sets : list (data_set * protocol_type_t)) (d : disk) (s : chunk_log)
    : option (disk * chunk_log) :=
  match sets with
  | [] => Some (d, s)
  | (x, ptype) :: sets =>
    '(d, s, ok) ← SaveData (fst x) (snd x) ptype d s;
    if ok : bool then save_sets sets d s else None
  end.

Section Saving.
Context (dir ts : string) (sn size overhead : Z).
Context (Hoverhead : forall ls, sizeof_sChunkHeader + lenZ (Stats ls) <= overhead).
Abbreviation logged := (logged LogFileExtention dir ts sn true size).

Lemma serial_SaveData_ok d s saved nf room x ptype :
  logged d s saved nf room -> word32 sn -> nf < 9999 -> overhead <= room ->
  good_set size x ->
  exists d' s', SaveData (fst x) (snd x) ptype d s = Some (d', s', true) /\
    logged d' s' (saved ++ [entry x]) (nf + 1) (room - overhead - lenZ (entry x)).
Proof.
  intros Hlog Hsn Hnf Hroom Hx. pose proof (lenZ_entry _ _ Hx) as El.
  destruct Hx as ((Hi & Hs & Ho) & Ed & Hfit). unfold SaveData.
  set (s0 := ChunkLog (SaveDataStats _ _ _ _ _) _).
  assert (logged d s0 saved nf room) as Hlog0
    by (eapply logged_log; [exact Hlog|by apply logged_open in Hlog as []|done|done]).
  assert (exists s1, (if dh_id (fst x) =? DID_DEV_INFO then record_dev_info (fst x) (snd x) s0
    else Some (ChunkLog (cl_log s0) (set_hdr (hdr_set_devSerialNum (m_devSerialNo (cl_log s0))
      (m_hdr (cl_chunk s0))) (cl_chunk s0)))) = Some s1 /\ logged d s1 saved nf room)
    as (s1 & -> & Hlog1).
  { destruct (_ =? _).
    - apply record_dev_info_logged with (1 := Hlog0); lia.
    - eexists. split; [done|]. apply logged_devSerialNum; [done|].
      apply logged_open in Hlog0 as [(_ & _ & _ & _ & -> & _) _]. done. }
  cbn [mbind option_bind].
  destruct (save_logged LogFileExtention dir ts sn true size overhead Hoverhead d s1 saved nf room
    (sizeof_p_data_hdr_t + dh_size (fst x)) (data_hdr_bytes (fst x)) (snd x)
    (fun l => set_logSize (u64 (m_logSize l + dh_size (fst x))) l) Hlog1 Hnf Hroom)
    as (d' & s' & c & E1 & E2 & Hlog'); [unfold sizeof_p_data_hdr_t in *; lia| |done..|].
  { rewrite data_hdr_length. lia. }
  rewrite E1. cbn [mbind option_bind negb]. rewrite data_hdr_length, Ed in E2. rewrite E2.
  cbn [mbind option_bind]. eexists d', _. split.
  - rewrite (proj2 (Z.eqb_neq _ 0)); [done|]. unfold sizeof_p_data_hdr_t. lia.
  - rewrite El. exact Hlog'.
Qed.

(** The space on the disk that is enough for data sets: for each its bytes, the header of
    a chunk and the statistics. *)
Fixpoint space_for (sets : list data_set) : Z :=
  match sets with
  | [] => 0
  | x :: sets => overhead + lenZ (entry x) + space_for sets
  end.

Lemma space_for_nonneg sets : 0 <= space_for sets.
Proof.
  induction sets as [|x sets IH]; [done|]. cbn [space_for].
  pose proof (lenZ_nonneg (entry x)). pose proof (overhead_header overhead Hoverhead).
  unfold sizeof_sChunkHeader in *. lia.
Qed.

Lemma save_sets_ok sets : forall d s saved nf room,
  logged d s saved nf room -> word32 sn -> nf + lenZ sets <= 9999 ->
  space_for (map fst sets) + overhead <= room ->
  Forall (fun x => good_set size (fst x)) sets ->
  exists d' s', save_sets sets d s = Some (d', s') /\
    logged d' s' (saved ++ map entry (map fst sets)) (nf + lenZ sets) (room - space_for (map fst sets)).
Proof.
  induction sets as [|[x ptype] sets IH]; intros d s saved nf room Hlog Hsn Hnf Hroom Hg.
  - exists d, s. split; [done|]. cbn. rewrite app_nil_r, Z.sub_0_r. change (lenZ []) with 0.
    by rewrite Z.add_0_r.
  - apply Forall_cons_iff in Hg as [Hx Hg]. cbn [fst snd] in *.
    assert (lenZ ((x, ptype) :: sets) = 1 + lenZ sets) as El by (unfold lenZ; cbn; lia).
    rewrite El in *.
    pose proof (lenZ_nonneg sets). pose proof (lenZ_nonneg (entry x)).
    cbn [map space_for fst] in *. pose proof (space_for_nonneg (map fst sets)).
    pose proof (overhead_header overhead Hoverhead).
    assert (0 < sizeof_sChunkHeader) by done.
    destruct (serial_SaveData_ok d s saved nf room x ptype Hlog) as (d1 & s1 & E & Hlog1); [done|lia|lia|done|].
    cbn [save_sets]. cbn [fst snd] in *. rewrite E. cbn [mbind option_bind].
    destruct (IH d1 s1 _ _ _ Hlog1) as (d' & s' & -> & Hlog'); [done|lia|lia|done|].
    exists d', s'. split; [done|]. rewrite <- app_assoc in Hlog'. cbn [app] in Hlog'.
    eapply logged_weaken; [exact Hlog'|lia|lia].
Qed.

End Saving.

(** ** Reading *)

Section Reading.
Context (size : Z).
Abbreviation to_read := (to_read true size).

(** The data of a chunk that is read: data sets, one behind the other. *)
Definition group (g : list data_set) : list Z := concat (map entry g).

(** The data sets still to be returned. *)
Definition pending (d : disk) (s : chunk_log) (now : list data_set) (groups : list (list data_set)) : Prop :=
  exists cur next, to_read d s cur next /\ chunk_data (cl_chunk s) = group now /\
    cur ++ concat next = map group groups /\
    (length groups + 2 <= read_fuel d (cl_log s))%nat.

(** The bytes at the pointer that [ReadData] returns. *)
Definition points_to (s : chunk_log) (data : Z) (x : data_set) : Prop :=
  buff_bytes (cl_chunk s) data sizeof_p_data_hdr_t = Some (data_hdr_bytes (fst x)) /\
  buff_bytes (cl_chunk s) (data + sizeof_p_data_hdr_t) (dh_size (fst x)) = Some (snd x).

Lemma serial_ReadDataFromChunk_ok s x now :
  chunk_wf (cl_chunk s) -> good_set size x -> chunk_data (cl_chunk s) = entry x ++ group now ->
  exists c data, ReadDataFromChunk s = Some (ChunkLog (cl_log s) c, Some data) /\
    chunk_wf c /\ lenZ (m_buff c) = lenZ (m_buff (cl_chunk s)) /\ chunk_data c = group now /\
    points_to (ChunkLog (cl_log s) c) data x.
Proof.
  intros Hc Hx Ed. pose proof (lenZ_entry _ _ Hx) as El. destruct Hx as (Hh & Es & _).
  pose proof Hh as (_ & Hs & _). unfold ReadDataFromChunk.
  assert (chunk_data (cl_chunk s) = data_hdr_bytes (fst x) ++ (snd x ++ group now)) as Ed'
    by (rewrite Ed; unfold entry; by rewrite app_assoc).
  pose proof (buff_part _ [] _ _ Hc Ed') as Hhdr.
  pose proof (buff_part _ (data_hdr_bytes (fst x)) _ _ Hc Ed') as Hdata.
  change (lenZ []) with 0 in Hhdr. rewrite Z.add_0_r in Hhdr. rewrite data_hdr_length in *.
  assert (lenZ (chunk_data (cl_chunk s)) = lenZ (entry x) + lenZ (group now)) as Elen
    by by rewrite Ed, lenZ_app.
  pose proof (lenZ_nonneg (group now)). unfold sizeof_p_data_hdr_t in *.
  rewrite GetDataSize_ok, (proj2 (Z.leb_gt _ _)), GetDataPtr_ok by (done || lia).
  rewrite decide_False by (rewrite Ed'; done). rewrite Hhdr. cbn [mbind option_bind].
  rewrite <- (app_nil_r (data_hdr_bytes _)), data_hdr_roundtrip by done.
  destruct (PopFront_wf (cl_chunk s) (lenZ (entry x)) Hc) as (c & E & Hc' & Dc & _ & Eb & Eh); [lia|].
  rewrite Z.add_comm, <- El, E. exists c, (m_dataHead (cl_chunk s)). split; [done|].
  split; [apply Hc'|]. split; [by rewrite Eb|]. split.
  - rewrite Dc, Ed. by apply dropZ_app_exact.
  - unfold points_to, buff_bytes in *. cbn [cl_chunk]. by rewrite Eb, <- Es.
Qed.

Lemma ReadDataFromChunk_empty s :
  chunk_wf (cl_chunk s) -> chunk_data (cl_chunk s) = [] -> ReadDataFromChunk s = Some (s, None).
Proof. intros Hc Ed. unfold ReadDataFromChunk. by rewrite GetDataSize_ok, Ed. Qed.

Lemma pending_chunk d s now groups : pending d s now groups -> chunk_wf (cl_chunk s).
Proof. by intros (cur & next & (_ & ? & _) & _). Qed.

Lemma serial_read_loop_ok groups : forall fuel d s now,
  pending d s now groups -> Forall (good_set size) (now ++ concat groups) ->
  (length groups < fuel)%nat ->
  match now ++ concat groups with
  | [] => exists s', read_loop fuel d s = Some (s', None) /\ pending d s' [] []
  | x :: rest => exists s' data now' groups', read_loop fuel d s = Some (s', Some data) /\
      now' ++ concat groups' = rest /\ pending d s' now' groups' /\ points_to s' data x
  end.
Proof.
  induction groups as [|g groups IH]; intros [|fuel] d s now Hp Hg Hfuel; try (cbn in Hfuel; lia);
    pose proof (pending_chunk _ _ _ _ Hp) as Hc; destruct Hp as (cur & next & Hr & Ed & Ep & Hf);
    (destruct now as [|x now]; cbn [app];
     [|apply Forall_cons_iff in Hg as [Hx _];
       destruct (serial_ReadDataFromChunk_ok s x now Hc Hx Ed) as (c & data & E & Hc' & Eb & Ed' & Hpt);
       cbn [read_loop]; rewrite E; cbn [mbind option_bind];
       eexists _, data, now, _; split; [reflexivity|]; split; [reflexivity|]; split; [|exact Hpt];
       exists cur, next; split_and!; try done; destruct Hr as ((? & Hb & ?) & _ & Hrest);
       split; [|done]; split; [apply Hc'|]; split; [exact (eq_trans Eb Hb)|done] ]);
    cbn [read_loop]; rewrite ReadDataFromChunk_empty by done; cbn [mbind option_bind];
    pose proof (ReadChunkFromFile_ok true size d s cur next Hr Ed) as Hread; rewrite Ep in Hread;
    cbn [map] in Hread.
  - destruct Hread as (s' & -> & Hr' & Ed' & En). cbn [mbind option_bind negb].
    exists s'. split; [done|]. exists [], []. split_and!; try done.
    unfold read_fuel in *. by rewrite En.
  - destruct Hread as (s' & cur' & next' & -> & Hr' & Ep' & Ed' & En). cbn [mbind option_bind negb concat].
    apply IH; [|done|cbn in Hfuel; lia]. exists cur', next'. split_and!; try done.
    unfold read_fuel in *. rewrite En. cbn in Hf. lia.
Qed.

(** What [ReadData] returns, and what is left. *)
Lemma serial_ReadData_ok d s sets :
  (exists now groups, now ++ concat groups = sets /\ pending d s now groups) ->
  Forall (good_set size) sets ->
  match sets with
  | [] => exists s', ReadData d s = Some (s', None)
  | x :: rest => exists s' data, ReadData d s = Some (s', Some data) /\ points_to s' data x /\
      exists now groups, now ++ concat groups = rest /\ pending d s' now groups
  end.
Proof.
  intros (now & groups & <- & Hp) Hg. unfold ReadData.
  pose proof (serial_read_loop_ok groups (read_fuel d (cl_log s)) d s now Hp Hg) as H0.
  assert (length groups < read_fuel d (cl_log s))%nat as Hf by (destruct Hp as (? & ? & _ & _ & _ & ?); lia).
  specialize (H0 Hf). apply Forall_app in Hg as Hg'.
  destruct (now ++ concat groups) as [|x rest].
  - destruct H0 as (s' & -> & _). cbn [mbind option_bind]. by exists s'.
  - destruct H0 as (s' & data & now' & groups' & -> & En & Hp' & Hpt). cbn [mbind option_bind].
    rewrite (proj1 Hpt).
    cbn [mbind option_bind]. eexists _, data. split; [done|]. split; [done|].
    exists now', groups'. split; [done|]. destruct Hp' as (cur & next & Hrest). exists cur, next.
    exact Hrest.
Qed.

End Reading.

(** ** From the first call to the last *)

(** All data sets that [ReadData] returns, until it returns NULL. *)
Fixpoint read_sets (fuel : nat) (d : disk) (s : chunk_log) : option (list data_set) :=
  match fuel with
  | O => None
  | S fuel =>
    '(s, data) ← ReadData d s;
    match data with
    | None => Some []
    | Some data =>
      hdr ← buff_bytes (cl_chunk s) data sizeof_p_data_hdr_t;
      x ← buff_bytes (cl_chunk s) (data + sizeof_p_data_hdr_t) (dh_size (data_hdr_of hdr));
      sets ← read_sets fuel d s; Some ((data_hdr_of hdr, x) :: sets)
    end
  end.

Lemma read_sets_ok size d sets : forall s,
  (exists now groups, now ++ concat groups = sets /\ pending size d s now groups) ->
  Forall (good_set size) sets -> read_sets (S (length sets)) d s = Some sets.
Proof.
  induction sets as [|[h x] sets IH]; intros s Hp Hg;
    pose proof (serial_ReadData_ok size d s _ Hp Hg) as H0; cbn [read_sets length].
  - destruct H0 as (s' & ->). done.
  - destruct H0 as (s' & data & -> & [E1 E2] & Hp'). cbn [mbind option_bind].
    apply Forall_cons_iff in Hg as [(Hh & _) Hg]. cbn [fst snd] in *.
    rewrite E1. cbn [mbind option_bind].
    rewrite <- (app_nil_r (data_hdr_bytes h)), data_hdr_roundtrip by done.
    rewrite E2. cbn [mbind option_bind]. cbn [read_sets length] in IH.
    rewrite IH by done. done.
Qed.

Lemma map_concat_inv {A B} (f : A -> B) (dn : list (list B)) : forall l,
  concat dn = map f l -> exists groups, dn = map (map f) groups /\ concat groups = l.
Proof.
  induction dn as [|x dn IH]; intros l E; cbn in E.
  - exists []. by destruct l.
  - symmetry in E. apply map_eq_app in E as (l1 & l2 & -> & <- & E).
    destruct (IH l2 (eq_sym E)) as (groups & -> & <-). by exists (l1 :: groups).
Qed.

(** A log of a serial number that is ready for writing. *)
Definition writer (dir ts : string) (sn maxDiskSpace maxFileSize : Z) (hdr0 : sChunkHeader)
    (buff : list Z) : chunk_log :=
  InitDeviceForWriting ts dir maxDiskSpace maxFileSize
    (constructor (new_log None 0 sn 0 0) (DataChunk.constructor hdr0 buff)).

(** A log that is set up for reading files. *)
Definition reader (dir ts : string) (sn : Z) (names : list string) (hdr0 : sChunkHeader)
    (buff : list Z) : chunk_log :=
  let s := SetSerialNumber sn (constructor (new_log None 0 sn 0 0) (DataChunk.constructor hdr0 buff)) in
  ChunkLog (InitDeviceForReading (SetupReadInfo dir ts names (cl_log s))) (cl_chunk s).

Lemma writer_logged dir ts sn maxDisk maxFile hdr0 buff d :
  dir <> ""%string -> 0 < sn < 4294967296 -> header_ok hdr0 -> 0 < lenZ buff < 1073741824 ->
  logged LogFileExtention dir ts sn true (lenZ buff) d (writer dir ts sn maxDisk maxFile hdr0 buff)
    [] 0 (disk_space d).
Proof.
  intros Hdir Hsn Hh Hb. set (s := writer _ _ _ _ _ _ _).
  destruct (constructor_Clear hdr0 buff Hh Hb) as (Hc & Hm & El & E0 & Ed).
  assert (chunk_ok (cl_chunk s) /\ chunk_data (cl_chunk s) = [] /\
    same_chunk (Clear (DataChunk.constructor hdr0 buff)) (cl_chunk s) /\ m_dataHead (cl_chunk s) = 0)
    as (Hc' & Ed' & [Eb' Em'] & E0').
  { apply Clear_ok; [|done]. apply header_ok_devSerialNum; [apply Hc|]. unfold word32. cbn. lia. }
  rewrite <- El, <- Eb'. apply logged_start; try done.
  unfold log_open. cbn. split_and!; try done. lia.
Qed.

Lemma reader_pending dir ts sn names hdr0 buff d next groups :
  0 < sn < 4294967296 -> header_ok hdr0 -> 0 < lenZ buff < 1073741824 -> lenZ names < 4294967296 ->
  Forall2 (fun name ps => exists bytes, disk_files d !! name = Some bytes /\
    pieces true (lenZ buff) bytes ps) names next ->
  concat next = map group groups ->
  pending (lenZ buff) d (reader dir ts sn names hdr0 buff) [] groups.
Proof.
  intros Hsn Hh Hb Hlen Hn Eg. set (s := reader _ _ _ _ _ _).
  destruct (constructor_Clear hdr0 buff Hh Hb) as ([Hc _] & _ & El & E0 & Ed).
  assert (chunk_wf (cl_chunk s)) as Hc'.
  { destruct Hc as (Hh' & Hrest). split; [|exact Hrest].
    apply header_ok_devSerialNum; [apply header_ok_devSerialNum; [done|]|]; unfold word32; cbn; lia. }
  exists [], next. split; [|split; [done|split; [done|]]].
  - apply to_read_start; try done. split; [apply Hc'|by split].
  - change (m_fileNames (cl_log s)) with names in *.
    rewrite <- (length_map group), <- Eg. by apply (read_fuel_ok true (lenZ buff)).
Qed.

(** C18: Fewer than 9998 data sets, each of which fits into a chunk, saved to a serial log
    (of a nonzero serial number, with chunks below 2^30 bytes) on a disk with enough space
    come back in order with their headers, however they are spread over chunks and files,
    then NULL. *)
Theorem serial_log_roundtrip dir ts sn maxDisk maxFile hdr0 hdr1 buff buff1 d sets overhead :
  (forall ls, sizeof_sChunkHeader + lenZ (Stats ls) <= overhead) ->
  dir <> ""%string -> 0 < sn < 4294967296 -> header_ok hdr0 -> header_ok hdr1 ->
  0 < lenZ buff < 1073741824 -> lenZ buff1 = lenZ buff ->
  Forall (fun x => good_set (lenZ buff) (fst x)) sets -> lenZ sets < 9998 ->
  space_for overhead (map fst sets) + 2 * overhead <= disk_space d ->
  exists d1 s1 d2 s2,
    save_sets sets d (writer dir ts sn maxDisk maxFile hdr0 buff) = Some (d1, s1) /\
    CloseAllFiles d1 s1 = Some (d2, s2) /\
    read_sets (S (length sets)) d2 (reader dir ts sn
      (log_names LogFileExtention dir ts sn (Z.to_nat (m_fileCount (cl_log s2)))) hdr1 buff1)
    = Some (map fst sets).
Proof.
  intros Hov Hdir Hsn Hh0 Hh1 Hb Hb1 Hg Hn Hsp. pose proof (lenZ_nonneg sets).
  pose proof (overhead_header overhead Hov).
  destruct (save_sets_ok dir ts sn (lenZ buff) overhead Hov sets d _ _ _ _
    (writer_logged dir ts sn maxDisk maxFile hdr0 buff d Hdir Hsn Hh0 Hb))
    as (d1 & s1 & E1 & Hlog1); [unfold word32; lia|lia|unfold sizeof_sChunkHeader in *; lia|done|].
  destruct (CloseAllChunkFiles_logged _ _ _ _ _ _ _ Hov _ _ _ _ _ Hlog1) as (d2 & s2 & E2 & Ed2 & Hlog2);
    [lia|unfold sizeof_sChunkHeader in *; lia|].
  exists d1, s1, d2, s2. split; [done|]. split; [done|].
  destruct (logged_files _ _ _ _ _ _ _ _ _ _ _ Hlog2 Ed2) as (files & dn & Hf & Ea & Es & Ec & Hnf).
  { cbn [app]. rewrite Forall_map. apply Forall_forall. intros [h x] _. done. }
  rewrite Ec. replace (Z.to_nat (lenZ files)) with (length files) by (unfold lenZ; lia).
  apply files_on_pieces in Hf as [Hf Eall]. rewrite Ea in Eall.
  cbn [app] in Es. destruct (map_concat_inv entry dn (map fst sets) Es) as (groups & Eg & Egs).
  rewrite <- (length_map fst sets). apply (read_sets_ok (lenZ buff)).
  - exists [], groups. split; [done|]. rewrite <- Hb1.
    eapply reader_pending; [done|done|by rewrite Hb1| |by rewrite Hb1|].
    + unfold log_names, lenZ in *. rewrite length_map, length_seq. lia.
    + rewrite Eall. subst dn. by rewrite map_map.
  - by rewrite Forall_map.
Qed.

End Env.
