(* ===== verification/DeviceLogRawProps.v ===== *)
(** * The packets of a raw log

    The bytes of a port that a raw log saves, in whatever pieces they arrive, are in its
    files unchanged, and reading them finds the data and command packets of the stream. *)

From stdpp Require Import gmap strings.
From S2P Require Import Prelude CommTypes CommRx CommTx CommFrames CommParse CommBuffer CommReads DataIds Layouts.
From S2P Require Import LogFile LogStats DataChunk DeviceLog DeviceLogRaw DataChunkProps DeviceLogProps.
Import DeviceLogRaw.

(** ** The data of a packet *)

(** The packets that [ReadData] returns. *)
Definition is_data (p : stream_packet) : bool :=
  match sp_type p with PTYPE_INERTIAL_SENSE_DATA | PTYPE_INERTIAL_SENSE_CMD => true | _ => false end.

(** The header and the data of such a packet. *)
Definition packet_set (p : stream_packet) : p_data_hdr_t * list Z :=
  let bs := sp_bytes p in
  let flags := byte_at bs 2 in
  let n := isb_data_size flags (lenZ bs - 8) in
  (DataHdr (byte_at bs 3) n (if has_offset flags then le16 (byte_at bs 6) (byte_at bs 7) else 0),
   subZ (if has_offset flags then 8 else 6) n bs).

Lemma load_range_load m h n bs i :
  load_range m h n = Some bs -> 0 <= i < n -> load m (h + i) = nthZ bs i.
Proof.
  unfold load_range, load. intros E Hi. rewrite (proj2 (Z.eqb_neq n 0)) in E by lia.
  destruct (Z.ltb_spec 0 n), (Z.leb_spec (base m) h), (Z.leb_spec (h + n) (base m + lenZ (cells m)));
    try done. cbn in E. injection E as <-. rewrite nthZ_subZ by lia. split_cmp; try lia. f_equal. lia.
Qed.

Lemma load_range_sub m h n bs o k :
  load_range m h n = Some bs -> 0 <= o -> 0 <= k -> o + k <= n ->
  load_range m (h + o) k = Some (subZ o k bs).
Proof.
  intros E Ho Hk Hn. unfold load_range in *. destruct (Z.eqb_spec k 0) as [->|].
  { done. }
  rewrite (proj2 (Z.eqb_neq n 0)) in E by lia.
  destruct (Z.ltb_spec 0 n), (Z.leb_spec (base m) h), (Z.leb_spec (h + n) (base m + lenZ (cells m)));
    try done. cbn in E. injection E as <-. split_cmp; try lia. cbn. f_equal. list_ext.
Qed.

Lemma byte_at_range l i : Forall byte l -> 0 <= byte_at l i < 256.
Proof.
  intros H. unfold byte_at. destruct (nthZ l i) as [x|] eqn:E; [|cbn; lia].
  unfold nthZ in E. destruct (0 <=? i); [|done].
  eapply Forall_lookup_1 in E; [|exact H]. exact E.
Qed.

Lemma byte_at_load m h n bs i x :
  load_range m h n = Some bs -> 0 <= i < n -> load m (h + i) = Some x -> byte_at bs i = x.
Proof. intros E Hi Hx. unfold byte_at. by rewrite <- (load_range_load m h n) , Hx. Qed.

(** What the parser says of a data packet that it reports. *)
Lemma reported_data m c p bsz mask :
  well_formed bsz mask p -> reported m c p -> is_data p = true ->
  exists data_ptr0, data_ptr (rxPkt c) = data_ptr0 /\
    DataHdr (hdr_id (rxPkt c)) (hdr_payloadSize (rxPkt c)) (pkt_offset (rxPkt c)) = fst (packet_set p) /\
    load_range m data_ptr0 (dh_size (fst (packet_set p))) = Some (snd (packet_set p)) /\
    0 <= dh_size (fst (packet_set p)) < 65536 /\ 0 <= dh_offset (fst (packet_set p)) < 65536 /\
    dh_size (fst (packet_set p)) = lenZ (snd (packet_set p)).
Proof.
  intros Hw (Hrx & Hk & Hld & Hpt) Hd. pose proof (well_formed_length _ _ _ Hw) as Hlen.
  destruct Hw as (Hb & Hframe & _).
  destruct (sp_fn p) eqn:Ef; try (unfold is_data in Hd; rewrite Hpt in Hd; done).
  assert (8 <= lenZ (sp_bytes p)) as Hlen8.
  { destruct Hframe as [_ (ps & body & _ & Hps & -> & _)]. apply (load16_range) in Hps; [lia|].
    done. }
  set (bs := sp_bytes p) in *. set (n := lenZ bs) in *. set (h := head (rxBuf c) - n) in *.
  destruct Hrx as (flags & id & Hfl & Hid & _ & Ei & _ & _ & Eds & Eps & Eptr & Eoff).
  assert (byte_at bs 2 = flags) as E2 by (eapply byte_at_load; [exact Hld|lia|done]).
  assert (byte_at bs 3 = id) as E3 by (eapply byte_at_load; [exact Hld|lia|done]).
  unfold packet_set. cbn zeta. fold bs. fold n. rewrite E2, E3. cbn [fst snd dh_size dh_offset].
  pose proof (byte_at_range bs 6 Hb). pose proof (byte_at_range bs 7 Hb).
  assert ((if has_offset flags then le16 (byte_at bs 6) (byte_at bs 7) else 0) = pkt_offset (rxPkt c)) as Eo.
  { destruct (has_offset flags); [|by symmetry]. unfold load16 in Eoff.
    apply bind_Some in Eoff as (lo & Hlo & Eoff). apply bind_Some in Eoff as (hi & Hhi & [= <-]).
    rewrite <- Z.add_assoc in Hhi.
    by rewrite (byte_at_load _ _ _ _ 6 lo Hld), (byte_at_load _ _ _ _ 7 hi Hld) by (done || lia). }
  rewrite Ei, Eps, Eo. eexists. split; [reflexivity|]. split; [done|]. split; [|split; [|split]].
  - rewrite Eptr, Eds. unfold isb_data_size. destruct (has_offset flags).
    + destruct (Z.eqb_spec (Z.max 0 (n - 8 - 2)) 0) as [->|]; [done|].
      rewrite <- Z.add_assoc. apply (load_range_sub m h n); (done || lia).
    + rewrite Z.add_0_r. destruct (Z.eqb_spec (n - 8) 0) as [->|]; [done|].
      apply (load_range_sub m h n); (done || lia).
  - unfold isb_data_size. destruct (has_offset flags); lia.
  - rewrite <- Eo. unfold le16. destruct (has_offset flags); lia.
  - rewrite lenZ_subZ. unfold isb_data_size. destruct (has_offset flags); lia.
Qed.

(** ** Saving *)

Section Env.
Context `{log_env}.

Fixpoint save_pieces (pieces : list (list Z)) (g : cLogStats) (d : disk) (r : cDeviceLogRaw)
    : option (disk * cDeviceLogRaw * cLogStats) :=
  match pieces with
  | [] => Some (d, r, g)
  | x :: pieces =>
    '(d, r, g, ok) ← SaveData x g d r;
    if ok : bool then save_pieces pieces g d r else None
  end.

(** The packets that are still to come, for the parser of a log. *)
Definition log_due (bsz mask : Z) (r : cDeviceLogRaw) (ps : list stream_packet) (more : list Z) : Prop :=
  due (m_commBuf r) (m_comm r) ps more /\ unfinished (m_comm r) ps /\
  buf_size (rxBuf (m_comm r)) = bsz /\ enabledMask (m_comm r) = mask /\ 3 <= bsz /\
  Forall (well_formed bsz mask) ps /\ Forall (fits bsz) ps.

(** One byte for the parser. *)
Lemma log_byte bsz mask r ps x more :
  log_due bsz mask r ps (x :: more) ->
  exists m t c ps', is_comm_parse_byte (m_commBuf r) (m_comm r) x = Some (m, t, c) /\
    log_due bsz mask (set_comm m c r) ps' more /\
    ((t = PTYPE_NONE /\ ps' = ps) \/
     (exists p, ps = p :: ps' /\ t = sp_type p /\ reported m c p /\ well_formed bsz mask p)).
Proof.
  intros (Hdue & Hun & <- & <- & Hsz & Hw & Hfit).
  destruct (due_byte _ _ _ _ _ Hdue Hun Hsz Hw Hfit)
    as (m & t & c & ps' & -> & Hdue' & Hun' & Esz & Emk & Hcase).
  exists m, t, c, ps'. split; [done|]. split.
  - unfold log_due. cbn [set_comm m_commBuf m_comm]. rewrite Esz, Emk.
    destruct Hcase as [[_ ->]|(p & -> & _)]; [by split_and!|].
    apply Forall_cons_iff in Hw as [_ Hw], Hfit as [_ Hfit]. by split_and!.
  - destruct Hcase as [?|(p & -> & Et & Hrep)]; [by left|]. right. exists p.
    apply Forall_cons_iff in Hw as [Hw _]. by split_and!.
Qed.

(** What the parser of a log works on. *)
Definition same_comm (r r' : cDeviceLogRaw) : Prop :=
  m_commBuf r' = m_commBuf r /\ m_comm r' = m_comm r /\ m_pData r' = m_pData r.

Lemma log_due_same bsz mask r r' ps more :
  same_comm r r' -> log_due bsz mask r ps more -> log_due bsz mask r' ps more.
Proof. unfold same_comm, log_due. intros (E1 & E2 & _). by rewrite E1, E2. Qed.

Section Saving.
Context (dir ts : string) (sn size bsz mask overhead : Z).
Context (Hoverhead : forall ls, sizeof_sChunkHeader + lenZ (Stats ls) <= overhead).
Abbreviation logged := (logged LogFileExtention dir ts sn false size).

Lemma save_timestamp_ok d r saved nf room i p :
  logged d (r_log r) saved nf room -> well_formed bsz mask p ->
  reported (m_commBuf r) (m_comm r) p ->
  exists r' timestamp, save_timestamp i (sp_type p) r = Some (r', timestamp) /\
    logged d (r_log r') saved nf room /\ same_comm r r'.
Proof.
  intros Hlog Hw Hrep. unfold save_timestamp. destruct (is_data p) eqn:Ed.
  - destruct (reported_data _ _ _ _ _ Hw Hrep Ed) as (ptr & Eptr & Ehdr & Eld & Hsz & Hoff & Elen).
    assert (exists s, record_dev_info (packet_hdr r) (packet_data r) (r_log r) = Some s /\
      logged d s saved nf room) as (s & Es & Hs).
    { unfold packet_hdr. rewrite Ehdr. eapply record_dev_info_logged; [exact Hlog|done|done|].
      unfold packet_data. rewrite Eptr. rewrite <- Ehdr in Eld at 1. cbn [dh_size] in Eld.
      rewrite Eld. cbn [default]. unfold id. lia. }
    rewrite Es. unfold is_data in Ed.
    destruct (sp_type p); try done; cbn zeta;
      (destruct (_ =? _); eexists _, _; split; [reflexivity|by split|reflexivity|by split]).
  - unfold is_data in Ed. destruct (sp_type p); try done; by eexists _, _.
Qed.

Lemma save_packet_ok d r saved nf room i p g :
  logged d (r_log r) saved nf room -> well_formed bsz mask p ->
  reported (m_commBuf r) (m_comm r) p ->
  exists r' g', save_packet i (sp_type p) r g = Some (r', g') /\
    logged d (r_log r') saved nf room /\ same_comm r r'.
Proof.
  intros Hlog Hw Hrep. unfold save_packet.
  destruct (save_timestamp_ok d r saved nf room i p Hlog Hw Hrep) as (r1 & timestamp & -> & Hlog1 & Hs1).
  cbn [mbind option_bind]. eexists _, _. split; [reflexivity|]. split; [|exact Hs1].
  eapply logged_log; [exact Hlog1|by apply logged_open in Hlog1 as []|done|done].
Qed.

Lemma save_loop_ok dataBuf : forall d r saved nf room i g ps more,
  logged d (r_log r) saved nf room -> log_due bsz mask r ps (dataBuf ++ more) ->
  exists r' g' ps', save_loop i dataBuf r g = Some (r', g') /\
    logged d (r_log r') saved nf room /\ log_due bsz mask r' ps' more.
Proof.
  induction dataBuf as [|x dataBuf IH]; intros d r saved nf room i g ps more Hlog Hdue.
  { by exists r, g, ps. }
  destruct (log_byte _ _ _ _ _ _ Hdue) as (m & t & c & ps' & E & Hdue' & Hcase).
  cbn [save_loop]. rewrite E. cbn [mbind option_bind].
  assert (exists r' g', (if decide (t = PTYPE_NONE) then Some (set_comm m c r, g)
    else save_packet i t (set_comm m c r) g) = Some (r', g') /\
    logged d (r_log r') saved nf room /\ same_comm (set_comm m c r) r') as (r1 & g1 & -> & Hlog1 & Hs1).
  { destruct (decide (t = PTYPE_NONE)) as [->|Hne]; [by exists (set_comm m c r), g|].
    destruct Hcase as [[-> _]|(p & -> & -> & Hrep & Hw)]; [done|].
    by apply save_packet_ok. }
  cbn [mbind option_bind]. eapply IH; [exact Hlog1|]. by eapply log_due_same.
Qed.

Lemma raw_SaveData_ok d r saved nf room x g ps more :
  logged d (r_log r) saved nf room -> log_due bsz mask r ps (x ++ more) ->
  nf < 9999 -> overhead <= room -> 0 < lenZ x <= size ->
  exists d' r' g' ps', SaveData x g d r = Some (d', r', g', true) /\
    logged d' (r_log r') (saved ++ [x]) (nf + 1) (room - overhead - lenZ x) /\
    log_due bsz mask r' ps' more.
Proof.
  intros Hlog Hdue Hnf Hroom Hx. unfold SaveData.
  destruct (save_loop_ok x d r saved nf room 0 g ps more Hlog Hdue) as (r1 & g1 & ps1 & -> & Hlog1 & Hdue1).
  cbn [mbind option_bind].
  destruct (save_logged LogFileExtention dir ts sn false size overhead Hoverhead d (r_log r1) saved nf room
    (lenZ x) x [] (fun l => set_logSize (u64 (m_logSize l + lenZ x)) l) Hlog1 Hnf Hroom Hx)
    as (d' & s' & c & E1 & E2 & Hlog'); [change (lenZ []) with 0; lia|done..|].
  rewrite E1. cbn [mbind option_bind negb cl_chunk]. change (lenZ []) with 0 in E2. rewrite E2.
  cbn [mbind option_bind]. rewrite (proj2 (Z.eqb_neq _ 0)) by lia. rewrite app_nil_r in Hlog'.
  eexists d', _, g1, ps1. split; [reflexivity|]. split; [exact Hlog'|exact Hdue1].
Qed.

(** The space on the disk that is enough for pieces of data. *)
Definition pieces_space (pieces : list (list Z)) : Z :=
  lenZ pieces * overhead + lenZ (concat pieces).

Lemma save_pieces_ok pieces : forall d r saved nf room g ps more,
  logged d (r_log r) saved nf room -> log_due bsz mask r ps (concat pieces ++ more) ->
  nf + lenZ pieces <= 9999 -> pieces_space pieces + overhead <= room ->
  Forall (fun x => 0 < lenZ x <= size) pieces ->
  exists d' r' g' ps', save_pieces pieces g d r = Some (d', r', g') /\
    logged d' (r_log r') (saved ++ pieces) (nf + lenZ pieces) (room - pieces_space pieces) /\
    log_due bsz mask r' ps' more.
Proof.
  induction pieces as [|x pieces IH]; intros d r saved nf room g ps more Hlog Hdue Hnf Hroom Hx.
  { exists d, r, g, ps. rewrite app_nil_r. split; [done|]. split; [|done].
    eapply logged_weaken; [exact Hlog|unfold lenZ; cbn; lia|unfold pieces_space, lenZ; cbn; lia]. }
  apply Forall_cons_iff in Hx as [Hx Hxs]. cbn [concat] in Hdue. rewrite <- app_assoc in Hdue.
  assert (lenZ (x :: pieces) = 1 + lenZ pieces) as El by (unfold lenZ; cbn; lia).
  pose proof (lenZ_nonneg pieces). pose proof (lenZ_nonneg (concat pieces)).
  unfold pieces_space in *. cbn [concat] in *. rewrite lenZ_app in *. rewrite El in *.
  pose proof (overhead_header overhead Hoverhead).
  assert (0 < sizeof_sChunkHeader) by done.
  destruct (raw_SaveData_ok d r saved nf room x g ps _ Hlog Hdue) as (d1 & r1 & g1 & ps1 & E & Hlog1 & Hdue1);
    [lia|nia|lia|].
  cbn [save_pieces]. rewrite E. cbn [mbind option_bind].
  destruct (IH d1 r1 _ _ _ g1 _ _ Hlog1 Hdue1) as (d' & r' & g' & ps' & -> & Hlog' & Hdue');
    [lia|nia|done|].
  exists d', r', g', ps'. split; [done|]. split; [|done]. rewrite <- app_assoc in Hlog'.
  eapply logged_weaken; [exact Hlog'|lia|nia].
Qed.
End Saving.

(** ** Reading *)

(** Data packets that [ReadData] can return: the data fits into the buffer, and it is not
    a part of a data set that begins behind its first byte. *)
Definition plain (len : Z) (p : stream_packet) : Prop :=
  is_data p = true -> dh_size (fst (packet_set p)) <= len /\
    (dh_offset (fst (packet_set p)) = 0 \/ dh_size (fst (packet_set p)) = 0).

Definition data_packets (ps : list stream_packet) : list stream_packet := List.filter is_data ps.

(** [b] is what [ReadData] returns for [p]. *)
Definition returned (b : p_data_buf_t) (p : stream_packet) : Prop :=
  db_hdr b = fst (packet_set p) /\ takeZ (dh_size (db_hdr b)) (db_buf b) = snd (packet_set p).

(** What parsing a chunk does not change. *)
Definition same_files (r r' : cDeviceLogRaw) : Prop :=
  m_fileNames (cl_log (r_log r')) = m_fileNames (cl_log (r_log r)) /\
  m_fileCount (cl_log (r_log r')) = m_fileCount (cl_log (r_log r)) /\
  m_pFile (cl_log (r_log r')) = m_pFile (cl_log (r_log r)) /\
  lenZ (m_buff (cl_chunk (r_log r'))) = lenZ (m_buff (cl_chunk (r_log r))) /\
  lenZ (db_buf (m_pData r')) = lenZ (db_buf (m_pData r)).

#[export] Instance same_files_preorder : PreOrder same_files.
Proof. unfold same_files. split; [done|intros ? ? ?; intuition congruence]. Qed.

Section Reading.
Context (bsz mask : Z).

Lemma read_packet_ok r p :
  well_formed bsz mask p -> reported (m_commBuf r) (m_comm r) p ->
  plain (lenZ (db_buf (m_pData r))) p ->
  exists r', read_packet (sp_type p) r = Some (r', is_data p) /\
    m_commBuf r' = m_commBuf r /\ m_comm r' = m_comm r /\ same_files r r' /\
    cl_chunk (r_log r') = cl_chunk (r_log r) /\ (is_data p = true -> returned (m_pData r') p).
Proof.
  intros Hw Hrep Hplain. destruct (is_data p) eqn:Ed.
  - destruct (reported_data _ _ _ _ _ Hw Hrep Ed) as (ptr & Eptr & Ehdr & Eld & Hsz & Hoff & Elen).
    destruct (Hplain Ed) as [Hfit H0].
    assert (exists buf, lenZ buf = lenZ (db_buf (m_pData r)) /\
      takeZ (dh_size (fst (packet_set p))) buf = snd (packet_set p) /\
      memcpy (db_buf (m_pData r)) 0 (snd (packet_set p)) (dh_size (fst (packet_set p))) = Some buf)
      as (buf & Eb & Et & Em).
    { rewrite memcpy_ok by lia. eexists. split; [|split; [|reflexivity]].
      - rewrite lenZ_updZ; [done|lia|autorewrite with lenZ; lia].
      - rewrite Elen in *. rewrite (takeZ_all _ (snd _)) by lia. list_ext. }
    assert (load_range (m_commBuf r) (ptr + dh_offset (fst (packet_set p)))
      (dh_size (fst (packet_set p))) = Some (snd (packet_set p))) as Eld'.
    { destruct H0 as [->| E0]; [by rewrite Z.add_0_r|]. rewrite E0 in *. exact Eld. }
    unfold read_packet, packet_hdr. rewrite Ehdr. cbn [update_log set_log m_comm m_commBuf m_pData].
    rewrite Eptr, Eld'. cbn [mbind option_bind]. rewrite Em. cbn [mbind option_bind].
    unfold is_data in Ed.
    destruct (sp_type p); try done; (eexists; split; [reflexivity|];
      split; [done|]; split; [done|]; split; [by split_and!|]; split; [done|]; by intros _).
  - unfold read_packet, is_data in *.
    destruct (sp_type p); try done; (eexists; split; [reflexivity|by split_and!]).
Qed.

Lemma read_data_loop_ok fuel : forall r ps more,
  chunk_wf (cl_chunk (r_log r)) -> log_due bsz mask r ps (chunk_data (cl_chunk (r_log r)) ++ more) ->
  Forall (plain (lenZ (db_buf (m_pData r)))) ps ->
  (length (chunk_data (cl_chunk (r_log r))) < fuel)%nat ->
  exists r' ps' res, read_data_loop fuel r = Some (r', res) /\ same_files r r' /\
    chunk_wf (cl_chunk (r_log r')) /\
    log_due bsz mask r' ps' (chunk_data (cl_chunk (r_log r')) ++ more) /\
    Forall (plain (lenZ (db_buf (m_pData r')))) ps' /\
    match res with
    | None => chunk_data (cl_chunk (r_log r')) = [] /\ data_packets ps' = data_packets ps
    | Some b => exists p, data_packets ps = p :: data_packets ps' /\ returned b p
    end.
Proof.
  induction fuel as [|fuel IH]; intros r ps more Hc Hdue Hpl Hfuel; [lia|]. cbn [read_data_loop].
  rewrite GetDataSize_ok, GetDataPtr_ok by done.
  destruct (chunk_data (cl_chunk (r_log r))) as [|x data] eqn:Ed.
  { exists r, ps, None. split; [done|]. split; [done|]. rewrite Ed. by split_and!. }
  rewrite (proj2 (Z.eqb_neq _ 0)) by (unfold lenZ; cbn; lia). rewrite decide_False by done.
  assert (load (Region 0 (m_buff (cl_chunk (r_log r)))) (m_dataHead (cl_chunk (r_log r))) = Some x) as Ex.
  { pose proof (buff_part _ [] [x] data Hc Ed) as E. change (lenZ []) with 0 in E.
    rewrite Z.add_0_r in E. rewrite <- (Z.add_0_r (m_dataHead _)).
    by rewrite (load_range_load _ _ _ _ 0 E). }
  rewrite Ex. cbn [mbind option_bind].
  destruct (PopFront_wf (cl_chunk (r_log r)) 1 Hc) as (c1 & -> & Hc1 & Dc1 & _ & Eb1 & _);
    [rewrite Ed; unfold lenZ; cbn; lia|]. cbn [fst].
  rewrite Ed in Dc1. change (dropZ 1 (x :: data)) with data in Dc1.
  cbn [app] in Hdue. destruct (log_byte _ _ _ _ _ _ Hdue) as (m & t & c & ps1 & E & Hdue1 & Hcase).
  cbn [set_log m_commBuf m_comm]. rewrite E. cbn [mbind option_bind].
  set (r1 := set_comm m c (set_log _ r)).
  assert (same_files r r1) as Hs1 by (unfold same_files; cbn; by rewrite Eb1).
  assert (log_due bsz mask r1 ps1 (data ++ more)) as Hdue1' by exact Hdue1.
  assert (Forall (plain (lenZ (db_buf (m_pData r1)))) ps1) as Hpl1.
  { destruct Hcase as [[_ ->]|(p & -> & _)]; [done|]. by apply Forall_cons_iff in Hpl as [_ Hpl]. }
  assert (exists r2 found, (if decide (t = PTYPE_NONE) then Some (r1, false) else read_packet t r1) =
      Some (r2, found) /\ same_files r r2 /\ m_commBuf r2 = m_commBuf r1 /\ m_comm r2 = m_comm r1 /\
      cl_chunk (r_log r2) = c1 /\
      if found : bool then exists p, data_packets ps = p :: data_packets ps1 /\ returned (m_pData r2) p
      else data_packets ps1 = data_packets ps) as (r2 & found & -> & Hs2 & Em2 & Ec2 & Ek2 & Hfound).
  { destruct (decide (t = PTYPE_NONE)) as [->|Hne].
    - exists r1, false. split_and!; try done. destruct Hcase as [[_ ->]|(p & _ & Et & [_ [_ [_ Hpt]]] & _)]; [done|].
      rewrite <- Et in Hpt. destruct (sp_fn p); cbn in Hpt; intuition discriminate.
    - destruct Hcase as [[-> _]|(p & -> & -> & Hrep & Hw)]; [done|].
      apply Forall_cons_iff in Hpl as [Hplp _].
      destruct (read_packet_ok r1 p Hw Hrep) as (r2 & -> & Em2 & Ec2 & Hs2 & Ek2 & Hret); [done|].
      exists r2, (is_data p). split; [done|]. split; [by etransitivity|]. split; [done|].
      split; [done|]. split; [done|]. unfold data_packets. cbn [List.filter].
      destruct (is_data p); [|done]. exists p. split; [done|]. by apply Hret. }
  cbn [mbind option_bind].
  assert (log_due bsz mask r2 ps1 (chunk_data (cl_chunk (r_log r2)) ++ more)) as Hdue2
    by (rewrite Ek2, Dc1; unfold log_due; rewrite Em2, Ec2; exact Hdue1').
  assert (Forall (plain (lenZ (db_buf (m_pData r2)))) ps1) as Hpl2
    by (destruct Hs2 as (_ & _ & _ & _ & ->); destruct Hs1 as (_ & _ & _ & _ & <-); exact Hpl1).
  destruct found.
  - exists r2, ps1, (Some (m_pData r2)). split; [done|]. split; [done|]. rewrite Ek2 in *.
    split; [apply Hc1|]. by split_and!.
  - destruct (IH r2 ps1 more) as (r' & ps' & res & Er & Hs' & Hc' & Hdue' & Hpl' & Hres);
      [rewrite Ek2; apply Hc1|done|done|rewrite Ek2, Dc1; cbn in Hfuel; lia|].
    exists r', ps', res. split; [exact Er|]. split; [by etransitivity|].
    split; [done|]. split; [done|]. split; [done|]. by rewrite Hfound in Hres.
Qed.

Lemma raw_ReadDataFromChunk_ok r ps more :
  chunk_wf (cl_chunk (r_log r)) -> log_due bsz mask r ps (chunk_data (cl_chunk (r_log r)) ++ more) ->
  Forall (plain (lenZ (db_buf (m_pData r)))) ps ->
  exists r' ps' res, ReadDataFromChunk r = Some (r', res) /\ same_files r r' /\
    chunk_wf (cl_chunk (r_log r')) /\
    log_due bsz mask r' ps' (chunk_data (cl_chunk (r_log r')) ++ more) /\
    Forall (plain (lenZ (db_buf (m_pData r')))) ps' /\
    match res with
    | None => chunk_data (cl_chunk (r_log r')) = [] /\ data_packets ps' = data_packets ps
    | Some b => exists p, data_packets ps = p :: data_packets ps' /\ returned b p
    end.
Proof.
  intros Hc Hdue Hpl. unfold ReadDataFromChunk. rewrite GetDataSize_ok by done.
  destruct (Z.leb_spec (lenZ (chunk_data (cl_chunk (r_log r)))) 0) as [H0|H0].
  - exists r, ps, None. split; [done|]. split; [done|]. split_and!; try done.
    apply lenZ_0_nil. pose proof (lenZ_nonneg (chunk_data (cl_chunk (r_log r)))). lia.
  - apply read_data_loop_ok; try done. unfold lenZ. lia.
Qed.

(** All bytes have been parsed: no packet is left. *)
Lemma log_due_end r ps : log_due bsz mask r ps [] -> ps = [].
Proof.
  intros ((Hok & Hp & _) & Hun & _ & _ & _ & Hw & _). destruct ps as [|p ps]; [done|].
  rewrite app_nil_r in Hp. cbn [unfinished] in Hun.
  rewrite <- lenZ_pending with (m := m_commBuf r), Hp in Hun by apply Hok.
  unfold stream in Hun. cbn [map concat] in Hun. rewrite lenZ_app in Hun.
  pose proof (lenZ_nonneg (concat (map sp_bytes ps))). lia.
Qed.

Lemma to_read_same size d r r' cur next :
  same_files r r' -> chunk_wf (cl_chunk (r_log r')) ->
  to_read false size d (r_log r) cur next -> to_read false size d (r_log r') cur next.
Proof.
  intros (E1 & E2 & E3 & E4 & _) Hc ((_ & Hb & Hsz) & _ & Hrest).
  split; [split; [apply Hc|split; [by rewrite E4|done]]|]. split; [done|].
  by rewrite E1, E2, E3.
Qed.

(** What is left in the chunk and in the files, and the packets that are in it. *)
Definition raw_left (size : Z) (d : disk) (r : cDeviceLogRaw) (ps : list stream_packet) (n : nat) : Prop :=
  exists cur next, to_read false size d (r_log r) cur next /\ length (cur ++ concat next) = n /\
    log_due bsz mask r ps (chunk_data (cl_chunk (r_log r)) ++ concat (cur ++ concat next)) /\
    Forall (plain (lenZ (db_buf (m_pData r)))) ps.

Lemma raw_read_loop_ok size d fuel : forall r ps n,
  raw_left size d r ps n -> (n < fuel)%nat ->
  exists r' ps' res n', read_loop fuel d r = Some (r', res) /\
    m_fileNames (cl_log (r_log r')) = m_fileNames (cl_log (r_log r)) /\
    raw_left size d r' ps' n' /\ (n' <= n)%nat /\
    match res with
    | None => data_packets ps = []
    | Some b => exists p, data_packets ps = p :: data_packets ps' /\ returned b p
    end.
Proof.
  induction fuel as [|fuel IH]; intros r ps n (cur & next & Hr & <- & Hdue & Hpl) Hfuel; [lia|].
  cbn [read_loop]. pose proof Hr as (_ & Hc & _).
  destruct (raw_ReadDataFromChunk_ok r ps _ Hc Hdue Hpl) as (r1 & ps1 & res & -> & Hs1 & Hc1 & Hdue1 & Hpl1 & Hres).
  cbn [mbind option_bind]. pose proof (to_read_same _ _ _ _ _ _ Hs1 Hc1 Hr) as Hr1.
  destruct Hs1 as (En1 & _). destruct res as [b|].
  { exists r1, ps1, (Some b), (length (cur ++ concat next)). split_and!; try done. by exists cur, next. }
  destruct Hres as [Ed1 Eps1]. rewrite Ed1 in Hdue1. cbn [app] in Hdue1.
  pose proof (ReadChunkFromFile_ok false size d (r_log r1) cur next Hr1 Ed1) as Hread.
  destruct (cur ++ concat next) as [|p pieces] eqn:Ep.
  - destruct Hread as (s & -> & Hr2 & Ed2 & En2). cbn [mbind option_bind negb concat] in *.
    pose proof (log_due_end _ _ Hdue1) as ->.
    exists (set_log s r1), [], None, 0%nat. split; [done|]. split; [by cbn; rewrite En2|].
    split; [|split; [lia|by rewrite <- Eps1]]. exists [], []. split; [done|]. split; [done|].
    split; [|done]. cbn [set_log r_log]. by rewrite Ed2.
  - destruct Hread as (s & cur2 & next2 & -> & Hr2 & Ep2 & Ed2 & En2). cbn [mbind option_bind negb].
    destruct (IH (set_log s r1) ps1 (length pieces)) as (r' & ps' & res & n' & -> & En' & Hl' & Hn' & Hres).
    + exists cur2, next2. split; [done|]. split; [by rewrite Ep2|]. split; [|done].
      cbn [set_log r_log]. rewrite Ed2, Ep2. exact Hdue1.
    + cbn in Hfuel. lia.
    + exists r', ps', res, n'. split; [done|]. split; [rewrite En'; cbn; by rewrite En2|].
      split; [done|]. split; [cbn; lia|]. by rewrite <- Eps1.
Qed.

(** What [ReadData] returns, and what is left. *)
Lemma raw_ReadData_ok size d r ps n :
  raw_left size d r ps n -> (n + 2 <= read_fuel d (cl_log (r_log r)))%nat ->
  exists r' ps' res n', ReadData d r = Some (r', res) /\ raw_left size d r' ps' n' /\
    (n' + 2 <= read_fuel d (cl_log (r_log r')))%nat /\
    match res with
    | None => data_packets ps = []
    | Some b => exists p, data_packets ps = p :: data_packets ps' /\ returned b p
    end.
Proof.
  intros Hl Hn. unfold ReadData.
  destruct (raw_read_loop_ok size d (read_fuel d (cl_log (r_log r))) r ps n Hl) as
    (r' & ps' & res & n' & E & En & Hl' & Hn' & Hres); [lia|].
  exists r', ps', res, n'. split; [done|]. split; [done|]. split; [|done].
  unfold read_fuel in *. rewrite En. lia.
Qed.
End Reading.

(** ** From the first call to the last *)

(** All data that [ReadData] returns, until it returns NULL. *)
Fixpoint read_packets (fuel : nat) (d : disk) (r : cDeviceLogRaw)
    : option (list (p_data_hdr_t * list Z)) :=
  match fuel with
  | O => None
  | S fuel =>
    '(r, data) ← ReadData d r;
    match data with
    | None => Some []
    | Some b =>
      sets ← read_packets fuel d r;
      Some ((db_hdr b, takeZ (dh_size (db_hdr b)) (db_buf b)) :: sets)
    end
  end.

Lemma read_packets_ok bsz mask size d k : forall r ps n,
  raw_left bsz mask size d r ps n -> (n + 2 <= read_fuel d (cl_log (r_log r)))%nat ->
  length (data_packets ps) = k ->
  read_packets (S k) d r = Some (map packet_set (data_packets ps)).
Proof.
  induction k as [|k IH]; intros r ps n Hl Hn Hk;
    destruct (raw_ReadData_ok bsz mask size d r ps n Hl Hn) as (r' & ps' & res & n' & E & Hl' & Hn' & Hres);
    cbn [read_packets]; rewrite E; cbn [mbind option_bind]; destruct res as [b|].
  - destruct Hres as (p & Ep & _). by rewrite Ep in Hk.
  - by rewrite Hres.
  - destruct Hres as (p & Ep & [E1 E2]). rewrite Ep in Hk |- *. injection Hk as Hk.
    cbn [read_packets] in IH. rewrite (IH r' ps' n' Hl' Hn' Hk). cbn [mbind option_bind map].
    by rewrite E2, E1, <- surjective_pairing.
  - by rewrite Hres in Hk.
Qed.

(** A log of a serial number that is ready for writing. *)
Definition raw_writer (dir ts : string) (sn maxDiskSpace maxFileSize : Z) (hdr0 : sChunkHeader)
    (buff : list Z) (commBuf : region) (pData : p_data_buf_t) : option cDeviceLogRaw :=
  r ← constructor (new_log None 0 sn 0 0) (DataChunk.constructor hdr0 buff) commBuf pData;
  Some (InitDeviceForWriting ts dir maxDiskSpace maxFileSize r).

(** A log that is set up for reading files. *)
Definition raw_reader (dir ts : string) (sn : Z) (names : list string) (hdr0 : sChunkHeader)
    (buff : list Z) (commBuf : region) (pData : p_data_buf_t) : option cDeviceLogRaw :=
  r ← constructor (new_log None 0 sn 0 0) (DataChunk.constructor hdr0 buff) commBuf pData;
  Some (update_log (fun l => InitDeviceForReading (SetupReadInfo dir ts names l)) (SetSerialNumber sn r)).

(** The buffer of the parser. *)
Definition comm_memory (bsz : Z) (m : region) : Prop :=
  0 < base m /\ lenZ (cells m) = bsz.

Lemma constructor_ok l c commBuf pData bsz ps more :
  comm_memory bsz commBuf -> 3 <= bsz < 2147483648 -> more = stream ps ->
  Forall (well_formed bsz default_mask) ps -> Forall (fits bsz) ps ->
  exists m c0, constructor l c commBuf pData = Some (DeviceLogRaw (ChunkLog l c) m c0 pData) /\
    forall r, m_commBuf r = m -> m_comm r = c0 -> log_due bsz default_mask r ps more.
Proof.
  intros [Hb Hl] Hsz -> Hw Hfit. unfold constructor. rewrite Hl.
  destruct (is_comm_init_ok commBuf (base commBuf) bsz) as (m & c0 & E & Hok & Hp & Esz & _);
    [done|done|lia|lia|].
  rewrite E. cbn [mbind option_bind]. exists m, c0. split; [done|]. unfold log_due. intros r -> ->.
  assert (processPkt c0 = None /\ scan (rxBuf c0) = head (rxBuf c0) /\ enabledMask c0 = default_mask)
    as (Ei & Es & Emk) by (apply bind_Some in E as (? & _ & [= _ <-]); done).
  rewrite Esz, Emk. split; [|split; [|split_and!; (done || lia)]].
  - apply due_idle; [done|by rewrite Hp|done|done].
  - destruct ps as [|p ps]; [done|]. apply Forall_cons_iff in Hw as [Hw _].
    pose proof (well_formed_length _ _ _ Hw). cbn [unfinished].
    rewrite <- lenZ_pending with (m := m), Hp by apply Hok. change (lenZ []) with 0. lia.
Qed.

Lemma raw_writer_logged dir ts sn maxDisk maxFile hdr0 buff m c0 pData d :
  dir <> ""%string -> 0 < sn < 4294967296 -> header_ok hdr0 -> 0 < lenZ buff < 1073741824 ->
  logged LogFileExtention dir ts sn false (lenZ buff) d
    (r_log (InitDeviceForWriting ts dir maxDisk maxFile
      (DeviceLogRaw (ChunkLog (new_log None 0 sn 0 0) (DataChunk.constructor hdr0 buff)) m c0 pData)))
    [] 0 (disk_space d).
Proof.
  intros Hdir Hsn Hh Hb. set (s := r_log _).
  destruct (constructor_Clear hdr0 buff Hh Hb) as (Hc & Hm & El & E0 & Ed).
  assert (chunk_ok (cl_chunk s)) as Hc'.
  { by apply chunk_ok_header. }
  rewrite <- El. apply (logged_start _ _ _ _ _ _ s); try done.
  unfold log_open. cbn. split_and!; try done. lia.
Qed.

Lemma concat_map_concat {A} (l : list (list (list A))) : concat (map (@concat A) l) = concat (concat l).
Proof. induction l as [|x l IH]; [done|]. cbn. by rewrite IH, concat_app. Qed.

Lemma raw_reader_left dir ts sn hdr0 buff m c pData names d ps next bsz :
  let r := update_log (fun l => InitDeviceForReading (SetupReadInfo dir ts names l))
    (SetSerialNumber sn (DeviceLogRaw (ChunkLog (new_log None 0 sn 0 0)
      (DataChunk.constructor hdr0 buff)) m c pData)) in
  0 < sn < 4294967296 -> header_ok hdr0 -> 0 < lenZ buff < 1073741824 -> lenZ names < 4294967296 ->
  Forall2 (fun name ps => exists bytes, disk_files d !! name = Some bytes /\
    pieces false (lenZ buff) bytes ps) names next ->
  log_due bsz default_mask r ps (concat (concat next)) ->
  Forall (plain (lenZ (db_buf pData))) ps ->
  raw_left bsz default_mask (lenZ buff) d r ps (length (concat next)) /\
  (length (concat next) + 2 <= read_fuel d (cl_log (r_log r)))%nat.
Proof.
  intros r Hsn Hh Hb Hlen Hn Hdue Hpl.
  destruct (constructor_wf hdr0 buff Hh Hb) as ((Hh' & Hrest) & El & Ed).
  assert (chunk_wf (cl_chunk (r_log r))) as Hc.
  { split; [|exact Hrest]. apply header_ok_devSerialNum; [done|unfold word32; cbn; lia]. }
  split.
  - exists [], next. split; [|by split_and!].
    apply to_read_start; try done. split; [apply Hc|by split].
  - apply (read_fuel_ok false (lenZ buff)). exact Hn.
Qed.

(** C17: A stream of well-formed packets saved to a raw log (of a nonzero serial number,
    with chunks below 2^30 bytes) in fewer than 9998 pieces that each fit into a chunk, on a
    disk with enough space, comes back, over chunks and files, as the header and data of
    each data and command packet in order, then NULL. The packets must fit into the part of
    the receive buffer that is kept when it is full, and the data of a data packet into
    m_pData, at the offset zero of its data set (or be empty). *)
Theorem raw_log_roundtrip dir ts sn maxDisk maxFile hdr0 hdr1 buff buff1 mem mem1 bsz pData pData1
    g d pieces ps overhead :
  (forall ls, sizeof_sChunkHeader + lenZ (Stats ls) <= overhead) ->
  dir <> ""%string -> 0 < sn < 4294967296 -> header_ok hdr0 -> header_ok hdr1 ->
  0 < lenZ buff < 1073741824 -> lenZ buff1 = lenZ buff ->
  comm_memory bsz mem -> comm_memory bsz mem1 -> 3 <= bsz < 2147483648 ->
  concat pieces = stream ps ->
  Forall (fun x => 0 < lenZ x <= lenZ buff) pieces -> lenZ pieces < 9998 ->
  Forall (well_formed bsz default_mask) ps -> Forall (fits bsz) ps ->
  Forall (plain (lenZ (db_buf pData1))) ps ->
  pieces_space overhead pieces + 2 * overhead <= disk_space d ->
  exists r0 d1 r1 g1 d2 r2 q,
    raw_writer dir ts sn maxDisk maxFile hdr0 buff mem pData = Some r0 /\
    save_pieces pieces g d r0 = Some (d1, r1, g1) /\
    CloseAllFiles d1 r1 = Some (d2, r2) /\
    raw_reader dir ts sn
      (log_names LogFileExtention dir ts sn (Z.to_nat (m_fileCount (cl_log (r_log r2)))))
      hdr1 buff1 mem1 pData1 = Some q /\
    read_packets (S (length (data_packets ps))) d2 q = Some (map packet_set (data_packets ps)).
Proof.
  intros Hov Hdir Hsn Hh0 Hh1 Hb Hb1 Hm Hm1 Hsz Est Hx Hn Hw Hfit Hpl Hsp.
  pose proof (lenZ_nonneg pieces). pose proof (overhead_header overhead Hov).
  unfold raw_writer, raw_reader. set (l0 := new_log None 0 sn 0 0).
  destruct (constructor_ok l0 (DataChunk.constructor hdr0 buff) mem pData bsz ps _ Hm Hsz Est Hw Hfit)
    as (m0 & c0 & -> & Hdue0).
  cbn [mbind option_bind]. set (r0 := InitDeviceForWriting _ _ _ _ _).
  assert (logged LogFileExtention dir ts sn false (lenZ buff) d (r_log r0) [] 0 (disk_space d)) as Hlog0
    by by apply raw_writer_logged.
  rewrite <- (app_nil_r (concat pieces)) in Hdue0.
  destruct (save_pieces_ok dir ts sn (lenZ buff) bsz default_mask overhead Hov pieces d r0 _ _ _ g ps [] Hlog0)
    as (d1 & r1 & g1 & ps1 & E1 & Hlog1 & _); [by apply Hdue0|lia|unfold sizeof_sChunkHeader in *; lia|done|].
  destruct (CloseAllChunkFiles_logged _ _ _ _ _ _ _ Hov _ _ _ _ _ Hlog1) as (d2 & s2 & E2 & Ed2 & Hlog2);
    [lia|unfold sizeof_sChunkHeader in *; lia|].
  destruct (logged_files _ _ _ _ _ _ _ _ _ _ _ Hlog2 Ed2) as (files & dn & Hf & Ea & Es & Ec & Hnf).
  { eapply Forall_impl; [|exact Hx]. intros x Hx0 ->. change (lenZ []) with 0 in Hx0. lia. }
  destruct (constructor_ok l0 (DataChunk.constructor hdr1 buff1) mem1 pData1 bsz ps _ Hm1 Hsz Est Hw Hfit)
    as (m1 & c1 & -> & Hdue1).
  apply files_on_bytes in Hf as (next & Hnext & Econcat); [|lia].
  eexists r0, d1, r1, g1, d2, (set_log s2 r1), _. split; [done|]. split; [done|]. split.
  { unfold CloseAllFiles. by rewrite E2. }
  split; [reflexivity|]. cbn [set_log r_log]. rewrite Ec.
  replace (Z.to_nat (lenZ files)) with (length files) by (unfold lenZ; lia).
  assert (concat (concat next) = concat pieces) as Enext
    by by rewrite Econcat, Ea, concat_map_concat, Es.
  assert (lenZ (log_names LogFileExtention dir ts sn (length files)) < 4294967296) as Hnames
    by (unfold log_names, lenZ in *; rewrite length_map, length_seq; lia).
  rewrite <- Hb1 in Hnext, Hb.
  edestruct (raw_reader_left dir ts sn hdr1 buff1 m1 c1 pData1) as [Hl Hf];
    [done|done|done|exact Hnames|exact Hnext| |exact Hpl|].
  { rewrite Enext. by apply Hdue1. }
  by eapply read_packets_ok; [exact Hl|exact Hf|].
Qed.
End Env.
