(* ===== verification/DeviceLogExamples.v ===== *)
(** * Logs at concrete inputs

    The round trips of both kinds of logs with small chunks and files, and behaviour of the
    logs that one would not expect. *)

From stdpp Require Import gmap strings relations.
From S2P Require Import Prelude CommTypes CommRx CommTx CommTxProps CommFrames CommParse CommReads CommExamples.
From S2P Require Import Layouts LogFile LogStats DataChunk DeviceLog DeviceLogRaw DeviceLogSerial.
From S2P Require Import DataChunkProps DeviceLogProps DeviceLogSerialProps DeviceLogRawProps.
#[local] Open Scope list_scope.
#[local] Open Scope Z_scope.

(** A clock that stands still. *)
#[global] Instance demo_log_env : log_env :=
  {| TimestampOrCurrentTime _ _ _ := double_of_Z 1; Timestamp _ _ := double_of_Z 1;
     current_timeSecD _ := double_of_Z 1; Stats ls := [48 + LogStats.Count ls; 10] |}.

(** What the memory of a header held before. *)
Definition demo_header : sChunkHeader :=
  ChunkHeader 0 0 0 [0; 0] [0; 0; 0; 0] [0; 0; 0; 0] 0 0 0 0 7 [0; 0; 0; 0].

Lemma demo_header_ok : header_ok demo_header.
Proof. unfold header_ok, word32. by split_and!. Qed.

Definition demo_disk : disk := Disk ∅ 2000.

(** ** Chunks *)

Definition demo_chunk : cDataChunk := Clear (DataChunk.constructor demo_header (repeat 0 16)).

Lemma demo_chunk_ok : chunk_ok demo_chunk.
Proof. by destruct (constructor_Clear demo_header (repeat 0 16) demo_header_ok) as [H _]. Qed.

Lemma chunk_invariant_witness :
  exists c, rtc chunk_step demo_chunk c /\
    0 <= m_dataHead c <= m_dataTail c /\ m_dataTail c <= lenZ (m_buff c) /\
    ch_dataSize (m_hdr c) = m_dataTail c - m_dataHead c /\
    ch_invDataSize (m_hdr c) = inv32 (m_dataTail c - m_dataHead c).
Proof.
  destruct (PushBack [1; 2; 3] 3 [4; 5] 2 demo_chunk) as [[c n]|] eqn:E; [|discriminate E].
  assert (rtc chunk_step demo_chunk (fst (PopFront 2 c))) as H.
  { eapply rtc_l; [exact (step_push _ [1; 2; 3] [4; 5] _ _ E)|].
    apply rtc_once, step_pop. lia. }
  exists (fst (PopFront 2 c)). split; [exact H|].
  apply (chunk_invariant demo_header (repeat 0 16) _ demo_header_ok); [done|exact H].
Defined.

(** A chunk with five bytes, behind two bytes that are in the file already. *)
Definition demo_full : cDataChunk :=
  match PushBack [1; 2; 3] 3 [4; 5] 2 demo_chunk with Some (c, _) => c | None => demo_chunk end.
Definition demo_stream : cISLogFile := LogFile (Some (File "a" WB 2 false)).
Definition demo_reader_stream : cISLogFile := LogFile (Some (File "a" RB 2 false)).
Definition demo_file_disk : disk := Disk {["a" := [8; 9]]} 100.

Lemma demo_full_ok : chunk_ok demo_full.
Proof.
  apply (chunk_step_ok demo_chunk); [|exact demo_chunk_ok].
  by apply (step_push demo_chunk [1; 2; 3] [4; 5] _ 5).
Qed.

Lemma chunk_file_roundtrip_witness :
  exists d' f' c', WriteToFile (Some demo_stream) 0 true demo_file_disk demo_full =
      Some (d', f', c', 45) /\
    exists g' c1', ReadFromFile (Some demo_reader_stream) true d' demo_chunk = Some (Some g', c1', 45) /\
      chunk_data c1' = [1; 2; 3; 4; 5].
Proof.
  destruct (chunk_file_roundtrip demo_full demo_chunk demo_file_disk demo_stream "a" [8; 9]
    demo_reader_stream) as (d' & f' & c' & E & _ & Hread).
  - exact demo_full_ok.
  - reflexivity.
  - by split.
  - vm_compute. discriminate.
  - apply demo_chunk_ok.
  - reflexivity.
  - destruct (Hread eq_refl) as (g' & c1' & E' & Ed & _).
    exists d', f', c'. split; [exact E|]. exists g', c1'. split; [exact E'|exact Ed].
Defined.

(** ** A serial log *)

Definition demo_sets : list (data_set * protocol_type_t) :=
  [(DataHdr 5 3 0, [1; 2; 3], PTYPE_INERTIAL_SENSE_DATA);
   (DataHdr 1 4 16, [9; 0; 0; 0], PTYPE_INERTIAL_SENSE_DATA);
   (DataHdr 7 0 0, [], PTYPE_INERTIAL_SENSE_DATA);
   (DataHdr 5 3 2, [4; 5; 6], PTYPE_INERTIAL_SENSE_DATA)].

Lemma serial_log_roundtrip_witness :
  exists d1 s1 d2 s2,
    save_sets demo_sets demo_disk (writer "logs" "20240101_000000" 7 0 50 demo_header (repeat 0 18)) = Some (d1, s1) /\
    DeviceLogSerial.CloseAllFiles d1 s1 = Some (d2, s2) /\
    read_sets 5 d2 (reader "logs" "20240101_000000" 7
      (log_names DeviceLogSerial.LogFileExtention "logs" "20240101_000000" 7 (Z.to_nat (m_fileCount (cl_log s2))))
      demo_header (repeat 1 18)) = Some (map fst demo_sets).
Proof.
  apply (serial_log_roundtrip "logs" "20240101_000000" 7 0 50 demo_header demo_header (repeat 0 18) (repeat 1 18)
    demo_disk demo_sets 42); try exact demo_header_ok; try (vm_compute; done).
  - unfold good_set, good_hdr. decided.
Defined.

(** The data sets are in two files with a chunk each. *)
Example demo_serial_files :
  ('(d, s) ← save_sets demo_sets demo_disk (writer "logs" "t" 7 0 50 demo_header (repeat 0 18));
   '(d, s) ← DeviceLogSerial.CloseAllFiles d s;
   Some (m_fileCount (cl_log s),
         map (fun name => lenZ (file_content d name))
           (log_names DeviceLogSerial.LogFileExtention "logs" "t" 7 2))) = Some (2, [57; 53]).
Proof. vm_compute. reflexivity. Qed.

(** ** A raw log *)

(** The packets of the protocols that a parser accepts from the start. *)
Definition demo_log_packets : list stream_packet := take 4 demo_stream_packets.

Lemma well_formed_mask bsz mask mask' p :
  Z.land mask' (enable_bit (sp_fn p)) <> 0 -> well_formed bsz mask p -> well_formed bsz mask' p.
Proof. intros Hm (? & ? & ? & ? & _). by split_and!. Qed.

Lemma demo_log_well_formed : Forall (well_formed 32 default_mask) demo_log_packets.
Proof.
  assert (Forall (fun p => Z.land default_mask (enable_bit (sp_fn p)) <> 0) demo_log_packets) as Hm
    by decided.
  assert (Forall (well_formed 32 63) demo_log_packets) as Hw
    by (apply Forall_take, demo_well_formed).
  apply Forall_forall. intros p Hp. rewrite Forall_forall in Hm, Hw.
  eapply well_formed_mask; [by apply Hm|by apply Hw].
Qed.

(** The stream as it arrives: seven bytes at a time, in chunks of sixteen bytes. *)
Fixpoint cut (fuel : nat) (l : list Z) : list (list Z) :=
  match fuel with
  | O => []
  | S fuel => if decide (l = []) then [] else take 7 l :: cut fuel (drop 7 l)
  end.
Definition demo_pieces : list (list Z) := cut 10 (stream demo_log_packets).

Lemma raw_log_roundtrip_witness :
  exists r0 d1 r1 g1 d2 r2 q,
    raw_writer "logs" "t" 7 0 30 demo_header (repeat 0 16) (Region 100 (repeat 0 32)) (DataBuf (DataHdr 0 0 0) []) = Some r0 /\
    save_pieces demo_pieces ∅ demo_disk r0 = Some (d1, r1, g1) /\
    DeviceLogRaw.CloseAllFiles d1 r1 = Some (d2, r2) /\
    raw_reader "logs" "t" 7
      (log_names DeviceLogRaw.LogFileExtention "logs" "t" 7 (Z.to_nat (m_fileCount (cl_log (r_log r2)))))
      demo_header (repeat 0 16) (Region 500 (repeat 0 32)) (DataBuf (DataHdr 0 0 0) (repeat 0 8)) = Some q /\
    read_packets 2 d2 q = Some [(DataHdr 5 3 0, [1; 2; 3])].
Proof.
  apply (raw_log_roundtrip "logs" "t" 7 0 30 demo_header demo_header (repeat 0 16) (repeat 0 16)
    (Region 100 (repeat 0 32)) (Region 500 (repeat 0 32)) 32 (DataBuf (DataHdr 0 0 0) [])
    (DataBuf (DataHdr 0 0 0) (repeat 0 8)) ∅ demo_disk demo_pieces demo_log_packets 42);
    try exact demo_header_ok; try exact demo_log_well_formed; try (vm_compute; done).
  - decided.
  - unfold fits. decided.
  - unfold plain. decided.
Defined.

(** ** What one would not expect *)

(** Saves pieces of a stream and reads the packets back. *)
Definition demo_raw_log (fuel : nat) (len : Z) (pieces : list (list Z))
    : option (list (p_data_hdr_t * list Z)) :=
  r ← raw_writer "logs" "t" 7 0 30 demo_header (repeat 0 64) (Region 100 (repeat 0 64)) (DataBuf (DataHdr 0 0 0) []);
  '(d, r, _) ← save_pieces pieces ∅ demo_disk r;
  '(d, r) ← DeviceLogRaw.CloseAllFiles d r;
  q ← raw_reader "logs" "t" 7
    (log_names DeviceLogRaw.LogFileExtention "logs" "t" 7 (Z.to_nat (m_fileCount (cl_log (r_log r)))))
    demo_header (repeat 0 64) (Region 500 (repeat 0 64)) (DataBuf (DataHdr 0 0 0) (repeat 0 (Z.to_nat len)));
  read_packets fuel d q.

(** A packet with a part of a data set from offset 2 on: the offset is added to the
    pointer to the data once more, so that the last bytes are those behind the data. *)
Example raw_log_offset_misread :
  demo_raw_log 2 8 [isb_wire PKT_TYPE_DATA 5 0 [1; 2; 3; 4]] = Some [(DataHdr 5 4 0, [1; 2; 3; 4])] /\
  demo_raw_log 2 8 [isb_wire PKT_TYPE_DATA 5 2 [1; 2; 3; 4]] <> Some [(DataHdr 5 4 2, [1; 2; 3; 4])] /\
  (sets ← demo_raw_log 2 8 [isb_wire PKT_TYPE_DATA 5 2 [1; 2; 3; 4]]; Some (map (fun x => take 2 (snd x)) sets))
    = Some [[3; 4]].
Proof. vm_compute. split_and!; congruence. Qed.

(** A command packet that carries more bytes than [m_pData] has is copied beyond its end;
    the parser limits the size of data packets only. *)
Example raw_log_command_overflow :
  demo_raw_log 2 8 [isb_wire PKT_TYPE_STOP_BROADCASTS_ALL_PORTS 0 0 (repeat 1 9)] = None /\
  demo_raw_log 2 8 [isb_wire PKT_TYPE_STOP_BROADCASTS_ALL_PORTS 0 0 (repeat 1 8)] =
    Some [(DataHdr 0 8 0, repeat 1 8)].
Proof. vm_compute. done. Qed.

(** The size in the header of a file is not checked against the buffer. *)
Example chunk_read_overflow :
  let h := hdr_set_invDataSize (inv32 17) (hdr_set_dataSize 17 (m_hdr demo_chunk)) in
  let d := Disk {["a" := header_bytes h ++ repeat 1 17]} 0 in
  ReadFromFile (Some (LogFile (Some (File "a" RB 0 false)))) true d demo_chunk = None.
Proof. vm_compute. done. Qed.

(** The constructor gives a chunk without data the data size 34, and that many bytes of
    the buffer are written. *)
Example constructor_data_size :
  let c := DataChunk.constructor demo_header (repeat 7 64) in
  chunk_data c = [] /\
  (x ← WriteToFile (Some (LogFile (Some (File "a" WB 0 false)))) 0 false demo_disk c; Some (snd x)) = Some 34.
Proof. vm_compute. done. Qed.

(** [Clear] of the statistics keeps the counts of identifiers from [DID_COUNT] on, which
    the messages of other protocols have. *)
Example clear_keeps_counts :
  let ls := LogStats.LogData PTYPE_UBLOX 1281 dzero ∅ in
  st_count (LogStats.stats_at (LogStats.msgs_at (LogStats.Clear ls) PTYPE_UBLOX) 1281) = 1 /\
  LogStats.Count (LogStats.Clear ls) = 0.
Proof. vm_compute. done. Qed.

(** After ten thousand files the names are used again. *)
Lemma log_names_repeat ext dir ts sn k :
  log_name ext dir ts sn (k + 10000) = log_name ext dir ts sn k.
Proof. unfold log_name. by assert ((k + 10000) mod 10000 = k mod 10000) as -> by zlia. Qed.
